(* ===== verification/_CoqProject ===== *)
-Q . S2P
Prelude.v
Text.v
Platform.v
PlAccess.v
Journal.v
I2cDevices.v
ConfigValidate.v
JsonReader.v
JsonGrammar.v
JsonObjects.v
ProfileCodec.v
ProfileText.v
ProfileFormat.v
ProfileMembers.v
ProfileRoundTrip.v
ProfileSafety.v
ProfileConfigs.v
LegacyCodec.v
LegacyRoundTrip.v
LineEditor.v
LineEditorSafety.v
LineEditorDisplay.v
I2cPolicy.v
I2cCache.v
I2cMasterService.v
I2cMasterHw.v
I2cSlaveHw.v
I2cSlaveService.v
MdioCore.v
MdioService.v
MdioRules.v
MdioServiceSafety.v
SpiCore.v
Dcp2Codec.v
PlService.v
ControlApi.v
Dcp2Control.v
Dcp2ControlSafety.v
CacheRegistry.v
CacheSync.v
Dcp2Cache.v
Dcp2CacheBytes.v
Dcp2CacheFetch.v
Dcp2CacheEvents.v
SdVolume.v
SdMaster.v
SdCrc.v
SdMasterSafety.v
SdService.v
SdServiceSafety.v
FsPath.v
FsReader.v
FsStream.v
FsReaderSafety.v
FsTransfer.v
Dcp2Fs.v
Dcp2FsSafety.v
SdController.v
SdControllerSafety.v
SdInit.v
SdInitSafety.v
HttpInput.v
HttpGrammar.v
FatFs.v
FatFsMem.v
ConfigFiles.v
ConfigFilesSafety.v
ConfigNetwork.v
ConfigStore.v
ConfigStoreSafety.v
ConfigStoreSaves.v
ConfigStart.v
