(* ===== verification/Prelude.v ===== *)
(** * BVSTK: verification of the portable core

    BVSTK runs the control and diagnostics of a board: I2C, MDIO, SPI and SD
    blocks in programmable logic (PL), services that put policies and caches in
    front of them, and protocols (DCP2, HTTP, consoles) that offer them to a host.
    The C code under src/src is split into drivers (drivers/pl), services
    (services), shared components (shared), protocols (protocols), ports to two
    operating systems (ports) and applications (apps).  This library models the
    portable part - everything below the applications that decides what happens
    on a bus, in a cache, in a file or in a protocol frame - and proves what it is
    supposed to guarantee.

    ** How the code is represented

    - A C unsigned integer is a [Z]; a store into one is wrapped ([u8] .. [u64]).
      An array is a list with indices in [Z] ([a.[i]], [a.[i <- v]]); a read
      outside it gives an arbitrary value that no theorem relies on.
    - An enumeration the code switches over is an inductive type; one it compares
      as a number, or takes unchecked from a caller, stays a number.
    - A pointer that may be NULL is an [option], or a [bool] where only the test
      matters; an output parameter is a further result.
    - A state-changing function is a state transformer [ST S A]; [runs m s Q]
      says that [m] run from [s] ends with a result and a state in [Q].  A table
      of callbacks is a record of optional transformers of an unspecified world
      [X]; the services of the platform are the class [Platform X] (Platform.v).
    - A bounded loop is a [Fixpoint] over its exact number of rounds.  A polling
      loop takes fuel and returns [None] when it runs out; for each there is a
      theorem that fuel above the timeout in milliseconds is enough, because
      every round of the code sleeps a millisecond or takes longer.  The laws of
      the clock these proofs use are the class [Traced] (PlAccess.v).

    ** The files

    Foundations.  [Prelude]: integers, arrays, C strings, loops, state passing,
    reachability.  [Text]: character lists and numbers as text.  [Platform]: status codes (shared/base), events
    (shared/events/bvstk_event.h), clock, mutex, cache sink (shared/interfaces)
    and the MMIO accessors of the FreeRTOS port.  [PlAccess]: checked register
    access, packing of bytes into words, and the log of bus accesses against which
    the drivers are specified.  [Journal]: shared/events/bvstk_journal.c.

    I2C.  [I2cDevices], [I2cPolicy], [I2cCache]: the tables of services/i2c.
    [I2cMasterService]: policy-checked writes, reads, configuration, over the
    store the tables share.  [I2cSlaveService]: the register protocol towards an
    external host.  [I2cMasterHw], [I2cSlaveHw]: drivers/pl/i2c.

    MDIO.  [MdioCore]: drivers/pl/mdio.  [MdioService]: services/mdio, over any
    bus with the driver's interface.  [MdioRules], [MdioServiceSafety]: its
    theorems.

    SPI.  [SpiCore]: drivers/pl/spi.

    SD.  [SdMaster], [SdCrc], [SdMasterSafety]: the DMA driver
    (drivers/pl/sd/bvstk_sd_master.c) with its callbacks in the FreeRTOS port
    (storage/sd-pl/bvstk_sd_master_freertos.c), its checksum and its command
    protocol.
    [SdService], [SdServiceSafety]: services/sd/bvstk_sd_service.c.  [SdVolume]:
    services/sd/bvstk_sd_volume.c.  [SdController], [SdControllerSafety]: the FIFO
    driver (drivers/pl/sd/bvstk_sd_controller.c).  [SdInit], [SdInitSafety]: the
    start-up sequencer (drivers/pl/sd/bvstk_sd_init.c).

    Files (services/fs).  [FsPath]: the paths a host may name, and UTF-8.
    [FsReader]: bvstk_fs_reader.c, which turns a file or a tree into a stream of
    blocks; [FsStream]: what the stream is; [FsReaderSafety], [FsTransfer]: that
    the reader delivers it.  [Dcp2Fs], [Dcp2FsSafety]: the DCP2 requests over it.

    Configuration (shared/config).  [ConfigValidate]: the checks every device
    profile passes.  [JsonReader]: the JSON reader of bvstk_device_profile.c,
    [JsonGrammar] and [JsonObjects]: the grammar it decides.  [ProfileCodec]: the
    strict parser and the writer of profiles; [ProfileText], [ProfileFormat],
    [ProfileMembers], [ProfileRoundTrip], [ProfileSafety]: the text a run of the
    writer leaves, and what the parser makes of it; [ProfileConfigs]: the round
    trips of I2C and MDIO configurations.  [LegacyCodec], [LegacyRoundTrip]: the
    older JSON layouts, the version gate, and the round trip of the MDIO one;
    shared/base/bvstk_parse.c.

    Stored configurations (apps/freertos/config/config_store.c).  [FatFs]: the
    calls of the file system as a class, and the laws they obey; [FatFsMem]: a
    file system in memory that obeys them.  [ConfigFiles]: reading, replacing and
    recovering files; [ConfigFilesSafety]: what a power cut leaves of them.
    [ConfigNetwork]: the network settings.  [ConfigStore]: which files are
    profiles, the copies of older layouts, the defaults, the start-up task, the
    tables and the saves; [ConfigStoreSafety]: what the MDIO table holds after a
    start; [ConfigStoreSaves]: what a save writes, and when it is loaded again;
    [ConfigStart]: the start as a whole, and histories of saves and starts.

    Command line (shared/cli).  [LineEditor]: the line editor of the consoles and
    the escape sequences it sends; [LineEditorSafety], [LineEditorDisplay]: the
    document and the keys it implements, the terminal in front of it, and their
    theorems.

    Caches and protocols.  [CacheRegistry], [CacheSync]: services/cache, the
    catalogue of cached registers and its change journal.  [PlService]: the PL
    windows (shared/pl, hardware/boards).  [ControlApi]: services/control, the
    facade through which protocols reach the services.  [Dcp2Codec],
    [Dcp2Control], [Dcp2ControlSafety]: frames and requests of protocols/dcp2.
    [Dcp2Cache], [Dcp2CacheBytes], [Dcp2CacheFetch], [Dcp2CacheEvents]: snapshots
    and subscriptions over DCP2.  [HttpInput], [HttpGrammar]:
    shared/protocols/http/bvstk_http_input.c and the grammars it decides.

    A file named for a component holds its data, its operations under the names
    the code gives them, and its lemmas; the files [...Safety], [...Sync],
    [...Fetch], [...Events], [...Transfer], [...Grammar] and [...Display] hold
    theorems and the abstract objects they speak of.  Components meet as in the
    code: the I2C services share one store, [ControlApi] puts the services of the
    board into one state, and [Dcp2Control] runs over that state.

    ** What is shown

    - Policies hold on the bus: no register write reaches an I2C or MDIO device
      through the services unless the policy in force permits it, whoever asks - a
      console, a captured host frame, a register request of DCP2 - and the policy
      operations are the set operations they stand for.  (MEM_WRITE of DCP2 is
      not policed: it stores words in the PL windows, those of the bus blocks among
      them.)
    - Caches tell the truth: every valid cached value that is not a seed of the
      configuration was read from or written to the device it is attributed to; a cache client that follows the journal is
      in step with the registry or is told that it is not; mailboxes a host reads
      agree with the cache.
    - Drivers follow their protocol: the register accesses of every transfer are a
      word of a given grammar, transfers end, and failures reset the block.  A
      command is put on the bus once, except that the I2C master replays a transfer
      that timed out or failed, up to a fixed number of attempts, though never one
      that the device refused.
    - SD blocks are verified: a read is handed out only after every hardware check
      and its checksum, a write only counts after it was read back, and one owner
      at a time uses the card.
    - Frames decode and encode exactly: accepted frames are the well-formed ones,
      every request gets one well-formed answer, memory requests stay inside the
      PL windows, and paging delivers every entry once.
    - Profiles are read exactly and come back: the strict gate accepts the JSON
      objects of an independent grammar and nothing else, and a configuration
      that the writer saved is accepted and describes the same device.
    - The configuration store is careful: a start ends and overwrites no profile;
      the MDIO table has every stored profile or forwarding is off, but for the
      embedded defaults of a first start that met no profile; the text of a saved
      MDIO device, in either layout, is parsed as that device, and a start that does
      not turn MDIO off loads it, unless another profile has its bundle, its name or
      its address; saved network settings are parsed back.
    - Saved profiles survive: whatever moment the power fails while profiles are
      replaced, backups recovered or the store started, each that was saved still
      has one of the texts it was given, in its place or as its backup, and a
      recovery that succeeds puts it back in its place.
    - Files arrive whole: the blocks a host reads over DCP2 are, once and in order,
      those of the stream of the file or tree it opened, a block asked for again
      is the same one, and every handle of the backend is closed.
    - HTTP input is what it should be: request bodies and paths are accepted
      exactly when an independent grammar has them.
    - The console edits the line: on any console, every byte typed acts on the line
      as the key it belongs to; on one that writes without failure, never wraps and
      keeps its prompt, the row of the terminal is the prompt and the text.
    - Tables stay well formed: bounds, uniqueness and validity of entries are
      invariants of all operations.

    ** Assumptions

    Callbacks and platform calls are arbitrary functions of the world, except
    where a theorem states a law as a hypothesis: that the clock does not run
    backwards and sleeps at least as long as asked, that no single operation takes
    longer than a stated time (17 minutes for the 32-bit timers of the SD driver,
    49 days elsewhere), that a mutex callback leaves the bus alone, and the laws
    of FatFs (FatFs.v), which say that each of its calls changes nothing but the
    files it names and that a rename leaves a file at one of its names.  The
    callbacks of the SD driver may reach other blocks, but leave its three windows
    alone except that [prepare] may acknowledge the interrupt ([sd_laws]); those of
    the FreeRTOS port do, where its interrupt controller, barrier, delay and counter
    leave the windows alone (section [port_laws]).  What the line editor does to its
    text holds on any console, except that completion candidates are printable and
    a hook of the console for the tab key decides that key itself; what the terminal
    shows is proved for a console with the laws [console_ok], which the shells that
    change their prompt or hook the tab key do not have.  A start
    of the store is shown to overwrite nothing where [f_stat] tells whether a file
    is there ([stat_answers]: the code takes a disk error for an absent file) and
    where no other task writes to the medium during its delays; the embedded
    defaults, the mounted flag and the kernel's calls are its parameters.  The scans of a
    directory have fuel above the 65536 entries FAT allows.  Each such
    theorem comes with a run at a concrete platform where the laws hold.  Calls on
    one object are serialized, as its mutex or its owner task does; interleavings
    of whole operations are modelled where clients may observe them (the journal,
    the cache registry, the I2C store).

    ** Not modelled

    - Applications (apps): tasks, consoles and shells, the HTTP, SSH and TCP
      servers, the DCP2 transport and start-up, apart from the configuration
      store.  They are glue around sockets, files and the modelled services.
    - Ports (ports), apart from the MMIO accessors and the SD callbacks of the
      FreeRTOS one: interrupts, raw SD and QSPI devices of the Neutrino image, disk
      and flash adapters.  They consist of calls into the operating system
      or the vendor's libraries.
    - Completion in the I2C and MDIO shells.
    - Vendored code (the lwIP applications under vendor) and tests. *)
From stdpp Require Import prelude.
From Stdlib Require Import ZArith Lia.
Local Open Scope Z_scope.

(** ** Fixed-width integers

    A C unsigned integer of width [w] is a [Z]; every store into one goes
    through the wrap below. *)

Definition wrap (w x : Z) : Z := x mod 2 ^ w.
Definition u8 (x : Z) : Z := wrap 8 x.
Definition u16 (x : Z) : Z := wrap 16 x.
Definition u32 (x : Z) : Z := wrap 32 x.
Definition u64 (x : Z) : Z := wrap 64 x.

(** [fits w x]: the value is representable at width [w]. *)
Definition fits (w x : Z) : Prop := 0 <= x < 2 ^ w.

#[export] Instance fits_dec w x : Decision (fits w x).
Proof. unfold fits. apply _. Defined.

Lemma wrap_id w x : fits w x -> wrap w x = x.
Proof. unfold fits, wrap. apply Z.mod_small. Qed.

Lemma wrap_fits w x : 0 <= w -> fits w (wrap w x).
Proof. intros Hw. unfold fits, wrap. apply Z.mod_pos_bound. lia. Qed.

Lemma u8_id x : 0 <= x < 256 -> u8 x = x.
Proof. intros H. apply wrap_id, H. Qed.
Lemma u16_id x : 0 <= x < 65536 -> u16 x = x.
Proof. intros H. apply wrap_id, H. Qed.
Lemma u32_id x : 0 <= x < 4294967296 -> u32 x = x.
Proof. intros H. apply wrap_id, H. Qed.
Lemma u64_id x : 0 <= x < 18446744073709551616 -> u64 x = x.
Proof. intros H. apply wrap_id, H. Qed.

Lemma u8_range x : 0 <= u8 x < 256.
Proof. apply (wrap_fits 8). lia. Qed.
Lemma u16_range x : 0 <= u16 x < 65536.
Proof. apply (wrap_fits 16). lia. Qed.
Lemma u32_range x : 0 <= u32 x < 4294967296.
Proof. apply (wrap_fits 32). lia. Qed.
Lemma u64_range x : 0 <= u64 x < 18446744073709551616.
Proof. apply (wrap_fits 64). lia. Qed.

(** Or-ing a field below a shifted one is addition. *)
Lemma lor_shiftl_add a b n : 0 <= n -> 0 <= b < 2 ^ n -> Z.lor (Z.shiftl a n) b = a * 2 ^ n + b.
Proof.
  intros Hn Hb. rewrite Z.shiftl_mul_pow2 by done.
  assert (Z.land (a * 2 ^ n) b = 0) as Hl; [|pose proof (Z.add_lor_land (a * 2 ^ n) b); lia].
  apply Z.bits_inj'. intros i Hi. rewrite Z.land_spec, Z.testbit_0_l.
  destruct (decide (i < n)).
  - by rewrite Z.mul_pow2_bits_low by lia.
  - replace b with (b mod 2 ^ n) by (by apply Z.mod_small).
    rewrite Z.mod_pow2_bits_high by lia. by rewrite andb_false_r.
Qed.

Lemma land_fits w a b : 0 <= w -> fits w a -> fits w (Z.land a b).
Proof.
  intros Hw Ha. pose proof (wrap_id w a Ha) as Hwr. unfold wrap in Hwr.
  rewrite <- Z.land_ones in Hwr by done. rewrite <- Hwr.
  rewrite <- Z.land_assoc, (Z.land_comm _ b), Z.land_assoc, Z.land_ones by done.
  by apply wrap_fits.
Qed.

Create HintDb bvstk.
#[export] Hint Resolve u8_range u16_range u32_range u64_range : bvstk.

(** A C truth value: [&], [|] and comparisons produce 0 or 1. *)
Definition truth (x : Z) : bool := negb (x =? 0).

(** ** Arrays

    A C array of [n] cells is a list of length [n].  An index is the [Z] the
    code computes; reading outside the array is never relied upon, and writing
    outside it leaves the list unchanged, so every use that matters comes with
    the bound that rules it out. *)

Definition aget {A} `{Inhabited A} (a : list A) (i : Z) : A := a !!! Z.to_nat i.
Definition aset {A} (a : list A) (i : Z) (v : A) : list A := <[Z.to_nat i := v]> a.
Definition alen {A} (a : list A) : Z := Z.of_nat (length a).

Declare Scope carray_scope.
Delimit Scope carray_scope with carray.
Notation "a .[ i ]" := (aget a i) (at level 1, left associativity, format "a .[ i ]") : carray_scope.
Notation "a .[ i <- v ]" := (aset a i v)
  (at level 1, left associativity, format "a .[ i  <-  v ]") : carray_scope.
Open Scope carray_scope.

(** [memset (a, v, ...)] over a whole array of [n] cells. *)
Definition fill {A} (n : Z) (v : A) : list A := replicate (Z.to_nat n) v.

(** The first [n] cells of an array: what a loop bounded by a length visits. *)
Definition prefix {A} (n : Z) (a : list A) : list A := take (Z.to_nat n) a.

(** [memcpy (dst, src, n * sizeof cell)]. *)
Definition copy_prefix {A} (n : Z) (src dst : list A) : list A :=
  take (Z.to_nat n) src ++ drop (Z.to_nat n) dst.

(** [memcpy (buf + off, data, length)] of all of [data], and the [n] cells from
    [off] on. *)
Definition write_at {A} (buf : list A) (off : Z) (data : list A) : list A :=
  prefix off buf ++ data ++ drop (Z.to_nat (off + alen data)) buf.
Definition cells {A} (l : list A) (off n : Z) : list A := prefix n (drop (Z.to_nat off) l).

Section arrays.
Context {A : Type} `{Inhabited A}.
Implicit Types (a src dst : list A) (i j n : Z) (v : A).

Lemma aget_aset_eq a i v : 0 <= i < alen a -> (a.[i <- v]).[i] = v.
Proof.
  unfold aget, aset, alen. intros Hi.
  apply list_lookup_total_insert_eq. lia.
Qed.

Lemma aget_aset_ne a i j v : 0 <= i -> 0 <= j -> i <> j -> (a.[i <- v]).[j] = a.[j].
Proof.
  unfold aget, aset. intros Hi Hj Hne.
  apply list_lookup_total_insert_ne. lia.
Qed.

Lemma alen_aset a i v : alen (a.[i <- v]) = alen a.
Proof. unfold alen, aset. by rewrite length_insert. Qed.

Lemma alen_fill n v : 0 <= n -> alen (fill n v) = n.
Proof. unfold alen, fill. intros. rewrite length_replicate. lia. Qed.

Lemma aget_fill n v i : 0 <= i < n -> (fill n v).[i] = v.
Proof. unfold aget, fill. intros. apply lookup_total_replicate_2. lia. Qed.

Lemma alen_copy_prefix n src dst :
  0 <= n <= alen src -> alen src = alen dst ->
  alen (copy_prefix n src dst) = alen dst.
Proof.
  unfold alen, copy_prefix. intros. rewrite length_app, length_take, length_drop. lia.
Qed.

Lemma prefix_copy_prefix n src dst :
  0 <= n <= alen src -> prefix n (copy_prefix n src dst) = prefix n src.
Proof.
  unfold alen, prefix, copy_prefix. intros.
  rewrite take_app_le by (rewrite length_take; lia).
  rewrite take_take. f_equal. lia.
Qed.

Lemma aget_copy_prefix n src dst i :
  0 <= i < n -> n <= alen src -> (copy_prefix n src dst).[i] = src.[i].
Proof.
  unfold aget, copy_prefix, alen. intros Hi Hn.
  rewrite lookup_total_app_l by (rewrite length_take; lia).
  rewrite lookup_total_take. by rewrite decide_True by lia.
Qed.

Lemma aget_lookup a i : 0 <= i < alen a -> a !! Z.to_nat i = Some (a.[i]).
Proof.
  unfold aget, alen. intros Hi. apply list_lookup_lookup_total_lt. lia.
Qed.

Lemma aget_in a i : 0 <= i < alen a -> a.[i] ∈ a.
Proof. intros Hi. apply list_elem_of_lookup. eexists. by apply aget_lookup. Qed.

Lemma prefix_whole (l : list A) : prefix (alen l) l = l.
Proof. unfold prefix, alen. by rewrite Nat2Z.id, firstn_all. Qed.

Lemma prefix_snoc a n v :
  0 <= n < alen a -> prefix (n + 1) (a.[n <- v]) = prefix n a ++ [v].
Proof.
  unfold prefix, aset, alen. intros Hn.
  replace (Z.to_nat (n + 1)) with (S (Z.to_nat n)) by lia.
  rewrite (take_S_r _ _ v) by (apply list_lookup_insert_eq; lia).
  by rewrite take_insert_ge by lia.
Qed.

Lemma prefix_snoc_get a n : 0 <= n < alen a -> prefix (n + 1) a = prefix n a ++ [a.[n]].
Proof.
  intros Hn. rewrite <- (prefix_snoc a n (a.[n])) by done. f_equal.
  unfold aset. symmetry. apply list_insert_id. by apply aget_lookup.
Qed.

Lemma elem_of_prefix a n v :
  0 <= n <= alen a -> v ∈ prefix n a <-> exists i, 0 <= i < n /\ a.[i] = v.
Proof.
  intros Hn. unfold prefix. rewrite list_elem_of_lookup. unfold alen in Hn. split.
  - intros [i Hi]. apply lookup_take_Some in Hi as [Hi Hlt]. exists (Z.of_nat i).
    split; [lia|]. unfold aget. rewrite Nat2Z.id. by apply list_lookup_total_correct.
  - intros (i & Hi & <-). exists (Z.to_nat i).
    rewrite lookup_take_lt by lia. apply aget_lookup. unfold alen. lia.
Qed.

Lemma alen_prefix a n : 0 <= n <= alen a -> alen (prefix n a) = n.
Proof. unfold alen, prefix. intros. rewrite length_take. lia. Qed.

Lemma prefix_0 a : prefix 0 a = [].
Proof. done. Qed.

Lemma alen_nonneg a : 0 <= alen a.
Proof. unfold alen. lia. Qed.
End arrays.

Lemma alen_cons {A} (c : A) (s : list A) : alen (c :: s) = 1 + alen s.
Proof. unfold alen. cbn [length]. lia. Qed.

Lemma alen_app {A} (a b : list A) : alen (a ++ b) = alen a + alen b.
Proof. unfold alen. rewrite length_app. lia. Qed.

Lemma alen_fmap {A B} (f : A -> B) (l : list A) : alen (f <$> l) = alen l.
Proof. unfold alen. by rewrite length_fmap. Qed.

Lemma prefix_short {A} (l : list A) n : 0 <= n -> alen (prefix n l) <= n.
Proof. intros Hn. unfold alen, prefix. rewrite length_take. lia. Qed.


Lemma write_at_app {A} (p q d : list A) : write_at (p ++ q) (alen p) d = p ++ d ++ drop (length d) q.
Proof.
  unfold write_at, prefix, alen. rewrite Nat2Z.id, take_app_length. do 2 f_equal.
  rewrite drop_app_ge by lia. f_equal. lia.
Qed.

Lemma write_over {A} (p g q d : list A) : alen d = alen g -> write_at (p ++ g ++ q) (alen p) d = p ++ d ++ q.
Proof.
  intros Hd. rewrite write_at_app. do 2 f_equal.
  assert (length d = length g) as -> by (unfold alen in Hd; lia). by rewrite drop_app_length.
Qed.

Lemma alen_write_at {A} (l d : list A) off : 0 <= off -> off + alen d <= alen l -> alen (write_at l off d) = alen l.
Proof. intros. unfold write_at, prefix, alen in *. rewrite !length_app, length_take, length_drop. lia. Qed.

Lemma alen_cells {A} (l : list A) off n : 0 <= off -> 0 <= n -> off + n <= alen l -> alen (cells l off n) = n.
Proof. intros. unfold cells. apply alen_prefix. unfold alen in *. rewrite length_drop. lia. Qed.

Lemma cells_split {A} (l : list A) off n m :
  0 <= off -> 0 <= n <= m -> cells l off m = cells l off n ++ cells l (off + n) (m - n).
Proof.
  intros Ho Hn. unfold cells, prefix. replace (Z.to_nat (off + n)) with (Z.to_nat off + Z.to_nat n)%nat by lia.
  rewrite <- drop_drop, take_take_drop. f_equal. lia.
Qed.

Lemma cells_app {A} (p q r : list A) : cells (p ++ q ++ r) (alen p) (alen q) = q.
Proof. unfold cells, prefix, alen. by rewrite !Nat2Z.id, drop_app_length, take_app_length. Qed.

Lemma aset_app {A} (p q : list A) (x v : A) : (p ++ x :: q).[alen p <- v] = p ++ v :: q.
Proof. unfold aset, alen. rewrite Nat2Z.id. by rewrite insert_app_r_alt, Nat.sub_diag by lia. Qed.

Lemma aget_app {A} `{Inhabited A} (p q : list A) (x : A) : (p ++ x :: q).[alen p] = x.
Proof. unfold aget, alen. rewrite Nat2Z.id. by apply list_lookup_total_middle. Qed.

(** ** C strings: bytes up to the terminating zero *)

Fixpoint cstr (s : list Z) : list Z :=
  match s with
  | [] => []
  | c :: s => if c =? 0 then [] else c :: cstr s
  end.

(** [tolower] in the C locale, and the two string comparisons the code uses. *)
Definition tolower (c : Z) : Z := if (65 <=? c) && (c <=? 90) then c + 32 else c.
Definition streq (a b : list Z) : bool := bool_decide (cstr a = cstr b).
Definition strcaseeq (a b : list Z) : bool :=
  bool_decide (tolower <$> cstr a = tolower <$> cstr b).

(** [strncpy (dst, src, n)] into a zeroed buffer of [cap] cells, [n < cap]. *)
Definition strncpy_into (cap n : Z) (src : list Z) : list Z :=
  let s := prefix n (cstr src) in s ++ fill (cap - alen s) 0.

Lemma streq_spec a b : streq a b = true <-> cstr a = cstr b.
Proof. apply bool_decide_eq_true. Qed.

Lemma strcaseeq_spec a b :
  strcaseeq a b = true <-> tolower <$> cstr a = tolower <$> cstr b.
Proof. apply bool_decide_eq_true. Qed.

(** ** Counted loops

    [for (i = lo; i < hi; ++i)]: [n] is the number of iterations left. *)

(** A body that may return early with [r]; its stores before that persist. *)
Fixpoint for_loop {S R} (n : nat) (i : Z) (body : Z -> S -> S * option R) (s : S)
    : S * option R :=
  match n with
  | O => (s, None)
  | Datatypes.S n =>
      match body i s with
      | (s', None) => for_loop n (i + 1) body s'
      | (s', Some r) => (s', Some r)
      end
  end.

(** A body that always runs to completion. *)
Fixpoint for_each {S} (n : nat) (i : Z) (body : Z -> S -> S) (s : S) : S :=
  match n with
  | O => s
  | Datatypes.S n => for_each n (i + 1) body (body i s)
  end.

(** A search: the first index that satisfies the test. *)
Fixpoint for_find (n : nat) (i : Z) (p : Z -> bool) : option Z :=
  match n with
  | O => None
  | Datatypes.S n => if p i then Some i else for_find n (i + 1) p
  end.

Lemma for_loop_ext {S R} n lo (f g : Z -> S -> S * option R) s :
  (forall i s, lo <= i < lo + Z.of_nat n -> f i s = g i s) -> for_loop n lo f s = for_loop n lo g s.
Proof.
  revert lo s. induction n as [|n IH]; intros lo s H; [done|]. cbn [for_loop]. rewrite H by lia.
  destruct (g lo s) as [s' [r|]]; [done|]. apply IH. intros i t Hi. apply H. lia.
Qed.

Lemma for_find_ext n lo p q : (forall i, lo <= i < lo + Z.of_nat n -> p i = q i) -> for_find n lo p = for_find n lo q.
Proof.
  revert lo. induction n as [|n IH]; intros lo H; [done|]. cbn [for_find]. rewrite H by lia.
  destruct (q lo); [done|]. apply IH. intros i Hi. apply H. lia.
Qed.

Lemma for_loop_ind {S R} (P : Z -> S -> Prop) (Q : S -> R -> Prop) n lo body s :
  (forall i s, lo <= i < lo + Z.of_nat n -> P i s ->
     match body i s with (s', None) => P (i + 1) s' | (s', Some r) => Q s' r end) ->
  P lo s ->
  match for_loop n lo body s with
  | (s', None) => P (lo + Z.of_nat n) s'
  | (s', Some r) => Q s' r
  end.
Proof.
  revert lo s. induction n as [|n IH]; intros lo s Hbody HP; cbn [for_loop].
  - by rewrite Z.add_0_r.
  - pose proof (Hbody lo s ltac:(lia) HP) as Hb. destruct (body lo s) as [s' [r|]]; [done|].
    replace (lo + Z.of_nat (Datatypes.S n)) with (lo + 1 + Z.of_nat n) by lia.
    apply IH; [|done]. intros i s0 Hi. apply Hbody. lia.
Qed.

Lemma for_each_ind {S} (P : Z -> S -> Prop) n lo body s :
  (forall i s, lo <= i < lo + Z.of_nat n -> P i s -> P (i + 1) (body i s)) ->
  P lo s -> P (lo + Z.of_nat n) (for_each n lo body s).
Proof.
  revert lo s. induction n as [|n IH]; intros lo s Hbody HP; cbn [for_each].
  - by rewrite Z.add_0_r.
  - replace (lo + Z.of_nat (Datatypes.S n)) with (lo + 1 + Z.of_nat n) by lia.
    apply IH; [|apply Hbody; [lia|done]]. intros i s0 Hi. apply Hbody. lia.
Qed.

Lemma for_find_Some n lo p i :
  for_find n lo p = Some i <->
  lo <= i < lo + Z.of_nat n /\ p i = true /\ forall j, lo <= j < i -> p j = false.
Proof.
  revert lo. induction n as [|n IH]; intros lo; cbn [for_find].
  { split; [done|lia]. }
  destruct (p lo) eqn:Hp.
  - split.
    + intros [= <-]. split; [lia|]. split; [done|lia].
    + intros (Hi & Hpi & Hj). f_equal. destruct (decide (lo < i)); [|lia].
      rewrite Hj in Hp; [done|lia].
  - rewrite IH. split; intros (Hi & Hpi & Hj).
    + split; [lia|]. split; [done|]. intros j Hj'.
      destruct (decide (j = lo)) as [->|]; [done|]. apply Hj. lia.
    + assert (i <> lo) by congruence. split; [lia|]. split; [done|]. intros. apply Hj. lia.
Qed.

Lemma for_find_None n lo p :
  for_find n lo p = None <-> forall i, lo <= i < lo + Z.of_nat n -> p i = false.
Proof.
  destruct (for_find n lo p) as [i|] eqn:E.
  - apply for_find_Some in E as (Hi & Hp & _). split; [done|]. intros H.
    rewrite H in Hp; [done|lia].
  - split; [|done]. intros _ i Hi. destruct (p i) eqn:Hp; [|done].
    assert (forall m lo', lo' <= i < lo' + Z.of_nat m -> for_find m lo' p <> None) as Hc.
    { induction m as [|m IH]; intros lo' Hi'; [lia|]. cbn [for_find].
      destruct (p lo') eqn:Hp'; [done|]. apply IH.
      assert (i <> lo') by congruence. lia. }
    by destruct (Hc n lo Hi).
Qed.

(** ** State passing *)

(** A computation over a state [S]: most operations of the services. *)
Definition ST (S A : Type) : Type := S -> A * S.
Definition st_ret {S A} (a : A) : ST S A := fun s => (a, s).
Definition st_bind {S A B} (m : ST S A) (k : A -> ST S B) : ST S B :=
  fun s => let '(a, s') := m s in k a s'.
Definition st_get {S A} (f : S -> A) : ST S A := fun s => (f s, s).
Definition st_mod {S} (f : S -> S) : ST S unit := fun s => (tt, f s).

Declare Scope st_scope.
Delimit Scope st_scope with st.
Notation "'let!' x := m 'in' k" := (st_bind m (fun x => k))
  (at level 10, x pattern, m at level 100, k at level 200) : st_scope.
Notation "m ;; k" := (st_bind m (fun _ => k))
  (at level 100, right associativity) : st_scope.
(** A step that may run out of fuel. *)
Notation "'let?' x := m 'in' k" :=
  (st_bind m (fun o => match o with Some x => k | None => st_ret None end))
  (at level 10, x pattern, m at level 100, k at level 200) : st_scope.
Open Scope st_scope.

(** What a computation started in [s] establishes. *)
Definition runs {S A} (m : ST S A) (s : S) (Q : A -> S -> Prop) : Prop :=
  Q (fst (m s)) (snd (m s)).

Lemma runs_ret {S A} (a : A) (s : S) (Q : A -> S -> Prop) : Q a s -> runs (st_ret a) s Q.
Proof. done. Qed.
Lemma runs_get {S A} (f : S -> A) (s : S) (Q : A -> S -> Prop) :
  Q (f s) s -> runs (st_get f) s Q.
Proof. done. Qed.
Lemma runs_mod {S} (f : S -> S) (s : S) (Q : unit -> S -> Prop) :
  Q tt (f s) -> runs (st_mod f) s Q.
Proof. done. Qed.
Lemma runs_bind {S A B} (m : ST S A) (k : A -> ST S B) (s : S) (Q : B -> S -> Prop) :
  runs m s (fun a s' => runs (k a) s' Q) -> runs (st_bind m k) s Q.
Proof. unfold runs, st_bind. by destruct (m s). Qed.
Lemma runs_mono {S A} (m : ST S A) (s : S) (Q Q' : A -> S -> Prop) :
  runs m s Q -> (forall a s', Q a s' -> Q' a s') -> runs m s Q'.
Proof. unfold runs. auto. Qed.

(** ** Automation *)

(** Turn boolean comparisons of hypotheses and goal into arithmetic. *)
Ltac bsimp :=
  repeat match goal with
  | H : context [truth _] |- _ => unfold truth in H
  | H : negb _ = true |- _ => apply negb_true_iff in H
  | H : negb _ = false |- _ => apply negb_false_iff in H
  | H : (_ && _)%bool = true |- _ => apply andb_true_iff in H; destruct H
  | H : (_ || _)%bool = false |- _ => apply orb_false_iff in H; destruct H
  | H : (_ <=? _) = true |- _ => apply Z.leb_le in H
  | H : (_ <=? _) = false |- _ => apply Z.leb_gt in H
  | H : (_ <? _) = true |- _ => apply Z.ltb_lt in H
  | H : (_ <? _) = false |- _ => apply Z.ltb_ge in H
  | H : (_ =? _) = true |- _ => apply Z.eqb_eq in H
  | H : (_ =? _) = false |- _ => apply Z.eqb_neq in H
  end.

(** Case analysis on the innermost discriminee of the goal's matches. *)
Ltac split_match :=
  repeat (case_match; simplify_eq/=; try done).

(** ** Reachability: finite sequences of steps *)

Section reach.
Context {S : Type} (step : S -> S -> Prop).

Inductive steps : S -> S -> Prop :=
  | steps_refl s : steps s s
  | steps_cons s1 s2 s3 : step s1 s2 -> steps s2 s3 -> steps s1 s3.

Lemma steps_invariant (I : S -> Prop) :
  (forall s s', I s -> step s s' -> I s') ->
  forall s s', steps s s' -> I s -> I s'.
Proof. intros HI s s' Hst. induction Hst; eauto. Qed.
End reach.
