(* ===== verification/Text.v ===== *)
(** * Text: string literals and printed numbers

    What the components that write text share: literals of the code as lists of
    bytes, and the conversions of [printf] they use. *)
From stdpp Require Import prelude.
From Stdlib Require Import ZArith Lia.
From Stdlib Require String Ascii.
Import String.StringSyntax.
From S2P Require Import Prelude.
Local Open Scope Z_scope.

Abbreviation chars := (list Z).

(** ** Literals

    A literal is written with a grave accent for each double quote and a
    circumflex for each newline. *)

Definition literal_char (a : Ascii.ascii) : Z :=
  let c := Z.of_N (Ascii.N_of_ascii a) in
  if c =? 96 then 34 else if c =? 94 then 10 else c.

Definition lit (s : String.string) : chars := literal_char <$> String.list_ascii_of_string s.
Arguments lit s%_string_scope.

(** ** Numbers *)

(** Conversions of [printf]: %u, %X and %0nX of an unsigned number. *)
Fixpoint to_digits (fuel : nat) (base : Z) (n : Z) (acc : chars) : chars :=
  match fuel with
  | O => acc
  | S fuel =>
      let d := n mod base in
      let acc := (if d <? 10 then 48 + d else 55 + d) :: acc in
      if n <? base then acc else to_digits fuel base (n `div` base) acc
  end.

Definition dec (n : Z) : chars := to_digits 20 10 n [].
Definition hexX (width n : Z) : chars :=
  let s := to_digits 16 16 n [] in fill (width - alen s) 48 ++ s.
Definition hexx (width n : Z) : chars :=
  let lower c := if 65 <=? c then c + 32 else c in lower <$> hexX width n.

(** A number is the text of its digits, without leading zeros. *)
Definition digit_char (d : Z) : Z := if d <? 10 then 48 + d else 55 + d.

Lemma to_digits_spec fuel base n acc :
  2 <= base -> 0 <= n < base ^ Z.of_nat fuel ->
  exists ds : list Z, to_digits fuel base n acc = (digit_char <$> ds) ++ acc /\
    Forall (fun d => 0 <= d < base) ds /\ foldl (fun n d => n * base + d) 0 ds = n /\ (length ds <= fuel)%nat /\
    ((0 < fuel)%nat -> ds <> [] /\ (ds = [0] \/ head ds <> Some 0)).
Proof.
  intros Hb. revert n acc. induction fuel as [|fuel IH]; intros n acc Hn; cbn [to_digits].
  { exists []. cbn in Hn. split; [done|]. split; [constructor|]. split; [cbn; lia|]. split; [done|]. lia. }
  fold (digit_char (n mod base)). destruct (Z.ltb_spec n base) as [Hlt|Hge].
  - exists [n]. rewrite Z.mod_small by lia. split; [done|]. split; [constructor; [lia|constructor]|].
    split; [cbn; lia|]. split; [cbn; lia|]. intros _. split; [done|]. destruct (decide (n = 0)) as [->|]; [by left|right; cbn; congruence].
  - destruct (IH (n `div` base) (digit_char (n mod base) :: acc)) as (ds & -> & Hds & Hv & Hl & Hne).
    { split; [apply Z.div_pos; lia|]. apply Z.div_lt_upper_bound; [lia|].
      rewrite Nat2Z.inj_succ, Z.pow_succ_r in Hn by lia. lia. }
    assert (fuel <> 0)%nat as Hf.
    { intros ->. cbn in Hn. lia. }
    destruct Hne as [Hne Hz]; [lia|].
    exists (ds ++ [n mod base]). split; [rewrite fmap_app, <- app_assoc; done|].
    split; [apply Forall_app; split; [done|]; constructor; [apply Z.mod_pos_bound; lia|constructor]|].
    split; [rewrite foldl_app, Hv; cbn; rewrite (Z.div_mod n base) at 3 by lia; lia|].
    split; [rewrite length_app; cbn; lia|].
    intros _. split; [by destruct ds|]. right. destruct ds as [|d ds]; [done|]. cbn.
    destruct Hz as [Hz|Hz]; [|done]. injection Hz as -> ->. cbn in Hv. exfalso.
    pose proof (Z.div_le_lower_bound n base 1). lia.
Qed.
