(* ===== verification/Platform.v ===== *)
(** * Platform: status codes, callback tables, clock, mutex and MMIO

    The vocabulary every other component shares: [bvstk_status_t], the event
    record, the callback tables of [src/src/shared/interfaces] and the MMIO
    accessors of the FreeRTOS port.

    A callback table is a record of optional functions, [None] standing for a
    NULL function pointer.  The world outside the modelled code (the OS, the
    programmable logic, whatever a callback reaches) is a type [X]; a callback
    is a state transformer over it, its [context] argument being part of the
    closure.  The symbols the port takes from the vendor's BSP are the fields
    of the class [Platform]. *)
From stdpp Require Import prelude strings.
From Stdlib Require Import ZArith Lia.
From S2P Require Import Prelude.
Local Open Scope Z_scope.

(** ** Status codes (shared/base/bvstk_status) *)

Inductive bvstk_status_t :=
  | BVSTK_OK
  | BVSTK_ERR_MALFORMED
  | BVSTK_ERR_UNSUPPORTED
  | BVSTK_ERR_DENIED
  | BVSTK_ERR_BUSY
  | BVSTK_ERR_TIMEOUT
  | BVSTK_ERR_RANGE
  | BVSTK_ERR_NOT_READY
  | BVSTK_ERR_NOT_FOUND
  | BVSTK_ERR_IO
  | BVSTK_ERR_INTERNAL.

#[export] Instance status_eq_dec : EqDecision bvstk_status_t.
Proof. solve_decision. Defined.

(** The integer the enumerator stands for, as stored by [(uint16_t)status]. *)
Definition status_code (s : bvstk_status_t) : Z :=
  match s with
  | BVSTK_OK => 0
  | BVSTK_ERR_MALFORMED => 1
  | BVSTK_ERR_UNSUPPORTED => 2
  | BVSTK_ERR_DENIED => 3
  | BVSTK_ERR_BUSY => 4
  | BVSTK_ERR_TIMEOUT => 5
  | BVSTK_ERR_RANGE => 6
  | BVSTK_ERR_NOT_READY => 7
  | BVSTK_ERR_NOT_FOUND => 8
  | BVSTK_ERR_IO => 9
  | BVSTK_ERR_INTERNAL => 10
  end.

Definition is_ok (s : bvstk_status_t) : bool :=
  match s with BVSTK_OK => true | _ => false end.

Definition bvstk_status_string (s : bvstk_status_t) : string :=
  match s with
  | BVSTK_OK => "ok"
  | BVSTK_ERR_MALFORMED => "malformed"
  | BVSTK_ERR_UNSUPPORTED => "unsupported"
  | BVSTK_ERR_DENIED => "denied"
  | BVSTK_ERR_BUSY => "busy"
  | BVSTK_ERR_TIMEOUT => "timeout"
  | BVSTK_ERR_RANGE => "range"
  | BVSTK_ERR_NOT_READY => "not-ready"
  | BVSTK_ERR_NOT_FOUND => "not-found"
  | BVSTK_ERR_IO => "io"
  | BVSTK_ERR_INTERNAL => "internal"
  end.

Lemma is_ok_true s : is_ok s = true <-> s = BVSTK_OK.
Proof. by destruct s. Qed.

Lemma is_ok_false s : is_ok s = false <-> s <> BVSTK_OK.
Proof. by destruct s. Qed.

(** ** Events (shared/events/bvstk_event.h) *)

Inductive bvstk_event_source_t :=
  | BVSTK_EVENT_SOURCE_CONSOLE
  | BVSTK_EVENT_SOURCE_HOST
  | BVSTK_EVENT_SOURCE_DCP
  | BVSTK_EVENT_SOURCE_INTERNAL
  | BVSTK_EVENT_SOURCE_WEB.

Definition source_code (s : bvstk_event_source_t) : Z :=
  match s with
  | BVSTK_EVENT_SOURCE_CONSOLE => 0
  | BVSTK_EVENT_SOURCE_HOST => 1
  | BVSTK_EVENT_SOURCE_DCP => 2
  | BVSTK_EVENT_SOURCE_INTERNAL => 3
  | BVSTK_EVENT_SOURCE_WEB => 4
  end.

Inductive bvstk_event_op_t :=
  | BVSTK_EVENT_OP_READ
  | BVSTK_EVENT_OP_WRITE
  | BVSTK_EVENT_OP_POLICY_CHANGE
  | BVSTK_EVENT_OP_CONFIG_APPLY
  | BVSTK_EVENT_OP_STATE_CHANGE.

Definition op_code (o : bvstk_event_op_t) : Z :=
  match o with
  | BVSTK_EVENT_OP_READ => 0
  | BVSTK_EVENT_OP_WRITE => 1
  | BVSTK_EVENT_OP_POLICY_CHANGE => 2
  | BVSTK_EVENT_OP_CONFIG_APPLY => 3
  | BVSTK_EVENT_OP_STATE_CHANGE => 4
  end.

Definition BVSTK_EVENT_BUS_I2C : Z := 0.
Definition BVSTK_EVENT_BUS_MDIO : Z := 1.

(** Event types are compared as numbers (range tests), so they stay numbers. *)
Definition BVSTK_EVENT_REG_ATTEMPT : Z := 0x0001.
Definition BVSTK_EVENT_REG_COMMIT : Z := 0x0002.
Definition BVSTK_EVENT_REG_DENIED : Z := 0x0003.
Definition BVSTK_EVENT_STATE_CHANGED : Z := 0x0004.
Definition BVSTK_EVENT_FAULT : Z := 0x0005.
Definition BVSTK_EVENT_CAPTURE_WRITE : Z := 0x0101.
Definition BVSTK_EVENT_MASTER_READ : Z := 0x0102.
Definition BVSTK_EVENT_MASTER_WRITE : Z := 0x0103.
Definition BVSTK_EVENT_SLAVE_POINTER : Z := 0x0104.
Definition BVSTK_EVENT_SLAVE_READ_REQUEST : Z := 0x0105.
Definition BVSTK_EVENT_SLAVE_REPLY_PREPARED : Z := 0x0106.

Definition BVSTK_EVENT_FLAG_NONE : Z := 0x00.
Definition BVSTK_EVENT_FLAG_TELEMETRY_UNCONFIRMED : Z := 0x01.

Record bvstk_event_t := Event {
  ev_time_us : Z;
  ev_type : Z;
  ev_status : Z;
  ev_source : Z;
  ev_bus : Z;
  ev_operation : Z;
  ev_flags : Z;
  ev_arg0 : Z;
  ev_arg1 : Z;
  ev_arg2 : Z
}.

#[export] Instance event_eq_dec : EqDecision bvstk_event_t.
Proof. solve_decision. Defined.
#[export] Instance event_inhabited : Inhabited bvstk_event_t :=
  populate (Event 0 0 0 0 0 0 0 0 0 0).

Section interfaces.
Context {X : Type}.

Record bvstk_event_sink_t := EventSink { publish : option (bvstk_event_t -> X -> X) }.

(** ** Cache observer (shared/interfaces/bvstk_cache_sink.h) *)

(** [entry device resource value valid seeded updated_ms] *)
Record bvstk_cache_sink_t := CacheSink {
  snk_enter : option (X -> X);
  snk_leave : option (X -> X);
  snk_entry : option (Z -> Z -> Z -> Z -> Z -> Z -> X -> X);
  snk_presence : option (Z -> Z -> X -> X)
}.

Definition bvstk_cache_sink_enter (s : bvstk_cache_sink_t) (x : X) : X :=
  match snk_enter s with Some f => f x | None => x end.
Definition bvstk_cache_sink_leave (s : bvstk_cache_sink_t) (x : X) : X :=
  match snk_leave s with Some f => f x | None => x end.
Definition bvstk_cache_sink_entry (s : bvstk_cache_sink_t)
    (device resource value valid seeded time : Z) (x : X) : X :=
  match snk_entry s with Some f => f device resource value valid seeded time x | None => x end.
Definition bvstk_cache_sink_presence (s : bvstk_cache_sink_t) (device p : Z) (x : X) : X :=
  match snk_presence s with Some f => f device p x | None => x end.

Definition no_sink : bvstk_cache_sink_t := CacheSink None None None None.

(** ** The platform's own services *)

Class Platform := {
  bvstk_platform_now_ms : X -> Z * X;
  bvstk_platform_sleep_ms : Z -> X -> X;
  Xil_In32 : Z -> X -> Z * X;
  Xil_Out32 : Z -> Z -> X -> X
}.

(** ** Clock table (shared/interfaces/bvstk_clock.h) *)

Record bvstk_clock_t := Clock {
  clk_now_ms : option (X -> Z * X);
  clk_sleep_ms : option (Z -> X -> X)
}.

Definition bvstk_clock_now_ms `{Platform} (clock : option bvstk_clock_t) (x : X) : Z * X :=
  match clock with
  | Some (Clock (Some f) _) => f x
  | _ => bvstk_platform_now_ms x
  end.

Definition bvstk_clock_sleep_ms `{Platform} (clock : option bvstk_clock_t)
    (milliseconds : Z) (x : X) : X :=
  match clock with
  | Some (Clock _ (Some f)) => f milliseconds x
  | _ => bvstk_platform_sleep_ms milliseconds x
  end.

(** ** Mutex table (shared/interfaces/bvstk_sync.h) *)

Record bvstk_mutex_t := Mutex {
  mtx_lock : option (Z -> X -> bvstk_status_t * X);
  mtx_unlock : option (X -> X)
}.

Definition bvstk_mutex_lock (mutex : option bvstk_mutex_t) (timeout_ms : Z) (x : X)
    : bvstk_status_t * X :=
  match mutex with
  | Some (Mutex (Some f) _) => f timeout_ms x
  | _ => (BVSTK_OK, x)
  end.

Definition bvstk_mutex_unlock (mutex : option bvstk_mutex_t) (x : X) : X :=
  match mutex with
  | Some (Mutex _ (Some f)) => f x
  | _ => x
  end.

(** ** Memory-mapped registers (FreeRTOS port) *)

Record bvstk_mmio_region_t := Region {
  rg_physical_base : Z;
  rg_size : Z;
  rg_mapped_base : Z
}.

Definition zero_region : bvstk_mmio_region_t := Region 0 0 0.

(** A pointer is its address, [0] being NULL; the FreeRTOS port maps a region
    onto its physical address.  [None] is a failing return ([-1], with [errno] set to [EINVAL]). *)
Definition bvstk_mmio_region_open (region : option bvstk_mmio_region_t)
    (base sz : Z) : option bvstk_mmio_region_t :=
  match region with
  | None => None
  | Some _ => if sz =? 0 then None else Some (Region base sz base)
  end.

Definition bvstk_mmio_region_close (region : option bvstk_mmio_region_t)
    : option bvstk_mmio_region_t :=
  match region with
  | None => None
  | Some _ => Some zero_region
  end.

(** True when the access is refused. *)
Definition check_access (region : option bvstk_mmio_region_t) (offset : Z) : bool :=
  match region with
  | None => true
  | Some r =>
      (rg_mapped_base r =? 0) || (rg_size r <? 4) ||
      negb (Z.land offset 3 =? 0) || (rg_size r - 4 <? offset)
  end.

(** [value] is false for a NULL output pointer; [None] is a failing return. *)
Definition bvstk_mmio_read32 `{Platform} (region : option bvstk_mmio_region_t)
    (offset : Z) (value : bool) (x : X) : option Z * X :=
  match region with
  | Some r =>
      if negb value || check_access region offset then (None, x)
      else let '(v, x) := Xil_In32 (u32 (rg_physical_base r + offset)) x in (Some v, x)
  | None => (None, x)
  end.

(** [true] is success (return value 0). *)
Definition bvstk_mmio_write32 `{Platform} (region : option bvstk_mmio_region_t)
    (offset value : Z) (x : X) : bool * X :=
  match region with
  | Some r =>
      if check_access region offset then (false, x)
      else (true, Xil_Out32 (u32 (rg_physical_base r + offset)) value x)
  | None => (false, x)
  end.
End interfaces.

Arguments bvstk_event_sink_t : clear implicits.
Arguments bvstk_cache_sink_t : clear implicits.
Arguments Platform : clear implicits.
Arguments bvstk_clock_t : clear implicits.
Arguments bvstk_mutex_t : clear implicits.

(** An accepted access lies inside the region and on a word boundary. *)
Lemma check_access_bounds r offset :
  0 <= offset -> check_access (Some r) offset = false ->
  offset + 4 <= rg_size r /\ offset mod 4 = 0 /\ rg_mapped_base r <> 0.
Proof.
  unfold check_access. intros Hoff H. bsimp.
  change 3 with (Z.ones 2) in *. rewrite Z.land_ones in * by lia.
  change (2 ^ 2) with 4 in *.
  lia.
Qed.
