(* ===== verification/PlAccess.v ===== *)
(** * PlAccess: register access shared by the PL drivers

    The board's address map ([hardware/boards/ax7020/bvstk_hw_config.h]), the
    checked 32-bit accesses the drivers make, and little-endian packing of
    bytes into the words of a mailbox or FIFO. *)
From stdpp Require Import prelude.
From Stdlib Require Import ZArith Lia.
From S2P Require Import Prelude Platform.
Local Open Scope Z_scope.

(** ** Board constants *)

Definition BVSTK_I2C_BRAM_BASE : Z := 0x40000000.
Definition BVSTK_I2C_BRAM_SIZE : Z := 0x3000.
Definition BVSTK_I2C_MASTER_BASE : Z := 0x43C00000.
Definition BVSTK_I2C_MASTER_SIZE : Z := 0x10000.
Definition BVSTK_I2C_SLAVE_BASE : Z := 0x43C50000.
Definition BVSTK_I2C_SLAVE_SIZE : Z := 0x10000.
Definition BVSTK_MDIO_BRAM_BASE : Z := 0x42000000.
Definition BVSTK_MDIO_BRAM_SIZE : Z := 0x4000.
Definition BVSTK_MDIO_MASTER_BASE : Z := 0x43C10000.
Definition BVSTK_MDIO_MASTER_SIZE : Z := 0x10000.
Definition BVSTK_MDIO_SLAVE_BASE : Z := 0x43C20000.
Definition BVSTK_MDIO_SLAVE_SIZE : Z := 0x10000.
Definition BVSTK_SPI_BRAM_BASE : Z := 0x44000000.
Definition BVSTK_SPI_BRAM_SIZE : Z := 0x2000.
Definition BVSTK_SPI_MASTER_BASE : Z := 0x43C40000.
Definition BVSTK_SPI_MASTER_SIZE : Z := 0x10000.

(** ** Bytes and words *)

(** [(uint8_t)(word >> (8 * byte))]. *)
Definition byte_of (word byte : Z) : Z := u8 (Z.shiftr word (8 * byte)).

(** [for (byte = 0; byte < count; ++byte) word |= data[offset + byte] << (8 * byte)]. *)
Definition pack_word (data : list Z) (offset count : Z) : Z :=
  for_each (Z.to_nat count) 0
    (fun byte word => Z.lor word (u32 (Z.shiftl (data.[offset + byte]) (8 * byte)))) 0.

Section access.
Context {X : Type} `{PL : Platform X}.

Definition read32 (region : bvstk_mmio_region_t) (offset : Z) : ST X (bvstk_status_t * Z) :=
  fun x =>
    match bvstk_mmio_read32 (Some region) offset true x with
    | (Some v, x) => ((BVSTK_OK, v), x)
    | (None, x) => ((BVSTK_ERR_IO, 0), x)
    end.

Definition write32 (region : bvstk_mmio_region_t) (offset value : Z) : ST X bvstk_status_t :=
  fun x =>
    match bvstk_mmio_write32 (Some region) offset value x with
    | (true, x) => (BVSTK_OK, x)
    | (false, x) => (BVSTK_ERR_IO, x)
    end.

(** [while (offset < size)] of [write_words]; every iteration consumes at
    least one byte, so [size] iterations are enough. *)
Fixpoint write_words_loop (fuel : nat) (region : bvstk_mmio_region_t) (base_offset : Z)
    (data : list Z) (size offset : Z) : ST X bvstk_status_t :=
  match fuel with
  | O => st_ret BVSTK_OK
  | S fuel =>
      if offset <? size then
        let count := Z.min (size - offset) 4 in
        let! status := write32 region (base_offset + offset) (pack_word data offset count) in
        if negb (is_ok status) then st_ret BVSTK_ERR_IO
        else write_words_loop fuel region base_offset data size (offset + count)
      else st_ret BVSTK_OK
  end.

Definition write_words (region : bvstk_mmio_region_t) (base_offset : Z) (data : list Z)
    (size : Z) : ST X bvstk_status_t :=
  write_words_loop (Z.to_nat size) region base_offset data size 0.

(** [for (byte = 0; byte < count; ++byte) frame[offset + byte] = word >> (8 * byte)]. *)
Definition store_bytes (frame : list Z) (offset word count : Z) : list Z :=
  for_each (Z.to_nat count) 0 (fun byte frame => frame.[offset + byte <- byte_of word byte]) frame.

(** The word-by-word copy of a mailbox into [frame]; a failing read leaves the
    bytes stored so far. *)
Fixpoint read_words_loop (fuel : nat) (region : bvstk_mmio_region_t) (base_offset : Z)
    (size offset : Z) (frame : list Z) : ST X (bvstk_status_t * list Z) :=
  match fuel with
  | O => st_ret (BVSTK_OK, frame)
  | S fuel =>
      if offset <? size then
        let count := Z.min (size - offset) 4 in
        let! r := read32 region (base_offset + offset) in
        if negb (is_ok (fst r)) then st_ret (fst r, frame)
        else
          read_words_loop fuel region base_offset size (offset + count)
            (store_bytes frame offset (snd r) count)
      else st_ret (BVSTK_OK, frame)
  end.

Definition read_words (region : bvstk_mmio_region_t) (base_offset : Z) (size : Z)
    (frame : list Z) : ST X (bvstk_status_t * list Z) :=
  read_words_loop (Z.to_nat size) region base_offset size 0 frame.
End access.

Arguments read32 : simpl never.
Arguments write32 : simpl never.

(** ** Packing lemmas *)

Lemma byte_of_testbit w k i :
  0 <= k -> 0 <= i < 8 -> Z.testbit (byte_of w k) i = Z.testbit w (8 * k + i).
Proof.
  intros Hk Hi. unfold byte_of, u8, wrap. rewrite Z.mod_pow2_bits_low by lia.
  rewrite Z.shiftr_spec by lia. f_equal. lia.
Qed.

Lemma byte_of_high w k i : 8 <= i -> Z.testbit (byte_of w k) i = false.
Proof. intros Hi. unfold byte_of, u8, wrap. by rewrite Z.mod_pow2_bits_high by lia. Qed.

Lemma fits8_testbit v i : fits 8 v -> 8 <= i -> Z.testbit v i = false.
Proof.
  intros Hv Hi. destruct (decide (v = 0)) as [->|]; [apply Z.testbit_0_l|].
  unfold fits in Hv. apply Z.bits_above_log2; [lia|].
  assert (Z.log2 v < 8) by (apply Z.log2_lt_pow2; lia). lia.
Qed.

(** The bits of a shifted byte inside a word. *)
Lemma shifted_byte_testbit v k i :
  fits 8 v -> 0 <= k < 4 -> 0 <= i ->
  Z.testbit (u32 (Z.shiftl v (8 * k))) i = (8 * k <=? i) && (i <? 8 * k + 8) && Z.testbit v (i - 8 * k).
Proof.
  intros Hv Hk Hi. unfold u32, wrap.
  destruct (decide (i < 32)).
  - rewrite Z.mod_pow2_bits_low, Z.shiftl_spec by lia.
    destruct (8 * k <=? i) eqn:E1; bsimp; cbn [andb].
    + destruct (i <? 8 * k + 8) eqn:E2; bsimp; cbn [andb]; [done|].
      apply fits8_testbit; [done|lia].
    + by rewrite Z.testbit_neg_r by lia.
  - rewrite Z.mod_pow2_bits_high by lia. rewrite (proj2 (Z.ltb_ge i _)) by lia.
    by rewrite andb_false_r.
Qed.

(** A packed word holds the bytes it was packed from. *)
Lemma pack_word_bits data offset count i :
  0 <= count <= 4 -> 0 <= offset -> 0 <= i ->
  (forall k, 0 <= k < count -> fits 8 (data.[offset + k])) ->
  Z.testbit (pack_word data offset count) i =
    (i <? 8 * count) && Z.testbit (data.[offset + i / 8]) (i mod 8).
Proof.
  intros Hc Ho Hi Hb. unfold pack_word.
  pose (P (k word : Z) := forall j, 0 <= j -> Z.testbit word j =
    (j <? 8 * k) && Z.testbit (data.[offset + j / 8]) (j mod 8)).
  assert (P (0 + Z.of_nat (Z.to_nat count)) (for_each (Z.to_nat count) 0
    (fun byte word => Z.lor word (u32 (Z.shiftl (data.[offset + byte]) (8 * byte)))) 0)) as H.
  { apply for_each_ind.
    - intros k word Hk HP j Hj. rewrite Z.lor_spec, HP, shifted_byte_testbit by (try lia; apply Hb; lia).
      destruct (decide (j < 8 * k)).
      + rewrite (proj2 (Z.ltb_lt j (8 * k))), (proj2 (Z.ltb_lt j (8 * (k + 1)))) by lia.
        rewrite (proj2 (Z.leb_gt (8 * k) j)) by lia. cbn. by rewrite orb_false_r.
      + rewrite (proj2 (Z.ltb_ge j (8 * k))), (proj2 (Z.leb_le (8 * k) j)) by lia. cbn [andb orb].
        replace (8 * (k + 1)) with (8 * k + 8) by lia.
        destruct (j <? 8 * k + 8) eqn:E; bsimp; cbn [andb]; [|done].
        replace (j / 8) with k by (apply Z.div_unique with (j - 8 * k); lia).
        f_equal. rewrite Z.mod_eq by lia.
        replace (j / 8) with k by (apply Z.div_unique with (j - 8 * k); lia). lia.
    - intros j Hj. rewrite Z.testbit_0_l. by rewrite (proj2 (Z.ltb_ge _ _)) by lia. }
  rewrite Z2Nat.id, Z.add_0_l in H by lia. by apply H.
Qed.

Lemma byte_of_pack data offset count k :
  0 <= k < count -> count <= 4 -> 0 <= offset ->
  (forall k, 0 <= k < count -> fits 8 (data.[offset + k])) ->
  byte_of (pack_word data offset count) k = data.[offset + k].
Proof.
  intros Hk Hc Ho Hb. apply Z.bits_inj'. intros i Hi.
  destruct (decide (i < 8)).
  - rewrite byte_of_testbit, pack_word_bits by (lia || done).
    rewrite (proj2 (Z.ltb_lt _ _)) by lia. cbn [andb].
    replace ((8 * k + i) / 8) with k by (apply Z.div_unique with i; lia).
    f_equal. symmetry. apply Z.mod_unique with k; lia.
  - rewrite byte_of_high by lia. symmetry. apply fits8_testbit; [by apply Hb|lia].
Qed.

(** ** Memory behind a region *)

Section memory.
Context {X : Type} `{PL : Platform X}.

(** [mem] is the contents of the words at [base .. base + size): reads return
    them and change nothing there, writes replace one word. *)
Class Memory (mem : X -> Z -> Z) (base size : Z) := {
  mem_read : forall a x, base <= a < base + size ->
    fst (Xil_In32 a x) = mem x a;
  mem_read_keeps : forall a b x, base <= a < base + size -> base <= b < base + size ->
    mem (snd (Xil_In32 a x)) b = mem x b;
  mem_write : forall a b v x, base <= a < base + size -> base <= b < base + size ->
    mem (Xil_Out32 a v x) b = if decide (b = a) then v else mem x b
}.

(** The opened region of a driver. *)
Definition opened (region : bvstk_mmio_region_t) (base size : Z) : Prop :=
  region = Region base size base /\ 0 < base /\ 0 < size /\ base + size <= 2 ^ 32.

Lemma opened_access region base size offset :
  opened region base size -> 0 <= offset -> offset + 4 <= size -> offset mod 4 = 0 ->
  check_access (Some region) offset = false /\
  u32 (rg_physical_base region + offset) = base + offset.
Proof.
  intros (-> & Hb & Hs & Hmax) Ho Hlt Hal. cbn. split.
  - rewrite (proj2 (Z.eqb_neq base 0)), (proj2 (Z.ltb_ge size 4)) by lia. cbn [orb].
    rewrite (proj2 (Z.ltb_ge _ offset)) by lia. rewrite orb_false_r.
    change 3 with (Z.ones 2). rewrite Z.land_ones by lia. change (2 ^ 2) with 4. by rewrite Hal.
  - apply u32_id. lia.
Qed.

Lemma write32_run region base size offset v x :
  opened region base size -> 0 <= offset -> offset + 4 <= size -> offset mod 4 = 0 ->
  write32 region offset v x = (BVSTK_OK, Xil_Out32 (base + offset) v x).
Proof.
  intros Hop Ho Hlt Hal. destruct (opened_access region base size offset Hop Ho Hlt Hal) as [H1 H2].
  unfold write32, bvstk_mmio_write32. by rewrite H1, H2.
Qed.

Lemma read32_run region base size offset x :
  opened region base size -> 0 <= offset -> offset + 4 <= size -> offset mod 4 = 0 ->
  read32 region offset x =
    (let '(v, x') := Xil_In32 (base + offset) x in ((BVSTK_OK, v), x')).
Proof.
  intros Hop Ho Hlt Hal. destruct (opened_access region base size offset Hop Ho Hlt Hal) as [H1 H2].
  unfold read32, bvstk_mmio_read32. rewrite H1, H2. cbn. by destruct (Xil_In32 _ _).
Qed.

(** Byte [k] of the mailbox that starts at word address [a]. *)
Definition mem_byte (m : Z -> Z) (a k : Z) : Z := byte_of (m (a + 4 * (k / 4))) (k mod 4).

Lemma word_offset_aligned a b : a mod 4 = 0 -> b mod 4 = 0 -> (a + b) mod 4 = 0.
Proof. intros Ha Hb. by rewrite <- Z.add_mod_idemp_l, Ha by lia. Qed.

Lemma word_offset_in a b size :
  a mod 4 = 0 -> b mod 4 = 0 -> size mod 4 = 0 -> a + b < size -> a + b + 4 <= size.
Proof. Z.to_euclidean_division_equations. lia. Qed.

Lemma store_bytes_spec frame offset word count :
  0 <= offset -> 0 <= count -> offset + count <= alen frame ->
  alen (store_bytes frame offset word count) = alen frame /\
  prefix (offset + count) (store_bytes frame offset word count) =
    prefix offset frame ++ map (byte_of word) (seqZ 0 count) /\
  forall n, offset + count <= n ->
    drop (Z.to_nat n) (store_bytes frame offset word count) = drop (Z.to_nat n) frame.
Proof.
  intros Ho Hc Hn. unfold store_bytes.
  pose (P k fr := alen fr = alen frame /\
    prefix (offset + k) fr = prefix offset frame ++ map (byte_of word) (seqZ 0 k) /\
    forall n, offset + count <= n -> drop (Z.to_nat n) fr = drop (Z.to_nat n) frame).
  pose proof (for_each_ind P (Z.to_nat count) 0
    (fun byte fr => fr.[offset + byte <- byte_of word byte]) frame) as Hind.
  rewrite Z2Nat.id, Z.add_0_l in Hind by lia. apply Hind; clear Hind; unfold P.
  - intros k fr Hk (Hl & Hp & Hd). split; [by rewrite alen_aset|]. split.
    + rewrite Z.add_assoc, prefix_snoc, Hp by lia. rewrite <- app_assoc. f_equal.
      rewrite seqZ_app by lia. rewrite map_app. by rewrite Z.add_0_l.
    + intros n' Hn'. unfold aset. rewrite drop_insert_lt by lia. by apply Hd.
  - rewrite Z.add_0_r. cbn. by rewrite app_nil_r.
Qed.

(** The [count] bytes of the word at [a + offset]. *)
Lemma word_bytes m a offset count :
  offset mod 4 = 0 -> count <= 4 ->
  map (byte_of (m (a + offset))) (seqZ 0 count) = map (mem_byte m a) (seqZ offset count).
Proof.
  intros Hal Hc. pose proof (Z.div_mod offset 4 ltac:(lia)) as Hd.
  apply list_eq. intros i. change (map ?f ?l) with (f <$> l).
  rewrite !list_lookup_fmap. destruct (decide (Z.of_nat i < count)).
  - rewrite !lookup_seqZ_lt by lia. cbn. f_equal. unfold mem_byte.
    assert ((offset + Z.of_nat i) / 4 = offset / 4) as Hdiv
      by (symmetry; apply Z.div_unique with (Z.of_nat i); lia).
    pose proof (Z.div_mod (offset + Z.of_nat i) 4 ltac:(lia)).
    rewrite Hdiv in *. f_equal; [f_equal; f_equal|]; lia.
  - by rewrite !lookup_seqZ_ge by lia.
Qed.

(** Bytes that agree one by one are the array's prefix. *)
Lemma bytes_prefix (f : Z -> Z) (data : list Z) n :
  0 <= n <= alen data -> (forall k, 0 <= k < n -> f k = data.[k]) ->
  map f (seqZ 0 n) = prefix n data.
Proof.
  intros Hn Hf. unfold prefix, alen in *. apply list_eq. intros i. change (map ?g ?l) with (g <$> l).
  rewrite list_lookup_fmap. destruct (decide (Z.of_nat i < n)).
  - rewrite lookup_seqZ_lt, lookup_take_lt by lia. cbn. rewrite Hf by lia.
    rewrite <- aget_lookup by (unfold alen; lia). f_equal. lia.
  - rewrite lookup_seqZ_ge, lookup_take_ge by lia. done.
Qed.

Context (mem : X -> Z -> Z) (base size : Z) `{HM : !Memory mem base size}.

Lemma write32_mem region offset v x :
  opened region base size -> 0 <= offset -> offset + 4 <= size -> offset mod 4 = 0 ->
  runs (write32 region offset v) x (fun status x' => status = BVSTK_OK /\
    forall a, base <= a < base + size ->
      mem x' a = if decide (a = base + offset) then v else mem x a).
Proof.
  intros Hop Ho Hlt Hal. unfold runs. rewrite (write32_run region base size) by done.
  cbn. split; [done|]. intros a Ha. apply mem_write; lia.
Qed.

Lemma read32_mem region offset x :
  opened region base size -> 0 <= offset -> offset + 4 <= size -> offset mod 4 = 0 ->
  runs (read32 region offset) x (fun r x' => r = (BVSTK_OK, mem x (base + offset)) /\
    forall a, base <= a < base + size -> mem x' a = mem x a).
Proof.
  intros Hop Ho Hlt Hal. unfold runs. rewrite (read32_run region base size) by done.
  assert (base <= base + offset < base + size) as Hin by lia.
  pose proof (mem_read _ x Hin) as Hr.
  pose proof (fun a Ha => mem_read_keeps _ a x Hin Ha) as Hk.
  destruct (Xil_In32 _ _) as [v x']. cbn in *. by subst v.
Qed.

(** The words between [lo] and [hi] may differ. *)
Definition words_kept (x x' : X) (lo hi : Z) : Prop :=
  forall a, base <= a < base + size -> a < lo \/ hi <= a -> mem x' a = mem x a.

(** [offset] bytes written; the next word starts at [offset]. *)
Lemma write_words_loop_spec fuel region base_offset data n offset x :
  opened region base size -> 0 <= base_offset -> base_offset mod 4 = 0 ->
  size mod 4 = 0 -> base_offset + n <= size -> n <= alen data -> Forall (fits 8) data ->
  0 <= offset <= n -> (offset mod 4 = 0 \/ offset = n) -> n - offset <= Z.of_nat fuel ->
  runs (write_words_loop fuel region base_offset data n offset) x (fun status x' =>
    status = BVSTK_OK /\
    (forall k, offset <= k < n -> mem_byte (mem x') (base + base_offset) k = data.[k]) /\
    words_kept x x' (base + base_offset + offset) (base + base_offset + n + 3)).
Proof.
  intros Hop Hbo Hbm Hsm Hsz Hn Hdata. revert offset x.
  induction fuel as [|fuel IH]; intros offset x Ho Hal Hf.
  { replace offset with n by lia. split; [done|]. split; [lia|done]. }
  cbn [write_words_loop]. destruct (offset <? n) eqn:Hlt; bsimp.
  2:{ split; [done|]. split; [lia|done]. }
  assert (offset mod 4 = 0) as Hal4 by lia. clear Hal.
  apply runs_bind. eapply runs_mono.
  { apply write32_mem; [done|lia| |]; eauto using word_offset_in, word_offset_aligned with lia. }
  intros ? x1 [-> H1]. cbn [is_ok negb]. set (count := Z.min (n - offset) 4).
  eapply runs_mono.
  { apply IH; [lia| |lia]. destruct (decide (n - offset <= 4)); [right; lia|left].
    replace count with 4 by lia. rewrite <- Z.add_mod_idemp_l, Hal4 by lia. done. }
  intros ? x2 (-> & H2 & H3). split; [done|]. split.
  - intros k Hk. destruct (decide (k < offset + count)) as [Hlo|Hhi]; [|apply H2; lia].
    assert (k / 4 = offset / 4) as Hdiv.
    { symmetry. apply Z.div_unique with (k - offset); [lia|].
      pose proof (Z.div_mod offset 4). lia. }
    assert (4 * (k / 4) = offset) as Hw by (pose proof (Z.div_mod offset 4); lia).
    assert (k mod 4 = k - offset) as Hm by (pose proof (Z.div_mod k 4); lia).
    unfold mem_byte. rewrite Hw, Hm, H3, H1 by lia.
    rewrite decide_True by lia. rewrite byte_of_pack; [f_equal; lia|lia|lia|lia|].
    intros j Hj. rewrite Forall_forall in Hdata. apply Hdata, aget_in. lia.
  - intros a Ha Hout. rewrite H3 by lia. rewrite H1 by lia. by rewrite decide_False by lia.
Qed.

Lemma write_words_spec region base_offset data n x :
  opened region base size -> 0 <= base_offset -> base_offset mod 4 = 0 ->
  size mod 4 = 0 -> base_offset + n <= size -> 0 <= n <= alen data -> Forall (fits 8) data ->
  runs (write_words region base_offset data n) x (fun status x' =>
    status = BVSTK_OK /\
    (forall k, 0 <= k < n -> mem_byte (mem x') (base + base_offset) k = data.[k]) /\
    words_kept x x' (base + base_offset) (base + base_offset + n + 3)).
Proof.
  intros. pose proof (write_words_loop_spec (Z.to_nat n) region base_offset data n 0 x) as H'.
  rewrite Z.add_0_r in H'. apply H'; try done; try lia. by left.
Qed.

Lemma read_words_loop_spec fuel region base_offset n offset frame x :
  opened region base size -> 0 <= base_offset -> base_offset mod 4 = 0 ->
  size mod 4 = 0 -> base_offset + n <= size -> n <= alen frame ->
  0 <= offset <= n -> (offset mod 4 = 0 \/ offset = n) -> n - offset <= Z.of_nat fuel ->
  runs (read_words_loop fuel region base_offset n offset frame) x (fun r x' =>
    (exists frame', r = (BVSTK_OK, frame') /\ alen frame' = alen frame /\
      prefix n frame' = prefix offset frame ++
        map (mem_byte (mem x) (base + base_offset)) (seqZ offset (n - offset)) /\
      drop (Z.to_nat n) frame' = drop (Z.to_nat n) frame) /\
    words_kept x x' 0 0).
Proof.
  intros Hop Hbo Hbm Hsm Hsz. revert offset frame x.
  induction fuel as [|fuel IH]; intros offset frame x Hn Ho Hal Hf.
  { split; [|done]. exists frame. replace (n - offset) with 0 by lia.
    replace offset with n by lia. cbn. by rewrite app_nil_r. }
  cbn [read_words_loop]. destruct (offset <? n) eqn:Hlt; bsimp.
  2:{ split; [|done]. exists frame. replace (n - offset) with 0 by lia.
      replace offset with n by lia. cbn. by rewrite app_nil_r. }
  assert (offset mod 4 = 0) as Hal4 by lia. clear Hal.
  apply runs_bind. eapply runs_mono.
  { apply read32_mem; [done|lia| |]; eauto using word_offset_in, word_offset_aligned with lia. }
  intros ? x1 [-> H1]. cbn [fst snd is_ok negb]. set (count := Z.min (n - offset) 4).
  destruct (store_bytes_spec frame offset (mem x (base + (base_offset + offset))) count)
    as (Hl1 & Hp1 & Hd1); [lia..|].
  eapply runs_mono.
  { apply IH; [lia|lia| |lia]. destruct (decide (n - offset <= 4)); [right; lia|left].
    replace count with 4 by lia. rewrite <- Z.add_mod_idemp_l, Hal4 by lia. done. }
  intros ? x2 ((frame' & -> & Hl & Hp & Hd) & H2).
  split; [|intros a Ha Hout; rewrite H2 by lia; by apply H1].
  exists frame'. split; [done|]. split; [lia|]. split; [|rewrite Hd; apply Hd1; lia].
  rewrite Hp, Hp1, <- app_assoc. f_equal.
  replace (n - offset) with (count + (n - (offset + count))) by lia.
  rewrite seqZ_app by lia. rewrite map_app. f_equal.
  - rewrite Z.add_assoc. apply (word_bytes (mem x)); lia.
  - apply map_ext_in. intros k Hk. apply list_elem_of_In, elem_of_seqZ in Hk.
    unfold mem_byte. f_equal. apply H1.
    pose proof (Z.div_mod k 4). pose proof (Z.mod_pos_bound k 4). lia.
Qed.

(** The copy fills the first [n] bytes of [frame] from the mailbox and leaves
    the rest of it, and the memory, alone. *)
Lemma read_words_spec region base_offset n frame x :
  opened region base size -> 0 <= base_offset -> base_offset mod 4 = 0 ->
  size mod 4 = 0 -> base_offset + n <= size -> 0 <= n <= alen frame ->
  runs (read_words region base_offset n frame) x (fun r x' =>
    r = (BVSTK_OK, map (mem_byte (mem x) (base + base_offset)) (seqZ 0 n) ++ drop (Z.to_nat n) frame) /\
    words_kept x x' 0 0).
Proof.
  intros. eapply runs_mono; [apply read_words_loop_spec; try done; try lia; by left|].
  intros r x' ((frame' & -> & Hl & Hp & Hd) & Hk). split; [|done]. f_equal.
  rewrite Z.sub_0_r, prefix_0 in Hp. cbn [app] in Hp.
  by rewrite <- (take_drop (Z.to_nat n) frame'), Hd, <- Hp.
Qed.
End memory.

(** ** Traces and time

    For drivers that poll: [log] lists the register accesses made so far with
    the values read, [time] is real time in milliseconds.  The laws say what a
    log is, and that the driver's clock reads real time modulo [2^64], that
    time never runs backwards, that sleeping takes at least the time asked for,
    and that no single operation takes 49 days ([2^32] ms). *)

Inductive io := Rd (address value : Z) | Wr (address value : Z).

#[export] Instance io_eq_dec : EqDecision io.
Proof. solve_decision. Defined.

Definition clock_sleep {X} `{PL : Platform X} (clock : option (bvstk_clock_t X)) (ms : Z)
    : ST X unit := fun x => (tt, bvstk_clock_sleep_ms clock ms x).

Class Traced {X} `{PL : Platform X} (clock : option (bvstk_clock_t X))
    (log : X -> list io) (time : X -> Z) := {
  log_in : forall a x, log (snd (Xil_In32 a x)) = log x ++ [Rd a (fst (Xil_In32 a x))];
  log_out : forall a v x, log (Xil_Out32 a v x) = log x ++ [Wr a v];
  log_now : forall x, log (snd (bvstk_clock_now_ms clock x)) = log x;
  log_sleep : forall ms x, log (bvstk_clock_sleep_ms clock ms x) = log x;
  now_time : forall x, fst (bvstk_clock_now_ms clock x) = u64 (time x);
  time_in : forall a x, 0 <= time (snd (Xil_In32 a x)) - time x < 2 ^ 32;
  time_out : forall a v x, 0 <= time (Xil_Out32 a v x) - time x < 2 ^ 32;
  time_now : forall x, 0 <= time (snd (bvstk_clock_now_ms clock x)) - time x < 2 ^ 32;
  time_sleep : forall ms x, 0 <= ms < 2 ^ 32 ->
    ms <= time (bvstk_clock_sleep_ms clock ms x) - time x <= ms + 2 ^ 32
}.

Section traced.
Context {X : Type} `{PL : Platform X} (clock : option (bvstk_clock_t X)).
Context (log : X -> list io) (time : X -> Z) `{HT : !Traced clock log time}.

(** [x'] comes after [x], with the accesses [l] in between. *)
Definition after (x x' : X) (l : list io) : Prop := log x' = log x ++ l /\ time x <= time x'.

Lemma after_refl x : after x x [].
Proof. split; [by rewrite app_nil_r|lia]. Qed.

Lemma after_trans x1 x2 x3 l1 l2 : after x1 x2 l1 -> after x2 x3 l2 -> after x1 x3 (l1 ++ l2).
Proof. intros [H1 ?] [H2 ?]. split; [by rewrite H2, H1, app_assoc|lia]. Qed.

Lemma write32_traced region base size offset v x :
  opened region base size -> 0 <= offset -> offset + 4 <= size -> offset mod 4 = 0 ->
  runs (write32 region offset v) x (fun status x' =>
    status = BVSTK_OK /\ after x x' [Wr (base + offset) v] /\ time x' < time x + 2 ^ 32).
Proof.
  intros Hop Ho Hlt Hal. unfold runs. rewrite (write32_run region base size) by done. cbn.
  pose proof (time_out (base + offset) v x). split; [done|].
  split; [split; [apply log_out|lia]|lia].
Qed.

Lemma read32_traced region base size offset x :
  opened region base size -> 0 <= offset -> offset + 4 <= size -> offset mod 4 = 0 ->
  runs (read32 region offset) x (fun r x' => exists v,
    r = (BVSTK_OK, v) /\ after x x' [Rd (base + offset) v] /\ time x' < time x + 2 ^ 32).
Proof.
  intros Hop Ho Hlt Hal. unfold runs. rewrite (read32_run region base size) by done.
  pose proof (time_in (base + offset) x) as Ht. pose proof (log_in (base + offset) x) as Hl.
  destruct (Xil_In32 _ _) as [v x']. cbn in *. exists v.
  split; [done|]. split; [split; [done|lia]|lia].
Qed.

Lemma now_traced x :
  runs (bvstk_clock_now_ms clock) x (fun now x' =>
    now = u64 (time x) /\ after x x' [] /\ time x' < time x + 2 ^ 32).
Proof.
  pose proof (time_now x). split; [apply now_time|].
  split; [split; [by rewrite log_now, app_nil_r|lia]|lia].
Qed.

Lemma sleep_traced ms x :
  0 <= ms < 2 ^ 32 ->
  runs (clock_sleep clock ms) x (fun _ x' =>
    after x x' [] /\ time x + ms <= time x' <= time x + ms + 2 ^ 32).
Proof.
  intros Hms. pose proof (time_sleep ms x Hms). unfold runs, clock_sleep. cbn.
  split; [split; [by rewrite log_sleep, app_nil_r|lia]|lia].
Qed.

(** Elapsed time as the drivers compute it, [now - start] at 64 bits. *)
Lemma elapsed_u64 t t0 : 0 <= t - t0 < 2 ^ 64 -> u64 (u64 t - u64 t0) = t - t0.
Proof.
  intros H. unfold u64, wrap. rewrite Zminus_mod_idemp_l, Zminus_mod_idemp_r.
  apply Z.mod_small. lia.
Qed.

(** At the head of a polling round that started when time was [t0]. *)
Definition polling (t0 timeout : Z) (fuel : nat) (x : X) : Prop :=
  0 <= time x - t0 < 2 ^ 36 /\ timeout - (time x - t0) < Z.of_nat fuel /\ 0 < Z.of_nat fuel.

(** A round that is neither answered nor late sleeps and polls again. *)
Lemma poll_again {A} (Q : A -> X -> Prop) fuel t0 timeout (late : A) (again : ST X A) x :
  0 <= time x - t0 < 2 ^ 37 -> 0 <= timeout < 2 ^ 32 -> timeout - (time x - t0) < Z.of_nat (S fuel) ->
  (forall x', after x x' [] -> time x' < time x + 2 ^ 32 -> Q late x') ->
  (forall x', after x x' [] -> polling t0 timeout fuel x' -> time x' - t0 < 2 ^ 34 ->
     runs again x' Q) ->
  runs (let! now := bvstk_clock_now_ms clock in
        if timeout <=? u64 (now - u64 t0) then st_ret late
        else clock_sleep clock 1 ;; again) x Q.
Proof.
  intros Ht Hto Hf Hlate Hagain. apply runs_bind. eapply runs_mono; [apply now_traced|].
  intros ? x1 (-> & H1 & H1'). rewrite elapsed_u64 by lia.
  destruct (timeout <=? time x - t0) eqn:E; bsimp; [by apply Hlate|].
  apply runs_bind. eapply runs_mono; [by apply sleep_traced|].
  intros ? x2 [H2 H2']. assert (after x x2 []) as H3.
  { eapply (after_trans _ _ _ [] []); done. }
  destruct H1, H2. apply Hagain; [done| |lia]. split; [|split]; lia.
Qed.

(** What [read_words] reads, and that the bytes it stores are those of the
    words it read: [m] gives the word read at each offset. *)
Definition word_reads (m : Z -> Z) (a j n : Z) : list io :=
  map (fun k => Rd (a + 4 * k) (m (4 * k))) (seqZ j ((n + 3) / 4 - j)).

Lemma word_reads_cons m a j n :
  4 * j < n -> word_reads m a j n = Rd (a + 4 * j) (m (4 * j)) :: word_reads m a (j + 1) n.
Proof.
  intros Hj. unfold word_reads. assert (j < (n + 3) / 4) by (Z.to_euclidean_division_equations; lia).
  rewrite seqZ_cons by lia. cbn. do 3 f_equal; lia.
Qed.

Lemma read_words_loop_traced fuel region base size base_offset n j frame x :
  opened region base size -> 0 <= base_offset -> base_offset mod 4 = 0 ->
  size mod 4 = 0 -> base_offset + n <= size -> n <= alen frame ->
  0 <= j -> 0 <= n - Z.min (4 * j) n <= Z.of_nat fuel ->
  runs (read_words_loop fuel region base_offset n (Z.min (4 * j) n) frame) x (fun r x' =>
    exists frame' m, r = (BVSTK_OK, frame') /\
      after x x' (word_reads m (base + base_offset) j n) /\
      alen frame' = alen frame /\
      prefix n frame' = prefix (Z.min (4 * j) n) frame ++
        map (mem_byte m 0) (seqZ (Z.min (4 * j) n) (n - Z.min (4 * j) n))).
Proof.
  intros Hop Hbo Hbm Hsm Hsz. revert j frame x.
  assert (forall j frame x, n <= 4 * j -> exists frame' m, (BVSTK_OK, frame) = (BVSTK_OK, frame') /\
      after x x (word_reads m (base + base_offset) j n) /\ alen frame' = alen frame /\
      prefix n frame' = prefix (Z.min (4 * j) n) frame ++
        map (mem_byte m 0) (seqZ (Z.min (4 * j) n) (n - Z.min (4 * j) n))) as Hend.
  { intros j frame x Hj. exists frame, (fun _ => 0). rewrite Z.min_r by lia.
    rewrite Z.sub_diag. cbn. rewrite app_nil_r.
    assert ((n + 3) / 4 - j <= 0) by (Z.to_euclidean_division_equations; lia).
    unfold word_reads. rewrite seqZ_nil by lia. eauto using after_refl. }
  induction fuel as [|fuel IH]; intros j frame x Hn Hj Hf; [apply Hend; lia|].
  cbn [read_words_loop]. destruct (Z.min (4 * j) n <? n) eqn:Hlt; bsimp; [|apply Hend; lia].
  rewrite Z.min_l in * by lia. apply runs_bind. eapply runs_mono.
  { apply (read32_traced _ base size); [done|lia|apply word_offset_in|apply word_offset_aligned]; try done; try lia;
      rewrite Z.mul_comm; apply Z.mod_mul; lia. }
  intros ? x1 (v & -> & Hx1 & _). cbn [fst snd is_ok negb].
  replace (4 * j + Z.min (n - 4 * j) 4) with (Z.min (4 * (j + 1)) n) by lia.
  set (count := Z.min (n - 4 * j) 4).
  destruct (store_bytes_spec frame (4 * j) v count) as (Hl1 & Hp1 & _); [lia..|].
  eapply runs_mono; [apply IH; lia|].
  intros ? x2 (frame' & m & -> & Hx2 & Hl & Hp).
  exists frame', (fun a => if decide (a = 4 * j) then v else m a).
  split; [done|]. split; [|split; [lia|]].
  - rewrite word_reads_cons by lia. rewrite decide_True by done. rewrite <- Z.add_assoc.
    eapply (after_trans _ _ _ [_]); [done|]. replace (word_reads _ _ _ _)
      with (word_reads m (base + base_offset) (j + 1) n); [done|].
    apply map_ext_in. intros k Hk. apply list_elem_of_In, elem_of_seqZ in Hk.
    by rewrite decide_False by lia.
  - rewrite Hp. replace (Z.min (4 * (j + 1)) n) with (4 * j + count) by lia.
    rewrite Hp1, <- app_assoc. f_equal.
    replace (n - 4 * j) with (count + (n - (4 * j + count))) by lia.
    rewrite seqZ_app, map_app by lia. f_equal.
    + rewrite <- word_bytes by (lia || (rewrite Z.mul_comm; apply Z.mod_mul; lia)).
      by rewrite decide_True by lia.
    + apply map_ext_in. intros k Hk. apply list_elem_of_In, elem_of_seqZ in Hk. unfold mem_byte.
      rewrite decide_False; [done|]. Z.to_euclidean_division_equations. lia.
Qed.

Lemma read_words_traced region base size base_offset n frame x :
  opened region base size -> 0 <= base_offset -> base_offset mod 4 = 0 ->
  size mod 4 = 0 -> base_offset + n <= size -> 0 <= n <= alen frame ->
  runs (read_words region base_offset n frame) x (fun r x' =>
    exists frame' m, r = (BVSTK_OK, frame') /\
      after x x' (word_reads m (base + base_offset) 0 n) /\
      alen frame' = alen frame /\ prefix n frame' = map (mem_byte m 0) (seqZ 0 n)).
Proof.
  intros. pose proof (read_words_loop_traced (Z.to_nat n) region base size base_offset n 0 frame x) as Hr.
  rewrite Z.min_l, Z.sub_0_r, prefix_0 in Hr by lia. apply Hr; try done; lia.
Qed.
End traced.

(** ** A platform that is a plain memory, for concrete inputs *)

Definition ram_platform : Platform (Z -> Z) := {|
  bvstk_platform_now_ms := fun x => (0, x);
  bvstk_platform_sleep_ms := fun _ x => x;
  Xil_In32 := fun a x => (x a, x);
  Xil_Out32 := fun a v x b => if decide (b = a) then v else x b
|}.

Lemma ram_memory base size : @Memory (Z -> Z) ram_platform (fun x a => x a) base size.
Proof. by constructor. Qed.

(** ** A platform with a log and a clock, for concrete inputs

    [answer] gives the value read at each address; sleeping takes exactly the
    time asked for. *)

Section scripted.
Context (answer : Z -> Z).

Definition scripted_platform : Platform (list io * Z) := {|
  bvstk_platform_now_ms := fun x => (u64 (snd x), x);
  bvstk_platform_sleep_ms := fun ms x => (fst x, snd x + ms);
  Xil_In32 := fun a x => (answer a, (fst x ++ [Rd a (answer a)], snd x));
  Xil_Out32 := fun a v x => (fst x ++ [Wr a v], snd x)
|}.

Lemma scripted_traced :
  @Traced _ scripted_platform (Some (Clock None None)) fst snd.
Proof. constructor; intros; cbn; try done; lia. Qed.
End scripted.
