(* ===== verification/Journal.v ===== *)
(** * Journal: the software event journal (shared/events/bvstk_journal)

    Two rings of 256 events per bus, written by [bvstk_journal_publish] and
    polled by cursor with [bvstk_journal_read].  The abstract state of a ring
    is the list of every event ever published to it; [ring_rep] says how the
    ring stores the last 256 of them, and the reader is shown equal to a read
    of that history. *)
From stdpp Require Import prelude.
From Stdlib Require Import ZArith Lia.
From S2P Require Import Prelude Platform.
Local Open Scope Z_scope.

Definition BVSTK_JOURNAL_CAPACITY : Z := 256.
Definition BVSTK_JOURNAL_BATCH : Z := 32.
Definition BVSTK_JOURNAL_BUSES : Z := 2.
Definition BVSTK_JOURNAL_HISTORY : Z := 18446744073709551615.
Definition BVSTK_JOURNAL_EVENTS : Z := 0.
Definition BVSTK_JOURNAL_TELEMETRY : Z := 1.

Record bvstk_journal_record_t := Rec { rec_sequence : Z; rec_event : bvstk_event_t }.

Record bvstk_journal_ring_t := Ring {
  ring_head : Z;
  ring_entries : list bvstk_event_t
}.

#[export] Instance ring_inhabited : Inhabited bvstk_journal_ring_t :=
  populate (Ring 0 (fill BVSTK_JOURNAL_CAPACITY inhabitant)).

(** Indexed by bus, then by channel. *)
Record bvstk_journal_t := Journal { rings : list (list bvstk_journal_ring_t) }.

(** The zero-initialized object. *)
Definition journal_zero : bvstk_journal_t :=
  Journal (fill BVSTK_JOURNAL_BUSES (fill 2 inhabitant)).

(** [batch_records] holds the first [batch_count] cells of [records]. *)
Record bvstk_journal_batch_t := Batch {
  batch_next : Z;
  batch_head : Z;
  batch_lost : Z;
  batch_count : Z;
  batch_reset : Z;
  batch_records : list bvstk_journal_record_t
}.

Definition batch_zero : bvstk_journal_batch_t := Batch 0 0 0 0 0 [].

Definition bvstk_event_is_telemetry (type : Z) : bool :=
  (BVSTK_EVENT_CAPTURE_WRITE <=? type) && (type <=? BVSTK_EVENT_SLAVE_REPLY_PREPARED).

(** [entries[head % CAPACITY] = e; ++head]. *)
Definition ring_push (r : bvstk_journal_ring_t) (e : bvstk_event_t) : bvstk_journal_ring_t :=
  Ring (u64 (ring_head r + 1))
       ((ring_entries r).[ring_head r mod BVSTK_JOURNAL_CAPACITY <- e]).

Definition get_ring (j : bvstk_journal_t) (bus channel : Z) : bvstk_journal_ring_t :=
  (rings j).[bus].[channel].

Definition set_ring (j : bvstk_journal_t) (bus channel : Z) (r : bvstk_journal_ring_t)
    : bvstk_journal_t :=
  Journal ((rings j).[bus <- (rings j).[bus].[channel <- r]]).

(** The channel an event type belongs to. *)
Definition event_channel (type : Z) : Z :=
  if bvstk_event_is_telemetry type then BVSTK_JOURNAL_TELEMETRY else BVSTK_JOURNAL_EVENTS.

(** The events the journal keeps: the others return early. *)
Definition event_accepted (e : bvstk_event_t) : bool :=
  (ev_bus e <? BVSTK_JOURNAL_BUSES) &&
  negb (negb (bvstk_event_is_telemetry (ev_type e)) &&
        ((ev_type e <? BVSTK_EVENT_REG_ATTEMPT) || (BVSTK_EVENT_FAULT <? ev_type e))).

Definition bvstk_journal_publish (journal : option bvstk_journal_t)
    (event : option bvstk_event_t) : option bvstk_journal_t :=
  match journal, event with
  | Some j, Some e =>
      if event_accepted e then
        let c := event_channel (ev_type e) in
        Some (set_ring j (ev_bus e) c (ring_push (get_ring j (ev_bus e) c) e))
      else Some j
  | _, _ => journal
  end.

Definition bvstk_journal_head (journal : option bvstk_journal_t) (bus channel : Z) : Z :=
  match journal with
  | Some j =>
      if (bus <? BVSTK_JOURNAL_BUSES) && (channel <? 2) then ring_head (get_ring j bus channel)
      else 0
  | None => 0
  end.

(** The address filter: a negative address selects every event. *)
Definition address_matches (address : Z) (e : bvstk_event_t) : bool :=
  negb ((0 <=? address) && negb (ev_arg0 e =? u32 address)).

(** The [while] loop; [n] is [head - after], so that [after < head] iff [n > 0]. *)
Fixpoint read_loop (n : nat) (entries : list bvstk_event_t) (address after : Z)
    (records : list bvstk_journal_record_t) : list bvstk_journal_record_t * Z :=
  match n with
  | O => (records, after)
  | S n =>
      if alen records <? BVSTK_JOURNAL_BATCH then
        let e := entries.[after mod BVSTK_JOURNAL_CAPACITY] in
        if address_matches address e
        then read_loop n entries address (after + 1) (records ++ [Rec (after + 1) e])
        else read_loop n entries address (after + 1) records
      else (records, after)
  end.

(** Oldest retained position. *)
Definition first_retained (head : Z) : Z :=
  if BVSTK_JOURNAL_CAPACITY <? head then head - BVSTK_JOURNAL_CAPACITY else 0.

(** Where the scan starts: (reset, lost, position). *)
Definition read_start (head after : Z) : Z * Z * Z :=
  let first := first_retained head in
  let '(reset, after) :=
    if after =? BVSTK_JOURNAL_HISTORY then (0, first)
    else if head <? after then (1, first) else (0, after) in
  if after <? first then (reset, first - after, first) else (reset, 0, after).

Definition read_ring (r : bvstk_journal_ring_t) (address after : Z) : bvstk_journal_batch_t :=
  let '(reset, lost, start) := read_start (ring_head r) after in
  let '(records, next) :=
    read_loop (Z.to_nat (ring_head r - start)) (ring_entries r) address start [] in
  Batch next (ring_head r) lost (alen records) reset records.

(** [out] is false for a NULL output pointer: nothing is returned. *)
Definition bvstk_journal_read (journal : option bvstk_journal_t) (bus channel address after : Z)
    (out : bool) : option bvstk_journal_batch_t :=
  if negb out then None
  else match journal with
       | None => Some batch_zero
       | Some j =>
           if (BVSTK_JOURNAL_BUSES <=? bus) || (2 <=? channel) then Some batch_zero
           else Some (read_ring (get_ring j bus channel) address after)
       end.

(** ** The abstract journal: a history of events *)

Definition ring_rep (r : bvstk_journal_ring_t) (h : list bvstk_event_t) : Prop :=
  ring_head r = alen h /\ alen h < BVSTK_JOURNAL_HISTORY /\
  alen (ring_entries r) = BVSTK_JOURNAL_CAPACITY /\
  forall i, first_retained (alen h) <= i < alen h ->
    (ring_entries r).[i mod BVSTK_JOURNAL_CAPACITY] = h.[i].

(** The events of a history from position [start] on, with their sequence numbers. *)
Fixpoint numbered (start : Z) (h : list bvstk_event_t) : list bvstk_journal_record_t :=
  match h with
  | [] => []
  | e :: h => Rec (start + 1) e :: numbered (start + 1) h
  end.

Definition window (h : list bvstk_event_t) (start : Z) : list bvstk_journal_record_t :=
  numbered start (drop (Z.to_nat start) h).

Definition rec_matches (address : Z) (r : bvstk_journal_record_t) : Prop :=
  address_matches address (rec_event r) = true.
#[export] Instance rec_matches_dec address r : Decision (rec_matches address r).
Proof. unfold rec_matches. apply _. Defined.

(** What a read of the history returns: the first 32 matching events of the
    window; the cursor moves to the last of them when the batch is full and to
    the end of the history otherwise. *)
Definition read_history (h : list bvstk_event_t) (address after : Z) : bvstk_journal_batch_t :=
  let '(reset, lost, start) := read_start (alen h) after in
  let records := take 32 (filter (rec_matches address) (window h start)) in
  let next := if decide (length records = 32%nat)
              then from_option rec_sequence (alen h) (last records) else alen h in
  Batch next (alen h) lost (alen records) reset records.

(** ** Lemmas *)

Lemma first_retained_bounds n : 0 <= n -> 0 <= first_retained n <= n.
Proof. unfold first_retained, BVSTK_JOURNAL_CAPACITY. case_match; lia. Qed.

Lemma read_start_bounds n after :
  0 <= n -> 0 <= after ->
  let '(reset, lost, start) := read_start n after in
  first_retained n <= start <= n /\ 0 <= lost.
Proof.
  intros Hn Ha. pose proof (first_retained_bounds n Hn).
  unfold read_start. repeat case_match; simplify_eq; bsimp; lia.
Qed.

Lemma ring_rep_zero : ring_rep (Ring 0 (fill BVSTK_JOURNAL_CAPACITY inhabitant)) [].
Proof.
  repeat split; [done..|]. intros i Hi. exfalso. revert Hi.
  change (alen []) with 0. change (first_retained 0) with 0. lia.
Qed.

(** The two positions a ring slot can hold differ by a multiple of 256. *)
Lemma slot_collision i n :
  first_retained (n + 1) <= i < n ->
  i mod BVSTK_JOURNAL_CAPACITY <> n mod BVSTK_JOURNAL_CAPACITY.
Proof.
  unfold first_retained, BVSTK_JOURNAL_CAPACITY. intros Hi Heq.
  assert (n - i < 256) by (destruct (256 <? n + 1) eqn:E; bsimp; lia).
  assert ((n - i) mod 256 = 0) as H0.
  { rewrite Zminus_mod, Heq, Z.sub_diag. done. }
  rewrite Z.mod_small in H0; lia.
Qed.

Lemma aget_snoc_l (h : list bvstk_event_t) e i :
  0 <= i < alen h -> (h ++ [e]).[i] = h.[i].
Proof. unfold aget, alen. intros. apply lookup_total_app_l. lia. Qed.

Lemma aget_snoc_r (h : list bvstk_event_t) e : (h ++ [e]).[alen h] = e.
Proof.
  unfold aget, alen. rewrite lookup_total_app_r by lia.
  by replace (_ - _)%nat with 0%nat by lia.
Qed.

Lemma alen_snoc {A} (h : list A) e : alen (h ++ [e]) = alen h + 1.
Proof. unfold alen. rewrite length_app. simpl. lia. Qed.

Lemma ring_push_rep r h e :
  ring_rep r h -> alen h + 1 < BVSTK_JOURNAL_HISTORY -> ring_rep (ring_push r e) (h ++ [e]).
Proof.
  intros (Hhead & Hlt & Hlen & Hget) Hroom. pose proof (alen_nonneg h).
  unfold ring_rep, ring_push, BVSTK_JOURNAL_HISTORY in *. cbn [ring_head ring_entries].
  rewrite alen_snoc, alen_aset, Hhead, u64_id by lia.
  repeat split; [lia|done|]. intros i Hi.
  pose proof (Z.mod_pos_bound (alen h) BVSTK_JOURNAL_CAPACITY ltac:(done)).
  pose proof (Z.mod_pos_bound i BVSTK_JOURNAL_CAPACITY ltac:(done)).
  pose proof (first_retained_bounds (alen h + 1) ltac:(lia)).
  destruct (decide (i = alen h)) as [->|Hne].
  - rewrite aget_aset_eq by lia. by rewrite aget_snoc_r.
  - rewrite aget_aset_ne; [|lia|lia|].
    + rewrite aget_snoc_l by lia. apply Hget.
      unfold first_retained in *. repeat case_match; bsimp; lia.
    + intros Heq. by apply (slot_collision i (alen h)); [lia|].
Qed.

Lemma window_cons h start :
  0 <= start < alen h ->
  window h start = Rec (start + 1) (h.[start]) :: window h (start + 1).
Proof.
  intros Hs. unfold window.
  rewrite (drop_S h (h.[start]) (Z.to_nat start)) by (by apply aget_lookup).
  simpl. by replace (Z.to_nat (start + 1)) with (S (Z.to_nat start)) by lia.
Qed.

Lemma window_end h : window h (alen h) = [].
Proof. unfold window, alen. by rewrite Nat2Z.id, drop_all. Qed.

(** The matching part of the window, unfolded by one event. *)
Definition matching (h : list bvstk_event_t) (address start : Z) : list bvstk_journal_record_t :=
  filter (rec_matches address) (window h start).

Lemma matching_cons h address start :
  0 <= start < alen h ->
  matching h address start =
    if address_matches address (h.[start])
    then Rec (start + 1) (h.[start]) :: matching h address (start + 1)
    else matching h address (start + 1).
Proof.
  intros Hs. unfold matching. rewrite window_cons by done. rewrite filter_cons.
  case_decide as Hd; unfold rec_matches in Hd; cbn in Hd.
  - by rewrite Hd.
  - by apply not_true_is_false in Hd as ->.
Qed.

(** What the loop's result says: the batch holds [acc] and the first matches,
    the cursor is the last match when it is full, the end otherwise. *)
Definition loop_result (h : list bvstk_event_t) (acc found : list bvstk_journal_record_t)
    (start : Z) (res : list bvstk_journal_record_t * Z) : Prop :=
  fst res = acc ++ found /\
  snd res = if decide (length (acc ++ found) = 32%nat)
            then from_option rec_sequence start (last found) else alen h.

(** The loop scans the window, taking matches until the batch is full. *)
Lemma read_loop_spec n entries h address start acc :
  (forall i, start <= i < alen h -> entries.[i mod BVSTK_JOURNAL_CAPACITY] = h.[i]) ->
  0 <= start -> start + Z.of_nat n = alen h -> (length acc <= 32)%nat ->
  loop_result h acc (take (32 - length acc) (matching h address start)) start
    (read_loop n entries address start acc).
Proof.
  revert start acc. induction n as [|n IH]; intros start acc Hent Hs Hn Hacc.
  - replace start with (alen h) by lia. unfold matching.
    rewrite window_end, filter_nil, take_nil. unfold loop_result. rewrite app_nil_r.
    split; [done|]. by case_decide.
  - cbn [read_loop]. destruct (alen acc <? BVSTK_JOURNAL_BATCH) eqn:Hfull;
      unfold alen, BVSTK_JOURNAL_BATCH in Hfull; bsimp.
    + rewrite matching_cons by lia. rewrite Hent by lia.
      destruct (address_matches address (h.[start])) eqn:Hm.
      * destruct (IH (start + 1) (acc ++ [Rec (start + 1) (h.[start])])) as [H1 H2];
          [intros; apply Hent; lia | lia | lia | rewrite length_app; simpl; lia |].
        replace (32 - length acc)%nat with (S (31 - length acc)) by lia. cbn [take].
        replace (32 - length (acc ++ _))%nat with (31 - length acc)%nat in H1, H2
          by (rewrite length_app; simpl; lia).
        rewrite <- app_assoc in H1, H2. split; [done|]. rewrite H2, last_cons.
        by destruct (last _).
      * destruct (IH (start + 1) acc) as [H1 H2]; [intros; apply Hent; lia | lia..|].
        split; [done|]. rewrite H2. repeat case_decide; try done.
        destruct (last _) eqn:Hlast; [done|].
        apply last_None in Hlast. rewrite Hlast, app_nil_r in *. lia.
    + replace (32 - length acc)%nat with 0%nat by lia. unfold loop_result.
      rewrite take_0, app_nil_r. split; [done|]. rewrite decide_True by lia. done.
Qed.

Lemma read_ring_history r h address after :
  ring_rep r h -> 0 <= after -> read_ring r address after = read_history h address after.
Proof.
  intros (Hhead & Hlt & Hlen & Hget) Ha. unfold read_ring, read_history. rewrite Hhead.
  pose proof (read_start_bounds (alen h) after (alen_nonneg h) Ha) as Hb.
  destruct (read_start (alen h) after) as [[reset lost] start].
  destruct Hb as [Hb _]. pose proof (first_retained_bounds (alen h) (alen_nonneg h)).
  destruct (read_loop_spec (Z.to_nat (alen h - start)) (ring_entries r) h address start [])
    as [H1 H2]; [intros; apply Hget; lia | lia | lia | simpl; lia |].
  destruct (read_loop _ _ _ _ _) as [records next]. cbn [fst snd app length] in *.
  rewrite Nat.sub_0_r in *. subst. unfold matching. f_equal.
  repeat case_decide; try done.
  destruct (last _) eqn:Hl; [done|]. apply last_None in Hl. by rewrite Hl in *.
Qed.

(** ** The whole journal against the list of published events *)

(** The history of one ring: the accepted events of its bus and channel. *)
Definition on_ring (bus channel : Z) (e : bvstk_event_t) : Prop :=
  event_accepted e = true /\ ev_bus e = bus /\ event_channel (ev_type e) = channel.
#[export] Instance on_ring_dec bus channel e : Decision (on_ring bus channel e).
Proof. unfold on_ring. apply _. Defined.

Definition ring_history (log : list bvstk_event_t) (bus channel : Z) : list bvstk_event_t :=
  filter (on_ring bus channel) log.

Definition journal_rep (j : bvstk_journal_t) (log : list bvstk_event_t) : Prop :=
  alen (rings j) = BVSTK_JOURNAL_BUSES /\
  forall bus, 0 <= bus < BVSTK_JOURNAL_BUSES ->
    alen ((rings j).[bus]) = 2 /\
    forall channel, 0 <= channel < 2 ->
      ring_rep (get_ring j bus channel) (ring_history log bus channel).

Definition event_wf (e : bvstk_event_t) : Prop := fits 8 (ev_bus e) /\ fits 16 (ev_type e).
#[export] Instance event_wf_dec e : Decision (event_wf e).
Proof. unfold event_wf. apply _. Defined.

Definition publish_all (log : list bvstk_event_t) (journal : option bvstk_journal_t)
    : option bvstk_journal_t :=
  foldl (fun j e => bvstk_journal_publish j (Some e)) journal log.

Lemma journal_zero_rep : journal_rep journal_zero [].
Proof.
  split; [done|]. intros bus Hb. unfold get_ring, journal_zero. cbn [rings].
  rewrite aget_fill by done. split; [done|]. intros c Hc.
  rewrite aget_fill by done. apply ring_rep_zero.
Qed.

Lemma event_channel_range t : 0 <= event_channel t < 2.
Proof. unfold event_channel. by case_match. Qed.

Lemma get_set_ring j b c r b' c' :
  alen (rings j) = BVSTK_JOURNAL_BUSES -> alen ((rings j).[b]) = 2 ->
  0 <= b < BVSTK_JOURNAL_BUSES -> 0 <= b' -> 0 <= c < 2 -> 0 <= c' ->
  get_ring (set_ring j b c r) b' c' = if decide (b' = b /\ c' = c) then r else get_ring j b' c'.
Proof.
  intros Hl Hl' Hb Hb' Hc Hc'. unfold get_ring, set_ring. cbn [rings].
  destruct (decide (b' = b)) as [->|Hne].
  - rewrite aget_aset_eq by lia. destruct (decide (c' = c)) as [->|Hne].
    + rewrite decide_True by done. apply aget_aset_eq. lia.
    + rewrite decide_False by (intros []; congruence). apply aget_aset_ne; lia.
  - rewrite decide_False by (intros []; congruence). rewrite aget_aset_ne; [done|lia..].
Qed.

Lemma ring_history_snoc log e b c :
  ring_history (log ++ [e]) b c =
    ring_history log b c ++ if decide (on_ring b c e) then [e] else [].
Proof.
  unfold ring_history. rewrite filter_app, filter_cons, filter_nil. by case_decide.
Qed.

Lemma ring_history_length log b c : alen (ring_history log b c) <= alen log.
Proof. unfold alen, ring_history. pose proof (length_filter (on_ring b c) log). lia. Qed.

(** Publishing appends to the abstract log. *)
Lemma publish_rep j log e :
  journal_rep j log -> event_wf e -> alen log + 1 < BVSTK_JOURNAL_HISTORY ->
  exists j', bvstk_journal_publish (Some j) (Some e) = Some j' /\ journal_rep j' (log ++ [e]).
Proof.
  intros (Hlen & Hrep) [Hbus Htype] Hroom. unfold fits in *. cbn [bvstk_journal_publish].
  destruct (event_accepted e) eqn:Hacc.
  - assert (0 <= ev_bus e < BVSTK_JOURNAL_BUSES) as Hb.
    { unfold event_accepted in Hacc. bsimp. lia. }
    pose proof (event_channel_range (ev_type e)) as Hc.
    destruct (Hrep _ Hb) as [Hl Hr]. eexists. split; [done|]. split.
    + cbn. by rewrite alen_aset.
    + intros bus Hbus'. split.
      * unfold set_ring. cbn [rings]. destruct (decide (bus = ev_bus e)) as [->|].
        -- rewrite aget_aset_eq by lia. by rewrite alen_aset.
        -- rewrite aget_aset_ne by lia. apply Hrep. lia.
      * intros c Hc'. rewrite get_set_ring by lia. rewrite ring_history_snoc.
        pose proof (ring_history_length log (ev_bus e) (event_channel (ev_type e))).
        case_decide as Hd.
        -- destruct Hd as [-> ->]. rewrite decide_True by done.
           apply ring_push_rep; [by apply Hr|lia].
        -- rewrite decide_False by (intros (_ & ? & ?); by apply Hd).
           rewrite app_nil_r. by apply Hrep.
  - eexists. split; [done|]. split; [done|]. intros bus Hb. destruct (Hrep _ Hb) as [Hl Hr].
    split; [done|]. intros c Hc. rewrite ring_history_snoc.
    rewrite decide_False by (intros (? & _); congruence). rewrite app_nil_r. by apply Hr.
Qed.

Lemma publish_all_rep log j0 log0 :
  journal_rep j0 log0 -> Forall event_wf log -> alen log0 + alen log < BVSTK_JOURNAL_HISTORY ->
  exists j, publish_all log (Some j0) = Some j /\ journal_rep j (log0 ++ log).
Proof.
  revert j0 log0. induction log as [|e log IH]; intros j0 log0 Hrep Hwf Hroom.
  - exists j0. by rewrite app_nil_r.
  - apply Forall_cons in Hwf as [He Hwf].
    assert (alen (e :: log) = alen log + 1) as Hal by (unfold alen; simpl; lia).
    pose proof (alen_nonneg log).
    destruct (publish_rep j0 log0 e Hrep He) as (j1 & Hj1 & Hrep1); [lia|].
    destruct (IH j1 (log0 ++ [e]) Hrep1 Hwf) as (j & Hj & Hrep').
    { rewrite alen_snoc. lia. }
    exists j. unfold publish_all in *. cbn [foldl]. rewrite Hj1. split; [done|].
    by rewrite <- app_assoc in Hrep'.
Qed.

Lemma read_rep j log b c address after :
  journal_rep j log -> 0 <= b < BVSTK_JOURNAL_BUSES -> 0 <= c < 2 -> 0 <= after ->
  bvstk_journal_read (Some j) b c address after true =
    Some (read_history (ring_history log b c) address after).
Proof.
  intros (_ & Hrep) Hb Hc Ha. unfold bvstk_journal_read. cbn [negb].
  rewrite (proj2 (Z.leb_gt _ _)) by lia. rewrite (proj2 (Z.leb_gt _ _)) by lia. cbn [orb].
  f_equal. apply read_ring_history; [|done]. by apply Hrep.
Qed.

(** ** A reader polling by cursor *)

(** The events of [h] at positions [from, to). *)
Definition segment (h : list bvstk_event_t) (from to : Z) : list bvstk_event_t :=
  take (Z.to_nat (to - from)) (drop (Z.to_nat from) h).

(** The records of [h] a reader filtering by [address] wants from [from, to). *)
Definition wanted (h : list bvstk_event_t) (address from to : Z) : list bvstk_journal_record_t :=
  filter (rec_matches address) (numbered from (segment h from to)).

Lemma numbered_app start h1 h2 :
  numbered start (h1 ++ h2) = numbered start h1 ++ numbered (start + alen h1) h2.
Proof.
  revert start. induction h1 as [|e h1 IH]; intros start; simpl.
  - by rewrite Z.add_0_r.
  - rewrite IH. do 3 f_equal. unfold alen. simpl. lia.
Qed.

Lemma wanted_app h address a b c :
  0 <= a <= b -> b <= c <= alen h ->
  wanted h address a c = wanted h address a b ++ wanted h address b c.
Proof.
  intros Hab Hbc. unfold wanted, segment.
  assert (take (Z.to_nat (c - a)) (drop (Z.to_nat a) h) =
    take (Z.to_nat (b - a)) (drop (Z.to_nat a) h) ++
    take (Z.to_nat (c - b)) (drop (Z.to_nat b) h)) as ->.
  { replace (Z.to_nat (c - a)) with (Z.to_nat (b - a) + Z.to_nat (c - b))%nat by lia.
    rewrite <- (take_take_drop _ (Z.to_nat (b - a))), drop_drop.
    do 3 f_equal. lia. }
  rewrite numbered_app, filter_app. do 3 f_equal.
  unfold alen in *. rewrite length_take, length_drop. lia.
Qed.

Lemma wanted_snoc h address e to :
  0 <= to <= alen h -> wanted (h ++ [e]) address 0 to = wanted h address 0 to.
Proof.
  intros Hto. unfold wanted, segment, alen in *. rewrite !drop_0.
  by rewrite take_app_le by lia.
Qed.

Lemma wanted_nil h address a : wanted h address a a = [].
Proof. unfold wanted, segment. by rewrite Z.sub_diag. Qed.

Lemma wanted_step h address a :
  0 <= a < alen h ->
  wanted h address a (a + 1) =
    if address_matches address (h.[a]) then [Rec (a + 1) (h.[a])] else [].
Proof.
  intros Ha. unfold wanted, segment.
  rewrite (drop_S h (h.[a]) (Z.to_nat a)) by (by apply aget_lookup).
  replace (Z.to_nat (a + 1 - a)) with 1%nat by lia. cbn [take numbered].
  rewrite take_0. cbn [numbered]. rewrite filter_cons, filter_nil. case_decide as Hd; unfold rec_matches in Hd; cbn in Hd.
  - by rewrite Hd.
  - by apply not_true_is_false in Hd as ->.
Qed.

(** The loop returns exactly the wanted records of what it scanned, and stops
    early only with a full batch. *)
Lemma read_loop_scan n entries h address start acc :
  (forall i, start <= i < alen h -> entries.[i mod BVSTK_JOURNAL_CAPACITY] = h.[i]) ->
  0 <= start -> start + Z.of_nat n = alen h ->
  let '(records, next) := read_loop n entries address start acc in
  start <= next <= alen h /\ records = acc ++ wanted h address start next /\
  (alen records < BVSTK_JOURNAL_BATCH -> next = alen h).
Proof.
  revert start acc. induction n as [|n IH]; intros start acc Hent Hs Hn.
  - cbn. rewrite wanted_nil, app_nil_r. split; [lia|]. split; [done|lia].
  - cbn [read_loop]. destruct (alen acc <? BVSTK_JOURNAL_BATCH) eqn:Hfull; bsimp.
    + rewrite Hent by lia. pose proof (wanted_step h address start) as Hstep.
      destruct (address_matches address (h.[start])) eqn:Hm;
        [ specialize (IH (start + 1) (acc ++ [Rec (start + 1) (h.[start])]))
        | specialize (IH (start + 1) acc) ];
        destruct (read_loop n _ _ _ _) as [records next];
        (destruct IH as (H1 & H2 & H3); [intros; apply Hent; lia | lia | lia |]);
        (split; [lia|]; split; [|done]; rewrite H2);
        rewrite (wanted_app h address start (start + 1) next) by lia;
        rewrite Hstep by lia; by rewrite <- ?app_assoc.
    + rewrite wanted_nil, app_nil_r. split; [lia|]. split; [done|lia].
Qed.

(** A reader of one ring: its cursor, the records it was handed and the losses
    it was told about; [log] is every event published so far. *)
Record reader_t := Reader {
  rd_journal : bvstk_journal_t;
  rd_log : list bvstk_event_t;
  rd_cursor : Z;
  rd_seen : list bvstk_journal_record_t;
  rd_lost : Z
}.

Inductive reader_step (bus channel address : Z) : reader_t -> reader_t -> Prop :=
  | step_publish e j j' log cursor seen lost :
      event_wf e -> alen log + 1 < BVSTK_JOURNAL_HISTORY ->
      bvstk_journal_publish (Some j) (Some e) = Some j' ->
      reader_step bus channel address
        (Reader j log cursor seen lost) (Reader j' (log ++ [e]) cursor seen lost)
  | step_poll j log cursor seen lost batch :
      bvstk_journal_read (Some j) bus channel address cursor true = Some batch ->
      reader_step bus channel address
        (Reader j log cursor seen lost)
        (Reader j log (batch_next batch) (seen ++ batch_records batch) (lost + batch_lost batch)).

Definition reader_start : reader_t := Reader journal_zero [] 0 [] 0.

(** Everything before the cursor was handed over or counted as lost. *)
Definition reader_inv (bus channel address : Z) (s : reader_t) : Prop :=
  let h := ring_history (rd_log s) bus channel in
  journal_rep (rd_journal s) (rd_log s) /\
  0 <= rd_cursor s <= alen h /\ 0 <= rd_lost s /\
  sublist (rd_seen s) (wanted h address 0 (rd_cursor s)) /\
  alen (wanted h address 0 (rd_cursor s)) <= alen (rd_seen s) + rd_lost s.

Lemma numbered_length start h : alen (numbered start h) = alen h.
Proof.
  unfold alen. revert start. induction h as [|e h IH]; intros start; [done|].
  simpl. specialize (IH (start + 1)). lia.
Qed.

Lemma wanted_length h address a b :
  0 <= a <= b -> alen (wanted h address a b) <= b - a.
Proof.
  intros Hab. unfold wanted.
  pose proof (length_filter (rec_matches address) (numbered a (segment h a b))).
  pose proof (numbered_length a (segment h a b)). unfold segment, alen in *.
  rewrite length_take in *. lia.
Qed.

(** What one poll of an existing ring returns, relative to the history. *)
Lemma read_scan j log b c address after :
  journal_rep j log -> 0 <= b < BVSTK_JOURNAL_BUSES -> 0 <= c < 2 ->
  0 <= after <= alen (ring_history log b c) ->
  let h := ring_history log b c in
  exists batch start,
    bvstk_journal_read (Some j) b c address after true = Some batch /\
    batch_lost batch = start - after /\ after <= start <= batch_next batch /\
    batch_next batch <= alen h /\ batch_reset batch = 0 /\
    batch_records batch = wanted h address start (batch_next batch) /\
    (alen (batch_records batch) < BVSTK_JOURNAL_BATCH -> batch_next batch = alen h).
Proof.
  intros (_ & Hrep) Hb Hc Ha h. unfold bvstk_journal_read. cbn [negb].
  rewrite (proj2 (Z.leb_gt _ _)) by lia. rewrite (proj2 (Z.leb_gt _ _)) by lia. cbn [orb].
  destruct (Hrep b Hb) as [_ Hr]. destruct (Hr c Hc) as (Hhead & Hlt & _ & Hget).
  fold h in Hhead, Hlt, Hget, Ha. unfold read_ring. rewrite Hhead.
  pose proof (first_retained_bounds (alen h) (alen_nonneg h)).
  set (start := Z.max after (first_retained (alen h))).
  assert (read_start (alen h) after = (0, start - after, start)) as ->.
  { unfold read_start, start, BVSTK_JOURNAL_HISTORY in *.
    rewrite (proj2 (Z.eqb_neq after _)) by lia. rewrite (proj2 (Z.ltb_ge (alen h) after)) by lia.
    destruct (after <? first_retained (alen h)) eqn:E; bsimp; repeat f_equal; lia. }
  pose proof (read_loop_scan (Z.to_nat (alen h - start)) (ring_entries (get_ring j b c))
    h address start []) as Hl.
  destruct (read_loop _ _ _ _ _) as [records next].
  destruct Hl as (H1 & H2 & H3); [intros; apply Hget; lia | lia | lia |].
  eexists _, start. split; [done|]. cbn. repeat split; try done; lia.
Qed.

Lemma reader_inv_start b c address :
  reader_inv b c address reader_start.
Proof.
  unfold reader_inv, reader_start. cbn [rd_journal rd_log rd_cursor rd_seen rd_lost].
  rewrite wanted_nil. split; [apply journal_zero_rep|]. repeat split; try done.
Qed.

Lemma reader_inv_step b c address s s' :
  0 <= b < BVSTK_JOURNAL_BUSES -> 0 <= c < 2 ->
  reader_inv b c address s -> reader_step b c address s s' -> reader_inv b c address s'.
Proof.
  intros Hb Hc (Hrep & Hcur & Hlost & Hsub & Hcnt) Hstep.
  destruct Hstep as [e j j' log cursor seen lost Hwf Hroom Hpub|j log cursor seen lost batch Hread];
    unfold reader_inv; cbn [rd_journal rd_log rd_cursor rd_seen rd_lost] in *.
  - destruct (publish_rep j log e Hrep Hwf Hroom) as (j1 & Hj1 & Hrep1).
    rewrite Hpub in Hj1. injection Hj1 as <-. split; [done|].
    rewrite ring_history_snoc. case_decide; rewrite ?app_nil_r; [|done].
    rewrite wanted_snoc by lia. rewrite alen_snoc. repeat split; try done; lia.
  - destruct (read_scan j log b c address cursor Hrep Hb Hc Hcur)
      as (batch' & start & Hread' & Hl & Hs & Hn & _ & Hrec & _).
    rewrite Hread in Hread'. injection Hread' as <-.
    split; [done|]. rewrite Hrec, Hl.
    set (h := ring_history log b c) in *.
    rewrite (wanted_app h address 0 cursor) by lia.
    rewrite (wanted_app h address cursor start) by lia.
    pose proof (wanted_length h address cursor start ltac:(lia)).
    unfold alen in *. rewrite !length_app. repeat split; [lia..| |lia].
    apply sublist_app; [done|]. by apply sublist_inserts_l.
Qed.

Lemma sublist_full {A} (l k : list A) : sublist l k -> (length k <= length l)%nat -> l = k.
Proof.
  induction 1 as [|x l k Hlk IH|x l k Hlk IH]; simpl; intros Hlen; [done| |].
  - f_equal. apply IH. lia.
  - apply sublist_length in Hlk. lia.
Qed.

(** ** Properties *)

(** C17: refinement.  Whatever sequence of events was published since the
    journal was zeroed (rejected ones and ring wrap-around included), a read of
    any bus and channel, with any address filter and any cursor, returns what
    the same read of that ring's full event history returns, and the head is
    the number of events ever accepted there. *)
Theorem journal_reads_history log bus channel address after :
  Forall event_wf log -> alen log < BVSTK_JOURNAL_HISTORY ->
  0 <= bus < BVSTK_JOURNAL_BUSES -> 0 <= channel < 2 -> 0 <= after ->
  let journal := publish_all log (Some journal_zero) in
  bvstk_journal_read journal bus channel address after true =
    Some (read_history (ring_history log bus channel) address after) /\
  bvstk_journal_head journal bus channel = alen (ring_history log bus channel).
Proof.
  intros Hwf Hroom Hb Hc Ha.
  destruct (publish_all_rep log journal_zero [] journal_zero_rep Hwf) as (j & Hj & Hrep);
    [by rewrite Z.add_0_l|].
  cbn zeta. rewrite Hj. cbn [app] in Hrep. split; [by apply read_rep|].
  destruct Hrep as [_ Hrep]. destruct (Hrep bus Hb) as [_ Hr].
  destruct (Hr channel Hc) as (Hhead & _). unfold bvstk_journal_head.
  rewrite (proj2 (Z.ltb_lt bus _)) by lia. rewrite (proj2 (Z.ltb_lt channel _)) by lia. done.
Qed.

(** Safety.  However publishes and polls of one reader interleave, starting
    from an empty journal and cursor 0, the records it was handed are a
    subsequence, in order and without repetition, of the matching events before
    its cursor, those missing are at most the number of records it was told it
    lost, and with no reported loss it has seen exactly all of them. *)
Theorem reader_no_silent_loss bus channel address s :
  0 <= bus < BVSTK_JOURNAL_BUSES -> 0 <= channel < 2 ->
  steps (reader_step bus channel address) reader_start s ->
  let due := wanted (ring_history (rd_log s) bus channel) address 0 (rd_cursor s) in
  sublist (rd_seen s) due /\ alen due <= alen (rd_seen s) + rd_lost s /\
  (rd_lost s = 0 -> rd_seen s = due).
Proof.
  intros Hb Hc Hsteps.
  assert (reader_inv bus channel address s) as (_ & _ & Hlost & Hsub & Hcnt).
  { eapply (steps_invariant (reader_step bus channel address));
      [|exact Hsteps|apply reader_inv_start]. intros ? ?. by apply reader_inv_step. }
  cbn zeta. split; [done|]. split; [done|]. intros H0.
  apply sublist_full; [done|]. unfold alen in *. lia.
Qed.

Definition commit_event (arg : Z) : bvstk_event_t :=
  Event 0 BVSTK_EVENT_REG_COMMIT 0 2 BVSTK_EVENT_BUS_MDIO 1 0 arg 0 0.

Lemma journal_reads_history_witness :
  bvstk_journal_read (publish_all (commit_event <$> [7; 8; 7]) (Some journal_zero))
    1 0 7 0 true =
    Some (Batch 3 3 0 2 0 [Rec 1 (commit_event 7); Rec 3 (commit_event 7)]).
Proof.
  refine (eq_trans (proj1 (journal_reads_history (commit_event <$> [7; 8; 7]) 1 0 7 0 _ _ _ _ _)) _).
  - by apply (bool_decide_unpack _).
  - done.
  - done.
  - done.
  - done.
  - vm_compute. reflexivity.
Defined.

Definition journal_one : bvstk_journal_t :=
  default journal_zero (bvstk_journal_publish (Some journal_zero) (Some (commit_event 7))).

Lemma reader_no_silent_loss_witness :
  let s := Reader journal_one [commit_event 7] 1 [Rec 1 (commit_event 7)] 0 in
  rd_seen s = wanted (ring_history (rd_log s) 1 0) 7 0 (rd_cursor s).
Proof.
  refine (proj2 (proj2 (reader_no_silent_loss 1 0 7
    (Reader journal_one [commit_event 7] 1 [Rec 1 (commit_event 7)] 0) _ _ _)) _).
  - done.
  - done.
  - eapply steps_cons; [apply (step_publish 1 0 7 (commit_event 7) journal_zero journal_one)|].
    + by apply (bool_decide_unpack _).
    + done.
    + vm_compute. reflexivity.
    + eapply steps_cons; [|apply steps_refl].
      apply (step_poll 1 0 7 journal_one [commit_event 7] 0 [] 0
        (Batch 1 1 0 1 0 [Rec 1 (commit_event 7)])).
      vm_compute. reflexivity.
  - done.
Defined.
