(* ===== verification/I2cDevices.v ===== *)
(** * I2cDevices: configuration records and the I2C device table

    The file-format records of [shared/config/bvstk_config_model.h] the I2C
    services use, and the table of bus-facing device descriptors
    [services/i2c/bvstk_i2c_devices]. *)
From stdpp Require Import prelude.
From Stdlib Require Import ZArith Lia.
From S2P Require Import Prelude Platform.
Local Open Scope Z_scope.

(** ** Configuration model *)

Definition I2C_CFG_MAX_DEVICES : Z := 32.
Definition I2C_CFG_NAME_MAX : Z := 32.
Definition I2C_CFG_FILE_NAME_MAX : Z := 48.
Definition I2C_CFG_MAX_REG_COUNT : Z := 256.
Definition I2C_CFG_RULES_MAX : Z := 256.
Definition I2C_CFG_SETTINGS_MAX : Z := 256.

Record bvstk_profile_metadata_t := Profile {
  pf_version : Z;
  pf_vendor : list Z;
  pf_model : list Z;
  pf_device_class : list Z;
  pf_label : list Z;
  pf_register_map : list Z;
  pf_view : list Z;
  pf_id_offset : list Z;
  pf_ids_size : Z;
  pf_ids : list Z
}.

(** [i2c_policy_t] stays a number: the code range-checks it. *)
Definition I2C_POLICY_WHITELIST : Z := 0.
Definition I2C_POLICY_BLACKLIST : Z := 1.

Record i2c_rule_entry_t := Rule { rule_reg : Z; rule_val : Z }.
#[export] Instance rule_eq_dec : EqDecision i2c_rule_entry_t.
Proof. solve_decision. Defined.
#[export] Instance rule_inhabited : Inhabited i2c_rule_entry_t := populate (Rule 0 0).

Record i2c_device_config_t := DeviceConfig {
  cfg_name : list Z;
  cfg_file_name : list Z;
  cfg_addr_7b : Z;
  cfg_reg_count : Z;
  cfg_max_value_code : Z;
  cfg_policy : Z;
  cfg_whitelist : list i2c_rule_entry_t;
  cfg_whitelist_len : Z;
  cfg_blacklist : list i2c_rule_entry_t;
  cfg_blacklist_len : Z;
  cfg_settings : list i2c_rule_entry_t;
  cfg_settings_len : Z;
  cfg_profile : bvstk_profile_metadata_t
}.

Definition zero_profile : bvstk_profile_metadata_t :=
  Profile 0 (fill 65 0) (fill 65 0) (fill 16 0) (fill 97 0) (fill 64 0) (fill 64 0)
    (fill I2C_CFG_MAX_REG_COUNT 0) 0 (fill 2048 0).

Definition zero_rules : list i2c_rule_entry_t := fill I2C_CFG_RULES_MAX inhabitant.

Definition zero_device_config : i2c_device_config_t :=
  DeviceConfig (fill I2C_CFG_NAME_MAX 0) (fill I2C_CFG_FILE_NAME_MAX 0) 0 0 0 0
    zero_rules 0 zero_rules 0 zero_rules 0 zero_profile.
#[export] Instance device_config_inhabited : Inhabited i2c_device_config_t :=
  populate zero_device_config.

(** ** The device table *)

Record bvstk_i2c_device_t := Device {
  dev_name : list Z;
  dev_addr_7b : Z;
  dev_reg_count : Z;
  dev_max_value_code : Z
}.
Definition zero_device : bvstk_i2c_device_t := Device (fill I2C_CFG_NAME_MAX 0) 0 0 0.
#[export] Instance device_inhabited : Inhabited bvstk_i2c_device_t := populate zero_device.

Record bvstk_i2c_devices_t := Devices {
  dvs_items : list bvstk_i2c_device_t;
  dvs_count : Z;
  dvs_initialized : Z
}.
Definition zero_devices : bvstk_i2c_devices_t :=
  Devices (fill I2C_CFG_MAX_DEVICES zero_device) 0 0.

Definition device_status (devices : option bvstk_i2c_devices_t) (device_id : Z)
    : bvstk_status_t :=
  match devices with
  | None => BVSTK_ERR_NOT_READY
  | Some d =>
      if dvs_initialized d =? 0 then BVSTK_ERR_NOT_READY
      else if device_id <? dvs_count d then BVSTK_OK else BVSTK_ERR_NOT_FOUND
  end.

Definition item_valid (item : option bvstk_i2c_device_t) : bool :=
  match item with
  | None => false
  | Some it =>
      negb ((dev_name it).[0] =? 0) && (dev_addr_7b it <=? 0x7F) &&
      negb (dev_reg_count it =? 0) && (dev_reg_count it <=? I2C_CFG_MAX_REG_COUNT)
  end.

(** One iteration of the copy loop: an invalid item returns, leaving the items
    already stored in a table that is not initialized. *)
Definition init_item (items : list bvstk_i2c_device_t) (i : Z) (d : bvstk_i2c_devices_t)
    : bvstk_i2c_devices_t * option bvstk_status_t :=
  if negb (item_valid (Some (items.[i]))) then (d, Some BVSTK_ERR_MALFORMED)
  else (Devices ((dvs_items d).[i <- items.[i]]) (dvs_count d) (dvs_initialized d), None).

Definition bvstk_i2c_devices_init (devices : option bvstk_i2c_devices_t)
    (items : option (list bvstk_i2c_device_t)) (count : Z)
    : bvstk_status_t * option bvstk_i2c_devices_t :=
  match devices with
  | None => (BVSTK_ERR_MALFORMED, None)
  | Some _ =>
      if (I2C_CFG_MAX_DEVICES <? count) ||
         (negb (count =? 0) && match items with None => true | _ => false end)
      then (BVSTK_ERR_MALFORMED, devices)
      else
        match for_loop (Z.to_nat count) 0 (init_item (default [] items)) zero_devices with
        | (d, Some status) => (status, Some d)
        | (d, None) => (BVSTK_OK, Some (Devices (dvs_items d) count 1))
        end
  end.

Definition device_of_config (c : i2c_device_config_t) : bvstk_i2c_device_t :=
  Device (strncpy_into I2C_CFG_NAME_MAX (I2C_CFG_NAME_MAX - 1) (cfg_name c))
    (cfg_addr_7b c) (cfg_reg_count c) (cfg_max_value_code c).

Definition bvstk_i2c_devices_init_from_config (devices : option bvstk_i2c_devices_t)
    (configs : option (list i2c_device_config_t)) (count : Z)
    : bvstk_status_t * option bvstk_i2c_devices_t :=
  if (I2C_CFG_MAX_DEVICES <? count) ||
     (negb (count =? 0) && match configs with None => true | _ => false end)
  then (BVSTK_ERR_MALFORMED, devices)
  else
    let items :=
      for_each (Z.to_nat count) 0
        (fun i items => items.[i <- device_of_config ((default [] configs).[i])])
        (fill I2C_CFG_MAX_DEVICES zero_device) in
    bvstk_i2c_devices_init devices (Some items) count.

Definition bvstk_i2c_devices_shutdown (devices : option bvstk_i2c_devices_t)
    : option bvstk_i2c_devices_t :=
  match devices with
  | Some _ => Some zero_devices
  | None => None
  end.

Definition bvstk_i2c_devices_count (devices : option bvstk_i2c_devices_t) : Z :=
  match devices with
  | Some d => if negb (dvs_initialized d =? 0) then dvs_count d else 0
  | None => 0
  end.

(** [out] is false for a NULL output pointer; the second component is what is
    stored through it. *)
Definition bvstk_i2c_devices_get (devices : option bvstk_i2c_devices_t) (device_id : Z)
    (out : bool) : bvstk_status_t * option bvstk_i2c_device_t :=
  match device_status devices device_id, devices with
  | BVSTK_OK, Some d =>
      if negb out then (BVSTK_ERR_MALFORMED, None)
      else (BVSTK_OK, Some ((dvs_items d).[device_id]))
  | status, _ => (status, None)
  end.

Definition bvstk_i2c_devices_set (devices : option bvstk_i2c_devices_t) (device_id : Z)
    (item : option bvstk_i2c_device_t) : bvstk_status_t * option bvstk_i2c_devices_t :=
  match device_status devices device_id, devices, item with
  | BVSTK_OK, Some d, Some it =>
      if negb (item_valid item) then (BVSTK_ERR_MALFORMED, devices)
      else (BVSTK_OK,
            Some (Devices ((dvs_items d).[device_id <- it]) (dvs_count d) (dvs_initialized d)))
  | BVSTK_OK, _, None => (BVSTK_ERR_MALFORMED, devices)
  | status, _, _ => (status, devices)
  end.

Definition bvstk_i2c_devices_find_by_name (devices : option bvstk_i2c_devices_t)
    (name : option (list Z)) (device_id : bool) : bvstk_status_t * option Z :=
  match devices, name with
  | Some d, Some nm =>
      if (nm.[0] =? 0) || negb device_id then (BVSTK_ERR_MALFORMED, None)
      else if dvs_initialized d =? 0 then (BVSTK_ERR_NOT_READY, None)
      else match for_find (Z.to_nat (dvs_count d)) 0
                   (fun i => strcaseeq (dev_name ((dvs_items d).[i])) nm) with
           | Some i => (BVSTK_OK, Some i)
           | None => (BVSTK_ERR_NOT_FOUND, None)
           end
  | _, _ => (BVSTK_ERR_MALFORMED, None)
  end.

Definition bvstk_i2c_devices_find_by_addr (devices : option bvstk_i2c_devices_t)
    (addr_7b : Z) (device_id : bool) : bvstk_status_t * option Z :=
  match devices with
  | None => (BVSTK_ERR_MALFORMED, None)
  | Some d =>
      if negb device_id then (BVSTK_ERR_MALFORMED, None)
      else if dvs_initialized d =? 0 then (BVSTK_ERR_NOT_READY, None)
      else match for_find (Z.to_nat (dvs_count d)) 0
                   (fun i => dev_addr_7b ((dvs_items d).[i]) =? Z.land addr_7b 0x7F) with
           | Some i => (BVSTK_OK, Some i)
           | None => (BVSTK_ERR_NOT_FOUND, None)
           end
  end.

(** ** The table invariant *)

(** A table that answers holds only valid items. *)
Definition devices_wf (d : bvstk_i2c_devices_t) : Prop :=
  alen (dvs_items d) = I2C_CFG_MAX_DEVICES /\
  0 <= dvs_count d <= I2C_CFG_MAX_DEVICES /\
  (dvs_initialized d = 0 -> dvs_count d = 0) /\
  forall i, 0 <= i < dvs_count d -> item_valid (Some ((dvs_items d).[i])) = true.

Lemma zero_devices_wf : devices_wf zero_devices.
Proof. repeat split; try done. cbn. lia. Qed.

(** The copy loop before iteration [i], and when it gave up. *)
Definition init_progress (items : list bvstk_i2c_device_t) (i : Z) (d : bvstk_i2c_devices_t)
    : Prop :=
  alen (dvs_items d) = I2C_CFG_MAX_DEVICES /\ dvs_count d = 0 /\ dvs_initialized d = 0 /\
  forall k, 0 <= k < i ->
    (dvs_items d).[k] = items.[k] /\ item_valid (Some (items.[k])) = true.

Definition init_failed (items : list bvstk_i2c_device_t) (n : Z) (d : bvstk_i2c_devices_t)
    (status : bvstk_status_t) : Prop :=
  status = BVSTK_ERR_MALFORMED /\ devices_wf d /\ dvs_initialized d = 0 /\
  exists i, 0 <= i < n /\ item_valid (Some (items.[i])) = false.

Lemma init_item_step items n i d :
  0 <= i < n -> n <= I2C_CFG_MAX_DEVICES -> init_progress items i d ->
  match init_item items i d with
  | (d', None) => init_progress items (i + 1) d'
  | (d', Some status) => init_failed items n d' status
  end.
Proof.
  intros Hi Hn (Hl & Hc & H0 & Hk). unfold init_item.
  destruct (item_valid (Some (items.[i]))) eqn:Hv; cbn [negb].
  - unfold init_progress. cbn. rewrite alen_aset. split; [done|]. split; [done|].
    split; [done|]. intros k Hk'. destruct (decide (k = i)) as [->|].
    + by rewrite aget_aset_eq by lia.
    + rewrite aget_aset_ne by lia. apply Hk. lia.
  - split; [done|]. split; [|split; [done|by exists i]].
    unfold devices_wf. rewrite Hc. repeat split; try done. lia.
Qed.

Lemma init_loop_spec items count :
  0 <= count <= I2C_CFG_MAX_DEVICES ->
  match for_loop (Z.to_nat count) 0 (init_item items) zero_devices with
  | (d, None) => init_progress items count d
  | (d, Some status) => init_failed items count d status
  end.
Proof.
  intros Hn.
  pose proof (for_loop_ind (init_progress items) (init_failed items count)
    (Z.to_nat count) 0 (init_item items) zero_devices) as H.
  rewrite Z2Nat.id, Z.add_0_l in H by lia. apply H.
  - intros i s Hi. apply init_item_step; lia.
  - repeat split; try done; lia.
Qed.

(** Initialization succeeds exactly on a list of valid items, and then the
    table holds those items; a failure leaves it not initialized. *)
Lemma devices_init_spec d items count :
  0 <= count <= I2C_CFG_MAX_DEVICES ->
  match bvstk_i2c_devices_init (Some d) (Some items) count with
  | (BVSTK_OK, Some d') =>
      devices_wf d' /\ dvs_count d' = count /\ dvs_initialized d' = 1 /\
      forall i, 0 <= i < count -> (dvs_items d').[i] = items.[i]
  | (BVSTK_ERR_MALFORMED, Some d') =>
      devices_wf d' /\ dvs_initialized d' = 0 /\
      exists i, 0 <= i < count /\ item_valid (Some (items.[i])) = false
  | _ => False
  end.
Proof.
  intros Hc. unfold bvstk_i2c_devices_init.
  rewrite (proj2 (Z.ltb_ge _ _)) by lia. rewrite andb_false_r. cbn [orb default].
  pose proof (init_loop_spec items count Hc) as H.
  destruct (for_loop _ _ _ _) as [d' [status|]].
  - destruct H as (-> & Hwf & H0 & Hi). done.
  - destruct H as (Hl & _ & _ & Hk). cbn. split; [|split; [done|split; [done|]]].
    + split; [done|]. cbn. split; [lia|]. split; [done|].
      intros i Hi. by destruct (Hk i Hi) as [-> ?].
    + intros i Hi. by destruct (Hk i Hi).
Qed.

Lemma devices_init_wf d items count :
  0 <= count -> devices_wf d ->
  exists d', snd (bvstk_i2c_devices_init (Some d) items count) = Some d' /\ devices_wf d'.
Proof.
  intros Hc Hwf. destruct (decide (count <= I2C_CFG_MAX_DEVICES)).
  - destruct items as [items|].
    + pose proof (devices_init_spec d items count ltac:(lia)) as H.
      destruct (bvstk_i2c_devices_init _ _ _) as [[] [d'|]]; try done;
        destruct H as [H _]; by exists d'.
    + destruct (decide (count = 0)) as [->|].
      * eexists. split; [reflexivity|]. cbn. repeat split; try done. cbn. lia.
      * exists d. unfold bvstk_i2c_devices_init. rewrite (proj2 (Z.eqb_neq _ _)) by done.
        by rewrite orb_true_r.
  - exists d. unfold bvstk_i2c_devices_init.
    by rewrite (proj2 (Z.ltb_lt I2C_CFG_MAX_DEVICES _)) by lia.
Qed.

Lemma devices_set_wf d device_id item :
  0 <= device_id -> devices_wf d ->
  exists d', snd (bvstk_i2c_devices_set (Some d) device_id item) = Some d' /\ devices_wf d'.
Proof.
  intros Hid Hwf. unfold bvstk_i2c_devices_set, device_status.
  destruct (dvs_initialized d =? 0); [by exists d|].
  destruct (device_id <? dvs_count d) eqn:Hlt; [|by exists d].
  destruct item as [it|]; [|by exists d].
  destruct (item_valid (Some it)) eqn:Hv; [|by exists d].
  eexists. split; [done|]. destruct Hwf as (Hl & Hc & H0 & Hi). bsimp.
  split; [cbn; by rewrite alen_aset|]. cbn. split; [done|]. split; [done|].
  intros i Hi'. destruct (decide (i = device_id)) as [->|].
  - by rewrite aget_aset_eq by lia.
  - rewrite aget_aset_ne by lia. by apply Hi.
Qed.

(** ** Properties *)

Inductive devices_op :=
  | DevInit (items : option (list bvstk_i2c_device_t)) (count : Z)
  | DevInitFromConfig (configs : option (list i2c_device_config_t)) (count : Z)
  | DevSet (device_id : Z) (item : option bvstk_i2c_device_t)
  | DevShutdown.

Definition devices_op_wf (op : devices_op) : bool :=
  match op with
  | DevInit _ n | DevInitFromConfig _ n | DevSet n _ => 0 <=? n
  | DevShutdown => true
  end.

Definition devices_run (devices : option bvstk_i2c_devices_t) (op : devices_op)
    : option bvstk_i2c_devices_t :=
  match op with
  | DevInit items count => snd (bvstk_i2c_devices_init devices items count)
  | DevInitFromConfig configs count =>
      snd (bvstk_i2c_devices_init_from_config devices configs count)
  | DevSet device_id item => snd (bvstk_i2c_devices_set devices device_id item)
  | DevShutdown => bvstk_i2c_devices_shutdown devices
  end.

Lemma devices_run_wf d op :
  devices_op_wf op = true -> devices_wf d ->
  exists d', devices_run (Some d) op = Some d' /\ devices_wf d'.
Proof.
  intros Hop Hwf. destruct op as [items count|configs count|id item|]; cbn in *; bsimp.
  - by apply devices_init_wf.
  - unfold bvstk_i2c_devices_init_from_config. case_match; [by exists d|].
    by apply devices_init_wf.
  - by apply devices_set_wf.
  - eexists. split; [done|]. apply zero_devices_wf.
Qed.

(** Invariant.  After any sequence of initializations, updates and
    shutdowns, successful or not, the device table is well formed: at most 32
    devices, every one with a name, a 7-bit address and 1 to 256 registers,
    and no device at all unless it is initialized. *)
Theorem devices_ops_wf ops :
  forallb devices_op_wf ops = true ->
  exists d, foldl devices_run (Some zero_devices) ops = Some d /\ devices_wf d.
Proof.
  assert (forall d, devices_wf d -> forallb devices_op_wf ops = true ->
    exists d', foldl devices_run (Some d) ops = Some d' /\ devices_wf d') as H.
  { induction ops as [|op ops IH]; intros d Hwf Hops; [by exists d|].
    cbn in Hops. bsimp. destruct (devices_run_wf d op) as (d1 & Hd1 & Hwf1); [done..|].
    cbn [foldl]. rewrite Hd1. by apply IH. }
  apply H, zero_devices_wf.
Qed.

Definition mux_device : bvstk_i2c_device_t := Device [109; 117; 120; 0] 0x70 4 255.

Lemma devices_ops_wf_witness :
  exists d, foldl devices_run (Some zero_devices)
    [DevInit (Some [mux_device]) 1; DevSet 0 (Some mux_device); DevSet 5 None;
     DevInit (Some [zero_device]) 1] = Some d /\ devices_wf d.
Proof.
  apply (devices_ops_wf [DevInit (Some [mux_device]) 1; DevSet 0 (Some mux_device);
    DevSet 5 None; DevInit (Some [zero_device]) 1]).
  vm_compute. reflexivity.
Defined.

(** What a search of the table answers for a test [p] of its items. *)
Definition find_spec (p : bvstk_i2c_device_t -> bool) (d : bvstk_i2c_devices_t)
    (r : bvstk_status_t * option Z) : Prop :=
  (exists i, r = (BVSTK_OK, Some i) /\ 0 <= i < dvs_count d /\
     p ((dvs_items d).[i]) = true /\
     forall j, 0 <= j < i -> p ((dvs_items d).[j]) = false) \/
  (r = (BVSTK_ERR_NOT_FOUND, None) /\
     forall j, 0 <= j < dvs_count d -> p ((dvs_items d).[j]) = false).

Lemma for_find_spec p d :
  0 <= dvs_count d ->
  find_spec p d
    (match for_find (Z.to_nat (dvs_count d)) 0 (fun i => p ((dvs_items d).[i])) with
     | Some i => (BVSTK_OK, Some i)
     | None => (BVSTK_ERR_NOT_FOUND, None)
     end).
Proof.
  intros Hc. destruct (for_find _ _ _) as [i|] eqn:E; [left|right].
  - apply for_find_Some in E as (Hi & Hp & Hj). exists i. split; [done|].
    split; [lia|]. split; [done|]. intros. apply Hj. lia.
  - split; [done|]. intros j Hj. rewrite for_find_None in E. apply (E j). lia.
Qed.

Lemma find_by_addr_spec d addr :
  devices_wf d -> dvs_initialized d <> 0 ->
  find_spec (fun it => dev_addr_7b it =? Z.land addr 0x7F) d
    (bvstk_i2c_devices_find_by_addr (Some d) addr true).
Proof.
  intros (_ & Hc & _) H0. unfold bvstk_i2c_devices_find_by_addr. cbn [negb].
  rewrite (proj2 (Z.eqb_neq _ _)) by done.
  apply (for_find_spec (fun it => dev_addr_7b it =? Z.land addr 0x7F)); lia.
Qed.

(** Functional.  On an initialized table, a search by address (only its low
    7 bits count) or by non-empty name (case-insensitively) returns the least
    index whose item matches, and not-found exactly when none does. *)
Theorem devices_find_first d addr name :
  devices_wf d -> dvs_initialized d <> 0 -> name.[0] <> 0 ->
  find_spec (fun it => dev_addr_7b it =? Z.land addr 0x7F) d
    (bvstk_i2c_devices_find_by_addr (Some d) addr true) /\
  find_spec (fun it => strcaseeq (dev_name it) name) d
    (bvstk_i2c_devices_find_by_name (Some d) (Some name) true).
Proof.
  intros Hwf H0 Hn. split; [by apply find_by_addr_spec|].
  destruct Hwf as (_ & Hc & _). unfold bvstk_i2c_devices_find_by_name.
  rewrite (proj2 (Z.eqb_neq (name.[0]) _)) by done. cbn [orb negb].
  rewrite (proj2 (Z.eqb_neq _ _)) by done.
  apply (for_find_spec (fun it => strcaseeq (dev_name it) name)); lia.
Qed.

Definition two_devices : bvstk_i2c_devices_t :=
  Devices (mux_device :: mux_device :: fill 30 zero_device) 2 1.

Lemma devices_find_first_witness :
  find_spec (fun it => strcaseeq (dev_name it) [77; 85; 88; 0]) two_devices
    (bvstk_i2c_devices_find_by_name (Some two_devices) (Some [77; 85; 88; 0]) true).
Proof.
  apply (devices_find_first two_devices 0x70 [77; 85; 88; 0]).
  - split; [done|]. split; [done|]. split; [done|]. intros i Hi. cbn in Hi.
    assert (i = 0 \/ i = 1) as [-> | ->] by lia; reflexivity.
  - done.
  - done.
Defined.
