(* ===== verification/ConfigValidate.v ===== *)
(** * ConfigValidate: admission checks of device configurations

    [src/src/shared/config]: the file-name and metadata checks of
    [bvstk_device_profile.c], [bvstk_mdio_config_validate],
    [bvstk_mdio_policy_allows] and [bvstk_i2c_config_validate].  Everything the
    stores and services accept has passed one of these functions; the theorems
    say what that guarantees. *)
From stdpp Require Import prelude.
From Stdlib Require Import ZArith Lia.
From S2P Require Import Prelude Platform I2cDevices.
Local Open Scope Z_scope.

(** ** Data (shared/config/bvstk_config_model.h) *)

Definition MDIO_CFG_MAX_DEVICES : Z := 8.
Definition MDIO_CFG_NAME_MAX : Z := 32.
Definition MDIO_CFG_AUTOPOLL_REGS_MAX : Z := 32.
Definition MDIO_CFG_RULES_MAX : Z := 64.
Definition MDIO_CFG_SETTINGS_MAX : Z := 32.
Definition BVSTK_REGISTER_MAP_NAME_MAX : Z := 64.
Definition BVSTK_PROFILE_IDS_CAP : Z := 2048.

(** [mdio_policy_t] stays a number: the code range-checks it. *)
Definition MDIO_POLICY_WHITELIST : Z := 0.
Definition MDIO_POLICY_BLACKLIST : Z := 1.

Record mdio_setting_entry_t := MdioSetting { ms_reg : Z; ms_val : Z }.
Record mdio_rule_entry_t := MdioRule { mr_reg : Z; mr_val : Z; mr_mask : Z }.

#[export] Instance mdio_setting_eq_dec : EqDecision mdio_setting_entry_t.
Proof. solve_decision. Defined.
#[export] Instance mdio_rule_eq_dec : EqDecision mdio_rule_entry_t.
Proof. solve_decision. Defined.
#[export] Instance mdio_setting_inhabited : Inhabited mdio_setting_entry_t := populate (MdioSetting 0 0).
#[export] Instance mdio_rule_inhabited : Inhabited mdio_rule_entry_t := populate (MdioRule 0 0 0).

Record mdio_phy_config_t := MdioConfig {
  mc_name : list Z;
  mc_file_name : list Z;
  mc_phy_addr : Z;
  mc_reg_count : Z;
  mc_policy : Z;
  mc_autopoll_enabled : bool;
  mc_autopoll_regs : list Z;
  mc_autopoll_regs_len : Z;
  mc_autopoll_reg_delay_ms : Z;
  mc_autopoll_cycle_delay_ms : Z;
  mc_whitelist : list mdio_rule_entry_t;
  mc_whitelist_len : Z;
  mc_blacklist : list mdio_rule_entry_t;
  mc_blacklist_len : Z;
  mc_settings : list mdio_setting_entry_t;
  mc_settings_len : Z;
  mc_profile : bvstk_profile_metadata_t
}.

(** ** C strings in buffers *)

(** [memchr (s, 0, n)] finds a terminator. *)
Definition memchr0 (s : list Z) (n : Z) : bool := existsb (Z.eqb 0) (prefix n s).
Definition strlen (s : list Z) : Z := alen (cstr s).

(** [strstr (s, "..")]. *)
Fixpoint has_dotdot (s : list Z) : bool :=
  match s with
  | a :: ((b :: _) as rest) => (a =? 46) && (b =? 46) || has_dotdot rest
  | _ => false
  end.

Definition is_lower (c : Z) : bool := (97 <=? c) && (c <=? 122).
Definition is_upper (c : Z) : bool := (65 <=? c) && (c <=? 90).
Definition digit (c : Z) : bool := (48 <=? c) && (c <=? 57).
Definition isalnum (c : Z) : bool := is_lower c || is_upper c || digit c.

Definition safe_name (s : list Z) (cap : Z) (empty : bool) : bool :=
  if (s.[0] =? 0) && negb empty then false
  else
    (** the index the scan stops at, if every character up to it is accepted *)
    let stop := for_find (Z.to_nat cap) 0 (fun i => s.[i] =? 0) in
    let n := default cap stop in
    match for_find (Z.to_nat n) 0 (fun i =>
            (127 <? s.[i]) || negb (isalnum (s.[i])) && negb (s.[i] =? 95) &&
                             negb (s.[i] =? 45) && negb (s.[i] =? 46)) with
    | Some _ => false
    | None => (n <? cap) && negb (has_dotdot (cstr s))
    end.

(** ** File names *)

Definition register_map_suffix : list Z :=
  [95; 114; 101; 103; 105; 115; 116; 101; 114; 95; 109; 97; 112; 46; 106; 115; 111; 110].
Definition register_map_leaf : list Z :=
  [114; 101; 103; 105; 115; 116; 101; 114; 95; 109; 97; 112; 46; 106; 115; 111; 110].
Definition profile_leaf : list Z := [112; 114; 111; 102; 105; 108; 101; 46; 106; 115; 111; 110].

Definition bvstk_device_profile_is_register_map (filename : option (list Z)) : bool :=
  match filename with
  | None => false
  | Some filename =>
      if streq filename register_map_leaf then true
      else
        let n := strlen filename in
        if n <=? alen register_map_suffix then false
        else
          let tail := drop (Z.to_nat (n - alen register_map_suffix)) filename in
          match for_find (length register_map_suffix) 0
                  (fun i => negb (tolower (tail.[i]) =? register_map_suffix.[i])) with
          | Some _ => false
          | None => true
          end
  end.

(** [path[at] == '.'] and the four letters of "json" in either case. *)
Definition json_at (path : list Z) (at_ : Z) : bool :=
  (path.[at_] =? 46) &&
  ((path.[at_ + 1] =? 106) || (path.[at_ + 1] =? 74)) &&
  ((path.[at_ + 2] =? 115) || (path.[at_ + 2] =? 83)) &&
  ((path.[at_ + 3] =? 111) || (path.[at_ + 3] =? 79)) &&
  ((path.[at_ + 4] =? 110) || (path.[at_ + 4] =? 78)).

Definition path_char (c : Z) : bool :=
  is_lower c || is_upper c || digit c || (c =? 95) || (c =? 45) || (c =? 46).

(** The character scan: the state is [slash], the early return is a refusal. *)
Definition path_scan (path : list Z) (n : Z) : Z * option bool :=
  for_loop (Z.to_nat n) 0
    (fun i slash =>
       let c := path.[i] in
       if c =? 47 then
         if (i =? 0) || truth slash || (I2C_CFG_NAME_MAX <=? i) then (slash, Some false) else (i, None)
       else if negb (path_char c) then (slash, Some false) else (slash, None)) 0.

Definition bvstk_device_profile_path_valid (path : option (list Z)) : bool :=
  match path with
  | None => false
  | Some path =>
      let n := strlen path in
      if negb (memchr0 path I2C_CFG_FILE_NAME_MAX) || (n <? 6) || has_dotdot (cstr path) then false
      else
        match path_scan path n with
        | (_, Some r) => r
        | (slash, None) =>
            if slash =? 0 then (5 <? n) && json_at path (n - 5)
            else
              match for_find (Z.to_nat slash) 0 (fun i => path.[i] =? 46) with
              | Some _ => false
              | None =>
                  let leaf := drop (Z.to_nat (slash + 1)) path in
                  if strcaseeq leaf profile_leaf then true
                  else if negb (strlen leaf =? slash + 5) then false
                  else
                    match for_find (Z.to_nat slash) 0
                            (fun i => negb (tolower (path.[i]) =? tolower (leaf.[i]))) with
                    | Some _ => false
                    | None => json_at leaf slash
                    end
              end
        end
  end.

(** The name of the bundle directory, or of a flat file without its extension. *)
Definition bundle_length (a : list Z) : Z :=
  match for_find (Z.to_nat (strlen a)) 0 (fun i => a.[i] =? 47) with
  | Some i => i
  | None => strlen a - 5
  end.

Definition bvstk_device_profile_same_file (a b : option (list Z)) : bool :=
  if negb (bvstk_device_profile_path_valid a) || negb (bvstk_device_profile_path_valid b) then false
  else
    match a, b with
    | Some a, Some b =>
        let na := bundle_length a in
        if negb (na =? bundle_length b) then false
        else
          match for_find (Z.to_nat na) 0 (fun i => negb (tolower (a.[i]) =? tolower (b.[i]))) with
          | Some _ => false
          | None => true
          end
    | _, _ => false
    end.

Definition asset_name_valid (filename extension : list Z) : bool :=
  let suffix := strlen extension in
  if negb (memchr0 filename BVSTK_REGISTER_MAP_NAME_MAX) then false
  else if filename.[0] =? 0 then true
  else
    let n := strlen filename in
    if (n <=? suffix) || negb (streq (drop (Z.to_nat (n - suffix)) filename) extension) then false
    else
      match for_find (Z.to_nat (n - suffix)) 0 (fun i =>
              negb (is_lower (filename.[i]) || is_upper (filename.[i]) || digit (filename.[i]) ||
                    (filename.[i] =? 95) || (filename.[i] =? 45))) with
      | Some _ => false
      | None => true
      end.

Definition json_extension : list Z := [46; 106; 115; 111; 110].
Definition js_extension : list Z := [46; 106; 115].

Definition register_map_valid (filename : list Z) : bool :=
  asset_name_valid filename json_extension &&
  ((filename.[0] =? 0) || bvstk_device_profile_is_register_map (Some filename)).

(** ** Profile metadata *)

Definition id_valid (s : list Z) : bool :=
  if (s.[0] <? 97) || (122 <? s.[0]) then false
  else
    let n := default 32 (for_find 32 0 (fun i => s.[i] =? 0)) in
    match for_find (Z.to_nat n) 0 (fun i =>
            negb (is_lower (s.[i]) || digit (s.[i]) || (s.[i] =? 95) || (s.[i] =? 45))) with
    | Some _ => false
    | None => n <? 32
    end.

(** "generic" "phy" "power" "gpio" "sensor" "memory" "storage" "bridge" "serial" *)
Definition class_names : list (list Z) :=
  [[103; 101; 110; 101; 114; 105; 99]; [112; 104; 121]; [112; 111; 119; 101; 114];
   [103; 112; 105; 111]; [115; 101; 110; 115; 111; 114]; [109; 101; 109; 111; 114; 121];
   [115; 116; 111; 114; 97; 103; 101]; [98; 114; 105; 100; 103; 101]; [115; 101; 114; 105; 97; 108]].

Definition class_valid (s : list Z) : bool := existsb (streq s) class_names.

(** The resource identifier stored at an offset of [ids]. *)
Definition id_at (p : bvstk_profile_metadata_t) (i : Z) : list Z :=
  drop (Z.to_nat ((pf_id_offset p).[i])) (pf_ids p).

Definition metadata_id_bad (p : bvstk_profile_metadata_t) (i : Z) : bool :=
  let off := (pf_id_offset p).[i] in
  (off =? 0) || (pf_ids_size p <=? off) ||
  negb (memchr0 (id_at p i) (pf_ids_size p - off)) || negb (id_valid (id_at p i)) ||
  match for_find (Z.to_nat i) 0 (fun j => streq (id_at p i) (id_at p j)) with
  | Some _ => true
  | None => false
  end.

Definition bvstk_device_profile_metadata_validate (p : option bvstk_profile_metadata_t) (count : Z)
    : bvstk_status_t :=
  match p with
  | None => BVSTK_ERR_MALFORMED
  | Some p =>
      if (I2C_CFG_MAX_REG_COUNT <? count) || negb (register_map_valid (pf_register_map p)) ||
         negb (asset_name_valid (pf_view p) js_extension) ||
         negb ((pf_view p).[0] =? 0) && ((pf_register_map p).[0] =? 0) then BVSTK_ERR_MALFORMED
      else if pf_version p =? 0 then BVSTK_OK
      else if negb (pf_version p =? 2) || (count =? 0) || (BVSTK_PROFILE_IDS_CAP <? pf_ids_size p) ||
              (pf_ids_size p =? 0) || negb ((pf_ids p).[0] =? 0) ||
              negb (memchr0 (pf_vendor p) 65) || negb (memchr0 (pf_model p) 65) ||
              negb (memchr0 (pf_device_class p) 16) || negb (memchr0 (pf_label p) 97) ||
              ((pf_model p).[0] =? 0) || negb (class_valid (pf_device_class p)) then
        BVSTK_ERR_MALFORMED
      else
        match for_find (Z.to_nat count) 0 (metadata_id_bad p) with
        | Some _ => BVSTK_ERR_MALFORMED
        | None => BVSTK_OK
        end
  end.

(** ** MDIO configurations *)

Definition autopoll_check (c : mdio_phy_config_t) (i : Z) : option bvstk_status_t :=
  if mc_reg_count c <=? (mc_autopoll_regs c).[i] then Some BVSTK_ERR_RANGE
  else
    match for_find (Z.to_nat i) 0 (fun j => (mc_autopoll_regs c).[j] =? (mc_autopoll_regs c).[i]) with
    | Some _ => Some BVSTK_ERR_MALFORMED
    | None => None
    end.

Definition setting_check (c : mdio_phy_config_t) (i : Z) : option bvstk_status_t :=
  if mc_reg_count c <=? ms_reg ((mc_settings c).[i]) then Some BVSTK_ERR_RANGE
  else
    match for_find (Z.to_nat i) 0
            (fun j => ms_reg ((mc_settings c).[j]) =? ms_reg ((mc_settings c).[i])) with
    | Some _ => Some BVSTK_ERR_MALFORMED
    | None => None
    end.

(** A loop that returns the first error [check] reports. *)
Definition check_all (n : Z) (check : Z -> option bvstk_status_t) : option bvstk_status_t :=
  snd (for_loop (Z.to_nat n) 0 (fun i (_ : unit) => (tt, check i)) tt).

Definition or_else (a b : option bvstk_status_t) : option bvstk_status_t :=
  match a with Some e => Some e | None => b end.

Definition bvstk_mdio_config_validate (c : option mdio_phy_config_t) : bvstk_status_t :=
  match c with
  | None => BVSTK_ERR_MALFORMED
  | Some c =>
      if negb (safe_name (mc_name c) MDIO_CFG_NAME_MAX false) ||
         negb ((mc_file_name c).[0] =? 0) &&
           negb (bvstk_device_profile_path_valid (Some (mc_file_name c))) ||
         (31 <? mc_phy_addr c) || (mc_reg_count c =? 0) || (32 <? mc_reg_count c) ||
         negb (mc_policy c =? MDIO_POLICY_WHITELIST) && negb (mc_policy c =? MDIO_POLICY_BLACKLIST) ||
         (MDIO_CFG_RULES_MAX <? mc_whitelist_len c) || (MDIO_CFG_RULES_MAX <? mc_blacklist_len c) ||
         (MDIO_CFG_SETTINGS_MAX <? mc_settings_len c) || (32 <? mc_autopoll_regs_len c) ||
         (60000 <? mc_autopoll_reg_delay_ms c) || (600000 <? mc_autopoll_cycle_delay_ms c) then
        BVSTK_ERR_MALFORMED
      else
        let rule_check rules i :=
          if mc_reg_count c <=? mr_reg (aget rules i) then Some BVSTK_ERR_RANGE else None in
        match or_else (check_all (mc_whitelist_len c) (rule_check (mc_whitelist c)))
             (or_else (check_all (mc_blacklist_len c) (rule_check (mc_blacklist c)))
             (or_else (check_all (mc_autopoll_regs_len c) (autopoll_check c))
                      (check_all (mc_settings_len c) (setting_check c)))) with
        | Some e => e
        | None => bvstk_device_profile_metadata_validate (Some (mc_profile c)) (mc_reg_count c)
        end
  end.

(** [matched] of the rule loop. *)
Definition rules_match (rules : list mdio_rule_entry_t) (count reg value : Z) : bool :=
  for_each (Z.to_nat count) 0
    (fun i matched =>
       if (mr_reg (rules.[i]) =? reg) &&
          (Z.land value (mr_mask (rules.[i])) =? Z.land (mr_val (rules.[i])) (mr_mask (rules.[i])))
       then true else matched) false.

Definition bvstk_mdio_policy_allows (c : option mdio_phy_config_t) (reg value : Z) : bool :=
  match c with
  | None => false
  | Some c =>
      if (mc_reg_count c <=? reg) || (MDIO_CFG_RULES_MAX <? mc_whitelist_len c) ||
         (MDIO_CFG_RULES_MAX <? mc_blacklist_len c) then false
      else if mc_policy c =? MDIO_POLICY_WHITELIST then
        rules_match (mc_whitelist c) (mc_whitelist_len c) reg value
      else if mc_policy c =? MDIO_POLICY_BLACKLIST then
        negb (rules_match (mc_blacklist c) (mc_blacklist_len c) reg value)
      else false
  end.

(** ** I2C configurations *)

Definition bvstk_i2c_config_validate (config : option i2c_device_config_t) : bvstk_status_t :=
  match config with
  | None => BVSTK_ERR_MALFORMED
  | Some c =>
      if ((cfg_name c).[0] =? 0) || negb (memchr0 (cfg_name c) I2C_CFG_NAME_MAX) ||
         (0x7F <? cfg_addr_7b c) || (cfg_reg_count c =? 0) ||
         (I2C_CFG_MAX_REG_COUNT <? cfg_reg_count c) || (64 <? cfg_max_value_code c) ||
         negb (cfg_policy c =? I2C_POLICY_WHITELIST) && negb (cfg_policy c =? I2C_POLICY_BLACKLIST) ||
         (I2C_CFG_RULES_MAX <? cfg_whitelist_len c) || (I2C_CFG_RULES_MAX <? cfg_blacklist_len c) ||
         (I2C_CFG_SETTINGS_MAX <? cfg_settings_len c) then BVSTK_ERR_MALFORMED
      else
        let rule_check rules i :=
          if (cfg_reg_count c <=? rule_reg (aget rules i)) ||
             (cfg_max_value_code c <? rule_val (aget rules i))
          then Some BVSTK_ERR_RANGE else None in
        let setting_check i :=
          if cfg_reg_count c <=? rule_reg ((cfg_settings c).[i]) then Some BVSTK_ERR_RANGE else None in
        match or_else (check_all (cfg_whitelist_len c) (rule_check (cfg_whitelist c)))
             (or_else (check_all (cfg_blacklist_len c) (rule_check (cfg_blacklist c)))
                      (check_all (cfg_settings_len c) setting_check)) with
        | Some e => e
        | None => bvstk_device_profile_metadata_validate (Some (cfg_profile c)) (cfg_reg_count c)
        end
  end.

(** ** Lemmas: C strings and loops *)

Lemma strlen_nonneg s : 0 <= strlen s.
Proof. apply alen_nonneg. Qed.

Lemma strlen_nil : strlen [] = 0.
Proof. done. Qed.

Lemma strlen_cons c s : strlen (c :: s) = if c =? 0 then 0 else 1 + strlen s.
Proof. unfold strlen, alen. cbn [cstr]. destruct (c =? 0); cbn [length]; lia. Qed.

Lemma aget_cons_S (c : Z) s i : 0 <= i -> (c :: s).[1 + i] = s.[i].
Proof. intros Hi. unfold aget. replace (Z.to_nat (1 + i)) with (S (Z.to_nat i)) by lia. done. Qed.

(** Up to the terminator an array and its string agree, and nothing is zero. *)
Lemma cstr_chars s i : 0 <= i < strlen s -> (cstr s).[i] = s.[i] /\ s.[i] <> 0.
Proof.
  revert i. induction s as [|c s IH]; intros i Hi; [rewrite strlen_nil in Hi; lia|].
  rewrite strlen_cons in Hi. cbn [cstr]. destruct (c =? 0) eqn:E; bsimp; [lia|].
  destruct (decide (i = 0)) as [->|]; [done|].
  replace i with (1 + (i - 1)) by lia. rewrite !aget_cons_S by lia. apply IH. lia.
Qed.

Lemma strlen_end s : strlen s < alen s -> s.[strlen s] = 0.
Proof.
  induction s as [|c s IH]; [done|]. rewrite strlen_cons, alen_cons.
  destruct (c =? 0) eqn:E; bsimp; [done|]. intros Hs.
  rewrite aget_cons_S by apply strlen_nonneg. apply IH. lia.
Qed.

Lemma find_terminator s n :
  n <= alen s ->
  for_find (Z.to_nat n) 0 (fun i => s.[i] =? 0) = if strlen s <? n then Some (strlen s) else None.
Proof.
  intros Hn. pose proof (strlen_nonneg s). destruct (strlen s <? n) eqn:E; bsimp.
  - apply for_find_Some. split; [lia|]. split; [apply Z.eqb_eq, strlen_end; lia|].
    intros j Hj. apply Z.eqb_neq, cstr_chars. done.
  - apply for_find_None. intros i Hi. apply Z.eqb_neq, cstr_chars. lia.
Qed.

Lemma memchr0_strlen s n : memchr0 s n = true -> strlen s < n.
Proof.
  unfold memchr0, prefix. rewrite existsb_exists. intros (c & Hc & Hz). bsimp. subst c.
  apply list_elem_of_In, list_elem_of_lookup in Hc as [k Hk].
  apply lookup_take_Some in Hk as [Hk Hn].
  destruct (decide (strlen s < n)); [done|].
  destruct (cstr_chars s (Z.of_nat k)) as [_ Hne]; [lia|]. destruct Hne.
  unfold aget. rewrite Nat2Z.id. by apply list_lookup_total_correct.
Qed.

(** A loop that refuses the first bad character. *)
Lemma chars_all (s : list Z) n (bad : Z -> bool) :
  0 <= n <= strlen s ->
  for_find (Z.to_nat n) 0 (fun i => bad (s.[i])) = None <->
  Forall (fun c => bad c = false) (prefix n (cstr s)).
Proof.
  intros Hn. rewrite for_find_None, Forall_lookup. unfold prefix. split.
  - intros H k c Hk. apply lookup_take_Some in Hk as [Hk Hlt].
    assert (Z.of_nat k < strlen s) as Hks by lia.
    specialize (H (Z.of_nat k) ltac:(lia)). destruct (cstr_chars s (Z.of_nat k)) as [Hc _]; [lia|].
    rewrite <- Hc in H. unfold aget in H. rewrite Nat2Z.id in H.
    by rewrite (list_lookup_total_correct _ _ _ Hk) in H.
  - intros H i Hi. destruct (cstr_chars s i) as [Hc _]; [lia|]. rewrite <- Hc.
    apply (H (Z.to_nat i)). apply lookup_take_Some. split; [|lia]. apply aget_lookup.
    unfold strlen in Hn. lia.
Qed.

Lemma prefix_strlen s : prefix (strlen s) (cstr s) = cstr s.
Proof. unfold prefix, strlen, alen. by rewrite Nat2Z.id, firstn_all. Qed.

Lemma check_all_None n check :
  check_all n check = None <-> forall i, 0 <= i < n -> check i = None.
Proof.
  unfold check_all.
  assert (forall m lo, snd (for_loop m lo (fun i (_ : unit) => (tt, check i)) tt) = None <->
    forall i, lo <= i < lo + Z.of_nat m -> check i = None) as H.
  { induction m as [|m IH]; intros lo; cbn [for_loop]; [split; [lia|done]|].
    destruct (check lo) as [e|] eqn:E.
    - split; [done|]. intros H. rewrite H in E; [done|lia].
    - rewrite IH. split; intros H i Hi.
      + destruct (decide (i = lo)) as [->|]; [done|]. apply H. lia.
      + apply H. lia. }
  rewrite H. split; intros Hc i Hi; apply Hc; lia.
Qed.

Lemma or_else_None a b : or_else a b = None <-> a = None /\ b = None.
Proof. destruct a; cbn; split; [done|by intros []|auto|by intros [_ ?]]. Qed.

Lemma or_else_Some a b e : or_else a b = Some e -> a = Some e \/ b = Some e.
Proof. destruct a; cbn; auto. Qed.

(** Distinctness as the nested loops check it. *)
Lemma distinct_NoDup {A} `{Inhabited A} (a : list A) n :
  0 <= n <= alen a ->
  (forall i j, 0 <= j < i -> i < n -> a.[j] <> a.[i]) <-> NoDup (prefix n a).
Proof.
  intros Hn. unfold prefix. rewrite NoDup_alt. split.
  - intros Hd i j x Hi Hj. apply lookup_take_Some in Hi as [Hi Hin], Hj as [Hj Hjn].
    destruct (decide (i = j)) as [|Hne]; [done|]. exfalso.
    apply list_lookup_total_correct in Hi, Hj.
    destruct (decide (i < j)%nat).
    + apply (Hd (Z.of_nat j) (Z.of_nat i)); [lia|lia|]. unfold aget. rewrite !Nat2Z.id. congruence.
    + apply (Hd (Z.of_nat i) (Z.of_nat j)); [lia|lia|]. unfold aget. rewrite !Nat2Z.id. congruence.
  - intros Hd i j Hj Hi He. assert (Z.to_nat i = Z.to_nat j); [|lia].
    apply (Hd _ _ (a.[i])); apply lookup_take_Some; (split; [|lia]).
    + apply aget_lookup. lia.
    + rewrite <- He. apply aget_lookup. lia.
Qed.

Lemma prefix_Forall {A} `{Inhabited A} (a : list A) n (P : A -> Prop) :
  0 <= n <= alen a -> (forall i, 0 <= i < n -> P (a.[i])) <-> Forall P (prefix n a).
Proof.
  intros Hn. unfold prefix. rewrite Forall_lookup. split.
  - intros H' k x Hk. apply lookup_take_Some in Hk as [Hk Hlt].
    specialize (H' (Z.of_nat k) ltac:(lia)). unfold aget in H'. rewrite Nat2Z.id in H'.
    by rewrite (list_lookup_total_correct _ _ _ Hk) in H'.
  - intros H' i Hi. apply (H' (Z.to_nat i)). apply lookup_take_Some.
    split; [|lia]. apply aget_lookup. lia.
Qed.

(** ** What an accepted configuration is *)

Definition name_char (c : Z) : bool :=
  (c <=? 127) && (isalnum c || (c =? 95) || (c =? 45) || (c =? 46)).

Definition name_ok (cap : Z) (s : list Z) : Prop :=
  0 < strlen s < cap /\ Forall (fun c => name_char c = true) (cstr s) /\ has_dotdot (cstr s) = false.

Lemma safe_name_iff s cap :
  0 < cap <= alen s -> safe_name s cap false = true <-> name_ok cap s.
Proof.
  intros Hcap. unfold safe_name, name_ok. rewrite find_terminator by lia. pose proof (strlen_nonneg s).
  rewrite andb_true_r. destruct (s.[0] =? 0) eqn:E0; bsimp.
  { split; [done|]. intros ([Hs _] & _). by destruct (cstr_chars s 0) as [_ ?]; [lia|]. }
  assert (0 < strlen s) as Hpos.
  { destruct (decide (strlen s = 0)) as [Hz|]; [|lia].
    pose proof (strlen_end s ltac:(lia)) as He. by rewrite Hz in He. }
  pose (bad (c : Z) := (127 <? c) || negb (isalnum c) && negb (c =? 95) && negb (c =? 45) && negb (c =? 46)).
  assert (forall c, bad c = false <-> name_char c = true) as Hbad.
  { intros c. unfold bad, name_char. rewrite Z.ltb_antisym.
    destruct (c <=? 127), (isalnum c), (c =? 95), (c =? 45), (c =? 46); done. }
  destruct (strlen s <? cap) eqn:E; bsimp; cbn [default].
  - pose proof (chars_all s (strlen s) bad ltac:(lia)) as Hc. rewrite prefix_strlen in Hc.
    rewrite (Forall_iff _ _ _ Hbad) in Hc. unfold bad in Hc. destruct (for_find _ _ _).
    + split; [done|]. intros (_ & Hf & _). by apply Hc in Hf.
    + rewrite andb_true_iff, negb_true_iff, Z.ltb_lt. destruct Hc as [Hc _].
      specialize (Hc eq_refl). split.
      * intros [? ?]. split; [lia|done].
      * intros ([? ?] & _ & ?). done.
  - split; [|intros ([_ ?] & _); lia].
    destruct (for_find _ _ _); [done|]. rewrite Z.ltb_irrefl. done.
Qed.

(** The arrays have their declared sizes, the counters are unsigned. *)
Definition mdio_config_sized (c : mdio_phy_config_t) : Prop :=
  alen (mc_name c) = MDIO_CFG_NAME_MAX /\ alen (mc_file_name c) = I2C_CFG_FILE_NAME_MAX /\
  alen (mc_autopoll_regs c) = MDIO_CFG_AUTOPOLL_REGS_MAX /\
  alen (mc_whitelist c) = MDIO_CFG_RULES_MAX /\ alen (mc_blacklist c) = MDIO_CFG_RULES_MAX /\
  alen (mc_settings c) = MDIO_CFG_SETTINGS_MAX /\
  0 <= mc_phy_addr c /\ 0 <= mc_reg_count c /\ 0 <= mc_autopoll_regs_len c /\
  0 <= mc_whitelist_len c /\ 0 <= mc_blacklist_len c /\ 0 <= mc_settings_len c.

Definition autopoll_list (c : mdio_phy_config_t) : list Z := prefix (mc_autopoll_regs_len c) (mc_autopoll_regs c).
Definition allow_list (c : mdio_phy_config_t) : list mdio_rule_entry_t := prefix (mc_whitelist_len c) (mc_whitelist c).
Definition deny_list (c : mdio_phy_config_t) : list mdio_rule_entry_t := prefix (mc_blacklist_len c) (mc_blacklist c).
Definition settings_list (c : mdio_phy_config_t) : list mdio_setting_entry_t := prefix (mc_settings_len c) (mc_settings c).

Record mdio_config_wf (c : mdio_phy_config_t) : Prop := {
  wf_name : name_ok MDIO_CFG_NAME_MAX (mc_name c);
  wf_file : (mc_file_name c).[0] = 0 \/ bvstk_device_profile_path_valid (Some (mc_file_name c)) = true;
  wf_phy : mc_phy_addr c <= 31;
  wf_reg_count : 1 <= mc_reg_count c <= 32;
  wf_policy : mc_policy c = MDIO_POLICY_WHITELIST \/ mc_policy c = MDIO_POLICY_BLACKLIST;
  wf_whitelist_len : mc_whitelist_len c <= MDIO_CFG_RULES_MAX;
  wf_blacklist_len : mc_blacklist_len c <= MDIO_CFG_RULES_MAX;
  wf_settings_len : mc_settings_len c <= MDIO_CFG_SETTINGS_MAX;
  wf_autopoll_len : mc_autopoll_regs_len c <= 32;
  wf_delays : mc_autopoll_reg_delay_ms c <= 60000 /\ mc_autopoll_cycle_delay_ms c <= 600000;
  wf_rules : Forall (fun r => mr_reg r < mc_reg_count c) (allow_list c ++ deny_list c);
  wf_autopoll : Forall (fun r => r < mc_reg_count c) (autopoll_list c) /\ NoDup (autopoll_list c);
  wf_settings : Forall (fun e => ms_reg e < mc_reg_count c) (settings_list c) /\
                NoDup (ms_reg <$> settings_list c);
  wf_profile : bvstk_device_profile_metadata_validate (Some (mc_profile c)) (mc_reg_count c) = BVSTK_OK
}.

Lemma autopoll_check_None c n :
  0 <= n <= alen (mc_autopoll_regs c) ->
  (forall i, 0 <= i < n -> autopoll_check c i = None) <->
  Forall (fun r => r < mc_reg_count c) (prefix n (mc_autopoll_regs c)) /\ NoDup (prefix n (mc_autopoll_regs c)).
Proof.
  intros Hn. rewrite <- prefix_Forall, <- distinct_NoDup by done. unfold autopoll_check. split.
  - intros H. split.
    + intros i Hi. specialize (H i Hi). destruct (_ <=? _) eqn:E; bsimp; [done|lia].
    + intros i j Hj Hi. specialize (H i ltac:(lia)). destruct (_ <=? _); [done|].
      destruct (for_find _ _ _) eqn:E; [done|]. rewrite for_find_None in E.
      specialize (E j ltac:(lia)). by bsimp.
  - intros [H1 H2] i Hi. specialize (H1 i Hi). rewrite (proj2 (Z.leb_gt _ _)) by lia.
    destruct (for_find _ _ _) as [j|] eqn:E; [|done]. apply for_find_Some in E as (Hj & He & _).
    bsimp. destruct (H2 i j); [lia|lia|done].
Qed.

Lemma setting_check_None c n :
  0 <= n <= alen (mc_settings c) ->
  (forall i, 0 <= i < n -> setting_check c i = None) <->
  Forall (fun e => ms_reg e < mc_reg_count c) (prefix n (mc_settings c)) /\
  NoDup (ms_reg <$> prefix n (mc_settings c)).
Proof.
  intros Hn. rewrite <- (prefix_Forall _ _ (fun e => ms_reg e < mc_reg_count c)) by done.
  replace (ms_reg <$> prefix n (mc_settings c)) with (prefix n (ms_reg <$> mc_settings c))
    by (unfold prefix; by rewrite <- fmap_take).
  assert (alen (ms_reg <$> mc_settings c) = alen (mc_settings c)) as Hl
    by (unfold alen; by rewrite length_fmap).
  rewrite <- distinct_NoDup by lia.
  assert (forall i, 0 <= i < n -> (ms_reg <$> mc_settings c).[i] = ms_reg ((mc_settings c).[i])) as Hg.
  { intros i Hi. apply list_lookup_total_correct. rewrite list_lookup_fmap.
    by rewrite aget_lookup by lia. }
  unfold setting_check. split.
  - intros H. split.
    + intros i Hi. specialize (H i Hi). destruct (_ <=? _) eqn:E; bsimp; [done|lia].
    + intros i j Hj Hi. rewrite !Hg by lia. specialize (H i ltac:(lia)). destruct (_ <=? _); [done|].
      destruct (for_find _ _ _) eqn:E; [done|]. rewrite for_find_None in E.
      specialize (E j ltac:(lia)). by bsimp.
  - intros [H1 H2] i Hi. specialize (H1 i Hi). rewrite (proj2 (Z.leb_gt _ _)) by lia.
    destruct (for_find _ _ _) as [j|] eqn:E; [|done]. apply for_find_Some in E as (Hj & He & _).
    bsimp. destruct (H2 i j); [lia|lia|]. by rewrite !Hg by lia.
Qed.

Lemma rule_check_None c n rules :
  0 <= n <= alen rules ->
  (forall i, 0 <= i < n ->
     (if mc_reg_count c <=? mr_reg (aget rules i) then Some BVSTK_ERR_RANGE else None) = None) <->
  Forall (fun r => mr_reg r < mc_reg_count c) (prefix n rules).
Proof.
  intros Hn. rewrite <- prefix_Forall by done. split; intros H i Hi; specialize (H i Hi).
  - destruct (_ <=? _) eqn:E; bsimp; [done|lia].
  - by rewrite (proj2 (Z.leb_gt _ _)) by lia.
Qed.

Lemma check_all_Some n check e : check_all n check = Some e -> exists i, check i = Some e.
Proof.
  unfold check_all. generalize (Z.to_nat n) as m, 0 as lo. induction m as [|m IH]; intros lo; [done|].
  cbn [for_loop]. destruct (check lo) as [e'|] eqn:E; [|apply IH]. intros [= <-]. eauto.
Qed.

(** The field checks of [bvstk_mdio_config_validate] and its four loops. *)
Definition mdio_fields_ok (c : mdio_phy_config_t) : bool :=
  negb (negb (safe_name (mc_name c) MDIO_CFG_NAME_MAX false) ||
    negb ((mc_file_name c).[0] =? 0) && negb (bvstk_device_profile_path_valid (Some (mc_file_name c))) ||
    (31 <? mc_phy_addr c) || (mc_reg_count c =? 0) || (32 <? mc_reg_count c) ||
    negb (mc_policy c =? MDIO_POLICY_WHITELIST) && negb (mc_policy c =? MDIO_POLICY_BLACKLIST) ||
    (MDIO_CFG_RULES_MAX <? mc_whitelist_len c) || (MDIO_CFG_RULES_MAX <? mc_blacklist_len c) ||
    (MDIO_CFG_SETTINGS_MAX <? mc_settings_len c) || (32 <? mc_autopoll_regs_len c) ||
    (60000 <? mc_autopoll_reg_delay_ms c) || (600000 <? mc_autopoll_cycle_delay_ms c)).

Definition mdio_lists_check (c : mdio_phy_config_t) : option bvstk_status_t :=
  let rule_check rules i :=
    if mc_reg_count c <=? mr_reg (aget rules i) then Some BVSTK_ERR_RANGE else None in
  or_else (check_all (mc_whitelist_len c) (rule_check (mc_whitelist c)))
    (or_else (check_all (mc_blacklist_len c) (rule_check (mc_blacklist c)))
    (or_else (check_all (mc_autopoll_regs_len c) (autopoll_check c))
             (check_all (mc_settings_len c) (setting_check c)))).

Lemma mdio_validate_unfold c :
  bvstk_mdio_config_validate (Some c) =
    if mdio_fields_ok c then
      default (bvstk_device_profile_metadata_validate (Some (mc_profile c)) (mc_reg_count c))
        (mdio_lists_check c)
    else BVSTK_ERR_MALFORMED.
Proof.
  unfold bvstk_mdio_config_validate, mdio_fields_ok, mdio_lists_check.
  match goal with |- context [if ?b then BVSTK_ERR_MALFORMED else _] => destruct b end;
    cbn [negb]; [done|]. by destruct (or_else _ _).
Qed.

Lemma mdio_fields_iff c :
  mdio_config_sized c ->
  mdio_fields_ok c = true <->
  name_ok MDIO_CFG_NAME_MAX (mc_name c) /\
  ((mc_file_name c).[0] = 0 \/ bvstk_device_profile_path_valid (Some (mc_file_name c)) = true) /\
  mc_phy_addr c <= 31 /\ 1 <= mc_reg_count c <= 32 /\
  (mc_policy c = MDIO_POLICY_WHITELIST \/ mc_policy c = MDIO_POLICY_BLACKLIST) /\
  mc_whitelist_len c <= MDIO_CFG_RULES_MAX /\ mc_blacklist_len c <= MDIO_CFG_RULES_MAX /\
  mc_settings_len c <= MDIO_CFG_SETTINGS_MAX /\ mc_autopoll_regs_len c <= 32 /\
  mc_autopoll_reg_delay_ms c <= 60000 /\ mc_autopoll_cycle_delay_ms c <= 600000.
Proof.
  intros (Hn & _ & _ & _ & _ & _ & _ & Hrc & _).
  rewrite <- safe_name_iff by (rewrite Hn; unfold MDIO_CFG_NAME_MAX; lia).
  unfold mdio_fields_ok. rewrite negb_true_iff, !orb_false_iff, !andb_false_iff, !negb_false_iff,
    !Z.ltb_ge, !Z.eqb_eq, Z.eqb_neq. intuition lia.
Qed.

Lemma mdio_lists_iff c :
  mdio_config_sized c -> mdio_fields_ok c = true ->
  mdio_lists_check c = None <->
  Forall (fun r => mr_reg r < mc_reg_count c) (allow_list c ++ deny_list c) /\
  (Forall (fun r => r < mc_reg_count c) (autopoll_list c) /\ NoDup (autopoll_list c)) /\
  (Forall (fun e => ms_reg e < mc_reg_count c) (settings_list c) /\ NoDup (ms_reg <$> settings_list c)).
Proof.
  intros Hsz Hf. apply mdio_fields_iff in Hf as (_ & _ & _ & _ & _ & Hw & Hb & Hs & Ha & _); [|done].
  destruct Hsz as (_ & _ & Hal & Hwl & Hbl & Hsl & _ & _ & Ha0 & Hw0 & Hb0 & Hs0).
  unfold mdio_lists_check. rewrite !or_else_None, !check_all_None.
  unfold MDIO_CFG_AUTOPOLL_REGS_MAX in Hal.
  rewrite !rule_check_None, autopoll_check_None, setting_check_None by lia.
  rewrite Forall_app. unfold allow_list, deny_list, autopoll_list, settings_list. tauto.
Qed.

Lemma mdio_lists_error c e : mdio_lists_check c = Some e -> e <> BVSTK_OK.
Proof.
  assert (forall n check, check_all n check = Some e -> (forall i e', check i = Some e' -> e' <> BVSTK_OK) ->
    e <> BVSTK_OK) as H.
  { intros n check He Hc. apply check_all_Some in He as [i Hi]. eauto. }
  intros He. apply or_else_Some in He as [He|[He|[He|He]%or_else_Some]%or_else_Some].
  all: apply H in He; [done|]; unfold autopoll_check, setting_check;
    intros i e' Hi; repeat case_match; congruence.
Qed.

Lemma mdio_validate_wf c :
  mdio_config_sized c ->
  bvstk_mdio_config_validate (Some c) = BVSTK_OK <-> mdio_config_wf c.
Proof.
  intros Hsz. rewrite mdio_validate_unfold. pose proof (mdio_fields_iff c Hsz) as Hf.
  destruct (mdio_fields_ok c) eqn:E.
  - pose proof (mdio_lists_iff c Hsz E) as Hl. pose proof (mdio_lists_error c) as He.
    destruct (mdio_lists_check c) as [e|]; cbn [default].
    + split; [intros Hid; by destruct (He e)|]. intros [].
      by destruct Hl as [_ Hl]; discriminate Hl.
    + destruct Hf as [(?&?&?&?&?&?&?&?&?&?&?) _]; [done|]. destruct Hl as [(?&?&?) _]; [done|].
      split; [by constructor|by intros []].
  - split; [done|]. intros []. destruct Hf as [_ Hf]. discriminate Hf; done.
Qed.

(** An MDIO configuration is accepted exactly when it is well formed: a
    file-safe name, an admissible file name, an address and register count on
    the bus, bounded lists and delays, every rule, polled and preset register
    within the count, no register polled or preset twice, and valid metadata. *)
Theorem mdio_config_validate_iff c :
  mdio_config_sized c ->
  bvstk_mdio_config_validate (Some c) = BVSTK_OK <-> mdio_config_wf c.
Proof. apply mdio_validate_wf. Qed.

Lemma rules_match_iff rules n reg value :
  0 <= n <= alen rules ->
  rules_match rules n reg value = true <->
  Exists (fun r => mr_reg r = reg /\ Z.land value (mr_mask r) = Z.land (mr_val r) (mr_mask r))
    (prefix n rules).
Proof.
  intros Hn. unfold rules_match.
  pose (hit r := mr_reg r = reg /\ Z.land value (mr_mask r) = Z.land (mr_val r) (mr_mask r)).
  pose (P i (m : bool) := m = true <-> exists k, 0 <= k < i /\ hit (aget rules k)).
  pose proof (for_each_ind P (Z.to_nat n) 0 (fun i matched =>
    if (mr_reg (rules.[i]) =? reg) &&
       (Z.land value (mr_mask (rules.[i])) =? Z.land (mr_val (rules.[i])) (mr_mask (rules.[i])))
    then true else matched) false) as Hind.
  rewrite Z2Nat.id, Z.add_0_l in Hind by lia.
  refine (iff_trans (Hind _ _) _); clear Hind; unfold P.
  - intros i m Hi IH. destruct (_ && _) eqn:E.
    + bsimp. split; [|done]. intros _. exists i. split; [lia|]. by split.
    + rewrite IH. split; intros (k & Hk & Hh); exists k; (split; [|done]).
      * lia.
      * destruct (decide (k = i)) as [->|]; [|lia]. destruct Hh as [H1 H2].
        by rewrite H1, H2, !Z.eqb_refl in E.
  - split; [done|]. intros (k & Hk & _). lia.
  - split.
    + intros (k & Hk & Hh). apply Exists_exists. exists (rules.[k]). split; [|done].
      apply list_elem_of_lookup. exists (Z.to_nat k). apply lookup_take_Some.
      split; [apply aget_lookup; lia|lia].
    + intros (r & Hr & Hh)%Exists_exists. apply list_elem_of_lookup in Hr as [k Hk].
      apply lookup_take_Some in Hk as [Hk Hlt]. exists (Z.of_nat k). split; [lia|].
      unfold aget. rewrite Nat2Z.id. by rewrite (list_lookup_total_correct _ _ _ Hk).
Qed.

(** The write check of an MDIO device: a whitelist device permits exactly
    the register values some entry of its allow list matches under its mask, a
    blacklist device exactly those no entry of its deny list matches, and
    nothing outside the register count. *)
Theorem mdio_policy_allows_iff c reg value :
  mdio_config_sized c -> mc_whitelist_len c <= MDIO_CFG_RULES_MAX ->
  mc_blacklist_len c <= MDIO_CFG_RULES_MAX ->
  let hit r := mr_reg r = reg /\ Z.land value (mr_mask r) = Z.land (mr_val r) (mr_mask r) in
  bvstk_mdio_policy_allows (Some c) reg value = true <->
  reg < mc_reg_count c /\
  (mc_policy c = MDIO_POLICY_WHITELIST /\ Exists hit (allow_list c) \/
   mc_policy c = MDIO_POLICY_BLACKLIST /\ ~ Exists hit (deny_list c)).
Proof.
  intros (_ & _ & _ & Hwl & Hbl & _ & _ & _ & _ & Hw0 & Hb0 & _) Hw Hb hit.
  unfold bvstk_mdio_policy_allows. rewrite !(proj2 (Z.ltb_ge MDIO_CFG_RULES_MAX _)) by done.
  rewrite !orb_false_r. destruct (mc_reg_count c <=? reg) eqn:E; bsimp; [split; [done|lia]|].
  pose proof (rules_match_iff (mc_whitelist c) (mc_whitelist_len c) reg value ltac:(lia)) as H1.
  pose proof (rules_match_iff (mc_blacklist c) (mc_blacklist_len c) reg value ltac:(lia)) as H2.
  unfold MDIO_POLICY_WHITELIST, MDIO_POLICY_BLACKLIST, allow_list, deny_list.
  destruct (mc_policy c =? 0) eqn:Ew; bsimp.
  { rewrite H1. split; [auto|]. by intros (_ & [[_ ?]|[? _]]); [|lia]. }
  destruct (mc_policy c =? 1) eqn:Eb; bsimp.
  { rewrite negb_true_iff, <- not_true_iff_false, H2. split; [auto|].
    by intros (_ & [[? _]|[_ ?]]); [lia|]. }
  split; [done|]. intros (_ & [[? _]|[? _]]); lia.
Qed.

(** ** Admissible file names *)

Lemma path_scan_spec path n slash :
  0 <= n -> path_scan path n = (slash, None) ->
  slash = 0 /\ (forall j, 0 <= j < n -> path_char (path.[j]) = true) \/
  0 < slash < n /\ slash < 32 /\ path.[slash] = 47 /\
    (forall j, 0 <= j < n -> j <> slash -> path_char (path.[j]) = true).
Proof.
  intros Hn Hs.
  pose (P i slash := slash = 0 /\ (forall j, 0 <= j < i -> path_char (path.[j]) = true) \/
    0 < slash < i /\ slash < 32 /\ path.[slash] = 47 /\
      (forall j, 0 <= j < i -> j <> slash -> path_char (path.[j]) = true)).
  pose proof (for_loop_ind P (fun _ r => r = false) (Z.to_nat n) 0
    (fun i slash =>
       if path.[i] =? 47 then
         if (i =? 0) || truth slash || (I2C_CFG_NAME_MAX <=? i) then (slash, Some false) else (i, None)
       else if negb (path_char (path.[i])) then (slash, Some false) else (slash, None)) 0) as H.
  unfold path_scan in Hs. rewrite Hs, Z2Nat.id, Z.add_0_l in H by lia. apply H; clear H.
  - intros i sl Hi HP. cbn zeta. destruct (path.[i] =? 47) eqn:E.
    + destruct ((i =? 0) || truth sl || (I2C_CFG_NAME_MAX <=? i)) eqn:E2; [done|].
      unfold I2C_CFG_NAME_MAX in E2. bsimp. right. split; [lia|]. split; [lia|]. split; [done|].
      intros j Hj Hne. destruct HP as [[_ HP]|[? _]]; [apply HP; lia|lia].
    + destruct (negb (path_char _)) eqn:E2; [done|]. bsimp.
      destruct HP as [[-> HP]|(? & ? & ? & HP)]; [left|right].
      * split; [done|]. intros j Hj. destruct (decide (j = i)) as [->|]; [done|]. apply HP. lia.
      * split; [lia|]. split; [done|]. split; [done|]. intros j Hj Hne.
        destruct (decide (j = i)) as [->|]; [done|]. apply HP; lia.
  - left. split; [done|]. lia.
Qed.

Lemma path_scan_false path n slash r : path_scan path n = (slash, Some r) -> r = false.
Proof.
  intros Hs. pose proof (for_loop_ind (fun _ (_ : Z) => True) (fun _ r => r = false) (Z.to_nat n) 0
    (fun i slash =>
       if path.[i] =? 47 then
         if (i =? 0) || truth slash || (I2C_CFG_NAME_MAX <=? i) then (slash, Some false) else (i, None)
       else if negb (path_char (path.[i])) then (slash, Some false) else (slash, None)) 0) as H.
  unfold path_scan in Hs. rewrite Hs in H. apply H; [|done]. intros i sl _ _.
  repeat case_match; simplify_eq; done.
Qed.

(** The part of a string from [k] on. *)
Lemma cstr_drop s k : 0 <= k <= strlen s -> cstr (drop (Z.to_nat k) s) = drop (Z.to_nat k) (cstr s).
Proof.
  intros Hk. revert k Hk. induction s as [|c s IH]; intros k Hk; [cbn [cstr]; by rewrite drop_nil|].
  rewrite strlen_cons in Hk. cbn [cstr]. destruct (decide (k = 0)) as [->|].
  { cbn [Z.to_nat drop cstr]. done. }
  destruct (c =? 0) eqn:E; [lia|]. replace (Z.to_nat k) with (S (Z.to_nat (k - 1))) by lia.
  cbn [drop]. apply IH. lia.
Qed.

Lemma strlen_drop s k : 0 <= k <= strlen s -> strlen (drop (Z.to_nat k) s) = strlen s - k.
Proof. intros Hk. unfold strlen, alen in *. rewrite cstr_drop by done. rewrite length_drop. lia. Qed.

Lemma aget_drop (s : list Z) k i : 0 <= k -> 0 <= i -> (drop (Z.to_nat k) s).[i] = s.[k + i].
Proof.
  intros Hk Hi. unfold aget. rewrite !list_lookup_total_alt, lookup_drop. do 2 f_equal. lia.
Qed.

(** The ".json" test, in either case. *)
Lemma json_at_spec s k :
  0 <= k -> strlen s = k + 5 -> json_at s k = true ->
  tolower <$> drop (Z.to_nat k) (cstr s) = json_extension.
Proof.
  intros Hk Hn Hj. rewrite <- cstr_drop by lia. pose proof (strlen_drop s k ltac:(lia)) as Hl.
  assert (forall i, 0 <= i < 5 -> (cstr (drop (Z.to_nat k) s)).[i] = s.[k + i]) as Hc.
  { intros i Hi. destruct (cstr_chars (drop (Z.to_nat k) s) i) as [-> _]; [lia|]. apply aget_drop; lia. }
  rewrite Hn in Hl. unfold json_at in Hj. unfold strlen, alen in Hl.
  destruct (cstr (drop (Z.to_nat k) s)) as [|a [|b [|c [|d [|e [|? ?]]]]]]; cbn in Hl; try lia.
  assert (s.[k] = a) as H0 by (rewrite <- (Z.add_0_r k); symmetry; exact (Hc 0 ltac:(lia))).
  assert (s.[k + 1] = b) as H1 by (symmetry; exact (Hc 1 ltac:(lia))).
  assert (s.[k + 2] = c) as H2 by (symmetry; exact (Hc 2 ltac:(lia))).
  assert (s.[k + 3] = d) as H3 by (symmetry; exact (Hc 3 ltac:(lia))).
  assert (s.[k + 4] = e) as H4 by (symmetry; exact (Hc 4 ltac:(lia))).
  rewrite H0, H1, H2, H3, H4 in Hj. clear -Hj.
  rewrite !andb_true_iff, !orb_true_iff, !Z.eqb_eq in Hj.
  destruct Hj as ((((-> & [-> | ->]) & [-> | ->]) & [-> | ->]) & [-> | ->]); done.
Qed.

(** A directory name: file-safe and without an extension. *)
Definition dir_char (c : Z) : bool := path_char c && negb (c =? 46).

(** A flat leaf, or one directory with a leaf that is "profile.json" or carries
    the directory's name. *)
Definition path_shape (s : list Z) : Prop :=
  (Forall (fun c => path_char c = true) s /\
   exists stem ext, s = stem ++ ext /\ stem <> [] /\ tolower <$> ext = json_extension) \/
  exists dir leaf, s = dir ++ 47 :: leaf /\ 0 < alen dir < 32 /\
    Forall (fun c => dir_char c = true) dir /\ Forall (fun c => path_char c = true) leaf /\
    (tolower <$> leaf = profile_leaf \/ tolower <$> leaf = (tolower <$> dir) ++ json_extension).

Lemma cstr_Forall s (P : Z -> Prop) lo hi :
  0 <= lo -> hi <= strlen s -> (forall j, lo <= j < hi -> P (s.[j])) ->
  Forall P (drop (Z.to_nat lo) (prefix hi (cstr s))).
Proof.
  intros Hlo Hhi HP. apply Forall_lookup. intros i c Hi. rewrite lookup_drop in Hi.
  apply lookup_take_Some in Hi as [Hi Hlt].
  destruct (cstr_chars s (lo + Z.of_nat i)) as [Hc _]; [lia|].
  specialize (HP (lo + Z.of_nat i) ltac:(lia)). rewrite <- Hc in HP. unfold aget in HP.
  replace (Z.to_nat (lo + Z.of_nat i)) with (Z.to_nat lo + i)%nat in HP by lia.
  by rewrite (list_lookup_total_correct _ _ _ Hi) in HP.
Qed.

Lemma cstr_split s k :
  0 <= k < strlen s ->
  cstr s = prefix k (cstr s) ++ s.[k] :: drop (Z.to_nat (k + 1)) (cstr s).
Proof.
  intros Hk. rewrite <- (take_drop (Z.to_nat k) (cstr s)) at 1. unfold prefix. f_equal.
  destruct (cstr_chars s k Hk) as [<- _].
  replace (Z.to_nat (k + 1)) with (S (Z.to_nat k)) by lia.
  apply drop_S. apply aget_lookup. done.
Qed.

(** The leaf's name is the directory's, in either case. *)
Lemma leaf_stem (s leaf : list Z) k :
  0 <= k <= strlen s -> k <= strlen leaf ->
  for_find (Z.to_nat k) 0 (fun i => negb (tolower (s.[i]) =? tolower (leaf.[i]))) = None ->
  tolower <$> prefix k (cstr leaf) = tolower <$> prefix k (cstr s).
Proof.
  intros Hk Hl Hf. rewrite for_find_None in Hf. apply list_eq. intros i.
  rewrite !list_lookup_fmap. unfold prefix. destruct (decide (Z.of_nat i < k)).
  - rewrite !lookup_take_lt by lia. specialize (Hf (Z.of_nat i) ltac:(lia)). bsimp.
    destruct (cstr_chars s (Z.of_nat i)) as [H1 _]; [lia|].
    destruct (cstr_chars leaf (Z.of_nat i)) as [H2 _]; [lia|].
    rewrite <- H1, <- H2 in Hf. unfold strlen in *.
    pose proof (aget_lookup (cstr s) (Z.of_nat i) ltac:(lia)) as Hs1.
    pose proof (aget_lookup (cstr leaf) (Z.of_nat i) ltac:(lia)) as Hs2.
    rewrite Nat2Z.id in Hs1, Hs2. rewrite Hs1, Hs2. cbn. by rewrite Hf.
  - by rewrite !lookup_take_ge by lia.
Qed.

(** The bundle form: [slash] separates the directory from its leaf. *)
Lemma bundle_shape path n k :
  n = strlen path -> 0 < k < n -> k < 32 -> path.[k] = 47 ->
  (forall j, 0 <= j < n -> j <> k -> path_char (path.[j]) = true) ->
  for_find (Z.to_nat k) 0 (fun i => path.[i] =? 46) = None ->
  (tolower <$> cstr (drop (Z.to_nat (k + 1)) path) = profile_leaf \/
   tolower <$> cstr (drop (Z.to_nat (k + 1)) path) =
     (tolower <$> prefix k (cstr path)) ++ json_extension) ->
  path_shape (cstr path).
Proof.
  intros -> Hk Hk32 H47 Hch Hdot Hleaf. right. exists (prefix k (cstr path)), (drop (Z.to_nat (k + 1)) (cstr path)).
  rewrite cstr_drop in Hleaf by lia. unfold strlen in Hk. split.
  { rewrite <- H47. apply cstr_split. unfold strlen. lia. }
  split; [by rewrite alen_prefix by lia; lia|]. split; [|split; [|done]].
  - apply (cstr_Forall path _ 0 k); [lia|unfold strlen; lia|]. intros j Hj.
    rewrite for_find_None in Hdot. specialize (Hdot j ltac:(lia)).
    unfold dir_char. by rewrite Hdot, Hch by (unfold strlen; lia).
  - rewrite <- (firstn_all (cstr path)) at 1.
    replace (length (cstr path)) with (Z.to_nat (strlen path)) by (unfold strlen, alen; lia).
    apply (cstr_Forall path _ (k + 1) (strlen path)); [lia|lia|]. intros j Hj. apply Hch; lia.
Qed.

(** An admissible profile file name cannot leave the configuration
    directory: it has 6 to 47 characters and no "..", and is either a flat
    file-safe name ending in ".json" or one extension-free directory followed by
    "profile.json" or by the directory's own name with ".json" (letter case
    aside).  In particular it is relative and has at most one separator. *)
Theorem path_valid_safe path :
  bvstk_device_profile_path_valid (Some path) = true ->
  6 <= strlen path < 48 /\ has_dotdot (cstr path) = false /\ path_shape (cstr path).
Proof.
  unfold bvstk_device_profile_path_valid. set (n := strlen path). unfold I2C_CFG_FILE_NAME_MAX.
  destruct (negb (memchr0 path 48) || (n <? 6) || has_dotdot (cstr path)) eqn:E; [done|].
  bsimp. assert (n < 48) as Hn48 by (by apply memchr0_strlen). intros Hv.
  split; [lia|]. split; [done|].
  destruct (path_scan path n) as [slash [r|]] eqn:Hs.
  { subst r. apply path_scan_false in Hs. done. }
  apply path_scan_spec in Hs as [[-> Hch]|(Hk & Hk32 & H47 & Hch)]; [| |lia].
  - cbn [Z.eqb] in Hv. apply andb_true_iff in Hv as [_ Hj].
    apply json_at_spec in Hj; [|lia|subst n; lia]. left. split.
    + rewrite <- (prefix_strlen path).
      apply (cstr_Forall path (fun c => path_char c = true) 0 n); [done|done|exact Hch].
    + exists (take (Z.to_nat (n - 5)) (cstr path)), (drop (Z.to_nat (n - 5)) (cstr path)).
      rewrite take_drop. split; [done|]. split; [|done]. intros Ht.
      apply (f_equal length) in Ht. rewrite length_take in Ht. cbn in Ht.
      unfold n, strlen, alen in *. lia.
  - rewrite (proj2 (Z.eqb_neq _ _)) in Hv by lia.
    destruct (for_find (Z.to_nat slash) 0 (fun i => path.[i] =? 46)) eqn:Hdot; [done|].
    apply (bundle_shape path n slash); try done.
    set (leaf := drop (Z.to_nat (slash + 1)) path) in *.
    destruct (strcaseeq leaf profile_leaf) eqn:Hp; [left; by apply strcaseeq_spec in Hp|right].
    destruct (strlen leaf =? slash + 5) eqn:Hl; cbn [negb] in Hv; [|done]. bsimp.
    destruct (for_find (Z.to_nat slash) 0 (fun i => negb (tolower (path.[i]) =? tolower (leaf.[i]))))
      eqn:Hf; [done|].
    apply leaf_stem in Hf; [|lia|lia]. rewrite <- Hf. apply json_at_spec in Hv; [|lia|done].
    rewrite <- Hv, <- fmap_app. unfold prefix. by rewrite take_drop.
Qed.

(** ** Concrete runs *)

(** A string in a buffer of [cap] cells. *)
Definition cbuf (cap : Z) (s : list Z) : list Z := s ++ fill (cap - alen s) 0.

(** PHY 1, "phy0" in "phy0/phy0.json", 32 registers, whitelist: register 0 with
    value 0x8000 under mask 0x8000; identity registers polled. *)
Definition demo_phy : mdio_phy_config_t :=
  MdioConfig (cbuf 32 [112; 104; 121; 48])
    (cbuf 48 [112; 104; 121; 48; 47; 112; 104; 121; 48; 46; 106; 115; 111; 110])
    1 32 MDIO_POLICY_WHITELIST true ([1; 2; 3] ++ fill 29 0) 3 10 1000
    (MdioRule 0 0x8000 0x8000 :: fill 63 inhabitant) 1 (fill 64 inhabitant) 0
    (MdioSetting 4 0x1E1 :: fill 31 inhabitant) 1 zero_profile.

Lemma demo_phy_sized : mdio_config_sized demo_phy.
Proof. done. Qed.

Lemma mdio_config_validate_iff_witness : mdio_config_wf demo_phy.
Proof. apply (mdio_config_validate_iff demo_phy demo_phy_sized). vm_compute. done. Defined.

Lemma mdio_policy_allows_iff_witness :
  bvstk_mdio_policy_allows (Some demo_phy) 0 0x9200 = true /\
  ~ (bvstk_mdio_policy_allows (Some demo_phy) 0 0x1200 = true).
Proof.
  split.
  - apply (mdio_policy_allows_iff demo_phy 0 0x9200 demo_phy_sized ltac:(done) ltac:(done)).
    split; [done|]. left. split; [done|]. constructor. done.
  - intros H. apply (mdio_policy_allows_iff demo_phy 0 0x1200 demo_phy_sized ltac:(done) ltac:(done)) in H.
    destruct H as (_ & [[_ H]|[H _]]); [|done]. apply Exists_exists in H as (r & Hr & _ & Hm).
    apply list_elem_of_singleton in Hr as ->. done.
Defined.

Lemma path_valid_safe_witness :
  6 <= strlen (mc_file_name demo_phy) < 48 /\ has_dotdot (cstr (mc_file_name demo_phy)) = false /\
  path_shape (cstr (mc_file_name demo_phy)).
Proof. apply (path_valid_safe (mc_file_name demo_phy)). vm_compute. done. Defined.

(** Refused names: a parent reference, an absolute path, a nested directory, a
    leaf that is not the directory's. *)
Example path_parent : bvstk_device_profile_path_valid
  (Some (cbuf 48 [46; 46; 47; 97; 46; 106; 115; 111; 110])) = false.
Proof. vm_compute. done. Qed.
Example path_absolute : bvstk_device_profile_path_valid
  (Some (cbuf 48 [47; 97; 97; 46; 106; 115; 111; 110])) = false.
Proof. vm_compute. done. Qed.
Example path_nested : bvstk_device_profile_path_valid
  (Some (cbuf 48 [97; 47; 98; 47; 97; 46; 106; 115; 111; 110])) = false.
Proof. vm_compute. done. Qed.
Example path_other_leaf : bvstk_device_profile_path_valid
  (Some (cbuf 48 [97; 98; 47; 97; 99; 46; 106; 115; 111; 110])) = false.
Proof. vm_compute. done. Qed.
