(* ===== verification/JsonReader.v ===== *)
(** * JsonReader: the strict JSON views of device profiles

    [src/src/shared/config/bvstk_device_profile.c], first part: characters,
    strings, values, documents, object members, array items and scalars.

    A cursor of the code is a pair of a position and an end in a buffer that
    nobody writes; here it is the list of the bytes that remain, so the test
    [*p >= end] is emptiness and [end - *p] is a length.  A view whose [p] is
    NULL is [None].  Failure of a reader is [None]; what it had written to its
    output by then is not used by any caller. *)
From stdpp Require Import prelude.
From Stdlib Require Import ZArith Lia.
From Stdlib Require String Ascii.
Import String.StringSyntax.
From S2P Require Import Prelude Text Platform I2cDevices ConfigValidate.
Local Open Scope Z_scope.

(** ** Characters *)

Definition is_ws (c : Z) : bool := (c =? 32) || (c =? 9) || (c =? 13) || (c =? 10).

Fixpoint ws (p : chars) : chars :=
  match p with
  | c :: q => if is_ws c then ws q else p
  | [] => []
  end.

Definition hex_digit (c : Z) : Z :=
  if digit c then c - 48
  else if (97 <=? c) && (c <=? 102) then c - 97 + 10
  else if (65 <=? c) && (c <=? 70) then c - 65 + 10
  else -1.

(** The output: [cap] is [None] for a NULL [out], whose characters are only
    counted.  [*n] is the length of what was written. *)
Definition emit (cap : option Z) (out : chars) (c : Z) : option chars :=
  match cap with
  | Some cap => if cap <=? alen out + 1 then None else Some (out ++ [c])
  | None => Some (out ++ [c])
  end.

Definition emits (cap : option Z) (out cs : chars) : option chars :=
  foldl (fun o c => match o with Some out => emit cap out c | None => None end) (Some out) cs.

Definition codepoint (cap : option Z) (out : chars) (cp : Z) : option chars :=
  if (cp =? 0) || (0x10FFFF <? cp) || (0xD800 <=? cp) && (cp <=? 0xDFFF) then None
  else if cp <? 0x80 then emit cap out (u8 cp)
  else if cp <? 0x800 then
    emits cap out [u8 (Z.lor 0xC0 (Z.shiftr cp 6)); u8 (Z.lor 0x80 (Z.land cp 63))]
  else if cp <? 0x10000 then
    emits cap out [u8 (Z.lor 0xE0 (Z.shiftr cp 12)); u8 (Z.lor 0x80 (Z.land (Z.shiftr cp 6) 63));
                   u8 (Z.lor 0x80 (Z.land cp 63))]
  else
    emits cap out [u8 (Z.lor 0xF0 (Z.shiftr cp 18)); u8 (Z.lor 0x80 (Z.land (Z.shiftr cp 12) 63));
                   u8 (Z.lor 0x80 (Z.land (Z.shiftr cp 6) 63)); u8 (Z.lor 0x80 (Z.land cp 63))].

Fixpoint hex_loop (k : nat) (p : chars) (cp : Z) : option (Z * chars) :=
  match k with
  | O => Some (cp, p)
  | S k =>
      match p with
      | [] => None
      | c :: p =>
          let d := hex_digit c in
          if d <? 0 then None else hex_loop k p (Z.lor (u32 (Z.shiftl cp 4)) (u32 d))
      end
  end.

Definition hex4 (p : chars) : option (Z * chars) :=
  if alen p <? 4 then None else hex_loop 4 p 0.

(** ** Strings *)

(** The part of the loop body after a backslash and [u]. *)
Definition unicode_escape (cap : option Z) (p out : chars) : option (chars * chars) :=
  match hex4 p with
  | None => None
  | Some (cp, p) =>
      if (0xD800 <=? cp) && (cp <=? 0xDBFF) then
        if (alen p <? 6) || negb (p.[0] =? 92) || negb (p.[1] =? 117) then None
        else
          match hex4 (drop 2 p) with
          | None => None
          | Some (low, p) =>
              if (low <? 0xDC00) || (0xDFFF <? low) then None
              else
                let cp := u32 (u32 (0x10000 + u32 (Z.shiftl (cp - 0xD800) 10) + low) - 0xDC00) in
                match codepoint cap out cp with Some out => Some (p, out) | None => None end
          end
      else match codepoint cap out cp with Some out => Some (p, out) | None => None end
  end.

(** The continuation bytes of a character of several bytes. *)
Fixpoint utf8_tail (count : nat) (p : chars) (cp : Z) : option (Z * chars) :=
  match count with
  | O => Some (cp, p)
  | S count =>
      match p with
      | [] => None
      | next :: p =>
          if negb (Z.land next 0xC0 =? 0x80) then None
          else utf8_tail count p (Z.lor (u32 (Z.shiftl cp 6)) (Z.land next 63))
      end
  end.

(** The leading byte: [cp], [count], [minimum]. *)
Definition utf8_lead (c : Z) : option (Z * nat * Z) :=
  if (0xC2 <=? c) && (c <=? 0xDF) then Some (Z.land c 31, 1%nat, 0x80)
  else if (0xE0 <=? c) && (c <=? 0xEF) then Some (Z.land c 15, 2%nat, 0x800)
  else if (0xF0 <=? c) && (c <=? 0xF4) then Some (Z.land c 7, 3%nat, 0x10000)
  else None.

Definition escape_char (c : Z) : option Z :=
  if c =? 110 then Some 10
  else if c =? 114 then Some 13
  else if c =? 116 then Some 9
  else if c =? 98 then Some 8
  else if c =? 102 then Some 12
  else if negb (c =? 34) && negb (c =? 92) && negb (c =? 47) then None
  else Some c.

(** One round of the loop: [c] has been read, [p] follows it. *)
Definition string_char (cap : option Z) (c : Z) (p out : chars) : option (chars * chars) :=
  if c <? 32 then None
  else if c =? 92 then
    match p with
    | [] => None
    | c :: p =>
        if c =? 117 then unicode_escape cap p out
        else
          match escape_char c with
          | None => None
          | Some c => match emit cap out c with Some out => Some (p, out) | None => None end
          end
    end
  else if 128 <=? c then
    match utf8_lead c with
    | None => None
    | Some (cp, count, minimum) =>
        if alen p <? Z.of_nat count then None
        else
          match utf8_tail count p cp with
          | None => None
          | Some (cp, p) =>
              if cp <? minimum then None
              else match codepoint cap out cp with Some out => Some (p, out) | None => None end
          end
    end
  else match emit cap out c with Some out => Some (p, out) | None => None end.

Fixpoint string_loop (fuel : nat) (cap : option Z) (p out : chars) : option (chars * chars) :=
  match fuel with
  | O => None
  | S fuel =>
      match p with
      | [] => None
      | c :: q =>
          if c =? 34 then Some (q, out)
          else
            match string_char cap c q out with
            | None => None
            | Some (p, out) => string_loop fuel cap p out
            end
      end
  end.

(** The rest after the closing quote and the decoded characters. *)
Definition string (cap : option Z) (p : chars) : option (chars * chars) :=
  match p with
  | c :: q => if c =? 34 then string_loop (S (length q)) cap q [] else None
  | [] => None
  end.

(** ** Values *)

Definition string_end (p : chars) : option chars :=
  match string None p with Some (p, _) => Some p | None => None end.

Fixpoint digits (p : chars) : chars :=
  match p with
  | c :: q => if digit c then digits q else p
  | [] => []
  end.

(** [word] is what the cursor is at: enough characters are left and [memcmp] is 0. *)
Definition starts (word p : chars) : bool := bool_decide (take (length word) p = word).

Definition is_head (c : Z) (p : chars) : bool :=
  match p with d :: _ => d =? c | [] => false end.

Definition digit_head (p : chars) : bool := match p with c :: _ => digit c | [] => false end.

(** A fraction or an exponent after the integral part. *)
Definition fraction (p : chars) : option chars :=
  if is_head 46 p then
    let p := drop 1 p in if digit_head p then Some (digits p) else None
  else Some p.

Definition exponent (p : chars) : option chars :=
  if is_head 101 p || is_head 69 p then
    let p := drop 1 p in
    let p := if is_head 43 p || is_head 45 p then drop 1 p else p in
    if digit_head p then Some (digits p) else None
  else Some p.

(** [return *p > start] holds at the end: a digit was read. *)
Definition number_end (p : chars) : option chars :=
  let p := if is_head 45 p then drop 1 p else p in
  if negb (digit_head p) then None
  else
    let p := if is_head 48 p then drop 1 p else digits p in
    match fraction p with
    | None => None
    | Some p => exponent p
    end.

Definition scalar (p : chars) : option chars :=
  if starts (lit "true") p || starts (lit "null") p then Some (drop 4 p)
  else if starts (lit "false") p then Some (drop 5 p)
  else number_end p.

(** The endless loop over members of an object or items of an array; [val] reads
    a value one level down.  Every round consumes at least the separator. *)
Fixpoint elements (val : chars -> option chars) (object : bool) (fuel : nat) (p : chars)
    : option chars :=
  match fuel with
  | O => None
  | S fuel =>
      let key :=
        if object then
          match string_end p with
          | None => None
          | Some p => match ws p with c :: p => if c =? 58 then Some p else None | [] => None end
          end
        else Some p in
      match key with
      | None => None
      | Some p =>
          match val p with
          | None => None
          | Some p =>
              match ws p with
              | [] => None
              | c :: p =>
                  if c =? (if object then 125 else 93) then Some p
                  else if c =? 44 then elements val object fuel (ws p) else None
              end
          end
      end
  end.

(** [room] is how many more levels the depth limit of 16 leaves. *)
Fixpoint value_at (room : nat) (p : chars) : option chars :=
  let p := ws p in
  match p with
  | [] => None
  | c :: q =>
      if c =? 34 then string_end p
      else if (c =? 91) || (c =? 123) then
        match room with
        | O => None
        | S room =>
            let object := c =? 123 in
            let q := ws q in
            if is_head (if object then 125 else 93) q then Some (drop 1 q)
            else elements (value_at room) object (S (length q)) q
        end
      else scalar p
  end.

Definition value (p : chars) (depth : Z) : option chars := value_at (Z.to_nat (16 - depth)) p.

(** ** Documents *)

Definition BVSTK_PROFILE_JSON_MAX : Z := 65536.

(** A view: the text between [p] and [end]. *)
Abbreviation view_t := (option chars).

(** The text from [p] up to where the reader stopped. *)
Definition upto (p rest : chars) : chars := take (length p - length rest) p.

(** [json] is the buffer of a C string: the scan for its end gives up after
    [BVSTK_PROFILE_JSON_MAX] characters. *)
Definition document (json : option chars) : option chars :=
  match json with
  | None => None
  | Some json =>
      let text := cstr (prefix (BVSTK_PROFILE_JSON_MAX + 1) json) in
      if BVSTK_PROFILE_JSON_MAX <? alen text then None
      else
        let p := ws text in
        if negb (is_head 123 p) then None
        else
          match value p 0 with
          | None => None
          | Some q => match ws q with [] => Some (upto p q) | _ => None end
          end
  end.

(** ** Members of an object *)

Definition key_index (key : chars) (keys : list chars) : Z :=
  default (alen keys) (for_find (length keys) 0 (fun i => streq key (keys.[i]))).

Fixpoint fields_loop (fuel : nat) (p : chars) (keys : list chars) (seen : Z) (out : list view_t)
    : option (list view_t) :=
  match fuel with
  | O => None
  | S fuel =>
      match string (Some 64) p with
      | None => None
      | Some (p, key) =>
          let i := key_index key keys in
          if (i =? alen keys) || Z.testbit seen i then None
          else
            let seen := Z.lor seen (u64 (Z.shiftl 1 i)) in
            match ws p with
            | [] => None
            | c :: p =>
                if negb (c =? 58) then None
                else
                  let p := ws p in
                  match value p 1 with
                  | None => None
                  | Some q =>
                      let out := out.[i <- Some (upto p q)] in
                      match ws q with
                      | [] => None
                      | c :: q =>
                          if c =? 125 then match q with [] => Some out | _ => None end
                          else if negb (c =? 44) then None
                          else fields_loop fuel (ws q) keys seen out
                      end
                  end
            end
      end
  end.

Definition fields (object : view_t) (keys : list chars) : option (list view_t) :=
  match object with
  | None => None
  | Some [] => None
  | Some (c :: p) =>
      if negb (c =? 123) || (64 <? alen keys) then None
      else
        let out := fill (alen keys) None in
        let p := ws p in
        if is_head 125 p then match drop 1 p with [] => Some out | _ => None end
        else fields_loop (S (length p)) p keys 0 out
  end.

(** ** Scalars *)

Definition text (v : view_t) (cap : Z) : option chars :=
  match v with
  | None => None
  | Some p =>
      match string (Some cap) p with
      | Some ([], out) => if existsb (fun c => (c <? 32) || (c =? 127)) (cstr out) then None else Some out
      | _ => None
      end
  end.

Definition equal (v : view_t) (s : chars) : bool :=
  match text v 64 with Some buf => streq buf s | None => false end.

Fixpoint number_loop (p : chars) (max n : Z) : option Z :=
  match p with
  | [] => Some n
  | c :: p =>
      if negb (digit c) then None
      else
        let d := c - 48 in
        if (max <? d) || ((max - d) `div` 10 <? n) then None
        else number_loop p max (u32 (n * 10 + d))
  end.

Definition number (v : view_t) (max : Z) : option Z :=
  match v with
  | None => None
  | Some p =>
      match p with
      | [] => None
      | c :: q => if (1 <? alen p) && (c =? 48) then None else number_loop p max 0
      end
  end.

Fixpoint hex_value_loop (p : chars) (max n : Z) : option Z :=
  match p with
  | [] => Some n
  | c :: p =>
      let d := hex_digit c in
      if (d <? 0) || (max <? d) || ((max - d) `div` 16 <? n) then None
      else hex_value_loop p max (u32 (n * 16 + d))
  end.

Definition hex (v : view_t) (max : Z) : option Z :=
  match text v 19 with
  | None => None
  | Some buf =>
      match cstr buf with
      | c0 :: c1 :: ((_ :: _) as digits) =>
          if (c0 =? 48) && (c1 =? 120) then hex_value_loop digits max 0 else None
      | _ => None
      end
  end.

Definition boolean (v : view_t) : option bool :=
  match v with
  | None => None
  | Some p =>
      if bool_decide (p = lit "true") then Some true
      else if bool_decide (p = lit "false") then Some false
      else None
  end.

(** ** Items of an array *)

Inductive item_t :=
  | ItemEnd
  | ItemInvalid
  | Item (cursor : chars) (out : chars).

Definition item_at (p : chars) : item_t :=
  let p := ws p in
  if is_head 93 p then match drop 1 p with [] => ItemEnd | _ => ItemInvalid end
  else
    match value p 1 with
    | None => ItemInvalid
    | Some q => Item q (upto p q)
    end.

(** The cursor is NULL before the first item. *)
Definition item (array : view_t) (cursor : option chars) : item_t :=
  match array with
  | None => ItemEnd
  | Some a =>
      match cursor with
      | None => match a with c :: p => if c =? 91 then item_at p else ItemInvalid | [] => ItemInvalid end
      | Some p =>
          let p := ws p in
          if is_head 44 p then item_at (drop 1 p)
          else if is_head 93 p then item_at p
          else ItemInvalid
      end
  end.

Definition empty_array (v : view_t) : bool :=
  match v with
  | None => true
  | Some _ => match item v None with ItemEnd => true | _ => false end
  end.

(** ** The version gate *)

Record version_scan_t := VersionScan { vs_seen : bool; vs_modern : bool; vs_n : Z }.

(** The loop over the members of the root: [None] is the early return. *)
Fixpoint version_loop (fuel : nat) (p : chars) (s : version_scan_t) : option version_scan_t :=
  match fuel with
  | O => None
  | S fuel =>
      if match p with [] => true | c :: _ => c =? 125 end then Some s
      else
        match string (Some 64) p with
        | None => None
        | Some (p, key) =>
            let p := ws (drop 1 (ws p)) in
            match value p 1 with
            | None => None
            | Some q =>
                let v := Some (upto p q) in
                let s1 :=
                  if streq key (lit "schema_version") then
                    if vs_seen s then None
                    else
                      match number v 0xFFFFFFFF with
                      | None => None
                      | Some n => Some (VersionScan true (vs_modern s) n)
                      end
                  else Some s in
                match s1 with
                | None => None
                | Some s =>
                    let modern :=
                      if streq key (lit "resources") || streq key (lit "transport") ||
                         streq key (lit "protocol") || streq key (lit "id") then true
                      else vs_modern s in
                    let s := VersionScan (vs_seen s) modern (vs_n s) in
                    let q := ws q in
                    version_loop fuel (if is_head 44 q then ws (drop 1 q) else q) s
                end
            end
        end
  end.

(** The version when the status is [BVSTK_OK]; [version] is a valid pointer. *)
Definition bvstk_device_profile_version (json : option chars) : bvstk_status_t * Z :=
  match document json with
  | None => (BVSTK_ERR_MALFORMED, 0)
  | Some root =>
      let p := ws (drop 1 root) in
      match version_loop (S (length p)) p (VersionScan false false 0) with
      | None => (BVSTK_ERR_MALFORMED, 0)
      | Some s =>
          if negb (vs_seen s) && vs_modern s then (BVSTK_ERR_MALFORMED, 0)
          else if vs_seen s && negb (vs_n s =? 2) then (BVSTK_ERR_UNSUPPORTED, 0)
          else (BVSTK_OK, if vs_seen s then 2 else 0)
      end
  end.
