(* ===== verification/JsonGrammar.v ===== *)
(** * JsonGrammar: what the JSON reader accepts

    A grammar of JSON texts that is independent of the reader's control flow,
    with the meaning of string escapes, and the proof that the reader of
    [JsonReader] accepts exactly it: it decodes strings to the well-formed UTF-8
    their text denotes, reads the longest value at the cursor, and takes a
    document exactly when it is one object nested at most sixteen levels deep. *)
From stdpp Require Import prelude.
From Stdlib Require Import ZArith Lia.
From S2P Require Import Prelude Text Platform I2cDevices ConfigValidate JsonReader.
Import String.StringSyntax.
Local Open Scope Z_scope.

(** ** The grammar *)

Definition byte (c : Z) : Prop := 0 <= c < 256.

(** A Unicode scalar value other than NUL, and its UTF-8 encoding. *)
Definition scalar_value (cp : Z) : Prop := 0 < cp <= 0x10FFFF /\ ~ (0xD800 <= cp <= 0xDFFF).

Definition utf8 (cp : Z) : chars :=
  if cp <? 0x80 then [cp]
  else if cp <? 0x800 then [0xC0 + cp `div` 64; 0x80 + cp mod 64]
  else if cp <? 0x10000 then [0xE0 + cp `div` 4096; 0x80 + (cp `div` 64) mod 64; 0x80 + cp mod 64]
  else [0xF0 + cp `div` 262144; 0x80 + (cp `div` 4096) mod 64; 0x80 + (cp `div` 64) mod 64; 0x80 + cp mod 64].

(** Four hexadecimal digits and their value. *)
Definition hex_word (h : chars) (cp : Z) : Prop :=
  length h = 4%nat /\ Forall (fun c => 0 <= hex_digit c) h /\
  cp = foldl (fun n c => n * 16 + hex_digit c) 0 h.

(** One element of a string literal and the characters it stands for. *)
Inductive str_item : chars -> chars -> Prop :=
  | si_raw cp : scalar_value cp -> 32 <= cp -> cp <> 34 -> cp <> 92 -> str_item (utf8 cp) (utf8 cp)
  | si_escape c v : (c, v) ∈ [(110, 10); (114, 13); (116, 9); (98, 8); (102, 12); (34, 34); (92, 92); (47, 47)] ->
      str_item [92; c] [v]
  | si_unicode h cp : hex_word h cp -> scalar_value cp -> str_item (92 :: 117 :: h) (utf8 cp)
  | si_pair h l hi lo : hex_word h hi -> hex_word l lo -> 0xD800 <= hi <= 0xDBFF -> 0xDC00 <= lo <= 0xDFFF ->
      str_item (92 :: 117 :: h ++ 92 :: 117 :: l) (utf8 (0x10000 + (hi - 0xD800) * 1024 + (lo - 0xDC00))).

Inductive str_body : chars -> chars -> Prop :=
  | sb_nil : str_body [] []
  | sb_cons t v ts vs : str_item t v -> str_body ts vs -> str_body (t ++ ts) (v ++ vs).

Definition quote (t : chars) : chars := 34 :: t ++ [34].

Definition blank (w : chars) : Prop := Forall (fun c => is_ws c = true) w.
Definition digit_run (t : chars) : Prop := t <> [] /\ Forall (fun c => digit c = true) t.

Inductive number_text : chars -> Prop :=
  | number_text_intro s i f e :
      s = [] \/ s = [45] ->
      i = [48] \/ (digit_run i /\ is_head 48 i = false) ->
      f = [] \/ (exists d, f = 46 :: d /\ digit_run d) ->
      e = [] \/ (exists m s d, e = m :: s ++ d /\ (m = 101 \/ m = 69) /\ (s = [] \/ s = [43] \/ s = [45]) /\ digit_run d) ->
      number_text (s ++ i ++ f ++ e).

(** Comma-separated items of an array, or members of an object. *)
Inductive element (P : chars -> Prop) : bool -> chars -> Prop :=
  | element_item w t w' : blank w -> P t -> blank w' -> element P false (w ++ t ++ w')
  | element_member w k v w1 w2 t w' : blank w -> str_body k v -> blank w1 -> blank w2 -> P t -> blank w' ->
      element P true (w ++ quote k ++ w1 ++ 58 :: w2 ++ t ++ w').

Inductive element_list (P : chars -> Prop) (object : bool) : chars -> Prop :=
  | el_last t : element P object t -> element_list P object t
  | el_more t ts : element P object t -> element_list P object ts -> element_list P object (t ++ 44 :: ts).

Definition opening (object : bool) : Z := if object then 123 else 91.
Definition closing (object : bool) : Z := if object then 125 else 93.

(** Values nested at most [n] levels deep. *)
Fixpoint json_text (n : nat) (t : chars) : Prop :=
  (exists k v, t = quote k /\ str_body k v) \/
  t ∈ [lit "true"; lit "false"; lit "null"] \/
  number_text t \/
  match n with
  | O => False
  | S n => exists object body, t = opening object :: body ++ [closing object] /\
      (blank body \/ element_list (json_text n) object body)
  end.

(** ** Lists *)

Lemma ws_app_blank w p : blank w -> ws (w ++ p) = ws p.
Proof. induction 1 as [|c w Hc _ IH]; [done|]. cbn. by rewrite Hc. Qed.

Lemma ws_split p : exists w, blank w /\ p = w ++ ws p.
Proof.
  induction p as [|c p (w & Hw & IH)]; [by exists []; split; [constructor|]|]. cbn.
  destruct (is_ws c) eqn:E; [|by exists []; split; [constructor|]].
  exists (c :: w). split; [by constructor|]. cbn. by rewrite <- IH.
Qed.

Lemma ws_idem p : ws (ws p) = ws p.
Proof. induction p as [|c p IH]; [done|]. cbn. destruct (is_ws c) eqn:E; [done|]. cbn. by rewrite E. Qed.

Lemma length_ws p : (length (ws p) <= length p)%nat.
Proof. destruct (ws_split p) as (w & _ & Hp). rewrite Hp at 2. rewrite length_app. lia. Qed.

Lemma ws_stop c p : is_ws c = false -> ws (c :: p) = c :: p.
Proof. intros H. cbn. by rewrite H. Qed.

Lemma Forall_app_r {A} (P : A -> Prop) l k : Forall P (l ++ k) -> Forall P k.
Proof. rewrite Forall_app. by intros []. Qed.

(** ** Output *)

Definition room_for (cap : option Z) (out : chars) : Prop :=
  match cap with Some cap => alen out < cap | None => True end.

Lemma room_for_app cap a b : room_for cap (a ++ b) -> room_for cap a.
Proof. destruct cap as [cap|]; [|done]. cbn. rewrite alen_app. pose proof (alen_nonneg b). lia. Qed.

Lemma emit_iff cap out c out' :
  emit cap out c = Some out' <-> out' = out ++ [c] /\ room_for cap out'.
Proof.
  unfold emit, room_for. destruct cap as [cap|].
  - assert (alen (out ++ [c]) = alen out + 1) as Hl by (rewrite alen_app; done).
    destruct (cap <=? alen out + 1) eqn:E; bsimp.
    + split; [done|]. intros [-> ?]. lia.
    + split; [intros [= <-]; split; [done|lia]|]. by intros [-> _].
  - split; [by intros [= <-]|]. by intros [-> _].
Qed.

Lemma emits_iff cap out cs out' :
  cs <> [] -> emits cap out cs = Some out' <-> out' = out ++ cs /\ room_for cap out'.
Proof.
  unfold emits. revert out. induction cs as [|c cs IH]; intros out Hne; [done|]. cbn [foldl].
  destruct (decide (cs = [])) as [->|Hcs].
  { cbn [foldl]. apply emit_iff. }
  destruct (emit cap out c) as [o|] eqn:E.
  - apply emit_iff in E as [-> _]. rewrite IH by done. rewrite <- (assoc (++)). done.
  - split.
    + assert (foldl (fun o c => match o with Some out => emit cap out c | None => None end) None cs = None) as ->;
        [|done]. clear. by induction cs.
    + intros [-> Hr]. assert (emit cap out c = Some (out ++ [c])) as He; [|congruence].
      apply emit_iff. split; [done|]. apply (room_for_app cap _ cs). by rewrite <- (assoc (++)).
Qed.

(** ** UTF-8 *)

(** Bit operations on a byte are arithmetic: checked for all 256 of them. *)
Lemma all_bytes (f : Z -> bool) :
  forallb (fun k => f (Z.of_nat k)) (seq 0 256) = true -> forall c, byte c -> f c = true.
Proof.
  intros H c Hc. rewrite forallb_forall in H. specialize (H (Z.to_nat c)).
  rewrite Z2Nat.id in H by (unfold byte in Hc; lia). apply H.
  apply in_seq. unfold byte in Hc. lia.
Qed.

Lemma tail_byte c : byte c -> (Z.land c 0xC0 =? 0x80) = (0x80 <=? c) && (c <? 0xC0).
Proof.
  intros Hc. apply eqb_true_iff.
  apply (all_bytes (fun c => eqb (Z.land c 0xC0 =? 0x80) ((0x80 <=? c) && (c <? 0xC0)))); [|done].
  vm_compute. reflexivity.
Qed.

Lemma land_mod c k n : 0 <= n -> k = Z.ones n -> Z.land c k = c mod 2 ^ n.
Proof. intros Hn ->. by apply Z.land_ones. Qed.

Lemma lor_add a b n : 0 <= n -> 0 <= b < 2 ^ n -> a mod 2 ^ n = 0 -> Z.lor a b = a + b.
Proof.
  intros Hn Hb Ha. pose proof (lor_shiftl_add (a `div` 2 ^ n) b n Hn Hb) as H.
  rewrite Z.shiftl_mul_pow2 in H by done.
  replace (a `div` 2 ^ n * 2 ^ n) with a in H; [done|].
  pose proof (Z.div_mod a (2 ^ n) ltac:(lia)). lia.
Qed.

Lemma shiftr_div cp n : 0 <= n -> Z.shiftr cp n = cp `div` 2 ^ n.
Proof. apply Z.shiftr_div_pow2. Qed.

(** The encoder of the code writes the reference encoding. *)
Lemma codepoint_iff cap out cp out' :
  0 <= cp -> codepoint cap out cp = Some out' <->
  scalar_value cp /\ out' = out ++ utf8 cp /\ room_for cap out'.
Proof.
  intros Hcp. unfold codepoint, scalar_value, utf8.
  destruct ((cp =? 0) || (0x10FFFF <? cp) || (0xD800 <=? cp) && (cp <=? 0xDFFF)) eqn:Ebad.
  { split; [done|]. intros [Hs _]. exfalso.
    apply orb_true_iff in Ebad as [Ebad|Ebad]; [apply orb_true_iff in Ebad as [|]; bsimp; lia|].
    apply andb_true_iff in Ebad as [E1 E2]. bsimp. lia. }
  assert ((0 < cp <= 0x10FFFF) /\ ~ (0xD800 <= cp <= 0xDFFF)) as Hs.
  { apply orb_false_iff in Ebad as [Ebad E2]. apply orb_false_iff in Ebad as [E0 E1]. bsimp.
    split; [lia|]. intros [Ha Hb]. apply Z.leb_le in Ha, Hb. rewrite Ha, Hb in E2. done. }
  assert (forall k, u8 (Z.lor 0x80 (Z.land k 63)) = 0x80 + k mod 64) as Htail.
  { intros k. rewrite (land_mod _ _ 6) by done. change (2 ^ 6) with 64.
    pose proof (Z.mod_pos_bound k 64 ltac:(lia)).
    rewrite (lor_add _ _ 6) by (try done; lia). apply u8_id. lia. }
  rewrite !Htail, !shiftr_div by done.
  change (2 ^ 6) with 64. change (2 ^ 12) with 4096. change (2 ^ 18) with 262144.
  destruct (cp <? 0x80) eqn:E1; bsimp.
  { rewrite u8_id by lia. rewrite emit_iff. tauto. }
  destruct (cp <? 0x800) eqn:E2; bsimp.
  { rewrite (lor_add _ _ 5), u8_id by
      (try done; pose proof (Z.div_lt_upper_bound cp 64 32); pose proof (Z.div_pos cp 64); lia).
    rewrite emits_iff by done. tauto. }
  destruct (cp <? 0x10000) eqn:E3; bsimp.
  { rewrite (lor_add _ _ 4), u8_id by
      (try done; pose proof (Z.div_lt_upper_bound cp 4096 16); pose proof (Z.div_pos cp 4096); lia).
    rewrite emits_iff by done. tauto. }
  rewrite (lor_add _ _ 3), u8_id by
    (try done; pose proof (Z.div_lt_upper_bound cp 262144 5); pose proof (Z.div_pos cp 262144); lia).
  rewrite emits_iff by done. tauto.
Qed.

(** Continuation bytes: [k] of them carry six bits each. *)
Lemma utf8_tail_1 cp d q :
  byte d -> 0 <= cp < 0x100000 ->
  utf8_tail 1 (d :: q) cp = if (0x80 <=? d) && (d <? 0xC0) then Some (cp * 64 + (d - 0x80), q) else None.
Proof.
  intros Hd Hcp. cbn [utf8_tail]. rewrite tail_byte by done.
  destruct ((0x80 <=? d) && (d <? 0xC0)) eqn:E; [|done]. cbn [negb].
  apply andb_true_iff in E as [E1 E2]. bsimp.
  rewrite (land_mod _ _ 6), Z.shiftl_mul_pow2 by done. change (2 ^ 6) with 64.
  rewrite u32_id by lia.
  rewrite (Z.mod_eq d 64) by lia. assert (d `div` 64 = 2) as -> by (symmetry; apply Z.div_unique with (d - 128); lia).
  rewrite (lor_add _ _ 6); [f_equal; f_equal; lia|done|lia|]. by apply Z_mod_mult.
Qed.

Lemma utf8_tail_S n cp d q :
  utf8_tail (S n) (d :: q) cp =
  match utf8_tail 1 (d :: q) cp with Some (cp', q') => utf8_tail n q' cp' | None => None end.
Proof. cbn [utf8_tail]. by destruct (negb _). Qed.

(** The multi-byte branch of the reader, up to its output. *)
Definition utf8_decode (c : Z) (p : chars) : option (Z * chars) :=
  match utf8_lead c with
  | None => None
  | Some (cp, count, minimum) =>
      if alen p <? Z.of_nat count then None
      else
        match utf8_tail count p cp with
        | None => None
        | Some (cp, p) => if cp <? minimum then None else Some (cp, p)
        end
  end.

Lemma utf8_lead_inv c cp count minimum :
  byte c -> utf8_lead c = Some (cp, count, minimum) ->
  (count = 1%nat /\ minimum = 0x80 /\ cp = c - 0xC0 /\ 2 <= cp < 32) \/
  (count = 2%nat /\ minimum = 0x800 /\ cp = c - 0xE0 /\ 0 <= cp < 16) \/
  (count = 3%nat /\ minimum = 0x10000 /\ cp = c - 0xF0 /\ 0 <= cp < 5).
Proof.
  unfold utf8_lead, byte. intros Hc.
  rewrite (land_mod _ 31 5), (land_mod _ 15 4), (land_mod _ 7 3) by done.
  change (2 ^ 5) with 32. change (2 ^ 4) with 16. change (2 ^ 3) with 8.
  destruct ((_ <=? _) && _) eqn:E1; [|destruct ((0xE0 <=? _) && _) eqn:E2; [|destruct ((0xF0 <=? _) && _) eqn:E3; [|done]]];
    intros [= <- <- <-]; bsimp.
  - left. assert (c mod 32 = c - 192) as ->; [|lia]. symmetry. apply Z.mod_unique with 6; lia.
  - right. left. assert (c mod 16 = c - 224) as ->; [|lia]. symmetry. apply Z.mod_unique with 14; lia.
  - right. right. assert (c mod 8 = c - 240) as ->; [|lia]. symmetry. apply Z.mod_unique with 30; lia.
Qed.

(** Division by the weights of the UTF-8 formula. *)
Lemma split64 a d : 0 <= d < 64 -> (a * 64 + d) `div` 64 = a /\ (a * 64 + d) mod 64 = d.
Proof.
  intros Hd. split.
  - symmetry. apply Z.div_unique with d; lia.
  - symmetry. apply Z.mod_unique with a; lia.
Qed.

Lemma div64_64 a : a `div` 4096 = (a `div` 64) `div` 64.
Proof. by rewrite Z.div_div by lia. Qed.
Lemma div64_4096 a : a `div` 262144 = ((a `div` 64) `div` 64) `div` 64.
Proof. by rewrite !Z.div_div by lia. Qed.

Ltac tail_step H :=
  match type of H with
  | context [utf8_tail (S ?n) (?d :: ?q) ?cp] =>
      rewrite (utf8_tail_S n cp d q), utf8_tail_1 in H by (try done; lia);
      let E := fresh "E" in
      destruct ((0x80 <=? d) && (d <? 0xC0)) eqn:E; [|done];
      apply andb_true_iff in E as [? ?]; bsimp
  end.

Lemma utf8_decode_sound c p cp p' :
  byte c -> Forall byte p -> utf8_decode c p = Some (cp, p') ->
  0x80 <= cp /\ c :: p = utf8 cp ++ p'.
Proof.
  intros Hc Hp. unfold utf8_decode.
  destruct (utf8_lead c) as [[[cp0 count] minimum]|] eqn:El; [|done].
  apply utf8_lead_inv in El; [|done].
  destruct (alen p <? Z.of_nat count) eqn:En; [done|]. bsimp.
  destruct El as [(-> & -> & -> & Hr)|[(-> & -> & -> & Hr)|(-> & -> & -> & Hr)]].
  - destruct p as [|d1 p]; [done|]. inversion_clear Hp as [|? ? Hd1 Hp1]. intros H. tail_step H. cbn [utf8_tail] in H.
    destruct (_ <? 0x80) eqn:Em; [done|]. injection H as <- <-. bsimp.
    unfold utf8. rewrite (proj2 (Z.ltb_ge _ _)), (proj2 (Z.ltb_lt _ _)) by lia.
    destruct (split64 (c - 192) (d1 - 128)) as [-> ->]; [lia|]. split; [lia|].
    cbn. repeat f_equal; lia.
  - destruct p as [|d1 [|d2 p]]; [done|done|]. inversion_clear Hp as [|? ? Hd1 Hp1]. inversion_clear Hp1 as [|? ? Hd2 Hp2].
    intros H. tail_step H. tail_step H. cbn [utf8_tail] in H.
    destruct (_ <? 0x800) eqn:Em; [done|]. injection H as <- <-. bsimp.
    unfold utf8. rewrite !(proj2 (Z.ltb_ge _ _)), (proj2 (Z.ltb_lt _ _)) by lia.
    rewrite div64_64. destruct (split64 ((c - 224) * 64 + (d1 - 128)) (d2 - 128)) as [-> ->]; [lia|].
    destruct (split64 (c - 224) (d1 - 128)) as [-> ->]; [lia|]. split; [lia|].
    cbn. repeat f_equal; lia.
  - destruct p as [|d1 [|d2 [|d3 p]]]; [done|done|done|]. inversion_clear Hp as [|? ? Hd1 Hp1].
    inversion_clear Hp1 as [|? ? Hd2 Hp2]. inversion_clear Hp2 as [|? ? Hd3 Hp3].
    intros H. tail_step H. tail_step H. tail_step H. cbn [utf8_tail] in H.
    destruct (_ <? 0x10000) eqn:Em; [done|]. injection H as <- <-. bsimp.
    unfold utf8. rewrite !(proj2 (Z.ltb_ge _ _)) by lia.
    rewrite div64_4096, div64_64.
    destruct (split64 (((c - 240) * 64 + (d1 - 128)) * 64 + (d2 - 128)) (d3 - 128)) as [-> ->]; [lia|].
    destruct (split64 ((c - 240) * 64 + (d1 - 128)) (d2 - 128)) as [-> ->]; [lia|].
    destruct (split64 (c - 240) (d1 - 128)) as [-> ->]; [lia|]. split; [lia|].
    cbn. repeat f_equal; lia.
Qed.

(** The same with the encoded character in front. *)
Lemma utf8_tail_spec n cp d q :
  0 <= cp < 0x100000 -> 0 <= d < 64 ->
  utf8_tail (S n) (0x80 + d :: q) cp = utf8_tail n q (cp * 64 + d).
Proof.
  intros Hcp Hd. rewrite utf8_tail_S, utf8_tail_1 by (unfold byte; lia).
  rewrite (proj2 (Z.leb_le _ _)), (proj2 (Z.ltb_lt _ _)) by lia. cbn [andb]. f_equal. lia.
Qed.

Lemma utf8_lead_spec c :
  (0xC2 <= c < 0xE0 -> utf8_lead c = Some (c - 0xC0, 1%nat, 0x80)) /\
  (0xE0 <= c < 0xF0 -> utf8_lead c = Some (c - 0xE0, 2%nat, 0x800)) /\
  (0xF0 <= c < 0xF5 -> utf8_lead c = Some (c - 0xF0, 3%nat, 0x10000)).
Proof.
  assert (0xC2 <= c < 0xF5 -> exists r, utf8_lead c = Some r) as Hex.
  { intros Hc. unfold utf8_lead. destruct ((0xC2 <=? c) && _) eqn:E1; [by eexists|].
    destruct ((0xE0 <=? c) && _) eqn:E2; [by eexists|]. destruct ((0xF0 <=? c) && _) eqn:E3; [by eexists|].
    apply andb_false_iff in E1, E2, E3. destruct E1, E2, E3; bsimp; lia. }
  split; [|split]; intros Hc; (destruct Hex as [[[cp n] m] Hr]; [lia|]); rewrite Hr;
    apply utf8_lead_inv in Hr; try (unfold byte; lia);
    destruct Hr as [(-> & -> & -> & H)|[(-> & -> & -> & H)|(-> & -> & -> & H)]]; try done; lia.
Qed.

Lemma utf8_decode_complete cp p :
  scalar_value cp -> 0x80 <= cp ->
  exists c q, utf8 cp = c :: q /\ 0xC2 <= c /\ byte c /\ utf8_decode c (q ++ p) = Some (cp, p).
Proof.
  intros [Hs _] Hlo. unfold utf8. rewrite (proj2 (Z.ltb_ge _ _)) by lia.
  pose proof (Z.mod_pos_bound cp 64 ltac:(lia)) as H0.
  pose proof (Z.mod_pos_bound (cp `div` 64) 64 ltac:(lia)) as H1.
  pose proof (Z.mod_pos_bound ((cp `div` 64) `div` 64) 64 ltac:(lia)) as H2.
  pose proof (Z.div_mod cp 64 ltac:(lia)) as D0.
  pose proof (Z.div_mod (cp `div` 64) 64 ltac:(lia)) as D1.
  pose proof (Z.div_mod ((cp `div` 64) `div` 64) 64 ltac:(lia)) as D2.
  rewrite div64_4096, div64_64 in *.
  destruct (cp <? 0x800) eqn:E2; bsimp; [|destruct (cp <? 0x10000) eqn:E3; bsimp].
  - eexists _, _. split; [done|]. split; [lia|]. split; [unfold byte; lia|].
    unfold utf8_decode. rewrite (proj1 (utf8_lead_spec _)) by lia. cbn [app].
    rewrite (proj2 (Z.ltb_ge _ _)) by (rewrite alen_cons; pose proof (alen_nonneg p); lia).
    rewrite utf8_tail_spec by lia. cbn [utf8_tail]. rewrite (proj2 (Z.ltb_ge _ _)) by lia.
    f_equal. f_equal. lia.
  - eexists _, _. split; [done|]. split; [lia|]. split; [unfold byte; lia|].
    unfold utf8_decode. rewrite (proj1 (proj2 (utf8_lead_spec _))) by lia. cbn [app].
    rewrite (proj2 (Z.ltb_ge _ _)) by (rewrite !alen_cons; pose proof (alen_nonneg p); lia).
    rewrite !utf8_tail_spec by lia. cbn [utf8_tail]. rewrite (proj2 (Z.ltb_ge _ _)) by lia.
    f_equal. f_equal. lia.
  - eexists _, _. split; [done|]. split; [lia|]. split; [unfold byte; lia|].
    unfold utf8_decode. rewrite (proj2 (proj2 (utf8_lead_spec _))) by lia. cbn [app].
    rewrite (proj2 (Z.ltb_ge _ _)) by (rewrite !alen_cons; pose proof (alen_nonneg p); lia).
    rewrite !utf8_tail_spec by lia. cbn [utf8_tail]. rewrite (proj2 (Z.ltb_ge _ _)) by lia.
    f_equal. f_equal. lia.
Qed.

(** ** Escapes *)

Lemma hex_digit_range c : hex_digit c = -1 \/ 0 <= hex_digit c < 16.
Proof.
  unfold hex_digit, digit. destruct (_ && _) eqn:E1; [bsimp; lia|].
  destruct ((97 <=? c) && _) eqn:E2; [bsimp; lia|]. destruct ((65 <=? c) && _) eqn:E3; [bsimp; lia|]. by left.
Qed.

Lemma hex_step n d : 0 <= n < 16 ^ 7 -> 0 <= d < 16 -> Z.lor (u32 (Z.shiftl n 4)) (u32 d) = n * 16 + d.
Proof.
  intros Hn Hd. rewrite Z.shiftl_mul_pow2 by done. change (2 ^ 4) with 16. change (16 ^ 7) with 268435456 in Hn.
  rewrite !u32_id by lia. apply (lor_add _ _ 4); [done|done|]. by apply Z_mod_mult.
Qed.

Lemma hex_loop_iff k p n cp p' :
  (k <= 4)%nat -> 0 <= n < 16 ^ (8 - Z.of_nat k) ->
  hex_loop k p n = Some (cp, p') <->
  exists h, p = h ++ p' /\ length h = k /\ Forall (fun c => 0 <= hex_digit c) h /\
            cp = foldl (fun n c => n * 16 + hex_digit c) n h.
Proof.
  revert p n. induction k as [|k IH]; intros p n Hk Hn; cbn [hex_loop].
  { split.
    - intros [= <- <-]. by exists [].
    - intros (h & -> & Hl & _ & ->). by destruct h. }
  destruct p as [|c p].
  { split; [done|]. intros (h & Hp & Hl & _). by destruct h. }
  pose proof (hex_digit_range c) as Hd. destruct (hex_digit c <? 0) eqn:E; bsimp.
  { split; [done|]. intros ([|c' h] & Hp & Hl & Hf & _); [done|]. injection Hp as -> ->.
    inversion_clear Hf. lia. }
  assert (16 ^ (8 - Z.of_nat (S k)) * 16 = 16 ^ (8 - Z.of_nat k)) as Hpow.
  { replace (8 - Z.of_nat k) with (Z.succ (8 - Z.of_nat (S k))) by lia. rewrite Z.pow_succ_r by lia. lia. }
  assert (16 ^ (8 - Z.of_nat (S k)) <= 16 ^ 7) by (apply Z.pow_le_mono_r; lia).
  rewrite hex_step by lia. rewrite IH by lia. split.
  - intros (h & -> & Hl & Hf & ->). exists (c :: h). cbn. split; [done|]. split; [lia|]. split; [|done].
    constructor; [lia|done].
  - intros ([|c' h] & Hp & Hl & Hf & ->); [done|]. injection Hp as -> ->. inversion_clear Hf as [|? ? _ Hf'].
    exists h. cbn in Hl. split; [done|]. split; [lia|]. by split.
Qed.

Lemma hex4_iff p cp p' : hex4 p = Some (cp, p') <-> exists h, p = h ++ p' /\ hex_word h cp.
Proof.
  unfold hex4, hex_word. pose proof (hex_loop_iff 4 p 0 cp p' ltac:(lia) ltac:(done)) as H.
  destruct (alen p <? 4) eqn:E; bsimp.
  - split; [done|]. intros (h & -> & Hl & _). rewrite alen_app in E. unfold alen in E. lia.
  - rewrite H. split; intros (h & ?); exists h; tauto.
Qed.

Lemma hex_word_range h cp : hex_word h cp -> 0 <= cp < 65536.
Proof.
  intros (Hl & Hf & ->). destruct h as [|a [|b [|c [|d [|]]]]]; try done.
  repeat match goal with H : Forall _ (_ :: _) |- _ => inversion_clear H end. cbn [foldl].
  pose proof (hex_digit_range a). pose proof (hex_digit_range b).
  pose proof (hex_digit_range c). pose proof (hex_digit_range d). lia.
Qed.

Lemma escape_char_iff c v :
  c <> 117 -> escape_char c = Some v <->
  (c, v) ∈ [(110, 10); (114, 13); (116, 9); (98, 8); (102, 12); (34, 34); (92, 92); (47, 47)].
Proof.
  intros Hc. unfold escape_char. split.
  - repeat match goal with |- context [c =? ?k] =>
      destruct (Z.eqb_spec c k) as [->|]; [intros [= <-]; set_solver|] end.
    done.
  - rewrite !elem_of_cons, elem_of_nil. intros H. repeat destruct H as [[= -> ->]|H]; done.
Qed.

(** A surrogate pair combines to a scalar value. *)
Lemma surrogate_pair hi lo :
  0xD800 <= hi <= 0xDBFF -> 0xDC00 <= lo <= 0xDFFF ->
  u32 (u32 (0x10000 + u32 (Z.shiftl (hi - 0xD800) 10) + lo) - 0xDC00) =
  0x10000 + (hi - 0xD800) * 1024 + (lo - 0xDC00) /\
  scalar_value (0x10000 + (hi - 0xD800) * 1024 + (lo - 0xDC00)).
Proof.
  intros Hh Hl. rewrite Z.shiftl_mul_pow2 by done. change (2 ^ 10) with 1024.
  rewrite (u32_id ((hi - 0xD800) * 1024)), (u32_id (0x10000 + _ + lo)), u32_id by lia.
  unfold scalar_value. split; lia.
Qed.

(** What a reader of one element does: it consumes [t] and appends [v]. *)
Definition consumes (p p' out out' t v : chars) (cap : option Z) : Prop :=
  p = t ++ p' /\ out' = out ++ v /\ room_for cap out'.

Lemma unicode_escape_sound cap p out p' out' :
  unicode_escape cap p out = Some (p', out') ->
  exists t v, consumes p p' out out' t v cap /\ str_item (92 :: 117 :: t) v.
Proof.
  unfold unicode_escape. destruct (hex4 p) as [[cp q]|] eqn:Eh; [|done].
  apply hex4_iff in Eh as (h & -> & Hh). pose proof (hex_word_range _ _ Hh) as Hr.
  destruct ((0xD800 <=? cp) && (cp <=? 0xDBFF)) eqn:Es.
  - apply andb_true_iff in Es as [Es1 Es2]. bsimp.
    destruct (_ || _) eqn:Eq; [done|]. apply orb_false_iff in Eq as [Eq Eq3]. apply orb_false_iff in Eq as [Eq1 Eq2].
    bsimp. destruct q as [|q0 [|q1 q]]; [done|done|]. change ((q0 :: q1 :: q).[0]) with q0 in Eq2.
    change ((q0 :: q1 :: q).[1]) with q1 in Eq3. subst q0 q1.
    change (drop 2 (92 :: 117 :: q)) with q.
    destruct (hex4 q) as [[low r]|] eqn:El; [|done]. apply hex4_iff in El as (l & -> & Hl).
    destruct (_ || _) eqn:Elo; [done|]. apply orb_false_iff in Elo as [Elo1 Elo2]. bsimp.
    destruct (surrogate_pair cp low) as [-> Hsc]; [lia|lia|].
    destruct (codepoint _ _ _) as [o|] eqn:Ec; [|done]. intros [= <- <-].
    apply codepoint_iff in Ec as (_ & -> & Hroom); [|lia].
    exists (h ++ 92 :: 117 :: l), (utf8 (0x10000 + (cp - 0xD800) * 1024 + (low - 0xDC00))).
    split; [|apply si_pair; done || lia]. split; [|done]. by rewrite <- (assoc (++)).
  - destruct (codepoint _ _ _) as [o|] eqn:Ec; [|done]. intros [= <- <-].
    apply codepoint_iff in Ec as (Hsc & -> & Hroom); [|lia].
    exists h, (utf8 cp). split; [done|]. by apply si_unicode.
Qed.

(** [codepoint] succeeds on a scalar value that fits. *)
Lemma codepoint_some cap out cp :
  scalar_value cp -> room_for cap (out ++ utf8 cp) -> codepoint cap out cp = Some (out ++ utf8 cp).
Proof. intros Hs Hr. apply codepoint_iff; [unfold scalar_value in Hs; lia|]. done. Qed.

Lemma unicode_escape_complete cap p' out h cp :
  hex_word h cp -> scalar_value cp -> room_for cap (out ++ utf8 cp) ->
  unicode_escape cap (h ++ p') out = Some (p', out ++ utf8 cp).
Proof.
  intros Hh Hs Hroom. unfold unicode_escape.
  rewrite (proj2 (hex4_iff (h ++ p') cp p')) by (by exists h).
  destruct (_ && _) eqn:E; [apply andb_true_iff in E as [? ?]; bsimp; unfold scalar_value in Hs; lia|].
  by rewrite codepoint_some.
Qed.

Lemma unicode_pair_complete cap p' out h l hi lo v :
  hex_word h hi -> hex_word l lo -> 0xD800 <= hi <= 0xDBFF -> 0xDC00 <= lo <= 0xDFFF ->
  v = utf8 (0x10000 + (hi - 0xD800) * 1024 + (lo - 0xDC00)) -> room_for cap (out ++ v) ->
  unicode_escape cap (h ++ 92 :: 117 :: l ++ p') out = Some (p', out ++ v).
Proof.
  intros Hh Hl Hhi Hlo -> Hroom. unfold unicode_escape.
  rewrite (proj2 (hex4_iff _ hi (92 :: 117 :: l ++ p'))) by (by exists h).
  rewrite (proj2 (Z.leb_le _ _)), (proj2 (Z.leb_le _ _)) by lia. cbn [andb].
  assert ((alen (92 :: 117 :: l ++ p') <? 6) = false) as ->.
  { apply Z.ltb_ge. rewrite !alen_cons, alen_app. destruct Hl as (Hll & _). unfold alen at 1. rewrite Hll.
    pose proof (alen_nonneg p'). lia. }
  change ((92 :: 117 :: l ++ p').[0]) with 92. change ((92 :: 117 :: l ++ p').[1]) with 117. cbn [orb negb Z.eqb Pos.eqb].
  change (drop 2 (92 :: 117 :: l ++ p')) with (l ++ p').
  rewrite (proj2 (hex4_iff _ lo p')) by (by exists l).
  rewrite !(proj2 (Z.ltb_ge _ _)) by lia. cbn [orb].
  destruct (surrogate_pair hi lo) as [-> Hsc]; [done|done|]. by rewrite codepoint_some.
Qed.

(** ** Strings *)

Lemma utf8_ascii c : 0 <= c < 0x80 -> utf8 c = [c].
Proof. intros Hc. unfold utf8. by rewrite (proj2 (Z.ltb_lt _ _)) by lia. Qed.

(** The multi-byte branch, in terms of [utf8_decode]. *)
Lemma string_char_high cap c p out :
  0x80 <= c ->
  string_char cap c p out =
  match utf8_decode c p with
  | None => None
  | Some (cp, p) => match codepoint cap out cp with Some out => Some (p, out) | None => None end
  end.
Proof.
  intros Hc. unfold string_char, utf8_decode.
  rewrite (proj2 (Z.ltb_ge c 32)), (proj2 (Z.eqb_neq c 92)), (proj2 (Z.leb_le 128 c)) by lia.
  destruct (utf8_lead c) as [[[cp n] m]|]; [|done]. destruct (_ <? _); [done|].
  destruct (utf8_tail _ _ _) as [[cp' q]|]; [|done]. by destruct (_ <? _).
Qed.

Lemma string_char_sound cap c p out p' out' :
  Forall byte (c :: p) -> c <> 34 -> string_char cap c p out = Some (p', out') ->
  exists t v, consumes (c :: p) p' out out' t v cap /\ str_item t v.
Proof.
  intros Hb Hq. inversion_clear Hb as [|? ? Hc Hp]. destruct (Z_le_gt_dec 0x80 c) as [Hhigh|Hlow].
  - rewrite string_char_high by lia. destruct (utf8_decode c p) as [[cp q]|] eqn:Ed; [|done].
    apply utf8_decode_sound in Ed as [Hcp Heq]; [|done|done].
    destruct (codepoint _ _ _) as [o|] eqn:Ec; [|done]. intros [= <- <-].
    apply codepoint_iff in Ec as (Hs & -> & Hr); [|lia]. exists (utf8 cp), (utf8 cp).
    split; [done|]. apply si_raw; [done|lia|lia|lia].
  - unfold string_char. destruct (c <? 32) eqn:E1; [done|]. bsimp.
    destruct (Z.eqb_spec c 92) as [->|H92].
    + destruct p as [|e q]; [done|]. destruct (Z.eqb_spec e 117) as [->|H117].
      * intros H. apply unicode_escape_sound in H as (t & v & (-> & -> & Hr) & Hi).
        exists (92 :: 117 :: t), v. done.
      * destruct (escape_char e) as [v|] eqn:Ee; [|done]. apply escape_char_iff in Ee; [|done].
        destruct (emit _ _ _) as [o|] eqn:Em; [|done]. intros [= <- <-].
        apply emit_iff in Em as [-> Hr]. exists [92; e], [v]. split; [done|]. by apply si_escape.
    + rewrite (proj2 (Z.leb_gt 128 c)) by lia.
      destruct (emit _ _ _) as [o|] eqn:Em; [|done]. intros [= <- <-]. apply emit_iff in Em as [-> Hr].
      exists [c], [c]. split; [done|]. rewrite <- (utf8_ascii c) by lia.
      apply si_raw; [unfold scalar_value; lia|lia|lia|lia].
Qed.

Lemma string_char_complete cap t v p' out :
  str_item t v -> room_for cap (out ++ v) ->
  exists c q, t = c :: q /\ c <> 34 /\ string_char cap c (q ++ p') out = Some (p', out ++ v).
Proof.
  intros Hi Hroom. destruct Hi as [cp Hs H32 H34 H92|c v Hin|h cp Hh Hs|h l hi lo Hh Hl Hhi Hlo].
  - destruct (Z_lt_le_dec cp 0x80) as [Hlow|Hhigh].
    + rewrite utf8_ascii in Hroom |- * by lia. exists cp, []. split; [done|]. split; [done|].
      unfold string_char. rewrite (proj2 (Z.ltb_ge _ _)), (proj2 (Z.eqb_neq _ _)), (proj2 (Z.leb_gt _ _)) by lia.
      cbn [app]. by rewrite (proj2 (emit_iff cap out cp (out ++ [cp]))).
    + destruct (utf8_decode_complete cp p' Hs Hhigh) as (c & q & Hu & Hc & _ & Hd). exists c, q.
      split; [done|]. split; [lia|]. rewrite string_char_high by lia. rewrite Hd.
      by rewrite codepoint_some.
  - exists 92, [c]. split; [done|]. split; [done|]. unfold string_char. cbn [app].
    assert (c <> 117) as Hc.
    { intros ->. rewrite !elem_of_cons, elem_of_nil in Hin. by repeat destruct Hin as [[=]|Hin]. }
    change (92 <? 32) with false. change (92 =? 92) with true.
    rewrite (proj2 (Z.eqb_neq c 117)) by done. rewrite (proj2 (escape_char_iff c v Hc) Hin).
    by rewrite (proj2 (emit_iff cap out v (out ++ [v]))).
  - exists 92, (117 :: h). split; [done|]. split; [done|]. unfold string_char. cbn [app].
    change (92 <? 32) with false. change (92 =? 92) with true. change (117 =? 117) with true.
    by apply unicode_escape_complete.
  - exists 92, (117 :: h ++ 92 :: 117 :: l). split; [done|]. split; [done|]. unfold string_char. cbn [app].
    change (92 <? 32) with false. change (92 =? 92) with true. change (117 =? 117) with true.
    rewrite <- (assoc (++)). cbn [app]. by eapply unicode_pair_complete.
Qed.

Lemma str_item_length t v : str_item t v -> (1 <= length t)%nat.
Proof.
  intros Hi. destruct (string_char_complete None t v [] [] Hi) as (c & q & -> & _); [done|]. cbn. lia.
Qed.

Lemma utf8_nonempty cp : utf8 cp <> [].
Proof. unfold utf8. by repeat destruct (_ <? _). Qed.

Lemma str_item_value t v : str_item t v -> v <> [].
Proof. destruct 1; try apply utf8_nonempty. done. Qed.

Lemma string_loop_sound fuel cap p out p' out' :
  Forall byte p -> string_loop fuel cap p out = Some (p', out') ->
  exists t v, p = t ++ 34 :: p' /\ out' = out ++ v /\ str_body t v /\ (v = [] \/ room_for cap out').
Proof.
  revert p out. induction fuel as [|fuel IH]; intros p out Hp; [done|]. cbn [string_loop].
  destruct p as [|c q]; [done|]. destruct (Z.eqb_spec c 34) as [->|Hc].
  { intros [= <- <-]. exists [], []. rewrite app_nil_r. split; [done|]. split; [done|].
    split; [constructor|by left]. }
  destruct (string_char cap c q out) as [[p1 out1]|] eqn:Es; [|done].
  apply string_char_sound in Es as (t & v & (Heq & -> & Hr) & Hi); [|done|done]. rewrite Heq in Hp |- *.
  intros H. apply IH in H as (ts & vs & -> & -> & Hb & Hv); [|by apply Forall_app_r in Hp].
  exists (t ++ ts), (v ++ vs). rewrite <- !(assoc (++)). split; [done|]. split; [done|].
  split; [by constructor|]. right. destruct Hv as [->|Hv]; [|by rewrite <- (assoc (++)) in Hv].
  by rewrite app_nil_r.
Qed.

Lemma string_loop_complete fuel cap t v p' out :
  str_body t v -> (v = [] \/ room_for cap (out ++ v)) -> (length t < fuel)%nat ->
  string_loop fuel cap (t ++ 34 :: p') out = Some (p', out ++ v).
Proof.
  intros Hb. revert fuel out. induction Hb as [|t v ts vs Hi Hb IH]; intros fuel out Hr Hf.
  { destruct fuel; [cbn in Hf; lia|]. cbn. by rewrite app_nil_r. }
  destruct fuel as [|fuel]; [lia|].
  assert (room_for cap (out ++ v)) as Hr1.
  { destruct Hr as [Hn|Hr]; [|by rewrite (assoc (++)) in Hr; apply room_for_app in Hr].
    apply app_nil in Hn as [-> _]. by apply str_item_value in Hi. }
  destruct (string_char_complete cap t v (ts ++ 34 :: p') out Hi Hr1) as (c & q & -> & Hc & Hs).
  rewrite <- (assoc (++)). cbn [app string_loop]. rewrite (proj2 (Z.eqb_neq _ _)) by done. rewrite Hs.
  rewrite IH.
  - by rewrite <- (assoc (++)).
  - right. destruct Hr as [Hn|Hr]; [|by rewrite <- (assoc (++))].
    apply app_nil in Hn as [-> ->]. by rewrite app_nil_r.
  - rewrite length_app in Hf. cbn [length] in Hf. lia.
Qed.

(** The string reader accepts the strings of the grammar and decodes them. *)
Lemma string_spec cap p p' out :
  Forall byte p -> room_for cap [] ->
  string cap p = Some (p', out) <->
  exists t, p = quote t ++ p' /\ str_body t out /\ room_for cap out.
Proof.
  intros Hp H0. unfold quote. split.
  - destruct p as [|c q]; [done|]. cbn [string]. destruct (Z.eqb_spec c 34) as [->|]; [|done].
    inversion_clear Hp as [|? ? _ Hq]. intros H. apply string_loop_sound in H as (t & v & -> & -> & Hb & Hr); [|done].
    exists t. cbn [app]. rewrite <- (assoc (++)). split; [done|]. split; [done|]. by destruct Hr as [->|].
  - intros (t & -> & Hb & Hr). cbn [app string]. change (34 =? 34) with true. cbn iota.
    rewrite <- (assoc (++)). cbn [app]. rewrite (string_loop_complete _ _ t out); [done|done|by right|].
    rewrite length_app. cbn [length]. lia.
Qed.

(** ** Numbers and words *)

(** What may follow a value: nothing, white space or a delimiter. *)
Definition follow (r : chars) : Prop :=
  match r with [] => True | c :: _ => is_ws c = true \/ c = 44 \/ c = 93 \/ c = 125 end.

Lemma follow_cases r c : follow r -> is_head c r = true -> is_ws c = true \/ c = 44 \/ c = 93 \/ c = 125.
Proof. destruct r as [|d r]; [done|]. cbn. intros Hf He. bsimp. by subst d. Qed.

Lemma follow_not r c : follow r -> is_ws c = false -> c <> 44 -> c <> 93 -> c <> 125 -> is_head c r = false.
Proof.
  intros Hf Hw ? ? ?. destruct (is_head c r) eqn:E; [|done].
  destruct (follow_cases r c Hf E) as [|[|[|]]]; congruence.
Qed.

Lemma follow_digit r : follow r -> digit_head r = false.
Proof.
  destruct r as [|c r]; [done|]. cbn. unfold is_ws, digit. intros [H|[->|[->| ->]]]; [|done|done|done].
  destruct (Z.eqb_spec c 32) as [->|]; [done|]. destruct (Z.eqb_spec c 9) as [->|]; [done|].
  destruct (Z.eqb_spec c 13) as [->|]; [done|]. destruct (Z.eqb_spec c 10) as [->|]; [done|]. done.
Qed.

Lemma digits_split p :
  exists d, Forall (fun c => digit c = true) d /\ p = d ++ digits p /\ digit_head (digits p) = false.
Proof.
  induction p as [|c p (d & Hd & Hp & Hh)]; [by exists []|]. cbn [digits].
  destruct (digit c) eqn:E; [|by exists []; split; [constructor|]].
  exists (c :: d). split; [by constructor|]. split; [|done]. cbn [app]. by rewrite <- Hp.
Qed.

Lemma digits_app d r : Forall (fun c => digit c = true) d -> digit_head r = false -> digits (d ++ r) = r.
Proof.
  intros Hd Hr. induction Hd as [|c d Hc _ IH]; cbn [app digits]; [|by rewrite Hc].
  destruct r as [|c r]; [done|]. cbn in Hr |- *. by rewrite Hr.
Qed.

Lemma digit_run_head d r : digit_run d -> digit_head (d ++ r) = true.
Proof. intros [Hne Hd]. destruct d as [|c d]; [done|]. by inversion_clear Hd. Qed.

Lemma digit_run_split p : digit_head p = true -> exists d, digit_run d /\ p = d ++ digits p.
Proof.
  intros Hp. destruct (digits_split p) as (d & Hd & Heq & Hh). exists d. split; [|done].
  split; [|done]. intros ->. cbn [app] in Heq. rewrite <- Heq in Hh. congruence.
Qed.

Lemma is_head_split c p : is_head c p = true -> p = c :: drop 1 p.
Proof. destruct p as [|d p]; [done|]. cbn. intros H. bsimp. by subst d. Qed.

Lemma fraction_sound p r :
  fraction p = Some r -> exists f, p = f ++ r /\ (f = [] \/ exists d, f = 46 :: d /\ digit_run d).
Proof.
  unfold fraction. destruct (is_head 46 p) eqn:E; [|intros [= <-]; exists []; split; [done|by left]].
  apply is_head_split in E. destruct (digit_head (drop 1 p)) eqn:Ed; [|done]. intros [= <-].
  apply digit_run_split in Ed as (d & Hd & Heq). exists (46 :: d).
  split; [cbn [app]; by rewrite <- Heq|]. right. by exists d.
Qed.

Lemma exponent_sound p r :
  exponent p = Some r ->
  exists e, p = e ++ r /\ (e = [] \/ (exists m s d, e = m :: s ++ d /\ (m = 101 \/ m = 69) /\
    (s = [] \/ s = [43] \/ s = [45]) /\ digit_run d)).
Proof.
  unfold exponent. destruct (is_head 101 p || is_head 69 p) eqn:E; [|intros [= <-]; exists []; split; [done|by left]].
  assert (exists m, (m = 101 \/ m = 69) /\ p = m :: drop 1 p) as (m & Hm & Hp).
  { apply orb_true_iff in E as [E|E]; apply is_head_split in E; eauto. }
  remember (drop 1 p) as q eqn:Hq. clear Hq E. subst p.
  destruct (digit_head _) eqn:Ed; [|done]. intros [= <-].
  apply digit_run_split in Ed as (d & Hd & Heq).
  destruct (is_head 43 q || is_head 45 q) eqn:Es.
  - assert (exists s, (s = 43 \/ s = 45) /\ q = s :: drop 1 q) as (s & Hs & Hqs).
    { apply orb_true_iff in Es as [Es|Es]; apply is_head_split in Es; eauto. }
    exists (m :: [s] ++ d). split; [cbn [app]; by rewrite <- Heq, <- Hqs|]. right. exists m, [s], d.
    split; [done|]. split; [done|]. split; [|done]. destruct Hs as [->| ->]; auto.
  - exists (m :: [] ++ d). split; [cbn [app]; by rewrite <- Heq|]. right. exists m, [], d. auto.
Qed.

Lemma number_end_sound p r : number_end p = Some r -> exists t, p = t ++ r /\ number_text t.
Proof.
  unfold number_end.
  assert (exists s, (s = [] \/ s = [45]) /\ p = s ++ (if is_head 45 p then drop 1 p else p)) as (s & Hs & Hp).
  { destruct (is_head 45 p) eqn:E; [|by exists []; auto]. exists [45]. split; [by right|]. by apply is_head_split. }
  remember (if is_head 45 p then drop 1 p else p) as q eqn:Hq. clear Hq. subst p.
  destruct (digit_head q) eqn:Ed; [|done]. cbn [negb].
  assert (exists i, (i = [48] \/ (digit_run i /\ is_head 48 i = false)) /\
    q = i ++ (if is_head 48 q then drop 1 q else digits q)) as (i & Hi & Hqi).
  { destruct (is_head 48 q) eqn:E.
    - exists [48]. split; [by left|]. by apply is_head_split.
    - apply digit_run_split in Ed as (d & Hd & Heq). exists d. split; [|done]. right. split; [done|].
      destruct Hd as [Hne _]. destruct d as [|c d]; [done|]. rewrite Heq in E. done. }
  remember (if is_head 48 q then drop 1 q else digits q) as q1 eqn:Hq1. clear Hq1. subst q.
  destruct (fraction q1) as [q2|] eqn:Ef; [|done]. apply fraction_sound in Ef as (f & -> & Hf).
  intros He. apply exponent_sound in He as (e & -> & He).
  exists (s ++ i ++ f ++ e). rewrite <- !(assoc (++)). split; [done|]. by constructor.
Qed.

Lemma exponent_complete e r :
  e = [] \/ (exists m s d, e = m :: s ++ d /\ (m = 101 \/ m = 69) /\ (s = [] \/ s = [43] \/ s = [45]) /\ digit_run d) ->
  follow r -> exponent (e ++ r) = Some r.
Proof.
  intros [->|(m & s & d & -> & Hm & Hs & Hd)] Hr; unfold exponent.
  - cbn [app]. by rewrite !follow_not by done.
  - cbn [app is_head].
    assert ((m =? 101) || (m =? 69) = true) as -> by (destruct Hm as [->| ->]; done).
    change (drop 1 (m :: (s ++ d) ++ r)) with ((s ++ d) ++ r). rewrite <- !(assoc (++) s d r).
    assert (digit_run d -> is_head 43 (d ++ r) || is_head 45 (d ++ r) = false) as Hh.
    { intros [Hne Hf]. destruct d as [|c d]; [done|]. inversion_clear Hf as [|? ? Hc _]. cbn. unfold digit in Hc. bsimp.
      destruct (Z.eqb_spec c 43), (Z.eqb_spec c 45); try done; lia. }
    assert ((if is_head 43 (s ++ d ++ r) || is_head 45 (s ++ d ++ r) then drop 1 (s ++ d ++ r) else s ++ d ++ r) = d ++ r) as ->.
    { destruct Hs as [->|[->| ->]]; [|done|done]. cbn [app]. by rewrite Hh. }
    rewrite digit_run_head by done. f_equal. apply digits_app; [apply Hd|]. by apply follow_digit.
Qed.

Lemma number_end_complete t r : number_text t -> follow r -> number_end (t ++ r) = Some r.
Proof.
  intros Hn Hr. destruct Hn as [s i f e Hs Hi Hf He]. unfold number_end. rewrite <- !(assoc (++)).
  assert (digit_head (i ++ f ++ e ++ r) = true /\ is_head 45 (i ++ f ++ e ++ r) = false) as [Hd H45].
  { destruct Hi as [->|[Hi _]]; [done|]. split; [by apply digit_run_head|].
    destruct Hi as [Hne Hfi]. destruct i as [|c i]; [done|]. inversion_clear Hfi as [|? ? Hc _]. cbn.
    unfold digit in Hc. bsimp. apply Z.eqb_neq. lia. }
  assert ((if is_head 45 (s ++ i ++ f ++ e ++ r) then drop 1 (s ++ i ++ f ++ e ++ r) else s ++ i ++ f ++ e ++ r) =
    i ++ f ++ e ++ r) as ->.
  { destruct Hs as [->| ->]; [|done]. cbn [app]. by rewrite H45. }
  rewrite Hd. cbn [negb].
  assert (digit_head (e ++ r) = false /\ is_head 46 (e ++ r) = false) as [He1 He2].
  { destruct He as [->|(m & s' & d & -> & Hm & _)]; cbn [app].
    - split; [by apply follow_digit|]. by apply follow_not.
    - destruct Hm as [->| ->]; done. }
  assert (digit_head (f ++ e ++ r) = false) as Hfd.
  { destruct Hf as [->|(d & -> & _)]; done. }
  assert ((if is_head 48 (i ++ f ++ e ++ r) then drop 1 (i ++ f ++ e ++ r) else digits (i ++ f ++ e ++ r)) =
    f ++ e ++ r) as ->.
  { destruct Hi as [->|[Hi H48]]; [done|]. destruct Hi as [Hne Hfi]. destruct i as [|c i]; [done|].
    cbn [app is_head] in H48 |- *. rewrite H48. change (c :: i ++ f ++ e ++ r) with ((c :: i) ++ f ++ e ++ r).
    by apply digits_app. }
  assert (fraction (f ++ e ++ r) = Some (e ++ r)) as ->; [|by apply exponent_complete].
  unfold fraction. destruct Hf as [->|(d & -> & Hdr)]; cbn [app].
  - by rewrite He2.
  - cbn [is_head]. change (46 =? 46) with true. cbn iota. change (drop 1 (46 :: d ++ e ++ r)) with (d ++ e ++ r).
    rewrite digit_run_head by done. f_equal. apply digits_app; [apply Hdr|done].
Qed.

Lemma starts_iff w p : starts w p = true <-> exists q, p = w ++ q.
Proof.
  unfold starts. rewrite bool_decide_eq_true. split.
  - intros H. exists (drop (length w) p). rewrite <- H at 1. by rewrite take_drop.
  - intros (q & ->). by rewrite take_app_length.
Qed.

Lemma starts_word_app w q : starts w (w ++ q) = true.
Proof. apply starts_iff. by exists q. Qed.

Lemma number_text_head t : number_text t -> exists c q, t = c :: q /\ (c = 45 \/ digit c = true).
Proof.
  intros [s i f e Hs Hi _ _]. destruct Hs as [->| ->]; [|by exists 45, (i ++ f ++ e); auto]. cbn [app].
  destruct Hi as [->|[[Hne Hi] _]]; [by exists 48, (f ++ e); auto|].
  destruct i as [|c i]; [done|]. inversion_clear Hi. exists c, (i ++ f ++ e). auto.
Qed.

Lemma scalar_sound p r :
  scalar p = Some r ->
  exists t, p = t ++ r /\ (t ∈ [lit "true"; lit "false"; lit "null"] \/ number_text t).
Proof.
  unfold scalar. destruct (starts (lit "true") p || starts (lit "null") p) eqn:E1.
  - intros [= <-]. apply orb_true_iff in E1 as [E|E]; apply starts_iff in E as (q & ->); eexists; (split; [done|]); left; set_solver.
  - destruct (starts (lit "false") p) eqn:E2.
    + intros [= <-]. apply starts_iff in E2 as (q & ->). eexists. split; [done|]. left. set_solver.
    + intros H. apply number_end_sound in H as (t & -> & Ht). eauto.
Qed.

Lemma scalar_complete t r :
  t ∈ [lit "true"; lit "false"; lit "null"] \/ number_text t -> follow r -> scalar (t ++ r) = Some r.
Proof.
  intros Ht Hr. unfold scalar. destruct Ht as [Ht|Ht].
  - rewrite !elem_of_cons, elem_of_nil in Ht. destruct Ht as [->|[->|[->|[]]]]; by rewrite starts_word_app, ?orb_true_r.
  - destruct (number_text_head t Ht) as (c & q & -> & Hc).
    assert (forall w d, w = d :: tail w -> d <> 45 -> digit d = false -> starts w ((c :: q) ++ r) = false) as Hst.
    { intros w d Hw Hd1 Hd2. apply not_true_is_false. intros Hs. apply starts_iff in Hs as (z & Hz). rewrite Hw in Hz.
      injection Hz as -> _. destruct Hc; congruence. }
    rewrite (Hst (lit "true") 116), (Hst (lit "null") 110), (Hst (lit "false") 102) by done.
    by apply number_end_complete.
Qed.

(** ** Values *)

Lemma string_end_sound p r :
  Forall byte p -> string_end p = Some r -> exists k v, p = quote k ++ r /\ str_body k v.
Proof.
  intros Hp. unfold string_end. destruct (string None p) as [[q v]|] eqn:E; [|done]. intros [= <-].
  apply (string_spec None) in E as (k & -> & Hb & _); [|done|done]. by exists k, v.
Qed.

Lemma string_end_complete k v r :
  Forall byte (quote k ++ r) -> str_body k v -> string_end (quote k ++ r) = Some r.
Proof.
  intros Hp Hb. unfold string_end.
  by rewrite (proj2 (string_spec None (quote k ++ r) r v Hp I)) by (by exists k).
Qed.

(** White space in front of a delimiter leaves the delimiter. *)
Lemma length_ws_stop u c r : is_ws c = false -> (length (c :: r) <= length (ws (u ++ c :: r)))%nat.
Proof.
  intros Hc. induction u as [|d u IH]; cbn [app ws]; [by rewrite Hc|].
  destruct (is_ws d); [done|]. cbn [length]. rewrite length_app. cbn [length]. lia.
Qed.

Lemma follow_blank w r : blank w -> follow r -> follow (w ++ r).
Proof. intros Hw Hr. destruct Hw as [|c w Hc _]; [done|]. by left. Qed.

Lemma delimiter_follow object c r : c = closing object \/ c = 44 -> follow (c :: r) /\ is_ws c = false.
Proof. intros [->| ->]; [destruct object|]; cbn; auto. Qed.

Lemma element_blank P object w t : blank w -> element P object t -> element P object (w ++ t).
Proof.
  intros Hw He. destruct He as [w0 t w' H0 Ht H'|w0 k v w1 w2 t w' H0 Hk H1 H2 Ht H'].
  - rewrite (assoc (++)). constructor; [|done|done]. by apply Forall_app.
  - rewrite (assoc (++)). econstructor; try done. by apply Forall_app.
Qed.

Lemma element_list_blank P object w t : blank w -> element_list P object t -> element_list P object (w ++ t).
Proof.
  intros Hw Hl. destruct Hl as [t He|t ts He Hl]; [constructor; by apply element_blank|].
  rewrite (assoc (++)). constructor; [by apply element_blank|done].
Qed.

(** The key of a member and its colon, as one round of the loop reads them. *)
Definition read_key (object : bool) (p : chars) : option chars :=
  if object then
    match string_end p with
    | None => None
    | Some p => match ws p with c :: p => if c =? 58 then Some p else None | [] => None end
    end
  else Some p.

Lemma elements_unfold val object fuel p :
  elements val object (S fuel) p =
  match read_key object p with
  | None => None
  | Some p =>
      match val p with
      | None => None
      | Some p =>
          match ws p with
          | [] => None
          | c :: p =>
              if c =? closing object then Some p
              else if c =? 44 then elements val object fuel (ws p) else None
          end
      end
  end.
Proof. done. Qed.

(** Members and items, given what the value reader does one level down. *)
Section elements.
Context (val : chars -> option chars) (P : chars -> Prop).
Hypothesis val_sound : forall p r, Forall byte p -> val p = Some r ->
  exists w t, p = w ++ t ++ r /\ blank w /\ P t.
Hypothesis val_complete : forall p t r, Forall byte (t ++ r) -> P t -> follow r -> ws p = ws (t ++ r) ->
  val p = Some r.

Lemma read_key_sound object p q :
  Forall byte p -> read_key object p = Some q ->
  exists a, p = a ++ q /\
    forall w t w', blank w -> P t -> blank w' -> element P object (a ++ w ++ t ++ w').
Proof.
  intros Hp. destruct object; cbn [read_key].
  - destruct (string_end p) as [p1|] eqn:Es; [|done]. apply string_end_sound in Es as (k & v & -> & Hb); [|done].
    destruct (ws_split p1) as (w1 & Hw1 & Hp1). destruct (ws p1) as [|c p2]; [done|].
    destruct (Z.eqb_spec c 58) as [->|]; [|done]. intros [= ->]. subst p1.
    exists (quote k ++ w1 ++ [58]). rewrite <- !(assoc (++)). split; [done|]. intros w t w' Hw Ht Hw'.
    rewrite <- !(assoc (++)). apply (element_member P [] k v w1 w t w'); try done. constructor.
  - intros [= ->]. exists []. split; [done|]. intros. cbn [app]. by apply element_item.
Qed.

Lemma elements_sound object fuel p r :
  Forall byte p -> elements val object fuel p = Some r ->
  exists t, p = t ++ closing object :: r /\ element_list P object t.
Proof.
  revert p. induction fuel as [|fuel IH]; intros p Hp; [done|]. rewrite elements_unfold.
  destruct (read_key object p) as [q|] eqn:Ek; [|done]. apply read_key_sound in Ek as (a & -> & Ha); [|done].
  apply Forall_app_r in Hp as Hq.
  destruct (val q) as [q1|] eqn:Ev; [|done]. apply val_sound in Ev as (w & t & -> & Hw & Ht); [|done].
  destruct (ws_split q1) as (w' & Hw' & Hq1). destruct (ws q1) as [|c q2]; [done|]. subst q1.
  destruct (Z.eqb_spec c (closing object)) as [->|].
  { intros [= <-]. exists (a ++ w ++ t ++ w'). rewrite <- !(assoc (++)). split; [done|]. constructor. by apply Ha. }
  destruct (Z.eqb_spec c 44) as [->|]; [|done]. destruct (ws_split q2) as (w2 & Hw2 & Hq2).
  assert (Forall byte (ws q2)) as Hb2.
  { rewrite Hq2, (assoc (++) w), (assoc (++) (w ++ t)) in Hq. apply Forall_app_r in Hq.
    inversion_clear Hq as [|? ? _ Hq']. by apply Forall_app_r in Hq'. }
  intros H. apply IH in H as (ts & Hts & Hl); [|done].
  exists ((a ++ w ++ t ++ w') ++ 44 :: w2 ++ ts). split.
  { rewrite <- !(assoc (++)). cbn [app]. rewrite <- (assoc (++)), <- Hts, <- Hq2. done. }
  apply el_more; [by apply Ha|]. by apply element_list_blank.
Qed.

Lemma element_complete object e r :
  element P object e -> follow r -> Forall byte (e ++ r) ->
  exists q w', read_key object (ws (e ++ r)) = Some q /\ blank w' /\ val q = Some (w' ++ r).
Proof.
  intros He Hf Hb. destruct He as [w t w' Hw Ht Hw'|w k v w1 w2 t w' Hw Hk Hw1 Hw2 Ht Hw']; cbn [read_key].
  - eexists _, w'. split; [done|]. split; [done|]. rewrite <- !(assoc (++)) in Hb |- *.
    apply val_complete with t; [by apply Forall_app_r in Hb|done|by apply follow_blank|].
    rewrite ws_idem. by apply ws_app_blank.
  - assert ((w ++ quote k ++ w1 ++ 58 :: w2 ++ t ++ w') ++ r = w ++ quote k ++ w1 ++ 58 :: w2 ++ t ++ w' ++ r) as Hre.
    { rewrite <- !app_assoc. cbn [app]. by rewrite <- !app_assoc. }
    rewrite Hre in Hb |- *. rewrite ws_app_blank by done. apply Forall_app_r in Hb.
    change (ws (quote k ++ ?x)) with (quote k ++ x). rewrite (string_end_complete k v) by done.
    apply Forall_app_r in Hb. rewrite ws_app_blank by done. apply Forall_app_r in Hb.
    cbn [ws]. change (is_ws 58) with false. cbn iota. change (58 =? 58) with true. cbn iota.
    inversion_clear Hb as [|? ? _ Hb'].
    eexists _, w'. split; [done|]. split; [done|].
    apply val_complete with t; [by apply Forall_app_r in Hb'|done|by apply follow_blank|]. by apply ws_app_blank.
Qed.

Lemma elements_complete object fuel t r :
  element_list P object t -> Forall byte (t ++ closing object :: r) ->
  (length (ws (t ++ closing object :: r)) < fuel)%nat ->
  elements val object fuel (ws (t ++ closing object :: r)) = Some r.
Proof.
  intros Hl. revert fuel. induction Hl as [e He|e ts He Hl IH]; intros fuel Hb Hf.
  - destruct fuel as [|fuel]; [lia|]. rewrite elements_unfold.
    destruct (delimiter_follow object (closing object) r) as [Hfo Hc]; [by left|].
    destruct (element_complete object e _ He Hfo Hb) as (q & w' & -> & Hw' & ->).
    rewrite ws_app_blank, ws_stop by done. by rewrite Z.eqb_refl.
  - destruct fuel as [|fuel]; [lia|]. rewrite elements_unfold. rewrite <- (assoc (++)) in Hb, Hf |- *. cbn [app] in *.
    destruct (delimiter_follow object 44 (ts ++ closing object :: r)) as [Hfo Hc]; [by right|].
    destruct (element_complete object e _ He Hfo Hb) as (q & w' & -> & Hw' & ->).
    rewrite ws_app_blank, ws_stop by done.
    assert ((44 =? closing object) = false) as -> by (by destruct object). change (44 =? 44) with true. cbn iota.
    apply IH.
    + apply Forall_app_r in Hb. by inversion_clear Hb.
    + pose proof (length_ws_stop e 44 (ts ++ closing object :: r) Hc). pose proof (length_ws (ts ++ closing object :: r)).
      cbn [length] in *. lia.
Qed.
End elements.

Lemma json_text_head n t :
  json_text n t ->
  exists c q, t = c :: q /\ is_ws c = false /\ c <> 93 /\
    ((c = 34 /\ exists k v, t = quote k /\ str_body k v) \/
     (c <> 34 /\ c <> 91 /\ c <> 123 /\ (t ∈ [lit "true"; lit "false"; lit "null"] \/ number_text t)) \/
     exists m object body, n = S m /\ t = opening object :: body ++ [closing object] /\
       (blank body \/ element_list (json_text m) object body)).
Proof.
  intros Ht. destruct n as [|n]; cbn [json_text] in Ht.
  all: destruct Ht as [(k & v & -> & Hb)|[Ht|[Ht|Ht]]]; [by exists 34, (k ++ [34]); eauto 10 using Z.neq_sym| | |].
  1,4: rewrite !elem_of_cons, elem_of_nil in Ht; destruct Ht as [->|[->|[->|[]]]];
    (eexists _, _; split; [done|]; split; [done|]; split; [done|]; right; left; repeat (split; [done|]); left; set_solver).
  1,3: destruct (number_text_head t Ht) as (c & q & -> & Hc); exists c, q; split; [done|];
    unfold digit, is_ws in *;
    assert (c = 45 \/ 48 <= c <= 57) by (destruct Hc; bsimp; lia);
    split; [by rewrite !(proj2 (Z.eqb_neq _ _)) by lia|]; split; [lia|]; right; left; repeat (split; [lia|]); by right.
  - done.
  - destruct Ht as (object & body & -> & Hb). exists (opening object), (body ++ [closing object]).
    split; [done|]. split; [by destruct object|]. split; [by destruct object|]. right. right. exists n, object, body. auto.
Qed.

(** A list of elements does not start with the closing delimiter. *)
Lemma element_list_head P object t r :
  (forall t, P t -> exists c q, t = c :: q /\ is_ws c = false /\ c <> 93) ->
  element_list P object t -> exists c q, ws (t ++ r) = c :: q /\ c <> closing object.
Proof.
  intros HP Hl.
  assert (forall e r, element P object e -> exists c q, ws (e ++ r) = c :: q /\ c <> closing object) as He.
  { intros e r0 [w x w' Hw Hx _|w k v w1 w2 x w' Hw _ _ _ _ _]; rewrite <- !app_assoc, ws_app_blank by done.
    - destruct (HP x Hx) as (c & q & -> & Hc & Hne). cbn [app]. rewrite ws_stop by done. eauto.
    - cbn. eauto. }
  destruct Hl as [e H|e ts H _]; [by apply He|]. rewrite <- app_assoc. by apply He.
Qed.

Lemma value_at_ws n p : value_at n (ws p) = value_at n p.
Proof. destruct n; cbn [value_at]; by rewrite ws_idem. Qed.

Lemma value_at_sound n p r :
  Forall byte p -> value_at n p = Some r -> exists w t, p = w ++ t ++ r /\ blank w /\ json_text n t.
Proof.
  revert p r. induction n as [|n IH]; intros p r Hp Hv.
  all: destruct (ws_split p) as (w & Hw & Heq); cbn [value_at] in Hv; rewrite Heq in Hp; apply Forall_app_r in Hp.
  all: destruct (ws p) as [|c q] eqn:Ews; [done|].
  1: cut (exists t, c :: q = t ++ r /\ json_text 0 t).
  3: cut (exists t, c :: q = t ++ r /\ json_text (S n) t).
  1,3: intros (t & Ht & Hj); exists w, t; split; [by rewrite Heq, Ht|done].
  all: destruct (c =? 34) eqn:E34;
    [apply string_end_sound in Hv as (k & v & Hk & Hb); [|done]; exists (quote k); split; [done|]; left; eauto|].
  all: destruct ((c =? 91) || (c =? 123)) eqn:Eo;
    [|apply scalar_sound in Hv as (t & Ht & Hs); exists t; split; [done|]; right; cbn [json_text]; tauto].
  - done.
  - pose (object := c =? 123).
    assert (c = opening object) as Hc.
    { unfold object. apply orb_true_iff in Eo as [Eo|Eo]; bsimp; by subst c. }
    change (if c =? 123 then 125 else 93) with (closing object) in Hv. change (c =? 123) with object in Hv.
    inversion_clear Hp as [|? ? _ Hq]. destruct (ws_split q) as (w1 & Hw1 & Hq1).
    destruct (is_head (closing object) (ws q)) eqn:Ec.
    + injection Hv as <-. apply is_head_split in Ec. exists (c :: w1 ++ [closing object]). split.
      { cbn [app]. rewrite <- (assoc (++)). cbn [app]. rewrite <- Ec. by rewrite <- Hq1. }
      right. right. right. exists object, w1. rewrite Hc. auto.
    + apply (elements_sound _ (json_text n)) in Hv as (t & Ht & Hl); [|done|by rewrite Hq1 in Hq; apply Forall_app_r in Hq].
      exists (c :: (w1 ++ t) ++ [closing object]). split.
      { cbn [app]. rewrite <- !(assoc (++)). cbn [app]. by rewrite <- Ht, <- Hq1. }
      right. right. right. exists object, (w1 ++ t). rewrite Hc. split; [done|]. right. by apply element_list_blank.
Qed.

Lemma value_at_complete n p t r :
  Forall byte (t ++ r) -> json_text n t -> follow r -> ws p = ws (t ++ r) -> value_at n p = Some r.
Proof.
  revert p t r. induction n as [|n IH]; intros p t r Hb Ht Hf Hp.
  all: destruct (json_text_head _ t Ht) as (c & q & -> & Hc & _ & Hcases); cbn [value_at]; rewrite Hp; cbn [app]; rewrite ws_stop by done.
  all: destruct Hcases as [(-> & k & v & Hk & Hs)|[(N1 & N2 & N3 & Hs)|(m & object & body & Hm & Hj & Hbody)]].
  1,4: change (34 =? 34) with true; cbn iota; change (34 :: q ++ r) with ((34 :: q) ++ r); rewrite Hk in Hb |- *;
    by apply string_end_complete with v.
  1,3: rewrite !(proj2 (Z.eqb_neq _ _)) by done; cbn [orb]; change (c :: q ++ r) with ((c :: q) ++ r);
    by apply scalar_complete.
  - done.
  - injection Hm as ->. injection Hj as -> ->.
    assert ((opening object =? 34) = false) as -> by (by destruct object).
    assert ((opening object =? 91) || (opening object =? 123) = true) as -> by (by destruct object).
    assert ((opening object =? 123) = object) as -> by (by destruct object).
    change (if object then 125 else 93) with (closing object).
    inversion_clear Hb as [|? ? _ Hb'].
    rewrite <- (app_assoc body [closing object] r) in Hb' |- *. cbn [app] in Hb' |- *.
    destruct (delimiter_follow object (closing object) r) as [_ Hcl]; [by left|].
    destruct Hbody as [Hbl|Hl].
    + rewrite ws_app_blank, ws_stop by done. cbn [is_head]. by rewrite Z.eqb_refl.
    + destruct (is_head (closing object) (ws (body ++ closing object :: r))) eqn:Eh.
      * (* a list of elements does not start with the closing delimiter *)
        exfalso. apply is_head_split in Eh.
        destruct (element_list_head (json_text m) object body (closing object :: r)) as (c & q & Hq & Hne); [|done|].
        { intros x Hx. destruct (json_text_head _ _ Hx) as (c & q & ? & ? & ? & _). eauto. }
        rewrite Hq in Eh. by injection Eh.
      * apply (elements_complete _ (json_text m)); [|done|done|lia].
        intros p' t' r' Hb1 Ht1 Hf1 Hp1. by apply (IH p' t').
Qed.
