(* ===== verification/JsonObjects.v ===== *)
(** * JsonObjects: documents, members and scalars

    The readers of [JsonReader] that take a document apart, over the grammar of
    [JsonGrammar]: a document is one bounded object, [fields] returns exactly the
    members of an object and refuses unknown and repeated keys, [item] enumerates
    the items of an array, and the scalar readers return the number, word or
    text that the view denotes, or refuse. *)
From stdpp Require Import prelude.
From Stdlib Require Import ZArith Lia.
From S2P Require Import Prelude Text Platform I2cDevices ConfigValidate JsonReader JsonGrammar.
Import String.StringSyntax.
Local Open Scope Z_scope.

(** ** Views *)

Lemma upto_app t r : upto (t ++ r) r = t.
Proof. unfold upto. rewrite length_app. replace (_ - _)%nat with (length t) by lia. apply take_app_length. Qed.

Lemma value_unfold p depth : value p depth = value_at (Z.to_nat (16 - depth)) p.
Proof. done. Qed.

(** A value read at a cursor that is not on white space. *)
Lemma value_sound p depth r :
  Forall byte p -> ws p = p -> value p depth = Some r ->
  p = upto p r ++ r /\ json_text (Z.to_nat (16 - depth)) (upto p r).
Proof.
  intros Hp Hws Hv. apply value_at_sound in Hv as (w & t & -> & Hw & Ht); [|done].
  assert (w = []) as ->.
  { destruct Hw as [|c w Hc Hw]; [done|]. exfalso. cbn in Hws. rewrite Hc in Hws.
    pose proof (length_ws (w ++ t ++ r)) as Hl. rewrite Hws in Hl. cbn in Hl. lia. }
  cbn [app]. rewrite upto_app. done.
Qed.

Lemma value_complete depth w t r :
  Forall byte (t ++ r) -> blank w -> json_text (Z.to_nat (16 - depth)) t -> follow r ->
  value (w ++ t ++ r) depth = Some r.
Proof. intros Hb Hw Ht Hf. apply value_at_complete with t; try done. by apply ws_app_blank. Qed.

Lemma json_text_ws n t r : json_text n t -> ws (t ++ r) = t ++ r.
Proof. intros Ht. destruct (json_text_head n t Ht) as (c & q & -> & Hc & _). by apply ws_stop. Qed.

(** ** Documents *)

Lemma cstr_take n s : cstr (take n s) = take n (cstr s).
Proof.
  revert s. induction n as [|n IH]; intros [|c s]; try done. cbn. destruct (c =? 0); [done|]. cbn. by rewrite IH.
Qed.

Lemma cstr_bytes s : Forall byte s -> Forall byte (cstr s).
Proof. induction 1 as [|c s Hc _ IH]; [constructor|]. cbn. destruct (c =? 0); [constructor|]. by constructor. Qed.

Lemma ws_all_blank p : ws p = [] <-> blank p.
Proof.
  split; [|intros Hp; rewrite <- (app_nil_r p); by rewrite ws_app_blank].
  intros H. destruct (ws_split p) as (w & Hw & Hp). rewrite H, app_nil_r in Hp. by subst.
Qed.

(** The text of a document of at most 65536 characters. *)
Lemma document_text buf :
  let text := cstr (prefix (BVSTK_PROFILE_JSON_MAX + 1) buf) in
  (alen text <= BVSTK_PROFILE_JSON_MAX <-> alen (cstr buf) <= BVSTK_PROFILE_JSON_MAX) /\
  (alen (cstr buf) <= BVSTK_PROFILE_JSON_MAX -> text = cstr buf).
Proof.
  unfold prefix, alen, BVSTK_PROFILE_JSON_MAX. cbn zeta. rewrite cstr_take, length_take.
  remember (cstr buf) as s. split; [lia|]. intros Hs. apply firstn_all2. lia.
Qed.

Definition is_document (json root : chars) : Prop :=
  alen json <= BVSTK_PROFILE_JSON_MAX /\
  exists w w', json = w ++ root ++ w' /\ blank w /\ blank w' /\ json_text 16 root /\ is_head 123 root = true.

Lemma document_spec buf root :
  Forall byte buf -> document (Some buf) = Some root <-> is_document (cstr buf) root.
Proof.
  intros Hb. pose proof (document_text buf) as [Hlen Htext]. unfold document, is_document.
  remember (cstr (prefix (BVSTK_PROFILE_JSON_MAX + 1) buf)) as text eqn:Et.
  destruct (BVSTK_PROFILE_JSON_MAX <? alen text) eqn:E; bsimp.
  { split; [done|]. intros [H _]. apply Hlen in H. lia. }
  apply Hlen in E. rewrite (Htext E). apply cstr_bytes in Hb. clear Et Hlen Htext text.
  remember (cstr buf) as text eqn:Et. clear Et.
  assert (Forall byte (ws text)) as Hws.
  { destruct (ws_split text) as (w & _ & Hp). rewrite Hp in Hb. by apply Forall_app_r in Hb. }
  split.
  - destruct (is_head 123 (ws text)) eqn:Eh; [|done]. cbn [negb].
    destruct (value (ws text) 0) as [q|] eqn:Ev; [|done].
    destruct (ws q) eqn:Eq; [|done]. intros [= <-]. split; [done|].
    apply value_sound in Ev as [Hv Hj]; [|done|apply ws_idem].
    destruct (ws_split text) as (w & Hw & Hp). exists w, q. split; [by rewrite <- Hv|]. split; [done|].
    split; [by apply ws_all_blank|]. split; [done|]. rewrite Hv in Eh.
    destruct (json_text_head _ _ Hj) as (c & t & Ht & _). rewrite Ht in Eh |- *. done.
  - intros (_ & w & w' & -> & Hw & Hw' & Hj & Hh). rewrite ws_app_blank, (json_text_ws 16) in Hws |- * by done.
    assert (is_head 123 (root ++ w') = true) as -> by (by destruct root). cbn [negb].
    rewrite <- (app_nil_l (root ++ w')), (value_complete 0 [] root w'); [|done|constructor|done|].
    + cbn [app]. rewrite upto_app. by apply ws_all_blank in Hw' as ->.
    + rewrite <- (app_nil_r w'). by apply follow_blank.
Qed.

(** C11: The strict gate of every profile: [document] accepts a C string exactly
    when it has at most 65536 characters and is one JSON object (of the grammar,
    nested at most sixteen levels deep, with well-formed UTF-8 and no escaped NUL
    in its strings) between white space, and its view is that object. *)
Theorem document_iff buf root :
  Forall byte buf -> document (Some buf) = Some root <-> is_document (cstr buf) root.
Proof. apply document_spec. Qed.

(** ** Members of an object *)

(** The members, as decoded key and text of the value, in the order of the text. *)
Inductive members_text : list (chars * chars) -> chars -> Prop :=
  | mt_one w k v w1 w2 t w' : blank w -> str_body k v -> blank w1 -> blank w2 -> json_text 15 t -> blank w' ->
      members_text [(v, t)] (w ++ quote k ++ w1 ++ 58 :: w2 ++ t ++ w')
  | mt_more w k v w1 w2 t w' ms ts :
      blank w -> str_body k v -> blank w1 -> blank w2 -> json_text 15 t -> blank w' -> members_text ms ts ->
      members_text ((v, t) :: ms) (w ++ quote k ++ w1 ++ 58 :: w2 ++ t ++ w' ++ 44 :: ts).

Definition object_text (ms : list (chars * chars)) (o : chars) : Prop :=
  exists body, o = 123 :: body ++ [125] /\ ((ms = [] /\ blank body) \/ members_text ms body).

Lemma members_text_blank w ms t : blank w -> members_text ms t -> members_text ms (w ++ t).
Proof.
  intros Hw Hm. destruct Hm as [w0 k v w1 w2 t w' H0|w0 k v w1 w2 t w' ms ts H0];
    rewrite (app_assoc w w0); constructor; try done; by apply Forall_app.
Qed.

(** Storing the members one after the other, as the loop does. *)
Fixpoint bind_members (keys : list chars) (out : list view_t) (ms : list (chars * chars)) : option (list view_t) :=
  match ms with
  | [] => Some out
  | (k, t) :: ms =>
      let i := key_index k keys in
      if (i =? alen keys) || bool_decide (is_Some (out.[i])) || (64 <=? alen k) then None
      else bind_members keys (out.[i <- Some t]) ms
  end.

Lemma key_index_range k keys : 0 <= key_index k keys <= alen keys.
Proof.
  unfold key_index, alen. destruct (for_find _ _ _) as [i|] eqn:E; simpl; [|lia].
  apply for_find_Some in E as [Hi _]. lia.
Qed.

(** [seen] has the bits of the members stored so far. *)
Definition seen_ok (keys : list chars) (seen : Z) (out : list view_t) : Prop :=
  0 <= seen /\ alen out = alen keys /\
  forall i, 0 <= i < alen keys -> Z.testbit seen i = bool_decide (is_Some (out.[i])).

Lemma u64_bit i : 0 <= i < 64 -> u64 (Z.shiftl 1 i) = 2 ^ i.
Proof.
  intros Hi. rewrite Z.shiftl_1_l. apply u64_id. split; [apply Z.pow_nonneg; lia|].
  change 18446744073709551616 with (2 ^ 64). apply Z.pow_lt_mono_r; lia.
Qed.

Lemma seen_ok_store keys seen out i t :
  seen_ok keys seen out -> alen keys <= 64 -> 0 <= i < alen keys ->
  seen_ok keys (Z.lor seen (u64 (Z.shiftl 1 i))) (out.[i <- Some t]).
Proof.
  intros (H0 & Hl & Hs) Hk Hi. rewrite u64_bit by lia. split; [|split].
  - apply Z.lor_nonneg. split; [done|]. apply Z.pow_nonneg. lia.
  - by rewrite alen_aset.
  - intros j Hj. rewrite Z.lor_spec, Z.pow2_bits_eqb by lia. destruct (Z.eqb_spec i j) as [<-|Hne].
    + rewrite orb_true_r, aget_aset_eq by lia. symmetry. apply bool_decide_eq_true. by eexists.
    + rewrite orb_false_r, aget_aset_ne by lia. by apply Hs.
Qed.

(** One member and what follows it. *)
Lemma fields_loop_unfold fuel p keys seen out :
  fields_loop (S fuel) p keys seen out =
  match string (Some 64) p with
  | None => None
  | Some (p, key) =>
      let i := key_index key keys in
      if (i =? alen keys) || Z.testbit seen i then None
      else
        match ws p with
        | [] => None
        | c :: p =>
            if negb (c =? 58) then None
            else
              match value (ws p) 1 with
              | None => None
              | Some q =>
                  let out := out.[i <- Some (upto (ws p) q)] in
                  match ws q with
                  | [] => None
                  | c :: q =>
                      if c =? 125 then match q with [] => Some out | _ => None end
                      else if negb (c =? 44) then None
                      else fields_loop fuel (ws q) keys (Z.lor seen (u64 (Z.shiftl 1 i))) out
                  end
              end
        end
  end.
Proof. done. Qed.

Lemma str_room k : room_for (Some 64) k <-> (64 <=? alen k) = false.
Proof. cbn. rewrite Z.leb_gt. done. Qed.

Lemma ws_bytes p : Forall byte p -> Forall byte (ws p).
Proof. intros Hp. destruct (ws_split p) as (w & _ & Heq). rewrite Heq in Hp. by apply Forall_app_r in Hp. Qed.

Lemma seen_bit keys seen out key :
  seen_ok keys seen out -> (key_index key keys =? alen keys) = false ->
  0 <= key_index key keys < alen keys /\
  Z.testbit seen (key_index key keys) = bool_decide (is_Some (out.[key_index key keys])).
Proof.
  intros (_ & _ & Hs) Hne. pose proof (key_index_range key keys). bsimp. split; [lia|]. apply Hs. lia.
Qed.

Lemma fields_loop_sound fuel p keys seen out out' :
  Forall byte p -> alen keys <= 64 -> seen_ok keys seen out ->
  fields_loop fuel p keys seen out = Some out' ->
  exists ms body, p = body ++ [125] /\ members_text ms body /\ bind_members keys out ms = Some out'.
Proof.
  intros Hp Hk. revert p seen out Hp. induction fuel as [|fuel IH]; intros p seen out Hp Hs; [done|].
  rewrite fields_loop_unfold. destruct (string (Some 64) p) as [[p1 key]|] eqn:Estr; [|done].
  apply string_spec in Estr as (k & -> & Hbody & Hroom); [|done|done]. apply str_room in Hroom. cbn zeta.
  destruct (key_index key keys =? alen keys) eqn:Ei; [done|]. cbn [orb].
  destruct (seen_bit _ _ _ key Hs Ei) as [Hi ->].
  destruct (bool_decide _) eqn:Ebit; [done|]. apply Forall_app_r in Hp.
  destruct (ws_split p1) as (w1 & Hw1 & Hp1). destruct (ws p1) as [|c p2]; [done|]. subst p1.
  apply Forall_app_r in Hp. inversion_clear Hp as [|? ? _ Hp2].
  destruct (Z.eqb_spec c 58) as [->|]; [|done]. cbn [negb].
  destruct (ws_split p2) as (w2 & Hw2 & Hp2'). remember (ws p2) as p3 eqn:Ep3.
  assert (Forall byte p3) as Hp3 by (subst p3; by apply ws_bytes).
  destruct (value p3 1) as [q|] eqn:Ev; [|done].
  apply value_sound in Ev as [Heq Hj]; [|done|rewrite Ep3; apply ws_idem].
  remember (upto p3 q) as t eqn:Et. clear Et Ep3. subst p3 p2.
  destruct (ws_split q) as (w' & Hw' & Hq). destruct (ws q) as [|c q1]; [done|]. subst q.
  assert (forall ms, bind_members keys out ((key, t) :: ms) =
    bind_members keys (out.[key_index key keys <- Some t]) ms) as Hbind.
  { intros ms. cbn [bind_members]. by rewrite Ei, Ebit, Hroom. }
  destruct (Z.eqb_spec c 125) as [->|].
  { destruct q1; [|done]. intros [= <-]. exists [(key, t)], (quote k ++ w1 ++ 58 :: w2 ++ t ++ w').
    split; [by rewrite <- !app_assoc; cbn [app]; rewrite <- !app_assoc|].
    split; [apply (mt_one [] k key w1 w2 t w'); try done; constructor|]. by rewrite Hbind. }
  destruct (Z.eqb_spec c 44) as [->|]; [|done]. cbn [negb]. destruct (ws_split q1) as (w3 & Hw3 & Hq1).
  intros H. apply IH in H as (ms & body & Hbd & Hm & Hbm).
  - exists ((key, t) :: ms), (quote k ++ w1 ++ 58 :: w2 ++ t ++ w' ++ 44 :: w3 ++ body).
    split.
    { rewrite Hq1, Hbd. rewrite <- !app_assoc. cbn [app]. rewrite <- !app_assoc. cbn [app]. by rewrite <- !app_assoc. }
    split; [|by rewrite Hbind].
    apply (mt_more [] k key w1 w2 t w' ms (w3 ++ body)); try done; [constructor|]. by apply members_text_blank.
  - apply ws_bytes. apply Forall_app_r in Hp3. apply Forall_app_r in Hp3. by inversion_clear Hp3.
  - by apply seen_ok_store.
Qed.

Lemma fields_loop_complete (fuel : nat) keys seen out out' ms (body : chars) :
  Forall byte (body ++ [125]) -> alen keys <= 64 -> seen_ok keys seen out ->
  members_text ms body -> bind_members keys out ms = Some out' ->
  (length (ws (body ++ [125%Z])) <= fuel)%nat ->
  fields_loop fuel (ws (body ++ [125])) keys seen out = Some out'.
Proof.
  intros Hb Hk Hs Hm. revert fuel seen out Hb Hs.
  assert (forall (fuel : nat) seen out w k v w1 w2 t w' c r ms,
    blank w -> str_body k v -> blank w1 -> blank w2 -> json_text 15 t -> blank w' -> is_ws c = false -> follow (c :: r) ->
    Forall byte (w ++ quote k ++ w1 ++ 58 :: w2 ++ t ++ w' ++ c :: r) -> seen_ok keys seen out ->
    bind_members keys out ((v, t) :: ms) = Some out' ->
    let i := key_index v keys in let out1 := out.[i <- Some t] in
    0 <= i < alen keys /\ bind_members keys out1 ms = Some out' /\
    fields_loop (S fuel) (ws (w ++ quote k ++ w1 ++ 58 :: w2 ++ t ++ w' ++ c :: r)) keys seen out =
      if c =? 125 then match r with [] => Some out1 | _ => None end
      else if negb (c =? 44) then None
      else fields_loop fuel (ws r) keys (Z.lor seen (u64 (Z.shiftl 1 i))) out1) as Hround.
  { clear. intros fuel seen out w k v w1 w2 t w' c r ms Hw Hkb Hw1 Hw2 Ht Hw' Hc Hf Hb Hs. cbn zeta.
    cbn [bind_members]. destruct (_ || (64 <=? alen v)) eqn:E; [done|]. intros Hbm.
    apply orb_false_iff in E as [E E3]. apply orb_false_iff in E as [E1 E2].
    destruct (seen_bit _ _ _ v Hs E1) as [Hi Hbit]. split; [done|]. split; [done|].
    rewrite fields_loop_unfold. rewrite ws_app_blank by done. apply Forall_app_r in Hb.
    change (ws (quote k ++ ?x)) with (quote k ++ x).
    rewrite (proj2 (string_spec (Some 64) _ (w1 ++ 58 :: w2 ++ t ++ w' ++ c :: r) v Hb ltac:(done)))
      by (exists k; split; [done|]; split; [done|]; by apply str_room).
    cbn zeta. rewrite E1, Hbit, E2. cbn [orb]. rewrite ws_app_blank by done.
    apply Forall_app_r in Hb. apply Forall_app_r in Hb. inversion_clear Hb as [|? ? _ Hb'].
    cbn [ws]. change (is_ws 58) with false. cbn iota. change (58 =? 58) with true. cbn [negb].
    apply Forall_app_r in Hb'. rewrite ws_app_blank, (json_text_ws 15) by done.
    rewrite <- (app_nil_l (t ++ w' ++ c :: r)), (value_complete 1 [] t (w' ++ c :: r));
      [|done|constructor|done|by apply follow_blank].
    cbn [app]. rewrite upto_app. by rewrite ws_app_blank, ws_stop by done. }
  induction Hm as [w k v w1 w2 t w' Hw Hkb Hw1 Hw2 Ht Hw'|w k v w1 w2 t w' ms ts Hw Hkb Hw1 Hw2 Ht Hw' Hm IH];
    intros fuel seen out Hb Hs Hbm Hf.
  - rewrite <- !app_assoc in Hb, Hf |- *. cbn [app] in Hb, Hf |- *. rewrite <- !app_assoc in Hb, Hf |- *. cbn [app] in Hb, Hf |- *.
    destruct fuel as [|fuel].
    { rewrite ws_app_blank in Hf by done. cbn in Hf. lia. }
    edestruct (Hround fuel seen out w k v w1 w2 t w' 125 [] []) as (_ & Hb1 & ->); try done.
    cbn. auto.
  - assert ((w ++ quote k ++ w1 ++ 58 :: w2 ++ t ++ w' ++ 44 :: ts) ++ [125] =
      w ++ quote k ++ w1 ++ 58 :: w2 ++ t ++ w' ++ 44 :: ts ++ [125]) as Hre.
    { rewrite <- !app_assoc. cbn [app]. by rewrite <- !app_assoc. }
    rewrite Hre in Hb, Hf |- *. destruct fuel as [|fuel].
    { rewrite ws_app_blank in Hf by done. cbn in Hf. lia. }
    edestruct (Hround fuel seen out w k v w1 w2 t w' 44 (ts ++ [125]) ms) as (Hi & Hb1 & ->); try done; [cbn; auto|].
    change (44 =? 125) with false. change (44 =? 44) with true. cbn [negb].
    apply IH; [|by apply seen_ok_store|done|].
    + do 3 apply Forall_app_r in Hb. inversion_clear Hb as [|? ? _ Hb']. do 3 apply Forall_app_r in Hb'.
      by inversion_clear Hb'.
    + pose proof (length_ws_stop (w ++ quote k ++ w1 ++ 58 :: w2 ++ t ++ w') 44 (ts ++ [125]) ltac:(done)) as Hl.
      pose proof (length_ws (ts ++ [125])). rewrite <- !app_assoc in Hl. cbn [app] in Hl. rewrite <- !app_assoc in Hl.
      cbn [length] in *. lia.
Qed.

(** The value of a key among the members. *)
Fixpoint member_of (k : chars) (ms : list (chars * chars)) : view_t :=
  match ms with
  | [] => None
  | (k', t) :: ms => if decide (k' = k) then Some t else member_of k ms
  end.

(** Keys without NUL characters, as C strings are. *)
Definition clean (s : chars) : Prop := cstr s = s.

Lemma clean_app a b : clean a -> clean b -> clean (a ++ b).
Proof.
  unfold clean. revert b. induction a as [|c a IH]; intros b; [done|]. cbn. destruct (c =? 0); [done|].
  intros [= Ha] Hb. cbn. by rewrite (IH b).
Qed.

Lemma clean_utf8 cp : 0 < cp -> clean (utf8 cp).
Proof.
  intros Hcp. unfold clean, utf8.
  assert (forall k, 0x80 + k mod 64 <> 0) as Ht by (intros k; pose proof (Z.mod_pos_bound k 64); lia).
  assert (forall a k, 0 < a -> 0 < k -> a + cp `div` k <> 0) as Hl by (intros a k; pose proof (Z.div_pos cp k); lia).
  repeat destruct (_ <? _); cbn [cstr]; by rewrite !(proj2 (Z.eqb_neq _ _)) by (apply Ht || (apply Hl; lia) || lia).
Qed.

Lemma str_body_clean t v : str_body t v -> clean v.
Proof.
  induction 1 as [|t v ts vs Hi _ IH]; [done|]. apply clean_app; [|done].
  destruct Hi as [cp [Hs _]|c v Hin|h cp _ [Hs _]|h l hi lo _ _ Hhi Hlo]; try (apply clean_utf8; lia).
  rewrite !elem_of_cons, elem_of_nil in Hin. by repeat destruct Hin as [[= -> ->]|Hin].
Qed.

Lemma members_text_clean ms t : members_text ms t -> Forall (fun m => clean m.1) ms.
Proof. induction 1; constructor; try done; eapply str_body_clean; done. Qed.

Section keys.
Context (keys : list chars).
Hypothesis keys_distinct : NoDup keys.
Hypothesis keys_clean : Forall clean keys.

Lemma key_get i : 0 <= i < alen keys -> clean (keys.[i]).
Proof. intros Hi. rewrite Forall_forall in keys_clean. apply keys_clean. by apply aget_in. Qed.

Lemma key_index_in k :
  clean k -> k ∈ keys -> 0 <= key_index k keys < alen keys /\ keys.[key_index k keys] = k.
Proof.
  intros Hk Hin. unfold key_index. apply list_elem_of_lookup in Hin as [j Hj].
  destruct (for_find _ _ _) as [i|] eqn:E; simpl.
  - apply for_find_Some in E as (Hi & He & _). apply streq_spec in He. split; [unfold alen; lia|].
    pose proof (key_get i ltac:(unfold alen; lia)) as Hc. unfold clean in Hc, Hk. congruence.
  - exfalso. pose proof (lookup_lt_Some _ _ _ Hj).
    assert (streq k (keys.[Z.of_nat j]) = true) as Hs; [|rewrite for_find_None in E; rewrite E in Hs; [done|lia]].
    apply streq_spec. f_equal. unfold aget. rewrite Nat2Z.id. symmetry. by apply list_lookup_total_correct.
Qed.

Lemma key_index_at i : 0 <= i < alen keys -> key_index (keys.[i]) keys = i.
Proof.
  intros Hi. destruct (key_index_in (keys.[i])) as [Hr He]; [by apply key_get|by apply aget_in|].
  rewrite NoDup_alt in keys_distinct.
  assert (Z.to_nat (key_index (keys.[i]) keys) = Z.to_nat i); [|lia].
  apply (keys_distinct _ _ (keys.[i])); [|by apply aget_lookup]. rewrite <- He at 2. by apply aget_lookup.
Qed.

Lemma key_index_out k : clean k -> k ∉ keys -> key_index k keys = alen keys.
Proof.
  intros Hk Hin. unfold key_index. destruct (for_find _ _ _) as [i|] eqn:E; [|done].
  apply for_find_Some in E as (Hi & He & _). apply streq_spec in He. destruct Hin.
  pose proof (key_get i ltac:(unfold alen; lia)) as Hc. unfold clean in Hc, Hk.
  assert (k = keys.[i]) as -> by congruence. apply aget_in. unfold alen. lia.
Qed.

Definition stored (ms : list (chars * chars)) (out out' : list view_t) : Prop :=
  alen out' = alen keys /\
  forall i, 0 <= i < alen keys ->
    out'.[i] = match member_of (keys.[i]) ms with Some t => Some t | None => out.[i] end.

Lemma bind_members_sound ms out out' :
  Forall (fun m => clean m.1) ms -> alen out = alen keys -> bind_members keys out ms = Some out' ->
  NoDup (fst <$> ms) /\ Forall (fun m => m.1 ∈ keys /\ alen m.1 < 64) ms /\
  Forall (fun m => out.[key_index m.1 keys] = None) ms /\ stored ms out out'.
Proof.
  intros Hc. revert out. induction Hc as [|[k t] ms Hk Hc IH]; intros out Hl; cbn [bind_members].
  { intros [= <-]. split; [constructor|]. split; [constructor|]. split; [constructor|]. by split. }
  destruct (_ || (64 <=? alen k)) eqn:E; [done|]. apply orb_false_iff in E as [E E3]. apply orb_false_iff in E as [E1 E2].
  bsimp. apply bool_decide_eq_false in E2. apply eq_None_not_Some in E2.
  assert (k ∈ keys) as Hin.
  { destruct (decide (k ∈ keys)) as [|Hn]; [done|]. by destruct E1; apply key_index_out. }
  destruct (key_index_in k Hk Hin) as [Hr Hat].
  intros H. apply IH in H as (Hnd & Hf & Hfree & Hlen & Hst); [|by rewrite alen_aset].
  assert (Forall (fun m => m.1 <> k /\ out.[key_index m.1 keys] = None) ms) as Hother.
  { rewrite Forall_forall in Hf, Hfree, Hc |- *. intros [k' t'] Hm. cbn.
    destruct (Hf _ Hm) as [Hin' _]. pose proof (Hfree _ Hm) as Hf1. cbn in Hin', Hf1.
    destruct (key_index_in k' (Hc _ Hm) Hin') as [Hr' Hat'].
    assert (k' <> k) as Hne by (intros ->; by rewrite aget_aset_eq in Hf1 by lia). split; [done|].
    rewrite aget_aset_ne in Hf1; [done|lia|lia|congruence]. }
  split; [|split; [|split; [|split; [done|]]]].
  - cbn [fmap list_fmap]. constructor; [|done]. intros Hk'. apply list_elem_of_fmap in Hk' as (m & Heq & Hm).
    rewrite Forall_forall in Hother. by destruct (Hother _ Hm) as [[] _].
  - constructor; [|done]. split; [done|]. cbn [fst]. lia.
  - constructor; [done|]. eapply Forall_impl; [exact Hother|]. by intros m [].
  - intros i Hi. rewrite Hst by done. cbn [member_of]. destruct (decide (k = keys.[i])) as [->|Hne].
    + assert (member_of (keys.[i]) ms = None) as ->.
      { clear -Hother. induction ms as [|[k' t'] ms IH]; [done|]. cbn. inversion_clear Hother as [|? ? [Hne _] H'].
        cbn in Hne. rewrite decide_False by done. by apply IH. }
      rewrite key_index_at by done. by rewrite aget_aset_eq by lia.
    + destruct (member_of _ _); [done|]. rewrite aget_aset_ne; [done|lia|lia|].
      intros He. rewrite He in Hat. by destruct Hne.
Qed.

Lemma bind_members_complete ms out :
  Forall (fun m => clean m.1) ms -> alen out = alen keys -> NoDup (fst <$> ms) ->
  Forall (fun m => m.1 ∈ keys /\ alen m.1 < 64) ms ->
  Forall (fun m => out.[key_index m.1 keys] = None) ms ->
  exists out', bind_members keys out ms = Some out'.
Proof.
  intros Hc. revert out. induction Hc as [|[k t] ms Hk Hc IH]; intros out Hl Hnd Hf Hfree; cbn [bind_members]; [by eexists|].
  inversion_clear Hf as [|? ? [Hin Hlen] Hf']. inversion_clear Hfree as [|? ? Hfr Hfree'].
  cbn [fst] in Hin, Hlen, Hfr, Hk.
  cbn [fmap list_fmap] in Hnd. apply NoDup_cons in Hnd as [Hnk Hnd].
  destruct (key_index_in k Hk Hin) as [Hr Hat].
  rewrite (proj2 (Z.eqb_neq _ _)) by lia. rewrite Hfr, bool_decide_eq_false_2 by (by intros []).
  rewrite (proj2 (Z.leb_gt _ _)) by lia. cbn [orb]. apply IH; [by rewrite alen_aset|done|done|].
  rewrite Forall_forall in Hf', Hfree', Hc |- *. intros [k' t'] Hm. cbn [fst].
  destruct (Hf' _ Hm) as [Hin' _]. cbn [fst] in Hin'. destruct (key_index_in k' (Hc _ Hm) Hin') as [Hr' Hat'].
  rewrite aget_aset_ne; [by apply (Hfree' _ Hm)|lia|lia|]. intros He. destruct Hnk.
  apply list_elem_of_fmap. exists (k', t'). split; [|done]. cbn. congruence.
Qed.
End keys.

Lemma views_ext (a b : list view_t) :
  alen a = alen b -> (forall i, 0 <= i < alen a -> a.[i] = b.[i]) -> a = b.
Proof.
  unfold alen, aget. intros Hl Hi. apply list_eq_same_length with (length a); [lia|done|].
  intros i x y Hlt Ha Hb. specialize (Hi (Z.of_nat i) ltac:(lia)). rewrite Nat2Z.id in Hi.
  apply list_lookup_total_correct in Ha, Hb. congruence.
Qed.

(** [fields] succeeds when the view is an object of the grammar whose members'
    decoded keys are distinct, at most 63 characters long and all among the keys
    asked for; the view of each key is the text of the value the object gives it. *)
Lemma fields_iff o keys out :
  Forall byte o -> NoDup keys -> Forall clean keys -> alen keys <= 64 ->
  fields (Some o) keys = Some out <->
  exists ms, object_text ms o /\ NoDup (fst <$> ms) /\
    Forall (fun m => m.1 ∈ keys /\ alen m.1 < 64) ms /\
    out = (fun k => member_of k ms) <$> keys.
Proof.
  intros Hb Hnd Hcl Hk.
  assert (seen_ok keys 0 (fill (alen keys) None)) as Hs0.
  { split; [done|]. split; [apply alen_fill, alen_nonneg|]. intros i Hi. rewrite Z.testbit_0_l, aget_fill by lia. done. }
  assert (forall ms out', stored keys ms (fill (alen keys) None) out' <->
    out' = (fun k => member_of k ms) <$> keys) as Hst.
  { intros ms out'. assert (alen ((fun k => member_of k ms) <$> keys) = alen keys) as Hl
      by (unfold alen; by rewrite length_fmap).
    assert (forall i, 0 <= i < alen keys -> ((fun k => member_of k ms) <$> keys).[i] = member_of (keys.[i]) ms) as Hg.
    { intros i Hi. apply list_lookup_total_correct. rewrite list_lookup_fmap. by rewrite aget_lookup. }
    split.
    - intros [Hl' Hi]. apply views_ext; [lia|]. intros i Hi'. rewrite Hi, Hg by lia.
      rewrite aget_fill by lia. by destruct (member_of _ _).
    - intros ->. split; [done|]. intros i Hi. rewrite Hg by done. rewrite aget_fill by lia. by destruct (member_of _ _). }
  unfold fields. destruct o as [|c p].
  { split; [done|]. by intros (ms & (body & ? & _) & _). }
  inversion_clear Hb as [|? ? _ Hbp]. rewrite (proj2 (Z.ltb_ge _ _)) by lia. rewrite orb_false_r.
  destruct (Z.eqb_spec c 123) as [->|Hc]; cbn [negb].
  2: { split; [done|]. intros (ms & (body & ? & _) & _). congruence. }
  destruct (ws_split p) as (w & Hw & Hp). split.
  - destruct (is_head 125 (ws p)) eqn:Eh.
    + apply is_head_split in Eh. destruct (drop 1 (ws p)); [|done]. intros [= <-]. exists [].
      split; [exists w; rewrite <- Eh, <- Hp; auto|]. split; [constructor|]. split; [constructor|].
      apply Hst. split; [apply alen_fill, alen_nonneg|done].
    + intros H. apply fields_loop_sound in H as (ms & body & Hbd & Hm & Hbm); [|by apply ws_bytes|done|done].
      apply bind_members_sound in Hbm as (Hn & Hf & _ & Hst'); try done;
        [|by eapply members_text_clean|apply alen_fill, alen_nonneg].
      exists ms. split; [|by rewrite <- Hst]. exists (w ++ body). split; [|right; by apply members_text_blank].
      rewrite <- app_assoc, <- Hbd. by rewrite <- Hp.
  - intros (ms & (body & [= ->] & Hbody) & Hn & Hf & ->). destruct Hbody as [[-> Hbl]|Hm].
    + rewrite ws_app_blank, ws_stop by done. cbn [is_head]. change (125 =? 125) with true. cbn iota.
      change (drop 1 [125]) with (@nil Z). cbn iota. f_equal. by apply Hst; split; [apply alen_fill, alen_nonneg|].
    + assert (is_head 125 (ws (body ++ [125])) = false) as ->.
      { destruct Hm as [w0 k v w1 w2 t w' H0|w0 k v w1 w2 t w' ms ts H0]; rewrite <- app_assoc, ws_app_blank by done; done. }
      destruct (bind_members_complete keys Hcl ms (fill (alen keys) None)) as [out' Hout];
        [by eapply members_text_clean|apply alen_fill, alen_nonneg|done|done| |].
      { rewrite Forall_forall in Hf |- *. intros m Hm'. destruct (Hf _ Hm') as [Hin _].
        apply members_text_clean in Hm. rewrite Forall_forall in Hm.
        destruct (key_index_in keys Hcl m.1 (Hm _ Hm') Hin). by apply aget_fill. }
      rewrite (fields_loop_complete _ keys 0 _ out' ms body); try done; [|lia].
      f_equal. apply Hst. eapply bind_members_sound in Hout as (_ & _ & _ & ?); try done;
        [by eapply members_text_clean|apply alen_fill, alen_nonneg].
Qed.

(** ** Numbers *)

Definition digits_value (base : Z) (value : Z -> Z) (p : chars) : Z := foldl (fun n c => n * base + value c) 0 p.

Lemma digits_value_from base (value : Z -> Z) (p : chars) n :
  0 < base -> Forall (fun c => 0 <= value c) p -> 0 <= n ->
  n <= foldl (fun n c => n * base + value c) n p.
Proof.
  intros Hb Hp. revert n. induction Hp as [|c p Hc _ IH]; intros n Hn; [done|]. cbn [foldl].
  etransitivity; [|apply IH; nia]. nia.
Qed.

(** The overflow test of the number readers: the next value stays in range. *)
Lemma next_in_range max base d n :
  0 < base -> 0 <= d -> 0 <= n ->
  (max <? d) || ((max - d) `div` base <? n) = negb (n * base + d <=? max).
Proof.
  intros Hb Hd Hn. destruct (Z.leb_spec (n * base + d) max) as [Hle|Hgt]; cbn [negb].
  - rewrite orb_false_iff, !Z.ltb_ge. split; [nia|]. apply Z.div_le_lower_bound; lia.
  - destruct (Z.ltb_spec max d); [done|]. cbn [orb]. apply Z.ltb_lt.
    apply Z.div_lt_upper_bound; lia.
Qed.

Section number_loops.
Context (base : Z) (value : Z -> Z) (max : Z).
Hypothesis base_pos : 0 < base.
Hypothesis max_fits : max < 4294967296.

(** The common body of the decimal and the hexadecimal reader. *)
Fixpoint scan_digits (p : chars) (n : Z) : option Z :=
  match p with
  | [] => Some n
  | c :: p =>
      if (value c <? 0) || (max <? value c) || ((max - value c) `div` base <? n) then None
      else scan_digits p (u32 (n * base + value c))
  end.

Lemma scan_digits_iff p n r :
  0 <= n <= max ->
  scan_digits p n = Some r <->
  Forall (fun c => 0 <= value c) p /\ r = foldl (fun n c => n * base + value c) n p /\ r <= max.
Proof.
  revert n. induction p as [|c p IH]; intros n Hn; cbn [scan_digits foldl].
  { split; [intros [= <-]; split; [constructor|]; lia|]. by intros (_ & -> & _). }
  destruct (Z.ltb_spec (value c) 0) as [Hneg|Hpos]; cbn [orb].
  { split; [done|]. intros (Hf & _). inversion_clear Hf. lia. }
  rewrite next_in_range by lia. destruct (Z.leb_spec (n * base + value c) max) as [Hle|Hgt]; cbn [negb].
  - rewrite u32_id by nia. rewrite IH by nia. split.
    + intros (Hf & -> & Hr). split; [by constructor|]. done.
    + intros (Hf & -> & Hr). inversion_clear Hf. done.
  - split; [done|]. intros (Hf & -> & Hr). inversion_clear Hf as [|? ? _ Hf'].
    pose proof (digits_value_from base value p (n * base + value c) base_pos Hf' ltac:(nia)). lia.
Qed.
End number_loops.

Definition dec_digit (c : Z) : Z := if digit c then c - 48 else -1.

Lemma number_loop_scan p max n : number_loop p max n = scan_digits 10 dec_digit max p n.
Proof.
  revert n. induction p as [|c p IH]; intros n; [done|]. cbn [number_loop scan_digits]. unfold dec_digit.
  destruct (digit c) eqn:E; [|done]. cbn [negb]. unfold digit in E. bsimp.
  rewrite (proj2 (Z.ltb_ge (c - 48) 0)) by lia. cbn [orb]. by rewrite IH.
Qed.

Lemma hex_loop_scan p max n : hex_value_loop p max n = scan_digits 16 hex_digit max p n.
Proof. revert n. induction p as [|c p IH]; intros n; [done|]. cbn. by rewrite IH. Qed.

Lemma dec_digit_iff p : Forall (fun c => 0 <= dec_digit c) p <-> Forall (fun c => digit c = true) p.
Proof.
  apply Forall_iff. intros c. unfold dec_digit. destruct (digit c) eqn:E; [|split; [lia|done]].
  unfold digit in E. bsimp. split; [done|lia].
Qed.

(** [number] takes a view exactly when it is the canonical decimal text of a
    value up to the maximum, and yields that value: no sign, fraction or leading
    zero is accepted, and the accumulator never wraps. *)
Lemma number_iff p max n :
  0 <= max < 4294967296 ->
  number (Some p) max = Some n <->
  digit_run p /\ (p = [48] \/ is_head 48 p = false) /\ n = digits_value 10 (fun c => c - 48) p /\ n <= max.
Proof.
  intros Hmax. unfold number, digit_run.
  assert (forall n, 0 <= n <= max -> number_loop p max 0 = Some n <->
    Forall (fun c => digit c = true) p /\ n = digits_value 10 (fun c => c - 48) p /\ n <= max) as Hloop.
  { intros m Hm. rewrite number_loop_scan, (scan_digits_iff 10 dec_digit max) by lia. rewrite dec_digit_iff.
    unfold digits_value.
    assert (Forall (fun c => digit c = true) p ->
      foldl (fun n c => n * 10 + dec_digit c) 0 p = foldl (fun n c => n * 10 + (c - 48)) 0 p) as Heq.
    { generalize 0 as k. clear. intros k Hp. revert k. induction Hp as [|c p Hc _ IH]; intros k; [done|]. cbn.
      unfold dec_digit at 2. rewrite Hc. apply IH. }
    split; intros (Hf & -> & Hr); split; try done; by rewrite Heq in *. }
  destruct p as [|c q]; [split; [done|]; by intros [[] _]|].
  destruct ((1 <? alen (c :: q)) && (c =? 48)) eqn:E.
  - apply andb_true_iff in E as [E1 E2]. bsimp. subst c. split; [done|].
    intros (_ & [Hq|Hq] & _); [|done]. injection Hq as ->. done.
  - assert (c :: q = [48] \/ is_head 48 (c :: q) = false) as Hz.
    { apply andb_false_iff in E as [E|E]; [|by right]. bsimp. rewrite alen_cons in E.
      destruct q; [|rewrite alen_cons in E; pose proof (alen_nonneg q); lia]. cbn.
      destruct (Z.eqb_spec c 48) as [->|]; auto. }
    destruct (decide (0 <= n <= max)) as [Hn|Hn].
    + rewrite Hloop by done. split; [intros (? & ? & ?); by repeat split|]. by intros ([_ ?] & _ & ? & ?).
    + split.
      * intros H. exfalso. rewrite number_loop_scan in H.
        apply (scan_digits_iff 10 dec_digit max) in H as (Hf & Heq & Hle); [|lia|lia|lia].
        pose proof (digits_value_from 10 dec_digit (c :: q) 0 ltac:(lia) Hf ltac:(lia)). lia.
      * intros ([_ Hf] & _ & -> & Hle). exfalso. apply Hn. split; [|done].
        apply (digits_value_from 10 (fun c => c - 48)); [lia| |lia].
        eapply Forall_impl; [exact Hf|]. intros d Hd. unfold digit in Hd. bsimp. lia.
Qed.

(** ** Texts *)

Definition printable (c : Z) : Prop := 32 <= c /\ c <> 127.

(** [text] takes a string of printable characters that fits its buffer. *)
Lemma text_iff p cap out :
  Forall byte p -> 0 < cap ->
  text (Some p) cap = Some out <->
  exists t, p = quote t /\ str_body t out /\ alen out < cap /\ Forall printable out.
Proof.
  intros Hp Hcap. unfold text.
  assert (forall o t, str_body t o ->
    existsb (fun c => (c <? 32) || (c =? 127)) (cstr o) = false <-> Forall printable o) as Hpr.
  { intros o t Hb. rewrite (str_body_clean _ _ Hb). clear. induction o as [|c o IH]; [done|]. cbn.
    rewrite orb_false_iff, IH, orb_false_iff, Z.ltb_ge, Z.eqb_neq. split.
    - intros [[? ?] ?]. constructor; [|done]. by split.
    - intros Hf. inversion_clear Hf as [|? ? [? ?] ?]. done. }
  split.
  - destruct (string (Some cap) p) as [[r o]|] eqn:E; [|done]. destruct r; [|done].
    apply string_spec in E as (t & -> & Hb & Hr); [|done|done]. rewrite app_nil_r.
    destruct (existsb _ _) eqn:Ex; [done|]. intros [= <-]. exists t. split; [done|]. split; [done|]. split; [done|].
    by apply (Hpr _ t).
  - intros (t & -> & Hb & Hr & Hf).
    rewrite (proj2 (string_spec (Some cap) (quote t) [] out Hp Hcap)) by (exists t; by rewrite app_nil_r).
    by rewrite (proj2 (Hpr out t Hb) Hf).
Qed.

(** A hexadecimal text: ["0x"] and digits. *)
Lemma hex_iff p max n :
  Forall byte p -> 0 <= max < 4294967296 ->
  hex (Some p) max = Some n <->
  exists t h, p = quote t /\ str_body t (48 :: 120 :: h) /\ h <> [] /\ alen h < 17 /\
    Forall (fun c => 0 <= hex_digit c) h /\ n = digits_value 16 hex_digit h /\ n <= max.
Proof.
  intros Hp Hmax. unfold hex.
  assert (forall h m, hex_value_loop h max 0 = Some m <->
    Forall (fun c => 0 <= hex_digit c) h /\ m = digits_value 16 hex_digit h /\ m <= max) as Hloop.
  { intros h m. rewrite hex_loop_scan. apply scan_digits_iff; lia. }
  split.
  - destruct (text (Some p) 19) as [out|] eqn:E; [|done]. apply text_iff in E as (t & -> & Hb & Hl & _); [|done|lia].
    rewrite (str_body_clean _ _ Hb). destruct out as [|c0 [|c1 [|c2 h]]]; try done.
    destruct ((c0 =? 48) && (c1 =? 120)) eqn:Ec; [|done]. apply andb_true_iff in Ec as [Ec0 Ec1]. bsimp. subst.
    intros H. apply Hloop in H as (Hf & -> & Hm). exists t, (c2 :: h). split; [done|]. split; [done|]. split; [done|].
    rewrite !alen_cons in Hl. rewrite alen_cons. split; [lia|]. done.
  - intros (t & h & -> & Hb & Hne & Hl & Hf & -> & Hm).
    rewrite (proj2 (text_iff (quote t) 19 (48 :: 120 :: h) Hp ltac:(lia))).
    + rewrite (str_body_clean _ _ Hb). destruct h as [|c h]; [done|].
      change ((48 =? 48) && (120 =? 120)) with true. cbn iota. by apply Hloop.
    + exists t. split; [done|]. split; [done|]. rewrite !alen_cons. split; [lia|].
      constructor; [done|]. constructor; [done|]. eapply Forall_impl; [exact Hf|].
      intros c Hc. cbn in Hc. unfold hex_digit, digit, printable in *.
      destruct (_ && _) eqn:E1; [bsimp; lia|]. destruct ((97 <=? c) && _) eqn:E2; [bsimp; lia|].
      destruct ((65 <=? c) && _) eqn:E3; [bsimp; lia|]. lia.
Qed.

Lemma boolean_iff p b : boolean (Some p) = Some b <-> p = (if b then lit "true" else lit "false").
Proof.
  unfold boolean. destruct (decide (p = lit "true")) as [->|H1]; [by destruct b|].
  rewrite bool_decide_eq_false_2 by done. destruct (decide (p = lit "false")) as [->|H2].
  - rewrite bool_decide_eq_true_2 by done. by destruct b.
  - rewrite bool_decide_eq_false_2 by done. split; [done|]. by destruct b.
Qed.

(** ** A document *)

Definition demo_document : chars := lit " {`id`: [true, {}]} " ++ [0; 65].

Lemma document_iff_witness :
  is_document (lit " {`id`: [true, {}]} ") (lit "{`id`: [true, {}]}") /\ document (Some (lit "{`id`: [01]}" ++ [0])) = None.
Proof.
  split; [|vm_compute; reflexivity].
  apply (document_iff demo_document (lit "{`id`: [true, {}]}")).
  - apply (bool_decide_unpack _). vm_compute. exact I.
  - vm_compute. reflexivity.
Defined.
