(* ===== verification/ProfileCodec.v ===== *)
(** * ProfileCodec: device profiles as JSON

    [src/src/shared/config/bvstk_device_profile.c], second part: the parser of a
    schema-2 profile for an I2C or an MDIO device and the writer of its canonical
    text.  The parser works through the views of [JsonReader]; each part of
    [parse] is a definition here, in the order of the code, so the first part
    that refuses decides the status. *)
From stdpp Require Import prelude.
From Stdlib Require Import ZArith Lia.
From S2P Require Import Prelude Text Platform I2cDevices ConfigValidate JsonReader.
Import String.StringSyntax.
Local Open Scope Z_scope.

(** ** Results *)

(** The value, or the status the function returns early with. *)
Definition parsed (A : Type) : Type := A + bvstk_status_t.

Declare Scope parsed_scope.
Delimit Scope parsed_scope with parsed.
Notation "'let*' x ':=' o 'or' e 'in' k" := (match o with Some x => k | None => inr e end)
  (at level 10, x pattern, o at level 100, e at level 100, k at level 200) : parsed_scope.
Notation "'refuse' b 'with_' e 'in' k" := (if b then inr e else k)
  (at level 10, b at level 100, e at level 100, k at level 200) : parsed_scope.
Notation "'let**' x ':=' o 'in' k" := (match o with inl x => k | inr e => inr e end)
  (at level 10, x pattern, o at level 100, k at level 200) : parsed_scope.
Local Open Scope parsed_scope.

Definition present (v : view_t) : bool := match v with Some _ => true | None => false end.

(** A string stored over the contents of a buffer, with its terminator. *)
Definition store_text (buf out : chars) : chars := copy_prefix (alen out + 1) (out ++ [0]) buf.

(** An optional text member: absent, or a non-empty text. *)
Definition optional_text (v : view_t) (buf : chars) : option chars :=
  match v with
  | None => Some buf
  | Some _ =>
      match text v (alen buf) with
      | Some s => let buf := store_text buf s in if buf.[0] =? 0 then None else Some buf
      | None => None
      end
  end.

(** ** Helpers of the parser *)

Definition id_text (p : bvstk_profile_metadata_t) (i : Z) : chars :=
  drop (Z.to_nat ((pf_id_offset p).[i])) (pf_ids p).

(** [lookup]: the register a resource name stands for. *)
Definition profile_lookup (id : view_t) (p : bvstk_profile_metadata_t) (count : Z) : option Z :=
  match text id 32 with
  | None => None
  | Some name => for_find (Z.to_nat count) 0 (fun i => streq name (id_text p i))
  end.

Definition driver_mode (v : view_t) : bool :=
  match fields v [lit "mode"] with
  | Some f => equal (f.[0]) (lit "driver")
  | None => false
  end.

Definition read_effect_keys : list chars := [lit "clear_mask"; lit "latch_high_mask"; lit "latch_low_mask"].
Definition write_effect_keys : list chars :=
  [lit "one_clear_mask"; lit "one_set_mask"; lit "self_clear_mask"; lit "fixed_mask"; lit "fixed_value"].

Definition zero_effect (v : view_t) (write : bool) : bool :=
  match v with
  | None => true
  | Some _ =>
      match fields v (if write then write_effect_keys else read_effect_keys) with
      | None => false
      | Some f => forallb (fun w => negb (present w) || match hex w 0 with Some _ => true | None => false end) f
      end
  end.

Definition no_refresh (v : view_t) : bool :=
  match v with
  | None => true
  | Some _ =>
      match fields v [lit "on"; lit "period_ms"] with
      | None => false
      | Some f => empty_array (f.[0]) && (negb (present (f.[1])) || match number (f.[1]) 0 with Some _ => true | None => false end)
      end
  end.

(** [while ((next = item (array, &cursor, &entry)) == 1)]: [inr] is the early
    return of the body; a malformed array ends in [MALFORMED].  Every item
    consumes at least one character of the array. *)
Fixpoint item_loop {S} (fuel : nat) (array : view_t) (cursor : option chars)
    (body : chars -> S -> parsed S) (s : S) : parsed S :=
  match fuel with
  | O => inr BVSTK_ERR_MALFORMED
  | Datatypes.S fuel =>
      match item array cursor with
      | ItemEnd => inl s
      | ItemInvalid => inr BVSTK_ERR_MALFORMED
      | Item cursor entry =>
          match body entry s with
          | inl s => item_loop fuel array (Some cursor) body s
          | inr e => inr e
          end
      end
  end.

Definition for_items {S} (array : view_t) (body : chars -> S -> parsed S) (s : S) : parsed S :=
  item_loop (Datatypes.S (match array with Some a => length a | None => O end)) array None body s.

(** ** The parts of [parse] *)

Definition root_keys : list chars :=
  [lit "schema_version"; lit "id"; lit "device"; lit "transport"; lit "protocol"; lit "resources"; lit "defaults";
   lit "policy"; lit "settings"; lit "observability"; lit "register_map"; lit "view"].
Definition device_keys : list chars := [lit "model"; lit "vendor"; lit "class"; lit "label"].
Definition transport_keys : list chars := [lit "bus"; lit "controller"; lit "address"; lit "address_bits"].
Definition protocol_keys : list chars := [lit "driver"; lit "options"].
Definition option_keys : list chars :=
  [lit "max_write_value"; lit "capture_cache_on_save"; lit "autopoll_enabled"; lit "autopoll_order";
   lit "autopoll_reg_delay_ms"; lit "autopoll_cycle_delay_ms"].
Definition resource_keys : list chars :=
  [lit "id"; lit "kind"; lit "address"; lit "width_bits"; lit "access"; lit "write_mask"; lit "cache"; lit "verify";
   lit "refresh"; lit "persist_mask"; lit "read_effect"; lit "write_effect"; lit "fields"].
Definition defaults_keys : list chars := [lit "register"].
Definition policy_keys : list chars := [lit "read"; lit "write"].
Definition policy_entry_keys : list chars := [lit "mode"; lit "rules"; lit "inactive_rules"].
Definition rule_keys : list chars := [lit "resource"; lit "match"].
Definition match_keys : list chars := [lit "value"; lit "mask"].
Definition settings_keys : list chars := [lit "cache_seed"; lit "desired"; lit "apply_on_startup"].
Definition seed_keys : list chars := [lit "resource"; lit "value"].
Definition observe_keys : list chars := [lit "telemetry"; lit "events"].

(** The root members and the name. *)
Definition parse_root (json : option chars) : parsed (list view_t * chars) :=
  let* root := document json or BVSTK_ERR_MALFORMED in
  let* r := fields (Some root) root_keys or BVSTK_ERR_MALFORMED in
  let* n := number (r.[0]) 2 or BVSTK_ERR_MALFORMED in
  refuse negb (n =? 2) with_ BVSTK_ERR_MALFORMED in
  let* name := text (r.[1]) 32 or BVSTK_ERR_MALFORMED in
  let name := store_text (fill 32 0) name in
  refuse negb (id_valid name) with_ BVSTK_ERR_MALFORMED in
  inl (r, name).

(** [register_map] and [view]. *)
Definition parse_assets (r : list view_t) : parsed (chars * chars) :=
  let* map := optional_text (r.[10]) (fill 64 0) or BVSTK_ERR_MALFORMED in
  refuse present (r.[10]) && negb (register_map_valid map) with_ BVSTK_ERR_MALFORMED in
  let* view := optional_text (r.[11]) (fill 64 0) or BVSTK_ERR_MALFORMED in
  refuse present (r.[11]) && (negb (asset_name_valid view js_extension) || (map.[0] =? 0)) with_ BVSTK_ERR_MALFORMED in
  inl (map, view).

Record device_part := DevicePart { dp_model : chars; dp_vendor : chars; dp_class : chars; dp_label : chars }.

Definition parse_device (v : view_t) : parsed device_part :=
  let* f := fields v device_keys or BVSTK_ERR_MALFORMED in
  let* model := text (f.[0]) 65 or BVSTK_ERR_MALFORMED in
  let model := store_text (fill 65 0) model in
  refuse model.[0] =? 0 with_ BVSTK_ERR_MALFORMED in
  let* vendor := optional_text (f.[1]) (fill 65 0) or BVSTK_ERR_MALFORMED in
  let class := store_text (fill 16 0) (lit "generic") in
  let* class := (match f.[2] with None => Some class | Some _ => option_map (store_text class) (text (f.[2]) 16) end)
    or BVSTK_ERR_MALFORMED in
  refuse negb (class_valid class) with_ BVSTK_ERR_MALFORMED in
  let* label := optional_text (f.[3]) (fill 97 0) or BVSTK_ERR_MALFORMED in
  inl (DevicePart model vendor class label).

(** The device address. *)
Definition parse_transport (mdio : bool) (v : view_t) : parsed Z :=
  let* f := fields v transport_keys or BVSTK_ERR_UNSUPPORTED in
  refuse negb (equal (f.[0]) (if mdio then lit "mdio" else lit "i2c")) with_ BVSTK_ERR_UNSUPPORTED in
  refuse negb (equal (f.[1]) (if mdio then lit "pl_mdio_0" else lit "pl_i2c_0")) with_ BVSTK_ERR_UNSUPPORTED in
  let* n := hex (f.[2]) (if mdio then 31 else 127) or BVSTK_ERR_UNSUPPORTED in
  if mdio then
    refuse present (f.[3]) with_ BVSTK_ERR_MALFORMED in inl (u8 n)
  else
    refuse present (f.[3]) && negb (bool_decide (number (f.[3]) 7 = Some 7)) with_ BVSTK_ERR_UNSUPPORTED in
    inl (u8 n).

Record options_part := OptionsPart {
  op_options : list view_t;
  op_max_value_code : Z;
  op_autopoll_enabled : bool;
  op_reg_delay_ms : Z;
  op_cycle_delay_ms : Z
}.

(** An optional number with the value it keeps when it is absent. *)
Definition optional_number (v : view_t) (max old : Z) : option Z :=
  match v with None => Some old | Some _ => number v max end.

Definition parse_protocol (mdio : bool) (v : view_t) : parsed options_part :=
  let* f := fields v protocol_keys or BVSTK_ERR_UNSUPPORTED in
  refuse negb (equal (f.[0]) (if mdio then lit "bvstk_mdio_bridge" else lit "bvstk_i2c_bridge")) with_ BVSTK_ERR_UNSUPPORTED in
  let* options := (match f.[1] with None => Some (fill 6 None) | Some _ => fields (f.[1]) option_keys end)
    or BVSTK_ERR_MALFORMED in
  if mdio then
    refuse present (options.[0]) || present (options.[1]) with_ BVSTK_ERR_MALFORMED in
    let* enabled := (match options.[2] with None => Some false | Some _ => boolean (options.[2]) end)
      or BVSTK_ERR_MALFORMED in
    let* reg_delay := optional_number (options.[4]) 60000 0 or BVSTK_ERR_MALFORMED in
    let* cycle_delay := optional_number (options.[5]) 600000 50 or BVSTK_ERR_MALFORMED in
    inl (OptionsPart options 0 enabled reg_delay cycle_delay)
  else
    let* n := hex (options.[0]) 64 or BVSTK_ERR_MALFORMED in
    refuse present (options.[1]) && negb (bool_decide (boolean (options.[1]) = Some true)) with_ BVSTK_ERR_UNSUPPORTED in
    refuse existsb (fun k => present (options.[k])) [2; 3; 4; 5] with_ BVSTK_ERR_UNSUPPORTED in
    inl (OptionsPart options (u8 n) false 0 0).

(** [defaults]: the members resources may leave out. *)
Definition parse_defaults (v : view_t) : parsed (list view_t) :=
  match v with
  | None => inl (fill 13 None)
  | Some _ =>
      let* f := fields v defaults_keys or BVSTK_ERR_UNSUPPORTED in
      match f.[0] with
      | None => inl (fill 13 None)
      | Some _ =>
          let* defaults := fields (f.[0]) resource_keys or BVSTK_ERR_MALFORMED in
          refuse present (defaults.[0]) || present (defaults.[1]) || present (defaults.[2]) with_ BVSTK_ERR_MALFORMED in
          inl defaults
      end
  end.

(** The resources read so far. *)
Record resources := Resources {
  rs_seen : list bool;
  rs_count : Z;
  rs_id_offset : list Z;
  rs_ids_size : Z;
  rs_ids : list Z
}.

Definition no_resources : resources := Resources (fill 256 false) 0 (fill I2C_CFG_MAX_REG_COUNT 0) 1 (fill BVSTK_PROFILE_IDS_CAP 0).

(** The name of an earlier resource: [meta->ids + meta->id_offset[k]]. *)
Definition rs_id (s : resources) (k : Z) : chars := drop (Z.to_nat ((rs_id_offset s).[k])) (rs_ids s).

Definition with_defaults (f defaults : list view_t) : list view_t :=
  take 3 f ++ zip_with (fun v d => match v with Some _ => v | None => d end) (drop 3 f) (drop 3 defaults).

(** The capabilities a resource must declare, all of them those of the driver. *)
Definition resource_supported (mdio : bool) (f : list view_t) : bool :=
  let width := if mdio then 16 else 8 in
  let maximum := if mdio then 65535 else 255 in
  bool_decide (number (f.[3]) width = Some width) && equal (f.[4]) (lit "rw") &&
  bool_decide (hex (f.[5]) maximum = Some maximum) && driver_mode (f.[6]) && driver_mode (f.[7]) &&
  no_refresh (f.[8]) && (negb (present (f.[9])) || bool_decide (hex (f.[9]) 0 = Some 0)) &&
  zero_effect (f.[10]) false && zero_effect (f.[11]) true && empty_array (f.[12]).

Definition parse_resource (mdio : bool) (defaults : list view_t) (entry : chars) (s : resources) : parsed resources :=
  let* f := fields (Some entry) resource_keys or BVSTK_ERR_MALFORMED in
  let* id := text (f.[0]) 32 or BVSTK_ERR_MALFORMED in
  let id := store_text (fill 32 0) id in
  refuse negb (id_valid id) || negb (equal (f.[1]) (lit "register")) with_ BVSTK_ERR_MALFORMED in
  let* reg := hex (f.[2]) (if mdio then 31 else 255) or BVSTK_ERR_MALFORMED in
  refuse (rs_seen s).[reg] || ((if mdio then 32 else 256) <=? rs_count s) with_ BVSTK_ERR_MALFORMED in
  let same := for_find 256 0 (fun k => (rs_seen s).[k] && streq id (rs_id s k)) in
  refuse match same with Some _ => true | None => false end with_ BVSTK_ERR_MALFORMED in
  let len := strlen id + 1 in
  refuse BVSTK_PROFILE_IDS_CAP - rs_ids_size s <? len with_ BVSTK_ERR_RANGE in
  let s := Resources ((rs_seen s).[reg <- true]) (rs_count s + 1) ((rs_id_offset s).[reg <- rs_ids_size s])
    (u16 (rs_ids_size s + len)) (write_at (rs_ids s) (rs_ids_size s) (prefix len id)) in
  refuse negb (resource_supported mdio (with_defaults f defaults)) with_ BVSTK_ERR_UNSUPPORTED in
  inl s.

Definition parse_resources (mdio : bool) (v : view_t) (defaults : list view_t) : parsed resources :=
  let** s := for_items v (parse_resource mdio defaults) no_resources in
  refuse rs_count s =? 0 with_ BVSTK_ERR_MALFORMED in
  refuse match for_find (Z.to_nat (rs_count s)) 0 (fun k => negb ((rs_seen s).[k])) with Some _ => true | None => false end
    with_ BVSTK_ERR_UNSUPPORTED in
  inl s.

(** A list of registers that may not repeat: [seen] and what was collected. *)
Definition parse_autopoll_entry (meta : bvstk_profile_metadata_t) (count : Z) (entry : chars)
    (s : list bool * list Z) : parsed (list bool * list Z) :=
  let '(seen, regs) := s in
  let* reg := profile_lookup (Some entry) meta count or BVSTK_ERR_MALFORMED in
  refuse seen.[reg] || (32 <=? alen regs) with_ BVSTK_ERR_MALFORMED in
  inl (seen.[reg <- true], regs ++ [u8 reg]).

Definition parse_autopoll (v : view_t) (meta : bvstk_profile_metadata_t) (count : Z) : parsed (list Z) :=
  let** s := for_items v (parse_autopoll_entry meta count) (fill 256 false, []) in
  inl (snd s).

Record policy_part := PolicyPart { pp_black : bool; pp_white_rules : view_t; pp_black_rules : view_t }.

(** Only the unrestricted read policy is accepted; the write policy names its
    active list [rules] and the other one [inactive_rules]. *)
Definition parse_policy (v : view_t) : parsed policy_part :=
  let* policies := fields v policy_keys or BVSTK_ERR_UNSUPPORTED in
  let* part := fields (policies.[0]) policy_entry_keys or BVSTK_ERR_UNSUPPORTED in
  refuse negb (equal (part.[0]) (lit "blacklist")) || negb (empty_array (part.[1])) || negb (empty_array (part.[2]))
    with_ BVSTK_ERR_UNSUPPORTED in
  match policies.[1] with
  | None => inl (PolicyPart false None None)
  | Some _ =>
      let* part := fields (policies.[1]) policy_entry_keys or BVSTK_ERR_MALFORMED in
      if equal (part.[0]) (lit "blacklist") then inl (PolicyPart true (part.[2]) (part.[1]))
      else
        refuse negb (equal (part.[0]) (lit "whitelist")) with_ BVSTK_ERR_MALFORMED in
        inl (PolicyPart false (part.[1]) (part.[2]))
  end.

(** A rule: register, value, mask. *)
Definition parse_rule (mdio : bool) (max_value_code : Z) (meta : bvstk_profile_metadata_t) (count : Z) (entry : chars)
    (rules : list (Z * Z * Z)) : parsed (list (Z * Z * Z)) :=
  refuse (if mdio then MDIO_CFG_RULES_MAX else I2C_CFG_RULES_MAX) <=? alen rules with_ BVSTK_ERR_MALFORMED in
  let* rule := fields (Some entry) rule_keys or BVSTK_ERR_MALFORMED in
  let* reg := profile_lookup (rule.[0]) meta count or BVSTK_ERR_MALFORMED in
  let maximum := if mdio then 65535 else 255 in
  let** vm :=
    (match rule.[1] with
     | None => inl (0, 0)
     | Some _ =>
         let* m := fields (rule.[1]) match_keys or BVSTK_ERR_MALFORMED in
         if present (m.[0]) || present (m.[1]) then
           let* val := hex (m.[0]) maximum or BVSTK_ERR_MALFORMED in
           let* mask := hex (m.[1]) maximum or BVSTK_ERR_MALFORMED in
           inl (val, mask)
         else inl (0, 0)
     end) in
  let '(val, mask) := vm in
  if mdio then inl (rules ++ [(u8 reg, u16 val, u16 mask)])
  else
    refuse negb (mask =? 255) with_ BVSTK_ERR_UNSUPPORTED in
    refuse max_value_code <? val with_ BVSTK_ERR_RANGE in
    inl (rules ++ [(u8 reg, u8 val, 255)]).

Definition parse_rules (mdio : bool) (max_value_code : Z) (meta : bvstk_profile_metadata_t) (count : Z) (v : view_t)
    : parsed (list (Z * Z * Z)) :=
  for_items v (parse_rule mdio max_value_code meta count) [].

(** A seed: register and value. *)
Definition parse_seed (mdio : bool) (meta : bvstk_profile_metadata_t) (count : Z) (entry : chars)
    (s : list bool * list (Z * Z)) : parsed (list bool * list (Z * Z)) :=
  let '(seen, seeds) := s in
  refuse (if mdio then MDIO_CFG_SETTINGS_MAX else I2C_CFG_RULES_MAX) <=? alen seeds with_ BVSTK_ERR_MALFORMED in
  let* rule := fields (Some entry) seed_keys or BVSTK_ERR_MALFORMED in
  let* reg := profile_lookup (rule.[0]) meta count or BVSTK_ERR_MALFORMED in
  refuse seen.[reg] with_ BVSTK_ERR_MALFORMED in
  let* val := hex (rule.[1]) (if mdio then 65535 else 255) or BVSTK_ERR_MALFORMED in
  inl (seen.[reg <- true], seeds ++ [(u8 reg, if mdio then u16 val else u8 val)]).

Definition parse_settings (mdio : bool) (meta : bvstk_profile_metadata_t) (count : Z) (v : view_t) : parsed (list (Z * Z)) :=
  match v with
  | None => inl []
  | Some _ =>
      let* part := fields v settings_keys or BVSTK_ERR_UNSUPPORTED in
      refuse negb (empty_array (part.[1])) with_ BVSTK_ERR_UNSUPPORTED in
      refuse present (part.[2]) && negb (bool_decide (boolean (part.[2]) = Some false)) with_ BVSTK_ERR_UNSUPPORTED in
      let** s := for_items (part.[0]) (parse_seed mdio meta count) (fill 256 false, []) in
      inl (snd s)
  end.

(** [observability]: both switches, where given, are on. *)
Definition parse_observability (v : view_t) : parsed unit :=
  match v with
  | None => inl tt
  | Some _ =>
      let* part := fields v observe_keys or BVSTK_ERR_MALFORMED in
      refuse existsb (fun k => present (part.[k]) && negb (bool_decide (boolean (part.[k]) = Some true))) [0; 1]
        with_ BVSTK_ERR_UNSUPPORTED in
      inl tt
  end.

(** ** [parse]: all parts, then the configuration's own validation *)

(** The first cells of an array, the rest still zero. *)
Definition zero_tail {A} `{Inhabited A} (cap : Z) (l : list A) : list A := l ++ fill (cap - alen l) inhabitant.

Record profile_parts := ProfileParts {
  pa_name : chars;
  pa_address : Z;
  pa_options : options_part;
  pa_count : Z;
  pa_autopoll : list Z;
  pa_black : bool;
  pa_white_rules : list (Z * Z * Z);
  pa_black_rules : list (Z * Z * Z);
  pa_seeds : list (Z * Z);
  pa_meta : bvstk_profile_metadata_t
}.

Definition parse (json : option chars) (mdio : bool) : parsed profile_parts :=
  let** rn := parse_root json in
  let '(r, name) := rn in
  let** mv := parse_assets r in
  let '(map, view) := mv in
  let** device := parse_device (r.[2]) in
  let** address := parse_transport mdio (r.[3]) in
  let** options := parse_protocol mdio (r.[4]) in
  let** defaults := parse_defaults (r.[6]) in
  let** rs := parse_resources mdio (r.[5]) defaults in
  let meta := Profile 2 (dp_vendor device) (dp_model device) (dp_class device) (dp_label device) map view
                (rs_id_offset rs) (rs_ids_size rs) (rs_ids rs) in
  let** autopoll := (if mdio then parse_autopoll ((op_options options).[3]) meta (rs_count rs) else inl []) in
  let** policy := parse_policy (r.[7]) in
  let** white := parse_rules mdio (op_max_value_code options) meta (rs_count rs) (pp_white_rules policy) in
  let** black := parse_rules mdio (op_max_value_code options) meta (rs_count rs) (pp_black_rules policy) in
  let** seeds := parse_settings mdio meta (rs_count rs) (r.[8]) in
  let** _ := parse_observability (r.[9]) in
  inl (ProfileParts name address options (rs_count rs) autopoll (pp_black policy) white black seeds meta).

Definition i2c_of_parts (p : profile_parts) : i2c_device_config_t :=
  let rule '((reg, val, _) : Z * Z * Z) := Rule reg val in
  DeviceConfig (pa_name p) (fill I2C_CFG_FILE_NAME_MAX 0) (pa_address p) (u16 (pa_count p))
    (op_max_value_code (pa_options p)) (if pa_black p then I2C_POLICY_BLACKLIST else I2C_POLICY_WHITELIST)
    (zero_tail I2C_CFG_RULES_MAX (rule <$> pa_white_rules p)) (alen (pa_white_rules p))
    (zero_tail I2C_CFG_RULES_MAX (rule <$> pa_black_rules p)) (alen (pa_black_rules p))
    (zero_tail I2C_CFG_RULES_MAX ((fun '(reg, val) => Rule reg val) <$> pa_seeds p)) (alen (pa_seeds p))
    (pa_meta p).

Definition mdio_of_parts (p : profile_parts) : mdio_phy_config_t :=
  let rule '((reg, val, mask) : Z * Z * Z) := MdioRule reg val mask in
  let o := pa_options p in
  MdioConfig (pa_name p) (fill I2C_CFG_FILE_NAME_MAX 0) (pa_address p) (u8 (pa_count p))
    (if pa_black p then MDIO_POLICY_BLACKLIST else MDIO_POLICY_WHITELIST)
    (op_autopoll_enabled o) (pa_autopoll p ++ fill (32 - alen (pa_autopoll p)) 0) (alen (pa_autopoll p))
    (op_reg_delay_ms o) (op_cycle_delay_ms o)
    (zero_tail MDIO_CFG_RULES_MAX (rule <$> pa_white_rules p)) (alen (pa_white_rules p))
    (zero_tail MDIO_CFG_RULES_MAX (rule <$> pa_black_rules p)) (alen (pa_black_rules p))
    (zero_tail MDIO_CFG_SETTINGS_MAX ((fun '(reg, val) => MdioSetting reg val) <$> pa_seeds p)) (alen (pa_seeds p))
    (pa_meta p).

(** The configuration is written to [out] only when the status is [BVSTK_OK]. *)
Definition bvstk_device_profile_parse_i2c (json : option chars) : bvstk_status_t * option i2c_device_config_t :=
  match parse json false with
  | inr e => (e, None)
  | inl p =>
      let next := i2c_of_parts p in
      match bvstk_i2c_config_validate (Some next) with
      | BVSTK_OK => (BVSTK_OK, Some next)
      | e => (e, None)
      end
  end.

Definition bvstk_device_profile_parse_mdio (json : option chars) : bvstk_status_t * option mdio_phy_config_t :=
  match parse json true with
  | inr e => (e, None)
  | inl p =>
      let next := mdio_of_parts p in
      match bvstk_mdio_config_validate (Some next) with
      | BVSTK_OK => (BVSTK_OK, Some next)
      | e => (e, None)
      end
  end.

(** ** The writer *)

Record writer_t := Writer { w_text : chars; w_cap : Z; w_failed : bool }.

(** [append] of the text that the format produced: all of it or failure. *)
Definition append (w : writer_t) (s : chars) : writer_t :=
  if w_failed w then w
  else if w_cap w - alen (w_text w) <=? alen s then Writer (w_text w) (w_cap w) true
  else Writer (w_text w ++ s) (w_cap w) false.

Definition fail (w : writer_t) : writer_t := Writer (w_text w) (w_cap w) true.

Fixpoint quoted_loop (w : writer_t) (p : chars) : writer_t :=
  match p with
  | [] => append w [34]
  | c :: p =>
      if (c <? 32) || (c =? 127) then fail w
      else if (c =? 34) || (c =? 92) then quoted_loop (append w [92; c]) p
      else quoted_loop (append w [c]) p
  end.

Definition quoted (w : writer_t) (text_value : chars) : writer_t :=
  quoted_loop (append w [34]) (cstr text_value).

Definition resource_id (p : bvstk_profile_metadata_t) (reg : Z) : chars :=
  if pf_version p =? 2 then id_text p reg else lit "reg_" ++ hexx 2 reg.

Definition reference (w : writer_t) (p : bvstk_profile_metadata_t) (reg : Z) : writer_t := quoted w (resource_id p reg).

(** [for (i = 0; i < n; ++i)] over the cells of an array, appending. *)
Definition append_each {A} (l : list A) (f : Z -> A -> writer_t -> writer_t) (w : writer_t) : writer_t :=
  snd (foldl (fun '(i, w) a => (i + 1, f i a w)) (0, w) l).

(** The arguments of [format]: what it reads of either configuration. *)
Record format_args := FormatArgs {
  fa_mdio : bool;
  fa_name : chars;
  fa_meta : bvstk_profile_metadata_t;
  fa_count : Z;
  fa_address : Z;
  fa_black : bool;
  fa_autopoll_enabled : bool;
  fa_reg_delay_ms : Z;
  fa_cycle_delay_ms : Z;
  fa_autopoll : list Z;
  fa_max_value_code : Z;
  fa_white : list (Z * Z * Z);
  fa_black_rules : list (Z * Z * Z);
  fa_settings : list (Z * Z)
}.

Definition i2c_args (c : i2c_device_config_t) : format_args :=
  let rule r := (rule_reg r, rule_val r, 255) in
  FormatArgs false (cfg_name c) (cfg_profile c) (cfg_reg_count c) (cfg_addr_7b c) (cfg_policy c =? I2C_POLICY_BLACKLIST)
    false 0 0 [] (cfg_max_value_code c)
    (rule <$> prefix (cfg_whitelist_len c) (cfg_whitelist c)) (rule <$> prefix (cfg_blacklist_len c) (cfg_blacklist c))
    ((fun r => (rule_reg r, rule_val r)) <$> prefix (cfg_settings_len c) (cfg_settings c)).

Definition mdio_args (m : mdio_phy_config_t) : format_args :=
  let rule r := (mr_reg r, mr_val r, mr_mask r) in
  FormatArgs true (mc_name m) (mc_profile m) (mc_reg_count m) (mc_phy_addr m) (mc_policy m =? MDIO_POLICY_BLACKLIST)
    (mc_autopoll_enabled m) (mc_autopoll_reg_delay_ms m) (mc_autopoll_cycle_delay_ms m)
    (prefix (mc_autopoll_regs_len m) (mc_autopoll_regs m)) 0
    (rule <$> prefix (mc_whitelist_len m) (mc_whitelist m)) (rule <$> prefix (mc_blacklist_len m) (mc_blacklist m))
    ((fun e => (ms_reg e, ms_val e)) <$> prefix (mc_settings_len m) (mc_settings m)).

(** Name, assets and device. *)
Definition format_device (a : format_args) (w : writer_t) : writer_t :=
  let meta := fa_meta a in
  let v2 := truth (pf_version meta) in
  let w := quoted (append w (lit "{^  `schema_version`: 2,^  `id`: ")) (fa_name a) in
  let w := if truth ((pf_register_map meta).[0]) then quoted (append w (lit ",^  `register_map`: ")) (pf_register_map meta) else w in
  let w := if truth ((pf_view meta).[0]) then quoted (append w (lit ",^  `view`: ")) (pf_view meta) else w in
  let w := quoted (append w (lit ",^  `device`: {`model`: ")) (if v2 then pf_model meta else fa_name a) in
  let w := quoted (append w (lit ", `class`: "))
    (if v2 then pf_device_class meta else if fa_mdio a then lit "phy" else lit "generic") in
  let w := if v2 && truth ((pf_vendor meta).[0]) then quoted (append w (lit ", `vendor`: ")) (pf_vendor meta) else w in
  if v2 && truth ((pf_label meta).[0]) then quoted (append w (lit ", `label`: ")) (pf_label meta) else w.

(** Transport, protocol with its options, defaults. *)
Definition format_transport (a : format_args) (w : writer_t) : writer_t :=
  let bus := if fa_mdio a then lit "mdio" else lit "i2c" in
  let w := append w (lit "},^  `transport`: {`bus`: `" ++ bus ++ lit "`, `controller`: `pl_" ++ bus ++ lit "_0`, `address`: `0x" ++
    hexX 2 (fa_address a) ++ lit "`" ++ (if fa_mdio a then [] else lit ", `address_bits`: 7") ++ lit "},^") in
  append w (lit "  `protocol`: {`driver`: `bvstk_" ++ bus ++ lit "_bridge`, `options`: {").

Definition format_options (a : format_args) (w : writer_t) : writer_t :=
  if fa_mdio a then
    let w := append w (lit "`autopoll_enabled`: " ++ (if fa_autopoll_enabled a then lit "true" else lit "false") ++
      lit ", `autopoll_reg_delay_ms`: " ++ dec (fa_reg_delay_ms a) ++
      lit ", `autopoll_cycle_delay_ms`: " ++ dec (fa_cycle_delay_ms a) ++ lit ", `autopoll_order`: [") in
    let w := append_each (fa_autopoll a) (fun i reg w =>
      reference (if i =? 0 then w else append w (lit ", ")) (fa_meta a) reg) w in
    append w (lit "]")
  else
    append w (lit "`max_write_value`: `0x" ++ hexX 2 (fa_max_value_code a) ++ lit "`, `capture_cache_on_save`: true").

Definition format_width (a : format_args) : Z := if fa_mdio a then 16 else 8.

Definition format_defaults (a : format_args) (w : writer_t) : writer_t :=
  append w (lit "}},^  `defaults`: {`register`: {`width_bits`: " ++ dec (format_width a) ++
    lit ", `access`: `rw`, `write_mask`: `0x" ++ hexX (format_width a `div` 4) (if fa_mdio a then 65535 else 255) ++
    lit "`, `cache`: {`mode`: `driver`}, `verify`: {`mode`: `driver`}}},^  `resources`: [^").

Definition format_resources (a : format_args) (w : writer_t) : writer_t :=
  for_each (Z.to_nat (fa_count a)) 0 (fun i w =>
    let w := reference (append w (lit "    {`id`: ")) (fa_meta a) i in
    append w (lit ", `kind`: `register`, `address`: `0x" ++ hexX 2 i ++ lit "`}" ++
      (if i + 1 =? fa_count a then [] else lit ",") ++ lit "^")) w.

(** One of the two rule lists. *)
Definition format_rules (a : format_args) (key : chars) (rules : list (Z * Z * Z)) (w : writer_t) : writer_t :=
  let n := format_width a `div` 4 in
  let w := append w (lit ", `" ++ key ++ lit "`: [") in
  let w := append_each rules (fun i '(reg, val, mask) w =>
    let w := reference (append w ((if i =? 0 then [] else lit ", ") ++ lit "{`resource`: ")) (fa_meta a) reg in
    append w (lit ", `match`: {`value`: `0x" ++ hexX n val ++ lit "`, `mask`: `0x" ++ hexX n mask ++ lit "`}}")) w in
  append w (lit "]").

Definition format_policy (a : format_args) (w : writer_t) : writer_t :=
  let w := append w (lit "  ],^  `policy`: {`read`: {`mode`: `blacklist`, `rules`: []}, `write`: {`mode`: `" ++
    (if fa_black a then lit "blacklist" else lit "whitelist") ++ lit "`") in
  let w := format_rules a (lit "rules") (if fa_black a then fa_black_rules a else fa_white a) w in
  format_rules a (lit "inactive_rules") (if fa_black a then fa_white a else fa_black_rules a) w.

(** A seed that a later one for the same register replaces is left out (I2C). *)
Fixpoint effective_seeds (mdio : bool) (seeds : list (Z * Z)) : list (Z * Z) :=
  match seeds with
  | [] => []
  | (reg, val) :: rest =>
      if negb mdio && existsb (fun s => fst s =? reg) rest then effective_seeds mdio rest
      else (reg, val) :: effective_seeds mdio rest
  end.

Definition format_settings (a : format_args) (w : writer_t) : writer_t :=
  let w := append w (lit "}},^  `settings`: {`desired`: [], `cache_seed`: [") in
  let w := append_each (effective_seeds (fa_mdio a) (fa_settings a)) (fun nr '(reg, val) w =>
    let w := reference (append w ((if nr =? 0 then [] else lit ", ") ++ lit "{`resource`: ")) (fa_meta a) reg in
    append w (lit ", `value`: `0x" ++ hexX (format_width a `div` 4) val ++ lit "`}")) w in
  append w (lit "], `apply_on_startup`: false},^  `observability`: {`telemetry`: true, `events`: true}^}^").

(** The status and the text in [out], without its terminator; [*length] is its
    length.  [out] is [None] when it is NULL or [cap] is zero. *)
Definition format (a : format_args) (out : option Z) : bvstk_status_t * chars :=
  match out with
  | None => (BVSTK_ERR_MALFORMED, [])
  | Some cap =>
      if negb (id_valid (fa_name a)) then (BVSTK_ERR_UNSUPPORTED, [])
      else
        let w := format_settings a (format_policy a (format_resources a (format_defaults a (format_options a
                   (format_transport a (format_device a (Writer [] cap false))))))) in
        if w_failed w || (BVSTK_PROFILE_JSON_MAX <? alen (w_text w)) then (BVSTK_ERR_RANGE, [])
        else (BVSTK_OK, w_text w)
  end.

Definition bvstk_device_profile_format_i2c (c : option i2c_device_config_t) (out : option Z) : bvstk_status_t * chars :=
  match bvstk_i2c_config_validate c, c with
  | BVSTK_OK, Some c => format (i2c_args c) out
  | st, _ => (st, [])
  end.

Definition bvstk_device_profile_format_mdio (c : option mdio_phy_config_t) (out : option Z) : bvstk_status_t * chars :=
  match bvstk_mdio_config_validate c, c with
  | BVSTK_OK, Some c => format (mdio_args c) out
  | st, _ => (st, [])
  end.
