(* ===== verification/ProfileText.v ===== *)
(** * ProfileText: texts of the grammar and what the writer produces

    Objects and arrays laid out as the profile writer lays them out, the readers
    of [JsonReader] and [ProfileCodec] on them, and the text an unfailed run of
    the writer's primitives appends. *)
From stdpp Require Import prelude.
From Stdlib Require Import ZArith Lia.
From S2P Require Import Prelude Text Platform I2cDevices ConfigValidate JsonReader JsonGrammar JsonObjects ProfileCodec.
Import String.StringSyntax.
Local Open Scope Z_scope.

(** ** Texts of the grammar are bytes other than NUL *)

Definition char_byte (c : Z) : Prop := 0 < c < 256.


Lemma utf8_chars cp : scalar_value cp -> Forall char_byte (utf8 cp).
Proof.
  intros [Hs _]. destruct (Z_lt_le_dec cp 0x80) as [H|H].
  - rewrite utf8_ascii by lia. constructor; [unfold char_byte; lia|constructor].
  - unfold utf8. rewrite (proj2 (Z.ltb_ge _ _)) by lia.
    assert (forall k, char_byte (0x80 + k mod 64)) as Ht by (intros k; pose proof (Z.mod_pos_bound k 64); unfold char_byte; lia).
    assert (forall a k n, 0 < k -> 0 < a -> cp < k * n -> a + n <= 256 -> char_byte (a + cp `div` k)) as Hl.
    { intros a k n Hk Ha Hlt Hn. pose proof (Z.div_lt_upper_bound cp k n). pose proof (Z.div_pos cp k). unfold char_byte. lia. }
    destruct (cp <? 0x800) eqn:E1; bsimp; [|destruct (cp <? 0x10000) eqn:E2; bsimp].
    + apply Forall_cons_2; [apply (Hl _ _ 32); lia|]. repeat (apply Forall_cons_2; [apply Ht|]). constructor.
    + apply Forall_cons_2; [apply (Hl _ _ 16); lia|]. repeat (apply Forall_cons_2; [apply Ht|]). constructor.
    + apply Forall_cons_2; [apply (Hl _ _ 5); lia|]. repeat (apply Forall_cons_2; [apply Ht|]). constructor.
Qed.

Lemma hex_digit_char_byte c : 0 <= hex_digit c -> char_byte c.
Proof.
  unfold hex_digit, digit, char_byte. destruct (_ && _) eqn:E1; [bsimp; lia|].
  destruct ((97 <=? c) && _) eqn:E2; [bsimp; lia|]. destruct ((65 <=? c) && _) eqn:E3; [bsimp; lia|]. lia.
Qed.

Lemma str_body_chars t v : str_body t v -> Forall char_byte t /\ Forall char_byte v.
Proof.
  assert (char_byte 92 /\ char_byte 117) as [H92 H117] by (unfold char_byte; lia).
  assert (forall h cp, hex_word h cp -> Forall char_byte h) as Hh.
  { intros h cp (_ & Hf & _). eapply Forall_impl; [exact Hf|]. apply hex_digit_char_byte. }
  induction 1 as [|t v ts vs Hi _ [IH1 IH2]]; [by split|]. rewrite !Forall_app.
  assert (Forall char_byte t /\ Forall char_byte v) as [? ?]; [|done].
  destruct Hi as [cp Hs|c v Hin|h cp Hw Hs|h l hi lo Hw1 Hw2 Hhi Hlo].
  - by split; apply utf8_chars.
  - rewrite !elem_of_cons, elem_of_nil in Hin.
    split; repeat destruct Hin as [[= -> ->]|Hin]; try done; repeat constructor; unfold char_byte; lia.
  - split; [|by apply utf8_chars]. constructor; [done|]. constructor; [done|]. by eapply Hh.
  - split; [|apply utf8_chars; unfold scalar_value; lia].
    constructor; [done|]. constructor; [done|]. apply Forall_app. split; [by eapply Hh|].
    constructor; [done|]. constructor; [done|]. by eapply Hh.
Qed.

Lemma quote_chars k v : str_body k v -> Forall char_byte (quote k).
Proof.
  intros Hb. destruct (str_body_chars _ _ Hb). unfold quote. constructor; [unfold char_byte; lia|].
  apply Forall_app. split; [done|]. constructor; [unfold char_byte; lia|constructor].
Qed.

Lemma blank_chars w : blank w -> Forall char_byte w.
Proof.
  intros Hw. eapply Forall_impl; [exact Hw|]. intros c Hc. unfold is_ws, char_byte in *.
  apply orb_true_iff in Hc as [Hc|Hc]; [|bsimp; lia]. apply orb_true_iff in Hc as [Hc|Hc]; [|bsimp; lia].
  apply orb_true_iff in Hc as [Hc|Hc]; bsimp; lia.
Qed.

Lemma digits_chars d : Forall (fun c => digit c = true) d -> Forall char_byte d.
Proof. intros Hd. eapply Forall_impl; [exact Hd|]. intros c Hc. unfold digit, char_byte in *. bsimp. lia. Qed.

Lemma number_text_chars t : number_text t -> Forall char_byte t.
Proof.
  assert (forall c, 0 < c < 256 -> char_byte c) as Hb by done.
  intros [s i f e Hs Hi Hf He]. rewrite !Forall_app. split; [|split; [|split]].
  - destruct Hs as [->| ->]; [constructor|]. repeat constructor; lia.
  - destruct Hi as [->|[[_ Hi] _]]; [|by apply digits_chars]. repeat constructor; lia.
  - destruct Hf as [->|(d & -> & _ & Hd)]; [constructor|]. constructor; [apply Hb; lia|]. by apply digits_chars.
  - destruct He as [->|(m & s' & d & -> & Hm & Hs' & _ & Hd)]; [constructor|].
    constructor; [apply Hb; lia|]. apply Forall_app. split; [|by apply digits_chars].
    destruct Hs' as [->|[->| ->]]; repeat constructor; lia.
Qed.

Lemma element_chars (P : chars -> Prop) object t :
  (forall t, P t -> Forall char_byte t) -> element P object t -> Forall char_byte t.
Proof.
  intros HP [w x w' Hw Hx Hw'|w k v w1 w2 x w' Hw Hk Hw1 Hw2 Hx Hw'].
  - rewrite !Forall_app. auto using blank_chars.
  - rewrite !Forall_app. split; [by apply blank_chars|]. split; [by eapply quote_chars|]. split; [by apply blank_chars|].
    constructor; [unfold char_byte; lia|]. rewrite !Forall_app. auto using blank_chars.
Qed.

Lemma json_text_chars n t : json_text n t -> Forall char_byte t.
Proof.
  revert t. induction n as [|n IH]; intros t Ht.
  all: destruct (json_text_head _ _ Ht) as (_ & _ & _ & _ & _ & [(_ & k & v & -> & Hb)|[(_ & _ & _ & Hs)|(m & object & body & Hm & -> & Hbody)]]).
  1,4: by eapply quote_chars.
  1,3: destruct Hs as [Hs|Hs]; [|by apply number_text_chars];
    rewrite !elem_of_cons, elem_of_nil in Hs; destruct Hs as [->|[->|[->|[]]]];
    (vm_compute; repeat constructor; discriminate).
  - done.
  - injection Hm as ->. constructor; [destruct object; unfold char_byte; cbn; lia|]. apply Forall_app.
    split; [|constructor; [destruct object; unfold char_byte; cbn; lia|constructor]].
    destruct Hbody as [Hbl|Hl]; [by apply blank_chars|].
    induction Hl as [t He|t ts He Hl IHl]; [by eapply element_chars|].
    apply Forall_app. split; [by eapply element_chars|]. constructor; [unfold char_byte; lia|].
    apply IHl. right. right. right. exists object, ts. auto.
Qed.

Lemma char_bytes t : Forall char_byte t -> Forall byte t.
Proof. intros Ht. eapply Forall_impl; [exact Ht|]. unfold char_byte, byte. lia. Qed.

Lemma json_text_bytes n t : json_text n t -> Forall byte t.
Proof. intros Ht. by eapply char_bytes, json_text_chars. Qed.

Lemma quote_bytes k v : str_body k v -> Forall byte (quote k).
Proof. intros Hb. by eapply char_bytes, quote_chars. Qed.

Lemma blank_bytes w : blank w -> Forall byte w.
Proof. intros Hw. by apply char_bytes, blank_chars. Qed.

Lemma chars_clean t : Forall char_byte t -> clean t.
Proof.
  unfold clean. induction 1 as [|c t Hc _ IH]; [done|]. cbn. unfold char_byte in Hc.
  rewrite (proj2 (Z.eqb_neq _ _)) by lia. by rewrite IH.
Qed.

Lemma json_text_mono n m t : (n <= m)%nat -> json_text n t -> json_text m t.
Proof.
  revert m t. induction n as [|n IH]; intros m t Hle Ht.
  all: destruct (json_text_head _ _ Ht) as (_ & _ & _ & _ & _ & [(_ & Hk)|[(_ & _ & _ & Hs)|(k & object & body & Hm & -> & Hbody)]]);
    [destruct m; by left|destruct m; cbn [json_text]; tauto|].
  - done.
  - injection Hm as ->. destruct m as [|m]; [lia|]. right. right. right. exists object, body. split; [done|].
    destruct Hbody as [Hbl|Hl]; [by left|]. right. clear Ht.
    assert (forall t, element (json_text k) object t -> element (json_text m) object t) as He.
    { intros t [w x w' Hw Hx Hw'|w q v w1 w2 x w' Hw Hq Hw1 Hw2 Hx Hw'].
      - constructor; try done. apply IH; [lia|done].
      - econstructor; try done. apply IH; [lia|done]. }
    induction Hl; [apply el_last|apply el_more]; auto.
Qed.

(** ** Plain strings and escaped strings *)

(** Characters that stand for themselves in a string. *)
Definition plain_char (c : Z) : bool := (32 <=? c) && (c <? 127) && negb (c =? 34) && negb (c =? 92).
Definition plain (s : chars) : Prop := Forall (fun c => plain_char c = true) s.

#[export] Instance plain_dec s : Decision (plain s).
Proof. unfold plain. apply _. Defined.

Lemma plain_str_body s : plain s -> str_body s s.
Proof.
  induction 1 as [|c s Hc _ IH]; [constructor|]. unfold plain_char in Hc. bsimp.
  change (c :: s) with ([c] ++ s). rewrite <- (utf8_ascii c) by lia. constructor; [|done].
  apply si_raw; [unfold scalar_value|..]; lia.
Qed.

Lemma plain_printable s : plain s -> Forall printable s.
Proof. intros Hs. eapply Forall_impl; [exact Hs|]. intros c Hc. unfold plain_char, printable in *. bsimp. lia. Qed.

Lemma plain_clean s : plain s -> clean s.
Proof. intros Hs. by eapply str_body_clean, plain_str_body. Qed.

(** What [quoted] writes for a string. *)
Definition escape (s : chars) : chars := s ≫= fun c => if (c =? 34) || (c =? 92) then [92; c] else [c].

Lemma escape_plain s : plain s -> escape s = s.
Proof.
  induction 1 as [|c s Hc _ IH]; [done|]. unfold escape in *. cbn. rewrite IH. unfold plain_char in Hc. bsimp.
  by rewrite !(proj2 (Z.eqb_neq _ _)) by lia.
Qed.

(** Well-formed UTF-8 without NUL. *)
Inductive utf8_text : chars -> Prop :=
  | ut_nil : utf8_text []
  | ut_cons cp s : scalar_value cp -> utf8_text s -> utf8_text (utf8 cp ++ s).

Lemma escape_app a b : escape (a ++ b) = escape a ++ escape b.
Proof. unfold escape. apply bind_app. Qed.

Lemma utf8_high cp c : 0x80 <= cp -> scalar_value cp -> c ∈ utf8 cp -> 0x80 <= c.
Proof.
  intros Hcp [Hs _]. unfold utf8. rewrite (proj2 (Z.ltb_ge _ _)) by lia.
  assert (forall k, 0x80 <= 0x80 + k mod 64) as Ht by (intros k; pose proof (Z.mod_pos_bound k 64); lia).
  assert (forall a k, 0x80 <= a -> 0 < k -> 0x80 <= a + cp `div` k) as Hl by (intros a k; pose proof (Z.div_pos cp k); lia).
  repeat destruct (_ <? _); rewrite !elem_of_cons, elem_of_nil; intros Hc;
    repeat destruct Hc as [->|Hc]; try done; (apply Ht || (apply Hl; lia)).
Qed.

Lemma escape_body s : utf8_text s -> Forall printable s -> str_body (escape s) s.
Proof.
  induction 1 as [|cp s Hs _ IH]; intros Hp; [constructor|].
  apply Forall_app in Hp as [Hp1 Hp2]. rewrite escape_app. constructor; [|by apply IH].
  destruct (Z_lt_le_dec cp 0x80) as [Hlow|Hhigh].
  - rewrite utf8_ascii in Hp1 |- * by (unfold scalar_value in Hs; lia). inversion_clear Hp1 as [|? ? [H32 H127] _].
    unfold escape. cbn. destruct (Z.eqb_spec cp 34) as [->|]; [apply si_escape; set_solver|].
    destruct (Z.eqb_spec cp 92) as [->|]; [apply si_escape; set_solver|]. cbn.
    rewrite <- (utf8_ascii cp) by (unfold scalar_value in Hs; lia). by apply si_raw.
  - assert (escape (utf8 cp) = utf8 cp) as ->; [|apply si_raw; done || lia].
    assert (forall l, (forall c, c ∈ l -> 0x80 <= c) -> escape l = l) as Hesc.
    { clear. induction l as [|c l IH]; intros Hl; [done|]. unfold escape in *. cbn.
      assert (0x80 <= c) by (apply Hl; set_solver). rewrite !(proj2 (Z.eqb_neq _ _)) by lia. cbn.
      rewrite IH; [done|]. set_solver. }
    apply Hesc. intros c. by apply utf8_high.
Qed.

Lemma plain_utf8 s : plain s -> utf8_text s.
Proof.
  induction 1 as [|c s Hc _ IH]; [constructor|]. unfold plain_char in Hc. bsimp.
  change (c :: s) with ([c] ++ s). rewrite <- (utf8_ascii c) by lia. constructor; [unfold scalar_value; lia|done].
Qed.

(** ** Laid-out objects and arrays *)

Fixpoint intercalate (sep : chars) (ts : list chars) : chars :=
  match ts with
  | [] => []
  | [t] => t
  | t :: ts => t ++ sep ++ intercalate sep ts
  end.

Definition member (m : chars * chars) : chars := quote m.1 ++ 58 :: 32 :: m.2.

Definition obj (open sep close : chars) (ms : list (chars * chars)) : chars :=
  123 :: open ++ intercalate (44 :: sep) (member <$> ms) ++ close ++ [125].
Definition arr (open sep close : chars) (ts : list chars) : chars :=
  91 :: open ++ intercalate (44 :: sep) ts ++ close ++ [93].

Definition plain_members (n : nat) (ms : list (chars * chars)) : Prop :=
  Forall (fun m => plain m.1 /\ json_text n m.2) ms.

Lemma blank_space : blank [32].
Proof. by repeat constructor. Qed.

Lemma members_laid_out n w sep close ms :
  (n <= 15)%nat -> ms <> [] -> blank w -> blank sep -> blank close -> plain_members n ms ->
  members_text ms (w ++ intercalate (44 :: sep) (member <$> ms) ++ close).
Proof.
  intros Hn Hne Hw Hsep Hcl Hms. revert w Hw. induction Hms as [|[k t] ms [Hk Ht] Hms IH]; intros w Hw; [done|].
  cbn [fst snd] in Hk, Ht. apply (json_text_mono _ 15) in Ht; [|done].
  destruct ms as [|m ms].
  - cbn [fmap list_fmap intercalate]. unfold member. cbn [fst snd].
    assert (w ++ (quote k ++ 58 :: 32 :: t) ++ close = w ++ quote k ++ [] ++ 58 :: [32] ++ t ++ close) as ->
      by (cbn [app]; rewrite <- !app_assoc; done).
    apply mt_one; try done; [by apply plain_str_body|constructor|apply blank_space].
  - set (rest := sep ++ intercalate (44 :: sep) (member <$> m :: ms) ++ close).
    assert (w ++ intercalate (44 :: sep) (member <$> (k, t) :: m :: ms) ++ close =
      w ++ quote k ++ [] ++ 58 :: [32] ++ t ++ [] ++ 44 :: rest) as ->.
    { cbn [fmap list_fmap intercalate]. unfold member at 1, rest. cbn [fst snd app]. rewrite <- !app_assoc. cbn [app].
      rewrite <- ?app_assoc. cbn [app]. by rewrite <- ?app_assoc. }
    apply mt_more; try done; [by apply plain_str_body|constructor|apply blank_space|constructor|]. by apply IH.
Qed.

Lemma obj_text n open sep close ms :
  (n <= 15)%nat -> blank open -> blank sep -> blank close -> plain_members n ms -> object_text ms (obj open sep close ms).
Proof.
  intros Hn Ho Hs Hc Hms. unfold obj. exists (open ++ intercalate (44 :: sep) (member <$> ms) ++ close).
  split; [by rewrite <- !app_assoc|]. destruct ms as [|m ms].
  - left. split; [done|]. by apply Forall_app.
  - right. by apply members_laid_out with n.
Qed.

Lemma element_blank_r P object t w : blank w -> element P object t -> element P object (t ++ w).
Proof.
  intros Hw He. destruct He as [w0 t w' H0 Ht H'|w0 k v w1 w2 t w' H0 Hk H1 H2 Ht H'].
  - rewrite <- !app_assoc. constructor; [done|done|]. by apply Forall_app.
  - assert ((w0 ++ quote k ++ w1 ++ 58 :: w2 ++ t ++ w') ++ w = w0 ++ quote k ++ w1 ++ 58 :: w2 ++ t ++ w' ++ w) as ->
      by (rewrite <- !app_assoc; cbn [app]; by rewrite <- !app_assoc).
    econstructor; try done. by apply Forall_app.
Qed.

Lemma elements_laid_out P object w sep close es :
  es <> [] -> blank w -> blank sep -> blank close -> Forall (element P object) es ->
  element_list P object (w ++ intercalate (44 :: sep) es ++ close).
Proof.
  intros Hne Hw Hs Hc Hes. revert w Hw. induction Hes as [|e es He Hes IH]; intros w Hw; [done|].
  destruct es as [|e' es].
  - cbn [intercalate]. apply el_last. apply element_blank; [done|]. by apply element_blank_r.
  - cbn [intercalate]. rewrite <- !app_assoc. cbn [app]. rewrite app_assoc. apply el_more; [by apply element_blank|].
    by apply IH.
Qed.

Lemma list_json n object open sep close es :
  blank open -> blank sep -> blank close -> Forall (element (json_text n) object) es ->
  json_text (S n) (opening object :: open ++ intercalate (44 :: sep) es ++ close ++ [closing object]).
Proof.
  intros Ho Hs Hc Hes. right. right. right.
  exists object, (open ++ intercalate (44 :: sep) es ++ close).
  split; [by rewrite <- !app_assoc|].
  destruct es as [|e es]; [left; by apply Forall_app|right]. by apply elements_laid_out.
Qed.

Lemma obj_json n open sep close ms :
  blank open -> blank sep -> blank close -> plain_members n ms -> json_text (S n) (obj open sep close ms).
Proof.
  intros Ho Hs Hc Hms. apply (list_json n true); try done. apply Forall_fmap.
  eapply Forall_impl; [exact Hms|]. intros [k t] [Hk Ht]. cbn [fst snd] in *.
  change (compose (element (json_text n) true) member (k, t)) with (element (json_text n) true (member (k, t))).
  unfold member. cbn [fst snd].
  assert (quote k ++ 58 :: 32 :: t = [] ++ quote k ++ [] ++ 58 :: [32] ++ t ++ []) as ->
    by (cbn [app]; by rewrite app_nil_r).
  apply element_member with k; try constructor; try done. by apply plain_str_body.
Qed.

Lemma arr_json n open sep close ts :
  blank open -> blank sep -> blank close -> Forall (json_text n) ts -> json_text (S n) (arr open sep close ts).
Proof.
  intros Ho Hs Hc Hts. apply (list_json n false); try done.
  eapply Forall_impl; [exact Hts|]. intros t Ht. rewrite <- (app_nil_l t), <- (app_nil_r t).
  by constructor; [constructor| |constructor].
Qed.

(** Reading the members of a laid-out object back. *)
Lemma fields_obj n keys open sep close ms :
  (n <= 15)%nat -> blank open -> blank sep -> blank close -> plain_members n ms ->
  NoDup keys -> Forall clean keys -> alen keys <= 64 ->
  NoDup (fst <$> ms) -> Forall (fun m => m.1 ∈ keys /\ alen m.1 < 64) ms ->
  fields (Some (obj open sep close ms)) keys = Some ((fun k => member_of k ms) <$> keys).
Proof.
  intros Hn Ho Hs Hc Hms Hnd Hcl Hlen Hnm Hin. apply fields_iff; try done.
  - eapply json_text_bytes. by apply (obj_json n).
  - exists ms. split; [by apply (obj_text n)|]. done.
Qed.

(** ** Loops over a laid-out array *)

Fixpoint fold_items {S} (body : chars -> S -> parsed S) (ts : list chars) (s : S) : parsed S :=
  match ts with
  | [] => inl s
  | t :: ts => match body t s with inl s => fold_items body ts s | inr e => inr e end
  end.

Lemma item_at_value w t r :
  blank w -> json_text 15 t -> follow r -> Forall byte (t ++ r) -> item_at (w ++ t ++ r) = Item r t.
Proof.
  intros Hw Ht Hf Hb. unfold item_at. rewrite ws_app_blank, (json_text_ws 15) by done.
  assert (is_head 93 (t ++ r) = false) as ->.
  { destruct (json_text_head _ _ Ht) as (c & q & -> & _ & Hc & _). cbn. by apply Z.eqb_neq. }
  rewrite <- (app_nil_l (t ++ r)), (value_complete 1 [] t r); [|done|constructor|done|done].
  cbn [app]. by rewrite upto_app.
Qed.

Lemma item_loop_arr {S} (fuel : nat) a sep close ts (body : chars -> S -> parsed S) s :
  blank sep -> blank close -> Forall (json_text 15) ts -> (length ts < fuel)%nat ->
  item_loop fuel (Some a) (Some (concat ((fun t => 44 :: sep ++ t) <$> ts) ++ close ++ [93])) body s = fold_items body ts s.
Proof.
  intros Hsep Hcl Hts. revert fuel s. induction Hts as [|t ts Ht Hts IH]; intros fuel s Hf.
  - destruct fuel as [|fuel]; [lia|]. cbn. rewrite ws_app_blank by done. done.
  - destruct fuel as [|fuel]; [cbn in Hf; lia|]. cbn [fmap list_fmap concat item_loop item fold_items].
    rewrite <- app_assoc. cbn [app ws]. change (is_ws 44) with false. cbn iota. cbn [is_head]. change (44 =? 44) with true. cbn iota.
    rewrite <- (app_assoc sep). cbn [drop]. rewrite drop_0.
    assert (Forall byte (t ++ concat ((fun t => 44 :: sep ++ t) <$> ts) ++ close ++ [93]) /\
      follow (concat ((fun t => 44 :: sep ++ t) <$> ts) ++ close ++ [93])) as [Hb Hfo].
    { split.
      - rewrite !Forall_app. split; [by eapply json_text_bytes|]. split.
        + clear -Hts Hsep. induction Hts as [|t ts Ht Hts IH]; [constructor|]. cbn [fmap list_fmap concat].
          apply Forall_app. split; [|done]. constructor; [unfold byte; lia|]. apply Forall_app.
          split; [by apply blank_bytes|by eapply json_text_bytes].
        + split; [by apply blank_bytes|]. constructor; [unfold byte; lia|constructor].
      - destruct ts; cbn [fmap list_fmap concat app]; [|cbn; auto]. apply follow_blank; [done|]. cbn. auto. }
    rewrite (item_at_value sep t) by done. destruct (body t s) as [s'|e]; [|done]. apply IH. cbn in Hf. lia.
Qed.

Lemma intercalate_concat sep t ts :
  intercalate sep (t :: ts) = t ++ concat ((fun u => sep ++ u) <$> ts).
Proof.
  revert t. induction ts as [|u ts IH]; intros t; [cbn; by rewrite app_nil_r|].
  cbn [intercalate fmap list_fmap concat]. f_equal. rewrite <- app_assoc. f_equal. apply IH.
Qed.

Lemma length_concat_items (sep : chars) (ts : list chars) :
  (length ts <= length (concat ((fun t => 44%Z :: sep ++ t) <$> ts)))%nat.
Proof. induction ts as [|t ts IH]; [done|]. cbn. rewrite !length_app. lia. Qed.

Lemma for_items_arr {S} open sep close ts (body : chars -> S -> parsed S) s :
  blank open -> blank sep -> blank close -> Forall (json_text 14) ts ->
  for_items (Some (arr open sep close ts)) body s = fold_items body ts s.
Proof.
  intros Ho Hsep Hcl Hts. unfold for_items. pose proof (arr_json 14 open sep close ts Ho Hsep Hcl Hts) as Hj.
  apply json_text_bytes in Hj. assert (Forall (json_text 15) ts) as Hts'.
  { eapply Forall_impl; [exact Hts|]. intros t. apply json_text_mono. lia. }
  destruct ts as [|t ts].
  - unfold arr. cbn [intercalate app item_loop item]. change (91 =? 91) with true. cbn iota.
    unfold item_at. rewrite app_assoc, ws_app_blank by (by apply Forall_app). done.
  - assert (arr open sep close (t :: ts) =
      91 :: open ++ t ++ concat ((fun t => 44 :: sep ++ t) <$> ts) ++ close ++ [93]) as Heq.
    { unfold arr. rewrite intercalate_concat. by rewrite <- app_assoc. }
    rewrite Heq in Hj |- *. cbn [item_loop item]. change (91 =? 91) with true. cbn iota.
    inversion_clear Hts' as [|? ? Ht Hts'']. inversion_clear Hj as [|? ? _ Hb]. apply Forall_app_r in Hb.
    rewrite item_at_value; [|done|done| |done].
    2: { destruct ts; cbn [fmap list_fmap concat app]; [|cbn; auto]. apply follow_blank; [done|]. cbn. auto. }
    cbn [fold_items]. destruct (body t s) as [s'|e]; [|done]. rewrite <- Heq.
    apply item_loop_arr; try done. rewrite Heq. cbn [length]. rewrite !length_app.
    pose proof (length_concat_items sep ts). lia.
Qed.

Lemma for_items_absent {S} (body : chars -> S -> parsed S) s : for_items None body s = inl s.
Proof. done. Qed.

Lemma empty_array_arr : empty_array (Some (lit "[]")) = true.
Proof. done. Qed.

(** ** The writer *)

(** An unfailed run appends [t], and then [P] holds. *)
Definition writes (f : writer_t -> writer_t) (t : chars) (P : Prop) : Prop :=
  forall w, w_failed (f w) = false -> w_failed w = false /\ w_text (f w) = w_text w ++ t /\ P.

Lemma writes_append s : writes (fun w => append w s) s True.
Proof.
  intros w. unfold append. destruct (w_failed w) eqn:E; [congruence|].
  destruct (_ <=? _); [done|]. cbn. done.
Qed.

Lemma writes_id : writes (fun w => w) [] True.
Proof. intros w Hw. by rewrite app_nil_r. Qed.

Lemma writes_then f g t u P Q :
  writes f t P -> writes g u Q -> writes (fun w => g (f w)) (t ++ u) (P /\ Q).
Proof.
  intros Hf Hg w Hw. destruct (Hg _ Hw) as (H1 & H2 & HQ). destruct (Hf _ H1) as (H3 & H4 & HP).
  split; [done|]. split; [|done]. by rewrite H2, H4, app_assoc.
Qed.

Lemma writes_mono f t t' (P P' : Prop) : writes f t P -> t = t' -> (P -> P') -> writes f t' P'.
Proof. intros Hf <- HP w Hw. destruct (Hf w Hw) as (? & ? & ?). auto. Qed.

Lemma writes_if (b : bool) f g t u P Q :
  writes f t P -> writes g u Q ->
  writes (fun w => if b then f w else g w) (if b then t else u) (if b then P else Q).
Proof. by destruct b. Qed.

Lemma writes_quoted s :
  writes (fun w => quoted w s) (quote (escape (cstr s))) (Forall printable (cstr s)).
Proof.
  intros w. unfold quoted.
  assert (forall p w, w_failed (quoted_loop w p) = false ->
    w_failed w = false /\ w_text (quoted_loop w p) = w_text w ++ escape p ++ [34] /\ Forall printable p) as Hloop.
  { clear. induction p as [|c p IH]; intros w; cbn [quoted_loop].
    { intros Hw. destruct (writes_append _ _ Hw) as (? & ? & _). split; [done|]. split; [done|]. constructor. }
    destruct ((c <? 32) || (c =? 127)) eqn:Ec; [done|]. bsimp.
    assert (forall x, w_failed (quoted_loop (append w x) p) = false ->
      x = (if (c =? 34) || (c =? 92) then [92; c] else [c]) ->
      w_failed w = false /\ w_text (quoted_loop (append w x) p) = w_text w ++ escape (c :: p) ++ [34] /\
      Forall printable (c :: p)) as Hstep.
    { intros x Hw Hx. destruct (IH _ Hw) as (H1 & H2 & H3). destruct (writes_append _ _ H1) as (H4 & H5 & _).
      split; [done|]. split; [|by constructor]. rewrite H2, H5. unfold escape. cbn [mbind list_bind]. rewrite <- Hx.
      by rewrite <- !app_assoc. }
    destruct ((c =? 34) || (c =? 92)); intros Hw; by apply Hstep. }
  intros Hw. destruct (Hloop _ _ Hw) as (H1 & H2 & H3). destruct (writes_append _ _ H1) as (H4 & H5 & _).
  split; [done|]. split; [|done]. rewrite H2, H5. by rewrite <- app_assoc.
Qed.

(** Loops. *)
Fixpoint each_text {A} (i : Z) (txt : Z -> A -> chars) (l : list A) : chars :=
  match l with [] => [] | a :: l => txt i a ++ each_text (i + 1) txt l end.

Lemma writes_append_each {A} (l : list A) f txt (P : A -> Prop) :
  (forall i a, a ∈ l -> writes (f i a) (txt i a) (P a)) -> writes (append_each l f) (each_text 0 txt l) (Forall P l).
Proof.
  intros Hf w. unfold append_each. revert Hf.
  assert (forall i w, (forall i a, a ∈ l -> writes (f i a) (txt i a) (P a)) ->
    let w' := snd (foldl (fun '(i, w) a => (i + 1, f i a w)) (i, w) l) in
    w_failed w' = false -> w_failed w = false /\ w_text w' = w_text w ++ each_text i txt l /\ Forall P l) as H; [|by apply H].
  clear w. induction l as [|a l IH]; intros i w Hf; cbn [foldl each_text].
  { cbn. intros Hw. rewrite app_nil_r. auto. }
  cbn zeta. intros Hw. destruct (IH (i + 1) (f i a w)) as (H1 & H2 & H3); [intros j b Hb; apply Hf, elem_of_cons; by right|done|].
  destruct (Hf i a ltac:(apply elem_of_cons; by left) w H1) as (H4 & H5 & H6). split; [done|]. split; [|by constructor].
  rewrite H2, H5. by rewrite app_assoc.
Qed.

Lemma writes_for_each n lo f txt :
  (forall i, lo <= i < lo + Z.of_nat n -> writes (f i) (txt i) True) ->
  writes (for_each n lo f) (concat (txt <$> seqZ lo (Z.of_nat n))) True.
Proof.
  revert lo. induction n as [|n IH]; intros lo Hf; cbn [for_each]; [apply writes_id|].
  rewrite seqZ_cons by lia. cbn [fmap list_fmap concat].
  replace (Z.pred (Z.of_nat (S n))) with (Z.of_nat n) by lia.
  apply (writes_mono (fun w => for_each n (Z.succ lo) f (f lo w)) (txt lo ++ concat (txt <$> seqZ (Z.succ lo) (Z.of_nat n)))
    _ (True /\ True)); [|done|done].
  apply writes_then; [apply Hf; lia|]. apply IH. intros i Hi. apply Hf. lia.
Qed.

(** Items separated by commas. *)
Lemma each_text_comma {A} (item : A -> chars) (l : list A) :
  each_text 0 (fun i a => (if i =? 0 then [] else lit ", ") ++ item a) l = intercalate (lit ", ") (item <$> l).
Proof.
  destruct l as [|a l]; [done|]. cbn [each_text fmap list_fmap]. rewrite intercalate_concat. f_equal.
  assert (forall i, 0 < i -> each_text i (fun i a => (if i =? 0 then [] else lit ", ") ++ item a) l =
    concat ((fun u => lit ", " ++ u) <$> (item <$> l))) as H; [|by apply H].
  induction l as [|b l IH]; intros i Hi; [done|]. cbn [each_text fmap list_fmap concat].
  rewrite (proj2 (Z.eqb_neq i 0)) by lia. rewrite IH by lia. done.
Qed.

(** One item a line, the last without its comma. *)
Lemma lines_text (item : Z -> chars) lo n :
  concat ((fun i => lit "    " ++ item i ++ (if i + 1 =? lo + n then [] else lit ",") ++ lit "^") <$> seqZ lo n) =
  if n <=? 0 then [] else lit "    " ++ intercalate (lit ",^    ") (item <$> seqZ lo n) ++ lit "^".
Proof.
  destruct (Z.leb_spec n 0) as [|Hn]; [by rewrite seqZ_nil|].
  replace n with (Z.of_nat (Z.to_nat n)) by lia. assert (1 <= Z.to_nat n)%nat as Hm by lia. revert Hm.
  generalize (Z.to_nat n) as m. clear n Hn. intros m. revert lo. induction m as [|m IH]; intros lo Hm; [lia|].
  destruct m as [|m].
  - cbn [seqZ]. rewrite !seqZ_cons, !seqZ_nil by lia. cbn [fmap list_fmap concat intercalate].
    rewrite (proj2 (Z.eqb_eq _ _)) by lia. by rewrite app_nil_r.
  - rewrite !(seqZ_cons lo) by lia. replace (Z.pred (Z.of_nat (S (S m)))) with (Z.of_nat (S m)) by lia.
    cbn [fmap list_fmap concat]. rewrite (proj2 (Z.eqb_neq _ _)) by lia.
    specialize (IH (Z.succ lo) ltac:(lia)).
    replace (Z.succ lo + Z.of_nat (S m)) with (lo + Z.of_nat (S (S m))) in IH by lia. rewrite IH.
    rewrite (seqZ_cons (Z.succ lo)) by lia. cbn [fmap list_fmap intercalate].
    by rewrite <- !app_assoc.
Qed.
