(* ===== verification/ProfileFormat.v ===== *)
(** * ProfileFormat: the canonical text of a profile

    The text [format] produces, as a laid-out JSON object: the writer of
    [ProfileCodec] is a sequence of fragments that do not respect the structure
    of the object; an unfailed run of it is exactly [profile_text]. *)
From stdpp Require Import prelude.
From Stdlib Require Import ZArith Lia.
From S2P Require Import Prelude Text Platform I2cDevices ConfigValidate JsonReader JsonGrammar JsonObjects ProfileCodec ProfileText.
Import String.StringSyntax.
Local Open Scope Z_scope.

(** ** The parts of the text *)

Definition spaced (ms : list (chars * chars)) : chars := obj [] [32] [] ms.
Definition spaced_list (ts : list chars) : chars := arr [] [32] [] ts.
Definition optional (b : bool) (m : chars * chars) : list (chars * chars) := if b then [m] else [].
Definition text_value (s : chars) : chars := quote (escape (cstr s)).
Definition hex_value (width n : Z) : chars := quote (lit "0x" ++ hexX width n).

(** Literals computed, appends to the right: two layouts of one text coincide. *)
Ltac text_norm :=
  repeat match goal with |- context [lit ?s] => let v := eval vm_compute in (lit s) in change (lit s) with v end;
  repeat first [rewrite <- app_assoc | progress cbn [app]].

Section parts.
Context (a : format_args).
Let meta := fa_meta a.
Let v2 := truth (pf_version meta).
Let bus := if fa_mdio a then lit "mdio" else lit "i2c".
Let n := format_width a `div` 4.

Definition resource_name (i : Z) : chars := text_value (resource_id meta i).

Definition device_text : chars := spaced (
  [(lit "model", text_value (if v2 then pf_model meta else fa_name a));
   (lit "class", text_value (if v2 then pf_device_class meta else if fa_mdio a then lit "phy" else lit "generic"))] ++
  optional (v2 && truth ((pf_vendor meta).[0])) (lit "vendor", text_value (pf_vendor meta)) ++
  optional (v2 && truth ((pf_label meta).[0])) (lit "label", text_value (pf_label meta))).

Definition transport_text : chars := spaced (
  [(lit "bus", quote bus); (lit "controller", quote (lit "pl_" ++ bus ++ lit "_0"));
   (lit "address", hex_value 2 (fa_address a))] ++ optional (negb (fa_mdio a)) (lit "address_bits", lit "7")).

Definition options_text : chars := spaced (
  if fa_mdio a then
    [(lit "autopoll_enabled", if fa_autopoll_enabled a then lit "true" else lit "false");
     (lit "autopoll_reg_delay_ms", dec (fa_reg_delay_ms a)); (lit "autopoll_cycle_delay_ms", dec (fa_cycle_delay_ms a));
     (lit "autopoll_order", spaced_list (resource_name <$> fa_autopoll a))]
  else [(lit "max_write_value", hex_value 2 (fa_max_value_code a)); (lit "capture_cache_on_save", lit "true")]).

Definition protocol_text : chars :=
  spaced [(lit "driver", quote (lit "bvstk_" ++ bus ++ lit "_bridge")); (lit "options", options_text)].

Definition driver_text : chars := spaced [(lit "mode", quote (lit "driver"))].

Definition defaults_text : chars := spaced [(lit "register", spaced
  [(lit "width_bits", dec (format_width a)); (lit "access", quote (lit "rw"));
   (lit "write_mask", hex_value n (if fa_mdio a then 65535 else 255));
   (lit "cache", driver_text); (lit "verify", driver_text)])].

Definition resource_text (i : Z) : chars :=
  spaced [(lit "id", resource_name i); (lit "kind", quote (lit "register")); (lit "address", hex_value 2 i)].

Definition resources_text : chars :=
  arr (lit "^    ") (lit "^    ") (lit "^  ") (resource_text <$> seqZ 0 (fa_count a)).

Definition rule_text (r : Z * Z * Z) : chars :=
  let '(reg, val, mask) := r in
  spaced [(lit "resource", resource_name reg); (lit "match", spaced [(lit "value", hex_value n val); (lit "mask", hex_value n mask)])].

Definition policy_text : chars := spaced
  [(lit "read", spaced [(lit "mode", quote (lit "blacklist")); (lit "rules", lit "[]")]);
   (lit "write", spaced
     [(lit "mode", quote (if fa_black a then lit "blacklist" else lit "whitelist"));
      (lit "rules", spaced_list (rule_text <$> (if fa_black a then fa_black_rules a else fa_white a)));
      (lit "inactive_rules", spaced_list (rule_text <$> (if fa_black a then fa_white a else fa_black_rules a)))])].

Definition seed_text (s : Z * Z) : chars :=
  spaced [(lit "resource", resource_name s.1); (lit "value", hex_value n s.2)].

Definition settings_text : chars := spaced
  [(lit "desired", lit "[]");
   (lit "cache_seed", spaced_list (seed_text <$> effective_seeds (fa_mdio a) (fa_settings a)));
   (lit "apply_on_startup", lit "false")].

Definition observability_text : chars := spaced [(lit "telemetry", lit "true"); (lit "events", lit "true")].

Definition profile_members : list (chars * chars) :=
  [(lit "schema_version", lit "2"); (lit "id", text_value (fa_name a))] ++
  optional (truth ((pf_register_map meta).[0])) (lit "register_map", text_value (pf_register_map meta)) ++
  optional (truth ((pf_view meta).[0])) (lit "view", text_value (pf_view meta)) ++
  [(lit "device", device_text); (lit "transport", transport_text); (lit "protocol", protocol_text);
   (lit "defaults", defaults_text); (lit "resources", resources_text); (lit "policy", policy_text);
   (lit "settings", settings_text); (lit "observability", observability_text)].

Definition profile_text : chars := obj (lit "^  ") (lit "^  ") (lit "^") profile_members.

(** ** What the writer appends, fragment by fragment *)

Definition names_printable : Prop :=
  Forall printable (cstr (fa_name a)) /\
  (v2 = true -> Forall printable (cstr (pf_model meta)) /\
     ((pf_vendor meta).[0] <> 0 -> Forall printable (cstr (pf_vendor meta))) /\
     ((pf_label meta).[0] <> 0 -> Forall printable (cstr (pf_label meta)))).

Lemma writes_quoted_after (s t : chars) : writes (fun w => quoted (append w t) s) (t ++ text_value s) (Forall printable (cstr s)).
Proof.
  eapply writes_mono; [apply (writes_then _ _ _ _ _ _ (writes_append t) (writes_quoted s))|done|]. by intros [_ ?].
Qed.

Lemma writes_optional (b : bool) (s t : chars) :
  writes (fun w => if b then quoted (append w t) s else w) (if b then t ++ text_value s else [])
    (b = true -> Forall printable (cstr s)).
Proof.
  destruct b; [|by eapply writes_mono; [apply writes_id|done|]].
  eapply writes_mono; [apply writes_quoted_after|done|]. auto.
Qed.

Lemma writes_reference_after (i : Z) (t : chars) : writes (fun w => reference (append w t) meta i) (t ++ resource_name i) True.
Proof. eapply writes_mono; [apply writes_quoted_after|done|done]. Qed.

Definition device_fragment : chars :=
  lit "{^  `schema_version`: 2,^  `id`: " ++ text_value (fa_name a) ++
  (if truth ((pf_register_map meta).[0]) then lit ",^  `register_map`: " ++ text_value (pf_register_map meta) else []) ++
  (if truth ((pf_view meta).[0]) then lit ",^  `view`: " ++ text_value (pf_view meta) else []) ++
  lit ",^  `device`: {`model`: " ++ text_value (if v2 then pf_model meta else fa_name a) ++
  lit ", `class`: " ++ text_value (if v2 then pf_device_class meta else if fa_mdio a then lit "phy" else lit "generic") ++
  (if v2 && truth ((pf_vendor meta).[0]) then lit ", `vendor`: " ++ text_value (pf_vendor meta) else []) ++
  (if v2 && truth ((pf_label meta).[0]) then lit ", `label`: " ++ text_value (pf_label meta) else []).

Lemma writes_device : writes (format_device a) device_fragment names_printable.
Proof.
  unfold format_device. fold meta v2.
  pose proof (writes_then _ _ _ _ _ _ (writes_quoted_after (fa_name a) (lit "{^  `schema_version`: 2,^  `id`: "))
    (writes_optional (truth ((pf_register_map meta).[0])) (pf_register_map meta) (lit ",^  `register_map`: "))) as W.
  pose proof (writes_then _ _ _ _ _ _ W
    (writes_optional (truth ((pf_view meta).[0])) (pf_view meta) (lit ",^  `view`: "))) as W1.
  pose proof (writes_then _ _ _ _ _ _ W1
    (writes_quoted_after (if v2 then pf_model meta else fa_name a) (lit ",^  `device`: {`model`: "))) as W2.
  pose proof (writes_then _ _ _ _ _ _ W2
    (writes_quoted_after (if v2 then pf_device_class meta else if fa_mdio a then lit "phy" else lit "generic") (lit ", `class`: "))) as W3.
  pose proof (writes_then _ _ _ _ _ _ W3
    (writes_optional (v2 && truth ((pf_vendor meta).[0])) (pf_vendor meta) (lit ", `vendor`: "))) as W4.
  pose proof (writes_then _ _ _ _ _ _ W4
    (writes_optional (v2 && truth ((pf_label meta).[0])) (pf_label meta) (lit ", `label`: "))) as W5.
  eapply writes_mono; [exact W5| |].
  - unfold device_fragment. by rewrite <- !app_assoc.
  - intros ((((((H1 & _) & _) & H2) & _) & H3) & H4). split; [done|]. intros Hv. rewrite Hv in H2, H3, H4.
    split; [done|]. split; intros Hne; [apply H3|apply H4]; apply andb_true_iff; split; try done;
      unfold truth; by rewrite (proj2 (Z.eqb_neq _ _)).
Qed.

Definition transport_fragment : chars :=
  lit "},^  `transport`: {`bus`: `" ++ bus ++ lit "`, `controller`: `pl_" ++ bus ++ lit "_0`, `address`: `0x" ++
  hexX 2 (fa_address a) ++ lit "`" ++ (if fa_mdio a then [] else lit ", `address_bits`: 7") ++ lit "},^" ++
  lit "  `protocol`: {`driver`: `bvstk_" ++ bus ++ lit "_bridge`, `options`: {".

Lemma writes_transport : writes (format_transport a) transport_fragment True.
Proof.
  eapply writes_mono; [apply (writes_then _ _ _ _ _ _ (writes_append _) (writes_append _))| |done].
  unfold transport_fragment, bus. by rewrite <- !app_assoc.
Qed.

Definition options_fragment : chars :=
  if fa_mdio a then
    lit "`autopoll_enabled`: " ++ (if fa_autopoll_enabled a then lit "true" else lit "false") ++
    lit ", `autopoll_reg_delay_ms`: " ++ dec (fa_reg_delay_ms a) ++
    lit ", `autopoll_cycle_delay_ms`: " ++ dec (fa_cycle_delay_ms a) ++ lit ", `autopoll_order`: [" ++
    intercalate (lit ", ") (resource_name <$> fa_autopoll a) ++ lit "]"
  else lit "`max_write_value`: `0x" ++ hexX 2 (fa_max_value_code a) ++ lit "`, `capture_cache_on_save`: true".

Lemma writes_options : writes (format_options a) options_fragment True.
Proof.
  unfold format_options, options_fragment. destruct (fa_mdio a); [|apply writes_append].
  assert (forall i reg, reg ∈ fa_autopoll a -> writes (fun w => reference (if i =? 0 then w else append w (lit ", ")) meta reg)
    ((if i =? 0 then [] else lit ", ") ++ resource_name reg) True) as Hitem.
  { intros i reg _. destruct (i =? 0); [|apply writes_reference_after].
    eapply writes_mono; [apply writes_quoted|done|done]. }
  eapply writes_mono; [apply (writes_then _ _ _ _ _ _ (writes_then _ _ _ _ _ _ (writes_append _)
    (writes_append_each _ _ _ _ Hitem)) (writes_append _))| |done].
  rewrite each_text_comma. by rewrite <- !app_assoc.
Qed.

Lemma writes_resources :
  0 < fa_count a ->
  writes (format_resources a)
    (lit "    " ++ intercalate (lit ",^    ") (resource_text <$> seqZ 0 (fa_count a)) ++ lit "^") True.
Proof.
  intros Hc. pose proof (lines_text resource_text 0 (fa_count a)) as Hl. rewrite (proj2 (Z.leb_gt _ _)) in Hl by done.
  rewrite <- Hl. unfold format_resources.
  assert (forall i, 0 <= i < 0 + Z.of_nat (Z.to_nat (fa_count a)) ->
    writes (fun w => let w := reference (append w (lit "    {`id`: ")) (fa_meta a) i in
      append w (lit ", `kind`: `register`, `address`: `0x" ++ hexX 2 i ++ lit "`}" ++
      (if i + 1 =? fa_count a then [] else lit ",") ++ lit "^"))
    (lit "    " ++ resource_text i ++ (if i + 1 =? 0 + fa_count a then [] else lit ",") ++ lit "^") True) as Hitem.
  { intros i _.
    eapply writes_mono; [apply (writes_then _ _ _ _ _ _ (writes_reference_after i _) (writes_append _))| |done].
    unfold resource_text, spaced, obj, hex_value. cbn [fmap list_fmap intercalate]. unfold member, quote. cbn [fst snd].
    rewrite Z.add_0_l. text_norm. done. }
  apply writes_for_each in Hitem. rewrite Z2Nat.id in Hitem by lia. exact Hitem.
Qed.

Definition rules_fragment (key : chars) (rules : list (Z * Z * Z)) : chars :=
  lit ", `" ++ key ++ lit "`: [" ++ intercalate (lit ", ") (rule_text <$> rules) ++ lit "]".

Lemma writes_rules key rules : writes (format_rules a key rules) (rules_fragment key rules) True.
Proof.
  assert (forall i r, r ∈ rules -> writes ((fun i '(reg, val, mask) w =>
      let w := reference (append w ((if i =? 0 then [] else lit ", ") ++ lit "{`resource`: ")) meta reg in
      append w (lit ", `match`: {`value`: `0x" ++ hexX n val ++ lit "`, `mask`: `0x" ++ hexX n mask ++ lit "`}}")) i r)
    ((if i =? 0 then [] else lit ", ") ++ rule_text r) True) as Hitem.
  { intros i [[reg val] mask] _.
    eapply writes_mono; [apply (writes_then _ _ _ _ _ _ (writes_reference_after reg _) (writes_append _))| |done].
    rewrite <- !app_assoc. f_equal.
    unfold rule_text, spaced, obj, hex_value. cbn [fmap list_fmap intercalate]. unfold member, quote. cbn [fst snd].
    by text_norm. }
  eapply writes_mono; [apply (writes_then _ _ _ _ _ _ (writes_then _ _ _ _ _ _ (writes_append _)
    (writes_append_each _ _ _ _ Hitem)) (writes_append _))| |done].
  rewrite each_text_comma. unfold rules_fragment. by rewrite <- !app_assoc.
Qed.

Definition policy_fragment : chars :=
  lit "  ],^  `policy`: {`read`: {`mode`: `blacklist`, `rules`: []}, `write`: {`mode`: `" ++
  (if fa_black a then lit "blacklist" else lit "whitelist") ++ lit "`" ++
  rules_fragment (lit "rules") (if fa_black a then fa_black_rules a else fa_white a) ++
  rules_fragment (lit "inactive_rules") (if fa_black a then fa_white a else fa_black_rules a).

Lemma writes_policy : writes (format_policy a) policy_fragment True.
Proof.
  eapply writes_mono; [apply (writes_then _ _ _ _ _ _ (writes_then _ _ _ _ _ _ (writes_append _)
    (writes_rules (lit "rules") _)) (writes_rules (lit "inactive_rules") _))| |done].
  unfold policy_fragment. by rewrite <- !app_assoc.
Qed.

Definition settings_fragment : chars :=
  lit "}},^  `settings`: {`desired`: [], `cache_seed`: [" ++
  intercalate (lit ", ") (seed_text <$> effective_seeds (fa_mdio a) (fa_settings a)) ++
  lit "], `apply_on_startup`: false},^  `observability`: {`telemetry`: true, `events`: true}^}^".

Lemma writes_settings : writes (format_settings a) settings_fragment True.
Proof.
  assert (forall i r, r ∈ effective_seeds (fa_mdio a) (fa_settings a) -> writes ((fun i '(reg, val) w =>
      let w := reference (append w ((if i =? 0 then [] else lit ", ") ++ lit "{`resource`: ")) meta reg in
      append w (lit ", `value`: `0x" ++ hexX n val ++ lit "`}")) i r)
    ((if i =? 0 then [] else lit ", ") ++ seed_text r) True) as Hitem.
  { intros i [reg val] _.
    eapply writes_mono; [apply (writes_then _ _ _ _ _ _ (writes_reference_after reg _) (writes_append _))| |done].
    rewrite <- !app_assoc. f_equal.
    unfold seed_text, spaced, obj, hex_value. cbn [fmap list_fmap intercalate]. unfold member, quote. cbn [fst snd].
    by text_norm. }
  eapply writes_mono; [apply (writes_then _ _ _ _ _ _ (writes_then _ _ _ _ _ _ (writes_append _)
    (writes_append_each _ _ _ _ Hitem)) (writes_append _))| |done].
  rewrite each_text_comma. unfold settings_fragment. by rewrite <- !app_assoc.
Qed.

Definition defaults_fragment : chars :=
  lit "}},^  `defaults`: {`register`: {`width_bits`: " ++ dec (format_width a) ++
  lit ", `access`: `rw`, `write_mask`: `0x" ++ hexX n (if fa_mdio a then 65535 else 255) ++
  lit "`, `cache`: {`mode`: `driver`}, `verify`: {`mode`: `driver`}}},^  `resources`: [^".

(** ** The fragments make up the laid-out object *)

Definition all_fragments : chars :=
  device_fragment ++ transport_fragment ++ options_fragment ++ defaults_fragment ++
  (lit "    " ++ intercalate (lit ",^    ") (resource_text <$> seqZ 0 (fa_count a)) ++ lit "^") ++
  policy_fragment ++ settings_fragment.

Lemma device_layout r :
  device_fragment ++ lit "}" ++ r =
  lit "{^  " ++ member (lit "schema_version", lit "2") ++ lit ",^  " ++ member (lit "id", text_value (fa_name a)) ++
  (if truth ((pf_register_map meta).[0]) then lit ",^  " ++ member (lit "register_map", text_value (pf_register_map meta)) else []) ++
  (if truth ((pf_view meta).[0]) then lit ",^  " ++ member (lit "view", text_value (pf_view meta)) else []) ++
  lit ",^  " ++ member (lit "device", device_text) ++ r.
Proof.
  unfold device_fragment, device_text, spaced, obj, optional, member. cbn [fst snd].
  generalize (text_value (if v2 then pf_model meta else fa_name a))
    (text_value (if v2 then pf_device_class meta else if fa_mdio a then lit "phy" else lit "generic")).
  intros t1 t2. destruct (truth ((pf_register_map meta).[0])), (truth ((pf_view meta).[0])),
    (v2 && truth ((pf_vendor meta).[0])), (v2 && truth ((pf_label meta).[0]));
    cbn [app fmap list_fmap intercalate fst snd]; unfold quote; text_norm; reflexivity.
Qed.

Lemma transport_layout r :
  transport_fragment ++ options_fragment ++ lit "}}" ++ r =
  lit "}" ++ lit ",^  " ++ member (lit "transport", transport_text) ++
  lit ",^  " ++ member (lit "protocol", protocol_text) ++ r.
Proof.
  unfold transport_fragment, options_fragment, transport_text, protocol_text, options_text, spaced_list, arr, spaced, obj,
    optional, hex_value, member, bus. cbn [fst snd].
  change (lit ", ") with [44; 32]. generalize (intercalate [44; 32] (resource_name <$> fa_autopoll a)). intros l.
  destruct (fa_mdio a), (fa_autopoll_enabled a); cbn [negb app fmap list_fmap intercalate fst snd]; unfold quote; text_norm; reflexivity.
Qed.

Lemma policy_layout r :
  policy_fragment ++ lit "}}" ++ r = lit "  ]" ++ lit ",^  " ++ member (lit "policy", policy_text) ++ r.
Proof.
  unfold policy_fragment, policy_text, rules_fragment, spaced_list, arr, spaced, obj, member. cbn [fst snd].
  change (lit ", ") with [44; 32].
  generalize (intercalate [44; 32] (rule_text <$> (if fa_black a then fa_black_rules a else fa_white a)))
    (intercalate [44; 32] (rule_text <$> (if fa_black a then fa_white a else fa_black_rules a)))
    (if fa_black a then lit "blacklist" else lit "whitelist").
  intros l1 l2 mode. cbn [fmap list_fmap intercalate fst snd app]. unfold quote. text_norm. reflexivity.
Qed.

Lemma settings_layout :
  settings_fragment =
  lit "}}" ++ lit ",^  " ++ member (lit "settings", settings_text) ++ lit ",^  " ++
  member (lit "observability", observability_text) ++ lit "^}^".
Proof.
  unfold settings_fragment, settings_text, observability_text, spaced_list, arr, spaced, obj, member. cbn [fst snd].
  change (lit ", ") with [44; 32].
  generalize (intercalate [44; 32] (seed_text <$> effective_seeds (fa_mdio a) (fa_settings a))). intros l.
  cbn [fmap list_fmap intercalate fst snd app]. unfold quote. text_norm. reflexivity.
Qed.

Lemma defaults_layout r :
  defaults_fragment ++ lit "    " ++ intercalate (lit ",^    ") (resource_text <$> seqZ 0 (fa_count a)) ++ lit "^" ++ lit "  ]" ++ r =
  lit "}}" ++ lit ",^  " ++ member (lit "defaults", defaults_text) ++
  lit ",^  " ++ member (lit "resources", resources_text) ++ r.
Proof.
  unfold defaults_fragment, defaults_text, resources_text, driver_text, hex_value, arr, spaced, obj, member. cbn [fst snd].
  change (lit ",^    ") with (44 :: lit "^    ").
  generalize (intercalate (44 :: lit "^    ") (resource_text <$> seqZ 0 (fa_count a)))
    (hexX n (if fa_mdio a then 65535 else 255)) (dec (format_width a)). intros l h d.
  cbn [fmap list_fmap intercalate fst snd app]. unfold quote. text_norm. reflexivity.
Qed.

Lemma fragments_layout : all_fragments = profile_text ++ lit "^".
Proof.
  unfold all_fragments. rewrite settings_layout, <- !app_assoc.
  rewrite policy_layout, defaults_layout, transport_layout, device_layout.
  unfold profile_text, obj, profile_members, optional. change (lit ",^  ") with (44 :: lit "^  ").
  change (lit "{^  ") with (123 :: lit "^  "). change (lit "^}^") with (lit "^" ++ [125] ++ lit "^").
  destruct (truth ((pf_register_map meta).[0])), (truth ((pf_view meta).[0])); cbn [app fmap list_fmap intercalate];
    repeat first [rewrite <- app_assoc | progress cbn [app]]; reflexivity.
Qed.

(** ** The text of a successful run *)

Lemma writes_all :
  0 < fa_count a ->
  writes (fun w => format_settings a (format_policy a (format_resources a (format_defaults a (format_options a
    (format_transport a (format_device a w))))))) (profile_text ++ lit "^") names_printable.
Proof.
  intros Hc. rewrite <- fragments_layout.
  pose proof (writes_then _ _ _ _ _ _ writes_device writes_transport) as W1.
  pose proof (writes_then _ _ _ _ _ _ W1 writes_options) as W2.
  pose proof (writes_then _ _ _ _ _ _ W2 (writes_append defaults_fragment)) as W3.
  pose proof (writes_then _ _ _ _ _ _ W3 (writes_resources Hc)) as W4.
  pose proof (writes_then _ _ _ _ _ _ W4 writes_policy) as W5.
  pose proof (writes_then _ _ _ _ _ _ W5 writes_settings) as W6.
  eapply writes_mono; [exact W6| |tauto]. unfold all_fragments. by rewrite <- !app_assoc.
Qed.

Lemma format_ok cap t :
  0 < fa_count a -> format a (Some cap) = (BVSTK_OK, t) ->
  t = profile_text ++ [10] /\ id_valid (fa_name a) = true /\ names_printable /\
  alen (profile_text ++ [10]) <= BVSTK_PROFILE_JSON_MAX.
Proof.
  intros Hc. unfold format. destruct (id_valid (fa_name a)); [|done]. cbn [negb].
  destruct (_ || _) eqn:E; [done|]. apply orb_false_iff in E as [E1 E2]. bsimp. intros [= <-].
  destruct (writes_all Hc _ E1) as (_ & Ht & Hp). rewrite Ht in E2 |- *. done.
Qed.
End parts.
