(* ===== verification/ProfileMembers.v ===== *)
(** * ProfileMembers: reading the pieces of a canonical profile

    The scalar readers on the numbers, identifiers and strings the writer emits,
    and [fields] on each of the objects of the canonical profile. *)
From stdpp Require Import prelude.
From Stdlib Require Import ZArith Lia.
From S2P Require Import Prelude Text Platform I2cDevices ConfigValidate JsonReader JsonGrammar JsonObjects ProfileCodec ProfileText ProfileFormat.
Import String.StringSyntax.
Local Open Scope Z_scope.

(** ** Members by name *)

Definition names_ok (keys names : list chars) : bool :=
  bool_decide (Forall plain names) && bool_decide (NoDup names) && bool_decide (NoDup keys) &&
  bool_decide (Forall (fun k => cstr k = k) keys) && bool_decide (Forall (fun k => k ∈ keys /\ alen k < 64) names) &&
  (alen keys <=? 64).

Lemma fields_named n keys names texts open sep close :
  names_ok keys names = true -> (n <= 15)%nat -> length names = length texts ->
  blank open -> blank sep -> blank close -> Forall (json_text n) texts ->
  fields (Some (obj open sep close (zip names texts))) keys =
    Some ((fun k => member_of k (zip names texts)) <$> keys).
Proof.
  unfold names_ok. intros Hok Hn Hlen Ho Hs Hc Ht.
  apply andb_true_iff in Hok as [Hok H6]. apply andb_true_iff in Hok as [Hok H5].
  apply andb_true_iff in Hok as [Hok H4]. apply andb_true_iff in Hok as [Hok H3].
  apply andb_true_iff in Hok as [H1 H2]. apply bool_decide_eq_true in H1, H2, H3, H4, H5. bsimp.
  assert (fst <$> zip names texts = names) as Hfst by (apply fst_zip; lia).
  apply (fields_obj n); try done.
  - unfold plain_members. rewrite Forall_forall in H1. rewrite Forall_forall in Ht. rewrite Forall_forall. intros [k t] Hin. cbn. split.
    + apply H1. rewrite <- Hfst. apply list_elem_of_fmap. by exists (k, t).
    + apply Ht. assert (snd <$> zip names texts = texts) as <- by (apply snd_zip; lia).
      apply list_elem_of_fmap. by exists (k, t).
  - by rewrite Hfst.
  - rewrite Forall_forall in H5. rewrite Forall_forall. intros [k t] Hin. cbn. apply H5. rewrite <- Hfst.
    apply list_elem_of_fmap. by exists (k, t).
Qed.

Lemma spaced_json n names texts :
  Forall plain names -> length names = length texts -> Forall (json_text n) texts ->
  json_text (S n) (spaced (zip names texts)).
Proof.
  intros Hp Hlen Ht. apply obj_json; [constructor|apply blank_space|constructor|].
  unfold plain_members. rewrite Forall_forall in Hp. rewrite Forall_forall in Ht. rewrite Forall_forall. intros [k t] Hin. cbn.
  apply elem_of_zip_l in Hin as Hk. apply elem_of_zip_r in Hin as Ht'. auto.
Qed.

(** ** Scalars *)

Lemma json_quote n t v : str_body t v -> json_text n (quote t).
Proof. intros Hb. destruct n; left; by exists t, v. Qed.

Lemma json_word n t : t ∈ [lit "true"; lit "false"; lit "null"] -> json_text n t.
Proof. intros Ht. destruct n; right; by left. Qed.

Lemma json_number n t : number_text t -> json_text n t.
Proof. intros Ht. destruct n; right; right; by left. Qed.

Lemma json_plain n s : plain s -> json_text n (quote s).
Proof. intros Hs. eapply json_quote. by apply plain_str_body. Qed.

Lemma plain_lit s : bool_decide (plain s) = true -> plain s.
Proof. apply bool_decide_eq_true. Qed.

Lemma text_plain s cap : plain s -> alen s < cap -> text (Some (quote s)) cap = Some s.
Proof.
  intros Hs Hcap. pose proof (alen_nonneg s). apply text_iff; [eapply quote_bytes; by apply plain_str_body|lia|].
  exists s. split; [done|]. split; [by apply plain_str_body|]. split; [done|]. by apply plain_printable.
Qed.

Lemma equal_plain s r : plain s -> alen s < 64 -> clean r -> equal (Some (quote s)) r = bool_decide (s = r).
Proof.
  intros Hs Hl Hr. unfold equal. rewrite text_plain by done. unfold streq.
  pose proof (plain_clean s Hs) as Hc. unfold clean in Hc, Hr. by rewrite Hc, Hr.
Qed.

(** The digits [printf] writes, and their value. *)
Lemma hex_digit_char d : 0 <= d < 16 -> hex_digit (digit_char d) = d /\ plain_char (digit_char d) = true.
Proof.
  intros Hd. unfold digit_char.
  assert (forallb (fun k => let d := Z.of_nat k in let c := if d <? 10 then 48 + d else 55 + d in
    (hex_digit c =? d) && plain_char c) (seq 0 16) = true) as Hall by done.
  rewrite forallb_forall in Hall. specialize (Hall (Z.to_nat d)). rewrite Z2Nat.id in Hall by lia.
  cbn zeta in Hall. apply andb_true_iff in Hall as [H1 H2]; [by bsimp|]. apply in_seq. lia.
Qed.

Lemma fold_digits base (ds : list Z) n :
  base <= 16 -> Forall (fun d => 0 <= d < base) ds ->
  foldl (fun n c => n * base + hex_digit c) n (digit_char <$> ds) = foldl (fun n d => n * base + d) n ds.
Proof.
  intros Hb Hds. revert n. induction Hds as [|d ds Hd _ IH]; intros n; [done|]. cbn.
  destruct (hex_digit_char d) as [-> _]; [lia|]. apply IH.
Qed.

Lemma fold_zeros k base (s : chars) :
  foldl (fun n c => n * base + hex_digit c) 0 (replicate k 48 ++ s) = foldl (fun n c => n * base + hex_digit c) 0 s.
Proof. induction k as [|k IH]; [done|]. exact IH. Qed.

Lemma hexX_spec w n :
  0 <= w <= 8 -> 0 <= n < 16 ^ 8 ->
  Forall (fun c => 0 <= hex_digit c) (hexX w n) /\ plain (hexX w n) /\ digits_value 16 hex_digit (hexX w n) = n /\
  hexX w n <> [] /\ alen (hexX w n) < 17.
Proof.
  intros Hw Hn. unfold hexX.
  destruct (to_digits_spec 16 16 n []) as (ds & -> & Hds & Hv & Hl & Hne).
  { lia. } { split; [lia|]. etransitivity; [apply Hn|]. done. }
  rewrite app_nil_r. destruct Hne as [Hne _]; [lia|]. unfold fill.
  assert (Forall (fun c => 0 <= hex_digit c /\ plain_char c = true) (digit_char <$> ds)) as Hf.
  { apply Forall_fmap. eapply Forall_impl; [exact Hds|]. intros d Hd. cbn in Hd. destruct (hex_digit_char d) as [H1 H2]; [lia|].
    cbn. rewrite H1. split; [lia|done]. }
  assert (Forall (fun c => 0 <= hex_digit c /\ plain_char c = true)
    (replicate (Z.to_nat (w - alen (digit_char <$> ds))) 48 ++ (digit_char <$> ds))) as Hall.
  { apply Forall_app. split; [|done]. apply Forall_replicate. done. }
  split; [eapply Forall_impl; [exact Hall|]; by intros ? []|].
  split; [eapply Forall_impl; [exact Hall|]; by intros ? []|].
  split; [unfold digits_value; rewrite fold_zeros, fold_digits; [done|lia|done]|].
  split; [by destruct ds, (replicate _ _)|].
  rewrite alen_app. unfold alen. rewrite length_replicate, length_fmap. lia.
Qed.

Lemma plain_app a b : plain a -> plain b -> plain (a ++ b).
Proof. intros. by apply Forall_app. Qed.

Lemma hex_value_plain w n : 0 <= w <= 8 -> 0 <= n < 16 ^ 8 -> plain (lit "0x" ++ hexX w n).
Proof. intros Hw Hn. destruct (hexX_spec w n Hw Hn) as (_ & Hp & _). apply plain_app; [by apply plain_lit|done]. Qed.

Lemma hex_value_json k w n : 0 <= w <= 8 -> 0 <= n < 16 ^ 8 -> json_text k (hex_value w n).
Proof. intros Hw Hn. by apply json_plain, hex_value_plain. Qed.

Lemma hex_value_read w n max :
  0 <= w <= 8 -> 0 <= n <= max -> max < 4294967296 -> hex (Some (hex_value w n)) max = Some n.
Proof.
  intros Hw Hn Hmax. assert (0 <= n < 16 ^ 8) as Hn' by (change (16 ^ 8) with 4294967296; lia).
  pose proof (hex_value_plain w n Hw Hn') as Hp. destruct (hexX_spec w n Hw Hn') as (Hf & _ & Hv & Hne & Hl).
  apply hex_iff; [eapply quote_bytes; by apply plain_str_body|lia|].
  exists (lit "0x" ++ hexX w n), (hexX w n). split; [done|]. split; [by apply plain_str_body|]. split; [done|].
  split; [lia|]. split; [done|]. split; [done|lia].
Qed.

Lemma dec_spec n :
  0 <= n < 4294967296 ->
  digit_run (dec n) /\ (dec n = [48] \/ is_head 48 (dec n) = false) /\ digits_value 10 (fun c => c - 48) (dec n) = n.
Proof.
  intros Hn. unfold dec. destruct (to_digits_spec 20 10 n []) as (ds & -> & Hds & Hv & _ & Hne); [lia| |].
  { split; [lia|]. etransitivity; [apply Hn|]. done. }
  rewrite app_nil_r. destruct Hne as [Hne Hz]; [lia|].
  assert (forall d, 0 <= d < 10 -> digit_char d = 48 + d) as Hd.
  { intros d Hd. unfold digit_char. by rewrite (proj2 (Z.ltb_lt _ _)) by lia. }
  split; [split; [by destruct ds|]|].
  { apply Forall_fmap. eapply Forall_impl; [exact Hds|]. intros d Hd'. cbn in Hd' |- *. rewrite Hd by done.
    unfold digit. rewrite !(proj2 (Z.leb_le _ _)) by lia. done. }
  split.
  - destruct ds as [|d ds]; [done|]. inversion_clear Hds as [|? ? Hd0 _]. destruct Hz as [Hz|Hz].
    + left. injection Hz as -> ->. done.
    + right. cbn. rewrite Hd by done. apply Z.eqb_neq. cbn in Hz. intros He. apply Hz. f_equal. lia.
  - unfold digits_value. rewrite <- Hv. clear -Hds Hd. generalize 0 as k. induction Hds as [|d ds Hd0 _ IH]; intros k; [done|].
    cbn. rewrite Hd by done. replace (48 + d - 48) with d by lia. apply IH.
Qed.

Lemma dec_json k n : 0 <= n < 4294967296 -> json_text k (dec n).
Proof.
  intros Hn. destruct (dec_spec n Hn) as (Hr & Hz & _). apply json_number.
  change (dec n) with ([] ++ dec n). rewrite <- (app_nil_r (dec n)).
  apply (number_text_intro [] (dec n) [] []); [by left| |by left|by left].
  destruct Hz as [Hz|Hz]; [by left|by right].
Qed.

Lemma dec_read n max : 0 <= n <= max -> max < 4294967296 -> number (Some (dec n)) max = Some n.
Proof.
  intros Hn Hm. destruct (dec_spec n) as (Hr & Hz & Hv); [lia|].
  apply number_iff; [lia|]. split; [done|]. split; [done|]. split; [done|lia].
Qed.

(** ** Identifiers *)

Definition id_char (c : Z) : bool := is_lower c || digit c || (c =? 95) || (c =? 45).

Definition id_word (w : chars) : Prop :=
  alen w < 32 /\ Forall (fun c => id_char c = true) w /\ exists c q, w = c :: q /\ is_lower c = true.

Lemma id_char_plain c : id_char c = true -> plain_char c = true.
Proof.
  unfold id_char, plain_char, is_lower, digit. intros H.
  assert (97 <= c <= 122 \/ 48 <= c <= 57 \/ c = 95 \/ c = 45) as Hc.
  { repeat (apply orb_true_iff in H as [H|H]); bsimp; lia. }
  rewrite (proj2 (Z.leb_le _ _)), (proj2 (Z.ltb_lt _ _)), !(proj2 (Z.eqb_neq _ _)) by lia. done.
Qed.

Lemma id_word_plain w : id_word w -> plain w.
Proof. intros (_ & Hw & _). eapply Forall_impl; [exact Hw|]. apply id_char_plain. Qed.

(** The first zero is the end of the string. *)
Lemma first_zero (s : chars) n :
  0 <= n < alen s -> s.[n] = 0 -> (forall j, 0 <= j < n -> s.[j] <> 0) -> strlen s = n.
Proof.
  intros Hn Hz Hne. pose proof (strlen_nonneg s). destruct (Z.lt_trichotomy (strlen s) n) as [Hlt|[Heq|Hgt]]; [|done|].
  - destruct (Hne (strlen s)); [lia|]. apply strlen_end. lia.
  - by destruct (cstr_chars s n) as [_ []]; [lia|].
Qed.

Lemma zero_in_range (s : chars) n : 0 <= n -> s.[n] = 0 -> n < alen s.
Proof.
  intros Hn Hz. destruct (Z_lt_le_dec n (alen s)) as [|Hge]; [done|]. exfalso. unfold aget, alen in *.
  rewrite list_lookup_total_alt, lookup_ge_None_2 in Hz by lia. done.
Qed.

Lemma id_valid_word s : id_valid s = true -> id_word (cstr s).
Proof.
  unfold id_valid. destruct ((s.[0] <? 97) || (122 <? s.[0])) eqn:E0; [done|].
  apply orb_false_iff in E0 as [E0 E1]. bsimp.
  destruct (for_find 32 0 (fun i => s.[i] =? 0)) as [n|] eqn:En.
  2: { by destruct (for_find (Z.to_nat _) 0 _). }
  change (default 32 (Some n)) with n.
  apply for_find_Some in En as (Hn & Hz & Hne). bsimp.
  assert (strlen s = n) as Hl.
  { apply first_zero; [split; [lia|]; apply zero_in_range; lia|done|]. intros j Hj. specialize (Hne j Hj). by bsimp. }
  destruct (for_find (Z.to_nat n) 0 _) eqn:Ef; [done|]. intros _.
  apply (chars_all s n (fun c => negb (is_lower c || digit c || (c =? 95) || (c =? 45)))) in Ef; [|lia].
  rewrite <- Hl, prefix_strlen in Ef. unfold id_word.
  split; [unfold strlen in Hl; lia|]. split.
  - eapply Forall_impl; [exact Ef|]. intros c Hc. cbn in Hc. by apply negb_false_iff in Hc.
  - destruct s as [|c q]; [exfalso; cbn in Hl; change ([].[0]) with 1 in E0; lia|].
    change ((c :: q).[0]) with c in E0, E1. cbn. rewrite (proj2 (Z.eqb_neq c 0)) by lia.
    exists c, (cstr q). split; [done|]. unfold is_lower. rewrite !(proj2 (Z.leb_le _ _)) by lia. done.
Qed.

Lemma cstr_terminated w r : clean w -> cstr (w ++ 0 :: r) = w.
Proof.
  unfold clean. induction w as [|c w IH]; [done|]. cbn. destruct (c =? 0); [done|]. intros [= Hw]. by rewrite IH.
Qed.

Lemma id_word_valid w r : id_word w -> id_valid (w ++ 0 :: r) = true.
Proof.
  intros Hw. pose proof (plain_clean w (id_word_plain w Hw)) as Hc. destruct Hw as (Hl & Hf & c & q & -> & Hlow).
  unfold id_valid. change (((c :: q) ++ 0 :: r).[0]) with c. unfold is_lower in Hlow. bsimp.
  rewrite !(proj2 (Z.ltb_ge _ _)) by lia. cbn [orb]. set (s := (c :: q) ++ 0 :: r) in *.
  pose proof (cstr_terminated (c :: q) r Hc) as Hs. fold s in Hs.
  assert (strlen s = alen (c :: q)) as Hlen by (unfold strlen; by rewrite Hs).
  pose proof (alen_nonneg (c :: q)).
  assert (for_find 32 0 (fun i => s.[i] =? 0) = Some (alen (c :: q))) as ->.
  { apply for_find_Some. split; [lia|]. split.
    - apply Z.eqb_eq. rewrite <- Hlen. apply strlen_end. rewrite Hlen. unfold s. rewrite alen_app, (alen_cons 0 r).
      pose proof (alen_nonneg r). lia.
    - intros j Hj. apply Z.eqb_neq. apply cstr_chars. lia. }
  change (default 32 (Some (alen (c :: q)))) with (alen (c :: q)). pose proof (chars_all s (alen (c :: q)) (fun c => negb (is_lower c || digit c || (c =? 95) || (c =? 45))) ltac:(lia)) as Hall.
  rewrite <- Hlen, prefix_strlen, Hs in Hall. rewrite <- Hlen.
  rewrite (proj2 Hall).
  - rewrite Hlen. apply Z.ltb_lt. lia.
  - eapply Forall_impl; [exact Hf|]. intros d Hd. cbn beta in Hd |- *.
    change (negb (id_char d) = false). by rewrite Hd.
Qed.

(** A stored text: terminated, and the buffer keeps its size. *)
Lemma store_text_shape buf out : exists r, store_text buf out = out ++ 0 :: r.
Proof.
  unfold store_text, copy_prefix. exists (drop (Z.to_nat (alen out + 1)) buf).
  rewrite firstn_all2 by (rewrite length_app; unfold alen; cbn; lia). by rewrite <- app_assoc.
Qed.

Lemma store_text_cstr buf out : clean out -> cstr (store_text buf out) = out.
Proof. intros Hc. destruct (store_text_shape buf out) as [r ->]. by apply cstr_terminated. Qed.

Lemma store_text_alen buf out : alen out < alen buf -> alen (store_text buf out) = alen buf.
Proof.
  intros Hl. unfold store_text, copy_prefix. rewrite alen_app. unfold alen in *. rewrite length_take, length_drop, length_app. cbn. lia.
Qed.

(** ** What a text must satisfy to be read back *)

Record string_ok (cap : Z) (s : chars) : Prop := {
  so_utf8 : utf8_text s;
  so_printable : Forall printable s;
  so_length : alen s < cap
}.

Lemma string_read cap s : string_ok cap s -> text (Some (quote (escape s))) cap = Some s.
Proof.
  intros [Hu Hp Hl]. pose proof (alen_nonneg s). pose proof (escape_body s Hu Hp) as Hb.
  apply text_iff; [by eapply quote_bytes|lia|]. exists (escape s). done.
Qed.

Lemma string_json n cap s : string_ok cap s -> json_text n (quote (escape s)).
Proof. intros [Hu Hp Hl]. eapply json_quote. by apply escape_body. Qed.

Lemma string_clean cap s : string_ok cap s -> clean s.
Proof. intros [Hu Hp _]. eapply str_body_clean. by apply escape_body. Qed.

Lemma plain_string_ok cap s : plain s -> alen s < cap -> string_ok cap s.
Proof. intros Hs Hl. split; [by apply plain_utf8|by apply plain_printable|done]. Qed.

Lemma optional_text_read buf s :
  string_ok (alen buf) s -> s <> [] -> optional_text (Some (quote (escape s))) buf = Some (store_text buf s).
Proof.
  intros Hs Hne. unfold optional_text. rewrite string_read by done.
  pose proof (string_clean _ _ Hs) as Hc. destruct (store_text_shape buf s) as [r ->].
  destruct s as [|c s]; [done|]. change (((c :: s) ++ 0 :: r).[0]) with c. unfold clean in Hc. cbn in Hc.
  destruct (c =? 0); done.
Qed.

(** ** The members of the objects the writer lays out *)

Ltac read_members :=
  lazymatch goal with
  | |- fields (Some (spaced ?ms)) ?keys = _ => unfold spaced; read_members
  | |- fields (Some (obj ?o ?s ?c ?ms)) ?keys = _ =>
      let ns := eval cbn [fmap list_fmap fst] in (fst <$> ms) in
      let ts := eval cbn [fmap list_fmap snd] in (snd <$> ms) in
      transitivity (Some ((fun k => member_of k (zip ns ts)) <$> keys));
      [apply (fields_named 15 keys ns ts o s c);
       [vm_compute; reflexivity|lia|reflexivity|by repeat constructor|by repeat constructor|by repeat constructor
       |repeat (apply Forall_cons_2; [assumption|]); constructor]
      |vm_compute; reflexivity]
  end.

Lemma fields_root (version id device transport protocol defaults resources policy settings observability : chars)
    (map view : option chars) :
  Forall (json_text 15) [version; id; device; transport; protocol; defaults; resources; policy; settings; observability] ->
  (match map with Some m => json_text 15 m | None => True end) ->
  (match view with Some v => json_text 15 v | None => True end) ->
  fields (Some (obj (lit "^  ") (lit "^  ") (lit "^")
    ([(lit "schema_version", version); (lit "id", id)] ++
     (match map with Some m => [(lit "register_map", m)] | None => [] end) ++
     (match view with Some v => [(lit "view", v)] | None => [] end) ++
     [(lit "device", device); (lit "transport", transport); (lit "protocol", protocol); (lit "defaults", defaults);
      (lit "resources", resources); (lit "policy", policy); (lit "settings", settings);
      (lit "observability", observability)]))) root_keys =
  Some [Some version; Some id; Some device; Some transport; Some protocol; Some resources; Some defaults; Some policy;
        Some settings; Some observability; map; view].
Proof.
  intros Hall Hm Hv.
  repeat match goal with H : Forall _ (_ :: _) |- _ => inversion_clear H end.
  destruct map as [m|], view as [v|]; cbn [app]; read_members.
Qed.

Lemma fields_device (model class : chars) (vendor label : option chars) :
  json_text 15 model -> json_text 15 class ->
  (match vendor with Some v => json_text 15 v | None => True end) ->
  (match label with Some v => json_text 15 v | None => True end) ->
  fields (Some (spaced ([(lit "model", model); (lit "class", class)] ++
    (match vendor with Some v => [(lit "vendor", v)] | None => [] end) ++
    (match label with Some v => [(lit "label", v)] | None => [] end)))) device_keys =
  Some [Some model; vendor; Some class; label].
Proof. intros Hm Hc Hv Hl. destruct vendor as [v|], label as [l|]; cbn [app]; read_members. Qed.

Lemma fields_transport (mdio : bool) (bus controller address : chars) :
  json_text 15 bus -> json_text 15 controller -> json_text 15 address ->
  fields (Some (spaced ([(lit "bus", bus); (lit "controller", controller); (lit "address", address)] ++
    optional (negb mdio) (lit "address_bits", lit "7")))) transport_keys =
  Some [Some bus; Some controller; Some address; if mdio then None else Some (lit "7")].
Proof.
  intros Hb Hc Ha. assert (json_text 15 (lit "7")) as H7.
  { apply json_number. apply (number_text_intro [] [55] [] []); auto. right. split; [|done]. by repeat constructor. }
  destruct mdio; cbn [negb optional app]; read_members.
Qed.

Lemma fields_protocol (driver options : chars) :
  json_text 15 driver -> json_text 15 options ->
  fields (Some (spaced [(lit "driver", driver); (lit "options", options)])) protocol_keys = Some [Some driver; Some options].
Proof. intros Hd Ho. read_members. Qed.

Lemma fields_options_mdio (enabled reg cycle order : chars) :
  json_text 15 enabled -> json_text 15 reg -> json_text 15 cycle -> json_text 15 order ->
  fields (Some (spaced [(lit "autopoll_enabled", enabled); (lit "autopoll_reg_delay_ms", reg);
    (lit "autopoll_cycle_delay_ms", cycle); (lit "autopoll_order", order)])) option_keys =
  Some [None; None; Some enabled; Some order; Some reg; Some cycle].
Proof. intros. read_members. Qed.

Lemma fields_options_i2c (max capture : chars) :
  json_text 15 max -> json_text 15 capture ->
  fields (Some (spaced [(lit "max_write_value", max); (lit "capture_cache_on_save", capture)])) option_keys =
  Some [Some max; Some capture; None; None; None; None].
Proof. intros. read_members. Qed.

Lemma fields_register (width access mask cache verify : chars) :
  json_text 14 width -> json_text 14 access -> json_text 14 mask -> json_text 14 cache -> json_text 14 verify ->
  fields (Some (spaced [(lit "register", spaced [(lit "width_bits", width); (lit "access", access); (lit "write_mask", mask);
    (lit "cache", cache); (lit "verify", verify)])])) defaults_keys =
    Some [Some (spaced [(lit "width_bits", width); (lit "access", access); (lit "write_mask", mask);
      (lit "cache", cache); (lit "verify", verify)])] /\
  fields (Some (spaced [(lit "width_bits", width); (lit "access", access); (lit "write_mask", mask);
    (lit "cache", cache); (lit "verify", verify)])) resource_keys =
    Some [None; None; None; Some width; Some access; Some mask; Some cache; Some verify; None; None; None; None; None].
Proof.
  intros H1 H2 H3 H4 H5. split.
  - assert (json_text 15 (spaced [(lit "width_bits", width); (lit "access", access); (lit "write_mask", mask);
      (lit "cache", cache); (lit "verify", verify)])) as Hr.
    { apply (spaced_json 14 [lit "width_bits"; lit "access"; lit "write_mask"; lit "cache"; lit "verify"]
        [width; access; mask; cache; verify]); [by apply (bool_decide_unpack _)|done|].
      by repeat (apply Forall_cons_2; [assumption|]). }
    revert Hr. generalize (spaced [(lit "width_bits", width); (lit "access", access); (lit "write_mask", mask);
      (lit "cache", cache); (lit "verify", verify)]). intros r Hr. read_members.
  - apply (json_text_mono _ 15) in H1, H2, H3, H4, H5; try lia. read_members.
Qed.

Lemma fields_mode (mode : chars) :
  json_text 15 mode -> fields (Some (spaced [(lit "mode", mode)])) [lit "mode"] = Some [Some mode].
Proof. intros. read_members. Qed.

Lemma fields_resource (id kind address : chars) :
  json_text 15 id -> json_text 15 kind -> json_text 15 address ->
  fields (Some (spaced [(lit "id", id); (lit "kind", kind); (lit "address", address)])) resource_keys =
  Some [Some id; Some kind; Some address; None; None; None; None; None; None; None; None; None; None].
Proof. intros. read_members. Qed.

Lemma fields_policy (read write : chars) :
  json_text 15 read -> json_text 15 write ->
  fields (Some (spaced [(lit "read", read); (lit "write", write)])) policy_keys = Some [Some read; Some write].
Proof. intros. read_members. Qed.

Lemma fields_read_policy (mode rules : chars) :
  json_text 15 mode -> json_text 15 rules ->
  fields (Some (spaced [(lit "mode", mode); (lit "rules", rules)])) policy_entry_keys = Some [Some mode; Some rules; None].
Proof. intros. read_members. Qed.

Lemma fields_write_policy (mode rules inactive : chars) :
  json_text 15 mode -> json_text 15 rules -> json_text 15 inactive ->
  fields (Some (spaced [(lit "mode", mode); (lit "rules", rules); (lit "inactive_rules", inactive)])) policy_entry_keys =
  Some [Some mode; Some rules; Some inactive].
Proof. intros. read_members. Qed.

Lemma fields_rule (resource mtch : chars) :
  json_text 15 resource -> json_text 15 mtch ->
  fields (Some (spaced [(lit "resource", resource); (lit "match", mtch)])) rule_keys = Some [Some resource; Some mtch].
Proof. intros. read_members. Qed.

Lemma fields_match (value mask : chars) :
  json_text 15 value -> json_text 15 mask ->
  fields (Some (spaced [(lit "value", value); (lit "mask", mask)])) match_keys = Some [Some value; Some mask].
Proof. intros. read_members. Qed.

Lemma fields_settings (desired seeds startup : chars) :
  json_text 15 desired -> json_text 15 seeds -> json_text 15 startup ->
  fields (Some (spaced [(lit "desired", desired); (lit "cache_seed", seeds); (lit "apply_on_startup", startup)])) settings_keys =
  Some [Some seeds; Some desired; Some startup].
Proof. intros. read_members. Qed.

Lemma fields_seed (resource value : chars) :
  json_text 15 resource -> json_text 15 value ->
  fields (Some (spaced [(lit "resource", resource); (lit "value", value)])) seed_keys = Some [Some resource; Some value].
Proof. intros. read_members. Qed.

Lemma fields_observability (telemetry events : chars) :
  json_text 15 telemetry -> json_text 15 events ->
  fields (Some (spaced [(lit "telemetry", telemetry); (lit "events", events)])) observe_keys =
  Some [Some telemetry; Some events].
Proof. intros. read_members. Qed.
