(* ===== verification/ProfileRoundTrip.v ===== *)
(** * ProfileRoundTrip: what the writer saved the parser reads back

    [parse] on [profile_text], part by part, for arguments the writer accepts
    and whose names and strings the reader's grammar allows. *)
From stdpp Require Import prelude.
From Stdlib Require Import ZArith Lia.
From S2P Require Import Prelude Text Platform I2cDevices ConfigValidate JsonReader JsonGrammar JsonObjects ProfileCodec ProfileText ProfileFormat ProfileMembers.
Import String.StringSyntax.
Local Open Scope Z_scope.

(** Indexing of an explicit list of views. *)
Ltac elem_at l k :=
  lazymatch l with
  | ?x :: ?r =>
      lazymatch k with
      | 0 => x
      | _ => let k' := eval vm_compute in (Z.pred k) in elem_at r k'
      end
  end.
Ltac get_views :=
  repeat match goal with
  | |- context [aget (?x :: ?l) ?k] => let e := elem_at (x :: l) k in change (aget (x :: l) k) with e
  end.

(** ** Arguments that can be read back *)

Definition rid (a : format_args) (i : Z) : chars := cstr (resource_id (fa_meta a) i).
Definition ids_text (a : format_args) (k : Z) : chars := 0 :: concat ((fun i => rid a i ++ [0]) <$> seqZ 0 k).

Definition v2_of (a : format_args) : bool := truth (pf_version (fa_meta a)).
Definition model_of (a : format_args) : chars := cstr (if v2_of a then pf_model (fa_meta a) else fa_name a).
Definition class_of (a : format_args) : chars :=
  cstr (if v2_of a then pf_device_class (fa_meta a) else if fa_mdio a then lit "phy" else lit "generic").
Definition vendor_of (a : format_args) : chars := if v2_of a then cstr (pf_vendor (fa_meta a)) else [].
Definition label_of (a : format_args) : chars := if v2_of a then cstr (pf_label (fa_meta a)) else [].
Definition maximum_of (a : format_args) : Z := if fa_mdio a then 65535 else 255.

Definition rule_ok (a : format_args) (r : Z * Z * Z) : Prop :=
  let '(reg, val, mask) := r in
  0 <= reg < fa_count a /\ 0 <= val <= (if fa_mdio a then 65535 else fa_max_value_code a) /\
  (if fa_mdio a then 0 <= mask <= 65535 else mask = 255).

Definition seed_ok (a : format_args) (s : Z * Z) : Prop := 0 <= s.1 < fa_count a /\ 0 <= s.2 <= maximum_of a.

Record writable (a : format_args) : Prop := {
  wr_count : 1 <= fa_count a <= (if fa_mdio a then 32 else 256);
  wr_address : 0 <= fa_address a <= (if fa_mdio a then 31 else 127);
  wr_name : id_word (cstr (fa_name a));
  wr_ids : forall i, 0 <= i < fa_count a -> id_word (rid a i);
  wr_distinct : forall i j, 0 <= i < fa_count a -> 0 <= j < fa_count a -> rid a i = rid a j -> i = j;
  wr_fit : alen (ids_text a (fa_count a)) <= BVSTK_PROFILE_IDS_CAP;
  wr_model : string_ok 65 (model_of a) /\ model_of a <> [];
  wr_class : class_of a ∈ class_names;
  wr_vendor : string_ok 65 (vendor_of a);
  wr_label : string_ok 97 (label_of a);
  wr_buffers : 0 < alen (pf_vendor (fa_meta a)) /\ 0 < alen (pf_label (fa_meta a));
  wr_assets : alen (pf_register_map (fa_meta a)) = 64 /\ alen (pf_view (fa_meta a)) = 64;
  wr_map : register_map_valid (pf_register_map (fa_meta a)) = true;
  wr_view : asset_name_valid (pf_view (fa_meta a)) js_extension = true;
  wr_view_map : (pf_view (fa_meta a)).[0] <> 0 -> (pf_register_map (fa_meta a)).[0] <> 0;
  wr_delays : 0 <= fa_reg_delay_ms a <= 60000 /\ 0 <= fa_cycle_delay_ms a <= 600000;
  wr_autopoll : Forall (fun r => 0 <= r < fa_count a) (fa_autopoll a) /\ NoDup (fa_autopoll a) /\ alen (fa_autopoll a) <= 32;
  wr_max_value : 0 <= fa_max_value_code a <= 64;
  wr_rules : Forall (rule_ok a) (fa_white a) /\ Forall (rule_ok a) (fa_black_rules a);
  wr_rules_len : alen (fa_white a) <= (if fa_mdio a then 64 else 256) /\
                 alen (fa_black_rules a) <= (if fa_mdio a then 64 else 256);
  wr_seeds : Forall (seed_ok a) (effective_seeds (fa_mdio a) (fa_settings a));
  wr_seeds_distinct : NoDup (fst <$> effective_seeds (fa_mdio a) (fa_settings a));
  wr_seeds_len : alen (effective_seeds (fa_mdio a) (fa_settings a)) <= (if fa_mdio a then 32 else 256)
}.

(** ** Asset names depend on the string only *)

Definition asset_char (c : Z) : bool := is_lower c || is_upper c || digit c || (c =? 95) || (c =? 45).

(** The names [asset_name_valid] accepts, beside the empty one. *)
Definition asset_word (ext w : chars) : Prop :=
  alen w < 64 /\ exists stem, w = stem ++ ext /\ stem <> [] /\ Forall (fun c => asset_char c = true) stem.

Lemma strlen_cstr s : strlen s = alen (cstr s).
Proof. done. Qed.

Lemma memchr0_iff s n : 0 <= n <= alen s -> memchr0 s n = true <-> strlen s < n.
Proof.
  intros Hn. split; [apply memchr0_strlen|]. intros Hl. unfold memchr0, prefix. apply existsb_exists.
  exists 0. split; [|done]. pose proof (strlen_nonneg s).
  apply list_elem_of_In, list_elem_of_lookup. exists (Z.to_nat (strlen s)). apply lookup_take_Some. split; [|lia].
  rewrite aget_lookup by lia. f_equal. apply strlen_end. lia.
Qed.

Lemma strlen_zero s : 0 < alen s -> (s.[0] =? 0) = bool_decide (cstr s = []).
Proof.
  intros Hs. destruct s as [|c s]; [done|]. change ((c :: s).[0]) with c. cbn. destruct (c =? 0); done.
Qed.

Lemma asset_name_iff s ext :
  alen s = 64 -> clean ext -> asset_name_valid s ext = true <-> cstr s = [] \/ asset_word ext (cstr s).
Proof.
  intros Hs Hext. unfold asset_name_valid.
  assert (strlen ext = alen ext) as Hel by (rewrite strlen_cstr; by rewrite Hext).
  rewrite Hel. pose proof (alen_nonneg ext). pose proof (strlen_nonneg s).
  destruct (memchr0 s BVSTK_REGISTER_MAP_NAME_MAX) eqn:Em; cbn [negb].
  2: { split; [done|]. intros Hc. exfalso. assert (memchr0 s 64 = true) as Hm; [|unfold BVSTK_REGISTER_MAP_NAME_MAX in Em; congruence].
    apply memchr0_iff; [lia|]. rewrite strlen_cstr. destruct Hc as [->|[? _]]; done. }
  apply memchr0_iff in Em; [|unfold BVSTK_REGISTER_MAP_NAME_MAX; lia]. unfold BVSTK_REGISTER_MAP_NAME_MAX in Em.
  rewrite strlen_zero by lia. destruct (decide (cstr s = [])) as [He|Hne]; [rewrite bool_decide_eq_true_2 by done; tauto|].
  rewrite bool_decide_eq_false_2 by done.
  set (n := strlen s) in *.
  destruct (Z.leb_spec n (alen ext)) as [Hle|Hgt]; cbn [orb].
  { split; [done|]. intros [?|(_ & stem & Hw & Hst & _)]; [done|]. exfalso.
    assert (n = alen stem + alen ext) as Hn by (unfold n; rewrite strlen_cstr, Hw, alen_app; done).
    destruct stem; [done|]. rewrite alen_cons in Hn. pose proof (alen_nonneg stem). lia. }
  assert (cstr (drop (Z.to_nat (n - alen ext)) s) = drop (Z.to_nat (n - alen ext)) (cstr s)) as Hd by (apply cstr_drop; lia).
  pose proof (chars_all s (n - alen ext) (fun c => negb (asset_char c)) ltac:(lia)) as Hall.
  assert (streq (drop (Z.to_nat (n - alen ext)) s) ext = bool_decide (drop (Z.to_nat (n - alen ext)) (cstr s) = ext)) as ->.
  { unfold streq. rewrite Hd. by rewrite Hext. }
  destruct (decide (drop (Z.to_nat (n - alen ext)) (cstr s) = ext)) as [Heq|Hneq].
  - rewrite bool_decide_eq_true_2 by done. cbn [negb].
    assert (cstr s = prefix (n - alen ext) (cstr s) ++ ext) as Hsplit.
    { unfold prefix. rewrite <- Heq at 2. by rewrite take_drop. }
    unfold asset_char in Hall. destruct (for_find _ _ _).
    + split; [done|]. intros [?|(_ & stem & Hw & Hst & Hf)]; [done|]. exfalso.
      assert (stem = prefix (n - alen ext) (cstr s)) as -> by (apply (app_inv_tail ext); congruence).
      destruct Hall as [_ Hall]. discriminate Hall. eapply Forall_impl; [exact Hf|]. intros c Hc. cbn in Hc |- *.
      by apply negb_false_iff.
    + split; [|done]. intros _. right. split; [done|]. exists (prefix (n - alen ext) (cstr s)). split; [done|].
      split.
      * intros He. apply (f_equal alen) in Hsplit. rewrite He in Hsplit. cbn in Hsplit. rewrite <- strlen_cstr in Hsplit. lia.
      * destruct Hall as [Hall _]. eapply Forall_impl; [exact (Hall eq_refl)|]. intros c Hc. cbn in Hc. by apply negb_false_iff in Hc.
  - rewrite bool_decide_eq_false_2 by done. cbn [negb]. split; [done|]. intros [?|(_ & stem & Hw & Hst & _)]; [done|].
    exfalso. apply Hneq. assert (n = alen stem + alen ext) as Hn by (unfold n; rewrite strlen_cstr, Hw, alen_app; done).
    rewrite Hw. replace (Z.to_nat (n - alen ext)) with (length stem) by (unfold alen in *; lia). by rewrite drop_app_length.
Qed.

Lemma cstr_idem s : cstr (cstr s) = cstr s.
Proof. induction s as [|c s IH]; [done|]. cbn. destruct (c =? 0) eqn:E; [done|]. cbn. by rewrite E, IH. Qed.

Lemma is_register_map_cstr s :
  bvstk_device_profile_is_register_map (Some s) = bvstk_device_profile_is_register_map (Some (cstr s)).
Proof.
  unfold bvstk_device_profile_is_register_map. unfold streq. rewrite cstr_idem.
  assert (strlen (cstr s) = strlen s) as -> by (unfold strlen; by rewrite cstr_idem).
  case_bool_decide; [done|]. destruct (strlen s <=? alen register_map_suffix) eqn:E; [done|]. bsimp.
  erewrite for_find_ext; [done|]. intros i Hi. cbn beta. do 3 f_equal.
  change (Z.of_nat (length register_map_suffix)) with (alen register_map_suffix) in Hi.
  assert (forall l : chars, (drop (Z.to_nat (strlen s - alen register_map_suffix)) l).[i] =
    l.[strlen s - alen register_map_suffix + i]) as Hd.
  { intros l. unfold aget. rewrite lookup_total_drop. f_equal. lia. }
  rewrite !Hd. symmetry. apply cstr_chars. lia.
Qed.

Lemma asset_char_plain c : asset_char c = true -> plain_char c = true.
Proof.
  unfold asset_char, plain_char, is_lower, is_upper, digit. intros H.
  assert (97 <= c <= 122 \/ 65 <= c <= 90 \/ 48 <= c <= 57 \/ c = 95 \/ c = 45) as Hc.
  { repeat (apply orb_true_iff in H as [H|H]); bsimp; lia. }
  rewrite (proj2 (Z.leb_le _ _)), (proj2 (Z.ltb_lt _ _)), !(proj2 (Z.eqb_neq _ _)) by lia. done.
Qed.

Lemma asset_plain s ext :
  alen s = 64 -> clean ext -> plain ext -> asset_name_valid s ext = true -> plain (cstr s) /\ alen (cstr s) < 64.
Proof.
  intros Hs Hc Hp H. apply asset_name_iff in H as [->|(Hl & stem & Hw & _ & Hf)]; [by split; [constructor|]| |done|done].
  split; [|done]. rewrite Hw. apply plain_app; [|done]. eapply Forall_impl; [exact Hf|]. apply asset_char_plain.
Qed.

Lemma asset_stored s ext :
  alen s = 64 -> clean ext -> plain ext -> asset_name_valid s ext = true ->
  asset_name_valid (store_text (fill 64 0) (cstr s)) ext = true.
Proof.
  intros Hs Hc Hp H. destruct (asset_plain s ext Hs Hc Hp H) as [Hpl Hl].
  assert (alen (store_text (fill 64 0) (cstr s)) = 64) as Hb by (rewrite store_text_alen; done).
  apply asset_name_iff; [done|done|]. rewrite store_text_cstr by (by apply plain_clean). by apply asset_name_iff.
Qed.

Lemma extensions_plain : (clean json_extension /\ plain json_extension) /\ (clean js_extension /\ plain js_extension).
Proof. split; (split; [done|by apply (bool_decide_unpack _)]). Qed.

Lemma register_map_stored s :
  alen s = 64 -> s.[0] <> 0 -> register_map_valid s = true -> register_map_valid (store_text (fill 64 0) (cstr s)) = true.
Proof.
  unfold register_map_valid. intros Hs Hne H. apply andb_true_iff in H as [H1 H2].
  destruct extensions_plain as [[Hjc Hjp] _]. rewrite asset_stored by done. cbn [andb].
  rewrite (proj2 (Z.eqb_neq _ _)) in H2 by done. cbn [orb] in H2.
  destruct (asset_plain s json_extension Hs Hjc Hjp H1) as [Hpl _].
  rewrite is_register_map_cstr, store_text_cstr by (by apply plain_clean).
  rewrite is_register_map_cstr in H2. rewrite H2. apply orb_true_r.
Qed.

(** ** The parts of the text are values *)

Section read_back.
Context (a : format_args) (W : writable a).
Let meta := fa_meta a.

Lemma text_value_json n cap s : string_ok cap (cstr s) -> json_text n (text_value s).
Proof. apply string_json. Qed.

Lemma name_ok_string : string_ok 32 (cstr (fa_name a)).
Proof. destruct (wr_name a W) as (Hl & Hw). apply plain_string_ok; [|done]. by apply id_word_plain, wr_name. Qed.

Lemma resource_name_eq i : 0 <= i < fa_count a -> resource_name a i = quote (rid a i).
Proof.
  intros Hi. unfold resource_name, text_value. rewrite escape_plain; [done|]. by apply id_word_plain, (wr_ids a W).
Qed.

Lemma resource_name_json n i : 0 <= i < fa_count a -> json_text n (resource_name a i).
Proof. intros Hi. rewrite resource_name_eq by done. apply json_plain. by apply id_word_plain, (wr_ids a W). Qed.

Lemma literal_json n s : bool_decide (plain (lit s)) = true -> json_text n (quote (lit s)).
Proof. intros Hs. apply json_plain. by apply bool_decide_eq_true in Hs. Qed.

Lemma true_json n : json_text n (lit "true").
Proof. apply json_word. set_solver. Qed.
Lemma false_json n : json_text n (lit "false").
Proof. apply json_word. set_solver. Qed.
Lemma digit_json n d : 48 < d <= 57 -> json_text n [d].
Proof.
  intros Hd. apply json_number. apply (number_text_intro [] [d] [] []); auto. right. unfold digit_run, digit. cbn.
  rewrite (proj2 (Z.eqb_neq _ _)) by lia. split; [|done]. split; [done|]. constructor; [|constructor].
  by rewrite !(proj2 (Z.leb_le _ _)) by lia.
Qed.

Lemma spaced_list_json n ts : Forall (json_text n) ts -> json_text (S n) (spaced_list ts).
Proof. intros Hts. apply arr_json; [constructor|apply blank_space|constructor|done]. Qed.

Lemma empty_list_json n : json_text (S n) (lit "[]").
Proof. apply (spaced_list_json n []). constructor. Qed.

(** An object from its names and the proofs of its values. *)
Ltac spaced_value :=
  lazymatch goal with
  | |- json_text (S ?n) (spaced ?ms) =>
      let ns := eval cbn [fmap list_fmap fst] in (fst <$> ms) in
      let ts := eval cbn [fmap list_fmap snd] in (snd <$> ms) in
      apply (spaced_json n ns ts); [by apply (bool_decide_unpack _)|reflexivity|
        repeat (apply Forall_cons_2); [..|constructor]]
  end.

Lemma maximum_range : 0 <= maximum_of a < 16 ^ 8.
Proof. unfold maximum_of. destruct (fa_mdio a); done. Qed.

Lemma format_width_div : 0 <= format_width a `div` 4 <= 8.
Proof. unfold format_width. destruct (fa_mdio a); done. Qed.

Lemma hex_field_json n v : 0 <= v <= maximum_of a -> json_text n (hex_value (format_width a `div` 4) v).
Proof. intros Hv. pose proof maximum_range. apply hex_value_json; [apply format_width_div|lia]. Qed.

Lemma hex_field_read v : 0 <= v <= maximum_of a -> hex (Some (hex_value (format_width a `div` 4) v)) (maximum_of a) = Some v.
Proof.
  intros Hv. pose proof maximum_range as Hm. change (16 ^ 8) with 4294967296 in Hm.
  apply hex_value_read; [apply format_width_div|lia|lia].
Qed.

Lemma count_le : fa_count a <= 256.
Proof. pose proof (wr_count a W). destruct (fa_mdio a); lia. Qed.

Lemma resource_json i : 0 <= i < fa_count a -> json_text 1 (resource_text a i).
Proof.
  intros Hi. pose proof count_le. unfold resource_text. spaced_value.
  - by apply resource_name_json.
  - by apply literal_json.
  - apply hex_value_json; [lia|]. change (16 ^ 8) with 4294967296. lia.
Qed.

Lemma rule_json r : rule_ok a r -> json_text 2 (rule_text a r).
Proof.
  destruct r as [[reg val] mask]. intros (Hreg & Hval & Hmask). unfold rule_text. pose proof (wr_max_value a W).
  spaced_value; [by apply resource_name_json|].
  spaced_value; apply hex_field_json; unfold maximum_of; destruct (fa_mdio a); lia.
Qed.

Lemma seed_json s : seed_ok a s -> json_text 1 (seed_text a s).
Proof.
  destruct s as [reg val]. intros (Hreg & Hval). cbn [fst snd] in *. unfold seed_text. cbn [fst snd].
  spaced_value; [by apply resource_name_json|by apply hex_field_json].
Qed.

Lemma device_json : json_text 1 (device_text a).
Proof.
  unfold device_text. destruct (wr_model a W) as [Hm _]. pose proof (wr_class a W) as Hc. pose proof (wr_vendor a W) as Hv.
  pose proof (wr_label a W) as Hl. unfold model_of, class_of, vendor_of, label_of, v2_of in *.
  assert (forall n, json_text n (text_value (if truth (pf_version (fa_meta a)) then pf_device_class (fa_meta a)
    else if fa_mdio a then lit "phy" else lit "generic"))) as Hcj.
  { intros n. apply text_value_json with 64. apply plain_string_ok.
    - assert (Forall plain class_names) as Hall by (by apply (bool_decide_unpack _)). rewrite Forall_forall in Hall. by apply Hall.
    - assert (Forall (fun w => alen w < 64) class_names) as Hall by (by apply (bool_decide_unpack _)).
      rewrite Forall_forall in Hall. by apply Hall. }
  assert (forall n, json_text n (text_value (if truth (pf_version (fa_meta a)) then pf_model (fa_meta a) else fa_name a))) as Hmj
    by (intros n; by apply text_value_json with 65).
  unfold optional. destruct (truth (pf_version (fa_meta a))); cbn [andb].
  - destruct (truth _), (truth _); cbn [app]; spaced_value; try apply Hcj; try apply Hmj;
      (by apply text_value_json with 65) || (by apply text_value_json with 97).
  - cbn [app]. spaced_value; [apply Hmj|apply Hcj].
Qed.

Lemma transport_json : json_text 1 (transport_text a).
Proof.
  pose proof (wr_address a W). unfold transport_text, optional.
  assert (forall n, json_text n (hex_value 2 (fa_address a))) as Ha.
  { intros n. apply hex_value_json; [lia|]. change (16 ^ 8) with 4294967296. destruct (fa_mdio a); lia. }
  destruct (fa_mdio a); cbn [negb app]; spaced_value.
  - by apply literal_json.
  - apply json_plain. by apply (bool_decide_unpack _).
  - apply Ha.
  - by apply literal_json.
  - apply json_plain. by apply (bool_decide_unpack _).
  - apply Ha.
  - apply (digit_json 0 55). lia.
Qed.

Lemma options_json : json_text 2 (options_text a).
Proof.
  destruct (wr_delays a W), (wr_autopoll a W) as [Hr _]. pose proof (wr_max_value a W). unfold options_text.
  destruct (fa_mdio a); spaced_value.
  - destruct (fa_autopoll_enabled a); [apply true_json|apply false_json].
  - apply dec_json. lia.
  - apply dec_json. lia.
  - apply spaced_list_json. apply Forall_fmap. eapply Forall_impl; [exact Hr|]. intros r Hr'. by apply resource_name_json.
  - apply hex_value_json; [lia|]. change (16 ^ 8) with 4294967296. lia.
  - apply true_json.
Qed.

Lemma protocol_json : json_text 3 (protocol_text a).
Proof.
  unfold protocol_text. spaced_value; [|apply options_json].
  destruct (fa_mdio a); apply json_plain; by apply (bool_decide_unpack _).
Qed.

Lemma driver_json n : json_text (S n) driver_text.
Proof. unfold driver_text. spaced_value. by apply literal_json. Qed.

Lemma width_range : 0 <= format_width a < 4294967296.
Proof. unfold format_width. destruct (fa_mdio a); lia. Qed.

Lemma defaults_json : json_text 3 (defaults_text a).
Proof.
  unfold defaults_text. spaced_value. spaced_value.
  - apply dec_json, width_range.
  - by apply literal_json.
  - apply hex_field_json. unfold maximum_of. destruct (fa_mdio a); lia.
  - apply driver_json.
  - apply driver_json.
Qed.

Lemma rules_json (rules : list (Z * Z * Z)) : Forall (rule_ok a) rules -> json_text 3 (spaced_list (rule_text a <$> rules)).
Proof.
  intros Hr. apply spaced_list_json. apply Forall_fmap. eapply Forall_impl; [exact Hr|]. intros r. apply rule_json.
Qed.

Lemma read_policy_json : json_text 2 (spaced [(lit "mode", quote (lit "blacklist")); (lit "rules", lit "[]")]).
Proof. spaced_value; [by apply literal_json|apply empty_list_json]. Qed.

Lemma policy_json : json_text 5 (policy_text a).
Proof.
  destruct (wr_rules a W) as [Hw Hb]. unfold policy_text. spaced_value.
  - apply (json_text_mono 2); [lia|]. apply read_policy_json.
  - spaced_value.
    + destruct (fa_black a); by apply literal_json.
    + destruct (fa_black a); by apply rules_json.
    + destruct (fa_black a); by apply rules_json.
Qed.

Lemma settings_json : json_text 3 (settings_text a).
Proof.
  unfold settings_text. spaced_value; [apply empty_list_json| |apply false_json].
  apply spaced_list_json. apply Forall_fmap. eapply Forall_impl; [exact (wr_seeds a W)|]. intros s. apply seed_json.
Qed.

Lemma observability_json : json_text 1 observability_text.
Proof. unfold observability_text. spaced_value; apply true_json. Qed.

Lemma resources_items : Forall (json_text 1) (resource_text a <$> seqZ 0 (fa_count a)).
Proof.
  apply Forall_fmap, Forall_forall. intros i Hi. apply elem_of_seqZ in Hi. apply resource_json. lia.
Qed.

Lemma resources_json : json_text 2 (resources_text a).
Proof. apply arr_json; [by repeat constructor|by repeat constructor|by repeat constructor|apply resources_items]. Qed.

Lemma map_string : string_ok 64 (cstr (pf_register_map meta)).
Proof.
  destruct (wr_assets a W) as [Hm _]. pose proof (wr_map a W) as Hv. destruct extensions_plain as [[Hjc Hjp] _].
  unfold register_map_valid in Hv. apply andb_true_iff in Hv as [Hv _].
  destruct (asset_plain _ _ Hm Hjc Hjp Hv). by apply plain_string_ok.
Qed.

Lemma view_string : string_ok 64 (cstr (pf_view meta)).
Proof.
  destruct (wr_assets a W) as [_ Hm]. destruct extensions_plain as [_ [Hjc Hjp]].
  destruct (asset_plain _ _ Hm Hjc Hjp (wr_view a W)). by apply plain_string_ok.
Qed.

(** ** The parts of [parse] *)

Definition opt_value (b : bool) (v : chars) : view_t := if b then Some v else None.

Definition root_views : list view_t :=
  [Some (lit "2"); Some (text_value (fa_name a)); Some (device_text a); Some (transport_text a); Some (protocol_text a);
   Some (resources_text a); Some (defaults_text a); Some (policy_text a); Some (settings_text a); Some observability_text;
   opt_value (truth ((pf_register_map meta).[0])) (text_value (pf_register_map meta));
   opt_value (truth ((pf_view meta).[0])) (text_value (pf_view meta))].

Definition stored_name : chars := store_text (fill 32 0) (cstr (fa_name a)).

Lemma mono_15 n t : (n <= 15)%nat -> json_text n t -> json_text 15 t.
Proof. apply json_text_mono. Qed.

Lemma root_parts_json :
  Forall (json_text 15) [lit "2"; text_value (fa_name a); device_text a; transport_text a; protocol_text a; defaults_text a;
    resources_text a; policy_text a; settings_text a; observability_text].
Proof.
  repeat first [apply Forall_nil_2|apply Forall_cons_2].
  - apply (digit_json 15 50). lia.
  - apply text_value_json with 32, name_ok_string.
  - apply (mono_15 1); [lia|apply device_json].
  - apply (mono_15 1); [lia|apply transport_json].
  - apply (mono_15 3); [lia|apply protocol_json].
  - apply (mono_15 3); [lia|apply defaults_json].
  - apply (mono_15 2); [lia|apply resources_json].
  - apply (mono_15 5); [lia|apply policy_json].
  - apply (mono_15 3); [lia|apply settings_json].
  - apply (mono_15 1); [lia|apply observability_json].
Qed.

Lemma asset_parts_json :
  json_text 15 (text_value (pf_register_map meta)) /\ json_text 15 (text_value (pf_view meta)).
Proof. split; [apply text_value_json with 64, map_string|apply text_value_json with 64, view_string]. Qed.

Lemma profile_fields : fields (Some (profile_text a)) root_keys = Some root_views.
Proof.
  destruct asset_parts_json as [Hm Hv]. unfold profile_text, profile_members, root_views, optional, opt_value. fold meta.
  pose proof (fields_root (lit "2") (text_value (fa_name a)) (device_text a) (transport_text a) (protocol_text a)
    (defaults_text a) (resources_text a) (policy_text a) (settings_text a) observability_text
    (opt_value (truth ((pf_register_map meta).[0])) (text_value (pf_register_map meta)))
    (opt_value (truth ((pf_view meta).[0])) (text_value (pf_view meta))) root_parts_json) as H.
  unfold opt_value in H. destruct (truth ((pf_register_map meta).[0])), (truth ((pf_view meta).[0])); apply H; done.
Qed.

Lemma profile_members_plain : plain_members 15 (profile_members a).
Proof.
  pose proof root_parts_json as H. destruct asset_parts_json as [Hm Hv].
  repeat match goal with H : Forall _ (_ :: _) |- _ => inversion_clear H end.
  assert (forall k t, bool_decide (plain k) = true -> json_text 15 t -> plain k /\ json_text 15 t) as Hone.
  { intros k t Hk Ht. by apply bool_decide_eq_true in Hk. }
  unfold plain_members, profile_members, optional. fold meta. apply Forall_app. split; [|apply Forall_app; split; [|apply Forall_app; split]].
  - repeat first [apply Forall_nil_2|apply Forall_cons_2]; by apply Hone.
  - destruct (truth _); repeat first [apply Forall_nil_2|apply Forall_cons_2]; by apply Hone.
  - destruct (truth _); repeat first [apply Forall_nil_2|apply Forall_cons_2]; by apply Hone.
  - repeat first [apply Forall_nil_2|apply Forall_cons_2]; by apply Hone.
Qed.

Lemma profile_json : json_text 16 (profile_text a).
Proof. apply (obj_json 15); [by repeat constructor|by repeat constructor|by repeat constructor|exact profile_members_plain]. Qed.

Lemma parse_root_ok :
  alen (profile_text a ++ [10]) <= BVSTK_PROFILE_JSON_MAX ->
  parse_root (Some (profile_text a ++ [10; 0])) = inl (root_views, stored_name).
Proof.
  intros Hlen. unfold parse_root.
  pose proof (json_text_chars 16 _ profile_json) as Hch.
  assert (cstr (profile_text a ++ [10; 0]) = profile_text a ++ [10]) as Hc.
  { change (profile_text a ++ [10; 0]) with (profile_text a ++ [10] ++ 0 :: []). rewrite app_assoc.
    apply cstr_terminated, chars_clean, Forall_app. split; [done|]. by repeat constructor. }
  assert (Forall byte (profile_text a ++ [10; 0])) as Hb by (apply Forall_app; split; [by apply char_bytes|by repeat constructor]).
  rewrite (proj2 (document_spec (profile_text a ++ [10; 0]) (profile_text a) Hb)).
  - rewrite profile_fields. unfold root_views at 1 2 3. get_views.
    change (number (Some (lit "2")) 2) with (Some 2). cbn iota. change (negb (2 =? 2)) with false. cbn iota.
    unfold text_value at 1. rewrite (string_read 32) by apply name_ok_string.
    fold stored_name. unfold stored_name. destruct (store_text_shape (fill 32 0) (cstr (fa_name a))) as [r Hr]. rewrite Hr.
    rewrite id_word_valid by apply (wr_name a W). rewrite <- Hr. done.
  - split; [by rewrite Hc|]. exists [], [10]. rewrite Hc. split; [done|]. split; [constructor|]. split; [by repeat constructor|].
    split; [apply profile_json|done].
Qed.

Definition stored_asset (buf : chars) : chars :=
  if truth (buf.[0]) then store_text (fill 64 0) (cstr buf) else fill 64 0.

Lemma nonzero_head (s : chars) : alen s = 64 -> truth (s.[0]) = true -> s.[0] <> 0 /\ cstr s <> [].
Proof.
  intros Hl Ht. unfold truth in Ht. apply negb_true_iff in Ht.
  pose proof (strlen_zero s ltac:(lia)) as Hz. rewrite Ht in Hz. symmetry in Hz. apply bool_decide_eq_false in Hz.
  bsimp. done.
Qed.

Lemma store_text_head buf out : clean out -> out <> [] -> (store_text buf out).[0] <> 0.
Proof.
  intros Hc Hne. destruct (store_text_shape buf out) as [r ->]. destruct out as [|c o]; [done|].
  change (((c :: o) ++ 0 :: r).[0]) with c. unfold clean in Hc. cbn in Hc. destruct (Z.eqb_spec c 0); done.
Qed.

Lemma parse_assets_ok :
  parse_assets root_views = inl (stored_asset (pf_register_map meta), stored_asset (pf_view meta)).
Proof.
  destruct (wr_assets a W) as [Hml Hvl]. destruct extensions_plain as [_ [Hjc Hjp]].
  unfold parse_assets, root_views. get_views. unfold stored_asset, opt_value, text_value.
  pose proof map_string as Hms. pose proof view_string as Hvs.
  destruct (truth ((pf_register_map meta).[0])) eqn:Em; cbn [present andb].
  - destruct (nonzero_head _ Hml Em) as [Hm0 Hmne].
    rewrite (optional_text_read (fill 64 0)) by done.
    rewrite register_map_stored by (done || apply (wr_map a W)). cbn [negb].
    assert (((store_text (fill 64 0) (cstr (pf_register_map meta))).[0] =? 0) = false) as ->.
    { apply Z.eqb_neq, store_text_head; [by apply (string_clean 64)|done]. }
    destruct (truth ((pf_view meta).[0])) eqn:Ev; cbn [present andb]; [|done].
    destruct (nonzero_head _ Hvl Ev) as [Hv0 Hvne].
    rewrite (optional_text_read (fill 64 0)) by done.
    rewrite asset_stored by (done || apply (wr_view a W)). done.
  - destruct (truth ((pf_view meta).[0])) eqn:Ev; [|done]. exfalso.
    destruct (nonzero_head _ Hvl Ev) as [Hv0 _]. pose proof (wr_view_map a W Hv0) as Hc. unfold truth in Em.
    apply negb_false_iff in Em. bsimp. done.
Qed.

Definition stored_optional (cap : Z) (s : chars) : chars :=
  if bool_decide (s = []) then fill cap 0 else store_text (fill cap 0) s.

Definition device_result : device_part :=
  DevicePart (store_text (fill 65 0) (model_of a)) (stored_optional 65 (vendor_of a))
    (store_text (store_text (fill 16 0) (lit "generic")) (class_of a)) (stored_optional 97 (label_of a)).

Lemma truth_head (s : chars) : 0 < alen s -> truth (s.[0]) = negb (bool_decide (cstr s = [])).
Proof. intros Hs. unfold truth. by rewrite strlen_zero. Qed.

Lemma optional_text_stored cap (buf s : chars) (b : bool) :
  alen (fill (A := Z) cap 0) = cap -> string_ok cap s -> b = negb (bool_decide (s = [])) ->
  optional_text (opt_value b (quote (escape s))) (fill cap 0) = Some (stored_optional cap s).
Proof.
  intros Hcap Hs ->. unfold stored_optional, opt_value. case_bool_decide as He; [done|]. cbn [negb].
  rewrite (optional_text_read (fill cap 0)); [done|by rewrite Hcap|done].
Qed.

Lemma class_stored : class_valid (store_text (store_text (fill 16 0) (lit "generic")) (class_of a)) = true.
Proof.
  pose proof (wr_class a W) as Hc. unfold class_valid. apply existsb_exists. exists (class_of a).
  split; [by apply list_elem_of_In|]. apply streq_spec.
  assert (Forall clean class_names) as Hall by (by apply (bool_decide_unpack _)).
  rewrite Forall_forall in Hall. rewrite store_text_cstr by (by apply Hall). symmetry. by apply Hall.
Qed.

Lemma class_string : string_ok 16 (class_of a).
Proof.
  pose proof (wr_class a W) as Hc.
  assert (Forall plain class_names) as H1 by (by apply (bool_decide_unpack _)).
  assert (Forall (fun w => alen w < 16) class_names) as H2 by (by apply (bool_decide_unpack _)).
  rewrite Forall_forall in H1, H2. apply plain_string_ok; auto.
Qed.

Lemma parse_device_ok : parse_device (Some (device_text a)) = inl device_result.
Proof.
  destruct (wr_model a W) as [Hm Hne]. destruct (wr_buffers a W) as [Hvb Hlb].
  pose proof (wr_vendor a W) as Hv. pose proof (wr_label a W) as Hl. pose proof class_string as Hc.
  pose proof (fields_device (quote (escape (model_of a))) (quote (escape (class_of a)))
    (opt_value (v2_of a && truth ((pf_vendor meta).[0])) (text_value (pf_vendor meta)))
    (opt_value (v2_of a && truth ((pf_label meta).[0])) (text_value (pf_label meta)))) as Hf.
  assert (fields (Some (device_text a)) device_keys =
    Some [Some (quote (escape (model_of a))); opt_value (v2_of a && truth ((pf_vendor meta).[0])) (quote (escape (vendor_of a)));
          Some (quote (escape (class_of a))); opt_value (v2_of a && truth ((pf_label meta).[0])) (quote (escape (label_of a)))]) as Hd.
  { unfold meta, device_text, optional, opt_value, vendor_of, label_of, model_of, class_of, v2_of in *.
    destruct (truth (pf_version (fa_meta a))); cbn [andb] in *.
    - destruct (truth ((pf_vendor (fa_meta a)).[0])), (truth ((pf_label (fa_meta a)).[0])); apply Hf; try done;
        (eapply string_json; done).
    - apply Hf; try done; (eapply string_json; done). }
  unfold parse_device. rewrite Hd. get_views.
  rewrite (string_read 65) by done.
  rewrite (proj2 (Z.eqb_neq _ _)) by (apply store_text_head; [by apply (string_clean 65)|done]).
  rewrite (optional_text_stored 65 []); [|done|done|].
  2: { unfold vendor_of. destruct (v2_of a); [|done]. by rewrite truth_head. }
  rewrite (string_read 16) by done. cbn [option_map]. rewrite class_stored. cbn [negb].
  rewrite (optional_text_stored 97 []); [done|done|done|].
  unfold label_of. destruct (v2_of a); [|done]. by rewrite truth_head.
Qed.

Lemma parse_transport_ok : parse_transport (fa_mdio a) (Some (transport_text a)) = inl (fa_address a).
Proof.
  pose proof (wr_address a W) as Ha.
  assert (json_text 15 (hex_value 2 (fa_address a))) as Hj.
  { apply hex_value_json; [lia|]. change (16 ^ 8) with 4294967296. destruct (fa_mdio a); lia. }
  pose proof (fields_transport (fa_mdio a) (quote (if fa_mdio a then lit "mdio" else lit "i2c"))
    (quote (lit "pl_" ++ (if fa_mdio a then lit "mdio" else lit "i2c") ++ lit "_0")) (hex_value 2 (fa_address a))) as Hf.
  unfold parse_transport, transport_text. rewrite Hf; [|destruct (fa_mdio a); apply json_plain; by apply (bool_decide_unpack _)..|done].
  get_views. rewrite hex_value_read by (destruct (fa_mdio a); lia).
  destruct (fa_mdio a); rewrite u8_id by lia; vm_compute; reflexivity.
Qed.

Definition options_result : options_part :=
  if fa_mdio a then
    OptionsPart [None; None; Some (if fa_autopoll_enabled a then lit "true" else lit "false");
      Some (spaced_list (resource_name a <$> fa_autopoll a)); Some (dec (fa_reg_delay_ms a)); Some (dec (fa_cycle_delay_ms a))]
      0 (fa_autopoll_enabled a) (fa_reg_delay_ms a) (fa_cycle_delay_ms a)
  else
    OptionsPart [Some (hex_value 2 (fa_max_value_code a)); Some (lit "true"); None; None; None; None]
      (fa_max_value_code a) false 0 0.

Lemma options_fields : fields (Some (options_text a)) option_keys = Some (op_options options_result).
Proof.
  destruct (wr_delays a W), (wr_autopoll a W) as [Hr _]. pose proof (wr_max_value a W). unfold options_text, options_result.
  destruct (fa_mdio a).
  - apply fields_options_mdio.
    + destruct (fa_autopoll_enabled a); [apply true_json|apply false_json].
    + apply dec_json. lia.
    + apply dec_json. lia.
    + apply spaced_list_json. apply Forall_fmap. eapply Forall_impl; [exact Hr|]. intros r Hr'. by apply resource_name_json.
  - apply fields_options_i2c; [|apply true_json]. apply hex_value_json; [lia|]. change (16 ^ 8) with 4294967296. lia.
Qed.

Lemma parse_protocol_ok : parse_protocol (fa_mdio a) (Some (protocol_text a)) = inl options_result.
Proof.
  destruct (wr_delays a W) as [Hd1 Hd2]. pose proof (wr_max_value a W) as Hm. unfold parse_protocol, protocol_text.
  rewrite fields_protocol; [|destruct (fa_mdio a); apply json_plain; by apply (bool_decide_unpack _)|
    apply (mono_15 2); [lia|apply options_json]].
  get_views. rewrite options_fields. unfold options_result.
  assert (equal (Some (quote (lit "bvstk_" ++ (if fa_mdio a then lit "mdio" else lit "i2c") ++ lit "_bridge")))
    (if fa_mdio a then lit "bvstk_mdio_bridge" else lit "bvstk_i2c_bridge") = true) as -> by (by destruct (fa_mdio a)).
  cbn [negb]. destruct (fa_mdio a); cbn [op_options]; get_views.
  - cbn [present orb optional_number].
    assert (boolean (Some (if fa_autopoll_enabled a then lit "true" else lit "false")) = Some (fa_autopoll_enabled a)) as ->
      by (by destruct (fa_autopoll_enabled a)).
    by rewrite !dec_read by lia.
  - rewrite hex_value_read by lia. rewrite u8_id by lia. reflexivity.
Qed.

Definition default_views : list view_t :=
  [None; None; None; Some (dec (format_width a)); Some (quote (lit "rw"));
   Some (hex_value (format_width a `div` 4) (maximum_of a)); Some driver_text; Some driver_text; None; None; None; None; None].

Lemma parse_defaults_ok : parse_defaults (Some (defaults_text a)) = inl default_views.
Proof.
  pose proof maximum_range as Hm.
  destruct (fields_register (dec (format_width a)) (quote (lit "rw")) (hex_value (format_width a `div` 4) (maximum_of a))
    driver_text driver_text) as [H1 H2].
  - apply dec_json, width_range.
  - by apply literal_json.
  - apply hex_field_json. lia.
  - apply driver_json.
  - apply driver_json.
  - unfold parse_defaults, defaults_text. fold (maximum_of a). rewrite H1. get_views. rewrite H2. get_views. reflexivity.
Qed.

(** ** Resources *)

Definition id_offset (i : Z) : Z := alen (ids_text a i).

(** The identifiers of a parsed profile: after the empty one, each with its
    terminator, in the order of the registers. *)
Definition ids_buffer (k : Z) : chars := ids_text a k ++ fill (BVSTK_PROFILE_IDS_CAP - id_offset k) 0.

Definition resources_at (k : Z) : resources :=
  Resources (fill k true ++ fill (256 - k) false) k ((id_offset <$> seqZ 0 k) ++ fill (256 - k) 0) (id_offset k) (ids_buffer k).

Lemma ids_text_split k i :
  0 <= k < i -> exists rest, ids_text a i = ids_text a k ++ rid a k ++ 0 :: rest.
Proof.
  intros Hk. unfold ids_text. replace i with (k + (i - k)) by lia. rewrite seqZ_app by lia. rewrite Z.add_0_l.
  rewrite (seqZ_cons k) by lia. rewrite fmap_app, concat_app. cbn [fmap list_fmap concat].
  eexists. cbn [app]. do 2 f_equal. rewrite <- app_assoc. reflexivity.
Qed.

Lemma ids_text_succ k : 0 <= k -> ids_text a (k + 1) = ids_text a k ++ rid a k ++ [0].
Proof.
  intros Hk. unfold ids_text. rewrite seqZ_app by lia. rewrite Z.add_0_l. rewrite (seqZ_cons k), (seqZ_nil (Z.succ k)) by lia.
  rewrite fmap_app, concat_app. cbn [fmap list_fmap concat]. by rewrite app_nil_r.
Qed.

Lemma id_offset_succ k : 0 <= k -> id_offset (k + 1) = id_offset k + (alen (rid a k) + 1).
Proof. intros Hk. unfold id_offset. rewrite ids_text_succ by done. rewrite !alen_app. unfold alen. cbn. lia. Qed.

Lemma id_offset_le k : 0 <= k <= fa_count a -> 1 <= id_offset k <= BVSTK_PROFILE_IDS_CAP.
Proof.
  intros Hk. pose proof (wr_fit a W) as Hfit. split.
  - unfold id_offset, ids_text. rewrite alen_cons. pose proof (alen_nonneg (concat ((fun i => rid a i ++ [0]) <$> seqZ 0 k))). lia.
  - destruct (decide (k = fa_count a)) as [->|]; [done|].
    destruct (ids_text_split k (fa_count a)) as [rest Hr]; [lia|]. unfold id_offset. rewrite Hr, alen_app in Hfit.
    pose proof (alen_nonneg (rid a k ++ 0 :: rest)). lia.
Qed.

(** The identifier stored for a register, in any buffer that starts with the texts. *)
Lemma id_at_offset k i r :
  0 <= k < i -> i <= fa_count a -> cstr (drop (Z.to_nat (id_offset k)) (ids_text a i ++ r)) = rid a k.
Proof.
  intros Hk Hi. destruct (ids_text_split k i Hk) as [rest ->]. rewrite <- app_assoc.
  unfold id_offset, alen. rewrite Nat2Z.id, drop_app_length. rewrite <- app_assoc. cbn [app].
  apply cstr_terminated, plain_clean, id_word_plain, (wr_ids a W). lia.
Qed.

Lemma offsets_at k i : 0 <= i < k -> ((id_offset <$> seqZ 0 k) ++ fill (256 - k) 0).[i] = id_offset i.
Proof.
  intros Hi. apply list_lookup_total_correct. rewrite lookup_app_l by (rewrite length_fmap, length_seqZ; lia).
  rewrite list_lookup_fmap, lookup_seqZ_lt by lia. cbn. do 2 f_equal. lia.
Qed.

Lemma seen_at k i : 0 <= k -> 0 <= i < 256 -> (fill k true ++ fill (256 - k) false).[i] = (i <? k).
Proof.
  intros Hk Hi. apply list_lookup_total_correct. unfold fill. destruct (Z.ltb_spec i k).
  - rewrite lookup_app_l by (rewrite length_replicate; lia). apply lookup_replicate. lia.
  - rewrite lookup_app_r, length_replicate by (rewrite length_replicate; lia). apply lookup_replicate. lia.
Qed.

Lemma fill_set {A} (l : list A) (x y : A) k :
  alen l = k -> 0 <= k < 256 -> (l ++ fill (256 - k) x).[k <- y] = l ++ [y] ++ fill (256 - (k + 1)) x.
Proof.
  intros Hl Hk. unfold aset, alen in *. rewrite insert_app_r_alt by lia.
  replace (Z.to_nat k - length l)%nat with O by lia. unfold fill.
  replace (Z.to_nat (256 - k)) with (S (Z.to_nat (256 - (k + 1)))) by lia. done.
Qed.

Lemma resource_is_supported (id kind address : view_t) :
  resource_supported (fa_mdio a)
    (with_defaults [id; kind; address; None; None; None; None; None; None; None; None; None; None] default_views) = true.
Proof.
  pose proof maximum_range as Hm. change (16 ^ 8) with 4294967296 in Hm.
  unfold with_defaults, default_views. cbn [take drop zip_with app]. unfold resource_supported. get_views.
  fold (format_width a). fold (maximum_of a).
  change (if fa_mdio a then 16 else 8) with (format_width a).
  rewrite dec_read by (unfold format_width; destruct (fa_mdio a); lia).
  rewrite hex_field_read by lia. rewrite !bool_decide_eq_true_2 by done.
  assert (driver_mode (Some driver_text) = true) as -> by (vm_compute; reflexivity).
  reflexivity.
Qed.

Lemma parse_resource_ok i :
  0 <= i < fa_count a ->
  parse_resource (fa_mdio a) default_views (resource_text a i) (resources_at i) = inl (resources_at (i + 1)).
Proof.
  intros Hi. pose proof count_le as Hc. pose proof (wr_count a W) as Hcount.
  pose proof (id_word_plain _ (wr_ids a W i Hi)) as Hp. destruct (wr_ids a W i Hi) as (Hlen & _).
  pose proof (id_offset_le (i + 1) ltac:(lia)) as Hfit. rewrite id_offset_succ in Hfit by lia.
  unfold BVSTK_PROFILE_IDS_CAP in Hfit. pose proof (id_offset_le i ltac:(lia)).
  unfold parse_resource, resource_text. rewrite resource_name_eq by done.
  rewrite fields_resource; [|by apply json_plain|by apply literal_json|apply hex_value_json; [lia|change (16 ^ 8) with 4294967296; lia]].
  get_views. rewrite text_plain by done.
  destruct (store_text_shape (fill 32 0) (rid a i)) as [r Hr]. rewrite Hr.
  rewrite id_word_valid by (by apply (wr_ids a W)).
  assert (equal (Some (quote (lit "register"))) (lit "register") = true) as -> by (vm_compute; reflexivity). cbn [negb orb].
  rewrite hex_value_read by (destruct (fa_mdio a); lia). cbn [rs_seen rs_count rs_id_offset rs_ids_size rs_ids resources_at].
  rewrite seen_at by lia. rewrite Z.ltb_irrefl. cbn [orb].
  rewrite (proj2 (Z.leb_gt _ _)) by (destruct (fa_mdio a); lia).
  assert (for_find 256 0 (fun k => (fill i true ++ fill (256 - i) false).[k] &&
    streq (rid a i ++ 0 :: r) (rs_id (resources_at i) k)) = None) as ->.
  { apply for_find_None. intros k Hk. change (0 + Z.of_nat 256) with 256 in Hk. rewrite seen_at by lia.
    destruct (Z.ltb_spec k i) as [Hlt|]; [|done]. cbn [andb]. unfold rs_id, resources_at, ids_buffer.
    cbn [rs_id_offset rs_ids]. rewrite offsets_at by lia. apply not_true_is_false. intros Hs. apply streq_spec in Hs.
    rewrite id_at_offset, cstr_terminated in Hs by (try lia; by apply plain_clean).
    pose proof (wr_distinct a W i k ltac:(lia) ltac:(lia) Hs). lia. }
  assert (strlen (rid a i ++ 0 :: r) = alen (rid a i)) as -> by (unfold strlen; by rewrite cstr_terminated by (by apply plain_clean)).
  unfold BVSTK_PROFILE_IDS_CAP. rewrite (proj2 (Z.ltb_ge _ _)) by lia.
  rewrite resource_is_supported. cbn [negb]. f_equal. unfold resources_at. f_equal.
  - rewrite fill_set by (try lia; apply alen_fill; lia). unfold fill.
    replace (Z.to_nat (i + 1)) with (Z.to_nat i + 1)%nat by lia. rewrite replicate_add, <- app_assoc. done.
  - rewrite fill_set by (try lia; unfold alen; rewrite length_fmap, length_seqZ; lia).
    rewrite seqZ_app by lia. rewrite fmap_app, <- app_assoc, Z.add_0_l. rewrite (seqZ_cons i), (seqZ_nil (Z.succ i)) by lia. done.
  - rewrite u16_id by lia. symmetry. apply id_offset_succ. lia.
  - assert (prefix (alen (rid a i) + 1) (rid a i ++ 0 :: r) = rid a i ++ [0]) as ->.
    { unfold prefix, alen. change (0 :: r) with ([0] ++ r). rewrite app_assoc.
      replace (Z.to_nat (Z.of_nat (length (rid a i)) + 1)) with (length (rid a i ++ [0])) by (rewrite length_app; cbn; lia).
      apply take_app_length. }
    unfold write_at, ids_buffer. rewrite id_offset_succ by lia.
    assert (alen (rid a i ++ [0]) = alen (rid a i) + 1) as Hla by (rewrite alen_app; done). rewrite Hla.
    assert (prefix (id_offset i) (ids_text a i ++ fill (BVSTK_PROFILE_IDS_CAP - id_offset i) 0) = ids_text a i) as ->.
    { unfold prefix, id_offset, alen. rewrite Nat2Z.id. apply take_app_length. }
    rewrite ids_text_succ by lia. rewrite <- !app_assoc. do 3 f_equal.
    rewrite drop_app. rewrite (drop_ge (ids_text a i)) by (unfold id_offset, alen in *; lia). cbn [app]. unfold fill.
    rewrite drop_replicate. f_equal. unfold id_offset, alen, BVSTK_PROFILE_IDS_CAP in *. lia.
Qed.

Lemma fold_resources n i :
  0 <= i -> i + Z.of_nat n <= fa_count a ->
  fold_items (parse_resource (fa_mdio a) default_views) (resource_text a <$> seqZ i (Z.of_nat n)) (resources_at i) =
  inl (resources_at (i + Z.of_nat n)).
Proof.
  revert i. induction n as [|n IH]; intros i Hi Hn; [by rewrite Z.add_0_r|].
  rewrite seqZ_cons by lia. cbn [fmap list_fmap fold_items]. rewrite parse_resource_ok by lia.
  replace (Z.pred (Z.of_nat (S n))) with (Z.of_nat n) by lia. rewrite <- Z.add_1_r. rewrite IH by lia. f_equal. f_equal. lia.
Qed.

Lemma no_resources_start : no_resources = resources_at 0.
Proof. reflexivity. Qed.

Lemma parse_resources_ok :
  parse_resources (fa_mdio a) (Some (resources_text a)) default_views = inl (resources_at (fa_count a)).
Proof.
  pose proof (wr_count a W) as Hc. unfold parse_resources, resources_text.
  rewrite for_items_arr; [|by repeat constructor|by repeat constructor|by repeat constructor|].
  2: { eapply Forall_impl; [exact resources_items|]. intros t. apply json_text_mono. lia. }
  pose proof (fold_resources (Z.to_nat (fa_count a)) 0 ltac:(lia) ltac:(lia)) as H. rewrite Z2Nat.id, Z.add_0_l in H by lia.
  rewrite no_resources_start, H. cbn [rs_count resources_at]. rewrite (proj2 (Z.eqb_neq _ _)) by lia.
  assert (for_find (Z.to_nat (fa_count a)) 0 (fun k => negb ((rs_seen (resources_at (fa_count a))).[k])) = None) as ->; [|done].
  apply for_find_None. intros k Hk. cbn [rs_seen resources_at]. pose proof count_le.
  rewrite seen_at by lia. by rewrite (proj2 (Z.ltb_lt _ _)) by lia.
Qed.

(** ** Names resolve to their registers *)

Definition meta_result : bvstk_profile_metadata_t :=
  Profile 2 (dp_vendor device_result) (dp_model device_result) (dp_class device_result) (dp_label device_result)
    (stored_asset (pf_register_map meta)) (stored_asset (pf_view meta))
    (rs_id_offset (resources_at (fa_count a))) (rs_ids_size (resources_at (fa_count a))) (rs_ids (resources_at (fa_count a))).

Lemma meta_id i : 0 <= i < fa_count a -> cstr (id_text meta_result i) = rid a i.
Proof.
  intros Hi. unfold id_text, meta_result. cbn [pf_id_offset pf_ids rs_id_offset rs_ids resources_at]. unfold ids_buffer.
  rewrite offsets_at by lia. apply id_at_offset; lia.
Qed.

Lemma lookup_ok r : 0 <= r < fa_count a -> profile_lookup (Some (resource_name a r)) meta_result (fa_count a) = Some r.
Proof.
  intros Hr. unfold profile_lookup. rewrite resource_name_eq by done.
  pose proof (id_word_plain _ (wr_ids a W r Hr)) as Hp. destruct (wr_ids a W r Hr) as (Hl & _).
  rewrite text_plain by done. apply for_find_Some. split; [lia|].
  assert (forall k, 0 <= k < fa_count a -> streq (rid a r) (id_text meta_result k) = bool_decide (rid a r = rid a k)) as Hs.
  { intros k Hk. unfold streq. rewrite meta_id by done. by rewrite (plain_clean _ Hp). }
  rewrite Hs by lia. split; [by apply bool_decide_eq_true|]. intros j Hj. rewrite Hs by lia. apply bool_decide_eq_false.
  intros He. pose proof (wr_distinct a W r j ltac:(lia) ltac:(lia) He). lia.
Qed.

(** The registers already listed are marked. *)
Definition marks (seen : list bool) (l : list Z) : Prop :=
  alen seen = 256 /\ forall r, 0 <= r < 256 -> seen.[r] = bool_decide (r ∈ l).

Lemma marks_nil : marks (fill 256 false) [].
Proof.
  split; [done|]. intros r Hr. rewrite aget_fill by lia. symmetry. apply bool_decide_eq_false. apply not_elem_of_nil.
Qed.

Lemma marks_snoc seen l r : marks seen l -> 0 <= r < 256 -> marks (seen.[r <- true]) (l ++ [r]).
Proof.
  intros [Hl Hm] Hr. split; [by rewrite alen_aset|]. intros k Hk. destruct (decide (k = r)) as [->|Hne].
  - rewrite aget_aset_eq by lia. symmetry. apply bool_decide_eq_true. apply elem_of_app. right. apply list_elem_of_singleton. done.
  - rewrite aget_aset_ne by lia. rewrite Hm by lia. apply bool_decide_ext.
    rewrite elem_of_app, list_elem_of_singleton. split; [by left|]. by intros [|].
Qed.

Lemma marks_fresh seen (done_ todo : list Z) r :
  marks seen done_ -> 0 <= r < 256 -> NoDup (done_ ++ r :: todo) -> seen.[r] = false.
Proof.
  intros [_ Hm] Hr Hnd. rewrite Hm by done. apply bool_decide_eq_false. intros Hin.
  apply NoDup_app in Hnd as (_ & Hd & _). by apply (Hd r Hin), elem_of_cons; left.
Qed.

Lemma fold_autopoll todo done_ seen :
  Forall (fun r => 0 <= r < fa_count a) todo -> NoDup (done_ ++ todo) -> alen (done_ ++ todo) <= 32 -> marks seen done_ ->
  exists seen', fold_items (parse_autopoll_entry meta_result (fa_count a)) (resource_name a <$> todo) (seen, done_) =
    inl (seen', done_ ++ todo).
Proof.
  pose proof count_le as Hcl.
  intros Hr. revert done_ seen. induction Hr as [|r todo Hr Htodo IH]; intros done_ seen Hnd Hlen Hm.
  { cbn. rewrite app_nil_r. by exists seen. }
  cbn [fmap list_fmap fold_items parse_autopoll_entry]. rewrite lookup_ok by done.
  rewrite (marks_fresh seen done_ todo r Hm ltac:(lia) Hnd). rewrite alen_app, alen_cons in Hlen. pose proof (alen_nonneg todo).
  rewrite (proj2 (Z.leb_gt _ _)) by lia. cbn [orb]. rewrite u8_id by lia.
  destruct (IH (done_ ++ [r]) (seen.[r <- true])) as [seen' Hs].
  - by rewrite <- app_assoc.
  - rewrite <- app_assoc. cbn [app]. rewrite alen_app, alen_cons. lia.
  - apply marks_snoc; [done|lia].
  - exists seen'. rewrite Hs. by rewrite <- app_assoc.
Qed.

Lemma parse_autopoll_ok :
  fa_mdio a = true ->
  parse_autopoll ((op_options options_result).[3]) meta_result (fa_count a) = inl (fa_autopoll a).
Proof.
  intros Hm. destruct (wr_autopoll a W) as (Hr & Hnd & Hl). unfold options_result. rewrite Hm. cbn [op_options]. get_views.
  unfold parse_autopoll, spaced_list. rewrite for_items_arr; [|constructor|apply blank_space|constructor|].
  2: { apply Forall_fmap. eapply Forall_impl; [exact Hr|]. intros r Hr'. by apply resource_name_json. }
  destruct (fold_autopoll (fa_autopoll a) [] (fill 256 false) Hr Hnd Hl marks_nil) as [seen' ->]. done.
Qed.

(** ** Policy and rules *)

Definition active_rules : list (Z * Z * Z) := if fa_black a then fa_black_rules a else fa_white a.
Definition inactive_rules : list (Z * Z * Z) := if fa_black a then fa_white a else fa_black_rules a.
Definition rules_view (l : list (Z * Z * Z)) : view_t := Some (spaced_list (rule_text a <$> l)).

Lemma parse_policy_ok :
  parse_policy (Some (policy_text a)) =
  inl (PolicyPart (fa_black a) (rules_view (fa_white a)) (rules_view (fa_black_rules a))).
Proof.
  destruct (wr_rules a W) as [Hw Hb]. unfold parse_policy, policy_text.
  assert (forall l, Forall (rule_ok a) l -> json_text 15 (spaced_list (rule_text a <$> l))) as Hj.
  { intros l Hl. apply (mono_15 3); [lia|]. by apply rules_json. }
  assert (forall b : bool, json_text 15 (quote (if b then lit "blacklist" else lit "whitelist"))) as Hm
    by (intros b; destruct b; by apply literal_json).
  rewrite fields_policy.
  - get_views. rewrite fields_read_policy; [|by apply literal_json|apply empty_list_json]. get_views.
    change (equal (Some (quote (lit "blacklist"))) (lit "blacklist")) with true.
    change (empty_array (Some (lit "[]"))) with true. cbn [negb orb empty_array].
    rewrite fields_write_policy; [|apply Hm|destruct (fa_black a); by apply Hj|destruct (fa_black a); by apply Hj]. get_views.
    unfold rules_view. destruct (fa_black a); [reflexivity|].
    change (equal (Some (quote (lit "whitelist"))) (lit "blacklist")) with false.
    change (equal (Some (quote (lit "whitelist"))) (lit "whitelist")) with true. reflexivity.
  - apply (mono_15 2); [lia|]. apply read_policy_json.
  - apply (mono_15 4); [lia|].
    apply (spaced_json 3 [lit "mode"; lit "rules"; lit "inactive_rules"]
      [_; spaced_list (rule_text a <$> active_rules); spaced_list (rule_text a <$> inactive_rules)]);
      [by apply (bool_decide_unpack _)|done|].
    repeat first [apply Forall_nil_2|apply Forall_cons_2]; [|unfold active_rules|unfold inactive_rules]; destruct (fa_black a);
      try (by apply literal_json); by apply rules_json.
Qed.

Definition options_max : Z := op_max_value_code options_result.

Lemma options_max_i2c : fa_mdio a = false -> options_max = fa_max_value_code a.
Proof. intros Hm. unfold options_max, options_result. by rewrite Hm. Qed.

Lemma parse_rule_ok r (rules : list (Z * Z * Z)) :
  rule_ok a r -> alen rules < (if fa_mdio a then 64 else 256) ->
  parse_rule (fa_mdio a) options_max meta_result (fa_count a) (rule_text a r) rules = inl (rules ++ [r]).
Proof.
  destruct r as [[reg val] mask]. intros (Hreg & Hval & Hmask) Hl. pose proof (wr_max_value a W). pose proof count_le.
  assert (0 <= val <= maximum_of a /\ 0 <= mask <= maximum_of a) as [Hv Hm] by (unfold maximum_of; destruct (fa_mdio a); lia).
  unfold parse_rule. change I2C_CFG_RULES_MAX with 256. change MDIO_CFG_RULES_MAX with 64.
  rewrite (proj2 (Z.leb_gt _ _)) by (destruct (fa_mdio a); lia). unfold rule_text.
  rewrite fields_rule.
  - get_views. rewrite lookup_ok by done.
    rewrite fields_match; [|by apply hex_field_json|by apply hex_field_json]. get_views. cbn [present orb].
    fold (maximum_of a). rewrite !hex_field_read by done.
    destruct (fa_mdio a) eqn:Em; unfold maximum_of in *; rewrite Em in *.
    + rewrite u8_id, !u16_id by lia. done.
    + subst mask. cbn [negb Z.eqb Pos.eqb]. rewrite options_max_i2c by done. rewrite (proj2 (Z.ltb_ge _ _)) by lia.
      rewrite !u8_id by lia. done.
  - by apply resource_name_json.
  - apply (mono_15 1); [lia|].
    apply (spaced_json 0 [lit "value"; lit "mask"] [_; _]); [by apply (bool_decide_unpack _)|done|].
    repeat first [apply Forall_nil_2|apply Forall_cons_2]; by apply hex_field_json.
Qed.

Lemma parse_rules_ok l :
  Forall (rule_ok a) l -> alen l <= (if fa_mdio a then 64 else 256) ->
  parse_rules (fa_mdio a) options_max meta_result (fa_count a) (rules_view l) = inl l.
Proof.
  intros Hl Hlen. unfold parse_rules, rules_view, spaced_list. rewrite for_items_arr; [|constructor|apply blank_space|constructor|].
  2: { apply Forall_fmap. eapply Forall_impl; [exact Hl|]. intros r Hr. apply (json_text_mono 2); [lia|]. by apply rule_json. }
  assert (forall done_ todo, Forall (rule_ok a) todo -> alen (done_ ++ todo) <= (if fa_mdio a then 64 else 256) ->
    fold_items (parse_rule (fa_mdio a) options_max meta_result (fa_count a)) (rule_text a <$> todo) done_ = inl (done_ ++ todo)) as H;
    [|by apply (H [])].
  intros done_ todo Htodo. revert done_. induction Htodo as [|r todo Hr _ IH]; intros done_ Hd; [by rewrite app_nil_r|].
  rewrite alen_app in Hd. assert (alen (r :: todo) = 1 + alen todo) as Hc by (unfold alen; cbn; lia).
  pose proof (alen_nonneg todo). cbn [fmap list_fmap fold_items]. rewrite parse_rule_ok by (done || lia).
  rewrite IH; [by rewrite <- app_assoc|]. rewrite <- app_assoc, alen_app. cbn [app]. lia.
Qed.

(** ** Seeds and the rest *)

Definition seeds : list (Z * Z) := effective_seeds (fa_mdio a) (fa_settings a).

Lemma fold_seeds todo done_ seen :
  Forall (seed_ok a) todo -> NoDup (fst <$> (done_ ++ todo)) -> alen (done_ ++ todo) <= (if fa_mdio a then 32 else 256) ->
  marks seen (fst <$> done_) ->
  exists seen', fold_items (parse_seed (fa_mdio a) meta_result (fa_count a)) (seed_text a <$> todo) (seen, done_) =
    inl (seen', done_ ++ todo).
Proof.
  pose proof count_le as Hcl. pose proof maximum_range as Hmax.
  intros Hs. revert done_ seen. induction Hs as [|[r v] todo [Hr Hv] Htodo IH]; intros done_ seen Hnd Hlen Hm.
  { cbn. rewrite app_nil_r. by exists seen. }
  cbn [fst snd] in Hr, Hv. rewrite fmap_app in Hnd. cbn [fmap list_fmap fst] in Hnd.
  assert (alen done_ + (1 + alen todo) <= (if fa_mdio a then 32 else 256)) as Hl2
    by (unfold alen in *; rewrite length_app in Hlen; cbn in Hlen; lia).
  pose proof (alen_nonneg todo). cbn [fmap list_fmap fold_items parse_seed].
  change I2C_CFG_RULES_MAX with 256. change MDIO_CFG_SETTINGS_MAX with 32. rewrite (proj2 (Z.leb_gt _ _)) by lia.
  unfold seed_text at 1. cbn [fst snd]. rewrite fields_seed; [|by apply resource_name_json|by apply hex_field_json].
  get_views. rewrite lookup_ok by done. rewrite (marks_fresh seen (fst <$> done_) (fst <$> todo) r Hm ltac:(lia) Hnd).
  fold (maximum_of a). rewrite hex_field_read by done. rewrite u8_id by lia.
  assert ((if fa_mdio a then u16 v else u8 v) = v) as ->.
  { unfold maximum_of in Hv. destruct (fa_mdio a); [apply u16_id|apply u8_id]; lia. }
  destruct (IH (done_ ++ [(r, v)]) (seen.[r <- true])) as [seen' Hs].
  - rewrite <- app_assoc, fmap_app. done.
  - rewrite <- app_assoc. exact Hlen.
  - rewrite fmap_app. apply marks_snoc; [done|lia].
  - exists seen'. rewrite Hs. by rewrite <- app_assoc.
Qed.

Lemma parse_settings_ok : parse_settings (fa_mdio a) meta_result (fa_count a) (Some (settings_text a)) = inl seeds.
Proof.
  pose proof (wr_seeds a W) as Hs. unfold parse_settings, settings_text.
  assert (Forall (json_text 1) (seed_text a <$> effective_seeds (fa_mdio a) (fa_settings a))) as Hj.
  { apply Forall_fmap. eapply Forall_impl; [exact Hs|]. intros s. apply seed_json. }
  rewrite fields_settings; [|apply empty_list_json|by apply (mono_15 2); [lia|apply spaced_list_json]|apply false_json].
  get_views. change (empty_array (Some (lit "[]"))) with true. change (boolean (Some (lit "false"))) with (Some false).
  rewrite bool_decide_eq_true_2 by done. cbn [negb present andb].
  unfold spaced_list. rewrite for_items_arr; [|constructor|apply blank_space|constructor|].
  2: { eapply Forall_impl; [exact Hj|]. intros t. apply json_text_mono. lia. }
  destruct (fold_seeds seeds [] (fill 256 false)) as [seen' Hf]; [exact Hs|exact (wr_seeds_distinct a W)|exact (wr_seeds_len a W)|
    exact marks_nil|].
  unfold seeds in *. by rewrite Hf.
Qed.

Lemma parse_observability_ok : parse_observability (Some observability_text) = inl tt.
Proof. vm_compute. reflexivity. Qed.

(** ** All of [parse] *)

Definition parts_result : profile_parts :=
  ProfileParts stored_name (fa_address a) options_result (fa_count a) (if fa_mdio a then fa_autopoll a else [])
    (fa_black a) (fa_white a) (fa_black_rules a) seeds meta_result.

Lemma parse_ok :
  alen (profile_text a ++ [10]) <= BVSTK_PROFILE_JSON_MAX ->
  parse (Some (profile_text a ++ [10; 0])) (fa_mdio a) = inl parts_result.
Proof.
  intros Hlen. destruct (wr_rules a W) as [Hw Hb]. destruct (wr_rules_len a W) as [Hwl Hbl].
  unfold parse. rewrite parse_root_ok, parse_assets_ok by done. unfold root_views. get_views.
  rewrite parse_device_ok, parse_transport_ok, parse_protocol_ok, parse_defaults_ok, parse_resources_ok.
  change (rs_count (resources_at (fa_count a))) with (fa_count a). fold meta_result. fold options_max.
  assert ((if fa_mdio a then parse_autopoll ((op_options options_result).[3]) meta_result (fa_count a) else inl []) =
    inl (if fa_mdio a then fa_autopoll a else [])) as ->.
  { destruct (fa_mdio a) eqn:Hm; [by apply parse_autopoll_ok|done]. }
  rewrite parse_policy_ok. cbn [pp_white_rules pp_black_rules pp_black].
  rewrite !parse_rules_ok by done. rewrite parse_settings_ok, parse_observability_ok. reflexivity.
Qed.
End read_back.
