(* ===== verification/ProfileSafety.v ===== *)
(** * ProfileSafety: stored profiles come back as the same device

    The round trips of I2C and MDIO configurations through their profile text:
    what a store writes, the strict parser accepts, and the device it describes
    is the one that was saved. *)
From stdpp Require Import prelude.
From Stdlib Require Import ZArith Lia.
From S2P Require Import Prelude Text Platform I2cDevices ConfigValidate JsonReader JsonGrammar JsonObjects ProfileCodec ProfileText ProfileFormat ProfileMembers ProfileRoundTrip.
Import String.StringSyntax.
Local Open Scope Z_scope.

(** ** Valid metadata *)

Record metadata_ids_wf (p : bvstk_profile_metadata_t) (count : Z) : Prop := {
  mi_count : count <> 0;
  mi_size : 0 <> pf_ids_size p /\ pf_ids_size p <= BVSTK_PROFILE_IDS_CAP;
  mi_first : (pf_ids p).[0] = 0;
  mi_strings : memchr0 (pf_vendor p) 65 = true /\ memchr0 (pf_model p) 65 = true /\
               memchr0 (pf_device_class p) 16 = true /\ memchr0 (pf_label p) 97 = true;
  mi_model : (pf_model p).[0] <> 0;
  mi_class : class_valid (pf_device_class p) = true;
  mi_ids : forall i, 0 <= i < count -> metadata_id_bad p i = false
}.

Record metadata_wf (p : bvstk_profile_metadata_t) (count : Z) : Prop := {
  mw_count : count <= I2C_CFG_MAX_REG_COUNT;
  mw_map : register_map_valid (pf_register_map p) = true;
  mw_view : asset_name_valid (pf_view p) js_extension = true;
  mw_view_map : (pf_view p).[0] <> 0 -> (pf_register_map p).[0] <> 0;
  mw_version : pf_version p = 0 \/ (pf_version p = 2 /\ metadata_ids_wf p count)
}.

Lemma orb_false_split (a b : bool) : a || b = false <-> a = false /\ b = false.
Proof. apply orb_false_iff. Qed.

Lemma metadata_validate_wf p count :
  0 <= count -> bvstk_device_profile_metadata_validate (Some p) count = BVSTK_OK <-> metadata_wf p count.
Proof.
  intros Hcount. unfold bvstk_device_profile_metadata_validate.
  assert (forall b c : bool, (negb b && c = false) <-> (b = false -> c = false)) as Himp by (intros [] []; cbn; tauto).
  destruct (_ || negb ((pf_view p).[0] =? 0) && ((pf_register_map p).[0] =? 0)) eqn:E1.
  { split; [done|]. intros [H1 H2 H3 H4 _]. exfalso. revert E1. rewrite (proj2 (Z.ltb_ge _ _)), H2, H3 by done. cbn.
    rewrite (proj2 (Himp _ _)); [done|]. intros Hv. bsimp. apply Z.eqb_neq. auto. }
  apply orb_false_split in E1 as [E1 E4]. apply orb_false_split in E1 as [E1 E3]. apply orb_false_split in E1 as [E1 E2].
  rewrite Himp in E4. apply negb_false_iff in E2, E3. bsimp.
  assert ((pf_view p).[0] <> 0 -> (pf_register_map p).[0] <> 0) as Hvm.
  { intros Hv. apply Z.eqb_neq in Hv. specialize (E4 Hv). by bsimp. }
  destruct (Z.eqb_spec (pf_version p) 0) as [Hz|Hz].
  { split; [|done]. intros _. constructor; try done. by left. }
  match goal with |- context [if ?b then BVSTK_ERR_MALFORMED else _] => destruct b eqn:E5 end.
  { split; [done|]. intros [_ _ _ _ [?|[Hv [C1 [C2 C2'] C3 (S1 & S2 & S3 & S4) C5 C6 _]]]]; [done|]. exfalso. revert E5.
    rewrite (proj2 (Z.eqb_eq (pf_version p) 2)), (proj2 (Z.eqb_neq count 0)), (proj2 (Z.ltb_ge _ _)), (proj2 (Z.eqb_neq (pf_ids_size p) 0)),
      (proj2 (Z.eqb_eq ((pf_ids p).[0]) 0)), S1, S2, S3, S4, (proj2 (Z.eqb_neq ((pf_model p).[0]) 0)), C6 by (done || lia). done. }
  repeat match goal with H : _ || _ = false |- _ => apply orb_false_split in H as [? ?] end.
  repeat match goal with H : negb _ = false |- _ => apply negb_false_iff in H end. bsimp.
  destruct (for_find (Z.to_nat count) 0 (metadata_id_bad p)) eqn:Ef.
  - split; [done|]. intros [_ _ _ _ [?|[_ [_ _ _ _ _ _ Hids]]]]; [done|]. apply for_find_Some in Ef as (Hi & Hb & _).
    rewrite Hids in Hb; [done|lia].
  - split; [|done]. intros _. constructor; try done. right. split; [done|]. rewrite for_find_None in Ef.
    constructor; try done. intros i Hi. apply Ef. lia.
Qed.

Lemma id_bad_false p i :
  metadata_id_bad p i = false <->
  (pf_id_offset p).[i] <> 0 /\ (pf_id_offset p).[i] < pf_ids_size p /\
  memchr0 (id_at p i) (pf_ids_size p - (pf_id_offset p).[i]) = true /\ id_valid (id_at p i) = true /\
  forall j, 0 <= j < i -> cstr (id_at p i) <> cstr (id_at p j).
Proof.
  unfold metadata_id_bad. rewrite !orb_false_split, Z.eqb_neq, Z.leb_gt, !negb_false_iff. split.
  - intros ((((H1 & H2) & H3) & H4) & H5). split; [done|]. split; [done|]. split; [done|]. split; [done|].
    intros j Hj Hs. destruct (for_find _ _ _) eqn:E; [done|]. rewrite for_find_None in E.
    specialize (E j ltac:(lia)). apply streq_spec in Hs. congruence.
  - intros (H1 & H2 & H3 & H4 & H5). split; [done|]. destruct (for_find _ _ _) as [j|] eqn:E; [|done].
    apply for_find_Some in E as (Hj & Hs & _). apply streq_spec in Hs. destruct (H5 j); [lia|done].
Qed.

(** ** Valid I2C configurations *)

Definition i2c_config_sized (c : i2c_device_config_t) : Prop :=
  alen (cfg_name c) = 32 /\ alen (cfg_whitelist c) = 256 /\ alen (cfg_blacklist c) = 256 /\ alen (cfg_settings c) = 256 /\
  0 <= cfg_addr_7b c /\ 0 <= cfg_reg_count c /\ 0 <= cfg_max_value_code c /\
  0 <= cfg_whitelist_len c /\ 0 <= cfg_blacklist_len c /\ 0 <= cfg_settings_len c.

Definition white_rules (c : i2c_device_config_t) : list i2c_rule_entry_t := prefix (cfg_whitelist_len c) (cfg_whitelist c).
Definition black_rules (c : i2c_device_config_t) : list i2c_rule_entry_t := prefix (cfg_blacklist_len c) (cfg_blacklist c).
Definition preset_rules (c : i2c_device_config_t) : list i2c_rule_entry_t := prefix (cfg_settings_len c) (cfg_settings c).

Record i2c_config_wf (c : i2c_device_config_t) : Prop := {
  iw_name : (cfg_name c).[0] <> 0 /\ strlen (cfg_name c) < 32;
  iw_addr : cfg_addr_7b c <= 127;
  iw_count : 1 <= cfg_reg_count c <= 256;
  iw_max : cfg_max_value_code c <= 64;
  iw_policy : cfg_policy c = I2C_POLICY_WHITELIST \/ cfg_policy c = I2C_POLICY_BLACKLIST;
  iw_lens : cfg_whitelist_len c <= 256 /\ cfg_blacklist_len c <= 256 /\ cfg_settings_len c <= 256;
  iw_rules : Forall (fun r => rule_reg r < cfg_reg_count c /\ rule_val r <= cfg_max_value_code c) (white_rules c ++ black_rules c);
  iw_settings : Forall (fun r => rule_reg r < cfg_reg_count c) (preset_rules c);
  iw_profile : metadata_wf (cfg_profile c) (cfg_reg_count c)
}.

Lemma check_forall {A} `{Inhabited A} (l : list A) n (bad : A -> bool) e :
  0 <= n <= alen l ->
  (forall i, 0 <= i < n -> (if bad (aget l i) then Some e else None) = (None : option bvstk_status_t)) <->
  Forall (fun x => bad x = false) (prefix n l).
Proof.
  intros Hn. rewrite <- prefix_Forall by done. split; intros H' i Hi; specialize (H' i Hi); by destruct (bad _).
Qed.

Lemma i2c_validate_wf c :
  i2c_config_sized c -> bvstk_i2c_config_validate (Some c) = BVSTK_OK <-> i2c_config_wf c.
Proof.
  intros (Hn & Hw & Hb & Hs & Ha0 & Hc0 & Hm0 & Hwl & Hbl & Hsl). unfold bvstk_i2c_config_validate.
  change I2C_CFG_RULES_MAX with 256. change I2C_CFG_SETTINGS_MAX with 256. change I2C_CFG_MAX_REG_COUNT with 256.
  change I2C_CFG_NAME_MAX with 32.
  match goal with |- context [if ?b then BVSTK_ERR_MALFORMED else _] => destruct b eqn:E end.
  { split; [done|]. intros [[H1 H1'] H2 H3 H4 H5 (H6 & H7 & H8) _ _ _]. exfalso. revert E.
    assert (memchr0 (cfg_name c) 32 = true) as -> by (apply memchr0_iff; lia).
    rewrite (proj2 (Z.eqb_neq _ _)), (proj2 (Z.ltb_ge _ _)), (proj2 (Z.eqb_neq _ _)),
      !(proj2 (Z.ltb_ge _ _)) by (done || lia). cbn [negb orb].
    destruct H5 as [-> | ->]; done. }
  repeat match goal with H : _ || _ = false |- _ => apply orb_false_split in H as [? ?] end.
  assert (cfg_policy c = I2C_POLICY_WHITELIST \/ cfg_policy c = I2C_POLICY_BLACKLIST) as Hpol.
  { destruct (Z.eqb_spec (cfg_policy c) I2C_POLICY_WHITELIST); [by left|].
    destruct (Z.eqb_spec (cfg_policy c) I2C_POLICY_BLACKLIST); [by right|done]. }
  assert (memchr0 (cfg_name c) 32 = true) as Hmem by (by apply negb_false_iff).
  apply memchr0_iff in Hmem; [|lia]. bsimp.
  match goal with |- context [match ?o with Some e => e | None => _ end] => destruct o as [e|] eqn:El end.
  - split.
    + intros ->. exfalso. apply or_else_Some in El as [El|El]; [|apply or_else_Some in El as [El|El]];
        apply check_all_Some in El as [i Hi]; by repeat case_match.
    + intros [_ _ _ _ _ _ Hr Hset _]. exfalso.
      assert (or_else (check_all (cfg_whitelist_len c) (fun i => if (cfg_reg_count c <=? rule_reg ((cfg_whitelist c).[i])) ||
        (cfg_max_value_code c <? rule_val ((cfg_whitelist c).[i])) then Some BVSTK_ERR_RANGE else None))
        (or_else (check_all (cfg_blacklist_len c) (fun i => if (cfg_reg_count c <=? rule_reg ((cfg_blacklist c).[i])) ||
          (cfg_max_value_code c <? rule_val ((cfg_blacklist c).[i])) then Some BVSTK_ERR_RANGE else None))
        (check_all (cfg_settings_len c) (fun i => if cfg_reg_count c <=? rule_reg ((cfg_settings c).[i]) then Some BVSTK_ERR_RANGE else None))) = None) as Hnone; [|congruence].
      apply Forall_app in Hr as [Hr1 Hr2]. rewrite !or_else_None, !check_all_None. split; [|split].
      * apply (check_forall _ _ (fun r => (cfg_reg_count c <=? rule_reg r) || (cfg_max_value_code c <? rule_val r))); [lia|].
        eapply Forall_impl; [exact Hr1|]. intros r [? ?]. cbn. rewrite (proj2 (Z.leb_gt _ _)), (proj2 (Z.ltb_ge _ _)); lia.
      * apply (check_forall _ _ (fun r => (cfg_reg_count c <=? rule_reg r) || (cfg_max_value_code c <? rule_val r))); [lia|].
        eapply Forall_impl; [exact Hr2|]. intros r [? ?]. cbn. rewrite (proj2 (Z.leb_gt _ _)), (proj2 (Z.ltb_ge _ _)); lia.
      * apply (check_forall _ _ (fun r => cfg_reg_count c <=? rule_reg r)); [lia|].
        eapply Forall_impl; [exact Hset|]. intros r ?. cbn. by apply Z.leb_gt.
  - rewrite !or_else_None, !check_all_None in El. destruct El as (L1 & L2 & L3).
    apply (check_forall _ _ (fun r => (cfg_reg_count c <=? rule_reg r) || (cfg_max_value_code c <? rule_val r))) in L1; [|lia].
    apply (check_forall _ _ (fun r => (cfg_reg_count c <=? rule_reg r) || (cfg_max_value_code c <? rule_val r))) in L2; [|lia].
    apply (check_forall _ _ (fun r => cfg_reg_count c <=? rule_reg r)) in L3; [|lia].
    rewrite metadata_validate_wf by done. split; [|by intros []]. intros Hmeta. constructor; try done; try lia.
    + apply Forall_app. split; [eapply Forall_impl; [exact L1|]|eapply Forall_impl; [exact L2|]];
        intros r Hr; cbn in Hr; apply orb_false_split in Hr as [? ?]; bsimp; done.
    + eapply Forall_impl; [exact L3|]. intros r Hr. cbn in Hr. by bsimp.
Qed.

(** ** Identifiers of registers *)

Definition fallback (i : Z) : chars := lit "reg_" ++ hexx 2 i.

Lemma fallback_all :
  Forall (fun i => id_valid (fallback i ++ [0]) = true /\ alen (fallback i) = 6 /\ clean (fallback i)) (seqZ 0 256).
Proof. apply (bool_decide_unpack _). vm_compute. exact I. Qed.

Lemma fallback_distinct : NoDup (fallback <$> seqZ 0 256).
Proof. apply (bool_decide_unpack _). vm_compute. exact I. Qed.

Lemma fallback_ok i : 0 <= i < 256 -> id_word (fallback i) /\ alen (fallback i) = 6 /\ clean (fallback i).
Proof.
  intros Hi. pose proof fallback_all as H. rewrite Forall_forall in H.
  destruct (H i) as (H1 & H2 & H3); [apply elem_of_seqZ; lia|]. split; [|done].
  apply id_valid_word in H1. by rewrite cstr_terminated in H1.
Qed.

Lemma fallback_inj i j : 0 <= i < 256 -> 0 <= j < 256 -> fallback i = fallback j -> i = j.
Proof.
  intros Hi Hj He. pose proof fallback_distinct as H. rewrite NoDup_alt in H.
  assert (Z.to_nat i = Z.to_nat j); [|lia]. apply (H _ _ (fallback i)).
  - rewrite list_lookup_fmap, lookup_seqZ_lt by lia. apply (f_equal Some), f_equal. lia.
  - rewrite list_lookup_fmap, lookup_seqZ_lt, He by lia. apply (f_equal Some), f_equal. lia.
Qed.

(** The identifiers of a device as a profile stores them: the empty one, then
    each with its terminator. *)
Definition id_strings (p : bvstk_profile_metadata_t) (count : Z) : chars :=
  0 :: concat ((fun i => cstr (resource_id p i) ++ [0]) <$> seqZ 0 count).

Lemma fallback_size p count :
  pf_version p = 0 -> 0 <= count <= 256 -> alen (id_strings p count) = 1 + 7 * count.
Proof.
  intros Hv Hc. unfold id_strings. rewrite alen_cons. f_equal.
  assert (forall n i, 0 <= i -> i + Z.of_nat n <= 256 ->
    alen (concat ((fun i => cstr (resource_id p i) ++ [0]) <$> seqZ i (Z.of_nat n))) = 7 * Z.of_nat n) as H.
  { induction n as [|n IH]; intros i Hi Hn; [done|]. rewrite seqZ_cons by lia. cbn [fmap list_fmap concat].
    replace (Z.pred (Z.of_nat (S n))) with (Z.of_nat n) by lia. rewrite alen_app, IH by lia.
    unfold resource_id. rewrite Hv. change (0 =? 2) with false. cbn iota. fold (fallback i).
    destruct (fallback_ok i) as (_ & Hl & Hcl); [lia|]. rewrite alen_app, Hcl, Hl. unfold alen at 1. cbn. lia. }
  specialize (H (Z.to_nat count) 0). rewrite Z2Nat.id in H by lia. rewrite H; lia.
Qed.

(** ** From accepted configurations to arguments that can be read back *)

(** The character arrays have their declared sizes; for a schema-2 profile the
    strings are UTF-8 and the identifiers do not share storage. *)
Record profile_storable (p : bvstk_profile_metadata_t) (count : Z) : Prop := {
  ps_sizes : alen (pf_vendor p) = 65 /\ alen (pf_model p) = 65 /\ alen (pf_device_class p) = 16 /\
             alen (pf_label p) = 97 /\ alen (pf_register_map p) = 64 /\ alen (pf_view p) = 64;
  ps_utf8 : pf_version p = 2 ->
    utf8_text (cstr (pf_model p)) /\ utf8_text (cstr (pf_vendor p)) /\ utf8_text (cstr (pf_label p));
  ps_ids : pf_version p = 2 -> alen (id_strings p count) <= BVSTK_PROFILE_IDS_CAP
}.

Section storable.
Context (a : format_args).
Let p := fa_meta a.
Hypothesis count_ok : 1 <= fa_count a <= 256.
Hypothesis meta_wf : metadata_wf p (fa_count a).
Hypothesis storable : profile_storable p (fa_count a).
Hypothesis name_ok : id_valid (fa_name a) = true.
Hypothesis printable_ok : names_printable a.

Lemma version_cases : (pf_version p = 0 /\ v2_of a = false) \/ (pf_version p = 2 /\ v2_of a = true /\ metadata_ids_wf p (fa_count a)).
Proof.
  destruct (mw_version _ _ meta_wf) as [Hv|[Hv Hm]]; [left|right]; unfold v2_of; fold p; rewrite Hv; done.
Qed.

Lemma storable_ids i : 0 <= i < fa_count a -> id_word (rid a i).
Proof.
  intros Hi. unfold rid, resource_id. fold p. destruct version_cases as [[Hv _]|(Hv & _ & Hm)]; rewrite Hv.
  - change (0 =? 2) with false. cbn iota. fold (fallback i). destruct (fallback_ok i) as (Hw & _ & Hc); [lia|]. by rewrite Hc.
  - change (2 =? 2) with true. cbn iota. pose proof (mi_ids _ _ Hm i Hi) as Hb. apply id_bad_false in Hb as (_ & _ & _ & Hid & _).
    by apply id_valid_word.
Qed.

Lemma storable_distinct i j : 0 <= i < fa_count a -> 0 <= j < fa_count a -> rid a i = rid a j -> i = j.
Proof.
  intros Hi Hj. unfold rid, resource_id. fold p. destruct version_cases as [[Hv _]|(Hv & _ & Hm)]; rewrite Hv.
  - change (0 =? 2) with false. cbn iota. fold (fallback i) (fallback j).
    destruct (fallback_ok i) as (_ & _ & Hc); [lia|]. destruct (fallback_ok j) as (_ & _ & Hc'); [lia|].
    rewrite Hc, Hc'. apply fallback_inj; lia.
  - change (2 =? 2) with true. cbn iota. intros He.
    pose proof (mi_ids _ _ Hm i Hi) as Hbi. apply id_bad_false in Hbi as (_ & _ & _ & _ & Hdi).
    pose proof (mi_ids _ _ Hm j Hj) as Hbj. apply id_bad_false in Hbj as (_ & _ & _ & _ & Hdj).
    destruct (Z.lt_trichotomy i j) as [H|[H|H]]; [|done|].
    + by destruct (Hdj i ltac:(lia)).
    + by destruct (Hdi j ltac:(lia)).
Qed.

Lemma storable_fit : alen (ids_text a (fa_count a)) <= BVSTK_PROFILE_IDS_CAP.
Proof.
  change (ids_text a (fa_count a)) with (id_strings p (fa_count a)).
  destruct version_cases as [[Hv _]|(Hv & _)]; [|by apply (ps_ids _ _ storable)].
  rewrite fallback_size by (done || lia). unfold BVSTK_PROFILE_IDS_CAP. lia.
Qed.

Lemma storable_name : id_word (cstr (fa_name a)).
Proof. by apply id_valid_word. Qed.

Lemma cstr_nonempty (s : chars) : 0 < alen s -> s.[0] <> 0 -> cstr s <> [].
Proof.
  intros Hl Hne He. pose proof (strlen_zero s Hl) as Hz. rewrite He, bool_decide_eq_true_2 in Hz by done. by apply Z.eqb_eq in Hz.
Qed.

Lemma storable_model : string_ok 65 (model_of a) /\ model_of a <> [].
Proof.
  destruct (ps_sizes _ _ storable) as (_ & Hms & _). unfold model_of.
  destruct version_cases as [[Hv ->]|(Hv & Hv2 & Hm)].
  - destruct storable_name as (Hl & Hw & c & q & Hc & _). split; [|rewrite Hc; done].
    apply plain_string_ok; [by apply id_word_plain, storable_name|lia].
  - rewrite Hv2. destruct (ps_utf8 _ _ storable Hv) as (Hu & _). destruct printable_ok as [_ Hp].
    destruct (Hp Hv2) as (Hpm & _). destruct (mi_strings _ _ Hm) as (_ & Hmm & _).
    split; [split; [done|done|by apply memchr0_strlen in Hmm]|]. apply cstr_nonempty; [fold p; lia|apply (mi_model _ _ Hm)].
Qed.

Lemma storable_class : class_of a ∈ class_names.
Proof.
  unfold class_of. destruct version_cases as [[Hv ->]|(Hv & Hv2 & Hm)].
  - destruct (fa_mdio a); by apply (bool_decide_unpack _).
  - rewrite Hv2. pose proof (mi_class _ _ Hm) as Hc. unfold class_valid in Hc. apply existsb_exists in Hc as (w & Hw & He).
    apply streq_spec in He. fold p. rewrite He. apply list_elem_of_In in Hw.
    assert (Forall clean class_names) as Hall by (by apply (bool_decide_unpack _)). rewrite Forall_forall in Hall.
    by rewrite (Hall _ Hw).
Qed.

(** A string that is written only when it is not empty. *)
Lemma storable_optional cap (s : chars) :
  0 < alen s -> 0 < cap -> (v2_of a = true -> utf8_text (cstr s) /\ (s.[0] <> 0 -> Forall printable (cstr s)) /\ strlen s < cap) ->
  string_ok cap (if v2_of a then cstr s else []).
Proof.
  intros Hs Hcap H. destruct (v2_of a).
  - destruct H as (Hu & Hp & Hl); [done|]. split; [done| |done]. pose proof (strlen_zero s Hs) as Hz.
    destruct (decide (cstr s = [])) as [->|Hne]; [constructor|]. rewrite bool_decide_eq_false_2 in Hz by done. bsimp. auto.
  - split; [constructor|constructor|done].
Qed.

Lemma storable_vendor : string_ok 65 (vendor_of a).
Proof.
  destruct (ps_sizes _ _ storable) as (Hvs & _). unfold vendor_of. apply storable_optional; [fold p; lia|done|]. intros Hv2.
  destruct version_cases as [[_ ?]|(Hv & _ & Hm)]; [congruence|]. destruct (ps_utf8 _ _ storable Hv) as (_ & Hu & _).
  destruct printable_ok as [_ Hp]. destruct (Hp Hv2) as (_ & Hpv & _). destruct (mi_strings _ _ Hm) as (Hmm & _).
  split; [done|]. split; [done|]. by apply memchr0_strlen.
Qed.

Lemma storable_label : string_ok 97 (label_of a).
Proof.
  destruct (ps_sizes _ _ storable) as (_ & _ & _ & Hls & _). unfold label_of. apply storable_optional; [fold p; lia|done|]. intros Hv2.
  destruct version_cases as [[_ ?]|(Hv & _ & Hm)]; [congruence|]. destruct (ps_utf8 _ _ storable Hv) as (_ & _ & Hu).
  destruct printable_ok as [_ Hp]. destruct (Hp Hv2) as (_ & _ & Hpl). destruct (mi_strings _ _ Hm) as (_ & _ & _ & Hmm).
  split; [done|]. split; [done|]. by apply memchr0_strlen.
Qed.

Lemma storable_writable :
  fa_count a <= (if fa_mdio a then 32 else 256) ->
  0 <= fa_address a <= (if fa_mdio a then 31 else 127) ->
  0 <= fa_reg_delay_ms a <= 60000 /\ 0 <= fa_cycle_delay_ms a <= 600000 ->
  Forall (fun r => 0 <= r < fa_count a) (fa_autopoll a) /\ NoDup (fa_autopoll a) /\ alen (fa_autopoll a) <= 32 ->
  0 <= fa_max_value_code a <= 64 ->
  Forall (rule_ok a) (fa_white a) /\ Forall (rule_ok a) (fa_black_rules a) ->
  alen (fa_white a) <= (if fa_mdio a then 64 else 256) /\ alen (fa_black_rules a) <= (if fa_mdio a then 64 else 256) ->
  Forall (seed_ok a) (effective_seeds (fa_mdio a) (fa_settings a)) ->
  NoDup (fst <$> effective_seeds (fa_mdio a) (fa_settings a)) ->
  alen (effective_seeds (fa_mdio a) (fa_settings a)) <= (if fa_mdio a then 32 else 256) ->
  writable a.
Proof.
  intros. destruct (ps_sizes _ _ storable) as (Hvs & Hms & Hcs & Hls & Hmap & Hview). fold p.
  constructor; try done; fold p.
  - split; [lia|done].
  - apply storable_name.
  - apply storable_ids.
  - apply storable_distinct.
  - apply storable_fit.
  - apply storable_model.
  - apply storable_class.
  - apply storable_vendor.
  - apply storable_label.
  - split; lia.
  - apply (mw_map _ _ meta_wf).
  - apply (mw_view _ _ meta_wf).
  - apply (mw_view_map _ _ meta_wf).
Qed.
End storable.

(** ** The metadata that comes back *)

Lemma stored_optional_shape cap s :
  string_ok cap s -> 0 < cap -> alen (stored_optional cap s) = cap /\ cstr (stored_optional cap s) = s.
Proof.
  intros Hs Hcap. unfold stored_optional. case_bool_decide as He.
  - subst s. split; [apply alen_fill; lia|]. unfold fill. replace (Z.to_nat cap) with (S (Z.to_nat (cap - 1))) by lia. done.
  - destruct Hs as [Hu Hp Hl] eqn:Hsd. split.
    + rewrite store_text_alen; [apply alen_fill; lia|]. rewrite alen_fill by lia. done.
    + by apply store_text_cstr, (string_clean cap).
Qed.

Lemma stored_asset_shape (s : chars) :
  alen s = 64 -> plain (cstr s) -> alen (cstr s) < 64 ->
  cstr (stored_asset s) = cstr s /\ alen (stored_asset s) = 64 /\ ((stored_asset s).[0] =? 0) = (s.[0] =? 0).
Proof.
  intros Hs Hp Hl. unfold stored_asset. pose proof (strlen_zero s ltac:(lia)) as Hz. unfold truth.
  destruct (Z.eqb_spec (s.[0]) 0) as [H0|H0]; cbn [negb].
  - symmetry in Hz. apply bool_decide_eq_true in Hz. rewrite Hz. done.
  - symmetry in Hz. apply bool_decide_eq_false in Hz. pose proof (plain_clean _ Hp) as Hc.
    split; [by apply store_text_cstr|]. split; [by rewrite store_text_alen|]. by apply Z.eqb_neq, store_text_head.
Qed.

Section result.
Context (a : format_args) (W : writable a).

Lemma id_at_shape k i r :
  0 <= k < i -> exists rest, drop (Z.to_nat (id_offset a k)) (ids_text a i ++ r) = rid a k ++ 0 :: rest.
Proof.
  intros Hk. destruct (ids_text_split a k i Hk) as [rest ->]. exists (rest ++ r).
  rewrite <- app_assoc. unfold id_offset, alen. rewrite Nat2Z.id, drop_app_length. by rewrite <- app_assoc.
Qed.

Lemma result_id i : 0 <= i < fa_count a -> exists rest, id_at (meta_result a) i = rid a i ++ 0 :: rest.
Proof.
  intros Hi. unfold id_at, meta_result. cbn [pf_id_offset pf_ids rs_id_offset rs_ids resources_at]. unfold ids_buffer.
  rewrite (offsets_at a (fa_count a) i) by lia. apply id_at_shape. lia.
Qed.

Lemma ids_buffer_alen k : 0 <= k <= fa_count a -> alen (ids_buffer a k) = BVSTK_PROFILE_IDS_CAP.
Proof.
  intros Hk. unfold ids_buffer. rewrite alen_app. pose proof (id_offset_le a W k Hk). rewrite alen_fill by lia. unfold id_offset in *. lia.
Qed.

Lemma result_ids i : 0 <= i < fa_count a -> metadata_id_bad (meta_result a) i = false.
Proof.
  intros Hi. apply id_bad_false.
  assert ((pf_id_offset (meta_result a)).[i] = id_offset a i) as Hoff.
  { unfold meta_result. cbn [pf_id_offset rs_id_offset resources_at]. by rewrite (offsets_at a (fa_count a) i) by lia. }
  pose proof (id_offset_le a W i ltac:(lia)) as Hle. pose proof (id_offset_succ a i ltac:(lia)) as Hsucc.
  pose proof (id_offset_le a W (i + 1) ltac:(lia)) as Hle1. pose proof (alen_nonneg (rid a i)).
  pose proof (id_word_plain _ (wr_ids a W i Hi)) as Hp. pose proof (plain_clean _ Hp) as Hc.
  assert (id_offset a (i + 1) <= id_offset a (fa_count a)) as Hmono.
  { destruct (decide (i + 1 = fa_count a)) as [->|]; [lia|].
    destruct (ids_text_split a (i + 1) (fa_count a)) as [rest Hr]; [lia|]. unfold id_offset at 2. rewrite Hr, alen_app.
    pose proof (alen_nonneg (rid a (i + 1) ++ 0 :: rest)). unfold id_offset. lia. }
  destruct (result_id i Hi) as [rest Hid].
  assert (pf_ids_size (meta_result a) = id_offset a (fa_count a)) as Hsize by done. rewrite Hoff, Hsize.
  split; [lia|]. split; [lia|]. split; [|split].
  - apply memchr0_iff.
    + split; [lia|]. unfold id_at. rewrite Hoff. cbn [pf_ids meta_result rs_ids resources_at].
      pose proof (ids_buffer_alen (fa_count a) ltac:(lia)) as Hal. pose proof (id_offset_le a W (fa_count a) ltac:(lia)).
      unfold alen in *. rewrite length_drop. lia.
    + unfold strlen. rewrite Hid, cstr_terminated by done. lia.
  - rewrite Hid. by apply id_word_valid, (wr_ids a W).
  - intros j Hj. destruct (result_id j ltac:(lia)) as [rest' ->]. rewrite Hid, !cstr_terminated by
      (done || (apply plain_clean, id_word_plain, (wr_ids a W); lia)).
    intros He. pose proof (wr_distinct a W i j ltac:(lia) ltac:(lia) He). lia.
Qed.

Lemma map_shape :
  cstr (stored_asset (pf_register_map (fa_meta a))) = cstr (pf_register_map (fa_meta a)) /\
  cstr (stored_asset (pf_view (fa_meta a))) = cstr (pf_view (fa_meta a)) /\
  metadata_wf (meta_result a) (fa_count a).
Proof.
  destruct (wr_assets a W) as [Hm Hv]. destruct extensions_plain as [[Hjc Hjp] [Hsc Hsp]].
  pose proof (wr_map a W) as Hmap. pose proof (wr_view a W) as Hview.
  assert (asset_name_valid (pf_register_map (fa_meta a)) json_extension = true) as Hmap'
    by (unfold register_map_valid in Hmap; by apply andb_true_iff in Hmap as [? _]).
  destruct (asset_plain _ _ Hm Hjc Hjp Hmap') as [Hmp Hml]. destruct (asset_plain _ _ Hv Hsc Hsp Hview) as [Hvp Hvl].
  destruct (stored_asset_shape _ Hm Hmp Hml) as (C1 & _ & C2). destruct (stored_asset_shape _ Hv Hvp Hvl) as (C3 & _ & C4).
  split; [done|]. split; [done|]. pose proof (wr_count a W) as Hcount. pose proof (count_le a W).
  constructor; unfold meta_result; cbn [pf_register_map pf_view pf_version].
  - unfold I2C_CFG_MAX_REG_COUNT. lia.
  - unfold stored_asset. destruct (truth _) eqn:Et; [|vm_compute; reflexivity]. apply register_map_stored; [done| |done].
    by destruct (nonzero_head _ Hm Et).
  - unfold stored_asset. destruct (truth _) eqn:Et; [|vm_compute; reflexivity]. by apply asset_stored.
  - intros H1 H2. apply Z.eqb_neq in H1. rewrite C4 in H1. apply Z.eqb_neq in H1. apply (wr_view_map a W) in H1.
    apply Z.eqb_eq in H2. rewrite C2 in H2. by apply Z.eqb_eq in H2.
  - right. split; [done|]. fold (meta_result a). destruct (wr_model a W) as [Hmod Hmne].
    pose proof (wr_vendor a W) as Hven. pose proof (wr_label a W) as Hlab. pose proof (class_string a W) as Hcl.
    assert (forall cap s, string_ok cap s -> 0 < cap -> memchr0 (store_text (fill cap 0) s) cap = true) as Hmem.
    { intros cap s Hs Hcap. pose proof (so_length _ _ Hs). apply memchr0_iff.
      - rewrite store_text_alen; rewrite alen_fill; lia.
      - unfold strlen. rewrite store_text_cstr; [done|]. by apply (string_clean cap). }
    assert (forall cap s, string_ok cap s -> 0 < cap -> memchr0 (stored_optional cap s) cap = true) as Hmemo.
    { intros cap s Hs Hcap. destruct (stored_optional_shape cap s Hs Hcap) as [Ha Hc]. pose proof (so_length _ _ Hs).
      apply memchr0_iff; [lia|]. unfold strlen. by rewrite Hc. }
    pose proof (id_offset_le a W (fa_count a) ltac:(lia)) as Hsize.
    constructor.
    + lia.
    + cbn [pf_ids_size meta_result rs_ids_size resources_at]. lia.
    + reflexivity.
    + cbn [pf_vendor pf_model pf_device_class pf_label meta_result dp_vendor dp_model dp_class dp_label device_result].
      split; [by apply Hmemo|]. split; [by apply Hmem|]. split; [|by apply Hmemo].
      pose proof (so_length _ _ Hcl). apply memchr0_iff.
      * rewrite store_text_alen; [done|]. exact (so_length _ _ Hcl).
      * unfold strlen. rewrite store_text_cstr; [done|]. by apply (string_clean 16).
    + cbn [pf_model meta_result dp_model device_result]. apply store_text_head; [by apply (string_clean 65)|done].
    + cbn [pf_device_class meta_result dp_class device_result]. apply (class_stored a W).
    + apply result_ids.
Qed.
End result.
