(* ===== verification/ProfileConfigs.v ===== *)
(** * ProfileConfigs: the configurations that a profile brings back

    What [bvstk_device_profile_format_i2c] and [_mdio] write,
    [bvstk_device_profile_parse_i2c] and [_mdio] accept, and the configuration
    they return is the saved one: same addresses, policies and rules, the
    presets in effect, the same strings and register identifiers. *)
From stdpp Require Import prelude.
From Stdlib Require Import ZArith Lia.
From S2P Require Import Prelude Text Platform I2cDevices ConfigValidate JsonReader JsonGrammar JsonObjects ProfileCodec ProfileText ProfileFormat ProfileMembers ProfileRoundTrip ProfileSafety.
Import String.StringSyntax.
Local Open Scope Z_scope.

(** ** Seeds: a later preset of a register replaces an earlier one *)

(** The value a register is left with when the presets are applied in order. *)
Definition preset_value (reg : Z) (l : list (Z * Z)) : option Z :=
  foldl (fun acc s => if fst s =? reg then Some (snd s) else acc) None l.

Lemma effective_seeds_incl mdio l s : s ∈ effective_seeds mdio l -> s ∈ l.
Proof.
  induction l as [|[reg val] l IH]; [done|]. cbn [effective_seeds]. rewrite elem_of_cons.
  destruct (negb mdio && _); [auto|]. rewrite elem_of_cons. intros [->|Hs]; auto.
Qed.

Lemma effective_seeds_Forall mdio l (P : Z * Z -> Prop) : Forall P l -> Forall P (effective_seeds mdio l).
Proof. rewrite !Forall_forall. intros Hl s Hs. by apply Hl, (effective_seeds_incl mdio). Qed.

Lemma effective_seeds_alen mdio l : alen (effective_seeds mdio l) <= alen l.
Proof.
  unfold alen. induction l as [|[reg val] l IH]; [done|]. cbn [effective_seeds]. destruct (negb mdio && _); cbn [length]; lia.
Qed.

Lemma effective_seeds_mdio l : effective_seeds true l = l.
Proof. induction l as [|[reg val] l IH]; [done|]. cbn. by rewrite IH. Qed.

Lemma effective_seeds_distinct l : NoDup (fst <$> effective_seeds false l).
Proof.
  induction l as [|[reg val] l IH]; [constructor|]. cbn [effective_seeds negb andb].
  destruct (existsb (fun s => s.1 =? reg) l) eqn:E; [done|]. cbn [fmap list_fmap fst]. constructor; [|done].
  intros Hin. apply list_elem_of_fmap in Hin as ([r v] & Hr & Hin). cbn [fst] in Hr. subst r.
  apply effective_seeds_incl, list_elem_of_In in Hin. apply not_true_iff_false in E. destruct E.
  apply existsb_exists. exists (reg, v). split; [done|]. apply Z.eqb_refl.
Qed.

Lemma preset_value_overwritten reg (l : list (Z * Z)) (acc acc' : option Z) :
  existsb (fun s => s.1 =? reg) l = true ->
  foldl (fun acc s => if s.1 =? reg then Some s.2 else acc) acc l =
  foldl (fun acc s => if s.1 =? reg then Some s.2 else acc) acc' l.
Proof.
  revert acc acc'. induction l as [|[r v] l IH]; intros acc acc' H; [done|]. cbn [existsb fst] in H.
  cbn [foldl fst snd]. destruct (r =? reg); [done|]. by apply IH.
Qed.

Lemma preset_value_effective mdio reg l : preset_value reg (effective_seeds mdio l) = preset_value reg l.
Proof.
  unfold preset_value. generalize (@None Z). induction l as [|[r v] l IH]; intros acc; [done|]. cbn [effective_seeds].
  destruct (negb mdio && existsb (fun s => s.1 =? r) l) eqn:E; cbn [foldl fst snd]; rewrite IH; [|done].
  apply andb_true_iff in E as [_ E]. destruct (Z.eqb_spec r reg) as [->|]; [|done]. by apply preset_value_overwritten.
Qed.

(** ** Arrays with their unused cells zero *)

Lemma zero_tail_prefix {A} `{Inhabited A} cap (l : list A) : prefix (alen l) (zero_tail cap l) = l.
Proof. unfold prefix, zero_tail, alen. by rewrite Nat2Z.id, take_app_length. Qed.

Lemma zero_tail_alen {A} `{Inhabited A} cap (l : list A) : alen l <= cap -> alen (zero_tail cap l) = cap.
Proof. intros Hl. unfold zero_tail, alen in *. rewrite length_app. unfold fill. rewrite length_replicate. lia. Qed.

Lemma fmap_undo {A B} (f : A -> B) (g : B -> A) (l : list A) : (forall x, g (f x) = x) -> g <$> (f <$> l) = l.
Proof. intros Hfg. induction l as [|x l IH]; [done|]. cbn. by rewrite Hfg, IH. Qed.

(** ** What a profile keeps of the metadata *)

Definition saved_meta (name class : chars) (count : Z) (p q : bvstk_profile_metadata_t) : Prop :=
  pf_version q = 2 /\
  cstr (pf_register_map q) = cstr (pf_register_map p) /\ cstr (pf_view q) = cstr (pf_view p) /\
  (forall i, 0 <= i < count -> cstr (resource_id q i) = cstr (resource_id p i)) /\
  if pf_version p =? 0 then
    cstr (pf_model q) = cstr name /\ cstr (pf_device_class q) = class /\ cstr (pf_vendor q) = [] /\ cstr (pf_label q) = []
  else
    cstr (pf_model q) = cstr (pf_model p) /\ cstr (pf_device_class q) = cstr (pf_device_class p) /\
    cstr (pf_vendor q) = cstr (pf_vendor p) /\ cstr (pf_label q) = cstr (pf_label p).

Lemma meta_result_saved a :
  writable a -> saved_meta (fa_name a) (if fa_mdio a then lit "phy" else lit "generic") (fa_count a) (fa_meta a) (meta_result a).
Proof.
  intros W. destruct (map_shape a W) as (Hmap & Hview & _). split; [done|]. split; [exact Hmap|]. split; [exact Hview|].
  split; [intros i Hi; apply (meta_id a W i Hi)|].
  destruct (wr_model a W) as [Hmod _]. pose proof (wr_vendor a W) as Hven. pose proof (wr_label a W) as Hlab.
  pose proof (class_string a W) as Hcl.
  assert (cstr (pf_model (meta_result a)) = model_of a) as ->
    by (apply store_text_cstr; by apply (string_clean 65)).
  assert (cstr (pf_device_class (meta_result a)) = class_of a) as ->
    by (apply store_text_cstr; by apply (string_clean 16)).
  assert (cstr (pf_vendor (meta_result a)) = vendor_of a) as -> by (by apply (stored_optional_shape 65)).
  assert (cstr (pf_label (meta_result a)) = label_of a) as -> by (by apply (stored_optional_shape 97)).
  unfold model_of, class_of, vendor_of, label_of, v2_of, truth. destruct (pf_version (fa_meta a) =? 0); cbn [negb]; [|done].
  by destruct (fa_mdio a).
Qed.

Lemma stored_name_shape a :
  writable a -> alen (stored_name a) = 32 /\ cstr (stored_name a) = cstr (fa_name a) /\ (stored_name a).[0] <> 0.
Proof.
  intros W. destruct (wr_name a W) as (Hl & _ & c & q & Hc & _). pose proof (id_word_plain _ (wr_name a W)) as Hp.
  pose proof (plain_clean _ Hp) as Hcl. unfold stored_name. split; [by rewrite store_text_alen|].
  split; [by apply store_text_cstr|]. apply store_text_head; [done|]. by rewrite Hc.
Qed.

(** ** I2C configurations *)

(** The cells of the rule arrays are unsigned bytes. *)
Definition i2c_rules_typed (c : i2c_device_config_t) : Prop :=
  Forall (fun r => 0 <= rule_reg r < 256 /\ 0 <= rule_val r < 256) (white_rules c ++ black_rules c ++ preset_rules c).

Definition preset_pairs (l : list i2c_rule_entry_t) : list (Z * Z) := (fun r => (rule_reg r, rule_val r)) <$> l.

(** The configuration that is read back: everything but the file name, which
    is not part of a profile. *)
Record saved_i2c (c c' : i2c_device_config_t) : Prop := {
  si_name : cstr (cfg_name c') = cstr (cfg_name c);
  si_address : cfg_addr_7b c' = cfg_addr_7b c;
  si_count : cfg_reg_count c' = cfg_reg_count c;
  si_max : cfg_max_value_code c' = cfg_max_value_code c;
  si_policy : cfg_policy c' = cfg_policy c;
  si_rules : white_rules c' = white_rules c /\ black_rules c' = black_rules c;
  si_presets : NoDup (rule_reg <$> preset_rules c') /\
    forall reg, preset_value reg (preset_pairs (preset_rules c')) = preset_value reg (preset_pairs (preset_rules c));
  si_meta : saved_meta (cfg_name c) (lit "generic") (cfg_reg_count c) (cfg_profile c) (cfg_profile c')
}.

Section i2c.
Context (c : i2c_device_config_t).
Hypothesis sized : i2c_config_sized c.
Hypothesis typed : i2c_rules_typed c.
Hypothesis wf : i2c_config_wf c.
Hypothesis storable : profile_storable (cfg_profile c) (cfg_reg_count c).
Hypothesis named : id_valid (cfg_name c) = true.
Hypothesis printable_names : names_printable (i2c_args c).
Let a := i2c_args c.

Lemma i2c_writable : writable a.
Proof.
  destruct sized as (_ & _ & _ & _ & Ha & Hc & Hm & Hwl & Hbl & Hsl).
  pose proof typed as Ht. unfold i2c_rules_typed in Ht. rewrite !Forall_app in Ht. destruct Ht as (Htw & Htb & Hts).
  destruct wf as [_ Haddr Hcount Hmax _ (Hlw & Hlb & Hls) Hr Hset Hmeta]. apply Forall_app in Hr as [Hrw Hrb].
  assert (forall l : list i2c_rule_entry_t, Forall (fun r => 0 <= rule_reg r < 256 /\ 0 <= rule_val r < 256) l ->
    Forall (fun r => rule_reg r < cfg_reg_count c /\ rule_val r <= cfg_max_value_code c) l ->
    Forall (rule_ok a) ((fun r => (rule_reg r, rule_val r, 255)) <$> l)) as Hok.
  { intros l H1 H2. apply Forall_fmap, Forall_forall. intros r Hin. rewrite Forall_forall in H1, H2.
    destruct (H1 r Hin), (H2 r Hin). cbn. lia. }
  assert (alen (fa_settings a) <= 256) as Hsa by (cbn; rewrite alen_fmap; pose proof (prefix_short (cfg_settings c) _ Hsl); lia).
  apply storable_writable; try done; cbn [a i2c_args fa_mdio fa_count fa_address fa_reg_delay_ms fa_cycle_delay_ms fa_autopoll
    fa_max_value_code fa_white fa_black_rules fa_settings]; try lia.
  - split; [constructor|]. split; [constructor|done].
  - split; by apply Hok.
  - rewrite !alen_fmap. pose proof (prefix_short (cfg_whitelist c) _ Hwl). pose proof (prefix_short (cfg_blacklist c) _ Hbl). lia.
  - apply effective_seeds_Forall, Forall_fmap, Forall_forall. intros r Hin. rewrite Forall_forall in Hts, Hset.
    specialize (Hts r Hin). specialize (Hset r Hin). unfold seed_ok, maximum_of. cbn in *. lia.
  - apply effective_seeds_distinct.
  - etrans; [apply effective_seeds_alen|exact Hsa].
Qed.

Lemma i2c_result_lists :
  white_rules (i2c_of_parts (parts_result a)) = white_rules c /\
  black_rules (i2c_of_parts (parts_result a)) = black_rules c /\
  preset_pairs (preset_rules (i2c_of_parts (parts_result a))) = effective_seeds false (preset_pairs (preset_rules c)).
Proof.
  unfold white_rules, black_rules, preset_rules, preset_pairs, i2c_of_parts, parts_result.
  cbn [cfg_whitelist cfg_whitelist_len cfg_blacklist cfg_blacklist_len cfg_settings cfg_settings_len pa_white_rules pa_black_rules pa_seeds].
  rewrite <- (alen_fmap (fun '(reg, val, _) => Rule reg val) (fa_white a)), <- (alen_fmap (fun '(reg, val, _) => Rule reg val) (fa_black_rules a)),
    <- (alen_fmap (fun '(reg, val) => Rule reg val) (seeds a)), !zero_tail_prefix.
  split; [|split].
  - cbn [fa_white a i2c_args]. apply fmap_undo. by intros [].
  - cbn [fa_black_rules a i2c_args]. apply fmap_undo. by intros [].
  - apply fmap_undo. by intros [].
Qed.

Lemma i2c_result_sized : i2c_config_sized (i2c_of_parts (parts_result a)).
Proof.
  pose proof i2c_writable as W. destruct (wr_count a W), (wr_address a W), (wr_max_value a W), (wr_rules_len a W).
  pose proof (wr_seeds_len a W). pose proof (u16_range (fa_count a)).
  split; [apply stored_name_shape, W|]. repeat (split; [first [apply zero_tail_alen; rewrite alen_fmap; done|eassumption|apply u16_range|apply alen_nonneg]|]).
  apply alen_nonneg.
Qed.

Lemma i2c_result_wf : i2c_config_wf (i2c_of_parts (parts_result a)).
Proof.
  pose proof i2c_writable as W. destruct (stored_name_shape a W) as (Hn1 & Hn2 & Hn3).
  destruct (wr_count a W), (wr_address a W), (wr_max_value a W), (wr_rules_len a W). pose proof (wr_seeds_len a W).
  destruct (map_shape a W) as (_ & _ & Hmeta). destruct i2c_result_lists as (Hwr & Hbr & Hpr).
  assert (cfg_reg_count (i2c_of_parts (parts_result a)) = cfg_reg_count c) as Hcount by (cbn; apply u16_id; cbn in *; lia).
  assert (cfg_max_value_code (i2c_of_parts (parts_result a)) = cfg_max_value_code c) as Hmax by done.
  destruct wf as [[_ Hlen] _ _ _ _ _ Hrules Hset _].
  constructor; rewrite ?Hwr, ?Hbr, ?Hcount, ?Hmax; try done; try (cbn; lia).
  - split; [exact Hn3|]. cbn [cfg_name i2c_of_parts pa_name parts_result]. rewrite strlen_cstr, Hn2. done.
  - cbn. destruct (_ =? _); auto.
  - assert (Forall (fun s => s.1 < cfg_reg_count c) (preset_pairs (preset_rules (i2c_of_parts (parts_result a))))) as Hpre.
    { rewrite Hpr. apply effective_seeds_Forall. by apply Forall_fmap. }
    apply Forall_fmap in Hpre. exact Hpre.
Qed.

Lemma i2c_result_saved : saved_i2c c (i2c_of_parts (parts_result a)).
Proof.
  pose proof i2c_writable as W. destruct (stored_name_shape a W) as (_ & Hn & _). destruct i2c_result_lists as (Hwr & Hbr & Hpr).
  destruct (wr_count a W). destruct wf as [_ _ _ _ Hpol _ _ _ _]. constructor; try done.
  - cbn. apply u16_id. cbn in *. lia.
  - cbn. by destruct Hpol as [-> | ->].
  - assert (rule_reg <$> preset_rules (i2c_of_parts (parts_result a)) = fst <$> effective_seeds false (preset_pairs (preset_rules c))) as ->.
    { rewrite <- Hpr. unfold preset_pairs. by rewrite <- list_fmap_compose. }
    split; [apply effective_seeds_distinct|]. intros reg. rewrite Hpr. apply preset_value_effective.
  - apply (meta_result_saved a W).
Qed.
End i2c.

(** C10: An I2C configuration saved as a profile is loaded again: whenever the
    writer succeeds, the strict parser accepts its text and returns a
    configuration with the same name, address, register count, value limit,
    policy and rules, the same preset value for every register (each register
    once), and the same strings, asset names and register identifiers. *)
Theorem i2c_profile_roundtrip c cap t :
  i2c_config_sized c -> i2c_rules_typed c -> profile_storable (cfg_profile c) (cfg_reg_count c) ->
  bvstk_device_profile_format_i2c (Some c) (Some cap) = (BVSTK_OK, t) ->
  exists c', bvstk_device_profile_parse_i2c (Some (t ++ [0])) = (BVSTK_OK, Some c') /\ saved_i2c c c'.
Proof.
  intros Hsz Hty Hst. unfold bvstk_device_profile_format_i2c.
  destruct (bvstk_i2c_config_validate (Some c)) eqn:Ev; try done. apply i2c_validate_wf in Ev; [|done].
  intros Hf. apply format_ok in Hf as (-> & Hid & Hpr & Hlen); [|destruct (iw_count _ Ev); cbn; lia].
  pose proof (i2c_writable c Hsz Hty Ev Hst Hid Hpr) as W. exists (i2c_of_parts (parts_result (i2c_args c))).
  split; [|by apply i2c_result_saved]. unfold bvstk_device_profile_parse_i2c. rewrite <- app_assoc. cbn [app].
  rewrite (parse_ok _ W Hlen : parse _ false = _).
  pose proof (i2c_result_wf c Hsz Hty Ev Hst Hid Hpr) as Hwf. apply i2c_validate_wf in Hwf; [|by apply i2c_result_sized].
  by rewrite Hwf.
Qed.

(** ** MDIO configurations *)

(** The cells of the arrays are unsigned: register numbers bytes, the rest
    16-bit words. *)
Definition mdio_rules_typed (m : mdio_phy_config_t) : Prop :=
  Forall (fun r => 0 <= mr_reg r /\ 0 <= mr_val r <= 65535 /\ 0 <= mr_mask r <= 65535) (allow_list m ++ deny_list m) /\
  Forall (fun r => 0 <= ms_reg r /\ 0 <= ms_val r <= 65535) (settings_list m) /\
  Forall (fun r => 0 <= r) (autopoll_list m) /\
  0 <= mc_autopoll_reg_delay_ms m /\ 0 <= mc_autopoll_cycle_delay_ms m.

Record saved_mdio (m m' : mdio_phy_config_t) : Prop := {
  sm_name : cstr (mc_name m') = cstr (mc_name m);
  sm_address : mc_phy_addr m' = mc_phy_addr m;
  sm_count : mc_reg_count m' = mc_reg_count m;
  sm_policy : mc_policy m' = mc_policy m;
  sm_rules : allow_list m' = allow_list m /\ deny_list m' = deny_list m;
  sm_settings : settings_list m' = settings_list m;
  sm_autopoll : mc_autopoll_enabled m' = mc_autopoll_enabled m /\ autopoll_list m' = autopoll_list m /\
    mc_autopoll_reg_delay_ms m' = mc_autopoll_reg_delay_ms m /\ mc_autopoll_cycle_delay_ms m' = mc_autopoll_cycle_delay_ms m;
  sm_meta : saved_meta (mc_name m) (lit "phy") (mc_reg_count m) (mc_profile m) (mc_profile m')
}.

Section mdio.
Context (m : mdio_phy_config_t).
Hypothesis sized : mdio_config_sized m.
Hypothesis typed : mdio_rules_typed m.
Hypothesis wf : mdio_config_wf m.
Hypothesis storable : profile_storable (mc_profile m) (mc_reg_count m).
Hypothesis named : id_valid (mc_name m) = true.
Hypothesis printable_names : names_printable (mdio_args m).
Let a := mdio_args m.

Lemma mdio_settings_distinct : NoDup (fst <$> fa_settings a).
Proof.
  destruct (wf_settings m wf) as [_ Hd]. cbn [fa_settings a mdio_args]. fold (settings_list m).
  rewrite <- list_fmap_compose. exact Hd.
Qed.

Lemma mdio_writable : writable a.
Proof.
  destruct sized as (_ & _ & _ & _ & _ & _ & Ha & Hc & Hal & Hwl & Hbl & Hsl).
  destruct typed as (Htr & Hts & Hta & Hd1 & Hd2). apply Forall_app in Htr as [Htw Htb].
  destruct wf as [_ _ Haddr Hcount _ Hlw Hlb Hls Hla [Hd3 Hd4] Hr [Hap Hapd] [Hset Hsetd] Hmeta]. apply Forall_app in Hr as [Hrw Hrb].
  assert (forall l : list mdio_rule_entry_t,
    Forall (fun r => 0 <= mr_reg r /\ 0 <= mr_val r <= 65535 /\ 0 <= mr_mask r <= 65535) l ->
    Forall (fun r => mr_reg r < mc_reg_count m) l -> Forall (rule_ok a) ((fun r => (mr_reg r, mr_val r, mr_mask r)) <$> l)) as Hok.
  { intros l H1 H2. apply Forall_fmap, Forall_forall. intros r Hin. rewrite Forall_forall in H1, H2.
    specialize (H1 r Hin). specialize (H2 r Hin). cbn in *. lia. }
  pose proof (prefix_short (mc_whitelist m) _ Hwl). pose proof (prefix_short (mc_blacklist m) _ Hbl).
  pose proof (prefix_short (mc_settings m) _ Hsl). pose proof (prefix_short (mc_autopoll_regs m) _ Hal).
  change MDIO_CFG_RULES_MAX with 64 in *. change MDIO_CFG_SETTINGS_MAX with 32 in *.
  apply storable_writable; try done; cbn [a mdio_args fa_mdio fa_count fa_address fa_reg_delay_ms fa_cycle_delay_ms fa_autopoll
    fa_max_value_code fa_white fa_black_rules fa_settings fa_meta]; try lia.
  - by apply metadata_validate_wf.
  - split; [|split; [done|lia]]. apply Forall_forall. intros r Hin. rewrite Forall_forall in Hta, Hap.
    specialize (Hta r Hin). specialize (Hap r Hin). cbn in *. lia.
  - split; by apply Hok.
  - rewrite !alen_fmap. lia.
  - apply effective_seeds_Forall, Forall_fmap, Forall_forall. intros r Hin. rewrite Forall_forall in Hts, Hset.
    specialize (Hts r Hin). specialize (Hset r Hin). unfold seed_ok, maximum_of. cbn in *. lia.
  - rewrite effective_seeds_mdio. apply mdio_settings_distinct.
  - etrans; [apply effective_seeds_alen|]. rewrite alen_fmap. lia.
Qed.

Lemma mdio_result_lists :
  allow_list (mdio_of_parts (parts_result a)) = allow_list m /\
  deny_list (mdio_of_parts (parts_result a)) = deny_list m /\
  settings_list (mdio_of_parts (parts_result a)) = settings_list m /\
  autopoll_list (mdio_of_parts (parts_result a)) = autopoll_list m.
Proof.
  unfold allow_list, deny_list, settings_list, autopoll_list, mdio_of_parts, parts_result.
  cbn [mc_whitelist mc_whitelist_len mc_blacklist mc_blacklist_len mc_settings mc_settings_len mc_autopoll_regs mc_autopoll_regs_len
    pa_white_rules pa_black_rules pa_seeds pa_autopoll].
  rewrite <- (alen_fmap (fun '(reg, val, mask) => MdioRule reg val mask) (fa_white a)),
    <- (alen_fmap (fun '(reg, val, mask) => MdioRule reg val mask) (fa_black_rules a)),
    <- (alen_fmap (fun '(reg, val) => MdioSetting reg val) (seeds a)), !zero_tail_prefix.
  split; [|split; [|split]].
  - cbn [fa_white a mdio_args]. apply fmap_undo. by intros [].
  - cbn [fa_black_rules a mdio_args]. apply fmap_undo. by intros [].
  - unfold seeds. cbn [fa_mdio fa_settings a mdio_args]. rewrite effective_seeds_mdio. apply fmap_undo. by intros [].
  - cbn [fa_mdio a mdio_args]. unfold prefix, alen. by rewrite Nat2Z.id, take_app_length.
Qed.

Lemma mdio_result_sized : mdio_config_sized (mdio_of_parts (parts_result a)).
Proof.
  pose proof mdio_writable as W. destruct (wr_count a W), (wr_address a W), (wr_rules_len a W), (wr_autopoll a W) as (_ & _ & Hal).
  pose proof (wr_seeds_len a W). pose proof (alen_nonneg (fa_autopoll a)).
  split; [apply stored_name_shape, W|]. split; [done|]. split.
  { cbn [mc_autopoll_regs mdio_of_parts pa_autopoll parts_result]. change (fa_mdio a) with true. cbv iota.
    rewrite alen_app, alen_fill by lia. change MDIO_CFG_AUTOPOLL_REGS_MAX with 32. lia. }
  repeat (split; [first [apply zero_tail_alen; rewrite alen_fmap; done|eassumption|apply u8_range|apply alen_nonneg]|]).
  apply alen_nonneg.
Qed.

Lemma mdio_result_wf : mdio_config_wf (mdio_of_parts (parts_result a)).
Proof.
  pose proof mdio_writable as W. destruct (stored_name_shape a W) as (Hn1 & Hn2 & Hn3).
  destruct (wr_count a W), (wr_address a W), (wr_rules_len a W), (wr_autopoll a W) as (_ & _ & Hal), (wr_delays a W).
  pose proof (wr_seeds_len a W).
  destruct (map_shape a W) as (_ & _ & Hmeta). destruct mdio_result_lists as (Hwr & Hbr & Hpr & Har).
  assert (mc_reg_count (mdio_of_parts (parts_result a)) = mc_reg_count m) as Hcount by (cbn; apply u8_id; cbn in *; lia).
  destruct wf as [Hname _ _ _ _ _ _ _ _ Hdel Hrules Hauto Hset _].
  constructor; rewrite ?Hwr, ?Hbr, ?Hpr, ?Har, ?Hcount; try done; try (cbn; lia).
  - destruct Hname as ([Hl1 Hl2] & Hc & Hdd). unfold name_ok. cbn [mc_name mdio_of_parts pa_name parts_result].
    rewrite strlen_cstr, Hn2. done.
  - by left.
  - cbn. destruct (_ =? _); auto.
  - apply metadata_validate_wf; [destruct wf as [_ _ _ ? _ _ _ _ _ _ _ _ _ _]; lia|]. exact Hmeta.
Qed.

Lemma mdio_result_saved : saved_mdio m (mdio_of_parts (parts_result a)).
Proof.
  pose proof mdio_writable as W. destruct (stored_name_shape a W) as (_ & Hn & _).
  destruct mdio_result_lists as (Hwr & Hbr & Hpr & Har). destruct (wr_count a W). pose proof (wf_policy m wf) as Hpol.
  constructor; try done.
  - cbn. apply u8_id. cbn in *. lia.
  - cbn. by destruct Hpol as [-> | ->].
  - apply (meta_result_saved a W).
Qed.
End mdio.

(** An MDIO configuration saved as a profile is loaded again: whenever the
    writer succeeds, the strict parser accepts its text and returns a
    configuration with the same name, PHY address, register count, policy,
    rules, presets, poll order and delays, and the same strings, asset names
    and register identifiers. *)
Theorem mdio_profile_roundtrip m cap t :
  mdio_config_sized m -> mdio_rules_typed m -> profile_storable (mc_profile m) (mc_reg_count m) ->
  bvstk_device_profile_format_mdio (Some m) (Some cap) = (BVSTK_OK, t) ->
  exists m', bvstk_device_profile_parse_mdio (Some (t ++ [0])) = (BVSTK_OK, Some m') /\ saved_mdio m m'.
Proof.
  intros Hsz Hty Hst. unfold bvstk_device_profile_format_mdio.
  destruct (bvstk_mdio_config_validate (Some m)) eqn:Ev; try done. apply mdio_validate_wf in Ev; [|done].
  intros Hf. apply format_ok in Hf as (-> & Hid & Hpr & Hlen); [|destruct (wf_reg_count _ Ev); cbn; lia].
  pose proof (mdio_writable m Hsz Hty Ev Hst Hid Hpr) as W. exists (mdio_of_parts (parts_result (mdio_args m))).
  split; [|by apply mdio_result_saved]. unfold bvstk_device_profile_parse_mdio. rewrite <- app_assoc. cbn [app].
  rewrite (parse_ok _ W Hlen : parse _ true = _).
  pose proof (mdio_result_wf m Hsz Hty Ev Hst Hid Hpr) as Hwf. apply mdio_validate_wf in Hwf; [|by apply mdio_result_sized].
  by rewrite Hwf.
Qed.

(** ** Concrete round trips *)

(** Three registers, a whitelist, and a preset of register 1 that a later one
    replaces. *)
Definition demo_expander : i2c_device_config_t :=
  DeviceConfig (cbuf 32 (lit "dev0")) (fill 48 0) 0x50 3 10 I2C_POLICY_BLACKLIST
    (zero_tail 256 [Rule 1 2; Rule 0 3]) 2 (zero_tail 256 [Rule 2 9]) 1
    (zero_tail 256 [Rule 1 2; Rule 2 4; Rule 1 3]) 3 zero_profile.

Lemma demo_storable count : profile_storable zero_profile count.
Proof. by constructor. Qed.

Lemma i2c_profile_roundtrip_witness :
  exists t c', bvstk_device_profile_format_i2c (Some demo_expander) (Some 4096) = (BVSTK_OK, t) /\ 0 < alen t /\
    bvstk_device_profile_parse_i2c (Some (t ++ [0])) = (BVSTK_OK, Some c') /\ saved_i2c demo_expander c'.
Proof.
  exists (bvstk_device_profile_format_i2c (Some demo_expander) (Some 4096)).2.
  destruct (i2c_profile_roundtrip demo_expander 4096 (bvstk_device_profile_format_i2c (Some demo_expander) (Some 4096)).2)
    as [c' Hc'].
  - vm_compute. repeat split; done.
  - apply (bool_decide_unpack _). vm_compute. exact I.
  - apply demo_storable.
  - vm_compute. reflexivity.
  - exists c'. split; [vm_compute; reflexivity|]. split; [vm_compute; reflexivity|]. exact Hc'.
Defined.

Definition demo_port : mdio_phy_config_t :=
  MdioConfig (cbuf 32 (lit "phy0")) (fill 48 0) 1 6 MDIO_POLICY_WHITELIST true ([1; 4; 2] ++ fill 29 0) 3 10 1000
    (zero_tail 64 [MdioRule 0 0x8000 0x8000]) 1 (zero_tail 64 []) 0 (zero_tail 32 [MdioSetting 4 0x1E1]) 1 zero_profile.

Lemma mdio_profile_roundtrip_witness :
  exists t m', bvstk_device_profile_format_mdio (Some demo_port) (Some 4096) = (BVSTK_OK, t) /\ 0 < alen t /\
    bvstk_device_profile_parse_mdio (Some (t ++ [0])) = (BVSTK_OK, Some m') /\ saved_mdio demo_port m'.
Proof.
  exists (bvstk_device_profile_format_mdio (Some demo_port) (Some 4096)).2.
  destruct (mdio_profile_roundtrip demo_port 4096 (bvstk_device_profile_format_mdio (Some demo_port) (Some 4096)).2)
    as [m' Hm'].
  - vm_compute. repeat split; done.
  - split; [|split; [|split; [|done]]]; apply (bool_decide_unpack _); vm_compute; exact I.
  - apply demo_storable.
  - vm_compute. reflexivity.
  - exists m'. split; [vm_compute; reflexivity|]. split; [vm_compute; reflexivity|]. exact Hm'.
Defined.
