(* ===== verification/LegacyCodec.v ===== *)
(** * LegacyCodec: the older JSON layout of device configurations

    [src/src/shared/config/bvstk_i2c_config_codec.c] and
    [bvstk_mdio_config_codec.c]: the parsers that read both layouts and the
    writers of the older one, and [src/src/shared/base/bvstk_parse.c].

    A cursor is the list of the characters before the NUL; an output parameter is
    stored only by a call that succeeds, since no caller looks at it otherwise. *)
From stdpp Require Import prelude.
From Stdlib Require Import ZArith Lia.
From Stdlib Require String.
Import String.StringSyntax.
From S2P Require Import Prelude Platform I2cDevices ConfigValidate Text JsonReader ProfileCodec.
Local Open Scope Z_scope.

(** ** The C library *)

Definition is_space (c : Z) : bool := (c =? 32) || (9 <=? c) && (c <=? 13).

Fixpoint skip_spaces (p : chars) : chars :=
  match p with
  | c :: r => if is_space c then skip_spaces r else p
  | [] => []
  end.

Definition digit_value (c : Z) : Z :=
  if digit c then c - 48 else if is_lower c then c - 87 else if is_upper c then c - 55 else 36.

(** The digits of [base] at the head of [p]: their value, and what follows. *)
Fixpoint scan_number (base : Z) (p : chars) (n : Z) : Z * chars :=
  match p with
  | c :: r => if digit_value c <? base then scan_number base r (n * base + digit_value c) else (n, p)
  | [] => (n, [])
  end.

Definition base_head (base : Z) (p : chars) : bool := match p with c :: _ => digit_value c <? base | [] => false end.

Definition ULONG_MAX : Z := 4294967295.

(** [strtoul]: [None] when there is no number.  A long has 32 bits. *)
Definition strtoul (base : Z) (s : chars) : option (Z * chars) :=
  let p := skip_spaces s in
  let '(negative, p) := match p with c :: r => if c =? 45 then (true, r) else if c =? 43 then (false, r) else (false, p) | [] => (false, p) end in
  let hex := ((base =? 0) || (base =? 16)) && (starts (lit "0x") p || starts (lit "0X") p) && base_head 16 (drop 2 p) in
  let p := if hex then drop 2 p else p in
  let base := if hex then 16 else if base =? 0 then if is_head 48 p then 8 else 10 else base in
  if negb (base_head base p) then None
  else
    let '(n, r) := scan_number base p 0 in
    Some (if ULONG_MAX <? n then ULONG_MAX else if negative then u32 (- n) else n, r).

(** ** Numbers of the consoles (bvstk_parse.c) *)

(** The value, and what is stored at [ok]. *)
Definition parse_num (text : option chars) (ok : bool) : Z * option bool :=
  if negb ok then (0, None)
  else
    match text with
    | None => (0, Some false)
    | Some [] => (0, Some false)
    | Some s =>
        let base := if starts (lit "0x") s || starts (lit "0X") s then 16 else 10 in
        match strtoul base s with
        | None => (0, Some false)
        | Some (value, r) => (value, Some (match r with [] => true | _ => false end))
        end
    end.

Definition swap_endianness_16 (value : Z) : Z := u16 (Z.lor (Z.shiftr value 8) (Z.shiftl value 8)).

Definition swap_endianness_32 (value : Z) : Z :=
  Z.lor (Z.lor (Z.land (Z.shiftr value 24) 0x000000FF) (Z.land (Z.shiftr value 8) 0x0000FF00))
    (Z.lor (Z.land (u32 (Z.shiftl value 8)) 0x00FF0000) (Z.land (u32 (Z.shiftl value 24)) 0xFF000000)).

Definition swap_endianness_64 (value : Z) : Z :=
  let right k mask := Z.land (Z.shiftr value k) mask in
  let left k mask := Z.land (u64 (Z.shiftl value k)) mask in
  Z.lor (Z.lor (Z.lor (right 56 0xFF) (right 40 0xFF00)) (Z.lor (right 24 0xFF0000) (right 8 0xFF000000)))
    (Z.lor (Z.lor (left 8 0xFF00000000) (left 24 0xFF0000000000)) (Z.lor (left 40 0xFF000000000000) (left 56 0xFF00000000000000))).

(** ** Values of the I2C layout *)

(** [strstr]: what follows the first occurrence. *)
Fixpoint after_match (pattern p : chars) : option chars :=
  if starts pattern p then Some (drop (length pattern) p)
  else match p with [] => None | _ :: r => after_match pattern r end.

Fixpoint find_key_loop (fuel : nat) (pattern cursor : chars) : option chars :=
  match fuel with
  | O => None
  | S fuel =>
      match cursor with
      | [] => None
      | _ =>
          match after_match pattern cursor with
          | None => None
          | Some r =>
              let value := skip_spaces r in
              if is_head 58 value then Some (skip_spaces (drop 1 value)) else find_key_loop fuel pattern value
          end
      end
  end.

Definition find_key (json key : chars) : option chars :=
  let pattern := 34 :: key ++ [34] in
  if 64 <=? alen pattern then None else find_key_loop (S (length json)) pattern json.

Fixpoint parse_string_loop (fuel : nat) (cap : Z) (p out : chars) : option (chars * chars) :=
  match fuel with
  | O => None
  | S fuel =>
      match p with
      | [] => None
      | c :: r =>
          if c =? 34 then Some (out, r)
          else
            let store value r := if cap <=? alen out + 1 then None else parse_string_loop fuel cap r (out ++ [value]) in
            if c =? 92 then
              match r with
              | [] => None
              | e :: r => store (if e =? 110 then 10 else if e =? 114 then 13 else if e =? 116 then 9 else e) r
              end
            else store c r
      end
  end.

Definition parse_string (cap : Z) (cursor : chars) : option (chars * chars) :=
  match skip_spaces cursor with
  | c :: r => if c =? 34 then parse_string_loop (S (length r)) cap r [] else None
  | [] => None
  end.

Definition parse_u32 (cursor : chars) : option (Z * chars) :=
  let p := skip_spaces cursor in
  match p with
  | [] => None
  | c :: _ =>
      if c =? 34 then
        match parse_string 32 p with
        | None => None
        | Some (number, next) =>
            match strtoul 0 number with
            | Some (parsed, []) => if 4294967295 <? parsed then None else Some (u32 parsed, next)
            | _ => None
            end
        end
      else
        match strtoul 0 p with
        | Some (parsed, r) => if 4294967295 <? parsed then None else Some (u32 parsed, r)
        | None => None
        end
  end.

Definition skip_simple_value (cursor : chars) : option chars :=
  let p := skip_spaces cursor in
  match p with
  | [] => None
  | c :: _ =>
      if c =? 34 then match parse_string 8 p with Some (_, r) => Some r | None => None end
      else if starts (lit "true") p then Some (drop 4 p)
      else if starts (lit "false") p then Some (drop 5 p)
      else if starts (lit "null") p then Some (drop 4 p)
      else match parse_u32 p with Some (_, r) => Some r | None => None end
  end.

(** The members of a rule; the state is what was read of it. *)
Fixpoint rule_members (fuel : nat) (cursor : chars) (reg value : option Z) : option (option Z * option Z * chars) :=
  match fuel with
  | O => None
  | S fuel =>
      match skip_spaces cursor with
      | [] => None
      | (c :: r) as p =>
          if c =? 125 then Some (reg, value, r)
          else
            match parse_string 24 p with
            | None => None
            | Some (key, p) =>
                let p := skip_spaces p in
                if negb (is_head 58 p) then None
                else
                  let p := drop 1 p in
                  match
                    (if bool_decide (key = lit "reg") then
                       match parse_u32 p with Some (n, p) => Some (Some n, value, p) | None => None end
                     else if bool_decide (key = lit "val") then
                       match parse_u32 p with Some (n, p) => Some (reg, Some n, p) | None => None end
                     else match skip_simple_value p with Some p => Some (reg, value, p) | None => None end)
                  with
                  | None => None
                  | Some (reg, value, p) =>
                      match skip_spaces p with
                      | c :: r =>
                          if c =? 44 then rule_members fuel r reg value
                          else if c =? 125 then Some (reg, value, r)
                          else None
                      | [] => None
                      end
                  end
            end
      end
  end.

Fixpoint rule_array_loop (fuel : nat) (cursor : chars) (rules_capacity : Z) (rules : list i2c_rule_entry_t)
    : option (list i2c_rule_entry_t) :=
  match fuel with
  | O => None
  | S fuel =>
      match skip_spaces cursor with
      | [] => None
      | c :: r =>
          if c =? 93 then Some rules
          else if negb (c =? 123) then None
          else
            match rule_members (S (length r)) r None None with
            | Some (Some reg, Some value, p) =>
                if (255 <? reg) || (255 <? value) || (rules_capacity <=? alen rules) then None
                else
                  let rules := rules ++ [Rule (u8 reg) (u8 value)] in
                  match skip_spaces p with
                  | c :: r => if c =? 44 then rule_array_loop fuel r rules_capacity rules else if c =? 93 then Some rules else None
                  | [] => None
                  end
            | _ => None
            end
      end
  end.

Definition parse_rule_array (cursor : chars) (rules_capacity : Z) : option (list i2c_rule_entry_t) :=
  match skip_spaces cursor with
  | c :: r => if c =? 91 then rule_array_loop (S (length r)) r rules_capacity [] else None
  | [] => None
  end.

(** ** [bvstk_i2c_config_parse_json] *)

Definition number_at (json key : chars) : option Z :=
  match find_key json key with
  | None => None
  | Some p => match parse_u32 p with Some (n, _) => Some n | None => None end
  end.

Definition string_at (json key : chars) (cap : Z) : option chars :=
  match find_key json key with
  | None => None
  | Some p => match parse_string cap p with Some (s, _) => Some s | None => None end
  end.

(** A list that is not there is empty. *)
Definition rules_at (json key : chars) (cap : Z) : option (list i2c_rule_entry_t) :=
  match find_key json key with
  | None => Some []
  | Some p => parse_rule_array p cap
  end.

Definition policy_word (s : chars) : option Z :=
  if bool_decide (tolower <$> s = lit "whitelist") then Some I2C_POLICY_WHITELIST
  else if bool_decide (tolower <$> s = lit "blacklist") then Some I2C_POLICY_BLACKLIST
  else None.

(** What the older layout describes; [None] is BVSTK_ERR_MALFORMED. *)
Definition parse_i2c_legacy (json : chars) : option i2c_device_config_t :=
  match string_at json (lit "name") I2C_CFG_NAME_MAX, number_at json (lit "addr_7b"), number_at json (lit "reg_count"),
        number_at json (lit "max_value_code"), string_at json (lit "policy") 16 with
  | Some name, Some addr, Some count, Some max, Some policy =>
      if bool_decide (cstr name = []) || (0x7F <? addr) || (count =? 0) || (I2C_CFG_MAX_REG_COUNT <? count) || (64 <? max) then None
      else
        match policy_word (cstr policy), rules_at json (lit "whitelist") I2C_CFG_RULES_MAX, rules_at json (lit "blacklist") I2C_CFG_RULES_MAX,
              rules_at json (lit "settings") I2C_CFG_SETTINGS_MAX with
        | Some policy, Some white, Some black, Some settings =>
            Some (DeviceConfig (cbuf I2C_CFG_NAME_MAX name) (fill I2C_CFG_FILE_NAME_MAX 0) (u8 addr) (u16 count) (u8 max) policy
                    (zero_tail I2C_CFG_RULES_MAX white) (alen white) (zero_tail I2C_CFG_RULES_MAX black) (alen black)
                    (zero_tail I2C_CFG_SETTINGS_MAX settings) (alen settings) zero_profile)
        | _, _, _, _ => None
        end
  | _, _, _, _, _ => None
  end.

Definition bvstk_i2c_config_parse_json (json : option chars) : bvstk_status_t * option i2c_device_config_t :=
  match json with
  | None => (BVSTK_ERR_MALFORMED, None)
  | Some text =>
      match bvstk_device_profile_version json with
      | (BVSTK_OK, version) =>
          if version =? 2 then bvstk_device_profile_parse_i2c json
          else
            match parse_i2c_legacy (cstr text) with
            | None => (BVSTK_ERR_MALFORMED, None)
            | Some c =>
                match bvstk_i2c_config_validate (Some c) with
                | BVSTK_OK => (BVSTK_OK, Some c)
                | e => (e, None)
                end
            end
      | (status, _) => (status, None)
      end
  end.

(** ** [bvstk_i2c_config_serialize_json] *)

Definition json_char (c : Z) (w : writer_t) : writer_t :=
  if c =? 34 then append w [92; 34]
  else if c =? 92 then append w [92; 92]
  else if c =? 10 then append w (lit "\n")
  else if c =? 13 then append w (lit "\r")
  else if c =? 9 then append w (lit "\t")
  else if c <? 32 then fail w
  else append w [c].

Definition writer_append_json_string (value : chars) (w : writer_t) : writer_t :=
  append (foldl (fun w c => json_char c w) (append w [34]) value) [34].

Definition rule_line (last : bool) (r : i2c_rule_entry_t) : chars :=
  lit "    { `reg`: " ++ dec (rule_reg r) ++ lit ", `val`: " ++ dec (rule_val r) ++ lit " }" ++ (if last then [] else lit ",") ++ lit "^".

Fixpoint writer_append_rules (rules : list i2c_rule_entry_t) (w : writer_t) : writer_t :=
  match rules with
  | [] => w
  | r :: rest => writer_append_rules rest (append w (rule_line (match rest with [] => true | _ => false end) r))
  end.

(** [json] is the capacity of the buffer, [None] for NULL; the result is the
    status and the text. *)
Definition bvstk_i2c_config_serialize_json (config : option i2c_device_config_t) (json : option Z) : bvstk_status_t * chars :=
  match bvstk_i2c_config_validate config, config with
  | BVSTK_OK, Some c =>
      match json with
      | None => (BVSTK_ERR_MALFORMED, [])
      | Some cap =>
          if cap =? 0 then (BVSTK_ERR_MALFORMED, [])
          else
            let w := append (Writer [] cap false) (lit "{^  `name`: ") in
            let w := writer_append_json_string (cstr (cfg_name c)) w in
            let w := append w (lit ",^  `addr_7b`: " ++ dec (cfg_addr_7b c) ++ lit ",^  `reg_count`: " ++ dec (cfg_reg_count c) ++
                               lit ",^  `max_value_code`: " ++ dec (cfg_max_value_code c) ++ lit ",^  `policy`: `" ++
                               (if cfg_policy c =? I2C_POLICY_BLACKLIST then lit "blacklist" else lit "whitelist") ++
                               lit "`,^  `whitelist`: [^") in
            let w := writer_append_rules (prefix (cfg_whitelist_len c) (cfg_whitelist c)) w in
            let w := append w (lit "  ],^  `blacklist`: [^") in
            let w := writer_append_rules (prefix (cfg_blacklist_len c) (cfg_blacklist c)) w in
            let w := append w (lit "  ],^  `settings`: [^") in
            let w := writer_append_rules (prefix (cfg_settings_len c) (cfg_settings c)) w in
            let w := append w (lit "  ]^}^") in
            if w_failed w then (BVSTK_ERR_RANGE, []) else (BVSTK_OK, w_text w)
      end
  | status, _ => (status, [])
  end.

(** ** Values of the MDIO layout *)

(** [ch]: white space, then the character. *)
Definition expect (c : Z) (p : chars) : option chars :=
  match skip_spaces p with d :: r => if d =? c then Some r else None | [] => None end.

Fixpoint mdio_string_loop (cap : Z) (p out : chars) : option (chars * chars) :=
  match p with
  | [] => None
  | c :: r =>
      if c =? 34 then Some (out, r)
      else if (c <? 32) || (c =? 92) || (cap <=? alen out + 1) then None
      else mdio_string_loop cap r (out ++ [c])
  end.

(** [string]; the closing quote is where the loop stopped. *)
Definition mdio_string (cap : Z) (p : chars) : option (chars * chars) :=
  match expect 34 p with None => None | Some p => mdio_string_loop cap p [] end.

Fixpoint mdio_number_loop (p : chars) (max v : Z) : option (Z * chars) :=
  match p with
  | c :: r =>
      if digit c then
        let d := c - 48 in
        if (max <? d) || (u32 (max - d) `div` 10 <? v) then None else mdio_number_loop r max (u32 (v * 10 + d))
      else Some (v, p)
  | [] => Some (v, [])
  end.

Definition mdio_number (max : Z) (p : chars) : option (Z * chars) :=
  let p := skip_spaces p in
  if negb (digit_head p) then None
  else if is_head 48 p && digit_head (drop 1 p) then None
  else mdio_number_loop p max 0.

(** [next]: whether another item follows, [None] for -1. *)
Definition next_item (close : Z) (p : chars) : option (bool * chars) :=
  match expect close p with
  | Some p => Some (false, p)
  | None =>
      match expect 44 p with
      | None => None
      | Some p => let p := skip_spaces p in if is_head close p then None else Some (true, p)
      end
  end.

(** Items up to [close]: [item] reads one into the state. *)
Fixpoint items {S} (fuel : nat) (close : Z) (item : chars -> S -> option (S * chars)) (p : chars) (s : S) : option (S * chars) :=
  match fuel with
  | O => None
  | S fuel =>
      match item p s with
      | None => None
      | Some (s, p) =>
          match next_item close p with
          | None => None
          | Some (true, p) => items fuel close item p s
          | Some (false, p) => Some (s, p)
          end
      end
  end.

(** An array that may be empty. *)
Definition array_of {S} (item : chars -> S -> option (S * chars)) (p : chars) (s : S) : option (S * chars) :=
  match expect 91 p with
  | None => None
  | Some p => match expect 93 p with Some p => Some (s, p) | None => items (Datatypes.S (length p)) 93 item p s end
  end.

(** A member of an entry: the key, a colon and a number; [values] are the fields
    read so far, in the order of [keys]. *)
Definition entry_member (keys : list chars) (p : chars) (values : list (option Z)) : option (list (option Z) * chars) :=
  match mdio_string 12 p with
  | None => None
  | Some (key, p) =>
      match expect 58 p with
      | None => None
      | Some p =>
          match for_find (length keys) 0 (fun i => bool_decide (keys.[i] = key)) with
          | None => None
          | Some k =>
              match values.[k], mdio_number (if k =? 0 then 31 else 65535) p with
              | None, Some (v, p) => Some (values.[k <- Some v], p)
              | _, _ => None
              end
          end
      end
  end.

Definition rule_entry_keys : list chars := [lit "reg"; lit "val"; lit "mask"].

Definition mdio_rule (legacy : bool) (p : chars) (rules : list mdio_rule_entry_t) : option (list mdio_rule_entry_t * chars) :=
  if MDIO_CFG_RULES_MAX <=? alen rules then None
  else if legacy then
    match mdio_number 31 p with None => None | Some (v, p) => Some (rules ++ [MdioRule v 0 0], p) end
  else
    match expect 123 p with
    | None => None
    | Some p =>
        match items (S (length p)) 125 (entry_member rule_entry_keys) p [None; None; None] with
        | Some ([Some reg; Some val; mask], p) => Some (rules ++ [MdioRule reg val (default 65535 mask)], p)
        | _ => None
        end
    end.

Definition mdio_setting (p : chars) (settings : list mdio_setting_entry_t) : option (list mdio_setting_entry_t * chars) :=
  if MDIO_CFG_SETTINGS_MAX <=? alen settings then None
  else
    match expect 123 p with
    | None => None
    | Some p =>
        match items (S (length p)) 125 (entry_member [lit "reg"; lit "val"]) p [None; None] with
        | Some ([Some reg; Some val], p) => Some (settings ++ [MdioSetting reg val], p)
        | _ => None
        end
    end.

Definition autopoll_register (p : chars) (regs : list Z) : option (list Z * chars) :=
  if 32 <=? alen regs then None
  else match mdio_number 31 p with None => None | Some (v, p) => Some (regs ++ [v], p) end.

(** ** [bvstk_mdio_config_parse] *)

Definition mdio_keys : list chars :=
  [lit "name"; lit "phy_addr"; lit "reg_count"; lit "policy"; lit "autopoll_enabled"; lit "autopoll_reg_delay_ms";
   lit "autopoll_cycle_delay_ms"; lit "autopoll_regs"; lit "whitelist"; lit "blacklist"; lit "settings"; lit "write_allow_regs";
   lit "write_deny_regs"].

(** What was read of the object, and the keys that were. *)
Record phy_part := PhyPart {
  ph_seen : list Z;
  ph_name : chars;
  ph_addr : Z;
  ph_count : Z;
  ph_policy : Z;
  ph_enabled : bool;
  ph_reg_delay : Z;
  ph_cycle_delay : Z;
  ph_regs : list Z;
  ph_white : list mdio_rule_entry_t;
  ph_black : list mdio_rule_entry_t;
  ph_settings : list mdio_setting_entry_t
}.

Definition no_phy : phy_part := PhyPart [] [] 0 0 0 false 0 50 [] [] [] [].

Definition seen (s : phy_part) (k : Z) : bool := existsb (Z.eqb k) (ph_seen s).

(** The value of key [k], read into the state. *)
Definition phy_value (k : Z) (p : chars) (s : phy_part) : option (phy_part * chars) :=
  let '(PhyPart ks nm ad ct pl en rd cd rg wh bl st) := s in
  if k =? 0 then match mdio_string MDIO_CFG_NAME_MAX p with Some (v, p) => Some (PhyPart ks v ad ct pl en rd cd rg wh bl st, p) | None => None end
  else if k =? 3 then
    match mdio_string 40 p with
    | Some (v, p) =>
        if bool_decide (v = lit "whitelist") then Some (PhyPart ks nm ad ct MDIO_POLICY_WHITELIST en rd cd rg wh bl st, p)
        else if bool_decide (v = lit "blacklist") then Some (PhyPart ks nm ad ct MDIO_POLICY_BLACKLIST en rd cd rg wh bl st, p)
        else None
    | None => None
    end
  else if k =? 4 then
    let p := skip_spaces p in
    if starts (lit "true") p then Some (PhyPart ks nm ad ct pl true rd cd rg wh bl st, drop 4 p)
    else if starts (lit "false") p then Some (s, drop 5 p)
    else None
  else if k =? 7 then
    match array_of autopoll_register p rg with Some (v, p) => Some (PhyPart ks nm ad ct pl en rd cd v wh bl st, p) | None => None end
  else if (k =? 8) || (k =? 11) then
    if seen s 8 && seen s 11 then None
    else match array_of (mdio_rule (k =? 11)) p [] with Some (v, p) => Some (PhyPart ks nm ad ct pl en rd cd rg v bl st, p) | None => None end
  else if (k =? 9) || (k =? 12) then
    if seen s 9 && seen s 12 then None
    else match array_of (mdio_rule (k =? 12)) p [] with Some (v, p) => Some (PhyPart ks nm ad ct pl en rd cd rg wh v st, p) | None => None end
  else if k =? 10 then
    match array_of mdio_setting p st with Some (v, p) => Some (PhyPart ks nm ad ct pl en rd cd rg wh bl v, p) | None => None end
  else
    match mdio_number (if k =? 1 then 31 else if k =? 2 then 32 else 600000) p with
    | None => None
    | Some (v, p) =>
        Some (if k =? 1 then PhyPart ks nm v ct pl en rd cd rg wh bl st
              else if k =? 2 then PhyPart ks nm ad v pl en rd cd rg wh bl st
              else if k =? 5 then PhyPart ks nm ad ct pl en v cd rg wh bl st
              else PhyPart ks nm ad ct pl en rd v rg wh bl st, p)
    end.

Definition see (k : Z) (s : phy_part) : phy_part :=
  PhyPart (k :: ph_seen s) (ph_name s) (ph_addr s) (ph_count s) (ph_policy s) (ph_enabled s) (ph_reg_delay s) (ph_cycle_delay s) (ph_regs s)
    (ph_white s) (ph_black s) (ph_settings s).

Definition phy_member (p : chars) (s : phy_part) : option (phy_part * chars) :=
  match mdio_string 40 p with
  | None => None
  | Some (key, p) =>
      match expect 58 p with
      | None => None
      | Some p =>
          match for_find (length mdio_keys) 0 (fun i => bool_decide (mdio_keys.[i] = key)) with
          | None => None
          | Some k => if seen s k then None else phy_value k p (see k s)
          end
      end
  end.

Definition mdio_of_phy (s : phy_part) : mdio_phy_config_t :=
  MdioConfig (cbuf MDIO_CFG_NAME_MAX (ph_name s)) (fill I2C_CFG_FILE_NAME_MAX 0) (ph_addr s) (ph_count s) (ph_policy s) (ph_enabled s)
    (cbuf MDIO_CFG_AUTOPOLL_REGS_MAX (ph_regs s)) (alen (ph_regs s)) (ph_reg_delay s) (ph_cycle_delay s)
    (zero_tail MDIO_CFG_RULES_MAX (ph_white s)) (alen (ph_white s)) (zero_tail MDIO_CFG_RULES_MAX (ph_black s)) (alen (ph_black s))
    (zero_tail MDIO_CFG_SETTINGS_MAX (ph_settings s)) (alen (ph_settings s)) zero_profile.

(** [None] where the code jumps to [bad]. *)
Definition parse_mdio_legacy (json : chars) : option mdio_phy_config_t :=
  match expect 123 json with
  | None => None
  | Some p =>
      match items (S (length p)) 125 phy_member p no_phy with
      | None => None
      | Some (s, p) =>
          let c := mdio_of_phy s in
          if negb (bool_decide (skip_spaces p = [])) || negb (seen s 0 && seen s 1 && seen s 2 && seen s 3) ||
             negb (bool_decide (bvstk_mdio_config_validate (Some c) = BVSTK_OK)) then None
          else Some c
      end
  end.

Definition bvstk_mdio_config_parse (json : option chars) : bvstk_status_t * option mdio_phy_config_t :=
  match json with
  | None => (BVSTK_ERR_MALFORMED, None)
  | Some text =>
      match bvstk_device_profile_version json with
      | (BVSTK_OK, version) =>
          if version =? 2 then bvstk_device_profile_parse_mdio json
          else match parse_mdio_legacy (cstr text) with None => (BVSTK_ERR_MALFORMED, None) | Some c => (BVSTK_OK, Some c) end
      | (status, _) => (status, None)
      end
  end.

(** ** [bvstk_mdio_config_format] *)

(** The items of a list, ", " between them. *)
Fixpoint separated {A} (item : A -> chars) (first : bool) (l : list A) : chars :=
  match l with
  | [] => []
  | a :: l => (if first then [] else lit ", ") ++ item a ++ separated item false l
  end.

Definition rule_json (r : mdio_rule_entry_t) : chars :=
  lit "{`reg`: " ++ dec (mr_reg r) ++ lit ", `val`: " ++ dec (mr_val r) ++ lit ", `mask`: " ++ dec (mr_mask r) ++ lit "}".
Definition setting_json (r : mdio_setting_entry_t) : chars :=
  lit "{`reg`: " ++ dec (ms_reg r) ++ lit ", `val`: " ++ dec (ms_val r) ++ lit "}".

(** The text that the [ADD]s put together; they stop at the first that does not fit. *)
Definition mdio_text (c : mdio_phy_config_t) : chars :=
  lit "{^  `name`: `" ++ cstr (mc_name c) ++ lit "`,^  `phy_addr`: " ++ dec (mc_phy_addr c) ++ lit ",^  `reg_count`: " ++ dec (mc_reg_count c) ++
  lit ",^  `policy`: `" ++ (if mc_policy c =? MDIO_POLICY_WHITELIST then lit "whitelist" else lit "blacklist") ++
  lit "`,^  `autopoll_enabled`: " ++ (if mc_autopoll_enabled c then lit "true" else lit "false") ++
  lit ",^  `autopoll_reg_delay_ms`: " ++ dec (mc_autopoll_reg_delay_ms c) ++
  lit ",^  `autopoll_cycle_delay_ms`: " ++ dec (mc_autopoll_cycle_delay_ms c) ++ lit ",^  `autopoll_regs`: [" ++
  separated dec true (prefix (mc_autopoll_regs_len c) (mc_autopoll_regs c)) ++ lit "]" ++
  lit ",^  `whitelist`: [" ++ separated rule_json true (prefix (mc_whitelist_len c) (mc_whitelist c)) ++ lit "]" ++
  lit ",^  `blacklist`: [" ++ separated rule_json true (prefix (mc_blacklist_len c) (mc_blacklist c)) ++ lit "]" ++
  lit ",^  `settings`: [" ++ separated setting_json true (prefix (mc_settings_len c) (mc_settings c)) ++ lit "]^}^".

Definition bvstk_mdio_config_format (c : option mdio_phy_config_t) (out : option Z) : bvstk_status_t * chars :=
  match out, c with
  | Some cap, Some m =>
      if (cap =? 0) || negb (bool_decide (bvstk_mdio_config_validate c = BVSTK_OK)) then (BVSTK_ERR_MALFORMED, [])
      else if cap <=? alen (mdio_text m) then (BVSTK_ERR_RANGE, [])
      else (BVSTK_OK, mdio_text m)
  | _, _ => (BVSTK_ERR_MALFORMED, [])
  end.

(** ** Runs *)

Example strtoul_runs :
  strtoul 0 (lit " 0x1Fz") = Some (31, lit "z") /\ strtoul 0 (lit "017") = Some (15, []) /\ strtoul 0 (lit "-1") = Some (ULONG_MAX, []) /\
  strtoul 0 (lit "0xg") = Some (0, lit "xg") /\ strtoul 10 (lit "99999999999") = Some (ULONG_MAX, []) /\ strtoul 10 (lit "x") = None.
Proof. repeat split; reflexivity. Qed.

(** A key is not mistaken for a value of the same text. *)
Example find_key_runs : find_key (lit "{`policy`: `whitelist`, `whitelist`: [1]}") (lit "whitelist") = Some (lit "[1]}").
Proof. reflexivity. Qed.

Example rule_array_runs :
  parse_rule_array (lit "[ {`reg`: 1, `val`: `0x10`}, {`reg`:2,`note`: true, `val`:3,}, ]") 256 = Some [Rule 1 16; Rule 2 3] /\
  parse_rule_array (lit "[ {`reg`: 256, `val`: 1} ]") 256 = None.
Proof. split; reflexivity. Qed.
