(* ===== verification/LegacyRoundTrip.v ===== *)
(** * LegacyRoundTrip: the older layout of MDIO configurations comes back

    [bvstk_mdio_config_parse] reads the text of [bvstk_mdio_config_format], after
    the version gate has let it pass, and returns the saved configuration. *)
From stdpp Require Import prelude.
From Stdlib Require Import ZArith Lia.
From S2P Require Import Prelude Text Platform I2cDevices ConfigValidate JsonReader JsonGrammar JsonObjects ProfileCodec ProfileText ProfileFormat ProfileMembers ProfileConfigs LegacyCodec.
Import String.StringSyntax.
Local Open Scope Z_scope.

(** A closed decidable fact. *)
Ltac decided := apply (bool_decide_unpack _); vm_compute; exact I.

(** ** The version gate *)

(** What the gate makes of a member. *)
Definition version_step (m : chars * chars) (s : version_scan_t) : option version_scan_t :=
  let modern s := VersionScan (vs_seen s)
    (if streq m.1 (lit "resources") || streq m.1 (lit "transport") || streq m.1 (lit "protocol") || streq m.1 (lit "id") then true else vs_modern s) (vs_n s) in
  if streq m.1 (lit "schema_version") then
    if vs_seen s then None
    else match number (Some m.2) 0xFFFFFFFF with None => None | Some n => Some (modern (VersionScan true (vs_modern s) n)) end
  else Some (modern s).

Fixpoint version_fold (ms : list (chars * chars)) (s : version_scan_t) : option version_scan_t :=
  match ms with
  | [] => Some s
  | m :: ms => match version_step m s with Some s => version_fold ms s | None => None end
  end.

(** One round of the loop. *)
Lemma version_loop_round (fuel : nat) w k v w1 w2 t w' c r s :
  blank w -> str_body k v -> blank w1 -> blank w2 -> json_text 15 t -> blank w' -> is_ws c = false -> follow (c :: r) ->
  Forall byte (w ++ quote k ++ w1 ++ 58 :: w2 ++ t ++ w' ++ c :: r) -> alen v < 64 ->
  version_loop (S fuel) (ws (w ++ quote k ++ w1 ++ 58 :: w2 ++ t ++ w' ++ c :: r)) s =
  match version_step (v, t) s with Some s => version_loop fuel (if c =? 44 then ws r else c :: r) s | None => None end.
Proof.
  intros Hw Hkb Hw1 Hw2 Ht Hw' Hc Hf Hb Hl.
  rewrite ws_app_blank by done. apply Forall_app_r in Hb. change (ws (quote k ++ ?x)) with (quote k ++ x). cbn [version_loop].
  change (match quote k ++ ?x with [] => true | c :: _ => c =? 125 end) with false. cbv iota.
  rewrite (proj2 (string_spec (Some 64) _ (w1 ++ 58 :: w2 ++ t ++ w' ++ c :: r) v Hb ltac:(done))) by (exists k; done).
  apply Forall_app_r in Hb. apply Forall_app_r in Hb. inversion_clear Hb as [|? ? _ Hb']. apply Forall_app_r in Hb'.
  rewrite ws_app_blank by done. cbn [ws]. change (is_ws 58) with false. cbv iota. cbn [drop]. rewrite drop_0.
  rewrite ws_app_blank, (json_text_ws 15) by done. cbn zeta.
  rewrite <- (app_nil_l (t ++ w' ++ c :: r)), (value_complete 1 [] t (w' ++ c :: r)); [|done|constructor|done|by apply follow_blank].
  cbn [app]. rewrite upto_app. rewrite ws_app_blank, ws_stop by done. cbn [is_head drop]. rewrite drop_0. unfold version_step. cbn [fst snd].
  destruct (streq v (lit "schema_version")); [destruct (vs_seen s); [done|]; destruct (number (Some t) 0xFFFFFFFF); [|done]|]; cbn [vs_seen vs_modern vs_n]; done.
Qed.

Lemma version_loop_members (fuel : nat) ms body s : members_text ms body ->
  Forall byte (body ++ [125]) -> Forall (fun m => alen m.1 < 64) ms -> (length (ws (body ++ [125%Z])) <= fuel)%nat ->
  version_loop fuel (ws (body ++ [125])) s = version_fold ms s.
Proof.
  intros Hm. revert fuel s.
  induction Hm as [w k v w1 w2 t w' Hw Hkb Hw1 Hw2 Ht Hw'|w k v w1 w2 t w' ms ts Hw Hkb Hw1 Hw2 Ht Hw' Hm IH]; intros fuel s Hb Hms Hf;
    apply Forall_cons in Hms as [Hv Hms].
  - assert ((w ++ quote k ++ w1 ++ 58 :: w2 ++ t ++ w') ++ [125] = w ++ quote k ++ w1 ++ 58 :: w2 ++ t ++ w' ++ [125]) as Hre
      by (rewrite <- !app_assoc; cbn [app]; by rewrite <- !app_assoc).
    rewrite Hre in Hb, Hf |- *. destruct fuel as [|fuel].
    { rewrite ws_app_blank in Hf by done. cbn in Hf. lia. }
    rewrite (version_loop_round fuel w k v); try done; [|cbn; auto]. change (125 =? 44) with false. cbv iota.
    cbn [version_fold]. destruct (version_step (v, t) s) as [s'|]; [|done]. destruct fuel as [|fuel]; [|done].
    exfalso. rewrite ws_app_blank in Hf by done. cbn in Hf. rewrite !length_app in Hf. cbn in Hf. rewrite !length_app in Hf. cbn in Hf. lia.
  - assert ((w ++ quote k ++ w1 ++ 58 :: w2 ++ t ++ w' ++ 44 :: ts) ++ [125] =
      w ++ quote k ++ w1 ++ 58 :: w2 ++ t ++ w' ++ 44 :: ts ++ [125]) as Hre
      by (rewrite <- !app_assoc; cbn [app]; by rewrite <- !app_assoc).
    rewrite Hre in Hb, Hf |- *. destruct fuel as [|fuel].
    { rewrite ws_app_blank in Hf by done. cbn in Hf. lia. }
    rewrite (version_loop_round fuel w k v); try done; [|cbn; auto]. change (44 =? 44) with true. cbv iota.
    cbn [version_fold]. destruct (version_step (v, t) s) as [s'|]; [|done]. apply IH; [|done|].
    + do 3 apply Forall_app_r in Hb. inversion_clear Hb as [|? ? _ Hb']. do 3 apply Forall_app_r in Hb'. by inversion_clear Hb'.
    + pose proof (length_ws_stop (w ++ quote k ++ w1 ++ 58 :: w2 ++ t ++ w') 44 (ts ++ [125]) ltac:(done)) as Hl.
      pose proof (length_ws (ts ++ [125])). rewrite <- !app_assoc in Hl. cbn [app] in Hl. rewrite <- !app_assoc in Hl.
      cbn [length] in *. lia.
Qed.

(** The gate on a document whose members are known. *)
Lemma version_members json ms root s : Forall byte json -> is_document (cstr json) root -> object_text ms root -> Forall byte root ->
  Forall (fun m => alen m.1 < 64) ms -> version_fold ms (VersionScan false false 0) = Some s ->
  bvstk_device_profile_version (Some json) =
    if negb (vs_seen s) && vs_modern s then (BVSTK_ERR_MALFORMED, 0)
    else if vs_seen s && negb (vs_n s =? 2) then (BVSTK_ERR_UNSUPPORTED, 0)
    else (BVSTK_OK, if vs_seen s then 2 else 0).
Proof.
  intros Hb Hd (body & -> & Hbody) Hbr Hms Hfold. unfold bvstk_device_profile_version. rewrite (proj2 (document_spec _ _ Hb) Hd). cbn [drop]. rewrite drop_0.
  apply Forall_cons in Hbr as [_ Hbr].
  assert (version_loop (S (length (ws (body ++ [125%Z])))) (ws (body ++ [125])) (VersionScan false false 0) = Some s) as ->; [|done].
  destruct Hbody as [[-> Hbl]|Hm]; [|rewrite (version_loop_members _ ms); try done; lia].
  rewrite ws_app_blank by done. injection Hfold as <-. done.
Qed.

(** ** Reading one piece *)

Lemma skip_spaces_blank w p : blank w -> skip_spaces (w ++ p) = skip_spaces p.
Proof.
  induction 1 as [|c w Hc _ IH]; [done|]. cbn [app skip_spaces]. assert (is_space c = true) as ->; [|done].
  unfold is_ws in Hc. repeat (apply orb_prop in Hc as [Hc|Hc]); apply Z.eqb_eq in Hc; subst c; reflexivity.
Qed.

Lemma expect_here c w p : blank w -> is_space c = false -> expect c (w ++ c :: p) = Some p.
Proof. intros Hw Hc. unfold expect. rewrite skip_spaces_blank by done. cbn [skip_spaces]. by rewrite Hc, Z.eqb_refl. Qed.

Lemma mdio_string_loop_plain cap s out p : plain s -> alen out + alen s < cap -> mdio_string_loop cap (s ++ 34 :: p) out = Some (out ++ s, p).
Proof.
  intros Hs. revert out. induction Hs as [|c s Hc _ IH]; intros out Hl; cbn [app mdio_string_loop]; [by rewrite app_nil_r|].
  unfold plain_char in Hc. bsimp. rewrite alen_cons in Hl. pose proof (alen_nonneg s).
  rewrite !(proj2 (Z.eqb_neq _ _)), !(proj2 (Z.ltb_ge _ _)), (proj2 (Z.leb_gt _ _)) by lia. cbn [orb].
  rewrite IH; [by rewrite <- app_assoc|]. rewrite alen_app. change (alen [c]) with 1. lia.
Qed.

Lemma mdio_string_quote cap w s p : blank w -> plain s -> alen s < cap -> mdio_string cap (w ++ quote s ++ p) = Some (s, p).
Proof.
  intros Hw Hs Hl. unfold mdio_string, quote. cbn [app]. rewrite expect_here by done. rewrite <- app_assoc. cbn [app].
  by rewrite mdio_string_loop_plain by done.
Qed.

Lemma mdio_number_loop_app d r max v : Forall (fun c => digit c = true) d -> digit_head r = false -> max < 4294967296 -> 0 <= max ->
  mdio_number_loop (d ++ r) max v = match number_loop d max v with Some n => Some (n, r) | None => None end.
Proof.
  intros Hd Hr Hm H0. revert v. induction Hd as [|c d Hc _ IH]; intros v.
  { cbn. destruct r as [|c r]; [done|]. cbn in Hr |- *. by rewrite Hr. }
  cbn [app mdio_number_loop number_loop]. rewrite Hc. cbn [negb]. unfold digit in Hc. bsimp.
  destruct (Z.ltb_spec max (c - 48)); [done|]. rewrite u32_id by lia. destruct (_ <? v); [done|]. apply IH.
Qed.

Lemma mdio_number_dec max n w r : 0 <= n <= max -> max < 4294967296 -> blank w -> follow r -> mdio_number max (w ++ dec n ++ r) = Some (n, r).
Proof.
  intros Hn Hm Hw Hr. destruct (dec_spec n) as ([Hne Hd] & Hz & _); [lia|]. pose proof (dec_read n max Hn Hm) as Hread.
  apply follow_digit in Hr. unfold mdio_number. rewrite skip_spaces_blank by done. destruct (dec n) as [|c d] eqn:Ed; [done|].
  inversion_clear Hd as [|? ? Hc Hd']. assert (is_space c = false) as Hsp by (unfold digit, is_space in *; bsimp; destruct (Z.eqb_spec c 32); cbn; lia).
  cbn [app skip_spaces]. rewrite Hsp. cbn zeta. cbn [digit_head is_head drop]. rewrite Hc, drop_0. cbn [negb].
  assert ((c =? 48) && digit_head (d ++ r) = false) as ->.
  { destruct Hz as [[= -> ->] | Hz]; [cbn [app]; by rewrite Hr, andb_false_r|]. cbn in Hz. by rewrite Hz. }
  change (c :: d ++ r) with ((c :: d) ++ r). rewrite mdio_number_loop_app; [|by constructor|done|lia|lia].
  cbn [number] in Hread. destruct (_ && _); [done|]. by rewrite Hread.
Qed.

(** ** Loops over items *)

(** Reading [ts] one after the other takes [s] to [s']. *)
Fixpoint item_chain {S} (item : chars -> S -> option (S * chars)) (ts : list chars) (s s' : S) : Prop :=
  match ts with
  | [] => s' = s
  | t :: ts => exists s1, (forall w r, blank w -> follow r -> item (w ++ t ++ r) s = Some (s1, r)) /\ item_chain item ts s1 s'
  end.

(** What an item starts with is not taken for a closing bracket. *)
Definition opens (t : chars) : Prop := exists c q, t = c :: q /\ is_space c = false /\ c <> 93 /\ c <> 125.

Lemma items_chain {S} (item : chars -> S -> option (S * chars)) (fuel : nat) object w sep cl ts s s' tail :
  ts <> [] -> blank w -> blank sep -> blank cl -> Forall opens ts -> item_chain item ts s s' -> (length ts <= fuel)%nat ->
  items fuel (closing object) item (w ++ intercalate (44 :: sep) ts ++ cl ++ closing object :: tail) s = Some (s', tail).
Proof.
  intros Hne Hw Hsep Hcl Ho. revert fuel w s Hne Hw. induction Ho as [|t ts _ Hts IH]; intros fuel w s Hne Hw Hc Hf; [done|].
  destruct fuel as [|fuel]; [cbn in Hf; lia|]. destruct Hc as (s1 & Hit & Hc). cbn [items].
  assert (is_space (closing object) = false) as Hsp by (by destruct object).
  destruct ts as [|t2 ts].
  - cbn [intercalate]. rewrite Hit; [|done|].
    + unfold next_item. rewrite expect_here by done. by cbn in Hc; subst s'.
    + apply follow_blank; [done|]. destruct object; cbn; auto.
  - change (intercalate (44 :: sep) (t :: t2 :: ts)) with (t ++ (44 :: sep) ++ intercalate (44 :: sep) (t2 :: ts)).
    rewrite <- !app_assoc. rewrite Hit; [|done|cbn; auto]. apply Forall_cons in Hts as [(c & q & -> & Hc1 & Hc2 & Hc3) _].
    set (rest := intercalate (44 :: sep) ((c :: q) :: ts) ++ cl ++ closing object :: tail). unfold next_item.
    change ((44 :: sep) ++ ?x) with (44 :: sep ++ x). assert (expect (closing object) (44 :: sep ++ rest) = None) as -> by (by destruct object).
    change (44 :: sep ++ rest) with ([] ++ 44 :: sep ++ rest). rewrite expect_here by (done || constructor).
    rewrite skip_spaces_blank by done. assert (exists x, rest = c :: x) as [x Hx] by (destruct ts; eexists; reflexivity).
    assert (is_head (closing object) (skip_spaces rest) = false) as ->.
    { rewrite Hx. cbn [skip_spaces]. rewrite Hc1. cbn. apply Z.eqb_neq. destruct object; cbn; lia. }
    assert (skip_spaces rest = [] ++ rest) as -> by (rewrite Hx; cbn [skip_spaces]; by rewrite Hc1).
    apply IH; [done|constructor|done|cbn in *; lia].
Qed.

Lemma intercalate_length sep ts : Forall opens ts -> (length ts <= length (intercalate sep ts))%nat.
Proof.
  induction 1 as [|t ts (c & q & -> & _) _ IH]; [done|]. destruct ts as [|t2 ts]; [cbn; lia|].
  cbn [intercalate length] in *. rewrite !length_app. cbn. lia.
Qed.

Lemma array_of_arr {S} (item : chars -> S -> option (S * chars)) ts w s s' r :
  blank w -> Forall opens ts -> item_chain item ts s s' -> array_of item (w ++ arr [] [32] [] ts ++ r) s = Some (s', r).
Proof.
  intros Hw Ho Hc. unfold array_of, arr. cbn [app]. rewrite expect_here by done. rewrite <- !app_assoc. cbn [app].
  destruct ts as [|t ts].
  { cbn in Hc. subst s'. done. }
  assert (exists c x, intercalate (44 :: [32]) (t :: ts) ++ 93 :: r = c :: x /\ is_space c = false /\ c <> 93) as (c & x & Hx & Hc1 & Hc2).
  { apply Forall_cons in Ho as [(c & q & -> & ? & ? & _) _]. destruct ts; repeat eexists; done. }
  rewrite Hx. unfold expect at 1. cbn [skip_spaces]. rewrite Hc1, (proj2 (Z.eqb_neq _ _)) by done. rewrite <- Hx.
  change (intercalate [44; 32] (t :: ts) ++ 93 :: r) with ([] ++ intercalate (44 :: [32]) (t :: ts) ++ [] ++ closing false :: r).
  apply (items_chain item _ false [] [32] [] (t :: ts)); try done; [constructor|apply blank_space|constructor|]. pose proof (intercalate_length (44 :: [32]) (t :: ts) Ho).
  cbn [app]. rewrite length_app. lia.
Qed.

Lemma items_obj {S} (item : chars -> S -> option (S * chars)) ms open sep close s s' r :
  blank open -> blank sep -> blank close -> ms <> [] -> Forall opens (member <$> ms) -> item_chain item (member <$> ms) s s' ->
  match obj open sep close ms ++ r with
  | _ :: p => items (Datatypes.S (length p)) 125 item p s = Some (s', r)
  | [] => False
  end.
Proof.
  intros Ho Hsep Hcl Hne Hop Hc. unfold obj. cbn [app]. rewrite <- !app_assoc. cbn [app].
  apply (items_chain item _ true); try done; [by destruct ms|]. pose proof (intercalate_length (44 :: sep) (member <$> ms) Hop).
  rewrite !length_app. lia.
Qed.

(** A list read item by item, up to the capacity of its array. *)
Lemma item_chain_list {A} (item : chars -> list A -> option (list A * chars)) (txt : A -> chars) cap (l acc : list A) :
  (forall a acc w r, a ∈ l -> alen acc < cap -> blank w -> follow r -> item (w ++ txt a ++ r) acc = Some (acc ++ [a], r)) ->
  alen acc + alen l <= cap -> item_chain item (txt <$> l) acc (acc ++ l).
Proof.
  revert acc. induction l as [|a l IH]; intros acc Hit Hl; cbn [fmap list_fmap item_chain]; [by rewrite app_nil_r|].
  rewrite alen_cons in Hl. pose proof (alen_nonneg l). exists (acc ++ [a]). split.
  - intros w r Hw Hr. apply Hit; [by left|lia|done|done].
  - rewrite (app_assoc acc [a] l : acc ++ a :: l = _). apply IH; [intros; apply Hit; [by right|done..]|].
    rewrite alen_app. change (alen [a]) with 1. lia.
Qed.

Lemma opens_digit n : 0 <= n < 4294967296 -> opens (dec n).
Proof.
  intros Hn. destruct (dec_spec n Hn) as ([Hne Hd] & _). destruct (dec n) as [|c d]; [done|]. exists c, d. split; [done|].
  inversion_clear Hd as [|? ? Hc _]. unfold digit, is_space in *. bsimp. split; [|lia].
  apply orb_false_iff. split; [apply Z.eqb_neq; lia|]. apply andb_false_iff. right. apply Z.leb_gt. lia.
Qed.

Lemma opens_member m : opens (member m).
Proof. by eexists 34, _. Qed.

Lemma opens_obj open sep close ms : opens (obj open sep close ms).
Proof. by eexists 123, _. Qed.

Lemma opens_all {A} (txt : A -> chars) l : (forall a, opens (txt a)) -> Forall opens (txt <$> l).
Proof. intros Ho. apply Forall_fmap, Forall_forall. intros a _. apply Ho. Qed.

(** ** Entries *)

Definition entry_fields (keys : list chars) (vs : list Z) : list (chars * chars) := zip keys (dec <$> vs).

Lemma entry_member_dec keys key k v values w r :
  for_find (length keys) 0 (fun i => bool_decide (keys.[i] = key)) = Some k -> plain key -> alen key < 12 -> values.[k] = None ->
  0 <= v <= (if k =? 0 then 31 else 65535) -> blank w -> follow r ->
  entry_member keys (w ++ member (key, dec v) ++ r) values = Some (values.[k <- Some v], r).
Proof.
  intros Hk Hp Hl Hn Hv Hw Hr. unfold entry_member, member. cbn [fst snd].
  rewrite <- app_assoc. rewrite mdio_string_quote by done. cbn [app]. change (58 :: 32 :: dec v ++ r) with ([] ++ 58 :: 32 :: dec v ++ r).
  rewrite expect_here by (done || constructor). rewrite Hk, Hn. change (32 :: dec v ++ r) with ([32] ++ dec v ++ r).
  rewrite mdio_number_dec; [done|done|destruct (k =? 0); lia|apply blank_space|done].
Qed.

Definition rule_ok (r : mdio_rule_entry_t) : Prop := 0 <= mr_reg r <= 31 /\ 0 <= mr_val r <= 65535 /\ 0 <= mr_mask r <= 65535.
Definition setting_ok (e : mdio_setting_entry_t) : Prop := 0 <= ms_reg e <= 31 /\ 0 <= ms_val e <= 65535.

Lemma rule_json_obj r : rule_json r = obj [] [32] [] [(lit "reg", dec (mr_reg r)); (lit "val", dec (mr_val r)); (lit "mask", dec (mr_mask r))].
Proof. unfold rule_json, obj, member. cbn [fmap list_fmap intercalate fst snd app]. unfold quote. text_norm. reflexivity. Qed.

Lemma setting_json_obj e : setting_json e = obj [] [32] [] [(lit "reg", dec (ms_reg e)); (lit "val", dec (ms_val e))].
Proof. unfold setting_json, obj, member. cbn [fmap list_fmap intercalate fst snd app]. unfold quote. text_norm. reflexivity. Qed.

(** An entry of an array: the object whose members the chain reads. *)
Lemma entry_object (keys : list chars) ms s w r : blank w -> ms <> [] ->
  item_chain (entry_member keys) (member <$> ms) (fill (alen keys) None) s ->
  exists p, expect 123 (w ++ obj [] [32] [] ms ++ r) = Some p /\
    items (S (length p)) 125 (entry_member keys) p (fill (alen keys) None) = Some (s, r).
Proof.
  intros Hw Hne Hc. pose proof (items_obj (entry_member keys) ms [] [32] [] (fill (alen keys) None) s r) as H.
  unfold obj in *. cbn [app] in *. eexists. split; [by apply expect_here|]. apply H; [constructor|apply blank_space|constructor|done| |done].
  apply opens_all, opens_member.
Qed.

Ltac entry_step := split; [intros; apply entry_member_dec; try done; decided|].

Lemma mdio_rule_read a acc w r : rule_ok a -> alen acc < MDIO_CFG_RULES_MAX -> blank w -> follow r ->
  mdio_rule false (w ++ rule_json a ++ r) acc = Some (acc ++ [a], r).
Proof.
  intros (Hr & Hv & Hm) Hl Hw Hf. unfold mdio_rule. rewrite (proj2 (Z.leb_gt _ _)) by done. rewrite rule_json_obj.
  edestruct (entry_object rule_entry_keys) as (p & -> & Hi); [exact Hw|done| |change [None; None; None] with (fill (A:=option Z) (alen rule_entry_keys) None); rewrite Hi].
  - cbn [fmap list_fmap item_chain]. eexists. entry_step. eexists. entry_step. eexists. entry_step. reflexivity.
  - by destruct a.
Qed.

Lemma mdio_setting_read a acc w r : setting_ok a -> alen acc < MDIO_CFG_SETTINGS_MAX -> blank w -> follow r ->
  mdio_setting (w ++ setting_json a ++ r) acc = Some (acc ++ [a], r).
Proof.
  intros (Hr & Hv) Hl Hw Hf. unfold mdio_setting. rewrite (proj2 (Z.leb_gt _ _)) by done. rewrite setting_json_obj.
  edestruct (entry_object [lit "reg"; lit "val"]) as (p & -> & Hi); [exact Hw|done| |change [None; None] with (fill (A:=option Z) (alen [lit "reg"; lit "val"]) None); rewrite Hi].
  - cbn [fmap list_fmap item_chain]. eexists. entry_step. eexists. entry_step. reflexivity.
  - by destruct a.
Qed.

Lemma autopoll_register_read a acc w r : 0 <= a <= 31 -> alen acc < 32 -> blank w -> follow r ->
  autopoll_register (w ++ dec a ++ r) acc = Some (acc ++ [a], r).
Proof. intros Ha Hl Hw Hf. unfold autopoll_register. rewrite (proj2 (Z.leb_gt _ _)) by done. by rewrite mdio_number_dec by (done || lia). Qed.

(** ** The members of a configuration *)

Lemma phy_member_read key k txt s s1 w r :
  for_find (length mdio_keys) 0 (fun i => bool_decide (mdio_keys.[i] = key)) = Some k -> plain key -> alen key < 40 -> seen s k = false ->
  (forall r, follow r -> phy_value k ([32] ++ txt ++ r) (see k s) = Some (s1, r)) -> blank w -> follow r ->
  phy_member (w ++ member (key, txt) ++ r) s = Some (s1, r).
Proof.
  intros Hk Hp Hl Hs Hv Hw Hr. unfold phy_member, member. cbn [fst snd]. rewrite <- app_assoc, mdio_string_quote by done. cbn [app].
  change (58 :: 32 :: txt ++ r) with ([] ++ 58 :: 32 :: txt ++ r). rewrite expect_here by (done || constructor). rewrite Hk, Hs. by apply Hv.
Qed.

Definition list_text (ts : list chars) : chars := arr [] [32] [] ts.

Lemma separated_text {A} (item : A -> chars) l : separated item true l = intercalate [44; 32] (item <$> l).
Proof.
  assert (forall l, separated item false l = concat ((fun a => [44; 32] ++ item a) <$> l)) as H.
  { clear. induction l as [|a l IH]; [done|]. cbn. by rewrite IH. }
  destruct l as [|a l]; [done|]. cbn [separated]. rewrite H. revert a. induction l as [|b l IH]; intros a; [cbn; by rewrite !app_nil_r|].
  change (intercalate [44; 32] (item <$> a :: b :: l)) with (item a ++ [44; 32] ++ intercalate [44; 32] (item <$> b :: l)).
  rewrite <- IH. cbn. done.
Qed.

Section config.
Context (c : mdio_phy_config_t).

Definition policy_text : chars := if mc_policy c =? MDIO_POLICY_WHITELIST then lit "whitelist" else lit "blacklist".

Definition phy_members : list (chars * chars) :=
  [(lit "name", quote (cstr (mc_name c))); (lit "phy_addr", dec (mc_phy_addr c)); (lit "reg_count", dec (mc_reg_count c));
   (lit "policy", quote policy_text); (lit "autopoll_enabled", if mc_autopoll_enabled c then lit "true" else lit "false");
   (lit "autopoll_reg_delay_ms", dec (mc_autopoll_reg_delay_ms c)); (lit "autopoll_cycle_delay_ms", dec (mc_autopoll_cycle_delay_ms c));
   (lit "autopoll_regs", list_text (dec <$> autopoll_list c)); (lit "whitelist", list_text (rule_json <$> allow_list c));
   (lit "blacklist", list_text (rule_json <$> deny_list c)); (lit "settings", list_text (setting_json <$> settings_list c))].

Lemma mdio_text_obj : mdio_text c = obj (lit "^  ") (lit "^  ") (lit "^") phy_members ++ lit "^".
Proof.
  unfold mdio_text. fold policy_text. fold (autopoll_list c) (allow_list c) (deny_list c) (settings_list c). rewrite !separated_text.
  unfold obj, member, phy_members, list_text, arr.
  generalize (intercalate [44; 32] (dec <$> autopoll_list c)) (intercalate [44; 32] (rule_json <$> allow_list c))
    (intercalate [44; 32] (rule_json <$> deny_list c)) (intercalate [44; 32] (setting_json <$> settings_list c))
    policy_text (if mc_autopoll_enabled c then lit "true" else lit "false"). intros l1 l2 l3 l4 l5 l6.
  cbn [fmap list_fmap intercalate fst snd app]. unfold quote. text_norm. reflexivity.
Qed.

Hypothesis sized : mdio_config_sized c.
Hypothesis typed : mdio_rules_typed c.
Hypothesis wf : mdio_config_wf c.

Lemma name_plain : plain (cstr (mc_name c)) /\ alen (cstr (mc_name c)) < MDIO_CFG_NAME_MAX.
Proof.
  destruct (wf_name _ wf) as ([_ Hl] & Hc & _). split; [|exact Hl]. eapply Forall_impl; [exact Hc|]. intros x Hx.
  unfold name_char, isalnum, is_lower, is_upper, digit, plain_char in *. apply andb_prop in Hx as [H1 H2]. bsimp.
  assert (45 <= x <= 57 \/ 65 <= x <= 90 \/ x = 95 \/ 97 <= x <= 122) as Hx.
  { repeat (apply orb_prop in H2 as [H2|H2]); bsimp; lia. }
  rewrite !andb_true_iff, !negb_true_iff, Z.leb_le, Z.ltb_lt, !Z.eqb_neq. lia.
Qed.

Lemma rules_ok : Forall rule_ok (allow_list c) /\ Forall rule_ok (deny_list c) /\ Forall setting_ok (settings_list c) /\
  Forall (fun a => 0 <= a <= 31) (autopoll_list c).
Proof.
  destruct typed as (Hr & Hs & Ha & _). destruct (wf_reg_count _ wf) as [_ Hc]. pose proof (wf_rules _ wf) as Wr.
  destruct (wf_settings _ wf) as [Ws _], (wf_autopoll _ wf) as [Wa _]. apply Forall_app in Hr as [Hr1 Hr2], Wr as [Wr1 Wr2].
  split_and!; apply Forall_forall; intros x Hx.
  - rewrite Forall_forall in Hr1, Wr1. specialize (Hr1 x Hx). specialize (Wr1 x Hx). unfold rule_ok. cbn in *. lia.
  - rewrite Forall_forall in Hr2, Wr2. specialize (Hr2 x Hx). specialize (Wr2 x Hx). unfold rule_ok. cbn in *. lia.
  - rewrite Forall_forall in Hs, Ws. specialize (Hs x Hx). specialize (Ws x Hx). unfold setting_ok. cbn in *. lia.
  - rewrite Forall_forall in Ha, Wa. specialize (Ha x Hx). specialize (Wa x Hx). cbn in *. lia.
Qed.

Lemma list_lens : alen (autopoll_list c) <= 32 /\ alen (allow_list c) <= MDIO_CFG_RULES_MAX /\ alen (deny_list c) <= MDIO_CFG_RULES_MAX /\
  alen (settings_list c) <= MDIO_CFG_SETTINGS_MAX.
Proof.
  destruct sized as (_ & _ & Ha & Hw & Hb & Hs & _ & _ & Ha0 & Hw0 & Hb0 & Hs0).
  unfold MDIO_CFG_AUTOPOLL_REGS_MAX in Ha. pose proof (wf_whitelist_len _ wf). pose proof (wf_blacklist_len _ wf).
  pose proof (wf_settings_len _ wf). pose proof (wf_autopoll_len _ wf).
  unfold autopoll_list, allow_list, deny_list, settings_list, prefix, alen in *. rewrite !length_take. lia.
Qed.

(** What the parser has read at the end. *)
Definition phy_of : phy_part :=
  PhyPart [10; 9; 8; 7; 6; 5; 4; 3; 2; 1; 0] (cstr (mc_name c)) (mc_phy_addr c) (mc_reg_count c) (mc_policy c) (mc_autopoll_enabled c)
    (mc_autopoll_reg_delay_ms c) (mc_autopoll_cycle_delay_ms c) (autopoll_list c) (allow_list c) (deny_list c) (settings_list c).

Lemma list_text_read {A} (item : chars -> list A -> option (list A * chars)) txt cap (l : list A) r :
  (forall a acc w r, a ∈ l -> alen acc < cap -> blank w -> follow r -> item (w ++ txt a ++ r) acc = Some (acc ++ [a], r)) ->
  Forall opens (txt <$> l) -> alen l <= cap -> array_of item ([32] ++ list_text (txt <$> l) ++ r) [] = Some (l, r).
Proof.
  intros Hit Ho Hl. apply array_of_arr; [apply blank_space|done|]. apply (item_chain_list item txt cap l []); [done|].
  change (alen []) with 0. lia.
Qed.

Lemma policy_read : mc_policy c = (if bool_decide (policy_text = lit "whitelist") then MDIO_POLICY_WHITELIST else MDIO_POLICY_BLACKLIST) /\
  (policy_text = lit "whitelist" \/ policy_text = lit "blacklist").
Proof. unfold policy_text. destruct (wf_policy _ wf) as [-> | ->]; cbn; auto. Qed.

Lemma policy_value (s : Z -> phy_part) (r : chars) :
  match mdio_string 40 ([32] ++ quote policy_text ++ r) with
  | Some (v, p) => if bool_decide (v = lit "whitelist") then Some (s MDIO_POLICY_WHITELIST, p)
      else if bool_decide (v = lit "blacklist") then Some (s MDIO_POLICY_BLACKLIST, p) else None
  | None => None
  end = Some (s (mc_policy c), r).
Proof.
  destruct policy_read as [-> Hpt]. rewrite mdio_string_quote; [|apply blank_space|by destruct Hpt as [-> | ->]; apply plain_lit|by destruct Hpt as [-> | ->]].
  destruct Hpt as [-> | ->]; reflexivity.
Qed.

Lemma enabled_value (s : bool -> phy_part) (r : chars) :
  (let p := skip_spaces ([32] ++ (if mc_autopoll_enabled c then lit "true" else lit "false") ++ r) in
   if starts (lit "true") p then Some (s true, drop 4 p) else if starts (lit "false") p then Some (s false, drop 5 p) else None) =
  Some (s (mc_autopoll_enabled c), r).
Proof. by destruct (mc_autopoll_enabled c). Qed.

Ltac member_step := cbn [item_chain]; eexists; split;
  [intros; eapply phy_member_read; [reflexivity|apply plain_lit; reflexivity|reflexivity|reflexivity| |done|done];
   let rest := fresh in intros rest ?; unfold see, no_phy;
   match goal with |- phy_value ?k _ _ = _ => let v := eval vm_compute in k in change k with v end;
   cbn [phy_value ph_seen ph_name ph_addr ph_count ph_policy ph_enabled ph_reg_delay ph_cycle_delay ph_regs ph_white ph_black ph_settings Z.eqb Pos.eqb orb]|].

Lemma phy_chain : item_chain phy_member (member <$> phy_members) no_phy phy_of.
Proof.
  destruct name_plain as [Hn Hnl], rules_ok as (Hw & Hb & Hs & Ha), list_lens as (La & Lw & Lb & Ls), policy_read as [Hp Hpt].
  destruct typed as (_ & _ & _ & Hd1 & Hd2). destruct (wf_delays _ wf), (wf_reg_count _ wf). pose proof (wf_phy _ wf).
  assert (0 <= mc_phy_addr c) by apply sized. unfold phy_members. cbn [fmap list_fmap].
  member_step. { by rewrite mdio_string_quote by (done || apply blank_space). }
  member_step. { by rewrite mdio_number_dec by (done || lia || apply blank_space). }
  member_step. { by rewrite mdio_number_dec by (done || lia || apply blank_space). }
  member_step. { apply (policy_value (fun k => PhyPart _ _ _ _ k _ _ _ _ _ _ _)). }
  member_step. { apply (enabled_value (fun b => PhyPart _ _ _ _ _ b _ _ _ _ _ _)). }
  member_step. { by rewrite mdio_number_dec by (done || lia || apply blank_space). }
  member_step. { by rewrite mdio_number_dec by (done || lia || apply blank_space). }
  member_step. { rewrite (list_text_read _ dec 32); [reflexivity| | |done].
    - intros ? ? ? ? Hin. apply autopoll_register_read. rewrite Forall_forall in Ha. by apply Ha.
    - apply Forall_fmap. eapply Forall_impl; [exact Ha|]. intros a Hin. apply opens_digit. cbn in Hin. lia. }
  member_step. { rewrite (list_text_read _ rule_json MDIO_CFG_RULES_MAX); [reflexivity| | |done].
    - intros ? ? ? ? Hin. apply mdio_rule_read. rewrite Forall_forall in Hw. by apply Hw.
    - apply opens_all. intros a. rewrite rule_json_obj. apply opens_obj. }
  member_step. { rewrite (list_text_read _ rule_json MDIO_CFG_RULES_MAX); [reflexivity| | |done].
    - intros ? ? ? ? Hin. apply mdio_rule_read. rewrite Forall_forall in Hb. by apply Hb.
    - apply opens_all. intros a. rewrite rule_json_obj. apply opens_obj. }
  member_step. { rewrite (list_text_read _ setting_json MDIO_CFG_SETTINGS_MAX); [reflexivity| | |done].
    - intros ? ? ? ? Hin. apply mdio_setting_read. rewrite Forall_forall in Hs. by apply Hs.
    - apply opens_all. intros a. rewrite setting_json_obj. apply opens_obj. }
  reflexivity.
Qed.

Lemma cbuf_prefix cap (l : list Z) : prefix (alen l) (cbuf cap l) = l.
Proof. unfold prefix, cbuf, alen. by rewrite Nat2Z.id, take_app_length. Qed.

Lemma cbuf_alen cap (l : list Z) : alen l <= cap -> alen (cbuf cap l) = cap.
Proof. intros Hl. unfold cbuf. rewrite alen_app, alen_fill by lia. lia. Qed.

Lemma phy_of_lists :
  allow_list (mdio_of_phy phy_of) = allow_list c /\ deny_list (mdio_of_phy phy_of) = deny_list c /\
  settings_list (mdio_of_phy phy_of) = settings_list c /\ autopoll_list (mdio_of_phy phy_of) = autopoll_list c.
Proof. split_and!; (apply zero_tail_prefix || apply cbuf_prefix). Qed.

Lemma phy_of_name : alen (mc_name (mdio_of_phy phy_of)) = MDIO_CFG_NAME_MAX /\ cstr (mc_name (mdio_of_phy phy_of)) = cstr (mc_name c).
Proof.
  destruct name_plain as [Hn Hl]. cbn [mdio_of_phy mc_name ph_name phy_of]. split; [apply cbuf_alen; lia|].
  unfold cbuf, fill. destruct (Z.to_nat (MDIO_CFG_NAME_MAX - alen (cstr (mc_name c)))) as [|k] eqn:E; [lia|].
  change (replicate (S k) 0) with (0 :: replicate k 0). apply cstr_terminated. by apply plain_clean.
Qed.

Lemma phy_of_sized : mdio_config_sized (mdio_of_phy phy_of).
Proof.
  destruct list_lens as (La & Lw & Lb & Ls). split; [apply phy_of_name|]. split; [done|].
  split; [by apply cbuf_alen|]. split; [by apply zero_tail_alen|]. split; [by apply zero_tail_alen|]. split; [by apply zero_tail_alen|].
  split; [apply sized|]. split; [apply sized|]. split_and!; apply alen_nonneg.
Qed.

Lemma phy_of_wf : mdio_config_wf (mdio_of_phy phy_of).
Proof.
  destruct phy_of_lists as (Hw & Hb & Hs & Ha), list_lens as (La & Lw & Lb & Ls), phy_of_name as [_ Hn].
  destruct wf as [(Hn1 & Hn2 & Hn3) _ Haddr Hcount Hpol _ _ _ _ Hdel Hrules Hauto Hset _].
  constructor; rewrite ?Hw, ?Hb, ?Hs, ?Ha; try done.
  - unfold name_ok, strlen. by rewrite Hn.
  - by left.
  - change (mc_reg_count (mdio_of_phy phy_of)) with (mc_reg_count c). change (mc_profile (mdio_of_phy phy_of)) with zero_profile.
    unfold bvstk_device_profile_metadata_validate. change I2C_CFG_MAX_REG_COUNT with 256. by rewrite (proj2 (Z.ltb_ge _ _)) by lia.
Qed.

Lemma phy_members_plain : plain_members 2 phy_members.
Proof.
  destruct name_plain as [Hn Hnl], rules_ok as (Hw & Hb & Hs & Ha), policy_read as [_ Hpt].
  destruct typed as (_ & _ & _ & Hd1 & Hd2). destruct (wf_delays _ wf), (wf_reg_count _ wf). pose proof (wf_phy _ wf).
  assert (0 <= mc_phy_addr c) by apply sized.
  assert (forall A (txt : A -> chars) (l : list A) (P : A -> Prop), (forall a, P a -> json_text 1 (txt a)) -> Forall P l -> json_text 2 (list_text (txt <$> l))) as Hlist.
  { intros A txt l P Htxt Hl. apply arr_json; [constructor|apply blank_space|constructor|]. apply Forall_fmap. eapply Forall_impl; [exact Hl|]. exact Htxt. }
  assert (forall n (ms : list (chars * Z)), Forall (fun m => plain m.1 /\ 0 <= m.2 < 4294967296) ms ->
    json_text (S n) (obj [] [32] [] ((fun m => (m.1, dec m.2)) <$> ms))) as Hobj.
  { intros n ms Hms. apply obj_json; [constructor|apply blank_space|constructor|]. apply Forall_fmap. eapply Forall_impl; [exact Hms|].
    intros m [Hm1 Hm2]. split; [done|]. by apply dec_json. }
  unfold plain_members, phy_members. repeat apply List.Forall_cons; try apply List.Forall_nil; (split; [apply plain_lit; reflexivity|]); cbn [fst snd];
    try (apply dec_json; lia).
  - by apply json_plain.
  - apply json_plain. destruct Hpt as [-> | ->]; apply plain_lit; reflexivity.
  - apply json_word. destruct (mc_autopoll_enabled c); decided.
  - apply (Hlist _ _ _ (fun a => 0 <= a <= 31)); [|done]. intros a ?. apply dec_json. lia.
  - apply (Hlist _ _ _ rule_ok); [|done]. intros r (? & ? & ?). rewrite rule_json_obj.
    apply (Hobj 0%nat [(lit "reg", mr_reg r); (lit "val", mr_val r); (lit "mask", mr_mask r)]).
    repeat apply List.Forall_cons; try apply List.Forall_nil; (split; [apply plain_lit; reflexivity|cbn; lia]).
  - apply (Hlist _ _ _ rule_ok); [|done]. intros r (? & ? & ?). rewrite rule_json_obj.
    apply (Hobj 0%nat [(lit "reg", mr_reg r); (lit "val", mr_val r); (lit "mask", mr_mask r)]).
    repeat apply List.Forall_cons; try apply List.Forall_nil; (split; [apply plain_lit; reflexivity|cbn; lia]).
  - apply (Hlist _ _ _ setting_ok); [|done]. intros r (? & ?). rewrite setting_json_obj.
    apply (Hobj 0%nat [(lit "reg", ms_reg r); (lit "val", ms_val r)]).
    repeat apply List.Forall_cons; try apply List.Forall_nil; (split; [apply plain_lit; reflexivity|cbn; lia]).
Qed.
End config.

(** ** The round trip *)

Record saved_phy (m m' : mdio_phy_config_t) : Prop := {
  sp_name : cstr (mc_name m') = cstr (mc_name m);
  sp_address : mc_phy_addr m' = mc_phy_addr m;
  sp_count : mc_reg_count m' = mc_reg_count m;
  sp_policy : mc_policy m' = mc_policy m;
  sp_rules : allow_list m' = allow_list m /\ deny_list m' = deny_list m;
  sp_settings : settings_list m' = settings_list m;
  sp_autopoll : mc_autopoll_enabled m' = mc_autopoll_enabled m /\ autopoll_list m' = autopoll_list m /\
    mc_autopoll_reg_delay_ms m' = mc_autopoll_reg_delay_ms m /\ mc_autopoll_cycle_delay_ms m' = mc_autopoll_cycle_delay_ms m
}.

Lemma phy_of_saved c : mdio_config_sized c -> mdio_rules_typed c -> mdio_config_wf c -> saved_phy c (mdio_of_phy (phy_of c)).
Proof.
  intros Hs Ht Hw. destruct (phy_of_lists c) as (H1 & H2 & H3 & H4), (phy_of_name c Hw) as [_ Hn]. by constructor.
Qed.

Lemma mdio_text_document c : mdio_config_sized c -> mdio_rules_typed c -> mdio_config_wf c -> alen (mdio_text c) <= BVSTK_PROFILE_JSON_MAX ->
  clean (mdio_text c) /\ bvstk_device_profile_version (Some (mdio_text c ++ [0])) = (BVSTK_OK, 0).
Proof.
  intros Hs Ht Hw Hl. pose proof (phy_members_plain c Hs Ht Hw) as Hms.
  pose proof (obj_json 2 (lit "^  ") (lit "^  ") (lit "^") (phy_members c)
    ltac:(by repeat constructor) ltac:(by repeat constructor) ltac:(by repeat constructor) Hms) as Hj.
  pose proof (obj_text 2 (lit "^  ") (lit "^  ") (lit "^") (phy_members c) ltac:(lia)
    ltac:(by repeat constructor) ltac:(by repeat constructor) ltac:(by repeat constructor) Hms) as Ho.
  pose proof (json_text_chars _ _ Hj) as Hch. rewrite mdio_text_obj in Hl |- *. set (o := obj _ _ _ _) in *.
  assert (Forall char_byte (o ++ lit "^")) as Hall by (apply Forall_app; split; [done|decided]).
  pose proof (chars_clean _ Hall) as Hcl. split; [done|]. rewrite (version_members _ (phy_members c) o (VersionScan false false 0)); [done|..].
  - apply Forall_app. split; [by apply char_bytes|decided].
  - rewrite cstr_terminated by done. split; [done|]. exists [], (lit "^"). split; [done|]. split; [constructor|].
    split; [by repeat constructor|]. split; [|done]. apply (json_text_mono 3); [lia|done].
  - done.
  - by apply char_bytes.
  - unfold phy_members. repeat apply List.Forall_cons; try apply List.Forall_nil; reflexivity.
  - reflexivity.
Qed.

(** A configuration that was written in the older layout, which carries no
    profile, is loaded again: whenever [bvstk_mdio_config_format] succeeds on a
    buffer no larger than a profile may be, the version gate takes the text for the
    older layout, and the parser returns a configuration with the same name, PHY
    address, register count, policy, rules, masks, presets, poll order and delays. *)
Theorem mdio_legacy_roundtrip c cap t :
  mdio_config_sized c -> mdio_rules_typed c -> cap <= BVSTK_PROFILE_JSON_MAX + 1 ->
  bvstk_mdio_config_format (Some c) (Some cap) = (BVSTK_OK, t) ->
  exists c', bvstk_mdio_config_parse (Some (t ++ [0])) = (BVSTK_OK, Some c') /\ saved_phy c c'.
Proof.
  intros Hs Ht Hcap. unfold bvstk_mdio_config_format. destruct (_ || _) eqn:E; [done|]. apply orb_false_elim in E as [_ E].
  apply negb_false_iff, bool_decide_eq_true, mdio_validate_wf in E as Hw; [|done].
  destruct (Z.leb_spec cap (alen (mdio_text c))) as [|Hlt]; [done|]. intros [= <-].
  destruct (mdio_text_document c Hs Ht Hw ltac:(lia)) as [Hcl Hv]. exists (mdio_of_phy (phy_of c)). split; [|by apply phy_of_saved].
  unfold bvstk_mdio_config_parse. rewrite Hv. change (0 =? 2) with false. cbv iota. rewrite cstr_terminated by done.
  assert (parse_mdio_legacy (mdio_text c) = Some (mdio_of_phy (phy_of c))) as ->; [|done].
  unfold parse_mdio_legacy. rewrite mdio_text_obj.
  pose proof (items_obj phy_member (phy_members c) (lit "^  ") (lit "^  ") (lit "^") no_phy (phy_of c) (lit "^")
    ltac:(by repeat constructor) ltac:(by repeat constructor) ltac:(by repeat constructor) ltac:(done)
    (opens_all _ _ opens_member) (phy_chain c Hs Ht Hw)) as Hi.
  unfold obj in *. cbn [app] in *. change (123 :: ?x) with ([] ++ 123 :: x). rewrite expect_here by (done || constructor). rewrite Hi.
  change (skip_spaces (lit "^")) with (@nil Z). cbn [orb negb andb seen existsb ph_seen phy_of].
  rewrite (proj2 (mdio_validate_wf _ (phy_of_sized c Hs Hw))) by (by apply phy_of_wf). reflexivity.
Qed.

Lemma mdio_legacy_roundtrip_witness :
  exists t c', bvstk_mdio_config_format (Some demo_port) (Some 4096) = (BVSTK_OK, t) /\ 0 < alen t /\
    bvstk_mdio_config_parse (Some (t ++ [0])) = (BVSTK_OK, Some c') /\ saved_phy demo_port c'.
Proof.
  exists (bvstk_mdio_config_format (Some demo_port) (Some 4096)).2.
  destruct (mdio_legacy_roundtrip demo_port 4096 (bvstk_mdio_config_format (Some demo_port) (Some 4096)).2) as [c' Hc'].
  - vm_compute. repeat split; done.
  - split; [|split; [|split; [|done]]]; decided.
  - done.
  - vm_compute. reflexivity.
  - exists c'. split; [vm_compute; reflexivity|]. split; [vm_compute; reflexivity|]. exact Hc'.
Defined.
