(* ===== verification/LineEditor.v ===== *)
(** * LineEditor: the command line of every console

    [src/src/shared/cli/bvstk_line_editor.c]: one line with a cursor, a history
    of sixteen lines, a cut buffer and the escape sequences of a terminal.

    The state is the editor and the world [X] behind its callbacks.  An [editor]
    argument is false for NULL; the static functions, which are never called
    with NULL, have none.  The completion hook fills a zeroed structure and
    returns it; the optional hook for the tab key gets the editor to change.
    Lengths passed in are those of objects in memory, so sums do not wrap. *)
From stdpp Require Import prelude.
From Stdlib Require Import ZArith Lia.
From S2P Require Import Prelude Text ConfigValidate.
Import String.StringSyntax.
Local Open Scope Z_scope.

Definition BVSTK_LINE_EDITOR_LINE_MAX : Z := 512.
Definition BVSTK_LINE_EDITOR_HISTORY_MAX : Z := 16.
Definition BVSTK_LINE_EDITOR_COMPLETION_MAX_MATCHES : Z := 16.

Definition BVSTK_LINE_EDITOR_SUBMIT_PROMPT : Z := 0.
Definition BVSTK_LINE_EDITOR_SUBMIT_DEFER_PROMPT : Z := 1.
Definition BVSTK_LINE_EDITOR_SUBMIT_STOP : Z := 2.

Inductive escape_t := ESCAPE_NONE | ESCAPE_STARTED | ESCAPE_CSI | ESCAPE_SS3.
#[export] Instance escape_eq_dec : EqDecision escape_t.
Proof. solve_decision. Defined.

Record bvstk_line_editor_completion_t := Completion {
  token_start : Z;
  token_prefix_length : Z;
  match_count : Z;
  candidates : list chars
}.

Record bvstk_line_editor_t := Editor {
  line : chars;
  line_length : Z;
  cursor : Z;
  history : list chars;
  history_count : Z;
  history_position : Z;
  history_scratch : chars;
  history_scratch_length : Z;
  cut_buffer : chars;
  cut_length : Z;
  escape_state : escape_t;
  escape_parameters : chars;
  escape_parameter_length : Z
}.

Definition with_line (l : chars) (n c : Z) (e : bvstk_line_editor_t) : bvstk_line_editor_t :=
  Editor l n c (history e) (history_count e) (history_position e) (history_scratch e) (history_scratch_length e)
    (cut_buffer e) (cut_length e) (escape_state e) (escape_parameters e) (escape_parameter_length e).
Definition with_cursor (c : Z) (e : bvstk_line_editor_t) : bvstk_line_editor_t := with_line (line e) (line_length e) c e.
Definition with_history (h : list chars) (n : Z) (e : bvstk_line_editor_t) : bvstk_line_editor_t :=
  Editor (line e) (line_length e) (cursor e) h n (history_position e) (history_scratch e) (history_scratch_length e)
    (cut_buffer e) (cut_length e) (escape_state e) (escape_parameters e) (escape_parameter_length e).
Definition with_position (p : Z) (e : bvstk_line_editor_t) : bvstk_line_editor_t :=
  Editor (line e) (line_length e) (cursor e) (history e) (history_count e) p (history_scratch e) (history_scratch_length e)
    (cut_buffer e) (cut_length e) (escape_state e) (escape_parameters e) (escape_parameter_length e).
Definition with_scratch (s : chars) (n : Z) (e : bvstk_line_editor_t) : bvstk_line_editor_t :=
  Editor (line e) (line_length e) (cursor e) (history e) (history_count e) (history_position e) s n
    (cut_buffer e) (cut_length e) (escape_state e) (escape_parameters e) (escape_parameter_length e).
Definition with_cut (s : chars) (n : Z) (e : bvstk_line_editor_t) : bvstk_line_editor_t :=
  Editor (line e) (line_length e) (cursor e) (history e) (history_count e) (history_position e) (history_scratch e)
    (history_scratch_length e) s n (escape_state e) (escape_parameters e) (escape_parameter_length e).
Definition with_escape (st : escape_t) (s : chars) (n : Z) (e : bvstk_line_editor_t) : bvstk_line_editor_t :=
  Editor (line e) (line_length e) (cursor e) (history e) (history_count e) (history_position e) (history_scratch e)
    (history_scratch_length e) (cut_buffer e) (cut_length e) st s n.

Definition zero_editor : bvstk_line_editor_t :=
  Editor (fill BVSTK_LINE_EDITOR_LINE_MAX 0) 0 0 (fill BVSTK_LINE_EDITOR_HISTORY_MAX (fill BVSTK_LINE_EDITOR_LINE_MAX 0)) 0 0
    (fill BVSTK_LINE_EDITOR_LINE_MAX 0) 0 (fill BVSTK_LINE_EDITOR_LINE_MAX 0) 0 ESCAPE_NONE (fill 16 0) 0.

(** ** Characters of the C locale *)

Definition isspace (c : Z) : bool := (c =? 32) || (9 <=? c) && (c <=? 13).
Definition isprint (c : Z) : bool := (32 <=? c) && (c <=? 126).

(** The first index at or after [i], at most [n], where [p] does not hold. *)
Definition scan_right (p : Z -> bool) (l : chars) (i n : Z) : Z :=
  default n (for_find (Z.to_nat (n - i)) i (fun k => negb (p (l.[k])))).
(** Down from [i] while [p] holds of the character before. *)
Fixpoint scan_left_loop (p : Z -> bool) (l : chars) (i : nat) : Z :=
  match i with
  | O => 0
  | S i' => if p (l.[Z.of_nat i']) then scan_left_loop p l i' else Z.of_nat i
  end.
Definition scan_left (p : Z -> bool) (l : chars) (i : Z) : Z := scan_left_loop p l (Z.to_nat i).

Definition nonspace (c : Z) : bool := negb (isspace c).

(** ** Pure parts *)

Definition editor_reset_escape (e : bvstk_line_editor_t) : bvstk_line_editor_t :=
  with_escape ESCAPE_NONE ((escape_parameters e).[0 <- 0]) 0 e.

Definition editor_reset_line (e : bvstk_line_editor_t) : bvstk_line_editor_t :=
  editor_reset_escape (with_position (-1) (with_line ((line e).[0 <- 0]) 0 0 e)).

Definition bvstk_line_editor_mark_edited (e : bvstk_line_editor_t) : bvstk_line_editor_t := with_position (-1) e.

(** The second result is the editor afterwards. *)
Definition bvstk_line_editor_set_state (editor : bool) (text : option chars) (length cur : Z) (e : bvstk_line_editor_t)
    : Z * bvstk_line_editor_t :=
  match text with
  | Some text =>
      if negb editor || (BVSTK_LINE_EDITOR_LINE_MAX <=? length) || (length <? cur) then (-1, e)
      else (0, with_line ((if length =? 0 then line e else copy_prefix length text (line e)).[length <- 0]) length cur e)
  | None => (-1, e)
  end.

Definition bvstk_line_editor_set_line (editor : bool) (text : option chars) (length : Z) (e : bvstk_line_editor_t)
    : Z * bvstk_line_editor_t := bvstk_line_editor_set_state editor text length length e.

Definition set_line (text : chars) (length : Z) (e : bvstk_line_editor_t) : bvstk_line_editor_t :=
  snd (bvstk_line_editor_set_line true (Some text) length e).

Definition editor_add_history (e : bvstk_line_editor_t) : bvstk_line_editor_t :=
  if (line_length e =? 0) ||
     negb (history_count e =? 0) && streq ((history e).[history_count e - 1]) (line e) then e
  else
    let e :=
      if history_count e =? BVSTK_LINE_EDITOR_HISTORY_MAX then
        with_history (for_each (Z.to_nat (BVSTK_LINE_EDITOR_HISTORY_MAX - 1)) 1 (fun i h => h.[i - 1 <- h.[i]]) (history e))
          (history_count e - 1) e
      else e in
    with_history ((history e).[history_count e <- copy_prefix (line_length e + 1) (line e) ((history e).[history_count e])])
      (history_count e + 1) e.

(** [memmove (l + dst, l + src, n)]. *)
Definition memmove (l : chars) (dst src n : Z) : chars := write_at l dst (cells l src n).

(** ** Completions *)

Definition common_prefix_length (c : bvstk_line_editor_completion_t) : Z :=
  if match_count c =? 0 then 0
  else
    let first := (candidates c).[0] in
    fst (for_loop (Z.to_nat (match_count c - 1)) 1
      (fun i length =>
         let other := (candidates c).[i] in
         let current := default length (for_find (Z.to_nat length) 0 (fun k =>
           (other.[k] =? 0) || negb (tolower (first.[k]) =? tolower (other.[k])))) in
         (current, if current =? 0 then Some tt else None))
      (strlen first)).

(** The parameter of a control sequence; -1 when it is not there. *)
Definition parse_parameter_step (index : Z) (character : Z) (s : Z * Z * bool) : Z * Z * bool * option Z :=
  let '(parameter_index, value, have_value) := s in
  if character =? 59 then
    if parameter_index =? index then (s, Some (if have_value then value else 0))
    else ((parameter_index + 1, 0, false), None)
  else if digit character then
    ((parameter_index, if value <? 1000 then value * 10 + (character - 48) else value, true), None)
  else (s, None).

Definition parse_parameter (parameters : chars) (length index : Z) : Z :=
  match for_loop (Z.to_nat length) 0 (fun k s => parse_parameter_step index (parameters.[k]) s) (0, 0, false) with
  | (_, Some v) => v
  | ((parameter_index, value, have_value), None) => if (parameter_index =? index) && have_value then value else -1
  end.

Section editor.
Context {X : Type}.

Record bvstk_line_editor_config_t := Config {
  lc_write : option (chars -> X -> Z * X);
  lc_prompt : option (X -> X);
  lc_submit : option (chars -> Z -> X -> Z * X);
  lc_complete : option (chars -> Z -> Z -> X -> Z * bvstk_line_editor_completion_t * X);
  lc_tab : option (bvstk_line_editor_t -> X -> Z * bvstk_line_editor_t * X);
  lc_eof_on_empty : bool
}.

Definition zero_config : bvstk_line_editor_config_t := Config None None None None None false.

(** The configuration the editor keeps, and its state. *)
Definition bvstk_line_editor_init (config : option bvstk_line_editor_config_t)
    : bvstk_line_editor_config_t * bvstk_line_editor_t :=
  (default zero_config config, editor_reset_escape (with_position (-1) zero_editor)).

Definition session : Type := bvstk_line_editor_t * X.

Context (config : bvstk_line_editor_config_t).

Definition edit (f : bvstk_line_editor_t -> bvstk_line_editor_t) : ST session unit := st_mod (fun s => (f s.1, s.2)).
Definition look {A} (f : bvstk_line_editor_t -> A) : ST session A := st_get (fun s => f s.1).
Definition world {A} (f : X -> A * X) : ST session A := fun s => let '(a, x) := f s.2 in (a, (s.1, x)).
Definition when (b : bool) (m : ST session unit) : ST session unit := if b then m else st_ret tt.

(** ** Output *)

Definition editor_write_all (editor : bool) (data : chars) : ST session Z :=
  if negb editor then st_ret (-1)
  else match lc_write config with None => st_ret (-1) | Some f => world (f data) end.

Definition bvstk_line_editor_write (editor : bool) (data : chars) : ST session Z := editor_write_all editor data.

Definition bvstk_line_editor_write_text (editor : bool) (text : option chars) : ST session Z :=
  match text with
  | None => st_ret (-1)
  | Some text => editor_write_all editor (cstr text)
  end.

(** A write whose result is not looked at. *)
Definition put (data : chars) : ST session unit :=
  bvstk_line_editor_write true data ;; st_ret tt.
Definition put_text (text : chars) : ST session unit :=
  bvstk_line_editor_write_text true (Some text) ;; st_ret tt.

Fixpoint repeat_text (n : nat) (text : chars) : ST session unit :=
  match n with
  | O => st_ret tt
  | S n => put_text text ;; repeat_text n text
  end.

Definition ESC : Z := 27.
Definition left_sequence : chars := ESC :: lit "[D".
Definition right_sequence : chars := ESC :: lit "[C".
Definition clear_sequence : chars := 13 :: ESC :: lit "[2K".
Definition newline : chars := [13; 10].

Definition bvstk_line_editor_beep (editor : bool) : ST session unit :=
  bvstk_line_editor_write_text editor (Some [7]) ;; st_ret tt.
Definition beep : ST session unit := bvstk_line_editor_beep true.

Definition call_prompt : ST session unit :=
  match lc_prompt config with None => st_ret tt | Some f => world (fun x => (tt, f x)) end.

Definition bvstk_line_editor_redraw (editor : bool) : ST session unit :=
  if negb editor then st_ret tt
  else
    put_text clear_sequence ;;
    call_prompt ;;
    let! e := look id in
    when (negb (line_length e =? 0)) (put (prefix (line_length e) (line e))) ;;
    repeat_text (Z.to_nat (line_length e - cursor e)) left_sequence.
Definition redraw : ST session unit := bvstk_line_editor_redraw true.

(** ** Movement *)

Definition word_left (e : bvstk_line_editor_t) : Z := scan_left nonspace (line e) (scan_left isspace (line e) (cursor e)).
Definition word_right (e : bvstk_line_editor_t) : Z :=
  scan_right isspace (line e) (scan_right nonspace (line e) (cursor e) (line_length e)) (line_length e).

Definition editor_move_left (word : bool) : ST session unit :=
  let! e := look id in
  if cursor e =? 0 then beep
  else
    let c := if word then word_left e else cursor e - 1 in
    edit (with_cursor c) ;;
    repeat_text (Z.to_nat (cursor e - c)) left_sequence.

Definition editor_move_right (word : bool) : ST session unit :=
  let! e := look id in
  if line_length e <=? cursor e then beep
  else
    let c := if word then word_right e else cursor e + 1 in
    edit (with_cursor c) ;;
    repeat_text (Z.to_nat (c - cursor e)) right_sequence.

Definition editor_home : ST session unit := edit (with_cursor 0) ;; redraw.
Definition editor_end : ST session unit := edit (fun e => with_cursor (line_length e) e) ;; redraw.

(** ** History *)

Definition recall (e : bvstk_line_editor_t) : bvstk_line_editor_t :=
  set_line ((history e).[history_position e]) (strlen ((history e).[history_position e])) e.

Definition editor_history_up : ST session unit :=
  let! e := look id in
  if history_count e =? 0 then beep
  else if history_position e <? 0 then
    edit (with_scratch (copy_prefix (line_length e + 1) (line e) (history_scratch e)) (line_length e)) ;;
    edit (with_position (history_count e - 1)) ;;
    edit recall ;; redraw
  else if 0 <? history_position e then
    edit (with_position (history_position e - 1)) ;;
    edit recall ;; redraw
  else beep.

Definition editor_history_down : ST session unit :=
  let! e := look id in
  if history_position e <? 0 then beep
  else
    (if history_position e + 1 <? history_count e then
       edit (with_position (history_position e + 1)) ;; edit recall
     else
       edit (with_position (-1)) ;;
       edit (fun e => set_line (history_scratch e) (history_scratch_length e) e)) ;;
    redraw.

(** ** Editing *)

Definition insert_char (character : Z) (e : bvstk_line_editor_t) : bvstk_line_editor_t :=
  let tail := line_length e - cursor e in
  let l := memmove (line e) (cursor e + 1) (cursor e) tail in
  let l := l.[cursor e <- character] in
  bvstk_line_editor_mark_edited
    (with_line (l.[line_length e + 1 <- 0]) (line_length e + 1) (cursor e + 1) e).

Definition editor_insert (character : Z) : ST session unit :=
  let! e := look id in
  if BVSTK_LINE_EDITOR_LINE_MAX <=? line_length e + 1 then beep
  else
    let tail := line_length e - cursor e in
    edit (insert_char character) ;;
    put [character] ;;
    when (negb (tail =? 0))
      (let! e := look id in
       put (cells (line e) (cursor e) tail) ;;
       repeat_text (Z.to_nat tail) left_sequence).

(** The character at [at_] goes; the cursor stays there. *)
Definition remove_char (at_ : Z) (e : bvstk_line_editor_t) : bvstk_line_editor_t :=
  let tail := line_length e - at_ - 1 in
  bvstk_line_editor_mark_edited
    (with_line ((memmove (line e) at_ (at_ + 1) tail).[line_length e - 1 <- 0]) (line_length e - 1) at_ e).

Definition editor_backspace : ST session unit :=
  let! e := look id in
  if cursor e =? 0 then beep
  else edit (remove_char (cursor e - 1)) ;; redraw.

Definition editor_delete : ST session unit :=
  let! e := look id in
  if line_length e <=? cursor e then beep
  else edit (remove_char (cursor e)) ;; redraw.

Definition cut_range (start end_ : Z) (e : bvstk_line_editor_t) : bvstk_line_editor_t :=
  let n := if BVSTK_LINE_EDITOR_LINE_MAX <=? end_ - start then BVSTK_LINE_EDITOR_LINE_MAX - 1 else end_ - start in
  let e := with_cut ((copy_prefix n (drop (Z.to_nat start) (line e)) (cut_buffer e)).[n <- 0]) n e in
  let l := memmove (line e) start end_ (line_length e - end_) in
  let len := line_length e - (end_ - start) in
  bvstk_line_editor_mark_edited (with_line (l.[len <- 0]) len start e).

Definition editor_cut_range (start end_ : Z) : ST session unit :=
  let! e := look id in
  if (end_ <=? start) || (line_length e <? end_) then st_ret tt
  else edit (cut_range start end_) ;; redraw.

Definition editor_delete_previous_word : ST session unit :=
  let! e := look id in
  if cursor e =? 0 then st_ret tt else editor_cut_range (word_left e) (cursor e).

(** Unlike [word_right]: first the blanks, then the word. *)
Definition word_end (e : bvstk_line_editor_t) : Z :=
  scan_right nonspace (line e) (scan_right isspace (line e) (cursor e) (line_length e)) (line_length e).

Definition editor_delete_next_word : ST session unit :=
  let! e := look id in
  if line_length e <=? cursor e then st_ret tt else editor_cut_range (cursor e) (word_end e).

Definition paste_cut (e : bvstk_line_editor_t) : bvstk_line_editor_t :=
  let tail := line_length e - cursor e in
  let l := memmove (line e) (cursor e + cut_length e) (cursor e) tail in
  let l := write_at l (cursor e) (prefix (cut_length e) (cut_buffer e)) in
  let n := line_length e + cut_length e in
  bvstk_line_editor_mark_edited (with_line (l.[n <- 0]) n (cursor e + cut_length e) e).

Definition editor_paste_cut_buffer : ST session unit :=
  let! e := look id in
  if (cut_length e =? 0) || (BVSTK_LINE_EDITOR_LINE_MAX <=? line_length e + cut_length e) then st_ret tt
  else edit paste_cut ;; redraw.

(** The separator after a completed word, unless it ends in a slash. *)
Definition spaced_after (replacement : chars) (n : Z) (append_space : bool) : bool :=
  append_space && negb (n =? 0) && negb (replacement.[n - 1] =? 47).

Definition replace_token (start : Z) (replacement : chars) (n : Z) (append_space : bool) (e : bvstk_line_editor_t)
    : bvstk_line_editor_t :=
  let tail := line_length e - cursor e in
  let l := memmove (line e) (start + n) (cursor e) tail in
  let l := write_at l start (prefix n replacement) in
  let len := start + n + tail in
  let cur := start + n in
  let '(l, len, cur) :=
    if spaced_after replacement n append_space then ((memmove l (cur + 1) cur tail).[cur <- 32], len + 1, cur + 1)
    else (l, len, cur) in
  bvstk_line_editor_mark_edited (with_line (l.[len <- 0]) len cur e).

Definition bvstk_line_editor_replace (editor : bool) (start prefix_length : Z) (replacement : option chars) (n : Z)
    (append_space : bool) : ST session Z :=
  let! e := look id in
  match replacement with
  | Some replacement =>
      if negb editor || (cursor e <? start) || negb (prefix_length =? cursor e - start) then st_ret (-1)
      else
        let new_length := start + n + (line_length e - cursor e) + (if spaced_after replacement n append_space then 1 else 0) in
        if BVSTK_LINE_EDITOR_LINE_MAX <=? new_length then beep ;; st_ret (-1)
        else edit (replace_token start replacement n append_space) ;; redraw ;; st_ret 0
  | None => st_ret (-1)
  end.

Fixpoint list_candidates (l : list chars) : ST session unit :=
  match l with
  | [] => st_ret tt
  | c :: l => put_text c ;; put_text (lit "  ") ;; list_candidates l
  end.

(** One candidate is inserted; several are extended and listed. *)
Definition offer_completion (c : bvstk_line_editor_completion_t) : ST session unit :=
  let! e := look id in
  if (match_count c =? 0) || (BVSTK_LINE_EDITOR_COMPLETION_MAX_MATCHES <? match_count c) then beep
  else if (cursor e <? token_start c) || negb (token_prefix_length c =? cursor e - token_start c) then beep
  else
    let first := (candidates c).[0] in
    if match_count c =? 1 then
      bvstk_line_editor_replace true (token_start c) (token_prefix_length c) (Some first) (strlen first) true ;; st_ret tt
    else
      let n := common_prefix_length c in
      when (token_prefix_length c <? n)
        (bvstk_line_editor_replace true (token_start c) (token_prefix_length c) (Some first) n false ;; st_ret tt) ;;
      put_text newline ;;
      list_candidates (prefix (match_count c) (candidates c)) ;;
      put_text newline ;;
      redraw.

Definition editor_complete : ST session unit :=
  match lc_tab config with
  | Some tab => fun s => let '(_, e, x) := tab s.1 s.2 in (tt, (e, x))
  | None =>
      match lc_complete config with
      | None => beep
      | Some complete =>
          let! e := look id in
          let! rc := world (fun x => let '(r, c, x) := complete (line e) (line_length e) (cursor e) x in ((r, c), x)) in
          let '(r, c) := rc in
          if r =? 0 then beep else offer_completion c
      end
  end.

(** ** Escape sequences *)

Definition editor_handle_csi_final (final : Z) : ST session unit :=
  let! e := look id in
  let first := parse_parameter (escape_parameters e) (escape_parameter_length e) 0 in
  let modifier := parse_parameter (escape_parameters e) (escape_parameter_length e) 1 in
  let word := (modifier =? 3) || (modifier =? 5) || (first =? 5) in
  if final =? 65 then editor_history_up
  else if final =? 66 then editor_history_down
  else if final =? 67 then editor_move_right word
  else if final =? 68 then editor_move_left word
  else if final =? 72 then editor_home
  else if final =? 70 then editor_end
  else if final =? 126 then
    if (first =? 1) || (first =? 7) then editor_home
    else if (first =? 4) || (first =? 8) then editor_end
    else if first =? 3 then editor_delete
    else beep
  else beep.

Definition store_parameter (character : Z) (e : bvstk_line_editor_t) : bvstk_line_editor_t :=
  let n := escape_parameter_length e in
  if n + 1 <? 16 then with_escape (escape_state e) (((escape_parameters e).[n <- character]).[n + 1 <- 0]) (n + 1) e
  else e.

Definition reset_escape : ST session unit := edit editor_reset_escape.

Definition editor_handle_escape_byte (character : Z) : ST session unit :=
  let! st := look escape_state in
  match st with
  | ESCAPE_STARTED =>
      if character =? 91 then edit (fun e => with_escape ESCAPE_CSI (escape_parameters e) 0 e)
      else if character =? 79 then edit (fun e => with_escape ESCAPE_SS3 (escape_parameters e) (escape_parameter_length e) e)
      else if (character =? 98) || (character =? 66) then editor_move_left true ;; reset_escape
      else if (character =? 102) || (character =? 70) then editor_move_right true ;; reset_escape
      else if (character =? 100) || (character =? 68) then editor_delete_next_word ;; reset_escape
      else if (character =? 127) || (character =? 8) then editor_delete_previous_word ;; reset_escape
      else reset_escape ;; beep
  | ESCAPE_CSI =>
      if digit character || (character =? 59) || (character =? 63) then edit (store_parameter character)
      else editor_handle_csi_final character ;; reset_escape
  | ESCAPE_SS3 =>
      (if character =? 65 then editor_history_up
       else if character =? 66 then editor_history_down
       else if character =? 67 then editor_move_right false
       else if character =? 68 then editor_move_left false
       else if character =? 72 then editor_home
       else if character =? 70 then editor_end
       else beep) ;;
      reset_escape
  | ESCAPE_NONE => st_ret tt
  end.

(** ** Bytes *)

Definition bvstk_line_editor_reset (editor : bool) : ST session unit :=
  if negb editor then st_ret tt else edit editor_reset_line.

Definition editor_submit : ST session bool :=
  put_text newline ;;
  edit editor_add_history ;;
  let! e := look id in
  let! result :=
    match lc_submit config with
    | None => st_ret BVSTK_LINE_EDITOR_SUBMIT_PROMPT
    | Some submit => world (submit (line e) (line_length e))
    end in
  bvstk_line_editor_reset true ;;
  when (result =? BVSTK_LINE_EDITOR_SUBMIT_PROMPT) call_prompt ;;
  st_ret ((result =? BVSTK_LINE_EDITOR_SUBMIT_STOP) || (result <? 0)).

(** True when the caller is to stop reading. *)
Definition bvstk_line_editor_handle_byte (editor : bool) (character : Z) : ST session bool :=
  if negb editor then st_ret true
  else
    let! e := look id in
    if negb (bool_decide (escape_state e = ESCAPE_NONE)) then editor_handle_escape_byte character ;; st_ret false
    else if character =? 27 then
      edit (fun e => with_escape ESCAPE_STARTED (escape_parameters e) 0 e) ;; st_ret false
    else if (character =? 13) || (character =? 10) then editor_submit
    else if character =? 1 then editor_home ;; st_ret false
    else if character =? 2 then editor_move_left false ;; st_ret false
    else if character =? 5 then editor_end ;; st_ret false
    else if character =? 6 then editor_move_right false ;; st_ret false
    else if character =? 16 then editor_history_up ;; st_ret false
    else if character =? 14 then editor_history_down ;; st_ret false
    else if character =? 11 then editor_cut_range (cursor e) (line_length e) ;; st_ret false
    else if character =? 12 then redraw ;; st_ret false
    else if character =? 21 then editor_cut_range 0 (cursor e) ;; st_ret false
    else if character =? 23 then editor_delete_previous_word ;; st_ret false
    else if character =? 25 then editor_paste_cut_buffer ;; st_ret false
    else if character =? 3 then
      bvstk_line_editor_reset true ;; put_text ([94; 67] ++ newline) ;; call_prompt ;; st_ret false
    else if character =? 4 then
      if (line_length e =? 0) && lc_eof_on_empty config then st_ret true
      else editor_delete ;; st_ret false
    else if (character =? 8) || (character =? 127) then editor_backspace ;; st_ret false
    else if character =? 9 then editor_complete ;; st_ret false
    else if isprint character then editor_insert character ;; st_ret false
    else st_ret false.

Definition bvstk_line_editor_line (editor : bool) (e : bvstk_line_editor_t) : chars := if editor then line e else [0].
Definition bvstk_line_editor_line_length (editor : bool) (e : bvstk_line_editor_t) : Z := if editor then line_length e else 0.
Definition bvstk_line_editor_cursor (editor : bool) (e : bvstk_line_editor_t) : Z := if editor then cursor e else 0.

(** The characters of a session, up to the one that ends it. *)
Fixpoint feed (bytes : chars) : ST session bool :=
  match bytes with
  | [] => st_ret false
  | b :: bytes =>
      let! stop := bvstk_line_editor_handle_byte true b in
      if stop then st_ret true else feed bytes
  end.
End editor.
