(* ===== verification/LineEditorSafety.v ===== *)
(** * LineEditorSafety: the line editor against a list of characters

    The abstract editor is the text before and after the cursor, the remembered
    lines and the cut text; the terminal is one row of cells with a cursor.  Each
    byte does to the editor what its key does to the text, and the row the user
    sees is the prompt and the text, with the cursor in its place. *)
From stdpp Require Import prelude.
From Stdlib Require Import ZArith Lia.
From S2P Require Import Prelude Text ConfigValidate JsonReader LineEditor.
Import String.StringSyntax.
Local Open Scope Z_scope.

(** ** The abstract editor *)

Record doc := Doc {
  d_before : chars;
  d_after : chars;
  d_lines : list chars;
  d_recall : option (nat * chars);
  d_cut : chars
}.

Definition d_text (d : doc) : chars := d_before d ++ d_after d.
Definition d_size (d : doc) : Z := alen (d_text d).

Definition moved (before after : chars) (d : doc) : doc := Doc before after (d_lines d) (d_recall d) (d_cut d).
Definition edited (before after : chars) (d : doc) : doc := Doc before after (d_lines d) None (d_cut d).
Definition cut_as (cut before after : chars) (d : doc) : doc := Doc before after (d_lines d) None cut.
Definition recalled (r : option (nat * chars)) (text : chars) (d : doc) : doc := Doc text [] (d_lines d) r (d_cut d).

(** Leading, and trailing, characters of a kind dropped. *)
Fixpoint skip (p : Z -> bool) (l : chars) : chars :=
  match l with
  | c :: r => if p c then skip p r else l
  | [] => []
  end.
Definition skip_end (p : Z -> bool) (l : chars) : chars := reverse (skip p (reverse l)).

(** What a word motion leaves before, or after, the cursor. *)
Definition before_word (l : chars) : chars := skip_end nonspace (skip_end isspace l).
Definition after_word (l : chars) : chars := skip isspace (skip nonspace l).
Definition after_next_word (l : chars) : chars := skip nonspace (skip isspace l).

(** The cursor after the first [n] characters. *)
Definition goto (n : nat) (d : doc) : doc := moved (take n (d_text d)) (drop n (d_text d)) d.

Definition remember (text : chars) (lines : list chars) : list chars :=
  if bool_decide (text = []) || bool_decide (last lines = Some text) then lines
  else drop (length lines + 1 - 16) (lines ++ [text]).

Inductive key :=
  | KLeft | KRight | KWordLeft | KWordRight | KHome | KEnd | KUp | KDown
  | KInsert (c : Z) | KBackspace | KDelete | KCutEnd | KCutStart | KCutWord | KCutNextWord | KPaste
  | KTab | KEnter | KCancel | KRedraw | KEof | KNone.

Definition line_up (d : doc) : doc :=
  match d_recall d with
  | None =>
      match last (d_lines d) with
      | None => d
      | Some text => recalled (Some (length (d_lines d) - 1, d_text d)%nat) text d
      end
  | Some (S k, s) => recalled (Some (k, s)) (d_lines d !!! k) d
  | Some (O, _) => d
  end.

Definition line_down (d : doc) : doc :=
  match d_recall d with
  | None => d
  | Some (k, s) =>
      match d_lines d !! S k with
      | Some text => recalled (Some (S k, s)) text d
      | None => recalled None s d
      end
  end.

(** The last [tok] characters before the cursor become [text]. *)
Definition completed (tok : Z) (text : chars) (d : doc) : doc :=
  let before := take (length (d_before d) - Z.to_nat tok) (d_before d) ++ text in
  if alen before + alen (d_after d) <? 512 then edited before (d_after d) d else d.

Definition accepts (c : bvstk_line_editor_completion_t) (d : doc) : bool :=
  (1 <=? match_count c) && (match_count c <=? 16) && (token_start c <=? alen (d_before d)) &&
  (token_prefix_length c =? alen (d_before d) - token_start c).

Definition ends_in_slash (s : chars) : bool := bool_decide (last s = Some 47).

Definition complete_doc (c : bvstk_line_editor_completion_t) (d : doc) : doc :=
  if negb (accepts c d) then d
  else
    let first := cstr ((candidates c).[0]) in
    if match_count c =? 1 then
      completed (token_prefix_length c) (first ++ (if bool_decide (first = []) || ends_in_slash first then [] else [32])) d
    else if token_prefix_length c <? common_prefix_length c then
      completed (token_prefix_length c) (take (Z.to_nat (common_prefix_length c)) first) d
    else d.

(** What a key does; [offer] is what the completion hook answers. *)
Definition apply_key (offer : option bvstk_line_editor_completion_t) (k : key) (d : doc) : doc :=
  let before := d_before d in
  let after := d_after d in
  match k with
  | KLeft => goto (length before - 1) d
  | KRight => goto (length before + 1) d
  | KWordLeft => goto (length (before_word before)) d
  | KWordRight => goto (length (d_text d) - length (after_word after)) d
  | KHome => goto 0 d
  | KEnd => goto (length (d_text d)) d
  | KUp => line_up d
  | KDown => line_down d
  | KInsert c => if 511 <=? d_size d then d else edited (before ++ [c]) after d
  | KBackspace => if bool_decide (before = []) then d else edited (take (length before - 1) before) after d
  | KDelete => match after with [] => d | _ :: after => edited before after d end
  | KCutEnd => if bool_decide (after = []) then d else cut_as after before [] d
  | KCutStart => if bool_decide (before = []) then d else cut_as before [] after d
  | KCutWord =>
      if bool_decide (before = []) then d
      else cut_as (drop (length (before_word before)) before) (before_word before) after d
  | KCutNextWord =>
      if bool_decide (after = []) then d
      else cut_as (take (length after - length (after_next_word after)) after) before (after_next_word after) d
  | KPaste =>
      if bool_decide (d_cut d = []) || (512 <=? d_size d + alen (d_cut d)) then d else edited (before ++ d_cut d) after d
  | KTab => match offer with None => d | Some c => complete_doc c d end
  | KEnter => Doc [] [] (remember (d_text d) (d_lines d)) None (d_cut d)
  | KCancel => Doc [] [] (d_lines d) None (d_cut d)
  | KEof => match after with [] => d | _ :: after => edited before after d end
  | KRedraw | KNone => d
  end.

(** ** Keys of a terminal *)

Inductive sequence := NoSequence | Started | Control (ps : chars) | Single.
#[export] Instance sequence_eq_dec : EqDecision sequence.
Proof. solve_decision. Defined.

Definition csi_key (ps : chars) (final : Z) : key :=
  let first := parse_parameter ps (alen ps) 0 in
  let modifier := parse_parameter ps (alen ps) 1 in
  let word := (modifier =? 3) || (modifier =? 5) || (first =? 5) in
  if final =? 65 then KUp else if final =? 66 then KDown
  else if final =? 67 then if word then KWordRight else KRight
  else if final =? 68 then if word then KWordLeft else KLeft
  else if final =? 72 then KHome else if final =? 70 then KEnd
  else if final =? 126 then
    if (first =? 1) || (first =? 7) then KHome else if (first =? 4) || (first =? 8) then KEnd
    else if first =? 3 then KDelete else KNone
  else KNone.

Definition started_key (b : Z) : sequence * key :=
  if b =? 91 then (Control [], KNone) else if b =? 79 then (Single, KNone)
  else if (b =? 98) || (b =? 66) then (NoSequence, KWordLeft)
  else if (b =? 102) || (b =? 70) then (NoSequence, KWordRight)
  else if (b =? 100) || (b =? 68) then (NoSequence, KCutNextWord)
  else if (b =? 127) || (b =? 8) then (NoSequence, KCutWord)
  else (NoSequence, KNone).

Definition single_key (b : Z) : key :=
  if b =? 65 then KUp else if b =? 66 then KDown else if b =? 67 then KRight else if b =? 68 then KLeft
  else if b =? 72 then KHome else if b =? 70 then KEnd else KNone.

Definition plain_key (b : Z) : sequence * key :=
  if b =? 27 then (Started, KNone)
  else (NoSequence,
    if (b =? 13) || (b =? 10) then KEnter else if b =? 1 then KHome else if b =? 2 then KLeft
    else if b =? 5 then KEnd else if b =? 6 then KRight else if b =? 16 then KUp else if b =? 14 then KDown
    else if b =? 11 then KCutEnd else if b =? 12 then KRedraw else if b =? 21 then KCutStart
    else if b =? 23 then KCutWord else if b =? 25 then KPaste else if b =? 3 then KCancel
    else if b =? 4 then KEof else if (b =? 8) || (b =? 127) then KBackspace else if b =? 9 then KTab
    else if isprint b then KInsert b else KNone).

(** Sequences keep at most fifteen parameter characters. *)
Definition decode (s : sequence) (b : Z) : sequence * key :=
  match s with
  | NoSequence => plain_key b
  | Started => started_key b
  | Control ps =>
      if digit b || (b =? 59) || (b =? 63) then (Control (if alen ps <? 15 then ps ++ [b] else ps), KNone)
      else (NoSequence, csi_key ps b)
  | Single => (NoSequence, single_key b)
  end.

(** ** The terminal: one row, rewritten in place *)

Inductive mode := Plain | Escape | Csi (n : Z).
Record terminal := Terminal { t_row : chars; t_column : Z; t_mode : mode }.

Definition put_cell (t : terminal) (c : Z) : terminal :=
  let row := t_row t ++ fill (t_column t - alen (t_row t)) 32 in
  Terminal (prefix (t_column t) row ++ c :: drop (Z.to_nat (t_column t + 1)) row) (t_column t + 1) Plain.

Definition csi_final (t : terminal) (n c : Z) : terminal :=
  if c =? 68 then Terminal (t_row t) (Z.max 0 (t_column t - Z.max 1 n)) Plain
  else if c =? 67 then Terminal (t_row t) (t_column t + Z.max 1 n) Plain
  else if (c =? 75) && (n =? 2) then Terminal [] (t_column t) Plain
  else Terminal (t_row t) (t_column t) Plain.

Definition type_char (t : terminal) (c : Z) : terminal :=
  match t_mode t with
  | Escape => Terminal (t_row t) (t_column t) (if c =? 91 then Csi 0 else Plain)
  | Csi n => if digit c then Terminal (t_row t) (t_column t) (Csi (10 * n + (c - 48))) else csi_final t n c
  | Plain =>
      if c =? 27 then Terminal (t_row t) (t_column t) Escape
      else if c =? 13 then Terminal (t_row t) 0 Plain
      else if c =? 10 then Terminal [] (t_column t) Plain
      else if isprint c then put_cell t c
      else t
  end.

Definition type_text (t : terminal) (s : chars) : terminal := foldl type_char t s.

Definition printable (c : Z) : Prop := isprint c = true.

Lemma type_text_app t a b : type_text t (a ++ b) = type_text (type_text t a) b.
Proof. apply foldl_app. Qed.

Lemma put_cell_app p q c m : put_cell (Terminal (p ++ q) (alen p) m) c = Terminal (p ++ c :: drop 1 q) (alen p + 1) Plain.
Proof.
  unfold put_cell. cbn [t_row t_column]. rewrite alen_app. pose proof (alen_nonneg q).
  replace (alen p - (alen p + alen q)) with (- alen q) by lia. unfold fill.
  replace (Z.to_nat (- alen q)) with O by lia. cbn [replicate]. rewrite app_nil_r. f_equal.
  unfold prefix, alen. rewrite Nat2Z.id, take_app_length. f_equal. f_equal.
  rewrite drop_app_ge by lia. f_equal. lia.
Qed.

(** Printable text replaces what it covers. *)
Lemma type_printable s p q :
  Forall printable s ->
  type_text (Terminal (p ++ q) (alen p) Plain) s = Terminal (p ++ s ++ drop (length s) q) (alen p + alen s) Plain.
Proof.
  intros Hs. revert p q. induction Hs as [|c s Hc Hs IH]; intros p q.
  { change (alen []) with 0. by rewrite Z.add_0_r. }
  cbn [type_text foldl]. fold (type_text (type_char (Terminal (p ++ q) (alen p) Plain) c) s).
  assert (type_char (Terminal (p ++ q) (alen p) Plain) c = put_cell (Terminal (p ++ q) (alen p) Plain) c) as ->.
  { unfold type_char. cbn [t_mode]. unfold printable in Hc. rewrite Hc. unfold isprint in Hc. bsimp.
    rewrite !(proj2 (Z.eqb_neq _ _)) by lia. done. }
  rewrite put_cell_app. assert (alen p + 1 = alen (p ++ [c])) as -> by (rewrite alen_app; done).
  change (p ++ c :: drop 1 q) with (p ++ [c] ++ drop 1 q). rewrite app_assoc, IH. rewrite <- !app_assoc. cbn [app].
  rewrite drop_drop. f_equal. rewrite alen_app, alen_cons. unfold alen. cbn [length]. lia.
Qed.

Lemma type_left row col : 0 < col -> type_text (Terminal row col Plain) left_sequence = Terminal row (col - 1) Plain.
Proof.
  intros Hc. change (Terminal row (Z.max 0 (col - Z.max 1 0)) Plain = Terminal row (col - 1) Plain). f_equal. lia.
Qed.
Lemma type_right row col : type_text (Terminal row col Plain) right_sequence = Terminal row (col + 1) Plain.
Proof. reflexivity. Qed.
Lemma type_clear row col : type_text (Terminal row col Plain) clear_sequence = Terminal [] 0 Plain.
Proof. reflexivity. Qed.
Lemma type_newline row col : type_text (Terminal row col Plain) newline = Terminal [] 0 Plain.
Proof. reflexivity. Qed.

(** ** Buffers that hold a text *)

Definition holds (buf text : chars) : Prop := alen buf = 512 /\ exists junk, buf = text ++ 0 :: junk.

Definition clean_text (text : chars) : Prop := Forall printable text /\ alen text < 512.

Lemma printable_nonzero c : printable c -> (c =? 0) = false.
Proof. unfold printable, isprint. intros H. bsimp. apply Z.eqb_neq. lia. Qed.

Lemma printable_cstr text junk : Forall printable text -> cstr (text ++ 0 :: junk) = text.
Proof. induction 1 as [|c text Hc _ IH]; [done|]. cbn. by rewrite (printable_nonzero c Hc), IH. Qed.

Lemma holds_cstr buf text : holds buf text -> Forall printable text -> cstr buf = text /\ strlen buf = alen text.
Proof. intros [_ [junk ->]] Ht. unfold strlen. by rewrite printable_cstr. Qed.

Lemma holds_short buf text : holds buf text -> alen text < 512.
Proof. intros [Hl [junk ->]]. rewrite alen_app, alen_cons in Hl. pose proof (alen_nonneg junk). lia. Qed.

Lemma prefix_app (p q : chars) : prefix (alen p) (p ++ q) = p.
Proof. unfold prefix, alen. by rewrite Nat2Z.id, take_app_length. Qed.

(** [memcpy] of a text with its terminator. *)
Lemma holds_copy buf text dst : holds buf text -> alen dst = 512 -> holds (copy_prefix (alen text + 1) buf dst) text.
Proof.
  intros Hb Hd. pose proof (holds_short _ _ Hb). destruct Hb as [Hl [junk ->]]. pose proof (alen_nonneg text). split.
  - rewrite alen_copy_prefix; [done| |congruence]. rewrite alen_app, alen_cons in *. pose proof (alen_nonneg junk). lia.
  - exists (drop (Z.to_nat (alen text + 1)) dst). unfold copy_prefix.
    change (text ++ 0 :: junk) with (text ++ [0] ++ junk). rewrite app_assoc.
    assert (Z.to_nat (alen text + 1) = length (text ++ [0])) as -> by (rewrite length_app; unfold alen; cbn; lia).
    rewrite take_app_length. by rewrite <- app_assoc.
Qed.

(** A buffer whose first cells are the text, terminated by a store. *)
Lemma holds_terminated buf text junk : alen buf = 512 -> buf = text ++ junk -> alen text < 512 -> holds (buf.[alen text <- 0]) text.
Proof.
  intros Hl -> Ht. rewrite alen_app in Hl. destruct junk as [|x junk]; [unfold alen in Hl; cbn in Hl; unfold alen in Ht; lia|].
  rewrite aset_app. split; [|by exists junk]. rewrite alen_app, alen_cons in *. lia.
Qed.

(** ** The editor represents a document *)

Definition shown_sequence (s : sequence) (e : bvstk_line_editor_t) : Prop :=
  alen (escape_parameters e) = 16 /\
  match s with
  | NoSequence => escape_state e = ESCAPE_NONE
  | Started => escape_state e = ESCAPE_STARTED
  | Control ps => escape_state e = ESCAPE_CSI /\ escape_parameter_length e = alen ps /\ alen ps <= 15 /\
      prefix (alen ps) (escape_parameters e) = ps
  | Single => escape_state e = ESCAPE_SS3
  end.

Record rep (e : bvstk_line_editor_t) (d : doc) : Prop := {
  rp_line : holds (line e) (d_text d);
  rp_text : Forall printable (d_text d);
  rp_length : line_length e = d_size d;
  rp_cursor : cursor e = alen (d_before d);
  rp_rows : alen (history e) = 16 /\ Forall (fun row => alen row = 512) (history e);
  rp_count : history_count e = alen (d_lines d) /\ alen (d_lines d) <= 16;
  rp_history : forall k text, d_lines d !! k = Some text -> holds ((history e).[Z.of_nat k]) text /\ Forall printable text;
  rp_recall : match d_recall d with
    | None => history_position e = -1
    | Some (k, s) => history_position e = Z.of_nat k /\ (k < length (d_lines d))%nat /\
        holds (history_scratch e) s /\ history_scratch_length e = alen s /\ Forall printable s
    end;
  rp_scratch : alen (history_scratch e) = 512;
  rp_cut : alen (cut_buffer e) = 512 /\ cut_length e = alen (d_cut d) /\ prefix (alen (d_cut d)) (cut_buffer e) = d_cut d /\
    Forall printable (d_cut d)
}.

(** The fields a motion or an edit leaves alone. *)
Lemma rep_line e d l n c before after :
  rep e d -> holds l (before ++ after) -> Forall printable (before ++ after) -> n = alen (before ++ after) -> c = alen before ->
  rep (with_line l n c e) (moved before after d).
Proof. intros [] Hl Hp -> ->. constructor; try done. Qed.

Lemma rep_edited e d : rep e d -> rep (bvstk_line_editor_mark_edited e) (edited (d_before d) (d_after d) d).
Proof. intros []. constructor; done. Qed.

Lemma rep_edit e d l n c before after :
  rep e d -> holds l (before ++ after) -> Forall printable (before ++ after) -> n = alen (before ++ after) -> c = alen before ->
  rep (bvstk_line_editor_mark_edited (with_line l n c e)) (edited before after d).
Proof. intros He Hl Hp Hn Hc. apply (rep_edited _ (moved before after d)). by apply rep_line. Qed.

Lemma line_split e d : rep e d -> exists junk, line e = d_before d ++ d_after d ++ 0 :: junk.
Proof. intros He. destruct (rp_line _ _ He) as [_ [junk Hl]]. exists junk. rewrite Hl. unfold d_text. by rewrite <- app_assoc. Qed.

Lemma rep_goto e d n : rep e d -> (n <= length (d_text d))%nat -> rep (with_cursor (Z.of_nat n) e) (goto n d).
Proof.
  intros He Hn. unfold with_cursor, goto. apply rep_line; rewrite ?take_drop; try apply He.
  unfold alen. rewrite length_take. lia.
Qed.

(** ** Edits of the line *)

Lemma rep_parts e d :
  rep e d ->
  line_length e = alen (d_before d) + alen (d_after d) /\ cursor e = alen (d_before d) /\
  alen (d_before d) + alen (d_after d) < 512 /\ Forall printable (d_before d) /\ Forall printable (d_after d) /\ alen (line e) = 512.
Proof.
  intros He. pose proof (holds_short _ _ (rp_line _ _ He)) as Hs. pose proof (rp_text _ _ He) as Ht. unfold d_text in *.
  apply Forall_app in Ht as [Hb Ha]. rewrite alen_app in Hs. rewrite (rp_length _ _ He), (rp_cursor _ _ He).
  unfold d_size, d_text. rewrite alen_app. destruct (rp_line _ _ He). done.
Qed.

(** [memmove] over a gap that closes, and into a gap that opens. *)
Lemma close_gap (p m q rest : chars) :
  memmove (p ++ m ++ q ++ rest) (alen p) (alen p + alen m) (alen q) = p ++ q ++ drop (length q) (m ++ q ++ rest).
Proof.
  unfold memmove. rewrite <- alen_app. rewrite (app_assoc p m) at 2. by rewrite cells_app, write_at_app.
Qed.

Lemma open_gap (p q rest : chars) n :
  0 <= n <= alen rest ->
  exists g r, alen g = n /\ memmove (p ++ q ++ rest) (alen p + n) (alen p) (alen q) = p ++ g ++ q ++ r.
Proof.
  intros Hn. exists (prefix n (q ++ rest)), (drop (length q) (drop (Z.to_nat n) (q ++ rest))).
  pose proof (alen_nonneg q).
  assert (alen (prefix n (q ++ rest)) = n) as Hg by (apply alen_prefix; rewrite alen_app; lia).
  split; [done|]. unfold memmove. rewrite cells_app.
  assert (p ++ q ++ rest = (p ++ prefix n (q ++ rest)) ++ drop (Z.to_nat n) (q ++ rest)) as ->.
  { rewrite <- app_assoc. unfold prefix. by rewrite take_drop. }
  assert (alen p + n = alen (p ++ prefix n (q ++ rest))) as -> by (rewrite alen_app; lia).
  rewrite write_at_app. by rewrite <- app_assoc.
Qed.

Lemma alen_memmove (l : chars) dst src n :
  0 <= dst -> 0 <= src -> 0 <= n -> dst + n <= alen l -> src + n <= alen l -> alen (memmove l dst src n) = alen l.
Proof.
  intros. unfold memmove. assert (alen (cells l src n) = n) as Hc.
  { unfold cells, prefix, alen in *. rewrite length_take, length_drop. lia. }
  apply alen_write_at; lia.
Qed.

(** The line after an edit that leaves [text] in it. *)
Lemma rep_rewritten e d l n c before after junk :
  rep e d -> alen l = 512 -> l = before ++ after ++ junk -> alen before + alen after < 512 ->
  Forall printable before -> Forall printable after -> n = alen before + alen after -> c = alen before ->
  rep (bvstk_line_editor_mark_edited (with_line (l.[n <- 0]) n c e)) (edited before after d).
Proof.
  intros He Hl Hj Hs Hb Ha Hn Hc. apply rep_edit; [done| |by apply Forall_app|by rewrite alen_app|done].
  assert (n = alen (before ++ after)) as -> by (by rewrite alen_app). apply (holds_terminated _ _ junk); [done| |].
  - by rewrite Hj, <- app_assoc.
  - by rewrite alen_app.
Qed.

Ltac line_parts e d He :=
  destruct (rep_parts e d He) as (Hlen & Hcur & Hroom & Hbp & Hap & Hl); destruct (line_split e d He) as [junk Hline];
  assert (alen junk = 511 - alen (d_before d) - alen (d_after d)) as Hjunk
    by (rewrite Hline, !alen_app, alen_cons in Hl; lia);
  pose proof (alen_nonneg (d_before d)); pose proof (alen_nonneg (d_after d)).

Lemma insert_char_rep e d c :
  rep e d -> printable c -> d_size d < 511 -> rep (insert_char c e) (edited (d_before d ++ [c]) (d_after d) d).
Proof.
  intros He Hc Hs. line_parts e d He. unfold d_size, d_text in Hs. rewrite alen_app in Hs.
  unfold insert_char. rewrite Hlen, Hcur.
  assert (alen [c] = 1) as H1 by done.
  destruct (open_gap (d_before d) (d_after d) (0 :: junk) 1) as (g & r & Hg & Hm); [rewrite alen_cons; lia|].
  rewrite <- Hline in Hm. destruct g as [|h [|]]; [done| |unfold alen in Hg; cbn in Hg; lia].
  apply (rep_rewritten e d _ _ _ (d_before d ++ [c]) (d_after d) r); try done.
  - rewrite alen_aset, alen_memmove by lia. done.
  - replace (alen (d_before d) + alen (d_after d) - alen (d_before d)) with (alen (d_after d)) by lia.
    rewrite Hm. cbn [app]. rewrite aset_app. by rewrite <- app_assoc.
  - rewrite alen_app. lia.
  - apply Forall_app. auto.
  - rewrite alen_app. lia.
  - by rewrite alen_app.
Qed.

(** Removing [m] of the text [p ++ m ++ q]. *)
Lemma remove_rep e d p m q n c :
  rep e d -> d_text d = p ++ m ++ q -> n = alen p + alen q -> c = alen p ->
  rep (bvstk_line_editor_mark_edited (with_line ((memmove (line e) (alen p) (alen p + alen m) (alen q)).[n <- 0]) n c e)) (edited p q d).
Proof.
  intros He Ht Hn Hc. destruct (rp_line _ _ He) as [Hl [junk Hline]]. rewrite Ht, <- !app_assoc in Hline.
  pose proof (rp_text _ _ He) as Hp. rewrite Ht, !Forall_app in Hp. destruct Hp as (Hpp & Hmp & Hqp).
  pose proof (alen_nonneg p). pose proof (alen_nonneg q). pose proof (alen_nonneg m). pose proof (alen_nonneg junk).
  assert (alen p + alen m + alen q + 1 + alen junk = 512) as Hsum by (rewrite Hline, !alen_app, alen_cons in Hl; lia).
  apply (rep_rewritten e d _ _ _ p q (drop (length q) (m ++ q ++ 0 :: junk))); try done; try lia.
  - rewrite alen_memmove; lia.
  - rewrite Hline. apply close_gap.
Qed.

Lemma remove_char_rep e d p x q :
  rep e d -> d_text d = p ++ x :: q -> rep (remove_char (alen p) e) (edited p q d).
Proof.
  intros He Ht. unfold remove_char. rewrite (rp_length _ _ He). unfold d_size. rewrite Ht, alen_app, alen_cons.
  replace (alen p + (1 + alen q) - alen p - 1) with (alen q) by lia.
  replace (alen p + (1 + alen q) - 1) with (alen p + alen q) by lia.
  change (alen p + 1) with (alen p + alen [x]). by apply remove_rep.
Qed.

Lemma cut_range_rep e d p m q :
  rep e d -> d_text d = p ++ m ++ q -> rep (cut_range (alen p) (alen p + alen m) e) (cut_as m p q d).
Proof.
  intros He Ht. pose proof (holds_short _ _ (rp_line _ _ He)) as Hs. rewrite Ht, !alen_app in Hs.
  pose proof (alen_nonneg p). pose proof (alen_nonneg q). pose proof (alen_nonneg m).
  destruct (rp_line _ _ He) as [Hl [junk Hline]]. rewrite Ht, <- !app_assoc in Hline.
  pose proof (rp_text _ _ He) as Hp. rewrite Ht, !Forall_app in Hp. destruct Hp as (Hpp & Hmp & Hqp).
  unfold cut_range. cbv zeta. change (BVSTK_LINE_EDITOR_LINE_MAX) with 512.
  replace (alen p + alen m - alen p) with (alen m) by lia. rewrite (proj2 (Z.leb_gt _ _)) by lia.
  match goal with |- context [with_cut ?s ?n e] =>
    change (line_length (with_cut s n e)) with (line_length e); change (line (with_cut s n e)) with (line e) end.
  rewrite (rp_length _ _ He). unfold d_size. rewrite Ht, !alen_app.
  replace (alen p + (alen m + alen q) - (alen p + alen m)) with (alen q) by lia.
  replace (alen p + (alen m + alen q) - alen m) with (alen p + alen q) by lia.
  destruct (rp_cut _ _ He) as (Hcl & _). pose proof (remove_rep e d p m q _ _ He Ht eq_refl eq_refl) as [].
  constructor; try done. cbn [with_cut with_line bvstk_line_editor_mark_edited with_position cut_buffer cut_length cut_as d_cut].
  assert (drop (Z.to_nat (alen p)) (line e) = m ++ q ++ 0 :: junk) as ->.
  { rewrite Hline. unfold alen. by rewrite Nat2Z.id, drop_app_length. }
  assert (copy_prefix (alen m) (m ++ q ++ 0 :: junk) (cut_buffer e) = m ++ drop (length m) (cut_buffer e)) as ->.
  { unfold copy_prefix, alen. by rewrite Nat2Z.id, take_app_length. }
  assert (alen (drop (length m) (cut_buffer e)) = 512 - alen m) as Hd by (unfold alen in *; rewrite length_drop; lia).
  destruct (drop (length m) (cut_buffer e)) as [|x r]; [unfold alen in *; cbn in Hd; lia|]. rewrite aset_app.
  rewrite alen_app, alen_cons in *. split; [lia|]. split; [done|]. split; [apply prefix_app|done].
Qed.

Lemma paste_cut_rep e d :
  rep e d -> d_size d + alen (d_cut d) < 512 -> rep (paste_cut e) (edited (d_before d ++ d_cut d) (d_after d) d).
Proof.
  intros He Hs. line_parts e d He. destruct (rp_cut _ _ He) as (Hcl & Hcn & Hcp & Hcc).
  unfold d_size, d_text in Hs. rewrite alen_app in Hs. pose proof (alen_nonneg (d_cut d)).
  unfold paste_cut. rewrite Hlen, Hcur, Hcn, Hcp.
  replace (alen (d_before d) + alen (d_after d) - alen (d_before d)) with (alen (d_after d)) by lia.
  destruct (open_gap (d_before d) (d_after d) (0 :: junk) (alen (d_cut d))) as (g & r & Hg & Hm); [rewrite alen_cons; lia|].
  rewrite <- Hline in Hm.
  apply (rep_rewritten e d _ _ _ (d_before d ++ d_cut d) (d_after d) r); try done.
  - rewrite alen_write_at; rewrite ?alen_memmove; lia.
  - rewrite Hm, write_over by done. by rewrite <- app_assoc.
  - rewrite alen_app. lia.
  - apply Forall_app. auto.
  - rewrite alen_app. lia.
  - by rewrite alen_app.
Qed.

(** ** Replacing a word *)

Lemma last_char (s : chars) : s <> [] -> s.[alen s - 1] = List.last s 0.
Proof.
  intros Hs. destruct (@exists_last _ s Hs) as (p & x & ->). rewrite List.last_last, alen_app.
  change (alen [x]) with 1. replace (alen p + 1 - 1) with (alen p) by lia. apply aget_app.
Qed.

Lemma spaced_after_iff w junk b :
  spaced_after (w ++ junk) (alen w) b = b && negb (bool_decide (w = []) || ends_in_slash w).
Proof.
  unfold spaced_after, ends_in_slash. destruct b; [|done]. cbn [andb].
  destruct (decide (w = [])) as [->|Hw]; [done|]. rewrite bool_decide_eq_false_2 by done.
  destruct (@exists_last _ w Hw) as (p & x & ->). rewrite alen_app. change (alen [x]) with 1. pose proof (alen_nonneg p).
  rewrite (proj2 (Z.eqb_neq (alen p + 1) 0)) by lia. cbn [negb andb orb].
  replace (alen p + 1 - 1) with (alen p) by lia. rewrite <- app_assoc. cbn [app]. rewrite aget_app, last_snoc. f_equal.
  destruct (Z.eqb_spec x 47) as [->|]; [by rewrite bool_decide_eq_true_2|]. rewrite bool_decide_eq_false_2 by congruence. done.
Qed.

Lemma replace_token_rep e d p tok w junk b :
  rep e d -> d_before d = p ++ tok -> Forall printable w ->
  let sp := if b && negb (bool_decide (w = []) || ends_in_slash w) then [32] else [] in
  alen p + alen w + alen (d_after d) + alen sp < 512 ->
  rep (replace_token (alen p) (w ++ junk) (alen w) b e) (edited (p ++ w ++ sp) (d_after d) d).
Proof.
  intros He Hb Hw sp Hroom. destruct (rep_parts e d He) as (Hlen & Hcur & Hr & Hbp & Hap & Hl). destruct (line_split e d He) as [rest Hline].
  rewrite Hb, <- app_assoc in Hline. rewrite Hb, Forall_app in Hbp. destruct Hbp as [Hpp Htp]. rewrite Hb, alen_app in *.
  set (a := d_after d) in *.
  pose proof (alen_nonneg p). pose proof (alen_nonneg tok). pose proof (alen_nonneg a). pose proof (alen_nonneg w).
  pose proof (alen_nonneg rest). pose proof (alen_nonneg sp).
  assert (alen p + alen tok + alen a + 1 + alen rest = 512) as Hsum by (rewrite Hline, !alen_app, alen_cons in Hl; lia).
  unfold replace_token. rewrite Hlen, Hcur, spaced_after_iff.
  replace (alen p + alen tok + alen a - (alen p + alen tok)) with (alen a) by lia.
  assert (prefix (alen w) (w ++ junk) = w) as -> by apply prefix_app.
  set (l := write_at (memmove (line e) (alen p + alen w) (alen p + alen tok) (alen a)) (alen p) w).
  assert (alen l = 512) as Hll by (unfold l; rewrite alen_write_at; rewrite ?alen_memmove; lia).
  assert (exists r, l = p ++ w ++ a ++ r) as [r Hlr].
  { unfold l, memmove. assert (cells (line e) (alen p + alen tok) (alen a) = a) as ->.
    { rewrite Hline, <- alen_app, (app_assoc p tok). apply cells_app. }
    assert (exists g t, line e = p ++ g ++ t /\ alen g = alen w) as (g & t & -> & Hg).
    { rewrite Hline. exists (prefix (alen w) (tok ++ a ++ 0 :: rest)), (drop (Z.to_nat (alen w)) (tok ++ a ++ 0 :: rest)).
      unfold prefix at 1. rewrite take_drop. split; [done|]. apply alen_prefix. rewrite !alen_app, alen_cons. lia. }
    assert (write_at (p ++ g ++ t) (alen p + alen w) a = p ++ g ++ a ++ drop (length a) t) as ->.
    { rewrite <- Hg, <- alen_app, (app_assoc p g), write_at_app. by rewrite <- app_assoc. }
    exists (drop (length a) t). apply write_over. congruence. }
  clearbody l. destruct (b && negb (bool_decide (w = []) || ends_in_slash w)).
  - change (alen sp) with 1 in Hroom. unfold sp. assert (alen [32] = 1) as H32 by done.
    assert (1 <= alen r) as Hrl by (rewrite Hlr, !alen_app in Hll; lia).
    destruct (open_gap (p ++ w) a r 1) as (g & r' & Hg & Hm); [lia|]. rewrite alen_app in Hm. rewrite <- app_assoc, <- Hlr in Hm.
    destruct g as [|h [|]]; [done| |unfold alen in Hg; cbn in Hg; lia].
    apply (rep_rewritten e d _ _ _ (p ++ w ++ [32]) a r'); try done; rewrite ?alen_app, ?H32; try lia.
    + rewrite alen_aset, alen_memmove; lia.
    + rewrite Hm. cbn [app]. rewrite <- alen_app, aset_app. by rewrite <- !app_assoc.
    + rewrite !Forall_app. split; [done|]. split; [done|]. by repeat constructor.
  - unfold sp in *. change (alen []) with 0 in Hroom. rewrite app_nil_r.
    apply (rep_rewritten e d _ _ _ (p ++ w) a r); try done; rewrite ?alen_app; try lia.
    + by rewrite Hlr, <- app_assoc.
    + by apply Forall_app.
Qed.

(** ** Recalling lines *)

Lemma set_line_rep e d buf text r :
  rep e d -> holds buf text -> Forall printable text ->
  match r with
  | None => history_position e = -1
  | Some (k, s) => history_position e = Z.of_nat k /\ (k < length (d_lines d))%nat /\
      holds (history_scratch e) s /\ history_scratch_length e = alen s /\ Forall printable s
  end ->
  rep (set_line buf (alen text) e) (recalled r text d).
Proof.
  intros He Hb Ht Hr. pose proof (holds_short _ _ Hb) as Hs. pose proof (alen_nonneg text). destruct (rp_line _ _ He) as [Hl _].
  unfold set_line, bvstk_line_editor_set_line, bvstk_line_editor_set_state. change BVSTK_LINE_EDITOR_LINE_MAX with 512.
  rewrite (proj2 (Z.leb_gt _ _)), (proj2 (Z.ltb_ge _ _)) by lia. cbn [negb orb snd].
  assert (holds ((if alen text =? 0 then line e else copy_prefix (alen text) buf (line e)).[alen text <- 0]) text) as Hh.
  { destruct Hb as [Hbl [junk ->]]. destruct (Z.eqb_spec (alen text) 0) as [Hz|Hz].
    - destruct text; [|rewrite alen_cons in Hz; pose proof (alen_nonneg text); lia]. by apply (holds_terminated _ [] (line e)).
    - apply (holds_terminated _ text (drop (length text) (line e))); [|unfold copy_prefix, alen; by rewrite Nat2Z.id, take_app_length|done].
      rewrite alen_copy_prefix by (rewrite ?alen_app, ?alen_cons in *; pose proof (alen_nonneg junk); lia). done. }
  destruct He. constructor; try done; cbn [recalled d_text d_before d_after with_line line line_length cursor d_size];
    unfold d_size, d_text; cbn [d_before d_after recalled]; rewrite ?app_nil_r; done.
Qed.

Lemma recall_rep e d k s text :
  rep e d -> d_lines d !! k = Some text -> history_position e = Z.of_nat k ->
  holds (history_scratch e) s -> history_scratch_length e = alen s -> Forall printable s ->
  rep (recall e) (recalled (Some (k, s)) text d).
Proof.
  intros He Hk Hp Hs1 Hs2 Hs3. destruct (rp_history _ _ He k text Hk) as [Hh Ht]. unfold recall. rewrite Hp.
  destruct (holds_cstr _ _ Hh Ht) as [_ ->]. apply set_line_rep; try done.
  split; [done|]. split; [by eapply lookup_lt_Some|]. done.
Qed.

(** ** Remembering lines *)

Lemma shift_rows (h : list chars) :
  alen h = 16 ->
  let g := for_each 15 1 (fun i h => h.[i - 1 <- h.[i]]) h in
  alen g = 16 /\ forall j, 0 <= j < 16 -> g.[j] = if j <? 15 then h.[j + 1] else h.[j].
Proof.
  intros Hh g.
  pose proof (for_each_ind (fun i g => alen g = 16 /\ forall j, 0 <= j < 16 -> g.[j] = if j <? i - 1 then h.[j + 1] else h.[j])
    15 1 (fun i h => h.[i - 1 <- h.[i]]) h) as H. apply H; clear H g.
  - intros i g Hi [Hg Hj]. split; [by rewrite alen_aset|]. intros j Hjr.
    destruct (decide (j = i - 1)) as [->|Hne].
    + rewrite aget_aset_eq by lia. rewrite Hj by lia. rewrite (proj2 (Z.ltb_ge i _)), (proj2 (Z.ltb_lt (i - 1) _)) by lia.
      f_equal. lia.
    + rewrite aget_aset_ne by lia. rewrite Hj by lia. destruct (Z.ltb_spec j (i - 1)), (Z.ltb_spec j (i + 1 - 1)); (done || lia).
  - split; [done|]. intros j Hj. rewrite (proj2 (Z.ltb_ge j _)) by lia. done.
Qed.

Lemma rows_Forall (h : list chars) (P : chars -> Prop) : Forall P h <-> forall j, 0 <= j < alen h -> P (h.[j]).
Proof.
  pose proof (prefix_Forall h (alen h) P ltac:(pose proof (alen_nonneg h); lia)) as H. unfold prefix in H. rewrite H.
  unfold alen. by rewrite Nat2Z.id, take_ge by lia.
Qed.

(** A row that is overwritten with the line. *)
Definition rows_hold (h : list chars) (lines : list chars) : Prop :=
  alen h = 16 /\ (forall j, 0 <= j < 16 -> alen (h.[j]) = 512) /\ alen lines <= 16 /\
  forall k text, lines !! k = Some text -> holds (h.[Z.of_nat k]) text /\ Forall printable text.

Lemma rows_hold_snoc h lines buf text :
  rows_hold h lines -> alen lines < 16 -> holds buf text -> Forall printable text ->
  rows_hold (h.[alen lines <- copy_prefix (alen text + 1) buf (h.[alen lines])]) (lines ++ [text]).
Proof.
  intros (Hh & Hr & Hl & Hk) Hn Hb Ht. pose proof (alen_nonneg lines).
  pose proof (holds_copy buf text (h.[alen lines]) Hb ltac:(apply Hr; lia)) as Hc.
  split; [by rewrite alen_aset|]. split; [|split; [rewrite alen_app; change (alen [text]) with 1; lia|]].
  - intros j Hj. destruct (decide (j = alen lines)) as [->|]; [rewrite aget_aset_eq by lia; by destruct Hc|].
    rewrite aget_aset_ne by lia. auto.
  - intros k text' Hkt. apply lookup_app_Some in Hkt as [Hkt|[Hge Hkt]].
    + pose proof (lookup_lt_Some _ _ _ Hkt). rewrite aget_aset_ne by (unfold alen; lia). auto.
    + apply list_lookup_singleton_Some in Hkt as [Hk0 ->]. replace (Z.of_nat k) with (alen lines) by (unfold alen; lia).
      rewrite aget_aset_eq by lia. done.
Qed.

Lemma rows_hold_shift h text lines :
  rows_hold h (text :: lines) -> alen (text :: lines) = 16 ->
  rows_hold (for_each 15 1 (fun i h => h.[i - 1 <- h.[i]]) h) lines.
Proof.
  intros (Hh & Hr & Hl & Hk) Hn. destruct (shift_rows h Hh) as [Hg Hj].
  assert (alen lines = 15) as Hl15 by (unfold alen in *; cbn in Hn; lia). split; [done|]. split; [|split; [lia|]].
  - intros j Hjr. rewrite Hj by done. destruct (j <? 15) eqn:E; bsimp; apply Hr; lia.
  - intros k text' Hkt. pose proof (lookup_lt_Some _ _ _ Hkt). unfold alen in Hl15. rewrite Hj by lia.
    rewrite (proj2 (Z.ltb_lt _ _)) by lia. replace (Z.of_nat k + 1) with (Z.of_nat (S k)) by lia. by apply Hk.
Qed.

Lemma rep_rows e d : rep e d -> rows_hold (history e) (d_lines d).
Proof.
  intros []. destruct rp_rows0 as [H1 H2]. destruct rp_count0. split; [done|]. split; [|done].
  rewrite rows_Forall in H2. intros j Hj. apply H2. lia.
Qed.

Lemma last_row e d :
  rep e d -> d_lines d <> [] ->
  streq ((history e).[history_count e - 1]) (line e) = bool_decide (last (d_lines d) = Some (d_text d)).
Proof.
  intros He Hne. destruct (rp_count _ _ He) as [-> _]. destruct (@exists_last _ (d_lines d) Hne) as (p & x & Hpx).
  assert (d_lines d !! length p = Some x) as Hk by (rewrite Hpx; by apply list_lookup_middle).
  destruct (rp_history _ _ He _ _ Hk) as [Hh Hx].
  assert (alen (d_lines d) - 1 = Z.of_nat (length p)) as ->
    by (rewrite Hpx, alen_app; unfold alen; cbn; lia).
  unfold streq. destruct (holds_cstr _ _ Hh Hx) as [-> _]. destruct (holds_cstr _ _ (rp_line _ _ He) (rp_text _ _ He)) as [-> _].
  rewrite Hpx, last_snoc. apply bool_decide_ext. split; congruence.
Qed.

Lemma reset_rep e d h lines :
  rep e d -> rows_hold h lines ->
  rep (editor_reset_line (with_history h (alen lines) e)) (Doc [] [] lines None (d_cut d)).
Proof.
  intros He (H1 & H2 & H3 & H4). destruct (rp_line _ _ He) as [Hl _]. destruct He. constructor; try done.
  - unfold d_text. cbn [d_before d_after app]. apply (holds_terminated _ [] (line e)); done.
  - split; [done|]. apply (proj2 (rows_Forall h _)). rewrite H1. done.
Qed.

Lemma submit_rep e d :
  rep e d ->
  rep (editor_reset_line (editor_add_history e)) (Doc [] [] (remember (d_text d) (d_lines d)) None (d_cut d)) /\
  line (editor_add_history e) = line e /\ line_length (editor_add_history e) = line_length e.
Proof.
  intros He. split; [|unfold editor_add_history; destruct (_ || _); [done|]; by destruct (_ =? _)].
  pose proof (rep_rows _ _ He) as Hr. destruct (rp_count _ _ He) as [Hcount Hle].
  pose proof (rp_length _ _ He) as Hlen. unfold d_size in Hlen. pose proof (alen_nonneg (d_text d)) as Hnn.
  pose proof (alen_nonneg (d_lines d)).
  assert (rep (editor_reset_line e) (Doc [] [] (d_lines d) None (d_cut d))) as Hsame.
  { pose proof (reset_rep e d (history e) (d_lines d) He Hr) as H'. destruct e. cbn in *. by rewrite Hcount. }
  unfold editor_add_history, remember. rewrite Hlen.
  destruct (decide (d_text d = [])) as [Ht|Ht].
  { assert (bool_decide (d_text d = []) = true) as -> by (by apply bool_decide_eq_true). rewrite Ht. change (alen [] =? 0) with true. cbn [orb]. exact Hsame. }
  rewrite (bool_decide_eq_false_2 _ Ht). assert ((alen (d_text d) =? 0) = false) as ->.
  { apply Z.eqb_neq. intros Hz. apply Ht. unfold alen in Hz. apply nil_length_inv. lia. }
  cbn [orb].
  assert ((negb (history_count e =? 0) && streq ((history e).[history_count e - 1]) (line e)) =
    bool_decide (last (d_lines d) = Some (d_text d))) as ->.
  { destruct (decide (d_lines d = [])) as [Hn|Hn]; [by rewrite Hcount, Hn|]. rewrite (last_row e d He Hn).
    rewrite Hcount. assert ((alen (d_lines d) =? 0) = false) as ->; [|done]. apply Z.eqb_neq. intros Hz. apply Hn.
    unfold alen in Hz. apply nil_length_inv. lia. }
  case_bool_decide; [done|]. change BVSTK_LINE_EDITOR_HISTORY_MAX with 16. change (Z.to_nat (16 - 1)) with 15%nat. rewrite Hcount.
  pose proof (rp_line _ _ He) as Hline. pose proof (rp_text _ _ He) as Htext.
  destruct (Z.eqb_spec (alen (d_lines d)) 16) as [Hfull|Hfull].
  - destruct (d_lines d) as [|l0 rest] eqn:El; [done|].
    assert (alen rest = 15) as Hrest by (unfold alen in *; cbn in Hfull; lia).
    assert (drop (length (l0 :: rest) + 1 - 16) ((l0 :: rest) ++ [d_text d]) = rest ++ [d_text d]) as ->.
    { assert (length (l0 :: rest) + 1 - 16 = 1)%nat as -> by (unfold alen in Hfull; cbn in *; lia). done. }
    pose proof (rows_hold_snoc _ _ (line e) (d_text d) (rows_hold_shift _ _ _ Hr Hfull) ltac:(lia) Hline Htext) as Hs.
    replace (alen (l0 :: rest) - 1) with (alen rest) by lia. cbn [history history_count with_history line line_length].
    pose proof (reset_rep e d _ _ He Hs) as H'. rewrite alen_app in H'. change (alen [d_text d]) with 1 in H'. rewrite Hlen. exact H'.
  - assert (drop (length (d_lines d) + 1 - 16) (d_lines d ++ [d_text d]) = d_lines d ++ [d_text d]) as ->.
    { assert (length (d_lines d) + 1 - 16 = 0)%nat as -> by (unfold alen in *; lia). done. }
    pose proof (rows_hold_snoc _ _ (line e) (d_text d) Hr ltac:(lia) Hline Htext) as Hs. rewrite Hcount.
    pose proof (reset_rep e d _ _ He Hs) as H'. rewrite alen_app in H'. change (alen [d_text d]) with 1 in H'. rewrite ?Hlen. exact H'.
Qed.
