(* ===== verification/LineEditorDisplay.v ===== *)
(** * LineEditorDisplay: every byte does what its key does, and the user sees it

    The operations of the editor, with their output, against the abstract editor
    and the terminal of [LineEditorSafety].  First on a console that keeps its
    prompt and never fails to write, where the row shows the line; then, by erasing
    the output, on any console, where the line is what the keys make of it. *)
From stdpp Require Import prelude.
From Stdlib Require Import ZArith Lia.
From S2P Require Import Prelude Text ConfigValidate JsonReader LineEditor LineEditorSafety.
Import String.StringSyntax.
Local Open Scope Z_scope.

(** ** Word motions *)

Lemma skip_suffix p l : exists r, l = r ++ skip p l.
Proof.
  induction l as [|c l [r IH]]; [by exists []|]. cbn [skip]. destruct (p c); [|by exists []].
  exists (c :: r). cbn [app]. by rewrite <- IH.
Qed.

Lemma skip_end_prefix p l : exists r, l = skip_end p l ++ r.
Proof.
  destruct (skip_suffix p (reverse l)) as [r Hr]. exists (reverse r). unfold skip_end.
  rewrite <- reverse_app, <- Hr. by rewrite reverse_involutive.
Qed.

Lemma skip_end_snoc p l c : skip_end p (l ++ [c]) = if p c then skip_end p l else l ++ [c].
Proof.
  unfold skip_end. rewrite reverse_app. change (reverse [c]) with [c]. cbn [app skip]. destruct (p c); [done|]. rewrite reverse_cons, reverse_involutive. done.
Qed.

Lemma scan_left_spec p b rest : scan_left p (b ++ rest) (alen b) = alen (skip_end p b).
Proof.
  unfold scan_left, alen at 1. rewrite Nat2Z.id. revert rest. induction b as [|c b IH] using rev_ind; intros rest; [done|].
  rewrite length_app. cbn [length]. rewrite Nat.add_1_r. cbn [scan_left_loop]. rewrite <- app_assoc. cbn [app].
  change (Z.of_nat (length b)) with (alen b). rewrite aget_app, skip_end_snoc. destruct (p c).
  - apply IH.
  - unfold alen. rewrite length_app. cbn. lia.
Qed.

Lemma word_left_spec b rest :
  scan_left nonspace (b ++ rest) (scan_left isspace (b ++ rest) (alen b)) = alen (before_word b).
Proof.
  rewrite scan_left_spec. unfold before_word. destruct (skip_end_prefix isspace b) as [r Hr].
  rewrite Hr at 1. rewrite <- app_assoc. apply scan_left_spec.
Qed.

Lemma scan_right_spec p b a rest :
  scan_right p (b ++ a ++ rest) (alen b) (alen b + alen a) = alen b + alen a - alen (skip p a).
Proof.
  unfold scan_right. replace (Z.to_nat (alen b + alen a - alen b)) with (length a) by (unfold alen; lia).
  assert (forall n, n = alen b + alen a ->
    default n (for_find (length a) (alen b) (fun k => negb (p ((b ++ a ++ rest).[k])))) = n - alen (skip p a)) as H; [|by apply H].
  revert b. induction a as [|c a IH]; intros b n Hn; [change (alen (@nil Z)) with 0; cbn [skip for_find length default]; change (alen (@nil Z)) with 0; lia|]. cbn [length for_find skip app].
  rewrite aget_app. destruct (p c); cbn [negb default].
  - specialize (IH (b ++ [c]) n). rewrite alen_app in IH. change (alen [c]) with 1 in IH.
    rewrite <- (app_assoc b [c]) in IH. cbn [app] in IH. apply IH. rewrite alen_cons in Hn. lia.
  - change (alen b = n - alen (c :: a)). lia.
Qed.

Lemma word_right_spec (p q : Z -> bool) b a rest :
  scan_right q (b ++ a ++ rest) (scan_right p (b ++ a ++ rest) (alen b) (alen b + alen a)) (alen b + alen a) =
  alen b + alen a - alen (skip q (skip p a)).
Proof.
  rewrite scan_right_spec. destruct (skip_suffix p a) as [r Hr]. remember (skip p a) as s eqn:Es. clear Es.
  assert (b ++ a ++ rest = (b ++ r) ++ s ++ rest) as -> by (rewrite Hr, <- !app_assoc; done).
  assert (alen b + alen a = alen (b ++ r) + alen s) as -> by (rewrite Hr, !alen_app; lia).
  replace (alen (b ++ r) + alen s - alen s) with (alen (b ++ r)) by lia. apply scan_right_spec.
Qed.

Lemma before_word_split b : exists w, b = before_word b ++ w /\ (b <> [] -> w <> []).
Proof.
  unfold before_word. destruct (skip_end_prefix isspace b) as [r1 H1].
  destruct (skip_end_prefix nonspace (skip_end isspace b)) as [r2 H2]. exists (r2 ++ r1).
  rewrite app_assoc, <- H2, <- H1. split; [done|]. intros Hne Hr. apply app_nil in Hr as [-> ->].
  rewrite app_nil_r in H1, H2. destruct (@exists_last _ b Hne) as (p & c & ->).
  rewrite skip_end_snoc in *. destruct (isspace c) eqn:E.
  - destruct (skip_end_prefix isspace p) as [r Hr]. rewrite <- H1 in Hr. apply (f_equal length) in Hr.
    rewrite !length_app in Hr. cbn in Hr. lia.
  - rewrite skip_end_snoc in H2. unfold nonspace in H2 at 1. rewrite E in H2. cbn [negb] in H2.
    destruct (skip_end_prefix nonspace p) as [r Hr]. rewrite <- H2 in Hr. apply (f_equal length) in Hr.
    rewrite !length_app in Hr. cbn in Hr. lia.
Qed.

Lemma after_next_word_split a : exists w, a = w ++ after_next_word a /\ (a <> [] -> w <> []).
Proof.
  unfold after_next_word. destruct (skip_suffix isspace a) as [r1 H1].
  destruct (skip_suffix nonspace (skip isspace a)) as [r2 H2]. exists (r1 ++ r2).
  rewrite <- app_assoc, <- H2, <- H1. split; [done|]. intros Hne Hr. apply app_nil in Hr as [-> ->].
  cbn [app] in H1, H2. destruct a as [|c a]; [done|]. cbn [skip] in *. destruct (isspace c) eqn:E.
  - destruct (skip_suffix isspace a) as [r Hr]. rewrite <- H1 in Hr. apply (f_equal length) in Hr.
    rewrite length_app in Hr. cbn in Hr. lia.
  - cbn [skip] in H2. unfold nonspace in H2 at 1. rewrite E in H2. cbn [negb] in H2.
    destruct (skip_suffix nonspace a) as [r Hr]. rewrite <- H2 in Hr. apply (f_equal length) in Hr.
    rewrite length_app in Hr. cbn in Hr. lia.
Qed.

Lemma goto_here d : goto (length (d_before d)) d = d.
Proof. destruct d. unfold goto, moved, d_text. cbn. by rewrite take_app_length, drop_app_length. Qed.

(** ** The console the editor is attached to *)

Section console.
Context {X : Type} (config : bvstk_line_editor_config_t (X := X)) (screen : X -> terminal) (P : chars).

Definition fresh (x : X) : Prop := screen x = Terminal [] 0 Plain.
Definition shown (d : doc) (x : X) : Prop :=
  screen x = Terminal (P ++ d_text d) (alen P + alen (d_before d)) Plain.

(** What is typed appears on the terminal, the prompt is a fixed text, a command
    leaves the cursor on an empty row or has prompted itself, and candidates are
    printable words. *)
Record console_ok : Prop := {
  co_prompt_text : Forall printable P;
  co_write : exists f, lc_write config = Some f /\ forall data x, screen (f data x).2 = type_text (screen x) data;
  co_prompt : exists f, lc_prompt config = Some f /\ forall x, screen (f x) = type_text (screen x) P;
  co_submit : forall f, lc_submit config = Some f -> forall buf n x r x', f buf n x = (r, x') -> fresh x ->
    (r = BVSTK_LINE_EDITOR_SUBMIT_PROMPT -> fresh x') /\
    (r <> BVSTK_LINE_EDITOR_SUBMIT_PROMPT -> r <> BVSTK_LINE_EDITOR_SUBMIT_STOP -> 0 <= r -> screen x' = Terminal P (alen P) Plain);
  co_complete : forall f, lc_complete config = Some f -> forall buf n cur x r c x', f buf n cur x = (r, c, x') ->
    screen x' = screen x /\ 0 <= token_start c /\ 0 <= match_count c /\
    forall i, 0 <= i < match_count c -> Forall printable (cstr ((candidates c).[i]));
  co_tab : lc_tab config = None
}.
Hypothesis ok : console_ok.

(** *** Output *)

Definition types (m : ST (session (X := X)) unit) (data : chars) : Prop :=
  forall s, runs m s (fun _ s' => s'.1 = s.1 /\ screen s'.2 = type_text (screen s.2) data).

Lemma types_seq m k a b : types m a -> types k b -> types (m ;; k) (a ++ b).
Proof.
  intros Hm Hk s. apply runs_bind. eapply runs_mono; [apply Hm|]. intros _ s1 [He1 Hs1].
  eapply runs_mono; [apply Hk|]. intros _ s2 [He2 Hs2]. split; [congruence|]. rewrite Hs2, Hs1. by rewrite type_text_app.
Qed.

Lemma types_none : types (st_ret tt) [].
Proof. done. Qed.

Lemma put_types data : types (put config data) data.
Proof.
  intros s. destruct (co_write ok) as (f & Hf & Hs). unfold put, bvstk_line_editor_write, editor_write_all. cbn [negb].
  rewrite Hf. apply runs_bind. unfold runs, world. pose proof (Hs data s.2) as H. destruct (f data s.2) as [r x]. done.
Qed.

Lemma put_cstr_types text : types (put_text config text) (cstr text).
Proof. intros s. apply put_types. Qed.

Lemma put_text_types text : cstr text = text -> types (put_text config text) text.
Proof. intros Hc. rewrite <- Hc at 2. apply put_cstr_types. Qed.

Lemma printable_clean w : Forall printable w -> cstr w = w.
Proof.
  intros Hw. pose proof (printable_cstr w [] Hw) as H. rewrite <- H at 2.
  clear H. induction Hw as [|c w Hc _ IH]; [done|]. cbn. by rewrite (printable_nonzero c Hc), IH.
Qed.

Lemma call_prompt_types : types (call_prompt config) P.
Proof.
  intros s. destruct (co_prompt ok) as (f & Hf & Hs). unfold call_prompt. rewrite Hf. unfold runs, world. cbn. done.
Qed.

Lemma when_types b m data : types m data -> types (when b m) (if b then data else []).
Proof. intros Hm. destruct b; [done|apply types_none]. Qed.

Lemma beep_quiet s :
  t_mode (screen s.2) = Plain -> runs (beep config) s (fun _ s' => s'.1 = s.1 /\ screen s'.2 = screen s.2).
Proof.
  intros Hm. eapply runs_mono; [apply (put_text_types [7] eq_refl)|]. intros _ s' [He Hs]. split; [done|]. rewrite Hs.
  destruct (screen s.2) as [row col mode]. cbn in Hm. subst mode. reflexivity.
Qed.

Lemma repeat_left n s row col :
  screen s.2 = Terminal row col Plain -> Z.of_nat n <= col ->
  runs (repeat_text config n left_sequence) s (fun _ s' => s'.1 = s.1 /\ screen s'.2 = Terminal row (col - Z.of_nat n) Plain).
Proof.
  revert s col. induction n as [|n IH]; intros s col Hs Hn; cbn [repeat_text].
  { apply runs_ret. split; [done|]. rewrite Hs. f_equal. lia. }
  apply runs_bind. eapply runs_mono; [apply (put_text_types left_sequence eq_refl)|]. intros _ s1 [He1 Hs1].
  rewrite Hs, type_left in Hs1 by lia. eapply runs_mono; [apply (IH s1 (col - 1)); [done|lia]|].
  intros _ s2 [He2 Hs2]. split; [congruence|]. rewrite Hs2. f_equal. lia.
Qed.

Lemma repeat_right n s row col :
  screen s.2 = Terminal row col Plain ->
  runs (repeat_text config n right_sequence) s (fun _ s' => s'.1 = s.1 /\ screen s'.2 = Terminal row (col + Z.of_nat n) Plain).
Proof.
  revert s col. induction n as [|n IH]; intros s col Hs; cbn [repeat_text].
  { apply runs_ret. split; [done|]. rewrite Hs. f_equal. lia. }
  apply runs_bind. eapply runs_mono; [apply (put_text_types right_sequence eq_refl)|]. intros _ s1 [He1 Hs1].
  rewrite Hs, type_right in Hs1. eapply runs_mono; [apply (IH s1 (col + 1)); done|].
  intros _ s2 [He2 Hs2]. split; [congruence|]. rewrite Hs2. f_equal. lia.
Qed.

Lemma type_row s : Forall printable s -> type_text (Terminal [] 0 Plain) s = Terminal s (alen s) Plain.
Proof. intros Hs. pose proof (type_printable s [] [] Hs) as H. cbn [app] in H. rewrite drop_nil, app_nil_r in H. exact H. Qed.

Lemma type_more s t : Forall printable s -> type_text (Terminal t (alen t) Plain) s = Terminal (t ++ s) (alen (t ++ s)) Plain.
Proof.
  intros Hs. pose proof (type_printable s t [] Hs) as H. rewrite app_nil_r, drop_nil, app_nil_r, <- alen_app in H. exact H.
Qed.

(** The prompt and the line, whatever was in the row. *)
Lemma redraw_shows s d :
  rep s.1 d -> t_mode (screen s.2) = Plain -> runs (redraw config) s (fun _ s' => s'.1 = s.1 /\ shown d s'.2).
Proof.
  intros Hr Hm. pose proof (co_prompt_text ok) as HP. destruct (line_split _ _ Hr) as [junk Hline].
  destruct (rep_parts _ _ Hr) as (Hlen & Hcur & _ & Hb & Ha & _). pose proof (rp_text _ _ Hr) as Ht.
  pose proof (rp_length _ _ Hr) as Hsize. unfold d_size in Hsize. pose proof (alen_nonneg (d_before d)). pose proof (alen_nonneg P).
  unfold redraw, bvstk_line_editor_redraw. cbn [negb].
  apply runs_bind. eapply runs_mono; [apply (put_text_types clear_sequence eq_refl)|]. intros _ s1 [He1 Hs1].
  destruct (screen s.2) as [row col mode] eqn:Esc. cbn in Hm. subst mode. rewrite type_clear in Hs1.
  apply runs_bind. eapply runs_mono; [apply call_prompt_types|]. intros _ s2 [He2 Hs2]. rewrite Hs1, type_row in Hs2 by done.
  apply runs_bind, runs_get. assert (s2.1 = s.1) as -> by congruence. cbn [id].
  assert (prefix (line_length s.1) (line s.1) = d_text d) as ->.
  { rewrite Hsize, Hline. unfold d_text. rewrite app_assoc. apply prefix_app. }
  apply runs_bind. eapply runs_mono; [apply when_types, put_types|]. intros _ s3 [He3 Hs3].
  assert (screen s3.2 = Terminal (P ++ d_text d) (alen (P ++ d_text d)) Plain) as Hs3'.
  { rewrite Hs3, Hs2. destruct (Z.eqb_spec (line_length s.1) 0) as [Hz|Hz]; cbn [negb]; [|by apply type_more].
    assert (d_text d = []) as -> by (apply nil_length_inv; unfold alen in Hsize; lia). by rewrite app_nil_r. }
  eapply runs_mono; [apply (repeat_left _ _ _ _ Hs3')|].
  - rewrite alen_app. unfold d_text. rewrite alen_app. pose proof (alen_nonneg (d_after d)). lia.
  - intros _ s4 [He4 Hs4]. split; [congruence|]. unfold shown. rewrite Hs4. f_equal. rewrite alen_app. unfold d_text. rewrite alen_app.
    pose proof (alen_nonneg (d_after d)). lia.
Qed.

(** *** Keys *)

Definition at_doc (q : sequence) (d : doc) (s : session (X := X)) : Prop :=
  rep s.1 d /\ shown_sequence q s.1 /\ shown d s.2.

(** A key that leaves the editor at the document it maps [d] to. *)
Definition does (m : ST (session (X := X)) unit) (q : sequence) (d d' : doc) : Prop :=
  forall s, at_doc q d s -> runs m s (fun _ s' => at_doc q d' s').

Definition same_escape (e e' : bvstk_line_editor_t) : Prop :=
  escape_state e' = escape_state e /\ escape_parameters e' = escape_parameters e /\
  escape_parameter_length e' = escape_parameter_length e.

Lemma same_escape_shown q e e' : same_escape e e' -> shown_sequence q e -> shown_sequence q e'.
Proof. unfold shown_sequence. intros (-> & -> & ->). done. Qed.

Lemma shown_plain d x : shown d x -> t_mode (screen x) = Plain.
Proof. unfold shown. by intros ->. Qed.

Lemma nothing_does q d : does (st_ret tt) q d d.
Proof. intros s Hs. by apply runs_ret. Qed.

Lemma beep_does q d : does (beep config) q d d.
Proof.
  intros s (Hr & Hq & Hs). eapply runs_mono; [apply beep_quiet, (shown_plain d), Hs|]. intros _ s' [He Hsc].
  unfold at_doc, shown. rewrite He, Hsc. done.
Qed.

Lemma redraw_does q d : does (redraw config) q d d.
Proof.
  intros s (Hr & Hq & Hs). eapply runs_mono; [apply redraw_shows; [exact Hr|by eapply shown_plain]|].
  intros _ s' [He Hsc]. unfold at_doc. by rewrite He.
Qed.

Lemma edit_redraw_runs f q d d' s :
  at_doc q d s -> rep (f s.1) d' -> same_escape s.1 (f s.1) -> runs (edit f ;; redraw config) s (fun _ s' => at_doc q d' s').
Proof.
  intros (Hr & Hq & Hs) Hf He. apply runs_bind, runs_mod.
  eapply runs_mono; [apply (redraw_shows (f s.1, s.2) d'); [exact Hf|by eapply shown_plain]|].
  intros _ s' [He' Hsc]. unfold at_doc. rewrite He'. cbn [fst]. split; [done|]. split; [by eapply same_escape_shown|done].
Qed.

Lemma look_does {A} (f : bvstk_line_editor_t -> A) (k : A -> ST (session (X := X)) unit) q d d' :
  (forall s, at_doc q d s -> runs (k (f s.1)) s (fun _ s' => at_doc q d' s')) -> does (st_bind (look f) k) q d d'.
Proof. intros Hk s Hs. apply runs_bind, runs_get. by apply Hk. Qed.

Lemma goto_runs n q d s :
  at_doc q d s -> (n <= length (d_text d))%nat ->
  let s1 := (with_cursor (Z.of_nat n) s.1, s.2) in
  rep s1.1 (goto n d) /\ shown_sequence q s1.1 /\ screen s1.2 = Terminal (P ++ d_text (goto n d)) (alen P + alen (d_before d)) Plain.
Proof.
  intros (Hr & Hq & Hs) Hn s1. split; [by apply rep_goto|]. split; [exact Hq|]. unfold s1. cbn [snd]. rewrite Hs.
  unfold goto, moved, d_text at 2. cbn [d_before d_after]. by rewrite take_drop.
Qed.

Lemma goto_shown n d s' :
  (n <= length (d_text d))%nat -> screen s' = Terminal (P ++ d_text (goto n d)) (alen P + Z.of_nat n) Plain -> shown (goto n d) s'.
Proof. intros Hn Hs. unfold shown. rewrite Hs. f_equal. cbn. unfold alen. rewrite length_take. lia. Qed.

Lemma move_left_does word q d :
  does (editor_move_left config word) q d (apply_key None (if word then KWordLeft else KLeft) d).
Proof.
  apply look_does. intros s Hs. destruct (Hs) as (Hr & Hq & Hsc). destruct (rep_parts _ _ Hr) as (Hlen & Hcur & _).
  destruct (line_split _ _ Hr) as [junk Hline]. cbn [id]. rewrite Hcur.
  destruct (Z.eqb_spec (alen (d_before d)) 0) as [Hz|Hz].
  { assert (d_before d = []) as Hb by (apply nil_length_inv; unfold alen in Hz; lia).
    assert (apply_key None (if word then KWordLeft else KLeft) d = d) as ->.
    { rewrite <- (goto_here d) at 2. destruct word; cbn [apply_key]; by rewrite Hb. }
    by apply beep_does. }
  set (n := (if word then length (before_word (d_before d)) else length (d_before d) - 1)%nat).
  assert (apply_key None (if word then KWordLeft else KLeft) d = goto n d) as -> by (by destruct word).
  assert ((if word then word_left s.1 else alen (d_before d) - 1) = Z.of_nat n) as ->.
  { unfold n, word_left. destruct word; [|unfold alen in *; lia]. rewrite Hcur, Hline. apply word_left_spec. }
  assert (n <= length (d_before d))%nat as Hn.
  { unfold n. destruct word; [|lia]. destruct (before_word_split (d_before d)) as (w & Hw & _).
    rewrite Hw at 2. rewrite length_app. lia. }
  assert (n <= length (d_text d))%nat as Hn' by (unfold d_text; rewrite length_app; lia).
  apply runs_bind, runs_mod. destruct (goto_runs n q d s Hs Hn') as (Hr1 & Hq1 & Hs1).
  eapply runs_mono; [apply (repeat_left _ _ _ _ Hs1)|]; [unfold alen; lia|].
  intros _ s' [He Hsc']. unfold at_doc. rewrite He. split; [exact Hr1|]. split; [exact Hq1|]. apply goto_shown; [done|].
  rewrite Hsc'. f_equal. unfold alen. lia.
Qed.

Lemma move_right_does word q d :
  does (editor_move_right config word) q d (apply_key None (if word then KWordRight else KRight) d).
Proof.
  apply look_does. intros s Hs. destruct (Hs) as (Hr & Hq & Hsc). destruct (rep_parts _ _ Hr) as (Hlen & Hcur & _).
  destruct (line_split _ _ Hr) as [junk Hline]. cbn [id]. rewrite Hcur, Hlen.
  destruct (Z.leb_spec (alen (d_before d) + alen (d_after d)) (alen (d_before d))) as [Hz|Hz].
  { assert (d_after d = []) as Ha by (apply nil_length_inv; unfold alen in Hz; lia).
    assert (apply_key None (if word then KWordRight else KRight) d = d) as ->.
    { rewrite <- (goto_here d) at 2. destruct word; cbn [apply_key]; unfold goto, d_text; rewrite Ha, app_nil_r.
      - cbn. by rewrite Nat.sub_0_r.
      - rewrite !take_ge, !drop_ge by lia. done. }
    by apply beep_does. }
  set (n := (if word then length (d_text d) - length (after_word (d_after d)) else length (d_before d) + 1)%nat).
  assert (apply_key None (if word then KWordRight else KRight) d = goto n d) as -> by (by destruct word).
  assert (length (after_word (d_after d)) <= length (d_after d))%nat as Hsuf.
  { unfold after_word. destruct (skip_suffix nonspace (d_after d)) as [r1 H1].
    destruct (skip_suffix isspace (skip nonspace (d_after d))) as [r2 H2].
    apply (f_equal length) in H1, H2. rewrite length_app in H1, H2. lia. }
  assert (length (d_text d) = length (d_before d) + length (d_after d))%nat as Ht by (unfold d_text; by rewrite length_app).
  assert ((if word then word_right s.1 else alen (d_before d) + 1) = Z.of_nat n) as ->.
  { unfold n, word_right. destruct word; [|unfold alen; lia]. rewrite Hcur, Hlen, Hline.
    rewrite (word_right_spec nonspace isspace). fold (after_word (d_after d)). unfold alen. lia. }
  assert (length (d_before d) <= n <= length (d_text d))%nat as [Hn Hn'].
  { unfold n. unfold alen in Hz. destruct word; lia. }
  apply runs_bind, runs_mod. destruct (goto_runs n q d s Hs Hn') as (Hr1 & Hq1 & Hs1).
  eapply runs_mono; [apply (repeat_right _ _ _ _ Hs1)|].
  intros _ s' [He Hsc']. unfold at_doc. rewrite He. split; [exact Hr1|]. split; [exact Hq1|]. apply goto_shown; [done|].
  rewrite Hsc'. f_equal. unfold alen. lia.
Qed.

Lemma home_does q d : does (editor_home config) q d (apply_key None KHome d).
Proof. intros s Hs. apply (edit_redraw_runs _ q d); [done| |done]. destruct Hs as (Hr & _). apply (rep_goto _ _ 0 Hr). lia. Qed.

Lemma end_does q d : does (editor_end config) q d (apply_key None KEnd d).
Proof.
  intros s Hs. apply (edit_redraw_runs _ q d); [done| |done]. destruct Hs as (Hr & _). rewrite (rp_length _ _ Hr).
  apply (rep_goto _ _ (length (d_text d)) Hr). lia.
Qed.

(** *** History *)

Lemma set_line_escape e0 e buf n : same_escape e0 e -> same_escape e0 (set_line buf n e).
Proof. intros He. unfold set_line, bvstk_line_editor_set_line, bvstk_line_editor_set_state. by destruct (_ || _). Qed.

Lemma edit2_redraw_runs f g q d d' s :
  at_doc q d s -> rep (g (f s.1)) d' -> same_escape s.1 (g (f s.1)) ->
  runs (edit f ;; edit g ;; redraw config) s (fun _ s' => at_doc q d' s').
Proof. intros Hs Hr He. exact (edit_redraw_runs (fun e => g (f e)) q d d' s Hs Hr He). Qed.

Lemma rep_position e d p : rep e d -> d_recall d = None -> p = -1 -> rep (with_position p e) d.
Proof. intros [] Hn ->. constructor; try done. by rewrite Hn in *. Qed.

(** The fields of [rep] that a recall in progress does not depend on. *)
Lemma rep_recalling e d s n p k text :
  rep e d -> holds s text -> n = alen text -> Forall printable text -> p = Z.of_nat k -> (k < length (d_lines d))%nat ->
  rep (with_position p (with_scratch s n e)) (Doc (d_before d) (d_after d) (d_lines d) (Some (k, text)) (d_cut d)).
Proof. intros [] Hs -> Ht -> Hk. destruct Hs. constructor; try done. Qed.

Lemma history_up_does q d : does (editor_history_up config) q d (apply_key None KUp d).
Proof.
  apply look_does. intros s Hs. destruct (Hs) as (Hr & Hq & Hsc). cbn [id apply_key]. unfold line_up.
  destruct (rp_count _ _ Hr) as [Hcount Hle]. pose proof (rp_recall _ _ Hr) as Hrec. rewrite Hcount.
  pose proof (rp_line _ _ Hr) as Hline. pose proof (rp_text _ _ Hr) as Htext. pose proof (rp_length _ _ Hr) as Hlen.
  destruct (Z.eqb_spec (alen (d_lines d)) 0) as [Hz|Hz].
  { assert (d_lines d = []) as Hn by (apply nil_length_inv; unfold alen in Hz; lia).
    destruct (d_recall d) as [[k s0]|]; [rewrite Hn in Hrec; cbn in Hrec; lia|]. rewrite Hn. by apply beep_does. }
  destruct (d_recall d) as [[k s0]|].
  - destruct Hrec as (Hp & Hk & Hscr & Hsn & Hsp). rewrite Hp. rewrite (proj2 (Z.ltb_ge _ _)) by lia.
    destruct k as [|k]; [by apply beep_does|]. rewrite (proj2 (Z.ltb_lt _ _)) by lia.
    assert (is_Some (d_lines d !! k)) as [text Htk] by (apply lookup_lt_is_Some; lia).
    rewrite (list_lookup_total_correct _ _ _ Htk).
    apply (edit2_redraw_runs _ _ q d); [done| |by apply set_line_escape].
    pose proof (rep_recalling _ _ (history_scratch s.1) (history_scratch_length s.1) (Z.of_nat (S k) - 1) k s0 Hr Hscr Hsn Hsp ltac:(lia) ltac:(lia)) as Hr1.
    pose proof (recall_rep _ _ k s0 text Hr1 Htk ltac:(cbn; lia) Hscr Hsn Hsp) as Hr2. exact Hr2.
  - rewrite Hrec. change (-1 <? 0) with true. cbn iota.
    assert (d_lines d <> []) as Hne by (intros Hn; by rewrite Hn in Hz).
    destruct (@exists_last _ (d_lines d) Hne) as (l & text & Hl).
    assert (last (d_lines d) = Some text) as -> by (rewrite Hl; apply last_snoc).
    pose proof (rp_scratch _ _ Hr) as Hscr. unfold d_size in Hlen. rewrite Hlen.
    pose proof (holds_copy _ _ (history_scratch s.1) Hline Hscr) as Hc.
    set (k := (length (d_lines d) - 1)%nat).
    assert (length (d_lines d) = S (length l)) as Hll by (rewrite Hl, length_app; cbn; lia).
    assert (d_lines d !! k = Some text) as Htk.
    { unfold k. rewrite Hl, lookup_app_r by (rewrite length_app; cbn; lia). rewrite length_app. cbn.
      replace (length l + 1 - 1 - length l)%nat with 0%nat by lia. done. }
    pose proof (rep_recalling _ _ _ (alen (d_text d)) (alen (d_lines d) - 1) k (d_text d) Hr Hc eq_refl Htext ltac:(unfold alen, k; lia) ltac:(lia)) as Hr1.
    pose proof (recall_rep _ _ k (d_text d) text Hr1 Htk ltac:(unfold alen, k; cbn; lia) Hc eq_refl Htext) as Hr2.
    exact (edit_redraw_runs (fun e => recall (with_position (alen (d_lines d) - 1) (with_scratch
      (copy_prefix (alen (d_text d) + 1) (line s.1) (history_scratch s.1)) (alen (d_text d)) e))) q d _ s Hs Hr2 (set_line_escape _ _ _ _ ltac:(done))).
Qed.

Lemma history_down_does q d : does (editor_history_down config) q d (apply_key None KDown d).
Proof.
  apply look_does. intros s Hs. destruct (Hs) as (Hr & Hq & Hsc). cbn [id apply_key]. unfold line_down.
  destruct (rp_count _ _ Hr) as [Hcount Hle]. pose proof (rp_recall _ _ Hr) as Hrec.
  destruct (d_recall d) as [[k s0]|] eqn:Erec.
  - destruct Hrec as (Hp & Hk & Hscr & Hsn & Hsp). rewrite Hp. rewrite (proj2 (Z.ltb_ge _ _)) by lia. rewrite Hcount.
    destruct (d_lines d !! S k) as [text|] eqn:Htk.
    + pose proof (lookup_lt_Some _ _ _ Htk) as Hlt. rewrite (proj2 (Z.ltb_lt _ _)) by (unfold alen; lia).
      pose proof (rep_recalling _ _ (history_scratch s.1) (history_scratch_length s.1) (Z.of_nat k + 1) (S k) s0 Hr Hscr Hsn Hsp ltac:(lia) ltac:(lia)) as Hr1.
      pose proof (recall_rep _ _ (S k) s0 text Hr1 Htk ltac:(cbn; lia) Hscr Hsn Hsp) as Hr2.
      exact (edit_redraw_runs (fun e => recall (with_position (Z.of_nat k + 1) e)) q d _ s Hs Hr2 (set_line_escape _ _ _ _ ltac:(done))).
    + apply lookup_ge_None in Htk. rewrite (proj2 (Z.ltb_ge _ _)) by (unfold alen; lia).
      apply (edit_redraw_runs (fun e => set_line (history_scratch (with_position (-1) e)) (history_scratch_length (with_position (-1) e)) (with_position (-1) e)) q d); [done| |by apply set_line_escape].
      change (rep (set_line (history_scratch s.1) (history_scratch_length s.1) (with_position (-1) s.1)) (recalled None s0 d)).
      rewrite Hsn. assert (rep (with_position (-1) s.1) (edited (d_before d) (d_after d) d)) as Hr1 by (by apply rep_edited).
      pose proof (set_line_rep _ _ (history_scratch s.1) s0 None Hr1 Hscr Hsp eq_refl) as Hr2. exact Hr2.
  - rewrite Hrec. by apply beep_does.
Qed.

(** *** Editing *)

Lemma insert_does c q d : printable c -> does (editor_insert config c) q d (apply_key None (KInsert c) d).
Proof.
  intros Hc. apply look_does. intros s Hs. destruct (Hs) as (Hr & Hq & Hsc). cbn [id apply_key].
  destruct (rep_parts _ _ Hr) as (Hlen & Hcur & _ & Hb & Ha & _). rewrite (rp_length _ _ Hr).
  change BVSTK_LINE_EDITOR_LINE_MAX with 512.
  destruct (Z.leb_spec 512 (d_size d + 1)) as [Hfull|Hroom].
  { rewrite (proj2 (Z.leb_le _ _)) by lia. by apply beep_does. }
  rewrite (proj2 (Z.leb_gt _ _)) by lia. pose proof (insert_char_rep _ _ c Hr Hc ltac:(lia)) as Hr'.
  set (d' := edited (d_before d ++ [c]) (d_after d) d) in *. apply runs_bind, runs_mod.
  apply runs_bind. eapply runs_mono; [apply put_types|]. intros _ s1 [He1 Hs1]. cbn [fst snd] in He1, Hs1.
  unfold shown in Hsc. rewrite Hsc in Hs1. unfold d_text in Hs1.
  rewrite app_assoc, <- alen_app, type_printable in Hs1 by (by constructor).
  assert (d_size d - cursor s.1 = alen (d_after d)) as ->.
  { rewrite Hcur. unfold d_size, d_text. rewrite alen_app. lia. }
  assert (at_doc q d' s1 <-> shown d' s1.2) as Hat.
  { unfold at_doc. rewrite He1. split; [by intros (_ & _ & ?)|]. intros Hsh. split; [exact Hr'|]. split; [exact Hq|exact Hsh]. }
  destruct (Z.eqb_spec (alen (d_after d)) 0) as [Hz|Hz]; cbn [negb when].
  - apply runs_ret. apply Hat. unfold shown. rewrite Hs1. unfold d', edited, d_text. cbn [d_before d_after].
    assert (d_after d = []) as -> by (apply nil_length_inv; unfold alen in Hz; lia).
    rewrite drop_nil, !app_nil_r, <- app_assoc, !alen_app. f_equal. lia.
  - apply runs_bind, runs_get. rewrite He1. cbn [id].
    assert (cells (line (insert_char c s.1)) (cursor (insert_char c s.1)) (alen (d_after d)) = d_after d) as ->.
    { destruct (line_split _ _ Hr') as [junk' ->]. rewrite (rp_cursor _ _ Hr'). unfold d', edited. cbn [d_before d_after].
      apply cells_app. }
    apply runs_bind. eapply runs_mono; [apply put_types|]. intros _ s2 [He2 Hs2]. rewrite Hs1 in Hs2.
    rewrite app_assoc, <- alen_app, type_printable in Hs2 by done.
    assert (drop (length (d_after d)) (drop (length [c]) (d_after d)) = []) as Hd by (rewrite drop_drop; apply drop_ge; cbn; lia).
    rewrite Hd, app_nil_r in Hs2.
    eapply runs_mono; [apply (repeat_left _ _ _ _ Hs2)|].
    + rewrite !alen_app. pose proof (alen_nonneg P). pose proof (alen_nonneg (d_before d)). change (alen [c]) with 1.
      pose proof (alen_nonneg (d_after d)). lia.
    + intros _ s3 [He3 Hs3]. unfold at_doc. rewrite He3, He2, He1. split; [exact Hr'|]. split; [exact Hq|].
      unfold shown. rewrite Hs3. unfold d', edited, d_text. cbn [d_before d_after].
      rewrite <- !app_assoc, !alen_app. change (alen [c]) with 1. pose proof (alen_nonneg (d_after d)). f_equal. lia.
Qed.

Lemma backspace_does q d : does (editor_backspace config) q d (apply_key None KBackspace d).
Proof.
  apply look_does. intros s Hs. destruct (Hs) as (Hr & Hq & Hsc). destruct (rep_parts _ _ Hr) as (Hlen & Hcur & _). cbn [id apply_key].
  rewrite Hcur. destruct (decide (d_before d = [])) as [Hn|Hn].
  { rewrite Hn, bool_decide_eq_true_2 by done. by apply beep_does. }
  rewrite bool_decide_eq_false_2 by done. destruct (@exists_last _ (d_before d) Hn) as (p & x & Hp).
  rewrite Hp, alen_app. change (alen [x]) with 1. pose proof (alen_nonneg p). rewrite (proj2 (Z.eqb_neq _ _)) by lia.
  replace (alen p + 1 - 1) with (alen p) by lia. rewrite length_app. cbn [length]. rewrite Nat.add_sub, take_app_length.
  apply (edit_redraw_runs _ q d); [done| |done]. apply (remove_char_rep _ _ p x); [done|]. unfold d_text. by rewrite Hp, <- app_assoc.
Qed.

Lemma delete_does q d : does (editor_delete config) q d (apply_key None KDelete d).
Proof.
  apply look_does. intros s Hs. destruct (Hs) as (Hr & Hq & Hsc). destruct (rep_parts _ _ Hr) as (Hlen & Hcur & _). cbn [id apply_key].
  rewrite Hcur, Hlen. destruct (d_after d) as [|x a] eqn:Ha.
  { change (alen []) with 0. rewrite Z.add_0_r, Z.leb_refl. by apply beep_does. }
  rewrite alen_cons. pose proof (alen_nonneg a). rewrite (proj2 (Z.leb_gt _ _)) by lia.
  apply (edit_redraw_runs _ q d); [done| |done]. apply (remove_char_rep _ _ (d_before d) x); [done|]. unfold d_text. by rewrite Ha.
Qed.

(** The text [m] between two positions is cut. *)
Lemma cut_range_runs q d p m r s :
  at_doc q d s -> d_text d = p ++ m ++ r -> m <> [] ->
  runs (editor_cut_range config (alen p) (alen p + alen m)) s (fun _ s' => at_doc q (cut_as m p r d) s').
Proof.
  intros Hs Ht Hm. destruct (Hs) as (Hr & Hq & Hsc). apply runs_bind, runs_get. cbn [id]. rewrite (rp_length _ _ Hr).
  unfold d_size. rewrite Ht, !alen_app. pose proof (alen_nonneg r).
  assert (0 < alen m) by (destruct m; [done|]; rewrite alen_cons; pose proof (alen_nonneg m); lia).
  rewrite (proj2 (Z.leb_gt _ _)), (proj2 (Z.ltb_ge _ _)) by lia. cbn [orb].
  apply (edit_redraw_runs _ q d); [done|by apply cut_range_rep|done].
Qed.

Lemma cut_nothing q d a s : at_doc q d s -> runs (editor_cut_range config a a) s (fun _ s' => at_doc q d s').
Proof. intros Hs. apply runs_bind, runs_get. cbn [id]. rewrite Z.leb_refl. cbn [orb]. by apply runs_ret. Qed.

Lemma cut_end_does q d s :
  at_doc q d s -> runs (editor_cut_range config (cursor s.1) (line_length s.1)) s (fun _ s' => at_doc q (apply_key None KCutEnd d) s').
Proof.
  intros Hs. destruct (Hs) as (Hr & _). destruct (rep_parts _ _ Hr) as (Hlen & Hcur & _). rewrite Hlen, Hcur. cbn [apply_key].
  destruct (decide (d_after d = [])) as [Hn|Hn].
  - rewrite Hn, bool_decide_eq_true_2 by done. change (alen []) with 0. rewrite Z.add_0_r. by apply cut_nothing.
  - rewrite bool_decide_eq_false_2 by done. apply cut_range_runs; [done| |done]. unfold d_text. by rewrite app_nil_r.
Qed.

Lemma cut_start_does q d s :
  at_doc q d s -> runs (editor_cut_range config 0 (cursor s.1)) s (fun _ s' => at_doc q (apply_key None KCutStart d) s').
Proof.
  intros Hs. destruct (Hs) as (Hr & _). destruct (rep_parts _ _ Hr) as (Hlen & Hcur & _). rewrite Hcur. cbn [apply_key].
  destruct (decide (d_before d = [])) as [Hn|Hn].
  - rewrite Hn, bool_decide_eq_true_2 by done. change (alen []) with 0. by apply cut_nothing.
  - rewrite bool_decide_eq_false_2 by done. exact (cut_range_runs q d [] (d_before d) (d_after d) s Hs eq_refl Hn).
Qed.

Lemma cut_word_does q d : does (editor_delete_previous_word config) q d (apply_key None KCutWord d).
Proof.
  apply look_does. intros s Hs. destruct (Hs) as (Hr & _). destruct (rep_parts _ _ Hr) as (Hlen & Hcur & _). cbn [id apply_key].
  destruct (line_split _ _ Hr) as [junk Hline]. unfold word_left. rewrite Hcur.
  destruct (decide (d_before d = [])) as [Hn|Hn].
  { rewrite Hn, bool_decide_eq_true_2 by done. by apply nothing_does. }
  rewrite bool_decide_eq_false_2 by done. rewrite (proj2 (Z.eqb_neq _ _)) by (intros Hz; apply Hn, nil_length_inv; unfold alen in Hz; lia).
  rewrite Hline, word_left_spec. destruct (before_word_split (d_before d)) as (w & Hw & Hwn).
  assert (drop (length (before_word (d_before d))) (d_before d) = w) as -> by (rewrite Hw at 2; by rewrite drop_app_length).
  assert (alen (d_before d) = alen (before_word (d_before d)) + alen w) as -> by (rewrite Hw at 1; by rewrite alen_app).
  apply cut_range_runs; [done| |by apply Hwn]. unfold d_text. rewrite Hw at 1. by rewrite <- app_assoc.
Qed.

Lemma cut_next_word_does q d : does (editor_delete_next_word config) q d (apply_key None KCutNextWord d).
Proof.
  apply look_does. intros s Hs. destruct (Hs) as (Hr & _). destruct (rep_parts _ _ Hr) as (Hlen & Hcur & _). cbn [id apply_key].
  destruct (line_split _ _ Hr) as [junk Hline]. unfold word_end. rewrite Hcur, Hlen.
  destruct (decide (d_after d = [])) as [Hn|Hn].
  { rewrite Hn, bool_decide_eq_true_2 by done. change (alen []) with 0. rewrite Z.add_0_r, Z.leb_refl. by apply nothing_does. }
  rewrite bool_decide_eq_false_2 by done.
  rewrite (proj2 (Z.leb_gt _ _)) by (destruct (d_after d) as [|x l]; [done|]; rewrite alen_cons; pose proof (alen_nonneg l); lia).
  rewrite Hline, (word_right_spec isspace nonspace). fold (after_next_word (d_after d)).
  destruct (after_next_word_split (d_after d)) as (w & Hw & Hwn).
  assert (take (length (d_after d) - length (after_next_word (d_after d))) (d_after d) = w) as ->.
  { rewrite Hw at 3. replace (length (d_after d) - length (after_next_word (d_after d)))%nat with (length w).
    - apply take_app_length.
    - rewrite Hw at 1. rewrite length_app. lia. }
  assert (alen (d_before d) + alen (d_after d) - alen (after_next_word (d_after d)) = alen (d_before d) + alen w) as ->.
  { rewrite Hw at 1. rewrite alen_app. lia. }
  apply cut_range_runs; [done| |by apply Hwn]. unfold d_text. by rewrite Hw at 1.
Qed.

Lemma paste_does q d : does (editor_paste_cut_buffer config) q d (apply_key None KPaste d).
Proof.
  apply look_does. intros s Hs. destruct (Hs) as (Hr & _). destruct (rp_cut _ _ Hr) as (_ & Hcn & _). cbn [id apply_key].
  rewrite Hcn, (rp_length _ _ Hr). change BVSTK_LINE_EDITOR_LINE_MAX with 512.
  assert ((alen (d_cut d) =? 0) = bool_decide (d_cut d = [])) as ->.
  { destruct (Z.eqb_spec (alen (d_cut d)) 0) as [Hz|Hz]; symmetry.
    - apply bool_decide_eq_true, nil_length_inv. unfold alen in Hz. lia.
    - apply bool_decide_eq_false. intros Hn. by rewrite Hn in Hz. }
  destruct (bool_decide (d_cut d = []) || (512 <=? d_size d + alen (d_cut d))) eqn:E; [by apply nothing_does|].
  apply orb_false_iff in E as [_ E]. bsimp. apply (edit_redraw_runs _ q d); [done| |done]. by apply paste_cut_rep.
Qed.

(** *** Completion *)

Lemma replace_runs q d s start tok p w rest b :
  at_doc q d s -> d_before d = p ++ w -> start = alen p -> tok = alen w ->
  forall text junk, rest = text ++ junk -> Forall printable text ->
  runs (bvstk_line_editor_replace config true start tok (Some rest) (alen text) b ;; st_ret tt) s
    (fun _ s' => at_doc q (completed tok (text ++ (if b && negb (bool_decide (text = []) || ends_in_slash text) then [32] else [])) d) s').
Proof.
  intros Hs Hb -> -> text junk -> Ht. destruct (Hs) as (Hr & _). destruct (rep_parts _ _ Hr) as (Hlen & Hcur & _).
  apply runs_bind. unfold bvstk_line_editor_replace. apply runs_bind, runs_get. cbn [id negb orb].
  rewrite Hcur, Hlen, Hb, alen_app. pose proof (alen_nonneg w). pose proof (alen_nonneg p).
  rewrite (proj2 (Z.ltb_ge _ _)) by lia. replace (alen p + alen w - alen p) with (alen w) by lia. rewrite Z.eqb_refl. cbn [negb orb].
  rewrite spaced_after_iff. change BVSTK_LINE_EDITOR_LINE_MAX with 512. unfold completed.
  assert (take (length (d_before d) - Z.to_nat (alen w)) (d_before d) = p) as ->.
  { rewrite Hb, length_app. unfold alen. rewrite Nat2Z.id, Nat.add_sub. apply take_app_length. }
  set (sp := if b && negb (bool_decide (text = []) || ends_in_slash text) then [32] else []).
  assert ((if b && negb (bool_decide (text = []) || ends_in_slash text) then 1 else 0) = alen sp) as -> by (unfold sp; by destruct (b && _)).
  replace (alen p + alen w + alen (d_after d) - (alen p + alen w)) with (alen (d_after d)) by lia.
  rewrite !alen_app. destruct (Z.leb_spec 512 (alen p + alen text + alen (d_after d) + alen sp)) as [Hf|Hf].
  - rewrite (proj2 (Z.ltb_ge _ _)) by lia. apply runs_bind. eapply runs_mono; [by apply beep_does|]. intros ? s' Hs'. by apply runs_ret.
  - rewrite (proj2 (Z.ltb_lt _ _)) by lia. apply runs_bind, runs_mod.
    assert (rep (replace_token (alen p) (text ++ junk) (alen text) b s.1) (edited (p ++ text ++ sp) (d_after d) d)) as Hr'
      by (apply (replace_token_rep _ _ p w); [done..|fold sp; lia]).
    assert (same_escape s.1 (replace_token (alen p) (text ++ junk) (alen text) b s.1)) as He
      by (unfold replace_token; by destruct (spaced_after _ _ _)).
    apply runs_bind. destruct Hs as (_ & Hq & Hsc).
    eapply runs_mono; [apply (redraw_shows (_, s.2) _ Hr'); by eapply shown_plain|].
    intros _ s' [He' Hsc']. apply runs_ret, runs_ret. unfold at_doc. rewrite He'. split; [exact Hr'|].
    split; [by eapply same_escape_shown|done].
Qed.

Lemma common_prefix_bound c : 0 <= common_prefix_length c <= strlen ((candidates c).[0]).
Proof.
  unfold common_prefix_length. pose proof (strlen_nonneg ((candidates c).[0])). destruct (match_count c =? 0); [lia|].
  pose proof (for_loop_ind (fun _ n => 0 <= n <= strlen ((candidates c).[0])) (fun n (_ : unit) => 0 <= n <= strlen ((candidates c).[0]))
    (Z.to_nat (match_count c - 1)) 1 (fun i length =>
       let other := (candidates c).[i] in
       let current := default length (for_find (Z.to_nat length) 0 (fun k =>
         (other.[k] =? 0) || negb (tolower (((candidates c).[0]).[k]) =? tolower (other.[k])))) in
       (current, if current =? 0 then Some tt else None)) (strlen ((candidates c).[0]))) as Hf.
  cbv zeta in Hf. assert (forall i n, 0 <= n <= strlen ((candidates c).[0]) ->
    0 <= default n (for_find (Z.to_nat n) 0 (fun k => (((candidates c).[i]).[k] =? 0) ||
      negb (tolower (((candidates c).[0]).[k]) =? tolower (((candidates c).[i]).[k])))) <= strlen ((candidates c).[0])) as Hstep.
  { intros i n Hn. destruct (for_find _ _ _) as [k|] eqn:E; [|done]. apply for_find_Some in E as (Hk & _). cbn. lia. }
  destruct (for_loop _ _ _ _) as [n [[]|]]; apply Hf; try lia; intros i m _ Hm; specialize (Hstep i m Hm);
    destruct (_ =? 0); exact Hstep.
Qed.

Definition plain_row (s : session (X := X)) : Prop := exists t, screen s.2 = Terminal t (alen t) Plain.

Lemma plain_row_types m w s :
  types m w -> Forall printable w -> plain_row s -> runs m s (fun _ s' => s'.1 = s.1 /\ plain_row s').
Proof.
  intros Hm Hw [t Ht]. eapply runs_mono; [apply Hm|]. intros _ s' [He Hs]. split; [done|]. exists (t ++ w). rewrite Hs, Ht. by apply type_more.
Qed.

Lemma list_candidates_runs (l : list chars) s :
  Forall (fun w => Forall printable (cstr w)) l -> plain_row s ->
  runs (list_candidates config l) s (fun _ s' => s'.1 = s.1 /\ plain_row s').
Proof.
  intros Hl. revert s. induction Hl as [|w l Hw _ IH]; intros s Hs; cbn [list_candidates]; [by apply runs_ret|].
  apply runs_bind. eapply runs_mono; [apply (plain_row_types _ (cstr w)); [apply put_cstr_types|done|done]|]. intros _ s1 [He1 Hs1].
  apply runs_bind. eapply runs_mono; [apply (plain_row_types _ (lit "  ")); [by apply put_text_types|by repeat constructor|done]|].
  intros _ s2 [He2 Hs2]. eapply runs_mono; [by apply IH|]. intros _ s3 [He3 Hs3]. split; [congruence|done].
Qed.

Lemma newline_runs s : t_mode (screen s.2) = Plain -> runs (put_text config newline) s (fun _ s' => s'.1 = s.1 /\ fresh s'.2).
Proof.
  intros Hm. eapply runs_mono; [by apply (put_text_types newline)|]. intros _ s' [He Hs]. split; [done|]. unfold fresh. rewrite Hs.
  destruct (screen s.2) as [row col mode]. cbn in Hm. subst mode. reflexivity.
Qed.

Lemma offer_runs q d s c :
  at_doc q d s -> 0 <= token_start c -> 0 <= match_count c ->
  (forall i, 0 <= i < match_count c -> Forall printable (cstr ((candidates c).[i]))) ->
  runs (offer_completion config c) s (fun _ s' => at_doc q (complete_doc c d) s').
Proof.
  intros Hs Hst Hmc Hw. destruct (Hs) as (Hr & _). destruct (rep_parts _ _ Hr) as (Hlen & Hcur & _).
  unfold offer_completion. apply runs_bind, runs_get. cbn [id]. rewrite Hcur. unfold complete_doc, accepts.
  change BVSTK_LINE_EDITOR_COMPLETION_MAX_MATCHES with 16.
  destruct ((match_count c =? 0) || (16 <? match_count c)) eqn:E1.
  { assert ((1 <=? match_count c) && (match_count c <=? 16) = false) as ->.
    { apply orb_true_iff in E1 as [E1|E1]; bsimp; apply andb_false_iff; [left|right]; apply Z.leb_gt; lia. }
    cbn [andb negb]. by apply beep_does. }
  apply orb_false_iff in E1 as [E1 E1']. bsimp. rewrite !(proj2 (Z.leb_le _ _)) by lia. cbn [andb].
  rewrite Z.ltb_antisym. destruct (token_start c <=? alen (d_before d)) eqn:E2; cbn [negb orb andb]; [|by apply beep_does].
  destruct (Z.eqb_spec (token_prefix_length c) (alen (d_before d) - token_start c)) as [Htok|]; cbn [negb]; [|by apply beep_does].
  bsimp. set (first := (candidates c).[0]). assert (Forall printable (cstr first)) as Hfp by (apply Hw; lia).
  assert (exists junk, first = cstr first ++ junk) as [junk Hjunk].
  { clear. induction first as [|a l [j IH]]; [by exists []|]. cbn. destruct (a =? 0); [by exists (a :: l)|]. exists j. cbn. by rewrite <- IH. }
  set (p := take (Z.to_nat (token_start c)) (d_before d)). set (w := drop (Z.to_nat (token_start c)) (d_before d)).
  assert (d_before d = p ++ w) as Hb by (unfold p, w; by rewrite take_drop).
  assert (alen p = token_start c) as Hp by (unfold p, alen in *; rewrite length_take; lia).
  assert (token_prefix_length c = alen w) as Hwl by (rewrite Htok, Hb, alen_app; lia).
  destruct (match_count c =? 1).
  - pose proof (replace_runs q d s _ _ p w first true Hs Hb (eq_sym Hp) Hwl (cstr first) junk Hjunk Hfp) as H.
    destruct (bool_decide (cstr first = []) || ends_in_slash (cstr first)); exact H.
  - pose proof (common_prefix_bound c) as Hn. fold first in Hn. set (n := common_prefix_length c) in *.
    apply runs_bind. apply (runs_mono _ _ (fun _ s1 => at_doc q (if token_prefix_length c <? n then
      completed (token_prefix_length c) (take (Z.to_nat n) (cstr first)) d else d) s1)).
    + destruct (token_prefix_length c <? n); cbn [when]; [|by apply runs_ret].
      assert (alen (take (Z.to_nat n) (cstr first)) = n) as Hna
        by (unfold strlen in Hn; unfold alen in *; rewrite length_take; lia).
      assert (first = take (Z.to_nat n) (cstr first) ++ drop (Z.to_nat n) (cstr first) ++ junk) as Hfirst
        by (rewrite app_assoc, take_drop; exact Hjunk).
      pose proof (replace_runs q d s _ _ p w first false Hs Hb (eq_sym Hp) Hwl _ _ Hfirst (Forall_take _ _ _ Hfp)) as H.
      rewrite Hna in H. cbn [andb] in H. rewrite app_nil_r in H. exact H.
    + intros _ s1 (Hr1 & Hq1 & Hs1). set (d1 := if _ <? _ then _ else _) in *.
      apply runs_bind. eapply runs_mono; [apply newline_runs; by eapply shown_plain|]. intros _ s2 [He2 Hs2].
      apply runs_bind. eapply runs_mono; [apply list_candidates_runs|].
      * apply Forall_forall. intros x Hx. apply list_elem_of_lookup in Hx as [k Hk]. apply lookup_take_Some in Hk as [Hk Hlt].
        specialize (Hw (Z.of_nat k) ltac:(lia)). unfold aget in Hw. rewrite Nat2Z.id in Hw.
        by rewrite (list_lookup_total_correct _ _ _ Hk) in Hw.
      * by exists [].
      * intros _ s3 [He3 [t Hs3]]. apply runs_bind. eapply runs_mono; [apply newline_runs; by rewrite Hs3|]. intros _ s4 [He4 Hs4].
        assert (s4.1 = s1.1) as He by congruence.
        eapply runs_mono; [apply (redraw_shows _ d1); [by rewrite He|by rewrite Hs4]|].
        intros _ s5 [He5 Hs5]. unfold at_doc. rewrite He5, He. done.
Qed.

(** What the completion hook answers about the line. *)
Definition offer_of (s : session (X := X)) : option bvstk_line_editor_completion_t :=
  match lc_complete config with
  | None => None
  | Some f => let '(r, c, _) := f (line s.1) (line_length s.1) (cursor s.1) s.2 in if r =? 0 then None else Some c
  end.

Lemma complete_runs q d s :
  at_doc q d s -> runs (editor_complete config) s (fun _ s' => at_doc q (apply_key (offer_of s) KTab d) s').
Proof.
  intros Hs. unfold editor_complete, offer_of. rewrite (co_tab ok). destruct (lc_complete config) as [f|] eqn:Ef; [|by apply beep_does].
  apply runs_bind, runs_get. cbn [id]. apply runs_bind. unfold runs at 1, world.
  destruct (f (line s.1) (line_length s.1) (cursor s.1) s.2) as [[r c] x] eqn:Ec. cbn [fst snd].
  destruct (co_complete ok f Ef _ _ _ _ _ _ _ Ec) as (Hsc & Hst & Hmc & Hw).
  assert (at_doc q d (s.1, x)) as Hs1 by (destruct Hs as (? & ? & Hsh); unfold at_doc, shown in *; cbn [fst snd]; by rewrite Hsc).
  destruct (r =? 0); [by apply beep_does|by apply offer_runs].
Qed.

(** *** Bytes *)

(** A row with nothing but the prompt. *)
Lemma prompt_runs s d :
  rep s.1 d -> d_text d = [] -> fresh s.2 -> runs (call_prompt config) s (fun _ s' => s'.1 = s.1 /\ shown d s'.2).
Proof.
  intros Hr Ht Hs. eapply runs_mono; [apply call_prompt_types|]. intros _ s' [He Hs']. split; [done|]. unfold shown.
  rewrite Hs', Hs, type_row by apply (co_prompt_text ok). rewrite Ht, app_nil_r. f_equal.
  unfold d_text in Ht. apply app_nil in Ht as [-> _]. change (alen []) with 0. lia.
Qed.

Definition stopped_by (k : key) (d : doc) : Prop := k = KEnter \/ k = KEof /\ d_text d = [] /\ lc_eof_on_empty config = true.

(** The editor after a byte; the row as long as the session goes on. *)
Definition keyed (q : sequence) (k : key) (d d' : doc) (stop : bool) (s' : session (X := X)) : Prop :=
  rep s'.1 d' /\ shown_sequence q s'.1 /\ (if stop then stopped_by k d else shown d' s'.2).

Lemma continue_keyed (m : ST (session (X := X)) unit) q k d d' s :
  runs m s (fun _ s' => at_doc q d' s') -> runs (m ;; st_ret false) s (keyed q k d d').
Proof. intros Hm. apply runs_bind. eapply runs_mono; [exact Hm|]. intros ? s' (Hr & Hq & Hs). by apply runs_ret. Qed.

Lemma reset_line_sequence e : alen (escape_parameters e) = 16 -> shown_sequence NoSequence (editor_reset_line e).
Proof. intros He. split; [|done]. cbn. by rewrite alen_aset. Qed.

Lemma sequence_params q e : shown_sequence q e -> alen (escape_parameters e) = 16.
Proof. by intros [? _]. Qed.

Lemma submit_keyed q d s :
  at_doc q d s -> runs (editor_submit config) s (keyed NoSequence KEnter d (apply_key None KEnter d)).
Proof.
  intros (Hr & Hq & Hs). unfold editor_submit. destruct (submit_rep _ _ Hr) as (Hr' & _).
  apply runs_bind. eapply runs_mono; [apply newline_runs; by eapply shown_plain|]. intros _ s1 [He1 Hs1].
  apply runs_bind, runs_mod. apply runs_bind, runs_get. cbn [id fst]. rewrite He1.
  assert (shown_sequence NoSequence (editor_reset_line (editor_add_history s.1))) as Hq'.
  { apply reset_line_sequence. apply sequence_params in Hq. unfold editor_add_history. destruct (_ || _); [done|]. by destruct (_ =? _). }
  set (e := editor_add_history s.1) in *.
  assert (forall r x', (r = BVSTK_LINE_EDITOR_SUBMIT_PROMPT -> fresh x') ->
    (r <> BVSTK_LINE_EDITOR_SUBMIT_PROMPT -> r <> BVSTK_LINE_EDITOR_SUBMIT_STOP -> 0 <= r -> screen x' = Terminal P (alen P) Plain) ->
    runs (bvstk_line_editor_reset true ;; when (r =? BVSTK_LINE_EDITOR_SUBMIT_PROMPT) (call_prompt config) ;;
      st_ret ((r =? BVSTK_LINE_EDITOR_SUBMIT_STOP) || (r <? 0))) (e, x') (keyed NoSequence KEnter d (apply_key None KEnter d))) as Hfin.
  { intros r x' Hp Hd. apply runs_bind, runs_mod. cbn [fst snd].
    apply runs_bind. apply (runs_mono _ _ (fun _ s' => s'.1 = editor_reset_line e /\
      (((r =? BVSTK_LINE_EDITOR_SUBMIT_STOP) || (r <? 0)) = false -> shown (apply_key None KEnter d) s'.2))).
    - destruct (Z.eqb_spec r BVSTK_LINE_EDITOR_SUBMIT_PROMPT) as [Hz|Hz]; cbn [when].
      + eapply runs_mono; [apply (prompt_runs (_, x') _ Hr' eq_refl), (Hp Hz)|]. intros _ s' [He Hsh]. by rewrite He.
      + apply runs_ret. split; [done|]. intros Hns. apply orb_false_iff in Hns as [H1 H2]. bsimp. unfold shown. cbn [snd].
        rewrite (Hd Hz H1 H2). cbn. rewrite app_nil_r. f_equal. change (alen []) with 0. lia.
    - intros _ s' [He Hsh]. apply runs_ret. unfold keyed. rewrite He. split; [exact Hr'|]. split; [exact Hq'|].
      destruct (_ || _) eqn:E; [by left|by apply Hsh]. }
  apply runs_bind. destruct (lc_submit config) as [f|] eqn:Ef.
  - unfold runs at 1, world. cbn [snd]. destruct (f (line e) (line_length e) s1.2) as [r x'] eqn:E. cbn [fst snd].
    destruct (co_submit ok f Ef _ _ _ _ _ E Hs1) as [Hp Hd]. by apply Hfin.
  - apply runs_ret. by apply Hfin.
Qed.

Lemma cancel_keyed q d s :
  at_doc q d s ->
  runs (bvstk_line_editor_reset true ;; put_text config ([94; 67] ++ newline) ;; call_prompt config ;; st_ret false) s
    (keyed NoSequence KCancel d (apply_key None KCancel d)).
Proof.
  intros (Hr & Hq & Hs). apply runs_bind, runs_mod.
  pose proof (reset_rep _ _ _ _ Hr (rep_rows _ _ Hr)) as Hr'. destruct (rp_count _ _ Hr) as [Hcount _].
  assert (rep (editor_reset_line s.1) (apply_key None KCancel d)) as Hr1.
  { destruct s as [[] x]. cbn in Hcount, Hr' |- *. rewrite Hcount. exact Hr'. }
  clear Hr' Hcount. cbn [fst snd].
  apply runs_bind. eapply runs_mono; [by apply (put_text_types ([94; 67] ++ newline))|]. intros _ s1 [He1 Hs1]. cbn [fst snd] in *.
  assert (fresh s1.2) as Hf.
  { unfold fresh. unfold shown in Hs. rewrite Hs1, Hs, type_text_app. unfold d_text. rewrite app_assoc, <- alen_app, type_printable by (by repeat constructor).
    apply type_newline. }
  apply runs_bind. eapply runs_mono; [apply (prompt_runs s1 (apply_key None KCancel d)); [by rewrite He1|done|done]|].
  intros _ s2 [He2 Hs2]. apply runs_ret. unfold keyed. rewrite He2, He1. split; [exact Hr1|]. split; [|exact Hs2].
  apply reset_line_sequence. by apply sequence_params in Hq.
Qed.

(** A key in the middle of a sequence, and the sequence reset behind it. *)
Lemma reset_after (m : ST (session (X := X)) unit) q d' s :
  runs m s (fun _ s' => at_doc q d' s') -> runs (m ;; reset_escape) s (fun _ s' => at_doc NoSequence d' s').
Proof.
  intros Hm. apply runs_bind. eapply runs_mono; [exact Hm|]. intros ? s' (Hr & Hq & Hs). apply runs_mod. unfold at_doc. cbn [fst snd].
  split; [by destruct Hr|]. split; [|done]. split; [|done]. cbn. rewrite alen_aset. by apply sequence_params in Hq.
Qed.

Lemma with_escape_doc q q' d st ps n (s : session (X := X)) :
  at_doc q d s -> shown_sequence q' (with_escape st ps n s.1) -> at_doc q' d (with_escape st ps n s.1, s.2).
Proof. intros (Hr & _ & Hs) Hq. split; [by destruct Hr|]. by split. Qed.

Lemma parse_parameter_ext params ps index :
  prefix (alen ps) params = ps -> alen ps <= alen params -> parse_parameter params (alen ps) index = parse_parameter ps (alen ps) index.
Proof.
  intros Hp Hl. unfold parse_parameter.
  assert (forall n i s, (Z.of_nat n + i <= alen ps) -> 0 <= i ->
    for_loop n i (fun k s => parse_parameter_step index (params.[k]) s) s =
    for_loop n i (fun k s => parse_parameter_step index (ps.[k]) s) s) as H.
  { induction n as [|n IH]; intros i s Hn Hi; [done|]. cbn [for_loop].
    assert (params.[i] = ps.[i]) as ->.
    { rewrite <- Hp. unfold prefix, aget. rewrite lookup_total_take, decide_True by lia. done. }
    destruct (parse_parameter_step index (ps.[i]) s) as [s' [v|]]; [done|]. apply IH; lia. }
  rewrite H; [done|pose proof (alen_nonneg ps); lia|lia].
Qed.

Lemma csi_does ps b d s :
  at_doc (Control ps) d s -> runs (editor_handle_csi_final config b) s (fun _ s' => at_doc (Control ps) (apply_key None (csi_key ps b) d) s').
Proof.
  intros Hs. destruct (Hs) as (_ & (Hpl & _ & Hn & Hle & Hps) & _). unfold editor_handle_csi_final. apply runs_bind, runs_get. cbn [id].
  assert (forall i, parse_parameter (escape_parameters s.1) (alen ps) i = parse_parameter ps (alen ps) i) as Hpp
    by (intros i; apply parse_parameter_ext; [done|lia]).
  rewrite Hn. unfold csi_key. cbv zeta. rewrite !Hpp.
  set (first := parse_parameter ps (alen ps) 0). set (word := _ || _).
  repeat match goal with |- context [if b =? ?c then _ else _] => destruct (b =? c) end;
    repeat match goal with |- context [if ?c then _ else _] => lazymatch c with word => fail | _ => destruct c end end;
    try (by apply beep_does); try (by apply home_does); try (by apply end_does); try (by apply delete_does).
  - by apply history_up_does.
  - by apply history_down_does.
  - pose proof (move_right_does word (Control ps) d s Hs) as H. by destruct word.
  - pose proof (move_left_does word (Control ps) d s Hs) as H. by destruct word.
Qed.

Lemma store_parameter_shown ps b e :
  shown_sequence (Control ps) e -> shown_sequence (Control (if alen ps <? 15 then ps ++ [b] else ps)) (store_parameter b e).
Proof.
  intros (Hl & Hst & Hn & Hle & Hps). unfold store_parameter. rewrite Hn. pose proof (alen_nonneg ps).
  destruct (Z.ltb_spec (alen ps) 15) as [Hlt|Hge].
  - rewrite (proj2 (Z.ltb_lt _ _)) by lia. split; [cbn; by rewrite !alen_aset|]. split; [done|].
    cbn [escape_parameter_length escape_parameters with_escape]. rewrite alen_app. change (alen [b]) with 1. split; [done|]. split; [lia|].
    assert (exists x junk, escape_parameters e = ps ++ x :: junk) as (x & junk & Hj).
    { destruct (drop (length ps) (escape_parameters e)) as [|x junk] eqn:E.
      - apply (f_equal length) in E. rewrite length_drop in E. unfold alen in *. cbn in E. lia.
      - exists x, junk. rewrite <- E. rewrite <- Hps at 1. unfold prefix, alen. by rewrite Nat2Z.id, take_drop. }
    rewrite Hj, aset_app. replace (alen ps + 1) with (alen (ps ++ [b])) by (rewrite alen_app; done).
    change (ps ++ b :: junk) with (ps ++ [b] ++ junk). rewrite app_assoc.
    assert (forall l : chars, prefix (alen (ps ++ [b])) (((ps ++ [b]) ++ l).[alen (ps ++ [b]) <- 0]) = ps ++ [b]) as H'; [|apply H'].
    intros [|y l]; [|by rewrite aset_app, prefix_app]. unfold aset. rewrite list_insert_ge by (unfold alen; rewrite app_nil_r; lia).
    apply prefix_app.
  - rewrite (proj2 (Z.ltb_ge _ _)) by lia. done.
Qed.

Lemma escape_runs q d b s :
  at_doc q d s -> q <> NoSequence ->
  runs (editor_handle_escape_byte config b) s (fun _ s' => at_doc (decode q b).1 (apply_key None (decode q b).2 d) s').
Proof.
  intros Hs Hq. destruct (Hs) as (Hr & Hqs & Hsh). unfold editor_handle_escape_byte. apply runs_bind, runs_get.
  pose proof (sequence_params _ _ Hqs) as Hpl. destruct q as [| |ps|]; [done|..]; destruct Hqs as [_ Hqs].
  - rewrite Hqs. cbn [decode]. unfold started_key. destruct (b =? 91).
    { apply runs_mod. apply (with_escape_doc Started); [done|]. split; [done|]. split; [done|]. split; [done|]. by split. }
    destruct (b =? 79). { apply runs_mod. by apply (with_escape_doc Started). }
    destruct ((b =? 98) || (b =? 66)). { apply (reset_after _ Started). exact (move_left_does true Started d s Hs). }
    destruct ((b =? 102) || (b =? 70)). { apply (reset_after _ Started). exact (move_right_does true Started d s Hs). }
    destruct ((b =? 100) || (b =? 68)). { apply (reset_after _ Started). by apply cut_next_word_does. }
    destruct ((b =? 127) || (b =? 8)). { apply (reset_after _ Started). by apply cut_word_does. }
    apply runs_bind, runs_mod. apply beep_does. apply (with_escape_doc Started); [done|].
    split; [cbn; by rewrite alen_aset|done].
  - destruct Hqs as (Hst & Hrest). rewrite Hst. cbn [decode].
    destruct (digit b || (b =? 59) || (b =? 63)).
    + apply runs_mod. cbn [fst snd]. split; [destruct Hr; unfold store_parameter; by destruct (_ <? _)|].
      split; [|exact Hsh]. by apply store_parameter_shown.
    + apply (reset_after _ (Control ps)). by apply csi_does.
  - rewrite Hqs. cbn [decode]. apply (reset_after _ Single). unfold single_key.
    destruct (b =? 65); [by apply history_up_does|]. destruct (b =? 66); [by apply history_down_does|].
    destruct (b =? 67); [exact (move_right_does false Single d s Hs)|]. destruct (b =? 68); [exact (move_left_does false Single d s Hs)|].
    destruct (b =? 72); [by apply home_does|]. destruct (b =? 70); [by apply end_does|]. by apply beep_does.
Qed.

Lemma apply_key_offer o k d : k <> KTab -> apply_key o k d = apply_key None k d.
Proof. by destruct k. Qed.

Lemma shown_none e : shown_sequence NoSequence e -> escape_state e = ESCAPE_NONE.
Proof. by intros [_ H]. Qed.

Lemma not_none q e : shown_sequence q e -> q <> NoSequence -> escape_state e <> ESCAPE_NONE.
Proof. intros [_ H] Hq. destruct q; try done; first [rewrite H; done|destruct H as [-> _]; done]. Qed.

Lemma plain_runs d b s :
  at_doc NoSequence d s ->
  runs (bvstk_line_editor_handle_byte config true b) s
    (keyed (plain_key b).1 (plain_key b).2 d (apply_key (offer_of s) (plain_key b).2 d)).
Proof.
  intros Hs. destruct (Hs) as (Hr & Hq & Hsh). unfold bvstk_line_editor_handle_byte. cbn [negb]. apply runs_bind, runs_get. cbn [id].
  rewrite (shown_none _ Hq), bool_decide_eq_true_2 by done. cbn [negb]. unfold plain_key.
  destruct (b =? 27).
  { apply continue_keyed. apply runs_mod. apply (with_escape_doc NoSequence); [done|]. by destruct Hq. }
  cbn [fst snd]. destruct ((b =? 13) || (b =? 10)); [by apply (submit_keyed NoSequence)|].
  destruct (b =? 1); [by apply continue_keyed, home_does|].
  destruct (b =? 2); [apply continue_keyed; exact (move_left_does false NoSequence d s Hs)|].
  destruct (b =? 5); [by apply continue_keyed, end_does|].
  destruct (b =? 6); [apply continue_keyed; exact (move_right_does false NoSequence d s Hs)|].
  destruct (b =? 16); [by apply continue_keyed, history_up_does|].
  destruct (b =? 14); [by apply continue_keyed, history_down_does|].
  destruct (b =? 11); [by apply continue_keyed, cut_end_does|].
  destruct (b =? 12); [by apply continue_keyed, redraw_does|].
  destruct (b =? 21); [by apply continue_keyed, cut_start_does|].
  destruct (b =? 23); [by apply continue_keyed, cut_word_does|].
  destruct (b =? 25); [by apply continue_keyed, paste_does|].
  destruct (b =? 3); [by apply (cancel_keyed NoSequence)|].
  destruct (b =? 4).
  { destruct ((line_length s.1 =? 0) && lc_eof_on_empty config) eqn:E; [|by apply continue_keyed, delete_does].
    apply andb_true_iff in E as [E1 E2]. bsimp. rewrite (rp_length _ _ Hr) in E1. unfold d_size in E1.
    assert (d_text d = []) as Ht by (apply nil_length_inv; unfold alen in E1; lia).
    apply runs_ret. unfold keyed. split; [|split; [done|by right]]. cbn [apply_key].
    unfold d_text in Ht. apply app_nil in Ht as [_ ->]. done. }
  destruct ((b =? 8) || (b =? 127)); [by apply continue_keyed, backspace_does|].
  destruct (b =? 9); [by apply continue_keyed, complete_runs|].
  destruct (isprint b) eqn:E; [by apply continue_keyed, insert_does|]. by apply runs_ret.
Qed.

Lemma byte_keyed q d b s :
  at_doc q d s ->
  runs (bvstk_line_editor_handle_byte config true b) s
    (keyed (decode q b).1 (decode q b).2 d (apply_key (offer_of s) (decode q b).2 d)).
Proof.
  intros Hs. destruct (decide (q = NoSequence)) as [->|Hq]; [by apply plain_runs|].
  unfold bvstk_line_editor_handle_byte. cbn [negb]. apply runs_bind, runs_get. cbn [id]. destruct (Hs) as (_ & Hqs & _).
  rewrite bool_decide_eq_false_2 by exact (not_none q _ Hqs Hq). cbn [negb]. apply continue_keyed.
  rewrite apply_key_offer; [by apply escape_runs|].
  destruct q as [| |ps|]; [done|cbn [decode]..].
  - unfold started_key. by repeat case_match.
  - destruct (_ || _); [done|]. cbn [snd]. unfold csi_key. by repeat case_match.
  - unfold single_key. by repeat case_match.
Qed.
End console.

(** ** Sessions *)

Definition empty_doc : doc := Doc [] [] [] None [].

(** The document after bytes, when no completion hook is installed. *)
Fixpoint typed (q : sequence) (d : doc) (bytes : chars) : sequence * doc :=
  match bytes with
  | [] => (q, d)
  | b :: bytes => typed (decode q b).1 (apply_key None (decode q b).2 d) bytes
  end.

Lemma init_rep {X} (config : option (bvstk_line_editor_config_t (X := X))) :
  rep (bvstk_line_editor_init config).2 empty_doc /\ shown_sequence NoSequence (bvstk_line_editor_init config).2.
Proof.
  split; [|done]. constructor; try done.
  - split; [done|]. by exists (fill 511 0).
  - split; [done|]. apply (bool_decide_unpack _). vm_compute. exact I.
Qed.

Lemma feed_shown {X} (config : bvstk_line_editor_config_t (X := X)) screen P q d bytes s :
  console_ok config screen P -> at_doc screen P q d s ->
  runs (feed config bytes) s (fun stop s' => stop = false -> exists q' d', at_doc screen P q' d' s' /\
    (lc_complete config = None -> (q', d') = typed q d bytes)).
Proof.
  intros Hok. revert q d s. induction bytes as [|b bytes IH]; intros q d s Hs; cbn [feed typed].
  { apply runs_ret. intros _. by exists q, d. }
  apply runs_bind. eapply runs_mono; [by apply byte_keyed|]. intros stop s1 (Hr & Hq & Hsh).
  destruct stop; [by apply runs_ret|]. eapply runs_mono; [apply IH; split; [exact Hr|]; split; [exact Hq|exact Hsh]|].
  cbn beta. intros stop s2 H2 Hstop. destruct (H2 Hstop) as (q' & d' & Hd & Hn). exists q', d'. split; [done|].
  intros Hc. rewrite (Hn Hc). unfold offer_of. by rewrite Hc.
Qed.

(** ** Any console

    What is written, whether it is written, what the prompt is and what a command
    answers does not reach the editor: its state after a byte is that of an ideal
    console with the same completion. *)

Section erasure.
Context {X Y : Type} (config : bvstk_line_editor_config_t (X := X)) (config' : bvstk_line_editor_config_t (X := Y)).

(** The same result and the same editor, whatever the worlds. *)
Definition same {A} (m : ST (session (X := X)) A) (m' : ST (session (X := Y)) A) : Prop :=
  forall e x y, (m (e, x)).1 = (m' (e, y)).1 /\ (m (e, x)).2.1 = (m' (e, y)).2.1.

Lemma same_ret {A} (a : A) : same (st_ret a) (st_ret a).
Proof. done. Qed.
Lemma same_bind {A B} (m : ST (session (X := X)) A) (m' : ST (session (X := Y)) A) (k : A -> ST (session (X := X)) B) k' :
  same m m' -> (forall a, same (k a) (k' a)) -> same (st_bind m k) (st_bind m' k').
Proof.
  intros Hm Hk e x y. destruct (Hm e x y) as [H1 H2]. unfold st_bind. destruct (m (e, x)) as [a [e1 x1]], (m' (e, y)) as [a' [e2 y1]].
  cbn in H1, H2. subst a' e2. apply Hk.
Qed.
Lemma same_edit f : same (edit f) (edit f).
Proof. done. Qed.
Lemma same_look {A} (f : bvstk_line_editor_t -> A) : same (look f) (look f).
Proof. done. Qed.
Lemma same_if {A} (b : bool) (m n : ST (session (X := X)) A) m' n' : same m m' -> same n n' -> same (if b then m else n) (if b then m' else n').
Proof. by destruct b. Qed.

Lemma same_put data : same (put config data) (put config' data).
Proof.
  intros e x y. unfold put, bvstk_line_editor_write, editor_write_all, st_bind, world. cbn.
  destruct (lc_write config) as [f|], (lc_write config') as [g|]; cbn; try destruct (f data x); try destruct (g data y); done.
Qed.
Lemma same_put_text text : same (put_text config text) (put_text config' text).
Proof. apply same_put. Qed.
Lemma same_prompt : same (call_prompt config) (call_prompt config').
Proof. intros e x y. unfold call_prompt. destruct (lc_prompt config), (lc_prompt config'); done. Qed.
Lemma same_repeat n text : same (repeat_text config n text) (repeat_text config' n text).
Proof. induction n as [|n IH]; [done|]. cbn [repeat_text]. apply same_bind; [apply same_put_text|done]. Qed.
Lemma same_list l : same (list_candidates config l) (list_candidates config' l).
Proof.
  induction l as [|c l IH]; [done|]. cbn [list_candidates]. apply same_bind; [apply same_put_text|]. intros _.
  by apply same_bind; [apply same_put_text|].
Qed.

Ltac same_step :=
  first [ apply same_ret | apply same_edit | apply same_look | apply same_put | apply same_put_text | apply same_prompt
        | apply same_repeat | apply same_list | apply same_bind; [|intros ?] | apply same_if ].
Ltac erase := repeat same_step.

Lemma same_beep : same (beep config) (beep config').
Proof. unfold beep, bvstk_line_editor_beep. exact (same_put_text [7]). Qed.
Lemma same_redraw : same (redraw config) (redraw config').
Proof. unfold redraw, bvstk_line_editor_redraw, when. cbn [negb]. erase. Qed.
Ltac operation := cbv zeta; repeat first [ apply same_beep | apply same_redraw | same_step ].

Lemma same_move_left w : same (editor_move_left config w) (editor_move_left config' w).
Proof. unfold editor_move_left. operation. Qed.
Lemma same_move_right w : same (editor_move_right config w) (editor_move_right config' w).
Proof. unfold editor_move_right. operation. Qed.
Lemma same_home : same (editor_home config) (editor_home config').
Proof. unfold editor_home. operation. Qed.
Lemma same_end : same (editor_end config) (editor_end config').
Proof. unfold editor_end. operation. Qed.
Lemma same_up : same (editor_history_up config) (editor_history_up config').
Proof. unfold editor_history_up. operation. Qed.
Lemma same_down : same (editor_history_down config) (editor_history_down config').
Proof. unfold editor_history_down. operation. Qed.
Lemma same_insert b : same (editor_insert config b) (editor_insert config' b).
Proof. unfold editor_insert, when. operation. Qed.
Lemma same_backspace : same (editor_backspace config) (editor_backspace config').
Proof. unfold editor_backspace. operation. Qed.
Lemma same_delete : same (editor_delete config) (editor_delete config').
Proof. unfold editor_delete. operation. Qed.
Lemma same_cut a b : same (editor_cut_range config a b) (editor_cut_range config' a b).
Proof. unfold editor_cut_range. operation. Qed.
Lemma same_cut_word : same (editor_delete_previous_word config) (editor_delete_previous_word config').
Proof. unfold editor_delete_previous_word. operation. Qed.
Lemma same_cut_next : same (editor_delete_next_word config) (editor_delete_next_word config').
Proof. unfold editor_delete_next_word. operation. Qed.
Lemma same_paste : same (editor_paste_cut_buffer config) (editor_paste_cut_buffer config').
Proof. unfold editor_paste_cut_buffer. operation. Qed.
Lemma same_replace st n w k b : same (bvstk_line_editor_replace config true st n w k b) (bvstk_line_editor_replace config' true st n w k b).
Proof. unfold bvstk_line_editor_replace. cbn [negb orb]. apply same_bind; [operation|]. intros e. destruct w; operation. Qed.
Lemma same_offer c : same (offer_completion config c) (offer_completion config' c).
Proof. unfold offer_completion, when. operation. Qed.

Ltac key := repeat first [ apply same_beep | apply same_redraw | apply same_move_left | apply same_move_right | apply same_home | apply same_end
  | apply same_up | apply same_down | apply same_insert | apply same_backspace | apply same_delete | apply same_cut | apply same_cut_word
  | apply same_cut_next | apply same_paste | same_step ].

Lemma same_csi b : same (editor_handle_csi_final config b) (editor_handle_csi_final config' b).
Proof. unfold editor_handle_csi_final. cbv zeta. key. Qed.
Lemma same_escape_byte b : same (editor_handle_escape_byte config b) (editor_handle_escape_byte config' b).
Proof. unfold editor_handle_escape_byte, reset_escape. apply same_bind; [key|]. intros st. destruct st; repeat first [ apply same_csi | key ]. Qed.

Hypothesis eof : lc_eof_on_empty config' = lc_eof_on_empty config.

(** Enter and Tab apart, which ask the world. *)
Lemma same_byte b e x y : ~ (escape_state e = ESCAPE_NONE /\ (b = 13 \/ b = 10 \/ b = 9)) ->
  (bvstk_line_editor_handle_byte config true b (e, x)).1 = (bvstk_line_editor_handle_byte config' true b (e, y)).1 /\
  (bvstk_line_editor_handle_byte config true b (e, x)).2.1 = (bvstk_line_editor_handle_byte config' true b (e, y)).2.1.
Proof.
  intros Hb. unfold bvstk_line_editor_handle_byte. cbn [negb].
  match goal with |- (st_bind _ ?k (e, x)).1 = (st_bind _ ?k' (e, y)).1 /\ _ =>
    change ((k e (e, x)).1 = (k' e (e, y)).1 /\ (k e (e, x)).2.1 = (k' e (e, y)).2.1); cut (same (k e) (k' e)); [intros H; apply H|] end.
  cbv beta.
  case_bool_decide as Hst; cbn [negb]; [|apply same_bind; [apply same_escape_byte|intros; apply same_ret]].
  assert ((b =? 13) || (b =? 10) = false /\ (b =? 9) = false) as [-> ->].
  { rewrite orb_false_iff, !Z.eqb_neq. naive_solver. }
  rewrite eof. key.
Qed.
End erasure.

(** A console whose world is its terminal, with the completion [offer]. *)
Definition ideal (offer : option bvstk_line_editor_completion_t) (eof : bool) : bvstk_line_editor_config_t (X := terminal) :=
  Config (Some (fun data t => (0, type_text t data))) (Some id) None
    (match offer with Some c => Some (fun _ _ _ t => (1, c, t)) | None => None end) None eof.

Definition offer_sane (offer : option bvstk_line_editor_completion_t) : Prop :=
  forall c, offer = Some c -> 0 <= token_start c /\ 0 <= match_count c /\ forall i, 0 <= i < match_count c -> Forall printable (cstr ((candidates c).[i])).

Lemma ideal_ok offer eof : offer_sane offer -> console_ok (ideal offer eof) id [].
Proof.
  intros Hc. constructor; try done.
  - by eexists.
  - by eexists.
  - destruct offer as [c|]; [|done]. intros f [= <-] buf n cur x r c' x' [= <- <- <-]. destruct (Hc c eq_refl) as (? & ? & ?). done.
Qed.

Lemma ideal_at q d e : rep e d -> shown_sequence q e -> at_doc id [] q d (e, Terminal (d_text d) (alen (d_before d)) Plain).
Proof. intros Hr Hq. by split_and!. Qed.

(** What a byte leaves; the optional hook for the tab key has the editor to itself. *)
Definition after_byte {X} (config : bvstk_line_editor_config_t (X := X)) (q : sequence) (d : doc) (b : Z) (s : session (X := X))
    (e : bvstk_line_editor_t) : Prop :=
  match (decode q b).2, lc_tab config with
  | KTab, Some tab => e = (tab s.1 s.2).1.2
  | k, _ => rep e (apply_key (offer_of config s) k d) /\ shown_sequence (decode q b).1 e
  end.

Lemma after_byte_other {X} (config : bvstk_line_editor_config_t (X := X)) q d b s e : (decode q b).2 <> KTab \/ lc_tab config = None ->
  rep e (apply_key (offer_of config s) (decode q b).2 d) -> shown_sequence (decode q b).1 e -> after_byte config q d b s e.
Proof. unfold after_byte. intros Hk Hr Hq. destruct (decode q b).2, (lc_tab config); try done; by destruct Hk. Qed.

Lemma submit_any {X} (config : bvstk_line_editor_config_t (X := X)) s :
  runs (editor_submit config) s (fun _ s' => s'.1 = editor_reset_line (editor_add_history s.1)).
Proof.
  destruct s as [e x]. unfold runs, editor_submit, put_text, bvstk_line_editor_write_text, editor_write_all, st_bind, world, edit, look, st_mod, st_get, when, call_prompt.
  cbn. destruct (lc_write config) as [w|]; cbn; [destruct (w _ x) as [r1 x1]; cbn|];
    (destruct (lc_submit config) as [f|]; cbn;
      [match goal with |- context [f ?a ?n ?x] => destruct (f a n x) as [r2 x2]; cbn; destruct (r2 =? BVSTK_LINE_EDITOR_SUBMIT_PROMPT) end|]; destruct (lc_prompt config); done).
Qed.

Lemma tab_key q b : (decode q b).2 = KTab -> q = NoSequence /\ b = 9.
Proof.
  destruct q as [| |ps|]; cbn [decode].
  - unfold plain_key. destruct (b =? 27); [done|]. cbn [snd]. destruct (Z.eqb_spec b 9) as [->|]; [done|].
    intros Hk. exfalso. revert Hk. by repeat case_match.
  - unfold started_key. by repeat case_match.
  - destruct (_ || _); [done|]. cbn [snd]. unfold csi_key. by repeat case_match.
  - unfold single_key. by repeat case_match.
Qed.

Lemma complete_any {X} (config : bvstk_line_editor_config_t (X := X)) e x t eof : lc_tab config = None ->
  (editor_complete config (e, x)).2.1 = (editor_complete (ideal (offer_of config (e, x)) eof) (e, t)).2.1.
Proof.
  intros Ht. unfold editor_complete, offer_of. rewrite Ht. cbn [lc_tab ideal fst snd]. destruct (lc_complete config) as [f|]; [|apply same_beep].
  destruct (f (line e) (line_length e) (cursor e) x) as [[r c] x'] eqn:E. unfold st_bind, look, st_get, world. cbn [fst snd id]. rewrite E.
  destruct (r =? 0); cbn [lc_complete ideal]; [apply same_beep|]. apply same_offer.
Qed.

Lemma byte_any {X} (config : bvstk_line_editor_config_t (X := X)) q d b s :
  rep s.1 d -> shown_sequence q s.1 -> ((decode q b).2 = KTab -> lc_tab config = None -> offer_sane (offer_of config s)) ->
  runs (bvstk_line_editor_handle_byte config true b) s (fun stop s' => after_byte config q d b s s'.1 /\
    (stop = true -> stopped_by config (decode q b).2 d)).
Proof.
  intros Hr Hq Hsane. destruct s as [e x]. cbn [fst] in *. pose proof (ideal_at q d e Hr Hq) as Hat. set (t := Terminal _ _ _) in Hat.
  destruct (decide (q = NoSequence /\ (b = 13 \/ b = 10))) as [[-> Hb]|Hne].
  { assert (decode NoSequence b = (NoSequence, KEnter)) as Ek by (destruct Hb as [-> | ->]; reflexivity).
    unfold bvstk_line_editor_handle_byte. cbn [negb]. apply runs_bind, runs_get. cbn [id fst]. rewrite (shown_none _ Hq), bool_decide_eq_true_2 by done.
    cbn [negb]. assert ((b =? 27) = false) as -> by (destruct Hb as [-> | ->]; done). assert ((b =? 13) || (b =? 10) = true) as -> by (destruct Hb as [-> | ->]; done).
    eapply runs_mono; [apply submit_any|]. intros stop s' Es. destruct (submit_rep _ _ Hr) as (Hr' & _). split; [|rewrite Ek; by left].
    apply after_byte_other; rewrite ?Ek; [by left|by rewrite Es|]. rewrite Es. apply reset_line_sequence. cbn [fst].
    apply sequence_params in Hq. unfold editor_add_history. destruct (_ || _); [done|]. by destruct (_ =? _). }
  assert ((decode q b).2 = KTab \/ (decode q b).2 <> KTab) as [Ek|Hk] by (destruct (decode q b).2; auto; by right).
  - apply tab_key in Ek as Hqb. destruct Hqb as [-> ->].
    assert (runs (bvstk_line_editor_handle_byte config true 9) (e, x) (fun stop s' => stop = false /\ s'.1 = (editor_complete config (e, x)).2.1)) as Hrun.
    { unfold bvstk_line_editor_handle_byte. cbn [negb]. apply runs_bind, runs_get. cbn [id fst]. rewrite (shown_none _ Hq), bool_decide_eq_true_2 by done.
      cbn [negb]. change (9 =? 27) with false. cbn. apply runs_bind. unfold runs. cbn. done. }
    eapply runs_mono; [exact Hrun|]. intros stop s' [-> Es]. split; [|done]. rewrite Es. unfold after_byte. rewrite Ek.
    destruct (lc_tab config) as [tab|] eqn:Et.
    { unfold editor_complete. rewrite Et. cbn [fst snd]. by destruct (tab e x) as [[r e'] x']. }
    rewrite (complete_any config e x t (lc_eof_on_empty config) Et).
    pose proof (complete_runs (ideal (offer_of config (e, x)) (lc_eof_on_empty config)) id [] (ideal_ok _ _ (Hsane eq_refl eq_refl)) NoSequence d (e, t) Hat) as Hrun'.
    unfold runs in Hrun'. destruct Hrun' as (Hr' & Hq' & _). split; [|exact Hq'].
    assert (offer_of (ideal (offer_of config (e, x)) (lc_eof_on_empty config)) (e, t) = offer_of config (e, x)) as Eo
      by (by destruct (offer_of config (e, x))).
    by rewrite Eo in Hr'.
  - pose proof (byte_keyed (ideal None (lc_eof_on_empty config)) id [] (ideal_ok None _ ltac:(done)) q d b (e, t) Hat) as Hrun.
    destruct (same_byte config (ideal None (lc_eof_on_empty config)) eq_refl b e x t) as [E1 E2].
    { intros [Hst Hb]. assert (q = NoSequence) as ->. { destruct (decide (q = NoSequence)) as [|Hq']; [done|]. by destruct (not_none q e Hq Hq'). }
      destruct Hb as [Hb|[Hb|Hb]]; subst b; [apply Hne; auto|apply Hne; auto|by apply Hk]. }
    unfold runs in Hrun |- *. rewrite E1, E2. destruct Hrun as (Hr' & Hq' & Hstop). split.
    + apply after_byte_other; [by left| |done]. rewrite apply_key_offer by done. by rewrite apply_key_offer in Hr' by done.
    + intros Es. rewrite Es in Hstop. exact Hstop.
Qed.

(** C34: What a byte does to the editor, on any console: its key - motion, edit,
    cut, paste, history, completion, submission - is applied to the characters
    before and after the cursor, the remembered lines and the cut text, all within
    their buffers, and the escape sequence in progress is the decoder's.  Nothing is
    assumed of what the console writes, prompts or answers to a command; for the tab
    key the candidates are printable, and a console with its own hook for that key
    has the editor the hook leaves.  Only Enter, and end-of-file on an empty line
    where the console wants it, stop a session. *)
Theorem line_editor_keys {X} (config : bvstk_line_editor_config_t (X := X)) q d b s :
  rep s.1 d -> shown_sequence q s.1 -> ((decode q b).2 = KTab -> lc_tab config = None -> offer_sane (offer_of config s)) ->
  runs (bvstk_line_editor_handle_byte config true b) s (fun stop s' => after_byte config q d b s s'.1 /\
    (stop = true -> stopped_by config (decode q b).2 d)).
Proof. apply byte_any. Qed.

(** From a fresh prompt, whatever bytes arrive, the user sees the line as it
    is: the row holds the prompt and the text of the editor, which fits its
    buffers, and the cursor stands where the next character goes; without a
    completion hook that text is the one the keys describe. *)
Theorem line_editor_display {X} (config : bvstk_line_editor_config_t (X := X)) screen P bytes x :
  console_ok config screen P -> screen x = Terminal P (alen P) Plain ->
  runs (feed config bytes) ((bvstk_line_editor_init (Some config)).2, x) (fun stop s' => stop = false ->
    exists q d, rep s'.1 d /\ shown_sequence q s'.1 /\
      screen s'.2 = Terminal (P ++ prefix (line_length s'.1) (line s'.1)) (alen P + cursor s'.1) Plain /\
      (lc_complete config = None -> (q, d) = typed NoSequence empty_doc bytes)).
Proof.
  intros Hok Hx. destruct (init_rep (Some config)) as [Hr Hq].
  eapply runs_mono; [apply (feed_shown _ screen P NoSequence empty_doc); [done|]|].
  - split; [exact Hr|]. split; [exact Hq|]. unfold shown. cbn [snd]. rewrite Hx. cbn. rewrite app_nil_r. f_equal.
    change (alen []) with 0. lia.
  - cbn beta. intros stop s' H Hstop. destruct (H Hstop) as (q & d & (Hr' & Hq' & Hs') & Hn). exists q, d.
    split; [done|]. split; [done|]. split; [|done]. unfold shown in Hs'. rewrite Hs', (rp_cursor _ _ Hr'), (rp_length _ _ Hr').
    destruct (line_split _ _ Hr') as [junk ->]. unfold d_size, d_text. rewrite (app_assoc (d_before d)), prefix_app. done.
Qed.

(** ** A concrete console: the world is the terminal *)

Definition demo_prompt : chars := lit "> ".

Definition demo_config : bvstk_line_editor_config_t (X := terminal) :=
  Config (Some (fun data t => (0, type_text t data))) (Some (fun t => type_text t demo_prompt))
    (Some (fun _ _ t => (0, type_text t (lit "done" ++ newline))))
    (Some (fun _ _ cur t => (1, Completion 0 cur 1 [lit "status" ++ [0]], t))) None true.

Lemma demo_console : console_ok demo_config id demo_prompt.
Proof.
  constructor; try done.
  - apply (bool_decide_unpack _). vm_compute. exact I.
  - eexists. done.
  - eexists. done.
  - intros f [= <-] buf n x r x' [= <- <-] Hx. unfold fresh in Hx. cbn in Hx. subst x. done.
  - intros f [= <-] buf n cur x r c x' [= <- <- <-]. split; [done|]. split; [done|]. split; [done|].
    cbn [match_count candidates]. intros i Hi. assert (i = 0) as -> by lia. apply (bool_decide_unpack _). vm_compute. exact I.
Qed.

Definition demo_session : session (X := terminal) :=
  ((bvstk_line_editor_init (Some demo_config)).2, Terminal demo_prompt 2 Plain).

(** A console that writes nowhere and has no prompt: the keys work all the same. *)
Lemma line_editor_keys_witness :
  rep (bvstk_line_editor_handle_byte (zero_config (X := Z)) true 97 ((bvstk_line_editor_init (X := Z) None).2, 0)).2.1 (Doc (lit "a") [] [] None []).
Proof.
  destruct (init_rep (X := Z) None) as [Hr Hq].
  destruct (line_editor_keys (zero_config (X := Z)) NoSequence empty_doc 97 (_, 0) Hr Hq ltac:(done)) as [Ha _]. exact (proj1 Ha).
Defined.

(** "a", "c", cursor left, "b", then the tab key: the completed line, and the row
    a user sees before the tab. *)
Lemma line_editor_display_witness :
  (feed demo_config ([97; 99; 27; 91; 68; 98]) demo_session).2.2 = Terminal (lit "> abc") 4 Plain /\
  exists d, rep (feed demo_config ([97; 99; 27; 91; 68; 98; 9]) demo_session).2.1 d.
Proof.
  split; [vm_compute; reflexivity|].
  pose proof (line_editor_display demo_config id demo_prompt ([97; 99; 27; 91; 68; 98; 9]) (Terminal demo_prompt 2 Plain)
    demo_console eq_refl) as H.
  destruct H as (q & d & Hr & _); [vm_compute; reflexivity|]. exists d. exact Hr.
Defined.
