(* ===== verification/I2cPolicy.v ===== *)
(** * I2cPolicy: the I2C register write policy

    [services/i2c/bvstk_i2c_policy]: per device, a mode and two bounded rule
    arrays.  The abstract policy of a device is a mode and two finite sets of
    (register, value) pairs; every operation is shown to be the set operation
    it stands for, the in-place compaction of [remove_rule] included. *)
From stdpp Require Import prelude gmap sets.
From Stdlib Require Import ZArith Lia.
From S2P Require Import Prelude Platform I2cDevices.
Local Open Scope Z_scope.

Record bvstk_i2c_policy_entry_t := PolicyEntry {
  pe_mode : Z;
  pe_whitelist : list i2c_rule_entry_t;
  pe_whitelist_len : Z;
  pe_blacklist : list i2c_rule_entry_t;
  pe_blacklist_len : Z
}.
Definition zero_policy_entry : bvstk_i2c_policy_entry_t :=
  PolicyEntry 0 zero_rules 0 zero_rules 0.
#[export] Instance policy_entry_inhabited : Inhabited bvstk_i2c_policy_entry_t :=
  populate zero_policy_entry.

Record bvstk_i2c_policy_t := Policy {
  pol_items : list bvstk_i2c_policy_entry_t;
  pol_device_count : Z;
  pol_initialized : Z
}.
Definition zero_policy : bvstk_i2c_policy_t :=
  Policy (fill I2C_CFG_MAX_DEVICES zero_policy_entry) 0 0.

(** Stores into one field of an entry, and into one entry of the table. *)
Definition with_mode (m : Z) (e : bvstk_i2c_policy_entry_t) : bvstk_i2c_policy_entry_t :=
  PolicyEntry m (pe_whitelist e) (pe_whitelist_len e) (pe_blacklist e) (pe_blacklist_len e).
Definition with_whitelist (rl : list i2c_rule_entry_t * Z) (e : bvstk_i2c_policy_entry_t)
    : bvstk_i2c_policy_entry_t :=
  PolicyEntry (pe_mode e) (fst rl) (snd rl) (pe_blacklist e) (pe_blacklist_len e).
Definition with_blacklist (rl : list i2c_rule_entry_t * Z) (e : bvstk_i2c_policy_entry_t)
    : bvstk_i2c_policy_entry_t :=
  PolicyEntry (pe_mode e) (pe_whitelist e) (pe_whitelist_len e) (fst rl) (snd rl).
Definition set_entry (p : bvstk_i2c_policy_t) (device_id : Z) (e : bvstk_i2c_policy_entry_t)
    : bvstk_i2c_policy_t :=
  Policy ((pol_items p).[device_id <- e]) (pol_device_count p) (pol_initialized p).

Definition policy_status (policy : option bvstk_i2c_policy_t) (device_id : Z)
    : bvstk_status_t :=
  match policy with
  | None => BVSTK_ERR_NOT_READY
  | Some p =>
      if pol_initialized p =? 0 then BVSTK_ERR_NOT_READY
      else if device_id <? pol_device_count p then BVSTK_OK else BVSTK_ERR_NOT_FOUND
  end.

Definition rule_is (reg value : Z) (r : i2c_rule_entry_t) : bool :=
  (rule_reg r =? reg) && (rule_val r =? value).

Definition rule_contains (rules : list i2c_rule_entry_t) (length reg value : Z) : bool :=
  match for_find (Z.to_nat length) 0 (fun i => rule_is reg value (rules.[i])) with
  | Some _ => true
  | None => false
  end.

Definition mode_valid (mode : Z) : bool :=
  (mode =? I2C_POLICY_WHITELIST) || (mode =? I2C_POLICY_BLACKLIST).

Definition rule_valid (device : option bvstk_i2c_device_t) (reg value : Z) : bool :=
  match device with
  | None => false
  | Some d => (reg <? dev_reg_count d) && (value <=? dev_max_value_code d)
  end.

Definition add_rule (rules : list i2c_rule_entry_t) (length reg value : Z)
    : bvstk_status_t * (list i2c_rule_entry_t * Z) :=
  if rule_contains rules length reg value then (BVSTK_OK, (rules, length))
  else if I2C_CFG_RULES_MAX <=? length then (BVSTK_ERR_RANGE, (rules, length))
  else (BVSTK_OK, (rules.[length <- Rule reg value], length + 1)).

(** The compaction loop: (rules, write_index). *)
Definition remove_step (reg value i : Z) (s : list i2c_rule_entry_t * Z)
    : list i2c_rule_entry_t * Z :=
  if rule_is reg value ((fst s).[i]) then s
  else ((fst s).[snd s <- (fst s).[i]], snd s + 1).

Definition remove_rule (rules : list i2c_rule_entry_t) (length reg value : Z)
    : list i2c_rule_entry_t * Z :=
  for_each (Z.to_nat length) 0 (remove_step reg value) (rules, 0).

Definition copy_rules (src : list i2c_rule_entry_t) (len : Z) (dst : list i2c_rule_entry_t)
    : list i2c_rule_entry_t * Z :=
  (copy_prefix len src dst, len).

(** The stores of [policy_init] and [policy_set_config] for one device. *)
Definition load_config (c : i2c_device_config_t) (e : bvstk_i2c_policy_entry_t)
    : bvstk_i2c_policy_entry_t :=
  with_blacklist (copy_rules (cfg_blacklist c) (cfg_blacklist_len c) (pe_blacklist e))
    (with_whitelist (copy_rules (cfg_whitelist c) (cfg_whitelist_len c) (pe_whitelist e))
      (with_mode (cfg_policy c) e)).

Definition config_lists_valid (c : i2c_device_config_t) : bool :=
  mode_valid (cfg_policy c) &&
  negb ((I2C_CFG_RULES_MAX <? cfg_whitelist_len c) ||
        (I2C_CFG_RULES_MAX <? cfg_blacklist_len c)).

Definition policy_init_item (configs : list i2c_device_config_t) (i : Z)
    (p : bvstk_i2c_policy_t) : bvstk_i2c_policy_t * option bvstk_status_t :=
  let c := configs.[i] in
  if (cfg_reg_count c =? 0) || (I2C_CFG_MAX_REG_COUNT <? cfg_reg_count c) ||
     negb (config_lists_valid c)
  then (p, Some BVSTK_ERR_MALFORMED)
  else (set_entry p i (load_config c ((pol_items p).[i])), None).

Definition bvstk_i2c_policy_init (policy : option bvstk_i2c_policy_t)
    (configs : option (list i2c_device_config_t)) (device_count : Z)
    : bvstk_status_t * option bvstk_i2c_policy_t :=
  match policy with
  | None => (BVSTK_ERR_MALFORMED, None)
  | Some _ =>
      if (I2C_CFG_MAX_DEVICES <? device_count) ||
         (negb (device_count =? 0) && match configs with None => true | _ => false end)
      then (BVSTK_ERR_MALFORMED, policy)
      else
        match for_loop (Z.to_nat device_count) 0 (policy_init_item (default [] configs))
                zero_policy with
        | (p, Some status) => (status, Some p)
        | (p, None) => (BVSTK_OK, Some (Policy (pol_items p) device_count 1))
        end
  end.

Definition bvstk_i2c_policy_shutdown (policy : option bvstk_i2c_policy_t)
    : option bvstk_i2c_policy_t :=
  match policy with
  | Some _ => Some zero_policy
  | None => None
  end.

Definition bvstk_i2c_policy_get (policy : option bvstk_i2c_policy_t) (device_id : Z)
    (out : bool) : bvstk_status_t * option bvstk_i2c_policy_entry_t :=
  match policy_status policy device_id, policy with
  | BVSTK_OK, Some p =>
      if negb out then (BVSTK_ERR_MALFORMED, None)
      else (BVSTK_OK, Some ((pol_items p).[device_id]))
  | status, _ => (status, None)
  end.

(** The common prologue: [policy_status] first, then [body] on the entry. *)
Definition on_entry (policy : option bvstk_i2c_policy_t) (device_id : Z)
    (body : bvstk_i2c_policy_entry_t -> bvstk_status_t * bvstk_i2c_policy_entry_t)
    : bvstk_status_t * option bvstk_i2c_policy_t :=
  match policy_status policy device_id, policy with
  | BVSTK_OK, Some p =>
      let '(status, e) := body ((pol_items p).[device_id]) in
      (status, Some (set_entry p device_id e))
  | status, _ => (status, policy)
  end.

Definition bvstk_i2c_policy_set_config (policy : option bvstk_i2c_policy_t) (device_id : Z)
    (config : option i2c_device_config_t) : bvstk_status_t * option bvstk_i2c_policy_t :=
  on_entry policy device_id (fun e =>
    match config with
    | None => (BVSTK_ERR_MALFORMED, e)
    | Some c =>
        if negb (config_lists_valid c) then (BVSTK_ERR_MALFORMED, e)
        else (BVSTK_OK, load_config c e)
    end).

Definition bvstk_i2c_policy_set_mode (policy : option bvstk_i2c_policy_t)
    (device_id mode : Z) : bvstk_status_t * option bvstk_i2c_policy_t :=
  on_entry policy device_id (fun e =>
    if negb (mode_valid mode) then (BVSTK_ERR_MALFORMED, e)
    else (BVSTK_OK, with_mode mode e)).

Definition bvstk_i2c_policy_add_allow (policy : option bvstk_i2c_policy_t)
    (device_id reg value : Z) (device : option bvstk_i2c_device_t)
    : bvstk_status_t * option bvstk_i2c_policy_t :=
  on_entry policy device_id (fun e =>
    if negb (rule_valid device reg value) then (BVSTK_ERR_RANGE, e)
    else let '(status, rl) := add_rule (pe_whitelist e) (pe_whitelist_len e) reg value in
         (status, with_whitelist rl e)).

Definition bvstk_i2c_policy_add_deny (policy : option bvstk_i2c_policy_t)
    (device_id reg value : Z) (device : option bvstk_i2c_device_t)
    : bvstk_status_t * option bvstk_i2c_policy_t :=
  on_entry policy device_id (fun e =>
    if negb (rule_valid device reg value) then (BVSTK_ERR_RANGE, e)
    else let '(status, rl) := add_rule (pe_blacklist e) (pe_blacklist_len e) reg value in
         (status, with_blacklist rl e)).

Definition bvstk_i2c_policy_remove (policy : option bvstk_i2c_policy_t)
    (device_id reg value : Z) : bvstk_status_t * option bvstk_i2c_policy_t :=
  on_entry policy device_id (fun e =>
    let e := with_whitelist (remove_rule (pe_whitelist e) (pe_whitelist_len e) reg value) e in
    let e := with_blacklist (remove_rule (pe_blacklist e) (pe_blacklist_len e) reg value) e in
    (BVSTK_OK, e)).

Definition bvstk_i2c_policy_remove_list (policy : option bvstk_i2c_policy_t)
    (device_id lst reg value : Z) : bvstk_status_t * option bvstk_i2c_policy_t :=
  on_entry policy device_id (fun e =>
    if negb (mode_valid lst) then (BVSTK_ERR_MALFORMED, e)
    else
      let white := lst =? I2C_POLICY_WHITELIST in
      let rules := if white then pe_whitelist e else pe_blacklist e in
      let length := if white then pe_whitelist_len e else pe_blacklist_len e in
      if negb (rule_contains rules length reg value) then (BVSTK_ERR_NOT_FOUND, e)
      else
        let rl := remove_rule rules length reg value in
        (BVSTK_OK, if white then with_whitelist rl e else with_blacklist rl e)).

Definition bvstk_i2c_policy_clear (policy : option bvstk_i2c_policy_t)
    (device_id lst : Z) : bvstk_status_t * option bvstk_i2c_policy_t :=
  on_entry policy device_id (fun e =>
    if lst =? I2C_POLICY_WHITELIST then (BVSTK_OK, with_whitelist (pe_whitelist e, 0) e)
    else if lst =? I2C_POLICY_BLACKLIST then (BVSTK_OK, with_blacklist (pe_blacklist e, 0) e)
    else (BVSTK_ERR_MALFORMED, e)).

Definition bvstk_i2c_policy_permits (policy : option bvstk_i2c_policy_t) (device_id : Z)
    (device : option bvstk_i2c_device_t) (reg value : Z) : bool :=
  match policy_status policy device_id, policy with
  | BVSTK_OK, Some p =>
      if negb (rule_valid device reg value) then false
      else
        let entry := (pol_items p).[device_id] in
        if pe_mode entry =? I2C_POLICY_WHITELIST
        then rule_contains (pe_whitelist entry) (pe_whitelist_len entry) reg value
        else negb (rule_contains (pe_blacklist entry) (pe_blacklist_len entry) reg value)
  | _, _ => false
  end.

(** ** The rule arrays as lists *)

Lemma rule_is_spec reg value r : rule_is reg value r = true <-> r = Rule reg value.
Proof.
  unfold rule_is. destruct r as [a b]. cbn. rewrite andb_true_iff, !Z.eqb_eq.
  split; [intros [-> ->]; done | by intros [= -> ->]].
Qed.

Lemma rule_contains_spec rules len reg value :
  0 <= len <= alen rules ->
  rule_contains rules len reg value = true <-> Rule reg value ∈ prefix len rules.
Proof.
  intros Hlen. unfold rule_contains. rewrite elem_of_prefix by done.
  destruct (for_find _ _ _) as [i|] eqn:E.
  - apply for_find_Some in E as (Hi & Hp & _). rewrite rule_is_spec in Hp.
    split; [|done]. intros _. exists i. split; [lia|done].
  - split; [done|]. intros (i & Hi & Hr). rewrite for_find_None in E.
    rewrite <- rule_is_spec, E in Hr; [done|lia].
Qed.

Definition not_rule (reg value : Z) (r : i2c_rule_entry_t) : Prop := r <> Rule reg value.
#[export] Instance not_rule_dec reg value r : Decision (not_rule reg value r).
Proof. unfold not_rule. apply _. Defined.

(** The compaction is a filter: order kept, every copy of the rule gone. *)
Definition compacted (rules : list i2c_rule_entry_t) (reg value i : Z)
    (s : list i2c_rule_entry_t * Z) : Prop :=
  alen (fst s) = alen rules /\ 0 <= snd s <= i /\
  prefix (snd s) (fst s) = filter (not_rule reg value) (prefix i rules) /\
  forall k, i <= k < alen rules -> (fst s).[k] = rules.[k].

Lemma remove_step_compacted rules reg value i s :
  0 <= i < alen rules -> compacted rules reg value i s ->
  compacted rules reg value (i + 1) (remove_step reg value i s).
Proof.
  intros Hi (Hl & Hw & Hp & Hk). destruct s as [r w]. unfold remove_step. cbn [fst snd] in *.
  rewrite (Hk i) by lia. unfold compacted.
  rewrite prefix_snoc_get by done. rewrite filter_app, filter_cons, filter_nil, <- Hp.
  destruct (rule_is reg value (rules.[i])) eqn:Hr.
  - apply rule_is_spec in Hr. rewrite decide_False by (unfold not_rule; congruence).
    rewrite app_nil_r. cbn [fst snd]. repeat split; try done; [lia..|].
    intros k Hk'. apply Hk. lia.
  - assert (rules.[i] <> Rule reg value) by (rewrite <- rule_is_spec; congruence).
    rewrite decide_True by done. cbn [fst snd]. rewrite alen_aset, prefix_snoc by lia.
    repeat split; try done; [lia..|].
    intros k Hk'. rewrite aget_aset_ne by lia. apply Hk. lia.
Qed.

Lemma remove_rule_spec rules len reg value :
  0 <= len <= alen rules -> compacted rules reg value len (remove_rule rules len reg value).
Proof.
  intros Hlen. unfold remove_rule.
  pose proof (for_each_ind (compacted rules reg value) (Z.to_nat len) 0
    (remove_step reg value) (rules, 0)) as H.
  rewrite Z2Nat.id, Z.add_0_l in H by lia. apply H.
  - intros i s Hi. apply remove_step_compacted. lia.
  - repeat split; done.
Qed.

Lemma add_rule_spec rules len reg value :
  alen rules = I2C_CFG_RULES_MAX -> 0 <= len <= I2C_CFG_RULES_MAX ->
  let '(status, (rules', len')) := add_rule rules len reg value in
  alen rules' = I2C_CFG_RULES_MAX /\ 0 <= len' <= I2C_CFG_RULES_MAX /\
  ((status = BVSTK_OK /\ Rule reg value ∈ prefix len rules /\
    prefix len' rules' = prefix len rules) \/
   (status = BVSTK_OK /\ (Rule reg value ∉ prefix len rules) /\ len < I2C_CFG_RULES_MAX /\
    prefix len' rules' = prefix len rules ++ [Rule reg value]) \/
   (status = BVSTK_ERR_RANGE /\ (Rule reg value ∉ prefix len rules) /\
    len = I2C_CFG_RULES_MAX /\ rules' = rules /\ len' = len)).
Proof.
  intros Hl Hlen. unfold add_rule.
  pose proof (rule_contains_spec rules len reg value ltac:(lia)) as Hc.
  destruct (rule_contains rules len reg value).
  - split; [done|]. split; [done|]. left. split; [done|]. split; [by apply Hc|done].
  - assert (Rule reg value ∉ prefix len rules) by (rewrite <- Hc; done).
    destruct (I2C_CFG_RULES_MAX <=? len) eqn:Hfull; bsimp.
    + split; [done|]. split; [done|]. right. right. repeat split; try done. lia.
    + rewrite alen_aset, prefix_snoc by lia.
      split; [done|]. split; [lia|]. right. left. done.
Qed.

(** ** The abstract policy of a device *)

Record apolicy := APolicy { a_mode : Z; a_allow : gset (Z * Z); a_deny : gset (Z * Z) }.

Definition rule_set (rules : list i2c_rule_entry_t) (len : Z) : gset (Z * Z) :=
  list_to_set ((fun r => (rule_reg r, rule_val r)) <$> prefix len rules).

Definition abs_entry (e : bvstk_i2c_policy_entry_t) : apolicy :=
  APolicy (pe_mode e) (rule_set (pe_whitelist e) (pe_whitelist_len e))
    (rule_set (pe_blacklist e) (pe_blacklist_len e)).

Definition abs_config (c : i2c_device_config_t) : apolicy :=
  APolicy (cfg_policy c) (rule_set (cfg_whitelist c) (cfg_whitelist_len c))
    (rule_set (cfg_blacklist c) (cfg_blacklist_len c)).

Lemma elem_of_rule_set rules len r v :
  (r, v) ∈ rule_set rules len <-> Rule r v ∈ prefix len rules.
Proof.
  unfold rule_set. rewrite elem_of_list_to_set, list_elem_of_fmap. split.
  - intros ([a b] & Heq & Hin). cbn in Heq. by simplify_eq.
  - intros Hin. by exists (Rule r v).
Qed.

Lemma rule_set_contains rules len reg value :
  0 <= len <= alen rules ->
  rule_contains rules len reg value = bool_decide ((reg, value) ∈ rule_set rules len).
Proof.
  intros Hlen. apply eq_true_iff_eq.
  rewrite rule_contains_spec, bool_decide_eq_true by done. by rewrite elem_of_rule_set.
Qed.

Lemma rule_set_add rules len rules' len' reg value :
  prefix len' rules' = prefix len rules ++ [Rule reg value] ->
  rule_set rules' len' = {[ (reg, value) ]} ∪ rule_set rules len.
Proof.
  intros Hp. unfold rule_set. rewrite Hp, fmap_app, list_to_set_app_L. cbn. set_solver.
Qed.

Lemma rule_set_remove rules len reg value s :
  compacted rules reg value len s ->
  rule_set (fst s) (snd s) = rule_set rules len ∖ {[ (reg, value) ]}.
Proof.
  intros (_ & _ & Hp & _). apply set_eq. intros [a b].
  rewrite elem_of_difference, !elem_of_rule_set, Hp, list_elem_of_filter, elem_of_singleton.
  unfold not_rule. split; intros [H1 H2]; (split; [|done || congruence]); congruence.
Qed.

Lemma rule_set_copy src len dst :
  0 <= len <= alen src -> rule_set (copy_prefix len src dst) len = rule_set src len.
Proof. intros. unfold rule_set. by rewrite prefix_copy_prefix. Qed.

(** ** The invariant *)

Definition rules_wf (rules : list i2c_rule_entry_t) (len : Z) : Prop :=
  alen rules = I2C_CFG_RULES_MAX /\ 0 <= len <= I2C_CFG_RULES_MAX.

Definition entry_wf (e : bvstk_i2c_policy_entry_t) : Prop :=
  mode_valid (pe_mode e) = true /\
  rules_wf (pe_whitelist e) (pe_whitelist_len e) /\
  rules_wf (pe_blacklist e) (pe_blacklist_len e).

Definition policy_wf (p : bvstk_i2c_policy_t) : Prop :=
  alen (pol_items p) = I2C_CFG_MAX_DEVICES /\
  0 <= pol_device_count p <= I2C_CFG_MAX_DEVICES /\
  forall i, 0 <= i < I2C_CFG_MAX_DEVICES -> entry_wf ((pol_items p).[i]).

(** A configuration record as the C type guarantees it: arrays of their
    declared size, lengths that are not negative. *)
Definition config_typed (c : i2c_device_config_t) : Prop :=
  alen (cfg_whitelist c) = I2C_CFG_RULES_MAX /\ 0 <= cfg_whitelist_len c /\
  alen (cfg_blacklist c) = I2C_CFG_RULES_MAX /\ 0 <= cfg_blacklist_len c.

Lemma zero_entry_wf : entry_wf zero_policy_entry.
Proof. repeat split; done. Qed.

Lemma zero_policy_wf : policy_wf zero_policy.
Proof.
  split; [done|]. split; [done|]. intros i Hi. cbn [pol_items zero_policy].
  rewrite aget_fill by done. apply zero_entry_wf.
Qed.

Lemma set_entry_wf p id e :
  policy_wf p -> 0 <= id < I2C_CFG_MAX_DEVICES -> entry_wf e -> policy_wf (set_entry p id e).
Proof.
  intros (Hl & Hc & Hi) Hid He. split; [cbn; by rewrite alen_aset|]. split; [done|].
  intros i Hi'. cbn [pol_items set_entry]. destruct (decide (i = id)) as [->|].
  - by rewrite aget_aset_eq by lia.
  - rewrite aget_aset_ne by lia. by apply Hi.
Qed.

Lemma load_config_wf c e :
  config_typed c -> config_lists_valid c = true -> entry_wf e ->
  entry_wf (load_config c e) /\ abs_entry (load_config c e) = abs_config c.
Proof.
  intros (Hw & Hwl & Hb & Hbl) Hv (Hm & [Hew _] & [Heb _]).
  unfold config_lists_valid in Hv. bsimp. unfold load_config, copy_rules. cbn.
  split.
  - split; [done|]. split; (split; cbn; [rewrite alen_copy_prefix; lia|lia]).
  - unfold abs_entry, abs_config. cbn. by rewrite !rule_set_copy by lia.
Qed.

(** Adding to a set held in a bounded array, [full] when no cell is left. *)
Definition spec_add (full : bool) (rv : Z * Z) (s : gset (Z * Z))
    : bvstk_status_t * gset (Z * Z) :=
  if bool_decide (rv ∈ s) then (BVSTK_OK, s)
  else if full then (BVSTK_ERR_RANGE, s)
  else (BVSTK_OK, {[ rv ]} ∪ s).

Lemma add_rule_wf rules len reg value :
  rules_wf rules len ->
  let '(status, rl) := add_rule rules len reg value in
  rules_wf (fst rl) (snd rl) /\
  (status, rule_set (fst rl) (snd rl)) =
    spec_add (I2C_CFG_RULES_MAX <=? len) (reg, value) (rule_set rules len).
Proof.
  intros [Hl Hlen]. pose proof (add_rule_spec rules len reg value Hl Hlen) as H.
  destruct (add_rule rules len reg value) as [status [rules' len']]. cbn [fst snd].
  destruct H as (Hl' & Hlen' & H). split; [done|]. unfold spec_add.
  destruct H as [(-> & Hin & Hp)|[(-> & Hin & Hlt & Hp)|(-> & Hin & Hfull & -> & ->)]];
    rewrite <- elem_of_rule_set in Hin.
  - rewrite bool_decide_true by done. f_equal. unfold rule_set. by rewrite Hp.
  - rewrite bool_decide_false by done. rewrite (proj2 (Z.leb_gt _ _)) by done.
    f_equal. by apply rule_set_add.
  - rewrite bool_decide_false by done. by rewrite (proj2 (Z.leb_le _ _)) by lia.
Qed.

Lemma remove_rule_wf rules len reg value :
  rules_wf rules len ->
  let rl := remove_rule rules len reg value in
  rules_wf (fst rl) (snd rl) /\
  rule_set (fst rl) (snd rl) = rule_set rules len ∖ {[ (reg, value) ]}.
Proof.
  intros [Hl Hlen]. pose proof (remove_rule_spec rules len reg value ltac:(lia)) as H.
  cbn zeta. split; [|by apply rule_set_remove].
  destruct H as (Hl' & Hw & _). split; [lia|lia].
Qed.

Lemma rules_wf_0 rules len : rules_wf rules len -> rules_wf rules 0.
Proof. by intros [? _]. Qed.

(** ** The operations against the abstract policy *)

Inductive policy_op :=
  | OpSetMode (mode : Z)
  | OpAllow (reg value : Z) (device : option bvstk_i2c_device_t)
  | OpDeny (reg value : Z) (device : option bvstk_i2c_device_t)
  | OpRemove (reg value : Z)
  | OpRemoveList (lst reg value : Z)
  | OpClear (lst : Z)
  | OpSetConfig (config : option i2c_device_config_t).

Definition policy_op_wf (op : policy_op) : Prop :=
  match op with
  | OpSetConfig (Some c) => config_typed c
  | _ => True
  end.

Definition run_policy_op (policy : option bvstk_i2c_policy_t) (device_id : Z) (op : policy_op)
    : bvstk_status_t * option bvstk_i2c_policy_t :=
  match op with
  | OpSetMode m => bvstk_i2c_policy_set_mode policy device_id m
  | OpAllow r v d => bvstk_i2c_policy_add_allow policy device_id r v d
  | OpDeny r v d => bvstk_i2c_policy_add_deny policy device_id r v d
  | OpRemove r v => bvstk_i2c_policy_remove policy device_id r v
  | OpRemoveList l r v => bvstk_i2c_policy_remove_list policy device_id l r v
  | OpClear l => bvstk_i2c_policy_clear policy device_id l
  | OpSetConfig c => bvstk_i2c_policy_set_config policy device_id c
  end.

(** [allow_full] and [deny_full]: the rule array has no free cell left. *)
Definition spec_policy_op (allow_full deny_full : bool) (a : apolicy) (op : policy_op)
    : bvstk_status_t * apolicy :=
  let add full r v d s :=
    if rule_valid d r v then spec_add full (r, v) s else (BVSTK_ERR_RANGE, s) in
  match op with
  | OpSetMode m =>
      if mode_valid m then (BVSTK_OK, APolicy m (a_allow a) (a_deny a))
      else (BVSTK_ERR_MALFORMED, a)
  | OpAllow r v d =>
      let '(st, s) := add allow_full r v d (a_allow a) in (st, APolicy (a_mode a) s (a_deny a))
  | OpDeny r v d =>
      let '(st, s) := add deny_full r v d (a_deny a) in (st, APolicy (a_mode a) (a_allow a) s)
  | OpRemove r v =>
      (BVSTK_OK, APolicy (a_mode a) (a_allow a ∖ {[ (r, v) ]}) (a_deny a ∖ {[ (r, v) ]}))
  | OpRemoveList l r v =>
      if l =? I2C_POLICY_WHITELIST then
        if bool_decide ((r, v) ∈ a_allow a)
        then (BVSTK_OK, APolicy (a_mode a) (a_allow a ∖ {[ (r, v) ]}) (a_deny a))
        else (BVSTK_ERR_NOT_FOUND, a)
      else if l =? I2C_POLICY_BLACKLIST then
        if bool_decide ((r, v) ∈ a_deny a)
        then (BVSTK_OK, APolicy (a_mode a) (a_allow a) (a_deny a ∖ {[ (r, v) ]}))
        else (BVSTK_ERR_NOT_FOUND, a)
      else (BVSTK_ERR_MALFORMED, a)
  | OpClear l =>
      if l =? I2C_POLICY_WHITELIST then (BVSTK_OK, APolicy (a_mode a) ∅ (a_deny a))
      else if l =? I2C_POLICY_BLACKLIST then (BVSTK_OK, APolicy (a_mode a) (a_allow a) ∅)
      else (BVSTK_ERR_MALFORMED, a)
  | OpSetConfig None => (BVSTK_ERR_MALFORMED, a)
  | OpSetConfig (Some c) =>
      if config_lists_valid c then (BVSTK_OK, abs_config c) else (BVSTK_ERR_MALFORMED, a)
  end.

(** What the shared prologue gives: the body runs on the device's own entry. *)
Lemma on_entry_run p id body :
  policy_status (Some p) id = BVSTK_OK ->
  on_entry (Some p) id body =
    let '(status, e) := body ((pol_items p).[id]) in (status, Some (set_entry p id e)).
Proof. intros H. unfold on_entry. by rewrite H. Qed.

Lemma policy_status_ok p id :
  policy_status (Some p) id = BVSTK_OK <->
  pol_initialized p <> 0 /\ id < pol_device_count p.
Proof.
  unfold policy_status. split.
  - intros H. repeat case_match; try done. bsimp. done.
  - intros [H1 H2]. by rewrite (proj2 (Z.eqb_neq _ _)), (proj2 (Z.ltb_lt _ _)).
Qed.

(** A body refines an abstract update when it keeps the entry well formed and
    does to its abstraction what the update says. *)
Definition refines (body : bvstk_status_t * bvstk_i2c_policy_entry_t)
    (spec : bvstk_status_t * apolicy) : Prop :=
  entry_wf (snd body) /\ (fst body, abs_entry (snd body)) = spec.

(** The body each operation runs on its entry. *)
Lemma run_policy_op_body p id op :
  policy_status (Some p) id = BVSTK_OK ->
  exists body, (forall e, entry_wf e -> policy_op_wf op ->
      refines (body e)
        (spec_policy_op (I2C_CFG_RULES_MAX <=? pe_whitelist_len e)
           (I2C_CFG_RULES_MAX <=? pe_blacklist_len e) (abs_entry e) op)) /\
    run_policy_op (Some p) id op =
      let '(status, e) := body ((pol_items p).[id]) in (status, Some (set_entry p id e)).
Proof.
  intros Hst. destruct op as [m|r v d|r v d|r v|l r v|l|c]; cbn [run_policy_op];
    (eexists; split; [|by apply on_entry_run]); intros e (Hm & Hw & Hb) Hop;
    cbn [spec_policy_op]; unfold refines, entry_wf.
  - destruct (mode_valid m) eqn:Hv; cbn [negb fst snd]; (split; [|done]); cbn; auto.
  - destruct (rule_valid d r v); cbn [negb fst snd]; [|by split; [auto|]].
    pose proof (add_rule_wf _ _ r v Hw) as H. destruct (add_rule _ _ _ _) as [st rl].
    destruct H as (H1 & H2). split; [cbn; auto|]. cbn [abs_entry a_allow a_deny].
    by rewrite <- H2.
  - destruct (rule_valid d r v); cbn [negb fst snd]; [|by split; [auto|]].
    pose proof (add_rule_wf _ _ r v Hb) as H. destruct (add_rule _ _ _ _) as [st rl].
    destruct H as (H1 & H2). split; [cbn; auto|]. cbn [abs_entry a_allow a_deny].
    by rewrite <- H2.
  - destruct (remove_rule_wf _ _ r v Hw) as [Hw1 Hw2].
    destruct (remove_rule_wf _ _ r v Hb) as [Hb1 Hb2].
    split; [cbn; auto|]. unfold abs_entry. cbn. by rewrite Hw2, Hb2.
  - destruct (remove_rule_wf _ _ r v Hw) as [Hw1 Hw2].
    destruct (remove_rule_wf _ _ r v Hb) as [Hb1 Hb2].
    change (mode_valid l) with ((l =? I2C_POLICY_WHITELIST) || (l =? I2C_POLICY_BLACKLIST)).
    pose proof Hw as [Hwl Hwn]. pose proof Hb as [Hbl Hbn].
    destruct (l =? I2C_POLICY_WHITELIST) eqn:E1; cbn [orb negb].
    + rewrite rule_set_contains by lia. cbn [a_allow abs_entry].
      case_bool_decide; cbn [negb fst snd]; (split; [cbn; auto|]);
        unfold abs_entry; cbn; by rewrite ?Hw2.
    + destruct (l =? I2C_POLICY_BLACKLIST) eqn:E2; cbn [negb fst snd]; [|by split; [auto|]].
      rewrite rule_set_contains by lia. cbn [a_deny abs_entry].
      case_bool_decide; cbn [negb fst snd]; (split; [cbn; auto|]);
        unfold abs_entry; cbn; by rewrite ?Hb2.
  - destruct (l =? I2C_POLICY_WHITELIST); [|destruct (l =? I2C_POLICY_BLACKLIST)];
      cbn [fst snd]; (split; [|done]); cbn; eauto using rules_wf_0.
  - destruct c as [c|]; [|by split; [auto|]].
    destruct (config_lists_valid c) eqn:Hv; cbn [negb fst snd]; [|by split; [auto|]].
    destruct (load_config_wf c e Hop Hv) as [H1 H2]; [done|].
    split; [done|]. by rewrite H2.
Qed.

Lemma policy_op_run p id op :
  policy_wf p -> 0 <= id -> policy_op_wf op -> policy_status (Some p) id = BVSTK_OK ->
  let e := (pol_items p).[id] in
  exists status p',
    run_policy_op (Some p) id op = (status, Some p') /\ policy_wf p' /\
    pol_device_count p' = pol_device_count p /\ pol_initialized p' = pol_initialized p /\
    (status, abs_entry ((pol_items p').[id])) =
      spec_policy_op (I2C_CFG_RULES_MAX <=? pe_whitelist_len e)
        (I2C_CFG_RULES_MAX <=? pe_blacklist_len e) (abs_entry e) op /\
    forall j, 0 <= j -> j <> id -> (pol_items p').[j] = (pol_items p).[j].
Proof.
  intros Hwf Hid Hop Hst e.
  destruct (run_policy_op_body p id op Hst) as (body & Hbody & Hrun).
  apply policy_status_ok in Hst as [_ Hlt]. pose proof Hwf as (Hl & Hc & Hi).
  destruct (Hbody e (Hi id ltac:(lia)) Hop) as [Hwf' Habs]. fold e in Hrun.
  destruct (body e) as [status e']. cbn [fst snd] in *.
  exists status, (set_entry p id e'). split; [done|].
  split; [by apply set_entry_wf; [..|lia|]|]. split; [done|]. split; [done|]. split.
  - cbn [pol_items set_entry]. by rewrite aget_aset_eq by lia.
  - intros j Hj Hne. cbn [pol_items set_entry]. by rewrite aget_aset_ne by lia.
Qed.

(** Whatever the status, an operation touches one entry and keeps the table. *)
Lemma policy_op_any p id op :
  policy_wf p -> 0 <= id -> policy_op_wf op ->
  exists status p',
    run_policy_op (Some p) id op = (status, Some p') /\ policy_wf p' /\
    pol_device_count p' = pol_device_count p /\ pol_initialized p' = pol_initialized p.
Proof.
  intros Hwf Hid Hop. destruct (decide (policy_status (Some p) id = BVSTK_OK)) as [Hst|Hst].
  - destruct (policy_op_run p id op Hwf Hid Hop Hst) as (s & p' & H1 & H2 & H3 & H4 & _).
    by exists s, p'.
  - exists (policy_status (Some p) id), p.
    split; [|done].
    destruct op; cbn [run_policy_op]; unfold bvstk_i2c_policy_set_mode,
      bvstk_i2c_policy_add_allow, bvstk_i2c_policy_add_deny, bvstk_i2c_policy_remove,
      bvstk_i2c_policy_remove_list, bvstk_i2c_policy_clear, bvstk_i2c_policy_set_config,
      on_entry; by destruct (policy_status (Some p) id).
Qed.

Lemma permits_spec p id device reg value :
  policy_wf p -> 0 <= id -> policy_status (Some p) id = BVSTK_OK ->
  bvstk_i2c_policy_permits (Some p) id device reg value =
    rule_valid device reg value &&
    (let a := abs_entry ((pol_items p).[id]) in
     if a_mode a =? I2C_POLICY_WHITELIST then bool_decide ((reg, value) ∈ a_allow a)
     else negb (bool_decide ((reg, value) ∈ a_deny a))).
Proof.
  intros (Hl & Hc & Hi) Hid Hst. unfold bvstk_i2c_policy_permits. rewrite Hst.
  apply policy_status_ok in Hst as [_ Hlt].
  destruct (Hi id ltac:(lia)) as (Hm & [Hwl Hwn] & [Hbl Hbn]).
  destruct (rule_valid device reg value); [|done]. cbn [negb andb]. cbn zeta.
  cbn [abs_entry a_mode a_allow a_deny]. by rewrite !rule_set_contains by lia.
Qed.

(** Initialization: what the loop has built before iteration [i]. *)
Definition policy_progress (configs : list i2c_device_config_t) (i : Z)
    (p : bvstk_i2c_policy_t) : Prop :=
  policy_wf p /\ pol_device_count p = 0 /\ pol_initialized p = 0 /\
  forall k, 0 <= k < i -> abs_entry ((pol_items p).[k]) = abs_config (configs.[k]).

Definition policy_failed (p : bvstk_i2c_policy_t) (status : bvstk_status_t) : Prop :=
  status = BVSTK_ERR_MALFORMED /\ policy_wf p /\ pol_initialized p = 0.

Lemma policy_init_step configs n i p :
  0 <= i < n -> n <= I2C_CFG_MAX_DEVICES -> config_typed (configs.[i]) ->
  policy_progress configs i p ->
  match policy_init_item configs i p with
  | (p', None) => policy_progress configs (i + 1) p'
  | (p', Some status) => policy_failed p' status
  end.
Proof.
  intros Hi Hn Hty (Hwf & Hc & H0 & Hk). unfold policy_init_item.
  destruct (_ || _ || _) eqn:Hv; [done|]. bsimp.
  pose proof Hwf as (Hl & Hcn & Hent).
  destruct (load_config_wf (configs.[i]) ((pol_items p).[i])) as [He Ha];
    [done|done|apply Hent; lia|].
  split; [apply set_entry_wf; [done|lia|done]|]. split; [done|]. split; [done|].
  intros k Hk'. cbn [pol_items set_entry]. destruct (decide (k = i)) as [->|].
  - by rewrite aget_aset_eq by lia.
  - rewrite aget_aset_ne by lia. apply Hk. lia.
Qed.

Lemma policy_progress_0 configs : policy_progress configs 0 zero_policy.
Proof. split; [apply zero_policy_wf|]. split; [done|]. split; [done|]. lia. Qed.

Lemma policy_init_spec p configs count :
  0 <= count <= I2C_CFG_MAX_DEVICES ->
  (forall i, 0 <= i < count -> config_typed (configs.[i])) ->
  match bvstk_i2c_policy_init (Some p) (Some configs) count with
  | (BVSTK_OK, Some p') =>
      policy_wf p' /\ pol_device_count p' = count /\ pol_initialized p' = 1 /\
      forall i, 0 <= i < count -> abs_entry ((pol_items p').[i]) = abs_config (configs.[i])
  | (BVSTK_ERR_MALFORMED, Some p') => policy_wf p' /\ pol_initialized p' = 0
  | _ => False
  end.
Proof.
  intros Hc Hty. unfold bvstk_i2c_policy_init.
  rewrite (proj2 (Z.ltb_ge _ _)) by lia. rewrite andb_false_r. cbn [orb default].
  pose proof (for_loop_ind (policy_progress configs) policy_failed (Z.to_nat count) 0
    (policy_init_item configs) zero_policy) as H.
  rewrite Z2Nat.id, Z.add_0_l in H by lia.
  destruct (for_loop _ _ _ _) as [p' [status|]].
  - destruct H as (-> & Hwf & H0); [|apply policy_progress_0|done].
    intros i s Hi. by apply (policy_init_step configs count); [lia|lia|apply Hty].
  - destruct H as ((Hl & _ & Hi) & _ & _ & Hk);
      [|apply policy_progress_0|].
    + intros i s Hi. by apply (policy_init_step configs count); [lia|lia|apply Hty].
    + cbn. split; [|done]. split; [done|]. cbn. split; [lia|done].
Qed.

(** ** Properties *)

(** C16: refinement.  Every policy operation on a configured device does to the
    device's abstract policy (mode, allow set, deny set) exactly the set
    operation it stands for, with the status that operation has, leaves the
    other devices alone and keeps the table well formed.  An addition fails for
    lack of room only when the rule is new and the 256-cell array is full. *)
Theorem policy_ops_refine p device_id op :
  policy_wf p -> 0 <= device_id -> policy_op_wf op ->
  policy_status (Some p) device_id = BVSTK_OK ->
  let e := (pol_items p).[device_id] in
  exists status p',
    run_policy_op (Some p) device_id op = (status, Some p') /\ policy_wf p' /\
    (status, abs_entry ((pol_items p').[device_id])) =
      spec_policy_op (I2C_CFG_RULES_MAX <=? pe_whitelist_len e)
        (I2C_CFG_RULES_MAX <=? pe_blacklist_len e) (abs_entry e) op /\
    forall j, 0 <= j -> j <> device_id -> (pol_items p').[j] = (pol_items p).[j].
Proof.
  intros Hwf Hid Hop Hst. cbn zeta.
  destruct (policy_op_run p device_id op Hwf Hid Hop Hst)
    as (status & p' & H1 & H2 & _ & _ & H3 & H4). by exists status, p'.
Qed.

Definition demo_rules : list i2c_rule_entry_t :=
  copy_prefix 3 ([Rule 1 2; Rule 3 4; Rule 1 2] ++ fill 253 inhabitant) zero_rules.
Definition demo_policy : bvstk_i2c_policy_t :=
  Policy ((fill I2C_CFG_MAX_DEVICES zero_policy_entry).[0 <-
    PolicyEntry 0 demo_rules 3 zero_rules 0]) 1 1.

Lemma demo_policy_wf : policy_wf demo_policy.
Proof.
  split; [done|]. split; [done|]. intros i Hi. unfold demo_policy. cbn [pol_items].
  destruct (decide (i = 0)) as [->|]; [repeat split; done|].
  rewrite aget_aset_ne, aget_fill by lia. apply zero_entry_wf.
Qed.

Lemma policy_ops_refine_witness :
  exists status p',
    run_policy_op (Some demo_policy) 0 (OpRemove 1 2) = (status, Some p') /\ policy_wf p'.
Proof.
  destruct (policy_ops_refine demo_policy 0 (OpRemove 1 2) demo_policy_wf)
    as (status & p' & H1 & H2 & _).
  - lia.
  - done.
  - reflexivity.
  - by exists status, p'.
Defined.

(** Functional.  The write check permits a (register, value) pair exactly
    when the policy is initialized and knows the device, the pair is within the
    device's limits, and the pair is in the allow set (whitelist mode) or is not
    in the deny set (blacklist mode). *)
Theorem policy_permits_iff p device_id device reg value :
  policy_wf p -> 0 <= device_id ->
  let a := abs_entry ((pol_items p).[device_id]) in
  bvstk_i2c_policy_permits (Some p) device_id (Some device) reg value = true <->
  policy_status (Some p) device_id = BVSTK_OK /\
  reg < dev_reg_count device /\ value <= dev_max_value_code device /\
  ((a_mode a = I2C_POLICY_WHITELIST /\ (reg, value) ∈ a_allow a) \/
   (a_mode a = I2C_POLICY_BLACKLIST /\ (reg, value) ∉ a_deny a)).
Proof.
  intros Hwf Hid. cbn zeta.
  destruct (decide (policy_status (Some p) device_id = BVSTK_OK)) as [Hst|Hst].
  2:{ split; [|by intros (? & _)]. unfold bvstk_i2c_policy_permits.
      by destruct (policy_status (Some p) device_id). }
  rewrite (permits_spec p device_id) by done. cbn zeta.
  apply policy_status_ok in Hst as Hlt. destruct Hlt as [_ Hlt].
  destruct Hwf as (_ & Hc & Hi). destruct (Hi device_id ltac:(lia)) as [Hm _].
  cbn [abs_entry a_mode a_allow a_deny rule_valid]. unfold mode_valid in Hm.
  rewrite !andb_true_iff, Z.ltb_lt, Z.leb_le. apply orb_true_iff in Hm.
  rewrite !Z.eqb_eq in Hm. destruct (_ =? I2C_POLICY_WHITELIST) eqn:E; bsimp.
  - rewrite bool_decide_eq_true. rewrite E.
    change (I2C_POLICY_WHITELIST = I2C_POLICY_BLACKLIST) with (0 = 1).
    intuition lia.
  - rewrite negb_true_iff, bool_decide_eq_false. intuition.
Qed.

Lemma policy_permits_iff_witness :
  bvstk_i2c_policy_permits (Some demo_policy) 0 (Some mux_device) 3 4 = true.
Proof.
  apply (policy_permits_iff demo_policy 0 mux_device 3 4 demo_policy_wf).
  - lia.
  - split; [reflexivity|]. split; [reflexivity|]. split; [done|]. left.
    split; [reflexivity|]. apply (bool_decide_unpack _). vm_compute. exact I.
Defined.
