(* ===== verification/I2cCache.v ===== *)
(** * I2cCache: the register cache of the I2C services

    [services/i2c/bvstk_i2c_cache]: per device and register a value, a valid
    bit, a seeded bit (the value comes from configuration, not from the bus)
    and a time stamp.  Every change is reported to the cache sink between its
    enter and leave calls. *)
From stdpp Require Import prelude.
From Stdlib Require Import ZArith Lia.
From S2P Require Import Prelude Platform I2cDevices.
Local Open Scope Z_scope.

Record bvstk_i2c_cache_entry_t := CacheEntry {
  ce_value : Z;
  ce_valid : Z;
  ce_seeded : Z;
  ce_updated_ms : Z
}.
Definition zero_cache_entry : bvstk_i2c_cache_entry_t := CacheEntry 0 0 0 0.

(** A [uint8_t table[32][256]] (or [uint64_t]). *)
Definition reg_table : Type := list (list Z).
Definition zero_table : reg_table := fill I2C_CFG_MAX_DEVICES (fill I2C_CFG_MAX_REG_COUNT 0).
Definition tget (t : reg_table) (d r : Z) : Z := t.[d].[r].
Definition tset (t : reg_table) (d r v : Z) : reg_table := t.[d <- t.[d].[r <- v]].

Section cache.
Context {X : Type} `{PL : Platform X}.

Record bvstk_i2c_cache_t := Cache {
  ca_sink : bvstk_cache_sink_t X;
  ca_values : reg_table;
  ca_valid : reg_table;
  ca_seeded : reg_table;
  ca_updated_ms : reg_table;
  ca_device_count : Z;
  ca_initialized : Z
}.

Definition zero_cache : bvstk_i2c_cache_t :=
  Cache no_sink zero_table zero_table zero_table zero_table 0 0.

Definition cache_status (cache : option bvstk_i2c_cache_t) (device_id reg : Z)
    : bvstk_status_t :=
  match cache with
  | None => BVSTK_ERR_NOT_READY
  | Some c =>
      if ca_initialized c =? 0 then BVSTK_ERR_NOT_READY
      else if ca_device_count c <=? device_id then BVSTK_ERR_RANGE
      else BVSTK_OK
  end.

Definition bvstk_i2c_cache_init (cache : option bvstk_i2c_cache_t) (device_count : Z)
    : bvstk_status_t * option bvstk_i2c_cache_t :=
  match cache with
  | None => (BVSTK_ERR_MALFORMED, None)
  | Some _ =>
      if I2C_CFG_MAX_DEVICES <? device_count then (BVSTK_ERR_MALFORMED, cache)
      else (BVSTK_OK,
            Some (Cache no_sink zero_table zero_table zero_table zero_table device_count 1))
  end.

Definition bvstk_i2c_cache_shutdown (cache : option bvstk_i2c_cache_t)
    : option bvstk_i2c_cache_t :=
  match cache with
  | Some _ => Some zero_cache
  | None => None
  end.

Definition bvstk_i2c_cache_read (cache : option bvstk_i2c_cache_t) (device_id reg : Z)
    (value : bool) : bvstk_status_t * option Z :=
  match cache_status cache device_id reg, cache with
  | BVSTK_OK, Some c =>
      if negb value then (BVSTK_ERR_MALFORMED, None)
      else (BVSTK_OK, Some (tget (ca_values c) device_id reg))
  | status, _ => (status, None)
  end.

(** The four stores of [write] and [seed]. *)
Definition store_cell (c : bvstk_i2c_cache_t) (device_id reg value valid seeded time : Z)
    : bvstk_i2c_cache_t :=
  Cache (ca_sink c) (tset (ca_values c) device_id reg value)
    (tset (ca_valid c) device_id reg valid) (tset (ca_seeded c) device_id reg seeded)
    (tset (ca_updated_ms c) device_id reg time) (ca_device_count c) (ca_initialized c).

Definition bvstk_i2c_cache_write (cache : option bvstk_i2c_cache_t)
    (device_id reg value : Z) (x : X) : bvstk_status_t * option bvstk_i2c_cache_t * X :=
  match cache_status cache device_id reg, cache with
  | BVSTK_OK, Some c =>
      let x := bvstk_cache_sink_enter (ca_sink c) x in
      let '(now, x) := bvstk_platform_now_ms x in
      let c := store_cell c device_id reg value 1 0 now in
      let x := bvstk_cache_sink_entry (ca_sink c) device_id reg value 1 0 now x in
      (BVSTK_OK, Some c, bvstk_cache_sink_leave (ca_sink c) x)
  | status, _ => (status, cache, x)
  end.

Definition bvstk_i2c_cache_seed (cache : option bvstk_i2c_cache_t)
    (device_id reg value : Z) (x : X) : bvstk_status_t * option bvstk_i2c_cache_t * X :=
  match cache_status cache device_id reg, cache with
  | BVSTK_OK, Some c =>
      let x := bvstk_cache_sink_enter (ca_sink c) x in
      let '(now, x) := bvstk_platform_now_ms x in
      let c := store_cell c device_id reg value 1 1 now in
      let x := bvstk_cache_sink_entry (ca_sink c) device_id reg value 1 1 now x in
      (BVSTK_OK, Some c, bvstk_cache_sink_leave (ca_sink c) x)
  | status, _ => (status, cache, x)
  end.

(** The value cell itself is kept. *)
Definition bvstk_i2c_cache_invalidate (cache : option bvstk_i2c_cache_t)
    (device_id reg : Z) (x : X) : bvstk_status_t * option bvstk_i2c_cache_t * X :=
  match cache_status cache device_id reg, cache with
  | BVSTK_OK, Some c =>
      let x := bvstk_cache_sink_enter (ca_sink c) x in
      let c := Cache (ca_sink c) (ca_values c) (tset (ca_valid c) device_id reg 0)
        (tset (ca_seeded c) device_id reg 0) (tset (ca_updated_ms c) device_id reg 0)
        (ca_device_count c) (ca_initialized c) in
      let x := bvstk_cache_sink_entry (ca_sink c) device_id reg 0 0 0 0 x in
      (BVSTK_OK, Some c, bvstk_cache_sink_leave (ca_sink c) x)
  | status, _ => (status, cache, x)
  end.

Definition cell (c : bvstk_i2c_cache_t) (device_id reg : Z) : bvstk_i2c_cache_entry_t :=
  CacheEntry (tget (ca_values c) device_id reg) (tget (ca_valid c) device_id reg)
    (tget (ca_seeded c) device_id reg) (tget (ca_updated_ms c) device_id reg).

Definition bvstk_i2c_cache_entry (cache : option bvstk_i2c_cache_t) (device_id reg : Z)
    (out : bool) (x : X) : bvstk_status_t * option bvstk_i2c_cache_entry_t * X :=
  match cache_status cache device_id reg, cache with
  | BVSTK_OK, Some c =>
      if negb out then (BVSTK_ERR_MALFORMED, None, x)
      else
        let x := bvstk_cache_sink_enter (ca_sink c) x in
        (BVSTK_OK, Some (cell c device_id reg), bvstk_cache_sink_leave (ca_sink c) x)
  | status, _ => (status, None, x)
  end.

Definition bvstk_i2c_cache_is_valid (cache : option bvstk_i2c_cache_t) (device_id reg : Z)
    : bool :=
  match cache_status cache device_id reg, cache with
  | BVSTK_OK, Some c => negb (tget (ca_valid c) device_id reg =? 0)
  | _, _ => false
  end.

(** ** The cache as a map from cells *)

Definition table_wf (t : reg_table) : Prop :=
  alen t = I2C_CFG_MAX_DEVICES /\
  forall d, 0 <= d < I2C_CFG_MAX_DEVICES -> alen (t.[d]) = I2C_CFG_MAX_REG_COUNT.

Definition cache_wf (c : bvstk_i2c_cache_t) : Prop :=
  table_wf (ca_values c) /\ table_wf (ca_valid c) /\ table_wf (ca_seeded c) /\
  table_wf (ca_updated_ms c) /\ 0 <= ca_device_count c <= I2C_CFG_MAX_DEVICES.

Definition in_table (d r : Z) : Prop :=
  0 <= d < I2C_CFG_MAX_DEVICES /\ 0 <= r < I2C_CFG_MAX_REG_COUNT.

Lemma zero_table_wf : table_wf zero_table.
Proof.
  split; [done|]. intros d Hd. unfold zero_table. by rewrite aget_fill.
Qed.

Lemma tset_wf t d r v : table_wf t -> in_table d r -> table_wf (tset t d r v).
Proof.
  intros [Hl Hrow] [Hd Hr]. split; [unfold tset; by rewrite alen_aset|].
  intros d' Hd'. unfold tset. destruct (decide (d' = d)) as [->|].
  - rewrite aget_aset_eq by lia. rewrite alen_aset. by apply Hrow.
  - rewrite aget_aset_ne by lia. by apply Hrow.
Qed.

Lemma tget_tset t d r v d' r' :
  table_wf t -> in_table d r -> in_table d' r' ->
  tget (tset t d r v) d' r' = if decide (d' = d /\ r' = r) then v else tget t d' r'.
Proof.
  intros [Hl Hrow] [Hd Hr] [Hd' Hr']. unfold tget, tset.
  destruct (decide (d' = d)) as [->|].
  - rewrite aget_aset_eq by lia. specialize (Hrow d Hd).
    destruct (decide (r' = r)) as [->|].
    + rewrite decide_True by done. apply aget_aset_eq. lia.
    + rewrite decide_False by tauto. apply aget_aset_ne; lia.
  - rewrite decide_False by tauto. by rewrite aget_aset_ne by lia.
Qed.

Lemma cache_status_ok c d r :
  cache_status (Some c) d r = BVSTK_OK <-> ca_initialized c <> 0 /\ d < ca_device_count c.
Proof.
  unfold cache_status. split.
  - intros Hs. repeat case_match; try done. bsimp. done.
  - intros [H1 H2]. by rewrite (proj2 (Z.eqb_neq _ _)), (proj2 (Z.leb_gt _ _)).
Qed.

(** [c'] is [c] with one cell replaced. *)
Definition cell_updated (c c' : bvstk_i2c_cache_t) (d r : Z) (e : bvstk_i2c_cache_entry_t)
    : Prop :=
  cache_wf c' /\ ca_device_count c' = ca_device_count c /\
  ca_initialized c' = ca_initialized c /\ ca_sink c' = ca_sink c /\
  forall d' r', in_table d' r' ->
    cell c' d' r' = if decide (d' = d /\ r' = r) then e else cell c d' r'.

Lemma store_cell_updated c d r v valid seeded t :
  cache_wf c -> in_table d r ->
  cell_updated c (store_cell c d r v valid seeded t) d r (CacheEntry v valid seeded t).
Proof.
  intros (H1 & H2 & H3 & H4 & Hc) Hin. unfold store_cell.
  split; [|split; [done|split; [done|split; [done|]]]].
  - repeat (split; [by apply tset_wf|]). done.
  - intros d' r' Hin'. unfold cell. cbn. rewrite !tget_tset by done. by case_decide.
Qed.

Lemma invalidate_updated c d r :
  cache_wf c -> in_table d r ->
  cell_updated c (Cache (ca_sink c) (ca_values c) (tset (ca_valid c) d r 0)
    (tset (ca_seeded c) d r 0) (tset (ca_updated_ms c) d r 0) (ca_device_count c)
    (ca_initialized c)) d r (CacheEntry (tget (ca_values c) d r) 0 0 0).
Proof.
  intros (H1 & H2 & H3 & H4 & Hc) Hin.
  split; [|split; [done|split; [done|split; [done|]]]].
  - split; [done|]. repeat (split; [by apply tset_wf|]). done.
  - intros d' r' Hin'. unfold cell. cbn. rewrite !tget_tset by done.
    case_decide as Hd; [|done]. by destruct Hd as [-> ->].
Qed.

(** Each mutation updates its cell and nothing else of the table. *)
Lemma cache_write_updated c d r v x :
  cache_wf c -> in_table d r -> cache_status (Some c) d r = BVSTK_OK ->
  exists c' t x', bvstk_i2c_cache_write (Some c) d r v x = (BVSTK_OK, Some c', x') /\
    cell_updated c c' d r (CacheEntry v 1 0 t).
Proof.
  intros Hwf Hin Hst. unfold bvstk_i2c_cache_write. rewrite Hst.
  destruct (bvstk_platform_now_ms _) as [now x1].
  eexists _, now, _. split; [reflexivity|]. by apply store_cell_updated.
Qed.

Lemma cache_seed_updated c d r v x :
  cache_wf c -> in_table d r -> cache_status (Some c) d r = BVSTK_OK ->
  exists c' t x', bvstk_i2c_cache_seed (Some c) d r v x = (BVSTK_OK, Some c', x') /\
    cell_updated c c' d r (CacheEntry v 1 1 t).
Proof.
  intros Hwf Hin Hst. unfold bvstk_i2c_cache_seed. rewrite Hst.
  destruct (bvstk_platform_now_ms _) as [now x1].
  eexists _, now, _. split; [reflexivity|]. by apply store_cell_updated.
Qed.

Lemma cache_invalidate_updated c d r x :
  cache_wf c -> in_table d r -> cache_status (Some c) d r = BVSTK_OK ->
  exists c' x', bvstk_i2c_cache_invalidate (Some c) d r x = (BVSTK_OK, Some c', x') /\
    cell_updated c c' d r (CacheEntry (tget (ca_values c) d r) 0 0 0).
Proof.
  intros Hwf Hin Hst. unfold bvstk_i2c_cache_invalidate. rewrite Hst.
  eexists _, _. split; [reflexivity|]. by apply invalidate_updated.
Qed.

Lemma zero_cache_wf n : 0 <= n <= I2C_CFG_MAX_DEVICES ->
  cache_wf (Cache no_sink zero_table zero_table zero_table zero_table n 1).
Proof. intros Hn. repeat (split; [apply zero_table_wf|]). done. Qed.
End cache.

Arguments bvstk_i2c_cache_t : clear implicits.
