(* ===== verification/I2cMasterService.v ===== *)
(** * I2cMasterService: bus-facing reads, policy-checked writes, configuration

    [services/i2c/bvstk_i2c_master_service].  The service owns nothing but its
    presence table: it points at the device table, the cache and the policy it
    was initialized with, which other services share.  So its operations are
    over a store [i2c_store] of those objects, and a pointer field says whether
    the service points at the store's object or is NULL.

    The bus is reached through the optional [io] callbacks or through the
    master driver, the interface [I2cMasterHw]. *)
From stdpp Require Import prelude.
From Stdlib Require Import ZArith Lia.
From S2P Require Import Prelude Platform I2cDevices I2cPolicy I2cCache.
Local Open Scope Z_scope.

Definition BVSTK_I2C_PRESENCE_UNKNOWN : Z := 0.
Definition BVSTK_I2C_PRESENCE_RESPONDING : Z := 1.
Definition BVSTK_I2C_PRESENCE_UNAVAILABLE : Z := 2.

(** What the service uses of [drivers/pl/i2c/bvstk_i2c_master]: whether the
    driver object is initialized, and its register transfers
    [address register (value) timeout]. *)
Class I2cMasterHw (X HW : Type) := {
  hw_initialized : HW -> X -> bool;
  bvstk_i2c_master_hw_read_reg : HW -> Z -> Z -> Z -> ST X (bvstk_status_t * Z);
  bvstk_i2c_master_hw_write_reg : HW -> Z -> Z -> Z -> Z -> ST X bvstk_status_t
}.

Section master.
Context {X HW : Type} `{PL : Platform X} `{HWI : I2cMasterHw X HW}.

Record bvstk_i2c_master_io_t := MasterIo {
  io_read_reg : option (Z -> Z -> Z -> ST X (bvstk_status_t * Z));
  io_write_reg : option (Z -> Z -> Z -> Z -> ST X bvstk_status_t)
}.
Definition no_io : bvstk_i2c_master_io_t := MasterIo None None.

(** [sv_devices], [sv_cache], [sv_policy]: the pointer is not NULL. *)
Record bvstk_i2c_master_service_t := MasterService {
  sv_hardware : option HW;
  sv_io : bvstk_i2c_master_io_t;
  sv_devices : bool;
  sv_cache : bool;
  sv_policy : bool;
  sv_events : bvstk_event_sink_t X;
  sv_cache_config_changed : option (Z -> i2c_device_config_t -> X -> X);
  sv_presence : list Z;
  sv_initialized : Z
}.
Definition zero_master_service : bvstk_i2c_master_service_t :=
  MasterService None no_io false false false (EventSink None) None
    (fill I2C_CFG_MAX_DEVICES 0) 0.

Record i2c_store := I2cStore {
  st_devices : bvstk_i2c_devices_t;
  st_cache : bvstk_i2c_cache_t X;
  st_policy : bvstk_i2c_policy_t;
  st_master : bvstk_i2c_master_service_t;
  st_ext : X
}.

(** *** Stores and pointer dereferences *)

Definition put_devices (d : option bvstk_i2c_devices_t) (w : i2c_store) : i2c_store :=
  I2cStore (default (st_devices w) d) (st_cache w) (st_policy w) (st_master w) (st_ext w).
Definition put_cache (c : option (bvstk_i2c_cache_t X)) (w : i2c_store) : i2c_store :=
  I2cStore (st_devices w) (default (st_cache w) c) (st_policy w) (st_master w) (st_ext w).
Definition put_policy (p : option bvstk_i2c_policy_t) (w : i2c_store) : i2c_store :=
  I2cStore (st_devices w) (st_cache w) (default (st_policy w) p) (st_master w) (st_ext w).
Definition put_master (m : bvstk_i2c_master_service_t) (w : i2c_store) : i2c_store :=
  I2cStore (st_devices w) (st_cache w) (st_policy w) m (st_ext w).
Definition put_ext (x : X) (w : i2c_store) : i2c_store :=
  I2cStore (st_devices w) (st_cache w) (st_policy w) (st_master w) x.

Definition set_presence (m : bvstk_i2c_master_service_t) (device_id p : Z)
    : bvstk_i2c_master_service_t :=
  MasterService (sv_hardware m) (sv_io m) (sv_devices m) (sv_cache m) (sv_policy m)
    (sv_events m) (sv_cache_config_changed m) ((sv_presence m).[device_id <- p])
    (sv_initialized m).

Definition p_devices (w : i2c_store) : option bvstk_i2c_devices_t :=
  if sv_devices (st_master w) then Some (st_devices w) else None.
Definition p_cache (w : i2c_store) : option (bvstk_i2c_cache_t X) :=
  if sv_cache (st_master w) then Some (st_cache w) else None.
Definition p_policy (w : i2c_store) : option bvstk_i2c_policy_t :=
  if sv_policy (st_master w) then Some (st_policy w) else None.

(** Run a call on the external world, or on one of the shared objects. *)
Definition on_ext {A} (f : ST X A) : ST i2c_store A :=
  fun w => let '(a, x) := f (st_ext w) in (a, put_ext x w).
Definition on_devices (f : option bvstk_i2c_devices_t ->
    bvstk_status_t * option bvstk_i2c_devices_t) : ST i2c_store bvstk_status_t :=
  fun w => let '(s, d) := f (p_devices w) in (s, put_devices d w).
Definition on_policy (f : option bvstk_i2c_policy_t ->
    bvstk_status_t * option bvstk_i2c_policy_t) : ST i2c_store bvstk_status_t :=
  fun w => let '(s, p) := f (p_policy w) in (s, put_policy p w).
Definition on_cache (f : option (bvstk_i2c_cache_t X) -> X ->
    bvstk_status_t * option (bvstk_i2c_cache_t X) * X) : ST i2c_store bvstk_status_t :=
  fun w => let '(s, c, x) := f (p_cache w) (st_ext w) in (s, put_ext x (put_cache c w)).

(** [bvstk_cache_sink_enter (&service->cache->sink)] and [leave]. *)
Definition sink_enter : ST i2c_store unit :=
  st_mod (fun w => put_ext (bvstk_cache_sink_enter (ca_sink (st_cache w)) (st_ext w)) w).
Definition sink_leave : ST i2c_store unit :=
  st_mod (fun w => put_ext (bvstk_cache_sink_leave (ca_sink (st_cache w)) (st_ext w)) w).

(** *** Helpers of the service; [service] is false for NULL *)

Definition service_status (service : bool) (device_id : Z) (w : i2c_store)
    : bvstk_status_t :=
  if negb service || (sv_initialized (st_master w) =? 0) then BVSTK_ERR_NOT_READY
  else if bvstk_i2c_devices_count (p_devices w) <=? device_id then BVSTK_ERR_NOT_FOUND
  else BVSTK_OK.

Definition record_response (device_id address : Z) (status : bvstk_status_t) (read : bool)
    : ST i2c_store unit :=
  sink_enter ;;
  let! got := st_get (fun w => bvstk_i2c_devices_get (p_devices w) device_id true) in
  match got with
  | (BVSTK_OK, Some current) =>
      if negb (dev_addr_7b current =? address) then sink_leave
      else
        (match status with
         | BVSTK_OK =>
             if read then
               st_mod (fun w => put_master
                 (set_presence (st_master w) device_id BVSTK_I2C_PRESENCE_RESPONDING) w)
             else st_ret tt
         | BVSTK_ERR_IO | BVSTK_ERR_TIMEOUT | BVSTK_ERR_NOT_FOUND =>
             st_mod (fun w => put_master
               (set_presence (st_master w) device_id BVSTK_I2C_PRESENCE_UNAVAILABLE) w)
         | _ => st_ret tt
         end) ;;
        st_mod (fun w => put_ext
          (bvstk_cache_sink_presence (ca_sink (st_cache w)) device_id
             ((sv_presence (st_master w)).[device_id]) (st_ext w)) w) ;;
        sink_leave
  | _ => sink_leave
  end.

(** The guard of [cache_response]: the device is still the one addressed. *)
Definition same_target (current target : bvstk_i2c_device_t) (reg : Z) : bool :=
  (dev_addr_7b current =? dev_addr_7b target) && streq (dev_name current) (dev_name target) &&
  (reg <? dev_reg_count current).

Definition cache_response (device_id : Z) (target : bvstk_i2c_device_t) (reg value : Z)
    (status : bvstk_status_t) : ST i2c_store unit :=
  sink_enter ;;
  let! got := st_get (fun w => bvstk_i2c_devices_get (p_devices w) device_id true) in
  (match got with
   | (BVSTK_OK, Some current) =>
       if same_target current target reg then
         if is_ok status
         then on_cache (fun c => bvstk_i2c_cache_write c device_id reg value) ;; st_ret tt
         else on_cache (fun c => bvstk_i2c_cache_invalidate c device_id reg) ;; st_ret tt
       else st_ret tt
   | _ => st_ret tt
   end) ;;
  sink_leave.

Definition make_event (now type status : Z) (source : bvstk_event_source_t)
    (operation : bvstk_event_op_t) (device : bvstk_i2c_device_t) (reg value flags : Z)
    : bvstk_event_t :=
  Event (u64 (now * 1000)) type status (source_code source) BVSTK_EVENT_BUS_I2C
    (op_code operation) flags (dev_addr_7b device) reg value.

Definition emit_flags (type status : Z) (source : bvstk_event_source_t)
    (operation : bvstk_event_op_t) (device : bvstk_i2c_device_t) (reg value flags : Z)
    : ST i2c_store unit :=
  fun w =>
    match publish (sv_events (st_master w)) with
    | None => (tt, w)
    | Some pub =>
        on_ext (fun x =>
          let '(now, x) := bvstk_platform_now_ms x in
          (tt, pub (make_event now type status source operation device reg value flags) x)) w
    end.

Definition emit (type status : Z) (source : bvstk_event_source_t)
    (operation : bvstk_event_op_t) (device : bvstk_i2c_device_t) (reg value : Z)
    : ST i2c_store unit :=
  emit_flags type status source operation device reg value BVSTK_EVENT_FLAG_NONE.

Definition presence_confirmed (service : bool) (device_id : Z) (w : i2c_store) : bool :=
  service && (device_id <? I2C_CFG_MAX_DEVICES) &&
  ((sv_presence (st_master w)).[device_id] =? BVSTK_I2C_PRESENCE_RESPONDING).

(** The second component is what [*value] holds afterwards, when it was stored. *)
Definition backend_read (device : bvstk_i2c_device_t) (reg timeout_ms : Z)
    : ST i2c_store (bvstk_status_t * option Z) :=
  fun w =>
    match io_read_reg (sv_io (st_master w)) with
    | Some f =>
        (let! r := on_ext (f (dev_addr_7b device) reg timeout_ms) in
         st_ret (fst r, Some (snd r))) w
    | None =>
        match sv_hardware (st_master w) with
        | None => ((BVSTK_ERR_NOT_READY, None), w)
        | Some hw =>
            (let! r := on_ext (bvstk_i2c_master_hw_read_reg hw (dev_addr_7b device) reg
                                 timeout_ms) in
             st_ret (fst r, Some (snd r))) w
        end
    end.

Definition backend_write (device : bvstk_i2c_device_t) (reg value timeout_ms : Z)
    : ST i2c_store bvstk_status_t :=
  fun w =>
    match io_write_reg (sv_io (st_master w)) with
    | Some f => on_ext (f (dev_addr_7b device) reg value timeout_ms) w
    | None =>
        match sv_hardware (st_master w) with
        | None => (BVSTK_ERR_NOT_READY, w)
        | Some hw =>
            on_ext (bvstk_i2c_master_hw_write_reg hw (dev_addr_7b device) reg value
                      timeout_ms) w
        end
    end.

(** *** Initialization and queries *)

Definition bvstk_i2c_master_service_observe (service : bool) (id type : Z)
    (op : bvstk_event_op_t) (reg value : Z) (status : bvstk_status_t) : ST i2c_store unit :=
  fun w =>
    match service_status service id w, bvstk_i2c_devices_get (p_devices w) id true with
    | BVSTK_OK, (BVSTK_OK, Some device) =>
        emit_flags type (status_code status) BVSTK_EVENT_SOURCE_HOST op device reg value
          (if type =? BVSTK_EVENT_SLAVE_REPLY_PREPARED
           then BVSTK_EVENT_FLAG_TELEMETRY_UNCONFIRMED else BVSTK_EVENT_FLAG_NONE) w
    | _, _ => (tt, w)
    end.

Definition backend_given (hardware : option HW) (io : option bvstk_i2c_master_io_t) (x : X)
    : bool :=
  match hardware with Some hw => hw_initialized hw x | None => false end ||
  match io with Some (MasterIo (Some _) (Some _)) => true | _ => false end.

(** [devices], [cache], [policy]: the argument is not NULL. *)
Definition bvstk_i2c_master_service_init (service : bool) (hardware : option HW)
    (io : option bvstk_i2c_master_io_t) (devices cache policy : bool)
    (events : option (bvstk_event_sink_t X)) : ST i2c_store bvstk_status_t :=
  fun w =>
    if negb service || negb devices || negb cache || negb policy ||
       (dvs_initialized (st_devices w) =? 0) || (ca_initialized (st_cache w) =? 0) ||
       (pol_initialized (st_policy w) =? 0) ||
       negb (ca_device_count (st_cache w) =? dvs_count (st_devices w)) ||
       negb (pol_device_count (st_policy w) =? dvs_count (st_devices w)) ||
       negb (backend_given hardware io (st_ext w))
    then (BVSTK_ERR_MALFORMED, w)
    else
      (BVSTK_OK,
       put_master (MasterService hardware (default no_io io) true true true
         (default (EventSink None) events) None (fill I2C_CFG_MAX_DEVICES 0) 1) w).

Definition bvstk_i2c_master_service_shutdown (service : bool) : ST i2c_store unit :=
  st_mod (fun w => if service then put_master zero_master_service w else w).

Definition bvstk_i2c_master_service_device_count (service : bool) (w : i2c_store) : Z :=
  if service && negb (sv_initialized (st_master w) =? 0)
  then bvstk_i2c_devices_count (p_devices w) else 0.

Definition bvstk_i2c_master_service_device_info (service : bool) (device_id : Z) (out : bool)
    (w : i2c_store) : bvstk_status_t * option bvstk_i2c_device_t :=
  match service_status service device_id w with
  | BVSTK_OK => bvstk_i2c_devices_get (p_devices w) device_id out
  | status => (status, None)
  end.

Definition bvstk_i2c_master_service_find_by_name (service : bool) (name : option (list Z))
    (device_id : bool) (w : i2c_store) : bvstk_status_t * option Z :=
  if negb service || (sv_initialized (st_master w) =? 0) then (BVSTK_ERR_NOT_READY, None)
  else bvstk_i2c_devices_find_by_name (p_devices w) name device_id.

Definition bvstk_i2c_master_service_device_presence (service : bool) (device_id : Z)
    (out : bool) (w : i2c_store) : bvstk_status_t * option Z :=
  match service_status service device_id w with
  | BVSTK_OK =>
      if negb out then (BVSTK_ERR_MALFORMED, None)
      else (BVSTK_OK, Some ((sv_presence (st_master w)).[device_id]))
  | status => (status, None)
  end.

Definition bvstk_i2c_master_service_find_by_addr (service : bool) (addr_7b : Z)
    (device_id : bool) (w : i2c_store) : bvstk_status_t * option Z :=
  if negb service || (sv_initialized (st_master w) =? 0) then (BVSTK_ERR_NOT_READY, None)
  else bvstk_i2c_devices_find_by_addr (p_devices w) addr_7b device_id.

(** *** Reads *)

(** What follows the bus transfer of a read.  While the transfer waits other
    tasks run, so the store this starts from need not be the one the read
    began with: [device] and [was_present] were taken before it. *)
Definition read_finish (device_id : Z) (device : bvstk_i2c_device_t) (was_present : bool)
    (reg : Z) (source : bvstk_event_source_t) (status : bvstk_status_t) (value : Z)
    : ST i2c_store unit :=
  let shown := if is_ok status then value else 0 in
  record_response device_id (dev_addr_7b device) status true ;;
  emit_flags BVSTK_EVENT_MASTER_READ (status_code status) source BVSTK_EVENT_OP_READ device
    reg shown
    (if was_present || is_ok status then BVSTK_EVENT_FLAG_NONE
     else BVSTK_EVENT_FLAG_TELEMETRY_UNCONFIRMED) ;;
  cache_response device_id device reg shown status.

Definition bvstk_i2c_master_service_read_from (service : bool) (device_id reg : Z)
    (value : bool) (source : bvstk_event_source_t) (timeout_ms : Z)
    : ST i2c_store (bvstk_status_t * option Z) :=
  fun w =>
    match service_status service device_id w with
    | BVSTK_OK =>
        if negb value then ((BVSTK_ERR_RANGE, None), w)
        else
          match bvstk_i2c_devices_get (p_devices w) device_id true with
          | (BVSTK_OK, Some device) =>
              if dev_reg_count device <=? reg then ((BVSTK_ERR_RANGE, None), w)
              else
                let was_present := presence_confirmed service device_id w in
                (let! r := backend_read device reg timeout_ms in
                 read_finish device_id device was_present reg source (fst r)
                   (default 0 (snd r)) ;;
                 st_ret r) w
          | _ => ((BVSTK_ERR_RANGE, None), w)
          end
    | status => ((status, None), w)
    end.

Definition bvstk_i2c_master_service_read (service : bool) (device_id reg : Z)
    (value : bool) (timeout_ms : Z) : ST i2c_store (bvstk_status_t * option Z) :=
  bvstk_i2c_master_service_read_from service device_id reg value
    BVSTK_EVENT_SOURCE_INTERNAL timeout_ms.

Definition bvstk_i2c_master_service_read_cached (service : bool) (device_id reg : Z)
    (value : bool) (w : i2c_store) : bvstk_status_t * option Z :=
  match service_status service device_id w with
  | BVSTK_OK =>
      if negb value then (BVSTK_ERR_RANGE, None)
      else
        match bvstk_i2c_devices_get (p_devices w) device_id true with
        | (BVSTK_OK, Some device) =>
            if dev_reg_count device <=? reg then (BVSTK_ERR_RANGE, None)
            else bvstk_i2c_cache_read (p_cache w) device_id reg value
        | _ => (BVSTK_ERR_RANGE, None)
        end
  | status => (status, None)
  end.

Definition bvstk_i2c_master_service_cache_entry (service : bool) (device_id reg : Z)
    (entry : bool) : ST i2c_store (bvstk_status_t * option bvstk_i2c_cache_entry_t) :=
  fun w =>
    match service_status service device_id w with
    | BVSTK_OK =>
        if negb entry then ((BVSTK_ERR_MALFORMED, None), w)
        else
          match bvstk_i2c_devices_get (p_devices w) device_id true with
          | (BVSTK_OK, Some device) =>
              if dev_reg_count device <=? reg then ((BVSTK_ERR_RANGE, None), w)
              else on_ext (fun x =>
                let '(s, e, x) := bvstk_i2c_cache_entry (p_cache w) device_id reg entry x in
                ((s, e), x)) w
          | _ => ((BVSTK_ERR_RANGE, None), w)
          end
    | status => ((status, None), w)
    end.

(** *** Writes *)

(** What follows the bus transfer of a write. *)
Definition write_finish (device_id : Z) (device : bvstk_i2c_device_t) (was_present : bool)
    (reg value : Z) (source : bvstk_event_source_t) (status : bvstk_status_t)
    : ST i2c_store unit :=
  record_response device_id (dev_addr_7b device) status false ;;
  emit_flags BVSTK_EVENT_MASTER_WRITE (status_code status) source BVSTK_EVENT_OP_WRITE device
    reg value
    (if was_present || is_ok status then BVSTK_EVENT_FLAG_NONE
     else BVSTK_EVENT_FLAG_TELEMETRY_UNCONFIRMED) ;;
  if negb (is_ok status) then
    emit BVSTK_EVENT_FAULT (status_code status) source BVSTK_EVENT_OP_WRITE device reg value ;;
    cache_response device_id device reg 0 status
  else
    cache_response device_id device reg value BVSTK_OK ;;
    emit BVSTK_EVENT_REG_COMMIT 0 source BVSTK_EVENT_OP_WRITE device reg value.

Definition bvstk_i2c_master_service_write (service : bool) (device_id reg value : Z)
    (source : bvstk_event_source_t) (timeout_ms : Z) : ST i2c_store bvstk_status_t :=
  fun w =>
    match service_status service device_id w with
    | BVSTK_OK =>
        match bvstk_i2c_devices_get (p_devices w) device_id true with
        | (BVSTK_OK, Some device) =>
            let was_present := presence_confirmed service device_id w in
            (emit BVSTK_EVENT_REG_ATTEMPT 0 source BVSTK_EVENT_OP_WRITE device reg value ;;
             if (dev_reg_count device <=? reg) || (dev_max_value_code device <? value) then
               emit BVSTK_EVENT_FAULT (status_code BVSTK_ERR_RANGE) source
                 BVSTK_EVENT_OP_WRITE device reg value ;;
               st_ret BVSTK_ERR_RANGE
             else
               sink_enter ;;
               let! permitted := st_get (fun w =>
                 bvstk_i2c_policy_permits (p_policy w) device_id (Some device) reg value) in
               sink_leave ;;
               if negb permitted then
                 emit BVSTK_EVENT_REG_DENIED (status_code BVSTK_ERR_DENIED) source
                   BVSTK_EVENT_OP_WRITE device reg value ;;
                 st_ret BVSTK_ERR_DENIED
               else
                 let! status := backend_write device reg value timeout_ms in
                 write_finish device_id device was_present reg value source status ;;
                 st_ret status) w
        | _ => (BVSTK_ERR_NOT_FOUND, w)
        end
    | status => (status, w)
    end.

(** *** Policy and configuration *)

(** A policy operation between the sink's enter and leave. *)
Definition guarded (service : bool) (device_id : Z) (m : ST i2c_store bvstk_status_t)
    : ST i2c_store bvstk_status_t :=
  fun w =>
    match service_status service device_id w with
    | BVSTK_OK =>
        (sink_enter ;; let! status := m in sink_leave ;; st_ret status) w
    | status => (status, w)
    end.

Definition bvstk_i2c_master_service_set_policy (service : bool) (device_id mode : Z)
    : ST i2c_store bvstk_status_t :=
  guarded service device_id
    (on_policy (fun p => bvstk_i2c_policy_set_mode p device_id mode)).

Definition bvstk_i2c_master_service_get_policy (service : bool) (device_id : Z) (out : bool)
    : ST i2c_store (bvstk_status_t * option bvstk_i2c_policy_entry_t) :=
  fun w =>
    match service_status service device_id w with
    | BVSTK_OK =>
        (sink_enter ;;
         let! r := st_get (fun w => bvstk_i2c_policy_get (p_policy w) device_id out) in
         sink_leave ;; st_ret r) w
    | status => ((status, None), w)
    end.

(** [memcpy (name, config->name, 32); name[31] = 0]. *)
Definition copy_name (name : list Z) : list Z :=
  (copy_prefix I2C_CFG_NAME_MAX name (fill I2C_CFG_NAME_MAX 0)).[I2C_CFG_NAME_MAX - 1 <- 0].

Definition config_device (c : i2c_device_config_t) : bvstk_i2c_device_t :=
  Device (copy_name (cfg_name c)) (cfg_addr_7b c) (cfg_reg_count c) (cfg_max_value_code c).

Definition invalidate_all (device_id : Z) : ST i2c_store unit :=
  st_mod (for_each (Z.to_nat I2C_CFG_MAX_REG_COUNT) 0
    (fun r w => snd (on_cache (fun c => bvstk_i2c_cache_invalidate c device_id r) w))).

Definition notify_config_changed (device_id : Z) (config : i2c_device_config_t)
    : ST i2c_store unit :=
  st_mod (fun w =>
    match sv_cache_config_changed (st_master w) with
    | Some f => put_ext (f device_id config (st_ext w)) w
    | None => w
    end).

Definition bvstk_i2c_master_service_set_config (service : bool) (device_id : Z)
    (config : option i2c_device_config_t) : ST i2c_store bvstk_status_t :=
  fun w =>
    match service_status service device_id w with
    | BVSTK_OK =>
        match config with
        | None => (BVSTK_ERR_MALFORMED, w)
        | Some c =>
            if ((cfg_name c).[0] =? 0) || (cfg_reg_count c =? 0) ||
               (I2C_CFG_MAX_REG_COUNT <? cfg_reg_count c) || (0x7F <? cfg_addr_7b c)
            then (BVSTK_ERR_MALFORMED, w)
            else
              match bvstk_i2c_devices_get (p_devices w) device_id true with
              | (BVSTK_OK, Some previous) =>
                  let device := config_device c in
                  (sink_enter ;;
                   let! status :=
                     on_devices (fun d => bvstk_i2c_devices_set d device_id (Some device)) in
                   if negb (is_ok status) then sink_leave ;; st_ret status
                   else
                     (if negb (dev_addr_7b previous =? dev_addr_7b device) ||
                         negb (dev_reg_count previous =? dev_reg_count device) then
                        st_mod (fun w => put_master
                          (set_presence (st_master w) device_id
                             BVSTK_I2C_PRESENCE_UNKNOWN) w) ;;
                        invalidate_all device_id
                      else st_ret tt) ;;
                     let! status :=
                       on_policy (fun p => bvstk_i2c_policy_set_config p device_id config) in
                     (if is_ok status then notify_config_changed device_id c
                      else st_ret tt) ;;
                     sink_leave ;;
                     st_ret status) w
              | (status, _) => (status, w)
              end
        end
    | status => (status, w)
    end.

(** The record [get_config] fills in from zero. *)
Definition config_of (device : bvstk_i2c_device_t) (policy : bvstk_i2c_policy_entry_t)
    : i2c_device_config_t :=
  DeviceConfig (copy_name (dev_name device)) (fill I2C_CFG_FILE_NAME_MAX 0)
    (dev_addr_7b device) (dev_reg_count device) (dev_max_value_code device) (pe_mode policy)
    (copy_prefix (pe_whitelist_len policy) (pe_whitelist policy) zero_rules)
    (pe_whitelist_len policy)
    (copy_prefix (pe_blacklist_len policy) (pe_blacklist policy) zero_rules)
    (pe_blacklist_len policy)
    zero_rules 0 zero_profile.

Definition bvstk_i2c_master_service_get_config (service : bool) (device_id : Z) (out : bool)
    : ST i2c_store (bvstk_status_t * option i2c_device_config_t) :=
  fun w =>
    match service_status service device_id w with
    | BVSTK_OK =>
        if negb out then ((BVSTK_ERR_MALFORMED, None), w)
        else
          (sink_enter ;;
           let! r := st_get (fun w =>
             match bvstk_i2c_devices_get (p_devices w) device_id true with
             | (BVSTK_OK, Some device) =>
                 match bvstk_i2c_policy_get (p_policy w) device_id true with
                 | (BVSTK_OK, Some policy) => (BVSTK_OK, Some (config_of device policy))
                 | (status, _) => (status, None)
                 end
             | (status, _) => (status, None)
             end) in
           sink_leave ;; st_ret r) w
    | status => ((status, None), w)
    end.

(** [devices_get], then a policy operation that needs the descriptor. *)
Definition with_device (device_id : Z)
    (k : bvstk_i2c_device_t -> ST i2c_store bvstk_status_t) : ST i2c_store bvstk_status_t :=
  fun w =>
    match bvstk_i2c_devices_get (p_devices w) device_id true with
    | (BVSTK_OK, Some device) => k device w
    | (status, _) => (status, w)
    end.

Definition bvstk_i2c_master_service_rule_allow (service : bool) (device_id reg value : Z)
    : ST i2c_store bvstk_status_t :=
  guarded service device_id (with_device device_id (fun device =>
    on_policy (fun p => bvstk_i2c_policy_add_allow p device_id reg value (Some device)))).

Definition bvstk_i2c_master_service_rule_deny (service : bool) (device_id reg value : Z)
    : ST i2c_store bvstk_status_t :=
  guarded service device_id (with_device device_id (fun device =>
    on_policy (fun p => bvstk_i2c_policy_add_deny p device_id reg value (Some device)))).

Definition bvstk_i2c_master_service_rule_clear (service : bool) (device_id reg value : Z)
    : ST i2c_store bvstk_status_t :=
  guarded service device_id
    (on_policy (fun p => bvstk_i2c_policy_remove p device_id reg value)).

Definition bvstk_i2c_master_service_rule_remove (service : bool)
    (device_id lst reg value : Z) : ST i2c_store bvstk_status_t :=
  fun w =>
    match service_status service device_id w with
    | BVSTK_OK =>
        if negb (mode_valid lst) then (BVSTK_ERR_MALFORMED, w)
        else
          guarded service device_id (with_device device_id (fun device =>
            if (dev_reg_count device <=? reg) || (dev_max_value_code device <? value)
            then st_ret BVSTK_ERR_RANGE
            else on_policy (fun p =>
              bvstk_i2c_policy_remove_list p device_id lst reg value))) w
    | status => (status, w)
    end.

Definition bvstk_i2c_master_service_rule_clear_list (service : bool) (device_id lst : Z)
    : ST i2c_store bvstk_status_t :=
  guarded service device_id (on_policy (fun p => bvstk_i2c_policy_clear p device_id lst)).

(** ** What the helpers change *)

(** The stores agree on every object, not on the external world. *)
Definition data_eq (w w' : i2c_store) : Prop :=
  st_devices w' = st_devices w /\ st_cache w' = st_cache w /\
  st_policy w' = st_policy w /\ st_master w' = st_master w.

(** The wiring of the service: all of it but the presence table. *)
Definition same_wiring (m m' : bvstk_i2c_master_service_t) : Prop :=
  exists p, alen p = alen (sv_presence m) /\
  m' = MasterService (sv_hardware m) (sv_io m) (sv_devices m) (sv_cache m) (sv_policy m)
    (sv_events m) (sv_cache_config_changed m) p (sv_initialized m).

Lemma same_wiring_refl m : same_wiring m m.
Proof. exists (sv_presence m). split; [done|]. by destruct m. Qed.

Lemma same_wiring_set m d p : same_wiring m (set_presence m d p).
Proof. eexists. split; [|done]. apply alen_aset. Qed.

Lemma same_wiring_trans m1 m2 m3 :
  same_wiring m1 m2 -> same_wiring m2 m3 -> same_wiring m1 m3.
Proof. intros (p & Hp & ->) (q & Hq & ->). exists q. split; [by rewrite Hq|done]. Qed.

Lemma data_eq_ext x w : data_eq w (put_ext x w).
Proof. done. Qed.

Lemma data_eq_trans w1 w2 w3 : data_eq w1 w2 -> data_eq w2 w3 -> data_eq w1 w3.
Proof. intros (?&?&?&?) (?&?&?&?). repeat split; congruence. Qed.

Lemma sink_enter_runs w : runs sink_enter w (fun _ w' => data_eq w w').
Proof. apply runs_mod, data_eq_ext. Qed.
Lemma sink_leave_runs w : runs sink_leave w (fun _ w' => data_eq w w').
Proof. apply runs_mod, data_eq_ext. Qed.

Lemma on_ext_runs {A} (f : ST X A) w :
  runs (on_ext f) w (fun _ w' => data_eq w w').
Proof. unfold runs, on_ext. by destruct (f (st_ext w)). Qed.

Lemma emit_flags_runs type status source op device reg value flags w :
  runs (emit_flags type status source op device reg value flags) w (fun _ w' => data_eq w w').
Proof.
  unfold emit_flags, runs. destruct (publish _) as [pub|]; [|done].
  apply (on_ext_runs _ w).
Qed.

Lemma backend_read_runs device reg t w :
  runs (backend_read device reg t) w (fun _ w' => data_eq w w').
Proof.
  unfold backend_read, runs.
  destruct (io_read_reg _) as [f|]; [|destruct (sv_hardware _) as [hw|]]; [| |done];
    apply (runs_bind _ _ w (fun _ w' => data_eq w w'));
    (eapply runs_mono; [apply on_ext_runs|]); intros; by apply runs_ret.
Qed.

Lemma backend_write_runs device reg value t w :
  runs (backend_write device reg value t) w (fun _ w' => data_eq w w').
Proof.
  unfold backend_write, runs.
  destruct (io_write_reg _) as [f|]; [|destruct (sv_hardware _) as [hw|]]; [| |done];
    apply (on_ext_runs _ w).
Qed.

(** [record_response] touches the presence table only. *)
Definition presence_only (w w' : i2c_store) : Prop :=
  st_devices w' = st_devices w /\ st_cache w' = st_cache w /\
  st_policy w' = st_policy w /\ same_wiring (st_master w) (st_master w').

Lemma presence_only_data w1 w2 w3 :
  data_eq w1 w2 -> presence_only w2 w3 -> presence_only w1 w3.
Proof. intros (?&?&?&E) (?&?&?&Hw). rewrite E in Hw. repeat split; congruence || done. Qed.

Lemma data_presence_only w1 w2 : data_eq w1 w2 -> presence_only w1 w2.
Proof. intros (?&?&?&E). unfold presence_only. rewrite E. auto using same_wiring_refl. Qed.

Lemma presence_only_trans w1 w2 w3 :
  presence_only w1 w2 -> presence_only w2 w3 -> presence_only w1 w3.
Proof.
  intros (?&?&?&Ha) (?&?&?&Hb). repeat (split; [congruence|]). by eapply same_wiring_trans.
Qed.

Lemma record_response_runs device_id address status read w :
  runs (record_response device_id address status read) w (fun _ w' => presence_only w w').
Proof.
  apply runs_bind. eapply runs_mono; [apply sink_enter_runs|]. intros ? w1 H1.
  assert (forall w', presence_only w1 w' -> runs sink_leave w' (fun _ w' => presence_only w w'))
    as Hleave.
  { intros w' Hw'. eapply runs_mono; [apply sink_leave_runs|]. intros ? w2 H2.
    eapply presence_only_data; [exact H1|]. eapply presence_only_trans; [exact Hw'|].
    by apply data_presence_only. }
  apply runs_bind, runs_get.
  destruct (bvstk_i2c_devices_get _ _ _) as [[] [current|]];
    try (apply Hleave; by apply data_presence_only).
  destruct (negb _); [apply Hleave; by apply data_presence_only|].
  assert (presence_only w1 w1) as Hrefl by (by apply data_presence_only).
  assert (forall p, presence_only w1 (put_master (set_presence (st_master w1) device_id p) w1))
    as Hset by (intros p; repeat split; apply same_wiring_set).
  assert (forall w', presence_only w1 w' ->
    runs (st_mod (fun w => put_ext (bvstk_cache_sink_presence (ca_sink (st_cache w)) device_id
      ((sv_presence (st_master w)).[device_id]) (st_ext w)) w) ;; sink_leave) w'
      (fun _ w' => presence_only w w')) as Hend.
  { intros w' Hw'. apply runs_bind, runs_mod, Hleave.
    eapply presence_only_trans; [exact Hw'|]. by apply data_presence_only. }
  apply runs_bind.
  destruct status; try destruct read; apply runs_mod || apply runs_ret; by apply Hend.
Qed.

(** ** The store invariant *)

Definition wired (w : i2c_store) : Prop :=
  sv_devices (st_master w) = true /\ sv_cache (st_master w) = true /\
  sv_policy (st_master w) = true /\
  dvs_initialized (st_devices w) <> 0 /\ ca_initialized (st_cache w) <> 0 /\
  pol_initialized (st_policy w) <> 0 /\
  ca_device_count (st_cache w) = dvs_count (st_devices w) /\
  pol_device_count (st_policy w) = dvs_count (st_devices w).

Definition store_wf (w : i2c_store) : Prop :=
  devices_wf (st_devices w) /\ policy_wf (st_policy w) /\ cache_wf (st_cache w) /\
  alen (sv_presence (st_master w)) = I2C_CFG_MAX_DEVICES /\
  (sv_initialized (st_master w) <> 0 \/ sv_devices (st_master w) = true -> wired w).

Lemma service_status_ok w id :
  store_wf w -> service_status true id w = BVSTK_OK ->
  wired w /\ id < dvs_count (st_devices w) <= I2C_CFG_MAX_DEVICES.
Proof.
  intros (Hd & _ & _ & _ & Hw). unfold service_status. cbn [negb orb].
  destruct (_ =? 0) eqn:Hi; [done|]. bsimp. specialize (Hw (or_introl Hi)). pose proof Hw as (Hp & _ & _ & H0 & _).
  unfold p_devices. rewrite Hp. unfold bvstk_i2c_devices_count.
  rewrite (proj2 (Z.eqb_neq _ _) H0). cbn [negb].
  case_match; [done|]. bsimp. intros _. split; [done|]. destruct Hd as (_ & ? & _). lia.
Qed.

Lemma service_status_initialized w id :
  service_status true id w = BVSTK_OK -> sv_initialized (st_master w) <> 0.
Proof. unfold service_status. cbn [negb orb]. by case_match; bsimp. Qed.

Lemma service_status_intro w id :
  sv_initialized (st_master w) <> 0 -> wired w -> id < dvs_count (st_devices w) ->
  service_status true id w = BVSTK_OK.
Proof.
  intros Hi (Hp & _ & _ & H0 & _) Hid. unfold service_status, p_devices. rewrite Hp.
  cbn [negb orb]. rewrite (proj2 (Z.eqb_neq _ _) Hi). unfold bvstk_i2c_devices_count.
  rewrite (proj2 (Z.eqb_neq _ _) H0). cbn [negb]. by rewrite (proj2 (Z.leb_gt _ _) Hid).
Qed.

(** A known device: the descriptor the table returns. *)
Lemma devices_get_ok w id :
  wired w -> id < dvs_count (st_devices w) ->
  bvstk_i2c_devices_get (p_devices w) id true =
    (BVSTK_OK, Some ((dvs_items (st_devices w)).[id])).
Proof.
  intros (Hp & _ & _ & H0 & _) Hid. unfold p_devices. rewrite Hp.
  unfold bvstk_i2c_devices_get, device_status.
  by rewrite (proj2 (Z.eqb_neq _ _) H0), (proj2 (Z.ltb_lt _ _) Hid).
Qed.

Lemma devices_get_inv w id current :
  bvstk_i2c_devices_get (p_devices w) id true = (BVSTK_OK, Some current) ->
  id < dvs_count (st_devices w) /\ current = (dvs_items (st_devices w)).[id].
Proof.
  unfold p_devices. destruct (sv_devices _); [|done].
  unfold bvstk_i2c_devices_get, device_status.
  destruct (_ =? 0); [done|]. destruct (_ <? _) eqn:Hlt; [|done]. bsimp.
  intros [= <-]. done.
Qed.

Lemma known_reg_in_table w id reg :
  devices_wf (st_devices w) -> 0 <= id < dvs_count (st_devices w) -> 0 <= reg ->
  reg < dev_reg_count ((dvs_items (st_devices w)).[id]) -> in_table id reg.
Proof.
  intros (_ & Hc & _ & Hi) Hid Hr Hlt. specialize (Hi id Hid).
  unfold item_valid in Hi. bsimp. split; lia.
Qed.

(** The effect of a reply on the cache. *)
Definition reply_effect (id : Z) (target : bvstk_i2c_device_t) (reg value : Z)
    (status : bvstk_status_t) (w w' : i2c_store) : Prop :=
  st_devices w' = st_devices w /\ st_policy w' = st_policy w /\ st_master w' = st_master w /\
  let current := (dvs_items (st_devices w)).[id] in
  if (id <? dvs_count (st_devices w)) && same_target current target reg then
    exists e, cell_updated (st_cache w) (st_cache w') id reg e /\
      if is_ok status then exists t, e = CacheEntry value 1 0 t
      else e = CacheEntry (tget (ca_values (st_cache w)) id reg) 0 0 0
  else st_cache w' = st_cache w.

Lemma cache_status_wired w id reg :
  wired w -> id < dvs_count (st_devices w) ->
  p_cache w = Some (st_cache w) /\ cache_status (Some (st_cache w)) id reg = BVSTK_OK.
Proof.
  intros (_ & Hc & _ & _ & Hi & _ & Hn & _) Hid. unfold p_cache. rewrite Hc.
  split; [done|]. apply cache_status_ok. split; [done|lia].
Qed.

Lemma wired_data_eq w w' : data_eq w w' -> wired w -> wired w'.
Proof. intros (E1 & E2 & E3 & E4). unfold wired. by rewrite E1, E2, E3, E4. Qed.

(** The store [cache_response] makes under its guard. *)
Lemma reply_store_runs id reg value status w :
  store_wf w -> wired w -> 0 <= id < dvs_count (st_devices w) -> in_table id reg ->
  runs (if is_ok status
        then on_cache (fun c => bvstk_i2c_cache_write c id reg value) ;; st_ret tt
        else on_cache (fun c => bvstk_i2c_cache_invalidate c id reg) ;; st_ret tt) w
    (fun _ w' =>
      st_devices w' = st_devices w /\ st_policy w' = st_policy w /\
      st_master w' = st_master w /\
      exists e, cell_updated (st_cache w) (st_cache w') id reg e /\
        if is_ok status then exists t, e = CacheEntry value 1 0 t
        else e = CacheEntry (tget (ca_values (st_cache w)) id reg) 0 0 0).
Proof.
  intros (_ & _ & Hcw & _) Hw Hid Hin.
  destruct (cache_status_wired w id reg Hw ltac:(lia)) as [Hp Hs].
  destruct (is_ok status); apply runs_bind; unfold runs at 1, on_cache; rewrite Hp.
  - destruct (cache_write_updated (st_cache w) id reg value (st_ext w) Hcw Hin Hs)
      as (c' & t & x' & Heq & Hup).
    rewrite Heq. repeat split; try done. eexists. split; [exact Hup|]. by exists t.
  - destruct (cache_invalidate_updated (st_cache w) id reg (st_ext w) Hcw Hin Hs)
      as (c' & x' & Heq & Hup).
    rewrite Heq. repeat split; try done. eexists. split; [exact Hup|done].
Qed.

Lemma cache_response_runs id target reg value status w :
  store_wf w -> 0 <= id -> 0 <= reg -> wired w ->
  runs (cache_response id target reg value status) w
    (fun _ w' => reply_effect id target reg value status w w').
Proof.
  intros Hwf Hid Hreg Hw. unfold cache_response.
  apply runs_bind, runs_mod, runs_bind, runs_get.
  set (w1 := put_ext _ w). change (p_devices w1) with (p_devices w).
  assert (store_wf w1 /\ wired w1) as [Hwf1 Hw1] by done.
  destruct (decide (id < dvs_count (st_devices w))) as [Hlt|Hge].
  - rewrite (devices_get_ok w id Hw Hlt).
    unfold reply_effect. rewrite (proj2 (Z.ltb_lt id _)) by done. cbn [andb].
    destruct (same_target _ _ _) eqn:Hs; [|by apply runs_bind, runs_ret, runs_mod].
    apply runs_bind. eapply runs_mono.
    + apply (reply_store_runs id reg value status w1 Hwf1 Hw1); [done|].
      apply (known_reg_in_table w1 id reg); [by destruct Hwf1|done|done|].
      unfold same_target in Hs. bsimp. done.
    + intros ? w2 Hw2. by apply runs_mod.
  - assert (forall k, (forall c, id < dvs_count (st_devices w) -> k c = st_ret tt) ->
      runs ((match bvstk_i2c_devices_get (p_devices w) id true with
             | (BVSTK_OK, Some c) => k c
             | _ => st_ret tt end) ;; sink_leave) w1
        (fun _ w' => reply_effect id target reg value status w w')) as Hk.
    { intros k _. destruct (bvstk_i2c_devices_get _ _ _) as [st [c|]] eqn:Hg.
      - destruct st; try (apply runs_bind, runs_ret, runs_mod;
          unfold reply_effect; rewrite (proj2 (Z.ltb_ge _ _)) by lia; done).
        apply devices_get_inv in Hg as [? _]. lia.
      - destruct st; apply runs_bind, runs_ret, runs_mod;
          unfold reply_effect; rewrite (proj2 (Z.ltb_ge _ _)) by lia; done. }
    apply Hk. lia.
Qed.

Lemma store_wf_data_eq w w' : data_eq w w' -> store_wf w -> store_wf w'.
Proof. intros (E1 & E2 & E3 & E4). unfold store_wf, wired. by rewrite E1, E2, E3, E4. Qed.

(** *** Policy operations *)

Definition policy_only (w w' : i2c_store) : Prop :=
  st_devices w' = st_devices w /\ st_cache w' = st_cache w /\ st_master w' = st_master w /\
  policy_wf (st_policy w') /\
  pol_device_count (st_policy w') = pol_device_count (st_policy w) /\
  pol_initialized (st_policy w') = pol_initialized (st_policy w).

Lemma policy_only_wf w w' : policy_only w w' -> store_wf w -> store_wf w'.
Proof.
  intros (E1 & E2 & E3 & Hp & E4 & E5). unfold store_wf, wired.
  rewrite E1, E2, E3, E4, E5. by intros (H1 & _ & H2 & H3).
Qed.

Lemma data_policy_only w w' : data_eq w w' -> policy_wf (st_policy w) -> policy_only w w'.
Proof. intros (E1 & E2 & E3 & E4). unfold policy_only. by rewrite E1, E2, E3, E4. Qed.

Lemma policy_only_data w1 w2 w3 : policy_only w1 w2 -> data_eq w2 w3 -> policy_only w1 w3.
Proof.
  intros (?&?&?&?&?&?) (?&?&E&?). unfold policy_only. rewrite E.
  repeat (split; [congruence || done|]). congruence.
Qed.

Lemma on_policy_runs w id op f :
  policy_wf (st_policy w) -> 0 <= id -> policy_op_wf op ->
  (forall p, f p = run_policy_op p id op) ->
  runs (on_policy f) w (fun _ w' => policy_only w w').
Proof.
  intros Hwf Hid Hop Hf. unfold runs, on_policy. rewrite Hf. unfold p_policy.
  destruct (sv_policy _).
  - destruct (policy_op_any (st_policy w) id op Hwf Hid Hop) as (s & p' & Heq & H1 & H2 & H3).
    rewrite Heq. by repeat (split; [done|]).
  - destruct (run_policy_op None id op) as [s p'] eqn:E.
    assert (p' = None) as -> by (by destruct op; cbn in E; injection E as _ <-).
    by repeat (split; [done|]).
Qed.

Lemma guarded_runs service id m w :
  policy_wf (st_policy w) ->
  (forall w', data_eq w w' -> runs m w' (fun _ w'' => policy_only w' w'')) ->
  runs (guarded service id m) w (fun _ w' => policy_only w w').
Proof.
  intros Hwf Hm. unfold guarded, runs.
  assert (policy_only w w) as Hrefl by (by apply data_policy_only).
  destruct (service_status _ _ _); try exact Hrefl.
  apply (runs_bind _ _ w (fun _ w' => policy_only w w')), runs_mod, runs_bind.
  eapply runs_mono; [apply Hm; apply data_eq_ext|]. intros s w1 Hw1.
  apply runs_bind, runs_mod, runs_ret. by eapply policy_only_data; [exact Hw1|].
Qed.

(** *** Replacing a device's configuration *)

(** The cells of one device are invalid, the others are as before. *)
Definition row_invalid (c c' : bvstk_i2c_cache_t X) (id : Z) (n : Z) : Prop :=
  cache_wf c' /\ ca_device_count c' = ca_device_count c /\
  ca_initialized c' = ca_initialized c /\
  forall d r, in_table d r ->
    if decide (d = id /\ r < n) then ce_valid (cell c' d r) = 0
    else cell c' d r = cell c d r.

Definition cache_only (w w' : i2c_store) : Prop :=
  st_devices w' = st_devices w /\ st_policy w' = st_policy w /\ st_master w' = st_master w.

Lemma cache_invalidate_row w w1 id i :
  wired w -> 0 <= id < dvs_count (st_devices w) ->
  dvs_count (st_devices w) <= I2C_CFG_MAX_DEVICES -> 0 <= i < I2C_CFG_MAX_REG_COUNT ->
  cache_only w w1 -> row_invalid (st_cache w) (st_cache w1) id i ->
  let w2 := snd (on_cache (fun c => bvstk_i2c_cache_invalidate c id i) w1) in
  cache_only w w2 /\ row_invalid (st_cache w) (st_cache w2) id (i + 1).
Proof.
  intros Hw Hid Hmax Hi (E1 & E2 & E3) (Hwf & Hn & Hini & Hrow).
  assert (wired w1) as Hw1 by (unfold wired in *; by rewrite E1, E2, E3, Hn, Hini).
  assert (in_table id i) as Hin by (split; lia).
  destruct (cache_status_wired w1 id i Hw1 ltac:(rewrite E1; lia)) as [Hp Hs].
  destruct (cache_invalidate_updated (st_cache w1) id i (st_ext w1) Hwf Hin Hs)
    as (c' & x' & Heq & Hwf' & Hn' & Hi' & _ & Hcells).
  unfold on_cache. rewrite Hp, Heq. cbn. split; [done|].
  split; [done|]. split; [congruence|]. split; [congruence|]. intros d r Hdr.
  rewrite Hcells by done. specialize (Hrow d r Hdr).
  destruct (decide (d = id /\ r = i)) as [[-> ->]|Hne].
  - by rewrite decide_True by lia.
  - destruct (decide (d = id /\ r < i)) as [Hlt|Hge].
    + by rewrite decide_True by lia.
    + by rewrite decide_False by lia.
Qed.

Lemma invalidate_all_runs id w :
  store_wf w -> wired w -> 0 <= id < dvs_count (st_devices w) ->
  runs (invalidate_all id) w (fun _ w' =>
    cache_only w w' /\ row_invalid (st_cache w) (st_cache w') id I2C_CFG_MAX_REG_COUNT).
Proof.
  intros (Hd & _ & Hc & _) Hw Hid. apply runs_mod. destruct Hd as (_ & Hmax & _).
  pose proof (for_each_ind
    (fun i w' => cache_only w w' /\ row_invalid (st_cache w) (st_cache w') id i)
    (Z.to_nat I2C_CFG_MAX_REG_COUNT) 0
    (fun r w => snd (on_cache (fun c => bvstk_i2c_cache_invalidate c id r) w)) w) as Hind.
  apply Hind.
  - intros i w1 Hi [H1 H2]. apply cache_invalidate_row; try done. lia.
  - split; [done|]. split; [done|]. split; [done|]. split; [done|].
    intros d r [_ Hr]. by rewrite decide_False by lia.
Qed.

(** The fields [set_config] checks, and the C types of the rest. *)
Definition config_ok (c : i2c_device_config_t) : Prop :=
  config_typed c /\ alen (cfg_name c) = I2C_CFG_NAME_MAX /\ (cfg_name c).[0] <> 0 /\
  1 <= cfg_reg_count c <= I2C_CFG_MAX_REG_COUNT /\ cfg_addr_7b c <= 0x7F.

Definition retargeted (d : bvstk_i2c_device_t) (c : i2c_device_config_t) : bool :=
  negb (dev_addr_7b d =? cfg_addr_7b c) || negb (dev_reg_count d =? cfg_reg_count c).

(** What installing [c] on device [id] does to the store. *)
Definition config_effect (id : Z) (c : i2c_device_config_t) (status : bvstk_status_t)
    (w w' : i2c_store) : Prop :=
  st_devices w' = Devices ((dvs_items (st_devices w)).[id <- config_device c])
    (dvs_count (st_devices w)) (dvs_initialized (st_devices w)) /\
  same_wiring (st_master w) (st_master w') /\
  (if config_lists_valid c
   then status = BVSTK_OK /\ st_policy w' =
     set_entry (st_policy w) id (load_config c ((pol_items (st_policy w)).[id]))
   else status = BVSTK_ERR_MALFORMED /\
     pol_items (st_policy w') = pol_items (st_policy w) /\ policy_wf (st_policy w') /\
     pol_device_count (st_policy w') = pol_device_count (st_policy w) /\
     pol_initialized (st_policy w') = pol_initialized (st_policy w)) /\
  if retargeted ((dvs_items (st_devices w)).[id]) c then
    row_invalid (st_cache w) (st_cache w') id I2C_CFG_MAX_REG_COUNT /\
    (sv_presence (st_master w')).[id] = BVSTK_I2C_PRESENCE_UNKNOWN
  else st_cache w' = st_cache w /\ st_master w' = st_master w.

Lemma copy_name_head name :
  alen name = I2C_CFG_NAME_MAX -> (copy_name name).[0] = name.[0].
Proof.
  intros Hl. unfold copy_name. unfold I2C_CFG_NAME_MAX in *. rewrite aget_aset_ne by lia.
  unfold copy_prefix, aget, alen in *.
  rewrite lookup_total_app_l by (rewrite length_take; lia).
  by rewrite lookup_total_take_lt by lia.
Qed.

Lemma config_device_valid c : config_ok c -> item_valid (Some (config_device c)) = true.
Proof.
  intros (_ & Hl & Hn & Hr & Ha). unfold item_valid, config_device. cbn.
  rewrite copy_name_head by done.
  rewrite (proj2 (Z.eqb_neq _ _)) by done. rewrite (proj2 (Z.leb_le _ 127)) by done.
  rewrite (proj2 (Z.eqb_neq (cfg_reg_count c) _)) by lia.
  by rewrite (proj2 (Z.leb_le _ _)) by lia.
Qed.

Lemma devices_set_valid w id c :
  wired w -> 0 <= id < dvs_count (st_devices w) -> config_ok c ->
  bvstk_i2c_devices_set (p_devices w) id (Some (config_device c)) =
    (BVSTK_OK, Some (Devices ((dvs_items (st_devices w)).[id <- config_device c])
       (dvs_count (st_devices w)) (dvs_initialized (st_devices w)))).
Proof.
  intros (Hp & _ & _ & H0 & _) [_ Hid] Hc. unfold p_devices. rewrite Hp.
  unfold bvstk_i2c_devices_set, device_status.
  rewrite (proj2 (Z.eqb_neq _ _) H0), (proj2 (Z.ltb_lt _ _) Hid).
  by rewrite config_device_valid.
Qed.

(** The presence and cache reset of a retargeted device. *)
Definition retarget (id : Z) (changed : bool) : ST i2c_store unit :=
  if changed then
    st_mod (fun w => put_master
      (set_presence (st_master w) id BVSTK_I2C_PRESENCE_UNKNOWN) w) ;;
    invalidate_all id
  else st_ret tt.

Lemma retarget_runs id changed w :
  store_wf w -> wired w -> 0 <= id < dvs_count (st_devices w) ->
  runs (retarget id changed) w (fun _ w' =>
    st_devices w' = st_devices w /\ st_policy w' = st_policy w /\
    same_wiring (st_master w) (st_master w') /\
    if changed then
      row_invalid (st_cache w) (st_cache w') id I2C_CFG_MAX_REG_COUNT /\
      (sv_presence (st_master w')).[id] = BVSTK_I2C_PRESENCE_UNKNOWN
    else st_cache w' = st_cache w /\ st_master w' = st_master w).
Proof.
  intros Hwf Hw Hid. unfold retarget. destruct changed.
  2:{ apply runs_ret. split; [done|]. split; [done|]. split; [apply same_wiring_refl|done]. }
  apply runs_bind, runs_mod. set (w1 := put_master _ w).
  assert (store_wf w1) as Hwf1.
  { destruct Hwf as (H1 & H2 & H3 & H4 & H5). repeat (split; [done|]). split; [|done].
    cbn. by rewrite alen_aset. }
  eapply runs_mono; [apply (invalidate_all_runs id w1 Hwf1 Hw Hid)|].
  intros ? w2 ((E1 & E2 & E3) & Hrow). split; [done|]. split; [done|]. rewrite E3.
  split; [apply same_wiring_set|]. split; [done|]. cbn.
  destruct Hwf as (Hd & _ & _ & Hlen & _). destruct Hd as (_ & Hmax & _).
  apply aget_aset_eq. lia.
Qed.

Lemma same_wiring_wired w w' :
  wired w -> same_wiring (st_master w) (st_master w') ->
  dvs_initialized (st_devices w') = dvs_initialized (st_devices w) ->
  dvs_count (st_devices w') = dvs_count (st_devices w) ->
  ca_initialized (st_cache w') = ca_initialized (st_cache w) ->
  ca_device_count (st_cache w') = ca_device_count (st_cache w) ->
  pol_initialized (st_policy w') = pol_initialized (st_policy w) ->
  pol_device_count (st_policy w') = pol_device_count (st_policy w) -> wired w'.
Proof.
  intros Hw (p & _ & Em) E1 E2 E3 E4 E5 E6. unfold wired in *.
  by rewrite Em, E1, E2, E3, E4, E5, E6.
Qed.

Lemma config_checks c : config_ok c ->
  ((cfg_name c).[0] =? 0) || (cfg_reg_count c =? 0) ||
  (I2C_CFG_MAX_REG_COUNT <? cfg_reg_count c) || (0x7F <? cfg_addr_7b c) = false.
Proof.
  intros (_ & _ & Hn & Hr & Ha).
  rewrite (proj2 (Z.eqb_neq _ _) Hn), (proj2 (Z.eqb_neq (cfg_reg_count c) 0)) by lia.
  by rewrite (proj2 (Z.ltb_ge _ (cfg_reg_count c))), (proj2 (Z.ltb_ge _ (cfg_addr_7b c)))
    by lia.
Qed.

(** Installing the lists: the policy step of [set_config]. *)
Lemma policy_config_runs id c w :
  store_wf w -> wired w -> 0 <= id < dvs_count (st_devices w) -> config_typed c ->
  runs (on_policy (fun p => bvstk_i2c_policy_set_config p id (Some c))) w (fun s w' =>
    st_devices w' = st_devices w /\ st_cache w' = st_cache w /\ st_master w' = st_master w /\
    if config_lists_valid c
    then s = BVSTK_OK /\ st_policy w' =
      set_entry (st_policy w) id (load_config c ((pol_items (st_policy w)).[id]))
    else s = BVSTK_ERR_MALFORMED /\
      pol_items (st_policy w') = pol_items (st_policy w) /\ policy_wf (st_policy w') /\
      pol_device_count (st_policy w') = pol_device_count (st_policy w) /\
      pol_initialized (st_policy w') = pol_initialized (st_policy w)).
Proof.
  intros (_ & Hp & _) (_ & _ & Hpp & _ & _ & Hpi & _ & Hcount) Hid Hty.
  assert (policy_status (Some (st_policy w)) id = BVSTK_OK) as Hst.
  { apply policy_status_ok. split; [done|lia]. }
  unfold runs, on_policy, p_policy. rewrite Hpp.
  unfold bvstk_i2c_policy_set_config. rewrite on_entry_run by done.
  destruct (config_lists_valid c) eqn:Hv; cbn [negb fst snd].
  - done.
  - repeat (split; [done|]). cbn [st_policy put_policy default].
    assert (pol_items (set_entry (st_policy w) id ((pol_items (st_policy w)).[id])) =
      pol_items (st_policy w)) as E.
    { cbn. apply list_insert_id. destruct Hp as (Hl & Hc & _). apply aget_lookup. lia. }
    split; [exact E|]. split; [|done].
    apply set_entry_wf; [done|destruct Hp as (_ & ? & _); lia|].
    destruct Hp as (_ & Hc & Hi). apply Hi. lia.
Qed.

Lemma retarget_wf id (changed : bool) w w' :
  store_wf w -> wired w ->
  st_devices w' = st_devices w -> st_policy w' = st_policy w ->
  same_wiring (st_master w) (st_master w') ->
  (if changed then
     row_invalid (st_cache w) (st_cache w') id I2C_CFG_MAX_REG_COUNT /\
     (sv_presence (st_master w')).[id] = BVSTK_I2C_PRESENCE_UNKNOWN
   else st_cache w' = st_cache w /\ st_master w' = st_master w) ->
  store_wf w' /\ wired w'.
Proof.
  intros Hwf Hw E1 E2 Hm Hr. pose proof Hwf as (H1 & H2 & H3 & H4 & _).
  assert (cache_wf (st_cache w') /\ ca_initialized (st_cache w') = ca_initialized (st_cache w) /\
    ca_device_count (st_cache w') = ca_device_count (st_cache w)) as (Hcw & Hci & Hcc).
  { destruct changed; [destruct Hr as [(?&?&?&_) _]|destruct Hr as [-> _]]; done. }
  assert (wired w') as Hw' by (apply (same_wiring_wired w); congruence || done).
  split; [|done]. unfold store_wf. rewrite E1, E2. repeat (split; [done|]). split; [|done].
  destruct Hm as (p & Hp & ->). cbn. by rewrite Hp.
Qed.

(** The notification and the end of the critical section. *)
Lemma notify_tail_runs id c s w (Q : bvstk_status_t -> i2c_store -> Prop) :
  (forall w', data_eq w w' -> Q s w') ->
  runs ((if is_ok s then notify_config_changed id c else st_ret tt) ;;
        sink_leave ;; st_ret s) w Q.
Proof.
  intros HQ. apply runs_bind.
  assert (forall w', data_eq w w' -> runs (sink_leave ;; st_ret s) w' Q) as Hend.
  { intros w' Hw'. apply runs_bind, runs_mod, runs_ret, HQ. done. }
  destruct (is_ok s); [|by apply runs_ret, Hend].
  apply runs_mod, Hend. by destruct (sv_cache_config_changed _).
Qed.

Lemma set_config_runs id c w :
  store_wf w -> 0 <= id -> config_ok c -> service_status true id w = BVSTK_OK ->
  runs (bvstk_i2c_master_service_set_config true id (Some c)) w
    (fun s w' => config_effect id c s w w').
Proof.
  intros Hwf Hid Hc Hst. destruct (service_status_ok w id Hwf Hst) as [Hw Hlt].
  unfold bvstk_i2c_master_service_set_config, runs. rewrite Hst, config_checks by done.
  rewrite devices_get_ok by (done || lia).
  match goal with |- config_effect _ _ (fst (?m w)) w _ =>
    apply (runs_bind _ _ w (fun s w' => config_effect id c s w w')) end.
  apply runs_mod. set (w1 := put_ext _ w).
  apply runs_bind. unfold runs at 1, on_devices.
  change (p_devices w1) with (p_devices w). rewrite devices_set_valid by (done || lia).
  cbn [fst snd is_ok negb]. set (w2 := put_devices _ w1).
  assert (store_wf w2) as Hwf2.
  { destruct Hwf as (Hd & H2 & H3 & H4 & H5).
    split; [|done]. destruct Hd as (Hl & Hcn & H0 & Hi). unfold w2. cbn.
    split; [cbn; by rewrite alen_aset|]. split; [done|]. split; [done|]. cbn.
    intros i Hi'. destruct (decide (i = id)) as [->|].
    - rewrite aget_aset_eq by lia. by apply config_device_valid.
    - rewrite aget_aset_ne by lia. by apply Hi. }
  apply runs_bind.
  eapply runs_mono; [apply (retarget_runs id
    (retargeted ((dvs_items (st_devices w)).[id]) c) w2 Hwf2 Hw ltac:(cbn; lia))|].
  intros ? w3 (E1 & E2 & Hm3 & Hreset).
  destruct (retarget_wf id _ w2 w3 Hwf2 Hw E1 E2 Hm3 Hreset) as [Hwf3 Hw3].
  apply runs_bind. eapply runs_mono.
  { apply (policy_config_runs id c w3 Hwf3 Hw3); [rewrite E1; cbn; lia|by destruct Hc]. }
  intros s w4 (F1 & F2 & F3 & Hpol).
  apply (notify_tail_runs id c s w4 (fun s w' => config_effect id c s w w')).
  intros w5 (G1 & G2 & G3 & G4). unfold config_effect.
  rewrite G1, G2, G3, G4, F1, F2, F3, E1. rewrite E2 in Hpol.
  split; [done|]. split; [done|]. split; [exact Hpol|exact Hreset].
Qed.

(** ** Replies arriving in any store *)

(** Either the cache is untouched, or the device is still the one addressed
    and exactly the replied cell changed. *)
Definition reply_outcome (id : Z) (target : bvstk_i2c_device_t) (reg value : Z)
    (status : bvstk_status_t) (w w' : i2c_store) : Prop :=
  st_devices w' = st_devices w /\ st_policy w' = st_policy w /\
  same_wiring (st_master w) (st_master w') /\
  (st_cache w' = st_cache w \/
   (0 <= id < dvs_count (st_devices w) /\ in_table id reg /\
    same_target ((dvs_items (st_devices w)).[id]) target reg = true /\
    exists e, cell_updated (st_cache w) (st_cache w') id reg e /\
      if is_ok status then exists t, e = CacheEntry value 1 0 t
      else e = CacheEntry (tget (ca_values (st_cache w)) id reg) 0 0 0)).

Lemma reply_outcome_wf id target reg value status w w' :
  store_wf w -> reply_outcome id target reg value status w w' -> store_wf w'.
Proof.
  intros (H1 & H2 & H3 & H4 & H5) (E1 & E2 & Hm & Hc).
  assert (cache_wf (st_cache w') /\ ca_initialized (st_cache w') = ca_initialized (st_cache w) /\
    ca_device_count (st_cache w') = ca_device_count (st_cache w)) as (Hcw & Hci & Hcc).
  { destruct Hc as [-> | (_ & _ & _ & e & (?&?&?&_) & _)]; done. }
  destruct Hm as (p & Hp & Em). unfold store_wf, wired in *.
  rewrite E1, E2, Em, Hci, Hcc. cbn. by rewrite Hp.
Qed.

Lemma cache_response_unwired id target reg value status w :
  sv_devices (st_master w) = false ->
  runs (cache_response id target reg value status) w (fun _ w' => data_eq w w').
Proof.
  intros Hd. apply runs_bind, runs_mod, runs_bind, runs_get.
  set (w1 := put_ext _ w). unfold p_devices. change (sv_devices (st_master w1)) with
    (sv_devices (st_master w)). rewrite Hd. cbn. by apply runs_bind, runs_ret, runs_mod.
Qed.

Lemma cache_response_outcome id target reg value status w :
  store_wf w -> 0 <= id -> 0 <= reg ->
  runs (cache_response id target reg value status) w
    (fun _ w' => reply_outcome id target reg value status w w').
Proof.
  intros Hwf Hid Hreg. destruct (sv_devices (st_master w)) eqn:Hd.
  - assert (wired w) as Hw by (destruct Hwf as (_ & _ & _ & _ & Hw); apply Hw; by right).
    eapply runs_mono; [by apply cache_response_runs|].
    intros ? w' (E1 & E2 & E3 & He). split; [done|]. split; [done|].
    rewrite E3. split; [apply same_wiring_refl|].
    cbv zeta in He.
    destruct ((id <? dvs_count (st_devices w)) &&
      same_target ((dvs_items (st_devices w)).[id]) target reg) eqn:Hg; [|by left].
    bsimp. right.
    split; [lia|]. split; [|by split].
    apply (known_reg_in_table w); [by destruct Hwf|lia|done|].
    match goal with H : same_target _ _ _ = true |- _ => unfold same_target in H end.
    bsimp. done.
  - eapply runs_mono; [by apply cache_response_unwired|].
    intros ? w' (E1 & E2 & E3 & E4). unfold reply_outcome. rewrite E4.
    auto using same_wiring_refl.
Qed.

(** The cache part of a reply, after the presence update and the event. *)
Lemma outcome_after w1 w2 w3 id target reg value status :
  presence_only w1 w2 -> reply_outcome id target reg value status w2 w3 ->
  reply_outcome id target reg value status w1 w3.
Proof.
  intros (E1 & E2 & E3 & Hm) (F1 & F2 & Fm & Fc). unfold reply_outcome.
  rewrite E1, E2, E3 in *. split; [done|]. split; [done|].
  split; [by eapply same_wiring_trans|done].
Qed.

Lemma outcome_before w1 w2 w3 id target reg value status :
  reply_outcome id target reg value status w1 w2 -> data_eq w2 w3 ->
  reply_outcome id target reg value status w1 w3.
Proof.
  intros (E1 & E2 & Hm & Hc) (F1 & F2 & F3 & F4). unfold reply_outcome.
  by rewrite F1, F2, F3, F4.
Qed.

Lemma presence_only_wf w w' : presence_only w w' -> store_wf w -> store_wf w'.
Proof.
  intros (E1 & E2 & E3 & (p & Hp & Em)). unfold store_wf, wired.
  rewrite E1, E2, E3, Em. cbn. by rewrite Hp.
Qed.

Lemma read_finish_outcome id device wp reg source status value w :
  store_wf w -> 0 <= id -> 0 <= reg ->
  runs (read_finish id device wp reg source status value) w
    (fun _ w' => reply_outcome id device reg (if is_ok status then value else 0) status w w').
Proof.
  intros Hwf Hid Hreg. apply runs_bind.
  eapply runs_mono; [apply record_response_runs|]. intros ? w1 H1.
  apply runs_bind. eapply runs_mono; [apply emit_flags_runs|]. intros ? w2 H2.
  assert (presence_only w w2) as H12
    by (eapply presence_only_trans; [exact H1|by apply data_presence_only]).
  eapply runs_mono.
  { apply cache_response_outcome; [by eapply presence_only_wf|done|done]. }
  intros ? w3 H3. by eapply outcome_after.
Qed.

Lemma write_finish_outcome id device wp reg value source status w :
  store_wf w -> 0 <= id -> 0 <= reg ->
  runs (write_finish id device wp reg value source status) w
    (fun _ w' => reply_outcome id device reg (if is_ok status then value else 0) status w w').
Proof.
  intros Hwf Hid Hreg. apply runs_bind.
  eapply runs_mono; [apply record_response_runs|]. intros ? w1 H1.
  apply runs_bind. eapply runs_mono; [apply emit_flags_runs|]. intros ? w2 H2.
  assert (presence_only w w2) as H12
    by (eapply presence_only_trans; [exact H1|by apply data_presence_only]).
  destruct (is_ok status) eqn:Hok; cbn [negb]; apply runs_bind.
  - apply is_ok_true in Hok as ->. eapply runs_mono.
    { apply cache_response_outcome; [by eapply presence_only_wf|done|done]. }
    intros ? w3 H3. eapply runs_mono; [apply emit_flags_runs|]. intros ? w4 H4.
    eapply outcome_before; [|exact H4]. by eapply outcome_after.
  - eapply runs_mono; [apply emit_flags_runs|]. intros ? w3 H3.
    assert (presence_only w w3) as H13
      by (eapply presence_only_trans; [exact H12|by apply data_presence_only]).
    eapply runs_mono.
    { apply cache_response_outcome; [by eapply presence_only_wf|done|done]. }
    intros ? w4 H4. by eapply outcome_after.
Qed.

(** ** The service under interleaving *)

(** Calls that only touch the policy. *)
Inductive policy_call :=
  | CallSetPolicy (mode : Z)
  | CallAllow (reg value : Z)
  | CallDeny (reg value : Z)
  | CallClear (reg value : Z)
  | CallRemove (lst reg value : Z)
  | CallClearList (lst : Z).

Definition run_policy_call (service : bool) (id : Z) (c : policy_call)
    : ST i2c_store bvstk_status_t :=
  match c with
  | CallSetPolicy mode => bvstk_i2c_master_service_set_policy service id mode
  | CallAllow reg value => bvstk_i2c_master_service_rule_allow service id reg value
  | CallDeny reg value => bvstk_i2c_master_service_rule_deny service id reg value
  | CallClear reg value => bvstk_i2c_master_service_rule_clear service id reg value
  | CallRemove lst reg value => bvstk_i2c_master_service_rule_remove service id lst reg value
  | CallClearList lst => bvstk_i2c_master_service_rule_clear_list service id lst
  end.

Lemma with_device_runs id k w :
  policy_wf (st_policy w) ->
  (forall device, runs (k device) w (fun _ w' => policy_only w w')) ->
  runs (with_device id k) w (fun _ w' => policy_only w w').
Proof.
  intros Hp Hk. unfold with_device, runs.
  assert (policy_only w w) by (by apply data_policy_only).
  destruct (bvstk_i2c_devices_get _ _ _) as [[] [d|]]; try done. apply Hk.
Qed.

Lemma run_policy_call_runs service id c w :
  policy_wf (st_policy w) -> 0 <= id ->
  runs (run_policy_call service id c) w (fun _ w' => policy_only w w').
Proof.
  intros Hp Hid.
  assert (forall w', data_eq w w' -> policy_wf (st_policy w')) as Hp'
    by (intros w' (_ & _ & E & _); by rewrite E).
  destruct c as [m|r v|r v|r v|l r v|l]; cbn [run_policy_call].
  - apply guarded_runs; [done|]. intros w' Hw'. by apply (on_policy_runs _ id (OpSetMode m)); eauto.
  - apply guarded_runs; [done|]. intros w' Hw'. apply with_device_runs; [by apply Hp'|].
    intros d. by apply (on_policy_runs _ id (OpAllow r v (Some d))); eauto.
  - apply guarded_runs; [done|]. intros w' Hw'. apply with_device_runs; [by apply Hp'|].
    intros d. by apply (on_policy_runs _ id (OpDeny r v (Some d))); eauto.
  - apply guarded_runs; [done|]. intros w' Hw'. by apply (on_policy_runs _ id (OpRemove r v)); eauto.
  - unfold bvstk_i2c_master_service_rule_remove, runs.
    assert (policy_only w w) by (by apply data_policy_only).
    destruct (service_status _ _ _); try done. destruct (mode_valid l); [|done]. cbn [negb].
    apply (guarded_runs service id _ w Hp). intros w' Hw'.
    apply with_device_runs; [by apply Hp'|]. intros d. destruct (_ || _).
    + apply runs_ret. by apply data_policy_only; [|apply Hp'].
    + by apply (on_policy_runs _ id (OpRemoveList l r v)); eauto.
  - apply guarded_runs; [done|]. intros w' Hw'. by apply (on_policy_runs _ id (OpClear l)); eauto.
Qed.

(** A configuration argument as its C type guarantees it. *)
Definition config_arg (c : i2c_device_config_t) : Prop :=
  config_typed c /\ alen (cfg_name c) = I2C_CFG_NAME_MAX /\ 0 <= cfg_reg_count c.

(** Successful transfers so far: (address, register, value). *)
Definition bus_log : Type := list (Z * Z * Z).

Definition log_reply (device : bvstk_i2c_device_t) (reg value : Z) (status : bvstk_status_t)
    (log : bus_log) : bus_log :=
  if is_ok status then (dev_addr_7b device, reg, value) :: log else log.

(** One step of the system.  A read or a write is two events: its transfer,
    which other tasks' steps may precede and follow, and its reply, here with
    any descriptor [device] taken earlier and any outcome. *)
Inductive master_step : i2c_store * bus_log -> i2c_store * bus_log -> Prop :=
  | step_read_reply w log id device wp reg source status value :
      0 <= id -> 0 <= reg ->
      master_step (w, log)
        (snd (read_finish id device wp reg source status value w),
         log_reply device reg value status log)
  | step_write_reply w log id device wp reg value source status :
      0 <= id -> 0 <= reg ->
      master_step (w, log)
        (snd (write_finish id device wp reg value source status w),
         log_reply device reg value status log)
  | step_policy_call w log id c :
      0 <= id -> master_step (w, log) (snd (run_policy_call true id c w), log)
  | step_set_config w log id c :
      0 <= id -> config_arg c ->
      master_step (w, log) (snd (bvstk_i2c_master_service_set_config true id (Some c) w), log)
  | step_seed w log id reg value :
      in_table id reg ->
      master_step (w, log)
        (let '(_, c, x) := bvstk_i2c_cache_seed (Some (st_cache w)) id reg value (st_ext w) in
         put_ext x (put_cache c w), log)
  | step_init w log hardware io events :
      master_step (w, log)
        (snd (bvstk_i2c_master_service_init true hardware io true true true events w), log)
  | step_shutdown w log :
      master_step (w, log) (snd (bvstk_i2c_master_service_shutdown true w), log)
  | step_world w log x : master_step (w, log) (put_ext x w, log).

(** Every valid cell that is not a configuration seed holds a value that a
    transfer with the address the device has now moved over the bus. *)
Definition provenance (w : i2c_store) (log : bus_log) : Prop :=
  forall id r, 0 <= id < dvs_count (st_devices w) -> 0 <= r < I2C_CFG_MAX_REG_COUNT ->
    let e := cell (st_cache w) id r in
    ce_valid e <> 0 -> ce_seeded e = 0 ->
    (dev_addr_7b ((dvs_items (st_devices w)).[id]), r, ce_value e) ∈ log.

Lemma provenance_same w w' log :
  st_devices w' = st_devices w -> st_cache w' = st_cache w ->
  provenance w log -> provenance w' log.
Proof. intros E1 E2. unfold provenance. by rewrite E1, E2. Qed.

Lemma reply_provenance id device reg value shown status w w' log :
  (is_ok status = true -> shown = value) -> devices_wf (st_devices w) ->
  reply_outcome id device reg shown status w w' ->
  provenance w log -> provenance w' (log_reply device reg value status log).
Proof.
  intros Hshown (_ & Hcn & _) (E1 & _ & _ & Hc) Hp i r Hi Hr e Hv Hs. unfold log_reply.
  rewrite E1 in *.
  assert ((dev_addr_7b ((dvs_items (st_devices w)).[i]), r, ce_value (cell (st_cache w) i r)) ∈ log ->
    cell (st_cache w') i r = cell (st_cache w) i r ->
    (dev_addr_7b ((dvs_items (st_devices w)).[i]), r, ce_value e) ∈
    (if is_ok status then (dev_addr_7b device, reg, value) :: log else log)) as Hold.
  { unfold e. intros Hin ->. destruct (is_ok status); [by apply list_elem_of_further|done]. }
  destruct Hc as [Hc|(Hid & Hin & Ht & e' & (_ & _ & _ & _ & Hcells) & He')].
  - unfold e in *. rewrite Hc in *. apply Hold; [|done]. by apply Hp.
  - assert (in_table i r) as Hir by (split; lia). specialize (Hcells i r Hir).
    destruct (decide (i = id /\ r = reg)) as [[-> ->]|Hne].
    + unfold e in *. rewrite Hcells in *.
      destruct (is_ok status); [|by rewrite He' in Hv]. destruct He' as [t ->]. cbn in *.
      rewrite Hshown by done. unfold same_target in Ht. bsimp.
      match goal with H : dev_addr_7b _ = dev_addr_7b device |- _ => rewrite H end.
      apply list_elem_of_here.
    + apply Hold; [|done]. unfold e in *. rewrite Hcells in *. by apply Hp.
Qed.

Lemma config_effect_wf id c status w w' :
  store_wf w -> wired w -> 0 <= id < dvs_count (st_devices w) -> config_ok c ->
  config_effect id c status w w' -> store_wf w'.
Proof.
  intros Hwf Hw Hid Hc (E1 & Hm & Hpol & Hre).
  pose proof Hwf as (Hd & H2 & H3 & H4 & _). pose proof Hd as (Hl & Hcn & H0 & Hi).
  assert (policy_wf (st_policy w') /\ pol_device_count (st_policy w') = pol_device_count (st_policy w)
    /\ pol_initialized (st_policy w') = pol_initialized (st_policy w)) as (Hpw & Hpc & Hpi).
  { destruct (config_lists_valid c) eqn:Hv; [|by destruct Hpol as (_ & _ & ?)].
    destruct Hpol as [_ ->]. split; [|done]. apply set_entry_wf; [done|lia|].
    apply load_config_wf; [by destruct Hc|done|]. destruct H2 as (_ & _ & H2). apply H2. lia. }
  assert (cache_wf (st_cache w') /\ ca_initialized (st_cache w') = ca_initialized (st_cache w) /\
    ca_device_count (st_cache w') = ca_device_count (st_cache w)) as (Hcw & Hci & Hcc).
  { destruct (retargeted _ _); [destruct Hre as [(?&?&?&_) _]|destruct Hre as [-> _]]; done. }
  assert (wired w') as Hw'.
  { apply (same_wiring_wired w); try done; by rewrite E1. }
  split; [|split; [done|split; [done|split; [|done]]]].
  - rewrite E1. split; [cbn; by rewrite alen_aset|]. split; [done|]. split; [done|]. cbn.
    intros i Hi'. destruct (decide (i = id)) as [->|].
    + rewrite aget_aset_eq by lia. by apply config_device_valid.
    + rewrite aget_aset_ne by lia. by apply Hi.
  - destruct Hm as (p & Hp & ->). cbn. by rewrite Hp.
Qed.

Lemma config_effect_provenance id c status w w' log :
  store_wf w -> 0 <= id < dvs_count (st_devices w) ->
  config_effect id c status w w' -> provenance w log -> provenance w' log.
Proof.
  intros (Hd & _) Hid (E1 & _ & _ & Hre) Hp i r Hi Hr e. subst e.
  rewrite E1 in *. cbn [dvs_count dvs_items] in *. destruct Hd as (Hl & Hcn & _).
  destruct (retargeted ((dvs_items (st_devices w)).[id]) c) eqn:Hrt.
  - destruct Hre as [(_ & _ & _ & Hrow) _]. specialize (Hrow i r ltac:(split; lia)).
    destruct (decide (i = id /\ r < I2C_CFG_MAX_REG_COUNT)) as [|Hne]; [by rewrite Hrow|].
    rewrite Hrow. rewrite aget_aset_ne by lia. by apply Hp.
  - destruct Hre as [Hc _]. rewrite Hc. intros Hv Hs.
    unfold retargeted in Hrt. bsimp. destruct (decide (i = id)) as [->|Hne].
    + rewrite aget_aset_eq by lia. cbn. specialize (Hp id r Hid Hr Hv Hs).
      match goal with H : dev_addr_7b _ = _ |- _ => by rewrite <- H end.
    + rewrite aget_aset_ne by lia. by apply Hp.
Qed.

Lemma set_config_refused id c w :
  service_status true id w <> BVSTK_OK \/
  ((cfg_name c).[0] =? 0) || (cfg_reg_count c =? 0) ||
  (I2C_CFG_MAX_REG_COUNT <? cfg_reg_count c) || (0x7F <? cfg_addr_7b c) = true ->
  snd (bvstk_i2c_master_service_set_config true id (Some c) w) = w.
Proof.
  unfold bvstk_i2c_master_service_set_config. intros [Hs | ->];
    by destruct (service_status true id w).
Qed.

Lemma config_arg_ok c :
  config_arg c ->
  ((cfg_name c).[0] =? 0) || (cfg_reg_count c =? 0) ||
  (I2C_CFG_MAX_REG_COUNT <? cfg_reg_count c) || (0x7F <? cfg_addr_7b c) = false ->
  config_ok c.
Proof. intros (Ht & Hl & Hr) Hchk. bsimp. repeat (split; [done|]). split; lia. Qed.

Lemma set_config_step id c w log :
  store_wf w -> provenance w log -> 0 <= id -> config_arg c ->
  let w' := snd (bvstk_i2c_master_service_set_config true id (Some c) w) in
  store_wf w' /\ provenance w' log.
Proof.
  intros Hwf Hp Hid Harg. cbv zeta.
  destruct (decide (service_status true id w = BVSTK_OK)) as [Hst|Hst];
    [|by rewrite set_config_refused by auto].
  destruct (((cfg_name c).[0] =? 0) || (cfg_reg_count c =? 0) ||
    (I2C_CFG_MAX_REG_COUNT <? cfg_reg_count c) || (0x7F <? cfg_addr_7b c)) eqn:Hchk;
    [by rewrite set_config_refused by auto|].
  pose proof (config_arg_ok c Harg Hchk) as Hok.
  pose proof (set_config_runs id c w Hwf Hid Hok Hst) as Heff. unfold runs in Heff.
  destruct (service_status_ok w id Hwf Hst) as [Hw Hlt].
  split; [eapply config_effect_wf|eapply config_effect_provenance]; try done; lia.
Qed.

Lemma seed_step w log id reg value :
  store_wf w -> provenance w log -> in_table id reg ->
  let w' := (let '(_, c, x) := bvstk_i2c_cache_seed (Some (st_cache w)) id reg value (st_ext w) in
             put_ext x (put_cache c w)) in
  store_wf w' /\ provenance w' log.
Proof.
  intros Hwf Hp Hin.
  destruct (decide (cache_status (Some (st_cache w)) id reg = BVSTK_OK)) as [Hst|Hst].
  - destruct Hwf as (H1 & H2 & H3 & H4 & H5).
    destruct (cache_seed_updated (st_cache w) id reg value (st_ext w) H3 Hin Hst)
      as (c' & t & x' & Heq & Hcw & Hcc & Hci & _ & Hcells).
    rewrite Heq. cbv zeta. split.
    + repeat (split; [done|]). unfold wired in *. cbn. by rewrite Hci, Hcc.
    + intros i r Hi Hr. cbn [st_cache put_ext put_cache default st_devices].
      destruct H1 as (_ & ? & _). rewrite Hcells by (split; cbn in Hi; lia).
      case_decide; [done|]. by apply Hp.
  - unfold bvstk_i2c_cache_seed. destruct (cache_status _ _ _); done.
Qed.

Lemma init_step w log hardware io events :
  store_wf w -> provenance w log ->
  let w' := snd (bvstk_i2c_master_service_init true hardware io true true true events w) in
  store_wf w' /\ provenance w' log.
Proof.
  intros Hwf Hp. unfold bvstk_i2c_master_service_init. cbn [negb orb].
  match goal with |- context [if ?b then _ else _] => destruct b eqn:Hb end; [done|].
  bsimp. destruct Hwf as (Ha & Hc & Hd & _). split; [|done].
  by repeat (split; [done|]).
Qed.

Lemma master_step_inv w log w' log' :
  store_wf w -> provenance w log -> master_step (w, log) (w', log') ->
  store_wf w' /\ provenance w' log'.
Proof.
  intros Hwf Hp Hstep. pose proof Hwf as (Hd & Hpol & _).
  inversion Hstep; subst; clear Hstep.
  - pose proof (read_finish_outcome id device wp reg source status value w) as Ho.
    unfold runs in Ho. specialize (Ho ltac:(done) ltac:(done) ltac:(done)).
    split; [by eapply reply_outcome_wf|]. eapply reply_provenance; [|done|exact Ho|done].
    by intros ->.
  - pose proof (write_finish_outcome id device wp reg value source status w) as Ho.
    unfold runs in Ho. specialize (Ho ltac:(done) ltac:(done) ltac:(done)).
    split; [by eapply reply_outcome_wf|]. eapply reply_provenance; [|done|exact Ho|done].
    by intros ->.
  - pose proof (run_policy_call_runs true id c w Hpol ltac:(done)) as Ho. unfold runs in Ho.
    split; [by eapply policy_only_wf|]. destruct Ho as (E1 & E2 & _).
    by eapply provenance_same.
  - by apply set_config_step.
  - by apply seed_step.
  - by apply init_step.
  - split; [|done]. destruct Hwf as (Ha & Hb & Hc & _). repeat (split; [done|]).
    cbn. intros [|]; done.
  - done.
Qed.

(** C30: However policy and configuration calls, seeds, restarts of
    the service and the replies of transfers started at any earlier time
    interleave, the store stays well formed, and every cached register value
    that is valid and not a seed was moved over the bus with the address its
    device is configured with now: no reply of a previous device is kept, and
    none enters late. *)
Theorem master_cache_provenance w0 w log :
  store_wf w0 -> provenance w0 [] -> steps master_step (w0, []) (w, log) ->
  store_wf w /\ provenance w log.
Proof.
  intros Hwf Hp Hsteps.
  apply (steps_invariant master_step (fun s => store_wf (fst s) /\ provenance (fst s) (snd s))
    ltac:(intros [w1 l1] [w2 l2] [? ?] ?; by eapply master_step_inv) (w0, []) (w, log));
    done.
Qed.

(** ** What a write does outside the store *)

(** An observation of the external world: events published, registers
    written over the bus. *)
Inductive observation :=
  | Published (type status addr reg value : Z)
  | BusWrite (addr reg value : Z).

Definition event_observation (e : bvstk_event_t) : observation :=
  Published (ev_type e) (ev_status e) (ev_arg0 e) (ev_arg1 e) (ev_arg2 e).

(** [trace] records the published events and the bus writes, and nothing else. *)
Record monitored (trace : X -> list observation) (w : i2c_store) : Prop := {
  mon_now : forall x, trace (snd (bvstk_platform_now_ms x)) = trace x;
  mon_enter : forall x, trace (bvstk_cache_sink_enter (ca_sink (st_cache w)) x) = trace x;
  mon_leave : forall x, trace (bvstk_cache_sink_leave (ca_sink (st_cache w)) x) = trace x;
  mon_entry : forall d r v a b t x,
    trace (bvstk_cache_sink_entry (ca_sink (st_cache w)) d r v a b t x) = trace x;
  mon_presence : forall d p x,
    trace (bvstk_cache_sink_presence (ca_sink (st_cache w)) d p x) = trace x;
  mon_publish : exists pub, publish (sv_events (st_master w)) = Some pub /\
    forall e x, trace (pub e x) = trace x ++ [event_observation e];
  mon_backend :
    match io_write_reg (sv_io (st_master w)), sv_hardware (st_master w) with
    | Some f, _ => forall a r v t x, trace (snd (f a r v t x)) = trace x ++ [BusWrite a r v]
    | None, Some hw => forall a r v t x,
        trace (snd (bvstk_i2c_master_hw_write_reg hw a r v t x)) = trace x ++ [BusWrite a r v]
    | None, None => False
    end
}.

Section trace.
Context (trace : X -> list observation).

Lemma monitored_data_eq w w' : data_eq w w' -> monitored trace w -> monitored trace w'.
Proof.
  intros (E1 & E2 & E3 & E4) []. constructor; by rewrite ?E2, ?E4.
Qed.

(** The computation extends the trace by [obs]. *)
Definition extends (obs : list observation) (w w' : i2c_store) : Prop :=
  trace (st_ext w') = trace (st_ext w) ++ obs.

Lemma extends_trans o1 o2 w1 w2 w3 :
  extends o1 w1 w2 -> extends o2 w2 w3 -> extends (o1 ++ o2) w1 w3.
Proof. unfold extends. intros E1 E2. by rewrite E2, E1, app_assoc. Qed.

Lemma emit_extends type status source op device reg value flags w pub :
  (forall x, trace (snd (bvstk_platform_now_ms x)) = trace x) ->
  publish (sv_events (st_master w)) = Some pub ->
  (forall e x, trace (pub e x) = trace x ++ [event_observation e]) ->
  runs (emit_flags type status source op device reg value flags) w (fun _ w' =>
    extends [Published type status (dev_addr_7b device) reg value] w w').
Proof.
  intros Hnow Hp Hpub. unfold emit_flags, runs, on_ext, extends. rewrite Hp.
  specialize (Hnow (st_ext w)).
  destruct (bvstk_platform_now_ms (st_ext w)) as [now x]. cbn in *.
  by rewrite Hpub, Hnow.
Qed.

(** Silent: the store's sink calls leave no trace. *)
Definition silent_sink (w : i2c_store) : Prop :=
  (forall x, trace (bvstk_cache_sink_enter (ca_sink (st_cache w)) x) = trace x) /\
  (forall x, trace (bvstk_cache_sink_leave (ca_sink (st_cache w)) x) = trace x) /\
  (forall d r v a b t x,
    trace (bvstk_cache_sink_entry (ca_sink (st_cache w)) d r v a b t x) = trace x) /\
  (forall d p x,
    trace (bvstk_cache_sink_presence (ca_sink (st_cache w)) d p x) = trace x) /\
  (forall x, trace (snd (bvstk_platform_now_ms x)) = trace x).

Lemma record_response_silent device_id address status read w :
  silent_sink w ->
  runs (record_response device_id address status read) w (fun _ w' => extends [] w w').
Proof.
  intros (Hen & Hle & _ & Hpr & _). apply runs_bind, runs_mod, runs_bind, runs_get.
  set (w1 := put_ext _ w).
  assert (extends [] w w1) as H1 by (unfold extends, w1; cbn; by rewrite Hen, app_nil_r).
  assert (forall w', st_cache w' = st_cache w -> extends [] w w' ->
    runs sink_leave w' (fun _ w'' => extends [] w w'')) as Hleave.
  { intros w' Hc Hw'. apply runs_mod. unfold extends in *. cbn. by rewrite Hc, Hle. }
  assert (forall w', st_cache w' = st_cache w -> extends [] w w' ->
    runs (st_mod (fun w => put_ext (bvstk_cache_sink_presence (ca_sink (st_cache w)) device_id
      ((sv_presence (st_master w)).[device_id]) (st_ext w)) w) ;; sink_leave) w'
      (fun _ w'' => extends [] w w'')) as Hend.
  { intros w' Hc Hw'. apply runs_bind, runs_mod, Hleave; [done|].
    unfold extends in *. cbn. by rewrite Hc, Hpr. }
  destruct (bvstk_i2c_devices_get _ _ _) as [[] [current|]]; try (by apply Hleave).
  destruct (negb _); [by apply Hleave|]. apply runs_bind.
  destruct status; try destruct read; apply runs_mod || apply runs_ret; by apply Hend.
Qed.

Lemma on_cache_write_silent id reg value w :
  silent_sink w ->
  runs (on_cache (fun c => bvstk_i2c_cache_write c id reg value)) w (fun _ w' =>
    extends [] w w' /\ ca_sink (st_cache w') = ca_sink (st_cache w) /\
    st_master w' = st_master w).
Proof.
  intros (Hen & Hle & Hent & _ & Hnow). unfold runs, on_cache, p_cache.
  destruct (sv_cache _).
  - unfold bvstk_i2c_cache_write. destruct (cache_status _ _ _);
      try (split; [unfold extends; by rewrite app_nil_r|done]).
    specialize (Hnow (bvstk_cache_sink_enter (ca_sink (st_cache w)) (st_ext w))).
    destruct (bvstk_platform_now_ms _) as [now x]. split; [|done].
    unfold extends. cbn in *. by rewrite Hle, Hent, Hnow, Hen, app_nil_r.
  - split; [unfold extends; by rewrite app_nil_r|done].
Qed.

Lemma on_cache_invalidate_silent id reg w :
  silent_sink w ->
  runs (on_cache (fun c => bvstk_i2c_cache_invalidate c id reg)) w (fun _ w' =>
    extends [] w w' /\ ca_sink (st_cache w') = ca_sink (st_cache w) /\
    st_master w' = st_master w).
Proof.
  intros (Hen & Hle & Hent & _ & Hnow). unfold runs, on_cache, p_cache.
  destruct (sv_cache _).
  - unfold bvstk_i2c_cache_invalidate. destruct (cache_status _ _ _);
      (split; [|done]); unfold extends; cbn; rewrite ?app_nil_r; try done.
    by rewrite Hle, Hent, Hen.
  - split; [unfold extends; by rewrite app_nil_r|done].
Qed.

Lemma cache_response_silent id target reg value status w :
  silent_sink w ->
  runs (cache_response id target reg value status) w (fun _ w' =>
    extends [] w w' /\ st_master w' = st_master w).
Proof.
  intros Hs. pose proof Hs as (Hen & Hle & _). apply runs_bind, runs_mod, runs_bind, runs_get.
  set (w1 := put_ext _ w).
  assert (extends [] w w1) as Hw1 by (unfold extends, w1; cbn; by rewrite Hen, app_nil_r).
  assert (silent_sink w1) as Hs1 by exact Hs.
  assert (forall w2, extends [] w1 w2 /\ ca_sink (st_cache w2) = ca_sink (st_cache w1) /\
    st_master w2 = st_master w1 -> runs sink_leave w2 (fun _ w' =>
    extends [] w w' /\ st_master w' = st_master w)) as Hend.
  { intros w2 (E1 & E2 & E3). apply runs_mod. split; [|done].
    unfold extends in *. cbn. by rewrite E2, Hle, E1, Hw1, !app_nil_r. }
  assert (extends [] w1 w1) as Hrefl by (unfold extends; by rewrite app_nil_r).
  apply runs_bind. destruct (bvstk_i2c_devices_get _ _ _) as [[] [current|]];
    try (by apply runs_ret, Hend).
  destruct (same_target _ _ _); [|by apply runs_ret, Hend].
  destruct (is_ok status); apply runs_bind; (eapply runs_mono;
    [apply on_cache_write_silent || apply on_cache_invalidate_silent; exact Hs1|]);
    intros ? w2 Hw2; by apply runs_ret, Hend.
Qed.

Definition publishes (w : i2c_store) : Prop :=
  exists pub, publish (sv_events (st_master w)) = Some pub /\
    forall e x, trace (pub e x) = trace x ++ [event_observation e].

Definition observed (w : i2c_store) : Prop := silent_sink w /\ publishes w.

Lemma observed_data_eq w w' : data_eq w w' -> observed w -> observed w'.
Proof.
  intros (E1 & E2 & E3 & E4). unfold observed, silent_sink, publishes. by rewrite E2, E4.
Qed.

Lemma observed_presence_only w w' : presence_only w w' -> observed w -> observed w'.
Proof.
  intros (E1 & E2 & E3 & (p & _ & Em)). unfold observed, silent_sink, publishes.
  by rewrite E2, Em.
Qed.

Lemma emit_observed type status source op device reg value flags w :
  observed w ->
  runs (emit_flags type status source op device reg value flags) w (fun _ w' =>
    observed w' /\ data_eq w w' /\
    extends [Published type status (dev_addr_7b device) reg value] w w').
Proof.
  intros Ho. pose proof Ho as ((_ & _ & _ & _ & Hnow) & pub & Hp & Hpub).
  pose proof (emit_flags_runs type status source op device reg value flags w) as Hd.
  pose proof (emit_extends type status source op device reg value flags w pub Hnow Hp Hpub)
    as He. unfold runs in *. split; [|done]. by eapply observed_data_eq.
Qed.

(** The events of a finished transfer. *)
Definition outcome_trace (device : bvstk_i2c_device_t) (reg value : Z)
    (status : bvstk_status_t) : list observation :=
  let ev type st := Published type st (dev_addr_7b device) reg value in
  [ev BVSTK_EVENT_MASTER_WRITE (status_code status);
   if is_ok status then ev BVSTK_EVENT_REG_COMMIT 0
   else ev BVSTK_EVENT_FAULT (status_code status)].

Lemma write_finish_trace id device wp reg value source status w :
  observed w ->
  runs (write_finish id device wp reg value source status) w (fun _ w' =>
    extends (outcome_trace device reg value status) w w').
Proof.
  intros Ho. apply runs_bind.
  pose proof (record_response_runs id (dev_addr_7b device) status false w) as Hr.
  pose proof (record_response_silent id (dev_addr_7b device) status false w (proj1 Ho)) as Hx.
  unfold runs in Hr, Hx. unfold runs at 1.
  pose proof (observed_presence_only _ _ Hr Ho) as Ho1.
  apply runs_bind. eapply runs_mono; [by apply emit_observed|].
  intros ? w2 (Ho2 & _ & He2).
  pose proof (extends_trans _ _ _ _ _ Hx He2) as H2.
  unfold outcome_trace. destruct (is_ok status); cbn [negb]; apply runs_bind.
  - eapply runs_mono; [apply cache_response_silent, Ho2|]. intros ? w3 (H3 & Hm3).
    destruct Ho2 as ((_ & _ & _ & _ & Hnow) & pub & Hp & Hpub).
    eapply runs_mono; [apply (emit_extends _ _ _ _ _ _ _ _ _ pub); [done|by rewrite Hm3|done]|].
    intros ? w4 H4.
    exact (extends_trans _ _ _ _ _ (extends_trans _ _ _ _ _ H2 H3) H4).
  - eapply runs_mono; [by apply emit_observed|]. intros ? w3 (Ho3 & _ & H3).
    eapply runs_mono; [apply cache_response_silent, Ho3|]. intros ? w4 (H4 & _).
    exact (extends_trans _ _ _ _ _ (extends_trans _ _ _ _ _ H2 H3) H4).
Qed.

(** The transfer itself: one bus write. *)
Lemma backend_write_extends device reg value t w :
  monitored trace w ->
  extends [BusWrite (dev_addr_7b device) reg value] w
    (snd (backend_write device reg value t w)).
Proof.
  intros [_ _ _ _ _ _ Hb]. unfold extends, backend_write, on_ext.
  destruct (io_write_reg _) as [f|].
  - rewrite <- (Hb _ _ _ t). by destruct (f _ _ _ _ _).
  - destruct (sv_hardware _) as [hw|]; [|done].
    rewrite <- (Hb _ _ _ t). by destruct (bvstk_i2c_master_hw_write_reg _ _ _ _ _ _).
Qed.

(** Past the policy check: the transfer and its outcome. *)
Lemma permitted_write_trace id device wp reg value source t w :
  monitored trace w ->
  runs (let! status := backend_write device reg value t in
        write_finish id device wp reg value source status ;; st_ret status) w
    (fun s w' => extends (BusWrite (dev_addr_7b device) reg value ::
       outcome_trace device reg value s) w w').
Proof.
  intros Hmon. pose proof (backend_write_runs device reg value t w) as Hd.
  pose proof (monitored_data_eq _ _ Hd Hmon) as Hmon1.
  pose proof (backend_write_extends device reg value t w Hmon) as H1.
  apply runs_bind. unfold runs at 1. unfold runs in Hd.
  apply runs_bind. eapply runs_mono.
  { apply write_finish_trace. destruct Hmon1. by repeat (split; [done|]). }
  intros ? w2 H2. apply runs_ret.
  exact (extends_trans _ _ _ _ _ H1 H2).
Qed.
(** What a write keeps: the invariant, the observers, and every object but
    the cache, the presence table and the world. *)
Definition write_keeps (w w' : i2c_store) : Prop :=
  store_wf w' /\ monitored trace w' /\
  st_devices w' = st_devices w /\ st_policy w' = st_policy w /\
  sv_initialized (st_master w') = sv_initialized (st_master w).

Lemma data_eq_keeps w w' :
  store_wf w -> monitored trace w -> data_eq w w' -> write_keeps w w'.
Proof.
  intros Hwf Hmon Hd. pose proof Hd as (E1 & _ & E3 & E4).
  split; [by eapply store_wf_data_eq|]. split; [by eapply monitored_data_eq|].
  by rewrite E1, E3, E4.
Qed.

Lemma write_keeps_trans w1 w2 w3 : write_keeps w1 w2 -> write_keeps w2 w3 -> write_keeps w1 w3.
Proof.
  intros (_ & _ & E1 & E2 & E3) (F1 & F2 & F3 & F4 & F5).
  split; [done|]. split; [done|]. by rewrite F3, F4, F5.
Qed.

Lemma outcome_keeps id target reg value status w w' :
  store_wf w -> monitored trace w -> reply_outcome id target reg value status w w' ->
  write_keeps w w'.
Proof.
  intros Hwf Hmon Ho. split; [by eapply reply_outcome_wf|].
  destruct Ho as (E1 & E2 & (p & _ & Em) & Hc).
  assert (ca_sink (st_cache w') = ca_sink (st_cache w)) as Hs.
  { destruct Hc as [-> | (_ & _ & _ & e & (_ & _ & _ & Hs & _) & _)]; done. }
  split; [|by rewrite E1, E2, Em].
  destruct Hmon. constructor; by rewrite ?Hs, ?Em.
Qed.

(** The trace of a whole write, and what it keeps. *)
Definition write_trace (w : i2c_store) (id reg value : Z) (status : bvstk_status_t)
    : list observation :=
  let device := (dvs_items (st_devices w)).[id] in
  let ev type st := Published type st (dev_addr_7b device) reg value in
  ev BVSTK_EVENT_REG_ATTEMPT 0 ::
    (if (dev_reg_count device <=? reg) || (dev_max_value_code device <? value)
     then [ev BVSTK_EVENT_FAULT (status_code BVSTK_ERR_RANGE)]
     else if negb (bvstk_i2c_policy_permits (Some (st_policy w)) id (Some device) reg value)
     then [ev BVSTK_EVENT_REG_DENIED (status_code BVSTK_ERR_DENIED)]
     else BusWrite (dev_addr_7b device) reg value :: outcome_trace device reg value status).

Lemma permitted_write_keeps id device wp reg value source t w :
  store_wf w -> 0 <= id -> 0 <= reg -> monitored trace w ->
  runs (let! status := backend_write device reg value t in
        write_finish id device wp reg value source status ;; st_ret status) w
    (fun _ w' => write_keeps w w').
Proof.
  intros Hwf Hid Hreg Hmon. apply runs_bind.
  eapply runs_mono; [apply backend_write_runs|]. intros status w1 Hd.
  pose proof (data_eq_keeps _ _ Hwf Hmon Hd) as Hk. apply runs_bind.
  eapply runs_mono; [apply write_finish_outcome; [apply Hk|done|done]|].
  intros ? w2 Ho. apply runs_ret. eapply write_keeps_trans; [exact Hk|].
  eapply outcome_keeps; [apply Hk|apply Hk|exact Ho].
Qed.

(** The status of a write that does not reach the bus. *)
Definition refused_status (w : i2c_store) (id reg value : Z) (status : bvstk_status_t) : Prop :=
  let device := (dvs_items (st_devices w)).[id] in
  if (dev_reg_count device <=? reg) || (dev_max_value_code device <? value)
  then status = BVSTK_ERR_RANGE
  else if negb (bvstk_i2c_policy_permits (Some (st_policy w)) id (Some device) reg value)
  then status = BVSTK_ERR_DENIED
  else True.

(** The body of a write on a known device. *)
Lemma write_body_runs w id reg value source t wp :
  store_wf w -> wired w -> 0 <= id -> 0 <= reg -> monitored trace w ->
  let device := (dvs_items (st_devices w)).[id] in
  runs
    (emit BVSTK_EVENT_REG_ATTEMPT 0 source BVSTK_EVENT_OP_WRITE device reg value ;;
     if (dev_reg_count device <=? reg) || (dev_max_value_code device <? value) then
       emit BVSTK_EVENT_FAULT (status_code BVSTK_ERR_RANGE) source
         BVSTK_EVENT_OP_WRITE device reg value ;;
       st_ret BVSTK_ERR_RANGE
     else
       sink_enter ;;
       let! permitted := st_get (fun w =>
         bvstk_i2c_policy_permits (p_policy w) id (Some device) reg value) in
       sink_leave ;;
       if negb permitted then
         emit BVSTK_EVENT_REG_DENIED (status_code BVSTK_ERR_DENIED) source
           BVSTK_EVENT_OP_WRITE device reg value ;;
         st_ret BVSTK_ERR_DENIED
       else
         let! status := backend_write device reg value t in
         write_finish id device wp reg value source status ;;
         st_ret status) w
    (fun status w' => extends (write_trace w id reg value status) w w' /\ write_keeps w w' /\
       refused_status w id reg value status).
Proof.
  intros Hwf Hw Hid Hreg Hmon. cbv zeta. unfold write_trace, refused_status.
  set (device := (dvs_items (st_devices w)).[id]).
  assert (observed w) as Ho by (destruct Hmon; by repeat (split; [done|])).
  apply runs_bind. eapply runs_mono; [by apply emit_observed|].
  intros ? w1 (Ho1 & Hd1 & H1). pose proof (data_eq_keeps _ _ Hwf Hmon Hd1) as Hk1.
  destruct (_ || _).
  { apply runs_bind. eapply runs_mono; [by apply emit_observed|]. intros ? w2 (_ & Hd2 & H2).
    apply runs_ret. split; [exact (extends_trans _ _ _ _ _ H1 H2)|]. split; [|done].
    apply (data_eq_keeps _ _ Hwf Hmon). by eapply data_eq_trans. }
  apply runs_bind, runs_mod, runs_bind, runs_get, runs_bind, runs_mod.
  set (w2 := put_ext _ (put_ext _ w1)).
  assert (extends [] w1 w2) as H2.
  { destruct Hk1 as (_ & [] & _). unfold extends, w2. cbn.
    by rewrite mon_leave0, mon_enter0, app_nil_r. }
  assert (data_eq w w2) as Hd2 by (eapply data_eq_trans; [exact Hd1|done]).
  assert (forall x, p_policy (put_ext x w1) = Some (st_policy w)) as Hpp.
  { intros x. destruct Hd1 as (_ & _ & E3 & E4). unfold p_policy. cbn. rewrite E3, E4.
    destruct Hw as (_ & _ & -> & _). done. }
  rewrite Hpp. pose proof (extends_trans _ _ _ _ _ H1 H2) as H12.
  pose proof (data_eq_keeps _ _ Hwf Hmon Hd2) as Hk2.
  destruct (negb _).
  - apply runs_bind. eapply runs_mono; [apply emit_observed; by eapply observed_data_eq|].
    intros ? w3 (_ & Hd3 & H3). apply runs_ret. split; [exact (extends_trans _ _ _ _ _ H12 H3)|].
    split; [|done]. apply (data_eq_keeps _ _ Hwf Hmon). by eapply data_eq_trans.
  - pose proof (permitted_write_trace id device wp reg value source t w2 ltac:(apply Hk2)) as H3.
    pose proof (permitted_write_keeps id device wp reg value source t w2 ltac:(apply Hk2) Hid
      Hreg ltac:(apply Hk2)) as Hk3.
    unfold runs in *. split; [exact (extends_trans _ _ _ _ _ H12 H3)|].
    split; [|done]. by eapply write_keeps_trans.
Qed.

Lemma master_write_runs w id reg value source t :
  store_wf w -> 0 <= id -> 0 <= reg -> service_status true id w = BVSTK_OK ->
  monitored trace w ->
  let device := (dvs_items (st_devices w)).[id] in
  runs (bvstk_i2c_master_service_write true id reg value source t) w
    (fun status w' => extends (write_trace w id reg value status) w w' /\ write_keeps w w' /\
       refused_status w id reg value status).
Proof.
  intros Hwf Hid Hreg Hst Hmon. cbv zeta.
  destruct (service_status_ok w id Hwf Hst) as [Hw Hlt].
  unfold bvstk_i2c_master_service_write, runs. rewrite Hst, devices_get_ok by (done || lia).
  by apply write_body_runs.
Qed.
End trace.

(** C8: safety and functional behaviour.  On a known device, a write first
    publishes the attempt; a register or value outside the device's limits is
    a published range fault and a value the policy does not permit is a
    published denial, both without any bus traffic; otherwise the register is
    written on the bus exactly once, at the device's address, and the result
    is published, then the commit or the fault it means. *)
Theorem master_write_trace (trace : X -> list observation) w id reg value source t :
  store_wf w -> 0 <= id -> 0 <= reg -> service_status true id w = BVSTK_OK ->
  monitored trace w ->
  let device := (dvs_items (st_devices w)).[id] in
  let ev type st := Published type st (dev_addr_7b device) reg value in
  let '(status, w') := bvstk_i2c_master_service_write true id reg value source t w in
  trace (st_ext w') = trace (st_ext w) ++ ev BVSTK_EVENT_REG_ATTEMPT 0 ::
    (if (dev_reg_count device <=? reg) || (dev_max_value_code device <? value)
     then [ev BVSTK_EVENT_FAULT (status_code BVSTK_ERR_RANGE)]
     else if negb (bvstk_i2c_policy_permits (Some (st_policy w)) id (Some device) reg value)
     then [ev BVSTK_EVENT_REG_DENIED (status_code BVSTK_ERR_DENIED)]
     else BusWrite (dev_addr_7b device) reg value ::
       [ev BVSTK_EVENT_MASTER_WRITE (status_code status);
        if is_ok status then ev BVSTK_EVENT_REG_COMMIT 0
        else ev BVSTK_EVENT_FAULT (status_code status)]) /\
  (if (dev_reg_count device <=? reg) || (dev_max_value_code device <? value)
   then status = BVSTK_ERR_RANGE
   else if negb (bvstk_i2c_policy_permits (Some (st_policy w)) id (Some device) reg value)
   then status = BVSTK_ERR_DENIED
   else True).
Proof.
  intros Hwf Hid Hreg Hst Hmon. cbv zeta.
  pose proof (master_write_runs trace w id reg value source t Hwf Hid Hreg Hst Hmon) as H.
  cbv zeta in H. unfold runs in H.
  destruct (bvstk_i2c_master_service_write true id reg value source t w) as [status w'].
  destruct H as (H1 & _ & H2). by split.
Qed.

(** ** Configuration round trip *)

Lemma copy_name_eq name :
  alen name = I2C_CFG_NAME_MAX -> copy_name name = name.[I2C_CFG_NAME_MAX - 1 <- 0].
Proof.
  intros Hl. unfold copy_name, copy_prefix, alen, I2C_CFG_NAME_MAX in *. f_equal.
  rewrite take_ge by lia. rewrite drop_ge by (unfold fill; rewrite length_replicate; lia).
  apply app_nil_r.
Qed.

Lemma copy_name_idem name :
  alen name = I2C_CFG_NAME_MAX -> copy_name (copy_name name) = copy_name name.
Proof.
  intros Hl. rewrite !copy_name_eq by (rewrite ?copy_name_eq, ?alen_aset; done).
  unfold aset. apply list_insert_insert_eq.
Qed.

(** The same configuration, up to a name cut at 31 bytes and unused cells. *)
Definition same_config (c c' : i2c_device_config_t) : Prop :=
  cfg_name c' = copy_name (cfg_name c) /\ cfg_addr_7b c' = cfg_addr_7b c /\
  cfg_reg_count c' = cfg_reg_count c /\ cfg_max_value_code c' = cfg_max_value_code c /\
  cfg_policy c' = cfg_policy c /\
  cfg_whitelist_len c' = cfg_whitelist_len c /\
  prefix (cfg_whitelist_len c) (cfg_whitelist c') =
    prefix (cfg_whitelist_len c) (cfg_whitelist c) /\
  cfg_blacklist_len c' = cfg_blacklist_len c /\
  prefix (cfg_blacklist_len c) (cfg_blacklist c') =
    prefix (cfg_blacklist_len c) (cfg_blacklist c).

Lemma config_of_same c e :
  config_ok c -> config_lists_valid c = true -> entry_wf e ->
  same_config c (config_of (config_device c) (load_config c e)).
Proof.
  intros ((Hw & Hwl & Hb & Hbl) & Hn & _) Hv (_ & [Hew _] & [Heb _]).
  unfold config_lists_valid in Hv. bsimp.
  unfold same_config, config_of, load_config, copy_rules. cbn.
  rewrite copy_name_idem by done.
  repeat (split; [done|]).
  rewrite !prefix_copy_prefix; [done|..]; rewrite ?alen_copy_prefix; lia.
Qed.

Lemma get_config_run id w :
  wired w -> 0 <= id < dvs_count (st_devices w) -> service_status true id w = BVSTK_OK ->
  fst (bvstk_i2c_master_service_get_config true id true w) =
    (BVSTK_OK, Some (config_of ((dvs_items (st_devices w)).[id])
       ((pol_items (st_policy w)).[id]))).
Proof.
  intros Hw Hid Hst. unfold bvstk_i2c_master_service_get_config. rewrite Hst. cbn.
  change (p_devices (put_ext _ w)) with (p_devices w).
  change (p_policy (put_ext _ w)) with (p_policy w).
  rewrite devices_get_ok by (done || lia).
  destruct Hw as (_ & _ & Hp & _ & _ & Hpi & _ & Hpc). unfold p_policy. rewrite Hp.
  unfold bvstk_i2c_policy_get.
  assert (policy_status (Some (st_policy w)) id = BVSTK_OK) as -> by
    (apply policy_status_ok; split; [done|lia]).
  done.
Qed.

(** Round trip.  Installing a valid configuration succeeds, and reading
    the configuration back gives the same device and the same policy; if the
    address or the register count changed, no cached value of the device
    remains valid and its presence is unknown. *)
Theorem master_config_roundtrip w id c :
  store_wf w -> 0 <= id -> service_status true id w = BVSTK_OK ->
  config_ok c -> config_lists_valid c = true ->
  let old := (dvs_items (st_devices w)).[id] in
  let '(status, w') := bvstk_i2c_master_service_set_config true id (Some c) w in
  status = BVSTK_OK /\
  (exists c', fst (bvstk_i2c_master_service_get_config true id true w') =
     (BVSTK_OK, Some c') /\ same_config c c') /\
  (dev_addr_7b old <> cfg_addr_7b c \/ dev_reg_count old <> cfg_reg_count c ->
   (sv_presence (st_master w')).[id] = BVSTK_I2C_PRESENCE_UNKNOWN /\
   forall reg, 0 <= reg < I2C_CFG_MAX_REG_COUNT ->
     bvstk_i2c_cache_is_valid (Some (st_cache w')) id reg = false).
Proof.
  intros Hwf Hid Hst Hc Hv. cbv zeta.
  pose proof (set_config_runs id c w Hwf Hid Hc Hst) as Heff. unfold runs in Heff.
  destruct (service_status_ok w id Hwf Hst) as [Hw Hlt].
  destruct (bvstk_i2c_master_service_set_config true id (Some c) w) as [status w'].
  cbn [fst snd] in Heff.
  pose proof (config_effect_wf id c status w w' Hwf Hw ltac:(lia) Hc Heff) as Hwf'.
  destruct Heff as (E1 & Hm & Hpol & Hre). rewrite Hv in Hpol. destruct Hpol as [-> Hp'].
  split; [done|].
  assert (wired w') as Hw'.
  { destruct Hwf' as (_ & _ & _ & _ & Hw'). apply Hw'. right. destruct Hm as (p & _ & ->).
    cbn. by destruct Hw. }
  assert (service_status true id w' = BVSTK_OK) as Hst'.
  { apply service_status_intro; [|done|rewrite E1; cbn; lia].
    destruct Hm as (p & _ & ->). cbn. by eapply service_status_initialized. }
  destruct Hwf as ((Hl & Hcn & _) & Hpw & _). pose proof Hpw as (Hpl & _ & Hpe). split.
  - eexists. split; [apply get_config_run; [done|rewrite E1; cbn; lia|done]|].
    rewrite E1, Hp'. cbn. rewrite !aget_aset_eq by lia.
    apply config_of_same; [done|done|apply Hpe; lia].
  - intros Hch.
    assert (retargeted ((dvs_items (st_devices w)).[id]) c = true) as Hrt.
    { unfold retargeted. apply orb_true_iff. rewrite !negb_true_iff, !Z.eqb_neq. done. }
    rewrite Hrt in Hre. destruct Hre as [(_ & _ & _ & Hrow) Hpres]. split; [done|].
    intros reg Hreg. specialize (Hrow id reg ltac:(split; lia)).
    rewrite decide_True in Hrow by lia. unfold bvstk_i2c_cache_is_valid.
    destruct (cache_status _ _ _); try done. cbn in Hrow. by rewrite Hrow.
Qed.

(** ** Reads *)

(** Presence after a response. *)
Definition presence_after (status : bvstk_status_t) (read : bool) (old : Z) : Z :=
  match status with
  | BVSTK_OK => if read then BVSTK_I2C_PRESENCE_RESPONDING else old
  | BVSTK_ERR_IO | BVSTK_ERR_TIMEOUT | BVSTK_ERR_NOT_FOUND => BVSTK_I2C_PRESENCE_UNAVAILABLE
  | _ => old
  end.

Lemma record_response_presence id status read w :
  store_wf w -> wired w -> 0 <= id < dvs_count (st_devices w) ->
  let address := dev_addr_7b ((dvs_items (st_devices w)).[id]) in
  runs (record_response id address status read) w (fun _ w' =>
    (sv_presence (st_master w')).[id] =
      presence_after status read ((sv_presence (st_master w)).[id])).
Proof.
  intros ((_ & Hcn & _) & _ & _ & Hpl & _) Hw Hid. cbv zeta.
  apply runs_bind, runs_mod, runs_bind, runs_get.
  change (p_devices (put_ext _ w)) with (p_devices w).
  rewrite devices_get_ok by (done || lia). rewrite Z.eqb_refl. cbn [negb].
  apply runs_bind.
  destruct status; try destruct read; apply runs_mod || apply runs_ret;
    apply runs_bind, runs_mod, runs_mod; cbn; rewrite ?aget_aset_eq by lia; done.
Qed.

Lemma same_target_refl d reg : reg < dev_reg_count d -> same_target d d reg = true.
Proof.
  intros Hr. unfold same_target. rewrite Z.eqb_refl, (proj2 (Z.ltb_lt _ _) Hr).
  cbn. rewrite andb_true_r. by apply streq_spec.
Qed.

(** A reply to the device's own descriptor. *)
Lemma read_finish_runs id device wp reg source status value w :
  store_wf w -> wired w -> 0 <= id < dvs_count (st_devices w) -> 0 <= reg ->
  device = (dvs_items (st_devices w)).[id] -> reg < dev_reg_count device ->
  runs (read_finish id device wp reg source status value) w (fun _ w' =>
    (sv_presence (st_master w')).[id] =
      presence_after status true ((sv_presence (st_master w)).[id]) /\
    store_wf w' /\ sv_initialized (st_master w') = sv_initialized (st_master w) /\
    st_devices w' = st_devices w /\
    exists e, cell_updated (st_cache w) (st_cache w') id reg e /\
      if is_ok status
      then exists t, e = CacheEntry (if is_ok status then value else 0) 1 0 t
      else e = CacheEntry (tget (ca_values (st_cache w)) id reg) 0 0 0).
Proof.
  intros Hwf Hw Hid Hreg -> Hlt. apply runs_bind.
  pose proof (record_response_runs id (dev_addr_7b ((dvs_items (st_devices w)).[id]))
    status true w) as Hr.
  pose proof (record_response_presence id status true w Hwf Hw Hid) as Hpr.
  unfold runs in Hr, Hpr. unfold runs at 1.
  destruct (record_response _ _ _ _ w) as [[] w1]. cbn [fst snd] in *.
  apply runs_bind. eapply runs_mono; [apply emit_flags_runs|]. intros ? w2 Hd2.
  pose proof (presence_only_trans _ _ _ Hr (data_presence_only _ _ Hd2)) as Hp2.
  pose proof (presence_only_wf _ _ Hp2 Hwf) as Hwf2.
  pose proof Hp2 as (E1 & E2 & E3 & Hm). pose proof Hd2 as (_ & _ & _ & F4).
  assert (wired w2) as Hw2 by (apply (same_wiring_wired w); congruence || done).
  eapply runs_mono; [apply cache_response_runs; [done|lia|done|done]|].
  intros ? w3 (G1 & G2 & G3 & Hc). cbv zeta in Hc. rewrite E1, E2 in Hc.
  rewrite same_target_refl in Hc by done.
  rewrite (proj2 (Z.ltb_lt id _)) in Hc by lia. cbn [andb] in Hc.
  split; [by rewrite G3, F4|]. split.
  { destruct Hc as (e & (Hcw & Hcc & Hci & _) & _). destruct Hwf2 as (A1 & A2 & _ & A4 & A5).
    unfold store_wf, wired in *. rewrite G1, G2, G3, Hcc, Hci, <- E2.
    exact (conj A1 (conj A2 (conj Hcw (conj A4 A5)))). }
  split; [rewrite G3; by destruct Hm as (p & _ & ->)|]. split; [by rewrite G1|].
  destruct Hc as (e & Hcu & He). by exists e.
Qed.

(** Functional.  A read of a known register of a device returns what the
    bus transfer returned.  On success the value is cached, so that a cached
    read returns it, and the device is marked as responding; on failure the
    cached value is invalidated, and an I/O error, a timeout or a missing
    device marks it unavailable. *)
Theorem master_read_updates w id reg source t :
  store_wf w -> 0 <= id -> 0 <= reg -> service_status true id w = BVSTK_OK ->
  let device := (dvs_items (st_devices w)).[id] in
  reg < dev_reg_count device ->
  let '((status, v), w') := bvstk_i2c_master_service_read_from true id reg true source t w in
  (status, v) = fst (backend_read device reg t w) /\
  (sv_presence (st_master w')).[id] =
    presence_after status true ((sv_presence (st_master w)).[id]) /\
  bvstk_i2c_cache_is_valid (Some (st_cache w')) id reg = is_ok status /\
  (status = BVSTK_OK ->
   bvstk_i2c_master_service_read_cached true id reg true w' = (BVSTK_OK, Some (default 0 v))).
Proof.
  intros Hwf Hid Hreg Hst. cbv zeta. intros Hlt.
  destruct (service_status_ok w id Hwf Hst) as [Hw Hcount].
  set (device := (dvs_items (st_devices w)).[id]) in *.
  unfold bvstk_i2c_master_service_read_from. rewrite Hst. cbn [negb].
  rewrite devices_get_ok by (done || lia). fold device.
  rewrite (proj2 (Z.leb_gt _ _)) by done.
  match goal with |- context [presence_confirmed ?a ?b ?c] =>
    generalize (presence_confirmed a b c); intros wp end.
  unfold st_bind at 1. pose proof (backend_read_runs device reg t w) as Hb.
  unfold runs in Hb. destruct (backend_read device reg t w) as [[status v] w1].
  cbn [fst snd] in *.
  pose proof (store_wf_data_eq _ _ Hb Hwf) as Hwf1. pose proof (wired_data_eq _ _ Hb Hw) as Hw1.
  pose proof Hb as (E1 & E2 & E3 & E4).
  pose proof (read_finish_runs id device wp reg source status (default 0 v) w1 Hwf1 Hw1
    ltac:(rewrite E1; lia) Hreg ltac:(by rewrite E1)) as Hfin. rewrite E1 in Hfin.
  unfold runs in Hfin. unfold st_bind, st_ret.
  destruct (read_finish _ _ _ _ _ _ _ w1) as [[] w2]. cbn [fst snd] in Hfin.
  destruct Hfin as (Hpres & Hwf2 & Hini & Hd2 & e & Hcu & He); [done|].
  split; [done|]. split; [by rewrite Hpres, E4|].
  assert (wired w2) as Hw2.
  { destruct Hwf2 as (_ & _ & _ & _ & Hw2). apply Hw2. left. rewrite Hini, E4.
    by eapply service_status_initialized. }
  destruct (cache_status_wired w2 id reg Hw2 ltac:(rewrite Hd2; lia)) as [Hpc Hcs].
  assert (in_table id reg) as Hin.
  { apply (known_reg_in_table w); [by destruct Hwf|lia|done|done]. }
  destruct Hcu as (_ & _ & _ & _ & Hcells). specialize (Hcells id reg Hin).
  rewrite decide_True in Hcells by done. split.
  - unfold bvstk_i2c_cache_is_valid. rewrite Hcs.
    change (tget (ca_valid (st_cache w2)) id reg) with (ce_valid (cell (st_cache w2) id reg)).
    rewrite Hcells. destruct (is_ok status); [by destruct He as [? ->]|by rewrite He].
  - intros ->. destruct He as [t' ->]. unfold bvstk_i2c_master_service_read_cached.
    rewrite service_status_intro; [|rewrite Hini, E4; by eapply service_status_initialized
      |done|rewrite Hd2; lia].
    cbn [negb]. rewrite devices_get_ok by (done || (rewrite Hd2; lia)).
    rewrite Hd2. fold device. rewrite (proj2 (Z.leb_gt _ _)) by done.
    rewrite Hpc. unfold bvstk_i2c_cache_read. rewrite Hcs. cbn [negb].
    change (tget (ca_values (st_cache w2)) id reg) with (ce_value (cell (st_cache w2) id reg)).
    by rewrite Hcells.
Qed.
End master.

Arguments bvstk_i2c_master_io_t : clear implicits.
Arguments bvstk_i2c_master_service_t : clear implicits.
Arguments i2c_store : clear implicits.

(** ** A concrete system: one device, a bus that stores nothing and answers *)

Definition demo_world : Type := list observation.

Definition demo_platform : Platform demo_world := {|
  bvstk_platform_now_ms := fun x => (0, x);
  bvstk_platform_sleep_ms := fun _ x => x;
  Xil_In32 := fun _ x => (0, x);
  Xil_Out32 := fun _ _ x => x
|}.
Definition demo_hw : I2cMasterHw demo_world unit := {|
  hw_initialized := fun _ _ => true;
  bvstk_i2c_master_hw_read_reg := fun _ _ _ _ x => ((BVSTK_OK, 9), x);
  bvstk_i2c_master_hw_write_reg := fun _ a r v _ x => (BVSTK_OK, x ++ [BusWrite a r v])
|}.
#[local] Existing Instance demo_platform.
#[local] Existing Instance demo_hw.

Definition demo_store : i2c_store demo_world unit :=
  I2cStore
    (Devices (mux_device :: fill 31 zero_device) 1 1)
    (Cache no_sink zero_table zero_table zero_table zero_table 1 1)
    demo_policy
    (MasterService (Some tt) no_io true true true
       (EventSink (Some (fun e x => x ++ [event_observation e]))) None
       (fill I2C_CFG_MAX_DEVICES 0) 1)
    [].

Lemma demo_store_wf : store_wf demo_store.
Proof.
  split; [|split; [apply demo_policy_wf|split; [by apply zero_cache_wf|split; [done|]]]].
  - split; [done|]. split; [done|]. split; [done|]. intros i Hi. cbn in Hi.
    assert (i = 0) as -> by lia. done.
  - intros _. done.
Qed.

Lemma master_write_trace_witness :
  let '(status, w') :=
    bvstk_i2c_master_service_write true 0 3 4 BVSTK_EVENT_SOURCE_DCP 10 demo_store in
  length (st_ext w') = 4%nat.
Proof.
  pose proof (master_write_trace (fun x : demo_world => x) demo_store 0 3 4
    BVSTK_EVENT_SOURCE_DCP 10 demo_store_wf ltac:(lia) ltac:(lia) ltac:(reflexivity)) as H.
  cbv zeta in H.
  destruct (bvstk_i2c_master_service_write true 0 3 4 BVSTK_EVENT_SOURCE_DCP 10 demo_store)
    as [status w'].
  destruct H as [H _].
  - constructor; try done.
    by exists (fun e x => x ++ [event_observation e]).
  - rewrite H. vm_compute. reflexivity.
Defined.

Lemma master_cache_provenance_witness :
  let w := snd (read_finish 0 mux_device false 2 BVSTK_EVENT_SOURCE_DCP BVSTK_OK 9 demo_store) in
  provenance w [(0x70, 2, 9)].
Proof.
  apply (master_cache_provenance demo_store _ [(0x70, 2, 9)] demo_store_wf).
  - intros id r Hid Hr e. subst e. cbn in Hid. assert (id = 0) as -> by lia.
    unfold cell, tget. cbn [ca_valid st_cache demo_store ce_valid].
    unfold zero_table. rewrite aget_fill by done. by rewrite aget_fill by lia.
  - eapply steps_cons; [|apply steps_refl].
    apply (step_read_reply demo_store [] 0 mux_device false 2 BVSTK_EVENT_SOURCE_DCP BVSTK_OK 9);
      lia.
Defined.

Definition demo_config : i2c_device_config_t :=
  DeviceConfig ((fill I2C_CFG_NAME_MAX 0).[0 <- 109]) (fill I2C_CFG_FILE_NAME_MAX 0) 0x71 8 255 1
    zero_rules 0 demo_rules 3 zero_rules 0 zero_profile.

Lemma demo_config_ok : config_ok demo_config.
Proof. by repeat split. Qed.

Lemma master_config_roundtrip_witness :
  let '(status, w') := bvstk_i2c_master_service_set_config true 0 (Some demo_config) demo_store in
  status = BVSTK_OK /\ (sv_presence (st_master w')).[0] = BVSTK_I2C_PRESENCE_UNKNOWN.
Proof.
  pose proof (master_config_roundtrip demo_store 0 demo_config demo_store_wf ltac:(lia)
    ltac:(reflexivity) demo_config_ok ltac:(reflexivity)) as H.
  cbv zeta in H.
  destruct (bvstk_i2c_master_service_set_config true 0 (Some demo_config) demo_store)
    as [status w'].
  destruct H as (H1 & _ & H2). split; [exact H1|]. apply H2. left. done.
Defined.

Lemma master_read_updates_witness :
  let '((status, v), w') :=
    bvstk_i2c_master_service_read_from true 0 2 true BVSTK_EVENT_SOURCE_DCP 10 demo_store in
  status = BVSTK_OK /\ v = Some 9 /\
  bvstk_i2c_cache_is_valid (Some (st_cache w')) 0 2 = true.
Proof.
  pose proof (master_read_updates demo_store 0 2 BVSTK_EVENT_SOURCE_DCP 10 demo_store_wf
    ltac:(lia) ltac:(lia) ltac:(reflexivity) ltac:(reflexivity)) as H.
  destruct (bvstk_i2c_master_service_read_from true 0 2 true BVSTK_EVENT_SOURCE_DCP 10 demo_store)
    as [[status v] w'].
  destruct H as (H1 & _ & H2 & _). cbn in H1. injection H1 as -> ->. done.
Defined.
