(* ===== verification/I2cMasterHw.v ===== *)
(** * I2cMasterHw: the PL I2C master driver

    [src/src/drivers/pl/i2c/bvstk_i2c_master.c]: one transfer over the PL
    master block.  A transfer loads a command FIFO (headers and payload words),
    starts the block, polls for completion and fetches the result from block
    RAM; a failed attempt resets the block and is retried, except after a NACK.

    The polling loops carry fuel and return [None] without it; the theorems
    show that [effective_timeout + 1] rounds are enough for any clock that
    keeps the laws of [Traced]. *)
From stdpp Require Import prelude.
From Stdlib Require Import ZArith Lia.
From S2P Require Import Prelude Platform PlAccess I2cDevices I2cPolicy I2cCache I2cMasterService.
Local Open Scope Z_scope.

(** ** Registers (hardware/pl/i2c/bvstk_i2c_regs.h) and limits *)

Definition BVSTK_I2C_MSTR_CSR_OFFSET : Z := 0x00.
Definition BVSTK_I2C_MSTR_IRQ_OFFSET : Z := 0x04.
Definition BVSTK_I2C_MSTR_TX_FIFO_OFFSET : Z := 0x08.
Definition BVSTK_I2C_BRAM_MASTER_OFFSET : Z := 0x0000.
Definition BVSTK_I2C_BRAM_MASTER_WINDOW_SIZE : Z := 0x1000.
Definition BVSTK_I2C_MSTR_SOFT_RESET_BIT : Z := 0x01.
Definition BVSTK_I2C_MSTR_START_BIT : Z := 0x02.
Definition BVSTK_I2C_MSTR_IRQ_RESET_BIT : Z := 0x01.
Definition BVSTK_I2C_MSTR_IRQ_DATA_VALID : Z := 0x02.
Definition BVSTK_I2C_MSTR_IRQ_ERR_ACK : Z := 0x08.
Definition BVSTK_I2C_DEFAULT_TIMEOUT_MS : Z := 100.
Definition BVSTK_I2C_RECOVERY_DELAY_MS : Z := 10.
Definition BVSTK_I2C_RECOVERY_ATTEMPTS : nat := 3.
Definition BVSTK_I2C_MASTER_RESULT_MAX_BYTES : Z := BVSTK_I2C_BRAM_MASTER_WINDOW_SIZE - 4.

Definition effective_timeout (timeout_ms : Z) : Z :=
  if timeout_ms =? 0 then BVSTK_I2C_DEFAULT_TIMEOUT_MS else timeout_ms.

Definition make_header (addr_7b : Z) (read restart : bool) (byte_count : Z) : Z :=
  Z.lor (Z.lor (Z.lor (u32 (Z.shiftl (Z.land (u32 byte_count) 0x1FFFFF) 11))
                      (Z.shiftl (Z.b2z restart) 8))
               (Z.shiftl (Z.b2z read) 7))
        (Z.land addr_7b 0x7F).

Section driver.
Context {X : Type} `{PL : Platform X}.

Record bvstk_i2c_master_hw_t := MasterHw {
  mh_master : bvstk_mmio_region_t;
  mh_bram : bvstk_mmio_region_t;
  mh_clock : bvstk_clock_t X;
  mh_mutex : bvstk_mutex_t X;
  mh_initialized : Z
}.

Definition zero_master_hw : bvstk_i2c_master_hw_t :=
  MasterHw zero_region zero_region (Clock None None) (Mutex None None) 0.

(** ** Polling *)

Fixpoint wait_ready_loop (fuel : nat) (hw : bvstk_i2c_master_hw_t) (start timeout_ms : Z)
    : ST X (option bvstk_status_t) :=
  match fuel with
  | O => st_ret None
  | S fuel =>
      let! csr := read32 (mh_master hw) BVSTK_I2C_MSTR_CSR_OFFSET in
      if negb (is_ok (fst csr)) then st_ret (Some (fst csr))
      else if Z.land (snd csr) 1 =? 0 then st_ret (Some BVSTK_OK)
      else
        let! now := bvstk_clock_now_ms (Some (mh_clock hw)) in
        if timeout_ms <=? u64 (now - start) then st_ret (Some BVSTK_ERR_TIMEOUT)
        else
          clock_sleep (Some (mh_clock hw)) 1 ;;
          wait_ready_loop fuel hw start timeout_ms
  end.

Definition wait_ready (fuel : nat) (hw : bvstk_i2c_master_hw_t) (timeout_ms : Z)
    : ST X (option bvstk_status_t) :=
  let! start := bvstk_clock_now_ms (Some (mh_clock hw)) in
  wait_ready_loop fuel hw start (effective_timeout timeout_ms).

Definition recover (hw : bvstk_i2c_master_hw_t) : ST X unit :=
  write32 (mh_master hw) BVSTK_I2C_MSTR_CSR_OFFSET BVSTK_I2C_MSTR_SOFT_RESET_BIT ;;
  clock_sleep (Some (mh_clock hw)) BVSTK_I2C_RECOVERY_DELAY_MS.

(** The status and [*nack]. *)
Fixpoint wait_completion_loop (fuel : nat) (hw : bvstk_i2c_master_hw_t)
    (read_size start timeout_ms : Z) : ST X (option (bvstk_status_t * bool)) :=
  match fuel with
  | O => st_ret None
  | S fuel =>
      let! csr := read32 (mh_master hw) BVSTK_I2C_MSTR_CSR_OFFSET in
      if negb (is_ok (fst csr)) then st_ret (Some (BVSTK_ERR_IO, false))
      else
        let! irq := read32 (mh_master hw) BVSTK_I2C_MSTR_IRQ_OFFSET in
        if negb (is_ok (fst irq)) then st_ret (Some (BVSTK_ERR_IO, false))
        else if truth (Z.land (snd irq) BVSTK_I2C_MSTR_IRQ_ERR_ACK) then
          st_ret (Some (BVSTK_ERR_IO, true))
        else if negb (truth (Z.land (snd csr) 1)) &&
                ((read_size =? 0) || truth (Z.land (snd irq) BVSTK_I2C_MSTR_IRQ_DATA_VALID)) then
          st_ret (Some (BVSTK_OK, false))
        else
          let! now := bvstk_clock_now_ms (Some (mh_clock hw)) in
          if timeout_ms <=? u64 (now - start) then st_ret (Some (BVSTK_ERR_TIMEOUT, false))
          else
            clock_sleep (Some (mh_clock hw)) 1 ;;
            wait_completion_loop fuel hw read_size start timeout_ms
  end.

Definition wait_completion (fuel : nat) (hw : bvstk_i2c_master_hw_t) (read_size timeout_ms : Z)
    : ST X (option (bvstk_status_t * bool)) :=
  let! start := bvstk_clock_now_ms (Some (mh_clock hw)) in
  wait_completion_loop fuel hw read_size start (effective_timeout timeout_ms).

(** ** The command FIFO *)

(** [while (offset + 4 <= size)], then the rest of the last word.  Every round
    consumes four bytes, so [size] rounds are enough. *)
Fixpoint write_fifo_loop (fuel : nat) (hw : bvstk_i2c_master_hw_t) (data : list Z)
    (size offset : Z) : ST X bvstk_status_t :=
  match fuel with
  | O => st_ret BVSTK_OK
  | S fuel =>
      if offset + 4 <=? size then
        let word :=
          Z.lor (Z.lor (Z.lor (data.[offset]) (u32 (Z.shiftl (data.[offset + 1]) 8)))
                       (u32 (Z.shiftl (data.[offset + 2]) 16)))
                (u32 (Z.shiftl (data.[offset + 3]) 24)) in
        let! status := write32 (mh_master hw) BVSTK_I2C_MSTR_TX_FIFO_OFFSET word in
        if negb (is_ok status) then st_ret status
        else write_fifo_loop fuel hw data size (offset + 4)
      else if offset <? size then
        write32 (mh_master hw) BVSTK_I2C_MSTR_TX_FIFO_OFFSET (pack_word data offset (size - offset))
      else st_ret BVSTK_OK
  end.

Definition write_fifo_bytes (hw : bvstk_i2c_master_hw_t) (data : list Z) (size : Z)
    : ST X bvstk_status_t :=
  write_fifo_loop (S (Z.to_nat size)) hw data size 0.

(** ** One transfer *)

(** [if (status == BVSTK_OK) status = m]. *)
Definition then_ok (status : bvstk_status_t) (m : ST X bvstk_status_t) : ST X bvstk_status_t :=
  if is_ok status then m else st_ret status.

(** Reset the interrupt latch, load the FIFO and start the block. *)
Definition load_commands (hw : bvstk_i2c_master_hw_t) (addr_7b : Z) (write_data : list Z)
    (write_size read_size : Z) : ST X bvstk_status_t :=
  let! status := write32 (mh_master hw) BVSTK_I2C_MSTR_IRQ_OFFSET BVSTK_I2C_MSTR_IRQ_RESET_BIT in
  let! status :=
    then_ok status
      (if write_size =? 0 then st_ret status
       else
         let! status := write32 (mh_master hw) BVSTK_I2C_MSTR_TX_FIFO_OFFSET
                          (make_header addr_7b false (negb (read_size =? 0)) write_size) in
         then_ok status (write_fifo_bytes hw write_data write_size)) in
  let! status :=
    then_ok status
      (if read_size =? 0 then st_ret status
       else write32 (mh_master hw) BVSTK_I2C_MSTR_TX_FIFO_OFFSET
              (make_header addr_7b true false read_size)) in
  then_ok status (write32 (mh_master hw) BVSTK_I2C_MSTR_CSR_OFFSET BVSTK_I2C_MSTR_START_BIT).

(** What one round of the attempt loop does next. *)
Inductive attempt_result :=
  | Return (status : bvstk_status_t) (read_data : list Z)
  | Continue (status : bvstk_status_t) (read_data : list Z).

Definition attempt_once (fuel : nat) (hw : bvstk_i2c_master_hw_t) (addr_7b : Z)
    (write_data : list Z) (write_size : Z) (read_data : list Z) (read_size timeout_ms : Z)
    : ST X (option attempt_result) :=
  let? status := wait_ready fuel hw timeout_ms in
  if negb (is_ok status) then recover hw ;; st_ret (Some (Continue status read_data))
  else
    let! status := load_commands hw addr_7b write_data write_size read_size in
    let? done := (if is_ok status then wait_completion fuel hw read_size timeout_ms
                  else st_ret (Some (status, false))) in
    let '(status, nack) := done in
    if nack : bool then recover hw ;; st_ret (Some (Return status read_data))
    else
      let! r := (if is_ok status && negb (read_size =? 0)
                 then read_words (mh_bram hw) (BVSTK_I2C_BRAM_MASTER_OFFSET + 4) read_size read_data
                 else st_ret (status, read_data)) in
      if is_ok (fst r) then st_ret (Some (Return BVSTK_OK (snd r)))
      else recover hw ;; st_ret (Some (Continue (fst r) (snd r))).

Fixpoint attempts_loop (n : nat) (fuel : nat) (hw : bvstk_i2c_master_hw_t) (addr_7b : Z)
    (write_data : list Z) (write_size : Z) (read_data : list Z) (read_size timeout_ms : Z)
    (status : bvstk_status_t) : ST X (option (bvstk_status_t * list Z)) :=
  match n with
  | O => st_ret (Some (status, read_data))
  | S n =>
      let? r := attempt_once fuel hw addr_7b write_data write_size read_data read_size timeout_ms in
      match r with
      | Return status read_data => st_ret (Some (status, read_data))
      | Continue status read_data =>
          attempts_loop n fuel hw addr_7b write_data write_size read_data read_size timeout_ms status
      end
  end.

(** [write_data] and [read_data] are pointers, [None] being NULL; the result
    holds the read buffer afterwards. *)
Definition transfer_locked (fuel : nat) (hw : bvstk_i2c_master_hw_t) (addr_7b : Z)
    (write_data : option (list Z)) (write_size : Z)
    (read_data : option (list Z)) (read_size timeout_ms : Z)
    : ST X (option (bvstk_status_t * option (list Z))) :=
  if (write_size =? 0) && (read_size =? 0) then st_ret (Some (BVSTK_ERR_MALFORMED, read_data))
  else if (negb (write_size =? 0) && negb (bool_decide (is_Some write_data))) ||
          (negb (read_size =? 0) && negb (bool_decide (is_Some read_data))) ||
          (0x1FFFFF <? write_size) || (0x1FFFFF <? read_size) ||
          (BVSTK_I2C_MASTER_RESULT_MAX_BYTES <? read_size) then
    st_ret (Some (BVSTK_ERR_RANGE, read_data))
  else
    let? r := attempts_loop BVSTK_I2C_RECOVERY_ATTEMPTS fuel hw addr_7b (default [] write_data)
                write_size (default [] read_data) read_size timeout_ms BVSTK_OK in
    st_ret (Some (fst r, option_map (fun _ => snd r) read_data)).

(** ** The driver's interface *)

Definition bvstk_i2c_master_hw_init (hardware : option bvstk_i2c_master_hw_t)
    (clock : option (bvstk_clock_t X)) (mutex : option (bvstk_mutex_t X))
    : bvstk_status_t * option bvstk_i2c_master_hw_t :=
  match hardware with
  | None => (BVSTK_ERR_MALFORMED, None)
  | Some _ =>
      let clock := default (Clock None None) clock in
      let mutex := default (Mutex None None) mutex in
      match bvstk_mmio_region_open (Some zero_region) BVSTK_I2C_MASTER_BASE BVSTK_I2C_MASTER_SIZE with
      | None => (BVSTK_ERR_IO, Some (MasterHw zero_region zero_region clock mutex 0))
      | Some master =>
          match bvstk_mmio_region_open (Some zero_region) BVSTK_I2C_BRAM_BASE BVSTK_I2C_BRAM_SIZE with
          | None => (BVSTK_ERR_IO, Some (MasterHw zero_region zero_region clock mutex 0))
          | Some bram => (BVSTK_OK, Some (MasterHw master bram clock mutex 1))
          end
      end
  end.

Definition bvstk_i2c_master_hw_shutdown (hardware : option bvstk_i2c_master_hw_t)
    : option bvstk_i2c_master_hw_t :=
  match hardware with
  | None => None
  | Some _ => Some zero_master_hw
  end.

Definition bvstk_i2c_master_hw_transfer (fuel : nat) (hardware : option bvstk_i2c_master_hw_t)
    (addr_7b : Z) (write_data : option (list Z)) (write_size : Z)
    (read_data : option (list Z)) (read_size timeout_ms : Z)
    : ST X (option (bvstk_status_t * option (list Z))) :=
  match hardware with
  | None => st_ret (Some (BVSTK_ERR_NOT_READY, read_data))
  | Some hw =>
      if mh_initialized hw =? 0 then st_ret (Some (BVSTK_ERR_NOT_READY, read_data))
      else
        let! status := bvstk_mutex_lock (Some (mh_mutex hw)) timeout_ms in
        if negb (is_ok status) then st_ret (Some (status, read_data))
        else
          let? r := transfer_locked fuel hw (Z.land addr_7b 0x7F) write_data write_size
                      read_data read_size timeout_ms in
          let! _ := (fun x => (tt, bvstk_mutex_unlock (Some (mh_mutex hw)) x)) in
          st_ret (Some r)
  end.

(** [value] is a pointer to one byte. *)
Definition bvstk_i2c_master_hw_read_reg (fuel : nat) (hardware : option bvstk_i2c_master_hw_t)
    (addr_7b reg : Z) (value : option Z) (timeout_ms : Z)
    : ST X (option (bvstk_status_t * option Z)) :=
  let? r := bvstk_i2c_master_hw_transfer fuel hardware addr_7b (Some [reg]) 1
              (option_map (fun v => [v]) value) 1 timeout_ms in
  st_ret (Some (fst r, option_map (fun l : list Z => l.[0]) (snd r))).

Definition bvstk_i2c_master_hw_write_reg (fuel : nat) (hardware : option bvstk_i2c_master_hw_t)
    (addr_7b reg value timeout_ms : Z) : ST X (option bvstk_status_t) :=
  let? r := bvstk_i2c_master_hw_transfer fuel hardware addr_7b (Some [reg; value]) 2
              None 0 timeout_ms in
  st_ret (Some (fst r)).
End driver.

Arguments bvstk_i2c_master_hw_t : clear implicits.

(** ** The driver as the service's interface

    Rounds that are always enough; the [None] branch is unreachable under the
    clock laws (theorem [master_hw_interface]). *)

Definition rounds (timeout_ms : Z) : nat := S (Z.to_nat (effective_timeout timeout_ms)).

#[export] Instance i2c_master_driver {X} `{PL : Platform X}
    : I2cMasterHw X (bvstk_i2c_master_hw_t X) := {
  hw_initialized hw _ := negb (mh_initialized hw =? 0);
  I2cMasterService.bvstk_i2c_master_hw_read_reg hw addr_7b reg timeout_ms :=
    let! o := bvstk_i2c_master_hw_read_reg (rounds timeout_ms) (Some hw) addr_7b reg (Some 0) timeout_ms in
    st_ret match o with
           | Some (status, value) => (status, default 0 value)
           | None => (BVSTK_ERR_INTERNAL, 0)
           end;
  I2cMasterService.bvstk_i2c_master_hw_write_reg hw addr_7b reg value timeout_ms :=
    let! o := bvstk_i2c_master_hw_write_reg (rounds timeout_ms) (Some hw) addr_7b reg value timeout_ms in
    st_ret (default BVSTK_ERR_INTERNAL o)
}.

(** ** The protocol, as a grammar of register accesses *)

Definition mstr_csr : Z := BVSTK_I2C_MASTER_BASE + BVSTK_I2C_MSTR_CSR_OFFSET.
Definition mstr_irq : Z := BVSTK_I2C_MASTER_BASE + BVSTK_I2C_MSTR_IRQ_OFFSET.
Definition mstr_fifo : Z := BVSTK_I2C_MASTER_BASE + BVSTK_I2C_MSTR_TX_FIFO_OFFSET.

Definition reset_block : io := Wr mstr_csr BVSTK_I2C_MSTR_SOFT_RESET_BIT.

Definition busy (csr : Z) : Prop := Z.land csr 1 <> 0.
Definition nacked (irq : Z) : bool := truth (Z.land irq BVSTK_I2C_MSTR_IRQ_ERR_ACK).
(** The block is idle, and a read has latched new data. *)
Definition completed (read_size csr irq : Z) : bool :=
  negb (truth (Z.land csr 1)) &&
  ((read_size =? 0) || truth (Z.land irq BVSTK_I2C_MSTR_IRQ_DATA_VALID)).

(** Polling for an idle block. *)
Inductive ready_wait : list io -> bvstk_status_t -> Prop :=
  | ready_idle v : ~ busy v -> ready_wait [Rd mstr_csr v] BVSTK_OK
  | ready_late v : busy v -> ready_wait [Rd mstr_csr v] BVSTK_ERR_TIMEOUT
  | ready_busy v l status : busy v -> ready_wait l status ->
      ready_wait (Rd mstr_csr v :: l) status.

(** Polling for completion; the flag is a NACK. *)
Inductive completion_wait (read_size : Z) : list io -> bvstk_status_t -> bool -> Prop :=
  | completion_nack csr irq : nacked irq = true ->
      completion_wait read_size [Rd mstr_csr csr; Rd mstr_irq irq] BVSTK_ERR_IO true
  | completion_done csr irq : nacked irq = false -> completed read_size csr irq = true ->
      completion_wait read_size [Rd mstr_csr csr; Rd mstr_irq irq] BVSTK_OK false
  | completion_late csr irq : nacked irq = false -> completed read_size csr irq = false ->
      completion_wait read_size [Rd mstr_csr csr; Rd mstr_irq irq] BVSTK_ERR_TIMEOUT false
  | completion_poll csr irq l status nack : nacked irq = false -> completed read_size csr irq = false ->
      completion_wait read_size l status nack ->
      completion_wait read_size (Rd mstr_csr csr :: Rd mstr_irq irq :: l) status nack.

(** The payload, four bytes to a word. *)
Definition fifo_words (data : list Z) (j n : Z) : list io :=
  map (fun k => Wr mstr_fifo (pack_word data (4 * k) (Z.min (n - 4 * k) 4)))
    (seqZ j ((n + 3) / 4 - j)).

(** Latch reset, write phase, read phase (a repeated start after a write), START. *)
Definition commands (addr : Z) (data : list Z) (write_size read_size : Z) : list io :=
  [Wr mstr_irq BVSTK_I2C_MSTR_IRQ_RESET_BIT] ++
  (if write_size =? 0 then []
   else Wr mstr_fifo (make_header addr false (negb (read_size =? 0)) write_size) ::
        fifo_words data 0 write_size) ++
  (if read_size =? 0 then [] else [Wr mstr_fifo (make_header addr true false read_size)]) ++
  [Wr mstr_csr BVSTK_I2C_MSTR_START_BIT].

(** A transfer of at most [n] attempts, its status and the bytes it read. *)
Inductive transfer_trace (addr : Z) (data : list Z) (write_size read_size : Z)
    : nat -> list io -> bvstk_status_t -> list Z -> Prop :=
  | trace_exhausted : transfer_trace addr data write_size read_size O [] BVSTK_ERR_TIMEOUT []
  | trace_done n l1 l2 m :
      ready_wait l1 BVSTK_OK -> completion_wait read_size l2 BVSTK_OK false ->
      transfer_trace addr data write_size read_size (S n)
        (l1 ++ commands addr data write_size read_size ++ l2 ++
         word_reads m (BVSTK_I2C_BRAM_BASE + (BVSTK_I2C_BRAM_MASTER_OFFSET + 4)) 0 read_size)
        BVSTK_OK (map (mem_byte m 0) (seqZ 0 read_size))
  | trace_nack n l1 l2 :
      ready_wait l1 BVSTK_OK -> completion_wait read_size l2 BVSTK_ERR_IO true ->
      transfer_trace addr data write_size read_size (S n)
        (l1 ++ commands addr data write_size read_size ++ l2 ++ [reset_block]) BVSTK_ERR_IO []
  | trace_not_ready n l1 l status bytes :
      ready_wait l1 BVSTK_ERR_TIMEOUT ->
      transfer_trace addr data write_size read_size n l status bytes ->
      transfer_trace addr data write_size read_size (S n) (l1 ++ [reset_block] ++ l) status bytes
  | trace_retry n l1 l2 l status bytes :
      ready_wait l1 BVSTK_OK -> completion_wait read_size l2 BVSTK_ERR_TIMEOUT false ->
      transfer_trace addr data write_size read_size n l status bytes ->
      transfer_trace addr data write_size read_size (S n)
        (l1 ++ commands addr data write_size read_size ++ l2 ++ [reset_block] ++ l) status bytes.

Section protocol.
Context {X : Type} `{PL : Platform X} (hw : bvstk_i2c_master_hw_t X).
Context (log : X -> list io) (time : X -> Z) `{HT : !Traced (Some (mh_clock hw)) log time}.

(** The driver as [init] leaves it. *)
Definition master_hw_open : Prop :=
  mh_initialized hw <> 0 /\
  mh_master hw = Region BVSTK_I2C_MASTER_BASE BVSTK_I2C_MASTER_SIZE BVSTK_I2C_MASTER_BASE /\
  mh_bram hw = Region BVSTK_I2C_BRAM_BASE BVSTK_I2C_BRAM_SIZE BVSTK_I2C_BRAM_BASE.

Context (Hopen : master_hw_open).

Lemma master_opened : opened (mh_master hw) BVSTK_I2C_MASTER_BASE BVSTK_I2C_MASTER_SIZE.
Proof. by destruct Hopen as (_ & -> & _). Qed.
Lemma bram_opened : opened (mh_bram hw) BVSTK_I2C_BRAM_BASE BVSTK_I2C_BRAM_SIZE.
Proof. by destruct Hopen as (_ & _ & ->). Qed.

Lemma master_write offset v x :
  0 <= offset -> offset + 4 <= BVSTK_I2C_MASTER_SIZE -> offset mod 4 = 0 ->
  runs (write32 (mh_master hw) offset v) x (fun status x' =>
    status = BVSTK_OK /\ after log time x x' [Wr (BVSTK_I2C_MASTER_BASE + offset) v]).
Proof.
  intros. eapply runs_mono.
  { apply (write32_traced _ _ _ _ BVSTK_I2C_MASTER_BASE BVSTK_I2C_MASTER_SIZE); try done.
    apply master_opened. }
  intros ? x' (-> & H' & _). done.
Qed.

Lemma master_read offset x :
  0 <= offset -> offset + 4 <= BVSTK_I2C_MASTER_SIZE -> offset mod 4 = 0 ->
  runs (read32 (mh_master hw) offset) x (fun r x' => exists v,
    r = (BVSTK_OK, v) /\ after log time x x' [Rd (BVSTK_I2C_MASTER_BASE + offset) v] /\
    time x' < time x + 2 ^ 32).
Proof. intros. eapply read32_traced; try done. apply master_opened. Qed.

Lemma recover_trace x :
  runs (recover hw) x (fun _ x' => after log time x x' [reset_block]).
Proof.
  unfold recover. apply runs_bind. eapply runs_mono; [by apply master_write|].
  intros ? x1 [-> H1]. eapply runs_mono; [by apply sleep_traced|].
  intros ? x2 [H2 _]. rewrite <- (app_nil_r [reset_block]). by eapply after_trans.
Qed.

Lemma wait_ready_loop_trace fuel t0 timeout x :
  0 <= timeout < 2 ^ 32 -> polling time t0 timeout fuel x ->
  runs (wait_ready_loop fuel hw (u64 t0) timeout) x (fun r x' =>
    exists status l, r = Some status /\ after log time x x' l /\ ready_wait l status).
Proof.
  intros Hto. revert x. induction fuel as [|fuel IH]; intros x (Hp & Hf & Hf'); [lia|].
  cbn [wait_ready_loop]. apply runs_bind. eapply runs_mono; [by apply master_read|].
  intros ? x1 (v & -> & H1 & H1'). cbn [fst snd is_ok negb].
  destruct (Z.land v 1 =? 0) eqn:E; bsimp.
  { exists BVSTK_OK, [Rd mstr_csr v]. split; [done|]. split; [done|].
    apply ready_idle. unfold busy. lia. }
  assert (busy v) as Hb by done. destruct H1 as [Hl Ht].
  apply (poll_again _ log time _ fuel t0 timeout); [lia|done|lia|..].
  - intros x2 H2 _. exists BVSTK_ERR_TIMEOUT, [Rd mstr_csr v].
    split; [done|]. split; [|by apply ready_late].
    by eapply (after_trans _ _ _ _ _ [_] []).
  - intros x2 H2 Hp2 _. eapply runs_mono; [by apply IH|]. intros ? x3 (status & l & -> & H3 & Hw).
    exists status, (Rd mstr_csr v :: l). split; [done|]. split; [|by apply ready_busy].
    eapply (after_trans _ _ _ _ _ [_]); [done|]. by eapply (after_trans _ _ _ _ _ []).
Qed.

Lemma after_app x1 x2 x3 l1 l2 :
  after log time x1 x2 l1 -> after log time x2 x3 l2 -> after log time x1 x3 (l1 ++ l2).
Proof. apply after_trans. Qed.

Lemma effective_timeout_pos t : 0 <= t < 2 ^ 32 -> 0 < effective_timeout t < 2 ^ 32.
Proof.
  intros Ht. unfold effective_timeout, BVSTK_I2C_DEFAULT_TIMEOUT_MS.
  destruct (t =? 0) eqn:E; bsimp; lia.
Qed.

(** Polling rounds that are always enough. *)
Definition enough_fuel (fuel : nat) (timeout_ms : Z) : Prop :=
  effective_timeout timeout_ms < Z.of_nat fuel.

Lemma wait_ready_trace fuel timeout x :
  0 <= timeout < 2 ^ 32 -> enough_fuel fuel timeout ->
  runs (wait_ready fuel hw timeout) x (fun r x' => exists status l,
    r = Some status /\ after log time x x' l /\ ready_wait l status).
Proof.
  intros Hto Hf. pose proof (effective_timeout_pos timeout Hto). unfold enough_fuel in Hf.
  unfold wait_ready. apply runs_bind. eapply runs_mono; [apply (now_traced _ log time)|].
  intros ? x1 (-> & H1 & H1'). eapply runs_mono.
  { apply wait_ready_loop_trace; [lia|]. destruct H1. split; [|split]; lia. }
  intros ? x2 (status & l & -> & H2 & Hw). exists status, l. split; [done|]. split; [|done].
  by apply (after_app _ _ _ [] _ H1).
Qed.

Lemma wait_completion_loop_trace fuel read_size t0 timeout x :
  0 <= timeout < 2 ^ 32 -> polling time t0 timeout fuel x ->
  runs (wait_completion_loop fuel hw read_size (u64 t0) timeout) x (fun r x' =>
    exists status nack l, r = Some (status, nack) /\ after log time x x' l /\
      completion_wait read_size l status nack).
Proof.
  intros Hto. revert x. induction fuel as [|fuel IH]; intros x (Hp & Hf & Hf'); [lia|].
  cbn [wait_completion_loop]. apply runs_bind. eapply runs_mono; [by apply master_read|].
  intros ? x1 (csr & -> & H1 & H1'). cbn [fst snd is_ok negb].
  apply runs_bind. eapply runs_mono; [by apply master_read|].
  intros ? x2 (irq & -> & H2 & H2'). cbn [fst snd is_ok negb].
  pose proof (after_app _ _ _ _ _ H1 H2) as H12. cbn [app] in H12.
  fold (nacked irq). destruct (nacked irq) eqn:Hn.
  { exists BVSTK_ERR_IO, true, [Rd mstr_csr csr; Rd mstr_irq irq]. eauto using completion_nack. }
  fold (completed read_size csr irq). destruct (completed read_size csr irq) eqn:Hc.
  { exists BVSTK_OK, false, [Rd mstr_csr csr; Rd mstr_irq irq]. eauto using completion_done. }
  destruct H1 as [_ Ht1], H2 as [_ Ht2].
  apply (poll_again _ log time _ fuel t0 timeout); [lia|done|lia|..].
  - intros x3 H3 _. exists BVSTK_ERR_TIMEOUT, false, [Rd mstr_csr csr; Rd mstr_irq irq].
    split; [done|]. split; [|by apply completion_late].
    by apply (after_app _ _ _ _ [] H12).
  - intros x3 H3 Hp3 _. eapply runs_mono; [by apply IH|].
    intros ? x4 (status & nack & l & -> & H4 & Hw).
    exists status, nack, (Rd mstr_csr csr :: Rd mstr_irq irq :: l).
    split; [done|]. split; [|by apply completion_poll].
    apply (after_app _ _ _ _ _ H12). by apply (after_app _ _ _ [] _ H3).
Qed.

Lemma wait_completion_trace fuel read_size timeout x :
  0 <= timeout < 2 ^ 32 -> enough_fuel fuel timeout ->
  runs (wait_completion fuel hw read_size timeout) x (fun r x' => exists status nack l,
    r = Some (status, nack) /\ after log time x x' l /\ completion_wait read_size l status nack).
Proof.
  intros Hto Hf. pose proof (effective_timeout_pos timeout Hto). unfold enough_fuel in Hf.
  unfold wait_completion. apply runs_bind. eapply runs_mono; [apply (now_traced _ log time)|].
  intros ? x1 (-> & H1 & H1'). eapply runs_mono.
  { apply wait_completion_loop_trace; [lia|]. destruct H1. split; [|split]; lia. }
  intros ? x2 (status & nack & l & -> & H2 & Hw). exists status, nack, l.
  split; [done|]. split; [|done]. by apply (after_app _ _ _ [] _ H1).
Qed.

(** Four bytes or-ed together are the packed word. *)
Lemma pack_four data offset :
  Z.lor (Z.lor (Z.lor (data.[offset]) (u32 (Z.shiftl (data.[offset + 1]) 8)))
               (u32 (Z.shiftl (data.[offset + 2]) 16)))
        (u32 (Z.shiftl (data.[offset + 3]) 24)) = pack_word data offset 4 \/
  ~ fits 8 (data.[offset]).
Proof.
  destruct (decide (fits 8 (data.[offset]))) as [Hf|]; [left|by right].
  unfold pack_word. change (Z.to_nat 4) with 4%nat. cbn [for_each].
  rewrite Z.lor_0_l, Z.add_0_r, Z.mul_0_r, Z.shiftl_0_r. rewrite (u32_id (data.[offset])); [done|].
  unfold fits in Hf. lia.
Qed.

Lemma fifo_words_cons data j n :
  4 * j < n -> fifo_words data j n =
    Wr mstr_fifo (pack_word data (4 * j) (Z.min (n - 4 * j) 4)) :: fifo_words data (j + 1) n.
Proof.
  intros Hj. unfold fifo_words. assert (j < (n + 3) / 4) by (Z.to_euclidean_division_equations; lia).
  rewrite seqZ_cons by lia. cbn. do 3 f_equal; lia.
Qed.

Lemma fifo_words_nil data j n : n <= 4 * j -> fifo_words data j n = [].
Proof.
  intros Hj. unfold fifo_words.
  assert ((n + 3) / 4 - j <= 0) by (Z.to_euclidean_division_equations; lia).
  by rewrite seqZ_nil by lia.
Qed.

Lemma write_fifo_loop_trace fuel data n j x :
  n <= alen data -> Forall (fits 8) data -> 0 <= j -> n - 4 * j < 4 * Z.of_nat fuel ->
  runs (write_fifo_loop fuel hw data n (4 * j)) x (fun status x' =>
    status = BVSTK_OK /\ after log time x x' (fifo_words data j n)).
Proof.
  intros Hn Hd. revert j x. induction fuel as [|fuel IH]; intros j x Hj Hf.
  { rewrite fifo_words_nil by lia. split; [done|]. apply after_refl. }
  cbn [write_fifo_loop]. destruct (4 * j + 4 <=? n) eqn:E; bsimp.
  - apply runs_bind. eapply runs_mono; [by apply master_write|]. intros ? x1 [-> H1].
    cbn [is_ok negb]. replace (4 * j + 4) with (4 * (j + 1)) by lia.
    eapply runs_mono; [apply IH; lia|]. intros ? x2 [-> H2]. split; [done|].
    rewrite fifo_words_cons, Z.min_r by lia. apply (after_app _ x1 _ [_]); [|done].
    destruct (pack_four data (4 * j)) as [<-|Hb]; [done|].
    destruct Hb. rewrite Forall_forall in Hd. apply Hd, aget_in. lia.
  - destruct (4 * j <? n) eqn:E'; bsimp.
    + rewrite fifo_words_cons, Z.min_l, fifo_words_nil by lia. by apply master_write.
    + rewrite fifo_words_nil by lia. split; [done|]. apply after_refl.
Qed.

Lemma load_commands_trace addr data n r x :
  0 <= n <= alen data -> Forall (fits 8) data ->
  runs (load_commands hw addr data n r) x (fun status x' =>
    status = BVSTK_OK /\ after log time x x' (commands addr data n r)).
Proof.
  intros Hn Hd. unfold load_commands, commands.
  apply runs_bind. eapply runs_mono; [by apply master_write|]. intros ? x1 [-> H1].
  cbn [then_ok is_ok]. apply runs_bind.
  eapply (runs_mono _ _ (fun status x2 => status = BVSTK_OK /\ after log time x1 x2
    (if n =? 0 then [] else Wr mstr_fifo (make_header addr false (negb (r =? 0)) n) ::
       fifo_words data 0 n))).
  { destruct (n =? 0); [split; [done|]; apply after_refl|].
    apply runs_bind. eapply runs_mono; [by apply master_write|]. intros ? x2 [-> H2].
    cbn [then_ok is_ok]. eapply runs_mono; [apply (write_fifo_loop_trace _ _ _ 0); [lia|done|lia|lia]|].
    intros ? x3 [-> H3]. split; [done|]. by apply (after_app _ _ _ [_] _ H2). }
  intros ? x2 [-> H2]. cbn [then_ok is_ok]. apply runs_bind.
  eapply (runs_mono _ _ (fun status x3 => status = BVSTK_OK /\ after log time x2 x3
    (if r =? 0 then [] else [Wr mstr_fifo (make_header addr true false r)]))).
  { destruct (r =? 0); [split; [done|]; apply after_refl|]. by apply master_write. }
  intros ? x3 [-> H3]. cbn [then_ok is_ok].
  eapply runs_mono; [by apply master_write|]. intros ? x4 [-> H4]. split; [done|].
  apply (after_app _ _ _ _ _ H1). apply (after_app _ _ _ _ _ H2). by apply (after_app _ _ _ _ _ H3).
Qed.

(** Result of one attempt against the grammar. *)
Definition attempt_trace (addr : Z) (data : list Z) (n r : Z) (rd : list Z)
    (l : list io) (res : attempt_result) : Prop :=
  match res with
  | Return status rd' => exists bytes, alen rd' = alen rd /\
      (status = BVSTK_OK -> prefix r rd' = bytes) /\
      forall k, transfer_trace addr data n r (S k) l status bytes
  | Continue status rd' => status = BVSTK_ERR_TIMEOUT /\ rd' = rd /\
      forall k l' status' bytes, transfer_trace addr data n r k l' status' bytes ->
        transfer_trace addr data n r (S k) (l ++ l') status' bytes
  end.

Lemma ready_wait_status l status : ready_wait l status -> status = BVSTK_OK \/ status = BVSTK_ERR_TIMEOUT.
Proof. induction 1; auto. Qed.

Lemma completion_wait_status r l status nack : completion_wait r l status nack ->
  status = BVSTK_OK /\ nack = false \/ status = BVSTK_ERR_TIMEOUT /\ nack = false \/
  status = BVSTK_ERR_IO /\ nack = true.
Proof. induction 1; auto. Qed.

Lemma attempt_once_trace fuel addr data n rd r timeout x :
  0 <= n <= alen data -> Forall (fits 8) data -> 0 <= r <= alen rd -> r <= 0xFFC ->
  0 <= timeout < 2 ^ 32 -> enough_fuel fuel timeout ->
  runs (attempt_once fuel hw addr data n rd r timeout) x (fun o x' =>
    exists res l, o = Some res /\ after log time x x' l /\ attempt_trace addr data n r rd l res).
Proof.
  intros Hn Hd Hr Hrm Hto Hf. unfold attempt_once. apply runs_bind.
  eapply runs_mono; [by apply wait_ready_trace|]. intros ? x1 (status & l1 & -> & H1 & Hw1).
  destruct (ready_wait_status _ _ Hw1) as [->| ->]; cbn [is_ok negb].
  2:{ apply runs_bind. eapply runs_mono; [apply recover_trace|]. intros ? x2 H2.
      eexists _, _. split; [done|]. split; [exact (after_app _ _ _ _ _ H1 H2)|].
      split; [done|]. split; [done|]. intros. rewrite <- app_assoc. by apply trace_not_ready. }
  apply runs_bind. eapply runs_mono; [by apply load_commands_trace|]. intros ? x2 [-> H2].
  cbn [is_ok]. apply runs_bind. eapply runs_mono; [by apply wait_completion_trace|].
  intros ? x3 (status & nack & l2 & -> & H3 & Hw2).
  pose proof (after_app _ _ _ _ _ H1 (after_app _ _ _ _ _ H2 H3)) as H13.
  destruct (completion_wait_status _ _ _ _ Hw2) as [[-> ->]|[[-> ->]|[-> ->]]]; cbn [is_ok negb andb].
  - apply runs_bind. eapply (runs_mono _ _ (fun o x4 => exists rd' m, o = (BVSTK_OK, rd') /\
      after log time x3 x4 (word_reads m (BVSTK_I2C_BRAM_BASE + (BVSTK_I2C_BRAM_MASTER_OFFSET + 4)) 0 r) /\
      alen rd' = alen rd /\ prefix r rd' = map (mem_byte m 0) (seqZ 0 r))).
    { destruct (r =? 0) eqn:E; bsimp; cbn [negb].
      - subst r. exists rd, (fun _ => 0). split; [done|]. split; [apply after_refl|]. done.
      - apply (read_words_traced _ _ _ _ BVSTK_I2C_BRAM_BASE BVSTK_I2C_BRAM_SIZE); try done;
          [apply bram_opened|]. unfold BVSTK_I2C_BRAM_MASTER_OFFSET, BVSTK_I2C_BRAM_SIZE. lia. }
    intros ? x4 (rd' & m & -> & H4 & Hl & Hp). cbn [fst snd is_ok]. eexists _, _. split; [done|].
    split; [exact (after_app _ _ _ _ _ H13 H4)|]. eexists. split; [done|]. split; [done|].
    intros k. rewrite Hp, <- !app_assoc. by apply trace_done.
  - apply runs_bind, runs_ret. cbn [fst snd is_ok].
    apply runs_bind. eapply runs_mono; [apply recover_trace|]. intros ? x4 H4.
    eexists _, _. split; [done|]. split; [exact (after_app _ _ _ _ _ H13 H4)|].
    split; [done|]. split; [done|]. intros. rewrite <- !app_assoc. by apply trace_retry.
  - apply runs_bind. eapply runs_mono; [apply recover_trace|]. intros ? x4 H4.
    eexists _, _. split; [done|]. split; [exact (after_app _ _ _ _ _ H13 H4)|].
    exists []. split; [done|]. split; [done|]. intros k. rewrite <- !app_assoc. by apply trace_nack.
Qed.

Lemma attempts_loop_trace k fuel addr data n rd r timeout status x :
  0 <= n <= alen data -> Forall (fits 8) data -> 0 <= r <= alen rd -> r <= 0xFFC ->
  0 <= timeout < 2 ^ 32 -> enough_fuel fuel timeout ->
  (k = O -> status = BVSTK_ERR_TIMEOUT) ->
  runs (attempts_loop k fuel hw addr data n rd r timeout status) x (fun o x' =>
    exists status' rd' l bytes, o = Some (status', rd') /\ after log time x x' l /\
      alen rd' = alen rd /\ (status' = BVSTK_OK -> prefix r rd' = bytes) /\
      transfer_trace addr data n r k l status' bytes).
Proof.
  intros Hn Hd Hr Hrm Hto Hf. revert rd status x Hr.
  induction k as [|k IH]; intros rd status x Hr Hst.
  { rewrite Hst by done. eexists _, _, [], []. split; [done|]. split; [apply after_refl|].
    split; [done|]. split; [done|]. constructor. }
  cbn [attempts_loop]. apply runs_bind. eapply runs_mono; [by apply attempt_once_trace|].
  intros ? x1 (res & l1 & -> & H1 & Hres). destruct res as [status1 rd1|status1 rd1].
  - destruct Hres as (bytes & Hl & Hp & Ht). eexists _, _, l1, bytes. eauto.
  - destruct Hres as (-> & -> & Ht). eapply runs_mono; [by apply IH|].
    intros ? x2 (status' & rd' & l & bytes & -> & H2 & Hl & Hp & Htr).
    eexists _, _, _, bytes. split; [done|]. split; [exact (after_app _ _ _ _ _ H1 H2)|]. eauto.
Qed.

(** ** The whole transfer *)

(** Taking and releasing the lock touches no register. *)
Definition quiet_mutex : Prop :=
  (forall t x, log (snd (bvstk_mutex_lock (Some (mh_mutex hw)) t x)) = log x) /\
  (forall x, log (bvstk_mutex_unlock (Some (mh_mutex hw)) x) = log x).

Definition valid_transfer (wd : option (list Z)) (n : Z) (rd : option (list Z)) (r : Z) : Prop :=
  (n = 0 \/ is_Some wd) /\ (r = 0 \/ is_Some rd) /\ n <= 0x1FFFFF /\ r <= 0xFFC.

#[local] Instance valid_transfer_dec wd n rd r : Decision (valid_transfer wd n rd r).
Proof. unfold valid_transfer. apply _. Defined.

(** The buffers are as long as the sizes say. *)
Definition buffers_ok (wd : option (list Z)) (n : Z) (rd : option (list Z)) (r : Z) : Prop :=
  0 <= n /\ 0 <= r /\
  (forall d, wd = Some d -> n <= alen d /\ Forall (fits 8) d) /\
  (forall d, rd = Some d -> r <= alen d).

Lemma valid_transfer_test wd n rd r :
  (negb (n =? 0) && negb (bool_decide (is_Some wd))) ||
  (negb (r =? 0) && negb (bool_decide (is_Some rd))) ||
  (0x1FFFFF <? n) || (0x1FFFFF <? r) || (BVSTK_I2C_MASTER_RESULT_MAX_BYTES <? r) = false <->
  valid_transfer wd n rd r.
Proof.
  unfold valid_transfer. change BVSTK_I2C_MASTER_RESULT_MAX_BYTES with 0xFFC.
  rewrite !orb_false_iff, !andb_false_iff, !negb_false_iff, !bool_decide_eq_true,
    !Z.eqb_eq, !Z.ltb_ge. split; [tauto|]. intros (H1 & H2 & H3 & H4). repeat split; try tauto; lia.
Qed.

(** What a transfer with the lock held does. *)
Definition transfer_outcome (addr : Z) (wd : option (list Z)) (n : Z) (rd : option (list Z)) (r : Z)
    (status : bvstk_status_t) (out : option (list Z)) (l : list io) : Prop :=
  if decide (n = 0 /\ r = 0) then status = BVSTK_ERR_MALFORMED /\ out = rd /\ l = []
  else if decide (valid_transfer wd n rd r) then
    exists bytes, transfer_trace addr (default [] wd) n r 3 l status bytes /\
      (status = BVSTK_OK -> prefix r (default [] out) = bytes)
  else status = BVSTK_ERR_RANGE /\ out = rd /\ l = [].

Lemma transfer_locked_trace fuel addr wd n rd r timeout x :
  buffers_ok wd n rd r -> 0 <= timeout < 2 ^ 32 -> enough_fuel fuel timeout ->
  runs (transfer_locked fuel hw addr wd n rd r timeout) x (fun o x' => exists status out l,
    o = Some (status, out) /\ after log time x x' l /\
    transfer_outcome addr wd n rd r status out l).
Proof.
  intros (Hn & Hr & Hwd & Hrd) Hto Hf. unfold transfer_locked, transfer_outcome.
  destruct ((n =? 0) && (r =? 0)) eqn:E.
  { bsimp. destruct (decide (n = 0 /\ r = 0)); [|by destruct Hn; lia].
    eexists _, _, []. eauto using after_refl. }
  destruct (decide (n = 0 /\ r = 0)) as [[-> ->]|_]; [done|].
  match goal with |- context [if ?b then st_ret _ else _] => destruct b eqn:Ev end.
  { destruct (decide (valid_transfer wd n rd r)) as [Hv|_].
    { apply valid_transfer_test in Hv. congruence. }
    eexists _, _, []. eauto using after_refl. }
  apply valid_transfer_test in Ev. destruct (decide (valid_transfer wd n rd r)) as [_|]; [|done].
  destruct Ev as (Hw & Hrr & Hnm & Hrm). apply runs_bind. eapply runs_mono.
  { apply (attempts_loop_trace 3); [| | |done|done|done|done].
    - destruct wd as [d|]; cbn; [by destruct (Hwd d)|]. destruct Hw as [->|[? ?]]; [done|done].
    - destruct wd as [d|]; cbn; [by destruct (Hwd d)|]. constructor.
    - destruct rd as [d|]; cbn; [by specialize (Hrd d eq_refl)|].
      destruct Hrr as [->|[? ?]]; [done|done]. }
  intros ? x1 (status & rd' & l & bytes & -> & H1 & Hl & Hp & Ht).
  eexists _, _, l. split; [done|]. split; [done|]. exists bytes. split; [done|].
  intros Hok. destruct rd as [d|]; cbn; [by apply Hp|].
  rewrite <- Hp by done. destruct Hrr as [->|[? ?]]; [|done]. done.
Qed.

Lemma transfer_trace_of fuel addr wd n rd r timeout x :
  quiet_mutex -> buffers_ok wd n rd r -> 0 <= timeout < 2 ^ 32 -> enough_fuel fuel timeout ->
  runs (bvstk_i2c_master_hw_transfer fuel (Some hw) addr wd n rd r timeout) x (fun o x' =>
    exists status out l, o = Some (status, out) /\ log x' = log x ++ l /\
      match fst (bvstk_mutex_lock (Some (mh_mutex hw)) timeout x) with
      | BVSTK_OK => transfer_outcome (Z.land addr 0x7F) wd n rd r status out l
      | refused => status = refused /\ out = rd /\ l = []
      end).
Proof.
  intros [Hlk Hul] Hb Hto Hf. unfold bvstk_i2c_master_hw_transfer.
  destruct Hopen as (Hi & _). rewrite (proj2 (Z.eqb_neq _ _) Hi).
  apply runs_bind. unfold runs at 1. specialize (Hlk timeout x).
  destruct (bvstk_mutex_lock _ timeout x) as [lock x1]. cbn [fst snd] in *.
  destruct lock; cbn [is_ok negb];
    try (eexists _, _, []; split; [done|]; split; [by rewrite app_nil_r|done]).
  apply runs_bind. eapply runs_mono; [by apply transfer_locked_trace|].
  intros ? x2 (status & out & l & -> & [H1 _] & Ho).
  exists status, out, l. split; [done|]. split; [|done]. unfold st_bind, st_ret. cbn [fst snd].
  by rewrite Hul, H1, Hlk.
Qed.

(** C14: The transfer protocol.  With enough polling rounds a transfer always
    returns; the registers it touches, in order, are those of the protocol
    grammar: each attempt waits for an idle block, loads the latch reset, the
    write phase, the read phase and START in that order, and polls for
    completion; a timeout resets the block and is retried up to three times, a
    NACK resets it and ends the transfer, and success delivers exactly the
    bytes fetched after completion was seen.  Refused arguments and a refused
    lock touch no register. *)
Theorem master_hw_protocol fuel addr wd n rd r timeout x :
  quiet_mutex -> buffers_ok wd n rd r -> 0 <= timeout < 2 ^ 32 -> enough_fuel fuel timeout ->
  runs (bvstk_i2c_master_hw_transfer fuel (Some hw) addr wd n rd r timeout) x (fun o x' =>
    exists status out l, o = Some (status, out) /\ log x' = log x ++ l /\
      match fst (bvstk_mutex_lock (Some (mh_mutex hw)) timeout x) with
      | BVSTK_OK => transfer_outcome (Z.land addr 0x7F) wd n rd r status out l
      | refused => status = refused /\ out = rd /\ l = []
      end).
Proof. apply transfer_trace_of. Qed.

(** ** No replay after a NACK *)

Definition start_block : io := Wr mstr_csr BVSTK_I2C_MSTR_START_BIT.
Definition starts (l : list io) : nat := length (filter (fun e => e = start_block) l).
Definition nack_seen (e : io) : bool :=
  match e with Rd a v => (a =? mstr_irq) && nacked v | Wr _ _ => false end.
Definition quiet (l : list io) : Prop := Forall (fun e => nack_seen e = false) l.

Lemma starts_app l1 l2 : starts (l1 ++ l2) = (starts l1 + starts l2)%nat.
Proof. unfold starts. by rewrite filter_app, length_app. Qed.

Lemma starts_none l : (forall e, e ∈ l -> e <> start_block) -> starts l = O.
Proof.
  intros H. unfold starts. induction l as [|e l IH]; [done|].
  rewrite filter_cons_False by (apply H; left). apply IH. intros e' He. apply H. by right.
Qed.

Lemma quiet_app l1 l2 : quiet l1 -> quiet l2 -> quiet (l1 ++ l2).
Proof. apply Forall_app_2. Qed.

Lemma word_reads_quiet m n :
  quiet (word_reads m (BVSTK_I2C_BRAM_BASE + (BVSTK_I2C_BRAM_MASTER_OFFSET + 4)) 0 n) \/ 0x1000 < n.
Proof.
  destruct (decide (0x1000 < n)); [by right|left].
  apply Forall_forall. intros e He. apply list_elem_of_fmap in He as (k & -> & Hk).
  apply elem_of_seqZ in Hk. cbn. apply andb_false_iff. left. apply Z.eqb_neq.
  unfold BVSTK_I2C_BRAM_BASE, BVSTK_I2C_BRAM_MASTER_OFFSET, mstr_irq, BVSTK_I2C_MASTER_BASE,
    BVSTK_I2C_MSTR_IRQ_OFFSET. Z.to_euclidean_division_equations. lia.
Qed.

Lemma starts_reset : starts [reset_block] = O.
Proof. done. Qed.

Lemma word_reads_starts m a j n : starts (word_reads m a j n) = O.
Proof.
  apply starts_none. intros e He. apply list_elem_of_fmap in He as (k & -> & _). done.
Qed.

Lemma ready_wait_quiet l status : ready_wait l status -> quiet l /\ starts l = O.
Proof.
  induction 1 as [v|v|v l status Hb Hw [IH1 IH2]]; split; try (repeat constructor; done); try done.
Qed.

Lemma commands_quiet addr data n r :
  quiet (commands addr data n r) /\ starts (commands addr data n r) = 1%nat.
Proof.
  unfold commands. split.
  - repeat apply quiet_app; repeat constructor.
    + destruct (n =? 0); [constructor|]. constructor; [done|].
      apply Forall_forall. intros e He. apply list_elem_of_fmap in He as (k & -> & _). done.
    + destruct (r =? 0); repeat constructor.
  - rewrite !starts_app. replace (starts (if n =? 0 then _ else _)) with O.
    { replace (starts (if r =? 0 then _ else _)) with O; [done|]. by destruct (r =? 0). }
    symmetry. apply starts_none. intros e He. destruct (n =? 0); [by inversion He|].
    apply elem_of_cons in He as [->|He]; [done|].
    apply list_elem_of_fmap in He as (k & -> & _). done.
Qed.

Lemma completion_wait_quiet r l status nack : completion_wait r l status nack ->
  starts l = O /\
  if nack then exists l0 v, l = l0 ++ [Rd mstr_irq v] /\ nacked v = true /\ quiet l0
  else quiet l.
Proof.
  induction 1 as [c i Hn|c i Hn Hc|c i Hn Hc|c i l status nack Hn Hc Hw [IH1 IH2]];
    (split; [done|]).
  - exists [Rd mstr_csr c], i. split; [done|]. split; [done|]. by repeat constructor.
  - constructor; [done|]. by repeat constructor.
  - constructor; [done|]. by repeat constructor.
  - destruct nack.
    + destruct IH2 as (l0 & v & -> & Hv & Hq). exists (Rd mstr_csr c :: Rd mstr_irq i :: l0), v.
      split; [done|]. split; [done|]. constructor; [done|]. by constructor.
    + constructor; [done|]. by constructor.
Qed.

(** Split a trace into the parts known to be free of NACKs. *)
Ltac quiet_parts :=
  repeat first [ assumption | apply quiet_app | (by repeat constructor) ].

Lemma transfer_trace_quiet addr data n r k l status bytes :
  r <= 0xFFC -> transfer_trace addr data n r k l status bytes ->
  (starts l <= k)%nat /\
  (status = BVSTK_ERR_IO -> exists l0 v, l = l0 ++ [Rd mstr_irq v; reset_block] /\
     nacked v = true /\ quiet l0) /\
  (status <> BVSTK_ERR_IO -> quiet l).
Proof.
  intros Hr. destruct (commands_quiet addr data n r) as [Hcq Hcs].
  induction 1 as [|k l1 l2 m H1 H2|k l1 l2 H1 H2|k l1 l st b H1 Ht (IH1 & IH2 & IH3)
                 |k l1 l2 l st b H1 H2 Ht (IH1 & IH2 & IH3)];
    try (destruct (ready_wait_quiet _ _ H1) as [Hq1 Hs1]);
    try (destruct (completion_wait_quiet _ _ _ _ H2) as [Hs2 Hq2]);
    rewrite ?starts_app, ?Hs1, ?Hs2, ?Hcs, ?starts_reset.
  - split; [done|]. split; [done|]. constructor.
  - rewrite word_reads_starts. split; [lia|]. split; [done|]. intros _.
    destruct (word_reads_quiet m r); [|lia]. by quiet_parts.
  - split; [lia|]. split; [|done]. intros _. destruct Hq2 as (l0 & v & -> & Hv & Hq).
    exists (l1 ++ commands addr data n r ++ l0), v. rewrite <- !app_assoc. split; [done|].
    split; [done|]. by quiet_parts.
  - split; [lia|]. split.
    + intros Hst. destruct (IH2 Hst) as (l0 & v & -> & Hv & Hq).
      exists (l1 ++ [reset_block] ++ l0), v. rewrite <- !app_assoc. split; [done|].
      split; [done|]. quiet_parts.
    + intros Hst. specialize (IH3 Hst). quiet_parts.
  - split; [lia|]. split.
    + intros Hst. destruct (IH2 Hst) as (l0 & v & -> & Hv & Hq).
      exists (l1 ++ commands addr data n r ++ l2 ++ [reset_block] ++ l0), v.
      rewrite <- !app_assoc. split; [done|]. split; [done|].
      quiet_parts.
    + intros Hst. specialize (IH3 Hst). quiet_parts.
Qed.

(** A write is never replayed onto the bus after the device rejected it:
    a valid transfer starts the block at most three times, and once a NACK is
    read the only remaining access is the block reset and the result is IO,
    while any other result means no NACK was read at all. *)
Theorem master_hw_no_replay fuel addr wd n rd r timeout x :
  quiet_mutex -> buffers_ok wd n rd r -> valid_transfer wd n rd r -> n <> 0 \/ r <> 0 ->
  0 <= timeout < 2 ^ 32 -> enough_fuel fuel timeout ->
  fst (bvstk_mutex_lock (Some (mh_mutex hw)) timeout x) = BVSTK_OK ->
  runs (bvstk_i2c_master_hw_transfer fuel (Some hw) addr wd n rd r timeout) x (fun o x' =>
    exists status out l, o = Some (status, out) /\ log x' = log x ++ l /\
      (starts l <= 3)%nat /\
      (status = BVSTK_ERR_IO -> exists l0 v, l = l0 ++ [Rd mstr_irq v; reset_block] /\
         nacked v = true /\ quiet l0) /\
      (status <> BVSTK_ERR_IO -> quiet l)).
Proof.
  intros Hq Hb Hv Hne Hto Hf Hlk. eapply runs_mono; [by apply transfer_trace_of|].
  intros ? x1 (status & out & l & -> & H1 & Ho). rewrite Hlk in Ho. unfold transfer_outcome in Ho.
  rewrite decide_False, decide_True in Ho by (done || lia). destruct Ho as (bytes & Ht & _).
  exists status, out, l. split; [done|]. split; [done|].
  eapply transfer_trace_quiet; [|done]. apply Hv.
Qed.

Lemma transfer_trace_bytes addr data n r k l status bytes :
  transfer_trace addr data n r k l status bytes -> status = BVSTK_OK -> 0 <= r -> alen bytes = r.
Proof.
  induction 1; intros Hst Hr; try done; eauto.
  unfold alen. rewrite length_map, length_seqZ. lia.
Qed.

Lemma rounds_enough t : 0 <= t < 2 ^ 32 -> enough_fuel (rounds t) t.
Proof.
  intros Ht. pose proof (effective_timeout_pos t Ht). unfold enough_fuel, rounds. lia.
Qed.

(** The driver implements the interface the service is proved against: for
    any timeout a register write or read returns, its accesses are those of a
    transfer of two bytes, or of one byte followed by a one-byte read, at the 7-bit
    address - with the attempts the driver makes of it - and a successful read
    returns the byte fetched. *)
Theorem master_hw_interface addr reg value timeout x :
  quiet_mutex -> fits 8 reg -> fits 8 value -> 0 <= timeout < 2 ^ 32 ->
  let lock := fst (bvstk_mutex_lock (Some (mh_mutex hw)) timeout x) in
  runs (I2cMasterService.bvstk_i2c_master_hw_write_reg hw addr reg value timeout) x
    (fun status x' => exists l, log x' = log x ++ l /\
       if is_ok lock
       then exists bytes, transfer_trace (Z.land addr 0x7F) [reg; value] 2 0 3 l status bytes
       else status = lock /\ l = []) /\
  runs (I2cMasterService.bvstk_i2c_master_hw_read_reg hw addr reg timeout) x
    (fun r x' => exists l, log x' = log x ++ l /\
       if is_ok lock
       then exists bytes, transfer_trace (Z.land addr 0x7F) [reg] 1 1 3 l (fst r) bytes /\
              (fst r = BVSTK_OK -> bytes = [snd r])
       else fst r = lock /\ l = []).
Proof.
  intros Hq Hreg Hval Hto lock. split.
  - apply runs_bind, runs_bind. eapply runs_mono.
    { apply transfer_trace_of; [done| |done|by apply rounds_enough].
      split; [done|]. split; [done|]. split; [|done]. intros d [= <-].
      split; [done|]. repeat (constructor; [done|]). constructor. }
    intros ? x1 (status & out & l & -> & H1 & Ho). exists l. split; [done|].
    fold lock in Ho. destruct lock; try (destruct Ho as (-> & _ & ->); done).
    unfold transfer_outcome in Ho. rewrite decide_False, decide_True in Ho;
      [|split; [by right; eexists|]; split; [by left|done]|lia].
    destruct Ho as (bytes & Ht & _). by exists bytes.
  - apply runs_bind, runs_bind. eapply runs_mono.
    { apply transfer_trace_of; [done| |done|by apply rounds_enough].
      split; [done|]. split; [done|]. split; intros d [= <-]; [|done].
      split; [done|]. repeat (constructor; [done|]). constructor. }
    intros ? x1 (status & out & l & -> & H1 & Ho). exists l. split; [done|].
    fold lock in Ho. destruct lock; try (destruct Ho as (-> & _ & ->); done).
    unfold transfer_outcome in Ho. rewrite decide_False, decide_True in Ho;
      [|split; [by right; eexists|]; split; [by right; eexists|done]|lia].
    destruct Ho as (bytes & Ht & Hb). exists bytes. split; [done|]. cbn. intros ->.
    apply transfer_trace_bytes in Ht as Hl; [|done..]. specialize (Hb eq_refl). subst bytes.
    destruct out as [[|v out]|]; [done| |done]. cbn. done.
Qed.
End protocol.

(** ** Concrete runs *)

Definition demo_master_hw {X} : bvstk_i2c_master_hw_t X :=
  MasterHw (Region BVSTK_I2C_MASTER_BASE BVSTK_I2C_MASTER_SIZE BVSTK_I2C_MASTER_BASE)
    (Region BVSTK_I2C_BRAM_BASE BVSTK_I2C_BRAM_SIZE BVSTK_I2C_BRAM_BASE)
    (Clock None None) (Mutex None None) 1.

(** An idle block with data valid and 0xA5 in the result mailbox; one that
    rejects everything; one that never becomes idle. *)
Definition demo_good (a : Z) : Z :=
  if a =? mstr_irq then 2 else if a =? 0x40000004 then 0xA5 else 0.
Definition demo_nack (a : Z) : Z := if a =? mstr_irq then 8 else 0.
Definition demo_stuck (a : Z) : Z := 1.

Example demo_read_reg :
  fst (@I2cMasterService.bvstk_i2c_master_hw_read_reg _ _
         (@i2c_master_driver _ (scripted_platform demo_good)) demo_master_hw 0x42 0x10 5 ([], 0)) =
    (BVSTK_OK, 0xA5).
Proof. vm_compute. done. Qed.

Example demo_write_stuck :
  @I2cMasterService.bvstk_i2c_master_hw_write_reg _ _
    (@i2c_master_driver _ (scripted_platform demo_stuck)) demo_master_hw 0x42 0x10 0x77 1 ([], 0) =
    (BVSTK_ERR_TIMEOUT,
     ([Rd mstr_csr 1; Rd mstr_csr 1; reset_block; Rd mstr_csr 1; Rd mstr_csr 1; reset_block;
       Rd mstr_csr 1; Rd mstr_csr 1; reset_block], 33)).
Proof. vm_compute. done. Qed.

Lemma demo_quiet : @quiet_mutex (list io * Z) demo_master_hw fst.
Proof. done. Qed.

Lemma demo_buffers : buffers_ok (Some [0x10; 0x77]) 2 None 0.
Proof.
  split; [done|]. split; [done|]. split; [|done]. intros d [= <-]. split; [done|].
  repeat (constructor; [done|]). constructor.
Qed.

Lemma master_hw_protocol_witness :
  runs (@bvstk_i2c_master_hw_transfer _ (scripted_platform demo_good) 101 (Some demo_master_hw)
          0x42 (Some [0x10; 0x77]) 2 None 0 0) ([], 0)
    (fun o x' => exists status out l, o = Some (status, out) /\ fst x' = [] ++ l /\
       transfer_outcome 0x42 (Some [0x10; 0x77]) 2 None 0 status out l).
Proof.
  apply (@master_hw_protocol _ (scripted_platform demo_good) demo_master_hw fst snd
    (scripted_traced demo_good) ltac:(done) 101 0x42 (Some [0x10; 0x77]) 2 None 0 0 ([], 0)).
  - apply demo_quiet.
  - apply demo_buffers.
  - done.
  - done.
Defined.

Lemma master_hw_no_replay_witness :
  runs (@bvstk_i2c_master_hw_transfer _ (scripted_platform demo_nack) 101 (Some demo_master_hw)
          0x42 (Some [0x10; 0x77]) 2 None 0 0) ([], 0)
    (fun o x' => exists status out l, o = Some (status, out) /\ fst x' = [] ++ l /\
       (starts l <= 3)%nat /\
       (status = BVSTK_ERR_IO -> exists l0 v, l = l0 ++ [Rd mstr_irq v; reset_block] /\
          nacked v = true /\ quiet l0) /\
       (status <> BVSTK_ERR_IO -> quiet l)).
Proof.
  apply (@master_hw_no_replay _ (scripted_platform demo_nack) demo_master_hw fst snd
    (scripted_traced demo_nack) ltac:(done) 101 0x42 (Some [0x10; 0x77]) 2 None 0 0 ([], 0)).
  - apply demo_quiet.
  - apply demo_buffers.
  - split; [by right; eexists|]. split; [by left|done].
  - by left.
  - done.
  - done.
  - done.
Defined.

Lemma master_hw_interface_witness :
  runs (@I2cMasterService.bvstk_i2c_master_hw_write_reg _ _
          (@i2c_master_driver _ (scripted_platform demo_good)) demo_master_hw 0x42 0x10 0x77 5) ([], 0)
    (fun status x' => exists l, fst x' = [] ++ l /\
       exists bytes, transfer_trace 0x42 [0x10; 0x77] 2 0 3 l status bytes) /\
  runs (@I2cMasterService.bvstk_i2c_master_hw_read_reg _ _
          (@i2c_master_driver _ (scripted_platform demo_good)) demo_master_hw 0x42 0x10 5) ([], 0)
    (fun r x' => exists l, fst x' = [] ++ l /\
       exists bytes, transfer_trace 0x42 [0x10] 1 1 3 l (fst r) bytes /\
         (fst r = BVSTK_OK -> bytes = [snd r])).
Proof.
  apply (@master_hw_interface _ (scripted_platform demo_good) demo_master_hw fst snd
    (scripted_traced demo_good) ltac:(done) 0x42 0x10 0x77 5 ([], 0)).
  - apply demo_quiet.
  - done.
  - done.
  - done.
Defined.
