(* ===== verification/I2cSlaveHw.v ===== *)
(** * I2cSlaveHw: the PL I2C slave driver

    [src/src/drivers/pl/i2c/bvstk_i2c_slave.c]: the interrupt and address
    registers of the slave block and its two mailboxes in block RAM, one the
    host's write frames arrive in and one its reads are answered from.  A
    mailbox is a header word (address and byte count) followed by the bytes,
    packed little-endian.

    The theorems relate the driver's loops to that format: what
    [write_read_window] stores is what a reader of the format finds, what
    [read_frame] returns is what the format says, and neither touches the
    other windows. *)
From stdpp Require Import prelude.
From Stdlib Require Import ZArith Lia.
From S2P Require Import Prelude Platform PlAccess.
Local Open Scope Z_scope.

(** ** Registers (hardware/pl/i2c/bvstk_i2c_regs.h) *)

Definition BVSTK_I2C_SLV_CSR_OFFSET : Z := 0x00.
Definition BVSTK_I2C_SLV_IRQ_OFFSET : Z := 0x04.
Definition BVSTK_I2C_SLV_REQ_OFFSET : Z := 0x08.
Definition BVSTK_I2C_SLV_ADDR_LIST_0 : Z := 0x10.
Definition BVSTK_I2C_SLV_CSR_RD_VALID_BIT : Z := 0x04.
Definition BVSTK_I2C_SLV_IRQ_RESET_BIT : Z := 0x01.
Definition BVSTK_I2C_SLV_IRQ_DATA_VALID : Z := 0x02.
Definition BVSTK_I2C_SLV_IRQ_FINAL_PACKET : Z := 0x04.
Definition BVSTK_I2C_SLV_IRQ_ERR_ACK : Z := 0x10.
Definition BVSTK_I2C_SLV_IRQ_MEM_OVERFLOW : Z := 0x20.
Definition BVSTK_I2C_SLV_HEADER_ADDR_MASK : Z := 0x7F.
Definition BVSTK_I2C_SLV_HEADER_BYTES_SHIFT : Z := 7.
Definition BVSTK_I2C_SLV_HEADER_BYTES_MASK : Z :=
  u32 (Z.shiftl 0x01FFFFFF BVSTK_I2C_SLV_HEADER_BYTES_SHIFT).
Definition BVSTK_I2C_BRAM_SLAVE_WR_OFFSET : Z := 0x1000.
Definition BVSTK_I2C_BRAM_SLAVE_RD_OFFSET : Z := 0x2000.
Definition BVSTK_I2C_BRAM_SLAVE_WINDOW_SIZE : Z := 0x1000.
Definition BVSTK_I2C_SLAVE_MAX_FRAME_BYTES : Z := 256.

(** ** Data *)

Record bvstk_i2c_slave_hw_t := SlaveHw {
  sh_slave : bvstk_mmio_region_t;
  sh_bram : bvstk_mmio_region_t;
  sh_initialized : Z
}.

Definition zero_slave_hw : bvstk_i2c_slave_hw_t := SlaveHw zero_region zero_region 0.

Record bvstk_i2c_slave_irq_event_t := SlaveIrqEvent {
  ie_irq_flags : Z;
  ie_request_header : Z;
  ie_request_addr : Z;
  ie_request_size : Z
}.

Definition zero_irq_event : bvstk_i2c_slave_irq_event_t := SlaveIrqEvent 0 0 0 0.

(** ** Operations *)

Definition header_size (header : Z) : Z :=
  Z.shiftr (Z.land header BVSTK_I2C_SLV_HEADER_BYTES_MASK) BVSTK_I2C_SLV_HEADER_BYTES_SHIFT.

Definition header_address (header : Z) : Z := u8 (Z.land header BVSTK_I2C_SLV_HEADER_ADDR_MASK).

Definition bvstk_i2c_slave_irq_ends_read (irq_flags : Z) : bool :=
  truth (Z.land irq_flags (Z.lor BVSTK_I2C_SLV_IRQ_ERR_ACK BVSTK_I2C_SLV_IRQ_MEM_OVERFLOW)) ||
  truth (Z.land irq_flags BVSTK_I2C_SLV_IRQ_FINAL_PACKET) &&
  negb (truth (Z.land irq_flags BVSTK_I2C_SLV_IRQ_DATA_VALID)).

Definition bvstk_i2c_slave_hw_init (hardware : option bvstk_i2c_slave_hw_t)
    : bvstk_status_t * option bvstk_i2c_slave_hw_t :=
  match hardware with
  | None => (BVSTK_ERR_MALFORMED, None)
  | Some _ =>
      match bvstk_mmio_region_open (Some zero_region) BVSTK_I2C_SLAVE_BASE BVSTK_I2C_SLAVE_SIZE with
      | None => (BVSTK_ERR_IO, Some zero_slave_hw)
      | Some slave =>
          match bvstk_mmio_region_open (Some zero_region) BVSTK_I2C_BRAM_BASE BVSTK_I2C_BRAM_SIZE with
          | None => (BVSTK_ERR_IO, Some (SlaveHw zero_region zero_region 0))
          | Some bram => (BVSTK_OK, Some (SlaveHw slave bram 1))
          end
      end
  end.

Definition bvstk_i2c_slave_hw_shutdown (hardware : option bvstk_i2c_slave_hw_t)
    : option bvstk_i2c_slave_hw_t :=
  match hardware with
  | None => None
  | Some _ => Some zero_slave_hw
  end.

(** The guard every operation opens with. *)
Definition slave_hw_ready (hardware : option bvstk_i2c_slave_hw_t) : option bvstk_i2c_slave_hw_t :=
  match hardware with
  | Some hw => if sh_initialized hw =? 0 then None else Some hw
  | None => None
  end.

Section operations.
Context {X : Type} `{PL : Platform X}.

(** The four words of the address filter, in order, stopping at a failure. *)
Definition write_address_list (region : bvstk_mmio_region_t) (address_list : list Z)
    : ST X bvstk_status_t := fun x =>
  match for_loop 4 0
    (fun i x =>
       let '(status, x) := write32 region (BVSTK_I2C_SLV_ADDR_LIST_0 + i * 4) (address_list.[i]) x in
       (x, if negb (is_ok status) then Some BVSTK_ERR_IO else None)) x with
  | (x, Some status) => (status, x)
  | (x, None) => (BVSTK_OK, x)
  end.

Definition bvstk_i2c_slave_hw_set_address (hardware : option bvstk_i2c_slave_hw_t)
    (addr_7b : Z) : ST X bvstk_status_t :=
  match slave_hw_ready hardware with
  | None => st_ret BVSTK_ERR_NOT_READY
  | Some hw =>
      let addr_7b := Z.land addr_7b 0x7F in
      let word := addr_7b / 32 in
      let bit := addr_7b mod 32 in
      write_address_list (sh_slave hw) ([0; 0; 0; 0].[word <- u32 (Z.shiftl 1 bit)])
  end.

Definition bvstk_i2c_slave_hw_clear_irq (hardware : option bvstk_i2c_slave_hw_t)
    : ST X bvstk_status_t :=
  match slave_hw_ready hardware with
  | None => st_ret BVSTK_ERR_NOT_READY
  | Some hw => write32 (sh_slave hw) BVSTK_I2C_SLV_IRQ_OFFSET BVSTK_I2C_SLV_IRQ_RESET_BIT
  end.

(** The event record as the call leaves it; [None] is a NULL pointer. *)
Definition bvstk_i2c_slave_hw_capture_irq (hardware : option bvstk_i2c_slave_hw_t)
    (event : option bvstk_i2c_slave_irq_event_t)
    : ST X (bvstk_status_t * option bvstk_i2c_slave_irq_event_t) :=
  match slave_hw_ready hardware with
  | None => st_ret (BVSTK_ERR_NOT_READY, event)
  | Some hw =>
      match event with
      | None => st_ret (BVSTK_ERR_MALFORMED, None)
      | Some _ =>
          let! flags := read32 (sh_slave hw) BVSTK_I2C_SLV_IRQ_OFFSET in
          if negb (is_ok (fst flags)) then st_ret (fst flags, Some zero_irq_event)
          else
            let! header := read32 (sh_slave hw) BVSTK_I2C_SLV_REQ_OFFSET in
            if negb (is_ok (fst header)) then
              st_ret (fst header, Some (SlaveIrqEvent (snd flags) 0 0 0))
            else
              let! status := bvstk_i2c_slave_hw_clear_irq (Some hw) in
              st_ret (status,
                Some (SlaveIrqEvent (snd flags) (snd header)
                        (header_address (snd header)) (header_size (snd header))))
      end
  end.

(** [frame], [frame_size] and [addr_7b] are output buffers; [None] is NULL.
    The result holds what each contains afterwards. *)
Definition bvstk_i2c_slave_hw_read_frame (hardware : option bvstk_i2c_slave_hw_t)
    (frame : option (list Z)) (frame_capacity : Z) (frame_size addr_7b : option Z)
    : ST X (bvstk_status_t * option (list Z) * option Z * option Z) :=
  match slave_hw_ready hardware with
  | None => st_ret (BVSTK_ERR_NOT_READY, frame, frame_size, addr_7b)
  | Some hw =>
      match frame_size, addr_7b with
      | Some _, Some _ =>
          if negb (frame_capacity =? 0) && negb (bool_decide (is_Some frame)) then
            st_ret (BVSTK_ERR_MALFORMED, frame, frame_size, addr_7b)
          else
            let! header := read32 (sh_bram hw) BVSTK_I2C_BRAM_SLAVE_WR_OFFSET in
            if negb (is_ok (fst header)) then st_ret (BVSTK_ERR_IO, frame, Some 0, Some 0)
            else
              let size := header_size (snd header) in
              if (frame_capacity <? size) || (BVSTK_I2C_SLAVE_MAX_FRAME_BYTES <? size) then
                st_ret (BVSTK_ERR_RANGE, frame, Some 0, Some 0)
              else
                let address := header_address (snd header) in
                let! r := read_words (sh_bram hw) (BVSTK_I2C_BRAM_SLAVE_WR_OFFSET + 4) size
                            (default [] frame) in
                if negb (is_ok (fst r)) then
                  st_ret (BVSTK_ERR_IO, option_map (fun _ => snd r) frame, Some 0, Some address)
                else st_ret (BVSTK_OK, option_map (fun _ => snd r) frame, Some size, Some address)
      | _, _ => st_ret (BVSTK_ERR_MALFORMED, frame, frame_size, addr_7b)
      end
  end.

Definition bvstk_i2c_slave_hw_write_read_window (hardware : option bvstk_i2c_slave_hw_t)
    (addr_7b : Z) (data : option (list Z)) (size : Z) : ST X bvstk_status_t :=
  match slave_hw_ready hardware with
  | None => st_ret BVSTK_ERR_NOT_READY
  | Some hw =>
      if (BVSTK_I2C_BRAM_SLAVE_WINDOW_SIZE - 4 <? size) ||
         negb (size =? 0) && negb (bool_decide (is_Some data)) then st_ret BVSTK_ERR_RANGE
      else
        let addr_7b := Z.land addr_7b 0x7F in
        let header := Z.lor (u32 (Z.shiftl (u32 size) BVSTK_I2C_SLV_HEADER_BYTES_SHIFT)) addr_7b in
        let! status := write32 (sh_bram hw) BVSTK_I2C_BRAM_SLAVE_RD_OFFSET header in
        if negb (is_ok status) then st_ret BVSTK_ERR_IO
        else write_words (sh_bram hw) (BVSTK_I2C_BRAM_SLAVE_RD_OFFSET + 4) (default [] data) size
  end.

Definition bvstk_i2c_slave_hw_accept_read (hardware : option bvstk_i2c_slave_hw_t)
    : ST X bvstk_status_t :=
  match slave_hw_ready hardware with
  | None => st_ret BVSTK_ERR_NOT_READY
  | Some hw => write32 (sh_slave hw) BVSTK_I2C_SLV_CSR_OFFSET BVSTK_I2C_SLV_CSR_RD_VALID_BIT
  end.

(** [while (offset < frame_size)] of [clear_frame], a word at a time. *)
Fixpoint clear_words (fuel : nat) (region : bvstk_mmio_region_t) (frame_size offset : Z)
    : ST X bvstk_status_t :=
  match fuel with
  | O => st_ret BVSTK_OK
  | S fuel =>
      if offset <? frame_size then
        let! status := write32 region (BVSTK_I2C_BRAM_SLAVE_WR_OFFSET + 4 + offset) 0 in
        if negb (is_ok status) then st_ret BVSTK_ERR_IO
        else clear_words fuel region frame_size (offset + 4)
      else st_ret BVSTK_OK
  end.

Definition bvstk_i2c_slave_hw_clear_frame (hardware : option bvstk_i2c_slave_hw_t)
    (frame_size : Z) : ST X bvstk_status_t :=
  match slave_hw_ready hardware with
  | None => st_ret BVSTK_ERR_NOT_READY
  | Some hw =>
      let frame_size :=
        if BVSTK_I2C_SLAVE_MAX_FRAME_BYTES <? frame_size then BVSTK_I2C_SLAVE_MAX_FRAME_BYTES
        else frame_size in
      let! status := write32 (sh_bram hw) BVSTK_I2C_BRAM_SLAVE_WR_OFFSET 0 in
      if negb (is_ok status) then st_ret BVSTK_ERR_IO
      else clear_words (Z.to_nat frame_size) (sh_bram hw) frame_size 0
  end.
End operations.

(** ** The mailbox format *)

(** A mailbox at byte address [a] of memory [m]: who it is for and its bytes. *)
Definition mailbox (m : Z -> Z) (a : Z) : Z * list Z :=
  (header_address (m a), map (mem_byte m (a + 4)) (seqZ 0 (header_size (m a)))).

(** The driver as [init] leaves it. *)
Definition slave_hw_open (hw : bvstk_i2c_slave_hw_t) : Prop :=
  sh_initialized hw <> 0 /\
  sh_slave hw = Region BVSTK_I2C_SLAVE_BASE BVSTK_I2C_SLAVE_SIZE BVSTK_I2C_SLAVE_BASE /\
  sh_bram hw = Region BVSTK_I2C_BRAM_BASE BVSTK_I2C_BRAM_SIZE BVSTK_I2C_BRAM_BASE.

Lemma slave_hw_init_open hw hw' :
  bvstk_i2c_slave_hw_init hw = (BVSTK_OK, Some hw') -> slave_hw_open hw'.
Proof. destruct hw; [|done]. intros [= <-]. done. Qed.

Lemma slave_hw_open_bram hw :
  slave_hw_open hw -> opened (sh_bram hw) BVSTK_I2C_BRAM_BASE BVSTK_I2C_BRAM_SIZE.
Proof. by intros (_ & _ & ->). Qed.

Lemma slave_hw_open_slave hw :
  slave_hw_open hw -> opened (sh_slave hw) BVSTK_I2C_SLAVE_BASE BVSTK_I2C_SLAVE_SIZE.
Proof. by intros (_ & -> & _). Qed.

Lemma slave_hw_open_ready hw : slave_hw_open hw -> slave_hw_ready (Some hw) = Some hw.
Proof. intros (H & _). cbn. by rewrite (proj2 (Z.eqb_neq _ _) H). Qed.

Lemma land_7f x : Z.land x 0x7F = x mod 128.
Proof. change 0x7F with (Z.ones 7). by rewrite Z.land_ones by lia. Qed.

Lemma header_size_div h : 0 <= h < 2 ^ 32 -> header_size h = h / 128.
Proof.
  intros Hh. unfold header_size. apply Z.bits_inj'. intros i Hi.
  change BVSTK_I2C_SLV_HEADER_BYTES_MASK with (Z.shiftl (Z.ones 25) 7).
  rewrite Z.shiftr_spec, Z.land_spec, Z.shiftl_spec by (unfold BVSTK_I2C_SLV_HEADER_BYTES_SHIFT; lia).
  unfold BVSTK_I2C_SLV_HEADER_BYTES_SHIFT.
  change 128 with (2 ^ 7). rewrite <- Z.shiftr_div_pow2, Z.shiftr_spec by lia.
  replace (i + 7 - 7) with i by lia. rewrite Z.testbit_ones_nonneg by lia.
  destruct (i <? 25) eqn:Hlt; bsimp; [by rewrite andb_true_r|].
  rewrite andb_false_r. symmetry. destruct (decide (h = 0)) as [->|]; [apply Z.testbit_0_l|].
  apply Z.bits_above_log2; [lia|]. assert (Z.log2 h < 32) by (apply Z.log2_lt_pow2; lia). lia.
Qed.

Lemma header_address_mod h : header_address h = h mod 128.
Proof.
  unfold header_address, BVSTK_I2C_SLV_HEADER_ADDR_MASK. rewrite land_7f.
  apply u8_id. pose proof (Z.mod_pos_bound h 128). lia.
Qed.

(** The header [write_read_window] builds. *)
Lemma header_value size addr :
  0 <= size < 33554432 ->
  Z.lor (u32 (Z.shiftl (u32 size) BVSTK_I2C_SLV_HEADER_BYTES_SHIFT)) (Z.land addr 0x7F) =
    128 * size + addr mod 128.
Proof.
  intros Hs. unfold BVSTK_I2C_SLV_HEADER_BYTES_SHIFT.
  rewrite land_7f, (u32_id size), Z.shiftl_mul_pow2 by lia. change (2 ^ 7) with 128.
  rewrite u32_id by lia.
  pose proof (Z.mod_pos_bound addr 128 ltac:(lia)).
  assert (Z.land (size * 128) (addr mod 128) = 0) as Hl; [|pose proof (Z.add_lor_land (size * 128) (addr mod 128)); lia].
  apply Z.bits_inj'. intros i Hi. rewrite Z.land_spec, Z.testbit_0_l.
  destruct (decide (i < 7)).
  - change 128 with (2 ^ 7) at 1. by rewrite Z.mul_pow2_bits_low by lia.
  - change 128 with (2 ^ 7). rewrite Z.mod_pow2_bits_high by lia. by rewrite andb_false_r.
Qed.

Section theorems.
Context {X : Type} `{PL : Platform X} (mem : X -> Z -> Z).

Section bram.
Context `{HM : !Memory mem BVSTK_I2C_BRAM_BASE BVSTK_I2C_BRAM_SIZE}.

(** Preparing a reply.  A reply that fits the window reads back, in the
    mailbox format, as exactly the address (7 bits) and the bytes given, and no
    word below the reply window changes; one that does not fit is refused with
    nothing written. *)
Theorem slave_window_roundtrip hw addr data size x :
  slave_hw_open hw -> 0 <= size <= alen data -> Forall (fits 8) data ->
  runs (bvstk_i2c_slave_hw_write_read_window (Some hw) addr (Some data) size) x
    (fun status x' =>
       if decide (size <= 0xFFC) then
         status = BVSTK_OK /\
         mailbox (mem x') (BVSTK_I2C_BRAM_BASE + BVSTK_I2C_BRAM_SLAVE_RD_OFFSET) =
           (addr mod 128, prefix size data) /\
         (forall a, BVSTK_I2C_BRAM_BASE <= a < BVSTK_I2C_BRAM_BASE + BVSTK_I2C_BRAM_SLAVE_RD_OFFSET ->
            mem x' a = mem x a)
       else status = BVSTK_ERR_RANGE /\ x' = x).
Proof.
  intros Hop Hsz Hd. pose proof (slave_hw_open_bram hw Hop) as Hbr.
  unfold bvstk_i2c_slave_hw_write_read_window. rewrite slave_hw_open_ready by done.
  rewrite bool_decide_true by done. rewrite andb_false_r, orb_false_r.
  unfold BVSTK_I2C_BRAM_SLAVE_WINDOW_SIZE.
  destruct (decide (size <= 0xFFC)) as [Hs|Hs].
  2:{ by rewrite (proj2 (Z.ltb_lt _ _)) by lia. }
  rewrite (proj2 (Z.ltb_ge _ _)) by lia. rewrite header_value by lia.
  apply runs_bind. eapply runs_mono; [by apply (write32_mem mem)|].
  intros ? x1 [-> H1]. cbn [is_ok negb default].
  eapply runs_mono.
  { apply (write_words_spec mem BVSTK_I2C_BRAM_BASE BVSTK_I2C_BRAM_SIZE); try done.
    unfold BVSTK_I2C_BRAM_SIZE, BVSTK_I2C_BRAM_SLAVE_RD_OFFSET. lia. }
  intros ? x2 (-> & H2 & H3). split; [done|].
  unfold BVSTK_I2C_BRAM_SLAVE_RD_OFFSET, BVSTK_I2C_BRAM_BASE, BVSTK_I2C_BRAM_SIZE in *.
  assert (mem x2 (0x40000000 + 0x2000) = 128 * size + addr mod 128) as Hh.
  { rewrite H3 by lia. rewrite H1 by lia. by rewrite decide_True. }
  pose proof (Z.mod_pos_bound addr 128 ltac:(lia)). split.
  - unfold mailbox. rewrite Hh, header_address_mod, header_size_div by lia. f_equal.
    + symmetry. apply Z.mod_unique with size; lia.
    + replace ((128 * size + addr mod 128) / 128) with size
        by (apply Z.div_unique with (addr mod 128); lia).
      by apply bytes_prefix.
  - intros a Ha. rewrite H3 by lia. rewrite H1 by lia. by rewrite decide_False by lia.
Qed.

(** Receiving a frame.  The call reports the address and the bytes the
    mailbox format says the host wrote, in the first bytes of the caller's
    buffer and nowhere else, and clears nothing; a frame longer than the buffer
    or than 256 bytes is refused with an empty result. *)
Theorem slave_read_frame_spec hw frame n a0 x :
  slave_hw_open hw -> 0 <= mem x (BVSTK_I2C_BRAM_BASE + BVSTK_I2C_BRAM_SLAVE_WR_OFFSET) < 2 ^ 32 ->
  runs (bvstk_i2c_slave_hw_read_frame (Some hw) (Some frame) (alen frame) (Some n) (Some a0)) x
    (fun r x' =>
       let '(addr, bytes) :=
         mailbox (mem x) (BVSTK_I2C_BRAM_BASE + BVSTK_I2C_BRAM_SLAVE_WR_OFFSET) in
       (r = if decide (alen bytes <= alen frame /\ alen bytes <= 256)
            then (BVSTK_OK, Some (bytes ++ drop (length bytes) frame), Some (alen bytes), Some addr)
            else (BVSTK_ERR_RANGE, Some frame, Some 0, Some 0)) /\
       forall a, BVSTK_I2C_BRAM_BASE <= a < BVSTK_I2C_BRAM_BASE + BVSTK_I2C_BRAM_SIZE ->
         mem x' a = mem x a).
Proof.
  intros Hop Hh. pose proof (slave_hw_open_bram hw Hop) as Hbr.
  unfold bvstk_i2c_slave_hw_read_frame. rewrite slave_hw_open_ready by done.
  rewrite (bool_decide_true (is_Some (Some frame))) by done. rewrite andb_false_r.
  apply runs_bind. eapply runs_mono; [by apply (read32_mem mem)|].
  intros ? x1 [-> H1]. cbn [fst snd is_ok negb].
  unfold mailbox. set (h := mem x _) in *. set (size := header_size h).
  assert (0 <= size) as Hs0.
  { unfold size. rewrite header_size_div by done. apply Z.div_pos; lia. }
  assert (alen (map (mem_byte (mem x) (BVSTK_I2C_BRAM_BASE + BVSTK_I2C_BRAM_SLAVE_WR_OFFSET + 4))
    (seqZ 0 size)) = size) as Hlen.
  { unfold alen. rewrite length_map, length_seqZ. lia. }
  rewrite Hlen. unfold BVSTK_I2C_SLAVE_MAX_FRAME_BYTES.
  destruct (decide (size <= alen frame /\ size <= 256)) as [Hok|Hno].
  2:{ replace (_ || _) with true; [done|]. symmetry. apply orb_true_iff.
      destruct (decide (alen frame < size)); [left|right]; apply Z.ltb_lt; lia. }
  rewrite !(proj2 (Z.ltb_ge _ _)) by lia. cbn [orb default].
  apply runs_bind. eapply runs_mono.
  { apply (read_words_spec mem BVSTK_I2C_BRAM_BASE BVSTK_I2C_BRAM_SIZE); try done;
      unfold BVSTK_I2C_BRAM_SIZE, BVSTK_I2C_BRAM_SLAVE_WR_OFFSET; unfold id; lia. }
  intros ? x2 [-> H2]. cbn [fst snd is_ok negb option_map]. split.
  - apply (f_equal Z.to_nat) in Hlen as Hnat. unfold alen in Hnat. rewrite Nat2Z.id in Hnat.
    rewrite Hnat. unfold st_ret, id. cbn [fst]. do 5 f_equal.
    apply map_ext_in. intros k Hk. apply list_elem_of_In, elem_of_seqZ in Hk.
    unfold mem_byte. f_equal. unfold BVSTK_I2C_BRAM_SLAVE_WR_OFFSET. rewrite Z.add_assoc.
    apply H1. unfold BVSTK_I2C_BRAM_BASE, BVSTK_I2C_BRAM_SIZE.
    pose proof (Z.div_mod k 4). pose proof (Z.mod_pos_bound k 4). lia.
  - intros a Ha. unfold BVSTK_I2C_BRAM_BASE in *. rewrite H2 by lia. by apply H1.
Qed.

Lemma clear_words_spec fuel region n offset x :
  opened region BVSTK_I2C_BRAM_BASE BVSTK_I2C_BRAM_SIZE ->
  0 <= offset -> offset mod 4 = 0 -> n <= 256 -> n - offset <= Z.of_nat fuel ->
  runs (clear_words fuel region n offset) x (fun status x' =>
    status = BVSTK_OK /\
    forall a, BVSTK_I2C_BRAM_BASE <= a < BVSTK_I2C_BRAM_BASE + BVSTK_I2C_BRAM_SIZE ->
      a mod 4 = 0 ->
      mem x' a = if decide (BVSTK_I2C_BRAM_BASE + 0x1004 + offset <= a < BVSTK_I2C_BRAM_BASE + 0x1004 + n)
                 then 0 else mem x a).
Proof.
  intros Hop. unfold BVSTK_I2C_BRAM_BASE, BVSTK_I2C_BRAM_SIZE. revert offset x.
  induction fuel as [|fuel IH]; intros offset x Ho Hal Hn Hf.
  { split; [done|]. intros a Ha _. by rewrite decide_False by lia. }
  cbn [clear_words]. destruct (offset <? n) eqn:Hlt; bsimp.
  2:{ split; [done|]. intros a Ha _. by rewrite decide_False by lia. }
  apply runs_bind. eapply runs_mono.
  { apply (write32_mem mem BVSTK_I2C_BRAM_BASE BVSTK_I2C_BRAM_SIZE); [done|..];
      unfold BVSTK_I2C_BRAM_SLAVE_WR_OFFSET, BVSTK_I2C_BRAM_SIZE; [lia..|].
    by apply word_offset_aligned. }
  intros ? x1 [-> H1]. cbn [is_ok negb]. eapply runs_mono.
  { apply IH; [lia| |lia..]. by apply word_offset_aligned. }
  intros ? x2 [-> H2]. split; [done|]. intros a Ha Haa. rewrite H2 by done.
  unfold BVSTK_I2C_BRAM_BASE, BVSTK_I2C_BRAM_SIZE, BVSTK_I2C_BRAM_SLAVE_WR_OFFSET in *.
  destruct (decide (_ <= a < _)); [by rewrite decide_True by lia|].
  rewrite H1 by lia. destruct (decide (a = _)); [by rewrite decide_True by lia|].
  rewrite decide_False; [done|]. Z.to_euclidean_division_equations. lia.
Qed.

(** Releasing a frame.  Afterwards the mailbox is empty, the words its
    first [min(frame_size, 256)] bytes occupied are zero, and every other word
    of the block RAM, the prepared reply included, is unchanged. *)
Theorem slave_clear_frame_spec hw frame_size x :
  slave_hw_open hw -> 0 <= frame_size ->
  runs (bvstk_i2c_slave_hw_clear_frame (Some hw) frame_size) x (fun status x' =>
    status = BVSTK_OK /\
    snd (mailbox (mem x') (BVSTK_I2C_BRAM_BASE + BVSTK_I2C_BRAM_SLAVE_WR_OFFSET)) = [] /\
    forall a, BVSTK_I2C_BRAM_BASE <= a < BVSTK_I2C_BRAM_BASE + BVSTK_I2C_BRAM_SIZE ->
      a mod 4 = 0 ->
      mem x' a = if decide (BVSTK_I2C_BRAM_BASE + BVSTK_I2C_BRAM_SLAVE_WR_OFFSET <= a
                              < BVSTK_I2C_BRAM_BASE + BVSTK_I2C_BRAM_SLAVE_WR_OFFSET + 4
                                + Z.min frame_size BVSTK_I2C_SLAVE_MAX_FRAME_BYTES)
                 then 0 else mem x a).
Proof.
  intros Hop Hn. pose proof (slave_hw_open_bram hw Hop) as Hbr.
  unfold bvstk_i2c_slave_hw_clear_frame. rewrite slave_hw_open_ready by done.
  replace (if BVSTK_I2C_SLAVE_MAX_FRAME_BYTES <? frame_size then BVSTK_I2C_SLAVE_MAX_FRAME_BYTES
           else frame_size) with (Z.min frame_size 256)
    by (unfold BVSTK_I2C_SLAVE_MAX_FRAME_BYTES; destruct (256 <? frame_size) eqn:E; bsimp; lia).
  apply runs_bind. eapply runs_mono; [by apply (write32_mem mem)|].
  intros ? x1 [-> H1]. cbn [is_ok negb]. eapply runs_mono.
  { apply clear_words_spec; [done|lia|done|lia..]. }
  intros ? x2 [-> H2]. split; [done|].
  unfold BVSTK_I2C_BRAM_BASE, BVSTK_I2C_BRAM_SIZE, BVSTK_I2C_BRAM_SLAVE_WR_OFFSET,
    BVSTK_I2C_SLAVE_MAX_FRAME_BYTES in *.
  assert (forall a, 0x40000000 <= a < 0x40000000 + 0x3000 -> a mod 4 = 0 ->
    mem x2 a = if decide (0x40000000 + 0x1000 <= a < 0x40000000 + 0x1000 + 4 + Z.min frame_size 256)
               then 0 else mem x a) as H.
  { intros a Ha Haa. rewrite H2 by done.
    destruct (decide (_ <= a < _)); [by rewrite decide_True by lia|].
    rewrite H1 by lia. destruct (decide (a = _)); [by rewrite decide_True by lia|].
    rewrite decide_False; [done|]. Z.to_euclidean_division_equations. lia. }
  split; [|done]. unfold mailbox. rewrite H by done. by rewrite decide_True by lia.
Qed.
End bram.

(** ** The address filter *)

(** The slave answers address [b]: bit [b] of the 128-bit address list. *)
Definition listens (m : Z -> Z) (b : Z) : bool :=
  Z.testbit (m (BVSTK_I2C_SLAVE_BASE + BVSTK_I2C_SLV_ADDR_LIST_0 + 4 * (b / 32))) (b mod 32).

Section filter.
Context `{HM : !Memory mem (BVSTK_I2C_SLAVE_BASE + BVSTK_I2C_SLV_ADDR_LIST_0) 16}.

Lemma write_address_list_run region list x :
  opened region BVSTK_I2C_SLAVE_BASE BVSTK_I2C_SLAVE_SIZE ->
  runs (write_address_list region list) x (fun status x' => status = BVSTK_OK /\
    forall k, 0 <= k < 4 ->
      mem x' (BVSTK_I2C_SLAVE_BASE + BVSTK_I2C_SLV_ADDR_LIST_0 + 4 * k) = list.[k]).
Proof.
  intros Hop. unfold runs, write_address_list. cbn [for_loop].
  rewrite !(write32_run _ _ _ _ _ _ Hop) by done. cbn [is_ok negb fst snd].
  split; [done|]. intros k Hk. unfold BVSTK_I2C_SLAVE_BASE, BVSTK_I2C_SLV_ADDR_LIST_0 in *.
  rewrite !mem_write by lia. repeat case_decide; try lia; f_equal; lia.
Qed.

(** Setting the slave's address makes it answer that address, reduced to 7
    bits, and no other, whatever it answered before. *)
Theorem slave_set_address_filter hw addr x :
  slave_hw_open hw ->
  runs (bvstk_i2c_slave_hw_set_address (Some hw) addr) x (fun status x' =>
    status = BVSTK_OK /\
    forall b, 0 <= b < 128 -> listens (mem x') b = true <-> b = addr mod 128).
Proof.
  intros Hop. unfold bvstk_i2c_slave_hw_set_address. rewrite slave_hw_open_ready by done.
  rewrite land_7f. set (a := addr mod 128).
  pose proof (Z.mod_pos_bound addr 128 ltac:(lia)) as Ha. fold a in Ha.
  eapply runs_mono; [by apply write_address_list_run, slave_hw_open_slave|].
  intros ? x1 [-> H1]. split; [done|]. intros b Hb. unfold listens.
  assert (0 <= b / 32 < 4) as Hb4 by (Z.to_euclidean_division_equations; lia).
  assert (0 <= a / 32 < 4) as Ha4 by (Z.to_euclidean_division_equations; lia).
  pose proof (Z.mod_pos_bound a 32 ltac:(lia)). pose proof (Z.mod_pos_bound b 32 ltac:(lia)).
  rewrite H1 by done. destruct (decide (b / 32 = a / 32)) as [He|Hne].
  - rewrite He, aget_aset_eq by (unfold alen; cbn; lia).
    unfold u32, wrap. rewrite Z.mod_pow2_bits_low, Z.shiftl_1_l, Z.pow2_bits_eqb, Z.eqb_eq by lia.
    Z.to_euclidean_division_equations. lia.
  - rewrite aget_aset_ne by (done || lia).
    replace ([0; 0; 0; 0].[b / 32]) with 0.
    { rewrite Z.testbit_0_l. split; [done|]. intros ->. done. }
    assert (b / 32 = 0 \/ b / 32 = 1 \/ b / 32 = 2 \/ b / 32 = 3) as Hc by lia.
    by destruct Hc as [->|[->|[->| ->]]].
Qed.
End filter.
End theorems.

(** ** Concrete runs *)

Definition demo_slave_hw : bvstk_i2c_slave_hw_t :=
  SlaveHw (Region BVSTK_I2C_SLAVE_BASE BVSTK_I2C_SLAVE_SIZE BVSTK_I2C_SLAVE_BASE)
    (Region BVSTK_I2C_BRAM_BASE BVSTK_I2C_BRAM_SIZE BVSTK_I2C_BRAM_BASE) 1.

(** A frame of two bytes, 0x10 0xAB, for address 0x42. *)
Definition demo_bram : Z -> Z := fun a =>
  if decide (a = 0x40001000) then 128 * 2 + 0x42
  else if decide (a = 0x40001004) then 0xAB10 else 0.

Lemma slave_window_roundtrip_witness :
  runs (@bvstk_i2c_slave_hw_write_read_window _ ram_platform (Some demo_slave_hw) 0x42
          (Some [1; 2; 3; 4; 5]) 5) demo_bram
    (fun status x' => status = BVSTK_OK /\
       mailbox x' (BVSTK_I2C_BRAM_BASE + BVSTK_I2C_BRAM_SLAVE_RD_OFFSET) = (0x42, [1; 2; 3; 4; 5]) /\
       forall a, BVSTK_I2C_BRAM_BASE <= a < BVSTK_I2C_BRAM_BASE + BVSTK_I2C_BRAM_SLAVE_RD_OFFSET ->
         x' a = demo_bram a).
Proof.
  apply (@slave_window_roundtrip _ ram_platform (fun x a => x a) (ram_memory _ _)
    demo_slave_hw 0x42 [1; 2; 3; 4; 5] 5 demo_bram).
  - done.
  - done.
  - by repeat constructor.
Defined.

Lemma slave_read_frame_spec_witness :
  runs (@bvstk_i2c_slave_hw_read_frame _ ram_platform (Some demo_slave_hw) (Some [0; 0; 7]) 3
          (Some 0) (Some 0)) demo_bram
    (fun r x' => r = (BVSTK_OK, Some [0x10; 0xAB; 7], Some 2, Some 0x42) /\
       forall a, BVSTK_I2C_BRAM_BASE <= a < BVSTK_I2C_BRAM_BASE + BVSTK_I2C_BRAM_SIZE ->
         x' a = demo_bram a).
Proof.
  apply (@slave_read_frame_spec _ ram_platform (fun x a => x a) (ram_memory _ _)
    demo_slave_hw [0; 0; 7] 0 0 demo_bram); done.
Defined.

Lemma slave_clear_frame_spec_witness :
  runs (@bvstk_i2c_slave_hw_clear_frame _ ram_platform (Some demo_slave_hw) 2) demo_bram
    (fun status x' => status = BVSTK_OK /\
       snd (mailbox x' (BVSTK_I2C_BRAM_BASE + BVSTK_I2C_BRAM_SLAVE_WR_OFFSET)) = [] /\
       forall a, BVSTK_I2C_BRAM_BASE <= a < BVSTK_I2C_BRAM_BASE + BVSTK_I2C_BRAM_SIZE ->
         a mod 4 = 0 ->
         x' a = if decide (0x40001000 <= a < 0x40001006) then 0 else demo_bram a).
Proof.
  apply (@slave_clear_frame_spec _ ram_platform (fun x a => x a) (ram_memory _ _)
    demo_slave_hw 2 demo_bram); done.
Defined.

Lemma slave_set_address_filter_witness :
  runs (@bvstk_i2c_slave_hw_set_address _ ram_platform (Some demo_slave_hw) 0x42) demo_bram
    (fun status x' => status = BVSTK_OK /\
       forall b, 0 <= b < 128 -> listens x' b = true <-> b = 0x42).
Proof.
  apply (@slave_set_address_filter _ ram_platform (fun x a => x a) (ram_memory _ _)
    demo_slave_hw 0x42 demo_bram). done.
Defined.
