(* ===== verification/I2cSlaveService.v ===== *)
(** * I2cSlaveService: the host-facing register protocol

    [services/i2c/bvstk_i2c_slave_service]: an external I2C host writes frames
    (a register pointer, then values) and reads windows of registers of the
    selected device.  Values are forwarded to the master service, reads are
    answered from the cache, and one missing byte is fetched from the bus.

    The service works on the same device table, cache and master service as the
    rest of the I2C stack: its store adds the slave object to [i2c_store]. *)
From stdpp Require Import prelude.
From Stdlib Require Import ZArith Lia.
From S2P Require Import Prelude Platform I2cDevices I2cPolicy I2cCache I2cMasterService.
Local Open Scope Z_scope.

(** [sl_devices], [sl_cache], [sl_master]: the pointer is not NULL. *)
Record bvstk_i2c_slave_service_t := SlaveService {
  sl_devices : bool;
  sl_cache : bool;
  sl_master : bool;
  sl_target_device : Z;
  sl_register_pointer : list Z;
  sl_read_armed : list Z;
  sl_initialized : Z
}.
Definition zero_slave_service : bvstk_i2c_slave_service_t :=
  SlaveService false false false 0 (fill I2C_CFG_MAX_DEVICES 0) (fill I2C_CFG_MAX_DEVICES 0) 0.

Section slave.
Context {X HW : Type} `{PL : Platform X} `{HWI : I2cMasterHw X HW}.

Record slave_store := SlaveStore {
  ss_slave : bvstk_i2c_slave_service_t;
  ss_i2c : i2c_store X HW
}.

Definition on_i2c {A} (m : ST (i2c_store X HW) A) : ST slave_store A :=
  fun s => let '(a, w) := m (ss_i2c s) in (a, SlaveStore (ss_slave s) w).

Definition set_pointer (reg : Z) (sl : bvstk_i2c_slave_service_t) : bvstk_i2c_slave_service_t :=
  SlaveService (sl_devices sl) (sl_cache sl) (sl_master sl) (sl_target_device sl)
    ((sl_register_pointer sl).[sl_target_device sl <- reg]) (sl_read_armed sl)
    (sl_initialized sl).
Definition set_armed (armed : Z) (sl : bvstk_i2c_slave_service_t) : bvstk_i2c_slave_service_t :=
  SlaveService (sl_devices sl) (sl_cache sl) (sl_master sl) (sl_target_device sl)
    (sl_register_pointer sl) ((sl_read_armed sl).[sl_target_device sl <- armed])
    (sl_initialized sl).
Definition mod_slave (f : bvstk_i2c_slave_service_t -> bvstk_i2c_slave_service_t)
    : ST slave_store unit :=
  st_mod (fun s => SlaveStore (f (ss_slave s)) (ss_i2c s)).

Definition s_devices (s : slave_store) : option bvstk_i2c_devices_t :=
  if sl_devices (ss_slave s) then Some (st_devices (ss_i2c s)) else None.
Definition s_cache (s : slave_store) : option (bvstk_i2c_cache_t X) :=
  if sl_cache (ss_slave s) then Some (st_cache (ss_i2c s)) else None.

Definition slave_status (service : bool) (s : slave_store) : bvstk_status_t :=
  if negb service || (sl_initialized (ss_slave s) =? 0) then BVSTK_ERR_NOT_READY
  else if bvstk_i2c_devices_count (s_devices s) <=? sl_target_device (ss_slave s)
  then BVSTK_ERR_NOT_FOUND
  else BVSTK_OK.

(** The window loop at iteration [i]; [n] iterations remain before the
    capacity or the register count ends it, and [window] holds [i] bytes. *)
Fixpoint window_loop (n : nat) (device_id reg i timeout_ms : Z) (window : list Z)
    : ST slave_store (bvstk_status_t * list Z) :=
  match n with
  | O => st_ret (BVSTK_OK, window)
  | S n => fun s =>
      match bvstk_i2c_cache_is_valid (s_cache s) device_id (u8 (reg + i)),
            bvstk_i2c_cache_read (s_cache s) device_id (u8 (reg + i)) true with
      | true, (BVSTK_OK, Some v) =>
          window_loop n device_id reg (i + 1) timeout_ms (window ++ [v]) s
      | _, _ =>
          if negb (i =? 0) then ((BVSTK_OK, window), s)
          else
            (let! r := on_i2c (bvstk_i2c_master_service_read_from (sl_master (ss_slave s))
                         device_id reg true BVSTK_EVENT_SOURCE_HOST timeout_ms) in
             st_ret (match r with
                     | (BVSTK_OK, v) => (BVSTK_OK, [default 0 v])
                     | (status, _) => (status, [])
                     end)) s
      end
  end.

(** [window] and [sz] are false for NULL; on failure nothing is stored. *)
Definition load_window (device_id reg : Z) (window : bool) (capacity : Z) (sz : bool)
    (timeout_ms : Z) : ST slave_store (bvstk_status_t * list Z) :=
  fun s =>
    match bvstk_i2c_devices_get (s_devices s) device_id true with
    | (BVSTK_OK, Some device) =>
        if (dev_reg_count device <=? reg) || negb window || negb sz
        then ((BVSTK_ERR_RANGE, []), s)
        else window_loop (Z.to_nat (Z.min capacity (dev_reg_count device - reg)))
               device_id reg 0 timeout_ms [] s
    | (status, _) => ((status, []), s)
    end.

(** [devices], [cache], [master]: the argument is not NULL. *)
Definition bvstk_i2c_slave_service_init (service devices cache master : bool)
    (target_device : Z) : ST slave_store bvstk_status_t :=
  fun s =>
    let w := ss_i2c s in
    if negb service || negb devices || negb cache || negb master ||
       (dvs_initialized (st_devices w) =? 0) || (ca_initialized (st_cache w) =? 0) ||
       (dvs_count (st_devices w) <=? target_device) || (sv_initialized (st_master w) =? 0)
    then (BVSTK_ERR_MALFORMED, s)
    else (BVSTK_OK,
          SlaveStore (SlaveService true true true target_device (fill I2C_CFG_MAX_DEVICES 0)
            (fill I2C_CFG_MAX_DEVICES 0) 1) w).

Definition bvstk_i2c_slave_service_shutdown (service : bool) : ST slave_store unit :=
  st_mod (fun s => if service then SlaveStore zero_slave_service (ss_i2c s) else s).

Definition bvstk_i2c_slave_service_set_target (service : bool) (target_device : Z)
    : ST slave_store bvstk_status_t :=
  fun s =>
    match slave_status service s with
    | BVSTK_OK =>
        if bvstk_i2c_devices_count (s_devices s) <=? target_device
        then (BVSTK_ERR_NOT_FOUND, s)
        else
          let sl := ss_slave s in
          (BVSTK_OK,
           SlaveStore (SlaveService (sl_devices sl) (sl_cache sl) (sl_master sl) target_device
             (sl_register_pointer sl) (sl_read_armed sl) (sl_initialized sl)) (ss_i2c s))
    | status => (status, s)
    end.

Definition bvstk_i2c_slave_service_target (service : bool) (s : slave_store) : Z :=
  if service && negb (sl_initialized (ss_slave s) =? 0) then sl_target_device (ss_slave s) else 0.

Definition bvstk_i2c_slave_service_end_transaction (service : bool) : ST slave_store unit :=
  fun s =>
    match slave_status service s with
    | BVSTK_OK => mod_slave (set_armed 0) s
    | _ => (tt, s)
    end.

(** [bvstk_i2c_master_service_observe (service->master, ...)]. *)
Definition observe (target type : Z) (op : bvstk_event_op_t) (reg value : Z)
    (status : bvstk_status_t) : ST slave_store unit :=
  fun s => on_i2c (bvstk_i2c_master_service_observe (sl_master (ss_slave s)) target type op
                     reg value status) s.

(** Loops over the frame: [n] bytes remain, the next one is [i]. *)
Fixpoint capture_loop (n : nat) (target reg i : Z) (frame : list Z) : ST slave_store unit :=
  match n with
  | O => st_ret tt
  | S n =>
      observe target BVSTK_EVENT_CAPTURE_WRITE BVSTK_EVENT_OP_WRITE (u32 (reg + i - 1))
        (frame.[i]) BVSTK_OK ;;
      capture_loop n target reg (i + 1) frame
  end.

Fixpoint fault_loop (n : nat) (target reg i : Z) (frame : list Z) (status : bvstk_status_t)
    : ST slave_store unit :=
  match n with
  | O => st_ret tt
  | S n =>
      observe target BVSTK_EVENT_REG_ATTEMPT BVSTK_EVENT_OP_WRITE (u32 (reg + i - 1))
        (frame.[i]) BVSTK_OK ;;
      observe target BVSTK_EVENT_FAULT BVSTK_EVENT_OP_WRITE (u32 (reg + i - 1))
        (frame.[i]) status ;;
      fault_loop n target reg (i + 1) frame status
  end.

Fixpoint prepared_loop (n : nat) (target reg i : Z) (window : list Z) : ST slave_store unit :=
  match n with
  | O => st_ret tt
  | S n =>
      observe target BVSTK_EVENT_SLAVE_REPLY_PREPARED BVSTK_EVENT_OP_READ (u8 (reg + i))
        (window.[i]) BVSTK_OK ;;
      prepared_loop n target reg (i + 1) window
  end.

(** Forwarding: stop on the first error, audit what is left. *)
Fixpoint forward_loop (n : nat) (target reg reg_count i timeout_ms : Z) (frame : list Z)
    : ST slave_store bvstk_status_t :=
  match n with
  | O => st_ret BVSTK_OK
  | S m =>
      if reg_count <=? reg + i - 1 then
        fault_loop n target reg i frame BVSTK_ERR_RANGE ;; st_ret BVSTK_OK
      else
        let! status := fun s =>
          on_i2c (bvstk_i2c_master_service_write (sl_master (ss_slave s)) target
            (u8 (reg + i - 1)) (frame.[i]) BVSTK_EVENT_SOURCE_HOST timeout_ms) s in
        if negb (is_ok status) then
          fault_loop m target reg (i + 1) frame BVSTK_ERR_NOT_READY ;; st_ret status
        else forward_loop m target reg reg_count (i + 1) timeout_ms frame
  end.

Definition handle_read (device : bvstk_i2c_device_t) (target : Z) (window : bool)
    (capacity timeout_ms : Z) : ST slave_store (bvstk_status_t * list Z) :=
  let! reg := st_get (fun s => (sl_register_pointer (ss_slave s)).[target]) in
  observe target BVSTK_EVENT_SLAVE_READ_REQUEST BVSTK_EVENT_OP_READ (u8 reg) 0 BVSTK_OK ;;
  let! armed := st_get (fun s => (sl_read_armed (ss_slave s)).[target]) in
  if armed =? 0 then st_ret (BVSTK_OK, [])
  else
    let reg := if dev_reg_count device <=? reg then 0 else reg in
    let! r := load_window target (u8 reg) window capacity true timeout_ms in
    match r with
    | (BVSTK_OK, bytes) =>
        let count := alen bytes in
        prepared_loop (Z.to_nat count) target reg 0 bytes ;;
        mod_slave (set_pointer
          (u8 (if negb (count =? 0) && (reg + count <? dev_reg_count device)
               then reg + count else 0))) ;;
        st_ret (BVSTK_OK, bytes)
    | (status, _) => st_ret (status, [])
    end.

Definition handle_write (device : bvstk_i2c_device_t) (target : Z) (frame : option (list Z))
    (frame_size timeout_ms : Z) : ST slave_store bvstk_status_t :=
  mod_slave (set_armed 0) ;;
  match frame with
  | None => st_ret BVSTK_ERR_MALFORMED
  | Some frame =>
      if frame_size =? 0 then st_ret BVSTK_ERR_MALFORMED
      else
        let reg := frame.[0] in
        let rest := Z.to_nat (frame_size - 1) in
        observe target BVSTK_EVENT_SLAVE_POINTER BVSTK_EVENT_OP_WRITE (u8 reg) (frame.[0])
          BVSTK_OK ;;
        capture_loop rest target reg 1 frame ;;
        if dev_reg_count device <=? reg then
          fault_loop rest target reg 1 frame BVSTK_ERR_RANGE ;; st_ret BVSTK_ERR_RANGE
        else
          mod_slave (set_pointer (u8 reg)) ;;
          mod_slave (set_armed (if frame_size =? 1 then 1 else 0)) ;;
          forward_loop rest target reg (dev_reg_count device) 1 timeout_ms frame
  end.

(** The second component is what [read_window] and [*read_window_size] hold
    afterwards, [None] when the size was not stored. *)
Definition bvstk_i2c_slave_service_handle_frame (service : bool) (frame : option (list Z))
    (frame_size read_phase : Z) (read_window : bool) (capacity : Z) (read_window_size : bool)
    (timeout_ms : Z) : ST slave_store (bvstk_status_t * option (list Z)) :=
  fun s =>
    match slave_status service s with
    | BVSTK_OK =>
        if negb read_window_size || (negb (capacity =? 0) && negb read_window)
        then ((BVSTK_ERR_MALFORMED, None), s)
        else
          let target := sl_target_device (ss_slave s) in
          match bvstk_i2c_devices_get (s_devices s) target true with
          | (BVSTK_OK, Some device) =>
              if negb (read_phase =? 0) then
                (let! r := handle_read device target read_window capacity timeout_ms in
                 st_ret (fst r, Some (snd r))) s
              else
                (let! status := handle_write device target frame frame_size timeout_ms in
                 st_ret (status, Some [])) s
          | (status, _) => ((status, Some []), s)
          end
    | status => ((status, None), s)
    end.

(** ** The protocol state: helpers that keep it *)

Lemma on_i2c_slave {A} (m : ST (i2c_store X HW) A) s :
  runs (on_i2c m) s (fun _ s' => ss_slave s' = ss_slave s).
Proof. unfold runs, on_i2c. by destruct (m (ss_i2c s)). Qed.

Lemma observe_slave target type op reg value status s :
  runs (observe target type op reg value status) s (fun _ s' => ss_slave s' = ss_slave s).
Proof. apply (on_i2c_slave _ s). Qed.

(** Sequencing of steps that keep the slave object. *)
Lemma keep_slave_bind {A B} (m : ST slave_store A) (k : A -> ST slave_store B) s :
  runs m s (fun _ s' => ss_slave s' = ss_slave s) ->
  (forall a s', runs (k a) s' (fun _ s'' => ss_slave s'' = ss_slave s')) ->
  runs (st_bind m k) s (fun _ s' => ss_slave s' = ss_slave s).
Proof.
  intros Hm Hk. apply runs_bind. eapply runs_mono; [exact Hm|]. intros a s1 H1.
  eapply runs_mono; [apply Hk|]. intros ? s2 H2. by rewrite H2, H1.
Qed.

Lemma capture_loop_slave n target reg i frame s :
  runs (capture_loop n target reg i frame) s (fun _ s' => ss_slave s' = ss_slave s).
Proof.
  revert i s. induction n as [|n IH]; intros i s; [done|].
  apply keep_slave_bind; [apply observe_slave|]. intros ? s'. apply IH.
Qed.

Lemma fault_loop_slave n target reg i frame status s :
  runs (fault_loop n target reg i frame status) s (fun _ s' => ss_slave s' = ss_slave s).
Proof.
  revert i s. induction n as [|n IH]; intros i s; [done|].
  apply keep_slave_bind; [apply observe_slave|]. intros ? s1.
  apply keep_slave_bind; [apply observe_slave|]. intros ? s2. apply IH.
Qed.

Lemma prepared_loop_slave n target reg i window s :
  runs (prepared_loop n target reg i window) s (fun _ s' => ss_slave s' = ss_slave s).
Proof.
  revert i s. induction n as [|n IH]; intros i s; [done|].
  apply keep_slave_bind; [apply observe_slave|]. intros ? s'. apply IH.
Qed.

Lemma forward_loop_slave n target reg reg_count i t frame s :
  runs (forward_loop n target reg reg_count i t frame) s
    (fun _ s' => ss_slave s' = ss_slave s).
Proof.
  revert i s. induction n as [|n IH]; intros i s; [done|]. cbn [forward_loop].
  destruct (_ <=? _).
  - apply keep_slave_bind; [apply fault_loop_slave|]. done.
  - apply keep_slave_bind; [apply (on_i2c_slave _ s)|]. intros status s1.
    destruct (negb _); [|apply IH].
    apply keep_slave_bind; [apply fault_loop_slave|]. done.
Qed.

(** The window never exceeds the iterations allowed, and its loop keeps the
    slave object. *)
Lemma window_loop_slave n id reg i t window s :
  alen window = i ->
  runs (window_loop n id reg i t window) s (fun r s' =>
    ss_slave s' = ss_slave s /\ alen (snd r) <= i + Z.of_nat n).
Proof.
  revert i window s. induction n as [|n IH]; intros i window s Hlen; cbn [window_loop].
  { apply runs_ret. cbn. split; [done|lia]. }
  assert (runs (fun s => if negb (i =? 0) then ((BVSTK_OK, window), s)
      else (let! r := on_i2c (bvstk_i2c_master_service_read_from (sl_master (ss_slave s))
                         id reg true BVSTK_EVENT_SOURCE_HOST t) in
             st_ret (match r with
                     | (BVSTK_OK, v) => (BVSTK_OK, [default 0 v])
                     | (status, _) => (status, [])
                     end)) s) s
    (fun r s' => ss_slave s' = ss_slave s /\ alen (snd r) <= i + Z.of_nat (S n))) as Hstop.
  { unfold runs. destruct (i =? 0) eqn:Hi; cbn [negb]; [|cbn; split; [done|lia]]. bsimp.
    pose proof (on_i2c_slave (bvstk_i2c_master_service_read_from (sl_master (ss_slave s))
      id reg true BVSTK_EVENT_SOURCE_HOST t) s) as Hk. unfold runs in Hk. unfold st_bind.
    destruct (on_i2c _ s) as [[[] v] s1]; cbn in *; (split; [done|]); unfold alen in *; simpl; lia. }
  unfold runs in *.
  destruct (bvstk_i2c_cache_is_valid _ _ _); [|exact Hstop].
  destruct (bvstk_i2c_cache_read _ _ _ _) as [[] [v|]]; try exact Hstop.
  destruct (IH (i + 1) (window ++ [v]) s) as [H1 H2].
  { unfold alen in *. rewrite length_app. simpl. lia. }
  split; [done|lia].
Qed.

(** ** The protocol *)

(** What the host protocol remembers of a target. *)
Record host_state := HostState { hs_pointer : Z; hs_armed : bool }.

Definition host_of (s : slave_store) (target : Z) : host_state :=
  HostState ((sl_register_pointer (ss_slave s)).[target])
    (negb ((sl_read_armed (ss_slave s)).[target] =? 0)).

(** A write phase: a frame selects a register when it names one; a read is
    answered only after a frame that does nothing else. *)
Definition host_write (reg_count : Z) (bytes : list Z) (h : host_state) : host_state :=
  match bytes with
  | [] => HostState (hs_pointer h) false
  | r :: rest =>
      if r <? reg_count then HostState r (match rest with [] => true | _ => false end)
      else HostState (hs_pointer h) false
  end.

(** A reply of [k] bytes moves the pointer past them, or back to 0. *)
Definition host_read (reg_count k : Z) (h : host_state) : host_state :=
  let reg := if reg_count <=? hs_pointer h then 0 else hs_pointer h in
  HostState (if (0 <? k) && (reg + k <? reg_count) then reg + k else 0) (hs_armed h).

Definition target_device (s : slave_store) : bvstk_i2c_device_t :=
  (dvs_items (st_devices (ss_i2c s))).[sl_target_device (ss_slave s)].

(** The slave is up and its objects are of their C types. *)
Definition slave_ready (s : slave_store) : Prop :=
  slave_status true s = BVSTK_OK /\ devices_wf (st_devices (ss_i2c s)) /\
  0 <= sl_target_device (ss_slave s) /\ 0 <= dev_reg_count (target_device s) /\
  alen (sl_register_pointer (ss_slave s)) = I2C_CFG_MAX_DEVICES /\
  alen (sl_read_armed (ss_slave s)) = I2C_CFG_MAX_DEVICES /\
  forall i, 0 <= i < I2C_CFG_MAX_DEVICES -> 0 <= (sl_register_pointer (ss_slave s)).[i] < 256.

Lemma slave_ready_get s :
  slave_ready s ->
  bvstk_i2c_devices_get (s_devices s) (sl_target_device (ss_slave s)) true =
    (BVSTK_OK, Some (target_device s)) /\
  sl_target_device (ss_slave s) < dvs_count (st_devices (ss_i2c s)) <= I2C_CFG_MAX_DEVICES /\
  0 < dev_reg_count (target_device s) <= I2C_CFG_MAX_REG_COUNT.
Proof.
  intros (Hst & (Hl & Hc & H0 & Hi) & Ht & Hr & _). unfold target_device in *.
  unfold slave_status in Hst. cbn [negb orb] in Hst.
  destruct (_ =? 0); [done|].
  destruct (bvstk_i2c_devices_count (s_devices s) <=? sl_target_device (ss_slave s)) eqn:Hle;
    [done|]. bsimp.
  unfold s_devices in *. destruct (sl_devices _); cbn in Hle; [|lia].
  destruct (dvs_initialized (st_devices (ss_i2c s)) =? 0) eqn:Hd; cbn [negb] in Hle; [lia|].
  unfold bvstk_i2c_devices_get, device_status. rewrite Hd, (proj2 (Z.ltb_lt _ _)) by done.
  split; [done|]. split; [lia|].
  specialize (Hi (sl_target_device (ss_slave s)) ltac:(lia)).
  unfold item_valid in Hi. bsimp. lia.
Qed.

(** Only the target's state changed, to [h]. *)
Definition host_changed (s s' : slave_store) (h : host_state) : Prop :=
  host_of s' (sl_target_device (ss_slave s)) = h /\
  sl_target_device (ss_slave s') = sl_target_device (ss_slave s) /\
  forall i, 0 <= i -> i <> sl_target_device (ss_slave s) -> host_of s' i = host_of s i.

Lemma host_same s s' :
  ss_slave s' = ss_slave s -> host_changed s s' (host_of s (sl_target_device (ss_slave s))).
Proof. intros E. unfold host_changed, host_of. by rewrite E. Qed.

Lemma host_changed_after s s1 s' h :
  host_changed s s1 h -> ss_slave s' = ss_slave s1 -> host_changed s s' h.
Proof. intros (H1 & H2 & H3) E. unfold host_changed, host_of in *. by rewrite E. Qed.

(** The stores of the protocol, in terms of its state. *)
Lemma set_armed_host s v :
  slave_ready s ->
  let h := host_of s (sl_target_device (ss_slave s)) in
  host_changed s (SlaveStore (set_armed v (ss_slave s)) (ss_i2c s))
    (HostState (hs_pointer h) (negb (v =? 0))).
Proof.
  intros Hr. destruct (slave_ready_get s Hr) as (_ & Ht & _).
  destruct Hr as (_ & _ & Ht0 & _ & _ & Hl & _).
  split; [|split; [done|]].
  - unfold host_of. cbn. by rewrite aget_aset_eq by lia.
  - intros i Hi Hne. unfold host_of. cbn. by rewrite aget_aset_ne by lia.
Qed.

Lemma set_pointer_host s v :
  slave_ready s ->
  let h := host_of s (sl_target_device (ss_slave s)) in
  host_changed s (SlaveStore (set_pointer v (ss_slave s)) (ss_i2c s)) (HostState v (hs_armed h)).
Proof.
  intros Hr. destruct (slave_ready_get s Hr) as (_ & Ht & _).
  destruct Hr as (_ & _ & Ht0 & _ & Hl & _).
  split; [|split; [done|]].
  - unfold host_of. cbn. by rewrite aget_aset_eq by lia.
  - intros i Hi Hne. unfold host_of. cbn. by rewrite aget_aset_ne by lia.
Qed.

Lemma select_host s reg armed :
  slave_ready s ->
  let sl := set_armed armed (set_pointer reg (set_armed 0 (ss_slave s))) in
  host_changed s (SlaveStore sl (ss_i2c s)) (HostState reg (negb (armed =? 0))).
Proof.
  intros Hr. destruct (slave_ready_get s Hr) as (_ & Ht & _).
  destruct Hr as (_ & _ & Ht0 & _ & Hl & Hl' & _).
  split; [|split; [done|]].
  - unfold host_of. cbn. by rewrite !aget_aset_eq by (rewrite ?alen_aset; lia).
  - intros i Hi Hne. unfold host_of. cbn. by rewrite !aget_aset_ne by lia.
Qed.

Lemma handle_write_host s frame t :
  slave_ready s -> Forall (fits 8) frame ->
  runs (handle_write (target_device s) (sl_target_device (ss_slave s)) (Some frame)
          (alen frame) t) s
    (fun _ s' => host_changed s s' (host_write (dev_reg_count (target_device s)) frame
       (host_of s (sl_target_device (ss_slave s))))).
Proof.
  intros Hr Hb. apply runs_bind, runs_mod.
  set (s1 := SlaveStore _ _). pose proof (set_armed_host s 0 Hr) as H1.
  destruct frame as [|r rest]; [by apply runs_ret|].
  rewrite (proj2 (Z.eqb_neq (alen (r :: rest)) 0)) by (unfold alen; simpl; lia).
  change ((r :: rest).[0]) with r. apply Forall_cons in Hb as [Hb _].
  apply runs_bind. eapply runs_mono; [apply observe_slave|]. intros ? s2 E2.
  apply runs_bind. eapply runs_mono; [apply capture_loop_slave|]. intros ? s3 E3.
  assert (ss_slave s3 = ss_slave s1) as E13 by (by rewrite E3, E2). cbn [host_write].
  rewrite (Z.ltb_antisym _ r).
  destruct (dev_reg_count (target_device s) <=? r) eqn:Hle; cbn [negb].
  - apply runs_bind. eapply runs_mono; [apply fault_loop_slave|]. intros ? s4 E4.
    apply runs_ret. eapply host_changed_after; [exact H1|]. by rewrite E4.
  - apply runs_bind, runs_mod, runs_bind, runs_mod.
    eapply runs_mono; [apply forward_loop_slave|]. intros ? s4 E4.
    eapply host_changed_after; [|exact E4]. cbn [ss_slave]. rewrite E13.
    rewrite u8_id by exact Hb. unfold s1. cbn [ss_slave].
    pose proof (select_host s r (if alen (r :: rest) =? 1 then 1 else 0) Hr) as Hs.
    cbv zeta in Hs.
    replace (match rest with [] => true | _ => false end)
      with (negb ((if alen (r :: rest) =? 1 then 1 else 0) =? 0)); [exact Hs|].
    destruct rest as [|x rest]; [done|].
    rewrite (proj2 (Z.eqb_neq (alen (r :: x :: rest)) 1)) by (unfold alen; simpl; lia). done.
Qed.

Definition read_result (s : slave_store) (capacity : Z) (r : bvstk_status_t * list Z)
    (s' : slave_store) : Prop :=
  let h := host_of s (sl_target_device (ss_slave s)) in
  if hs_armed h then
    match r with
    | (BVSTK_OK, bytes) =>
        alen bytes <= capacity /\
        host_changed s s' (host_read (dev_reg_count (target_device s)) (alen bytes) h)
    | (_, bytes) => bytes = [] /\ host_changed s s' h
    end
  else r = (BVSTK_OK, []) /\ host_changed s s' h.

Lemma load_window_slave id reg capacity t s :
  0 <= capacity ->
  runs (load_window id reg true capacity true t) s (fun r s' =>
    ss_slave s' = ss_slave s /\ alen (snd r) <= capacity).
Proof.
  intros Hc. unfold load_window, runs.
  assert (alen (@nil Z) <= capacity) as Hnil by done.
  destruct (bvstk_i2c_devices_get _ _ _) as [[] [device|]]; try (split; done).
  destruct (_ || _ || _) eqn:Hb; [split; done|]. bsimp.
  destruct (window_loop_slave (Z.to_nat (Z.min capacity (dev_reg_count device - reg))) id reg
    0 t [] s eq_refl) as [Hs1 Hs2]. split; [done|]. lia.
Qed.

Lemma handle_read_host s capacity t :
  slave_ready s -> 0 <= capacity ->
  runs (handle_read (target_device s) (sl_target_device (ss_slave s)) true capacity t) s
    (fun r s' => read_result s capacity r s').
Proof.
  intros Hr Hc. destruct (slave_ready_get s Hr) as (_ & Ht & Hrc).
  pose proof Hr as (_ & _ & Ht0 & _ & _ & _ & Hptr).
  specialize (Hptr (sl_target_device (ss_slave s)) ltac:(lia)).
  apply runs_bind, runs_get. set (reg := (sl_register_pointer _).[_]) in *.
  apply runs_bind. eapply runs_mono; [apply observe_slave|]. intros ? s1 E1.
  apply runs_bind, runs_get. rewrite E1. unfold read_result.
  cbn [host_of hs_armed]. fold reg.
  destruct (_ =? 0) eqn:Ha; cbn [negb].
  { apply runs_ret. split; [done|]. by apply host_same. }
  apply runs_bind. eapply runs_mono; [by apply load_window_slave|]. intros [status bytes] s2 [E2 Hlen].
  destruct status; try (apply runs_ret; split; [done|]; apply host_same; by rewrite E2).
  apply runs_bind. eapply runs_mono; [apply prepared_loop_slave|]. intros ? s3 E3.
  apply runs_bind, runs_mod, runs_ret. cbn [snd] in Hlen. split; [done|].
  assert (ss_slave s3 = ss_slave s) as E by (by rewrite E3, E2). rewrite E.
  set (reg0 := if dev_reg_count (target_device s) <=? reg then 0 else reg).
  assert (0 <= reg0 < dev_reg_count (target_device s)) as Hreg0
    by (unfold reg0; destruct (_ <=? reg) eqn:Hle; bsimp; lia).
  pose proof (alen_nonneg bytes).
  assert (negb (alen bytes =? 0) = (0 <? alen bytes)) as ->
    by (destruct (alen bytes =? 0) eqn:?, (0 <? alen bytes) eqn:?; bsimp; done || lia).
  rewrite u8_id by (unfold I2C_CFG_MAX_REG_COUNT in *;
    destruct (_ && _) eqn:Hb; bsimp; lia).
  pose proof (set_pointer_host s (if (0 <? alen bytes) && (reg0 + alen bytes <?
    dev_reg_count (target_device s)) then reg0 + alen bytes else 0) Hr) as Hs.
  cbv zeta in Hs. unfold host_read. cbn [host_of hs_pointer hs_armed] in *. fold reg.
  fold reg0. exact Hs.
Qed.

(** A whole event: one write frame, or one read of at most [capacity] bytes. *)
Definition write_frame (frame : list Z) (t : Z)
    : ST slave_store (bvstk_status_t * option (list Z)) :=
  bvstk_i2c_slave_service_handle_frame true (Some frame) (alen frame) 0 true 0 true t.
Definition read_frame (capacity t : Z) : ST slave_store (bvstk_status_t * option (list Z)) :=
  bvstk_i2c_slave_service_handle_frame true None 0 1 true capacity true t.

Lemma write_frame_eq frame t s :
  slave_ready s ->
  write_frame frame t s =
    (let! status := handle_write (target_device s) (sl_target_device (ss_slave s)) (Some frame)
                      (alen frame) t in st_ret (status, Some [])) s.
Proof.
  intros Hr. destruct (slave_ready_get s Hr) as (Hg & _). destruct Hr as (Hst & _).
  unfold write_frame, bvstk_i2c_slave_service_handle_frame. by rewrite Hst, Hg.
Qed.

Lemma read_frame_eq capacity t s :
  slave_ready s ->
  read_frame capacity t s =
    (let! r := handle_read (target_device s) (sl_target_device (ss_slave s)) true capacity t in
     st_ret (fst r, Some (snd r))) s.
Proof.
  intros Hr. destruct (slave_ready_get s Hr) as (Hg & _). destruct Hr as (Hst & _).
  unfold read_frame, bvstk_i2c_slave_service_handle_frame. rewrite Hst.
  cbn [negb orb]. rewrite andb_false_r, Hg. done.
Qed.

(** C31: functional.  The slave service is the register protocol automaton: a
    write frame replaces the selected register when its first byte names a
    register and disarms reading unless it holds that byte only; a read is
    answered only when armed, with at most the bytes asked for, and then moves
    the pointer past them, wrapping to 0 at the end of the registers; a failed
    read changes nothing; other targets are not affected. *)
Theorem slave_protocol s frame capacity t :
  slave_ready s -> Forall (fits 8) frame -> 0 <= capacity ->
  let h := host_of s (sl_target_device (ss_slave s)) in
  let reg_count := dev_reg_count (target_device s) in
  host_changed s (snd (write_frame frame t s)) (host_write reg_count frame h) /\
  let '((status, reply), s') := read_frame capacity t s in
  exists bytes, reply = Some bytes /\
    if hs_armed h && is_ok status
    then alen bytes <= capacity /\ host_changed s s' (host_read reg_count (alen bytes) h)
    else bytes = [] /\ host_changed s s' h.
Proof.
  intros Hr Hb Hc. cbv zeta. rewrite write_frame_eq, read_frame_eq by done. split.
  - pose proof (handle_write_host s frame t Hr Hb) as H. unfold runs in H. unfold st_bind.
    by destruct (handle_write _ _ _ _ _ s).
  - pose proof (handle_read_host s capacity t Hr Hc) as H. unfold runs in H. unfold st_bind.
    destruct (handle_read _ _ _ _ _ s) as [[status bytes] s']. cbn in *.
    exists bytes. split; [done|]. unfold read_result in H. cbn [host_of hs_armed] in *.
    destruct (_ =? 0); cbn [negb andb] in *.
    + by destruct H as [[= -> ->] H].
    + by destruct status.
Qed.

(** ** What a read replies *)

(** The longest run of valid cached registers, at most [n] of them. *)
Fixpoint cached_run (c : bvstk_i2c_cache_t X) (id reg : Z) (n : nat) : list Z :=
  match n with
  | O => []
  | S n =>
      if bvstk_i2c_cache_is_valid (Some c) id reg
      then tget (ca_values c) id reg :: cached_run c id (reg + 1) n
      else []
  end.

Lemma cache_valid_read (c : bvstk_i2c_cache_t X) id reg :
  bvstk_i2c_cache_is_valid (Some c) id reg = true ->
  bvstk_i2c_cache_read (Some c) id reg true = (BVSTK_OK, Some (tget (ca_values c) id reg)).
Proof.
  unfold bvstk_i2c_cache_is_valid, bvstk_i2c_cache_read. by destruct (cache_status _ _ _).
Qed.

Lemma window_loop_cached n id reg i t window s c :
  s_cache s = Some c -> 0 <= reg -> 0 < i -> reg + i + Z.of_nat n <= 256 ->
  window_loop n id reg i t window s = ((BVSTK_OK, window ++ cached_run c id (reg + i) n), s).
Proof.
  intros Hs Hreg. revert i window. induction n as [|n IH]; intros i window Hi Hn;
    cbn [window_loop cached_run]; [by rewrite app_nil_r|].
  rewrite Hs, u8_id by lia.
  destruct (bvstk_i2c_cache_is_valid _ _ _) eqn:Hv.
  - rewrite cache_valid_read by done. rewrite IH by lia.
    rewrite <- app_assoc. cbn [app]. by rewrite Z.add_assoc.
  - rewrite (proj2 (Z.eqb_neq _ _)) by lia. cbn [negb]. by rewrite app_nil_r.
Qed.

Lemma window_loop_first n id reg t s c :
  s_cache s = Some c -> 0 <= reg -> (0 < n)%nat -> reg + Z.of_nat n <= 256 ->
  window_loop n id reg 0 t [] s =
    if bvstk_i2c_cache_is_valid (Some c) id reg
    then ((BVSTK_OK, cached_run c id reg n), s)
    else (let! r := on_i2c (bvstk_i2c_master_service_read_from (sl_master (ss_slave s))
                     id reg true BVSTK_EVENT_SOURCE_HOST t) in
          st_ret (match r with
                  | (BVSTK_OK, v) => (BVSTK_OK, [default 0 v])
                  | (status, _) => (status, [])
                  end)) s.
Proof.
  intros Hs Hreg Hn0 Hn. destruct n as [|n]; [lia|]. cbn [window_loop cached_run].
  rewrite Hs, Z.add_0_r, u8_id by lia.
  destruct (bvstk_i2c_cache_is_valid _ _ _) eqn:Hv; [|done].
  rewrite cache_valid_read by done. cbn [app]. by rewrite (window_loop_cached _ _ _ _ _ _ _ c) by lia || done.
Qed.

(** The slave and the master run on the same objects. *)
Definition slave_wired (s : slave_store) : Prop :=
  slave_ready s /\ sl_cache (ss_slave s) = true /\ sl_master (ss_slave s) = true /\
  store_wf (ss_i2c s) /\ sv_initialized (st_master (ss_i2c s)) <> 0.

Lemma observe_data target type op reg value status s :
  runs (observe target type op reg value status) s (fun _ s' =>
    ss_slave s' = ss_slave s /\ data_eq (ss_i2c s) (ss_i2c s')).
Proof.
  unfold runs, observe, on_i2c, bvstk_i2c_master_service_observe.
  destruct (service_status _ _ _); try done.
  destruct (bvstk_i2c_devices_get _ _ _) as [[] [d|]]; try done.
  pose proof (emit_flags_runs type (status_code status) BVSTK_EVENT_SOURCE_HOST op d reg value
    (if type =? BVSTK_EVENT_SLAVE_REPLY_PREPARED
     then BVSTK_EVENT_FLAG_TELEMETRY_UNCONFIRMED else BVSTK_EVENT_FLAG_NONE) (ss_i2c s)) as H.
  unfold runs in H. by destruct (emit_flags _ _ _ _ _ _ _ _ (ss_i2c s)).
Qed.

Lemma prepared_loop_data n target reg i window s :
  runs (prepared_loop n target reg i window) s (fun _ s' => data_eq (ss_i2c s) (ss_i2c s')).
Proof.
  revert i s. induction n as [|n IH]; intros i s; [done|].
  apply runs_bind. eapply runs_mono; [apply observe_data|]. intros ? s1 [_ H1].
  eapply runs_mono; [apply IH|]. intros ? s2 H2. by eapply data_eq_trans.
Qed.

(** The register a read starts at. *)
Definition read_start_reg (s : slave_store) : Z :=
  let reg := (sl_register_pointer (ss_slave s)).[sl_target_device (ss_slave s)] in
  if dev_reg_count (target_device s) <=? reg then 0 else reg.

Lemma load_window_run s capacity t :
  slave_wired s -> 0 < capacity ->
  let id := sl_target_device (ss_slave s) in
  let reg := read_start_reg s in
  load_window id (u8 reg) true capacity true t s =
    if bvstk_i2c_cache_is_valid (Some (st_cache (ss_i2c s))) id reg
    then ((BVSTK_OK, cached_run (st_cache (ss_i2c s)) id reg
             (Z.to_nat (Z.min capacity (dev_reg_count (target_device s) - reg)))), s)
    else (let! r := on_i2c (bvstk_i2c_master_service_read_from true id reg true
                     BVSTK_EVENT_SOURCE_HOST t) in
          st_ret (match r with
                  | (BVSTK_OK, v) => (BVSTK_OK, [default 0 v])
                  | (status, _) => (status, [])
                  end)) s.
Proof.
  intros (Hr & Hc & Hm & _) Hcap. cbv zeta. unfold read_start_reg.
  destruct (slave_ready_get s Hr) as (Hg & Ht & Hrc).
  destruct Hr as (_ & _ & Ht0 & _ & _ & _ & Hptr).
  specialize (Hptr (sl_target_device (ss_slave s)) ltac:(lia)).
  set (reg := if _ <=? _ then _ else _).
  assert (0 <= reg < dev_reg_count (target_device s)) as Hreg
    by (unfold reg; destruct (_ <=? _) eqn:Hle; bsimp; lia).
  unfold I2C_CFG_MAX_REG_COUNT in *.
  unfold load_window. rewrite Hg, u8_id by lia. rewrite (proj2 (Z.leb_gt _ reg)) by lia.
  cbn [orb negb]. rewrite (window_loop_first _ _ _ _ _ (st_cache (ss_i2c s)));
    [by rewrite Hm|unfold s_cache; by rewrite Hc|lia..].
Qed.

Lemma slave_same_data s s' :
  ss_slave s' = ss_slave s -> data_eq (ss_i2c s) (ss_i2c s') -> slave_wired s ->
  slave_wired s' /\ target_device s' = target_device s /\
  read_start_reg s' = read_start_reg s /\ st_cache (ss_i2c s') = st_cache (ss_i2c s).
Proof.
  intros E Hd. pose proof Hd as (E1 & E2 & _ & E4).
  assert (target_device s' = target_device s) as Et by (unfold target_device; by rewrite E, E1).
  intros (Hr & Hc & Hm & Hwf & Hi). split; [|split; [done|split; [|done]]].
  - split; [|rewrite E, E4; split; [done|split; [done|split; [|done]]];
      by eapply store_wf_data_eq].
    unfold slave_ready, slave_status, s_devices in *. by rewrite Et, E, E1.
  - unfold read_start_reg. by rewrite Et, E.
Qed.

Definition reply_of (s : slave_store) (capacity t : Z) (r : bvstk_status_t * list Z)
    (s' : slave_store) : Prop :=
  let id := sl_target_device (ss_slave s) in
  let reg := read_start_reg s in
  let cache := st_cache (ss_i2c s) in
  if bvstk_i2c_cache_is_valid (Some cache) id reg
  then
    r = (BVSTK_OK, cached_run cache id reg
           (Z.to_nat (Z.min capacity (dev_reg_count (target_device s) - reg)))) /\
    data_eq (ss_i2c s) (ss_i2c s')
  else
    exists w, data_eq (ss_i2c s) w /\
      let '(status, v) := fst (bvstk_i2c_master_service_read_from true id reg true
                                 BVSTK_EVENT_SOURCE_HOST t w) in
      r = (status, if is_ok status then [default 0 v] else []).

Lemma handle_read_reply s capacity t :
  slave_wired s -> 0 < capacity ->
  hs_armed (host_of s (sl_target_device (ss_slave s))) = true ->
  runs (handle_read (target_device s) (sl_target_device (ss_slave s)) true capacity t) s
    (fun r s' => reply_of s capacity t r s').
Proof.
  intros Hw Hcap Harm. cbn [host_of hs_armed] in Harm. apply negb_true_iff in Harm.
  apply runs_bind, runs_get, runs_bind. eapply runs_mono; [apply observe_data|].
  intros ? s1 [E1 Hd1].
  destruct (slave_same_data s s1 E1 Hd1 Hw) as (Hw1 & Et & Er & Ec).
  apply runs_bind, runs_get. rewrite E1, Harm. apply runs_bind.
  fold (read_start_reg s).
  pose proof (load_window_run s1 capacity t Hw1 Hcap) as Hl. cbv zeta in Hl.
  rewrite E1, Er, Ec, Et in Hl. unfold runs at 1. rewrite Hl. unfold reply_of.
  destruct (bvstk_i2c_cache_is_valid _ _ _).
  - cbn [fst snd]. apply runs_bind. eapply runs_mono; [apply prepared_loop_data|].
    intros ? s2 H2. apply runs_bind, runs_mod, runs_ret. split; [done|].
    cbn [ss_i2c]. by eapply data_eq_trans.
  - unfold st_bind, on_i2c. 
    destruct (bvstk_i2c_master_service_read_from _ _ _ _ _ _ (ss_i2c s1)) as [[status v] w2]
      eqn:Hrd.
    assert (forall r, r = (status, if is_ok status then [default 0 v] else []) ->
      exists w, data_eq (ss_i2c s) w /\
        let '(status, v) := fst (bvstk_i2c_master_service_read_from true
          (sl_target_device (ss_slave s)) (read_start_reg s) true BVSTK_EVENT_SOURCE_HOST t w) in
        r = (status, if is_ok status then [default 0 v] else [])) as Hend.
    { intros r Hreq. exists (ss_i2c s1). split; [done|]. rewrite Hrd. exact Hreq. }
    destruct status; cbn [fst snd st_ret is_ok] in *; try (apply runs_ret; by apply Hend).
    apply runs_bind. unfold runs at 1. apply runs_bind, runs_mod, runs_ret. by apply Hend.
Qed.

(** Functional.  An armed read is answered from the cache whenever the
    selected register is valid there: the reply is exactly the run of valid
    cached values from that register on, up to the bytes asked for and the
    device's registers, and no object of the I2C stack changes.  Otherwise one
    byte is read through the master service and the reply is that byte, or
    nothing with the read's status. *)
Theorem slave_read_reply s capacity t :
  slave_wired s -> 0 < capacity ->
  hs_armed (host_of s (sl_target_device (ss_slave s))) = true ->
  let id := sl_target_device (ss_slave s) in
  let reg := read_start_reg s in
  let cache := st_cache (ss_i2c s) in
  let '(r, s') := read_frame capacity t s in
  if bvstk_i2c_cache_is_valid (Some cache) id reg
  then
    r = (BVSTK_OK, Some (cached_run cache id reg
           (Z.to_nat (Z.min capacity (dev_reg_count (target_device s) - reg))))) /\
    data_eq (ss_i2c s) (ss_i2c s')
  else
    exists w, data_eq (ss_i2c s) w /\
      let '(status, v) := fst (bvstk_i2c_master_service_read_from true id reg true
                                 BVSTK_EVENT_SOURCE_HOST t w) in
      r = (status, Some (if is_ok status then [default 0 v] else [])).
Proof.
  intros Hw Hcap Harm. cbv zeta. pose proof Hw as (Hr & _).
  rewrite read_frame_eq by done.
  pose proof (handle_read_reply s capacity t Hw Hcap Harm) as H. unfold runs in H.
  unfold st_bind. destruct (handle_read _ _ _ _ _ s) as [[status bytes] s'].
  cbn [fst snd st_ret] in *. unfold reply_of in H.
  destruct (bvstk_i2c_cache_is_valid _ _ _).
  - by destruct H as [[= -> ->] H].
  - destruct H as (w & Hd & H). exists w. split; [done|].
    destruct (fst _) as [st v]. by injection H as -> ->.
Qed.

(** ** Host writes and the policy *)

Definition bus_write_of (o : observation) : option (Z * Z * Z) :=
  match o with BusWrite a r v => Some (a, r, v) | Published _ _ _ _ _ => None end.

Definition bus_writes (obs : list observation) : list (Z * Z * Z) := omap bus_write_of obs.

(** The writes a frame asks for: [k] values from the byte at [i] on. *)
Fixpoint forwarded (addr reg i : Z) (frame : list Z) (k : nat) : list (Z * Z * Z) :=
  match k with
  | O => []
  | S k => (addr, reg + i - 1, frame.[i]) :: forwarded addr reg (i + 1) frame k
  end.

Section trace.
Context (trace : X -> list observation).

Definition bus_of (s : slave_store) : list (Z * Z * Z) :=
  bus_writes (trace (st_ext (ss_i2c s))).

(** The step leaves the slave alone and keeps what a write keeps. *)
Definition frame_keeps (s s' : slave_store) : Prop :=
  ss_slave s' = ss_slave s /\ write_keeps trace (ss_i2c s) (ss_i2c s').

Lemma frame_keeps_trans s1 s2 s3 : frame_keeps s1 s2 -> frame_keeps s2 s3 -> frame_keeps s1 s3.
Proof.
  intros [E1 H1] [E2 H2]. split; [congruence|]. by eapply write_keeps_trans.
Qed.

Lemma observe_quiet target type op reg value status s :
  store_wf (ss_i2c s) -> monitored trace (ss_i2c s) ->
  runs (observe target type op reg value status) s (fun _ s' =>
    frame_keeps s s' /\ bus_of s' = bus_of s).
Proof.
  intros Hwf Hmon.
  pose proof (observe_data target type op reg value status s) as Hd. unfold runs in *.
  destruct Hd as [E Hd]. split; [split; [done|by apply data_eq_keeps]|].
  unfold observe, on_i2c, bvstk_i2c_master_service_observe.
  destruct (service_status _ _ _); try done.
  destruct (bvstk_i2c_devices_get _ _ _) as [[] [d|]]; try done.
  assert (observed trace (ss_i2c s)) as Ho by (destruct Hmon; by repeat (split; [done|])).
  pose proof (emit_observed trace type (status_code status) BVSTK_EVENT_SOURCE_HOST op d reg value
    (if type =? BVSTK_EVENT_SLAVE_REPLY_PREPARED
     then BVSTK_EVENT_FLAG_TELEMETRY_UNCONFIRMED else BVSTK_EVENT_FLAG_NONE) (ss_i2c s) Ho) as H.
  unfold runs in H. destruct (emit_flags _ _ _ _ _ _ _ _ (ss_i2c s)) as [[] w'].
  destruct H as (_ & _ & H). unfold bus_of. cbn [snd ss_i2c]. unfold extends in H. cbn in H.
  rewrite H. unfold bus_writes. rewrite omap_app. cbn. by rewrite app_nil_r.
Qed.

Lemma frame_keeps_refl s :
  store_wf (ss_i2c s) -> monitored trace (ss_i2c s) -> frame_keeps s s.
Proof. intros Hwf Hmon. split; [done|]. by apply data_eq_keeps. Qed.

Lemma fault_loop_quiet n target reg i frame status s :
  store_wf (ss_i2c s) -> monitored trace (ss_i2c s) ->
  runs (fault_loop n target reg i frame status) s (fun _ s' =>
    frame_keeps s s' /\ bus_of s' = bus_of s).
Proof.
  revert i s. induction n as [|n IH]; intros i s Hwf Hmon.
  { split; [by apply frame_keeps_refl|done]. }
  apply runs_bind. eapply runs_mono; [by apply observe_quiet|]. intros ? s1 [H1 B1].
  apply runs_bind. eapply runs_mono; [apply observe_quiet; apply H1|]. intros ? s2 [H2 B2].
  eapply runs_mono; [apply IH; apply H2|]. intros ? s3 [H3 B3].
  split; [|by rewrite B3, B2, B1].
  eapply frame_keeps_trans; [exact H1|]. by eapply frame_keeps_trans.
Qed.

Lemma capture_loop_quiet n target reg i frame s :
  store_wf (ss_i2c s) -> monitored trace (ss_i2c s) ->
  runs (capture_loop n target reg i frame) s (fun _ s' =>
    frame_keeps s s' /\ bus_of s' = bus_of s).
Proof.
  revert i s. induction n as [|n IH]; intros i s Hwf Hmon.
  { split; [by apply frame_keeps_refl|done]. }
  apply runs_bind. eapply runs_mono; [by apply observe_quiet|]. intros ? s1 [H1 B1].
  eapply runs_mono; [apply IH; apply H1|]. intros ? s2 [H2 B2].
  split; [by eapply frame_keeps_trans|by rewrite B2, B1].
Qed.

(** One forwarded value: on success it was written, once, and was permitted. *)
Definition one_write (w : i2c_store X HW) (id reg value : Z) (status : bvstk_status_t)
    (writes : list (Z * Z * Z)) : Prop :=
  let device := (dvs_items (st_devices w)).[id] in
  if bvstk_i2c_policy_permits (Some (st_policy w)) id (Some device) reg value &&
     (reg <? dev_reg_count device) && (value <=? dev_max_value_code device)
  then writes = [(dev_addr_7b device, reg, value)]
  else writes = [] /\ status <> BVSTK_OK.

Lemma master_write_one id reg value t s :
  store_wf (ss_i2c s) -> monitored trace (ss_i2c s) -> 0 <= id -> 0 <= reg ->
  service_status true id (ss_i2c s) = BVSTK_OK ->
  runs (on_i2c (bvstk_i2c_master_service_write true id reg value BVSTK_EVENT_SOURCE_HOST t)) s
    (fun status s' => frame_keeps s s' /\
       exists writes, bus_of s' = bus_of s ++ writes /\
         one_write (ss_i2c s) id reg value status writes).
Proof.
  intros Hwf Hmon Hid Hreg Hst.
  pose proof (master_write_runs trace (ss_i2c s) id reg value BVSTK_EVENT_SOURCE_HOST t
    Hwf Hid Hreg Hst Hmon) as H. cbv zeta in H. unfold runs, on_i2c in *.
  destruct (bvstk_i2c_master_service_write _ _ _ _ _ _ (ss_i2c s)) as [status w'].
  cbn [fst snd] in *. destruct H as (Htr & Hk & Href).
  split; [by split|]. exists (bus_writes (write_trace (ss_i2c s) id reg value status)).
  split.
  { unfold bus_of, bus_writes. cbn. unfold extends in Htr. by rewrite Htr, omap_app. }
  unfold one_write, refused_status, write_trace in *. set (device := _.[id]) in *.
  rewrite (Z.ltb_antisym _ reg), (Z.leb_antisym _ value).
  destruct (dev_reg_count device <=? reg); cbn [orb negb andb] in *;
    [by rewrite andb_false_r; subst status|].
  destruct (dev_max_value_code device <? value); cbn [orb negb andb] in *;
    [by rewrite andb_false_r; subst status|].
  destruct (bvstk_i2c_policy_permits _ _ _ _ _); cbn [negb andb] in *; [|by subst status].
  unfold outcome_trace. by destruct (is_ok status).
Qed.

(** What forwarding wrote: the first [k] values, all permitted; all of them,
    up to the end of the registers, when it succeeds. *)
Definition forward_result (s : slave_store) (target reg i : Z) (frame : list Z) (n : nat)
    (status : bvstk_status_t) (s' : slave_store) : Prop :=
  let device := (dvs_items (st_devices (ss_i2c s))).[target] in
  exists k, (k <= n)%nat /\
    bus_of s' = bus_of s ++ forwarded (dev_addr_7b device) reg i frame k /\
    (forall j, 0 <= j < Z.of_nat k -> reg + i - 1 + j < dev_reg_count device /\
       bvstk_i2c_policy_permits (Some (st_policy (ss_i2c s))) target (Some device)
         (reg + i - 1 + j) (frame.[i + j]) = true) /\
    (status = BVSTK_OK ->
       Z.of_nat k = Z.min (Z.of_nat n) (Z.max 0 (dev_reg_count device - (reg + i - 1)))).

Lemma forward_result_nil s s' target reg i frame n status :
  bus_of s' = bus_of s ->
  (status = BVSTK_OK -> n = O \/
     dev_reg_count ((dvs_items (st_devices (ss_i2c s))).[target]) <= reg + i - 1) ->
  forward_result s target reg i frame n status s'.
Proof.
  intros E Hok. exists 0%nat. split; [lia|]. split; [by rewrite E, app_nil_r|].
  split; [lia|]. intros H. specialize (Hok H). lia.
Qed.

Lemma forward_result_cons s s1 s' target reg i frame n status :
  let device := (dvs_items (st_devices (ss_i2c s))).[target] in
  frame_keeps s s1 ->
  bus_of s1 = bus_of s ++ [(dev_addr_7b device, reg + i - 1, frame.[i])] ->
  reg + i - 1 < dev_reg_count device ->
  bvstk_i2c_policy_permits (Some (st_policy (ss_i2c s))) target (Some device)
    (reg + i - 1) (frame.[i]) = true ->
  forward_result s1 target reg (i + 1) frame n status s' ->
  forward_result s target reg i frame (S n) status s'.
Proof.
  intros device (_ & _ & _ & E1 & E2 & _) Hb Hlt Hp (k & Hk & Hbus & Hall & Hok).
  rewrite E1, E2 in *. exists (S k). split; [lia|]. split.
  { rewrite Hbus, Hb, <- app_assoc. done. }
  split.
  - intros j Hj. destruct (decide (j = 0)) as [->|].
    + rewrite !Z.add_0_r. done.
    + specialize (Hall (j - 1) ltac:(lia)).
      replace (reg + (i + 1) - 1 + (j - 1)) with (reg + i - 1 + j) in Hall by lia.
      replace (i + 1 + (j - 1)) with (i + j) in Hall by lia. done.
  - intros H. specialize (Hok H). unfold device in *. lia.
Qed.

Lemma forward_loop_runs n target reg i t frame s :
  let device := (dvs_items (st_devices (ss_i2c s))).[target] in
  store_wf (ss_i2c s) -> monitored trace (ss_i2c s) -> 0 <= target -> 0 <= reg -> 1 <= i ->
  service_status true target (ss_i2c s) = BVSTK_OK -> sl_master (ss_slave s) = true ->
  runs (forward_loop n target reg (dev_reg_count device) i t frame) s
    (fun status s' => forward_result s target reg i frame n status s').
Proof.
  cbv zeta. revert i s.
  induction n as [|n IH]; intros i s Hwf Hmon Ht Hreg Hi Hst Hm; cbn [forward_loop].
  { apply runs_ret. apply forward_result_nil; [done|]. by left. }
  destruct (service_status_ok _ _ Hwf Hst) as [Hw Hlt].
  assert (dev_reg_count ((dvs_items (st_devices (ss_i2c s))).[target]) <= 256) as H256.
  { destruct Hwf as ((_ & _ & _ & Hv) & _). specialize (Hv target ltac:(lia)).
    unfold item_valid, I2C_CFG_MAX_REG_COUNT in Hv. bsimp. done. }
  destruct (_ <=? _) eqn:Hend; bsimp.
  { apply runs_bind. eapply runs_mono; [by apply fault_loop_quiet|]. intros ? s1 [_ B1].
    apply runs_ret. apply forward_result_nil; [done|]. by right. }
  apply runs_bind. unfold runs at 1. rewrite Hm, u8_id by lia.
  pose proof (master_write_one target (reg + i - 1) (frame.[i]) t s Hwf Hmon Ht ltac:(lia) Hst)
    as H. unfold runs in H.
  destruct (on_i2c _ s) as [status s1]. cbn [fst snd] in *.
  destruct H as (Hk & writes & Hbus & Hone).
  unfold one_write in Hone. set (device := _.[target]) in *.
  destruct (bvstk_i2c_policy_permits _ _ _ _ _ && _ && _) eqn:Hperm.
  - subst writes. bsimp. destruct (is_ok status) eqn:Hok; cbn [negb].
    + eapply runs_mono.
      { replace (dev_reg_count device) with
          (dev_reg_count ((dvs_items (st_devices (ss_i2c s1))).[target]))
          by (destruct Hk as (_ & _ & _ & E & _); by rewrite E).
        apply IH; [apply Hk|apply Hk|done|done|lia| |].
        - destruct Hk as (_ & Hwf1 & _ & E1 & _ & E3).
          assert (sv_initialized (st_master (ss_i2c s1)) <> 0) as Hini
            by (rewrite E3; by eapply service_status_initialized).
          apply service_status_intro; [done| |by rewrite E1; apply Hlt].
          destruct Hwf1 as (_ & _ & _ & _ & Hw1). apply Hw1. by left.
        - destruct Hk as [E _]. by rewrite E. }
      intros st s2 H2. by eapply forward_result_cons.
    + apply runs_bind. eapply runs_mono; [apply fault_loop_quiet; apply Hk|].
      intros ? s2 [_ B2]. apply runs_ret. exists 1%nat. split; [lia|]. fold device.
      split; [by rewrite B2, Hbus|]. split; [|by intros ->].
      intros j Hj. replace j with 0 by lia. by rewrite !Z.add_0_r.
  - destruct Hone as [-> Hne].
    assert (is_ok status = false) as -> by by apply is_ok_false. cbn [negb].
    apply runs_bind. eapply runs_mono; [apply fault_loop_quiet; apply Hk|].
    intros ? s2 [_ B2]. apply runs_ret. apply forward_result_nil; [|done].
    by rewrite B2, Hbus, app_nil_r.
Qed.

Lemma slave_wired_service s :
  slave_wired s ->
  service_status true (sl_target_device (ss_slave s)) (ss_i2c s) = BVSTK_OK.
Proof.
  intros (Hr & _ & _ & Hwf & Hi). destruct (slave_ready_get s Hr) as (_ & Ht & _).
  destruct Hwf as (_ & _ & _ & _ & Hw).
  apply service_status_intro; [done|apply Hw; by left|lia].
Qed.

Lemma forward_result_frame s0 s target reg i frame n status s' :
  write_keeps trace (ss_i2c s0) (ss_i2c s) -> bus_of s = bus_of s0 ->
  forward_result s target reg i frame n status s' ->
  forward_result s0 target reg i frame n status s'.
Proof.
  intros (_ & _ & E1 & E2 & _) B. unfold forward_result. by rewrite E1, E2, B.
Qed.

(** The store of a slave after its protocol stores only. *)
Lemma forward_after_select s s2 reg armed t frame n :
  slave_wired s -> 0 <= reg -> frame_keeps (SlaveStore (set_armed 0 (ss_slave s)) (ss_i2c s)) s2 ->
  bus_of s2 = bus_of s ->
  runs (mod_slave (set_pointer reg) ;; mod_slave (set_armed armed) ;;
        forward_loop n (sl_target_device (ss_slave s)) reg (dev_reg_count (target_device s)) 1 t
          frame) s2
    (fun status s' => forward_result s (sl_target_device (ss_slave s)) reg 1 frame n status s').
Proof.
  intros Hw Hreg [E Hk] B. apply runs_bind, runs_mod, runs_bind, runs_mod.
  pose proof Hk as (Hwf & Hmon & E1 & E2 & E3). cbn [ss_i2c] in *.
  pose proof (slave_wired_service s Hw) as Hst. pose proof Hw as (Hr & _ & Hm & Hwf0 & Hi).
  destruct (slave_ready_get s Hr) as (_ & Ht & _).
  set (s3 := SlaveStore _ _).
  replace (dev_reg_count (target_device s)) with
    (dev_reg_count ((dvs_items (st_devices (ss_i2c s3))).[sl_target_device (ss_slave s)]))
    by (unfold s3; cbn; by rewrite E1).
  eapply runs_mono.
  { apply forward_loop_runs; try done; [by destruct Hr as (_ & _ & ? & _)| |].
    - apply service_status_intro; [cbn; by rewrite E3| |cbn; rewrite E1; lia].
      destruct Hwf as (_ & _ & _ & _ & Hw2). apply Hw2. left. by rewrite E3.
    - cbn. by rewrite E. }
  intros status s4 H4. by eapply (forward_result_frame s s3).
Qed.

Lemma handle_write_bus s reg values t :
  slave_wired s -> monitored trace (ss_i2c s) -> Forall (fits 8) (reg :: values) ->
  let frame := reg :: values in
  runs (handle_write (target_device s) (sl_target_device (ss_slave s)) (Some frame)
          (alen frame) t) s
    (fun status s' =>
       if dev_reg_count (target_device s) <=? reg
       then bus_of s' = bus_of s /\ status = BVSTK_ERR_RANGE
       else forward_result s (sl_target_device (ss_slave s)) reg 1 frame (length values)
              status s').
Proof.
  intros Hw Hmon Hb. cbv zeta. set (frame := reg :: values).
  pose proof Hw as (_ & _ & _ & Hwf & _). apply Forall_cons in Hb as [Hb _].
  apply runs_bind, runs_mod.
  rewrite (proj2 (Z.eqb_neq (alen frame) 0)) by (unfold alen, frame; simpl; lia).
  change (frame.[0]) with reg.
  replace (Z.to_nat (alen frame - 1)) with (length values)
    by (unfold alen, frame; simpl; lia).
  apply runs_bind. eapply runs_mono; [apply observe_quiet; done|]. intros ? s1 [H1 B1].
  apply runs_bind. eapply runs_mono; [apply capture_loop_quiet; apply H1|]. intros ? s2 [H2 B2].
  pose proof (frame_keeps_trans _ _ _ H1 H2) as H12.
  assert (bus_of s2 = bus_of s) as B12 by (rewrite B2, B1; done).
  destruct (_ <=? _).
  - apply runs_bind. eapply runs_mono; [apply fault_loop_quiet; apply H2|]. intros ? s3 [_ B3].
    apply runs_ret. split; [by rewrite B3|done].
  - rewrite u8_id by exact Hb. apply forward_after_select; [done|by destruct Hb|done|done].
Qed.
End trace.

(** C23: safety.  What a host writes reaches the bus only through the policy: of
    the values of a frame that starts at a register of the selected device, a
    prefix is written, in order, to consecutive registers of that device, each
    within its registers and permitted by the policy in force; on success it
    is every value up to the last register.  Any other frame writes nothing. *)
Theorem slave_writes_policed (trace : X -> list observation) s reg values t :
  slave_wired s -> monitored trace (ss_i2c s) -> Forall (fits 8) (reg :: values) ->
  let target := sl_target_device (ss_slave s) in
  let device := target_device s in
  let '((status, _), s') := write_frame (reg :: values) t s in
  exists k, (k <= length values)%nat /\
    bus_of trace s' = bus_of trace s ++ forwarded (dev_addr_7b device) reg 1 (reg :: values) k /\
    (forall j, 0 <= j < Z.of_nat k -> reg + j < dev_reg_count device /\
       bvstk_i2c_policy_permits (Some (st_policy (ss_i2c s))) target (Some device)
         (reg + j) ((reg :: values).[1 + j]) = true) /\
    (status = BVSTK_OK ->
       reg < dev_reg_count device /\
       Z.of_nat k = Z.min (alen values) (dev_reg_count device - reg)).
Proof.
  intros Hw Hmon Hb. cbv zeta. pose proof Hw as (Hr & _). rewrite write_frame_eq by done.
  pose proof (handle_write_bus trace s reg values t Hw Hmon Hb) as H. cbv zeta in H.
  unfold runs, st_bind, st_ret in *.
  destruct (handle_write _ _ _ _ _ s) as [status s']. cbn [fst snd] in H.
  destruct (_ <=? reg) eqn:Hle; bsimp.
  - destruct H as [B ->]. exists 0%nat. split; [lia|]. split; [by rewrite B, app_nil_r|].
    split; [lia|done].
  - destruct H as (k & Hk & Hbus & Hall & Hok). exists k. split; [done|]. split; [done|].
    replace (reg + 1 - 1) with reg in * by lia. split; [done|].
    intros ->. split; [done|]. rewrite (Hok eq_refl). unfold alen, target_device in *. lia.
Qed.
End slave.

Arguments slave_store : clear implicits.

(** ** A concrete slave *)

#[local] Existing Instance demo_platform.
#[local] Existing Instance demo_hw.

Definition demo_slave : slave_store demo_world unit :=
  SlaveStore (SlaveService true true true 0 (fill I2C_CFG_MAX_DEVICES 0)
    ((fill I2C_CFG_MAX_DEVICES 0).[0 <- 1]) 1) demo_store.

Lemma demo_slave_ready : slave_ready demo_slave.
Proof.
  split; [done|]. split; [apply demo_store_wf|]. repeat (split; [done|]).
  intros i Hi. cbn [ss_slave demo_slave sl_register_pointer]. by rewrite aget_fill.
Qed.

Lemma demo_slave_wired : slave_wired demo_slave.
Proof. split; [apply demo_slave_ready|]. repeat (split; [done|]). split; [apply demo_store_wf|done]. Qed.

Lemma slave_protocol_witness :
  host_changed demo_slave (snd (write_frame [2; 7] 10 demo_slave)) (HostState 2 false).
Proof.
  apply (slave_protocol demo_slave [2; 7] 4 10 demo_slave_ready).
  - repeat constructor; done.
  - lia.
Defined.

Lemma slave_read_reply_witness :
  fst (read_frame 4 10 demo_slave) = (BVSTK_OK, Some [9]).
Proof.
  pose proof (slave_read_reply demo_slave 4 10 demo_slave_wired ltac:(lia) ltac:(reflexivity)) as H.
  cbv zeta in H. destruct (read_frame 4 10 demo_slave) as [r s'].
  assert (bvstk_i2c_cache_is_valid (Some (st_cache (ss_i2c demo_slave)))
    (sl_target_device (ss_slave demo_slave)) (read_start_reg demo_slave) = false) as Hv
    by reflexivity.
  rewrite Hv in H. destruct H as (w & (E1 & _ & _ & E4) & H).
  unfold bvstk_i2c_master_service_read_from, service_status, p_devices, presence_confirmed,
    backend_read, st_bind in H.
  rewrite E1, E4 in H. cbn in H.
  destruct (read_finish _ _ _ _ _ _ _ _) in H. exact H.
Defined.

Lemma slave_writes_policed_witness :
  let '((status, _), s') := write_frame [3; 4; 5] 10 demo_slave in
  exists k, (k <= 2)%nat /\
    bus_of (fun x => x) s' = [] ++ forwarded 0x70 3 1 [3; 4; 5] k.
Proof.
  pose proof (slave_writes_policed (fun x : demo_world => x) demo_slave 3 [4; 5] 10
    demo_slave_wired) as H. cbv zeta in H.
  destruct (write_frame [3; 4; 5] 10 demo_slave) as [[status r] s'].
  destruct H as (k & Hk & Hb & _).
  - constructor; try done. by exists (fun e x => x ++ [event_observation e]).
  - repeat constructor; done.
  - exists k. split; [exact Hk|exact Hb].
Defined.
