(* ===== verification/MdioCore.v ===== *)
(** * MdioCore: the PL MDIO driver

    [src/src/drivers/pl/mdio/bvstk_mdio_core.c]: serialized Clause 22
    transactions through the PL master block, and the slave mailboxes in block
    RAM through which the host's register accesses arrive and are answered.

    The polling loops carry fuel and return [None] without it; the theorems
    show that as many rounds as milliseconds of timeout are enough. *)
From stdpp Require Import prelude.
From Stdlib Require Import ZArith Lia.
From S2P Require Import Prelude Platform PlAccess.
Local Open Scope Z_scope.

(** ** Registers (hardware/pl/mdio/bvstk_mdio_regs.h) *)

Definition BVSTK_MDIO_SLAVE_WR_OFFSET : Z := 0x1000.
Definition BVSTK_MDIO_SLAVE_RD_OFFSET : Z := 0x2000.
Definition BVSTK_MDIO_MSTR_CSR_OFFSET : Z := 0x00.
Definition BVSTK_MDIO_MSTR_IRQ_OFFSET : Z := 0x08.
Definition BVSTK_MDIO_MSTR_TX_FIFO_OFFSET : Z := 0x0C.
Definition BVSTK_MDIO_MSTR_MEM_ADDR_OFFSET : Z := 0x10.
Definition BVSTK_MDIO_SLV_MEM_ADDR_OFFSET : Z := 0x04.
Definition BVSTK_MDIO_SLV_IRQ_OFFSET : Z := 0x08.
Definition BVSTK_MDIO_MAILBOX_EMPTY : Z := 0x10000.

Definition DATA_VALID : Z := 1.
Definition BUSY : Z := 2.
Definition TX_EMPTY : Z := 4.
Definition TX_FULL : Z := 8.

Definition index_of (phy reg : Z) : Z := Z.lor (Z.shiftl phy 5) reg * 4.

Section core.
Context {X : Type} `{PL : Platform X}.

Record bvstk_mdio_core_t := MdioCore {
  mc_master : bvstk_mmio_region_t;
  mc_slave : bvstk_mmio_region_t;
  mc_bram : bvstk_mmio_region_t;
  mc_clock : bvstk_clock_t X;
  mc_mutex : bvstk_mutex_t X;
  mc_initialized : Z
}.

Definition zero_mdio_core : bvstk_mdio_core_t :=
  MdioCore zero_region zero_region zero_region (Clock None None) (Mutex None None) 0.

Definition ack (c : bvstk_mdio_core_t) : ST X bvstk_status_t :=
  let! unused := read32 (mc_master c) BVSTK_MDIO_MSTR_MEM_ADDR_OFFSET in
  if negb (is_ok (fst unused)) then st_ret BVSTK_ERR_IO
  else write32 (mc_master c) BVSTK_MDIO_MSTR_IRQ_OFFSET 1.

Definition reset (c : bvstk_mdio_core_t) : ST X bvstk_status_t :=
  let! st := write32 (mc_master c) BVSTK_MDIO_MSTR_CSR_OFFSET 1 in
  clock_sleep (Some (mc_clock c)) 1 ;;
  if is_ok st then ack c else st_ret st.

Definition bvstk_mdio_core_shutdown (c : option bvstk_mdio_core_t) : option bvstk_mdio_core_t :=
  match c with None => None | Some _ => Some zero_mdio_core end.

Definition bvstk_mdio_core_init (c : option bvstk_mdio_core_t)
    (clock : option (bvstk_clock_t X)) (mutex : option (bvstk_mutex_t X))
    : ST X (bvstk_status_t * option bvstk_mdio_core_t) :=
  match c with
  | None => st_ret (BVSTK_ERR_MALFORMED, None)
  | Some _ =>
      let clock := default (Clock None None) clock in
      let mutex := default (Mutex None None) mutex in
      let closed := MdioCore zero_region zero_region zero_region clock mutex 0 in
      match bvstk_mmio_region_open (Some zero_region) BVSTK_MDIO_MASTER_BASE BVSTK_MDIO_MASTER_SIZE with
      | None => st_ret (BVSTK_ERR_IO, Some closed)
      | Some master =>
          match bvstk_mmio_region_open (Some zero_region) BVSTK_MDIO_SLAVE_BASE BVSTK_MDIO_SLAVE_SIZE with
          | None => st_ret (BVSTK_ERR_IO, Some closed)
          | Some slave =>
              match bvstk_mmio_region_open (Some zero_region) BVSTK_MDIO_BRAM_BASE BVSTK_MDIO_BRAM_SIZE with
              | None => st_ret (BVSTK_ERR_IO, Some closed)
              | Some bram =>
                  let c := MdioCore master slave bram clock mutex 1 in
                  let! st := reset c in
                  if negb (is_ok st) then st_ret (BVSTK_ERR_IO, bvstk_mdio_core_shutdown (Some c))
                  else st_ret (BVSTK_OK, Some c)
              end
          end
      end
  end.

(** ** One transaction *)

(** The first [for (;;)]: wait until the block accepts a command. *)
Fixpoint idle_loop (fuel : nat) (c : bvstk_mdio_core_t) (start timeout : Z)
    : ST X (option bvstk_status_t) :=
  match fuel with
  | O => st_ret None
  | S fuel =>
      let! csr := read32 (mc_master c) BVSTK_MDIO_MSTR_CSR_OFFSET in
      if negb (is_ok (fst csr)) then st_ret (Some (fst csr))
      else if negb (truth (Z.land (snd csr) (Z.lor BUSY TX_FULL))) &&
              truth (Z.land (snd csr) TX_EMPTY) then st_ret (Some BVSTK_OK)
      else
        let! now := bvstk_clock_now_ms (Some (mc_clock c)) in
        if timeout <=? u64 (now - start) then st_ret (Some BVSTK_ERR_TIMEOUT)
        else clock_sleep (Some (mc_clock c)) 1 ;; idle_loop fuel c start timeout
  end.

(** Fetching a read result: the address the block reports, the mailbox word,
    and the acknowledgement. *)
Definition fetch_result (c : bvstk_mdio_core_t) (off value : Z) : ST X (bvstk_status_t * Z) :=
  let! addr := read32 (mc_master c) BVSTK_MDIO_MSTR_MEM_ADDR_OFFSET in
  let! result := (if is_ok (fst addr) then read32 (mc_bram c) off
                  else st_ret (fst addr, 0)) in
  let st := if is_ok (fst result) &&
               (negb (snd addr =? BVSTK_MDIO_BRAM_BASE + off) || (0xFFFF <? snd result))
            then BVSTK_ERR_IO else fst result in
  let value := if is_ok st then u16 (snd result) else value in
  let! acked := ack c in
  st_ret (if negb (is_ok acked) then BVSTK_ERR_IO else st, value).

(** The second [for (;;)]: wait for the frame to end. *)
Fixpoint finish_loop (fuel : nat) (c : bvstk_mdio_core_t) (write : bool) (off start timeout value : Z)
    : ST X (option (bvstk_status_t * Z)) :=
  match fuel with
  | O => st_ret None
  | S fuel =>
      let! csr := read32 (mc_master c) BVSTK_MDIO_MSTR_CSR_OFFSET in
      if negb (is_ok (fst csr)) then st_ret (Some (fst csr, value))
      else if write && negb (truth (Z.land (snd csr) BUSY)) && truth (Z.land (snd csr) TX_EMPTY)
      then st_ret (Some (BVSTK_OK, value))
      else if negb write && truth (Z.land (snd csr) DATA_VALID) then
        let! r := fetch_result c off value in st_ret (Some r)
      else
        let! now := bvstk_clock_now_ms (Some (mc_clock c)) in
        if timeout <=? u64 (now - start) then st_ret (Some (BVSTK_ERR_TIMEOUT, value))
        else
          clock_sleep (Some (mc_clock c)) 1 ;;
          finish_loop fuel c write off start timeout value
  end.

Definition command_word (phy reg value : Z) (write : bool) : Z :=
  Z.lor (Z.lor (Z.lor (Z.shiftl (Z.b2z write) 26) (Z.shiftl phy 21)) (Z.shiftl reg 16))
    (if write then value else 0).

(** From [start = now] to [done:], the lock held. *)
Definition exchange (fuel : nat) (c : bvstk_mdio_core_t) (phy reg value : Z) (write : bool)
    (timeout : Z) : ST X (option (bvstk_status_t * Z)) :=
  let! start := bvstk_clock_now_ms (Some (mc_clock c)) in
  let off := index_of phy reg in
  let! st := ack c in
  if negb (is_ok st) then st_ret (Some (st, value))
  else
    let? st := idle_loop fuel c start timeout in
    if negb (is_ok st) then st_ret (Some (st, value))
    else
      let! st := (if write then st_ret BVSTK_OK else write32 (mc_bram c) off BVSTK_MDIO_MAILBOX_EMPTY) in
      if negb (is_ok st) then st_ret (Some (BVSTK_ERR_IO, value))
      else
        let! st := write32 (mc_master c) BVSTK_MDIO_MSTR_TX_FIFO_OFFSET
                     (command_word phy reg value write) in
        if negb (is_ok st) then st_ret (Some (st, value))
        else
          clock_sleep (Some (mc_clock c)) 1 ;;
          finish_loop fuel c write off start timeout value.

(** [value] is a pointer; the result holds what it points at afterwards. *)
Definition transfer (fuel : nat) (c : option bvstk_mdio_core_t) (phy reg : Z) (value : option Z)
    (write : bool) (timeout : Z) : ST X (option (bvstk_status_t * option Z)) :=
  match c with
  | None => st_ret (Some (BVSTK_ERR_NOT_READY, value))
  | Some c =>
      if mc_initialized c =? 0 then st_ret (Some (BVSTK_ERR_NOT_READY, value))
      else
        match value with
        | None => st_ret (Some (BVSTK_ERR_MALFORMED, None))
        | Some v =>
            if (31 <? phy) || (31 <? reg) then st_ret (Some (BVSTK_ERR_RANGE, Some v))
            else
              let timeout := if timeout =? 0 then 100 else timeout in
              let! st := bvstk_mutex_lock (Some (mc_mutex c)) timeout in
              if negb (is_ok st) then st_ret (Some (st, Some v))
              else
                let? r := exchange fuel c phy reg v write timeout in
                let! _ := (if is_ok (fst r) then st_ret BVSTK_OK else reset c) in
                let! _ := (fun x => (tt, bvstk_mutex_unlock (Some (mc_mutex c)) x)) in
                st_ret (Some (fst r, Some (snd r)))
        end
  end.

Definition bvstk_mdio_core_read (fuel : nat) (c : option bvstk_mdio_core_t) (phy reg : Z)
    (value : option Z) (timeout : Z) : ST X (option (bvstk_status_t * option Z)) :=
  transfer fuel c phy reg value false timeout.

Definition bvstk_mdio_core_write (fuel : nat) (c : option bvstk_mdio_core_t) (phy reg value timeout : Z)
    : ST X (option bvstk_status_t) :=
  let? r := transfer fuel c phy reg (Some value) true timeout in st_ret (Some (fst r)).

(** ** The slave mailboxes *)

Definition mdio_ready (c : option bvstk_mdio_core_t) : option bvstk_mdio_core_t :=
  match c with
  | Some c' => if mc_initialized c' =? 0 then None else Some c'
  | None => None
  end.

Definition bvstk_mdio_core_ack_slave (c : option bvstk_mdio_core_t) : ST X bvstk_status_t :=
  match mdio_ready c with
  | None => st_ret BVSTK_ERR_NOT_READY
  | Some c =>
      let! unused := read32 (mc_slave c) BVSTK_MDIO_SLV_MEM_ADDR_OFFSET in
      if negb (is_ok (fst unused)) then st_ret BVSTK_ERR_IO
      else write32 (mc_slave c) BVSTK_MDIO_SLV_IRQ_OFFSET 1
  end.

(** [for (i = 0; i < 4096; i += 4)], [n] words from offset [i]. *)
Fixpoint prepare_loop (n : nat) (c : bvstk_mdio_core_t) (i : Z) : ST X bvstk_status_t :=
  match n with
  | O => st_ret BVSTK_OK
  | S n =>
      let! st := write32 (mc_bram c) (BVSTK_MDIO_SLAVE_WR_OFFSET + i) BVSTK_MDIO_MAILBOX_EMPTY in
      if negb (is_ok st) then st_ret BVSTK_ERR_IO
      else
        let! st := write32 (mc_bram c) (BVSTK_MDIO_SLAVE_RD_OFFSET + i) 0xFFFF in
        if negb (is_ok st) then st_ret BVSTK_ERR_IO
        else prepare_loop n c (i + 4)
  end.

Definition bvstk_mdio_core_prepare_slave (c : option bvstk_mdio_core_t) : ST X bvstk_status_t :=
  match mdio_ready c with
  | None => st_ret BVSTK_ERR_NOT_READY
  | Some core =>
      let! st := prepare_loop 1024 core 0 in
      if negb (is_ok st) then st_ret st else bvstk_mdio_core_ack_slave c
  end.

(** [value] is false for a NULL pointer; the second result is [*value], if stored. *)
Definition bvstk_mdio_core_take_write (c : option bvstk_mdio_core_t) (phy reg : Z) (value : bool)
    : ST X (bvstk_status_t * option Z) :=
  match mdio_ready c with
  | None => st_ret (BVSTK_ERR_NOT_READY, None)
  | Some c =>
      if negb value || (31 <? phy) || (31 <? reg) then st_ret (BVSTK_ERR_RANGE, None)
      else
        let off := BVSTK_MDIO_SLAVE_WR_OFFSET + index_of phy reg in
        let! word := read32 (mc_bram c) off in
        if negb (is_ok (fst word)) then st_ret (BVSTK_ERR_IO, None)
        else if truth (Z.land (snd word) 0xFFFF0000) then st_ret (BVSTK_ERR_NOT_FOUND, None)
        else
          let! st := write32 (mc_bram c) off BVSTK_MDIO_MAILBOX_EMPTY in
          if negb (is_ok st) then st_ret (BVSTK_ERR_IO, None)
          else st_ret (BVSTK_OK, Some (u16 (snd word)))
  end.

Definition bvstk_mdio_core_publish (c : option bvstk_mdio_core_t) (phy reg value : Z)
    : ST X bvstk_status_t :=
  match mdio_ready c with
  | None => st_ret BVSTK_ERR_NOT_READY
  | Some c =>
      if (31 <? phy) || (31 <? reg) then st_ret BVSTK_ERR_RANGE
      else write32 (mc_bram c) (BVSTK_MDIO_SLAVE_RD_OFFSET + index_of phy reg) value
  end.
End core.

Arguments bvstk_mdio_core_t : clear implicits.

(** ** The transaction protocol *)

Definition mdio_csr : Z := BVSTK_MDIO_MASTER_BASE + BVSTK_MDIO_MSTR_CSR_OFFSET.
Definition mdio_irq : Z := BVSTK_MDIO_MASTER_BASE + BVSTK_MDIO_MSTR_IRQ_OFFSET.
Definition mdio_fifo : Z := BVSTK_MDIO_MASTER_BASE + BVSTK_MDIO_MSTR_TX_FIFO_OFFSET.
Definition mdio_mem_addr : Z := BVSTK_MDIO_MASTER_BASE + BVSTK_MDIO_MSTR_MEM_ADDR_OFFSET.

(** Acknowledging the block: the read arms it, the write clears the latch. *)
Definition ack_io (a : Z) : list io := [Rd mdio_mem_addr a; Wr mdio_irq 1].
Definition reset_io (a : Z) : list io := Wr mdio_csr 1 :: ack_io a.

(** The status register accepts a command; a frame has ended. *)
Definition accepts (csr : Z) : bool :=
  negb (truth (Z.land csr (Z.lor BUSY TX_FULL))) && truth (Z.land csr TX_EMPTY).
Definition ended (write : bool) (csr : Z) : bool :=
  if write then negb (truth (Z.land csr BUSY)) && truth (Z.land csr TX_EMPTY)
  else truth (Z.land csr DATA_VALID).

Inductive idle_wait : list io -> bvstk_status_t -> Prop :=
  | idle_now csr : accepts csr = true -> idle_wait [Rd mdio_csr csr] BVSTK_OK
  | idle_late csr : accepts csr = false -> idle_wait [Rd mdio_csr csr] BVSTK_ERR_TIMEOUT
  | idle_poll csr l st : accepts csr = false -> idle_wait l st -> idle_wait (Rd mdio_csr csr :: l) st.

(** The result is accepted only from the expected mailbox, and only if the
    block has overwritten it since it was emptied. *)
Definition result_of (off addr word old : Z) : bvstk_status_t * Z :=
  if (addr =? BVSTK_MDIO_BRAM_BASE + off) && (word <=? 0xFFFF) then (BVSTK_OK, word)
  else (BVSTK_ERR_IO, old).

Inductive frame_wait (off old : Z) : bool -> list io -> bvstk_status_t * Z -> Prop :=
  | frame_sent csr : ended true csr = true ->
      frame_wait off old true [Rd mdio_csr csr] (BVSTK_OK, old)
  | frame_read csr addr word a : ended false csr = true ->
      frame_wait off old false
        (Rd mdio_csr csr :: Rd mdio_mem_addr addr :: Rd (BVSTK_MDIO_BRAM_BASE + off) word :: ack_io a)
        (result_of off addr word old)
  | frame_late write csr : ended write csr = false ->
      frame_wait off old write [Rd mdio_csr csr] (BVSTK_ERR_TIMEOUT, old)
  | frame_poll write csr l r : ended write csr = false -> frame_wait off old write l r ->
      frame_wait off old write (Rd mdio_csr csr :: l) r.

(** A whole transaction: at most one command is ever issued, and every failure
    resets the block. *)
Inductive mdio_trace (phy reg value : Z) (write : bool) : list io -> bvstk_status_t * Z -> Prop :=
  | mdio_never_idle a1 l a2 : idle_wait l BVSTK_ERR_TIMEOUT ->
      mdio_trace phy reg value write (ack_io a1 ++ l ++ reset_io a2) (BVSTK_ERR_TIMEOUT, value)
  | mdio_dispatched a1 l1 l2 l3 r : idle_wait l1 BVSTK_OK ->
      frame_wait (index_of phy reg) value write l2 r ->
      (if is_ok (fst r) then l3 = [] else exists a2, l3 = reset_io a2) ->
      mdio_trace phy reg value write
        (ack_io a1 ++ l1 ++
         (if write then [] else [Wr (BVSTK_MDIO_BRAM_BASE + index_of phy reg) BVSTK_MDIO_MAILBOX_EMPTY]) ++
         [Wr mdio_fifo (command_word phy reg value write)] ++ l2 ++ l3) r.

Lemma index_of_value phy reg : 0 <= phy < 32 -> 0 <= reg < 32 -> index_of phy reg = 128 * phy + 4 * reg.
Proof.
  intros Hp Hr. unfold index_of. rewrite lor_shiftl_add by (done || lia).
  change (2 ^ 5) with 32. lia.
Qed.

(** The Clause 22 frame as a number: opcode, PHY, register, data. *)
Lemma command_word_value phy reg value write :
  0 <= phy < 32 -> 0 <= reg < 32 -> fits 16 value ->
  command_word phy reg value write =
    2 ^ 26 * Z.b2z write + 2 ^ 21 * phy + 2 ^ 16 * reg + (if write then value else 0).
Proof.
  intros Hp Hr Hv. unfold command_word, fits in *. set (v := if write then value else 0).
  assert (0 <= v < 2 ^ 16) as Hv' by (subst v; destruct write; lia).
  rewrite <- !Z.lor_assoc. rewrite (lor_shiftl_add reg) by lia.
  rewrite (lor_shiftl_add phy) by lia. rewrite lor_shiftl_add by lia. lia.
Qed.

Lemma index_of_bounds phy reg : 0 <= phy < 32 -> 0 <= reg < 32 ->
  0 <= index_of phy reg <= 0xFFC /\ index_of phy reg mod 4 = 0.
Proof. intros Hp Hr. rewrite index_of_value by done. Z.to_euclidean_division_equations. lia. Qed.

Section protocol.
Context {X : Type} `{PL : Platform X} (c : bvstk_mdio_core_t X).
Context (log : X -> list io) (time : X -> Z) `{HT : !Traced (Some (mc_clock c)) log time}.

(** The driver as [init] leaves it. *)
Definition mdio_core_open : Prop :=
  mc_initialized c <> 0 /\
  mc_master c = Region BVSTK_MDIO_MASTER_BASE BVSTK_MDIO_MASTER_SIZE BVSTK_MDIO_MASTER_BASE /\
  mc_slave c = Region BVSTK_MDIO_SLAVE_BASE BVSTK_MDIO_SLAVE_SIZE BVSTK_MDIO_SLAVE_BASE /\
  mc_bram c = Region BVSTK_MDIO_BRAM_BASE BVSTK_MDIO_BRAM_SIZE BVSTK_MDIO_BRAM_BASE.

Context (Hopen : mdio_core_open).
Local Abbreviation afterc := (after log time).

Lemma mdio_master_opened : opened (mc_master c) BVSTK_MDIO_MASTER_BASE BVSTK_MDIO_MASTER_SIZE.
Proof. by destruct Hopen as (_ & -> & _). Qed.
Lemma mdio_bram_opened : opened (mc_bram c) BVSTK_MDIO_BRAM_BASE BVSTK_MDIO_BRAM_SIZE.
Proof. by destruct Hopen as (_ & _ & _ & ->). Qed.

Lemma mdio_write offset v x :
  0 <= offset -> offset + 4 <= BVSTK_MDIO_MASTER_SIZE -> offset mod 4 = 0 ->
  runs (write32 (mc_master c) offset v) x (fun st x' =>
    st = BVSTK_OK /\ afterc x x' [Wr (BVSTK_MDIO_MASTER_BASE + offset) v] /\ time x' < time x + 2 ^ 32).
Proof. intros. eapply write32_traced; try done. apply mdio_master_opened. Qed.

Lemma mdio_read offset x :
  0 <= offset -> offset + 4 <= BVSTK_MDIO_MASTER_SIZE -> offset mod 4 = 0 ->
  runs (read32 (mc_master c) offset) x (fun r x' => exists v,
    r = (BVSTK_OK, v) /\ afterc x x' [Rd (BVSTK_MDIO_MASTER_BASE + offset) v] /\
    time x' < time x + 2 ^ 32).
Proof. intros. eapply read32_traced; try done. apply mdio_master_opened. Qed.

Lemma after_seq x1 x2 x3 l1 l2 : afterc x1 x2 l1 -> afterc x2 x3 l2 -> afterc x1 x3 (l1 ++ l2).
Proof. apply after_trans. Qed.

Lemma ack_trace x :
  runs (ack c) x (fun st x' => exists m, st = BVSTK_OK /\ afterc x x' (ack_io m) /\
    time x' < time x + 2 ^ 33).
Proof.
  unfold ack. apply runs_bind. eapply runs_mono; [by apply mdio_read|].
  intros ? x1 (m & -> & H1 & H1'). cbn [fst is_ok negb].
  eapply runs_mono; [by apply mdio_write|]. intros ? x2 (-> & H2 & H2').
  exists m. split; [done|]. split; [exact (after_seq _ _ _ _ _ H1 H2)|lia].
Qed.

Lemma reset_trace x :
  runs (reset c) x (fun st x' => exists m, st = BVSTK_OK /\ afterc x x' (reset_io m)).
Proof.
  unfold reset. apply runs_bind. eapply runs_mono; [by apply mdio_write|].
  intros ? x1 (-> & H1 & _). apply runs_bind. eapply runs_mono; [by apply (sleep_traced _ log time)|].
  intros ? x2 [H2 _]. cbn [is_ok]. eapply runs_mono; [apply ack_trace|].
  intros ? x3 (m & -> & H3 & _). exists m. split; [done|].
  exact (after_seq _ _ _ _ _ (after_seq _ _ _ _ _ H1 H2) H3).
Qed.

Lemma idle_loop_trace fuel t0 timeout x :
  0 <= timeout < 2 ^ 32 -> polling time t0 timeout fuel x -> time x - t0 < 2 ^ 34 ->
  runs (idle_loop fuel c (u64 t0) timeout) x (fun r x' => exists st l,
    r = Some st /\ afterc x x' l /\ idle_wait l st /\ time x' - t0 < 2 ^ 35).
Proof.
  intros Hto. revert x. induction fuel as [|fuel IH]; intros x (Hp & Hf & Hf') Hb; [lia|].
  cbn [idle_loop]. apply runs_bind. eapply runs_mono; [by apply mdio_read|].
  intros ? x1 (v & -> & H1 & H1'). cbn [fst snd is_ok negb]. fold (accepts v).
  destruct (accepts v) eqn:E.
  { apply runs_ret. exists BVSTK_OK, [Rd mdio_csr v]. split; [done|]. split; [done|]. split; [by constructor|lia]. }
  pose proof H1 as [Hl Ht].
  apply (poll_again _ log time _ fuel t0 timeout); [lia|done|lia|..].
  - intros x2 H2 H2'. exists BVSTK_ERR_TIMEOUT, [Rd mdio_csr v].
    split; [done|]. split; [by apply (after_seq _ _ _ [_] [] H1 H2)|].
    split; [by apply idle_late|lia].
  - intros x2 H2 Hp2 Hb2. eapply runs_mono; [by apply IH|]. intros ? x3 (st & l & -> & H3 & Hw & Hb3).
    exists st, (Rd mdio_csr v :: l). split; [done|].
    split; [by apply (after_seq _ _ _ [_] _ H1 (after_seq _ _ _ [] _ H2 H3))|].
    split; [by apply idle_poll|done].
Qed.

Lemma result_step off addr word old :
  0 <= word ->
  let st := if negb (addr =? BVSTK_MDIO_BRAM_BASE + off) || (0xFFFF <? word)
            then BVSTK_ERR_IO else BVSTK_OK in
  (st, if is_ok st then u16 word else old) = result_of off addr word old.
Proof.
  intros Hw. unfold result_of. destruct (addr =? _); cbn; [|done].
  destruct (0xFFFF <? word) eqn:E; bsimp.
  - by rewrite (proj2 (Z.leb_gt _ _)) by lia.
  - rewrite (proj2 (Z.leb_le _ _)) by lia. by rewrite u16_id by lia.
Qed.

(** Register and memory words are unsigned. *)
Definition reads_words : Prop := forall a x, 0 <= fst (Xil_In32 a x) < 2 ^ 32.

Lemma bram_read offset x :
  reads_words -> 0 <= offset <= 0xFFC -> offset mod 4 = 0 ->
  runs (read32 (mc_bram c) offset) x (fun r x' => exists v, 0 <= v < 2 ^ 32 /\
    r = (BVSTK_OK, v) /\ afterc x x' [Rd (BVSTK_MDIO_BRAM_BASE + offset) v]).
Proof.
  intros Hrw Ho Hal. pose proof mdio_bram_opened as Hop. unfold runs.
  rewrite (read32_run _ BVSTK_MDIO_BRAM_BASE BVSTK_MDIO_BRAM_SIZE)
    by (done || (unfold BVSTK_MDIO_BRAM_SIZE; lia)).
  pose proof (log_in (BVSTK_MDIO_BRAM_BASE + offset) x) as Hl.
  pose proof (time_in (BVSTK_MDIO_BRAM_BASE + offset) x) as Ht.
  specialize (Hrw (BVSTK_MDIO_BRAM_BASE + offset) x).
  destruct (Xil_In32 _ _) as [v x1]. cbn in *. exists v. split; [done|]. split; [done|]. split; [done|lia].
Qed.

Lemma fetch_result_trace off value x :
  reads_words -> 0 <= off <= 0xFFC -> off mod 4 = 0 ->
  runs (fetch_result c off value) x (fun r x' => exists addr word m,
    r = result_of off addr word value /\
    afterc x x' (Rd mdio_mem_addr addr :: Rd (BVSTK_MDIO_BRAM_BASE + off) word :: ack_io m)).
Proof.
  intros Hrw Ho Hal. unfold fetch_result. apply runs_bind. eapply runs_mono; [by apply mdio_read|].
  intros ? x1 (addr & -> & H1 & _). cbn [fst snd is_ok].
  apply runs_bind. eapply runs_mono; [by apply bram_read|].
  intros ? x2 (word & Hw & -> & H2). cbn [fst snd is_ok].
  apply runs_bind. eapply runs_mono; [apply ack_trace|].
  intros ? x3 (m & -> & H3 & _). exists addr, word, m. split.
  - rewrite <- result_step by lia. done.
  - exact (after_seq _ _ _ _ _ H1 (after_seq _ _ _ _ _ H2 H3)).
Qed.

Lemma finish_loop_trace fuel write off t0 timeout value x :
  reads_words -> 0 <= off <= 0xFFC -> off mod 4 = 0 ->
  0 <= timeout < 2 ^ 32 -> polling time t0 timeout fuel x ->
  runs (finish_loop fuel c write off (u64 t0) timeout value) x (fun o x' => exists r l,
    o = Some r /\ afterc x x' l /\ frame_wait off value write l r).
Proof.
  intros Hrw Ho Hal Hto. revert x. induction fuel as [|fuel IH]; intros x (Hp & Hf & Hf'); [lia|].
  cbn [finish_loop]. apply runs_bind. eapply runs_mono; [by apply mdio_read|].
  intros ? x1 (v & -> & H1 & H1'). cbn [fst snd is_ok negb]. pose proof H1 as [Hl Ht].
  destruct (ended write v) eqn:E.
  { destruct write; cbn [andb negb] in *.
    - unfold ended in E. rewrite E. eexists _, [Rd mdio_csr v]. split; [done|]. split; [done|].
      by constructor.
    - unfold ended in E. rewrite E. apply runs_bind. eapply runs_mono; [by apply fetch_result_trace|].
      intros ? x2 (addr & word & m & -> & H2). eexists _, _. split; [done|].
      split; [exact (after_seq _ _ _ _ _ H1 H2)|]. by apply frame_read. }
  match goal with |- runs (if ?b then _ else if ?b' then _ else _) _ _ =>
    replace b with false by (destruct write; cbn in *; congruence);
    replace b' with false by (destruct write; cbn in *; congruence) end.
  apply (poll_again _ log time _ fuel t0 timeout); [lia|done|lia|..].
  - intros x2 H2 _. eexists _, [Rd mdio_csr v]. split; [done|].
    split; [by apply (after_seq _ _ _ [_] [] H1 H2)|by apply frame_late].
  - intros x2 H2 Hp2 _. eapply runs_mono; [by apply IH|]. intros ? x3 (r & l & -> & H3 & Hw).
    exists r, (Rd mdio_csr v :: l). split; [done|].
    split; [by apply (after_seq _ _ _ [_] _ H1 (after_seq _ _ _ [] _ H2 H3))|by apply frame_poll].
Qed.

(** The transaction up to [done:]; what remains is the reset of a failed one. *)
Lemma exchange_trace fuel phy reg value write timeout x :
  reads_words -> 0 <= phy < 32 -> 0 <= reg < 32 -> 0 <= timeout < 2 ^ 32 ->
  timeout < Z.of_nat fuel ->
  runs (exchange fuel c phy reg value write timeout) x (fun o x' => exists r l,
    o = Some r /\ afterc x x' l /\
    forall l3, (if is_ok (fst r) then l3 = [] else exists m, l3 = reset_io m) ->
      mdio_trace phy reg value write (l ++ l3) r).
Proof.
  intros Hrw Hphy Hreg Hto Hf. destruct (index_of_bounds phy reg Hphy Hreg) as [Ho Hal].
  unfold exchange. apply runs_bind. eapply runs_mono; [apply (now_traced _ log time)|].
  intros ? x1 (-> & H1 & H1'). apply runs_bind. eapply runs_mono; [apply ack_trace|].
  intros ? x2 (m & -> & H2 & H2'). cbn [is_ok negb].
  pose proof (after_seq _ _ _ _ _ H1 H2) as H12.
  apply runs_bind. eapply runs_mono.
  { apply idle_loop_trace; [done| |lia]. destruct H1, H2. split; [|split]; lia. }
  intros ? x3 (st & l1 & -> & H3 & Hw1 & Hb3). pose proof (after_seq _ _ _ _ _ H12 H3) as H13.
  assert (st = BVSTK_OK \/ st = BVSTK_ERR_TIMEOUT) as [->| ->]
    by (clear -Hw1; induction Hw1; auto); cbn [is_ok negb].
  2:{ eexists _, _. split; [done|]. split; [exact H13|]. intros l3 [m3 ->]. cbn [app].
      rewrite <- app_assoc. by apply (mdio_never_idle _ _ _ _ m). }
  apply runs_bind. eapply (runs_mono _ _ (fun st x4 => st = BVSTK_OK /\ afterc x3 x4
    (if write then [] else [Wr (BVSTK_MDIO_BRAM_BASE + index_of phy reg) BVSTK_MDIO_MAILBOX_EMPTY]) /\
    time x4 < time x3 + 2 ^ 32)).
  { destruct write.
    - apply runs_ret. split; [done|]. split; [apply after_refl|lia].
    - eapply write32_traced; [done|apply mdio_bram_opened|lia|unfold BVSTK_MDIO_BRAM_SIZE; lia|done]. }
  intros ? x4 (-> & H4 & H4'). cbn [is_ok negb].
  apply runs_bind. eapply runs_mono; [by apply mdio_write|]. intros ? x5 (-> & H5 & H5').
  cbn [is_ok negb]. apply runs_bind. eapply runs_mono; [by apply (sleep_traced _ log time)|].
  intros ? x6 [H6 H6'].
  pose proof (after_seq _ _ _ _ _ H13 (after_seq _ _ _ _ _ H4 (after_seq _ _ _ _ _ H5 H6))) as H16.
  eapply runs_mono.
  { apply finish_loop_trace; [done|done|done|done|].
    destruct H1, H2, H3, H4, H5. split; [|split]; lia. }
  intros ? x7 (r & l2 & -> & H7 & Hw2). exists r. eexists. split; [done|].
  split; [exact (after_seq _ _ _ _ _ H16 H7)|]. intros l3 Hl3.
  rewrite <- !app_assoc, app_nil_l. by apply (mdio_dispatched _ _ _ _ m l1 l2 l3).
Qed.

Definition mdio_quiet_mutex : Prop :=
  (forall t x, log (snd (bvstk_mutex_lock (Some (mc_mutex c)) t x)) = log x) /\
  (forall x, log (bvstk_mutex_unlock (Some (mc_mutex c)) x) = log x).

Definition mdio_timeout (timeout : Z) : Z := if timeout =? 0 then 100 else timeout.

Lemma mdio_transfer_trace fuel phy reg value write timeout x :
  mdio_quiet_mutex -> reads_words -> 0 <= phy -> 0 <= reg -> 0 <= timeout < 2 ^ 32 ->
  mdio_timeout timeout < Z.of_nat fuel ->
  runs (transfer fuel (Some c) phy reg (Some value) write timeout) x (fun o x' =>
    exists st v l, o = Some (st, Some v) /\ log x' = log x ++ l /\
      if decide (phy <= 31 /\ reg <= 31) then
        match fst (bvstk_mutex_lock (Some (mc_mutex c)) (mdio_timeout timeout) x) with
        | BVSTK_OK => mdio_trace phy reg value write l (st, v)
        | refused => st = refused /\ v = value /\ l = []
        end
      else st = BVSTK_ERR_RANGE /\ v = value /\ l = []).
Proof.
  intros [Hlk Hul] Hrw Hp Hr Hto Hf. unfold transfer. destruct Hopen as (Hi & _).
  rewrite (proj2 (Z.eqb_neq _ _) Hi).
  destruct ((31 <? phy) || (31 <? reg)) eqn:E.
  { apply runs_ret. eexists _, _, []. split; [done|]. split; [by rewrite app_nil_r|].
    destruct (decide _); [|done]. apply orb_true_iff in E as [E|E]; bsimp; apply Z.ltb_lt in E; lia. }
  bsimp. destruct (decide (phy <= 31 /\ reg <= 31)); [|lia]. fold (mdio_timeout timeout).
  apply runs_bind. unfold runs at 1. specialize (Hlk (mdio_timeout timeout) x).
  destruct (bvstk_mutex_lock _ _ x) as [lock x1]. cbn [fst snd] in *.
  destruct lock; cbn [is_ok negb];
    try (apply runs_ret; eexists _, _, []; split; [done|]; split; [by rewrite app_nil_r|done]).
  apply runs_bind. eapply runs_mono.
  { apply exchange_trace; [done|lia|lia| |done]. unfold mdio_timeout. destruct (timeout =? 0); lia. }
  intros ? x2 (r & l & -> & H2 & Ht). apply runs_bind.
  eapply (runs_mono _ _ (fun _ x3 => exists l3, afterc x2 x3 l3 /\
    if is_ok (fst r) then l3 = [] else exists m, l3 = reset_io m)).
  { destruct (is_ok (fst r)).
    - apply runs_ret. exists []. split; [apply after_refl|done].
    - eapply runs_mono; [apply reset_trace|]. intros ? x3 (m & -> & H3). eauto. }
  intros ? x3 (l3 & H3 & Hl3). destruct r as [st v]. exists st, v, (l ++ l3). split; [done|].
  split; [|by apply Ht]. unfold st_bind, st_ret. cbn [fst snd].
  rewrite Hul, (proj1 H3), (proj1 H2), Hlk. by rewrite app_assoc.
Qed.

(** C29: The transaction protocol.  With as many rounds as milliseconds of
    timeout a transaction always returns; its register accesses, in order, are
    those of the grammar: acknowledge, wait for an accepting block, empty the
    result mailbox (reads), issue one command, wait for the end of the frame,
    take the result only from the expected mailbox and only if it was written
    since, and reset the block after every failure.  Bad addresses and a refused
    lock touch no register. *)
Theorem mdio_core_protocol fuel phy reg value write timeout x :
  mdio_quiet_mutex -> reads_words -> 0 <= phy -> 0 <= reg -> 0 <= timeout < 2 ^ 32 ->
  mdio_timeout timeout < Z.of_nat fuel ->
  runs (transfer fuel (Some c) phy reg (Some value) write timeout) x (fun o x' =>
    exists st v l, o = Some (st, Some v) /\ log x' = log x ++ l /\
      if decide (phy <= 31 /\ reg <= 31) then
        match fst (bvstk_mutex_lock (Some (mc_mutex c)) (mdio_timeout timeout) x) with
        | BVSTK_OK => mdio_trace phy reg value write l (st, v)
        | refused => st = refused /\ v = value /\ l = []
        end
      else st = BVSTK_ERR_RANGE /\ v = value /\ l = []).
Proof. apply mdio_transfer_trace. Qed.

(** ** Commands on the wire *)

Definition issued (l : list io) : list Z :=
  omap (fun e => match e with Wr a v => if a =? mdio_fifo then Some v else None | Rd _ _ => None end) l.

Lemma issued_app l1 l2 : issued (l1 ++ l2) = issued l1 ++ issued l2.
Proof. apply omap_app. Qed.

Lemma idle_wait_issued l st : idle_wait l st -> issued l = [].
Proof. induction 1; done. Qed.

Lemma frame_wait_issued off old write l r : frame_wait off old write l r -> issued l = [].
Proof. induction 1; done. Qed.

Lemma mdio_trace_issued phy reg value write l r :
  0 <= phy < 32 -> 0 <= reg < 32 -> mdio_trace phy reg value write l r ->
  issued l = [command_word phy reg value write] \/ issued l = [] /\ fst r = BVSTK_ERR_TIMEOUT.
Proof.
  intros Hp Hr Ht. destruct Ht as [a1 l a2 Hw|a1 l1 l2 l3 r Hw1 Hw2 Hl3].
  - right. rewrite !issued_app, (idle_wait_issued _ _ Hw). done.
  - left. rewrite !issued_app, (idle_wait_issued _ _ Hw1), (frame_wait_issued _ _ _ _ _ Hw2).
    replace (issued l3) with (@nil Z).
    2:{ destruct (is_ok (fst r)); [by subst l3|]. by destruct Hl3 as [m ->]. }
    destruct write; [done|]. destruct (index_of_bounds phy reg Hp Hr).
    cbn [issued]. unfold issued. cbn [omap list_omap app].
    rewrite (proj2 (Z.eqb_neq _ mdio_fifo)); [done|].
    unfold BVSTK_MDIO_BRAM_BASE, mdio_fifo, BVSTK_MDIO_MASTER_BASE, BVSTK_MDIO_MSTR_TX_FIFO_OFFSET. lia.
Qed.

(** A possibly destructive write is never repeated: a write transaction
    puts at most one frame on the wire, the one that encodes the write opcode,
    the PHY, the register and the value; it puts exactly one when it succeeds,
    and none only if the block never became idle. *)
Theorem mdio_core_single_write fuel phy reg value timeout x :
  mdio_quiet_mutex -> reads_words -> 0 <= phy < 32 -> 0 <= reg < 32 -> fits 16 value ->
  0 <= timeout < 2 ^ 32 -> mdio_timeout timeout < Z.of_nat fuel ->
  fst (bvstk_mutex_lock (Some (mc_mutex c)) (mdio_timeout timeout) x) = BVSTK_OK ->
  runs (bvstk_mdio_core_write fuel (Some c) phy reg value timeout) x (fun o x' =>
    exists st l, o = Some st /\ log x' = log x ++ l /\
      (issued l = [2 ^ 26 + 2 ^ 21 * phy + 2 ^ 16 * reg + value] \/
       issued l = [] /\ st = BVSTK_ERR_TIMEOUT)).
Proof.
  intros Hq Hrw Hp Hr Hv Hto Hf Hlk. unfold bvstk_mdio_core_write. apply runs_bind.
  eapply runs_mono; [apply mdio_transfer_trace; done || lia|].
  intros ? x1 (st & v & l & -> & H1 & Ho). rewrite Hlk in Ho.
  destruct (decide (phy <= 31 /\ reg <= 31)); [|lia].
  exists st, l. split; [done|]. split; [done|].
  destruct (mdio_trace_issued _ _ _ _ _ _ Hp Hr Ho) as [Hi|Hi]; [left|by right].
  rewrite Hi, command_word_value by done. done.
Qed.
End protocol.

(** ** The slave mailboxes as two register maps *)

(** The host's pending write to a register, and the answer to its reads. *)
Definition pending (m : Z -> Z) (phy reg : Z) : option Z :=
  let w := m (BVSTK_MDIO_BRAM_BASE + (BVSTK_MDIO_SLAVE_WR_OFFSET + index_of phy reg)) in
  if truth (Z.land w 0xFFFF0000) then None else Some (u16 w).
Definition answer (m : Z -> Z) (phy reg : Z) : Z :=
  m (BVSTK_MDIO_BRAM_BASE + (BVSTK_MDIO_SLAVE_RD_OFFSET + index_of phy reg)).

Definition mdio_reg (phy reg : Z) : Prop := 0 <= phy < 32 /\ 0 <= reg < 32.

Lemma index_of_inj p r p' r' :
  mdio_reg p r -> mdio_reg p' r' -> index_of p r = index_of p' r' -> p = p' /\ r = r'.
Proof. intros [Hp Hr] [Hp' Hr'] H. rewrite !index_of_value in H by done. lia. Qed.

(** The register whose mailbox is at [i] of a window. *)
Lemma index_of_surj i : 0 <= i < 4096 -> i mod 4 = 0 ->
  exists p r, mdio_reg p r /\ index_of p r = i.
Proof.
  intros Hi Hal. exists (i / 128), (i mod 128 / 4).
  assert (mdio_reg (i / 128) (i mod 128 / 4)) as Hr
    by (unfold mdio_reg; Z.to_euclidean_division_equations; lia).
  split; [done|]. destruct Hr. rewrite index_of_value by done.
  Z.to_euclidean_division_equations. lia.
Qed.

Section mailboxes.
Context {X : Type} `{PL : Platform X} (mem : X -> Z -> Z) (c : bvstk_mdio_core_t X).
Context `{HM : !Memory mem BVSTK_MDIO_BRAM_BASE BVSTK_MDIO_BRAM_SIZE}.
Context (Hopen : mdio_core_open c).

Lemma mdio_open_ready : mdio_ready (Some c) = Some c.
Proof. destruct Hopen as (Hi & _). cbn. by rewrite (proj2 (Z.eqb_neq _ _) Hi). Qed.

Lemma bram_write offset v x :
  0 <= offset -> offset + 4 <= BVSTK_MDIO_BRAM_SIZE -> offset mod 4 = 0 ->
  runs (write32 (mc_bram c) offset v) x (fun st x' => st = BVSTK_OK /\
    forall a, BVSTK_MDIO_BRAM_BASE <= a < BVSTK_MDIO_BRAM_BASE + BVSTK_MDIO_BRAM_SIZE ->
      mem x' a = if decide (a = BVSTK_MDIO_BRAM_BASE + offset) then v else mem x a).
Proof. intros. eapply write32_mem; try done. by apply mdio_bram_opened. Qed.

(** The words below [i] of both windows are prepared. *)
Definition prepared (i : Z) (m : Z -> Z) : Prop :=
  forall j, 0 <= j < i -> j mod 4 = 0 ->
    m (BVSTK_MDIO_BRAM_BASE + (BVSTK_MDIO_SLAVE_WR_OFFSET + j)) = BVSTK_MDIO_MAILBOX_EMPTY /\
    m (BVSTK_MDIO_BRAM_BASE + (BVSTK_MDIO_SLAVE_RD_OFFSET + j)) = 0xFFFF.

Lemma prepare_loop_spec n i x :
  0 <= i -> i mod 4 = 0 -> i + 4 * Z.of_nat n <= 4096 -> prepared i (mem x) ->
  runs (prepare_loop n c i) x (fun st x' => st = BVSTK_OK /\ prepared (i + 4 * Z.of_nat n) (mem x')).
Proof.
  revert i x. induction n as [|n IH]; intros i x Hi Hal Hn Hp.
  { rewrite Z.add_0_r. done. }
  cbn [prepare_loop]. apply runs_bind. eapply runs_mono.
  { apply bram_write; [unfold BVSTK_MDIO_SLAVE_WR_OFFSET; lia| |by apply word_offset_aligned].
    unfold BVSTK_MDIO_SLAVE_WR_OFFSET, BVSTK_MDIO_BRAM_SIZE. lia. }
  intros ? x1 [-> H1]. cbn [is_ok negb]. apply runs_bind. eapply runs_mono.
  { apply bram_write; [unfold BVSTK_MDIO_SLAVE_RD_OFFSET; lia| |by apply word_offset_aligned].
    unfold BVSTK_MDIO_SLAVE_RD_OFFSET, BVSTK_MDIO_BRAM_SIZE. lia. }
  intros ? x2 [-> H2]. cbn [is_ok negb].
  replace (i + 4 * Z.of_nat (S n)) with (i + 4 + 4 * Z.of_nat n) by lia.
  apply IH; [lia|by apply word_offset_aligned|lia|]. intros j Hj Hja.
  unfold BVSTK_MDIO_SLAVE_WR_OFFSET, BVSTK_MDIO_SLAVE_RD_OFFSET, BVSTK_MDIO_BRAM_BASE,
    BVSTK_MDIO_BRAM_SIZE in *.
  rewrite !H2, !H1 by lia. repeat case_decide; try lia; try done.
  all: apply Hp; [Z.to_euclidean_division_equations; lia|done].
Qed.

(** Register accesses outside block RAM leave it alone: nothing else writes the
    mailboxes meanwhile. *)
Definition isolated : Prop :=
  forall a b x, ~ (BVSTK_MDIO_BRAM_BASE <= a < BVSTK_MDIO_BRAM_BASE + BVSTK_MDIO_BRAM_SIZE) ->
    BVSTK_MDIO_BRAM_BASE <= b < BVSTK_MDIO_BRAM_BASE + BVSTK_MDIO_BRAM_SIZE ->
    mem (snd (Xil_In32 a x)) b = mem x b /\ forall v, mem (Xil_Out32 a v x) b = mem x b.

Lemma mailbox_in_bram base p r : mdio_reg p r -> base = 0x1000 \/ base = 0x2000 ->
  0 <= base + index_of p r /\ base + index_of p r + 4 <= BVSTK_MDIO_BRAM_SIZE /\
  (base + index_of p r) mod 4 = 0.
Proof.
  intros [Hp Hr] Hb. destruct (index_of_bounds p r Hp Hr) as [Ho Hal].
  unfold BVSTK_MDIO_BRAM_SIZE. split; [lia|]. split; [lia|].
  apply word_offset_aligned; [by destruct Hb as [->| ->]|done].
Qed.

Lemma prepare_slave_spec x :
  isolated ->
  runs (bvstk_mdio_core_prepare_slave (Some c)) x (fun st x' => st = BVSTK_OK /\
    forall p' r', mdio_reg p' r' -> pending (mem x') p' r' = None /\ answer (mem x') p' r' = 0xFFFF).
Proof.
  intros Hiso. unfold bvstk_mdio_core_prepare_slave. rewrite mdio_open_ready.
  apply runs_bind. eapply runs_mono.
  { apply (prepare_loop_spec 1024 0); [done|done|done|]. intros j Hj. lia. }
  intros ? x1 [-> H1]. cbn [is_ok negb].
  assert (opened (mc_slave c) BVSTK_MDIO_SLAVE_BASE BVSTK_MDIO_SLAVE_SIZE) as Hop
    by (by destruct Hopen as (_ & _ & -> & _)).
  unfold bvstk_mdio_core_ack_slave, runs. rewrite mdio_open_ready. unfold st_bind.
  rewrite (read32_run _ _ _ _ _ Hop) by done.
  assert (~ (BVSTK_MDIO_BRAM_BASE <= BVSTK_MDIO_SLAVE_BASE + BVSTK_MDIO_SLV_MEM_ADDR_OFFSET <
    BVSTK_MDIO_BRAM_BASE + BVSTK_MDIO_BRAM_SIZE)) as Ho1 by (by intros [_ ?]).
  assert (~ (BVSTK_MDIO_BRAM_BASE <= BVSTK_MDIO_SLAVE_BASE + BVSTK_MDIO_SLV_IRQ_OFFSET <
    BVSTK_MDIO_BRAM_BASE + BVSTK_MDIO_BRAM_SIZE)) as Ho2 by (by intros [_ ?]).
  pose proof (fun b Hb => proj1 (Hiso _ b x1 Ho1 Hb)) as Hk1.
  destruct (Xil_In32 _ _) as [w x2]. cbn [fst snd is_ok negb] in *.
  rewrite (write32_run _ _ _ _ _ _ Hop) by done. cbn [fst snd]. split; [done|].
  intros p' r' Hr'. destruct (index_of_bounds p' r') as [Hb Hal]; [apply Hr'..|].
  destruct (H1 (index_of p' r')) as [Hw Ha]; [lia|done|]. unfold pending, answer.
  unfold isolated, BVSTK_MDIO_SLAVE_WR_OFFSET, BVSTK_MDIO_SLAVE_RD_OFFSET, BVSTK_MDIO_BRAM_SIZE in *.
  rewrite !(fun b Hb => proj2 (Hiso _ b _ Ho2 Hb)), !Hk1, Hw, Ha by lia. done.
Qed.

Lemma take_write_spec p r x :
  mdio_reg p r ->
  runs (bvstk_mdio_core_take_write (Some c) p r true) x (fun o x' =>
    o = match pending (mem x) p r with
        | Some w => (BVSTK_OK, Some w)
        | None => (BVSTK_ERR_NOT_FOUND, None)
        end /\
    forall p' r', mdio_reg p' r' ->
      pending (mem x') p' r' = (if decide (p' = p /\ r' = r) then None else pending (mem x) p' r') /\
      answer (mem x') p' r' = answer (mem x) p' r').
Proof.
  intros Hr. destruct (mailbox_in_bram 0x1000 p r Hr) as (Ho & Hs & Hal); [by left|].
  unfold bvstk_mdio_core_take_write. rewrite mdio_open_ready.
  rewrite !(proj2 (Z.ltb_ge _ _)) by (destruct Hr; lia). cbn [negb orb].
  apply runs_bind. eapply runs_mono.
  { apply (read32_mem mem BVSTK_MDIO_BRAM_BASE BVSTK_MDIO_BRAM_SIZE); [by apply mdio_bram_opened|done..]. }
  intros ? x1 [-> H1]. cbn [fst snd is_ok negb].
  assert (forall p' r', mdio_reg p' r' ->
    pending (mem x1) p' r' = pending (mem x) p' r' /\ answer (mem x1) p' r' = answer (mem x) p' r') as Hk.
  { intros p' r' Hr'. destruct (mailbox_in_bram 0x1000 p' r' Hr') as (? & ? & _); [by left|].
    destruct (mailbox_in_bram 0x2000 p' r' Hr') as (? & ? & _); [by right|].
    unfold pending, answer. rewrite !H1; [done|..];
      unfold BVSTK_MDIO_SLAVE_WR_OFFSET, BVSTK_MDIO_SLAVE_RD_OFFSET in *; lia. }
  destruct (truth (Z.land _ _)) eqn:Et.
  { apply runs_ret. split.
    - unfold pending. by rewrite Et.
    - intros p' r' Hr'. destruct (Hk p' r' Hr') as [-> ->]. split; [|done].
      case_decide as Hd; [|done]. destruct Hd as [-> ->]. unfold pending. by rewrite Et. }
  apply runs_bind. eapply runs_mono; [by apply bram_write|]. intros ? x2 [-> H2].
  cbn [is_ok negb]. apply runs_ret. split; [unfold pending; by rewrite Et|].
  intros p' r' Hr'. destruct (Hk p' r' Hr') as [<- <-].
  destruct (mailbox_in_bram 0x1000 p' r' Hr') as (? & ? & _); [by left|].
  destruct (mailbox_in_bram 0x2000 p' r' Hr') as (? & ? & _); [by right|].
  destruct (index_of_bounds p r) as [Hb _]; [apply Hr..|].
  destruct (index_of_bounds p' r') as [Hb' _]; [apply Hr'..|].
  unfold pending, answer, BVSTK_MDIO_SLAVE_WR_OFFSET, BVSTK_MDIO_SLAVE_RD_OFFSET in *.
  rewrite !H2 by lia. split; [|by rewrite decide_False by lia].
  destruct (decide (p' = p /\ r' = r)) as [[-> ->]|Hne]; [by rewrite decide_True by done|].
  rewrite decide_False; [done|]. intros He. apply Hne, index_of_inj; [done|done|lia].
Qed.

Lemma publish_spec p r v x :
  mdio_reg p r ->
  runs (bvstk_mdio_core_publish (Some c) p r v) x (fun st x' => st = BVSTK_OK /\
    forall p' r', mdio_reg p' r' ->
      pending (mem x') p' r' = pending (mem x) p' r' /\
      answer (mem x') p' r' = if decide (p' = p /\ r' = r) then v else answer (mem x) p' r').
Proof.
  intros Hr. destruct (mailbox_in_bram 0x2000 p r Hr) as (Ho & Hs & Hal); [by right|].
  unfold bvstk_mdio_core_publish. rewrite mdio_open_ready.
  rewrite !(proj2 (Z.ltb_ge _ _)) by (destruct Hr; lia). cbn [orb].
  eapply runs_mono; [by apply bram_write|]. intros ? x2 [-> H2]. split; [done|]. intros p' r' Hr'.
  destruct (mailbox_in_bram 0x1000 p' r' Hr') as (? & ? & _); [by left|].
  destruct (mailbox_in_bram 0x2000 p' r' Hr') as (? & ? & _); [by right|].
  destruct (index_of_bounds p' r') as [Hb _]; [apply Hr'..|].
  destruct (index_of_bounds p r) as [Hb' _]; [apply Hr..|].
  unfold pending, answer, BVSTK_MDIO_SLAVE_WR_OFFSET, BVSTK_MDIO_SLAVE_RD_OFFSET in *.
  rewrite !H2 by lia. rewrite decide_False by lia. split; [done|].
  destruct (decide (p' = p /\ r' = r)) as [[-> ->]|Hne]; [by rewrite decide_True by done|].
  rewrite decide_False; [done|]. intros He. apply Hne, index_of_inj; [done|done|lia].
Qed.

(** The slave mailboxes behave as a map of pending host writes and a map of
    answers to host reads, over the 32 x 32 registers: preparing empties the
    first and sets the second to 0xFFFF everywhere; taking a write returns the
    register's pending value once and empties it, or NOT_FOUND, and touches
    nothing else; publishing replaces one answer and nothing else. *)
Theorem mdio_mailboxes p r v x :
  mdio_reg p r -> isolated ->
  runs (bvstk_mdio_core_prepare_slave (Some c)) x (fun st x' => st = BVSTK_OK /\
    forall p' r', mdio_reg p' r' -> pending (mem x') p' r' = None /\ answer (mem x') p' r' = 0xFFFF) /\
  runs (bvstk_mdio_core_take_write (Some c) p r true) x (fun o x' =>
    o = match pending (mem x) p r with
        | Some w => (BVSTK_OK, Some w)
        | None => (BVSTK_ERR_NOT_FOUND, None)
        end /\
    forall p' r', mdio_reg p' r' ->
      pending (mem x') p' r' = (if decide (p' = p /\ r' = r) then None else pending (mem x) p' r') /\
      answer (mem x') p' r' = answer (mem x) p' r') /\
  runs (bvstk_mdio_core_publish (Some c) p r v) x (fun st x' => st = BVSTK_OK /\
    forall p' r', mdio_reg p' r' ->
      pending (mem x') p' r' = pending (mem x) p' r' /\
      answer (mem x') p' r' = if decide (p' = p /\ r' = r) then v else answer (mem x) p' r').
Proof.
  intros Hr Hiso. split; [by apply prepare_slave_spec|].
  split; [by apply take_write_spec|by apply publish_spec].
Qed.
End mailboxes.

(** ** Concrete runs *)

Definition demo_mdio_core {X} : bvstk_mdio_core_t X :=
  MdioCore (Region BVSTK_MDIO_MASTER_BASE BVSTK_MDIO_MASTER_SIZE BVSTK_MDIO_MASTER_BASE)
    (Region BVSTK_MDIO_SLAVE_BASE BVSTK_MDIO_SLAVE_SIZE BVSTK_MDIO_SLAVE_BASE)
    (Region BVSTK_MDIO_BRAM_BASE BVSTK_MDIO_BRAM_SIZE BVSTK_MDIO_BRAM_BASE)
    (Clock None None) (Mutex None None) 1.

(** The block accepts at once; register 2 of PHY 1 reads 0x1234. *)
Definition demo_mdio_bus (a : Z) : Z :=
  if a =? mdio_csr then 5
  else if a =? mdio_mem_addr then BVSTK_MDIO_BRAM_BASE + index_of 1 2
  else if a =? BVSTK_MDIO_BRAM_BASE + index_of 1 2 then 0x1234 else 0.

Example demo_mdio_read :
  fst (@bvstk_mdio_core_read _ (scripted_platform demo_mdio_bus) 6 (Some demo_mdio_core) 1 2 (Some 0) 5
         ([], 0)) = Some (BVSTK_OK, Some 0x1234).
Proof. vm_compute. done. Qed.

Lemma demo_mdio_quiet : @mdio_quiet_mutex (list io * Z) demo_mdio_core fst.
Proof. done. Qed.

Lemma demo_mdio_words : @reads_words _ (scripted_platform demo_mdio_bus).
Proof. intros a x. cbn. unfold demo_mdio_bus. by repeat case_match. Qed.

Lemma mdio_core_protocol_witness :
  runs (@transfer _ (scripted_platform demo_mdio_bus) 6 (Some demo_mdio_core) 1 2 (Some 0) false 5) ([], 0)
    (fun o x' => exists st v l, o = Some (st, Some v) /\ fst x' = [] ++ l /\
       mdio_trace 1 2 0 false l (st, v)).
Proof.
  apply (@mdio_core_protocol _ (scripted_platform demo_mdio_bus) demo_mdio_core fst snd
    (scripted_traced demo_mdio_bus) ltac:(done) 6 1 2 0 false 5 ([], 0)).
  - apply demo_mdio_quiet.
  - apply demo_mdio_words.
  - done.
  - done.
  - done.
  - done.
Defined.

Lemma mdio_core_single_write_witness :
  runs (@bvstk_mdio_core_write _ (scripted_platform demo_mdio_bus) 6 (Some demo_mdio_core) 1 0 0x8000 5)
    ([], 0)
    (fun o x' => exists st l, o = Some st /\ fst x' = [] ++ l /\
       (issued l = [2 ^ 26 + 2 ^ 21 * 1 + 2 ^ 16 * 0 + 0x8000] \/
        issued l = [] /\ st = BVSTK_ERR_TIMEOUT)).
Proof.
  apply (@mdio_core_single_write _ (scripted_platform demo_mdio_bus) demo_mdio_core fst snd
    (scripted_traced demo_mdio_bus) ltac:(done) 6 1 0 0x8000 5 ([], 0)).
  - apply demo_mdio_quiet.
  - apply demo_mdio_words.
  - done.
  - done.
  - done.
  - done.
  - done.
  - done.
Defined.

(** Register 0 of PHY 1 has a pending write of 0x1200, all others are empty. *)
Definition demo_mailboxes (a : Z) : Z :=
  if decide (a = BVSTK_MDIO_BRAM_BASE + (BVSTK_MDIO_SLAVE_WR_OFFSET + index_of 1 0)) then 0x1200
  else BVSTK_MDIO_MAILBOX_EMPTY.

Lemma demo_isolated : @isolated _ ram_platform (fun x a => x a).
Proof.
  intros a b x Ha Hb. split; [done|]. intros v. cbn. case_decide; [|done]. by subst b.
Qed.

Lemma mdio_mailboxes_witness :
  pending demo_mailboxes 1 0 = Some 0x1200 /\
  runs (@bvstk_mdio_core_take_write _ ram_platform (Some demo_mdio_core) 1 0 true) demo_mailboxes
    (fun o x' => o = (BVSTK_OK, Some 0x1200) /\ pending x' 1 0 = None).
Proof.
  split; [done|].
  destruct (@mdio_mailboxes _ ram_platform (fun x a => x a) demo_mdio_core (ram_memory _ _)
    ltac:(done) 1 0 0x55 demo_mailboxes ltac:(done) demo_isolated) as (_ & Ht & _).
  destruct Ht as [Ho Hk]. split; [exact Ho|]. destruct (Hk 1 0) as [Hp _]; done.
Defined.
