(* ===== verification/MdioService.v ===== *)
(** * MdioService: the MDIO service

    [src/src/services/mdio/bvstk_mdio_service.c]: policy, cache, presence and
    polling over the MDIO driver, and the host mailboxes the driver keeps.  The
    state is the service object and the world behind it; a service pointer is a
    flag, true for the object of the state and false for NULL.  The driver is
    reached through the interface [MdioHw], which the driver of [MdioCore]
    implements.

    The theorems about it are in [MdioRules] and [MdioServiceSafety]. *)
From stdpp Require Import prelude.
From Stdlib Require Import ZArith Lia.
From S2P Require Import Prelude Platform PlAccess I2cDevices ConfigValidate MdioCore.
Local Open Scope Z_scope.

(** ** Data (services/mdio/bvstk_mdio_service.h) *)

Record bvstk_mdio_cache_entry_t := MdioEntry {
  me_value : Z;
  me_valid : Z;
  me_seeded : Z;
  me_updated_ms : Z
}.
Definition zero_entry : bvstk_mdio_cache_entry_t := MdioEntry 0 0 0 0.
#[export] Instance mdio_entry_inhabited : Inhabited bvstk_mdio_cache_entry_t := populate zero_entry.

Record bvstk_mdio_stats_t := MdioStats {
  ss_reads : Z; ss_writes : Z; ss_denied : Z; ss_errors : Z; ss_observed : Z; ss_unknown_phy : Z;
  ss_last_phy : Z; ss_last_reg : Z; ss_last_source : Z; ss_last_value : Z;
  ss_last_status : bvstk_status_t
}.
Definition zero_stats : bvstk_mdio_stats_t := MdioStats 0 0 0 0 0 0 0 0 0 0 BVSTK_OK.

Record bvstk_mdio_device_info_t := MdioInfo {
  di_name : list Z; di_phy_addr : Z; di_reg_count : Z; di_policy : Z
}.

Record bvstk_mdio_policy_entry_t := MdioPolicyEntry {
  mp_mode : Z;
  mp_whitelist : list mdio_rule_entry_t; mp_whitelist_len : Z;
  mp_blacklist : list mdio_rule_entry_t; mp_blacklist_len : Z
}.

Definition zero_mdio_config : mdio_phy_config_t :=
  MdioConfig (fill MDIO_CFG_NAME_MAX 0) (fill I2C_CFG_FILE_NAME_MAX 0) 0 0 0 false
    (fill MDIO_CFG_AUTOPOLL_REGS_MAX 0) 0 0 0
    (fill MDIO_CFG_RULES_MAX inhabitant) 0 (fill MDIO_CFG_RULES_MAX inhabitant) 0
    (fill MDIO_CFG_SETTINGS_MAX inhabitant) 0 zero_profile.
#[export] Instance mdio_config_inhabited : Inhabited mdio_phy_config_t := populate zero_mdio_config.

(** Counter updates of [stats], each at 32 bits. *)
Definition count_read (s : bvstk_mdio_stats_t) := let '(MdioStats a b c d e f g h i j k) := s in
  MdioStats (u32 (a + 1)) b c d e f g h i j k.
Definition count_write (s : bvstk_mdio_stats_t) := let '(MdioStats a b c d e f g h i j k) := s in
  MdioStats a (u32 (b + 1)) c d e f g h i j k.
Definition count_denied (s : bvstk_mdio_stats_t) := let '(MdioStats a b c d e f g h i j k) := s in
  MdioStats a b (u32 (c + 1)) d e f g h i j k.
Definition count_error (s : bvstk_mdio_stats_t) := let '(MdioStats a b c d e f g h i j k) := s in
  MdioStats a b c (u32 (d + 1)) e f g h i j k.
Definition count_observed (s : bvstk_mdio_stats_t) := let '(MdioStats a b c d e f g h i j k) := s in
  MdioStats a b c d (u32 (e + 1)) f g h i j k.
Definition count_unknown (s : bvstk_mdio_stats_t) := let '(MdioStats a b c d e f g h i j k) := s in
  MdioStats a b c d e (u32 (f + 1)) g h i j k.
Definition note_request (phy reg value source : Z) (s : bvstk_mdio_stats_t) :=
  let '(MdioStats a b c d e f _ _ _ _ k) := s in MdioStats a b c d e f phy reg source value k.
Definition note_status (st : bvstk_status_t) (s : bvstk_mdio_stats_t) :=
  let '(MdioStats a b c d e f g h i j _) := s in MdioStats a b c d e f g h i j st.

(** What the service uses of the driver; a read or take returns the value it
    leaves at the caller's pointer. *)
Class MdioHw (X CORE : Type) := {
  hw_mdio_read : CORE -> Z -> Z -> Z -> ST X (bvstk_status_t * Z);
  hw_mdio_write : CORE -> Z -> Z -> Z -> Z -> ST X bvstk_status_t;
  hw_mdio_take_write : CORE -> Z -> Z -> ST X (bvstk_status_t * Z);
  hw_mdio_publish : CORE -> Z -> Z -> Z -> ST X bvstk_status_t;
  hw_mdio_ack_slave : CORE -> ST X bvstk_status_t;
  hw_mdio_prepare_slave : CORE -> ST X bvstk_status_t
}.

Section service.
Context {X CORE : Type} `{PL : Platform X} `{HWI : MdioHw X CORE}.

(** [read phy reg timeout], [write phy reg value source timeout],
    [take_write phy reg], [publish phy reg value]. *)
Record bvstk_mdio_bus_ops_t := MdioBus {
  bus_read : option (Z -> Z -> Z -> ST X (bvstk_status_t * Z));
  bus_write : option (Z -> Z -> Z -> bvstk_event_source_t -> Z -> ST X bvstk_status_t);
  bus_take_write : option (Z -> Z -> ST X (bvstk_status_t * Z));
  bus_publish : option (Z -> Z -> Z -> ST X bvstk_status_t)
}.

Record bvstk_mdio_service_t := MdioService {
  md_core : option CORE;
  md_bus : bvstk_mdio_bus_ops_t;
  md_events : bvstk_event_sink_t X;
  md_cache_sink : bvstk_cache_sink_t X;
  md_cache_config_changed : option (Z -> mdio_phy_config_t -> X -> X);
  md_mutex : bvstk_mutex_t X;
  md_devices : list mdio_phy_config_t;
  md_cache : list (list bvstk_mdio_cache_entry_t);
  md_stats : bvstk_mdio_stats_t;
  md_poll_due : list Z;
  md_probe_due : list Z;
  md_poll_index : list Z;
  md_online : list Z;
  md_device_count : Z;
  md_scan_index : Z;
  md_poll_device : Z;
  md_initialized : Z
}.

Definition mset_devices (v : list mdio_phy_config_t) (s : bvstk_mdio_service_t) : bvstk_mdio_service_t :=
  MdioService (md_core s) (md_bus s) (md_events s) (md_cache_sink s)
    (md_cache_config_changed s) (md_mutex s) v (md_cache s) (md_stats s) (md_poll_due s)
    (md_probe_due s) (md_poll_index s) (md_online s) (md_device_count s) (md_scan_index s)
    (md_poll_device s) (md_initialized s).
Definition mset_cache (v : list (list bvstk_mdio_cache_entry_t)) (s : bvstk_mdio_service_t) : bvstk_mdio_service_t :=
  MdioService (md_core s) (md_bus s) (md_events s) (md_cache_sink s)
    (md_cache_config_changed s) (md_mutex s) (md_devices s) v (md_stats s) (md_poll_due s)
    (md_probe_due s) (md_poll_index s) (md_online s) (md_device_count s) (md_scan_index s)
    (md_poll_device s) (md_initialized s).
Definition mset_stats (v : bvstk_mdio_stats_t) (s : bvstk_mdio_service_t) : bvstk_mdio_service_t :=
  MdioService (md_core s) (md_bus s) (md_events s) (md_cache_sink s)
    (md_cache_config_changed s) (md_mutex s) (md_devices s) (md_cache s) v (md_poll_due s)
    (md_probe_due s) (md_poll_index s) (md_online s) (md_device_count s) (md_scan_index s)
    (md_poll_device s) (md_initialized s).
Definition mset_poll_due (v : list Z) (s : bvstk_mdio_service_t) : bvstk_mdio_service_t :=
  MdioService (md_core s) (md_bus s) (md_events s) (md_cache_sink s)
    (md_cache_config_changed s) (md_mutex s) (md_devices s) (md_cache s) (md_stats s) v
    (md_probe_due s) (md_poll_index s) (md_online s) (md_device_count s) (md_scan_index s)
    (md_poll_device s) (md_initialized s).
Definition mset_probe_due (v : list Z) (s : bvstk_mdio_service_t) : bvstk_mdio_service_t :=
  MdioService (md_core s) (md_bus s) (md_events s) (md_cache_sink s)
    (md_cache_config_changed s) (md_mutex s) (md_devices s) (md_cache s) (md_stats s)
    (md_poll_due s) v (md_poll_index s) (md_online s) (md_device_count s) (md_scan_index s)
    (md_poll_device s) (md_initialized s).
Definition mset_poll_index (v : list Z) (s : bvstk_mdio_service_t) : bvstk_mdio_service_t :=
  MdioService (md_core s) (md_bus s) (md_events s) (md_cache_sink s)
    (md_cache_config_changed s) (md_mutex s) (md_devices s) (md_cache s) (md_stats s)
    (md_poll_due s) (md_probe_due s) v (md_online s) (md_device_count s) (md_scan_index s)
    (md_poll_device s) (md_initialized s).
Definition mset_online (v : list Z) (s : bvstk_mdio_service_t) : bvstk_mdio_service_t :=
  MdioService (md_core s) (md_bus s) (md_events s) (md_cache_sink s)
    (md_cache_config_changed s) (md_mutex s) (md_devices s) (md_cache s) (md_stats s)
    (md_poll_due s) (md_probe_due s) (md_poll_index s) v (md_device_count s) (md_scan_index s)
    (md_poll_device s) (md_initialized s).
Definition mset_scan_index (v : Z) (s : bvstk_mdio_service_t) : bvstk_mdio_service_t :=
  MdioService (md_core s) (md_bus s) (md_events s) (md_cache_sink s)
    (md_cache_config_changed s) (md_mutex s) (md_devices s) (md_cache s) (md_stats s)
    (md_poll_due s) (md_probe_due s) (md_poll_index s) (md_online s) (md_device_count s) v
    (md_poll_device s) (md_initialized s).
Definition mset_poll_device (v : Z) (s : bvstk_mdio_service_t) : bvstk_mdio_service_t :=
  MdioService (md_core s) (md_bus s) (md_events s) (md_cache_sink s)
    (md_cache_config_changed s) (md_mutex s) (md_devices s) (md_cache s) (md_stats s)
    (md_poll_due s) (md_probe_due s) (md_poll_index s) (md_online s) (md_device_count s)
    (md_scan_index s) v (md_initialized s).
Definition mset_initialized (v : Z) (s : bvstk_mdio_service_t) : bvstk_mdio_service_t :=
  MdioService (md_core s) (md_bus s) (md_events s) (md_cache_sink s)
    (md_cache_config_changed s) (md_mutex s) (md_devices s) (md_cache s) (md_stats s)
    (md_poll_due s) (md_probe_due s) (md_poll_index s) (md_online s) (md_device_count s)
    (md_scan_index s) (md_poll_device s) v.

(** The zeroed object. *)
Definition zero_mdio_service : bvstk_mdio_service_t :=
  MdioService None (MdioBus None None None None) (EventSink None) no_sink None (Mutex None None)
    (fill MDIO_CFG_MAX_DEVICES zero_mdio_config) (fill MDIO_CFG_MAX_DEVICES (fill 32 zero_entry))
    zero_stats (fill MDIO_CFG_MAX_DEVICES 0) (fill MDIO_CFG_MAX_DEVICES 0)
    (fill MDIO_CFG_MAX_DEVICES 0) (fill MDIO_CFG_MAX_DEVICES 0) 0 0 0 0.

Record mdio_state := MdioState { svc : bvstk_mdio_service_t; wld : X }.

Definition world {A} (m : ST X A) : ST mdio_state A := fun w =>
  let '(a, x) := m (wld w) in (a, MdioState (svc w) x).
Definition worldf (f : X -> X) : ST mdio_state unit := fun w => (tt, MdioState (svc w) (f (wld w))).
Definition update (f : bvstk_mdio_service_t -> bvstk_mdio_service_t) : ST mdio_state unit :=
  fun w => (tt, MdioState (f (svc w)) (wld w)).
Definition self {A} (f : bvstk_mdio_service_t -> A) : ST mdio_state A := fun w => (f (svc w), w).

Definition entry (s : bvstk_mdio_service_t) (d r : Z) : bvstk_mdio_cache_entry_t :=
  ((md_cache s).[d]).[r].
Definition set_entry (d r : Z) (e : bvstk_mdio_cache_entry_t) (s : bvstk_mdio_service_t) :=
  mset_cache ((md_cache s).[d <- ((md_cache s).[d]).[r <- e]]) s.
Definition device (s : bvstk_mdio_service_t) (d : Z) : mdio_phy_config_t := (md_devices s).[d].

(** ** Internal operations *)

Definition lock (s : bool) : ST mdio_state bvstk_status_t := fun w =>
  if negb s || (md_initialized (svc w) =? 0) then (BVSTK_ERR_NOT_READY, w)
  else world (bvstk_mutex_lock (Some (md_mutex (svc w))) 1000) w.
Definition unlock : ST mdio_state unit := fun w =>
  worldf (bvstk_mutex_unlock (Some (md_mutex (svc w)))) w.

Definition check (s : bvstk_mdio_service_t) (d r : Z) : bvstk_status_t :=
  if md_device_count s <=? d then BVSTK_ERR_NOT_FOUND
  else if r <? mc_reg_count (device s d) then BVSTK_OK else BVSTK_ERR_RANGE.

(** The first device with the address, [device_count] when there is none. *)
Definition find_phy (s : bvstk_mdio_service_t) (phy : Z) : Z :=
  default (md_device_count s)
    (for_find (Z.to_nat (md_device_count s)) 0 (fun i => mc_phy_addr (device s i) =? phy)).

Definition publish (phy reg value : Z) : ST mdio_state bvstk_status_t := fun w =>
  match bus_publish (md_bus (svc w)) with
  | Some f => world (f phy reg value) w
  | None =>
      match md_core (svc w) with
      | Some core => world (hw_mdio_publish core phy reg value) w
      | None => (BVSTK_OK, w)
      end
  end.

Definition emit_flags (type : Z) (st : bvstk_status_t) (source : bvstk_event_source_t)
    (phy reg value flags : Z) : ST mdio_state unit := fun w =>
  match Platform.publish (md_events (svc w)) with
  | None => (tt, w)
  | Some f =>
      let '(now, x) := bvstk_platform_now_ms (wld w) in
      (tt, MdioState (svc w)
             (f (Event (u64 (now * 1000)) type (status_code st) (source_code source)
                   BVSTK_EVENT_BUS_MDIO
                   (if type =? BVSTK_EVENT_MASTER_READ then op_code BVSTK_EVENT_OP_READ
                    else op_code BVSTK_EVENT_OP_WRITE)
                   flags phy reg value) x))
  end.

Definition cache_changed (d r : Z) : ST mdio_state unit := fun w =>
  let e := entry (svc w) d r in
  worldf (bvstk_cache_sink_entry (md_cache_sink (svc w)) d r (me_value e) (me_valid e)
            (me_seeded e) (me_updated_ms e)) w.

Definition emit (type : Z) (st : bvstk_status_t) (source : bvstk_event_source_t)
    (phy reg value : Z) : ST mdio_state unit :=
  emit_flags type st source phy reg value BVSTK_EVENT_FLAG_NONE.

Definition telemetry_flags (s : bvstk_mdio_service_t) (d type : Z) (st : bvstk_status_t)
    (value : Z) (probe : bool) : Z :=
  if probe || (md_device_count s <=? d) then BVSTK_EVENT_FLAG_TELEMETRY_UNCONFIRMED
  else if truth ((md_online s).[d]) then BVSTK_EVENT_FLAG_NONE
  else if (type =? BVSTK_EVENT_MASTER_READ) && is_ok st && negb (value =? 0xFFFF) then
    BVSTK_EVENT_FLAG_NONE
  else BVSTK_EVENT_FLAG_TELEMETRY_UNCONFIRMED.

(** [for (r = lo; r < lo + n; ++r) cache_changed (s, d, r)]. *)
Fixpoint changed_loop (n : nat) (d r : Z) : ST mdio_state unit :=
  match n with
  | O => st_ret tt
  | S n => cache_changed d r ;; changed_loop n d (r + 1)
  end.

(** [for (r = lo; r < lo + n; ++r) publish (.., r, 0xFFFF)]; a failure is
    remembered, the loop goes on. *)
Fixpoint blank_loop (n : nat) (d r : Z) (result : bvstk_status_t) : ST mdio_state bvstk_status_t :=
  match n with
  | O => st_ret result
  | S n =>
      let! phy := self (fun s => mc_phy_addr (device s d)) in
      let! st := publish phy r 0xFFFF in
      blank_loop n d (r + 1) (if negb (is_ok st) then BVSTK_ERR_IO else result)
  end.

Definition clear_device (d : Z) (s : bvstk_mdio_service_t) : bvstk_mdio_service_t :=
  mset_probe_due ((md_probe_due s).[d <- 0])
    (mset_online ((md_online s).[d <- 0]) (mset_cache ((md_cache s).[d <- fill 32 zero_entry]) s)).

Definition invalidate (d : Z) : ST mdio_state bvstk_status_t :=
  update (clear_device d) ;;
  let! count := self (fun s => mc_reg_count (device s d)) in
  changed_loop (Z.to_nat count) d 0 ;;
  let! sink := self md_cache_sink in
  worldf (bvstk_cache_sink_presence sink d 2) ;;
  blank_loop 32 d 0 BVSTK_OK.

Definition bus_or_core_read (phy r timeout : Z) : ST mdio_state (bvstk_status_t * Z) := fun w =>
  match bus_read (md_bus (svc w)) with
  | Some f => world (f phy r timeout) w
  | None =>
      match md_core (svc w) with
      | Some core => world (hw_mdio_read core phy r timeout) w
      | None => ((BVSTK_ERR_NOT_READY, 0), w)
      end
  end.

(** The result is the status and what is left at [v]. *)
Definition read_phy (d r : Z) (source : bvstk_event_source_t) (timeout : Z) (probe : bool)
    : ST mdio_state (bvstk_status_t * Z) :=
  let! phy := self (fun s => mc_phy_addr (device s d)) in
  let! rd := bus_or_core_read phy r timeout in
  let '(st, v) := rd in
  let shown := if is_ok st then v else 0 in
  let! flags := self (fun s => telemetry_flags s d BVSTK_EVENT_MASTER_READ st shown probe) in
  emit_flags BVSTK_EVENT_MASTER_READ st source phy r shown flags ;;
  update (fun s => mset_stats (count_read (md_stats s)) s) ;;
  let! st :=
    (if is_ok st then
       let! st := publish phy r v in
       if is_ok st then
         let! now := world bvstk_platform_now_ms in
         update (set_entry d r (MdioEntry v 1 0 now)) ;; st_ret st
       else st_ret st
     else st_ret st) in
  (if negb (is_ok st) then
     update (fun s => let e := entry s d r in
               set_entry d r (MdioEntry (me_value e) 0 (me_seeded e) (me_updated_ms e)) s) ;;
     let! _ := publish phy r 0xFFFF in
     (if negb probe then update (fun s => mset_stats (count_error (md_stats s)) s) else st_ret tt)
   else st_ret tt) ;;
  (if negb probe then cache_changed d r else st_ret tt) ;;
  st_ret (st, v).

Definition bus_or_core_write (phy r v : Z) (source : bvstk_event_source_t) (timeout : Z)
    : ST mdio_state bvstk_status_t := fun w =>
  match bus_write (md_bus (svc w)) with
  | Some f => world (f phy r v source timeout) w
  | None =>
      match md_core (svc w) with
      | Some core => world (hw_mdio_write core phy r v timeout) w
      | None => (BVSTK_ERR_NOT_READY, w)
      end
  end.

(** The permitted branch of [write_phy]. *)
Definition write_permitted (d r v : Z) (source : bvstk_event_source_t) (timeout phy : Z)
    (was_online : bool) : ST mdio_state bvstk_status_t :=
  (if (r =? 0) && truth (Z.land v 0x8000) then
     let! _ := invalidate d in st_ret tt
   else
     update (fun s => let e := entry s d r in
               set_entry d r (MdioEntry (me_value e) 0 (me_seeded e) (me_updated_ms e)) s) ;;
     cache_changed d r ;;
     let! _ := publish phy r 0xFFFF in st_ret tt) ;;
  let! st := bus_or_core_write phy r v source timeout in
  emit_flags BVSTK_EVENT_MASTER_WRITE st source phy r v
    (if was_online then BVSTK_EVENT_FLAG_NONE else BVSTK_EVENT_FLAG_TELEMETRY_UNCONFIRMED) ;;
  (if is_ok st then
     update (fun s => mset_stats (count_write (md_stats s)) s) ;;
     let! _ := read_phy d r source timeout false in
     update (fun s => mset_poll_index ((md_poll_index s).[d <- 0])
                        (mset_poll_due ((md_poll_due s).[d <- 0]) s)) ;;
     emit BVSTK_EVENT_REG_COMMIT st source phy r v
   else
     update (fun s => mset_stats (count_error (md_stats s)) s) ;;
     emit BVSTK_EVENT_FAULT st source phy r v) ;;
  st_ret st.

Definition write_phy (d r v : Z) (source : bvstk_event_source_t) (timeout : Z)
    : ST mdio_state bvstk_status_t :=
  let! phy := self (fun s => mc_phy_addr (device s d)) in
  let! was_online := self (fun s => negb ((md_online s).[d] =? 0)) in
  update (fun s => mset_stats (note_request phy r v (source_code source) (md_stats s)) s) ;;
  emit BVSTK_EVENT_REG_ATTEMPT BVSTK_OK source phy r v ;;
  let! allowed := self (fun s => bvstk_mdio_policy_allows (Some (device s d)) r v) in
  let! st :=
    (if negb allowed then
       update (fun s => mset_stats (count_denied (md_stats s)) s) ;;
       emit BVSTK_EVENT_REG_DENIED BVSTK_ERR_DENIED source phy r v ;;
       st_ret BVSTK_ERR_DENIED
     else write_permitted d r v source timeout phy was_online) in
  update (fun s => mset_stats (note_status st (md_stats s)) s) ;;
  st_ret st.

(** Settings [i .. i + n). *)
Fixpoint seed_loop (n : nat) (d i : Z) : ST mdio_state bvstk_status_t :=
  match n with
  | O => st_ret BVSTK_OK
  | S n =>
      let! v := self (fun s => (mc_settings (device s d)).[i]) in
      let! phy := self (fun s => mc_phy_addr (device s d)) in
      let! st := publish phy (ms_reg v) (ms_val v) in
      if negb (is_ok st) then st_ret BVSTK_ERR_IO
      else
        let! now := world bvstk_platform_now_ms in
        update (set_entry d (ms_reg v) (MdioEntry (ms_val v) 1 1 now)) ;;
        cache_changed d (ms_reg v) ;;
        seed_loop n d (i + 1)
  end.

Definition seed (d : Z) : ST mdio_state bvstk_status_t :=
  let! n := self (fun s => mc_settings_len (device s d)) in seed_loop (Z.to_nat n) d 0.

(** ** Life cycle *)

(** The configuration at [i] is invalid or repeats an earlier one. *)
Definition config_refused (devices : list mdio_phy_config_t) (i : Z) : bool :=
  negb (is_ok (bvstk_mdio_config_validate (Some (devices.[i])))) ||
  match for_find (Z.to_nat i) 0 (fun j =>
          (mc_phy_addr (devices.[i]) =? mc_phy_addr (devices.[j])) ||
          strcaseeq (mc_name (devices.[i])) (mc_name (devices.[j]))) with
  | Some _ => true
  | None => false
  end.

(** [for (i = lo; i < lo + n; ++i) if (seed (s, i) != OK) return IO]. *)
Fixpoint seed_all (n : nat) (i : Z) : ST mdio_state bvstk_status_t :=
  match n with
  | O => st_ret BVSTK_OK
  | S n =>
      let! st := seed i in
      if negb (is_ok st) then st_ret BVSTK_ERR_IO else seed_all n (i + 1)
  end.

Definition fresh_service (core : option CORE) (bus : option bvstk_mdio_bus_ops_t)
    (devices : list mdio_phy_config_t) (count : Z) (events : option (bvstk_event_sink_t X))
    : bvstk_mdio_service_t :=
  let z := zero_mdio_service in
  MdioService core (default (md_bus z) bus) (default (md_events z) events) (md_cache_sink z)
    (md_cache_config_changed z) (md_mutex z) (copy_prefix count devices (md_devices z))
    (md_cache z) (md_stats z) (md_poll_due z) (md_probe_due z) (md_poll_index z) (md_online z)
    count 0 0 0.

Definition bvstk_mdio_service_init (s : bool) (core : option CORE)
    (bus : option bvstk_mdio_bus_ops_t) (devices : option (list mdio_phy_config_t)) (count : Z)
    (events : option (bvstk_event_sink_t X)) : ST mdio_state bvstk_status_t :=
  if negb s || (MDIO_CFG_MAX_DEVICES <? count) || negb (count =? 0) && negb (bool_decide (is_Some devices))
  then st_ret BVSTK_ERR_MALFORMED
  else
    match for_find (Z.to_nat count) 0 (config_refused (default [] devices)) with
    | Some _ => st_ret BVSTK_ERR_MALFORMED
    | None =>
        update (fun _ => fresh_service core bus (default [] devices) count events) ;;
        let! prepared := match core with
                         | Some core => world (hw_mdio_prepare_slave core)
                         | None => st_ret BVSTK_OK
                         end in
        if negb (is_ok prepared) then st_ret BVSTK_ERR_IO
        else
          let! seeded := seed_all (Z.to_nat count) 0 in
          if negb (is_ok seeded) then st_ret BVSTK_ERR_IO
          else update (mset_initialized 1) ;; st_ret BVSTK_OK
    end.

Definition bvstk_mdio_service_shutdown (s : bool) : ST mdio_state unit :=
  if s then update (fun _ => zero_mdio_service) else st_ret tt.

(** ** Queries

    [out], [v], [e] and the like are false for NULL pointers; the second result
    is what is stored there, if anything. *)

(** Run [m] with the lock held; a refused lock is the result. *)
Definition locked {A} (s : bool) (refused : bvstk_status_t -> A) (m : ST mdio_state A) : ST mdio_state A :=
  let! st := lock s in
  if negb (is_ok st) then st_ret (refused st)
  else let! r := m in unlock ;; st_ret r.

Definition bvstk_mdio_service_device_count (s : bool) : ST mdio_state Z :=
  self (fun sv => if s && negb (md_initialized sv =? 0) then md_device_count sv else 0).

Definition bvstk_mdio_service_get_config (s : bool) (d : Z) (out : bool)
    : ST mdio_state (bvstk_status_t * option mdio_phy_config_t) :=
  locked s (fun st => (st, None))
    (self (fun sv =>
       let st := if negb out then BVSTK_ERR_MALFORMED else check sv d 0 in
       (st, if is_ok st then Some (device sv d) else None))).

Definition bvstk_mdio_service_device_info (s : bool) (d : Z) (out : bool)
    : ST mdio_state (bvstk_status_t * option bvstk_mdio_device_info_t) :=
  locked s (fun st => (st, None))
    (self (fun sv =>
       let st := if negb out then BVSTK_ERR_MALFORMED else check sv d 0 in
       let c := device sv d in
       (st, if is_ok st then Some (MdioInfo (mc_name c) (mc_phy_addr c) (mc_reg_count c) (mc_policy c))
            else None))).

Definition bvstk_mdio_service_find_by_name (s : bool) (name : option (list Z)) (d : bool)
    : ST mdio_state (bvstk_status_t * option Z) :=
  locked s (fun st => (st, None))
    (self (fun sv =>
       match name with
       | None => (BVSTK_ERR_MALFORMED, None)
       | Some name =>
           if negb d then (BVSTK_ERR_MALFORMED, None)
           else
             match for_find (Z.to_nat (md_device_count sv)) 0
                     (fun i => strcaseeq name (mc_name (device sv i))) with
             | Some i => (BVSTK_OK, Some i)
             | None => (BVSTK_ERR_NOT_FOUND, None)
             end
       end)).

Definition bvstk_mdio_service_find_by_phy (s : bool) (phy : Z) (d : bool)
    : ST mdio_state (bvstk_status_t * option Z) :=
  locked s (fun st => (st, None))
    (self (fun sv =>
       if negb d || (31 <? phy) then (BVSTK_ERR_RANGE, None)
       else
         let i := find_phy sv phy in
         (if i <? md_device_count sv then BVSTK_OK else BVSTK_ERR_NOT_FOUND, Some i))).

Definition bvstk_mdio_service_cache_entry (s : bool) (d r : Z) (e : bool)
    : ST mdio_state (bvstk_status_t * option bvstk_mdio_cache_entry_t) :=
  locked s (fun st => (st, None))
    (self (fun sv =>
       let st := if negb e then BVSTK_ERR_MALFORMED else check sv d r in
       (st, if is_ok st then Some (entry sv d r) else None))).

Definition bvstk_mdio_service_read_cached (s : bool) (d r : Z) (v : bool)
    : ST mdio_state (bvstk_status_t * option Z) :=
  if negb v then st_ret (BVSTK_ERR_MALFORMED, None)
  else
    let! o := bvstk_mdio_service_cache_entry s d r true in
    let e := default zero_entry (snd o) in
    st_ret (if negb (is_ok (fst o)) then (fst o, None)
            else if me_valid e =? 0 then (BVSTK_ERR_NOT_READY, None)
            else (BVSTK_OK, Some (me_value e))).

Definition bvstk_mdio_service_stats (s : bool) (out : bool)
    : ST mdio_state (bvstk_status_t * option bvstk_mdio_stats_t) :=
  locked s (fun st => (st, None))
    (self (fun sv => if negb out then (BVSTK_ERR_MALFORMED, None) else (BVSTK_OK, Some (md_stats sv)))).

(** ** Bus operations *)

Definition bvstk_mdio_service_read_from (s : bool) (d r : Z) (v : bool)
    (source : bvstk_event_source_t) (timeout : Z) : ST mdio_state (bvstk_status_t * option Z) :=
  locked s (fun st => (st, None))
    (let! st := self (fun sv => if negb v then BVSTK_ERR_MALFORMED else check sv d r) in
     if is_ok st then
       let! o := read_phy d r source timeout false in st_ret (fst o, Some (snd o))
     else st_ret (st, None)).

Definition bvstk_mdio_service_read (s : bool) (d r : Z) (v : bool) (timeout : Z)
    : ST mdio_state (bvstk_status_t * option Z) :=
  bvstk_mdio_service_read_from s d r v BVSTK_EVENT_SOURCE_INTERNAL timeout.

Definition bvstk_mdio_service_invalidate (s : bool) (d : Z) : ST mdio_state bvstk_status_t :=
  locked s (fun st => st)
    (let! st := self (fun sv => check sv d 0) in
     if is_ok st then invalidate d else st_ret st).

Definition bvstk_mdio_service_write (s : bool) (d r v : Z) (source : bvstk_event_source_t)
    (timeout : Z) : ST mdio_state bvstk_status_t :=
  locked s (fun st => st)
    (let! st := self (fun sv => check sv d r) in
     if is_ok st then write_phy d r v source timeout else st_ret st).

(** ** Policy *)

Definition set_device (d : Z) (c : mdio_phy_config_t) (s : bvstk_mdio_service_t) :=
  mset_devices ((md_devices s).[d <- c]) s.

Definition with_policy (policy : Z) (c : mdio_phy_config_t) : mdio_phy_config_t :=
  MdioConfig (mc_name c) (mc_file_name c) (mc_phy_addr c) (mc_reg_count c) policy
    (mc_autopoll_enabled c) (mc_autopoll_regs c) (mc_autopoll_regs_len c)
    (mc_autopoll_reg_delay_ms c) (mc_autopoll_cycle_delay_ms c) (mc_whitelist c)
    (mc_whitelist_len c) (mc_blacklist c) (mc_blacklist_len c) (mc_settings c)
    (mc_settings_len c) (mc_profile c).

Definition bvstk_mdio_service_set_policy (s : bool) (d policy : Z) : ST mdio_state bvstk_status_t :=
  locked s (fun st => st)
    (let! st := self (fun sv =>
       if negb (policy =? MDIO_POLICY_WHITELIST) && negb (policy =? MDIO_POLICY_BLACKLIST)
       then BVSTK_ERR_MALFORMED else check sv d 0) in
     (if is_ok st then update (fun sv => set_device d (with_policy policy (device sv d)) sv)
      else st_ret tt) ;;
     st_ret st).

Definition bvstk_mdio_service_get_policy (s : bool) (d : Z) (out : bool)
    : ST mdio_state (bvstk_status_t * option bvstk_mdio_policy_entry_t) :=
  locked s (fun st => (st, None))
    (self (fun sv =>
       let st := if negb out then BVSTK_ERR_MALFORMED else check sv d 0 in
       let c := device sv d in
       let zero := fill MDIO_CFG_RULES_MAX inhabitant in
       (st, if is_ok st then
              Some (MdioPolicyEntry (mc_policy c)
                      (copy_prefix (mc_whitelist_len c) (mc_whitelist c) zero) (mc_whitelist_len c)
                      (copy_prefix (mc_blacklist_len c) (mc_blacklist c) zero) (mc_blacklist_len c))
            else None))).

(** [policy_list]: the status, and the array and length the two pointers select. *)
Definition policy_list (s : bvstk_mdio_service_t) (d which : Z)
    : bvstk_status_t * (list mdio_rule_entry_t * Z) :=
  let st := check s d 0 in
  let c := device s d in
  if negb (is_ok st) then (st, ([], 0))
  else if which =? MDIO_POLICY_WHITELIST then (BVSTK_OK, (mc_whitelist c, mc_whitelist_len c))
  else if which =? MDIO_POLICY_BLACKLIST then (BVSTK_OK, (mc_blacklist c, mc_blacklist_len c))
  else (BVSTK_ERR_MALFORMED, ([], 0)).

(** Stores through the pointers [policy_list] selected. *)
Definition with_rules (which : Z) (rules : list mdio_rule_entry_t) (len : Z) (c : mdio_phy_config_t)
    : mdio_phy_config_t :=
  let white := which =? MDIO_POLICY_WHITELIST in
  MdioConfig (mc_name c) (mc_file_name c) (mc_phy_addr c) (mc_reg_count c) (mc_policy c)
    (mc_autopoll_enabled c) (mc_autopoll_regs c) (mc_autopoll_regs_len c)
    (mc_autopoll_reg_delay_ms c) (mc_autopoll_cycle_delay_ms c)
    (if white then rules else mc_whitelist c) (if white then len else mc_whitelist_len c)
    (if white then mc_blacklist c else rules) (if white then mc_blacklist_len c else len)
    (mc_settings c) (mc_settings_len c) (mc_profile c).

Definition policy_rule_equal (rule : mdio_rule_entry_t) (reg value mask : Z) : bool :=
  (mr_reg rule =? reg) && (mr_mask rule =? mask) &&
  (Z.land (mr_val rule) mask =? Z.land value mask).

(** The first two tests of [rule_add] and [rule_remove], in their order. *)
Definition rule_status (s : bvstk_mdio_service_t) (d which reg : Z) : bvstk_status_t :=
  let st := fst (policy_list s d which) in if is_ok st then check s d reg else st.

Definition add_rule_to (rules : list mdio_rule_entry_t) (len reg value mask : Z)
    : bvstk_status_t * (list mdio_rule_entry_t * Z) :=
  match for_find (Z.to_nat len) 0 (fun i => policy_rule_equal (rules.[i]) reg value mask) with
  | Some _ => (BVSTK_OK, (rules, len))
  | None =>
      if MDIO_CFG_RULES_MAX <=? len then (BVSTK_ERR_RANGE, (rules, len))
      else (BVSTK_OK, (rules.[len <- MdioRule reg (u16 (Z.land value mask)) mask], len + 1))
  end.

Definition bvstk_mdio_service_rule_add (s : bool) (d which reg value mask : Z)
    : ST mdio_state bvstk_status_t :=
  locked s (fun st => st)
    (let! st := self (fun sv => rule_status sv d which reg) in
     if negb (is_ok st) then st_ret st
     else
       let! sel := self (fun sv => snd (policy_list sv d which)) in
       let '(st, (rules, len)) := add_rule_to (fst sel) (snd sel) reg value mask in
       update (fun sv => set_device d (with_rules which rules len (device sv d)) sv) ;;
       st_ret st).

(** [rules[kept++] = rules[i]] for the rules that differ, then zero the tail. *)
Definition keep_loop (rules : list mdio_rule_entry_t) (len reg value mask : Z)
    : list mdio_rule_entry_t * Z :=
  for_each (Z.to_nat len) 0
    (fun i '(rules, kept) =>
       if negb (policy_rule_equal (rules.[i]) reg value mask)
       then (rules.[kept <- rules.[i]], kept + 1) else (rules, kept)) (rules, 0).

Definition remove_rule_from (rules : list mdio_rule_entry_t) (len reg value mask : Z)
    : bvstk_status_t * (list mdio_rule_entry_t * Z) :=
  match for_find (Z.to_nat len) 0 (fun i => policy_rule_equal (rules.[i]) reg value mask) with
  | None => (BVSTK_ERR_NOT_FOUND, (rules, len))
  | Some _ =>
      let '(rules, kept) := keep_loop rules len reg value mask in
      (BVSTK_OK,
        (for_each (Z.to_nat (len - kept)) 0 (fun i a => a.[kept + i <- inhabitant]) rules, kept))
  end.

Definition bvstk_mdio_service_rule_remove (s : bool) (d which reg value mask : Z)
    : ST mdio_state bvstk_status_t :=
  locked s (fun st => st)
    (let! st := self (fun sv => rule_status sv d which reg) in
     if negb (is_ok st) then st_ret st
     else
       let! sel := self (fun sv => snd (policy_list sv d which)) in
       let '(st, (rules, len)) := remove_rule_from (fst sel) (snd sel) reg value mask in
       update (fun sv => set_device d (with_rules which rules len (device sv d)) sv) ;;
       st_ret st).

Definition bvstk_mdio_service_rule_clear_list (s : bool) (d which : Z) : ST mdio_state bvstk_status_t :=
  locked s (fun st => st)
    (let! o := self (fun sv => policy_list sv d which) in
     let '(st, (rules, len)) := o in
     if negb (is_ok st) then st_ret st
     else
       update (fun sv => set_device d
         (with_rules which (for_each (Z.to_nat len) 0 (fun i a => a.[i <- inhabitant]) rules) 0
            (device sv d)) sv) ;;
       st_ret st).

(** ** Configuration *)

(** The checks that can refuse a new configuration, in order; a later one
    overrides an earlier status. *)
Definition config_status (s : bvstk_mdio_service_t) (d : Z) (c : mdio_phy_config_t) : bvstk_status_t :=
  let st := check s d 0 in
  let st := if is_ok st && (negb (streq (mc_name c) (mc_name (device s d))) ||
                            negb (streq (mc_file_name c) (mc_file_name (device s d))))
            then BVSTK_ERR_DENIED else st in
  match for_find (Z.to_nat (md_device_count s)) 0
          (fun i => negb (i =? d) && (mc_phy_addr c =? mc_phy_addr (device s i))) with
  | Some _ => BVSTK_ERR_DENIED
  | None => st
  end.

Definition config_changed (c old : mdio_phy_config_t) : bool :=
  negb (mc_phy_addr c =? mc_phy_addr old) || negb (mc_reg_count c =? mc_reg_count old) ||
  negb (mc_settings_len c =? mc_settings_len old) || negb (bool_decide (mc_settings c = mc_settings old)).

Definition install_config (d : Z) (c : mdio_phy_config_t) (changed : bool) : ST mdio_state bvstk_status_t :=
  let! st := (if changed then invalidate d else st_ret BVSTK_OK) in
  if negb (is_ok st) then st_ret st
  else
    update (set_device d c) ;;
    let! notify := self md_cache_config_changed in
    (match notify with Some f => worldf (f d c) | None => st_ret tt end) ;;
    update (fun sv => mset_poll_index ((md_poll_index sv).[d <- 0])
                        (mset_poll_due ((md_poll_due sv).[d <- 0]) sv)) ;;
    if changed then
      let! st := invalidate d in
      if is_ok st then seed d else st_ret st
    else st_ret st.

Definition bvstk_mdio_service_set_config (s : bool) (d : Z) (c : option mdio_phy_config_t)
    : ST mdio_state bvstk_status_t :=
  let st := bvstk_mdio_config_validate c in
  match c with
  | Some c =>
      if negb (is_ok st) then st_ret st
      else
        locked s (fun st => st)
          (let! st := self (fun sv => config_status sv d c) in
           if is_ok st then
             let! changed := self (fun sv => config_changed c (device sv d)) in
             install_config d c changed
           else st_ret st)
  | None => st_ret st
  end.

(** ** The worker step *)

(** One captured host write. *)
Definition captured_write (phy reg v timeout : Z) : ST mdio_state bvstk_status_t :=
  update (fun sv => mset_stats (count_observed (md_stats sv)) sv) ;;
  let! d := self (fun sv => find_phy sv phy) in
  let! known := self (fun sv => (d <? md_device_count sv) && truth ((md_online sv).[d])) in
  emit_flags BVSTK_EVENT_CAPTURE_WRITE BVSTK_OK BVSTK_EVENT_SOURCE_HOST phy reg v
    (if known then BVSTK_EVENT_FLAG_NONE else BVSTK_EVENT_FLAG_TELEMETRY_UNCONFIRMED) ;;
  let! count := self md_device_count in
  if d =? count then
    update (fun sv => mset_stats (count_denied (count_unknown (md_stats sv))) sv) ;;
    emit BVSTK_EVENT_REG_ATTEMPT BVSTK_OK BVSTK_EVENT_SOURCE_HOST phy reg v ;;
    emit BVSTK_EVENT_REG_DENIED BVSTK_ERR_NOT_FOUND BVSTK_EVENT_SOURCE_HOST phy reg v ;;
    st_ret BVSTK_OK
  else
    let! st := write_phy d reg v BVSTK_EVENT_SOURCE_HOST timeout in
    st_ret (match st with BVSTK_ERR_DENIED => BVSTK_OK | st => st end).

Definition bus_or_core_take (phy reg : Z) : ST mdio_state (bvstk_status_t * Z) := fun w =>
  match bus_take_write (md_bus (svc w)) with
  | Some f => world (f phy reg) w
  | None =>
      match md_core (svc w) with
      | Some core => world (hw_mdio_take_write core phy reg) w
      | None => ((BVSTK_ERR_NOT_FOUND, 0), w)
      end
  end.

(** The mailbox scan: [n] iterations left of the 1024, [taken] writes so far. *)
Fixpoint capture_loop (n : nat) (taken timeout : Z) (result : bvstk_status_t)
    : ST mdio_state bvstk_status_t :=
  match n with
  | O => st_ret result
  | S n =>
      if negb (taken <? 4) then st_ret result
      else
        let! scan := self md_scan_index in
        let phy := u8 (Z.shiftr scan 5) in
        let reg := u8 (Z.land scan 31) in
        update (mset_scan_index (Z.land (scan + 1) 1023)) ;;
        let! o := bus_or_core_take phy reg in
        match fst o with
        | BVSTK_ERR_NOT_FOUND => capture_loop n taken timeout result
        | BVSTK_OK =>
            let! st := captured_write phy reg (snd o) timeout in
            capture_loop n (taken + 1) timeout (if negb (is_ok st) then st else result)
        | st =>
            update (fun sv => mset_stats (count_error (md_stats sv)) sv) ;;
            st_ret st
        end
  end.

(** The identity probe of a device: its outcome, if an error. *)
Definition probe_device (d now timeout : Z) : ST mdio_state (option bvstk_status_t) :=
  let! r1 := read_phy d 2 BVSTK_EVENT_SOURCE_INTERNAL timeout true in
  let! r2 := (if is_ok (fst r1) then read_phy d 3 BVSTK_EVENT_SOURCE_INTERNAL timeout true
              else st_ret (fst r1, 0)) in
  let! result :=
    (if is_ok (fst r2) && negb (snd r1 =? 0xFFFF) && negb (snd r2 =? 0xFFFF) &&
        (truth (snd r1) || truth (snd r2)) then
       cache_changed d 2 ;; cache_changed d 3 ;;
       update (fun sv =>
         mset_online ((md_online sv).[d <- 1])
           (if (md_online sv).[d] =? 0 then mset_poll_due ((md_poll_due sv).[d <- 0]) sv else sv)) ;;
       let! sink := self md_cache_sink in
       worldf (bvstk_cache_sink_presence sink d 1) ;;
       st_ret None
     else
       let! _ := invalidate d in
       st_ret (Some (if is_ok (fst r2) then BVSTK_ERR_NOT_READY else fst r2))) in
  update (fun sv => mset_probe_due ((md_probe_due sv).[d <- u64 (now + 1000)]) sv) ;;
  st_ret result.

(** One register of the autopoll list. *)
Definition poll_device_item (d now timeout : Z) : ST mdio_state (option bvstk_status_t) :=
  let! reg := self (fun sv => (mc_autopoll_regs (device sv d)).[(md_poll_index sv).[d]]) in
  let! o := read_phy d reg BVSTK_EVENT_SOURCE_INTERNAL timeout false in
  (if negb (is_ok (fst o)) then
     let! _ := invalidate d in
     update (fun sv => mset_probe_due ((md_probe_due sv).[d <- u64 (now + 1000)]) sv)
   else st_ret tt) ;;
  update (fun sv =>
    let c := device sv d in
    let i := u8 ((md_poll_index sv).[d] + 1) in
    if mc_autopoll_regs_len c <=? i then
      mset_poll_due ((md_poll_due sv).[d <- u64 (now + (if mc_autopoll_cycle_delay_ms c =? 0 then 1
                                                        else mc_autopoll_cycle_delay_ms c))])
        (mset_poll_index ((md_poll_index sv).[d <- 0]) sv)
    else
      mset_poll_due ((md_poll_due sv).[d <- u64 (now + mc_autopoll_reg_delay_ms c)])
        (mset_poll_index ((md_poll_index sv).[d <- i]) sv)) ;;
  st_ret (if negb (is_ok (fst o)) then Some (fst o) else None).

(** The device loop: at most one probe or poll. *)
Fixpoint poll_loop (n : nat) (now timeout : Z) (result : bvstk_status_t) : ST mdio_state bvstk_status_t :=
  match n with
  | O => st_ret result
  | S n =>
      let! d := self (fun sv => md_poll_device sv mod md_device_count sv) in
      update (fun sv => mset_poll_device (u32 (md_poll_device sv + 1)) sv) ;;
      let! c := self (fun sv => device sv d) in
      let! probe := self (fun sv => ((md_probe_due sv).[d] <=? now) && (4 <=? mc_reg_count c)) in
      let! skip := self (fun sv =>
        negb (mc_autopoll_enabled c) || (mc_autopoll_regs_len c =? 0) || (now <? (md_poll_due sv).[d]) ||
        (4 <=? mc_reg_count c) && ((md_online sv).[d] =? 0)) in
      if probe : bool then
        let! o := probe_device d now timeout in st_ret (default result o)
      else if skip : bool then poll_loop n now timeout result
      else let! o := poll_device_item d now timeout in st_ret (default result o)
  end.

Definition bvstk_mdio_service_step (s : bool) (now timeout : Z) : ST mdio_state bvstk_status_t :=
  locked s (fun st => st)
    (let! scanned := self (fun sv => bool_decide (is_Some (md_core sv)) ||
                                     bool_decide (is_Some (bus_take_write (md_bus sv)))) in
     let! result := (if scanned : bool then capture_loop 1024 0 timeout BVSTK_OK else st_ret BVSTK_OK) in
     let! core := self md_core in
     let! acked := match core with
                   | Some core => world (hw_mdio_ack_slave core)
                   | None => st_ret BVSTK_OK
                   end in
     let! result :=
       (if negb (is_ok acked) then
          update (fun sv => mset_stats (count_error (md_stats sv)) sv) ;; st_ret BVSTK_ERR_IO
        else st_ret result) in
     let! count := self md_device_count in
     poll_loop (Z.to_nat count) now timeout result).

Definition bvstk_mdio_service_poll (s : bool) (timeout : Z) : ST mdio_state bvstk_status_t :=
  let! now := world bvstk_platform_now_ms in bvstk_mdio_service_step s now timeout.
End service.

Arguments bvstk_mdio_service_t : clear implicits.
Arguments bvstk_mdio_bus_ops_t : clear implicits.
Arguments mdio_state : clear implicits.
