(* ===== verification/MdioRules.v ===== *)
(** * MdioRules: the rule lists of the MDIO service as sets

    A rule means: register, mask, value under the mask.  Adding, removing and
    clearing rules of a list are union, difference and the empty set of such
    triples, with the errors of a full list and of an absent rule. *)
From stdpp Require Import prelude gmap.
From Stdlib Require Import ZArith Lia.
From S2P Require Import Prelude Platform PlAccess I2cDevices ConfigValidate MdioService.
Local Open Scope Z_scope.

Implicit Types (rules : list mdio_rule_entry_t) (c : mdio_phy_config_t).

Definition rule_key (r : mdio_rule_entry_t) : Z * Z * Z :=
  (mr_reg r, mr_mask r, Z.land (mr_val r) (mr_mask r)).
Definition key (reg value mask : Z) : Z * Z * Z := (reg, mask, Z.land value mask).
Definition mdio_rule_set (rules : list mdio_rule_entry_t) (len : Z) : gset (Z * Z * Z) :=
  list_to_set (rule_key <$> prefix len rules).

Lemma policy_rule_equal_spec r reg value mask :
  policy_rule_equal r reg value mask = true <-> rule_key r = key reg value mask.
Proof.
  unfold policy_rule_equal, rule_key, key. rewrite !andb_true_iff, !Z.eqb_eq. split.
  - by intros [[-> ->] ->].
  - by intros [= -> -> ->].
Qed.

Lemma find_rule_spec rules len reg value mask :
  0 <= len <= alen rules ->
  match for_find (Z.to_nat len) 0 (fun i => policy_rule_equal (rules.[i]) reg value mask) with
  | Some _ => key reg value mask ∈ mdio_rule_set rules len
  | None => key reg value mask ∉ mdio_rule_set rules len
  end.
Proof.
  intros Hlen. unfold mdio_rule_set. destruct (for_find _ _ _) as [i|] eqn:E.
  - apply for_find_Some in E as (Hi & Hp & _). apply policy_rule_equal_spec in Hp.
    apply elem_of_list_to_set, list_elem_of_fmap. exists (rules.[i]). split; [done|].
    apply elem_of_prefix; [done|]. exists i. split; [lia|done].
  - rewrite elem_of_list_to_set, list_elem_of_fmap. intros (r & Hr & Hin).
    apply elem_of_prefix in Hin as (i & Hi & <-); [|done].
    rewrite for_find_None in E. symmetry in Hr. apply policy_rule_equal_spec in Hr.
    rewrite E in Hr; [done|lia].
Qed.

(** The rules that differ from the removed one, in their order. *)
Definition other_rule (reg value mask : Z) (r : mdio_rule_entry_t) : Prop :=
  rule_key r <> key reg value mask.
#[export] Instance other_rule_dec reg value mask r : Decision (other_rule reg value mask r).
Proof. unfold other_rule. apply _. Defined.

Definition kept (rules : list mdio_rule_entry_t) (reg value mask i : Z)
    (s : list mdio_rule_entry_t * Z) : Prop :=
  alen (fst s) = alen rules /\ 0 <= snd s <= i /\
  prefix (snd s) (fst s) = filter (other_rule reg value mask) (prefix i rules) /\
  forall k, i <= k < alen rules -> (fst s).[k] = rules.[k].

Lemma keep_loop_spec rules len reg value mask :
  0 <= len <= alen rules -> kept rules reg value mask len (keep_loop rules len reg value mask).
Proof.
  intros Hlen. unfold keep_loop.
  match goal with |- context [for_each _ _ ?body ?s0] =>
    pose proof (for_each_ind (kept rules reg value mask) (Z.to_nat len) 0 body s0) as H end.
  rewrite Z2Nat.id, Z.add_0_l in H by lia. apply H; [|done].
  intros i [r w] Hi (Hl & Hw & Hp & Hk). cbn [fst snd] in *. unfold kept.
  rewrite (Hk i), prefix_snoc_get, filter_app, filter_cons, filter_nil, <- Hp by lia.
  destruct (policy_rule_equal (rules.[i]) reg value mask) eqn:Er; cbn [negb fst snd].
  - apply policy_rule_equal_spec in Er. rewrite decide_False by (unfold other_rule; auto).
    rewrite app_nil_r. repeat split; try done; [lia..|]. intros k Hk'. apply Hk. lia.
  - assert (rule_key (rules.[i]) <> key reg value mask) by (rewrite <- policy_rule_equal_spec; congruence).
    rewrite decide_True by done. rewrite alen_aset, prefix_snoc by lia.
    repeat split; try done; [lia..|]. intros k Hk'. rewrite aget_aset_ne by lia. apply Hk. lia.
Qed.

Lemma prefix_clear rules n k :
  0 <= k -> prefix k (for_each n 0 (fun i a => a.[k + i <- inhabitant]) rules) = prefix k rules /\
  alen (for_each n 0 (fun i a => a.[k + i <- inhabitant]) rules) = alen rules.
Proof.
  intros Hk. pose proof (for_each_ind (fun i a => prefix k a = prefix k rules /\ alen a = alen rules) n 0
    (fun i (a : list mdio_rule_entry_t) => a.[k + i <- inhabitant]) rules) as H.
  apply H; [|done]. intros i a Hi [Hp Hl]. rewrite alen_aset. split; [|done]. rewrite <- Hp.
  unfold prefix, aset. apply take_insert_ge. lia.
Qed.

(** What one list operation does. *)
Lemma add_rule_to_spec rules len reg value mask :
  0 <= len <= alen rules -> alen rules = MDIO_CFG_RULES_MAX -> fits 16 value -> fits 16 mask ->
  let '(st, (rules', len')) := add_rule_to rules len reg value mask in
  alen rules' = alen rules /\ len <= len' <= MDIO_CFG_RULES_MAX /\
  (forall P : mdio_rule_entry_t -> Prop, Forall P (prefix len rules) ->
     (forall v, P (MdioRule reg v mask)) -> Forall P (prefix len' rules')) /\
  (st = BVSTK_OK /\ mdio_rule_set rules' len' = {[key reg value mask]} ∪ mdio_rule_set rules len \/
   st = BVSTK_ERR_RANGE /\ len = MDIO_CFG_RULES_MAX /\ key reg value mask ∉ mdio_rule_set rules len /\
   rules' = rules /\ len' = len).
Proof.
  intros Hlen Hl Hv Hm. unfold add_rule_to. pose proof (find_rule_spec rules len reg value mask Hlen) as Hf.
  destruct (for_find _ _ _); [|destruct (_ <=? len) eqn:E; bsimp].
  - split; [done|]. split; [lia|]. split; [done|]. left. split; [done|]. symmetry.
    by apply subseteq_union_1_L, singleton_subseteq_l.
  - split; [done|]. split; [lia|]. split; [done|]. right. repeat split; [lia|done].
  - assert (u16 (Z.land value mask) = Z.land value mask) as Hu by (apply wrap_id; by apply land_fits).
    rewrite alen_aset, Hu. split; [done|]. split; [lia|]. unfold mdio_rule_set. rewrite prefix_snoc by lia.
    split; [intros P HP Hnew; apply Forall_app; split; [done|by constructor]|]. left. split; [done|].
    rewrite fmap_app, list_to_set_app_L. cbn. unfold rule_key at 2. cbn [mr_reg mr_mask mr_val].
    rewrite <- Z.land_assoc, Z.land_diag, union_empty_r_L. apply union_comm_L.
Qed.

Lemma remove_rule_from_spec rules len reg value mask :
  0 <= len <= alen rules ->
  let '(st, (rules', len')) := remove_rule_from rules len reg value mask in
  alen rules' = alen rules /\ 0 <= len' <= len /\
  (forall P : mdio_rule_entry_t -> Prop, Forall P (prefix len rules) -> Forall P (prefix len' rules')) /\
  (st = BVSTK_OK /\ key reg value mask ∈ mdio_rule_set rules len /\
     mdio_rule_set rules' len' = mdio_rule_set rules len ∖ {[key reg value mask]} \/
   st = BVSTK_ERR_NOT_FOUND /\ key reg value mask ∉ mdio_rule_set rules len /\
     rules' = rules /\ len' = len).
Proof.
  intros Hlen. unfold remove_rule_from. pose proof (find_rule_spec rules len reg value mask Hlen) as Hf.
  destruct (for_find _ _ _).
  2:{ split; [done|]. split; [lia|]. split; [done|]. by right. }
  pose proof (keep_loop_spec rules len reg value mask Hlen) as (Hl & Hw & Hp & _).
  destruct (keep_loop _ _ _ _ _) as [r w]. cbn [fst snd] in *.
  pose proof (prefix_clear r (Z.to_nat (len - w)) w ltac:(lia)) as [Hp' Hl'].
  split; [by rewrite Hl'|]. split; [lia|]. rewrite Hp', Hp. split.
  { intros P HP. rewrite Forall_forall in HP |- *. intros x [_ Hx]%list_elem_of_filter. by apply HP. }
  left. split; [done|]. split; [done|]. unfold mdio_rule_set. rewrite Hp', Hp. apply set_eq. intros k.
  rewrite elem_of_difference, elem_of_singleton, !elem_of_list_to_set, !list_elem_of_fmap. split.
  - intros (x & -> & [Ho Hx]%list_elem_of_filter). split; [by eauto|exact Ho].
  - intros [(x & -> & Hx) Hne]. exists x. split; [done|]. by apply list_elem_of_filter.
Qed.
