(* ===== verification/MdioServiceSafety.v ===== *)
(** * MdioServiceSafety: what the MDIO service guarantees

    Over the operations of [MdioService]: the tables stay well formed (so every
    index is in bounds and no two devices share an address), what the host reads
    from a mailbox is the cached value or 0xFFFF, and only permitted values reach
    the bus, at most four captured ones per worker step.  The world behind the
    service is any one that obeys [lawful]. *)
From stdpp Require Import prelude gmap.
From Stdlib Require Import ZArith Lia.
From S2P Require Import Prelude Platform PlAccess I2cDevices ConfigValidate MdioCore MdioService MdioRules.
Local Open Scope Z_scope.

(** ** Well-formed tables *)

Section invariants.
Context {X CORE : Type} `{PL : Platform X} `{HWI : MdioHw X CORE}.
Local Abbreviation service := (bvstk_mdio_service_t X CORE).
Local Abbreviation state := (mdio_state X CORE).
Implicit Types (s : service) (w : state).

(** What callers install once and no operation changes. *)
Definition env s := (md_core s, md_bus s, md_events s, md_cache_sink s, md_cache_config_changed s, md_mutex s).

Definition in_range s (d : Z) : Prop := 0 <= d < md_device_count s.

(** Register numbers are bytes. *)
Definition mdio_config_bytes (c : mdio_phy_config_t) : Prop :=
  Forall (fits 8) (mc_autopoll_regs c) /\ Forall (fun e => fits 8 (ms_reg e)) (mc_settings c).

(** The configured devices: each accepted by the validator, no address twice. *)
Definition configs_ok s : Prop :=
  alen (md_devices s) = 8 /\ 0 <= md_device_count s <= 8 /\
  (forall d, in_range s d -> (mdio_config_sized (device s d) /\ mdio_config_bytes (device s d)) /\
     bvstk_mdio_config_validate (Some (device s d)) = BVSTK_OK) /\
  (forall d d', in_range s d -> in_range s d' ->
     mc_phy_addr (device s d) = mc_phy_addr (device s d') -> d = d').

(** The tables have their sizes and every poll index stays inside its list. *)
Definition tables_ok s : Prop :=
  alen (md_cache s) = 8 /\ (forall d, 0 <= d < 8 -> alen ((md_cache s).[d]) = 32) /\
  alen (md_poll_due s) = 8 /\ alen (md_probe_due s) = 8 /\ alen (md_poll_index s) = 8 /\
  alen (md_online s) = 8 /\
  (forall d, in_range s d -> 0 <= (md_poll_index s).[d] /\
     ((md_poll_index s).[d] = 0 \/ (md_poll_index s).[d] < mc_autopoll_regs_len (device s d))).

Lemma device_phy_range s d : configs_ok s -> in_range s d -> 0 <= mc_phy_addr (device s d) < 32.
Proof.
  intros (_ & _ & Hc & _) Hd. destruct (Hc d Hd) as [[Hsz _] Hv].
  rewrite mdio_validate_unfold in Hv. destruct (mdio_fields_ok _) eqn:Hf; [|done].
  apply mdio_fields_iff in Hf as (_ & _ & Hp & _); [|done]. destruct Hsz as (_&_&_&_&_&_&?&_). lia.
Qed.

Lemma device_reg_count s d : configs_ok s -> in_range s d -> 1 <= mc_reg_count (device s d) <= 32.
Proof.
  intros (_ & _ & Hc & _) Hd. destruct (Hc d Hd) as [[Hsz _] Hv].
  rewrite mdio_validate_unfold in Hv. destruct (mdio_fields_ok _) eqn:Hf; [|done].
  by apply mdio_fields_iff in Hf as (_ & _ & _ & Hp & _).
Qed.

Lemma check_ok s d r :
  configs_ok s -> 0 <= d -> 0 <= r -> check s d r = BVSTK_OK ->
  in_range s d /\ 0 <= r < 32.
Proof.
  intros Hc Hd Hr. unfold check. destruct (_ <=? d) eqn:E; [done|].
  destruct (r <? _) eqn:E'; [|done]. bsimp. intros _.
  assert (in_range s d) as Hin by (unfold in_range; lia).
  pose proof (device_reg_count s d Hc Hin). split; [done|lia].
Qed.

Lemma entry_set_entry d r e s d' r' :
  tables_ok s -> 0 <= d < 8 -> 0 <= r < 32 -> 0 <= d' < 8 -> 0 <= r' < 32 ->
  entry (set_entry d r e s) d' r' = if decide (d' = d /\ r' = r) then e else entry s d' r'.
Proof.
  intros (Hl & Hrow & _) Hd Hr Hd' Hr'. unfold entry, set_entry. cbn [md_cache mset_cache].
  destruct (decide (d' = d)) as [->|Hne].
  - rewrite aget_aset_eq by lia. destruct (decide (r' = r)) as [->|Hne].
    + rewrite decide_True by done. apply aget_aset_eq. by rewrite Hrow.
    + rewrite decide_False by (by intros [_ ?]). apply aget_aset_ne; lia.
  - rewrite decide_False by (by intros [? _]). by rewrite aget_aset_ne by lia.
Qed.

Lemma tables_set_entry d r e s : tables_ok s -> 0 <= d < 8 -> tables_ok (set_entry d r e s).
Proof.
  intros (Hl & Hrow & Hrest) Hd. unfold tables_ok, set_entry. cbn [md_cache mset_cache].
  split; [by rewrite alen_aset|]. split; [|exact Hrest]. intros d' Hd'.
  destruct (decide (d' = d)) as [->|Hne].
  - rewrite aget_aset_eq by lia. by rewrite alen_aset, Hrow.
  - rewrite aget_aset_ne by lia. by apply Hrow.
Qed.

(** ** The world behind the service

    [shadow]: what the host reads from the mailbox of a PHY register;
    [wlog]: the writes that reached the bus. *)

Context (shadow : X -> Z -> Z -> Z) (wlog : X -> list (Z * Z * Z)).

Definition same_world (x x' : X) : Prop :=
  wlog x' = wlog x /\ forall p r, shadow x' p r = shadow x p r.

Context (E : option CORE * bvstk_mdio_bus_ops_t X * bvstk_event_sink_t X * bvstk_cache_sink_t X *
             option (Z -> mdio_phy_config_t -> X -> X) * bvstk_mutex_t X).

(** The environment does what its interface says: publishing replaces one host
    answer, a write is one bus write, and nothing else does either. *)
Record lawful : Prop := {
  law_publish : forall w phy reg v, env (svc w) = E -> 0 <= phy < 32 -> 0 <= reg < 32 ->
    runs (publish phy reg v) w (fun st w' => st = BVSTK_OK /\ wlog (wld w') = wlog (wld w) /\
      forall p r, shadow (wld w') p r =
        if decide (p = phy /\ r = reg) then v else shadow (wld w) p r);
  law_read : forall w phy r timeout, env (svc w) = E ->
    runs (bus_or_core_read phy r timeout) w (fun _ w' => same_world (wld w) (wld w'));
  law_take : forall w phy r, env (svc w) = E ->
    runs (bus_or_core_take phy r) w (fun _ w' => same_world (wld w) (wld w'));
  law_write : forall w phy r v source timeout, env (svc w) = E ->
    runs (bus_or_core_write phy r v source timeout) w (fun _ w' =>
      wlog (wld w') = wlog (wld w) ++ [(phy, r, v)] /\
      forall p r, shadow (wld w') p r = shadow (wld w) p r);
  law_event : forall w type st source phy reg v flags, env (svc w) = E ->
    runs (emit_flags type st source phy reg v flags) w (fun _ w' => same_world (wld w) (wld w'));
  law_now : forall x, same_world x (snd (bvstk_platform_now_ms x));
  law_changed : forall w d r, env (svc w) = E ->
    runs (cache_changed d r) w (fun _ w' => same_world (wld w) (wld w'));
  law_presence : forall d p x, same_world x (bvstk_cache_sink_presence (E.1.1.2) d p x);
  law_config : forall f d c x, E.1.2 = Some f -> same_world x (f d c x);
  law_lock : forall t x, same_world x (snd (bvstk_mutex_lock (Some E.2) t x));
  law_unlock : forall x, same_world x (bvstk_mutex_unlock (Some E.2) x);
  law_ack : forall core x, E.1.1.1.1.1 = Some core -> same_world x (snd (hw_mdio_ack_slave core x))
}.

Context (Hlaw : lawful).

(** The host sees the cached value, or all ones. *)
Definition host_view w : Prop :=
  forall d r, in_range (svc w) d -> 0 <= r < 32 ->
    shadow (wld w) (mc_phy_addr (device (svc w) d)) r =
      if me_valid (entry (svc w) d r) =? 0 then 0xFFFF else me_value (entry (svc w) d r).

Definition ok w : Prop := env (svc w) = E /\ configs_ok (svc w) /\ tables_ok (svc w).

(** What every operation that keeps the configuration does to the state; [ws]
    are the writes it puts on the bus. *)
Definition evolves w w' (ws : list (Z * Z * Z)) : Prop :=
  ok w' /\ md_devices (svc w') = md_devices (svc w) /\
  md_device_count (svc w') = md_device_count (svc w) /\
  wlog (wld w') = wlog (wld w) ++ ws /\ (host_view w -> host_view w').

Lemma evolves_trans w1 w2 w3 l1 l2 : evolves w1 w2 l1 -> evolves w2 w3 l2 -> evolves w1 w3 (l1 ++ l2).
Proof.
  intros (_ & H1 & H2 & H3 & H4) (H0 & H1' & H2' & H3' & H4').
  split; [done|]. split; [congruence|]. split; [congruence|].
  split; [by rewrite H3', H3, app_assoc|auto].
Qed.

Lemma evolves_refl w : ok w -> evolves w w [].
Proof. intros Hok. split; [done|]. split; [done|]. split; [done|]. by rewrite app_nil_r. Qed.

Lemma evolves_in w w' ws d : evolves w w' ws -> in_range (svc w) d -> in_range (svc w') d.
Proof. intros (_ & _ & Hc & _). unfold in_range. by rewrite Hc. Qed.

Lemma evolves_device w w' ws d : evolves w w' ws -> device (svc w') d = device (svc w) d.
Proof. intros (_ & Hd & _). unfold device. by rewrite Hd. Qed.

(** A step of the world the service does not notice. *)
Lemma evolves_world w x :
  ok w -> same_world (wld w) x -> evolves w (MdioState (svc w) x) [].
Proof.
  intros Hok [Hl Hs]. split; [done|]. split; [done|]. split; [done|].
  split; [by rewrite app_nil_r|]. intros Hv d r Hd Hr. cbn. rewrite Hs. by apply Hv.
Qed.

(** A change of the service outside its devices, cache and poll indices. *)
Lemma evolves_update w f :
  ok w ->
  env (f (svc w)) = env (svc w) -> md_devices (f (svc w)) = md_devices (svc w) ->
  md_device_count (f (svc w)) = md_device_count (svc w) -> md_cache (f (svc w)) = md_cache (svc w) ->
  tables_ok (f (svc w)) -> evolves w (MdioState (f (svc w)) (wld w)) [].
Proof.
  intros (He & (Hc1 & Hc2 & Hc3 & Hc4) & Ht) Hfe Hfd Hfc Hfk Hft.
  split; [split; [by cbn; rewrite Hfe|]; split; [|done]|].
  - unfold configs_ok, in_range, device. cbn. rewrite Hfd, Hfc. done.
  - split; [done|]. split; [done|]. split; [by rewrite app_nil_r|]. intros Hv d r Hd Hr.
    unfold in_range, device, entry in *. cbn in *. rewrite Hfd, Hfk, Hfc in *. by apply Hv.
Qed.

(** Operations whose only effect is on the world. *)
Definition svc_kept {A} (m : ST state A) : Prop := forall w, svc (snd (m w)) = svc w.

Lemma world_kept {A} (m : ST X A) : svc_kept (world m).
Proof. intros w. unfold world. by destruct (m (wld w)). Qed.
Lemma publish_kept phy reg v : svc_kept (publish (CORE:=CORE) phy reg v).
Proof. intros w. unfold publish. repeat case_match; try apply world_kept; done. Qed.
Lemma bus_read_kept phy r t : svc_kept (bus_or_core_read (CORE:=CORE) phy r t).
Proof. intros w. unfold bus_or_core_read. repeat case_match; try apply world_kept; done. Qed.
Lemma bus_write_kept phy r v src t : svc_kept (bus_or_core_write (CORE:=CORE) phy r v src t).
Proof. intros w. unfold bus_or_core_write. repeat case_match; try apply world_kept; done. Qed.
Lemma bus_take_kept phy r : svc_kept (bus_or_core_take (CORE:=CORE) phy r).
Proof. intros w. unfold bus_or_core_take. repeat case_match; try apply world_kept; done. Qed.
Lemma emit_kept ty st src phy reg v fl : svc_kept (emit_flags (CORE:=CORE) ty st src phy reg v fl).
Proof. intros w. unfold emit_flags. repeat case_match; done. Qed.
Lemma changed_kept d r : svc_kept (cache_changed (CORE:=CORE) d r).
Proof. done. Qed.

(** An operation that keeps service and world, up to what is not modelled. *)
Lemma evolves_quiet {A} (m : ST state A) w :
  ok w -> svc_kept m -> same_world (wld w) (wld (snd (m w))) ->
  runs m w (fun _ w' => evolves w w' [] /\ svc w' = svc w).
Proof.
  intros Hok Hk Hs. specialize (Hk w). unfold runs. split; [|done].
  destruct (snd (m w)) as [s' x']. cbn in *. subst s'. by apply evolves_world.
Qed.

Lemma emit_flags_ok ty st src phy reg v fl w :
  ok w -> runs (emit_flags ty st src phy reg v fl) w (fun _ w' => evolves w w' [] /\ svc w' = svc w).
Proof. intros Hok. apply evolves_quiet; [done|apply emit_kept|]. apply (law_event Hlaw), Hok. Qed.

Lemma emit_ok ty st src phy reg v w :
  ok w -> runs (emit ty st src phy reg v) w (fun _ w' => evolves w w' [] /\ svc w' = svc w).
Proof. apply emit_flags_ok. Qed.

Lemma cache_changed_ok d r w :
  ok w -> runs (cache_changed d r) w (fun _ w' => evolves w w' [] /\ svc w' = svc w).
Proof. intros Hok. apply evolves_quiet; [done|apply changed_kept|]. apply (law_changed Hlaw), Hok. Qed.

(** Replace one host answer and the cache entry behind it. *)
Lemma host_view_set w w' d r e v :
  ok w -> host_view w -> in_range (svc w) d -> 0 <= r < 32 ->
  svc w' = set_entry d r e (svc w) ->
  (forall p q, shadow (wld w') p q =
     if decide (p = mc_phy_addr (device (svc w) d) /\ q = r) then v else shadow (wld w) p q) ->
  v = (if me_valid e =? 0 then 0xFFFF else me_value e) -> host_view w'.
Proof.
  intros (_ & Hc & Ht) Hv Hd Hr Hs Hsh He d' r' Hd' Hr'. rewrite Hs in *.
  change (device (set_entry d r e (svc w)) d') with (device (svc w) d').
  change (in_range (svc w) d') in Hd'. pose proof Hc as (_ & Hn & _ & Hinj).
  unfold in_range in Hd, Hd'. rewrite Hsh, entry_set_entry by (done || lia).
  destruct (decide (d' = d /\ r' = r)) as [[-> ->]|Hne].
  - by rewrite decide_True by done.
  - rewrite decide_False; [by apply Hv|]. intros [Hp ->]. apply Hne. split; [|done].
    by apply Hinj.
Qed.

Lemma ok_set_entry w d r e :
  ok w -> in_range (svc w) d -> ok (MdioState (set_entry d r e (svc w)) (wld w)).
Proof.
  intros (He & Hc & Ht) Hd. split; [done|]. split; [done|]. apply tables_set_entry; [done|].
  destruct Hc as (_ & Hn & _). unfold in_range in Hd. lia.
Qed.

Lemma publish_ok d r v w :
  ok w -> in_range (svc w) d -> 0 <= r < 32 ->
  runs (publish (mc_phy_addr (device (svc w) d)) r v) w (fun st w' =>
    st = BVSTK_OK /\ svc w' = svc w /\ wlog (wld w') = wlog (wld w) /\
    forall p q, shadow (wld w') p q =
      if decide (p = mc_phy_addr (device (svc w) d) /\ q = r) then v else shadow (wld w) p q).
Proof.
  intros Hok Hd Hr. pose proof (device_phy_range _ _ (proj1 (proj2 Hok)) Hd) as Hp.
  pose proof (law_publish Hlaw w _ r v (proj1 Hok) Hp Hr) as H.
  unfold runs in *. destruct H as (H1 & H2 & H3). split; [done|].
  split; [apply publish_kept|]. done.
Qed.

(** The entry goes invalid and the host sees all ones. *)
Definition drop_entry (d r : Z) (s : service) : service :=
  let e := entry s d r in set_entry d r (MdioEntry (me_value e) 0 (me_seeded e) (me_updated_ms e)) s.

(** Publishing and setting an entry, in either order, with quiet steps around. *)
Lemma evolves_entry w w' d r e v :
  ok w -> in_range (svc w) d -> 0 <= r < 32 ->
  svc w' = set_entry d r e (svc w) -> wlog (wld w') = wlog (wld w) ->
  (forall p q, shadow (wld w') p q =
     if decide (p = mc_phy_addr (device (svc w) d) /\ q = r) then v else shadow (wld w) p q) ->
  v = (if me_valid e =? 0 then 0xFFFF else me_value e) -> evolves w w' [].
Proof.
  intros Hok Hd Hr Hs Hl Hsh He. split.
  - destruct w' as [s' x']. cbn in *. subst s'. destruct (ok_set_entry w d r e Hok Hd) as (H1 & H2 & H3).
    split; [exact H1|]. by split.
  - rewrite Hs. split; [done|]. split; [done|]. split; [by rewrite app_nil_r|].
    intros Hv. by eapply host_view_set.
Qed.

(** A change of statistics, due times or presence flags. *)
Lemma update_ok f w :
  ok w ->
  env (f (svc w)) = env (svc w) -> md_devices (f (svc w)) = md_devices (svc w) ->
  md_device_count (f (svc w)) = md_device_count (svc w) -> md_cache (f (svc w)) = md_cache (svc w) ->
  tables_ok (f (svc w)) ->
  runs (update f) w (fun _ w' => evolves w w' [] /\ svc w' = f (svc w)).
Proof. intros. split; [|done]. by apply evolves_update. Qed.

Lemma stats_ok f w :
  ok w -> runs (update (fun s => mset_stats (f s) s)) w (fun _ w' =>
    evolves w w' [] /\ svc w' = mset_stats (f (svc w)) (svc w)).
Proof. intros Hok. apply (update_ok (fun s => mset_stats (f s) s)); try done. apply Hok. Qed.

Lemma evolves_self {A B} (f : service -> A) (k : A -> ST state B) w (R : B -> state -> Prop) :
  runs (k (f (svc w))) w R -> runs (st_bind (self f) k) w R.
Proof. done. Qed.

Lemma entry_after w d r e :
  ok w -> in_range (svc w) d -> 0 <= r < 32 -> entry (set_entry d r e (svc w)) d r = e.
Proof.
  intros (_ & (_ & Hn & _) & Ht) Hd Hr. unfold in_range in Hd.
  rewrite entry_set_entry by (done || lia). by rewrite decide_True.
Qed.

(** A failed bus read: drop the entry, blank the host's answer. *)
Lemma read_failed_ok d r probe w :
  ok w -> in_range (svc w) d -> 0 <= r < 32 ->
  runs (update (drop_entry d r) ;;
        let! _ := publish (mc_phy_addr (device (svc w) d)) r 0xFFFF in
        (if negb probe then update (fun s => mset_stats (count_error (md_stats s)) s) else st_ret tt)) w
    (fun _ w' => evolves w w' [] /\ me_valid (entry (svc w') d r) = 0).
Proof.
  intros Hok Hd Hr. apply runs_bind. unfold runs at 1. cbn [snd fst update].
  set (w1 := MdioState (drop_entry d r (svc w)) (wld w)).
  assert (ok w1) as Hok1 by (by apply ok_set_entry).
  apply runs_bind. eapply runs_mono; [apply (publish_ok d r _ w1 Hok1 Hd Hr)|].
  intros st w2 (-> & Hs2 & Hl2 & Hsh2).
  assert (evolves w w2 []) as H2.
  { by apply (evolves_entry w w2 d r (MdioEntry (me_value (entry (svc w) d r)) 0
      (me_seeded (entry (svc w) d r)) (me_updated_ms (entry (svc w) d r))) 0xFFFF). }
  assert (me_valid (entry (svc w2) d r) = 0) as Hv.
  { rewrite Hs2. cbn [svc w1]. unfold drop_entry. by rewrite (entry_after w). }
  destruct probe; cbn [negb]; [by apply runs_ret|].
  eapply runs_mono; [apply (stats_ok (fun s => count_error (md_stats s))), H2|].
  intros ? w3 [H3 Hs3]. split; [exact (evolves_trans _ _ _ [] [] H2 H3)|]. by rewrite Hs3.
Qed.

(** A successful one: publish and store. *)
Lemma read_done_ok d r v w :
  ok w -> in_range (svc w) d -> 0 <= r < 32 ->
  runs (let! st := publish (mc_phy_addr (device (svc w) d)) r v in
        if is_ok st then
          let! now := world bvstk_platform_now_ms in
          update (set_entry d r (MdioEntry v 1 0 now)) ;; st_ret st
        else st_ret st) w (fun st w' => st = BVSTK_OK /\ evolves w w' [] /\
    exists now, entry (svc w') d r = MdioEntry v 1 0 now).
Proof.
  intros Hok Hd Hr. apply runs_bind. eapply runs_mono; [by apply publish_ok|].
  intros st w1 (-> & Hs1 & Hl1 & Hsh1). cbn [is_ok]. apply runs_bind. unfold runs at 1.
  pose proof (world_kept (bvstk_platform_now_ms) w1) as Hk.
  pose proof (law_now Hlaw (wld w1)) as [Hl2 Hsh2]. unfold world in *.
  destruct (bvstk_platform_now_ms (wld w1)) as [now x2]. cbn [fst snd svc wld] in *.
  apply runs_bind. unfold runs at 1. cbn [fst snd update]. apply runs_ret. split; [done|]. split.
  - apply (evolves_entry _ _ d r (MdioEntry v 1 0 now) v); try done.
    + cbn. by rewrite Hs1.
    + cbn. congruence.
    + intros p q. cbn. by rewrite Hsh2, Hsh1.
  - exists now. cbn. rewrite Hs1. by apply entry_after.
Qed.

(** A bus read: the reply of the bus, which the cache keeps if it succeeded. *)
Definition read_result w d r timeout (o : bvstk_status_t * Z) w' : Prop :=
  o = fst (bus_or_core_read (mc_phy_addr (device (svc w) d)) r timeout w) /\
  if is_ok (fst o) then exists now, entry (svc w') d r = MdioEntry (snd o) 1 0 now
  else me_valid (entry (svc w') d r) = 0.

Lemma read_phy_spec d r source timeout probe w :
  ok w -> in_range (svc w) d -> 0 <= r < 32 ->
  runs (read_phy d r source timeout probe) w (fun o w' => evolves w w' [] /\ read_result w d r timeout o w').
Proof.
  intros Hok Hd Hr. unfold read_phy, read_result. apply evolves_self.
  set (o := fst (bus_or_core_read (mc_phy_addr (device (svc w) d)) r timeout w)).
  apply runs_bind. eapply (runs_mono _ _ (fun a w1 => a = o /\ evolves w w1 [] /\ svc w1 = svc w)).
  { split; [done|]. apply (evolves_quiet _ w Hok); [apply bus_read_kept|]. apply (law_read Hlaw), Hok. }
  intros a w1 (-> & H1 & Hs1). destruct o as [st v]. apply evolves_self.
  apply runs_bind. eapply runs_mono; [apply emit_flags_ok, H1|]. intros ? w2 [H2 Hs2].
  pose proof (evolves_trans _ _ _ [] [] H1 H2) as H12.
  apply runs_bind. eapply runs_mono; [apply (stats_ok (fun s => count_read (md_stats s))), H2|].
  intros ? w3 [H3 Hs3]. pose proof (evolves_trans _ _ _ [] [] H12 H3) as H13. cbn [app] in H13.
  pose proof (evolves_in _ _ _ _ H13 Hd) as Hd3.
  replace (mc_phy_addr (device (svc w) d)) with (mc_phy_addr (device (svc w3) d))
    by (by rewrite (evolves_device _ _ _ d H13)).
  apply runs_bind. eapply (runs_mono _ _ (fun st' w4 => st' = st /\ evolves w w4 [] /\
    mc_phy_addr (device (svc w4) d) = mc_phy_addr (device (svc w3) d) /\
    (is_ok st = true -> exists now, entry (svc w4) d r = MdioEntry v 1 0 now))).
  { destruct (is_ok st) eqn:Est.
    - apply is_ok_true in Est as ->. eapply runs_mono; [apply read_done_ok; [apply H13|done|done]|].
      intros ? w4 (-> & H4 & He). split; [done|]. split; [exact (evolves_trans _ _ _ [] [] H13 H4)|].
      by rewrite (evolves_device _ _ _ d H4).
    - apply runs_ret. by repeat (split; [done|]). }
  intros st' w4 (-> & H4 & Hp4 & He4). rewrite <- Hp4. pose proof (evolves_in _ _ _ _ H4 Hd) as Hd4.
  pose (Q w := if is_ok st then exists now, entry (svc w) d r = MdioEntry v 1 0 now
               else me_valid (entry (svc w) d r) = 0).
  apply runs_bind. eapply (runs_mono _ _ (fun _ w5 => evolves w w5 [] /\ Q w5)).
  { unfold Q. destruct (is_ok st) eqn:Est; cbn [negb]; [apply runs_ret; split; [done|by apply He4]|].
    eapply runs_mono; [apply read_failed_ok; [apply H4|done|done]|]. intros ? w5 [H5 Hv5].
    split; [exact (evolves_trans _ _ _ [] [] H4 H5)|done]. }
  intros ? w5 [H5 HQ5]. apply runs_bind. eapply (runs_mono _ _ (fun _ w6 => evolves w w6 [] /\ Q w6)).
  { destruct (negb probe); [|by apply runs_ret].
    eapply runs_mono; [apply cache_changed_ok, H5|]. intros ? w6 [H6 Hs6].
    split; [exact (evolves_trans _ _ _ [] [] H5 H6)|]. unfold Q. by rewrite Hs6. }
  intros ? w6 [H6 HQ6]. apply runs_ret. split; [done|]. split; [done|exact HQ6].
Qed.

Lemma read_phy_ok d r source timeout probe w :
  ok w -> in_range (svc w) d -> 0 <= r < 32 ->
  runs (read_phy d r source timeout probe) w (fun _ w' => evolves w w' []).
Proof. intros. eapply runs_mono; [by apply read_phy_spec|]. by intros ? ? [? _]. Qed.

(** *** Invalidation *)

(** Steps nobody but the observers notices. *)
Definition silent w w' : Prop := svc w' = svc w /\ same_world (wld w) (wld w').

Lemma silent_trans w1 w2 w3 : silent w1 w2 -> silent w2 w3 -> silent w1 w3.
Proof.
  intros (H1 & Hl1 & Hs1) (H2 & Hl2 & Hs2). split; [congruence|]. split; [congruence|].
  intros p q. by rewrite Hs2, Hs1.
Qed.

Lemma silent_ok w w' : ok w -> silent w w' -> ok w'.
Proof. intros Hok [Hs _]. unfold ok. by rewrite Hs. Qed.

Lemma silent_evolves w w' : ok w -> silent w w' -> evolves w w' [].
Proof.
  intros Hok [Hs Hw]. destruct w' as [s' x']. cbn in *. subst s'. by apply evolves_world.
Qed.

Lemma changed_silent d r w : ok w -> runs (cache_changed d r) w (fun _ w' => silent w w').
Proof. intros Hok. split; [done|]. apply (law_changed Hlaw), Hok. Qed.

Lemma presence_silent d p w :
  ok w -> runs (worldf (bvstk_cache_sink_presence (md_cache_sink (svc w)) d p)) w
    (fun _ w' => silent w w').
Proof.
  intros Hok. split; [done|]. cbn.
  replace (md_cache_sink (svc w)) with (E.1.1.2) by (rewrite <- (proj1 Hok); done).
  apply (law_presence Hlaw).
Qed.

Lemma changed_loop_silent n d r w : ok w -> runs (changed_loop n d r) w (fun _ w' => silent w w').
Proof.
  revert r w. induction n as [|n IH]; intros r w Hok; cbn [changed_loop]; [done|].
  apply runs_bind. eapply runs_mono; [by apply changed_silent|]. intros ? w1 H1.
  eapply runs_mono; [apply IH; exact (silent_ok _ _ Hok H1)|]. intros ? w2 H2.
  exact (silent_trans _ _ _ H1 H2).
Qed.

Lemma blank_loop_ok n d r result w :
  ok w -> in_range (svc w) d -> 0 <= r -> r + Z.of_nat n <= 32 ->
  runs (blank_loop n d r result) w (fun st w' => st = result /\ svc w' = svc w /\
    wlog (wld w') = wlog (wld w) /\
    forall p q, shadow (wld w') p q =
      if decide (p = mc_phy_addr (device (svc w) d) /\ r <= q < r + Z.of_nat n) then 0xFFFF
      else shadow (wld w) p q).
Proof.
  revert r result w. induction n as [|n IH]; intros r result w Hok Hd Hr Hn; cbn [blank_loop].
  { apply runs_ret. split; [done|]. split; [done|]. split; [done|]. intros p q.
    by rewrite decide_False by lia. }
  apply evolves_self. apply runs_bind. eapply runs_mono; [apply publish_ok; [done|done|lia]|].
  intros st w1 (-> & Hs1 & Hl1 & Hsh1). cbn [is_ok negb].
  assert (ok w1) as Hok1 by (destruct Hok as (He & Hc & Ht); unfold ok; by rewrite Hs1).
  eapply runs_mono; [apply IH; [done|by rewrite Hs1|lia|lia]|].
  intros st w2 (-> & Hs2 & Hl2 & Hsh2). split; [done|]. split; [congruence|]. split; [congruence|].
  intros p q. rewrite Hsh2, Hsh1, Hs1. repeat case_decide; try done; exfalso; lia.
Qed.

Lemma tables_clear_device d s : tables_ok s -> 0 <= d < 8 -> tables_ok (clear_device d s).
Proof.
  intros (Hl & Hrow & H1 & H2 & H3 & H4 & H5) Hd. unfold tables_ok, clear_device.
  cbn [md_cache md_poll_due md_probe_due md_poll_index md_online mset_cache mset_online mset_probe_due].
  rewrite !alen_aset. repeat (split; [done|]). split; [|by repeat (split; [done|])].
  intros d' Hd'. destruct (decide (d' = d)) as [->|].
  - by rewrite aget_aset_eq by lia.
  - rewrite aget_aset_ne by lia. by apply Hrow.
Qed.

Lemma entry_clear_device d s d' r' :
  tables_ok s -> 0 <= d < 8 -> 0 <= d' < 8 -> 0 <= r' < 32 ->
  entry (clear_device d s) d' r' = if decide (d' = d) then zero_entry else entry s d' r'.
Proof.
  intros (Hl & _) Hd Hd' Hr'. unfold entry, clear_device. cbn [md_cache mset_cache mset_online mset_probe_due].
  destruct (decide (d' = d)) as [->|].
  - rewrite aget_aset_eq by lia. by apply aget_fill.
  - by rewrite aget_aset_ne by lia.
Qed.

(** After [invalidate] the host sees all ones at every register of the device. *)
Lemma invalidate_run d w :
  ok w -> in_range (svc w) d ->
  runs (invalidate d) w (fun st w' => st = BVSTK_OK /\ svc w' = clear_device d (svc w) /\
    wlog (wld w') = wlog (wld w) /\
    forall p q, shadow (wld w') p q =
      if decide (p = mc_phy_addr (device (svc w) d) /\ 0 <= q < 32) then 0xFFFF
      else shadow (wld w) p q).
Proof.
  intros Hok Hd. pose proof Hok as (He & Hc & Ht). pose proof Hc as (_ & Hn & _).
  unfold invalidate. apply runs_bind. unfold runs at 1. cbn [fst snd update].
  set (w1 := MdioState (clear_device d (svc w)) (wld w)).
  assert (ok w1) as Hok1.
  { split; [done|]. split; [done|]. apply tables_clear_device; [done|]. unfold in_range in Hd. lia. }
  apply evolves_self. apply runs_bind. eapply runs_mono; [by apply changed_loop_silent|].
  intros ? w2 H2. apply evolves_self. apply runs_bind.
  eapply runs_mono; [apply presence_silent; exact (silent_ok _ _ Hok1 H2)|].
  intros ? w3 H3. pose proof (silent_trans _ _ _ H2 H3) as (Hs3 & Hl3 & Hsh3).
  pose proof (silent_ok _ _ (silent_ok _ _ Hok1 H2) H3) as Hok3.
  eapply runs_mono; [apply blank_loop_ok; [done| |done|done]|].
  { rewrite Hs3. exact Hd. }
  intros st w4 (-> & Hs4 & Hl4 & Hsh4). split; [done|]. split; [by rewrite Hs4, Hs3|].
  split; [by rewrite Hl4, Hl3|]. intros p q. rewrite Hsh4, Hs3, Hsh3. done.
Qed.

Lemma invalidate_ok d w :
  ok w -> in_range (svc w) d ->
  runs (invalidate d) w (fun st w' => st = BVSTK_OK /\ evolves w w' []).
Proof.
  intros Hok Hd. eapply runs_mono; [by apply invalidate_run|].
  intros st w' (-> & Hs & Hl & Hsh). split; [done|].
  pose proof Hok as (He & Hc & Ht). pose proof Hc as (_ & Hn & _ & Hinj).
  split.
  { unfold ok. rewrite Hs. split; [done|]. split; [done|]. apply tables_clear_device; [done|].
    unfold in_range in Hd. lia. }
  rewrite Hs. split; [done|]. split; [done|]. split; [by rewrite app_nil_r|].
  intros Hv d' r' Hd' Hr'. rewrite Hs in Hd'. change (in_range (svc w) d') in Hd'. rewrite Hs.
  change (device (clear_device d (svc w)) d') with (device (svc w) d').
  unfold in_range in *. rewrite Hsh, entry_clear_device by (done || lia).
  destruct (decide (d' = d)) as [->|Hne].
  - by rewrite decide_True by done.
  - rewrite decide_False; [by apply Hv|]. intros [Hp _]. by apply Hne, Hinj.
Qed.

(** *** Writes *)

(** Dropping the entry, telling the observers, blanking the host's answer. *)
Lemma drop_blank_ok d r w :
  ok w -> in_range (svc w) d -> 0 <= r < 32 ->
  runs (update (drop_entry d r) ;; cache_changed d r ;;
        let! _ := publish (mc_phy_addr (device (svc w) d)) r 0xFFFF in st_ret tt) w
    (fun _ w' => evolves w w' []).
Proof.
  intros Hok Hd Hr. apply runs_bind. unfold runs at 1. cbn [fst snd update].
  set (w1 := MdioState (drop_entry d r (svc w)) (wld w)).
  assert (ok w1) as Hok1 by (by apply ok_set_entry).
  apply runs_bind. eapply runs_mono; [by apply changed_silent|]. intros ? w2 H2.
  pose proof (silent_ok _ _ Hok1 H2) as Hok2. destruct H2 as (Hs2 & Hl2 & Hsh2).
  replace (mc_phy_addr (device (svc w) d)) with (mc_phy_addr (device (svc w2) d)) by (by rewrite Hs2).
  apply runs_bind. eapply runs_mono; [apply publish_ok; [done|by rewrite Hs2|done]|].
  intros st w3 (_ & Hs3 & Hl3 & Hsh3). apply runs_ret.
  apply (evolves_entry w w3 d r (MdioEntry (me_value (entry (svc w) d r)) 0
    (me_seeded (entry (svc w) d r)) (me_updated_ms (entry (svc w) d r))) 0xFFFF); try done.
  - by rewrite Hs3, Hs2.
  - by rewrite Hl3, Hl2.
  - intros p q. rewrite Hsh3, Hsh2, Hs2. done.
Qed.

Lemma bus_write_ok phy r v source timeout w :
  ok w -> runs (bus_or_core_write phy r v source timeout) w (fun _ w' => evolves w w' [(phy, r, v)]).
Proof.
  intros Hok. pose proof (bus_write_kept phy r v source timeout w) as Hk.
  pose proof (law_write Hlaw w phy r v source timeout (proj1 Hok)) as H. unfold runs in *.
  destruct H as [Hl Hs]. unfold evolves, ok. rewrite Hk. split; [done|]. split; [done|]. split; [done|].
  split; [done|]. intros Hv d' r' Hd' Hr'. rewrite Hk in *. rewrite Hs. by apply Hv.
Qed.

(** Restarting the poll cycle of a device. *)
Lemma restart_poll_ok d w :
  ok w -> in_range (svc w) d ->
  runs (update (fun s => mset_poll_index ((md_poll_index s).[d <- 0])
                           (mset_poll_due ((md_poll_due s).[d <- 0]) s))) w
    (fun _ w' => evolves w w' []).
Proof.
  intros Hok Hd. pose proof Hok as (_ & Hc & Ht). pose proof Hc as (_ & Hn & _).
  eapply runs_mono.
  { apply (update_ok (fun s => mset_poll_index ((md_poll_index s).[d <- 0])
      (mset_poll_due ((md_poll_due s).[d <- 0]) s)) w); try done.
    destruct Ht as (H1 & H2 & H3 & H4 & H5 & H6 & H7). unfold tables_ok.
    cbn [md_cache md_poll_due md_probe_due md_poll_index md_online mset_poll_index mset_poll_due].
    rewrite !alen_aset. repeat (split; [done|]). intros d' Hd'.
    change (in_range (svc w) d') in Hd'. unfold in_range in *.
    destruct (decide (d' = d)) as [->|].
    - rewrite aget_aset_eq by lia. split; [lia|by left].
    - rewrite aget_aset_ne by lia. by apply H7. }
  by intros ? w' [H _].
Qed.

Lemma write_permitted_ok d r v source timeout was_online w :
  ok w -> in_range (svc w) d -> 0 <= r < 32 ->
  runs (write_permitted d r v source timeout (mc_phy_addr (device (svc w) d)) was_online) w
    (fun _ w' => evolves w w' [(mc_phy_addr (device (svc w) d), r, v)]).
Proof.
  intros Hok Hd Hr. set (phy := mc_phy_addr (device (svc w) d)). unfold write_permitted.
  apply runs_bind. eapply (runs_mono _ _ (fun _ w1 => evolves w w1 [])).
  { destruct ((r =? 0) && truth (Z.land v 0x8000)).
    - apply runs_bind. eapply runs_mono; [by apply invalidate_ok|]. by intros ? w1 [_ H1].
    - by apply drop_blank_ok. }
  intros ? w1 H1. apply runs_bind. eapply runs_mono; [apply bus_write_ok, H1|]. intros st w2 H2.
  pose proof (evolves_trans _ _ _ [] _ H1 H2) as H12. cbn [app] in H12.
  apply runs_bind. eapply runs_mono; [apply emit_flags_ok, H2|]. intros ? w3 [H3 _].
  pose proof (evolves_trans _ _ _ _ [] H12 H3) as H13. rewrite app_nil_r in H13.
  apply runs_bind. eapply (runs_mono _ _ (fun _ w4 => evolves w w4 [(phy, r, v)])); [|done].
  destruct (is_ok st); (apply runs_bind; eapply runs_mono).
  - apply (stats_ok (fun s => count_write (md_stats s))), H3.
  - intros ? w4 [H4 _]. pose proof (evolves_trans _ _ _ _ [] H13 H4) as H14. rewrite app_nil_r in H14.
    apply runs_bind. eapply runs_mono.
    { apply read_phy_ok; [apply H4|exact (evolves_in _ _ _ _ H14 Hd)|done]. }
    intros ? w5 H5. pose proof (evolves_trans _ _ _ _ [] H14 H5) as H15. rewrite app_nil_r in H15.
    apply runs_bind. eapply runs_mono; [apply restart_poll_ok; [apply H5|exact (evolves_in _ _ _ _ H15 Hd)]|].
    intros ? w6 H6. pose proof (evolves_trans _ _ _ _ [] H15 H6) as H16. rewrite app_nil_r in H16.
    eapply runs_mono; [apply emit_ok, H6|]. intros ? w7 [H7 _].
    pose proof (evolves_trans _ _ _ _ [] H16 H7) as H17. by rewrite app_nil_r in H17.
  - apply (stats_ok (fun s => count_error (md_stats s))), H3.
  - intros ? w4 [H4 _]. pose proof (evolves_trans _ _ _ _ [] H13 H4) as H14. rewrite app_nil_r in H14.
    eapply runs_mono; [apply emit_ok, H4|]. intros ? w5 [H5 _].
    pose proof (evolves_trans _ _ _ _ [] H14 H5) as H15. by rewrite app_nil_r in H15.
Qed.

(** A write reaches the bus exactly when the policy permits it. *)
Lemma write_phy_ok d r v source timeout w :
  ok w -> in_range (svc w) d -> 0 <= r < 32 ->
  runs (write_phy d r v source timeout) w (fun st w' =>
    if bvstk_mdio_policy_allows (Some (device (svc w) d)) r v
    then evolves w w' [(mc_phy_addr (device (svc w) d), r, v)]
    else st = BVSTK_ERR_DENIED /\ evolves w w' []).
Proof.
  intros Hok Hd Hr. unfold write_phy. apply evolves_self, evolves_self.
  apply runs_bind. eapply runs_mono.
  { apply (stats_ok (fun s => note_request (mc_phy_addr (device (svc w) d)) r v (source_code source) (md_stats s))), Hok. }
  intros ? w1 [H1 Hs1]. apply runs_bind. eapply runs_mono; [apply emit_ok, H1|]. intros ? w2 [H2 Hs2].
  pose proof (evolves_trans _ _ _ [] [] H1 H2) as H12. apply evolves_self.
  rewrite (evolves_device _ _ _ d H12).
  destruct (bvstk_mdio_policy_allows (Some (device (svc w) d)) r v); cbn [negb].
  - apply runs_bind. eapply (runs_mono _ _ (fun _ w3 => evolves w w3 [(mc_phy_addr (device (svc w) d), r, v)])).
    { replace (mc_phy_addr (device (svc w) d)) with (mc_phy_addr (device (svc w2) d))
        by (by rewrite (evolves_device _ _ _ d H12)).
      eapply runs_mono; [apply write_permitted_ok; [apply H2|exact (evolves_in _ _ _ _ H12 Hd)|done]|].
      intros ? w3 H3. exact (evolves_trans _ _ _ [] _ H12 H3). }
    intros st w3 H3. apply runs_bind. eapply runs_mono.
    { apply (stats_ok (fun s => note_status st (md_stats s))), H3. }
    intros ? w4 [H4 _]. pose proof (evolves_trans _ _ _ _ [] H3 H4) as H5. by rewrite app_nil_r in H5.
  - apply runs_bind. eapply (runs_mono _ _ (fun st w3 => st = BVSTK_ERR_DENIED /\ evolves w w3 [])).
    { apply runs_bind. eapply runs_mono; [apply (stats_ok (fun s => count_denied (md_stats s))), H2|].
      intros ? w3 [H3 _]. apply runs_bind. eapply runs_mono; [apply emit_ok, H3|]. intros ? w4 [H4 _].
      split; [done|]. exact (evolves_trans _ _ _ [] [] H12 (evolves_trans _ _ _ [] [] H3 H4)). }
    intros st w3 [-> H3]. apply runs_bind. eapply runs_mono.
    { apply (stats_ok (fun s => note_status BVSTK_ERR_DENIED (md_stats s))), H3. }
    intros ? w4 [H4 _]. split; [done|]. exact (evolves_trans _ _ _ [] [] H3 H4).
Qed.

(** *** The lock *)

Lemma lock_silent p w : ok w -> runs (lock p) w (fun _ w' => silent w w').
Proof.
  intros Hok. unfold lock, runs. destruct (negb p || _); [done|].
  pose proof (world_kept (bvstk_mutex_lock (Some (md_mutex (svc w))) 1000) w) as Hk. unfold world in *.
  replace (md_mutex (svc w)) with E.2 in * by (rewrite <- (proj1 Hok); done).
  pose proof (law_lock Hlaw 1000 (wld w)). by destruct (bvstk_mutex_lock _ _ _).
Qed.

Lemma lock_ok p w :
  ok w -> runs (lock p) w (fun _ w' => evolves w w' [] /\ svc w' = svc w).
Proof.
  intros Hok. eapply runs_mono; [by apply lock_silent|]. intros ? w' H. split; [|apply H].
  by apply silent_evolves.
Qed.

Lemma unlock_silent w : ok w -> runs unlock w (fun _ w' => silent w w').
Proof.
  intros Hok. split; [done|]. unfold unlock, worldf. cbn.
  replace (md_mutex (svc w)) with E.2 by (rewrite <- (proj1 Hok); done). apply (law_unlock Hlaw).
Qed.

Lemma unlock_ok w : ok w -> runs unlock w (fun _ w' => evolves w w' [] /\ svc w' = svc w).
Proof.
  intros Hok. eapply runs_mono; [by apply unlock_silent|]. intros ? w' H. split; [|apply H].
  by apply silent_evolves.
Qed.

(** *** The worker step *)

(** A bus write some configured device's policy permits. *)
Definition permitted s (e : Z * Z * Z) : Prop :=
  exists d, in_range s d /\ e.1.1 = mc_phy_addr (device s d) /\
    bvstk_mdio_policy_allows (Some (device s d)) e.1.2 e.2 = true.

Lemma permitted_evolves w w' ws e : evolves w w' ws -> permitted (svc w') e -> permitted (svc w) e.
Proof.
  intros (_ & Hd & Hc & _) (d & Hin & Hp). exists d. unfold in_range, device in *.
  by rewrite Hd, Hc in *.
Qed.

Lemma find_phy_range s phy : configs_ok s -> find_phy s phy <> md_device_count s -> in_range s (find_phy s phy).
Proof.
  intros (_ & Hn & _). unfold find_phy, in_range. destruct (for_find _ _ _) as [i|] eqn:Ef; cbn [default id]; [|done].
  apply for_find_Some in Ef as (Hi & _). intros _. cbn. lia.
Qed.

Lemma captured_write_ok phy reg v timeout w :
  ok w -> 0 <= reg < 32 ->
  runs (captured_write phy reg v timeout) w (fun _ w' =>
    exists ws, evolves w w' ws /\ Forall (permitted (svc w)) ws /\ alen ws <= 1).
Proof.
  intros Hok Hr. unfold captured_write. apply runs_bind.
  eapply runs_mono; [by apply (stats_ok (fun s => count_observed (md_stats s)))|].
  intros ? w1 [H1 Hs1]. do 2 apply evolves_self. apply runs_bind.
  eapply runs_mono; [apply emit_flags_ok, H1|]. intros ? w2 [H2 Hs2].
  pose proof (evolves_trans _ _ _ [] [] H1 H2) as H12. apply evolves_self. rewrite Hs2.
  destruct (find_phy (svc w1) phy =? md_device_count (svc w1)) eqn:Ef; bsimp.
  - apply runs_bind. eapply runs_mono.
    { apply (stats_ok (fun s => count_denied (count_unknown (md_stats s)))), H2. }
    intros ? w3 [H3 _]. pose proof (evolves_trans _ _ _ [] [] H12 H3) as H13.
    apply runs_bind. eapply runs_mono; [apply emit_ok, H3|]. intros ? w4 [H4 _].
    pose proof (evolves_trans _ _ _ [] [] H13 H4) as H14.
    apply runs_bind. eapply runs_mono; [apply emit_ok, H4|]. intros ? w5 [H5 _]. apply runs_ret.
    exists []. split; [exact (evolves_trans _ _ _ [] [] H14 H5)|done].
  - assert (in_range (svc w2) (find_phy (svc w1) phy)) as Hin.
    { rewrite Hs2. apply find_phy_range; [apply H1|done]. }
    apply runs_bind. eapply runs_mono; [apply write_phy_ok; [apply H2|done|done]|].
    intros st w3 H3. apply runs_ret. destruct (bvstk_mdio_policy_allows _ _ _) eqn:Ea.
    + eexists. split; [exact (evolves_trans _ _ _ [] _ H12 H3)|]. split; [|done]. constructor; [|done].
      eapply permitted_evolves; [exact H12|]. eexists. split; [exact Hin|]. split; [done|exact Ea].
    + exists []. split; [exact (evolves_trans _ _ _ [] [] H12 (proj2 H3))|done].
Qed.

Lemma scan_ok v w : ok w -> runs (update (mset_scan_index v)) w (fun _ w' => evolves w w' [] /\ svc w' = mset_scan_index v (svc w)).
Proof. intros Hok. apply update_ok; try done. apply Hok. Qed.

Lemma reg_of_scan scan : 0 <= u8 (Z.land scan 31) < 32.
Proof.
  change 31 with (Z.ones 5). rewrite Z.land_ones by lia. pose proof (Z.mod_pos_bound scan (2 ^ 5)).
  rewrite u8_id by lia. lia.
Qed.

Lemma Forall_permitted w w' ws l : evolves w w' ws -> Forall (permitted (svc w')) l -> Forall (permitted (svc w)) l.
Proof.
  intros H Hf. eapply Forall_impl; [exact Hf|]. intros e. by eapply permitted_evolves.
Qed.

Lemma capture_loop_ok n taken timeout result w :
  ok w -> runs (capture_loop n taken timeout result) w (fun _ w' =>
    exists ws, evolves w w' ws /\ Forall (permitted (svc w)) ws /\ (alen ws <= Z.max 0 (4 - taken))).
Proof.
  revert taken result w. induction n as [|n IH]; intros taken result w Hok; cbn [capture_loop].
  { apply runs_ret. exists []. split; [by apply evolves_refl|]. split; [done|]. unfold alen. cbn. lia. }
  destruct (taken <? 4) eqn:Et; cbn [negb]; bsimp.
  2:{ apply runs_ret. exists []. split; [by apply evolves_refl|]. split; [done|]. unfold alen. cbn. lia. }
  apply evolves_self. set (scan := md_scan_index (svc w)).
  apply runs_bind. eapply runs_mono; [by apply scan_ok|]. intros ? w1 [H1 _].
  apply runs_bind. eapply runs_mono.
  { apply (evolves_quiet _ w1); [apply H1|apply bus_take_kept|]. apply (law_take Hlaw), H1. }
  intros [st v] w2 [H2 _]. cbn [fst snd]. pose proof (evolves_trans _ _ _ [] [] H1 H2) as H12.
  destruct st; try (apply runs_bind; (eapply runs_mono;
    [apply (stats_ok (fun s => count_error (md_stats s))), H2|]); intros ? w3 [H3 _]; apply runs_ret;
    exists []; split; [exact (evolves_trans _ _ _ [] [] H12 H3)|]; split; [done|]; unfold alen; cbn; lia).
  - apply runs_bind. eapply runs_mono; [apply captured_write_ok; [apply H2|apply reg_of_scan]|].
    intros st w3 (ws & H3 & Hp3 & Hl3). pose proof (evolves_trans _ _ _ [] _ H12 H3) as H13.
    eapply runs_mono; [apply IH, H3|]. intros ? w4 (ws' & H4 & Hp4 & Hl4).
    exists (ws ++ ws'). split; [exact (evolves_trans _ _ _ _ _ H13 H4)|].
    split; [|unfold alen in *; rewrite length_app; lia]. apply Forall_app. split;
      [exact (Forall_permitted _ _ _ _ H12 Hp3)|exact (Forall_permitted _ _ _ _ H13 Hp4)].
  - eapply runs_mono; [apply IH, H2|]. intros ? w4 (ws' & H4 & Hp4 & Hl4).
    exists ws'. split; [exact (evolves_trans _ _ _ [] _ H12 H4)|]. split; [|done].
    exact (Forall_permitted _ _ _ _ H12 Hp4).
Qed.

(** *** Probing and polling *)

(** Updates of presence flags and due times. *)
Lemma online_ok d w :
  ok w -> runs (update (fun sv =>
     mset_online ((md_online sv).[d <- 1])
       (if (md_online sv).[d] =? 0 then mset_poll_due ((md_poll_due sv).[d <- 0]) sv else sv))) w
    (fun _ w' => evolves w w' []).
Proof.
  intros Hok. pose proof Hok as (_ & Hc & (H1 & H2 & H3 & H4 & H5 & H6 & H7)).
  eapply runs_mono.
  { apply (update_ok (fun sv => mset_online ((md_online sv).[d <- 1])
       (if (md_online sv).[d] =? 0 then mset_poll_due ((md_poll_due sv).[d <- 0]) sv else sv)) w Hok);
      destruct ((md_online (svc w)).[d] =? 0); try done;
      unfold tables_ok; cbn [md_cache md_poll_due md_probe_due md_poll_index md_online mset_online mset_poll_due];
      rewrite !alen_aset; repeat (split; [done|]); exact H7. }
  by intros ? w' [H _].
Qed.

Lemma probe_due_ok d v w :
  ok w -> runs (update (fun sv => mset_probe_due ((md_probe_due sv).[d <- v]) sv)) w
    (fun _ w' => evolves w w' []).
Proof.
  intros Hok. pose proof Hok as (_ & Hc & (H1 & H2 & H3 & H4 & H5 & H6 & H7)). eapply runs_mono.
  { apply (update_ok (fun sv => mset_probe_due ((md_probe_due sv).[d <- v]) sv) w Hok); try done.
    unfold tables_ok. cbn [md_cache md_poll_due md_probe_due md_poll_index md_online mset_probe_due].
    rewrite !alen_aset. by repeat (split; [done|]). }
  by intros ? w' [H _].
Qed.

Lemma probe_device_ok d now timeout w :
  ok w -> in_range (svc w) d ->
  runs (probe_device d now timeout) w (fun _ w' => evolves w w' []).
Proof.
  intros Hok Hd. unfold probe_device. apply runs_bind.
  eapply runs_mono; [by apply read_phy_ok|]. intros r1 w1 H1.
  apply runs_bind. eapply (runs_mono _ _ (fun _ w2 => evolves w w2 [])).
  { destruct (is_ok (fst r1)); [|by apply runs_ret].
    eapply runs_mono; [apply read_phy_ok; [apply H1|exact (evolves_in _ _ _ _ H1 Hd)|done]|].
    intros ? w2 H2. exact (evolves_trans _ _ _ [] [] H1 H2). }
  intros r2 w2 H2. apply runs_bind. eapply (runs_mono _ _ (fun _ w3 => evolves w w3 [])).
  { destruct (_ && _).
    - apply runs_bind. eapply runs_mono; [apply changed_silent, H2|]. intros ? w3 H3.
      pose proof (silent_ok _ _ (proj1 H2) H3) as Hok3.
      pose proof (evolves_trans _ _ _ [] [] H2 (silent_evolves _ _ (proj1 H2) H3)) as H23.
      apply runs_bind. eapply runs_mono; [by apply changed_silent|]. intros ? w4 H4.
      pose proof (evolves_trans _ _ _ [] [] H23 (silent_evolves _ _ Hok3 H4)) as H24.
      apply runs_bind. eapply runs_mono; [apply online_ok, H24|]. intros ? w5 H5.
      pose proof (evolves_trans _ _ _ [] [] H24 H5) as H25.
      apply evolves_self. apply runs_bind. eapply runs_mono; [apply presence_silent, H5|]. intros ? w6 H6.
      apply runs_ret. exact (evolves_trans _ _ _ [] [] H25 (silent_evolves _ _ (proj1 H5) H6)).
    - apply runs_bind. eapply runs_mono; [apply invalidate_ok; [apply H2|exact (evolves_in _ _ _ _ H2 Hd)]|].
      intros ? w3 [_ H3]. apply runs_ret. exact (evolves_trans _ _ _ [] [] H2 H3). }
  intros o w3 H3. apply runs_bind. eapply runs_mono; [apply probe_due_ok, H3|]. intros ? w4 H4.
  apply runs_ret. exact (evolves_trans _ _ _ [] [] H3 H4).
Qed.

(** A polled register is inside the device. *)
Lemma polled_register s d :
  configs_ok s -> tables_ok s -> in_range s d -> mc_autopoll_regs_len (device s d) <> 0 ->
  0 <= (mc_autopoll_regs (device s d)).[(md_poll_index s).[d]] < 32 /\
  (md_poll_index s).[d] < mc_autopoll_regs_len (device s d).
Proof.
  intros Hcs (_ & _ & _ & _ & _ & _ & Hp) Hd Hlen. destruct (Hp d Hd) as [Hp0 Hp1].
  pose proof Hcs as (_ & _ & Hc & _). destruct (Hc d Hd) as [[Hsz [Hb _]] Hv].
  assert ((md_poll_index s).[d] < mc_autopoll_regs_len (device s d)) as Hlt.
  { pose proof Hsz as (_&_&_&_&_&_&_&_&?&_). lia. }
  split; [|done]. rewrite mdio_validate_unfold in Hv. destruct (mdio_fields_ok _) eqn:Hf; [|done].
  destruct (mdio_lists_check (device s d)) as [e|] eqn:He.
  { by apply mdio_lists_error in He. }
  apply (mdio_lists_iff _ Hsz Hf) in He as (_ & [Hr _] & _).
  apply mdio_fields_iff in Hf as (_ & _ & _ & Hrc & _ & _ & _ & _ & Ha & _); [|done].
  pose proof Hsz as (_&_&Hal&_&_&_&_&_&Ha0&_). unfold MDIO_CFG_AUTOPOLL_REGS_MAX in Hal.
  unfold autopoll_list in Hr. apply (prefix_Forall _ _ (fun r => r < mc_reg_count (device s d))) with
    (i := (md_poll_index s).[d]) in Hr; [|lia|lia].
  rewrite Forall_forall in Hb.
  assert (fits 8 ((mc_autopoll_regs (device s d)).[(md_poll_index s).[d]])) as Hbi
    by (apply Hb, aget_in; lia).
  unfold fits in Hbi. lia.
Qed.

Lemma poll_update_ok d now w :
  ok w -> in_range (svc w) d -> mc_autopoll_regs_len (device (svc w) d) <> 0 ->
  runs (update (fun sv =>
    let c := device sv d in
    let i := u8 ((md_poll_index sv).[d] + 1) in
    if mc_autopoll_regs_len c <=? i then
      mset_poll_due ((md_poll_due sv).[d <- u64 (now + (if mc_autopoll_cycle_delay_ms c =? 0 then 1
                                                        else mc_autopoll_cycle_delay_ms c))])
        (mset_poll_index ((md_poll_index sv).[d <- 0]) sv)
    else
      mset_poll_due ((md_poll_due sv).[d <- u64 (now + mc_autopoll_reg_delay_ms c)])
        (mset_poll_index ((md_poll_index sv).[d <- i]) sv))) w
    (fun _ w' => evolves w w' []).
Proof.
  intros Hok Hd Hlen. pose proof Hok as (He & Hc & (H1 & H2 & H3 & H4 & H5 & H6 & H7)).
  set (i := u8 ((md_poll_index (svc w)).[d] + 1)).
  assert (0 <= i) as Hi0 by apply u8_range. pose proof Hc as (_ & Hn & _).
  split.
  - split; [|split].
    + cbn [svc update fst snd]. by destruct (_ <=? _).
    + cbn [svc update fst snd]. by destruct (_ <=? _).
    + cbn [svc update fst snd]. fold i. destruct (_ <=? i) eqn:Ei; bsimp;
        unfold tables_ok; cbn [md_cache md_poll_due md_probe_due md_poll_index md_online mset_poll_index mset_poll_due];
        rewrite !alen_aset; repeat (split; [done|]); intros d' Hd'; change (in_range (svc w) d') in Hd';
        unfold in_range in *; (destruct (decide (d' = d)) as [->|]; [rewrite aget_aset_eq by lia|rewrite aget_aset_ne by lia; by apply H7]).
      * split; [lia|by left].
      * split; [lia|right; exact Ei].
  - cbn [svc wld update fst snd]. rewrite app_nil_r. destruct (_ <=? _); done.
Qed.

Lemma poll_device_item_ok d now timeout w :
  ok w -> in_range (svc w) d -> mc_autopoll_regs_len (device (svc w) d) <> 0 ->
  runs (poll_device_item d now timeout) w (fun _ w' => evolves w w' []).
Proof.
  intros Hok Hd Hlen. unfold poll_device_item. apply evolves_self.
  apply runs_bind. eapply runs_mono; [apply read_phy_ok; [done|done|]|].
  { apply polled_register; [apply Hok|apply Hok|done|done]. }
  intros o w1 H1. apply runs_bind. eapply (runs_mono _ _ (fun _ w2 => evolves w w2 [])).
  { destruct (negb _); [|by apply runs_ret].
    apply runs_bind. eapply runs_mono; [apply invalidate_ok; [apply H1|exact (evolves_in _ _ _ _ H1 Hd)]|].
    intros ? w2 [_ H2]. eapply runs_mono; [apply probe_due_ok, H2|]. intros ? w3 H3.
    exact (evolves_trans _ _ _ [] [] H1 (evolves_trans _ _ _ [] [] H2 H3)). }
  intros ? w2 H2. apply runs_bind. eapply runs_mono.
  { apply poll_update_ok; [apply H2|exact (evolves_in _ _ _ _ H2 Hd)|]. by rewrite (evolves_device _ _ _ d H2). }
  intros ? w3 H3. apply runs_ret. exact (evolves_trans _ _ _ [] [] H2 H3).
Qed.

Lemma poll_loop_ok n now timeout result w :
  ok w -> (n <> O -> 0 < md_device_count (svc w)) ->
  runs (poll_loop n now timeout result) w (fun _ w' => evolves w w' []).
Proof.
  revert result w. induction n as [|n IH]; intros result w Hok Hn; cbn [poll_loop].
  { apply runs_ret. by apply evolves_refl. }
  specialize (Hn ltac:(done)). apply evolves_self. set (d := md_poll_device (svc w) mod md_device_count (svc w)).
  apply runs_bind. eapply runs_mono.
  { apply (update_ok (fun sv => mset_poll_device (u32 (md_poll_device sv + 1)) sv) w Hok); try done. apply Hok. }
  intros ? w1 [H1 Hs1]. assert (in_range (svc w1) d) as Hd.
  { rewrite Hs1. change (in_range (svc w) d). unfold in_range, d. apply Z.mod_pos_bound. lia. }
  do 3 apply evolves_self. destruct (_ && (4 <=? _)).
  { apply runs_bind. eapply runs_mono; [apply probe_device_ok; [apply H1|done]|]. intros ? w2 H2.
    apply runs_ret. exact (evolves_trans _ _ _ [] [] H1 H2). }
  match goal with |- context [if ?b then poll_loop _ _ _ _ else _] => destruct b eqn:Es end.
  { eapply runs_mono; [apply IH; [apply H1|]|].
    { intros _. by rewrite (proj1 (proj2 (proj2 H1))). }
    intros ? w2 H2. exact (evolves_trans _ _ _ [] [] H1 H2). }
  apply orb_false_iff in Es as [[[_ Es]%orb_false_iff _]%orb_false_iff _]. bsimp.
  apply runs_bind. eapply runs_mono; [apply poll_device_item_ok; [apply H1|done|done]|]. intros ? w2 H2.
  apply runs_ret. exact (evolves_trans _ _ _ [] [] H1 H2).
Qed.

Lemma ack_ok w :
  ok w ->
  runs (match md_core (svc w) with
        | Some core => world (hw_mdio_ack_slave core)
        | None => st_ret BVSTK_OK
        end) w (fun _ w' => evolves w w' []).
Proof.
  intros Hok. destruct (md_core (svc w)) as [core|] eqn:Hc; [|by apply evolves_refl].
  eapply runs_mono.
  { apply (evolves_quiet (world (hw_mdio_ack_slave core)) w Hok); [apply world_kept|]. unfold world.
    pose proof (law_ack Hlaw core (wld w)) as H. destruct (hw_mdio_ack_slave core (wld w)). apply H.
    by rewrite <- (proj1 Hok). }
  by intros ? w' [H _].
Qed.

Lemma step_body_ok now timeout w :
  ok w ->
  runs (let! scanned := self (fun sv => bool_decide (is_Some (md_core sv)) ||
                                     bool_decide (is_Some (bus_take_write (md_bus sv)))) in
     let! result := (if scanned : bool then capture_loop 1024 0 timeout BVSTK_OK else st_ret BVSTK_OK) in
     let! core := self md_core in
     let! acked := match core with
                   | Some core => world (hw_mdio_ack_slave core)
                   | None => st_ret BVSTK_OK
                   end in
     let! result :=
       (if negb (is_ok acked) then
          update (fun sv => mset_stats (count_error (md_stats sv)) sv) ;; st_ret BVSTK_ERR_IO
        else st_ret result) in
     let! count := self md_device_count in
     poll_loop (Z.to_nat count) now timeout result) w
    (fun _ w' => exists ws, evolves w w' ws /\ Forall (permitted (svc w)) ws /\ alen ws <= 4).
Proof.
  intros Hok. apply evolves_self. apply runs_bind.
  eapply (runs_mono _ _ (fun _ w1 => exists ws, evolves w w1 ws /\ Forall (permitted (svc w)) ws /\ alen ws <= 4)).
  { destruct (_ || _).
    - eapply runs_mono; [by apply capture_loop_ok|]. intros ? w1 (ws & H1 & Hp & Hl). eauto.
    - apply runs_ret. exists []. split; [by apply evolves_refl|done]. }
  intros result w1 (ws & H1 & Hp & Hl). apply evolves_self.
  apply runs_bind. eapply runs_mono; [apply ack_ok, H1|]. intros acked w2 H2.
  pose proof (evolves_trans _ _ _ _ [] H1 H2) as H12.
  apply runs_bind. eapply (runs_mono _ _ (fun _ w3 => evolves w2 w3 [])).
  { destruct (negb _); [|apply runs_ret, evolves_refl, H2]. apply runs_bind.
    eapply runs_mono; [apply (stats_ok (fun s => count_error (md_stats s))), H2|]. intros ? w3 [H3 _]. done. }
  intros result' w3 H3. pose proof (evolves_trans _ _ _ _ [] H12 H3) as H13. apply evolves_self.
  eapply runs_mono; [apply poll_loop_ok; [apply H3|lia]|]. intros ? w4 H4. exists ws.
  pose proof (evolves_trans _ _ _ _ [] H13 H4) as H14. by rewrite !app_nil_r in H14.
Qed.

(** *** Changes of configuration *)

(** What every operation does: the tables stay well formed, the host's view
    stays true, the devices keep their identity; [ws] are the bus writes. *)
Definition conserves w w' (ws : list (Z * Z * Z)) : Prop :=
  ok w' /\ md_device_count (svc w') = md_device_count (svc w) /\
  wlog (wld w') = wlog (wld w) ++ ws /\ (host_view w -> host_view w') /\
  forall d, in_range (svc w) d ->
    cstr (mc_name (device (svc w') d)) = cstr (mc_name (device (svc w) d)) /\
    cstr (mc_file_name (device (svc w') d)) = cstr (mc_file_name (device (svc w) d)).

Lemma evolves_conserves w w' ws : evolves w w' ws -> conserves w w' ws.
Proof.
  intros H. pose proof H as (Hok & Hd & Hc & Hl & Hv). split; [done|]. split; [done|].
  split; [done|]. split; [done|]. intros d _. by rewrite (evolves_device _ _ _ d H).
Qed.

Lemma conserves_trans w1 w2 w3 l1 l2 : conserves w1 w2 l1 -> conserves w2 w3 l2 -> conserves w1 w3 (l1 ++ l2).
Proof.
  intros (_ & H1 & H2 & H3 & H4) (H0 & H1' & H2' & H3' & H4').
  split; [done|]. split; [congruence|]. split; [by rewrite H2', H2, app_assoc|]. split; [auto|].
  intros d Hd. destruct (H4' d) as [Hn Hf]; [unfold in_range; by rewrite H1|].
  rewrite Hn, Hf. by apply H4.
Qed.

Lemma locked_conserves {A} p (refused : bvstk_status_t -> A) (m : ST state A) w (P : list (Z * Z * Z) -> A -> Prop) :
  ok w -> (forall st, st <> BVSTK_OK -> P [] (refused st)) ->
  (forall w1, evolves w w1 [] -> svc w1 = svc w ->
     runs m w1 (fun a w2 => exists ws, conserves w1 w2 ws /\ P ws a)) ->
  runs (locked p refused m) w (fun a w' => exists ws, conserves w w' ws /\ P ws a).
Proof.
  intros Hok HP Hm. unfold locked. apply runs_bind. eapply runs_mono; [by apply lock_ok|].
  intros st w1 [H1 Hs1]. destruct (is_ok st) eqn:E1; cbn [negb].
  - apply runs_bind. eapply runs_mono; [by apply Hm|]. intros a w2 (ws & H2 & HPa).
    apply runs_bind. eapply runs_mono; [apply unlock_ok, H2|]. intros ? w3 [H3 _]. apply runs_ret. exists ws.
    split; [|done]. pose proof (conserves_trans _ _ _ _ [] H2 (evolves_conserves _ _ _ H3)) as H4.
    rewrite app_nil_r in H4. exact (conserves_trans _ _ _ [] _ (evolves_conserves _ _ _ H1) H4).
  - apply runs_ret. exists []. split; [by apply evolves_conserves|]. apply HP. by apply is_ok_false.
Qed.

Lemma device_set s d c d' :
  configs_ok s -> in_range s d -> in_range s d' ->
  device (set_device d c s) d' = if decide (d' = d) then c else device s d'.
Proof.
  intros (Hl & Hn & _) Hd Hd'. unfold device, set_device, in_range in *. cbn [md_devices mset_devices].
  destruct (decide (d' = d)) as [->|]; [by rewrite aget_aset_eq by lia|by rewrite aget_aset_ne by lia].
Qed.

(** A well-formed configuration, as the caller passes it. *)
Definition config_arg (c : mdio_phy_config_t) : Prop :=
  (mdio_config_sized c /\ mdio_config_bytes c) /\ bvstk_mdio_config_validate (Some c) = BVSTK_OK.

Lemma configs_set s d c :
  configs_ok s -> in_range s d -> config_arg c ->
  (forall d', in_range s d' -> d' <> d -> mc_phy_addr c <> mc_phy_addr (device s d')) ->
  configs_ok (set_device d c s).
Proof.
  intros Hc Hd Hcfg Hu. pose proof Hc as (Hl & Hn & Hall & Hinj). split.
  { unfold set_device. cbn [md_devices mset_devices]. by rewrite alen_aset. }
  split; [done|]. split.
  - intros d' Hd'. change (in_range s d') in Hd'. rewrite device_set by done.
    destruct (decide (d' = d)); [done|by apply Hall].
  - intros d1 d2 H1 H2. change (in_range s d1) in H1. change (in_range s d2) in H2.
    rewrite !device_set by done. repeat case_decide; subst; try done.
    + intros He. by destruct (Hu d2).
    + intros He. by destruct (Hu d1).
    + by apply Hinj.
Qed.

Lemma device_arg s d : configs_ok s -> in_range s d -> config_arg (device s d).
Proof. intros (_ & _ & Hc & _) Hd. by apply Hc. Qed.

(** Replace a configuration by one at the same address, with the same polled
    registers and the same identity. *)
Lemma edit_ok w d c :
  ok w -> in_range (svc w) d -> config_arg c ->
  mc_phy_addr c = mc_phy_addr (device (svc w) d) ->
  mc_autopoll_regs_len c = mc_autopoll_regs_len (device (svc w) d) ->
  cstr (mc_name c) = cstr (mc_name (device (svc w) d)) ->
  cstr (mc_file_name c) = cstr (mc_file_name (device (svc w) d)) ->
  conserves w (MdioState (set_device d c (svc w)) (wld w)) [].
Proof.
  intros (He & Hc & Ht) Hd Hcfg Hp Hl Hn Hf. pose proof Hc as (_ & _ & _ & Hinj).
  assert (forall d', in_range (svc w) d' ->
    mc_phy_addr (device (set_device d c (svc w)) d') = mc_phy_addr (device (svc w) d') /\
    mc_autopoll_regs_len (device (set_device d c (svc w)) d') = mc_autopoll_regs_len (device (svc w) d') /\
    cstr (mc_name (device (set_device d c (svc w)) d')) = cstr (mc_name (device (svc w) d')) /\
    cstr (mc_file_name (device (set_device d c (svc w)) d')) = cstr (mc_file_name (device (svc w) d'))) as Hdev.
  { intros d' Hd'. rewrite device_set by done. by destruct (decide (d' = d)) as [->|]. }
  split; [split; [done|split]|].
  - apply configs_set; [done..|]. intros d' Hd' Hne Heq. apply Hne, Hinj; [done..|]. by rewrite <- Heq.
  - destruct Ht as (H1 & H2 & H3 & H4 & H5 & H6 & H7). repeat (split; [done|]).
    intros d' Hd'. change (in_range (svc w) d') in Hd'. cbn [svc].
    rewrite (proj1 (proj2 (Hdev d' Hd'))). by apply H7.
  - split; [done|]. split; [by rewrite app_nil_r|]. split.
    + intros Hv d' r Hd' Hr. change (in_range (svc w) d') in Hd'. cbn [svc wld].
      rewrite (proj1 (Hdev d' Hd')). by apply Hv.
    + intros d' Hd'. by destruct (Hdev d' Hd') as (_ & _ & ?).
Qed.

Lemma with_policy_arg c policy :
  config_arg c -> policy = MDIO_POLICY_WHITELIST \/ policy = MDIO_POLICY_BLACKLIST ->
  config_arg (with_policy policy c).
Proof.
  intros [[Hsz Hb] Hv] Hp. split; [done|]. apply mdio_validate_wf in Hv; [|done].
  apply mdio_validate_wf; [done|]. by destruct Hv; constructor.
Qed.

Lemma with_rules_arg c which rules len :
  config_arg c -> alen rules = MDIO_CFG_RULES_MAX -> 0 <= len <= MDIO_CFG_RULES_MAX ->
  Forall (fun r => mr_reg r < mc_reg_count c) (prefix len rules) ->
  config_arg (with_rules which rules len c).
Proof.
  intros [[Hsz Hb] Hv] Hl Hlen Hr. pose proof Hsz as (?&?&?&?&?&?&?&?&?&?&?&?).
  assert (mdio_config_sized (with_rules which rules len c)) as Hsz'.
  { unfold mdio_config_sized, with_rules. cbn. destruct (which =? _); repeat (split; [lia|]); lia. }
  split; [done|]. apply mdio_validate_wf in Hv; [|done]. apply mdio_validate_wf; [done|].
  destruct Hv. apply Forall_app in wf_rules as [Hw Hbl].
  constructor; unfold with_rules, allow_list, deny_list in *; cbn in *;
    try (destruct (which =? _); lia); try done.
  apply Forall_app. by destruct (which =? _).
Qed.

(** The array a list selector names. *)
Definition rules_of (which : Z) (c : mdio_phy_config_t) : list mdio_rule_entry_t * Z :=
  if which =? MDIO_POLICY_WHITELIST then (mc_whitelist c, mc_whitelist_len c)
  else (mc_blacklist c, mc_blacklist_len c).

Lemma policy_list_ok s d which :
  configs_ok s -> 0 <= d -> fst (policy_list s d which) = BVSTK_OK ->
  in_range s d /\ (which = MDIO_POLICY_WHITELIST \/ which = MDIO_POLICY_BLACKLIST) /\
  snd (policy_list s d which) = rules_of which (device s d).
Proof.
  intros Hc Hd. unfold policy_list, rules_of. destruct (is_ok (check s d 0)) eqn:Ek; cbn [negb].
  2:{ cbn [fst]. intros He. by rewrite He in Ek. }
  apply is_ok_true in Ek. destruct (check_ok s d 0 Hc Hd ltac:(lia) Ek) as [Hin _].
  destruct (which =? MDIO_POLICY_WHITELIST) eqn:Ew; bsimp; [auto|].
  destruct (which =? MDIO_POLICY_BLACKLIST) eqn:Eb; bsimp; [auto|done].
Qed.

Lemma rules_of_ok which c :
  config_arg c ->
  alen (fst (rules_of which c)) = MDIO_CFG_RULES_MAX /\
  0 <= snd (rules_of which c) <= MDIO_CFG_RULES_MAX /\
  Forall (fun r => mr_reg r < mc_reg_count c) (prefix (snd (rules_of which c)) (fst (rules_of which c))).
Proof.
  intros [[Hsz _] Hv]. pose proof Hsz as (?&?&?&?&?&?&?&?&?&?&?&?).
  apply mdio_validate_wf in Hv; [|done]. destruct Hv. apply Forall_app in wf_rules as [Hw Hb].
  unfold rules_of. by destruct (which =? _); repeat split.
Qed.

(** Every operation of the policy ends in one edit of one device. *)
Lemma edit_run w d (g : mdio_phy_config_t -> mdio_phy_config_t) :
  let c := device (svc w) d in
  ok w -> in_range (svc w) d -> config_arg (g c) -> mc_phy_addr (g c) = mc_phy_addr c ->
  mc_autopoll_regs_len (g c) = mc_autopoll_regs_len c ->
  cstr (mc_name (g c)) = cstr (mc_name c) -> cstr (mc_file_name (g c)) = cstr (mc_file_name c) ->
  runs (update (fun sv => set_device d (g (device sv d)) sv)) w (fun _ w' =>
    conserves w w' [] /\ svc w' = set_device d (g c) (svc w)).
Proof. intros c ? ? ? ? ? ? ?. split; [by apply edit_ok|done]. Qed.

Lemma stay_ok {A} (a : A) w (P : A -> state -> Prop) :
  ok w -> P a w -> runs (st_ret a) w (fun a w' => conserves w w' [] /\ P a w').
Proof. intros. apply runs_ret. split; [by apply evolves_conserves, evolves_refl|done]. Qed.

Lemma set_policy_body_ok w d policy :
  ok w -> 0 <= d ->
  runs (let! st := self (fun sv =>
          if negb (policy =? MDIO_POLICY_WHITELIST) && negb (policy =? MDIO_POLICY_BLACKLIST)
          then BVSTK_ERR_MALFORMED else check sv d 0) in
        (if is_ok st then update (fun sv => set_device d (with_policy policy (device sv d)) sv)
         else st_ret tt) ;;
        st_ret st) w (fun _ w' => exists ws, conserves w w' ws /\ ws = []).
Proof.
  intros Hok Hd. apply evolves_self. destruct (is_ok _) eqn:Es.
  2:{ exists []. split; [by apply evolves_conserves, evolves_refl|done]. }
  destruct (negb _ && _) eqn:Ep; [done|]. apply andb_false_iff in Ep.
  apply is_ok_true in Es. destruct (check_ok _ _ 0 (proj1 (proj2 Hok)) Hd ltac:(lia) Es) as [Hin _].
  apply runs_bind. eapply runs_mono.
  { apply (edit_run w d (with_policy policy)); try done.
    apply with_policy_arg; [by apply device_arg; [apply Hok|]|].
    rewrite !negb_false_iff, !Z.eqb_eq in Ep. exact Ep. }
  intros ? w1 [H1 _]. apply runs_ret. by exists [].
Qed.

(** A list operation that keeps the rules inside the register count. *)
Definition rules_op (reg : Z) (F : list mdio_rule_entry_t -> Z -> bvstk_status_t * (list mdio_rule_entry_t * Z)) : Prop :=
  forall rules len, alen rules = MDIO_CFG_RULES_MAX -> 0 <= len <= MDIO_CFG_RULES_MAX ->
  let '(st, (rules', len')) := F rules len in
  alen rules' = alen rules /\ 0 <= len' <= MDIO_CFG_RULES_MAX /\
  forall P : mdio_rule_entry_t -> Prop, Forall P (prefix len rules) ->
    (forall v m, P (MdioRule reg v m)) -> Forall P (prefix len' rules').

Lemma rule_body_ok w d which reg F :
  ok w -> 0 <= d -> 0 <= reg -> rules_op reg F ->
  runs (let! st := self (fun sv => rule_status sv d which reg) in
        if negb (is_ok st) then st_ret st
        else
          let! sel := self (fun sv => snd (policy_list sv d which)) in
          let '(st, (rules, len)) := F (fst sel) (snd sel) in
          update (fun sv => set_device d (with_rules which rules len (device sv d)) sv) ;;
          st_ret st) w (fun st w' => conserves w w' [] /\
    if is_ok (rule_status (svc w) d which reg) then
      in_range (svc w) d /\ (which = MDIO_POLICY_WHITELIST \/ which = MDIO_POLICY_BLACKLIST) /\
      let o := rules_of which (device (svc w) d) in
      st = fst (F (fst o) (snd o)) /\
      svc w' = set_device d (with_rules which (fst (snd (F (fst o) (snd o))))
                 (snd (snd (F (fst o) (snd o)))) (device (svc w) d)) (svc w)
    else st = rule_status (svc w) d which reg /\ svc w' = svc w).
Proof.
  intros Hok Hd Hr HF. apply evolves_self. destruct (is_ok _) eqn:Es; cbn [negb].
  2:{ by apply (stay_ok _ w (fun st w' => st = _ /\ svc w' = svc w)). }
  apply is_ok_true in Es. unfold rule_status in Es. destruct (is_ok (fst _)) eqn:Ep; [|by rewrite Es in Ep].
  pose proof (proj1 (proj2 Hok)) as Hc. apply is_ok_true in Ep.
  destruct (policy_list_ok _ _ _ Hc Hd Ep) as (Hin & Hwhich & Hsel).
  apply evolves_self. rewrite Hsel. pose proof (device_arg _ _ Hc Hin) as Harg.
  destruct (rules_of_ok which _ Harg) as (Hl & Hlen & Hf).
  specialize (HF _ _ Hl Hlen). destruct (F _ _) as [st [rules' len']]. destruct HF as (Hl' & Hlen' & HP).
  apply runs_bind. eapply runs_mono.
  { apply (edit_run w d (with_rules which rules' len')); try done.
    apply with_rules_arg; [done|by rewrite Hl'|done|]. apply HP; [done|]. cbn [mr_reg]. intros _ _.
    unfold check in Es. destruct (_ <=? d); [done|]. destruct (reg <? _) eqn:Er; [|done]. by bsimp. }
  intros ? w1 [H1 Hs1]. apply runs_ret. split; [done|]. split; [done|]. split; [done|]. by split.
Qed.

(** *** Replacing a configuration *)

(** Preset values: the entries they name become valid, and the host sees them. *)
Lemma seed_loop_ok n d i w :
  ok w -> in_range (svc w) d -> 0 <= i -> i + Z.of_nat n = mc_settings_len (device (svc w) d) ->
  runs (seed_loop n d i) w (fun st w' => st = BVSTK_OK /\ evolves w w' []).
Proof.
  revert i w. induction n as [|n IH]; intros i w Hok Hd Hi Hn; cbn [seed_loop].
  { apply runs_ret. split; [done|by apply evolves_refl]. }
  pose proof (device_arg _ _ (proj1 (proj2 Hok)) Hd) as [[Hsz [_ Hb]] Hv].
  pose proof Hsz as (_&_&_&_&_&Hsl&_). apply mdio_validate_wf in Hv; [|done].
  pose proof (wf_reg_count _ Hv) as Hrc. pose proof (wf_settings_len _ Hv) as Hlen.
  pose proof (wf_settings _ Hv) as [Hs _].
  apply (prefix_Forall _ _ (fun e => ms_reg e < mc_reg_count (device (svc w) d))) with (i := i) in Hs; [|lia|lia].
  rewrite Forall_forall in Hb. assert (fits 8 (ms_reg ((mc_settings (device (svc w) d)).[i]))) as Hr
    by (apply Hb, aget_in; lia). unfold fits in Hr.
  do 2 apply evolves_self. set (v := (mc_settings (device (svc w) d)).[i]) in *.
  apply runs_bind. eapply runs_mono; [apply publish_ok; [done|done|lia]|].
  intros st w1 (-> & Hs1 & Hl1 & Hsh1). cbn [is_ok negb]. apply runs_bind. unfold runs at 1.
  pose proof (world_kept (bvstk_platform_now_ms) w1) as Hk.
  pose proof (law_now Hlaw (wld w1)) as [Hl2 Hsh2]. unfold world in *.
  destruct (bvstk_platform_now_ms (wld w1)) as [now x2]. cbn [fst snd svc wld] in *.
  apply runs_bind. unfold runs at 1. cbn [fst snd update].
  match goal with |- runs _ ?w2 _ => assert (evolves w w2 []) as H2 end.
  { apply (evolves_entry w _ d (ms_reg v) (MdioEntry (ms_val v) 1 1 now) (ms_val v)); try done; cbn.
    - lia.
    - by rewrite Hs1.
    - congruence.
    - intros p q. by rewrite Hsh2, Hsh1. }
  apply runs_bind. eapply runs_mono; [apply changed_silent, H2|]. intros ? w3 H3.
  pose proof (evolves_trans _ _ _ [] [] H2 (silent_evolves _ _ (proj1 H2) H3)) as H13.
  eapply runs_mono; [apply IH; [apply H13|exact (evolves_in _ _ _ _ H13 Hd)|lia|]|].
  { rewrite (evolves_device _ _ _ d H13). lia. }
  intros st' w4 [-> H4]. split; [done|]. exact (evolves_trans _ _ _ [] [] H13 H4).
Qed.

Lemma seed_ok d w :
  ok w -> in_range (svc w) d -> runs (seed d) w (fun st w' => st = BVSTK_OK /\ evolves w w' []).
Proof.
  intros Hok Hd. unfold seed. apply evolves_self.
  pose proof (device_arg _ _ (proj1 (proj2 Hok)) Hd) as [[Hsz _] _].
  pose proof Hsz as (_&_&_&_&_&_&_&_&_&_&_&?). apply seed_loop_ok; [done|done|lia|lia].
Qed.

(** The host's view of every device but one. *)
Definition host_view_but d w : Prop :=
  forall d' r, in_range (svc w) d' -> d' <> d -> 0 <= r < 32 ->
    shadow (wld w) (mc_phy_addr (device (svc w) d')) r =
      if me_valid (entry (svc w) d' r) =? 0 then 0xFFFF else me_value (entry (svc w) d' r).

(** Invalidation re-establishes the view of its device. *)
Lemma invalidate_restores d w :
  ok w -> in_range (svc w) d -> host_view_but d w ->
  runs (invalidate d) w (fun st w' => st = BVSTK_OK /\ evolves w w' [] /\ host_view w').
Proof.
  intros Hok Hd Hv. pose proof (invalidate_ok d w Hok Hd) as [H1 H2].
  pose proof (invalidate_run d w Hok Hd) as (_ & Hs & _ & Hsh). unfold runs.
  split; [done|]. split; [done|]. pose proof Hok as (He & Hc & Ht). pose proof Hc as (_ & Hn & _ & Hinj).
  intros d' r' Hd' Hr'. rewrite Hs in *. change (in_range (svc w) d') in Hd'.
  change (device (clear_device d (svc w)) d') with (device (svc w) d').
  unfold in_range in *. rewrite Hsh, entry_clear_device by (done || lia).
  destruct (decide (d' = d)) as [->|Hne].
  - by rewrite decide_True by done.
  - rewrite decide_False; [by apply Hv|]. intros [Hp _]. by apply Hne, Hinj.
Qed.

Definition reset_poll d (sv : service) : service :=
  mset_poll_index ((md_poll_index sv).[d <- 0]) (mset_poll_due ((md_poll_due sv).[d <- 0]) sv).

(** A configuration that may replace the one of device [d]. *)
Definition replaces s d c : Prop :=
  in_range s d /\ config_arg c /\
  cstr (mc_name c) = cstr (mc_name (device s d)) /\
  cstr (mc_file_name c) = cstr (mc_file_name (device s d)) /\
  forall d', in_range s d' -> d' <> d -> mc_phy_addr c <> mc_phy_addr (device s d').

Lemma swap_ok w d c x :
  ok w -> replaces (svc w) d c -> same_world (wld w) x ->
  let w' := MdioState (reset_poll d (set_device d c (svc w))) x in
  ok w' /\ md_device_count (svc w') = md_device_count (svc w) /\ wlog (wld w') = wlog (wld w) /\
  (forall d', in_range (svc w) d' -> device (svc w') d' = if decide (d' = d) then c else device (svc w) d') /\
  (host_view w -> host_view_but d w') /\
  (mc_phy_addr c = mc_phy_addr (device (svc w) d) -> host_view w -> host_view w').
Proof.
  intros (He & Hc & Ht) (Hd & Harg & Hn & Hf & Hu) [Hl Hsh] w'.
  assert (forall d', in_range (svc w) d' ->
    device (svc w') d' = if decide (d' = d) then c else device (svc w) d') as Hdev.
  { intros d' Hd'. apply (device_set (svc w)); done. }
  pose proof Hc as (_ & Hcount & _). split.
  { split; [done|]. split; [by apply (configs_set (svc w))|].
    destruct Ht as (H1 & H2 & H3 & H4 & H5 & H6 & H7). unfold tables_ok, w', reset_poll.
    cbn [svc md_cache md_poll_due md_probe_due md_poll_index md_online mset_poll_index mset_poll_due
         set_device mset_devices]. rewrite !alen_aset. repeat (split; [done|]).
    intros d' Hd'. change (in_range (svc w) d') in Hd'. specialize (Hdev d' Hd').
    change (device (svc w') d') with (device (set_device d c (svc w)) d') in Hdev.
    match goal with |- context [mc_autopoll_regs_len ?x] => replace x with (device (set_device d c (svc w)) d') by done end.
    rewrite Hdev. unfold in_range in *. destruct (decide (d' = d)) as [->|].
    - rewrite aget_aset_eq by lia. split; [lia|by left].
    - rewrite aget_aset_ne by lia. by apply H7. }
  split; [done|]. split; [done|]. split; [done|].
  assert (host_view w -> host_view_but d w') as Hbut.
  { intros Hv d' r Hd' Hne Hr. change (in_range (svc w) d') in Hd'. rewrite Hdev, decide_False by done.
    cbn [wld w']. rewrite Hsh. by apply Hv. }
  split; [done|]. intros Hp Hv d' r Hd' Hr. destruct (decide (d' = d)) as [->|Hne]; [|by apply Hbut].
  change (in_range (svc w) d) in Hd'. rewrite Hdev, decide_True by done. cbn [wld w'].
  rewrite Hsh, Hp. by apply Hv.
Qed.

Lemma swap_names w d c w' :
  replaces (svc w) d c ->
  (forall d', in_range (svc w) d' -> device (svc w') d' = if decide (d' = d) then c else device (svc w) d') ->
  forall d', in_range (svc w) d' ->
    cstr (mc_name (device (svc w') d')) = cstr (mc_name (device (svc w) d')) /\
    cstr (mc_file_name (device (svc w') d')) = cstr (mc_file_name (device (svc w) d')).
Proof.
  intros (Hd & _ & Hn & Hf & _) Hdev d' Hd'. rewrite Hdev by done.
  by destruct (decide (d' = d)) as [->|].
Qed.

Lemma notify_ok d c w :
  ok w \/ env (svc w) = E ->
  runs (let! notify := self md_cache_config_changed in
        match notify with Some f => worldf (f d c) | None => st_ret tt end) w
    (fun _ w' => svc w' = svc w /\ same_world (wld w) (wld w')).
Proof.
  intros He. assert (env (svc w) = E) as He' by (by destruct He as [[? _]|?]). apply evolves_self.
  destruct (md_cache_config_changed (svc w)) as [f|] eqn:Hf; [|done]. split; [done|]. cbn.
  apply (law_config Hlaw). by rewrite <- He'.
Qed.

Lemma replaces_evolves w w' ws d c : evolves w w' ws -> replaces (svc w) d c -> replaces (svc w') d c.
Proof.
  intros H (Hd & Ha & Hn & Hf & Hu). unfold replaces. rewrite !(evolves_device _ _ _ d H).
  split; [exact (evolves_in _ _ _ _ H Hd)|]. repeat (split; [done|]). intros d' Hd' Hne.
  rewrite (evolves_device _ _ _ d' H). apply Hu; [|done]. unfold in_range in *.
  destruct H as (_ & _ & Hc & _). by rewrite Hc in Hd'.
Qed.

(** Install the new configuration, tell the observer, restart polling. *)
Lemma swap_in_run {A} d c (k : ST state A) w Q :
  ok w ->
  (forall x, same_world (wld w) x -> runs k (MdioState (reset_poll d (set_device d c (svc w))) x) Q) ->
  runs (update (set_device d c) ;;
        let! notify := self md_cache_config_changed in
        (match notify with Some f => worldf (f d c) | None => st_ret tt end) ;;
        update (fun sv => mset_poll_index ((md_poll_index sv).[d <- 0])
                            (mset_poll_due ((md_poll_due sv).[d <- 0]) sv)) ;; k) w Q.
Proof.
  intros Hok Hk. apply runs_bind. unfold runs at 1. cbn [fst snd update].
  set (w1 := MdioState (set_device d c (svc w)) (wld w)).
  pose proof (notify_ok d c w1 ltac:(right; apply Hok)) as H. apply evolves_self. apply runs_bind.
  unfold runs, st_bind, self in *.
  destruct (md_cache_config_changed (svc w1)) as [f|]; cbn in *; by apply (Hk _ (proj2 H)).
Qed.

Lemma install_config_ok d c changed w :
  ok w -> replaces (svc w) d c ->
  (changed = false -> mc_phy_addr c = mc_phy_addr (device (svc w) d)) ->
  runs (install_config d c changed) w (fun st w' =>
    st = BVSTK_OK /\ conserves w w' [] /\ device (svc w') d = c).
Proof.
  intros Hok Hrep Hch. unfold install_config. apply runs_bind.
  eapply (runs_mono _ _ (fun st w1 => st = BVSTK_OK /\ evolves w w1 [])).
  { destruct changed; [apply invalidate_ok; [done|apply Hrep]|]. split; [done|by apply evolves_refl]. }
  intros st w1 [-> H1]. cbn [is_ok negb]. pose proof (replaces_evolves _ _ _ _ _ H1 Hrep) as Hrep1.
  apply swap_in_run; [apply H1|]. intros x Hx.
  destruct (swap_ok w1 d c x (proj1 H1) Hrep1 Hx) as (Hok2 & Hc2 & Hl2 & Hdev2 & Hbut & Hsame).
  set (w2 := MdioState _ x) in *. pose proof (swap_names _ _ _ _ Hrep1 Hdev2) as Hn2.
  assert (in_range (svc w2) d) as Hd2 by (unfold in_range; rewrite Hc2; apply Hrep1).
  assert (device (svc w2) d = c) as Hd2c by (rewrite Hdev2 by apply Hrep1; by rewrite decide_True).
  destruct changed.
  - apply runs_bind. pose proof (invalidate_ok d w2 Hok2 Hd2) as Hi.
    pose proof (invalidate_restores d w2 Hok2 Hd2) as Hr. unfold runs in Hi, Hr |- * at 1.
    destruct (invalidate d w2) as [st w3]. cbn [fst snd] in *. destruct Hi as [-> H3]. cbn [is_ok].
    eapply runs_mono; [apply seed_ok; [apply H3|exact (evolves_in _ _ _ _ H3 Hd2)]|].
    intros st w4 [-> H4]. split; [done|].
    pose proof (evolves_trans _ _ _ [] [] H3 H4) as H24. split; [|by rewrite (evolves_device _ _ _ d H24)].
    apply (conserves_trans w w1 _ [] []); [exact (evolves_conserves _ _ _ H1)|].
    pose proof H24 as (Hok4 & _ & Hc4 & Hl4 & _). split; [done|]. split; [by rewrite Hc4|].
    split; [by rewrite Hl4, Hl2|]. split.
    + intros Hv. apply H4. by apply Hr, Hbut.
    + intros d' Hd'. rewrite (evolves_device _ _ _ d' H24). by apply Hn2.
  - apply runs_ret. split; [done|]. split; [|done].
    apply (conserves_trans w w1 _ [] []); [exact (evolves_conserves _ _ _ H1)|].
    split; [done|]. split; [done|]. split; [by rewrite Hl2, app_nil_r|]. split; [|done].
    apply Hsame. rewrite (evolves_device _ _ _ d H1). by apply Hch.
Qed.

Lemma config_status_ok s d c :
  configs_ok s -> 0 <= d -> config_arg c -> config_status s d c = BVSTK_OK -> replaces s d c.
Proof.
  intros Hc Hd Harg. unfold config_status. destruct (for_find _ _ _) eqn:Ef; [done|].
  destruct (is_ok (check s d 0)) eqn:Ek; cbn [andb].
  2:{ intros He. by rewrite He in Ek. }
  apply is_ok_true in Ek. destruct (check_ok s d 0 Hc Hd ltac:(lia) Ek) as [Hin _].
  destruct (streq (mc_name c) _) eqn:En; [|done]. destruct (streq (mc_file_name c) _) eqn:Efn; [|done].
  cbn [negb orb]. intros _. rewrite streq_spec in En, Efn. repeat (split; [done|]).
  intros d' Hd' Hne. rewrite for_find_None in Ef. unfold in_range in *.
  specialize (Ef d' ltac:(lia)). apply andb_false_iff in Ef as [Ef|Ef]; bsimp; [done|exact Ef].
Qed.

(** *** All operations *)

Definition rule_arg (d reg value mask : Z) : Prop :=
  0 <= d /\ 0 <= reg /\ fits 16 value /\ fits 16 mask.

Lemma add_rules_op reg value mask :
  fits 16 value -> fits 16 mask -> rules_op reg (fun rules len => add_rule_to rules len reg value mask).
Proof.
  intros Hv Hm rules len Hl Hlen.
  pose proof (add_rule_to_spec rules len reg value mask ltac:(lia) Hl Hv Hm) as H.
  destruct (add_rule_to _ _ _ _ _) as [st [rules' len']]. destruct H as (H1 & H2 & H3 & _).
  split; [done|]. split; [lia|]. intros P HP Hnew. by apply H3.
Qed.

Lemma remove_rules_op reg value mask :
  rules_op reg (fun rules len => remove_rule_from rules len reg value mask).
Proof.
  intros rules len Hl Hlen.
  pose proof (remove_rule_from_spec rules len reg value mask ltac:(lia)) as H.
  destruct (remove_rule_from _ _ _ _ _) as [st [rules' len']]. destruct H as (H1 & H2 & H3 & _).
  split; [done|]. split; [lia|]. intros P HP _. by apply H3.
Qed.

Lemma clear_body_ok w d which :
  ok w -> 0 <= d ->
  runs (let! o := self (fun sv => policy_list sv d which) in
        let '(st, (rules, len)) := o in
        if negb (is_ok st) then st_ret st
        else
          update (fun sv => set_device d
            (with_rules which (for_each (Z.to_nat len) 0 (fun i a => a.[i <- inhabitant]) rules) 0
               (device sv d)) sv) ;;
          st_ret st) w (fun st w' => conserves w w' [] /\
    if is_ok (fst (policy_list (svc w) d which)) then
      in_range (svc w) d /\ (which = MDIO_POLICY_WHITELIST \/ which = MDIO_POLICY_BLACKLIST) /\
      st = BVSTK_OK /\ exists rules,
      svc w' = set_device d (with_rules which rules 0 (device (svc w) d)) (svc w)
    else st = fst (policy_list (svc w) d which) /\ svc w' = svc w).
Proof.
  intros Hok Hd. apply evolves_self. pose proof (proj1 (proj2 Hok)) as Hc.
  destruct (policy_list (svc w) d which) as [st [rules len]] eqn:El. cbn [fst].
  destruct (is_ok st) eqn:Es; cbn [negb].
  2:{ by apply (stay_ok _ w (fun st' w' => st' = st /\ svc w' = svc w)). }
  apply is_ok_true in Es as ->.
  destruct (policy_list_ok (svc w) d which Hc Hd ltac:(by rewrite El)) as (Hin & Hwhich & Hsel).
  rewrite El in Hsel. cbn [snd] in Hsel. pose proof (device_arg _ _ Hc Hin) as Harg.
  destruct (rules_of_ok which _ Harg) as (Hl & Hlen & _). rewrite <- Hsel in Hl. cbn [fst] in Hl.
  destruct (prefix_clear rules (Z.to_nat len) 0 ltac:(lia)) as [_ Hl'].
  apply runs_bind. eapply runs_mono.
  { apply (edit_run w d (with_rules which (for_each (Z.to_nat len) 0 (fun i a => a.[i <- inhabitant]) rules) 0));
      try done.
    apply with_rules_arg; [done| |done|by apply Forall_nil].
    by rewrite <- Hl, <- Hl'. }
  intros ? w1 [H1 Hs1]. apply runs_ret. split; [done|]. split; [done|]. split; [done|]. eauto.
Qed.

(** The operations that can change the state, with their arguments. *)
Inductive mdio_op :=
  | MdRead (d r : Z) (v : bool) (source : bvstk_event_source_t) (timeout : Z)
  | MdInvalidate (d : Z)
  | MdWrite (d r v : Z) (source : bvstk_event_source_t) (timeout : Z)
  | MdSetPolicy (d policy : Z)
  | MdRuleAdd (d which reg value mask : Z)
  | MdRuleRemove (d which reg value mask : Z)
  | MdRuleClear (d which : Z)
  | MdSetConfig (d : Z) (c : option mdio_phy_config_t)
  | MdStep (now timeout : Z)
  | MdPoll (timeout : Z).

(** The arguments have their C types. *)
Definition op_typed (op : mdio_op) : Prop :=
  match op with
  | MdRead d r _ _ _ | MdWrite d r _ _ _ => 0 <= d /\ 0 <= r
  | MdInvalidate d | MdSetPolicy d _ | MdRuleClear d _ => 0 <= d
  | MdRuleAdd d _ reg value mask | MdRuleRemove d _ reg value mask => rule_arg d reg value mask
  | MdSetConfig d c => 0 <= d /\ match c with Some c => mdio_config_sized c /\ mdio_config_bytes c | None => True end
  | MdStep _ _ | MdPoll _ => True
  end.

Definition perform (op : mdio_op) : ST state bvstk_status_t :=
  match op with
  | MdRead d r v source timeout =>
      let! o := bvstk_mdio_service_read_from true d r v source timeout in st_ret (fst o)
  | MdInvalidate d => bvstk_mdio_service_invalidate true d
  | MdWrite d r v source timeout => bvstk_mdio_service_write true d r v source timeout
  | MdSetPolicy d policy => bvstk_mdio_service_set_policy true d policy
  | MdRuleAdd d which reg value mask => bvstk_mdio_service_rule_add true d which reg value mask
  | MdRuleRemove d which reg value mask => bvstk_mdio_service_rule_remove true d which reg value mask
  | MdRuleClear d which => bvstk_mdio_service_rule_clear_list true d which
  | MdSetConfig d c => bvstk_mdio_service_set_config true d c
  | MdStep now timeout => bvstk_mdio_service_step true now timeout
  | MdPoll timeout => bvstk_mdio_service_poll true timeout
  end.

Fixpoint perform_all (ops : list mdio_op) : ST state unit :=
  match ops with
  | [] => st_ret tt
  | op :: ops => perform op ;; perform_all ops
  end.

(** The writes one operation may put on the bus. *)
Definition bus_writes s (op : mdio_op) (ws : list (Z * Z * Z)) : Prop :=
  match op with
  | MdWrite d r v _ _ => ws = [] \/ in_range s d /\ ws = [(mc_phy_addr (device s d), r, v)] /\
      bvstk_mdio_policy_allows (Some (device s d)) r v = true
  | MdStep _ _ | MdPoll _ => Forall (permitted s) ws /\ alen ws <= 4
  | _ => ws = []
  end.

Lemma body_none {A} p (refused : bvstk_status_t -> A) (m : ST state A) w :
  ok w ->
  (forall w1, evolves w w1 [] -> svc w1 = svc w -> runs m w1 (fun _ w2 => conserves w1 w2 [])) ->
  runs (locked p refused m) w (fun _ w' => exists ws, conserves w w' ws /\ ws = []).
Proof.
  intros Hok Hm. apply (locked_conserves p refused m w (fun ws _ => ws = [])); [done|done|].
  intros w1 H1 Hs1. eapply runs_mono; [by apply Hm|]. intros ? w2 H2. by exists [].
Qed.

Lemma read_body_ok d r v source timeout w :
  ok w -> 0 <= d -> 0 <= r ->
  runs (let! st := self (fun sv => if negb v then BVSTK_ERR_MALFORMED else check sv d r) in
        if is_ok st then
          let! o := read_phy d r source timeout false in st_ret (fst o, Some (snd o))
        else st_ret (st, None)) w (fun _ w' => evolves w w' []).
Proof.
  intros Hok Hd Hr. apply evolves_self. destruct (is_ok _) eqn:Es; [|by apply evolves_refl].
  apply is_ok_true in Es. destruct (negb v); [done|].
  destruct (check_ok _ _ _ (proj1 (proj2 Hok)) Hd Hr Es) as [Hin Hrr].
  apply runs_bind. eapply runs_mono; [by apply read_phy_ok|]. by intros o w1 H1.
Qed.

Lemma invalidate_body_ok d w :
  ok w -> 0 <= d ->
  runs (let! st := self (fun sv => check sv d 0) in
        if is_ok st then invalidate d else st_ret st) w (fun _ w' => evolves w w' []).
Proof.
  intros Hok Hd. apply evolves_self. destruct (is_ok _) eqn:Es; [|by apply evolves_refl].
  apply is_ok_true in Es. destruct (check_ok _ _ 0 (proj1 (proj2 Hok)) Hd ltac:(lia) Es) as [Hin _].
  eapply runs_mono; [by apply invalidate_ok|]. by intros ? ? [_ ?].
Qed.

Lemma write_body_ok d r v source timeout w :
  ok w -> 0 <= d -> 0 <= r ->
  runs (let! st := self (fun sv => check sv d r) in
        if is_ok st then write_phy d r v source timeout else st_ret st) w (fun _ w' =>
    exists ws, evolves w w' ws /\ bus_writes (svc w) (MdWrite d r v source timeout) ws).
Proof.
  intros Hok Hd Hr. apply evolves_self. destruct (is_ok _) eqn:Es.
  2:{ exists []. split; [by apply evolves_refl|by left]. }
  apply is_ok_true in Es. destruct (check_ok _ _ _ (proj1 (proj2 Hok)) Hd Hr Es) as [Hin Hrr].
  eapply runs_mono; [by apply write_phy_ok|]. intros st w1 H1. cbn [bus_writes].
  destruct (bvstk_mdio_policy_allows _ _ _) eqn:Ea.
  - eexists. split; [exact H1|]. by right.
  - exists []. split; [apply H1|by left].
Qed.

Lemma set_config_body_ok d c w :
  ok w -> 0 <= d -> config_arg c ->
  runs (let! st := self (fun sv => config_status sv d c) in
        if is_ok st then
          let! changed := self (fun sv => config_changed c (device sv d)) in
          install_config d c changed
        else st_ret st) w (fun st w' => conserves w w' [] /\
    if is_ok (config_status (svc w) d c) then st = BVSTK_OK /\ device (svc w') d = c
    else st = config_status (svc w) d c /\ svc w' = svc w).
Proof.
  intros Hok Hd Harg. apply evolves_self. destruct (is_ok _) eqn:Es.
  2:{ by apply (stay_ok _ w (fun st w' => st = _ /\ svc w' = svc w)). }
  apply is_ok_true in Es. pose proof (config_status_ok _ _ _ (proj1 (proj2 Hok)) Hd Harg Es) as Hrep.
  apply evolves_self. eapply runs_mono; [apply install_config_ok; [done|done|]|].
  { unfold config_changed. rewrite !orb_false_iff. intros [[[Hp _] _] _]. by bsimp. }
  intros st w1 (-> & H1 & Hc). done.
Qed.

Lemma step_ok p now timeout w :
  ok w -> runs (bvstk_mdio_service_step p now timeout) w (fun _ w' =>
    exists ws, conserves w w' ws /\ Forall (permitted (svc w)) ws /\ alen ws <= 4).
Proof.
  intros Hok. unfold bvstk_mdio_service_step.
  apply (locked_conserves p _ _ w (fun ws _ => Forall (permitted (svc w)) ws /\ alen ws <= 4)); [done|done|].
  intros w1 H1 Hs1. eapply runs_mono; [apply step_body_ok, H1|]. intros ? w2 (ws & H2 & Hp & Hl).
  exists ws. split; [by apply evolves_conserves|]. split; [|done]. by rewrite <- Hs1.
Qed.

Lemma perform_ok op w :
  op_typed op -> ok w ->
  runs (perform op) w (fun _ w' => exists ws, conserves w w' ws /\ bus_writes (svc w) op ws).
Proof.
  intros Hty Hok.
  assert (forall w1, evolves w w1 [] -> ok w1) as Hok1 by (by intros w1 []).
  destruct op as [d r v source timeout|d|d r v source timeout|d policy|d which reg value mask
    |d which reg value mask|d which|d c|now timeout|timeout]; cbn [op_typed perform bus_writes] in *.
  - apply runs_bind. eapply runs_mono.
    { apply body_none; [done|]. intros w1 H1 _. eapply runs_mono; [apply read_body_ok; [by apply Hok1|lia..]|].
      intros ? w2 H2. by apply evolves_conserves. }
    done.
  - apply body_none; [done|]. intros w1 H1 _. eapply runs_mono; [apply invalidate_body_ok; [by apply Hok1|done]|].
    intros ? w2 H2. by apply evolves_conserves.
  - eapply (locked_conserves _ _ _ w (fun ws _ => bus_writes (svc w) (MdWrite d r v source timeout) ws));
      [done|by left|].
    intros w1 H1 Hs1. rewrite <- Hs1. eapply runs_mono; [apply write_body_ok; [by apply Hok1|lia..]|].
    intros ? w2 (ws & H2 & Hb). exists ws. split; [by apply evolves_conserves|done].
  - apply body_none; [done|]. intros w1 H1 _.
    eapply runs_mono; [apply set_policy_body_ok; [by apply Hok1|done]|]. by intros ? w2 (ws & H2 & ->).
  - destruct Hty as (Hd & Hr & Hv & Hm). apply body_none; [done|]. intros w1 H1 _.
    eapply runs_mono.
    { apply (rule_body_ok w1 d which reg (fun rules len => add_rule_to rules len reg value mask));
        [by apply Hok1|done|done|by apply add_rules_op]. }
    by intros ? w2 [H2 _].
  - destruct Hty as (Hd & Hr & Hv & Hm). apply body_none; [done|]. intros w1 H1 _.
    eapply runs_mono.
    { apply (rule_body_ok w1 d which reg (fun rules len => remove_rule_from rules len reg value mask));
        [by apply Hok1|done|done|by apply remove_rules_op]. }
    by intros ? w2 [H2 _].
  - apply body_none; [done|]. intros w1 H1 _.
    eapply runs_mono; [apply clear_body_ok; [by apply Hok1|done]|]. by intros ? w2 [H2 _].
  - unfold bvstk_mdio_service_set_config. destruct Hty as [Hd Hc]. destruct c as [c|].
    2:{ exists []. split; [by apply evolves_conserves, evolves_refl|done]. }
    destruct (is_ok (bvstk_mdio_config_validate (Some c))) eqn:Ev; cbn [negb].
    2:{ exists []. split; [by apply evolves_conserves, evolves_refl|done]. }
    apply is_ok_true in Ev. apply body_none; [done|]. intros w1 H1 _.
    eapply runs_mono; [apply set_config_body_ok; [by apply Hok1|done|done]|]. by intros ? w2 [H2 _].
  - by apply step_ok.
  - unfold bvstk_mdio_service_poll. apply runs_bind.
    assert (runs (world bvstk_platform_now_ms) w (fun _ w1 => evolves w w1 [] /\ svc w1 = svc w)) as Hnow.
    { apply evolves_quiet; [done|apply world_kept|]. unfold world.
      pose proof (law_now Hlaw (wld w)). by destruct (bvstk_platform_now_ms (wld w)). }
    eapply runs_mono; [exact Hnow|]. intros now w1 [H1 Hs1].
    eapply runs_mono; [apply step_ok, H1|]. intros ? w2 (ws & H2 & Hp & Hl). exists ws.
    split; [exact (conserves_trans _ _ _ [] _ (evolves_conserves _ _ _ H1) H2)|].
    by rewrite <- Hs1.
Qed.

Lemma perform_all_ok ops w :
  Forall op_typed ops -> ok w ->
  runs (perform_all ops) w (fun _ w' => exists ws, conserves w w' ws).
Proof.
  revert w. induction ops as [|op ops IH]; intros w Hty Hok; cbn [perform_all].
  { exists []. by apply evolves_conserves, evolves_refl. }
  apply Forall_cons in Hty as [H1 H2]. apply runs_bind.
  eapply runs_mono; [by apply perform_ok|]. intros ? w1 (ws & H3 & _).
  eapply runs_mono; [apply IH; [done|apply H3]|]. intros ? w2 (ws' & H4).
  exists (ws ++ ws'). by eapply conserves_trans.
Qed.

(** *** Initialisation *)

Definition blank x : Prop := forall p r, 0 <= p < 32 -> 0 <= r < 32 -> shadow x p r = 0xFFFF.

(** The driver starts with blank mailboxes; without a driver, the caller's bus does. *)
Definition boots (core : option CORE) (x : X) : Prop :=
  match core with
  | Some core => let '(st, x') := hw_mdio_prepare_slave core x in st = BVSTK_OK -> blank x'
  | None => blank x
  end.

Lemma seed_all_ok n i w :
  ok w -> 0 <= i -> i + Z.of_nat n <= md_device_count (svc w) ->
  runs (seed_all n i) w (fun st w' => st = BVSTK_OK /\ evolves w w' []).
Proof.
  revert i w. induction n as [|n IH]; intros i w Hok Hi Hn; cbn [seed_all].
  { apply runs_ret. split; [done|by apply evolves_refl]. }
  apply runs_bind. eapply runs_mono; [apply seed_ok; [done|unfold in_range; lia]|].
  intros st w1 [-> H1]. cbn [is_ok negb]. eapply runs_mono; [apply IH; [apply H1|lia|]|].
  { destruct H1 as (_ & _ & -> & _). lia. }
  intros st w2 [-> H2]. split; [done|]. exact (evolves_trans _ _ _ [] [] H1 H2).
Qed.

(** The configurations handed over at start have their C types. *)
Definition configs_arg (devices : list mdio_phy_config_t) (count : Z) : Prop :=
  0 <= count <= alen devices /\
  forall i, 0 <= i < count -> mdio_config_sized (devices.[i]) /\ mdio_config_bytes (devices.[i]).

Lemma fresh_ok core bus devices count events x :
  configs_arg devices count -> count <= MDIO_CFG_MAX_DEVICES ->
  for_find (Z.to_nat count) 0 (config_refused devices) = None ->
  env (fresh_service core bus devices count events) = E ->
  ok (MdioState (fresh_service core bus devices count events) x) /\
  (blank x -> host_view (MdioState (fresh_service core bus devices count events) x)).
Proof.
  intros [Hcnt Hsz] Hmax Hf He. set (s := fresh_service core bus devices count events) in *.
  assert (forall d, 0 <= d < count -> device s d = devices.[d]) as Hdev.
  { intros d Hd. unfold device, s, fresh_service. cbn [md_devices].
    apply aget_copy_prefix; lia. }
  assert (alen (md_devices s) = 8) as Hlen.
  { unfold s, fresh_service, copy_prefix, alen, MDIO_CFG_MAX_DEVICES in *. cbn [md_devices].
    rewrite length_app, length_take, length_drop. unfold zero_mdio_service, fill. cbn [md_devices]. rewrite length_replicate. unfold MDIO_CFG_MAX_DEVICES. lia. }
  rewrite for_find_None in Hf. unfold config_refused in Hf.
  assert (configs_ok s) as Hc.
  { split; [done|]. split; [unfold MDIO_CFG_MAX_DEVICES in Hmax; cbn; lia|].
    assert (forall d d', 0 <= d' < d -> d < count -> mc_phy_addr (devices.[d]) <> mc_phy_addr (devices.[d'])) as Hu.
    { intros d d' Hd' Hd. specialize (Hf d ltac:(lia)). apply orb_false_iff in Hf as [_ Hf].
      destruct (for_find (Z.to_nat d) 0 _) eqn:Ef; [done|]. rewrite for_find_None in Ef.
      specialize (Ef d' ltac:(lia)). by bsimp. }
    split.
    - intros d Hd. change (0 <= d < count) in Hd. rewrite Hdev by done. split; [by apply Hsz|].
      specialize (Hf d ltac:(lia)). apply orb_false_iff in Hf as [Hf _]. bsimp. by apply is_ok_true.
    - intros d d' Hd Hd' Heq. change (0 <= d < count) in Hd. change (0 <= d' < count) in Hd'.
      rewrite !Hdev in Heq by done. destruct (decide (d = d')); [done|]. exfalso.
      destruct (decide (d' < d)); [by apply (Hu d d'); [lia|lia|]|by apply (Hu d' d); [lia|lia|]]. }
  split.
  - split; [done|]. split; [done|]. split; [done|]. split; [|repeat (split; [done|])].
    + intros d Hd. change (md_cache _) with (fill MDIO_CFG_MAX_DEVICES (fill 32 zero_entry)).
      by rewrite aget_fill.
    + intros d Hd. change (md_poll_index _) with (fill MDIO_CFG_MAX_DEVICES 0).
      destruct Hc as (_ & Hn & _). unfold in_range in Hd.
      rewrite aget_fill by (unfold MDIO_CFG_MAX_DEVICES; cbn in *; lia). split; [lia|by left].
  - intros Hb d r Hd Hr. cbn [svc wld] in *. rewrite Hb; [|by apply device_phy_range|done].
    unfold entry. change (md_cache _) with (fill MDIO_CFG_MAX_DEVICES (fill 32 zero_entry)).
    destruct Hc as (_ & Hn & _). unfold in_range in Hd.
    rewrite aget_fill by (unfold MDIO_CFG_MAX_DEVICES; cbn in *; lia). by rewrite aget_fill.
Qed.

Lemma init_ok core bus devices count events w :
  configs_arg devices count -> 0 <= count ->
  env (fresh_service core bus devices count events) = E -> boots core (wld w) ->
  runs (bvstk_mdio_service_init true core bus (Some devices) count events) w (fun st w' =>
    st = BVSTK_OK -> ok w' /\ host_view w' /\ md_initialized (svc w') = 1 /\ md_device_count (svc w') = count /\
    forall d, 0 <= d < count -> device (svc w') d = devices.[d]).
Proof.
  intros Harg Hcount He Hboot. unfold bvstk_mdio_service_init. cbn [negb orb default id].
  destruct (MDIO_CFG_MAX_DEVICES <? count) eqn:Emax; cbn [orb]; [done|].
  destruct (negb (count =? 0) && _); [done|]. bsimp.
  destruct (for_find _ _ _) eqn:Ef; [done|]. apply runs_bind. unfold runs at 1. cbn [fst snd update].
  apply runs_bind.
  pose proof (fun x => fresh_ok core bus devices count events x Harg Emax Ef He) as Hfresh.
  eapply (runs_mono _ _ (fun st w1 => svc w1 = fresh_service core bus devices count events /\
    (st = BVSTK_OK -> blank (wld w1)))).
  { destruct core as [core|]; [|split; [done|]; intros _; exact Hboot]. cbn [boots] in Hboot.
    unfold runs, world. cbn [wld]. destruct (hw_mdio_prepare_slave core (wld w)) as [st x']. done. }
  intros st [s1 x1] [Hs1 Hb]. cbn [svc wld] in *. subst s1. destruct (is_ok st) eqn:Est; cbn [negb]; [|done].
  apply is_ok_true in Est. destruct (Hfresh x1) as [Hok1 Hv1]. apply runs_bind.
  eapply runs_mono; [apply seed_all_ok; [done|lia|cbn; lia]|]. intros st2 w2 [-> H2]. cbn [is_ok negb].
  apply runs_bind. unfold runs at 1. cbn [fst snd update]. apply runs_ret. intros _.
  pose proof (evolves_update w2 (mset_initialized 1) (proj1 H2) eq_refl eq_refl eq_refl eq_refl
    (proj2 (proj2 (proj1 H2)))) as H3.
  pose proof (evolves_trans _ _ _ [] [] H2 H3) as H13. split; [apply H3|].
  split; [by apply H13, Hv1, Hb|]. split; [done|].
  split; [by destruct H13 as (_ & _ & -> & _)|]. intros d Hd. rewrite (evolves_device _ _ _ d H13). cbn [svc].
  destruct Harg as [Hcnt _].
  unfold device, fresh_service. cbn [md_devices]. apply aget_copy_prefix; lia.
Qed.

Lemma config_status_replaces s d c : configs_ok s -> replaces s d c -> config_status s d c = BVSTK_OK.
Proof.
  intros Hc (Hd & _ & Hn & Hf & Hu). unfold config_status.
  pose proof (device_reg_count s d Hc Hd) as Hrc. unfold in_range in *.
  assert (check s d 0 = BVSTK_OK) as ->.
  { unfold check. rewrite (proj2 (Z.leb_gt _ _)) by lia. by rewrite (proj2 (Z.ltb_lt _ _)) by lia. }
  rewrite (proj2 (streq_spec _ _) Hn), (proj2 (streq_spec _ _) Hf). cbn.
  destruct (for_find _ _ _) as [i|] eqn:Ef; [|done]. apply for_find_Some in Ef as (Hi & He & _). bsimp.
  exfalso. by apply (Hu i); [lia|..].
Qed.

(** With the lock granted, an operation leaves the service as its body does. *)
Lemma locked_granted {A} p (refused : bvstk_status_t -> A) (m : ST state A) w (Q : A -> service -> Prop) :
  ok w -> is_ok (fst (lock p w)) = true ->
  (forall w1, evolves w w1 [] -> svc w1 = svc w -> runs m w1 (fun a w2 => Q a (svc w2))) ->
  runs (locked p refused m) w (fun a w' => Q a (svc w')).
Proof.
  intros Hok Hst Hm. unfold locked. apply runs_bind.
  pose proof (lock_ok p w Hok) as Hl. unfold runs at 1. unfold runs in Hl.
  destruct (lock p w) as [st w1]. cbn [fst snd] in *. destruct Hl as [H1 Hs1]. rewrite Hst. cbn [negb].
  apply runs_bind. eapply runs_mono; [by apply Hm|]. intros a w2 HQ. exact HQ.
Qed.

Definition list_set (which : Z) (c : mdio_phy_config_t) : gset (Z * Z * Z) :=
  mdio_rule_set (fst (rules_of which c)) (snd (rules_of which c)).

(** ** The properties *)

(** Starting the service with configurations of their C types: when it
    reports success the device table holds exactly those configurations, all
    valid and at distinct addresses, every table has its size, and the host
    reads from each mailbox the preset value of the register or 0xFFFF. *)
Theorem mdio_init_establishes core bus devices count events w :
  configs_arg devices count -> env (fresh_service core bus devices count events) = E ->
  boots core (wld w) ->
  runs (bvstk_mdio_service_init true core bus (Some devices) count events) w (fun st w' =>
    st = BVSTK_OK -> configs_ok (svc w') /\ tables_ok (svc w') /\ host_view w' /\
    md_device_count (svc w') = count /\ forall d, 0 <= d < count -> device (svc w') d = devices.[d]).
Proof.
  intros Harg He Hb. eapply runs_mono; [apply init_ok; [done|apply Harg|done|done]|].
  intros st w' H Hst. destruct (H Hst) as ((_ & Hc & Ht) & Hv & _ & Hn & Hd). by repeat (split; [done|]).
Qed.

(** C20: Along any sequence of operations the MDIO service keeps every
    configuration valid, no two devices on one address, each table at its size
    and each poll index inside its list, the identity of every device, and the
    agreement of the host mailboxes with the cache: the host reads the cached
    value of a valid entry and 0xFFFF otherwise. *)
Theorem mdio_service_invariant ops w :
  Forall op_typed ops -> ok w -> host_view w ->
  runs (perform_all ops) w (fun _ w' =>
    configs_ok (svc w') /\ tables_ok (svc w') /\ host_view w' /\
    md_device_count (svc w') = md_device_count (svc w) /\
    forall d, in_range (svc w) d ->
      cstr (mc_name (device (svc w') d)) = cstr (mc_name (device (svc w) d)) /\
      cstr (mc_file_name (device (svc w') d)) = cstr (mc_file_name (device (svc w) d))).
Proof.
  intros Hty Hok Hv. eapply runs_mono; [by apply perform_all_ok|].
  intros ? w' (ws & (_ & Hc & Ht) & Hn & _ & Hv' & Hid). split; [done|]. split; [done|]. auto.
Qed.

(** C1: Nothing reaches the MDIO bus past the policy: a write operation puts at
    most its own value on the bus, and only if the policy of its device permits
    it; a worker step forwards at most four captured host writes, each permitted
    by the policy of the device at its address; no other operation writes. *)
Theorem mdio_writes_policed op w :
  op_typed op -> ok w ->
  runs (perform op) w (fun _ w' =>
    exists ws, wlog (wld w') = wlog (wld w) ++ ws /\ bus_writes (svc w) op ws).
Proof.
  intros Hty Hok. eapply runs_mono; [by apply perform_ok|].
  intros ? w' (ws & (_ & _ & Hl & _) & Hb). by exists ws.
Qed.

(** A read of a register in range returns the reply of the bus; a success
    becomes the valid, unseeded cache entry and the host's answer, a failure
    invalidates the entry and blanks the host's answer. *)
Theorem mdio_read_refreshes d r source timeout w :
  ok w -> host_view w -> 0 <= d -> 0 <= r -> check (svc w) d r = BVSTK_OK ->
  is_ok (fst (lock true w)) = true ->
  let phy := mc_phy_addr (device (svc w) d) in
  let o := fst (bus_or_core_read phy r timeout (snd (lock true w))) in
  runs (bvstk_mdio_service_read_from true d r true source timeout) w (fun a w' =>
    a = (fst o, Some (snd o)) /\
    (if is_ok (fst o) then exists now, entry (svc w') d r = MdioEntry (snd o) 1 0 now
     else me_valid (entry (svc w') d r) = 0) /\
    shadow (wld w') phy r = if is_ok (fst o) then snd o else 0xFFFF).
Proof.
  intros Hok Hv Hd Hr Hck Hst. cbv zeta.
  destruct (check_ok _ _ _ (proj1 (proj2 Hok)) Hd Hr Hck) as [Hin Hrr].
  pose proof (lock_silent true w Hok) as Hl. unfold runs in Hl.
  unfold bvstk_mdio_service_read_from, locked. apply runs_bind. unfold runs at 1.
  destruct (lock true w) as [st w1]. cbn [fst snd] in *. rewrite Hst. cbn [negb].
  pose proof (silent_ok _ _ Hok Hl) as Hok1. pose proof (silent_evolves _ _ Hok Hl) as H1.
  destruct Hl as [Hs1 _]. rewrite <- Hs1 in Hck, Hin |- *.
  apply runs_bind. apply evolves_self. cbn [negb]. rewrite Hck. cbn [is_ok].
  apply runs_bind. eapply runs_mono; [by apply read_phy_spec|].
  intros o w2 [H2 [-> He]]. apply runs_ret, runs_bind.
  eapply runs_mono; [apply unlock_silent, H2|]. intros ? w3 [Hs3 [_ Hsh3]]. apply runs_ret.
  rewrite Hs3, Hsh3. split; [done|]. split; [done|].
  assert (host_view w2) as Hv2 by (by apply H2, H1).
  pose proof (Hv2 d r (evolves_in _ _ _ _ H2 Hin) Hrr) as Hview.
  rewrite (evolves_device _ _ _ d H2) in Hview. rewrite Hview. destruct (is_ok (fst (fst (bus_or_core_read _ _ _ w1)))).
  - destruct He as [now ->]. done.
  - by rewrite He.
Qed.

(** Replacing the configuration of a device: with the lock granted, an
    invalid configuration, one for an unknown device, with another identity or
    at an address in use is refused and changes nothing; any other is installed
    as given. *)
Theorem mdio_set_config_installs d c w :
  ok w -> 0 <= d -> mdio_config_sized c -> mdio_config_bytes c ->
  is_ok (fst (lock true w)) = true ->
  let fits := mdio_config_wf c /\ replaces (svc w) d c in
  runs (bvstk_mdio_service_set_config true d (Some c)) w (fun st w' =>
    fits /\ st = BVSTK_OK /\ device (svc w') d = c \/ ~ fits /\ st <> BVSTK_OK /\ svc w' = svc w).
Proof.
  intros Hok Hd Hsz Hb Hst fits. unfold bvstk_mdio_service_set_config.
  pose proof (mdio_validate_wf c Hsz) as Hwf.
  destruct (is_ok (bvstk_mdio_config_validate (Some c))) eqn:Ev; cbn [negb].
  2:{ apply is_ok_false in Ev. apply runs_ret. right. split; [|done]. intros [H _]. by apply Ev, Hwf. }
  apply is_ok_true in Ev. assert (config_arg c) as Harg by done. apply Hwf in Ev.
  apply (locked_granted _ _ _ w (fun st s => fits /\ st = BVSTK_OK /\ device s d = c \/
    ~ fits /\ st <> BVSTK_OK /\ s = svc w) Hok Hst).
  intros w1 H1 Hs1. eapply runs_mono; [apply set_config_body_ok; [apply H1|done|done]|].
  intros st w2 [_ H2]. rewrite Hs1 in H2. pose proof (proj1 (proj2 Hok)) as Hc.
  destruct (is_ok (config_status (svc w) d c)) eqn:Ec.
  - left. apply is_ok_true in Ec. split; [|done]. split; [done|]. by apply config_status_ok.
  - right. apply is_ok_false in Ec. destruct H2 as [-> Hs2]. split; [|done].
    intros [_ Hr]. by apply Ec, config_status_replaces.
Qed.

(** Refinement.  With the lock granted and the arguments accepted, the rule
    operations act on the selected list of the device as on a set of masked
    values: adding is union and fails only on a full list, removing is
    difference and fails only when the rule is absent, clearing empties the
    list; the mode, the other list and everything else stay. *)
Theorem mdio_rules_refine d which reg value mask w :
  ok w -> rule_arg d reg value mask -> is_ok (fst (lock true w)) = true ->
  is_ok (rule_status (svc w) d which reg) = true ->
  let c := device (svc w) d in
  let k := key reg value mask in
  let edited w' rules len := svc w' = set_device d (with_rules which rules len c) (svc w) in
  runs (bvstk_mdio_service_rule_add true d which reg value mask) w (fun st w' =>
    exists rules len, edited w' rules len /\
    (st = BVSTK_OK /\ mdio_rule_set rules len = {[k]} ∪ list_set which c \/
     st = BVSTK_ERR_RANGE /\ ~ k ∈ list_set which c /\ (rules, len) = rules_of which c /\
     len = MDIO_CFG_RULES_MAX)) /\
  runs (bvstk_mdio_service_rule_remove true d which reg value mask) w (fun st w' =>
    exists rules len, edited w' rules len /\
    (st = BVSTK_OK /\ k ∈ list_set which c /\ mdio_rule_set rules len = list_set which c ∖ {[k]} \/
     st = BVSTK_ERR_NOT_FOUND /\ ~ k ∈ list_set which c /\ (rules, len) = rules_of which c)) /\
  runs (bvstk_mdio_service_rule_clear_list true d which) w (fun st w' =>
    st = BVSTK_OK /\ exists rules, edited w' rules 0 /\ mdio_rule_set rules 0 = ∅).
Proof.
  intros Hok (Hd & Hr & Hv & Hm) Hst Hrs c k edited. pose proof (proj1 (proj2 Hok)) as Hc.
  assert (fst (policy_list (svc w) d which) = BVSTK_OK) as Hpl.
  { apply is_ok_true. unfold rule_status in Hrs. cbv zeta in Hrs.
    destruct (is_ok (fst (policy_list (svc w) d which))) eqn:Ep; [done|congruence]. }
  destruct (policy_list_ok _ _ _ Hc Hd Hpl) as (Hin & _ & _).
  destruct (rules_of_ok which _ (device_arg _ _ Hc Hin)) as (Hl & Hlen & _). fold c in Hl, Hlen.
  unfold list_set. destruct (rules_of which c) as [rules len] eqn:Ero. cbn [fst snd] in *.
  split; [|split].
  - apply (locked_granted _ _ _ w (fun st s => exists rules' len',
      s = set_device d (with_rules which rules' len' c) (svc w) /\ _) Hok Hst).
    intros w1 H1 Hs1. eapply runs_mono.
    { apply (rule_body_ok w1 d which reg (fun rules len => add_rule_to rules len reg value mask));
        [apply H1|done|done|by apply add_rules_op]. }
    intros st w2 [_ H2]. rewrite Hs1, Hrs in H2. fold c in H2. cbv zeta in H2. rewrite Ero in H2. cbn [fst snd] in H2.
    pose proof (add_rule_to_spec rules len reg value mask ltac:(lia) Hl Hv Hm) as Hadd.
    destruct (add_rule_to _ _ _ _ _) as [st' [rules' len']]. cbn [fst snd] in *.
    destruct H2 as (_ & _ & -> & Hs2). exists rules', len'. split; [exact Hs2|].
    destruct Hadd as (_ & _ & _ & [Hadd|(? & ? & ? & -> & ->)]); [by left|by right].
  - apply (locked_granted _ _ _ w (fun st s => exists rules' len',
      s = set_device d (with_rules which rules' len' c) (svc w) /\ _) Hok Hst).
    intros w1 H1 Hs1. eapply runs_mono.
    { apply (rule_body_ok w1 d which reg (fun rules len => remove_rule_from rules len reg value mask));
        [apply H1|done|done|by apply remove_rules_op]. }
    intros st w2 [_ H2]. rewrite Hs1, Hrs in H2. fold c in H2. cbv zeta in H2. rewrite Ero in H2. cbn [fst snd] in H2.
    pose proof (remove_rule_from_spec rules len reg value mask ltac:(lia)) as Hrem.
    destruct (remove_rule_from _ _ _ _ _) as [st' [rules' len']]. cbn [fst snd] in *.
    destruct H2 as (_ & _ & -> & Hs2). exists rules', len'. split; [exact Hs2|].
    destruct Hrem as (_ & _ & _ & [Hrem|(? & ? & -> & ->)]); [by left|by right].
  - apply (locked_granted _ _ _ w (fun st s => st = BVSTK_OK /\ exists rules',
      s = set_device d (with_rules which rules' 0 c) (svc w) /\ _) Hok Hst).
    intros w1 H1 Hs1. eapply runs_mono; [apply clear_body_ok; [apply H1|done]|].
    intros st w2 [_ H2]. rewrite Hs1, Hpl in H2. cbn [is_ok] in H2.
    destruct H2 as (_ & _ & -> & rules' & Hs2). split; [done|]. by exists rules'.
Qed.
End invariants.

(** ** A concrete environment

    A bus of PHYs that answer 0x0022, host mailboxes, a queue of host writes and
    the log of the bus writes. *)

Record demo_world := DemoWorld {
  dw_shadow : Z -> Z -> Z;
  dw_log : list (Z * Z * Z);
  dw_host : list (Z * Z * Z)
}.

#[local] Instance demo_clock : Platform demo_world := {|
  bvstk_platform_now_ms x := (7, x);
  bvstk_platform_sleep_ms _ x := x;
  Xil_In32 _ x := (0, x);
  Xil_Out32 _ _ x := x
|}.

(** No PL driver behind this service: never called. *)
#[local] Instance demo_no_driver : MdioHw demo_world unit := {|
  hw_mdio_read _ _ _ _ := st_ret (BVSTK_ERR_NOT_READY, 0);
  hw_mdio_write _ _ _ _ _ := st_ret BVSTK_ERR_NOT_READY;
  hw_mdio_take_write _ _ _ := st_ret (BVSTK_ERR_NOT_FOUND, 0);
  hw_mdio_publish _ _ _ _ := st_ret BVSTK_ERR_NOT_READY;
  hw_mdio_ack_slave _ := st_ret BVSTK_OK;
  hw_mdio_prepare_slave _ := st_ret BVSTK_ERR_NOT_READY
|}.

Definition demo_take (phy reg : Z) : ST demo_world (bvstk_status_t * Z) := fun x =>
  match dw_host x with
  | (p, r, v) :: rest =>
      if (p =? phy) && (r =? reg) then ((BVSTK_OK, v), DemoWorld (dw_shadow x) (dw_log x) rest)
      else ((BVSTK_ERR_NOT_FOUND, 0), x)
  | [] => ((BVSTK_ERR_NOT_FOUND, 0), x)
  end.

Definition demo_bus : bvstk_mdio_bus_ops_t demo_world := MdioBus
  (Some (fun _ _ _ => st_ret (BVSTK_OK, 0x22)))
  (Some (fun phy r v _ _ x => (BVSTK_OK, DemoWorld (dw_shadow x) (dw_log x ++ [(phy, r, v)]) (dw_host x))))
  (Some demo_take)
  (Some (fun phy r v x => (BVSTK_OK,
     DemoWorld (fun p q => if decide (p = phy /\ q = r) then v else dw_shadow x p q) (dw_log x) (dw_host x)))).

Definition demo_env : option unit * bvstk_mdio_bus_ops_t demo_world * bvstk_event_sink_t demo_world *
    bvstk_cache_sink_t demo_world * option (Z -> mdio_phy_config_t -> demo_world -> demo_world) *
    bvstk_mutex_t demo_world :=
  (None, demo_bus, EventSink None, no_sink, None, Mutex None None).

Lemma demo_lawful : lawful (CORE:=unit) dw_shadow dw_log demo_env.
Proof.
  assert (forall w : mdio_state demo_world unit, env (svc w) = demo_env ->
    md_core (svc w) = None /\ md_bus (svc w) = demo_bus /\ md_events (svc w) = EventSink None /\
    md_cache_sink (svc w) = no_sink) as He.
  { intros w. unfold env, demo_env. by intros [= -> -> -> -> _ _]. }
  constructor; try (by intros).
  - intros w phy reg v (_ & Hb & _)%He _ _. unfold publish, runs. by rewrite Hb.
  - intros w phy r timeout (_ & Hb & _)%He. unfold bus_or_core_read, runs. by rewrite Hb.
  - intros w phy r (_ & Hb & _)%He. unfold bus_or_core_take, runs. rewrite Hb. cbn.
    unfold world, demo_take. destruct (dw_host (wld w)) as [|[[p q] v] rest]; [done|]. by destruct (_ && _).
  - intros w phy r v source timeout (_ & Hb & _)%He. unfold bus_or_core_write, runs. by rewrite Hb.
  - intros w ty st source phy reg v fl (_ & _ & Hev & _)%He. unfold emit_flags, runs. by rewrite Hev.
  - intros w d r (_ & _ & _ & Hs)%He. unfold cache_changed, runs. by rewrite Hs.
Qed.

(** The host has left a permitted, a forbidden and a misaddressed write. *)
Definition demo_before : mdio_state demo_world unit :=
  MdioState zero_mdio_service
    (DemoWorld (fun _ _ => 0xFFFF) [] [(1, 0, 0x9200); (1, 0, 0x1200); (9, 3, 1)]).
Definition demo_init : bvstk_status_t * mdio_state demo_world unit :=
  bvstk_mdio_service_init true None (Some demo_bus) (Some [demo_phy]) 1 None demo_before.

Lemma demo_configs : configs_arg [demo_phy] 1.
Proof.
  split; [done|]. intros i Hi. replace i with 0 by lia. split; [apply demo_phy_sized|].
  split; apply Forall_forall; intros x Hx; revert x Hx; apply Forall_forall; vm_compute;
    repeat constructor; done.
Qed.

Lemma demo_ready : ok demo_env (snd demo_init) /\ host_view dw_shadow (snd demo_init).
Proof.
  pose proof (init_ok dw_shadow dw_log demo_env demo_lawful None (Some demo_bus) [demo_phy] 1 None demo_before
    demo_configs ltac:(done) eq_refl) as H.
  destruct H as (Hok & Hv & _); [by intros p r _ _|by vm_compute|]. by split.
Qed.

Lemma mdio_init_establishes_witness :
  fst demo_init = BVSTK_OK /\ configs_ok (svc (snd demo_init)) /\
  device (svc (snd demo_init)) 0 = demo_phy /\ dw_shadow (wld (snd demo_init)) 1 4 = 0x1E1.
Proof.
  assert (fst demo_init = BVSTK_OK) as Hst by (vm_compute; done).
  destruct (mdio_init_establishes dw_shadow dw_log demo_env demo_lawful None (Some demo_bus) [demo_phy] 1 None
    demo_before demo_configs eq_refl ltac:(by intros p r _ _) Hst) as (Hc & _ & _ & _ & Hd).
  split; [done|]. split; [exact Hc|]. split; [apply (Hd 0); lia|]. vm_compute. done.
Defined.

(** A write, a worker step, a new rule, a change of address. *)
Definition demo_ops : list mdio_op :=
  [MdWrite 0 0 0x9200 BVSTK_EVENT_SOURCE_HOST 10; MdStep 5 10; MdRuleAdd 0 MDIO_POLICY_WHITELIST 5 1 1;
   MdInvalidate 0].

Lemma mdio_service_invariant_witness :
  host_view dw_shadow (snd (perform_all demo_ops (snd demo_init))) /\
  dw_log (wld (snd (perform_all demo_ops (snd demo_init)))) = [(1, 0, 0x9200); (1, 0, 0x9200)].
Proof.
  split; [|vm_compute; done].
  apply (mdio_service_invariant dw_shadow dw_log demo_env demo_lawful demo_ops (snd demo_init));
    [|apply demo_ready..].
  repeat constructor; cbn; done || lia.
Defined.

Lemma mdio_writes_policed_witness :
  exists ws, dw_log (wld (snd (perform (MdStep 5 10) (snd demo_init)))) = ws /\
    Forall (permitted (svc (snd demo_init))) ws /\ alen ws <= 4.
Proof.
  destruct (mdio_writes_policed dw_shadow dw_log demo_env demo_lawful (MdStep 5 10) (snd demo_init) I
    (proj1 demo_ready)) as (ws & Hl & Hp & Hn).
  exists ws. split; [|by split]. rewrite Hl. done.
Defined.

Lemma mdio_read_refreshes_witness :
  fst (bvstk_mdio_service_read_from true 0 2 true BVSTK_EVENT_SOURCE_INTERNAL 10 (snd demo_init)) =
    (BVSTK_OK, Some 0x22) /\
  dw_shadow (wld (snd (bvstk_mdio_service_read_from true 0 2 true BVSTK_EVENT_SOURCE_INTERNAL 10
    (snd demo_init)))) 1 2 = 0x22.
Proof.
  destruct (mdio_read_refreshes dw_shadow dw_log demo_env demo_lawful 0 2 BVSTK_EVENT_SOURCE_INTERNAL 10
    (snd demo_init) (proj1 demo_ready) (proj2 demo_ready) ltac:(lia) ltac:(lia)
    ltac:(vm_compute; done) ltac:(vm_compute; done)) as (Ha & _ & Hs).
  split; [rewrite Ha; vm_compute; done|exact Hs].
Defined.

(** The same device moved to PHY address 3. *)
Definition demo_moved : mdio_phy_config_t :=
  MdioConfig (mc_name demo_phy) (mc_file_name demo_phy) 3 32 MDIO_POLICY_WHITELIST true
    (mc_autopoll_regs demo_phy) 3 10 1000 (mc_whitelist demo_phy) 1 (fill 64 inhabitant) 0
    (mc_settings demo_phy) 1 zero_profile.

Lemma mdio_set_config_installs_witness :
  device (svc (snd (bvstk_mdio_service_set_config true 0 (Some demo_moved) (snd demo_init)))) 0 = demo_moved.
Proof.
  destruct (mdio_set_config_installs dw_shadow dw_log demo_env demo_lawful 0 demo_moved (snd demo_init)
    (proj1 demo_ready) ltac:(lia) ltac:(done) (proj2 (proj2 demo_configs 0 ltac:(lia)))
    ltac:(vm_compute; done)) as [(_ & _ & H)|(_ & H & _)]; [exact H|].
  destruct H. vm_compute. done.
Defined.

Lemma mdio_rules_refine_witness :
  exists rules, mdio_rule_set rules 2 = {[(5, 1, 1)]} ∪ {[(0, 0x8000, 0x8000)]}.
Proof.
  destruct (mdio_rules_refine dw_shadow dw_log demo_env demo_lawful 0 MDIO_POLICY_WHITELIST 5 1 1
    (snd demo_init) (proj1 demo_ready) ltac:(by repeat split) ltac:(vm_compute; done)
    ltac:(vm_compute; done)) as [(rules & len & He & [[_ Hs]|(_ & _ & _ & Hm)]) _].
  - assert (len = 2) as ->.
    { pose proof (f_equal (fun s => mc_whitelist_len (device s 0)) He) as Hl. vm_compute in Hl. done. }
    exists rules. rewrite Hs. f_equal.
  - exfalso. pose proof (f_equal (fun s => mc_whitelist_len (device s 0)) He) as Hl. subst len.
    vm_compute in Hl. done.
Defined.
