(* ===== verification/SpiCore.v ===== *)
(** * SpiCore: the PL SPI master driver

    [src/src/drivers/pl/spi/bvstk_spi_core.c]: block transfers through the
    transmit FIFO, received words in block RAM.  The polling loop carries fuel
    and returns [None] without it; the theorems show that as many rounds as
    milliseconds of timeout are enough. *)
From stdpp Require Import prelude.
From Stdlib Require Import ZArith Lia.
From S2P Require Import Prelude Platform PlAccess.
Local Open Scope Z_scope.

(** ** Registers (hardware/pl/spi/bvstk_spi_regs.h) *)

Definition BVSTK_SPI_CSR_OFFSET : Z := 0x00.
Definition BVSTK_SPI_IRQ_OFFSET : Z := 0x04.
Definition BVSTK_SPI_PACKET_OFFSET : Z := 0x08.
Definition BVSTK_SPI_TIMEOUT_OFFSET : Z := 0x0C.
Definition BVSTK_SPI_TX_FIFO_OFFSET : Z := 0x10.
Definition BVSTK_SPI_SIGNATURE_OFFSET : Z := 0x18.
Definition BVSTK_SPI_MODE_MULTI : Z := 2.
Definition BVSTK_SPI_DEFAULT_TIMEOUT_MS : Z := 100.
Definition BVSTK_SPI_MAX_WORDS : Z := 1024.

Record bvstk_spi_core_config_t := SpiConfig {
  packets_mode : Z;
  timeout_ticks : Z;
  p_clk_div : Z;
  read_enable : bool
}.
Definition zero_spi_config : bvstk_spi_core_config_t := SpiConfig 0 0 0 false.

(** The configuration written to [*output]; [None] when the call is refused. *)
Definition normalize_config (input : option bvstk_spi_core_config_t) : option bvstk_spi_core_config_t :=
  match input with
  | None => None
  | Some c =>
      let mode := Z.land (packets_mode c) 3 in
      let mode := if mode =? 0 then BVSTK_SPI_MODE_MULTI else mode in
      let ticks := if timeout_ticks c =? 0 then 1 else timeout_ticks c in
      let div := if p_clk_div c <? 2 then 2 else p_clk_div c in
      let div := if truth (Z.land div 1) then u16 (div + 1) else div in
      Some (SpiConfig mode ticks div (read_enable c))
  end.

Definition spi_effective_timeout (timeout_ms : Z) : Z :=
  if timeout_ms =? 0 then BVSTK_SPI_DEFAULT_TIMEOUT_MS else timeout_ms.

Section core.
Context {X : Type} `{PL : Platform X}.

Record bvstk_spi_core_t := SpiCore {
  sp_master : bvstk_mmio_region_t;
  sp_bram : bvstk_mmio_region_t;
  sp_clock : bvstk_clock_t X;
  sp_mutex : bvstk_mutex_t X;
  sp_config : bvstk_spi_core_config_t;
  sp_initialized : Z
}.

Definition zero_spi_core : bvstk_spi_core_t :=
  SpiCore zero_region zero_region (Clock None None) (Mutex None None) zero_spi_config 0.

Fixpoint wait_done_loop (fuel : nat) (core : bvstk_spi_core_t) (start timeout_ms : Z)
    : ST X (option bvstk_status_t) :=
  match fuel with
  | O => st_ret None
  | S fuel =>
      let! csr := read32 (sp_master core) BVSTK_SPI_CSR_OFFSET in
      if negb (is_ok (fst csr)) then st_ret (Some (fst csr))
      else if Z.land (snd csr) 0x0A =? 0x0A then st_ret (Some BVSTK_OK)
      else
        let! now := bvstk_clock_now_ms (Some (sp_clock core)) in
        if timeout_ms <=? u64 (now - start) then st_ret (Some BVSTK_ERR_TIMEOUT)
        else clock_sleep (Some (sp_clock core)) 1 ;; wait_done_loop fuel core start timeout_ms
  end.

Definition wait_done (fuel : nat) (core : bvstk_spi_core_t) (timeout_ms : Z)
    : ST X (option bvstk_status_t) :=
  let! start := bvstk_clock_now_ms (Some (sp_clock core)) in
  wait_done_loop fuel core start (spi_effective_timeout timeout_ms).

Definition spi_clear_irq (core : bvstk_spi_core_t) : ST X unit :=
  let! _ := write32 (sp_master core) BVSTK_SPI_IRQ_OFFSET 1 in
  let! _ := write32 (sp_master core) BVSTK_SPI_IRQ_OFFSET 0 in
  st_ret tt.

Definition bvstk_spi_core_init (core : option bvstk_spi_core_t)
    (config : option bvstk_spi_core_config_t) (clock : option (bvstk_clock_t X))
    (mutex : option (bvstk_mutex_t X)) : ST X (bvstk_status_t * option bvstk_spi_core_t) :=
  match core, normalize_config config with
  | Some _, Some normalized =>
      let clock := default (Clock None None) clock in
      let mutex := default (Mutex None None) mutex in
      let closed := SpiCore zero_region zero_region clock mutex normalized 0 in
      match bvstk_mmio_region_open (Some zero_region) BVSTK_SPI_MASTER_BASE BVSTK_SPI_MASTER_SIZE with
      | None => st_ret (BVSTK_ERR_IO, Some closed)
      | Some master =>
          match bvstk_mmio_region_open (Some zero_region) BVSTK_SPI_BRAM_BASE BVSTK_SPI_BRAM_SIZE with
          | None => st_ret (BVSTK_ERR_IO, Some closed)
          | Some bram =>
              let core := SpiCore master bram clock mutex normalized 1 in
              let! _ := write32 master BVSTK_SPI_TIMEOUT_OFFSET (timeout_ticks normalized) in
              let! _ := write32 master BVSTK_SPI_SIGNATURE_OFFSET (p_clk_div normalized) in
              spi_clear_irq core ;;
              st_ret (BVSTK_OK, Some core)
          end
      end
  | core, _ => st_ret (BVSTK_ERR_MALFORMED, core)
  end.

Definition bvstk_spi_core_shutdown (core : option bvstk_spi_core_t) : option bvstk_spi_core_t :=
  match core with None => None | Some _ => Some zero_spi_core end.

Definition with_config (c : bvstk_spi_core_config_t) (core : bvstk_spi_core_t) : bvstk_spi_core_t :=
  SpiCore (sp_master core) (sp_bram core) (sp_clock core) (sp_mutex core) c (sp_initialized core).

(** Write the timeout and clock registers, the second only after the first. *)
Definition write_timing (core : bvstk_spi_core_t) : ST X bvstk_status_t :=
  let! st := write32 (sp_master core) BVSTK_SPI_TIMEOUT_OFFSET (timeout_ticks (sp_config core)) in
  if is_ok st then write32 (sp_master core) BVSTK_SPI_SIGNATURE_OFFSET (p_clk_div (sp_config core))
  else st_ret st.

Definition bvstk_spi_core_set_config (core : option bvstk_spi_core_t)
    (config : option bvstk_spi_core_config_t) : ST X (bvstk_status_t * option bvstk_spi_core_t) :=
  match core with
  | None => st_ret (BVSTK_ERR_NOT_READY, None)
  | Some c =>
      if sp_initialized c =? 0 then st_ret (BVSTK_ERR_NOT_READY, Some c)
      else
        match normalize_config config with
        | None => st_ret (BVSTK_ERR_MALFORMED, Some c)
        | Some normalized =>
            let c := with_config normalized c in
            let! st := write_timing c in st_ret (st, Some c)
        end
  end.

(** [config] is false for a NULL pointer; the second result is what is stored. *)
Definition bvstk_spi_core_get_config (core : option bvstk_spi_core_t) (config : bool)
    : bvstk_status_t * option bvstk_spi_core_config_t :=
  match core with
  | None => (BVSTK_ERR_NOT_READY, None)
  | Some c =>
      if sp_initialized c =? 0 then (BVSTK_ERR_NOT_READY, None)
      else if negb config then (BVSTK_ERR_MALFORMED, None)
      else (BVSTK_OK, Some (sp_config c))
  end.

(** Words [i .. i + n) into the FIFO, until one fails. *)
Fixpoint tx_loop (n : nat) (core : bvstk_spi_core_t) (tx : list Z) (i : Z) : ST X bvstk_status_t :=
  match n with
  | O => st_ret BVSTK_OK
  | S n =>
      let! st := write32 (sp_master core) BVSTK_SPI_TX_FIFO_OFFSET (tx.[i]) in
      if is_ok st then tx_loop n core tx (i + 1) else st_ret st
  end.

(** Words [i .. i + n) of the block RAM into [rx], until one fails. *)
Fixpoint rx_loop (n : nat) (core : bvstk_spi_core_t) (rx : list Z) (i : Z)
    : ST X (bvstk_status_t * list Z) :=
  match n with
  | O => st_ret (BVSTK_OK, rx)
  | S n =>
      let! word := read32 (sp_bram core) (i * 4) in
      if is_ok (fst word) then rx_loop n core (rx.[i <- snd word]) (i + 1)
      else st_ret (fst word, rx)
  end.

Definition packet_reg (core : bvstk_spi_core_t) (tx_count : Z) : Z :=
  Z.lor (u32 (Z.shiftl (u32 (tx_count * 4)) 2)) (Z.land (packets_mode (sp_config core)) 3).
Definition start_csr (core : bvstk_spi_core_t) : Z :=
  Z.lor (Z.shiftl 1 1) (Z.shiftl (Z.b2z (read_enable (sp_config core))) 2).

(** Loading the block and starting it; every step only after the one before. *)
Definition start_transfer (core : bvstk_spi_core_t) (tx : list Z) (tx_count : Z) : ST X bvstk_status_t :=
  let! st := write_timing core in
  let! st := (if is_ok st then write32 (sp_master core) BVSTK_SPI_PACKET_OFFSET (packet_reg core tx_count)
              else st_ret st) in
  let! st := (if is_ok st then tx_loop (Z.to_nat tx_count) core tx 0 else st_ret st) in
  if is_ok st then write32 (sp_master core) BVSTK_SPI_CSR_OFFSET (start_csr core) else st_ret st.

(** The part under the lock; [rx] is the caller's buffer, [None] for NULL. *)
Definition transfer_locked (fuel : nat) (core : bvstk_spi_core_t) (tx : list Z) (tx_count : Z)
    (rx : option (list Z)) (rx_capacity timeout_ms : Z)
    : ST X (option (bvstk_status_t * option (list Z))) :=
  spi_clear_irq core ;;
  let! st := start_transfer core tx tx_count in
  let? st := (if is_ok st then wait_done fuel core timeout_ms else st_ret (Some st)) in
  let! r :=
    match rx with
    | Some buf =>
        if is_ok st && negb (rx_capacity =? 0) && read_enable (sp_config core) then
          let! o := rx_loop (Z.to_nat (Z.min tx_count rx_capacity)) core buf 0 in
          st_ret (fst o, Some (snd o))
        else st_ret (st, rx)
    | None => st_ret (st, None)
    end in
  spi_clear_irq core ;;
  st_ret (Some r).

Definition bvstk_spi_core_transfer (fuel : nat) (core : option bvstk_spi_core_t)
    (tx_words : option (list Z)) (tx_count : Z) (rx_words : option (list Z))
    (rx_capacity timeout_ms : Z) : ST X (option (bvstk_status_t * option (list Z))) :=
  match core with
  | None => st_ret (Some (BVSTK_ERR_NOT_READY, rx_words))
  | Some core =>
      if sp_initialized core =? 0 then st_ret (Some (BVSTK_ERR_NOT_READY, rx_words))
      else
        match tx_words with
        | None => st_ret (Some (BVSTK_ERR_RANGE, rx_words))
        | Some tx =>
            if (tx_count =? 0) || (BVSTK_SPI_MAX_WORDS <? tx_count) then
              st_ret (Some (BVSTK_ERR_RANGE, rx_words))
            else
              let! st := bvstk_mutex_lock (Some (sp_mutex core)) timeout_ms in
              if negb (is_ok st) then st_ret (Some (st, rx_words))
              else
                let? r := transfer_locked fuel core tx tx_count rx_words rx_capacity timeout_ms in
                let! _ := (fun x => (tt, bvstk_mutex_unlock (Some (sp_mutex core)) x)) in
                st_ret (Some r)
        end
  end.
End core.

Arguments bvstk_spi_core_t : clear implicits.

(** ** What the configuration can become *)

(** Rounding an odd divider up, at 16 bits. *)
Lemma round_even d :
  2 <= d < 65536 ->
  let r := if truth (Z.land d 1) then u16 (d + 1) else d in
  0 <= r < 65536 /\ r mod 2 = 0 /\ (2 <= r <-> d <> 65535) /\ (d mod 2 = 0 -> r = d).
Proof.
  intros Hd r. assert (Z.land d 1 = d mod 2) as Hl by (change 1 with (Z.ones 1); by rewrite Z.land_ones).
  unfold r, truth. rewrite Hl. destruct (d mod 2 =? 0) eqn:E; cbn [negb]; bsimp.
  { repeat split; try lia. intros _. intros ->. done. }
  destruct (decide (d = 65535)) as [->|Hne].
  - change (u16 (65535 + 1)) with 0. repeat split; lia || done.
  - rewrite u16_id by lia. repeat split; try lia; Z.to_euclidean_division_equations; lia.
Qed.

(** C32: The normalised configuration has a transfer mode, a timeout of at least
    one tick and an even clock divider; the divider is at least 2 for every
    input but 65535, which wraps to 0 at 16 bits; an even divider from 2 is kept. *)
Theorem spi_normalize_bounds c n :
  fits 32 (timeout_ticks c) -> fits 16 (p_clk_div c) -> normalize_config (Some c) = Some n ->
  1 <= packets_mode n <= 3 /\ 1 <= timeout_ticks n < 2 ^ 32 /\ fits 16 (p_clk_div n) /\
  p_clk_div n mod 2 = 0 /\ (2 <= p_clk_div n <-> p_clk_div c <> 65535) /\
  (p_clk_div c mod 2 = 0 -> 2 <= p_clk_div c -> p_clk_div n = p_clk_div c).
Proof.
  unfold fits, normalize_config. intros Ht Hd [= <-]. cbn [packets_mode timeout_ticks p_clk_div].
  set (d := if p_clk_div c <? 2 then 2 else p_clk_div c).
  assert (2 <= d < 65536 /\ (d <> 65535 <-> p_clk_div c <> 65535) /\ (2 <= p_clk_div c -> d = p_clk_div c))
    as (Hd1 & Hd2 & Hd3).
  { unfold d. destruct (p_clk_div c <? 2) eqn:E; bsimp; lia. }
  destruct (round_even d Hd1) as (H1 & H2 & H3 & H4). split.
  { change 3 with (Z.ones 2). rewrite Z.land_ones by lia.
    pose proof (Z.mod_pos_bound (packets_mode c) (2 ^ 2)). change (Z.ones 2) with 3.
    unfold BVSTK_SPI_MODE_MULTI. destruct (_ =? 0) eqn:E; bsimp; lia. }
  split; [destruct (timeout_ticks c =? 0) eqn:E; bsimp; lia|].
  split; [exact H1|]. split; [exact H2|]. split; [by rewrite H3|].
  intros He Hg. rewrite H4; [by apply Hd3|]. by rewrite Hd3.
Qed.

(** ** The transfer protocol *)

Definition spi_reg (offset : Z) : Z := BVSTK_SPI_MASTER_BASE + offset.

Definition spi_clear : list io := [Wr (spi_reg BVSTK_SPI_IRQ_OFFSET) 1; Wr (spi_reg BVSTK_SPI_IRQ_OFFSET) 0].

(** Timing, the length in bytes with the mode, the words, the start. *)
Definition spi_setup (cfg : bvstk_spi_core_config_t) (tx : list Z) (n : Z) : list io :=
  [Wr (spi_reg BVSTK_SPI_TIMEOUT_OFFSET) (timeout_ticks cfg);
   Wr (spi_reg BVSTK_SPI_SIGNATURE_OFFSET) (p_clk_div cfg);
   Wr (spi_reg BVSTK_SPI_PACKET_OFFSET) (16 * n + Z.land (packets_mode cfg) 3)] ++
  map (fun w => Wr (spi_reg BVSTK_SPI_TX_FIFO_OFFSET) w) (prefix n tx) ++
  [Wr (spi_reg BVSTK_SPI_CSR_OFFSET) (2 + 4 * Z.b2z (read_enable cfg))].

Definition spi_idle (csr : Z) : bool := Z.land csr 0x0A =? 0x0A.

Inductive spi_wait : list io -> bvstk_status_t -> Prop :=
  | spi_done csr : spi_idle csr = true -> spi_wait [Rd (spi_reg BVSTK_SPI_CSR_OFFSET) csr] BVSTK_OK
  | spi_late csr : spi_idle csr = false -> spi_wait [Rd (spi_reg BVSTK_SPI_CSR_OFFSET) csr] BVSTK_ERR_TIMEOUT
  | spi_poll csr l st : spi_idle csr = false -> spi_wait l st ->
      spi_wait (Rd (spi_reg BVSTK_SPI_CSR_OFFSET) csr :: l) st.

(** The first [n] words of block RAM, [m] the word at each index. *)
Definition spi_reads (m : Z -> Z) (i n : Z) : list io :=
  map (fun k => Rd (BVSTK_SPI_BRAM_BASE + 4 * k) (m k)) (seqZ i n).

Section protocol.
Context {X : Type} `{PL : Platform X} (c : bvstk_spi_core_t X).
Context (log : X -> list io) (time : X -> Z) `{HT : !Traced (Some (sp_clock c)) log time}.

(** The driver as [init] leaves it. *)
Definition spi_core_open : Prop :=
  sp_initialized c <> 0 /\
  sp_master c = Region BVSTK_SPI_MASTER_BASE BVSTK_SPI_MASTER_SIZE BVSTK_SPI_MASTER_BASE /\
  sp_bram c = Region BVSTK_SPI_BRAM_BASE BVSTK_SPI_BRAM_SIZE BVSTK_SPI_BRAM_BASE.

Context (Hopen : spi_core_open).
Local Abbreviation afterc := (after log time).

Lemma spi_write offset v x :
  0 <= offset -> offset + 4 <= BVSTK_SPI_MASTER_SIZE -> offset mod 4 = 0 ->
  runs (write32 (sp_master c) offset v) x (fun st x' =>
    st = BVSTK_OK /\ afterc x x' [Wr (spi_reg offset) v]).
Proof.
  intros. eapply runs_mono.
  { apply (write32_traced _ log time _ BVSTK_SPI_MASTER_BASE BVSTK_SPI_MASTER_SIZE); [|done..].
    by destruct Hopen as (_ & -> & _). }
  by intros ? x1 (-> & Hx & _).
Qed.

Lemma spi_read offset x :
  0 <= offset -> offset + 4 <= BVSTK_SPI_MASTER_SIZE -> offset mod 4 = 0 ->
  runs (read32 (sp_master c) offset) x (fun r x' => exists v,
    r = (BVSTK_OK, v) /\ afterc x x' [Rd (spi_reg offset) v] /\ time x' < time x + 2 ^ 32).
Proof.
  intros. eapply read32_traced; try done. by destruct Hopen as (_ & -> & _).
Qed.

Lemma spi_seq x1 x2 x3 l1 l2 : afterc x1 x2 l1 -> afterc x2 x3 l2 -> afterc x1 x3 (l1 ++ l2).
Proof. apply after_trans. Qed.

Lemma clear_irq_trace x : runs (spi_clear_irq c) x (fun _ x' => afterc x x' spi_clear).
Proof.
  unfold spi_clear_irq. apply runs_bind. eapply runs_mono; [by apply spi_write|]. intros ? x1 [_ H1].
  apply runs_bind. eapply runs_mono; [by apply spi_write|]. intros ? x2 [_ H2].
  apply runs_ret. exact (spi_seq _ _ _ _ _ H1 H2).
Qed.

Lemma tx_loop_trace n tx i x :
  0 <= i -> i + Z.of_nat n <= alen tx ->
  runs (tx_loop n c tx i) x (fun st x' => st = BVSTK_OK /\
    afterc x x' (map (fun w => Wr (spi_reg BVSTK_SPI_TX_FIFO_OFFSET) w) (take n (drop (Z.to_nat i) tx)))).
Proof.
  revert i x. induction n as [|n IH]; intros i x Hi Hn; cbn [tx_loop].
  { apply runs_ret. split; [done|]. apply after_refl. }
  assert (drop (Z.to_nat i) tx = tx.[i] :: drop (Z.to_nat (i + 1)) tx) as Hdrop.
  { rewrite (drop_S tx (tx.[i]) (Z.to_nat i)) by (apply aget_lookup; lia). do 2 f_equal. lia. }
  apply runs_bind. eapply runs_mono; [by apply spi_write|]. intros ? x1 [-> H1]. cbn [is_ok].
  eapply runs_mono; [apply IH; lia|]. intros ? x2 [-> H2]. split; [done|].
  rewrite Hdrop. exact (spi_seq _ _ _ _ _ H1 H2).
Qed.

Lemma rx_loop_trace n rx i x :
  0 <= i -> i + Z.of_nat n <= BVSTK_SPI_MAX_WORDS -> i + Z.of_nat n <= alen rx ->
  runs (rx_loop n c rx i) x (fun o x' => exists m,
    o = (BVSTK_OK, prefix i rx ++ map m (seqZ i (Z.of_nat n)) ++ drop (Z.to_nat (i + Z.of_nat n)) rx) /\
    afterc x x' (spi_reads m i (Z.of_nat n))).
Proof.
  revert rx i x. induction n as [|n IH]; intros rx i x Hi Hm Hn; cbn [rx_loop].
  { apply runs_ret. exists (fun _ => 0). split; [|apply after_refl]. cbn [Z.of_nat].
    rewrite seqZ_nil, Z.add_0_r by done. unfold prefix. cbn [map app]. by rewrite take_drop. }
  assert (opened (sp_bram c) BVSTK_SPI_BRAM_BASE BVSTK_SPI_BRAM_SIZE) as Hop
    by (by destruct Hopen as (_ & _ & ->)).
  unfold BVSTK_SPI_MAX_WORDS in *.
  apply runs_bind. eapply runs_mono.
  { apply (read32_traced _ log time _ BVSTK_SPI_BRAM_BASE BVSTK_SPI_BRAM_SIZE); [done|lia| |by apply Z.mod_mul].
    unfold BVSTK_SPI_BRAM_SIZE. lia. }
  intros ? x1 (v & -> & H1 & _). cbn [fst snd is_ok].
  eapply runs_mono; [apply IH; [lia|lia|rewrite alen_aset; lia]|].
  intros ? x2 (m & -> & H2). exists (fun k => if decide (k = i) then v else m k).
  assert (forall k, k ∈ seqZ (i + 1) (Z.of_nat n) -> (if decide (k = i) then v else m k) = m k) as Hm'.
  { intros k Hk%elem_of_seqZ. by rewrite decide_False by lia. }
  replace (Z.of_nat (S n)) with (Z.succ (Z.of_nat n)) by lia. unfold spi_reads.
  rewrite (seqZ_cons i) by lia. rewrite Z.pred_succ. cbn [map]. rewrite decide_True by done. split.
  - f_equal. rewrite prefix_snoc by lia. rewrite <- app_assoc. cbn [app]. do 2 f_equal.
    replace (Z.succ i) with (i + 1) by lia. f_equal.
    + apply map_ext_in. intros k Hk. symmetry. by apply Hm', list_elem_of_In.
    + unfold aset. rewrite drop_insert_lt by lia. f_equal. lia.
  - replace (i * 4) with (4 * i) in H1 by lia. replace (Z.succ i) with (i + 1) by lia.
    replace (map (fun k => Rd (BVSTK_SPI_BRAM_BASE + 4 * k) (if decide (k = i) then v else m k))
      (seqZ (i + 1) (Z.of_nat n))) with (spi_reads m (i + 1) (Z.of_nat n)).
    { exact (spi_seq _ _ _ _ _ H1 H2). }
    apply map_ext_in. intros k Hk. rewrite Hm'; [done|]. by apply list_elem_of_In.
Qed.

Lemma write_timing_trace x :
  runs (write_timing c) x (fun st x' => st = BVSTK_OK /\
    afterc x x' [Wr (spi_reg BVSTK_SPI_TIMEOUT_OFFSET) (timeout_ticks (sp_config c));
                 Wr (spi_reg BVSTK_SPI_SIGNATURE_OFFSET) (p_clk_div (sp_config c))]).
Proof.
  unfold write_timing. apply runs_bind. eapply runs_mono; [by apply spi_write|]. intros ? x1 [-> H1].
  cbn [is_ok]. eapply runs_mono; [by apply spi_write|]. intros ? x2 [-> H2]. split; [done|].
  exact (spi_seq _ _ _ _ _ H1 H2).
Qed.

Lemma packet_reg_value n :
  0 <= n <= BVSTK_SPI_MAX_WORDS ->
  packet_reg c n = 16 * n + Z.land (packets_mode (sp_config c)) 3.
Proof.
  intros Hn. unfold packet_reg, BVSTK_SPI_MAX_WORDS in *.
  rewrite Z.shiftl_mul_pow2, !u32_id by (rewrite ?u32_id by lia; lia).
  assert (0 <= Z.land (packets_mode (sp_config c)) 3 < 2 ^ 2).
  { change 3 with (Z.ones 2). rewrite Z.land_ones by lia. by apply Z.mod_pos_bound. }
  replace (n * 4 * 2 ^ 2) with (Z.shiftl (4 * n) 2) by (rewrite Z.shiftl_mul_pow2; lia).
  rewrite lor_shiftl_add by (done || lia). lia.
Qed.

Lemma start_transfer_trace tx n x :
  0 <= n <= alen tx -> n <= BVSTK_SPI_MAX_WORDS ->
  runs (start_transfer c tx n) x (fun st x' => st = BVSTK_OK /\ afterc x x' (spi_setup (sp_config c) tx n)).
Proof.
  intros Hn Hmax. unfold start_transfer. apply runs_bind. eapply runs_mono; [apply write_timing_trace|].
  intros ? x1 [-> H1]. cbn [is_ok]. apply runs_bind. eapply runs_mono; [by apply spi_write|].
  intros ? x2 [-> H2]. cbn [is_ok]. rewrite packet_reg_value in H2 by lia.
  apply runs_bind. eapply runs_mono; [apply tx_loop_trace; lia|]. intros ? x3 [-> H3]. cbn [is_ok].
  eapply runs_mono; [by apply spi_write|]. intros ? x4 [-> H4]. split; [done|].
  assert (start_csr c = 2 + 4 * Z.b2z (read_enable (sp_config c))) as Hcsr
    by (unfold start_csr; by destruct (read_enable _)).
  rewrite Hcsr in H4.
  exact (spi_seq _ _ _ _ _ (spi_seq _ _ _ _ _ H1 H2) (spi_seq _ _ _ _ _ H3 H4)).
Qed.

Lemma wait_done_loop_trace fuel t0 timeout x :
  0 <= timeout < 2 ^ 32 -> polling time t0 timeout fuel x ->
  runs (wait_done_loop fuel c (u64 t0) timeout) x (fun o x' => exists st l,
    o = Some st /\ afterc x x' l /\ spi_wait l st).
Proof.
  intros Hto. revert x. induction fuel as [|fuel IH]; intros x (Hp & Hf & Hf'); [lia|].
  cbn [wait_done_loop]. apply runs_bind. eapply runs_mono; [by apply spi_read|].
  intros ? x1 (v & -> & H1 & H1'). cbn [fst snd is_ok negb]. pose proof H1 as [_ Ht].
  fold (spi_idle v). destruct (spi_idle v) eqn:E.
  { apply runs_ret. eexists _, _. split; [done|]. split; [exact H1|by constructor]. }
  apply (poll_again _ log time _ fuel t0 timeout); [lia|done|lia|..].
  - intros x2 H2 _. eexists _, _. split; [done|].
    split; [by apply (spi_seq _ _ _ [_] [] H1 H2)|by apply spi_late].
  - intros x2 H2 Hp2 _. eapply runs_mono; [by apply IH|]. intros ? x3 (st & l & -> & H3 & Hw).
    eexists _, (_ :: l). split; [done|].
    split; [by apply (spi_seq _ _ _ [_] _ H1 (spi_seq _ _ _ [] _ H2 H3))|by apply spi_poll].
Qed.

Lemma wait_done_trace fuel timeout x :
  0 <= timeout < 2 ^ 32 -> spi_effective_timeout timeout < Z.of_nat fuel ->
  runs (wait_done fuel c timeout) x (fun o x' => exists st l,
    o = Some st /\ afterc x x' l /\ spi_wait l st).
Proof.
  intros Hto Hf. unfold wait_done. apply runs_bind. eapply runs_mono; [apply (now_traced _ log time)|].
  intros ? x1 (-> & H1 & H1'). pose proof H1 as [_ Ht].
  assert (0 <= spi_effective_timeout timeout < 2 ^ 32).
  { unfold spi_effective_timeout, BVSTK_SPI_DEFAULT_TIMEOUT_MS. destruct (timeout =? 0); lia. }
  eapply runs_mono.
  { apply wait_done_loop_trace; [done|]. split; [|split]; lia. }
  intros ? x2 (st & l & -> & H2 & Hw). eexists _, _. split; [done|].
  split; [exact (spi_seq _ _ _ [] _ H1 H2)|done].
Qed.

(** What a caller gets back: the received words in front of the rest of its
    buffer, if there is one and the configuration reads; else the buffer. *)
Inductive spi_received (rx : option (list Z)) (n capacity : Z) (st : bvstk_status_t)
    : list io -> option (list Z) -> Prop :=
  | received buf m : rx = Some buf -> st = BVSTK_OK -> capacity <> 0 -> read_enable (sp_config c) = true ->
      spi_received rx n capacity st (spi_reads m 0 (Z.min n capacity))
        (Some (map m (seqZ 0 (Z.min n capacity)) ++ drop (Z.to_nat (Z.min n capacity)) buf))
  | not_received : rx = None \/ st <> BVSTK_OK \/ capacity = 0 \/ read_enable (sp_config c) = false ->
      spi_received rx n capacity st [] rx.

Lemma receive_trace rx n capacity st x :
  0 <= n <= BVSTK_SPI_MAX_WORDS -> 0 <= capacity ->
  (forall buf, rx = Some buf -> capacity <= alen buf) ->
  runs (match rx with
        | Some buf =>
            if is_ok st && negb (capacity =? 0) && read_enable (sp_config c) then
              let! o := rx_loop (Z.to_nat (Z.min n capacity)) c buf 0 in
              st_ret (fst o, Some (snd o))
            else st_ret (st, rx)
        | None => st_ret (st, None)
        end) x (fun r x' => exists l, fst r = st /\ afterc x x' l /\ spi_received rx n capacity st l (snd r)).
Proof.
  intros Hn Hc Hbuf. destruct rx as [buf|].
  2:{ apply runs_ret. exists []. split; [done|]. split; [apply after_refl|]. constructor. by left. }
  specialize (Hbuf buf eq_refl).
  destruct (is_ok st) eqn:Es; [destruct (capacity =? 0) eqn:Ec; [|destruct (read_enable _) eqn:Er]|];
    cbn [andb negb]; bsimp.
  2:{ apply is_ok_true in Es as ->. apply runs_bind. eapply runs_mono; [apply rx_loop_trace; lia|].
    intros ? x1 (m & -> & H1). apply runs_ret. rewrite Z2Nat.id in * by lia. eexists. split; [done|].
    split; [exact H1|]. cbn [snd]. rewrite prefix_0. by apply received. }
  all: apply runs_ret; exists []; (split; [done|]); (split; [apply after_refl|]); constructor; auto.
  right. left. by apply is_ok_false.
Qed.

Definition spi_quiet_mutex : Prop :=
  (forall t x, log (snd (bvstk_mutex_lock (Some (sp_mutex c)) t x)) = log x) /\
  (forall x, log (bvstk_mutex_unlock (Some (sp_mutex c)) x) = log x).

(** The run of a transfer, with what is done on the bus and what comes back. *)
Lemma spi_transfer_run fuel tx n rx capacity timeout x :
  spi_quiet_mutex -> 1 <= n <= BVSTK_SPI_MAX_WORDS -> n <= alen tx ->
  0 <= capacity -> (forall buf, rx = Some buf -> capacity <= alen buf) ->
  0 <= timeout < 2 ^ 32 -> spi_effective_timeout timeout < Z.of_nat fuel ->
  runs (bvstk_spi_core_transfer fuel (Some c) (Some tx) n rx capacity timeout) x (fun o x' =>
    exists st rx' l, o = Some (st, rx') /\ log x' = log x ++ l /\
      match fst (bvstk_mutex_lock (Some (sp_mutex c)) timeout x) with
      | BVSTK_OK => exists w r, spi_wait w st /\ spi_received rx n capacity st r rx' /\
          l = spi_clear ++ spi_setup (sp_config c) tx n ++ w ++ r ++ spi_clear
      | refused => st = refused /\ rx' = rx /\ l = []
      end).
Proof.
  intros [Hlk Hul] Hn Htx Hc Hbuf Hto Hf. unfold bvstk_spi_core_transfer.
  rewrite (proj2 (Z.eqb_neq _ _) (proj1 Hopen)), (proj2 (Z.eqb_neq n 0)), (proj2 (Z.ltb_ge _ _)) by lia.
  cbn [orb]. apply runs_bind. unfold runs at 1. specialize (Hlk timeout x).
  destruct (bvstk_mutex_lock _ _ x) as [lock x1]. cbn [fst snd] in *.
  destruct lock; cbn [is_ok negb];
    try (apply runs_ret; eexists _, _, []; split; [done|]; split; [by rewrite app_nil_r|done]).
  unfold transfer_locked. apply runs_bind. apply runs_bind.
  eapply runs_mono; [apply clear_irq_trace|]. intros ? x2 H2.
  apply runs_bind. eapply runs_mono; [apply start_transfer_trace; lia|]. intros ? x3 [-> H3]. cbn [is_ok].
  pose proof (spi_seq _ _ _ _ _ H2 H3) as H13.
  apply runs_bind. eapply runs_mono; [by apply wait_done_trace|]. intros ? x4 (st & w & -> & H4 & Hw).
  pose proof (spi_seq _ _ _ _ _ H13 H4) as H14.
  apply runs_bind. eapply runs_mono; [apply receive_trace; [lia|done|done]|].
  intros [st' rx'] x5 (r & Hst & H5 & Hr). cbn [fst snd] in *. subst st'.
  pose proof (spi_seq _ _ _ _ _ H14 H5) as H15.
  apply runs_bind. eapply runs_mono; [apply clear_irq_trace|]. intros ? x6 H6.
  pose proof (spi_seq _ _ _ _ _ H15 H6) as H16. apply runs_ret.
  exists st, rx'. eexists. split; [done|]. unfold st_bind, st_ret. cbn [fst snd].
  rewrite Hul, (proj1 H16), Hlk. split; [done|]. exists w, r. split; [done|]. split; [done|].
  by rewrite <- !app_assoc.
Qed.

(** The same for a caller that only needs an answer. *)
Lemma spi_transfer_returns fuel tx n buf timeout x :
  spi_quiet_mutex -> 1 <= n <= BVSTK_SPI_MAX_WORDS -> n <= alen tx -> n <= alen buf ->
  0 <= timeout < 2 ^ 32 -> spi_effective_timeout timeout < Z.of_nat fuel ->
  runs (bvstk_spi_core_transfer fuel (Some c) (Some tx) n (Some buf) n timeout) x (fun o _ =>
    exists st rx', o = Some (st, Some rx')).
Proof.
  intros Hq Hn Htx Hbuf Hto Hf. eapply runs_mono.
  { apply spi_transfer_run; try done; [lia|]. by intros ? [= <-]. }
  intros o x' (st & rx' & l & -> & _ & Hm). exists st.
  destruct (fst (bvstk_mutex_lock (Some (sp_mutex c)) timeout x));
    [|by destruct Hm as (_ & -> & _); eauto ..].
  destruct Hm as (w & r & _ & Hr & _). destruct Hr; eauto.
Qed.

(** C15: The SPI transfer protocol.  With as many rounds as milliseconds of
    timeout a transfer of 1 to 1024 words always returns.  With the lock
    granted it clears the interrupt, writes the timing registers, the length
    in bytes with the mode, every word once and in order, starts the block,
    polls until it is idle or the time is up, reads back as many words as were
    sent and fit, and clears the interrupt; the caller's buffer holds exactly
    the words read, and is untouched when the transfer failed or does not read.
    Without the lock no register is touched. *)
Theorem spi_transfer_protocol fuel tx n rx capacity timeout x :
  spi_quiet_mutex -> 1 <= n <= BVSTK_SPI_MAX_WORDS -> n <= alen tx ->
  0 <= capacity -> (forall buf, rx = Some buf -> capacity <= alen buf) ->
  0 <= timeout < 2 ^ 32 -> spi_effective_timeout timeout < Z.of_nat fuel ->
  runs (bvstk_spi_core_transfer fuel (Some c) (Some tx) n rx capacity timeout) x (fun o x' =>
    exists st rx' l, o = Some (st, rx') /\ log x' = log x ++ l /\
      match fst (bvstk_mutex_lock (Some (sp_mutex c)) timeout x) with
      | BVSTK_OK => exists w r, spi_wait w st /\ spi_received rx n capacity st r rx' /\
          l = spi_clear ++ spi_setup (sp_config c) tx n ++ w ++ r ++ spi_clear
      | refused => st = refused /\ rx' = rx /\ l = []
      end).
Proof. apply spi_transfer_run. Qed.
End protocol.

(** ** Concrete runs *)

Lemma spi_normalize_bounds_witness :
  (normalize_config (Some (SpiConfig 0 0 7 true)) = Some (SpiConfig 2 1 8 true) /\
   fits 16 8 /\ (2 <= 8 <-> 7 <> 65535)) /\
  (normalize_config (Some (SpiConfig 0 0 65535 true)) = Some (SpiConfig 2 1 0 true) /\
   (2 <= 0 <-> 65535 <> 65535)).
Proof.
  assert (forall v, 0 <= v < 65536 -> fits 16 v) as Hfit by (intros v Hv; exact Hv).
  split.
  - destruct (spi_normalize_bounds (SpiConfig 0 0 7 true) (SpiConfig 2 1 8 true)
      (wrap_fits 32 0 ltac:(lia)) (Hfit 7 ltac:(lia)) eq_refl) as (_ & _ & Hd & _ & Hi & _).
    by repeat split; try apply Hi.
  - destruct (spi_normalize_bounds (SpiConfig 0 0 65535 true) (SpiConfig 2 1 0 true)
      (wrap_fits 32 0 ltac:(lia)) (Hfit 65535 ltac:(lia)) eq_refl) as (_ & _ & _ & _ & Hi & _).
    split; [done|exact Hi].
Defined.

Definition demo_spi_core {X} : bvstk_spi_core_t X :=
  SpiCore (Region BVSTK_SPI_MASTER_BASE BVSTK_SPI_MASTER_SIZE BVSTK_SPI_MASTER_BASE)
    (Region BVSTK_SPI_BRAM_BASE BVSTK_SPI_BRAM_SIZE BVSTK_SPI_BRAM_BASE)
    (Clock None None) (Mutex None None) (SpiConfig 2 100 8 true) 1.

(** The block is idle at once; word [k] of the result is [100 + 4 k]. *)
Definition demo_spi_bus (a : Z) : Z :=
  if a =? spi_reg BVSTK_SPI_CSR_OFFSET then 0x0A else a - BVSTK_SPI_BRAM_BASE + 100.

Example demo_spi_transfer :
  fst (@bvstk_spi_core_transfer _ (scripted_platform demo_spi_bus) 6 (Some demo_spi_core) (Some [7; 8]) 2
         (Some [0; 0; 9]) 3 5 ([], 0)) = Some (BVSTK_OK, Some [100; 104; 9]).
Proof. vm_compute. done. Qed.

Lemma spi_transfer_protocol_witness :
  exists w r, fst (snd (@bvstk_spi_core_transfer _ (scripted_platform demo_spi_bus) 6 (Some demo_spi_core)
    (Some [7; 8]) 2 (Some [0; 0; 9]) 3 5 ([], 0))) =
    spi_clear ++ spi_setup (SpiConfig 2 100 8 true) [7; 8] 2 ++ w ++ r ++ spi_clear /\
    spi_wait w BVSTK_OK.
Proof.
  destruct (@spi_transfer_protocol _ (scripted_platform demo_spi_bus) demo_spi_core fst snd
    (scripted_traced demo_spi_bus) ltac:(done) 6 [7; 8] 2 (Some [0; 0; 9]) 3 5 ([], 0)
    ltac:(done) ltac:(done) ltac:(done) ltac:(done) ltac:(by intros ? [= <-]) ltac:(done) ltac:(done))
    as (st & rx & l & Ho & Hl & w & r & Hw & _ & ->).
  rewrite demo_spi_transfer in Ho. injection Ho as <- <-. exists w, r. by split.
Defined.
