(* ===== verification/Dcp2Codec.v ===== *)
(** * Dcp2Codec: frames of the DCP2 protocol

    [src/src/protocols/dcp2/bvstk_dcp2_codec.c].  A byte pointer is an array
    with an offset; [None] is NULL. *)
From stdpp Require Import prelude.
From Stdlib Require Import ZArith Lia.
From S2P Require Import Prelude Platform.
Local Open Scope Z_scope.

Definition BVSTK_DCP2_VERSION : Z := 2.
Definition BVSTK_DCP2_HEADER_SIZE : Z := 8.
Definition BVSTK_DCP2_MIN_PAYLOAD : Z := 4.
Definition BVSTK_DCP2_MAX_PAYLOAD : Z := 4096.

Definition BVSTK_DCP2_OP_RESPONSE : Z := 0x80.
Definition BVSTK_DCP2_OP_EVENT : Z := 0x40.
Definition BVSTK_DCP2_OP_MASK : Z := 0x3F.

(** [body] is what the pointer points at: the rest of the received frame. *)
Record bvstk_dcp2_request_t := Dcp2Request {
  rq_service : Z;
  rq_opcode : Z;
  rq_sequence : Z;
  rq_body : option (list Z);
  rq_body_size : Z
}.

Definition bvstk_dcp2_read_be16 (data : option (list Z)) (o : Z) : Z :=
  match data with
  | None => 0
  | Some d => u16 (Z.lor (Z.shiftl (d.[o]) 8) (d.[o + 1]))
  end.

Definition bvstk_dcp2_read_be32 (data : option (list Z)) (o : Z) : Z :=
  match data with
  | None => 0
  | Some d =>
      Z.lor (Z.lor (Z.lor (Z.shiftl (d.[o]) 24) (Z.shiftl (d.[o + 1]) 16)) (Z.shiftl (d.[o + 2]) 8))
        (d.[o + 3])
  end.

Definition bvstk_dcp2_write_be16 (data : list Z) (o value : Z) : list Z :=
  (data.[o <- u8 (Z.shiftr value 8)]).[o + 1 <- u8 value].

Definition bvstk_dcp2_write_be32 (data : list Z) (o value : Z) : list Z :=
  (((data.[o <- u8 (Z.shiftr value 24)]).[o + 1 <- u8 (Z.shiftr value 16)])
    .[o + 2 <- u8 (Z.shiftr value 8)]).[o + 3 <- u8 value].

(** [request] is false for a NULL pointer; [None] is the result -1. *)
Definition bvstk_dcp2_decode_request (frame : option (list Z)) (frame_size : Z) (request : bool)
    : option bvstk_dcp2_request_t :=
  match frame with
  | None => None
  | Some f =>
      if negb request || (frame_size <? BVSTK_DCP2_HEADER_SIZE + BVSTK_DCP2_MIN_PAYLOAD) ||
         negb (f.[0] =? 68) || negb (f.[1] =? 67) || negb (f.[2] =? 80) || negb (f.[3] =? 50)
      then None
      else if negb (bvstk_dcp2_read_be16 frame 4 =? BVSTK_DCP2_VERSION) then None
      else
        let payload_size := bvstk_dcp2_read_be16 frame 6 in
        if (payload_size <? BVSTK_DCP2_MIN_PAYLOAD) || (BVSTK_DCP2_MAX_PAYLOAD <? payload_size) ||
           negb (frame_size =? BVSTK_DCP2_HEADER_SIZE + payload_size) then None
        else
          let operation := f.[9] in
          if truth (Z.land operation (Z.lor BVSTK_DCP2_OP_RESPONSE BVSTK_DCP2_OP_EVENT)) ||
             (bvstk_dcp2_read_be16 frame 10 =? 0) then None
          else
            Some (Dcp2Request (f.[8]) (Z.land operation BVSTK_DCP2_OP_MASK)
                    (bvstk_dcp2_read_be16 frame 10) (Some (drop 12 f))
                    (u16 (payload_size - BVSTK_DCP2_MIN_PAYLOAD)))
  end.

(** [memcpy (dst + o, src, n)]. *)
Definition copy_at (o n : Z) (src dst : list Z) : list Z :=
  take (Z.to_nat o) dst ++ prefix n src ++ drop (Z.to_nat (o + n)) dst.

(** The frame and its size; [None] is the result -1, nothing written. *)
Definition bvstk_dcp2_encode_response (frame : option (list Z)) (frame_capacity : Z)
    (request : option bvstk_dcp2_request_t) (status : Z) (body : option (list Z)) (body_size : Z)
    : option (list Z * Z) :=
  match frame, request with
  | Some f, Some rq =>
      if negb (body_size =? 0) && negb (bool_decide (is_Some body)) then None
      else
        let payload_size := u16 (BVSTK_DCP2_MIN_PAYLOAD + 2 + body_size) in
        let total_size := BVSTK_DCP2_HEADER_SIZE + payload_size in
        if (BVSTK_DCP2_MAX_PAYLOAD - 6 <? body_size) || (frame_capacity <? total_size) then None
        else
          let f := (((f.[0 <- 68]).[1 <- 67]).[2 <- 80]).[3 <- 50] in
          let f := bvstk_dcp2_write_be16 f 4 BVSTK_DCP2_VERSION in
          let f := bvstk_dcp2_write_be16 f 6 payload_size in
          let f := f.[8 <- rq_service rq] in
          let f := f.[9 <- u8 (Z.lor BVSTK_DCP2_OP_RESPONSE (Z.land (rq_opcode rq) BVSTK_DCP2_OP_MASK))] in
          let f := bvstk_dcp2_write_be16 f 10 (rq_sequence rq) in
          let f := bvstk_dcp2_write_be16 f 12 status in
          let f := if negb (body_size =? 0) then copy_at 14 body_size (default [] body) f else f in
          Some (f, total_size)
  | _, _ => None
  end.

Definition bvstk_dcp2_status_from_bvstk (status : bvstk_status_t) : Z :=
  match status with
  | BVSTK_OK => 0x0000
  | BVSTK_ERR_MALFORMED => 0x0001
  | BVSTK_ERR_UNSUPPORTED => 0x0002
  | BVSTK_ERR_DENIED => 0x0003
  | BVSTK_ERR_BUSY => 0x0004
  | BVSTK_ERR_TIMEOUT => 0x0005
  | BVSTK_ERR_RANGE => 0x0006
  | _ => 0x0007
  end.

(** ** Frames as byte strings *)

Definition be16 (v : Z) : list Z := [v / 256; v mod 256].
Definition be32 (v : Z) : list Z := be16 (v / 65536) ++ be16 (v mod 65536).

Definition request_frame (service opcode sequence : Z) (body : list Z) : list Z :=
  [68; 67; 80; 50; 0; 2] ++ be16 (4 + alen body) ++ [service; opcode] ++ be16 sequence ++ body.

Definition response_frame (service opcode sequence status : Z) (body : list Z) : list Z :=
  [68; 67; 80; 50; 0; 2] ++ be16 (6 + alen body) ++ [service; 128 + opcode] ++ be16 sequence ++
  be16 status ++ body.

Lemma read_be16_value d o :
  fits 8 (d.[o]) -> fits 8 (d.[o + 1]) -> bvstk_dcp2_read_be16 (Some d) o = 256 * d.[o] + d.[o + 1].
Proof.
  unfold fits. intros H1 H2. unfold bvstk_dcp2_read_be16. rewrite lor_shiftl_add by (done || lia).
  rewrite u16_id by lia. lia.
Qed.

Lemma read_be32_value d o :
  (forall k, 0 <= k < 4 -> fits 8 (d.[o + k])) ->
  bvstk_dcp2_read_be32 (Some d) o =
    2 ^ 24 * d.[o] + 2 ^ 16 * d.[o + 1] + 2 ^ 8 * d.[o + 2] + d.[o + 3].
Proof.
  unfold fits. intros H. pose proof (H 1 ltac:(lia)). pose proof (H 2 ltac:(lia)). pose proof (H 3 ltac:(lia)).
  unfold bvstk_dcp2_read_be32. rewrite <- !Z.lor_assoc.
  rewrite (lor_shiftl_add (d.[o + 2])) by lia. rewrite (lor_shiftl_add (d.[o + 1])) by lia.
  rewrite lor_shiftl_add by lia. lia.
Qed.

Lemma be16_of_bytes a b : fits 8 a -> fits 8 b -> be16 (256 * a + b) = [a; b].
Proof. unfold fits, be16. intros Ha Hb. f_equal; [|f_equal]; Z.to_euclidean_division_equations; lia. Qed.

Lemma u8_high v : fits 16 v -> u8 (Z.shiftr v 8) = v / 256.
Proof.
  unfold fits. intros Hv. rewrite Z.shiftr_div_pow2 by done. change (2 ^ 8) with 256.
  apply u8_id. Z.to_euclidean_division_equations. lia.
Qed.

Lemma div_mod_split v d e : 0 < d -> 0 < e -> (v / d) mod e = (v mod (d * e)) / d.
Proof.
  intros Hd He. pose proof (Z.mod_pos_bound v (d * e) ltac:(lia)) as Hb.
  pose proof (Z.div_mod v (d * e) ltac:(lia)) as Hv.
  pose proof (Z.div_lt_upper_bound (v mod (d * e)) d e ltac:(lia) ltac:(lia)).
  pose proof (Z.div_pos (v mod (d * e)) d ltac:(lia) ltac:(lia)).
  symmetry. apply Z.mod_unique with (v / (d * e)); [lia|].
  rewrite Hv at 1. rewrite <- Z.mul_assoc, (Z.mul_comm d), Z.div_add_l by lia. lia.
Qed.

Lemma be32_bytes v :
  [u8 (Z.shiftr v 24); u8 (Z.shiftr v 16); u8 (Z.shiftr v 8); u8 v] = be32 (u32 v).
Proof.
  unfold be32, be16, u8, u32, wrap. rewrite !Z.shiftr_div_pow2 by done. cbn [app].
  rewrite !div_mod_split by lia. rewrite !Z.div_div by lia.
  change (2 ^ 8) with 256. change (2 ^ 16) with 65536. change (2 ^ 24) with 16777216. change (2 ^ 32) with 4294967296.
  change (65536 * 256) with 16777216. change (16777216 * 256) with 4294967296. change (256 * 256) with 65536.
  assert (forall k m, k <> 0 -> m <> 0 -> (v mod (k * m)) mod k = v mod k) as Hm.
  { intros k m Hk Hm. apply Z.mod_mod_divide. by exists m; rewrite Z.mul_comm. }
  pose proof (Hm 16777216 256 ltac:(done) ltac:(done)) as H24.
  pose proof (Hm 65536 65536 ltac:(done) ltac:(done)) as H16.
  pose proof (Hm 256 256 ltac:(done) ltac:(done)) as H8.
  change (16777216 * 256) with 4294967296 in *. change (65536 * 65536) with 4294967296 in *.
  change (256 * 256) with 65536 in *. by rewrite H24, H16, H8.
Qed.

Lemma be16_wrap v : [u8 (Z.shiftr v 8); u8 v] = be16 (u16 v).
Proof.
  unfold be16, u8, u16, wrap. rewrite Z.shiftr_div_pow2 by done.
  change (2 ^ 8) with 256. change (2 ^ 16) with (256 * 256). rewrite div_mod_split by lia.
  rewrite (Z.mod_mod_divide v (256 * 256) 256); [done|by exists 256].
Qed.

(** Facts about bytes, by enumeration. *)
Lemma byte_cases (P : Z -> bool) : forallb P (seqZ 0 256) = true -> forall b, fits 8 b -> P b = true.
Proof.
  intros H b Hb. rewrite forallb_forall in H. apply H, list_elem_of_In, elem_of_seqZ.
  unfold fits in Hb. lia.
Qed.

Lemma plain_operation op : fits 8 op ->
  truth (Z.land op (Z.lor BVSTK_DCP2_OP_RESPONSE BVSTK_DCP2_OP_EVENT)) = negb (op <? 64).
Proof.
  intros H. apply eqb_prop.
  apply (byte_cases (fun op => eqb (truth (Z.land op _)) (negb (op <? 64)))); [|done]. vm_compute. done.
Qed.

Lemma masked_opcode op : Z.land op BVSTK_DCP2_OP_MASK = op mod 64.
Proof. change BVSTK_DCP2_OP_MASK with (Z.ones 6). by rewrite Z.land_ones. Qed.

Lemma response_operation op : 0 <= op < 64 ->
  u8 (Z.lor BVSTK_DCP2_OP_RESPONSE (Z.land op BVSTK_DCP2_OP_MASK)) = 128 + op.
Proof.
  intros H. rewrite masked_opcode, Z.mod_small by lia.
  change BVSTK_DCP2_OP_RESPONSE with (Z.shiftl 1 7). rewrite lor_shiftl_add by (done || lia).
  apply u8_id. lia.
Qed.

(** C19: Decoding accepts exactly the well-formed request frames: the magic and
    version, a payload length that is the rest of the frame and at most 4096
    bytes, an opcode below 64 with neither the response nor the event bit and a
    non-zero sequence number; the fields are those of the frame. *)
Theorem dcp2_decode_iff f r :
  Forall (fits 8) f ->
  bvstk_dcp2_decode_request (Some f) (alen f) true = Some r <->
  exists body, f = request_frame (rq_service r) (rq_opcode r) (rq_sequence r) body /\
    r = Dcp2Request (rq_service r) (rq_opcode r) (rq_sequence r) (Some body) (alen body) /\
    0 <= rq_opcode r < 64 /\ rq_sequence r <> 0 /\ alen body <= 4092.
Proof.
  intros Hf. destruct (decide (12 <= alen f)) as [Hl|Hl].
  2:{ split.
      - unfold bvstk_dcp2_decode_request, BVSTK_DCP2_HEADER_SIZE, BVSTK_DCP2_MIN_PAYLOAD.
        rewrite (proj2 (Z.ltb_lt (alen f) _)) by lia. cbn [negb orb]. done.
      - intros (body & -> & _). exfalso. apply Hl. unfold alen, request_frame. cbn. lia. }
  unfold alen in Hl. do 12 (destruct f as [|? f]; [cbn in Hl; lia|]). clear Hl.
  repeat match goal with H : Forall _ (_ :: _) |- _ => apply Forall_cons in H as [? H] end.
  rename z into a0, z0 into a1, z1 into a2, z2 into a3, z3 into a4, z4 into a5, z5 into a6, z6 into a7,
    z7 into a8, z8 into a9, z9 into a10, z10 into a11.
  set (g := a0 :: a1 :: a2 :: a3 :: a4 :: a5 :: a6 :: a7 :: a8 :: a9 :: a10 :: a11 :: f).
  assert (bvstk_dcp2_read_be16 (Some g) 4 = 256 * a4 + a5) as E4 by (by apply (read_be16_value g 4)).
  assert (bvstk_dcp2_read_be16 (Some g) 6 = 256 * a6 + a7) as E6 by (by apply (read_be16_value g 6)).
  assert (bvstk_dcp2_read_be16 (Some g) 10 = 256 * a10 + a11) as E10 by (by apply (read_be16_value g 10)).
  assert (alen g = 12 + alen f) as El by (unfold alen, g; cbn [length]; lia).
  unfold bvstk_dcp2_decode_request. rewrite E4, E6, E10, El.
  change (g.[0]) with a0. change (g.[1]) with a1. change (g.[2]) with a2. change (g.[3]) with a3.
  change (g.[8]) with a8. change (g.[9]) with a9. change (drop 12 g) with f.
  rewrite plain_operation, masked_opcode by done.
  unfold BVSTK_DCP2_HEADER_SIZE, BVSTK_DCP2_MIN_PAYLOAD, BVSTK_DCP2_VERSION, BVSTK_DCP2_MAX_PAYLOAD, fits in *.
  pose proof (alen_nonneg f). split.
  - intros Hd. repeat match type of Hd with (if ?b then None else _) = _ => destruct b eqn:?; [done|] end.
    bsimp. repeat match goal with H : negb _ = false |- _ => apply negb_false_iff in H end. bsimp. subst.
    injection Hd as <-. exists f. cbn [rq_service rq_opcode rq_sequence].
    rewrite (Z.mod_small a9 64) by lia. assert (a4 = 0 /\ a5 = 2) as [-> ->] by lia.
    replace (256 * a6 + a7) with (4 + alen f) by lia.
    unfold request_frame. rewrite be16_of_bytes by (unfold fits; lia).
    replace (4 + alen f) with (256 * a6 + a7) by lia. rewrite be16_of_bytes by (unfold fits; lia).
    split; [done|]. split; [|lia]. do 2 f_equal. replace (256 * a6 + a7 - 4) with (alen f) by lia.
    apply u16_id. lia.
  - intros (body & Hg & Hr & Hop & Hseq & Hb). rewrite Hr. clear Hr.
    unfold g, request_frame in Hg. cbn [app be16] in Hg.
    injection Hg as -> -> -> -> -> -> P6 P7 -> P9 P10 P11 ->.
    assert (256 * a6 + a7 = 4 + alen body) as ->
      by (rewrite P6, P7; pose proof (Z.div_mod (4 + alen body) 256 ltac:(lia)); lia).
    assert (256 * a10 + a11 = rq_sequence r) as ->
      by (rewrite P10, P11; pose proof (Z.div_mod (rq_sequence r) 256 ltac:(lia)); lia).
    rewrite (proj2 (Z.ltb_ge (12 + alen body) _)), (proj2 (Z.ltb_ge (4 + alen body) _)),
      (proj2 (Z.ltb_ge 4096 _)), (proj2 (Z.eqb_eq (12 + alen body) _)), (proj2 (Z.eqb_neq (rq_sequence r) 0)),
      (proj2 (Z.ltb_lt a9 64)) by lia.
    cbn [negb orb Z.eqb]. rewrite P9, (Z.mod_small (rq_opcode r) 64) by lia. do 2 f_equal.
    rewrite u16_id by lia. lia.
Qed.

(** A request with a two-byte body, and the frame it came in. *)
Lemma dcp2_decode_iff_witness :
  let f := request_frame 3 1 0x1234 [7; 9] in
  let r := Dcp2Request 3 1 0x1234 (Some [7; 9]) 2 in
  Forall (fits 8) f /\ alen f = 14 /\
  bvstk_dcp2_decode_request (Some f) 14 true = Some r.
Proof.
  assert (Forall (fits 8) (request_frame 3 1 0x1234 [7; 9])) as Hf
    by (apply Forall_forall; intros x Hx; repeat (apply elem_of_cons in Hx as [->|Hx]; [done|]);
        by apply elem_of_nil in Hx).
  split; [done|]. split; [done|].
  apply (proj2 (dcp2_decode_iff (request_frame 3 1 0x1234 [7; 9])
    (Dcp2Request 3 1 0x1234 (Some [7; 9]) 2) Hf)).
  exists [7; 9]. cbn. repeat split; (done || lia).
Defined.

(** ** Responses *)

Lemma copy_at_spec o n src dst :
  0 <= o -> 0 <= n <= alen src -> o + n <= alen dst ->
  prefix (o + n) (copy_at o n src dst) = prefix o dst ++ prefix n src /\
  drop (Z.to_nat (o + n)) (copy_at o n src dst) = drop (Z.to_nat (o + n)) dst /\
  alen (copy_at o n src dst) = alen dst.
Proof.
  unfold alen, copy_at, prefix. intros Ho Hn Hd.
  assert (length (take (Z.to_nat o) dst ++ take (Z.to_nat n) src) = Z.to_nat (o + n)) as Hl
    by (rewrite length_app, !length_take; lia).
  rewrite app_assoc. split; [by rewrite take_app_length' by done|].
  split; [by rewrite drop_app_length' by done|].
  rewrite !length_app, !length_take, length_drop. lia.
Qed.

(** A response within the capacity is the frame of its fields; what follows it
    in the buffer stays. *)
Lemma encode_response_spec f cap rq status body n :
  0 <= rq_opcode rq < 64 -> fits 16 (rq_sequence rq) -> fits 16 status ->
  0 <= n <= 4090 -> 14 + n <= cap -> cap <= alen f -> (n = 0 \/ exists b, body = Some b /\ n <= alen b) ->
  exists f', bvstk_dcp2_encode_response (Some f) cap (Some rq) status body n = Some (f', 14 + n) /\
    alen f' = alen f /\ drop (Z.to_nat (14 + n)) f' = drop (Z.to_nat (14 + n)) f /\
    prefix (14 + n) f' = response_frame (rq_service rq) (rq_opcode rq) (rq_sequence rq) status
      (prefix n (default [] body)).
Proof.
  intros Hop Hseq Hst Hn Hcap Hf Hbody. unfold bvstk_dcp2_encode_response.
  assert (negb (n =? 0) && negb (bool_decide (is_Some body)) = false) as ->.
  { destruct Hbody as [->|(b & -> & _)]; [done|]. by destruct (n =? 0). }
  unfold BVSTK_DCP2_MIN_PAYLOAD, BVSTK_DCP2_HEADER_SIZE, BVSTK_DCP2_MAX_PAYLOAD.
  rewrite u16_id by lia.
  rewrite (proj2 (Z.ltb_ge _ n)), (proj2 (Z.ltb_ge cap _)) by lia. cbn [orb].
  rewrite response_operation by done.
  assert (14 <= Z.of_nat (length f)) as Hf14 by (unfold alen in Hf; lia).
  do 14 (destruct f as [|? f]; [cbn in Hf14; lia|]).
  unfold bvstk_dcp2_write_be16. rewrite !u8_high by (done || (unfold fits; lia)).
  set (hdr := [68; 67; 80; 50; 0; 2] ++ be16 (6 + n) ++ [rq_service rq; 128 + rq_opcode rq] ++
    be16 (rq_sequence rq) ++ be16 status).
  match goal with |- context [Some (if _ then _ else ?x, _)] => assert (x = hdr ++ f) as -> end.
  { unfold aset, hdr, be16.
    repeat match goal with |- context [Z.to_nat ?k] =>
      let m := eval cbv in (Z.to_nat k) in change (Z.to_nat k) with m end.
    cbn [insert list_insert app]. unfold u8, wrap. change (2 ^ 8) with 256.
    unfold BVSTK_DCP2_VERSION. by replace (4 + 2 + n) with (6 + n) by lia. }
  assert (alen hdr = 14) as Hh by done. assert (alen (hdr ++ f) = 14 + alen f) as Hl
    by (unfold alen in *; rewrite length_app; lia).
  unfold alen in Hf. cbn [length] in Hf.
  replace (8 + (4 + 2 + n)) with (14 + n) by lia.
  assert (forall l, length l = 14%nat -> alen (l ++ f) = 14 + alen f) as Hlen
    by (intros l Hl'; unfold alen; rewrite length_app; lia).
  eexists. split; [done|].
  destruct (n =? 0) eqn:En; cbn [negb]; bsimp.
  - subst n. split; [rewrite Hlen by done; unfold alen; cbn [length]; lia|]. split; [done|]. unfold prefix, response_frame. rewrite Z.add_0_r.
    by rewrite take_app_length' by done.
  - destruct Hbody as [?|(b & -> & Hb)]; [done|]. cbn [default id].
    destruct (copy_at_spec 14 n b (hdr ++ f) ltac:(lia) ltac:(lia)) as (Hp & Hd & Ha).
    { rewrite Hl. unfold alen. lia. }
    split; [rewrite Ha, Hl; unfold alen; cbn [length]; lia|]. split.
    { rewrite Hd. by replace (Z.to_nat (14 + n)) with (14 + Z.to_nat n)%nat by lia. }
    rewrite Hp.
    unfold prefix at 1. rewrite take_app_length' by done. unfold response_frame.
    rewrite alen_prefix by lia. unfold hdr. by rewrite <- !app_assoc.
Qed.
