(* ===== verification/PlService.v ===== *)
(** * PlService: checked access to the PL windows

    [src/src/hardware/boards/ax7020/bvstk_pl_regions.c], the table of the
    windows the programmable logic exposes, and
    [src/src/shared/pl/access/bvstk_pl_service.c], which maps a window at its
    first use and performs word accesses in it.  On the FreeRTOS port a failing
    access leaves [EINVAL] in [errno], so it is reported as a range error. *)
From stdpp Require Import prelude strings.
From Stdlib Require Import ZArith Lia.
From S2P Require Import Prelude Platform PlAccess.
Local Open Scope Z_scope.

(** ** The region table *)

Definition BVSTK_PL_I2C_MASTER : Z := 0.
Definition BVSTK_PL_I2C_SLAVE : Z := 1.
Definition BVSTK_PL_I2C_BRAM : Z := 2.
Definition BVSTK_PL_MDIO_MASTER : Z := 3.
Definition BVSTK_PL_MDIO_SLAVE : Z := 4.
Definition BVSTK_PL_MDIO_BRAM : Z := 5.
Definition BVSTK_PL_SPI_MASTER : Z := 6.
Definition BVSTK_PL_SPI_BRAM : Z := 7.
Definition BVSTK_PL_REGION_COUNT : Z := 8.
Definition BVSTK_PL_REGION_CONTROL : Z := 0.
Definition BVSTK_PL_REGION_BRAM : Z := 1.

Record bvstk_pl_region_desc_t := RegionDesc {
  rd_id : Z;
  rd_name : string;
  rd_physical_base : Z;
  rd_size : Z;
  rd_kind : Z
}.
#[export] Instance region_desc_inhabited : Inhabited bvstk_pl_region_desc_t :=
  populate (RegionDesc 0 "" 0 0 0).

Definition regions : list bvstk_pl_region_desc_t := [
  RegionDesc BVSTK_PL_I2C_MASTER "i2c-master" BVSTK_I2C_MASTER_BASE BVSTK_I2C_MASTER_SIZE BVSTK_PL_REGION_CONTROL;
  RegionDesc BVSTK_PL_I2C_SLAVE "i2c-slave" BVSTK_I2C_SLAVE_BASE BVSTK_I2C_SLAVE_SIZE BVSTK_PL_REGION_CONTROL;
  RegionDesc BVSTK_PL_I2C_BRAM "i2c-bram" BVSTK_I2C_BRAM_BASE BVSTK_I2C_BRAM_SIZE BVSTK_PL_REGION_BRAM;
  RegionDesc BVSTK_PL_MDIO_MASTER "mdio-master" BVSTK_MDIO_MASTER_BASE BVSTK_MDIO_MASTER_SIZE BVSTK_PL_REGION_CONTROL;
  RegionDesc BVSTK_PL_MDIO_SLAVE "mdio-slave" BVSTK_MDIO_SLAVE_BASE BVSTK_MDIO_SLAVE_SIZE BVSTK_PL_REGION_CONTROL;
  RegionDesc BVSTK_PL_MDIO_BRAM "mdio-bram" BVSTK_MDIO_BRAM_BASE BVSTK_MDIO_BRAM_SIZE BVSTK_PL_REGION_BRAM;
  RegionDesc BVSTK_PL_SPI_MASTER "spi-master" BVSTK_SPI_MASTER_BASE BVSTK_SPI_MASTER_SIZE BVSTK_PL_REGION_CONTROL;
  RegionDesc BVSTK_PL_SPI_BRAM "spi-bram" BVSTK_SPI_BRAM_BASE BVSTK_SPI_BRAM_SIZE BVSTK_PL_REGION_BRAM
].

(** [None] is NULL.  The enumeration is compared as an unsigned number. *)
Definition bvstk_pl_region_get (id : Z) : option bvstk_pl_region_desc_t :=
  if BVSTK_PL_REGION_COUNT <=? u32 id then None else Some (regions.[id]).

Definition bvstk_pl_region_find (name : option string) : option bvstk_pl_region_desc_t :=
  match name with
  | None => None
  | Some name =>
      (fun i => regions.[i]) <$>
        for_find (Z.to_nat BVSTK_PL_REGION_COUNT) 0 (fun i => bool_decide (rd_name (regions.[i]) = name))
  end.

Definition bvstk_pl_region_count : Z := BVSTK_PL_REGION_COUNT.

(** ** The service *)

Record bvstk_pl_service_t := PlService {
  pl_mappings : list bvstk_mmio_region_t;
  pl_mapped : list Z
}.
#[export] Instance region_inhabited : Inhabited bvstk_mmio_region_t := populate zero_region.

Definition zero_pl_service : bvstk_pl_service_t :=
  PlService (fill BVSTK_PL_REGION_COUNT zero_region) (fill BVSTK_PL_REGION_COUNT 0).

(** A service pointer is an option, [None] standing for NULL. *)
Definition ensure_mapped (service : option bvstk_pl_service_t) (id : Z)
    : bvstk_status_t * option bvstk_pl_service_t :=
  match service with
  | None => (BVSTK_ERR_MALFORMED, None)
  | Some s =>
      if BVSTK_PL_REGION_COUNT <=? u32 id then (BVSTK_ERR_MALFORMED, service)
      else if truth ((pl_mapped s).[id]) then (BVSTK_OK, service)
      else
        match bvstk_pl_region_get id with
        | None => (BVSTK_ERR_NOT_FOUND, service)
        | Some desc =>
            match bvstk_mmio_region_open (Some ((pl_mappings s).[id])) (rd_physical_base desc) (rd_size desc) with
            | None => (BVSTK_ERR_IO, service)
            | Some r => (BVSTK_OK, Some (PlService ((pl_mappings s).[id <- r]) ((pl_mapped s).[id <- 1])))
            end
        end
  end.

Definition bvstk_pl_service_init (service : option bvstk_pl_service_t) : option bvstk_pl_service_t :=
  match service with None => None | Some _ => Some zero_pl_service end.

(** Closing the mappings writes fields the final [memset] clears again. *)
Definition bvstk_pl_service_shutdown (service : option bvstk_pl_service_t) : option bvstk_pl_service_t :=
  match service with None => None | Some _ => Some zero_pl_service end.

Section access.
Context {X : Type} `{PL : Platform X}.

(** [value] is false for a NULL pointer; the result holds what is stored there. *)
Definition bvstk_pl_service_read32 (service : option bvstk_pl_service_t) (region offset : Z) (value : bool)
    (x : X) : (bvstk_status_t * option Z) * option bvstk_pl_service_t * X :=
  let '(status, service) := ensure_mapped service region in
  if negb (is_ok status) then (status, None, service, x)
  else if negb value then (BVSTK_ERR_MALFORMED, None, service, x)
  else
    match bvstk_mmio_read32 ((fun s => (pl_mappings s).[region]) <$> service) offset value x with
    | (Some v, x) => (BVSTK_OK, Some v, service, x)
    | (None, x) => (BVSTK_ERR_RANGE, None, service, x)
    end.

Definition bvstk_pl_service_write32 (service : option bvstk_pl_service_t) (region offset value : Z)
    (x : X) : bvstk_status_t * option bvstk_pl_service_t * X :=
  let '(status, service) := ensure_mapped service region in
  if negb (is_ok status) then (status, service, x)
  else
    match bvstk_mmio_write32 ((fun s => (pl_mappings s).[region]) <$> service) offset value x with
    | (true, x) => (BVSTK_OK, service, x)
    | (false, x) => (BVSTK_ERR_RANGE, service, x)
    end.
End access.

(** ** The windows *)

Definition in_window (r a : Z) : Prop :=
  rd_physical_base (regions.[r]) <= a < rd_physical_base (regions.[r]) + rd_size (regions.[r]).

(** A fact about every window, checked on the table. *)
Lemma region_cases (P : Z -> Prop) :
  P 0 -> P 1 -> P 2 -> P 3 -> P 4 -> P 5 -> P 6 -> P 7 -> forall r, 0 <= r < 8 -> P r.
Proof.
  intros. assert (r = 0 \/ r = 1 \/ r = 2 \/ r = 3 \/ r = 4 \/ r = 5 \/ r = 6 \/ r = 7) as Hr by lia.
  by destruct Hr as [->|[->|[->|[->|[->|[->|[->| ->]]]]]]].
Qed.

Lemma region_id r : 0 <= r < 8 -> rd_id (regions.[r]) = r.
Proof. by apply (region_cases (fun r => rd_id (regions.[r]) = r)). Qed.

(** Every window opens as a whole below 4 GiB. *)
Lemma region_opened r : 0 <= r < 8 ->
  opened (Region (rd_physical_base (regions.[r])) (rd_size (regions.[r])) (rd_physical_base (regions.[r])))
    (rd_physical_base (regions.[r])) (rd_size (regions.[r])).
Proof.
  intros Hr. unfold opened. split; [done|].
  revert r Hr. apply region_cases; vm_compute; repeat split; done.
Qed.

(** The mappings made so far are the windows of the table. *)
Record pl_wf (s : bvstk_pl_service_t) : Prop := {
  plwf_mappings : alen (pl_mappings s) = 8;
  plwf_mapped : alen (pl_mapped s) = 8;
  plwf_open : forall r, 0 <= r < 8 -> (pl_mapped s).[r] <> 0 ->
    (pl_mappings s).[r] = Region (rd_physical_base (regions.[r])) (rd_size (regions.[r])) (rd_physical_base (regions.[r]))
}.

Lemma zero_pl_wf : pl_wf zero_pl_service.
Proof.
  split; [done..|]. intros r Hr. unfold zero_pl_service, BVSTK_PL_REGION_COUNT. cbn [pl_mapped].
  by rewrite aget_fill.
Qed.

Lemma ensure_mapped_run s r : pl_wf s -> 0 <= r < 8 ->
  exists s', ensure_mapped (Some s) r = (BVSTK_OK, Some s') /\ pl_wf s' /\
    opened ((pl_mappings s').[r]) (rd_physical_base (regions.[r])) (rd_size (regions.[r])).
Proof.
  intros Hwf Hr. unfold ensure_mapped, BVSTK_PL_REGION_COUNT.
  rewrite u32_id, (proj2 (Z.leb_gt _ _)) by lia.
  destruct (truth _) eqn:Em; bsimp.
  { exists s. split; [done|]. split; [done|]. rewrite (plwf_open s Hwf) by (done || lia).
    by apply region_opened. }
  unfold bvstk_pl_region_get, BVSTK_PL_REGION_COUNT. rewrite u32_id, (proj2 (Z.leb_gt _ _)) by lia.
  pose proof (region_opened r Hr) as Hop. unfold bvstk_mmio_region_open.
  rewrite (proj2 (Z.eqb_neq _ _)) by (destruct Hop as (_ & _ & ? & _); lia).
  eexists. split; [done|]. destruct Hwf as [Hw1 Hw2 Hw3]. split.
  - split; cbn [pl_mappings pl_mapped]; [by rewrite alen_aset..|].
    intros q Hq. destruct (decide (q = r)) as [->|Hne].
    + intros _. by rewrite aget_aset_eq by lia.
    + rewrite !aget_aset_ne by lia. by apply Hw3.
  - cbn [pl_mappings]. by rewrite aget_aset_eq by lia.
Qed.

Section laws.
Context {X : Type} `{PL : Platform X}.

(** An access inside a window is the bus access at its address. *)
Definition inside (r offset : Z) : Prop :=
  offset mod 4 = 0 /\ offset + 4 <= rd_size (regions.[r]).

#[export] Instance inside_dec r offset : Decision (inside r offset).
Proof. unfold inside. apply _. Defined.

Lemma outside_refused region r offset :
  opened region (rd_physical_base (regions.[r])) (rd_size (regions.[r])) -> 0 <= offset ->
  ~ inside r offset -> check_access (Some region) offset = true.
Proof.
  intros Hop Ho Hin. destruct (check_access (Some region) offset) eqn:E; [done|].
  apply check_access_bounds in E as (Hs & Ha & _); [|done].
  destruct Hop as (-> & _). by destruct Hin.
Qed.

Lemma pl_read32_run s r offset x : pl_wf s -> 0 <= r < 8 -> 0 <= offset ->
  exists s', pl_wf s' /\ bvstk_pl_service_read32 (Some s) r offset true x =
    if decide (inside r offset) then
      let '(v, x') := Xil_In32 (rd_physical_base (regions.[r]) + offset) x in (BVSTK_OK, Some v, Some s', x')
    else (BVSTK_ERR_RANGE, None, Some s', x).
Proof.
  intros Hwf Hr Ho. destruct (ensure_mapped_run s r Hwf Hr) as (s' & He & Hwf' & Hop).
  exists s'. split; [done|]. unfold bvstk_pl_service_read32. rewrite He. cbn [negb is_ok fmap option_fmap option_map].
  unfold bvstk_mmio_read32. destruct (decide (inside r offset)) as [[Ha Hs]|Hn].
  - destruct (opened_access _ _ _ offset Hop Ho Hs Ha) as [-> ->]. cbn [negb orb].
    by destruct (Xil_In32 _ x).
  - by rewrite (outside_refused _ r offset).
Qed.

Lemma pl_write32_run s r offset v x : pl_wf s -> 0 <= r < 8 -> 0 <= offset ->
  exists s', pl_wf s' /\ bvstk_pl_service_write32 (Some s) r offset v x =
    if decide (inside r offset) then
      (BVSTK_OK, Some s', Xil_Out32 (rd_physical_base (regions.[r]) + offset) v x)
    else (BVSTK_ERR_RANGE, Some s', x).
Proof.
  intros Hwf Hr Ho. destruct (ensure_mapped_run s r Hwf Hr) as (s' & He & Hwf' & Hop).
  exists s'. split; [done|]. unfold bvstk_pl_service_write32. rewrite He. cbn [negb is_ok fmap option_fmap option_map].
  unfold bvstk_mmio_write32. destruct (decide (inside r offset)) as [[Ha Hs]|Hn].
  - by destruct (opened_access _ _ _ offset Hop Ho Hs Ha) as [-> ->].
  - by rewrite (outside_refused _ r offset).
Qed.
End laws.
