(* ===== verification/ControlApi.v ===== *)
(** * ControlApi: the facade of the protocol adapters

    [src/src/services/control/bvstk_control_api.c].  The facade holds four
    pointers; the objects they point at are the components of one board state,
    which share the external world.  A pointer of the facade is a flag, false
    for NULL. *)
From stdpp Require Import prelude.
From Stdlib Require Import ZArith Lia.
From S2P Require Import Prelude Platform PlAccess PlService SpiCore I2cMasterService MdioService.
Local Open Scope Z_scope.

Section control.
Context {X HW CORE : Type} `{PL : Platform X} `{IHW : I2cMasterHw X HW} `{MHW : MdioHw X CORE}.

(** ** The board: the services behind the facade and the world they share *)

Record board := Board {
  bd_i2c : i2c_store X HW;
  bd_mdio : bvstk_mdio_service_t X CORE;
  bd_pl : bvstk_pl_service_t;
  bd_spi : bvstk_spi_core_t X
}.

Definition bd_world (b : board) : X := st_ext (bd_i2c b).
Definition set_world (x : X) (b : board) : board :=
  Board (put_ext x (bd_i2c b)) (bd_mdio b) (bd_pl b) (bd_spi b).

Definition on_i2c {A} (m : ST (i2c_store X HW) A) : ST board A := fun b =>
  let '(a, w) := m (bd_i2c b) in (a, Board w (bd_mdio b) (bd_pl b) (bd_spi b)).

Definition on_mdio {A} (m : ST (mdio_state X CORE) A) : ST board A := fun b =>
  let '(a, w) := m (MdioState (bd_mdio b) (bd_world b)) in
  (a, Board (put_ext (wld w) (bd_i2c b)) (svc w) (bd_pl b) (bd_spi b)).

Definition on_spi {A} (m : bvstk_spi_core_t X -> ST X A) : ST board A := fun b =>
  let '(a, x) := m (bd_spi b) (bd_world b) in (a, set_world x b).

Record bvstk_control_api_t := ControlApi {
  api_pl : bool;
  api_i2c : bool;
  api_mdio : bool;
  api_spi : bool
}.

(** [api == NULL || api->field == NULL]. *)
Definition absent (field : bvstk_control_api_t -> bool) (api : option bvstk_control_api_t) : bool :=
  match api with None => true | Some a => negb (field a) end.

(** ** The calls *)

Definition bvstk_control_pl_read32 (api : option bvstk_control_api_t) (region offset : Z) (value : bool)
    : ST board (bvstk_status_t * option Z) := fun b =>
  if absent api_pl api then ((BVSTK_ERR_NOT_READY, None), b)
  else
    let '(r, pl, x) := bvstk_pl_service_read32 (Some (bd_pl b)) region offset value (bd_world b) in
    (r, Board (put_ext x (bd_i2c b)) (bd_mdio b) (default (bd_pl b) pl) (bd_spi b)).

Definition bvstk_control_pl_write32 (api : option bvstk_control_api_t) (region offset value : Z)
    : ST board bvstk_status_t := fun b =>
  if absent api_pl api then (BVSTK_ERR_NOT_READY, b)
  else
    let '(status, pl, x) := bvstk_pl_service_write32 (Some (bd_pl b)) region offset value (bd_world b) in
    (status, Board (put_ext x (bd_i2c b)) (bd_mdio b) (default (bd_pl b) pl) (bd_spi b)).

Definition bvstk_control_i2c_read (api : option bvstk_control_api_t) (device_id reg : Z) (value : bool)
    (timeout_ms : Z) : ST board (bvstk_status_t * option Z) :=
  if absent api_i2c api then st_ret (BVSTK_ERR_NOT_READY, None)
  else on_i2c (bvstk_i2c_master_service_read true device_id reg value timeout_ms).

Definition bvstk_control_i2c_write (api : option bvstk_control_api_t) (device_id reg value : Z)
    (source : bvstk_event_source_t) (timeout_ms : Z) : ST board bvstk_status_t :=
  if absent api_i2c api then st_ret BVSTK_ERR_NOT_READY
  else on_i2c (bvstk_i2c_master_service_write true device_id reg value source timeout_ms).

Definition bvstk_control_mdio_read (api : option bvstk_control_api_t) (device_id reg : Z) (value : bool)
    (timeout_ms : Z) : ST board (bvstk_status_t * option Z) :=
  if absent api_mdio api then st_ret (BVSTK_ERR_NOT_READY, None)
  else on_mdio (bvstk_mdio_service_read true device_id reg value timeout_ms).

Definition bvstk_control_mdio_write (api : option bvstk_control_api_t) (device_id reg value : Z)
    (source : bvstk_event_source_t) (timeout_ms : Z) : ST board bvstk_status_t :=
  if absent api_mdio api then st_ret BVSTK_ERR_NOT_READY
  else on_mdio (bvstk_mdio_service_write true device_id reg value source timeout_ms).

Definition bvstk_control_spi_transfer (fuel : nat) (api : option bvstk_control_api_t)
    (tx_words : option (list Z)) (tx_count : Z) (rx_words : option (list Z)) (rx_capacity timeout_ms : Z)
    : ST board (option (bvstk_status_t * option (list Z))) :=
  if absent api_spi api then st_ret (Some (BVSTK_ERR_NOT_READY, rx_words))
  else on_spi (fun core => bvstk_spi_core_transfer fuel (Some core) tx_words tx_count rx_words rx_capacity timeout_ms).
End control.

Arguments board : clear implicits.
