(* ===== verification/Dcp2Control.v ===== *)
(** * Dcp2Control: execution of DCP2 requests

    [src/src/protocols/dcp2/bvstk_dcp2_control.c]: the memory, I2C, MDIO, SPI
    and policy operations of the protocol, over the board of [ControlApi].  The
    response body and the SPI receive buffer are arrays on the C stack; their
    initial contents are arguments of the definitions, since the code does not
    set them.  Only the SPI transfer polls, so only it needs fuel. *)
From stdpp Require Import prelude.
From Stdlib Require Import ZArith Lia.
From S2P Require Import Prelude Platform PlAccess I2cDevices ConfigValidate I2cPolicy I2cMasterService MdioService.
From S2P Require Import PlService SpiCore Dcp2Codec ControlApi.
Local Open Scope Z_scope.

Definition BVSTK_DCP2_SERVICE_PING : Z := 0x00.
Definition BVSTK_DCP2_SERVICE_MEM : Z := 0x01.
Definition BVSTK_DCP2_SERVICE_I2C : Z := 0x02.
Definition BVSTK_DCP2_SERVICE_MDIO : Z := 0x03.
Definition BVSTK_DCP2_SERVICE_SPI : Z := 0x04.
Definition BVSTK_DCP2_OP_PING : Z := 0x00.
Definition BVSTK_DCP2_OP_MEM_READ : Z := 0x00.
Definition BVSTK_DCP2_OP_MEM_WRITE : Z := 0x01.
Definition BVSTK_DCP2_OP_I2C_READ_REG : Z := 0x00.
Definition BVSTK_DCP2_OP_I2C_WRITE_REG : Z := 0x01.
Definition BVSTK_DCP2_OP_I2C_POLICY_SET : Z := 0x02.
Definition BVSTK_DCP2_OP_I2C_POLICY_GET : Z := 0x03.
Definition BVSTK_DCP2_OP_I2C_POLICY_RULE_ADD : Z := 0x04.
Definition BVSTK_DCP2_OP_I2C_POLICY_RULE_DELETE : Z := 0x05.
Definition BVSTK_DCP2_OP_I2C_POLICY_CLEAR : Z := 0x06.
Definition BVSTK_DCP2_OP_MDIO_READ : Z := 0x00.
Definition BVSTK_DCP2_OP_MDIO_WRITE : Z := 0x01.
Definition BVSTK_DCP2_OP_SPI_TRANSFER : Z := 0x00.

(** [region] and [offset] are false for NULL pointers; the result holds what is
    stored at them. *)
Definition find_region (address width : Z) (region offset : bool) : bvstk_status_t * option (Z * Z) :=
  if negb region || negb offset || (width =? 0) then (BVSTK_ERR_MALFORMED, None)
  else
    match
      for_find (Z.to_nat bvstk_pl_region_count) 0 (fun i =>
        match bvstk_pl_region_get i with
        | None => false
        | Some desc =>
            let start := rd_physical_base desc in
            let finish := u64 (start + rd_size desc) in
            (start <=? address) && (u64 (address + width) <=? finish) &&
            (Z.land (u32 (address - u32 start)) 3 =? 0)
        end)
    with
    | Some i =>
        let desc := regions.[i] in
        (BVSTK_OK, Some (rd_id desc, u32 (address - rd_physical_base desc)))
    | None => (BVSTK_ERR_RANGE, None)
    end.

(** [request->body[i]]. *)
Definition body_at (request : bvstk_dcp2_request_t) (i : Z) : Z := (default [] (rq_body request)).[i].

Definition policy_status (status : bvstk_status_t) : bvstk_status_t :=
  match status with
  | BVSTK_ERR_NOT_FOUND => BVSTK_ERR_RANGE
  | BVSTK_ERR_NOT_READY => BVSTK_ERR_BUSY
  | _ => status
  end.

(** What a handler leaves: the status, the body array, the body size. *)
Definition reply : Type := bvstk_status_t * list Z * Z.

Section dcp2.
Context {X HW CORE : Type} `{PL : Platform X} `{IHW : I2cMasterHw X HW} `{MHW : MdioHw X CORE}.
Abbreviation board := (board X HW CORE).

(** ** Memory words *)

(** Words [i .. i + n) into the body, until one fails. *)
Fixpoint mem_read_loop (n : nat) (control : option bvstk_control_api_t) (address : Z) (body : list Z) (i : Z)
    : ST board (bvstk_status_t * list Z) :=
  match n with
  | O => st_ret (BVSTK_OK, body)
  | S n =>
      match find_region (u32 (address + i * 4)) 4 true true with
      | (BVSTK_OK, Some (region, offset)) =>
          let! r := bvstk_control_pl_read32 control region offset true in
          if negb (is_ok (fst r)) then st_ret (fst r, body)
          else mem_read_loop n control address (bvstk_dcp2_write_be32 body (i * 4) (default 0 (snd r))) (i + 1)
      | (status, _) => st_ret (status, body)
      end
  end.

(** Words [i .. i + n) of the request, until one fails. *)
Fixpoint mem_write_loop (n : nat) (control : option bvstk_control_api_t) (request : bvstk_dcp2_request_t)
    (address i : Z) : ST board bvstk_status_t :=
  match n with
  | O => st_ret BVSTK_OK
  | S n =>
      match find_region (u32 (address + i * 4)) 4 true true with
      | (BVSTK_OK, Some (region, offset)) =>
          let! status := bvstk_control_pl_write32 control region offset
            (bvstk_dcp2_read_be32 (rq_body request) (8 + i * 4)) in
          if negb (is_ok status) then st_ret status
          else mem_write_loop n control request address (i + 1)
      | (status, _) => st_ret status
      end
  end.

Definition process_mem (control : option bvstk_control_api_t) (request : bvstk_dcp2_request_t)
    (body : list Z) (body_size : Z) : ST board reply :=
  if rq_body_size request <? 8 then st_ret (BVSTK_ERR_MALFORMED, body, body_size)
  else
    let flags := body_at request 0 in
    let width := body_at request 1 in
    let address := bvstk_dcp2_read_be32 (rq_body request) 2 in
    let count := bvstk_dcp2_read_be16 (rq_body request) 6 in
    if negb (flags =? 0) || negb (width =? 32) || (count =? 0) || (256 <? count) then
      st_ret (BVSTK_ERR_UNSUPPORTED, body, body_size)
    else if rq_opcode request =? BVSTK_DCP2_OP_MEM_READ then
      if negb (rq_body_size request =? 8) || (BVSTK_DCP2_MAX_PAYLOAD - 6 <? count * 4) then
        st_ret (BVSTK_ERR_RANGE, body, body_size)
      else
        let! r := mem_read_loop (Z.to_nat count) control address body 0 in
        if negb (is_ok (fst r)) then st_ret (fst r, snd r, body_size)
        else st_ret (BVSTK_OK, snd r, u16 (count * 4))
    else if rq_opcode request =? BVSTK_DCP2_OP_MEM_WRITE then
      if negb (rq_body_size request =? u16 (8 + count * 4)) then
        st_ret (BVSTK_ERR_MALFORMED, body, body_size)
      else
        let! status := mem_write_loop (Z.to_nat count) control request address 0 in
        if negb (is_ok status) then st_ret (status, body, body_size)
        else st_ret (BVSTK_OK, body, 0)
    else st_ret (BVSTK_ERR_UNSUPPORTED, body, body_size).

(** ** Policies *)

(** A snapshot: the mode and the two lists with their lengths, of either service. *)
Inductive policy_snapshot :=
  | SnapI2c (e : bvstk_i2c_policy_entry_t)
  | SnapMdio (e : bvstk_mdio_policy_entry_t).

Definition snap_mode (s : policy_snapshot) : Z :=
  match s with SnapI2c e => pe_mode e | SnapMdio e => mp_mode e end.
Definition snap_white (s : policy_snapshot) : Z :=
  match s with SnapI2c e => pe_whitelist_len e | SnapMdio e => mp_whitelist_len e end.
Definition snap_black (s : policy_snapshot) : Z :=
  match s with SnapI2c e => pe_blacklist_len e | SnapMdio e => mp_blacklist_len e end.

(** Rule [i] of the two lists taken together, written at [n]. *)
Definition write_rule (s : policy_snapshot) (body : list Z) (n i : Z) : list Z :=
  let white := snap_white s in
  let index := if i <? white then i else i - white in
  match s with
  | SnapI2c e =>
      let rule := if i <? white then (pe_whitelist e).[index] else (pe_blacklist e).[index] in
      (body.[n <- rule_reg rule]).[n + 1 <- rule_val rule]
  | SnapMdio e =>
      let rule := if i <? white then (mp_whitelist e).[index] else (mp_blacklist e).[index] in
      let body := body.[n <- mr_reg rule] in
      let body := bvstk_dcp2_write_be16 body (n + 1) (mr_val rule) in
      bvstk_dcp2_write_be16 body (n + 3) (mr_mask rule)
  end.

(** Rules [i .. i + k), the first written at [n]. *)
Fixpoint write_rules (k : nat) (s : policy_snapshot) (rule_size : Z) (body : list Z) (n i : Z) : list Z :=
  match k with
  | O => body
  | S k => write_rules k s rule_size (write_rule s body n i) (n + rule_size) (i + 1)
  end.

Definition policy_device (is_i2c i2c mdio : bool) (address : Z) : ST board (bvstk_status_t * option Z) :=
  if is_i2c then
    on_i2c (st_get (bvstk_i2c_master_service_find_by_addr i2c address true))
  else on_mdio (bvstk_mdio_service_find_by_phy mdio address true).

Definition policy_snapshot_of (is_i2c i2c mdio : bool) (device_id : Z)
    : ST board (bvstk_status_t * option policy_snapshot) :=
  if is_i2c then
    let! r := on_i2c (bvstk_i2c_master_service_get_policy i2c device_id true) in
    st_ret (fst r, SnapI2c <$> snd r)
  else
    let! r := on_mdio (bvstk_mdio_service_get_policy mdio device_id true) in
    st_ret (fst r, SnapMdio <$> snd r).

(** The body of a snapshot; [body] is [None] for NULL. *)
Definition policy_reply (is_i2c : bool) (s : policy_snapshot) (body : option (list Z)) (body_capacity : Z)
    : bvstk_status_t * option (list Z) * Z :=
  let white := snap_white s in
  let black := snap_black s in
  let max := if is_i2c then I2C_CFG_RULES_MAX else MDIO_CFG_RULES_MAX in
  let rule_size := if is_i2c then 2 else 5 in
  if (max <? white) || (max <? black) then (BVSTK_ERR_RANGE, body, 0)
  else
    let n := 5 + (white + black) * rule_size in
    match body with
    | None => (BVSTK_ERR_RANGE, body, 0)
    | Some b =>
        if (body_capacity <? n) || (BVSTK_DCP2_MAX_PAYLOAD - 6 <? n) then (BVSTK_ERR_RANGE, body, 0)
        else
          let b := b.[0 <- u8 (snap_mode s)] in
          let b := bvstk_dcp2_write_be16 b 1 (u16 white) in
          let b := bvstk_dcp2_write_be16 b 3 (u16 black) in
          let b := write_rules (Z.to_nat (white + black)) s rule_size b 5 0 in
          (BVSTK_OK, Some b, u16 n)
    end.

(** The call a policy request makes. *)
Definition request_policy_call (is_i2c i2c mdio : bool) (request : bvstk_dcp2_request_t) (device_id : Z)
    : ST board bvstk_status_t :=
  let op := rq_opcode request in
  let lst := body_at request 1 in
  if op =? BVSTK_DCP2_OP_I2C_POLICY_SET then
    if is_i2c then on_i2c (bvstk_i2c_master_service_set_policy i2c device_id lst)
    else on_mdio (bvstk_mdio_service_set_policy mdio device_id lst)
  else if op =? BVSTK_DCP2_OP_I2C_POLICY_CLEAR then
    if is_i2c then on_i2c (bvstk_i2c_master_service_rule_clear_list i2c device_id lst)
    else on_mdio (bvstk_mdio_service_rule_clear_list mdio device_id lst)
  else if is_i2c then
    let reg := body_at request 2 in
    let value := body_at request 3 in
    on_i2c
      (if op =? BVSTK_DCP2_OP_I2C_POLICY_RULE_DELETE then
         bvstk_i2c_master_service_rule_remove i2c device_id lst reg value
       else if lst =? 0 then bvstk_i2c_master_service_rule_allow i2c device_id reg value
       else bvstk_i2c_master_service_rule_deny i2c device_id reg value)
  else
    let reg := body_at request 2 in
    let value := bvstk_dcp2_read_be16 (rq_body request) 3 in
    let mask := bvstk_dcp2_read_be16 (rq_body request) 5 in
    on_mdio
      (if op =? BVSTK_DCP2_OP_I2C_POLICY_RULE_DELETE then
         bvstk_mdio_service_rule_remove mdio device_id lst reg value mask
       else bvstk_mdio_service_rule_add mdio device_id lst reg value mask).

(** The number of body bytes an operation takes. *)
Definition policy_expected (is_i2c : bool) (op : Z) : Z :=
  let rule_size := if is_i2c then 2 else 5 in
  if op =? BVSTK_DCP2_OP_I2C_POLICY_GET then 1
  else if (op =? BVSTK_DCP2_OP_I2C_POLICY_RULE_ADD) || (op =? BVSTK_DCP2_OP_I2C_POLICY_RULE_DELETE)
  then 2 + rule_size else 2.

(** [body_size] is false for a NULL pointer, [request] and [body] are [None]
    for NULL; the last two results are what is stored at [body] and
    [*body_size]. *)
Definition bvstk_dcp2_process_policy (i2c mdio : bool) (request : option bvstk_dcp2_request_t)
    (body : option (list Z)) (body_capacity : Z) (body_size : bool)
    : ST board (bvstk_status_t * option (list Z) * Z) :=
  if negb body_size then st_ret (BVSTK_ERR_MALFORMED, body, 0)
  else
    match request with
    | None => st_ret (BVSTK_ERR_MALFORMED, body, 0)
    | Some rq =>
        let is_i2c := rq_service rq =? BVSTK_DCP2_SERVICE_I2C in
        let op := rq_opcode rq in
        if negb is_i2c && negb (rq_service rq =? BVSTK_DCP2_SERVICE_MDIO) then
          st_ret (BVSTK_ERR_UNSUPPORTED, body, 0)
        else if (op <? BVSTK_DCP2_OP_I2C_POLICY_SET) || (BVSTK_DCP2_OP_I2C_POLICY_CLEAR <? op) then
          st_ret (BVSTK_ERR_UNSUPPORTED, body, 0)
        else if negb (bool_decide (is_Some (rq_body rq))) || negb (rq_body_size rq =? policy_expected is_i2c op) then
          st_ret (BVSTK_ERR_MALFORMED, body, 0)
        else if negb (op =? BVSTK_DCP2_OP_I2C_POLICY_GET) && (1 <? body_at rq 1) then
          st_ret (BVSTK_ERR_MALFORMED, body, 0)
        else if (if is_i2c then 127 else 31) <? body_at rq 0 then st_ret (BVSTK_ERR_RANGE, body, 0)
        else
          let! d := policy_device is_i2c i2c mdio (body_at rq 0) in
          let device_id := default 0 (snd d) in
          if negb (is_ok (fst d)) then st_ret (policy_status (fst d), body, 0)
          else if op =? BVSTK_DCP2_OP_I2C_POLICY_GET then
            let! r := policy_snapshot_of is_i2c i2c mdio device_id in
            match r with
            | (BVSTK_OK, Some s) => st_ret (policy_reply is_i2c s body body_capacity)
            | (status, _) => st_ret (policy_status status, body, 0)
            end
          else
            let! status := request_policy_call is_i2c i2c mdio rq device_id in
            st_ret (policy_status status, body, 0)
    end.

(** The call the I2C and MDIO handlers make with their array and size. *)
Definition process_policy (control : option bvstk_control_api_t) (request : bvstk_dcp2_request_t)
    (body : list Z) (body_capacity : Z) : ST board reply :=
  let! r := bvstk_dcp2_process_policy (negb (absent api_i2c control)) (negb (absent api_mdio control))
    (Some request) (Some body) body_capacity true in
  let '(status, out, size) := r in st_ret (status, default body out, size).

(** ** I2C and MDIO registers *)

Definition process_i2c (control : option bvstk_control_api_t) (request : bvstk_dcp2_request_t)
    (body : list Z) (body_capacity body_size : Z) : ST board reply :=
  let op := rq_opcode request in
  if (BVSTK_DCP2_OP_I2C_POLICY_SET <=? op) && (op <=? BVSTK_DCP2_OP_I2C_POLICY_CLEAR) then
    process_policy control request body body_capacity
  else if negb (op =? BVSTK_DCP2_OP_I2C_READ_REG) && negb (op =? BVSTK_DCP2_OP_I2C_WRITE_REG) then
    st_ret (BVSTK_ERR_UNSUPPORTED, body, body_size)
  else if absent api_i2c control then st_ret (BVSTK_ERR_NOT_READY, body, body_size)
  else if rq_body_size request <? 2 then st_ret (BVSTK_ERR_MALFORMED, body, body_size)
  else
    let address := body_at request 0 in
    let! d := on_i2c (st_get (bvstk_i2c_master_service_find_by_addr true address true)) in
    let device_id := default 0 (snd d) in
    if negb (is_ok (fst d)) then st_ret (fst d, body, body_size)
    else if op =? BVSTK_DCP2_OP_I2C_READ_REG then
      if negb (rq_body_size request =? 2) then st_ret (BVSTK_ERR_MALFORMED, body, body_size)
      else
        let! r := bvstk_control_i2c_read control device_id (body_at request 1) true 100 in
        let body := match snd r with Some v => body.[0 <- v] | None => body end in
        st_ret (fst r, body, if is_ok (fst r) then 1 else 0)
    else if op =? BVSTK_DCP2_OP_I2C_WRITE_REG then
      if negb (rq_body_size request =? 3) then st_ret (BVSTK_ERR_MALFORMED, body, body_size)
      else
        let! status := bvstk_control_i2c_write control device_id (body_at request 1) (body_at request 2)
          BVSTK_EVENT_SOURCE_DCP 100 in
        st_ret (status, body, 0)
    else st_ret (BVSTK_ERR_UNSUPPORTED, body, body_size).

Definition process_mdio (control : option bvstk_control_api_t) (request : bvstk_dcp2_request_t)
    (body : list Z) (body_capacity body_size : Z) : ST board reply :=
  let op := rq_opcode request in
  if (BVSTK_DCP2_OP_I2C_POLICY_SET <=? op) && (op <=? BVSTK_DCP2_OP_I2C_POLICY_CLEAR) then
    process_policy control request body body_capacity
  else if negb (op =? BVSTK_DCP2_OP_MDIO_READ) && negb (op =? BVSTK_DCP2_OP_MDIO_WRITE) then
    st_ret (BVSTK_ERR_UNSUPPORTED, body, body_size)
  else if absent api_mdio control then st_ret (BVSTK_ERR_NOT_READY, body, body_size)
  else if rq_body_size request <? 2 then st_ret (BVSTK_ERR_MALFORMED, body, body_size)
  else
    let! d := on_mdio (bvstk_mdio_service_find_by_phy true (body_at request 0) true) in
    let device_id := default 0 (snd d) in
    if negb (is_ok (fst d)) then st_ret (fst d, body, body_size)
    else if op =? BVSTK_DCP2_OP_MDIO_READ then
      if negb (rq_body_size request =? 2) then st_ret (BVSTK_ERR_MALFORMED, body, body_size)
      else
        let! r := bvstk_control_mdio_read control device_id (body_at request 1) true 100 in
        if is_ok (fst r) then st_ret (fst r, bvstk_dcp2_write_be16 body 0 (default 0 (snd r)), 2)
        else st_ret (fst r, body, body_size)
    else if op =? BVSTK_DCP2_OP_MDIO_WRITE then
      if negb (rq_body_size request =? 4) then st_ret (BVSTK_ERR_MALFORMED, body, body_size)
      else
        let! status := bvstk_control_mdio_write control device_id (body_at request 1)
          (bvstk_dcp2_read_be16 (rq_body request) 2) BVSTK_EVENT_SOURCE_DCP 100 in
        st_ret (status, body, body_size)
    else st_ret (BVSTK_ERR_UNSUPPORTED, body, body_size).

(** ** SPI words *)

(** [for (i = 0; i < count; ++i) tx[i] = read_be32 (body + 2 + 4 * i)]; the
    rest of the stack array keeps what it held. *)
Definition load_tx (request : bvstk_dcp2_request_t) (count : Z) (tx : list Z) : list Z :=
  for_each (Z.to_nat count) 0 (fun i tx => tx.[i <- bvstk_dcp2_read_be32 (rq_body request) (2 + i * 4)]) tx.

Definition store_rx (rx : list Z) (count : Z) (body : list Z) : list Z :=
  for_each (Z.to_nat count) 0 (fun i body => bvstk_dcp2_write_be32 body (i * 4) (rx.[i])) body.

(** [tx] and [rx] are the two stack arrays as the call finds them. *)
Definition process_spi (fuel : nat) (tx rx : list Z) (control : option bvstk_control_api_t)
    (request : bvstk_dcp2_request_t) (body : list Z) (body_size : Z) : ST board (option reply) :=
  if absent api_spi control then st_ret (Some (BVSTK_ERR_NOT_READY, body, body_size))
  else if negb (rq_opcode request =? BVSTK_DCP2_OP_SPI_TRANSFER) || (rq_body_size request <? 2) then
    st_ret (Some (BVSTK_ERR_MALFORMED, body, body_size))
  else
    let count := bvstk_dcp2_read_be16 (rq_body request) 0 in
    if (count =? 0) || (256 <? count) || negb (rq_body_size request =? u16 (2 + count * 4)) then
      st_ret (Some (BVSTK_ERR_RANGE, body, body_size))
    else
      let! r := bvstk_control_spi_transfer fuel control (Some (load_tx request count tx)) count (Some rx) count 100 in
      match r with
      | None => st_ret None
      | Some (status, out) =>
          if negb (is_ok status) then st_ret (Some (status, body, body_size))
          else st_ret (Some (BVSTK_OK, store_rx (default rx out) count body, u16 (count * 4)))
      end.

(** ** Requests *)

(** The handler a request is dispatched to. *)
Definition dispatch (fuel : nat) (tx rx : list Z) (control : option bvstk_control_api_t)
    (request : bvstk_dcp2_request_t) (body : list Z) (body_capacity : Z) : ST board (option reply) :=
  let total (m : ST board reply) : ST board (option reply) := let! r := m in st_ret (Some r) in
  if (rq_service request =? BVSTK_DCP2_SERVICE_PING) && (rq_opcode request =? BVSTK_DCP2_OP_PING) &&
     (rq_body_size request =? 0) then st_ret (Some (BVSTK_OK, body, 0))
  else if rq_service request =? BVSTK_DCP2_SERVICE_MEM then total (process_mem control request body 0)
  else if rq_service request =? BVSTK_DCP2_SERVICE_I2C then
    total (process_i2c control request body body_capacity 0)
  else if rq_service request =? BVSTK_DCP2_SERVICE_MDIO then
    total (process_mdio control request body body_capacity 0)
  else if rq_service request =? BVSTK_DCP2_SERVICE_SPI then process_spi fuel tx rx control request body 0
  else st_ret (Some (BVSTK_ERR_UNSUPPORTED, body, 0)).

(** The outer [None] is missing fuel, the inner one the result -1. *)
Definition bvstk_dcp2_process_request (fuel : nat) (stack_body tx rx : list Z)
    (control : option bvstk_control_api_t) (request : option bvstk_dcp2_request_t)
    (response_frame : option (list Z)) (response_capacity : Z)
    : ST board (option (option (list Z * Z))) :=
  match control, request, response_frame with
  | Some _, Some rq, Some _ =>
      if response_capacity <? 14 then st_ret (Some None)
      else
        let body_capacity := Z.min (response_capacity - 14) (BVSTK_DCP2_MAX_PAYLOAD - 6) in
        let! r := dispatch fuel tx rx control rq stack_body body_capacity in
        match r with
        | None => st_ret None
        | Some (status, body, body_size) =>
            st_ret (Some (bvstk_dcp2_encode_response response_frame response_capacity request
              (bvstk_dcp2_status_from_bvstk status) (if body_size =? 0 then None else Some body) body_size))
        end
  | _, _, _ => st_ret (Some None)
  end.
End dcp2.
