(* ===== verification/Dcp2ControlSafety.v ===== *)
(** * Dcp2ControlSafety: what DCP2 requests can do and what they are answered

    Memory requests touch exactly the requested words that lie in a window of
    the programmable logic; a policy snapshot is read back from its encoding;
    every request is answered by one well-formed response frame. *)
From stdpp Require Import prelude.
From Stdlib Require Import ZArith Lia.
From S2P Require Import Prelude Platform PlAccess I2cDevices ConfigValidate I2cPolicy I2cCache I2cMasterService.
From S2P Require Import MdioService PlService SpiCore Dcp2Codec ControlApi Dcp2Control.
Local Open Scope Z_scope.

(** ** Words of the windows *)

(** A word of one of the windows: aligned and inside. *)
Definition pl_word (a : Z) : bool :=
  (a mod 4 =? 0) &&
  existsb (fun d => (rd_physical_base d <=? a) && (a + 4 <=? rd_physical_base d + rd_size d)) regions.

Lemma pl_word_spec a : pl_word a = true <->
  a mod 4 = 0 /\ exists r, 0 <= r < 8 /\
    rd_physical_base (regions.[r]) <= a /\ a + 4 <= rd_physical_base (regions.[r]) + rd_size (regions.[r]).
Proof.
  unfold pl_word. rewrite andb_true_iff, Z.eqb_eq, existsb_exists. split; intros [Ha H]; (split; [done|]).
  - destruct H as (d & Hd & Hin). apply list_elem_of_In, list_elem_of_lookup in Hd as [i Hi].
    apply andb_true_iff in Hin as [H1 H2]. exists (Z.of_nat i).
    assert (i < 8)%nat by (apply lookup_lt_Some in Hi; exact Hi). split; [lia|].
    unfold aget. rewrite Nat2Z.id, (list_lookup_total_correct _ _ _ Hi). lia.
  - destruct H as (r & Hr & Hin). exists (regions.[r]). split.
    + apply list_elem_of_In, aget_in. exact Hr.
    + apply andb_true_iff. lia.
Qed.

Lemma region_aligned r : 0 <= r < 8 -> rd_physical_base (regions.[r]) mod 4 = 0.
Proof. by apply (region_cases (fun r => rd_physical_base (regions.[r]) mod 4 = 0)). Qed.

(** The guard of the search for window [i]. *)
Lemma window_guard a i : fits 32 a -> 0 <= i < 8 ->
  let desc := regions.[i] in
  (rd_physical_base desc <=? a) && (u64 (a + 4) <=? u64 (rd_physical_base desc + rd_size desc)) &&
    (Z.land (u32 (a - u32 (rd_physical_base desc))) 3 =? 0) = true <->
  rd_physical_base desc <= a /\ a + 4 <= rd_physical_base desc + rd_size desc /\ a mod 4 = 0.
Proof.
  intros Ha Hi desc. unfold fits in Ha. pose proof (region_opened i Hi) as (_ & Hb & Hs & Hm). fold desc in Hb, Hs, Hm.
  pose proof (region_aligned i Hi) as Hal. fold desc in Hal.
  rewrite !u64_id, (u32_id (rd_physical_base desc)) by lia.
  rewrite !andb_true_iff, !Z.leb_le, Z.eqb_eq. change 3 with (Z.ones 2). rewrite Z.land_ones by lia.
  change (2 ^ 2) with 4. unfold u32, wrap. split.
  - intros [[H1 H2] H3]. rewrite (Z.mod_small (_ - _) (2 ^ 32)) in H3 by lia. Z.to_euclidean_division_equations. lia.
  - intros (H1 & H2 & H3). rewrite (Z.mod_small (_ - _) (2 ^ 32)) by lia. Z.to_euclidean_division_equations. lia.
Qed.

Lemma find_region_spec a : fits 32 a ->
  if pl_word a then
    exists r, 0 <= r < 8 /\ find_region a 4 true true = (BVSTK_OK, Some (r, a - rd_physical_base (regions.[r]))) /\
      rd_physical_base (regions.[r]) <= a /\ inside r (a - rd_physical_base (regions.[r]))
  else find_region a 4 true true = (BVSTK_ERR_RANGE, None).
Proof.
  intros Ha. unfold find_region. change (Z.to_nat bvstk_pl_region_count) with 8%nat. cbn [negb orb Z.eqb].
  match goal with |- context [for_find 8 0 ?p] => set (f := p) end.
  assert (forall i, 0 <= i < 8 -> f i = true <->
    rd_physical_base (regions.[i]) <= a /\ a + 4 <= rd_physical_base (regions.[i]) + rd_size (regions.[i]) /\
    a mod 4 = 0) as Hf.
  { intros i Hi. rewrite <- window_guard by done. unfold f, bvstk_pl_region_get, BVSTK_PL_REGION_COUNT.
    by rewrite u32_id, (proj2 (Z.leb_gt _ _)) by lia. }
  clearbody f. destruct (for_find 8 0 f) as [r|] eqn:Er.
  - apply for_find_Some in Er as (Hr & Hfr & _). apply Hf in Hfr as (H1 & H2 & H3); [|lia].
    rewrite (proj2 (pl_word_spec a)) by (split; [done|exists r; lia]).
    exists r. split; [lia|]. pose proof (region_opened r ltac:(lia)) as (_ & Hb & Hs & Hm).
    unfold fits in Ha. rewrite region_id, u32_id by lia. split; [done|]. split; [done|].
    pose proof (region_aligned r ltac:(lia)). split; [|lia]. Z.to_euclidean_division_equations. lia.
  - destruct (pl_word a) eqn:Ep; [|done]. apply pl_word_spec in Ep as (Hal & r & Hr & H1 & H2).
    assert (f r = true) as Ht by (apply Hf; auto). rewrite for_find_None in Er.
    rewrite Er in Ht; [done|lia].
Qed.

(** ** Memory requests *)

(** The addresses a request names, and those served before the first refusal. *)
Definition words (address count : Z) : list Z := map (fun i => u32 (address + i * 4)) (seqZ 0 count).

Fixpoint served (l : list Z) : list Z :=
  match l with
  | [] => []
  | a :: l => if pl_word a then a :: served l else []
  end.

Lemma served_all l : served l = l <-> forallb pl_word l = true.
Proof.
  induction l as [|a l IH]; cbn [served forallb]; [done|].
  destruct (pl_word a); cbn [andb]; [|done]. rewrite <- IH. split; [by intros [= ?]|by intros ->].
Qed.

Lemma served_sound l : Forall (fun a => pl_word a = true) (served l) /\ served l `prefix_of` l.
Proof.
  induction l as [|a l [IH1 IH2]]; cbn [served]; [by split; [constructor|]|].
  destruct (pl_word a) eqn:E; [|by split; [constructor|apply prefix_nil]].
  split; [by constructor|by apply prefix_cons].
Qed.

Section bus.
Context {X : Type} `{PL : Platform X}.

(** Reading, or writing, a list of addresses in order. *)
Fixpoint bus_reads (l : list Z) (x : X) : list Z * X :=
  match l with
  | [] => ([], x)
  | a :: l => let '(v, x) := Xil_In32 a x in let '(vs, x) := bus_reads l x in (v :: vs, x)
  end.

Fixpoint bus_writes (l : list (Z * Z)) (x : X) : X :=
  match l with
  | [] => x
  | (a, v) :: l => bus_writes l (Xil_Out32 a v x)
  end.
End bus.

Lemma write_be32_prefix b o v : 0 <= o -> o + 4 <= alen b ->
  prefix (o + 4) (bvstk_dcp2_write_be32 b o v) = prefix o b ++ be32 (u32 v) /\
  alen (bvstk_dcp2_write_be32 b o v) = alen b.
Proof.
  intros Ho Hl. unfold bvstk_dcp2_write_be32. split; [|by rewrite !alen_aset].
  rewrite <- be32_bytes. replace (o + 4) with (o + 3 + 1) by lia.
  rewrite prefix_snoc by (rewrite !alen_aset; lia).
  replace (o + 3) with (o + 2 + 1) at 1 by lia. rewrite prefix_snoc by (rewrite !alen_aset; lia).
  replace (o + 2) with (o + 1 + 1) at 1 by lia. rewrite prefix_snoc by (rewrite !alen_aset; lia).
  rewrite prefix_snoc by lia. by rewrite <- !app_assoc.
Qed.

(** ** Policy snapshots and their encoding *)

(** The rules of a list as (register, value, mask); I2C rules have no mask. *)
Definition rule_triple (s : policy_snapshot) (black : bool) (i : Z) : Z * Z * Z :=
  match s with
  | SnapI2c e =>
      let r := (if black then pe_blacklist e else pe_whitelist e).[i] in (rule_reg r, rule_val r, 0)
  | SnapMdio e =>
      let r := (if black then mp_blacklist e else mp_whitelist e).[i] in (mr_reg r, mr_val r, mr_mask r)
  end.

Definition snap_allowed (s : policy_snapshot) : list (Z * Z * Z) := map (rule_triple s false) (seqZ 0 (snap_white s)).
Definition snap_denied (s : policy_snapshot) : list (Z * Z * Z) := map (rule_triple s true) (seqZ 0 (snap_black s)).
Definition snap_size (s : policy_snapshot) : Z := match s with SnapI2c _ => 2 | SnapMdio _ => 5 end.
Definition snap_max (s : policy_snapshot) : Z :=
  match s with SnapI2c _ => I2C_CFG_RULES_MAX | SnapMdio _ => MDIO_CFG_RULES_MAX end.

Definition rule_bytes (s : policy_snapshot) (t : Z * Z * Z) : list Z :=
  let '(reg, val, mask) := t in
  match s with SnapI2c _ => [reg; val] | SnapMdio _ => [reg] ++ be16 val ++ be16 mask end.

(** What the C types and the services' own checks bound. *)
Definition triple_typed (s : policy_snapshot) (t : Z * Z * Z) : Prop :=
  let '(reg, val, mask) := t in
  match s with SnapI2c _ => fits 8 reg /\ fits 8 val | SnapMdio _ => fits 8 reg /\ fits 16 val /\ fits 16 mask end.
Definition snap_typed (s : policy_snapshot) : Prop :=
  fits 8 (snap_mode s) /\ 0 <= snap_white s <= snap_max s /\ 0 <= snap_black s <= snap_max s /\
  Forall (triple_typed s) (snap_allowed s ++ snap_denied s).

(** How a client reads the reply: the mode, two counts, then the rules. *)
Definition read_rule (size : Z) (l : list Z) : Z * Z * Z :=
  if size =? 2 then (l.[0], l.[1], 0) else (l.[0], 256 * l.[1] + l.[2], 256 * l.[3] + l.[4]).
Fixpoint read_rules (k : nat) (size : Z) (l : list Z) : list (Z * Z * Z) :=
  match k with
  | O => []
  | S k => read_rule size l :: read_rules k size (drop (Z.to_nat size) l)
  end.
Definition read_policy (size : Z) (l : list Z) : Z * list (Z * Z * Z) * list (Z * Z * Z) :=
  let white := 256 * l.[1] + l.[2] in
  let black := 256 * l.[3] + l.[4] in
  let rules := read_rules (Z.to_nat (white + black)) size (drop 5 l) in
  (l.[0], prefix white rules, drop (Z.to_nat white) rules).

Lemma be16_read v : 256 * (v / 256) + v mod 256 = v.
Proof. pose proof (Z.div_mod v 256 ltac:(lia)). lia. Qed.

Lemma read_rule_bytes s t l : triple_typed s t ->
  read_rule (snap_size s) (rule_bytes s t ++ l) = match s with SnapI2c _ => (fst t, 0) | SnapMdio _ => t end /\
  drop (Z.to_nat (snap_size s)) (rule_bytes s t ++ l) = l.
Proof.
  destruct t as [[reg val] mask]. destruct s; intros Ht; [done|]. cbn [snap_size rule_bytes be16 app fst].
  unfold read_rule. cbn [Z.eqb Pos.eqb]. unfold aget. simpl. by rewrite !be16_read.
Qed.

Lemma read_rules_bytes s ts l :
  Forall (triple_typed s) ts -> (forall e, s = SnapI2c e -> Forall (fun t => snd t = 0) ts) ->
  read_rules (length ts) (snap_size s) (concat (rule_bytes s <$> ts) ++ l) = ts.
Proof.
  intros Ht Hz. induction Ht as [|t ts Ht Hts IH]; [done|]. cbn [length read_rules fmap list_fmap concat].
  rewrite <- app_assoc. destruct (read_rule_bytes s t (concat (rule_bytes s <$> ts) ++ l) Ht) as [-> ->].
  rewrite IH by (intros e He; specialize (Hz e He); by apply Forall_cons in Hz as [_ Hz]).
  destruct s as [e|]; [|done]. specialize (Hz e eq_refl). apply Forall_cons in Hz as [Hz _].
  destruct t as [[reg val] mask]. cbn in *. by subst.
Qed.

Lemma write_be16_prefix b o v : 0 <= o -> o + 2 <= alen b ->
  prefix (o + 2) (bvstk_dcp2_write_be16 b o v) = prefix o b ++ [u8 (Z.shiftr v 8); u8 v] /\
  alen (bvstk_dcp2_write_be16 b o v) = alen b.
Proof.
  intros Ho Hl. unfold bvstk_dcp2_write_be16. split; [|by rewrite !alen_aset].
  replace (o + 2) with (o + 1 + 1) by lia. rewrite prefix_snoc by (rewrite ?alen_aset; lia).
  rewrite prefix_snoc by lia. by rewrite <- app_assoc.
Qed.

Lemma be16_bytes v : fits 16 v -> [u8 (Z.shiftr v 8); u8 v] = be16 v.
Proof. intros Hv. rewrite u8_high by done. done. Qed.

(** One rule more. *)
Lemma write_rule_prefix s b n i :
  snap_typed s -> 0 <= i < snap_white s + snap_black s -> 0 <= n -> n + snap_size s <= alen b ->
  let t := if i <? snap_white s then rule_triple s false i else rule_triple s true (i - snap_white s) in
  prefix (n + snap_size s) (write_rule s b n i) = prefix n b ++ rule_bytes s t /\
  alen (write_rule s b n i) = alen b.
Proof.
  intros (_ & Hw & Hb & Hall) Hi Hn Hl t.
  assert (triple_typed s t) as Ht.
  { rewrite Forall_forall in Hall. apply Hall, elem_of_app. unfold t, snap_allowed, snap_denied.
    destruct (i <? snap_white s) eqn:E; bsimp; [left|right]; apply list_elem_of_In, in_map_iff;
      eexists; (split; [done|]); apply list_elem_of_In, elem_of_seqZ; lia. }
  unfold write_rule, t in *. destruct s as [e|e]; cbn [snap_size snap_white] in *.
  - destruct (i <? pe_whitelist_len e); cbn [rule_triple rule_bytes].
    all: replace (n + 2) with (n + 1 + 1) by lia; (split; [|by rewrite !alen_aset]).
    all: rewrite prefix_snoc by (rewrite ?alen_aset; lia); rewrite prefix_snoc by lia; by rewrite <- app_assoc.
  - destruct (i <? mp_whitelist_len e); cbn [rule_triple triple_typed rule_bytes] in *; destruct Ht as (_ & Hv & Hm).
    all: match goal with |- context [bvstk_dcp2_write_be16 (bvstk_dcp2_write_be16 ?b1 ?o1 ?v1) ?o2 ?v2] =>
      destruct (write_be16_prefix b1 o1 v1) as [Hp1 Hl1]; [lia|rewrite alen_aset; lia|];
      destruct (write_be16_prefix (bvstk_dcp2_write_be16 b1 o1 v1) o2 v2) as [Hp2 Hl2];
        [lia|rewrite Hl1, alen_aset; lia|] end.
    all: split; [|by rewrite Hl2, Hl1, alen_aset].
    all: replace (n + 5) with (n + 3 + 2) by lia; rewrite Hp2; replace (n + 3) with (n + 1 + 2) by lia; rewrite Hp1.
    all: rewrite prefix_snoc by lia; rewrite !be16_bytes by done; by rewrite <- !app_assoc.
Qed.

Definition nth_rule (s : policy_snapshot) (i : Z) : Z * Z * Z :=
  if i <? snap_white s then rule_triple s false i else rule_triple s true (i - snap_white s).

Lemma nth_rules s : 0 <= snap_white s -> 0 <= snap_black s ->
  map (nth_rule s) (seqZ 0 (snap_white s + snap_black s)) = snap_allowed s ++ snap_denied s.
Proof.
  intros Hw Hb. rewrite seqZ_app, map_app by done. unfold snap_allowed, snap_denied. f_equal.
  - apply map_ext_in. intros i Hi. apply list_elem_of_In, elem_of_seqZ in Hi. unfold nth_rule.
    by rewrite (proj2 (Z.ltb_lt _ _)) by lia.
  - rewrite Z.add_0_l. rewrite <- (Z.add_0_r (snap_white s)) at 1. rewrite <- fmap_add_seqZ.
    change (map ?f (?g <$> ?l)) with (f <$> (g <$> l)). rewrite <- list_fmap_compose.
    apply map_ext_in. intros i Hi. apply list_elem_of_In, elem_of_seqZ in Hi. unfold nth_rule, compose.
    rewrite (proj2 (Z.ltb_ge _ _)) by lia. f_equal. lia.
Qed.

Lemma write_rules_prefix k s b n i :
  snap_typed s -> 0 <= i -> i + Z.of_nat k <= snap_white s + snap_black s -> 0 <= n ->
  n + Z.of_nat k * snap_size s <= alen b ->
  prefix (n + Z.of_nat k * snap_size s) (write_rules k s (snap_size s) b n i) =
    prefix n b ++ concat (rule_bytes s <$> map (nth_rule s) (seqZ i (Z.of_nat k))) /\
  alen (write_rules k s (snap_size s) b n i) = alen b.
Proof.
  intros Hs. revert b n i. induction k as [|k IH]; intros b n i Hi Hik Hn Hl; cbn [write_rules].
  { cbn. by rewrite Z.add_0_r, app_nil_r. }
  assert (2 <= snap_size s) by (destruct s; cbn; lia).
  destruct (write_rule_prefix s b n i) as [Hp Ha]; [done|lia|done|nia|]. fold (nth_rule s i) in Hp.
  destruct (IH (write_rule s b n i) (n + snap_size s) (i + 1)) as [Hp2 Ha2]; [lia|lia|lia|rewrite Ha; nia|].
  split; [|by rewrite Ha2]. rewrite seqZ_cons by lia. cbn [map fmap list_fmap concat].
  replace (Z.succ i) with (i + 1) by lia. replace (Z.pred (Z.of_nat (S k))) with (Z.of_nat k) by lia.
  rewrite app_assoc, <- Hp.
  replace (n + Z.of_nat (S k) * snap_size s) with (n + snap_size s + Z.of_nat k * snap_size s) by lia.
  exact Hp2.
Qed.

Definition snapshot_bytes (s : policy_snapshot) : list Z :=
  snap_mode s :: be16 (snap_white s) ++ be16 (snap_black s) ++
  concat (rule_bytes s <$> (snap_allowed s ++ snap_denied s)).

Lemma snap_bounds s : snap_typed s ->
  0 <= snap_white s <= 256 /\ 0 <= snap_black s <= 256 /\
  0 <= (snap_white s + snap_black s) * snap_size s <= 1024.
Proof.
  intros (_ & Hw & Hb & _). destruct s; cbn [snap_max snap_size] in *; unfold I2C_CFG_RULES_MAX, MDIO_CFG_RULES_MAX in *; lia.
Qed.

Lemma policy_reply_spec is_i2c s b cap :
  snap_typed s -> is_i2c = (match s with SnapI2c _ => true | _ => false end) ->
  alen b = BVSTK_DCP2_MAX_PAYLOAD -> 1029 <= cap ->
  exists b' n, policy_reply is_i2c s (Some b) cap = (BVSTK_OK, Some b', n) /\
    alen b' = alen b /\ 0 <= n <= 1029 /\ prefix n b' = snapshot_bytes s.
Proof.
  intros Hs Hi Hl Hcap. pose proof (snap_bounds s Hs) as (Hw & Hb & Hn). pose proof Hs as (Hm & Hwm & Hbm & _).
  unfold policy_reply. unfold BVSTK_DCP2_MAX_PAYLOAD in *.
  assert ((if is_i2c then I2C_CFG_RULES_MAX else MDIO_CFG_RULES_MAX) = snap_max s) as -> by (subst; by destruct s).
  assert ((if is_i2c then 2 else 5) = snap_size s) as -> by (subst; by destruct s).
  rewrite (proj2 (Z.ltb_ge _ (snap_white s))), (proj2 (Z.ltb_ge _ (snap_black s))) by lia. cbn [orb].
  rewrite (proj2 (Z.ltb_ge cap _)), (proj2 (Z.ltb_ge (4096 - 6) _)) by lia. cbn [orb].
  rewrite !u16_id, (u8_id (snap_mode s)) by (done || lia).
  set (b1 := b.[0 <- snap_mode s]). assert (alen b1 = 4096) as Hb1 by (unfold b1; by rewrite alen_aset).
  destruct (write_be16_prefix b1 1 (snap_white s)) as [Hp2 Hl2]; [lia|lia|].
  destruct (write_be16_prefix (bvstk_dcp2_write_be16 b1 1 (snap_white s)) 3 (snap_black s)) as [Hp3 Hl3]; [lia|lia|].
  set (b3 := bvstk_dcp2_write_be16 (bvstk_dcp2_write_be16 b1 1 (snap_white s)) 3 (snap_black s)) in *.
  destruct (write_rules_prefix (Z.to_nat (snap_white s + snap_black s)) s b3 5 0) as [Hp4 Hl4];
    [done|lia|lia|lia|rewrite Z2Nat.id by lia; lia|].
  rewrite Z2Nat.id in Hp4 by lia. eexists _, _. split; [done|].
  split; [rewrite Hl4, Hl3, Hl2; lia|]. split; [lia|]. rewrite Hp4, nth_rules by lia.
  change 5 with (3 + 2). rewrite Hp3. change 3 with (1 + 2). rewrite Hp2. change 1 with (0 + 1) at 1.
  unfold b1. rewrite prefix_snoc by lia. rewrite !be16_bytes by (unfold fits; lia).
  rewrite prefix_0. unfold snapshot_bytes. by rewrite <- !app_assoc.
Qed.

Lemma i2c_masks s e : s = SnapI2c e -> Forall (fun t => snd t = 0) (snap_allowed s ++ snap_denied s).
Proof.
  intros ->. apply Forall_forall. intros t Ht. apply elem_of_app in Ht.
  unfold snap_allowed, snap_denied in Ht.
  destruct Ht as [Ht|Ht]; apply list_elem_of_In, in_map_iff in Ht as (i & <- & _); done.
Qed.

(** The client reads back the policy the service encoded. *)
Lemma read_snapshot s : snap_typed s ->
  read_policy (snap_size s) (snapshot_bytes s) = (snap_mode s, snap_allowed s, snap_denied s).
Proof.
  intros Hs. pose proof (snap_bounds s Hs) as (Hw & Hb & Hn). pose proof Hs as (_ & _ & _ & Hall).
  unfold read_policy, snapshot_bytes. unfold be16 at 1 2. cbn [app].
  set (rest := concat _). unfold aget. simpl. rewrite !be16_read.
  assert (length (snap_allowed s) = Z.to_nat (snap_white s)) as Hlw
    by (unfold snap_allowed; by rewrite length_map, length_seqZ).
  assert (length (snap_denied s) = Z.to_nat (snap_black s)) as Hlb
    by (unfold snap_denied; by rewrite length_map, length_seqZ).
  replace (Z.to_nat (snap_white s + snap_black s)) with (length (snap_allowed s ++ snap_denied s))
    by (rewrite length_app; lia).
  rewrite <- (app_nil_r rest). unfold rest. rewrite drop_0, read_rules_bytes by (done || apply i2c_masks).
  unfold prefix. rewrite take_app_length' by done. by rewrite drop_app_length' by done.
Qed.

Section dcp2.
Context {X HW CORE : Type} `{PL : Platform X} `{IHW : I2cMasterHw X HW} `{MHW : MdioHw X CORE}.
Local Abbreviation board := (board X HW CORE).
Context (api : bvstk_control_api_t).

(** Only the world and the mappings of the PL service have moved. *)
Record only_pl (b b' : board) (x : X) : Prop := {
  op_world : bd_i2c b' = put_ext x (bd_i2c b);
  op_mdio : bd_mdio b' = bd_mdio b;
  op_spi : bd_spi b' = bd_spi b;
  op_pl : pl_wf (bd_pl b')
}.

Lemma only_pl_refl b : pl_wf (bd_pl b) -> only_pl b b (bd_world b).
Proof. intros Hpl. split; try done. unfold bd_world, put_ext. by destruct (bd_i2c b). Qed.

Lemma only_pl_world b b' x : only_pl b b' x -> bd_world b' = x.
Proof. intros H. unfold bd_world. by rewrite (op_world _ _ _ H). Qed.

Lemma only_pl_trans b1 b2 b3 x2 x3 : only_pl b1 b2 x2 -> only_pl b2 b3 x3 -> only_pl b1 b3 x3.
Proof.
  intros [W1 M1 S1 P1] [W2 M2 S2 P2]. split; try congruence.
  rewrite W2, W1. unfold put_ext. by destruct (bd_i2c b1).
Qed.

Context (Hpl : api_pl api = true).

Lemma control_pl_read b r offset :
  pl_wf (bd_pl b) -> 0 <= r < 8 -> inside r offset -> 0 <= offset ->
  runs (bvstk_control_pl_read32 (Some api) r offset true) b (fun res b' =>
    let '(v, x) := Xil_In32 (rd_physical_base (regions.[r]) + offset) (bd_world b) in
    res = (BVSTK_OK, Some v) /\ only_pl b b' x).
Proof.
  intros Hwf Hr Hin Ho. unfold runs, bvstk_control_pl_read32, absent. rewrite Hpl. cbn [negb].
  destruct (pl_read32_run (bd_pl b) r offset (bd_world b) Hwf Hr Ho) as (s & Hs & ->).
  rewrite decide_True by done. destruct (Xil_In32 _ _) as [v x]. cbn [fst snd default id].
  split; [done|]. by split.
Qed.

Lemma control_pl_write b r offset v :
  pl_wf (bd_pl b) -> 0 <= r < 8 -> inside r offset -> 0 <= offset ->
  runs (bvstk_control_pl_write32 (Some api) r offset v) b (fun res b' =>
    res = BVSTK_OK /\
    only_pl b b' (Xil_Out32 (rd_physical_base (regions.[r]) + offset) v (bd_world b))).
Proof.
  intros Hwf Hr Hin Ho. unfold runs, bvstk_control_pl_write32, absent. rewrite Hpl. cbn [negb].
  destruct (pl_write32_run (bd_pl b) r offset v (bd_world b) Hwf Hr Ho) as (s & Hs & ->).
  rewrite decide_True by done. cbn [fst snd default id]. split; [done|]. by split.
Qed.

Lemma words_S address n i :
  0 <= i -> map (fun i => u32 (address + i * 4)) (seqZ i (Z.of_nat (S n))) =
    u32 (address + i * 4) :: map (fun i => u32 (address + i * 4)) (seqZ (i + 1) (Z.of_nat n)).
Proof.
  intros Hi. rewrite seqZ_cons by lia. cbn [map]. do 2 f_equal; f_equal; lia.
Qed.

Lemma mem_read_loop_spec n address body i b :
  pl_wf (bd_pl b) -> 0 <= i -> (i + Z.of_nat n) * 4 <= alen body ->
  let ws := map (fun i => u32 (address + i * 4)) (seqZ i (Z.of_nat n)) in
  runs (mem_read_loop n (Some api) address body i) b (fun r b' =>
    let '(vs, x) := bus_reads (served ws) (bd_world b) in
    only_pl b b' x /\ alen (snd r) = alen body /\
    if forallb pl_word ws then
      fst r = BVSTK_OK /\ prefix ((i + Z.of_nat n) * 4) (snd r) = prefix (i * 4) body ++ concat ((fun v => be32 (u32 v)) <$> vs)
    else fst r = BVSTK_ERR_RANGE).
Proof.
  revert body i b. induction n as [|n IH]; intros body i b Hwf Hi Hlen; cbn [mem_read_loop].
  { apply runs_ret. cbn. split; [by apply only_pl_refl|]. split; [done|]. split; [done|].
    by rewrite Z.add_0_r, app_nil_r. }
  rewrite words_S by done. cbn [served forallb].
  set (a := u32 (address + i * 4)). pose proof (find_region_spec a (u32_range _)) as Hf.
  destruct (pl_word a); cbn [andb].
  2:{ rewrite Hf. apply runs_ret. cbn [bus_reads fst snd]. split; [by apply only_pl_refl|done]. }
  destruct Hf as (r & Hr & -> & Hge & Hin). apply runs_bind.
  eapply runs_mono; [apply control_pl_read; try done; lia|]. intros res b1 Hres. cbv beta in Hres.
  replace (rd_physical_base _ + (a - _)) with a in Hres by lia. cbn [bus_reads].
  destruct (Xil_In32 a (bd_world b)) as [v x1]. destruct Hres as [-> H1]. cbn [fst snd is_ok negb default id].
  destruct (write_be32_prefix body (i * 4) v ltac:(lia) ltac:(lia)) as [Hp Hl].
  eapply runs_mono; [apply IH; [apply (op_pl _ _ _ H1)|lia|rewrite Hl; lia]|].
  intros [st body'] b2. cbn [fst snd]. rewrite (only_pl_world _ _ _ H1).
  destruct (bus_reads _ x1) as [vs x2]. intros (H2 & Hl2 & Hst).
  split; [by eapply only_pl_trans|]. split; [congruence|].
  destruct (forallb _ _); [|done]. destruct Hst as [-> Hst]. split; [done|].
  replace ((i + Z.of_nat (S n)) * 4) with ((i + 1 + Z.of_nat n) * 4) by lia. rewrite Hst.
  replace ((i + 1) * 4) with (i * 4 + 4) by lia. rewrite Hp. cbn [fmap list_fmap concat].
  by rewrite <- app_assoc.
Qed.

(** The value written to word [i]. *)
Definition write_value (rq : bvstk_dcp2_request_t) (i : Z) : Z := bvstk_dcp2_read_be32 (rq_body rq) (8 + i * 4).

Lemma mem_write_loop_spec n rq address i b :
  pl_wf (bd_pl b) -> 0 <= i ->
  let ws := map (fun i => u32 (address + i * 4)) (seqZ i (Z.of_nat n)) in
  let vs := map (write_value rq) (seqZ i (Z.of_nat n)) in
  runs (mem_write_loop n (Some api) rq address i) b (fun status b' =>
    only_pl b b' (bus_writes (zip (served ws) vs) (bd_world b)) /\
    status = if forallb pl_word ws then BVSTK_OK else BVSTK_ERR_RANGE).
Proof.
  revert i b. induction n as [|n IH]; intros i b Hwf Hi; cbn [mem_write_loop].
  { apply runs_ret. split; [by apply only_pl_refl|done]. }
  rewrite words_S by done. cbn [served forallb].
  rewrite (seqZ_cons i (Z.of_nat (S n))) by lia. cbn [map].
  replace (Z.succ i) with (i + 1) by lia. replace (Z.pred (Z.of_nat (S n))) with (Z.of_nat n) by lia.
  set (a := u32 (address + i * 4)). pose proof (find_region_spec a (u32_range _)) as Hf.
  destruct (pl_word a); cbn [andb].
  2:{ rewrite Hf. apply runs_ret. split; [by apply only_pl_refl|done]. }
  destruct Hf as (r & Hr & -> & Hge & Hin). apply runs_bind.
  eapply runs_mono; [apply control_pl_write; try done; lia|]. intros ? b1 [-> H1]. cbn [is_ok negb].
  replace (rd_physical_base _ + (a - _)) with a in H1 by lia.
  eapply runs_mono; [apply IH; [apply (op_pl _ _ _ H1)|lia]|]. intros st b2 [H2 ->].
  rewrite (only_pl_world _ _ _ H1) in H2. split; [by eapply only_pl_trans|done].
Qed.

Definition mem_address (rq : bvstk_dcp2_request_t) : Z := bvstk_dcp2_read_be32 (rq_body rq) 2.
Definition mem_count (rq : bvstk_dcp2_request_t) : Z := bvstk_dcp2_read_be16 (rq_body rq) 6.

(** A read of 1 to 256 words, or a write that brings exactly its words. *)
Definition mem_well_formed (rq : bvstk_dcp2_request_t) : bool :=
  (8 <=? rq_body_size rq) && (body_at rq 0 =? 0) && (body_at rq 1 =? 32) &&
  (1 <=? mem_count rq) && (mem_count rq <=? 256) &&
  ((rq_opcode rq =? BVSTK_DCP2_OP_MEM_READ) && (rq_body_size rq =? 8) ||
   (rq_opcode rq =? BVSTK_DCP2_OP_MEM_WRITE) && (rq_body_size rq =? 8 + mem_count rq * 4)).

(** What a memory request does: [ws] are the words it names, in order. *)
Definition mem_effect (rq : bvstk_dcp2_request_t) (body : list Z) (b : board) (r : reply) (b' : board) : Prop :=
  let '(status, body', size) := r in
  let ws := words (mem_address rq) (mem_count rq) in
  if negb (mem_well_formed rq) then status <> BVSTK_OK /\ size = 0 /\ b' = b
  else
    (status = if forallb pl_word ws then BVSTK_OK else BVSTK_ERR_RANGE) /\
    if rq_opcode rq =? BVSTK_DCP2_OP_MEM_READ then
      let '(vs, x) := bus_reads (served ws) (bd_world b) in
      only_pl b b' x /\
      if forallb pl_word ws then
        size = mem_count rq * 4 /\ prefix size body' = concat ((fun v => be32 (u32 v)) <$> vs)
      else size = 0
    else
      size = 0 /\
      only_pl b b' (bus_writes (zip (served ws) (map (write_value rq) (seqZ 0 (mem_count rq)))) (bd_world b)).

Lemma mem_count_range rq : 0 <= mem_count rq < 65536.
Proof. unfold mem_count, bvstk_dcp2_read_be16. destruct (rq_body rq); [apply u16_range|lia]. Qed.

Lemma process_mem_spec rq body b :
  pl_wf (bd_pl b) -> alen body = BVSTK_DCP2_MAX_PAYLOAD -> 0 <= rq_body_size rq < 65536 ->
  runs (process_mem (Some api) rq body 0) b (fun r b' =>
    mem_effect rq body b r b' /\ alen (snd (fst r)) = alen body).
Proof.
  intros Hwf Hl Hs. pose proof (mem_count_range rq) as Hc. unfold process_mem. fold (mem_address rq) (mem_count rq).
  destruct (mem_well_formed rq) eqn:Ew; unfold mem_effect; rewrite Ew; cbn [negb]; unfold mem_well_formed in Ew.
  - rewrite !andb_true_iff in Ew. destruct Ew as [[[[[E8 E0] E1] Ec1] Ec2] Eo].
    apply Z.leb_le in E8, Ec1, Ec2.
    rewrite (proj2 (Z.ltb_ge _ _)), E0, E1, (proj2 (Z.eqb_neq (mem_count rq) 0)), (proj2 (Z.ltb_ge 256 _)) by lia.
    cbn [negb orb]. apply orb_true_iff in Eo as [Eo|Eo]; apply andb_true_iff in Eo as [Eop Esz]; rewrite ?Eop, ?Esz.
    + rewrite (proj2 (Z.ltb_ge _ (mem_count rq * 4))) by (unfold BVSTK_DCP2_MAX_PAYLOAD; lia).
      cbn [negb orb]. apply runs_bind. eapply runs_mono.
      { apply mem_read_loop_spec; [done|lia|]. unfold BVSTK_DCP2_MAX_PAYLOAD in Hl. lia. }
      intros [st body'] b1. cbn [fst snd]. rewrite !Z2Nat.id by lia. unfold words.
      destruct (bus_reads _ _) as [vs x]. intros (H6 & H7 & H8).
      destruct (forallb _ _); [destruct H8 as [-> H8]|subst st]; cbn [is_ok negb]; apply runs_ret;
        (split; [|done]); (split; [done|]); (split; [done|]); [|done].
      rewrite u16_id by lia. split; [done|]. exact H8.
    + apply Z.eqb_eq in Eop, Esz. rewrite Eop, Esz. cbn [BVSTK_DCP2_OP_MEM_WRITE BVSTK_DCP2_OP_MEM_READ Z.eqb Pos.eqb].
      rewrite u16_id, Z.eqb_refl by lia. cbn [negb].
      apply runs_bind. eapply runs_mono; [by apply mem_write_loop_spec|].
      intros st b1. rewrite !Z2Nat.id by lia. unfold words. intros [H6 ->].
      destruct (forallb _ _); cbn [is_ok negb]; apply runs_ret; (split; [|done]); (split; [done|]); (split; [done|exact H6]).
  - destruct (_ <? 8) eqn:E8; [by apply runs_ret|]. bsimp.
    rewrite (proj2 (Z.leb_le _ _)) in Ew by lia.
    destruct (_ || (256 <? mem_count rq)) eqn:Eg; [by apply runs_ret|].
    apply orb_false_iff in Eg as [Eg E4]. apply orb_false_iff in Eg as [Eg E3].
    apply orb_false_iff in Eg as [E1 E2]. bsimp. rewrite E1, E2 in Ew.
    rewrite (proj2 (Z.leb_le 1 _)), (proj2 (Z.leb_le _ 256)) in Ew by lia. cbn [Z.eqb Pos.eqb andb] in Ew.
    destruct (rq_opcode rq =? BVSTK_DCP2_OP_MEM_READ) eqn:Er; cbn [andb] in Ew.
    + apply orb_false_iff in Ew as [Ew _]. rewrite Ew. by apply runs_ret.
    + destruct (rq_opcode rq =? BVSTK_DCP2_OP_MEM_WRITE) eqn:Ewr; [|by apply runs_ret].
      cbn [andb orb] in Ew. rewrite u16_id by lia.
      rewrite (Z.add_comm 8) in *. rewrite Ew. by apply runs_ret.
Qed.

(** C13: A memory request touches exactly the words it names, in order, up to the
    first that is not an aligned word of a window of the programmable logic; the
    words before that one are read or written even though the request is then
    refused.  A completed read returns the values in big-endian order.  A
    request that is not well formed touches nothing.  No other service is
    affected. *)
Theorem dcp2_mem_confined rq body b :
  pl_wf (bd_pl b) -> alen body = BVSTK_DCP2_MAX_PAYLOAD -> 0 <= rq_body_size rq < 65536 ->
  runs (process_mem (Some api) rq body 0) b (mem_effect rq body b).
Proof. intros. eapply runs_mono; [by apply process_mem_spec|]. by intros r b' [Heff _]. Qed.

(** ** Reading a policy *)

Definition i2c_triple (r : i2c_rule_entry_t) : Z * Z * Z := (rule_reg r, rule_val r, 0).
Definition mdio_triple (r : mdio_rule_entry_t) : Z * Z * Z := (mr_reg r, mr_val r, mr_mask r).

(** The policy of device [d] in the service: mode, allowed rules, denied rules. *)
Definition device_policy (is_i2c : bool) (b : board) (d : Z) : Z * list (Z * Z * Z) * list (Z * Z * Z) :=
  if is_i2c then
    let e := (pol_items (st_policy (bd_i2c b))).[d] in
    (pe_mode e, i2c_triple <$> prefix (pe_whitelist_len e) (pe_whitelist e),
     i2c_triple <$> prefix (pe_blacklist_len e) (pe_blacklist e))
  else
    let c := MdioService.device (bd_mdio b) d in
    (mc_policy c, mdio_triple <$> allow_list c, mdio_triple <$> deny_list c).

(** The fields have their C widths. *)
Definition policy_widths (is_i2c : bool) (p : Z * list (Z * Z * Z) * list (Z * Z * Z)) : Prop :=
  let '(mode, allowed, denied) := p in
  fits 8 mode /\
  Forall (fun t => fits 8 (fst (fst t)) /\ fits (if is_i2c then 8 else 16) (snd (fst t)) /\ fits 16 (snd t))
    (allowed ++ denied).

(** The service of [is_i2c] is up and knows device [d] by [address]. *)
Definition policy_ready (is_i2c : bool) (b : board) (address d : Z) : Prop :=
  if is_i2c then
    store_wf (bd_i2c b) /\ 0 <= address <= 127 /\
    bvstk_i2c_master_service_find_by_addr true address true (bd_i2c b) = (BVSTK_OK, Some d)
  else
    md_initialized (bd_mdio b) <> 0 /\ 0 <= address <= 31 /\
    (forall x, fst (bvstk_mutex_lock (Some (md_mutex (bd_mdio b))) 1000 x) = BVSTK_OK) /\
    find_phy (bd_mdio b) address = d /\ d < md_device_count (bd_mdio b) /\
    (let c := MdioService.device (bd_mdio b) d in
     mdio_config_sized c /\ 0 < mc_reg_count c /\
     mc_whitelist_len c <= MDIO_CFG_RULES_MAX /\ mc_blacklist_len c <= MDIO_CFG_RULES_MAX).

(** No policy changes; only locks and observers of the world may move. *)
Definition policies_kept (b b' : board) : Prop :=
  data_eq (bd_i2c b) (bd_i2c b') /\ bd_mdio b' = bd_mdio b /\ bd_pl b' = bd_pl b /\ bd_spi b' = bd_spi b.

Lemma policies_kept_trans b1 b2 b3 : policies_kept b1 b2 -> policies_kept b2 b3 -> policies_kept b1 b3.
Proof.
  intros (D1 & M1 & P1 & S1) (D2 & M2 & P2 & S2).
  split; [by eapply data_eq_trans|]. split; [congruence|]. split; congruence.
Qed.

Lemma map_prefix {A} `{Inhabited A} {B} (f : A -> B) (a : list A) n : 0 <= n <= alen a ->
  map (fun i => f (a.[i])) (seqZ 0 n) = f <$> prefix n a.
Proof.
  intros Hn. unfold prefix, alen in *. apply list_eq. intros i. change (map ?g ?l) with (g <$> l).
  rewrite !list_lookup_fmap. destruct (decide (Z.of_nat i < n)).
  - rewrite lookup_seqZ_lt, lookup_take_lt by lia. cbn. rewrite <- (Nat2Z.id i) at 2.
    rewrite aget_lookup by (unfold alen; lia). done.
  - rewrite lookup_seqZ_ge, lookup_take_ge by lia. done.
Qed.

(** A query of the MDIO service whose lock is granted. *)
Lemma mdio_query {A} (refused : bvstk_status_t -> A) (f : bvstk_mdio_service_t X CORE -> A) b :
  md_initialized (bd_mdio b) <> 0 ->
  (forall x, fst (bvstk_mutex_lock (Some (md_mutex (bd_mdio b))) 1000 x) = BVSTK_OK) ->
  runs (on_mdio (locked true refused (self f))) b (fun r b' => r = f (bd_mdio b) /\ policies_kept b b').
Proof.
  intros Hi Hg. unfold runs, on_mdio, locked, st_bind, lock, world, self, unlock, worldf, st_ret. cbn [negb orb svc wld].
  rewrite (proj2 (Z.eqb_neq _ _)) by done. specialize (Hg (bd_world b)).
  destruct (bvstk_mutex_lock _ _ _) as [st x]. cbn [fst] in Hg. subst st. cbn [is_ok negb fst snd].
  split; [done|]. by repeat split.
Qed.

Lemma i2c_snapshot b d address :
  policy_ready true b address d ->
  runs (policy_snapshot_of true true true d) b (fun r b' =>
    r = (BVSTK_OK, Some (SnapI2c ((pol_items (st_policy (bd_i2c b))).[d]))) /\ policies_kept b b') /\
  0 <= d < I2C_CFG_MAX_DEVICES.
Proof.
  intros (Hwf & Ha & Hf). pose proof Hwf as (Hd & _ & _ & _ & Hw).
  unfold bvstk_i2c_master_service_find_by_addr in Hf. cbn [negb orb] in Hf.
  destruct (sv_initialized _ =? 0) eqn:Ei; [done|]. bsimp. specialize (Hw (or_introl Ei)).
  pose proof Hw as (Hpd & _ & Hpp & Hdi & _ & Hpi & _ & Hpc).
  assert (0 <= d < dvs_count (st_devices (bd_i2c b))) as Hdr.
  { unfold p_devices in Hf. rewrite Hpd in Hf. unfold bvstk_i2c_devices_find_by_addr in Hf. cbn [negb] in Hf.
    rewrite (proj2 (Z.eqb_neq _ _) Hdi) in Hf. destruct (for_find _ _ _) as [i|] eqn:Ef; [|done].
    injection Hf as ->. apply for_find_Some in Ef as (Hr & _). lia. }
  split; [|destruct Hd as (_ & ? & _); lia].
  unfold policy_snapshot_of. apply runs_bind. unfold runs at 1, on_i2c, bvstk_i2c_master_service_get_policy.
  rewrite service_status_intro by (done || lia). unfold st_bind, st_get, st_ret, sink_enter, sink_leave, st_mod.
  unfold p_policy. cbn [put_ext st_master st_policy st_devices st_cache st_ext]. rewrite Hpp.
  unfold bvstk_i2c_policy_get, I2cPolicy.policy_status. rewrite (proj2 (Z.eqb_neq _ _) Hpi), Hpc.
  rewrite (proj2 (Z.ltb_lt d _)) by lia. cbn [negb fst snd fmap option_fmap option_map].
  unfold runs. cbn [fst snd]. split; [done|]. by repeat split.
Qed.

Lemma mdio_snapshot b d address :
  policy_ready false b address d ->
  let c := MdioService.device (bd_mdio b) d in
  let zero := fill MDIO_CFG_RULES_MAX inhabitant in
  runs (policy_snapshot_of false true true d) b (fun r b' =>
    r = (BVSTK_OK, Some (SnapMdio (MdioPolicyEntry (mc_policy c)
      (copy_prefix (mc_whitelist_len c) (mc_whitelist c) zero) (mc_whitelist_len c)
      (copy_prefix (mc_blacklist_len c) (mc_blacklist c) zero) (mc_blacklist_len c)))) /\ policies_kept b b').
Proof.
  intros (Hi & Ha & Hg & Hf & Hd & (_ & Hc & _)). unfold policy_snapshot_of. apply runs_bind.
  eapply runs_mono; [by apply mdio_query|]. intros r b1 [-> Hk]. apply runs_ret. split; [|done].
  cbn [negb]. unfold check. rewrite (proj2 (Z.leb_gt _ _)), (proj2 (Z.ltb_lt _ _)) by done. done.
Qed.

(** Either way the snapshot is the device's policy. *)
Lemma snapshot_of_device is_i2c b address d :
  policy_ready is_i2c b address d -> policy_widths is_i2c (device_policy is_i2c b d) ->
  runs (policy_snapshot_of is_i2c true true d) b (fun r b' => exists s,
    r = (BVSTK_OK, Some s) /\ policies_kept b b' /\ snap_typed s /\
    is_i2c = (match s with SnapI2c _ => true | _ => false end) /\
    (snap_mode s, snap_allowed s, snap_denied s) = device_policy is_i2c b d).
Proof.
  intros Hr Hw. destruct is_i2c; cbn [device_policy policy_widths] in Hw; destruct Hw as [Hm Hall].
  - destruct (i2c_snapshot b d address Hr) as [Hrun Hd]. eapply runs_mono; [exact Hrun|].
    intros r b1 [-> Hk]. eexists. split; [done|]. split; [done|].
    pose proof Hr as ((_ & (_ & _ & Hpe) & _) & _). specialize (Hpe d Hd) as (_ & [Hwl Hwn] & [Hbl Hbn]).
    set (e := (pol_items (st_policy (bd_i2c b))).[d]) in *.
    assert (snap_allowed (SnapI2c e) = i2c_triple <$> prefix (pe_whitelist_len e) (pe_whitelist e)) as Ha
      by (apply (map_prefix i2c_triple); lia).
    assert (snap_denied (SnapI2c e) = i2c_triple <$> prefix (pe_blacklist_len e) (pe_blacklist e)) as Hb
      by (apply (map_prefix i2c_triple); lia).
    split; [|split; [done|cbn [snap_mode]; by rewrite Ha, Hb]].
    split; [done|]. split; [done|]. split; [done|]. rewrite Ha, Hb.
    eapply Forall_impl; [exact Hall|]. intros [[reg val] mask] (H1 & H2 & H3). by split.
  - pose proof Hr as (_ & _ & _ & _ & _ & (_ & _ & _ & Hwl & Hbl & _ & _ & _ & _ & Hwn & Hbn & _) & _ & Hwm & Hbm).
    pose proof (mdio_snapshot b d address Hr) as Hrun. cbv zeta in Hrun.
    eapply runs_mono; [exact Hrun|]. intros r b1 [-> Hk].
    set (c := MdioService.device (bd_mdio b) d) in *. eexists. split; [done|]. split; [done|].
    set (s := SnapMdio _).
    assert (forall src n, 0 <= n <= MDIO_CFG_RULES_MAX -> alen src = MDIO_CFG_RULES_MAX ->
      map (fun i => mdio_triple ((copy_prefix n src (fill MDIO_CFG_RULES_MAX inhabitant)).[i])) (seqZ 0 n) =
      mdio_triple <$> prefix n src) as Hcp.
    { intros src n Hn Hs. set (dst := fill _ _).
      assert (alen dst = MDIO_CFG_RULES_MAX) as Hz by (apply alen_fill; done).
      rewrite (map_prefix mdio_triple) by (rewrite alen_copy_prefix by lia; lia).
      by rewrite prefix_copy_prefix by lia. }
    assert (snap_allowed s = mdio_triple <$> allow_list c) as Ha by (apply (Hcp _ (mc_whitelist_len c)); [lia|done]).
    assert (snap_denied s = mdio_triple <$> deny_list c) as Hb by (apply (Hcp _ (mc_blacklist_len c)); [lia|done]).
    split; [|split; [done|by rewrite Ha, Hb]].
    split; [done|]. split; [by split|]. split; [by split|]. rewrite Ha, Hb.
    eapply Forall_impl; [exact Hall|]. by intros [[reg val] mask].
Qed.

Lemma policy_device_ready is_i2c b address d :
  policy_ready is_i2c b address d ->
  runs (policy_device is_i2c true true address) b (fun r b' => r = (BVSTK_OK, Some d) /\ policies_kept b b').
Proof.
  destruct is_i2c; unfold policy_device.
  - intros (Hwf & _ & Hf). unfold runs, on_i2c, st_get. cbn [fst snd]. rewrite Hf. split; [done|].
    destruct b. by repeat split.
  - intros (Hi & Ha & Hg & Hf & Hd & Hc). eapply runs_mono; [by apply mdio_query|].
    intros r b1 [-> Hk]. split; [|done]. cbn [negb]. rewrite (proj2 (Z.ltb_ge 31 _)) by lia. cbn [orb].
    by rewrite Hf, (proj2 (Z.ltb_lt _ _)).
Qed.

(** What a client sees does not move with the lock and the observers. *)
Lemma kept_ready is_i2c b b' address d :
  policies_kept b b' -> policy_ready is_i2c b address d ->
  policy_ready is_i2c b' address d /\ device_policy is_i2c b' d = device_policy is_i2c b d.
Proof.
  intros (D & M & _) Hr. unfold data_eq in D. destruct D as (D1 & D2 & D3 & D4). destruct is_i2c.
  - unfold device_policy. rewrite D3. split; [|done].
    unfold policy_ready, store_wf, wired, bvstk_i2c_master_service_find_by_addr, p_devices in *.
    rewrite D1, D2, D3, D4. exact Hr.
  - unfold device_policy, policy_ready in *. by rewrite M.
Qed.

Definition policy_get_request (is_i2c : bool) (address sequence : Z) : bvstk_dcp2_request_t :=
  Dcp2Request (if is_i2c then BVSTK_DCP2_SERVICE_I2C else BVSTK_DCP2_SERVICE_MDIO)
    BVSTK_DCP2_OP_I2C_POLICY_GET sequence (Some [address]) 1.

(** A policy read is answered by the device's current policy: decoding the
    body as a client does yields the mode and both rule lists of the service, in
    order, and reading changes no policy.  The largest policy fits a response. *)
Theorem dcp2_policy_get_roundtrip is_i2c address sequence d body capacity b :
  policy_ready is_i2c b address d -> policy_widths is_i2c (device_policy is_i2c b d) ->
  alen body = BVSTK_DCP2_MAX_PAYLOAD -> 1029 <= capacity ->
  runs (bvstk_dcp2_process_policy true true (Some (policy_get_request is_i2c address sequence)) (Some body) capacity true) b
    (fun r b' => exists body' n, r = (BVSTK_OK, Some body', n) /\ 0 <= n <= 1029 /\
      read_policy (if is_i2c then 2 else 5) (prefix n body') = device_policy is_i2c b d /\ policies_kept b b').
Proof.
  intros Hr Hw Hl Hcap. unfold bvstk_dcp2_process_policy. cbn [negb].
  assert ((rq_service (policy_get_request is_i2c address sequence) =? BVSTK_DCP2_SERVICE_I2C) = is_i2c) as ->
    by (by destruct is_i2c).
  assert ((negb is_i2c && negb (rq_service (policy_get_request is_i2c address sequence) =? BVSTK_DCP2_SERVICE_MDIO)) = false) as ->
    by (by destruct is_i2c).
  unfold policy_get_request. cbn [rq_opcode rq_body rq_body_size]. unfold policy_expected.
  rewrite bool_decide_eq_true_2 by done. cbn [BVSTK_DCP2_OP_I2C_POLICY_GET Z.ltb Z.compare Pos.compare Pos.compare_cont
    BVSTK_DCP2_OP_I2C_POLICY_SET BVSTK_DCP2_OP_I2C_POLICY_CLEAR Z.eqb Pos.eqb negb orb andb].
  unfold body_at. cbn [rq_body default id]. change ([address].[0]) with address.
  rewrite (proj2 (Z.ltb_ge (if is_i2c then 127 else 31) address))
    by (destruct is_i2c; [destruct Hr as (_ & ? & _)|destruct Hr as (_ & ? & _)]; lia).
  apply runs_bind. eapply runs_mono; [by apply policy_device_ready|]. intros ? b1 [-> Hk1].
  cbn [fst snd is_ok negb default id]. destruct (kept_ready _ _ _ _ _ Hk1 Hr) as [Hr1 Hp1].
  apply runs_bind. eapply runs_mono; [apply (snapshot_of_device is_i2c b1 address d Hr1); by rewrite Hp1|].
  intros ? b2 (s & -> & Hk2 & Hs & His & Hdp). apply runs_ret.
  destruct (policy_reply_spec is_i2c s body capacity Hs His Hl Hcap) as (body' & n & -> & _ & Hn & Hb).
  exists body', n. split; [done|]. split; [done|]. split; [|by eapply policies_kept_trans].
  rewrite Hb. assert ((if is_i2c then 2 else 5) = snap_size s) as -> by (subst; by destruct s).
  rewrite read_snapshot by done. by rewrite Hdp, Hp1.
Qed.

(** ** Every request is answered *)

(** List lengths are unsigned in C. *)
Definition lengths_unsigned (b : board) : Prop :=
  (forall d, 0 <= pe_whitelist_len ((pol_items (st_policy (bd_i2c b))).[d]) /\
             0 <= pe_blacklist_len ((pol_items (st_policy (bd_i2c b))).[d])) /\
  (forall d, 0 <= mc_whitelist_len (MdioService.device (bd_mdio b) d) /\
             0 <= mc_blacklist_len (MdioService.device (bd_mdio b) d)).

(** The reply fits the largest response body, and only a success has one. *)
Definition reply_ok (r : reply) : Prop :=
  let '(st, body, n) := r in
  alen body = BVSTK_DCP2_MAX_PAYLOAD /\ 0 <= n <= 1029 /\ (n <> 0 -> st = BVSTK_OK).

Lemma reply_empty st body : alen body = BVSTK_DCP2_MAX_PAYLOAD -> reply_ok (st, body, 0).
Proof. intros Hl. split; [done|]. split; [lia|done]. Qed.

Lemma mdio_query_keeps {A} s (refused : bvstk_status_t -> A) (f : bvstk_mdio_service_t X CORE -> A) b :
  runs (on_mdio (locked s refused (self f))) b (fun r b' =>
    ((exists st, st <> BVSTK_OK /\ r = refused st) \/ r = f (bd_mdio b)) /\ policies_kept b b').
Proof.
  unfold runs, on_mdio, locked, st_bind, lock, world, self, unlock, worldf, st_ret. cbn [svc wld].
  destruct (negb s || _); cbn [is_ok negb fst snd].
  { split; [|by repeat split]. left. by exists BVSTK_ERR_NOT_READY. }
  destruct (bvstk_mutex_lock _ _ _) as [st x]. destruct (is_ok st) eqn:Es; cbn [negb fst snd svc wld].
  - split; [by right|]. by repeat split.
  - split; [|by repeat split]. left. exists st. split; [by apply is_ok_false|done].
Qed.

Lemma policy_device_kept is_i2c i2c mdio address b :
  runs (policy_device is_i2c i2c mdio address) b (fun _ b' => policies_kept b b').
Proof.
  unfold policy_device. destruct is_i2c.
  - unfold runs, on_i2c, st_get. cbn [fst snd]. destruct b. by repeat split.
  - eapply runs_mono; [apply mdio_query_keeps|]. by intros r b' [_ Hk].
Qed.

Lemma snapshot_lengths is_i2c i2c mdio d b :
  lengths_unsigned b ->
  runs (policy_snapshot_of is_i2c i2c mdio d) b (fun r _ => forall s, snd r = Some s ->
    0 <= snap_white s /\ 0 <= snap_black s /\ is_i2c = (match s with SnapI2c _ => true | _ => false end)).
Proof.
  intros [Hi Hm]. unfold policy_snapshot_of. destruct is_i2c; apply runs_bind.
  - unfold runs at 1, on_i2c, bvstk_i2c_master_service_get_policy.
    destruct (service_status _ _ _); try (by apply runs_ret).
    unfold st_bind, st_get, st_ret, sink_enter, sink_leave, st_mod, p_policy.
    cbn [put_ext st_master st_policy st_devices st_cache st_ext fst snd].
    apply runs_ret. cbn [fst snd]. unfold bvstk_i2c_policy_get.
    destruct (sv_policy _); [|done]. destruct (I2cPolicy.policy_status _ _); try done.
    cbn [snd negb fmap option_fmap option_map]. intros s [= <-]. cbn [snap_white snap_black].
    by destruct (Hi d).
  - eapply runs_mono; [apply mdio_query_keeps|]. intros r b1 [[(st & _ & ->)| ->] _]; apply runs_ret; [done|].
    cbn [snd negb]. destruct (is_ok _); [|done]. intros s [= <-]. cbn [snap_white snap_black mp_whitelist_len mp_blacklist_len].
    by destruct (Hm d).
Qed.

Lemma alen_write_rules k s size b n i : alen (write_rules k s size b n i) = alen b.
Proof.
  revert b n i. induction k as [|k IH]; intros b n i; cbn [write_rules]; [done|]. rewrite IH.
  unfold write_rule, bvstk_dcp2_write_be16. by destruct s; rewrite !alen_aset.
Qed.

Lemma policy_reply_ok is_i2c s body cap :
  alen body = BVSTK_DCP2_MAX_PAYLOAD -> 0 <= snap_white s -> 0 <= snap_black s ->
  is_i2c = (match s with SnapI2c _ => true | _ => false end) ->
  let '(st, out, n) := policy_reply is_i2c s (Some body) cap in reply_ok (st, default body out, n).
Proof.
  intros Hl Hw Hb Hi. unfold policy_reply.
  destruct (_ || ((if is_i2c then I2C_CFG_RULES_MAX else MDIO_CFG_RULES_MAX) <? snap_black s)) eqn:E1;
    [by apply reply_empty|]. apply orb_false_iff in E1 as [E1 E2].
  destruct (_ || _) eqn:E3; [by apply reply_empty|]. clear E3. cbn [default id]. bsimp.
  unfold I2C_CFG_RULES_MAX, MDIO_CFG_RULES_MAX in *.
  split; [unfold bvstk_dcp2_write_be16; by rewrite alen_write_rules, !alen_aset|].
  split; [|done]. destruct is_i2c; rewrite u16_id; lia.
Qed.

Lemma process_policy_ok control rq body cap (b : board) :
  lengths_unsigned b -> alen body = BVSTK_DCP2_MAX_PAYLOAD ->
  runs (process_policy control rq body cap) b (fun r _ => reply_ok r).
Proof.
  intros Hb Hl. unfold process_policy. apply runs_bind.
  apply (runs_mono _ _ (fun r _ => let '(st, out, n) := r in reply_ok (st, default body out, n)));
    [|by intros [[st out] n] b'].
  unfold bvstk_dcp2_process_policy. cbn [negb].
  repeat match goal with |- runs (if ?c then st_ret _ else _) _ _ =>
    destruct c; [apply runs_ret; by apply reply_empty|] end.
  apply runs_bind. eapply runs_mono; [apply policy_device_kept|]. intros [st od] b1 Hk. cbn [fst snd].
  assert (lengths_unsigned b1) as Hb1.
  { destruct Hk as ((_ & _ & D & _) & M & _). unfold lengths_unsigned. by rewrite D, M. }
  destruct (is_ok st); cbn [negb]; [|apply runs_ret; by apply reply_empty].
  destruct (_ =? _).
  - apply runs_bind. eapply runs_mono; [by apply snapshot_lengths|]. intros [st' os] b2 Hs. cbn [snd] in Hs.
    destruct st', os as [s|]; try (apply runs_ret; by apply reply_empty).
    destruct (Hs s eq_refl) as (Hw & Hbl & Hi). apply runs_ret. by apply policy_reply_ok.
  - apply runs_bind. unfold runs at 1. apply runs_ret. by apply reply_empty.
Qed.

Lemma reply_sized st body n :
  alen body = BVSTK_DCP2_MAX_PAYLOAD -> 0 <= n <= 1029 -> st = BVSTK_OK -> reply_ok (st, body, n).
Proof. intros. by split. Qed.

Lemma mem_read_loop_alen n control address body i (b : board) :
  runs (mem_read_loop n control address body i) b (fun r _ => alen (snd r) = alen body).
Proof.
  revert body i b. induction n as [|n IH]; intros body i b; cbn [mem_read_loop]; [by apply runs_ret|].
  destruct (find_region _ _ _ _) as [[] [[r o]|]]; try by apply runs_ret.
  apply runs_bind. unfold runs at 1. destruct (is_ok _); cbn [negb]; [|by apply runs_ret].
  eapply runs_mono; [apply IH|]. intros res b' ->. unfold bvstk_dcp2_write_be32. by rewrite !alen_aset.
Qed.

Lemma process_mem_ok control rq body (b : board) :
  alen body = BVSTK_DCP2_MAX_PAYLOAD -> runs (process_mem control rq body 0) b (fun r _ => reply_ok r).
Proof.
  intros Hl. unfold process_mem. pose proof (mem_count_range rq) as Hc. fold (mem_count rq).
  destruct (_ <? 8); [apply runs_ret; by apply reply_empty|].
  destruct (_ || (256 <? mem_count rq)) eqn:Ec; [apply runs_ret; by apply reply_empty|].
  apply orb_false_iff in Ec as [_ Ec]. bsimp.
  destruct (_ =? BVSTK_DCP2_OP_MEM_READ).
  - destruct (_ || _); [apply runs_ret; by apply reply_empty|]. apply runs_bind.
    eapply runs_mono; [apply mem_read_loop_alen|]. intros [st body'] b1. cbn [fst snd]. intros Hl'.
    destruct (is_ok st); cbn [negb]; apply runs_ret; [|apply reply_empty; congruence].
    apply reply_sized; [congruence|rewrite u16_id; lia|done].
  - destruct (_ =? BVSTK_DCP2_OP_MEM_WRITE); [|apply runs_ret; by apply reply_empty].
    destruct (negb _); [apply runs_ret; by apply reply_empty|]. apply runs_bind. unfold runs at 1.
    destruct (is_ok _); cbn [negb]; apply runs_ret; by apply reply_empty.
Qed.

Lemma process_i2c_ok control rq body cap (b : board) :
  lengths_unsigned b -> alen body = BVSTK_DCP2_MAX_PAYLOAD ->
  runs (process_i2c control rq body cap 0) b (fun r _ => reply_ok r).
Proof.
  intros Hb Hl. unfold process_i2c. destruct (_ && _); [by apply process_policy_ok|].
  repeat match goal with |- runs (if ?c then st_ret _ else _) _ _ =>
    destruct c; [apply runs_ret; by apply reply_empty|] end.
  apply runs_bind. unfold runs at 1.
  destruct (negb (is_ok _)); [apply runs_ret; by apply reply_empty|].
  destruct (_ =? BVSTK_DCP2_OP_I2C_READ_REG).
  - destruct (negb _); [apply runs_ret; by apply reply_empty|]. apply runs_bind. unfold runs at 1.
    apply runs_ret. match goal with |- reply_ok (fst ?r, _, _) => destruct r as [st v] end. cbn [fst snd].
    assert (alen (match v with Some v => body.[0 <- v] | None => body end) = BVSTK_DCP2_MAX_PAYLOAD)
      by (destruct v; [by rewrite alen_aset|done]).
    destruct (is_ok st) eqn:Es; [|by apply reply_empty]. apply is_ok_true in Es. apply reply_sized; [done|lia|done].
  - destruct (_ =? BVSTK_DCP2_OP_I2C_WRITE_REG); [|apply runs_ret; by apply reply_empty].
    destruct (negb _); [apply runs_ret; by apply reply_empty|]. apply runs_bind. unfold runs at 1.
    apply runs_ret. by apply reply_empty.
Qed.

Lemma process_mdio_ok control rq body cap (b : board) :
  lengths_unsigned b -> alen body = BVSTK_DCP2_MAX_PAYLOAD ->
  runs (process_mdio control rq body cap 0) b (fun r _ => reply_ok r).
Proof.
  intros Hb Hl. unfold process_mdio. destruct (_ && _); [by apply process_policy_ok|].
  repeat match goal with |- runs (if ?c then st_ret _ else _) _ _ =>
    destruct c; [apply runs_ret; by apply reply_empty|] end.
  apply runs_bind. unfold runs at 1.
  destruct (negb (is_ok _)); [apply runs_ret; by apply reply_empty|].
  destruct (_ =? BVSTK_DCP2_OP_MDIO_READ).
  - destruct (negb _); [apply runs_ret; by apply reply_empty|]. apply runs_bind. unfold runs at 1.
    destruct (is_ok _) eqn:Es; apply runs_ret; [|by apply reply_empty]. apply is_ok_true in Es.
    apply reply_sized; [unfold bvstk_dcp2_write_be16; by rewrite !alen_aset|lia|done].
  - destruct (_ =? BVSTK_DCP2_OP_MDIO_WRITE); [|apply runs_ret; by apply reply_empty].
    destruct (negb _); [apply runs_ret; by apply reply_empty|]. apply runs_bind. unfold runs at 1.
    apply runs_ret. by apply reply_empty.
Qed.

(** What the adapter expects of the SPI driver: a block of 1 to 256 words is
    answered; [spi_transfer_returns] is the driver's side. *)
Definition spi_answers (fuel : nat) (b : board) : Prop :=
  forall tx rx n, 1 <= n <= 256 -> n <= alen tx -> n <= alen rx ->
    exists st rx', fst (bvstk_spi_core_transfer fuel (Some (bd_spi b)) (Some tx) n (Some rx) n 100 (bd_world b)) =
      Some (st, rx').

Lemma alen_store_rx rx count body : alen (store_rx rx count body) = alen body.
Proof.
  unfold store_rx. apply (for_each_ind (fun _ bd => alen bd = alen body)); [|done].
  intros i bd _ Hbd. unfold bvstk_dcp2_write_be32. by rewrite !alen_aset.
Qed.

Lemma alen_load_tx rq count tx : alen (load_tx rq count tx) = alen tx.
Proof.
  unfold load_tx. apply (for_each_ind (fun _ l => alen l = alen tx)); [|done].
  intros i l _ Hl. by rewrite alen_aset.
Qed.

Lemma process_spi_ok fuel tx rx control rq body (b : board) :
  (absent api_spi control = false -> spi_answers fuel b) -> alen body = BVSTK_DCP2_MAX_PAYLOAD ->
  alen tx = 256 -> alen rx = 256 ->
  runs (process_spi fuel tx rx control rq body 0) b (fun o _ => exists r, o = Some r /\ reply_ok r).
Proof.
  intros Hspi Hl Htx Hrx. unfold process_spi.
  destruct (absent _ _) eqn:Ea; [apply runs_ret; eexists; split; [done|by apply reply_empty]|].
  destruct (_ || _); [apply runs_ret; eexists; split; [done|by apply reply_empty]|].
  assert (0 <= bvstk_dcp2_read_be16 (rq_body rq) 0) as Hc
    by (unfold bvstk_dcp2_read_be16; destruct (rq_body rq); [apply u16_range|lia]).
  set (count := bvstk_dcp2_read_be16 (rq_body rq) 0) in *.
  destruct (_ || negb _) eqn:E; [apply runs_ret; eexists; split; [done|by apply reply_empty]|].
  apply orb_false_iff in E as [E _]. apply orb_false_iff in E as [E0 E256]. bsimp.
  apply runs_bind. unfold runs at 1, bvstk_control_spi_transfer. rewrite Ea. unfold on_spi.
  destruct (Hspi eq_refl (load_tx rq count tx) rx count ltac:(lia) ltac:(rewrite alen_load_tx; lia) ltac:(lia)) as (st & rx' & Hr).
  destruct (bvstk_spi_core_transfer _ _ _ _ _ _ _ _) as [o x]. cbn [fst] in *. subst o.
  destruct (is_ok st); cbn [negb]; apply runs_ret; (eexists; split; [done|]); [|by apply reply_empty].
  apply reply_sized; [by rewrite alen_store_rx|rewrite u16_id; lia|done].
Qed.

Lemma dispatch_ok fuel tx rx control rq body cap (b : board) :
  lengths_unsigned b -> alen body = BVSTK_DCP2_MAX_PAYLOAD -> alen tx = 256 -> alen rx = 256 ->
  (rq_service rq = BVSTK_DCP2_SERVICE_SPI -> absent api_spi control = false -> spi_answers fuel b) ->
  runs (dispatch fuel tx rx control rq body cap) b (fun o _ => exists r, o = Some r /\ reply_ok r).
Proof.
  intros Hb Hl Htx Hrx Hspi. unfold dispatch. assert (forall m : ST board reply, runs m b (fun r _ => reply_ok r) ->
    runs (let! r := m in st_ret (Some r)) b (fun o _ => exists r, o = Some r /\ reply_ok r)) as Hlift.
  { intros m Hm. apply runs_bind. eapply runs_mono; [exact Hm|]. intros r b' Hr. apply runs_ret. by exists r. }
  destruct (_ && _); [apply runs_ret; eexists; split; [done|by apply reply_empty]|].
  destruct (_ =? _); [by apply Hlift, process_mem_ok|].
  destruct (_ =? _); [by apply Hlift, process_i2c_ok|].
  destruct (_ =? _); [by apply Hlift, process_mdio_ok|].
  destruct (_ =? _) eqn:Es; [bsimp; by apply process_spi_ok; auto|].
  apply runs_ret. eexists. split; [done|by apply reply_empty].
Qed.

(** C21: Every decoded request is answered.  The handler always finishes, its
    result has at most 1029 bytes and none unless it succeeded, and the caller
    gets one well-formed response frame with the request's service, opcode and
    sequence number, the status and the result; -1 is returned only when that
    frame is longer than the caller's buffer, so never with 1043 bytes. *)
Theorem dcp2_request_answered fuel tx rx stack_body rq frame capacity b :
  lengths_unsigned b -> alen stack_body = BVSTK_DCP2_MAX_PAYLOAD -> alen tx = 256 -> alen rx = 256 ->
  (rq_service rq = BVSTK_DCP2_SERVICE_SPI -> api_spi api = true -> spi_answers fuel b) ->
  0 <= rq_opcode rq < 64 -> fits 16 (rq_sequence rq) -> 14 <= capacity <= alen frame ->
  runs (bvstk_dcp2_process_request fuel stack_body tx rx (Some api) (Some rq) (Some frame) capacity) b
    (fun o _ => exists st result,
      alen result <= 1029 /\ (result <> [] -> st = BVSTK_OK) /\
      if 14 + alen result <=? capacity then
        exists frame', o = Some (Some (frame', 14 + alen result)) /\ alen frame' = alen frame /\
          drop (Z.to_nat (14 + alen result)) frame' = drop (Z.to_nat (14 + alen result)) frame /\
          prefix (14 + alen result) frame' =
            response_frame (rq_service rq) (rq_opcode rq) (rq_sequence rq) (bvstk_dcp2_status_from_bvstk st) result
      else o = Some None).
Proof.
  intros Hb Hl Htx Hrx Hspi Hop Hseq Hcap. unfold bvstk_dcp2_process_request.
  rewrite (proj2 (Z.ltb_ge capacity 14)) by lia. apply runs_bind.
  eapply runs_mono; [apply dispatch_ok; [done..|]|].
  { intros Hs Ha. apply Hspi; [done|]. unfold absent in Ha. by apply negb_false_iff in Ha. }
  intros o b' ([[st body] n] & -> & Hbl & Hn & Hok). apply runs_ret.
  assert (alen (prefix n body) = n) as Hpn by (apply alen_prefix; unfold BVSTK_DCP2_MAX_PAYLOAD in Hbl; lia).
  exists st, (prefix n body). rewrite Hpn. split; [lia|]. split.
  { intros Hne. apply Hok. intros ->. by apply Hne. }
  assert (default [] (if n =? 0 then None else Some body) = body \/ n = 0) as Hd
    by (destruct (n =? 0) eqn:E; bsimp; auto).
  destruct (14 + n <=? capacity) eqn:E; bsimp.
  - destruct (encode_response_spec frame capacity rq (bvstk_dcp2_status_from_bvstk st)
      (if n =? 0 then None else Some body) n) as (f' & Hf & Hlf & Hdf & Hpf); try (done || lia).
    + destruct st; done.
    + unfold BVSTK_DCP2_MAX_PAYLOAD in Hbl. destruct (n =? 0) eqn:E0; bsimp; [by left|right]. exists body. split; [done|lia].
    + exists f'. rewrite Hf. split; [done|]. split; [done|]. split; [done|]. rewrite Hpf.
      destruct Hd as [->| ->]; done.
  - unfold bvstk_dcp2_encode_response.
    destruct (negb (n =? 0) && _); [done|].
    unfold BVSTK_DCP2_MIN_PAYLOAD, BVSTK_DCP2_HEADER_SIZE. rewrite u16_id by lia.
    rewrite (proj2 (Z.ltb_lt capacity _)) by lia. by rewrite orb_true_r.
Qed.

(** ** SPI replies *)

Lemma store_rx_prefix rx count body :
  0 <= count -> count * 4 <= alen body -> count <= alen rx ->
  prefix (count * 4) (store_rx rx count body) = concat ((fun v => be32 (u32 v)) <$> prefix count rx).
Proof.
  intros Hc Hl Hr. unfold store_rx.
  pose proof (for_each_ind (fun k bd => alen bd = alen body /\
    prefix (k * 4) bd = concat ((fun v => be32 (u32 v)) <$> prefix k rx)) (Z.to_nat count) 0
    (fun i bd => bvstk_dcp2_write_be32 bd (i * 4) (rx.[i])) body) as Hind.
  rewrite Z2Nat.id, Z.add_0_l in Hind by lia. apply Hind; [|by split].
  intros i bd Hi [Ha Hp]. destruct (write_be32_prefix bd (i * 4) (rx.[i]) ltac:(lia) ltac:(lia)) as [Hp' Ha'].
  split; [lia|]. replace ((i + 1) * 4) with (i * 4 + 4) by lia. rewrite Hp', Hp, prefix_snoc_get by lia.
  rewrite fmap_app, concat_app. cbn [fmap list_fmap concat]. by rewrite app_nil_r.
Qed.

Context (log : X -> list io) (time : X -> Z).

(** A driver that is open and whose clock runs answers the adapter. *)
Lemma spi_open_answers fuel (b : board) `{HT : !Traced (Some (sp_clock (bd_spi b))) log time} :
  spi_core_open (bd_spi b) -> spi_quiet_mutex (bd_spi b) log -> 100 < Z.of_nat fuel -> spi_answers fuel b.
Proof.
  intros Hop Hq Hf tx rx n Hn Htx Hrx.
  assert (n <= BVSTK_SPI_MAX_WORDS) by (unfold BVSTK_SPI_MAX_WORDS; lia).
  destruct (spi_transfer_returns (bd_spi b) log time Hop fuel tx n rx 100 (bd_world b)) as (st & rx' & Hr);
    [done|lia|done|done|lia|done|]. by exists st, (Some rx').
Qed.

(** An SPI request with 1 to 256 words is always answered.  While the driver
    is configured not to read, a successful reply carries one word per word sent
    although none was received: the words are what the handler's own receive
    array held before the call. *)
Theorem dcp2_spi_unread_reply fuel tx rx rq body (b : board)
    `{HT : !Traced (Some (sp_clock (bd_spi b))) log time} :
  spi_core_open (bd_spi b) -> spi_quiet_mutex (bd_spi b) log -> 100 < Z.of_nat fuel ->
  api_spi api = true -> read_enable (sp_config (bd_spi b)) = false ->
  alen body = BVSTK_DCP2_MAX_PAYLOAD -> alen tx = 256 -> alen rx = 256 ->
  rq_opcode rq = BVSTK_DCP2_OP_SPI_TRANSFER ->
  let count := bvstk_dcp2_read_be16 (rq_body rq) 0 in
  1 <= count <= 256 -> rq_body_size rq = 2 + count * 4 ->
  runs (process_spi fuel tx rx (Some api) rq body 0) b (fun o _ => exists st body' n,
    o = Some (st, body', n) /\
    (st = BVSTK_OK -> n = count * 4 /\ prefix n body' = concat ((fun v => be32 (u32 v)) <$> prefix count rx)) /\
    (st <> BVSTK_OK -> n = 0)).
Proof.
  intros Hop Hq Hf Hapi Hre Hl Htx Hrx Hopc count Hc Hsz. unfold process_spi, absent. rewrite Hapi, Hopc, Hsz. fold count.
  cbn [negb]. rewrite Z.eqb_refl, (proj2 (Z.ltb_ge _ 2)), (proj2 (Z.eqb_neq count 0)), (proj2 (Z.ltb_ge 256 _)), u16_id, Z.eqb_refl by lia.
  cbn [negb orb]. apply runs_bind. unfold runs at 1, bvstk_control_spi_transfer, absent. rewrite Hapi. cbn [negb]. unfold on_spi.
  assert (count <= BVSTK_SPI_MAX_WORDS) by (unfold BVSTK_SPI_MAX_WORDS; lia).
  pose proof (spi_transfer_run (bd_spi b) log time Hop fuel (load_tx rq count tx) count (Some rx) count 100 (bd_world b)) as Hrun.
  destruct Hrun as (st & rx' & l & Ho & _ & Hm);
    [done|lia|rewrite alen_load_tx; lia|lia|intros ? [= <-]; lia|lia|done|].
  unfold runs in Ho. destruct (bvstk_spi_core_transfer _ _ _ _ _ _ _ _) as [o x]. cbn [fst snd] in *. subst o.
  destruct (is_ok st) eqn:Es; cbn [negb]; apply runs_ret; eexists _, _, _; (split; [done|]).
  - split; [|done]. intros _. rewrite u16_id by lia. split; [done|].
    assert (rx' = Some rx) as ->.
    { destruct (fst (bvstk_mutex_lock _ _ _)); [|by destruct Hm as (_ & -> & _)..].
      destruct Hm as (w & r & _ & Hrec & _). destruct Hrec; congruence. }
    apply store_rx_prefix; unfold BVSTK_DCP2_MAX_PAYLOAD in Hl; cbn [default id]; lia.
  - split; [|done]. by apply is_ok_false in Es.
Qed.
End dcp2.

(** ** A concrete board *)

#[local] Instance demo_board_hw : I2cMasterHw (list io * Z) unit := {|
  hw_initialized := fun _ _ => true;
  bvstk_i2c_master_hw_read_reg := fun _ _ _ _ x => ((BVSTK_OK, 9), x);
  bvstk_i2c_master_hw_write_reg := fun _ _ _ _ _ x => (BVSTK_OK, x)
|}.
#[local] Instance demo_board_mdio : MdioHw (list io * Z) unit := {|
  hw_mdio_read := fun _ _ _ _ x => ((BVSTK_OK, 0), x);
  hw_mdio_write := fun _ _ _ _ _ x => (BVSTK_OK, x);
  hw_mdio_take_write := fun _ _ _ x => ((BVSTK_ERR_NOT_FOUND, 0), x);
  hw_mdio_publish := fun _ _ _ _ x => (BVSTK_OK, x);
  hw_mdio_ack_slave := fun _ x => (BVSTK_OK, x);
  hw_mdio_prepare_slave := fun _ x => (BVSTK_OK, x)
|}.
#[local] Instance demo_board_platform : Platform (list io * Z) := scripted_platform demo_spi_bus.

Definition demo_board_store : i2c_store (list io * Z) unit :=
  I2cStore (Devices (mux_device :: fill 31 zero_device) 1 1)
    (Cache no_sink zero_table zero_table zero_table zero_table 1 1) demo_policy
    (MasterService (Some tt) no_io true true true (EventSink None) None (fill I2C_CFG_MAX_DEVICES 0) 1)
    ([], 0).
Definition demo_board : board (list io * Z) unit unit :=
  Board demo_board_store zero_mdio_service zero_pl_service
    (with_config (SpiConfig 2 100 8 false) demo_spi_core).
Definition demo_api : bvstk_control_api_t := ControlApi true true true true.
Definition demo_body : list Z := fill BVSTK_DCP2_MAX_PAYLOAD 0xA5.

Lemma demo_board_store_wf : store_wf demo_board_store.
Proof.
  split; [|split; [apply demo_policy_wf|split; [by apply zero_cache_wf|split; [done|]]]].
  - split; [done|]. split; [done|]. split; [done|]. intros i Hi. cbn in Hi.
    assert (i = 0) as -> by lia. done.
  - intros _. done.
Qed.

(** Three words from the last word of the I2C memory window: the second is outside. *)
Lemma dcp2_mem_confined_witness :
  let rq := Dcp2Request 1 1 7 (Some [0; 32; 0x40; 0; 0x2F; 0xFC; 0; 3; 0; 0; 0; 1; 0; 0; 0; 2; 0; 0; 0; 3]) 20 in
  let '(status, _, _) := fst (process_mem (Some demo_api) rq demo_body 0 demo_board) in
  status = BVSTK_ERR_RANGE /\
  fst (bd_world (snd (process_mem (Some demo_api) rq demo_body 0 demo_board))) = [Wr 0x40002FFC 1].
Proof.
  pose proof (dcp2_mem_confined demo_api ltac:(done)
    (Dcp2Request 1 1 7 (Some [0; 32; 0x40; 0; 0x2F; 0xFC; 0; 3; 0; 0; 0; 1; 0; 0; 0; 2; 0; 0; 0; 3]) 20)
    demo_body demo_board zero_pl_wf ltac:(done) ltac:(cbn; lia)) as Heff.
  unfold runs in Heff. cbv zeta.
  destruct (process_mem _ _ _ _ demo_board) as [[[st bd] n] b']. cbn [fst snd] in *.
  destruct Heff as [-> Heff]. split; [done|].
  destruct Heff as [_ Heff]. rewrite (only_pl_world _ _ _ Heff). vm_compute. done.
Defined.

Lemma dcp2_policy_get_roundtrip_witness :
  exists body' n, fst (bvstk_dcp2_process_policy true true (Some (policy_get_request true 0x70 5)) (Some demo_body) 4090 true
      demo_board) = (BVSTK_OK, Some body', n) /\
    read_policy 2 (prefix n body') = (0, [(1, 2, 0); (3, 4, 0); (1, 2, 0)], []).
Proof.
  destruct (dcp2_policy_get_roundtrip true 0x70 5 0 demo_body 4090 demo_board) as (body' & n & Hr & _ & Hp & _).
  - split; [apply demo_board_store_wf|]. split; [lia|]. vm_compute. done.
  - assert (device_policy true demo_board 0 = (0, [(1, 2, 0); (3, 4, 0); (1, 2, 0)], [])) as -> by (vm_compute; done).
    split; [done|]. repeat constructor; done.
  - done.
  - lia.
  - exists body', n. split; [exact Hr|]. rewrite Hp. vm_compute. done.
Defined.

Lemma demo_lengths : lengths_unsigned demo_board.
Proof.
  assert (forall (P : bvstk_i2c_policy_entry_t -> bool) (l : list bvstk_i2c_policy_entry_t) d,
    forallb P l = true -> P inhabitant = true -> P (l.[d]) = true) as Hall.
  { intros P l d Hf Hi. unfold aget. rewrite list_lookup_total_alt.
    destruct (l !! Z.to_nat d) as [e|] eqn:E; [|done]. rewrite forallb_forall in Hf.
    apply Hf, list_elem_of_In. by eapply list_elem_of_lookup_2. }
  split; intros d.
  - assert (((0 <=? pe_whitelist_len ((pol_items demo_policy).[d])) &&
      (0 <=? pe_blacklist_len ((pol_items demo_policy).[d]))) = true) as Hd.
    { apply (Hall (fun e => (0 <=? pe_whitelist_len e) && (0 <=? pe_blacklist_len e)));
        vm_compute; done. }
    apply andb_true_iff in Hd as [H1 H2]. apply Z.leb_le in H1, H2. done.
  - cbn [bd_mdio demo_board]. unfold MdioService.device, zero_mdio_service. cbn [md_devices].
    assert ((fill MDIO_CFG_MAX_DEVICES zero_mdio_config).[d] = zero_mdio_config) as ->; [|done].
    unfold aget, fill. rewrite list_lookup_total_alt. destruct (replicate _ _ !! _) as [c|] eqn:E; [|done].
    by apply lookup_replicate in E as [-> _].
Qed.

Lemma dcp2_request_answered_witness :
  exists frame' n, fst (bvstk_dcp2_process_request 0 demo_body (fill 256 0) (fill 256 0) (Some demo_api)
      (Some (Dcp2Request 0 0 9 (Some []) 0)) (Some (fill 1043 0)) 1043 demo_board) = Some (Some (frame', n)) /\
    prefix 4 frame' = [68; 67; 80; 50] /\ 14 <= n <= 1043.
Proof.
  destruct (dcp2_request_answered demo_api 0 (fill 256 0) (fill 256 0) demo_body (Dcp2Request 0 0 9 (Some []) 0)
    (fill 1043 0) 1043 demo_board demo_lengths) as (st & result & Hl & _ & Hr); try (split; vm_compute; done); try done.
  pose proof (alen_nonneg result). rewrite (proj2 (Z.leb_le _ _)) in Hr by lia.
  destruct Hr as (frame' & Hr & Hlf & _ & Hp). exists frame', (14 + alen result). split; [exact Hr|]. split; [|lia].
  assert (prefix 4 (prefix (14 + alen result) frame') = prefix 4 frame') as <-
    by (unfold prefix; rewrite take_take; f_equal; lia).
  by rewrite Hp.
Defined.

(** A two-word transfer by a driver that does not read: the reply is stack contents. *)
Lemma dcp2_spi_unread_reply_witness :
  exists body', fst (process_spi 101 (fill 256 0) (0xDEAD :: 0xBEEF :: fill 254 0) (Some demo_api)
      (Dcp2Request 4 0 9 (Some [0; 2; 0; 0; 0; 7; 0; 0; 0; 8]) 10) demo_body 0 demo_board) = Some (BVSTK_OK, body', 8) /\
    prefix 8 body' = [0; 0; 0xDE; 0xAD; 0; 0; 0xBE; 0xEF].
Proof.
  destruct (dcp2_spi_unread_reply demo_api fst snd 101 (fill 256 0)
    (0xDEAD :: 0xBEEF :: fill 254 0) (Dcp2Request 4 0 9 (Some [0; 2; 0; 0; 0; 7; 0; 0; 0; 8]) 10) demo_body demo_board
    (HT := scripted_traced demo_spi_bus)) as (st & body' & n & Hr & Hok & _); try done.
  assert (Some BVSTK_OK = Some st) as [= <-]
    by (etransitivity; [|exact (f_equal (option_map (fun r : reply => fst (fst r))) Hr)]; vm_compute; done).
  destruct (Hok eq_refl) as [-> Hp]. exists body'. split; [exact Hr|]. etransitivity; [exact Hp|]. vm_compute. done.
Defined.
