(* ===== verification/CacheRegistry.v ===== *)
(** * CacheRegistry: the register catalogue and its change journal

    [src/src/services/cache/bvstk_cache.c]: a registry of devices, each a
    catalogue of named resources with their last known values, and one journal
    of changes for all of them.  A client takes a snapshot and then follows the
    journal from the cursor it got with it.

    The state is the registry and the world its guard and its describe callback
    reach.  A string argument is the buffer behind the pointer, [None] for NULL. *)
From stdpp Require Import prelude.
From Stdlib Require Import ZArith Lia.
From S2P Require Import Prelude Platform.
Local Open Scope Z_scope.

Definition BVSTK_CACHE_DEVICES_MAX : Z := 48.
Definition BVSTK_CACHE_RESOURCES_MAX : Z := 256.
Definition BVSTK_CACHE_NAME_MAX : Z := 32.
Definition BVSTK_CACHE_JOURNAL_SIZE : Z := 512.
Definition BVSTK_CACHE_SOURCE_UNKNOWN : Z := 0.
Definition BVSTK_CACHE_SOURCE_SETTINGS : Z := 1.
Definition BVSTK_CACHE_SOURCE_DEVICE : Z := 2.
Definition BVSTK_CACHE_PRESENCE_UNKNOWN : Z := 0.
Definition BVSTK_CACHE_PRESENCE_READY : Z := 1.
Definition BVSTK_CACHE_PRESENCE_UNAVAILABLE : Z := 2.
Definition BVSTK_CACHE_CHANGE : Z := 1.
Definition BVSTK_CACHE_PRESENCE : Z := 2.
Definition BVSTK_CACHE_LOST : Z := 1.
Definition BVSTK_CACHE_RECONFIGURED : Z := 2.
Definition BVSTK_CACHE_EXPIRED : Z := 3.

Record bvstk_cache_entry_t := CatEntry {
  en_id : list Z;
  en_value : Z;
  en_updated_ms : Z;
  en_width_bits : Z;
  en_valid : Z;
  en_source : Z
}.
Definition zero_cat_entry : bvstk_cache_entry_t := CatEntry (fill BVSTK_CACHE_NAME_MAX 0) 0 0 0 0 0.
#[export] Instance cat_entry_inhabited : Inhabited bvstk_cache_entry_t := populate zero_cat_entry.

Record bvstk_cache_snapshot_t := Snapshot {
  sn_subsystem : list Z;
  sn_device : list Z;
  sn_generation : Z;
  sn_revision : Z;
  sn_captured_ms : Z;
  sn_count : Z;
  sn_presence : Z;
  sn_entries : list bvstk_cache_entry_t
}.
Definition zero_snapshot : bvstk_cache_snapshot_t :=
  Snapshot (fill BVSTK_CACHE_NAME_MAX 0) (fill BVSTK_CACHE_NAME_MAX 0) 0 0 0 0 0
    (fill BVSTK_CACHE_RESOURCES_MAX zero_cat_entry).
#[export] Instance snapshot_inhabited : Inhabited bvstk_cache_snapshot_t := populate zero_snapshot.

Record bvstk_cache_change_t := Change {
  ch_serial : Z;
  ch_revision : Z;
  ch_time_ms : Z;
  ch_generation : Z;
  ch_handle : Z;
  ch_kind : Z;
  ch_presence : Z;
  ch_entry : bvstk_cache_entry_t
}.
Definition zero_change : bvstk_cache_change_t := Change 0 0 0 0 0 0 0 zero_cat_entry.
#[export] Instance change_inhabited : Inhabited bvstk_cache_change_t := populate zero_change.

Section registry.
Context {X : Type}.

Record bvstk_cache_guard_t := Guard {
  gd_enter : option (X -> X);
  gd_leave : option (X -> X)
}.

Record bvstk_cache_registry_t := Registry {
  rg_guard : bvstk_cache_guard_t;
  rg_generation : Z;
  rg_head : Z;
  rg_devices : list bvstk_cache_snapshot_t;
  rg_staging : bvstk_cache_snapshot_t;
  rg_journal : list bvstk_cache_change_t
}.

Record cache_state := CacheState { cs_reg : bvstk_cache_registry_t; cs_ext : X }.

Definition set_devices (v : list bvstk_cache_snapshot_t) (r : bvstk_cache_registry_t) : bvstk_cache_registry_t :=
  Registry (rg_guard r) (rg_generation r) (rg_head r) v (rg_staging r) (rg_journal r).
Definition set_staging (v : bvstk_cache_snapshot_t) (r : bvstk_cache_registry_t) : bvstk_cache_registry_t :=
  Registry (rg_guard r) (rg_generation r) (rg_head r) (rg_devices r) v (rg_journal r).

(** [enter] and [leave]. *)
Definition enter : ST cache_state unit := st_mod (fun w =>
  match gd_enter (rg_guard (cs_reg w)) with Some f => CacheState (cs_reg w) (f (cs_ext w)) | None => w end).
Definition leave : ST cache_state unit := st_mod (fun w =>
  match gd_leave (rg_guard (cs_reg w)) with Some f => CacheState (cs_reg w) (f (cs_ext w)) | None => w end).

(** The state accesses between the two. *)
Definition reg {A} (f : bvstk_cache_registry_t -> A) : ST cache_state A := st_get (fun w => f (cs_reg w)).
Definition edit (f : bvstk_cache_registry_t -> bvstk_cache_registry_t) : ST cache_state unit :=
  st_mod (fun w => CacheState (f (cs_reg w)) (cs_ext w)).

Definition name_char (c : Z) : bool :=
  ((97 <=? c) && (c <=? 122)) || ((65 <=? c) && (c <=? 90)) || ((48 <=? c) && (c <=? 57)) ||
  (c =? 95) || (c =? 45) || (c =? 46).

(** [for (n = i; n < i + k; ++n)]: true at a terminator, false at a character
    that is not allowed or at the end. *)
Fixpoint name_scan (k : nat) (s : list Z) (i : Z) : bool :=
  match k with
  | O => false
  | S k =>
      if s.[i] =? 0 then true
      else if negb (name_char (s.[i])) then false
      else name_scan k s (i + 1)
  end.

Definition name_valid (s : option (list Z)) : bool :=
  match s with
  | None => false
  | Some s => if s.[0] =? 0 then false else name_scan (Z.to_nat BVSTK_CACHE_NAME_MAX) s 0
  end.

Definition normalize (e : bvstk_cache_entry_t) : bvstk_cache_entry_t :=
  if en_valid e =? 0 then CatEntry (en_id e) 0 0 (en_width_bits e) (en_valid e) BVSTK_CACHE_SOURCE_UNKNOWN
  else CatEntry (en_id e) (en_value e) (en_updated_ms e) (en_width_bits e) 1 (en_source e).

(** [None] is NULL; a handle is the index plus one. *)
Definition device (r : bvstk_cache_registry_t) (handle : Z) : option bvstk_cache_snapshot_t :=
  if negb (handle =? 0) && (handle <=? BVSTK_CACHE_DEVICES_MAX) &&
     negb (sn_generation ((rg_devices r).[handle - 1]) =? 0)
  then Some ((rg_devices r).[handle - 1]) else None.

(** A store into the device of [handle]. *)
Definition put_device (handle : Z) (d : bvstk_cache_snapshot_t) (r : bvstk_cache_registry_t) : bvstk_cache_registry_t :=
  set_devices ((rg_devices r).[handle - 1 <- d]) r.

Definition with_revision (v : Z) (d : bvstk_cache_snapshot_t) : bvstk_cache_snapshot_t :=
  Snapshot (sn_subsystem d) (sn_device d) (sn_generation d) v (sn_captured_ms d) (sn_count d) (sn_presence d) (sn_entries d).
Definition with_presence (v : Z) (d : bvstk_cache_snapshot_t) : bvstk_cache_snapshot_t :=
  Snapshot (sn_subsystem d) (sn_device d) (sn_generation d) (sn_revision d) (sn_captured_ms d) (sn_count d) v (sn_entries d).
Definition with_entries (v : list bvstk_cache_entry_t) (d : bvstk_cache_snapshot_t) : bvstk_cache_snapshot_t :=
  Snapshot (sn_subsystem d) (sn_device d) (sn_generation d) (sn_revision d) (sn_captured_ms d) (sn_count d) (sn_presence d) v.
Definition with_captured (v : Z) (d : bvstk_cache_snapshot_t) : bvstk_cache_snapshot_t :=
  Snapshot (sn_subsystem d) (sn_device d) (sn_generation d) (sn_revision d) v (sn_count d) (sn_presence d) (sn_entries d).

(** [append (r, handle, d, kind, entry, time)] for the device [d] of [handle]. *)
Definition append (handle : Z) (d : bvstk_cache_snapshot_t) (kind : Z) (entry : option bvstk_cache_entry_t) (time : Z)
    (r : bvstk_cache_registry_t) : bvstk_cache_registry_t :=
  let head := u64 (rg_head r + 1) in
  let revision := u64 (sn_revision d + 1) in
  let c := Change head revision time (sn_generation d) handle (u8 kind) (sn_presence d) (default zero_cat_entry entry) in
  put_device handle (with_revision revision d)
    (Registry (rg_guard r) (rg_generation r) head (rg_devices r) (rg_staging r)
       ((rg_journal r).[rg_head r mod BVSTK_CACHE_JOURNAL_SIZE <- c])).

Definition bvstk_cache_init (guard : option bvstk_cache_guard_t) : bvstk_cache_registry_t :=
  Registry (default (Guard None None) guard) 0 0 (fill BVSTK_CACHE_DEVICES_MAX zero_snapshot) zero_snapshot
    (fill BVSTK_CACHE_JOURNAL_SIZE zero_change).

(** ** Definition of a device *)

(** One step of the search for a slot: the free slot so far, and the refusal of
    a name another device has. *)
Definition slot_step (r : bvstk_cache_registry_t) (handle : Z) (subsystem name : list Z) (i slot : Z)
    : Z * option bvstk_status_t :=
  let d := (rg_devices r).[i] in
  let slot := if (sn_generation d =? 0) && (slot =? BVSTK_CACHE_DEVICES_MAX) then i else slot in
  if negb (sn_generation d =? 0) && negb (i + 1 =? handle) && streq (sn_subsystem d) subsystem &&
     streq (sn_device d) name
  then (slot, Some BVSTK_ERR_DENIED) else (slot, None).

(** The entry is refused. *)
Definition entry_bad (a : bvstk_cache_entry_t) : bool :=
  negb (name_valid (Some (en_id a))) || (en_width_bits a =? 0) || (64 <? en_width_bits a) ||
  (BVSTK_CACHE_SOURCE_DEVICE <? en_source a) ||
  (negb (en_valid a =? 0) && (en_width_bits a <? 64) && negb (Z.shiftr (en_value a) (en_width_bits a) =? 0)).

(** One described resource, into the staging entries. *)
Definition describe_step (describe : Z -> bvstk_cache_entry_t -> X -> bvstk_cache_entry_t * X) (i : Z)
    (s : list bvstk_cache_entry_t * X) : (list bvstk_cache_entry_t * X) * option bvstk_status_t :=
  let '(entries, x) := s in
  let '(a, x) := describe i (entries.[i]) x in
  let entries := entries.[i <- a] in
  if entry_bad a then ((entries, x), Some BVSTK_ERR_MALFORMED)
  else if bool_decide (is_Some (for_find (Z.to_nat i) 0 (fun j => streq (en_id a) (en_id (entries.[j])))))
  then ((entries, x), Some BVSTK_ERR_MALFORMED)
  else ((entries.[i <- normalize a], x), None).

(** [strcpy] into a zeroed name buffer. *)
Definition strcpy_name (s : list Z) : list Z := let c := cstr s in c ++ fill (BVSTK_CACHE_NAME_MAX - alen c) 0.

Definition next_generation (g : Z) : Z := let g := u32 (g + 1) in if g =? 0 then u32 (g + 1) else g.

(** The part under the guard: the status, and what [*handle] becomes. *)
Definition define_locked (handle : Z) (subsystem name : list Z) (count presence : Z)
    (describe : Z -> bvstk_cache_entry_t -> X -> bvstk_cache_entry_t * X) : ST cache_state (bvstk_status_t * Z) := fun w =>
  let r := cs_reg w in
  if negb (handle =? 0) && negb (bool_decide (is_Some (device r handle))) then ((BVSTK_ERR_NOT_FOUND, handle), w)
  else
    let slot := if negb (handle =? 0) then handle - 1 else BVSTK_CACHE_DEVICES_MAX in
    match for_loop (Z.to_nat BVSTK_CACHE_DEVICES_MAX) 0 (slot_step r handle subsystem name) slot with
    | (_, Some status) => ((status, handle), w)
    | (slot, None) =>
        if slot =? BVSTK_CACHE_DEVICES_MAX then ((BVSTK_ERR_BUSY, handle), w)
        else
          match for_loop (Z.to_nat count) 0 (describe_step describe)
                  (fill BVSTK_CACHE_RESOURCES_MAX zero_cat_entry, cs_ext w) with
          | ((entries, x), Some status) =>
              ((status, handle), CacheState (set_staging (with_entries entries zero_snapshot) r) x)
          | ((entries, x), None) =>
              let generation := next_generation (rg_generation r) in
              let d := Snapshot (strcpy_name subsystem) (strcpy_name name) generation 0 0 (u16 count) (u8 presence) entries in
              ((BVSTK_OK, u16 (slot + 1)),
               CacheState (Registry (rg_guard r) generation (rg_head r) ((rg_devices r).[slot <- d])
                             (with_entries entries zero_snapshot) (rg_journal r)) x)
          end
    end.

(** [registry] and [handle] are false and [None] for NULL pointers; the second
    result is what [*handle] holds afterwards. *)
Definition bvstk_cache_define (registry : bool) (handle : option Z) (subsystem name : option (list Z))
    (count presence : Z) (describe : option (Z -> bvstk_cache_entry_t -> X -> bvstk_cache_entry_t * X))
    : ST cache_state (bvstk_status_t * option Z) :=
  match handle, subsystem, name, describe with
  | Some h, Some ss, Some nm, Some f =>
      if negb registry || negb (name_valid subsystem) || negb (name_valid name) ||
         (BVSTK_CACHE_RESOURCES_MAX <? count) || (BVSTK_CACHE_PRESENCE_UNAVAILABLE <? presence)
      then st_ret (BVSTK_ERR_MALFORMED, handle)
      else
        enter ;;
        let! o := define_locked h ss nm count presence f in
        leave ;;
        st_ret (fst o, Some (snd o))
  | _, _, _, _ => st_ret (BVSTK_ERR_MALFORMED, handle)
  end.

(** ** Updates *)

Definition bvstk_cache_put (handle index value valid source updated_ms now_ms : Z) : ST cache_state bvstk_status_t :=
  enter ;;
  let! d := reg (fun r => device r handle) in
  let! result :=
    match d with
    | None => st_ret BVSTK_ERR_NOT_FOUND
    | Some d =>
        let e := (sn_entries d).[index] in
        if (sn_count d <=? index) || (BVSTK_CACHE_SOURCE_DEVICE <? source) ||
           (negb (valid =? 0) && (en_width_bits e <? 64) && negb (Z.shiftr value (en_width_bits e) =? 0))
        then st_ret BVSTK_ERR_RANGE
        else if (valid =? 0) && (en_valid e =? 0) then st_ret BVSTK_OK
        else
          let e := normalize (CatEntry (en_id e) value updated_ms (en_width_bits e) (Z.b2z (negb (valid =? 0))) (u8 source)) in
          edit (append handle (with_entries ((sn_entries d).[index <- e]) d) BVSTK_CACHE_CHANGE (Some e) now_ms) ;;
          st_ret BVSTK_OK
    end in
  leave ;; st_ret result.

Definition bvstk_cache_presence (handle presence now_ms : Z) : ST cache_state bvstk_status_t :=
  enter ;;
  let! d := reg (fun r => device r handle) in
  let! result :=
    match d with
    | None => st_ret BVSTK_ERR_NOT_FOUND
    | Some d =>
        if BVSTK_CACHE_PRESENCE_UNAVAILABLE <? presence then st_ret BVSTK_ERR_RANGE
        else if negb (sn_presence d =? presence) then
          edit (append handle (with_presence (u8 presence) d) BVSTK_CACHE_PRESENCE None now_ms) ;;
          st_ret BVSTK_OK
        else st_ret BVSTK_OK
    end in
  leave ;; st_ret result.

(** ** Snapshots and the journal *)

(** The result is the status and, on success, what is stored at [*out],
    [*handle] and [*cursor]. *)
Definition bvstk_cache_snapshot (registry : bool) (subsystem name : option (list Z)) (out handle cursor : bool)
    (now_ms : Z) : ST cache_state (bvstk_status_t * option (bvstk_cache_snapshot_t * Z * Z)) :=
  match subsystem, name with
  | Some ss, Some nm =>
      if negb registry || negb out || negb handle || negb cursor then st_ret (BVSTK_ERR_MALFORMED, None)
      else
        enter ;;
        let! found := reg (fun r =>
          match for_find (Z.to_nat BVSTK_CACHE_DEVICES_MAX) 0 (fun i =>
              let d := (rg_devices r).[i] in
              negb (sn_generation d =? 0) && streq ss (sn_subsystem d) && streq nm (sn_device d)) with
          | Some i => (BVSTK_OK, Some (with_captured now_ms ((rg_devices r).[i]), u16 (i + 1), rg_head r))
          | None => (BVSTK_ERR_NOT_FOUND, None)
          end) in
        leave ;; st_ret found
  | _, _ => st_ret (BVSTK_ERR_MALFORMED, None)
  end.

(** The loop up to the head: [k] iterations are left. *)
Fixpoint next_loop (k : nat) (r : bvstk_cache_registry_t) (handle cursor : Z) : Z * Z * option bvstk_cache_change_t :=
  match k with
  | O => (0, cursor, None)
  | S k =>
      let c := (rg_journal r).[cursor mod BVSTK_CACHE_JOURNAL_SIZE] in
      if ch_handle c =? handle then (1, cursor + 1, Some c)
      else next_loop k r handle (cursor + 1)
  end.

(** The result, [*cursor] and [*out] afterwards. *)
Definition bvstk_cache_next (handle generation cursor : Z) : ST cache_state (Z * Z * option bvstk_cache_change_t) :=
  enter ;;
  let! o := reg (fun r =>
    match device r handle with
    | None => (- BVSTK_CACHE_RECONFIGURED, cursor, None)
    | Some d =>
        if negb (sn_generation d =? generation) then (- BVSTK_CACHE_RECONFIGURED, cursor, None)
        else if (rg_head r <? cursor) || (BVSTK_CACHE_JOURNAL_SIZE <? u64 (rg_head r - cursor))
        then (- BVSTK_CACHE_LOST, cursor, None)
        else next_loop (Z.to_nat (rg_head r - cursor)) r handle cursor
    end) in
  leave ;; st_ret o.
End registry.

Arguments bvstk_cache_guard_t : clear implicits.
Arguments bvstk_cache_registry_t : clear implicits.
Arguments cache_state : clear implicits.
