(* ===== verification/CacheSync.v ===== *)
(** * CacheSync: the cache registry keeps its shape and clients can follow it

    The well-formedness of the registry of [CacheRegistry] and the guarantee of
    its journal: a client that starts from a snapshot and applies the changes
    the journal hands out ends up with the device's current contents, unless it
    is told to start again. *)
From stdpp Require Import prelude.
From Stdlib Require Import ZArith Lia.
From S2P Require Import Prelude Platform CacheRegistry.
Local Open Scope Z_scope.

(** ** Names *)

Lemma name_scan_spec k s i : 0 <= i ->
  name_scan k s i = true <-> exists j, i <= j < i + Z.of_nat k /\ s.[j] = 0 /\
    forall m, i <= m < j -> s.[m] <> 0 /\ name_char (s.[m]) = true.
Proof.
  revert i. induction k as [|k IH]; intros i Hi; cbn [name_scan]; [split; [done|intros (j & Hj & _); lia]|].
  destruct (s.[i] =? 0) eqn:E0; bsimp.
  { split; [|done]. intros _. exists i. split; [lia|]. split; [done|]. intros m Hm. lia. }
  destruct (name_char (s.[i])) eqn:Ec; cbn [negb].
  - rewrite IH by lia. split; intros (j & Hj & Hz & Hall).
    + exists j. split; [lia|]. split; [done|]. intros m Hm.
      destruct (decide (m = i)) as [->|]; [done|]. apply Hall. lia.
    + exists j. assert (j <> i) by congruence. split; [lia|]. split; [done|]. intros m Hm. apply Hall. lia.
  - split; [done|]. intros (j & Hj & Hz & Hall). destruct (decide (i = j)) as [->|]; [done|].
    destruct (Hall i ltac:(lia)) as [_ Hc]. congruence.
Qed.

Lemma aget_range {A} `{Inhabited A} (s : list A) (j : Z) (v : A) : 0 <= j -> s.[j] = v -> v <> inhabitant -> j < alen s.
Proof.
  intros Hj Hv Hne. unfold aget in Hv. rewrite list_lookup_total_alt in Hv.
  destruct (s !! Z.to_nat j) eqn:E; [|by subst]. apply lookup_lt_Some in E. unfold alen. lia.
Qed.

Lemma cstr_prefix s j : 0 <= j < alen s -> s.[j] = 0 -> (forall m, 0 <= m < j -> s.[m] <> 0) -> cstr s = prefix j s.
Proof.
  revert j. induction s as [|c s IH]; intros j Hj Hz Hall; [unfold alen in Hj; cbn in Hj; lia|].
  cbn [cstr]. destruct (decide (j = 0)) as [->|Hne].
  - change (c = 0) in Hz. by subst c.
  - assert (c <> 0) as Hc by (apply (Hall 0); lia). rewrite (proj2 (Z.eqb_neq c 0) Hc).
    assert (forall m, 0 <= m -> s.[m] = (c :: s).[m + 1]) as Hsh.
    { intros m Hm. unfold aget. by replace (Z.to_nat (m + 1)) with (S (Z.to_nat m)) by lia. }
    unfold prefix. replace (Z.to_nat j) with (S (Z.to_nat (j - 1))) by lia. cbn [take]. f_equal.
    unfold alen in Hj. cbn [length] in Hj. apply IH; [unfold alen; lia| |].
    + rewrite Hsh by lia. by replace (j - 1 + 1) with j by lia.
    + intros m Hm. rewrite Hsh by lia. apply Hall. lia.
Qed.

(** A valid name: 1 to 31 allowed characters and a terminator. *)
Lemma name_valid_spec s : name_valid (Some s) = true ->
  0 < alen (cstr s) < BVSTK_CACHE_NAME_MAX /\ Forall (fun c => c <> 0 /\ name_char c = true) (cstr s).
Proof.
  unfold name_valid. destruct (s.[0] =? 0) eqn:E0; [done|]. bsimp. rewrite name_scan_spec by lia.
  intros (j & Hj & Hz & Hall). change (Z.of_nat (Z.to_nat BVSTK_CACHE_NAME_MAX)) with BVSTK_CACHE_NAME_MAX in Hj.
  assert (j < alen s) by (apply (aget_range s j 0); [lia|done|done]).
  assert (j <> 0) by congruence.
  assert (cstr s = prefix j s) as -> by (apply cstr_prefix; [lia|done|intros m Hm; by apply Hall]).
  rewrite alen_prefix by lia. split; [lia|]. apply Forall_forall. intros c Hc.
  apply elem_of_prefix in Hc as (i & Hi & <-); [by apply Hall|lia].
Qed.

Lemma strcpy_name_ok s : name_valid (Some s) = true ->
  name_valid (Some (strcpy_name s)) = true /\ cstr (strcpy_name s) = cstr s.
Proof.
  intros Hv. apply name_valid_spec in Hv as [Hl Hc]. unfold strcpy_name. set (c := cstr s) in *.
  set (t := c ++ fill (BVSTK_CACHE_NAME_MAX - alen c) 0).
  assert (alen t = BVSTK_CACHE_NAME_MAX) as Ht.
  { unfold t, alen in *. rewrite length_app. unfold fill. rewrite length_replicate. lia. }
  assert (forall m, 0 <= m < alen c -> t.[m] = c.[m]) as Hget.
  { intros m Hm. unfold t, aget, alen in *. apply lookup_total_app_l. lia. }
  assert (t.[alen c] = 0) as Hend.
  { unfold t, aget, alen in *. rewrite Nat2Z.id, lookup_total_app_r by lia.
    rewrite Nat.sub_diag. unfold fill. apply lookup_total_replicate_2. lia. }
  assert (forall m, 0 <= m < alen c -> t.[m] <> 0 /\ name_char (t.[m]) = true) as Hall.
  { intros m Hm. rewrite Hget by done. rewrite Forall_forall in Hc. apply Hc, aget_in. done. }
  split.
  - unfold name_valid. rewrite (proj2 (Z.eqb_neq (t.[0]) 0)) by (apply Hall; lia).
    apply name_scan_spec; [done|]. exists (alen c).
    change (Z.of_nat (Z.to_nat BVSTK_CACHE_NAME_MAX)) with BVSTK_CACHE_NAME_MAX.
    split; [lia|]. split; [done|]. intros m Hm. apply Hall. lia.
  - rewrite (cstr_prefix t (alen c)); [|lia|done|intros m Hm; by apply Hall].
    unfold t, prefix, alen. rewrite Nat2Z.id. apply take_app_length.
Qed.

(** ** Well-formed entries and devices *)

Record entry_ok (e : bvstk_cache_entry_t) : Prop := {
  eo_name : name_valid (Some (en_id e)) = true;
  eo_width : 1 <= en_width_bits e <= 64;
  eo_source : 0 <= en_source e <= BVSTK_CACHE_SOURCE_DEVICE;
  eo_valid : (en_valid e = 1 /\ 0 <= en_value e < 2 ^ en_width_bits e) \/
             (en_valid e = 0 /\ en_value e = 0 /\ en_source e = BVSTK_CACHE_SOURCE_UNKNOWN /\ en_updated_ms e = 0)
}.

(** The first [n] entries are in order and have different names. *)
Definition entries_ok (entries : list bvstk_cache_entry_t) (n : Z) : Prop :=
  (forall i, 0 <= i < n -> entry_ok (entries.[i])) /\
  (forall i j, 0 <= i < n -> 0 <= j < n -> cstr (en_id (entries.[i])) = cstr (en_id (entries.[j])) -> i = j).

Record device_ok (d : bvstk_cache_snapshot_t) : Prop := {
  do_subsystem : name_valid (Some (sn_subsystem d)) = true;
  do_device : name_valid (Some (sn_device d)) = true;
  do_count : 0 <= sn_count d <= BVSTK_CACHE_RESOURCES_MAX;
  do_presence : 0 <= sn_presence d <= BVSTK_CACHE_PRESENCE_UNAVAILABLE;
  do_alen : alen (sn_entries d) = BVSTK_CACHE_RESOURCES_MAX;
  do_entries : entries_ok (sn_entries d) (sn_count d)
}.

Lemma normalize_ok e :
  name_valid (Some (en_id e)) = true -> 1 <= en_width_bits e <= 64 ->
  0 <= en_source e <= BVSTK_CACHE_SOURCE_DEVICE -> 0 <= en_value e < 2 ^ 64 ->
  (en_valid e = 0 \/ en_width_bits e = 64 \/ Z.shiftr (en_value e) (en_width_bits e) = 0) ->
  entry_ok (normalize e).
Proof.
  intros Hn Hw Hs Hv Hf. unfold normalize. destruct (en_valid e =? 0) eqn:E; bsimp.
  - split; cbn; try done. by right.
  - split; cbn; try done. left. split; [done|]. destruct Hf as [|[Hf|Hf]]; [done|by rewrite Hf|].
    rewrite Z.shiftr_div_pow2 in Hf by lia.
    assert (0 < 2 ^ en_width_bits e) by (apply Z.pow_pos_nonneg; lia).
    apply Z.div_small_iff in Hf; lia.
Qed.

Lemma normalize_id e : en_id (normalize e) = en_id e.
Proof. unfold normalize. by destruct (_ =? _). Qed.

(** What is accepted as a described entry. *)
Lemma entry_bad_ok a :
  entry_bad a = false -> 0 <= en_value a < 2 ^ 64 -> 0 <= en_width_bits a -> 0 <= en_source a ->
  entry_ok (normalize a).
Proof.
  unfold entry_bad. intros Hb Hv Hw Hs. rewrite !orb_false_iff, negb_false_iff in Hb.
  destruct Hb as [[[[Hn H0] H64] Hsrc] Hf]. bsimp. apply normalize_ok; [done|lia|lia|done|].
  rewrite !andb_false_iff, !negb_false_iff in Hf. destruct Hf as [[Hf|Hf]|Hf]; bsimp; auto. right. left. lia.
Qed.

Lemma entries_ok_set entries n i e :
  n <= alen entries -> 0 <= i < n -> entries_ok entries n -> entry_ok e ->
  en_id e = en_id (entries.[i]) -> entries_ok (entries.[i <- e]) n.
Proof.
  intros Hl Hi [He Hd] Hok Hid.
  assert (forall j, 0 <= j < n -> en_id ((entries.[i <- e]).[j]) = en_id (entries.[j])) as Hids.
  { intros j Hj. destruct (decide (j = i)) as [->|]; [by rewrite aget_aset_eq by lia|by rewrite aget_aset_ne by lia]. }
  split.
  - intros j Hj. destruct (decide (j = i)) as [->|]; [by rewrite aget_aset_eq by lia|].
    rewrite aget_aset_ne by lia. by apply He.
  - intros j k Hj Hk. rewrite !Hids by done. by apply Hd.
Qed.

Lemma device_ok_update d g rev cap pres entries :
  device_ok d -> 0 <= pres <= BVSTK_CACHE_PRESENCE_UNAVAILABLE -> alen entries = BVSTK_CACHE_RESOURCES_MAX ->
  entries_ok entries (sn_count d) ->
  device_ok (Snapshot (sn_subsystem d) (sn_device d) g rev cap (sn_count d) pres entries).
Proof.
  intros Hd Hp Hl He. split; cbn [sn_subsystem sn_device sn_count sn_presence sn_entries].
  - exact (do_subsystem d Hd).
  - exact (do_device d Hd).
  - exact (do_count d Hd).
  - exact Hp.
  - exact Hl.
  - exact He.
Qed.

Section registry.
Context {X : Type}.
Implicit Types (r : bvstk_cache_registry_t X) (w : cache_state X).

Definition live r (i : Z) : Prop := sn_generation ((rg_devices r).[i]) <> 0.

(** The name of a recorded entry has a terminator within its buffer. *)
Definition name_short (e : bvstk_cache_entry_t) : Prop := alen (cstr (en_id e)) < BVSTK_CACHE_NAME_MAX.

Record registry_wf r : Prop := {
  rw_devices : alen (rg_devices r) = BVSTK_CACHE_DEVICES_MAX;
  rw_journal : alen (rg_journal r) = BVSTK_CACHE_JOURNAL_SIZE;
  rw_live : forall i, 0 <= i < BVSTK_CACHE_DEVICES_MAX -> live r i -> device_ok ((rg_devices r).[i]);
  rw_names : forall i j, 0 <= i < BVSTK_CACHE_DEVICES_MAX -> 0 <= j < BVSTK_CACHE_DEVICES_MAX ->
    live r i -> live r j ->
    cstr (sn_subsystem ((rg_devices r).[i])) = cstr (sn_subsystem ((rg_devices r).[j])) ->
    cstr (sn_device ((rg_devices r).[i])) = cstr (sn_device ((rg_devices r).[j])) -> i = j;
  rw_changes : forall k, 0 <= k < BVSTK_CACHE_JOURNAL_SIZE -> name_short (ch_entry ((rg_journal r).[k]))
}.

Lemma init_wf (guard : option (bvstk_cache_guard_t X)) : registry_wf (bvstk_cache_init guard).
Proof.
  assert (forall i, ~ live (bvstk_cache_init guard) i) as Hn.
  { intros i Hl. apply Hl. unfold bvstk_cache_init. cbn [rg_devices]. unfold aget, fill.
    rewrite list_lookup_total_alt. destruct (replicate _ _ !! _) eqn:E; [|done].
    by apply lookup_replicate in E as [-> _]. }
  split; [done|done|intros; by edestruct Hn|intros; by edestruct Hn|].
  intros k Hk. unfold bvstk_cache_init. cbn [rg_journal]. by rewrite aget_fill.
Qed.

Lemma device_spec r h d : 0 <= h -> device r h = Some d <->
  1 <= h <= BVSTK_CACHE_DEVICES_MAX /\ live r (h - 1) /\ d = (rg_devices r).[h - 1].
Proof.
  intros Hh. unfold device, live, BVSTK_CACHE_DEVICES_MAX. destruct (_ && _) eqn:E.
  - rewrite !andb_true_iff, !negb_true_iff in E. destruct E as [[E1 E2] E3]. bsimp. split.
    + intros [= <-]. split; [lia|done].
    + by intros (_ & _ & ->).
  - split; [done|]. intros (Hr & Hl & _). exfalso. rewrite !andb_false_iff, !negb_false_iff in E.
    destruct E as [[E|E]|E]; bsimp; (lia || done).
Qed.

(** Replacing a device by one with the same names keeps the registry well formed. *)
Lemma append_wf r h d d' kind e t :
  registry_wf r -> 0 <= h -> device r h = Some d -> device_ok d' -> name_short (default zero_cat_entry e) ->
  sn_subsystem d' = sn_subsystem d -> sn_device d' = sn_device d -> sn_generation d' = sn_generation d ->
  registry_wf (append h d' kind e t r).
Proof.
  intros [Hd Hj Hl Hn Hcs] Hh Hdev Hok Hes Hss Hnm Hg. apply device_spec in Hdev as (Hr & Hlive & ->); [|done].
  unfold append, put_device, set_devices. cbn [rg_devices rg_journal rg_guard rg_generation rg_head rg_staging].
  set (d2 := with_revision _ d').
  assert (device_ok d2) as Hok2
    by (apply device_ok_update; [exact Hok|apply (do_presence d' Hok)|apply (do_alen d' Hok)|apply (do_entries d' Hok)]).
  assert (forall i, 0 <= i < BVSTK_CACHE_DEVICES_MAX ->
    ((rg_devices r).[h - 1 <- d2]).[i] = if decide (i = h - 1) then d2 else (rg_devices r).[i]) as Hget.
  { intros i Hi. destruct (decide _) as [->|]; [by rewrite aget_aset_eq by lia|by rewrite aget_aset_ne by lia]. }
  assert (forall i, 0 <= i < BVSTK_CACHE_DEVICES_MAX ->
    let e := ((rg_devices r).[h - 1 <- d2]).[i] in let f := (rg_devices r).[i] in
    sn_generation e = sn_generation f /\ sn_subsystem e = sn_subsystem f /\ sn_device e = sn_device f) as Hsame.
  { intros i Hi. cbv zeta. rewrite Hget by done. by destruct (decide _) as [->|]. }
  unfold live in *. split; cbn [rg_devices rg_journal]; unfold live; cbn [rg_devices].
  - by rewrite alen_aset.
  - by rewrite alen_aset.
  - intros i Hi Hli. destruct (Hsame i Hi) as (Hg' & _). rewrite Hg' in Hli. rewrite Hget by done.
    destruct (decide _); [done|by apply Hl].
  - intros i j Hi Hj'. destruct (Hsame i Hi) as (-> & -> & ->), (Hsame j Hj') as (-> & -> & ->). by apply Hn.
  - intros k Hk. pose proof (Z.mod_pos_bound (rg_head r) BVSTK_CACHE_JOURNAL_SIZE ltac:(done)).
    destruct (decide (k = rg_head r mod BVSTK_CACHE_JOURNAL_SIZE)) as [->|].
    + by rewrite aget_aset_eq by lia.
    + rewrite aget_aset_ne by lia. by apply Hcs.
Qed.

(** ** The operations under the guard *)

Lemma enter_runs w : runs enter w (fun _ w' => cs_reg w' = cs_reg w).
Proof. unfold enter. apply runs_mod. by destruct (gd_enter _). Qed.
Lemma leave_runs w : runs leave w (fun _ w' => cs_reg w' = cs_reg w).
Proof. unfold leave. apply runs_mod. by destruct (gd_leave _). Qed.

Lemma leave_ret {A} (a : A) w : runs (leave ;; st_ret a) w (fun a' w' => a' = a /\ cs_reg w' = cs_reg w).
Proof. apply runs_bind. eapply runs_mono; [apply leave_runs|]. intros ? w2 E2. by apply runs_ret. Qed.

(** An operation between enter and leave acts on the registry it finds. *)
Lemma guarded_query {A} (f : bvstk_cache_registry_t X -> A) w :
  runs (enter ;; let! o := reg f in leave ;; st_ret o) w (fun o w' => o = f (cs_reg w) /\ cs_reg w' = cs_reg w).
Proof.
  apply runs_bind. eapply runs_mono; [apply enter_runs|]. intros ? w1 E1. apply runs_bind, runs_get.
  eapply runs_mono; [apply leave_ret|]. intros o w2 [-> ->]. by rewrite E1.
Qed.

(** What a put and a presence update do to the registry. *)
Definition put_spec (h index value valid source updated now : Z) r : bvstk_status_t * bvstk_cache_registry_t X :=
  match device r h with
  | None => (BVSTK_ERR_NOT_FOUND, r)
  | Some d =>
      let e := (sn_entries d).[index] in
      if (sn_count d <=? index) || (BVSTK_CACHE_SOURCE_DEVICE <? source) ||
         (negb (valid =? 0) && (en_width_bits e <? 64) && negb (Z.shiftr value (en_width_bits e) =? 0))
      then (BVSTK_ERR_RANGE, r)
      else if (valid =? 0) && (en_valid e =? 0) then (BVSTK_OK, r)
      else
        let e := normalize (CatEntry (en_id e) value updated (en_width_bits e) (Z.b2z (negb (valid =? 0))) (u8 source)) in
        (BVSTK_OK, append h (with_entries ((sn_entries d).[index <- e]) d) BVSTK_CACHE_CHANGE (Some e) now r)
  end.

Definition presence_spec (h presence now : Z) r : bvstk_status_t * bvstk_cache_registry_t X :=
  match device r h with
  | None => (BVSTK_ERR_NOT_FOUND, r)
  | Some d =>
      if BVSTK_CACHE_PRESENCE_UNAVAILABLE <? presence then (BVSTK_ERR_RANGE, r)
      else if negb (sn_presence d =? presence) then
        (BVSTK_OK, append h (with_presence (u8 presence) d) BVSTK_CACHE_PRESENCE None now r)
      else (BVSTK_OK, r)
  end.

Lemma put_run h index value valid source updated now w :
  runs (bvstk_cache_put h index value valid source updated now) w
    (fun st w' => (st, cs_reg w') = put_spec h index value valid source updated now (cs_reg w)).
Proof.
  unfold bvstk_cache_put. apply runs_bind. eapply runs_mono; [apply enter_runs|]. intros ? w1 E1.
  apply runs_bind, runs_get. rewrite <- E1. unfold put_spec.
  destruct (device (cs_reg w1) h) as [d|].
  2:{ apply runs_bind, runs_ret. eapply runs_mono; [apply leave_ret|]. by intros st' w' [-> ->]. }
  cbv zeta. destruct (_ || _).
  { apply runs_bind, runs_ret. eapply runs_mono; [apply leave_ret|]. by intros st' w' [-> ->]. }
  destruct (_ && _).
  { apply runs_bind, runs_ret. eapply runs_mono; [apply leave_ret|]. by intros st' w' [-> ->]. }
  apply runs_bind, runs_bind, runs_mod, runs_ret. eapply runs_mono; [apply leave_ret|]. by intros st' w' [-> ->].
Qed.

Lemma presence_run h presence now w :
  runs (bvstk_cache_presence h presence now) w
    (fun st w' => (st, cs_reg w') = presence_spec h presence now (cs_reg w)).
Proof.
  unfold bvstk_cache_presence. apply runs_bind. eapply runs_mono; [apply enter_runs|]. intros ? w1 E1.
  apply runs_bind, runs_get. rewrite <- E1. unfold presence_spec.
  destruct (device (cs_reg w1) h) as [d|].
  2:{ apply runs_bind, runs_ret. eapply runs_mono; [apply leave_ret|]. by intros st' w' [-> ->]. }
  destruct (_ <? presence).
  { apply runs_bind, runs_ret. eapply runs_mono; [apply leave_ret|]. by intros st' w' [-> ->]. }
  destruct (negb _).
  - apply runs_bind, runs_bind, runs_mod, runs_ret. eapply runs_mono; [apply leave_ret|]. by intros st' w' [-> ->].
  - apply runs_bind, runs_ret. eapply runs_mono; [apply leave_ret|]. by intros st' w' [-> ->].
Qed.

(** The entry a put stores. *)
Lemma put_entry_ok d index value valid source updated :
  device_ok d -> 0 <= index < sn_count d -> 0 <= value < 2 ^ 64 -> 0 <= source <= BVSTK_CACHE_SOURCE_DEVICE ->
  let e := (sn_entries d).[index] in
  negb (valid =? 0) && (en_width_bits e <? 64) && negb (Z.shiftr value (en_width_bits e) =? 0) = false ->
  entry_ok (normalize (CatEntry (en_id e) value updated (en_width_bits e) (Z.b2z (negb (valid =? 0))) (u8 source))).
Proof.
  intros Hd Hi Hv Hs e Hf. destruct (do_entries d Hd) as [He _]. destruct (He index Hi) as [Hn Hw _ _]. fold e in Hn, Hw.
  unfold BVSTK_CACHE_SOURCE_DEVICE in Hs. rewrite u8_id by lia.
  apply normalize_ok; cbn [en_id en_width_bits en_source en_value en_valid]; try done.
  rewrite !andb_false_iff, !negb_false_iff in Hf. destruct Hf as [[Hf|Hf]|Hf]; bsimp; auto.
  - left. by rewrite Hf.
  - right. left. lia.
Qed.

(** ** Defining a device *)

(** No other live device has the names. *)
Definition names_free r (h : Z) (ss nm : list Z) (n : Z) : Prop :=
  forall i, 0 <= i < n -> live r i -> i + 1 <> h ->
    ~ (cstr (sn_subsystem ((rg_devices r).[i])) = cstr ss /\ cstr (sn_device ((rg_devices r).[i])) = cstr nm).

Lemma slot_search r h ss nm slot0 :
  match for_loop (Z.to_nat BVSTK_CACHE_DEVICES_MAX) 0 (slot_step r h ss nm) slot0 with
  | (slot, None) => names_free r h ss nm BVSTK_CACHE_DEVICES_MAX /\
      (slot = slot0 /\ (slot0 = BVSTK_CACHE_DEVICES_MAX -> forall i, 0 <= i < BVSTK_CACHE_DEVICES_MAX -> live r i) \/
       slot0 = BVSTK_CACHE_DEVICES_MAX /\ 0 <= slot < BVSTK_CACHE_DEVICES_MAX /\ ~ live r slot)
  | (_, Some st) => st = BVSTK_ERR_DENIED /\ ~ names_free r h ss nm BVSTK_CACHE_DEVICES_MAX
  end.
Proof.
  pose proof (for_loop_ind
    (fun i slot => names_free r h ss nm i /\
      (slot = slot0 /\ (slot0 = BVSTK_CACHE_DEVICES_MAX -> forall j, 0 <= j < i -> live r j) \/
       slot0 = BVSTK_CACHE_DEVICES_MAX /\ 0 <= slot < BVSTK_CACHE_DEVICES_MAX /\ ~ live r slot))
    (fun _ st => st = BVSTK_ERR_DENIED /\ ~ names_free r h ss nm BVSTK_CACHE_DEVICES_MAX)
    (Z.to_nat BVSTK_CACHE_DEVICES_MAX) 0 (slot_step r h ss nm) slot0) as Hind.
  change (0 + Z.of_nat (Z.to_nat BVSTK_CACHE_DEVICES_MAX)) with BVSTK_CACHE_DEVICES_MAX in Hind.
  assert (names_free r h ss nm 0) as H0 by (intros i Hi; lia).
  apply Hind; [|split; [done|left; split; [done|intros _ j Hj; lia]]]. clear Hind H0.
  intros i slot Hi [Hf Hslot]. unfold slot_step. cbv zeta. set (d := (rg_devices r).[i]).
  set (slot' := if _ && _ then i else slot).
  assert (forall A B : Prop, (A <-> B) -> ~ A -> ~ B) as Hnot by tauto.
  destruct (negb (sn_generation d =? 0) && negb (i + 1 =? h) && streq (sn_subsystem d) ss && streq (sn_device d) nm) eqn:E.
  - rewrite !andb_true_iff, !negb_true_iff, !streq_spec in E. destruct E as [[[Eg Eh] Es] En]. bsimp. split; [done|].
    intros Hff. apply (Hff i ltac:(lia) Eg Eh). by split.
  - split.
    + intros j Hj Hl Hne [H1 H2]. destruct (decide (j = i)) as [->|]; [|by apply (Hf j ltac:(lia) Hl Hne)].
      fold d in H1, H2. unfold live in Hl. fold d in Hl.
      rewrite (proj2 (Z.eqb_neq _ _) Hl), (proj2 (Z.eqb_neq _ _) Hne), (proj2 (streq_spec _ _) H1), (proj2 (streq_spec _ _) H2) in E.
      done.
    + unfold slot'. destruct (sn_generation d =? 0) eqn:Eg; cbn [andb].
      * destruct (slot =? BVSTK_CACHE_DEVICES_MAX) eqn:Esl; bsimp.
        -- right. split; [destruct Hslot as [[-> _]|(? & ? & _)]; [done|lia]|]. split; [done|]. intros Hl. by apply Hl.
        -- destruct Hslot as [[-> Hs]|Hs]; [|by right]. left. split; [done|]. intros ->. done.
      * bsimp. destruct Hslot as [[-> Hs]|Hs]; [|by right]. left. split; [done|]. intros Hm j Hj.
        destruct (decide (j = i)) as [->|]; [done|]. apply Hs; [done|lia].
Qed.

(** What the callback hands over: unsigned fields. *)
Definition describes (f : Z -> bvstk_cache_entry_t -> X -> bvstk_cache_entry_t * X) : Prop :=
  forall i e x, let a := fst (f i e x) in 0 <= en_value a < 2 ^ 64 /\ 0 <= en_width_bits a /\ 0 <= en_source a.

Lemma describe_all f n x :
  describes f -> 0 <= n <= BVSTK_CACHE_RESOURCES_MAX ->
  match for_loop (Z.to_nat n) 0 (describe_step f) (fill BVSTK_CACHE_RESOURCES_MAX zero_cat_entry, x) with
  | ((entries, _), None) => alen entries = BVSTK_CACHE_RESOURCES_MAX /\ entries_ok entries n
  | (_, Some st) => st = BVSTK_ERR_MALFORMED
  end.
Proof.
  intros Hf Hn.
  pose proof (for_loop_ind (fun i s => alen (fst s) = BVSTK_CACHE_RESOURCES_MAX /\ entries_ok (fst s) i)
    (fun _ st => st = BVSTK_ERR_MALFORMED) (Z.to_nat n) 0 (describe_step f)
    (fill BVSTK_CACHE_RESOURCES_MAX zero_cat_entry, x)) as Hind.
  rewrite Z2Nat.id, Z.add_0_l in Hind by lia.
  destruct (for_loop _ _ _ _) as [[entries x'] [st|]]; apply Hind; clear Hind.
  2, 4: cbn [fst]; split; [by apply alen_fill|split; intros; lia].
  all: intros i [es y] Hi [Hl [Hok Hd]]; cbn [fst] in *; unfold describe_step;
    pose proof (Hf i (es.[i]) y) as Ha; destruct (f i (es.[i]) y) as [a y']; cbn [fst] in Ha;
    destruct Ha as (Hv & Hw & Hs); destruct (entry_bad a) eqn:Eb; [done|];
    destruct (for_find _ _ _) as [k|] eqn:Ef; [done|]; rewrite bool_decide_eq_false_2 by (by intros [? ?]).
  all: cbn [fst]; split; [by rewrite !alen_aset|].
  all: assert (forall m, 0 <= m < i -> ((es.[i <- a]).[i <- normalize a]).[m] = es.[m]) as Hget
    by (intros m Hm; by rewrite !aget_aset_ne by lia).
  all: assert (((es.[i <- a]).[i <- normalize a]).[i] = normalize a) as Hi2
    by (apply aget_aset_eq; rewrite alen_aset; lia).
  all: assert (forall m, 0 <= m < i -> cstr (en_id a) <> cstr (en_id (es.[m]))) as Hnew
    by (intros m Hm Heq; rewrite for_find_None in Ef; specialize (Ef m ltac:(lia)); cbv beta in Ef;
        rewrite aget_aset_ne in Ef by lia; by rewrite (proj2 (streq_spec _ _) Heq) in Ef).
  all: split.
  1, 3: intros m Hm; destruct (decide (m = i)) as [->|]; [rewrite Hi2; by apply entry_bad_ok|rewrite Hget by lia; apply Hok; lia].
  all: intros m k Hm Hk; destruct (decide (m = i)) as [->|], (decide (k = i)) as [->|]; rewrite ?Hi2, ?Hget, ?normalize_id by lia;
    [done|intros Heq; by destruct (Hnew k ltac:(lia))|intros Heq; by destruct (Hnew m ltac:(lia))|apply Hd; lia].
Qed.

Lemma next_generation_range g : 0 < next_generation g < 2 ^ 32.
Proof.
  unfold next_generation. pose proof (u32_range (g + 1)) as H1. destruct (u32 (g + 1) =? 0) eqn:E; bsimp; [|lia].
  rewrite E. done.
Qed.

Lemma next_generation_small g : 0 <= g < 2 ^ 32 - 1 -> next_generation g = g + 1.
Proof. intros Hg. unfold next_generation. rewrite u32_id by lia. by rewrite (proj2 (Z.eqb_neq _ _)) by lia. Qed.

(** All a client can see of the registry. *)
Definition catalogue r := (rg_devices r, rg_generation r, rg_head r, rg_journal r, rg_guard r).

(** The outcome of a definition: a fresh catalogue in one slot, or a refusal
    that changes nothing. *)
Definition define_effect (h : Z) (ss nm : list Z) (count presence : Z) r (st : bvstk_status_t) (h' : Z) r' : Prop :=
  match st with
  | BVSTK_OK => exists i d, 0 <= i < BVSTK_CACHE_DEVICES_MAX /\ h' = i + 1 /\
      (if h =? 0 then ~ live r i else i = h - 1 /\ live r i) /\ names_free r h ss nm BVSTK_CACHE_DEVICES_MAX /\
      catalogue r' = ((rg_devices r).[i <- d], next_generation (rg_generation r), rg_head r, rg_journal r, rg_guard r) /\
      device_ok d /\ cstr (sn_subsystem d) = cstr ss /\ cstr (sn_device d) = cstr nm /\
      sn_generation d = next_generation (rg_generation r) /\ sn_revision d = 0 /\
      sn_count d = count /\ sn_presence d = presence
  | BVSTK_ERR_NOT_FOUND => h <> 0 /\ device r h = None /\ h' = h /\ catalogue r' = catalogue r
  | BVSTK_ERR_DENIED => ~ names_free r h ss nm BVSTK_CACHE_DEVICES_MAX /\ h' = h /\ catalogue r' = catalogue r
  | BVSTK_ERR_BUSY => h = 0 /\ (forall i, 0 <= i < BVSTK_CACHE_DEVICES_MAX -> live r i) /\ h' = h /\ catalogue r' = catalogue r
  | BVSTK_ERR_MALFORMED => h' = h /\ catalogue r' = catalogue r
  | _ => False
  end.

Lemma define_locked_spec h ss nm count presence f w :
  0 <= h -> name_valid (Some ss) = true -> name_valid (Some nm) = true -> describes f ->
  0 <= count <= BVSTK_CACHE_RESOURCES_MAX -> 0 <= presence <= BVSTK_CACHE_PRESENCE_UNAVAILABLE ->
  runs (define_locked h ss nm count presence f) w (fun o w' =>
    define_effect h ss nm count presence (cs_reg w) (fst o) (snd o) (cs_reg w')).
Proof.
  intros Hh Hss Hnm Hf Hc Hp. unfold runs, define_locked. set (r := cs_reg w).
  destruct (negb (h =? 0) && _) eqn:Ed; cbn [fst snd].
  { rewrite andb_true_iff, !negb_true_iff in Ed. destruct Ed as [E1 E2]. bsimp. apply bool_decide_eq_false_1 in E2.
    split; [done|]. split; [|done]. destruct (device r h); [|done]. by destruct E2. }
  pose proof (slot_search r h ss nm (if negb (h =? 0) then h - 1 else BVSTK_CACHE_DEVICES_MAX)) as Hslot.
  destruct (for_loop _ 0 (slot_step r h ss nm) _) as [slot [st|]].
  { destruct Hslot as [-> Hslot]. by cbn [fst snd]. }
  destruct Hslot as [Hfree Hslot].
  assert (if h =? 0 then slot = BVSTK_CACHE_DEVICES_MAX /\ (forall i, 0 <= i < BVSTK_CACHE_DEVICES_MAX -> live r i) \/
             0 <= slot < BVSTK_CACHE_DEVICES_MAX /\ ~ live r slot
          else 0 <= slot < BVSTK_CACHE_DEVICES_MAX /\ slot = h - 1 /\ live r slot) as Hs.
  { destruct (h =? 0) eqn:E0; cbn [negb andb] in *; bsimp.
    - destruct Hslot as [[-> Hall]|(_ & ? & ?)]; [left|by right]. split; [done|]. by apply Hall.
    - destruct (device r h) as [d|] eqn:Hd; [|by rewrite bool_decide_eq_false_2 in Ed by (by intros [? ?])].
      apply device_spec in Hd as (Hr & Hl & _); [|done].
      destruct Hslot as [[-> _]|(? & ? & ?)]; [split; [lia|done]|unfold BVSTK_CACHE_DEVICES_MAX in *; lia]. }
  destruct (slot =? BVSTK_CACHE_DEVICES_MAX) eqn:Eb; bsimp.
  { cbn [fst snd]. destruct (h =? 0) eqn:E0; bsimp; [|lia]. destruct Hs as [[_ Hall]|[? _]]; [done|lia]. }
  pose proof (describe_all f count (cs_ext w) Hf Hc) as Hdesc.
  destruct (for_loop _ 0 (describe_step f) _) as [[entries x] [st|]]; cbn [fst snd cs_reg].
  { subst st. done. }
  destruct Hdesc as [Hl He]. destruct (strcpy_name_ok ss Hss) as [Hs1 Hs2], (strcpy_name_ok nm Hnm) as [Hn1 Hn2].
  assert (0 <= slot < BVSTK_CACHE_DEVICES_MAX) as Hsl by (destruct (h =? 0); [destruct Hs as [[? _]|[? _]]; lia|tauto]).
  unfold BVSTK_CACHE_DEVICES_MAX, BVSTK_CACHE_RESOURCES_MAX, BVSTK_CACHE_PRESENCE_UNAVAILABLE in *.
  rewrite !u16_id, u8_id by lia.
  exists slot. eexists. split; [done|]. split; [done|].
  split; [destruct (h =? 0); [destruct Hs as [[? _]|[_ ?]]; [lia|done]|tauto]|].
  split; [done|]. split; [reflexivity|].
  split; [split; cbn [sn_subsystem sn_device sn_count sn_presence sn_entries]; assumption|].
  cbn [sn_subsystem sn_device sn_count sn_presence sn_generation sn_revision]. by rewrite Hs2, Hn2.
Qed.

Lemma define_run h ss nm count presence f w :
  0 <= h -> describes f -> 0 <= count -> 0 <= presence ->
  runs (bvstk_cache_define true (Some h) (Some ss) (Some nm) count presence (Some f)) w (fun o w' => exists h',
    snd o = Some h' /\ define_effect h ss nm count presence (cs_reg w) (fst o) h' (cs_reg w')).
Proof.
  intros Hh Hf Hc Hp. unfold bvstk_cache_define. cbn [negb orb].
  destruct (_ || (BVSTK_CACHE_PRESENCE_UNAVAILABLE <? presence)) eqn:E.
  { apply runs_ret. exists h. by cbn [fst snd]. }
  rewrite !orb_false_iff, !negb_false_iff in E. destruct E as [[[E1 E2] E3] E4]. bsimp.
  apply runs_bind. eapply runs_mono; [apply enter_runs|]. intros ? w1 H1. cbv beta in H1.
  apply runs_bind. eapply runs_mono; [apply define_locked_spec; (done || lia)|]. intros o w2 H2.
  eapply runs_mono; [apply leave_ret|]. intros o' w3 [-> H3]. exists (snd o). cbn [fst snd].
  split; [done|]. rewrite H3, <- H1. exact H2.
Qed.

Lemma define_wf h ss nm count presence r st h' r' :
  registry_wf r -> define_effect h ss nm count presence r st h' r' -> registry_wf r'.
Proof.
  intros Hwf He.
  assert (catalogue r' = catalogue r -> registry_wf r') as Hkeep.
  { unfold catalogue. intros [= Hd Hg Hhd Hj Hgd]. destruct Hwf as [W1 W2 W3 W4 W5].
    split; unfold live in *; rewrite ?Hd, ?Hj; assumption. }
  destruct st; cbn [define_effect] in He; try contradiction; try (apply Hkeep; tauto).
  destruct He as (i & d & Hi & _ & Hh & Hfree & Hcat & Hok & Hss & Hnm & Hg & _). unfold catalogue in Hcat.
  injection Hcat as Hd _ _ Hj _. destruct Hwf as [W1 W2 W3 W4 W5].
  assert (forall k, 0 <= k < BVSTK_CACHE_DEVICES_MAX ->
    (rg_devices r').[k] = if decide (k = i) then d else (rg_devices r).[k]) as Hget.
  { intros k Hk. rewrite Hd. destruct (decide _) as [->|]; [by rewrite aget_aset_eq by lia|by rewrite aget_aset_ne by lia]. }
  assert (forall k, 0 <= k < BVSTK_CACHE_DEVICES_MAX -> k <> i -> live r k -> k + 1 <> h) as Hoth.
  { intros k Hk Hne Hl Heq. destruct (h =? 0) eqn:E0; bsimp; [lia|]. lia. }
  split; unfold live in *.
  - by rewrite Hd, alen_aset.
  - by rewrite Hj.
  - intros k Hk. rewrite Hget by done. destruct (decide (k = i)); [done|by apply W3].
  - intros k l Hk Hl. rewrite !Hget by done. destruct (decide (k = i)) as [->|], (decide (l = i)) as [->|]; [done|..].
    + intros _ Hlive E1 E2. destruct (Hfree l Hl Hlive (Hoth l Hl n Hlive)). by rewrite <- E1, <- E2, Hss, Hnm.
    + intros Hlive _ E1 E2. destruct (Hfree k Hk Hlive (Hoth k Hk n Hlive)). by rewrite E1, E2, Hss, Hnm.
    + by apply W4.
  - intros k Hk. rewrite Hj. by apply W5.
Qed.

(** ** Following the journal *)

(** A client keeps a copy and applies the changes it is handed: the entry goes
    to the resource of its name. *)
Definition applies (d : bvstk_cache_snapshot_t) (c : bvstk_cache_change_t) : bvstk_cache_snapshot_t :=
  let d := with_presence (ch_presence c) (with_revision (ch_revision c) d) in
  if ch_kind c =? BVSTK_CACHE_CHANGE then
    match for_find (Z.to_nat (sn_count d)) 0 (fun i => streq (en_id ((sn_entries d).[i])) (en_id (ch_entry c))) with
    | Some i => with_entries ((sn_entries d).[i <- ch_entry c]) d
    | None => d
    end
  else d.

Definition uncaptured (d : bvstk_cache_snapshot_t) : bvstk_cache_snapshot_t := with_captured 0 d.

(** The changes of device [h] among [n] journal positions from [cur]. *)
Definition changes r (h cur n : Z) : list bvstk_cache_change_t :=
  filter (fun c => ch_handle c = h) (map (fun k => (rg_journal r).[k mod BVSTK_CACHE_JOURNAL_SIZE]) (seqZ cur n)).

(** The copy and the changes still to come make the current device. *)
Record follows r (h g : Z) (copy : bvstk_cache_snapshot_t) (cur : Z) (d : bvstk_cache_snapshot_t) : Prop := {
  fo_replay : foldl applies (uncaptured copy) (changes r h cur (rg_head r - cur)) = uncaptured d;
  fo_revisions : map ch_revision (changes r h cur (rg_head r - cur)) =
    seqZ (sn_revision copy + 1) (Z.of_nat (length (changes r h cur (rg_head r - cur))));
  fo_revision : sn_revision d = sn_revision copy + Z.of_nat (length (changes r h cur (rg_head r - cur)))
}.

(** Counters stay within what their devices have used. *)
Record counters_ok r : Prop := {
  co_head : 0 <= rg_head r < 2 ^ 64;
  co_generation : 0 <= rg_generation r < 2 ^ 32;
  co_devices : forall i, 0 <= i < BVSTK_CACHE_DEVICES_MAX -> live r i ->
    0 <= sn_revision ((rg_devices r).[i]) <= rg_head r /\
    0 < sn_generation ((rg_devices r).[i]) <= rg_generation r
}.

(** The counters have room for one more change and one more definition. *)
Definition roomy r : Prop := rg_head r + 1 < 2 ^ 64 /\ rg_generation r + 1 < 2 ^ 32.

Record client_ok r (h g : Z) (copy : bvstk_cache_snapshot_t) (cur : Z) : Prop := {
  cl_wf : registry_wf r;
  cl_counters : counters_ok r;
  cl_handle : 1 <= h <= BVSTK_CACHE_DEVICES_MAX;
  cl_generation : g <= rg_generation r;
  cl_cursor : 0 <= cur <= rg_head r;
  cl_follows : forall d, device r h = Some d -> sn_generation d = g ->
    rg_head r - cur <= BVSTK_CACHE_JOURNAL_SIZE -> follows r h g copy cur d
}.

Lemma journal_kept r (c : bvstk_cache_change_t) k :
  registry_wf r -> 0 <= k < rg_head r -> rg_head r - k < BVSTK_CACHE_JOURNAL_SIZE ->
  ((rg_journal r).[rg_head r mod BVSTK_CACHE_JOURNAL_SIZE <- c]).[k mod BVSTK_CACHE_JOURNAL_SIZE] =
    (rg_journal r).[k mod BVSTK_CACHE_JOURNAL_SIZE].
Proof.
  intros Hwf Hk Hd. unfold BVSTK_CACHE_JOURNAL_SIZE in *. apply aget_aset_ne.
  - apply Z.mod_pos_bound. lia.
  - apply Z.mod_pos_bound. lia.
  - intros He. Z.to_euclidean_division_equations. lia.
Qed.

Lemma append_changes r h' d' kind e t h cur :
  registry_wf r -> 0 <= cur <= rg_head r -> rg_head r + 1 - cur <= BVSTK_CACHE_JOURNAL_SIZE -> rg_head r + 1 < 2 ^ 64 ->
  let r' := append h' d' kind e t r in
  rg_head r' = rg_head r + 1 /\
  changes r' h cur (rg_head r' - cur) = changes r h cur (rg_head r - cur) ++
    (if decide (h' = h) then
       [Change (rg_head r + 1) (u64 (sn_revision d' + 1)) t (sn_generation d') h' (u8 kind) (sn_presence d') (default zero_cat_entry e)]
     else []).
Proof.
  intros Hwf Hc Hn Hr r'. assert (rg_head r' = rg_head r + 1) as Hh by (apply u64_id; lia). split; [done|].
  unfold changes. rewrite Hh. replace (rg_head r + 1 - cur) with ((rg_head r - cur) + 1) by lia.
  rewrite seqZ_app, map_app, filter_app by lia. f_equal.
  - f_equal. apply map_ext_in. intros k Hk. apply list_elem_of_In, elem_of_seqZ in Hk.
    unfold r', append, put_device, set_devices. cbn [rg_journal]. apply journal_kept; [done|lia|lia].
  - replace (cur + (rg_head r - cur)) with (rg_head r) by lia. change (seqZ (rg_head r) 1) with [0 + rg_head r].
    cbn [map]. unfold r', append, put_device, set_devices. cbn [rg_journal]. rewrite Z.add_0_l.
    rewrite aget_aset_eq by (rewrite (rw_journal r Hwf); apply Z.mod_pos_bound; done).
    rewrite filter_cons, filter_nil. cbn [ch_handle]. rewrite (u64_id (rg_head r + 1)) by lia. done.
Qed.

Lemma append_device r h' d' kind e t h :
  registry_wf r -> 0 <= h -> 1 <= h' <= BVSTK_CACHE_DEVICES_MAX -> sn_generation d' <> 0 ->
  device (append h' d' kind e t r) h =
    if decide (h = h') then Some (with_revision (u64 (sn_revision d' + 1)) d') else device r h.
Proof.
  intros Hwf Hh Hh' Hg. pose proof (rw_devices r Hwf) as Hl. unfold device, append, put_device, set_devices. cbn [rg_devices].
  unfold BVSTK_CACHE_DEVICES_MAX in *. destruct (decide (h = h')) as [->|Hne].
  - rewrite aget_aset_eq by lia. cbn [sn_generation with_revision].
    rewrite (proj2 (Z.eqb_neq h' 0)), (proj2 (Z.leb_le h' 48)), (proj2 (Z.eqb_neq (sn_generation d') 0)) by (done || lia). done.
  - destruct (decide (h = 0)) as [->|]; [done|]. by rewrite aget_aset_ne by lia.
Qed.

(** The recorded change replayed on the device before it gives the device after it. *)
Definition recorded (d d' : bvstk_cache_snapshot_t) (kind : Z) (e : option bvstk_cache_entry_t) : Prop :=
  sn_generation d' = sn_generation d /\ sn_revision d' = sn_revision d /\ name_short (default zero_cat_entry e) /\
  forall rev t s h, applies (uncaptured d) (Change s rev t (sn_generation d') h (u8 kind) (sn_presence d') (default zero_cat_entry e)) =
    uncaptured (with_revision rev d').

Lemma put_recorded d index e :
  device_ok d -> 0 <= index < sn_count d -> en_id e = en_id ((sn_entries d).[index]) ->
  recorded d (with_entries ((sn_entries d).[index <- e]) d) BVSTK_CACHE_CHANGE (Some e).
Proof.
  intros Hd Hi Hid. split; [done|]. split; [done|]. split.
  { unfold name_short. cbn [default id]. rewrite Hid. destruct (do_entries d Hd) as [He _].
    pose proof (eo_name _ (He index Hi)) as Hn. apply name_valid_spec in Hn as [Hn _]. lia. } intros rev t s h. unfold applies.
  cbn [ch_kind ch_presence ch_revision ch_entry default id]. change (u8 BVSTK_CACHE_CHANGE =? BVSTK_CACHE_CHANGE) with true.
  cbn [with_presence with_revision uncaptured with_captured with_entries sn_count sn_entries].
  assert (for_find (Z.to_nat (sn_count d)) 0 (fun i => streq (en_id ((sn_entries d).[i])) (en_id e)) = Some index) as ->; [|done].
  apply for_find_Some. split; [lia|]. split; [apply streq_spec; by rewrite Hid|].
  intros j Hj. destruct (streq _ _) eqn:E; [|done]. apply streq_spec in E. rewrite Hid in E.
  destruct (do_entries d Hd) as [_ Hdist]. apply Hdist in E; lia.
Qed.

Lemma presence_recorded d p : recorded d (with_presence p d) BVSTK_CACHE_PRESENCE None.
Proof. by split. Qed.

(** Appending a recorded change keeps every client in step. *)
Lemma append_client r h' d d' kind e t h g copy cur :
  client_ok r h g copy cur -> roomy r -> device r h' = Some d -> 0 <= h' -> device_ok d' ->
  sn_subsystem d' = sn_subsystem d -> sn_device d' = sn_device d -> recorded d d' kind e ->
  client_ok (append h' d' kind e t r) h g copy cur.
Proof.
  intros [Hwf [Hhd Hgn Hdev] Hh Hg Hc Hf] [Hr1 Hr2] Hd Hh' Hok Hss Hnm (Hgen & Hrev & Hsh & Hrep).
  set (r' := append h' d' kind e t r).
  pose proof Hd as Hd0. apply device_spec in Hd0 as (Hhr & Hlv & Hde); [|done].
  destruct (Hdev (h' - 1) ltac:(unfold BVSTK_CACHE_DEVICES_MAX in *; lia) Hlv) as [Hrv Hgv]. rewrite <- Hde in Hrv, Hgv.
  assert (rg_head r' = rg_head r + 1) as Hh1 by (apply u64_id; lia).
  assert (registry_wf r') as Hwf' by (by apply append_wf with d).
  split.
  - done.
  - split; [lia|done|]. intros i Hi Hl.
    pose proof (append_device r h' d' kind e t (i + 1) Hwf ltac:(lia) Hhr ltac:(lia)) as Hdv. fold r' in Hdv.
    assert (device r' (i + 1) = Some ((rg_devices r').[i])) as Hself.
    { apply device_spec; [lia|]. replace (i + 1 - 1) with i by lia. split; [lia|]. done. }
    rewrite Hself in Hdv. change (rg_generation r') with (rg_generation r). destruct (decide (i + 1 = h')) as [Heq|Hne].
    + apply (inj Some) in Hdv. rewrite Hdv. cbn [sn_revision sn_generation with_revision]. rewrite u64_id by lia. lia.
    + symmetry in Hdv. apply device_spec in Hdv as (_ & Hl' & ->); [|lia].
      replace (i + 1 - 1) with i in * by lia. destruct (Hdev i Hi Hl'). lia.
  - done.
  - exact Hg.
  - lia.
  - intros dd Hdd Hgd Hlen. rewrite Hh1 in Hlen.
    unfold r' in Hdd. rewrite append_device in Hdd by (done || lia).
    destruct (append_changes r h' d' kind e t h cur Hwf Hc ltac:(lia) Hr1) as [_ Hch]. fold r' in Hch.
    destruct (decide (h = h')) as [->|Hne].
    + injection Hdd as <-. cbn [sn_generation with_revision] in Hgd.
      destruct (Hf d Hd ltac:(lia) ltac:(lia)) as [F1 F2 F3].
      rewrite decide_True in Hch by done. rewrite u64_id in * by lia. split; rewrite Hch.
      * rewrite foldl_app, F1. cbn [foldl]. apply Hrep.
      * rewrite map_app, F2, length_app. cbn [length map ch_revision].
        rewrite Nat2Z.inj_add, seqZ_app by lia. f_equal. change (Z.of_nat 1) with 1.
        rewrite seqZ_cons, seqZ_nil by lia. f_equal. lia.
      * rewrite length_app. cbn [length sn_revision with_revision]. lia.
    + rewrite decide_False in Hch by done. rewrite app_nil_r in Hch.
      destruct (Hf dd Hdd Hgd ltac:(lia)) as [F1 F2 F3]. by split; rewrite Hch.
Qed.

(** *** Steps of the system *)

(** What the bridges and other sessions do: any operation of the registry. *)
Inductive cache_step : cache_state X -> cache_state X -> Prop :=
  | step_put h index value valid source updated now w :
      0 <= h -> 0 <= index -> 0 <= value < 2 ^ 64 -> 0 <= source ->
      cache_step w (snd (bvstk_cache_put h index value valid source updated now w))
  | step_presence h presence now w :
      0 <= h -> 0 <= presence ->
      cache_step w (snd (bvstk_cache_presence h presence now w))
  | step_define h ss nm count presence f w :
      0 <= h -> describes f -> 0 <= count -> 0 <= presence ->
      cache_step w (snd (bvstk_cache_define true (Some h) (Some ss) (Some nm) count presence (Some f) w))
  | step_snapshot ss nm now w :
      cache_step w (snd (bvstk_cache_snapshot true (Some ss) (Some nm) true true true now w))
  | step_next h g cur w :
      cache_step w (snd (bvstk_cache_next h g cur w)).

Lemma next_run h g cur w :
  runs (bvstk_cache_next h g cur) w (fun o w' => cs_reg w' = cs_reg w /\
    o = match device (cs_reg w) h with
        | None => (- BVSTK_CACHE_RECONFIGURED, cur, None)
        | Some d =>
            if negb (sn_generation d =? g) then (- BVSTK_CACHE_RECONFIGURED, cur, None)
            else if (rg_head (cs_reg w) <? cur) || (BVSTK_CACHE_JOURNAL_SIZE <? u64 (rg_head (cs_reg w) - cur))
            then (- BVSTK_CACHE_LOST, cur, None)
            else next_loop (Z.to_nat (rg_head (cs_reg w) - cur)) (cs_reg w) h cur
        end).
Proof. eapply runs_mono; [apply guarded_query|]. by intros o w' [-> ->]. Qed.

Definition named r (ss nm : list Z) (i : Z) : bool :=
  negb (sn_generation ((rg_devices r).[i]) =? 0) && streq ss (sn_subsystem ((rg_devices r).[i])) &&
  streq nm (sn_device ((rg_devices r).[i])).

Lemma snapshot_run ss nm now w :
  runs (bvstk_cache_snapshot true (Some ss) (Some nm) true true true now) w (fun o w' => cs_reg w' = cs_reg w /\
    o = match for_find (Z.to_nat BVSTK_CACHE_DEVICES_MAX) 0 (named (cs_reg w) ss nm) with
        | Some i => (BVSTK_OK, Some (with_captured now ((rg_devices (cs_reg w)).[i]), u16 (i + 1), rg_head (cs_reg w)))
        | None => (BVSTK_ERR_NOT_FOUND, None)
        end).
Proof. eapply runs_mono; [apply guarded_query|]. by intros o w' [-> ->]. Qed.

(** A step either leaves the registry, appends a recorded change, or defines. *)
Lemma step_cases w w' : cache_step w w' -> registry_wf (cs_reg w) ->
  cs_reg w' = cs_reg w \/
  (exists h d d' kind e t, device (cs_reg w) h = Some d /\ 0 <= h /\ device_ok d' /\
     sn_subsystem d' = sn_subsystem d /\ sn_device d' = sn_device d /\ recorded d d' kind e /\
     cs_reg w' = append h d' kind e t (cs_reg w)) \/
  (exists h ss nm count presence st h', define_effect h ss nm count presence (cs_reg w) st h' (cs_reg w')).
Proof.
  intros Hst Hwf. destruct Hst as [h index value valid source updated now w Hh Hi Hv Hs|h p now w Hh Hp
    |h ss nm count p f w Hh Hf Hc Hp|ss nm now w|h g cur w].
  - pose proof (put_run h index value valid source updated now w) as Hrun. unfold runs in Hrun.
    destruct (bvstk_cache_put _ _ _ _ _ _ _ w) as [st w']. cbn [fst snd] in *. unfold put_spec in Hrun.
    destruct (device (cs_reg w) h) as [d|] eqn:Ed; [|injection Hrun; auto]. cbv zeta in Hrun.
    destruct (_ || _) eqn:Eb; [injection Hrun; auto|]. destruct ((valid =? 0) && _); [injection Hrun; auto|].
    injection Hrun as _ Hreg. rewrite Hreg. right. left. rewrite !orb_false_iff in Eb. destruct Eb as [[Eb Esrc] Hfit]. bsimp.
    pose proof Ed as Ed'. apply device_spec in Ed' as (Hr & Hlv & Hde); [|done].
    assert (device_ok d) as Hd by (rewrite Hde; apply (rw_live _ Hwf); [lia|done]).
    match goal with |- context [append h ?dd _ (Some ?e) _ _] => exists h, d, dd, BVSTK_CACHE_CHANGE, (Some e), now end.
    split; [done|]. split; [done|].
    pose proof (do_alen d Hd). pose proof (do_count d Hd).
    split; [apply device_ok_update; [exact Hd|apply (do_presence d Hd)|rewrite alen_aset; apply (do_alen d Hd)|
      apply entries_ok_set; [lia|lia|apply (do_entries d Hd)|apply put_entry_ok; [exact Hd|lia|done|lia|done]|by rewrite normalize_id]]|].
    split; [done|]. split; [done|]. split; [|reflexivity]. apply put_recorded; [exact Hd|lia|by rewrite normalize_id].
  - pose proof (presence_run h p now w) as Hrun. unfold runs in Hrun.
    destruct (bvstk_cache_presence _ _ _ w) as [st w']. cbn [fst snd] in *. unfold presence_spec in Hrun.
    destruct (device (cs_reg w) h) as [d|] eqn:Ed; [|injection Hrun; auto].
    destruct (_ <? p) eqn:Eb; [injection Hrun; auto|]. destruct (negb _); [|injection Hrun; auto]. bsimp.
    injection Hrun as _ Hreg. rewrite Hreg. right. left.
    pose proof Ed as Ed'. apply device_spec in Ed' as (Hr & Hlv & Hde); [|done].
    assert (device_ok d) as Hd by (rewrite Hde; apply (rw_live _ Hwf); [lia|done]).
    exists h, d, (with_presence (u8 p) d), BVSTK_CACHE_PRESENCE, None, now. split; [done|]. split; [done|].
    split; [apply device_ok_update; [exact Hd| |apply (do_alen d Hd)|apply (do_entries d Hd)]|].
    { unfold BVSTK_CACHE_PRESENCE_UNAVAILABLE in *. rewrite u8_id by lia. lia. }
    split; [done|]. split; [done|]. split; [|reflexivity]. apply presence_recorded.
  - pose proof (define_run h ss nm count p f w Hh Hf Hc Hp) as (h' & _ & He). right. right.
    by eexists h, ss, nm, count, p, _, h'.
  - left. by destruct (snapshot_run ss nm now w).
  - left. by destruct (next_run h g cur w).
Qed.

Lemma catalogue_device r r' h : catalogue r' = catalogue r -> device r' h = device r h.
Proof. unfold catalogue. intros [= Hd _ _ _ _]. unfold device. by rewrite Hd. Qed.

(** Clients and well-formedness survive every step. *)
Lemma step_client w w' h g copy cur :
  cache_step w w' -> roomy (cs_reg w) -> client_ok (cs_reg w) h g copy cur -> client_ok (cs_reg w') h g copy cur.
Proof.
  intros Hst Hroom Hcl. destruct (step_cases w w' Hst (cl_wf _ _ _ _ _ Hcl)) as [->|[Happ|Hdef]]; [done|..].
  { destruct Happ as (h' & d & d' & kind & e & t & Hd & Hh' & Hok & Hss & Hnm & Hrec & ->).
    by apply append_client with d. }
  destruct Hdef as (h' & ss & nm & count & p & st & h'' & He). set (r := cs_reg w) in *. set (r' := cs_reg w') in *.
  pose proof (define_wf _ _ _ _ _ _ _ _ _ (cl_wf _ _ _ _ _ Hcl) He) as Hwf'.
  destruct Hcl as [Hwf [Hhd Hgn Hdev] Hh Hg Hc Hf]. destruct Hroom as [_ Hroom].
  assert (catalogue r' = catalogue r -> client_ok r' h g copy cur) as Hkeep.
  { intros Hcat. pose proof Hcat as Hcat'. unfold catalogue in Hcat'. injection Hcat' as E1 E2 E3 E4 _.
    assert (forall n, changes r' h cur n = changes r h cur n) as Ech by (intros n; unfold changes; by rewrite E4).
    split; rewrite ?E2, ?E3; try done.
    - split; rewrite ?E2, ?E3; try done. intros i Hi. unfold live. rewrite E1. apply Hdev; done.
    - intros d Hd Hgd Hl. rewrite (catalogue_device _ _ _ Hcat) in Hd. destruct (Hf d Hd Hgd Hl) as [F1 F2 F3].
      split; rewrite ?E3, ?Ech; done. }
  destruct st; cbn [define_effect] in He; try contradiction; try (apply Hkeep; tauto).
  destruct He as (i & d & Hi & _ & _ & _ & Hcat & _ & _ & _ & Hgd & Hrd & _).
  unfold catalogue in Hcat. injection Hcat as E1 E2 E3 E4 _. rewrite next_generation_small in * by lia.
  pose proof (rw_devices _ Hwf) as Hlen.
  assert (forall k, 0 <= k < BVSTK_CACHE_DEVICES_MAX -> (rg_devices r').[k] = if decide (k = i) then d else (rg_devices r).[k]) as Hget.
  { intros k Hk. rewrite E1. destruct (decide _) as [->|]; [by rewrite aget_aset_eq by lia|by rewrite aget_aset_ne by lia]. }
  assert (forall n, changes r' h cur n = changes r h cur n) as Ech by (intros n; unfold changes; by rewrite E4).
  split; rewrite ?E2, ?E3; try done; [|lia|].
  - split; rewrite ?E2, ?E3; [done|lia|]. intros k Hk. unfold live. rewrite Hget by done. destruct (decide (k = i)).
    + intros _. lia.
    + intros Hl. destruct (Hdev k Hk Hl). lia.
  - intros dd Hdd Hgdd Hl. apply device_spec in Hdd as (Hhr & Hlv & ->); [|lia].
    unfold live in Hlv. rewrite Hget in * by lia. destruct (decide (h - 1 = i)) as [|Hne]; [lia|].
    assert (device r h = Some ((rg_devices r).[h - 1])) as Hdr by (apply device_spec; [lia|done]).
    destruct (Hf _ Hdr Hgdd Hl) as [F1 F2 F3]. split; rewrite ?E3, ?Ech; done.
Qed.

Lemma next_loop_spec k r h cur :
  match changes r h cur (Z.of_nat k) with
  | [] => next_loop k r h cur = (0, cur + Z.of_nat k, None)
  | c :: rest => exists cur', next_loop k r h cur = (1, cur', Some c) /\ cur < cur' <= cur + Z.of_nat k /\
      rest = changes r h cur' (cur + Z.of_nat k - cur')
  end.
Proof.
  revert cur. induction k as [|k IH]; intros cur; cbn [next_loop].
  { cbn. by rewrite Z.add_0_r. }
  unfold changes. rewrite seqZ_cons by lia. cbn [map].
  replace (Z.succ cur) with (cur + 1) by lia. replace (Z.pred (Z.of_nat (S k))) with (Z.of_nat k) by lia.
  set (c := (rg_journal r).[cur mod BVSTK_CACHE_JOURNAL_SIZE]). rewrite filter_cons.
  destruct (ch_handle c =? h) eqn:E; bsimp.
  - rewrite decide_True by done. exists (cur + 1). split; [done|]. split; [lia|].
    unfold changes. do 3 f_equal. lia.
  - rewrite decide_False by done. specialize (IH (cur + 1)). unfold changes in IH.
    destruct (filter _ _) as [|c' rest].
    + rewrite IH. do 2 f_equal. lia.
    + destruct IH as (cur' & -> & Hr & ->). exists cur'. split; [done|]. split; [lia|]. unfold changes. do 3 f_equal. lia.
Qed.

Lemma changes_short r h cur n : registry_wf r -> Forall (fun c => name_short (ch_entry c)) (changes r h cur n).
Proof.
  intros Hwf. apply Forall_forall. intros c Hc. apply list_elem_of_filter in Hc as [_ Hc].
  apply list_elem_of_In, in_map_iff in Hc as (k & <- & _). apply (rw_changes r Hwf). by apply Z.mod_pos_bound.
Qed.

(** *** The client's own reads *)

(** What a client in step gets from its next read. *)
Definition read_outcome r (h g : Z) (copy : bvstk_cache_snapshot_t) (cur : Z) (o : Z * Z * option bvstk_cache_change_t) : Prop :=
  match o with
  | (0, cur', _) => client_ok r h g copy cur' /\ exists d, device r h = Some d /\ sn_generation d = g /\ uncaptured copy = uncaptured d
  | (1, cur', Some c) => cur < cur' /\ rg_head r - cur <= BVSTK_CACHE_JOURNAL_SIZE /\
      ch_revision c = sn_revision copy + 1 /\ ch_revision c <= rg_head r /\ name_short (ch_entry c) /\ client_ok r h g (applies copy c) cur'
  | (-1, cur', _) => cur' = cur /\ BVSTK_CACHE_JOURNAL_SIZE < rg_head r - cur
  | (-2, cur', _) => cur' = cur /\ forall d, device r h = Some d -> sn_generation d <> g
  | _ => False
  end.

Lemma applies_uncaptured d c : applies (uncaptured d) c = uncaptured (applies d c).
Proof.
  unfold applies. cbn [with_presence with_revision uncaptured with_captured sn_count sn_entries].
  destruct (_ =? _); [|done]. by destruct (for_find _ _ _).
Qed.

Lemma applies_revision d c : sn_revision (applies d c) = ch_revision c.
Proof. unfold applies. destruct (_ =? _); [|done]. by destruct (for_find _ _ _). Qed.

Lemma client_read r h g copy cur w :
  cs_reg w = r -> client_ok r h g copy cur ->
  runs (bvstk_cache_next h g cur) w (fun o w' => cs_reg w' = r /\ read_outcome r h g copy cur o).
Proof.
  intros <- Hcl. set (r := cs_reg w) in *. eapply runs_mono; [apply next_run|]. intros o w' [-> ->]. fold r. split; [done|].
  destruct Hcl as [Hwf [Hhd Hgn Hdev] Hh Hg Hc Hf].
  destruct (device r h) as [d|] eqn:Ed.
  2:{ cbn. split; [done|]. intros d Hd. congruence. }
  destruct (sn_generation d =? g) eqn:Eg; cbn [negb]; bsimp.
  2:{ cbn. split; [done|]. intros d2 Hd2. congruence. }
  rewrite (proj2 (Z.ltb_ge (rg_head r) cur)) by lia. rewrite (u64_id (rg_head r - cur)) by lia. cbn [orb].
  destruct (BVSTK_CACHE_JOURNAL_SIZE <? rg_head r - cur) eqn:El; bsimp; [by split|].
  destruct (Hf d eq_refl Eg El) as [F1 F2 F3].
  pose proof (next_loop_spec (Z.to_nat (rg_head r - cur)) r h cur) as Hn. rewrite Z2Nat.id in Hn by lia.
  pose proof (changes_short r h cur (rg_head r - cur) Hwf) as Hsh.
  destruct (changes r h cur (rg_head r - cur)) as [|c rest].
  - rewrite Hn. cbn [read_outcome]. cbn in F1. split; [|by exists d].
    replace (cur + (rg_head r - cur)) with (rg_head r) by lia. cbn [length] in F3.
    split; try done; [lia|]. intros d2 Hd2 _ _. rewrite Ed in Hd2. injection Hd2 as <-.
    assert (changes r h (rg_head r) (rg_head r - rg_head r) = []) as Hch by (unfold changes; by rewrite Z.sub_diag).
    split; rewrite Hch; cbn [length map foldl]; [done|done|lia].
  - destruct Hn as (cur' & -> & Hr & Hrest). replace (cur + (rg_head r - cur) - cur') with (rg_head r - cur') in Hrest by lia.
    cbn [read_outcome]. cbn [length map foldl] in F1, F2, F3. rewrite Nat2Z.inj_succ in *.
    rewrite seqZ_cons in F2 by lia. injection F2 as F2 F4.
    apply Forall_cons in Hsh as [Hc1 _]. apply device_spec in Ed as Ed'; [|lia]. destruct Ed' as (Hr1 & Hl1 & Hd1).
    pose proof (Hdev (h - 1) ltac:(unfold BVSTK_CACHE_DEVICES_MAX in *; lia) Hl1) as [Hrv _]. rewrite <- Hd1 in Hrv.
    split; [lia|]. split; [lia|]. split; [done|]. split; [lia|]. split; [exact Hc1|]. split; try done; [lia|].
    intros d' Hd' Hgd Hl. rewrite Ed in Hd'. injection Hd' as <-. rewrite Hrest in *. split.
    + rewrite <- applies_uncaptured. exact F1.
    + rewrite applies_revision, F4, F2. f_equal; lia.
    + rewrite applies_revision. lia.
Qed.

(** A snapshot puts its holder in step. *)
Lemma snapshot_client ss nm now w copy h cur w' :
  registry_wf (cs_reg w) -> counters_ok (cs_reg w) ->
  bvstk_cache_snapshot true (Some ss) (Some nm) true true true now w = ((BVSTK_OK, Some (copy, h, cur)), w') ->
  cs_reg w' = cs_reg w /\ client_ok (cs_reg w) h (sn_generation copy) copy cur.
Proof.
  intros Hwf Hco Hs. pose proof (snapshot_run ss nm now w) as Hrun. unfold runs in Hrun. rewrite Hs in Hrun.
  cbn [fst snd] in Hrun. destruct Hrun as [Hw Ho]. split; [done|]. set (r := cs_reg w) in *.
  destruct (for_find _ 0 _) as [i|] eqn:Ef; [|done]. injection Ho as -> -> ->.
  apply for_find_Some in Ef as (Hi & Hn & _). unfold named in Hn. rewrite !andb_true_iff, negb_true_iff in Hn.
  destruct Hn as [[Hl _] _]. bsimp. change (0 + Z.of_nat (Z.to_nat BVSTK_CACHE_DEVICES_MAX)) with BVSTK_CACHE_DEVICES_MAX in Hi.
  rewrite u16_id by (unfold BVSTK_CACHE_DEVICES_MAX in Hi; lia).
  pose proof (co_devices _ Hco i Hi Hl) as [Hrv Hgv].
  split; [done|done|unfold BVSTK_CACHE_DEVICES_MAX in *; lia|cbn [sn_generation with_captured]; lia|pose proof (co_head _ Hco); lia|].
  intros d Hd _ _. apply device_spec in Hd as (_ & _ & ->); [|lia]. replace (i + 1 - 1) with i by lia.
  assert (changes r (i + 1) (rg_head r) (rg_head r - rg_head r) = []) as Hch by (unfold changes; by rewrite Z.sub_diag).
  split; rewrite ?Hch; cbn; [done|done|lia].
Qed.

(** A fresh registry, and what steps keep of it. *)
Lemma init_client (guard : option (bvstk_cache_guard_t X)) : client_ok (bvstk_cache_init guard) 1 (-1) zero_snapshot 0.
Proof.
  assert (forall i, ~ live (bvstk_cache_init guard) i) as Hn.
  { intros i Hl. apply Hl. unfold bvstk_cache_init. cbn [rg_devices]. unfold aget, fill.
    rewrite list_lookup_total_alt. destruct (replicate _ _ !! _) eqn:E; [|done].
    by apply lookup_replicate in E as [-> _]. }
  split; [apply init_wf| |done|done|done|].
  - split; [done|done|]. intros i _ Hl. by destruct (Hn i).
  - intros d Hd. apply device_spec in Hd as (_ & Hl & _); [by destruct (Hn _ Hl)|lia].
Qed.

Lemma step_wf w w' : cache_step w w' -> registry_wf (cs_reg w) -> registry_wf (cs_reg w').
Proof.
  intros Hst Hwf. destruct (step_cases w w' Hst Hwf) as [->|[Happ|Hdef]]; [done|..].
  - destruct Happ as (h & d & d' & kind & e & t & Hd & Hh & Hok & Hss & Hnm & (Hg & _ & Hsh & _) & ->). by apply append_wf with d.
  - destruct Hdef as (h & ss & nm & count & p & st & h' & He). exact (define_wf _ _ _ _ _ _ _ _ _ Hwf He).
Qed.

(** ** The system: any operations of others, and one client reading *)

(** An operation while the 64-bit head and the 32-bit generation have room. *)
Definition busy_step w w' : Prop := cache_step w w' /\ roomy (cs_reg w).

(** A client of the device [h] at generation [g] with its copy and its cursor. *)
Inductive sync_step (h g : Z) : cache_state X * bvstk_cache_snapshot_t * Z -> cache_state X * bvstk_cache_snapshot_t * Z -> Prop :=
  | sync_other w w' copy cur : busy_step w w' -> sync_step h g (w, copy, cur) (w', copy, cur)
  | sync_read w w' copy cur cur' c :
      bvstk_cache_next h g cur w = ((1, cur', Some c), w') -> sync_step h g (w, copy, cur) (w', applies copy c, cur').

Definition synced (h g : Z) (s : cache_state X * bvstk_cache_snapshot_t * Z) : Prop :=
  let '(w, copy, cur) := s in client_ok (cs_reg w) h g copy cur.

Lemma sync_step_ok h g s s' : sync_step h g s s' -> synced h g s -> synced h g s'.
Proof.
  intros [w w' copy cur [Hst Hroom]|w w' copy cur cur' c Hn] Hs; cbn [synced] in *.
  - by apply step_client with w.
  - pose proof (client_read (cs_reg w) h g copy cur w eq_refl Hs) as Hr. unfold runs in Hr. rewrite Hn in Hr. cbn [fst snd read_outcome] in Hr.
    destruct Hr as (-> & _ & _ & _ & _ & _ & Hr). exact Hr.
Qed.

Lemma rtc_keeps {S} (R : S -> S -> Prop) (P : S -> Prop) :
  (forall s s', R s s' -> P s -> P s') -> forall s s', rtc R s s' -> P s -> P s'.
Proof. intros Hstep s s' Hr. induction Hr as [|s t s' Hst _ IH]; [done|]. intros Hs. apply IH. by apply (Hstep s). Qed.

Lemma busy_rtc guard x w : rtc busy_step (CacheState (bvstk_cache_init guard) x) w ->
  registry_wf (cs_reg w) /\ counters_ok (cs_reg w).
Proof.
  intros Hr. assert (client_ok (cs_reg w) 1 (-1) zero_snapshot 0) as Hc; [|split; [exact (cl_wf _ _ _ _ _ Hc)|exact (cl_counters _ _ _ _ _ Hc)]].
  apply (rtc_keeps busy_step (fun w => client_ok (cs_reg w) 1 (-1) zero_snapshot 0)) in Hr; [exact Hr| |apply init_client].
  intros s s' [Hst Hroom] Hs. by apply step_client with s.
Qed.

(** The client as the program's clients run it: read until nothing is left. *)
Fixpoint drain (k : nat) (h g : Z) (copy : bvstk_cache_snapshot_t) (cur : Z) : ST (cache_state X) (Z * bvstk_cache_snapshot_t * Z) :=
  match k with
  | O => st_ret (1, copy, cur)
  | S k =>
      let! o := bvstk_cache_next h g cur in
      match o with
      | (1, cur', Some c) => drain k h g (applies copy c) cur'
      | (st, cur', _) => st_ret (st, copy, cur')
      end
  end.

(** Where a drain ends. *)
Definition drained r (h g cur : Z) (o : Z * bvstk_cache_snapshot_t * Z) : Prop :=
  let '(st, copy, _) := o in
  (st = 0 /\ exists d, device r h = Some d /\ sn_generation d = g /\ uncaptured copy = uncaptured d) \/
  (st = - BVSTK_CACHE_LOST /\ BVSTK_CACHE_JOURNAL_SIZE < rg_head r - cur) \/
  (st = - BVSTK_CACHE_RECONFIGURED /\ forall d, device r h = Some d -> sn_generation d <> g).

Lemma drain_run k r h g copy cur w :
  cs_reg w = r -> client_ok r h g copy cur -> (0 < k)%nat ->
  (rg_head r - cur < Z.of_nat k \/ BVSTK_CACHE_JOURNAL_SIZE < rg_head r - cur) ->
  runs (drain k h g copy cur) w (fun o w' => cs_reg w' = r /\ drained r h g cur o).
Proof.
  revert copy cur w. induction k as [|k IH]; intros copy cur w Hw Hcl Hk Hn; [lia|]. cbn [drain].
  apply runs_bind. eapply runs_mono; [by apply (client_read r h g copy)|].
  intros [[st cur'] c] w1 [E1 Hro].
  assert (st = 0 \/ st = 1 /\ is_Some c \/ st = -1 \/ st = -2) as Hst.
  { cbn in Hro. destruct st as [|[| |]|[[| |]|[| |]|]], c; try contradiction; eauto. }
  destruct Hst as [->|[[-> [c' ->]]|[->| ->]]]; cbn in Hro.
  - destruct Hro as [_ Hro]. apply runs_ret. split; [done|]. by left.
  - destruct Hro as (Hlt & Hj & _ & _ & _ & Hcl'). pose proof (cl_cursor _ _ _ _ _ Hcl') as Hcur.
    eapply runs_mono; [apply (IH (applies copy c') cur' w1 E1 Hcl'); lia|].
    intros [[st' copy'] cur2] w2 [E2 Hd]. split; [done|]. cbn in *. destruct Hd as [Hd|[[_ Hd]|Hd]]; [by left|lia|by right; right].
  - apply runs_ret. split; [done|]. right. left. cbn. tauto.
  - apply runs_ret. split; [done|]. right. right. cbn. tauto.
Qed.

(** ** Properties *)

(** C26: the type invariant of the cache registry.  Whatever definitions,
    updates, presence changes, snapshots and reads are made on a fresh
    registry, every device in use has terminated valid names, at most 256
    resources with different valid names, widths of 1 to 64 bits, values that
    fit their width, cleared values where invalid, sources and presences of the
    enumerations, and no two devices share both names. *)
Theorem cache_registry_invariant (guard : option (bvstk_cache_guard_t X)) (x : X) w :
  rtc cache_step (CacheState (bvstk_cache_init guard) x) w -> registry_wf (cs_reg w).
Proof. intros Hr. apply (rtc_keeps _ (fun w => registry_wf (cs_reg w)) step_wf _ _ Hr). apply init_wf. Qed.

(** A definition is all or nothing.  Whatever the describe callback hands
    over, the call either puts one device with a fresh generation and revision
    0 in a free slot (or in the slot of its handle) and returns the handle of
    that slot, or it refuses - unknown handle, names another device has, no
    free slot, malformed arguments or resources - and leaves every device, the
    generation counter, the journal and the handle as they were. *)
Theorem cache_define_atomic h ss nm count presence f w :
  0 <= h -> describes f -> 0 <= count -> 0 <= presence ->
  runs (bvstk_cache_define true (Some h) (Some ss) (Some nm) count presence (Some f)) w (fun o w' => exists h',
    snd o = Some h' /\ define_effect h ss nm count presence (cs_reg w) (fst o) h' (cs_reg w')).
Proof. apply define_run. Qed.

(** C9: the journal refines the live device.  A client that took a snapshot
    and applied each change it read is, under any interleaving with other
    operations, told the truth by its next read: 0 only when its copy is the
    device's current contents, 1 with the change that takes its copy to the next
    revision, -1 (lost) only when it is more than 512 changes behind, and -2
    (reconfigured) only when the device is gone or of another generation. *)
Theorem cache_client_sync (guard : option (bvstk_cache_guard_t X)) (x : X) ss nm now w0 copy0 h cur0 w1 w copy cur :
  rtc busy_step (CacheState (bvstk_cache_init guard) x) w0 ->
  bvstk_cache_snapshot true (Some ss) (Some nm) true true true now w0 = ((BVSTK_OK, Some (copy0, h, cur0)), w1) ->
  let g := sn_generation copy0 in
  rtc (sync_step h g) (w1, copy0, cur0) (w, copy, cur) ->
  runs (bvstk_cache_next h g cur) w (fun o w' => cs_reg w' = cs_reg w /\ read_outcome (cs_reg w) h g copy cur o).
Proof.
  intros Hr Hs g Hy. destruct (busy_rtc _ _ _ Hr) as [Hwf Hco].
  destruct (snapshot_client _ _ _ _ _ _ _ _ Hwf Hco Hs) as [E1 Hcl]. rewrite <- E1 in Hcl.
  apply client_read; [done|]. exact (rtc_keeps _ (synced h g) (sync_step_ok h g) _ _ Hy Hcl).
Qed.

(** C22: a client catches up.  From whatever state the interleaving has
    reached, 513 reads are enough: the client ends with the device's current
    contents, or knows that it lost changes (it was more than 512 behind) or
    that the device was reconfigured. *)
Theorem cache_client_catches_up (guard : option (bvstk_cache_guard_t X)) (x : X) ss nm now w0 copy0 h cur0 w1 w copy cur :
  rtc busy_step (CacheState (bvstk_cache_init guard) x) w0 ->
  bvstk_cache_snapshot true (Some ss) (Some nm) true true true now w0 = ((BVSTK_OK, Some (copy0, h, cur0)), w1) ->
  let g := sn_generation copy0 in
  rtc (sync_step h g) (w1, copy0, cur0) (w, copy, cur) ->
  runs (drain (S (Z.to_nat BVSTK_CACHE_JOURNAL_SIZE)) h g copy cur) w
    (fun o w' => cs_reg w' = cs_reg w /\ drained (cs_reg w) h g cur o).
Proof.
  intros Hr Hs g Hy. destruct (busy_rtc _ _ _ Hr) as [Hwf Hco].
  destruct (snapshot_client _ _ _ _ _ _ _ _ Hwf Hco Hs) as [E1 Hcl]. rewrite <- E1 in Hcl.
  apply drain_run; [done| |lia|unfold BVSTK_CACHE_JOURNAL_SIZE; lia].
  exact (rtc_keeps _ (synced h g) (sync_step_ok h g) _ _ Hy Hcl).
Qed.
End registry.

(** ** A registry with one device of two resources *)

Definition demo_name (c : Z) : list Z := [c; 0].
Definition demo_describe (i : Z) (e : bvstk_cache_entry_t) (x : unit) : bvstk_cache_entry_t * unit :=
  (CatEntry (demo_name (97 + i mod 2)) 5 0 8 1 BVSTK_CACHE_SOURCE_SETTINGS, x).
Definition demo_fresh : cache_state unit := CacheState (bvstk_cache_init None) tt.
Definition demo_define (count : Z) : ST (cache_state unit) (bvstk_status_t * option Z) :=
  bvstk_cache_define true (Some 0) (Some (demo_name 115)) (Some (demo_name 100)) count 1 (Some demo_describe).
Definition demo_defined : cache_state unit := snd (demo_define 2 demo_fresh).
Definition demo_copy : bvstk_cache_snapshot_t := with_captured 7 ((rg_devices (cs_reg demo_defined)).[0]).
Definition demo_put : cache_state unit := snd (bvstk_cache_put 1 1 200 1 BVSTK_CACHE_SOURCE_DEVICE 9 9 demo_defined).
Definition demo_change : bvstk_cache_change_t := (rg_journal (cs_reg demo_put)).[0].

(** The third resource repeats a name: the definition is refused. *)
Example demo_refused : fst (demo_define 3 demo_fresh) = (BVSTK_ERR_MALFORMED, Some 0).
Proof. vm_compute. reflexivity. Qed.

Lemma demo_describes : describes demo_describe.
Proof. intros i e x. unfold demo_describe. cbn [fst en_value en_width_bits en_source]. unfold BVSTK_CACHE_SOURCE_SETTINGS. lia. Qed.

Lemma demo_reach : rtc busy_step (CacheState (bvstk_cache_init None) tt) demo_defined.
Proof.
  apply rtc_once. split; [|by split; vm_compute].
  apply (step_define 0 (demo_name 115) (demo_name 100) 2 1 demo_describe); [done|apply demo_describes|done|done].
Qed.

Lemma demo_put_step : busy_step demo_defined demo_put.
Proof. split; [apply (step_put 1 1 200 1 BVSTK_CACHE_SOURCE_DEVICE 9 9); done|by split; vm_compute]. Qed.

Lemma cache_registry_invariant_witness : registry_wf (cs_reg demo_defined).
Proof.
  apply (cache_registry_invariant None tt). apply rtc_once.
  apply (step_define 0 (demo_name 115) (demo_name 100) 2 1 demo_describe); [done|apply demo_describes|done|done].
Defined.

Lemma cache_define_atomic_witness :
  runs (demo_define 2) demo_fresh (fun o w' => exists h', snd o = Some h' /\
    define_effect 0 (demo_name 115) (demo_name 100) 2 1 (cs_reg demo_fresh) (fst o) h' (cs_reg w')).
Proof. apply cache_define_atomic; [done|apply demo_describes|done|done]. Defined.

(** The client with the snapshot at revision 0 reads after the put. *)
Lemma cache_client_sync_witness :
  runs (bvstk_cache_next 1 1 0) demo_put (fun o w' => cs_reg w' = cs_reg demo_put /\
    read_outcome (cs_reg demo_put) 1 1 demo_copy 0 o).
Proof.
  apply (cache_client_sync None tt (demo_name 115) (demo_name 100) 7 demo_defined demo_copy 1 0 demo_defined).
  - apply demo_reach.
  - vm_compute. reflexivity.
  - apply rtc_once, sync_other, demo_put_step.
Defined.

(** The same client reads the change, then drains. *)
Lemma cache_client_catches_up_witness :
  runs (drain 513 1 1 (applies demo_copy demo_change) 1) demo_put (fun o w' => cs_reg w' = cs_reg demo_put /\
    drained (cs_reg demo_put) 1 1 1 o).
Proof.
  apply (cache_client_catches_up None tt (demo_name 115) (demo_name 100) 7 demo_defined demo_copy 1 0 demo_defined).
  - apply demo_reach.
  - vm_compute. reflexivity.
  - eapply rtc_l; [apply sync_other, demo_put_step|]. apply rtc_once, sync_read. vm_compute. reflexivity.
Defined.
