(* ===== verification/Dcp2Cache.v ===== *)
(** * Dcp2Cache: cache snapshots and change events over DCP2

    [src/src/protocols/dcp2/bvstk_dcp2_cache.c]: one session per connection, with
    the snapshot being read page by page and up to eight subscriptions.  The
    state is the session and the registry it points at.  A byte pointer into the
    request is an offset into its body; the output buffer is passed through. *)
From stdpp Require Import prelude.
From Stdlib Require Import ZArith Lia.
From S2P Require Import Prelude Platform CacheRegistry.
From S2P Require Dcp2Codec.
Local Open Scope Z_scope.

Definition BVSTK_DCP2_CACHE_VERSION : Z := 1.
Definition BVSTK_DCP2_CACHE_SUBSCRIPTIONS : Z := 8.
Definition BVSTK_DCP2_CACHE_SNAPSHOT_MS : Z := 30000.
Definition BVSTK_DCP2_CACHE_PAGE_HEADER : Z := 37.
Definition BVSTK_DCP2_CACHE_EVENT_HEADER : Z := 28.
Definition BVSTK_DCP2_CACHE_GET : Z := 0x20.
Definition BVSTK_DCP2_CACHE_SUBSCRIBE : Z := 0x21.
Definition BVSTK_DCP2_CACHE_UNSUBSCRIBE : Z := 0x22.
Definition BVSTK_DCP2_CACHE_NOT_FOUND : Z := 0x0200.
Definition BVSTK_DCP2_CACHE_STALE_SNAPSHOT : Z := 0x0201.
Definition BVSTK_DCP2_CACHE_SNAPSHOT : Z := 0.
Definition BVSTK_DCP2_CACHE_RESYNC : Z := 3.

Record bvstk_dcp2_cache_subscription_t := Subscription {
  sb_cursor : Z;
  sb_revision : Z;
  sb_generation : Z;
  sb_id : Z;
  sb_handle : Z;
  sb_pending : Z;
  sb_paused : Z
}.
Definition zero_subscription : bvstk_dcp2_cache_subscription_t := Subscription 0 0 0 0 0 0 0.
#[export] Instance subscription_inhabited : Inhabited bvstk_dcp2_cache_subscription_t := populate zero_subscription.

Record bvstk_dcp2_cache_session_t := Session {
  se_snapshot : bvstk_cache_snapshot_t;
  se_subscriptions : list bvstk_dcp2_cache_subscription_t;
  se_snapshot_activity : Z;
  se_snapshot_id : Z;
  se_next_snapshot : Z;
  se_snapshot_sub : Z;
  se_snapshot_progress : Z;
  se_next_sub : Z;
  se_round_robin : Z
}.

Definition put16 := Dcp2Codec.bvstk_dcp2_write_be16.
Definition put32 := Dcp2Codec.bvstk_dcp2_write_be32.
Definition get16 (b : list Z) (o : Z) : Z := Dcp2Codec.bvstk_dcp2_read_be16 (Some b) o.
Definition get32 (b : list Z) (o : Z) : Z := Dcp2Codec.bvstk_dcp2_read_be32 (Some b) o.

Definition put64 (p : list Z) (o v : Z) : list Z := put32 (put32 p o (u32 (Z.shiftr v 32))) (o + 4) (u32 v).

(** [name (&p, &n, out)]: the advanced offset, the rest of the size and the
    written part of the buffer; [None] is the result 0. *)
Definition name (body : list Z) (p n : Z) : option (Z * Z * list Z) :=
  if n =? 0 then None
  else
    let len := body.[p] in
    let p := p + 1 in
    let n := n - 1 in
    let s := prefix len (drop (Z.to_nat p) body) in
    if (len =? 0) || (BVSTK_CACHE_NAME_MAX <=? len) || (n <? len) || bool_decide (0 ∈ s) then None
    else if bool_decide (is_Some (for_find (Z.to_nat len) 0 (fun i => negb (name_char (body.[p + i]))))) then None
    else Some (p + len, n - len, s ++ [0]).

Definition strlen (s : list Z) : Z := alen (cstr s).

(** [entry (p + o, e)]. *)
Definition entry (p : list Z) (o : Z) (e : bvstk_cache_entry_t) : list Z * Z :=
  let n := strlen (en_id e) in
  let p := p.[o <- u8 n] in
  let p := Dcp2Codec.copy_at (o + 1) n (en_id e) p in
  let o := o + (n + 1) in
  let p := ((p.[o <- en_width_bits e]).[o + 1 <- en_valid e]).[o + 2 <- en_source e] in
  let p := put64 (put64 p (o + 3) (en_value e)) (o + 11) (en_updated_ms e) in
  (p, n + 20).

(** The index of the subscription; [None] is NULL. *)
Definition subscription (s : bvstk_dcp2_cache_session_t) (id : Z) : option Z :=
  if id =? 0 then None
  else for_find (Z.to_nat BVSTK_DCP2_CACHE_SUBSCRIPTIONS) 0 (fun i => sb_id ((se_subscriptions s).[i]) =? id).

(** Field stores. *)
Definition with_subscriptions (v : list bvstk_dcp2_cache_subscription_t) (s : bvstk_dcp2_cache_session_t) :=
  Session (se_snapshot s) v (se_snapshot_activity s) (se_snapshot_id s) (se_next_snapshot s) (se_snapshot_sub s)
    (se_snapshot_progress s) (se_next_sub s) (se_round_robin s).
Definition with_capture (v : bvstk_cache_snapshot_t) (s : bvstk_dcp2_cache_session_t) :=
  Session v (se_subscriptions s) (se_snapshot_activity s) (se_snapshot_id s) (se_next_snapshot s) (se_snapshot_sub s)
    (se_snapshot_progress s) (se_next_sub s) (se_round_robin s).
Definition with_activity (v : Z) (s : bvstk_dcp2_cache_session_t) :=
  Session (se_snapshot s) (se_subscriptions s) v (se_snapshot_id s) (se_next_snapshot s) (se_snapshot_sub s)
    (se_snapshot_progress s) (se_next_sub s) (se_round_robin s).
Definition with_snapshot_id (v : Z) (s : bvstk_dcp2_cache_session_t) :=
  Session (se_snapshot s) (se_subscriptions s) (se_snapshot_activity s) v (se_next_snapshot s) (se_snapshot_sub s)
    (se_snapshot_progress s) (se_next_sub s) (se_round_robin s).
Definition with_next_snapshot (v : Z) (s : bvstk_dcp2_cache_session_t) :=
  Session (se_snapshot s) (se_subscriptions s) (se_snapshot_activity s) (se_snapshot_id s) v (se_snapshot_sub s)
    (se_snapshot_progress s) (se_next_sub s) (se_round_robin s).
Definition with_snapshot_sub (v : Z) (s : bvstk_dcp2_cache_session_t) :=
  Session (se_snapshot s) (se_subscriptions s) (se_snapshot_activity s) (se_snapshot_id s) (se_next_snapshot s) v
    (se_snapshot_progress s) (se_next_sub s) (se_round_robin s).
Definition with_progress (v : Z) (s : bvstk_dcp2_cache_session_t) :=
  Session (se_snapshot s) (se_subscriptions s) (se_snapshot_activity s) (se_snapshot_id s) (se_next_snapshot s)
    (se_snapshot_sub s) v (se_next_sub s) (se_round_robin s).
Definition with_next_sub (v : Z) (s : bvstk_dcp2_cache_session_t) :=
  Session (se_snapshot s) (se_subscriptions s) (se_snapshot_activity s) (se_snapshot_id s) (se_next_snapshot s)
    (se_snapshot_sub s) (se_snapshot_progress s) v (se_round_robin s).
Definition with_round_robin (v : Z) (s : bvstk_dcp2_cache_session_t) :=
  Session (se_snapshot s) (se_subscriptions s) (se_snapshot_activity s) (se_snapshot_id s) (se_next_snapshot s)
    (se_snapshot_sub s) (se_snapshot_progress s) (se_next_sub s) v.

Definition with_pending (v : Z) (b : bvstk_dcp2_cache_subscription_t) :=
  Subscription (sb_cursor b) (sb_revision b) (sb_generation b) (sb_id b) (sb_handle b) v (sb_paused b).
Definition with_paused (v : Z) (b : bvstk_dcp2_cache_subscription_t) :=
  Subscription (sb_cursor b) (sb_revision b) (sb_generation b) (sb_id b) (sb_handle b) (sb_pending b) v.
Definition with_cursor (v : Z) (b : bvstk_dcp2_cache_subscription_t) :=
  Subscription v (sb_revision b) (sb_generation b) (sb_id b) (sb_handle b) (sb_pending b) (sb_paused b).
Definition with_seen (v : Z) (b : bvstk_dcp2_cache_subscription_t) :=
  Subscription (sb_cursor b) v (sb_generation b) (sb_id b) (sb_handle b) (sb_pending b) (sb_paused b).

(** A store into the subscription at [i]. *)
Definition on_subscription (i : Z) (f : bvstk_dcp2_cache_subscription_t -> bvstk_dcp2_cache_subscription_t)
    (s : bvstk_dcp2_cache_session_t) : bvstk_dcp2_cache_session_t :=
  with_subscriptions ((se_subscriptions s).[i <- f ((se_subscriptions s).[i])]) s.

Definition expire (s : bvstk_dcp2_cache_session_t) (now : Z) : bvstk_dcp2_cache_session_t :=
  if negb (se_snapshot_id s =? 0) && (BVSTK_DCP2_CACHE_SNAPSHOT_MS <=? u64 (now - se_snapshot_activity s)) then
    let s :=
      match subscription s (se_snapshot_sub s) with
      | Some i =>
          if negb (sb_pending ((se_subscriptions s).[i]) =? 0)
          then on_subscription i (with_paused BVSTK_CACHE_EXPIRED) s else s
      | None => s
      end in
    with_snapshot_id 0 s
  else s.

Definition bvstk_dcp2_cache_init : bvstk_dcp2_cache_session_t :=
  Session zero_snapshot (fill BVSTK_DCP2_CACHE_SUBSCRIPTIONS zero_subscription) 0 0 0 0 0 0 0.

(** ** Pages *)

(** The loop over the entries: [k] are left; the count, the size and the buffer. *)
Fixpoint page_loop (k : nat) (v : bvstk_cache_snapshot_t) (first count used capacity : Z) (out : list Z) : Z * Z * list Z :=
  match k with
  | O => (count, used, out)
  | S k =>
      let e := (sn_entries v).[first + count] in
      if capacity - used <? strlen (en_id e) + 20 then (count, used, out)
      else
        let '(out, n) := entry out used e in
        page_loop k v first (count + 1) (used + n) capacity out
  end.

(** The 37 bytes before the entries. *)
Definition page_header (s : bvstk_dcp2_cache_session_t) (first count : Z) (out : list Z) : list Z :=
  let v := se_snapshot s in
  let out := (out.[0 <- BVSTK_DCP2_CACHE_VERSION]).[1 <- BVSTK_DCP2_CACHE_SNAPSHOT] in
  let out := put32 (put16 out 2 (se_snapshot_sub s)) 4 (se_snapshot_id s) in
  let out := put64 (put64 (put32 out 8 (sn_generation v)) 12 (sn_revision v)) 20 (sn_captured_ms v) in
  let out := put16 (put16 (put16 out 28 (sn_count v)) 30 (u16 first)) 32 (u16 count) in
  let out := put16 out 34 (if first + count =? sn_count v then 0xFFFF else u16 (first + count)) in
  out.[36 <- sn_presence v].

(** The result, [*size] when it is stored, the buffer and the session. *)
Definition page (s : bvstk_dcp2_cache_session_t) (first : Z) (out : list Z) (capacity : Z)
    : (Z * option Z * list Z) * bvstk_dcp2_cache_session_t :=
  let v := se_snapshot s in
  if sn_count v <? first then ((6, None, out), s)
  else if capacity <? BVSTK_DCP2_CACHE_PAGE_HEADER then ((6, None, out), s)
  else
    let '(count, used, out) :=
      page_loop (Z.to_nat (sn_count v - first)) v first 0 BVSTK_DCP2_CACHE_PAGE_HEADER capacity out in
    if (count =? 0) && (first <? sn_count v) then ((6, None, out), s)
    else
      let out := page_header s first count out in
      let sub := subscription s (se_snapshot_sub s) in
      let s := if first =? se_snapshot_progress s then with_progress (u16 (first + count)) s else s in
      let s :=
        match sub with
        | Some i => if se_snapshot_progress s =? sn_count v then on_subscription i (with_pending 0) s else s
        | None => s
        end in
      ((0, Some (u16 used), out), s).

(** ** Requests *)

Section session.
Context {X : Type}.

(** A connection: its session and the registry the session points at. *)
Record connection := Connection { cn_session : bvstk_dcp2_cache_session_t; cn_cache : cache_state X }.

Definition sess {A} (f : bvstk_dcp2_cache_session_t -> A) : ST connection A := st_get (fun c => f (cn_session c)).
Definition upd (f : bvstk_dcp2_cache_session_t -> bvstk_dcp2_cache_session_t) : ST connection unit :=
  st_mod (fun c => Connection (f (cn_session c)) (cn_cache c)).
Definition on_cache {A} (m : ST (cache_state X) A) : ST connection A := fun c =>
  let '(a, w) := m (cn_cache c) in (a, Connection (cn_session c) w).

(** A call of [page] that gives the answer: the status, [*out_size] and the buffer. *)
Definition paged (first : Z) (out : list Z) (capacity : Z) : ST connection (Z * Z * list Z) := fun c =>
  let '((st, size, out), s) := page (cn_session c) first out capacity in
  ((st, default 0 size, out), Connection s (cn_cache c)).

Definition unsubscribe (body : list Z) (size : Z) : ST connection Z :=
  if negb (size =? 2) then st_ret 1
  else
    let! sub := sess (fun s => subscription s (get16 body 1)) in
    match sub with
    | None => st_ret BVSTK_DCP2_CACHE_NOT_FOUND
    | Some i =>
        upd (fun s => if se_snapshot_sub s =? sb_id ((se_subscriptions s).[i])
                      then with_snapshot_id 0 (with_snapshot_sub 0 s) else s) ;;
        upd (on_subscription i (fun _ => zero_subscription)) ;;
        st_ret 0
    end.

(** The subscription a capture of [handle] goes to: the one it already has, or
    the first free one. *)
Definition free_subscription (s : bvstk_dcp2_cache_session_t) : option Z :=
  for_find (Z.to_nat BVSTK_DCP2_CACHE_SUBSCRIPTIONS) 0 (fun i => sb_id ((se_subscriptions s).[i]) =? 0).
Definition target_subscription (s : bvstk_dcp2_cache_session_t) (handle : Z) (free : option Z) : option Z :=
  match for_find (Z.to_nat BVSTK_DCP2_CACHE_SUBSCRIPTIONS) 0 (fun i =>
      negb (sb_id ((se_subscriptions s).[i]) =? 0) && (sb_handle ((se_subscriptions s).[i]) =? handle)) with
  | Some i => Some i
  | None => free
  end.

(** The subscription is refused. *)
Definition subscription_full (s : bvstk_dcp2_cache_session_t) (sub : option Z) : bool :=
  match sub with
  | None => true
  | Some i => (sb_id ((se_subscriptions s).[i]) =? 0) && (se_next_sub s =? 65535)
  end.

(** The subscription set up at [i] for the snapshot just taken. *)
Definition start_subscription (i handle cursor : Z) (s : bvstk_dcp2_cache_session_t) : bvstk_dcp2_cache_session_t :=
  let b := (se_subscriptions s).[i] in
  let next := if sb_id b =? 0 then u16 (se_next_sub s + 1) else se_next_sub s in
  let id := if sb_id b =? 0 then next else sb_id b in
  let b := Subscription cursor (sn_revision (se_snapshot s)) (sn_generation (se_snapshot s)) id handle 1 0 in
  with_snapshot_sub id (with_subscriptions ((se_subscriptions s).[i <- b]) (with_next_sub next s)).

(** [if (++s->next_snapshot == 0) ++s->next_snapshot] and the stores after it. *)
Definition issue_snapshot (now : Z) (s : bvstk_dcp2_cache_session_t) : bvstk_dcp2_cache_session_t :=
  let id := u32 (se_next_snapshot s + 1) in
  let id := if id =? 0 then u32 (id + 1) else id in
  with_activity now (with_snapshot_id id (with_next_snapshot id s)).

(** A subscription still waits for the pages of the snapshot. *)
Definition snapshot_busy (s : bvstk_dcp2_cache_session_t) : bool :=
  match subscription s (se_snapshot_sub s) with
  | Some i => negb (se_snapshot_id s =? 0) && negb (sb_pending ((se_subscriptions s).[i]) =? 0)
  | None => false
  end.

(** A request without a token, from the check for an unfinished snapshot on. *)
Definition capture (opcode : Z) (bus device : list Z) (now : Z) (out : list Z) (capacity : Z)
    : ST connection (Z * Z * list Z) :=
  let! busy := sess snapshot_busy in
  if busy then st_ret (4, 0, out)
  else if capacity <? BVSTK_DCP2_CACHE_PAGE_HEADER + BVSTK_CACHE_NAME_MAX - 1 + 20 then st_ret (6, 0, out)
  else
    let! free := sess (fun s => if opcode =? BVSTK_DCP2_CACHE_SUBSCRIBE then free_subscription s else None) in
    let! o := on_cache (bvstk_cache_snapshot true (Some bus) (Some device) true true true now) in
    match o with
    | (BVSTK_OK, Some (v, handle, cursor)) =>
        upd (fun s => with_progress 0 (with_snapshot_sub 0 (with_snapshot_id 0 (with_capture v s)))) ;;
        if opcode =? BVSTK_DCP2_CACHE_SUBSCRIBE then
          let! sub := sess (fun s => target_subscription s handle free) in
          let! full := sess (fun s => subscription_full s sub) in
          if full then st_ret (4, 0, out)
          else
            upd (start_subscription (default 0 sub) handle cursor) ;;
            upd (issue_snapshot now) ;;
            paged 0 out capacity
        else
          upd (issue_snapshot now) ;;
          paged 0 out capacity
    | _ => st_ret (BVSTK_DCP2_CACHE_NOT_FOUND, 0, out)
    end.

(** A request with a token: the next page of the snapshot it names. *)
Definition continue (token first : Z) (bus device : list Z) (now : Z) (out : list Z) (capacity : Z)
    : ST connection (Z * Z * list Z) :=
  let! stale := sess (fun s => negb (token =? se_snapshot_id s) || negb (streq bus (sn_subsystem (se_snapshot s))) ||
    negb (streq device (sn_device (se_snapshot s)))) in
  if stale then st_ret (BVSTK_DCP2_CACHE_STALE_SNAPSHOT, 0, out)
  else
    let! o := paged first out capacity in
    let '(st, size, out) := o in
    upd (if st =? 0 then with_activity now else fun s => s) ;;
    st_ret (st, size, out).

(** The status, [*out_size] and the output buffer. *)
Definition bvstk_dcp2_cache_request (opcode : Z) (body : list Z) (size now : Z) (out : list Z) (capacity : Z)
    : ST connection (Z * Z * list Z) :=
  upd (fun s => expire s now) ;;
  if negb (opcode =? BVSTK_DCP2_CACHE_GET) && negb (opcode =? BVSTK_DCP2_CACHE_SUBSCRIBE) &&
     negb (opcode =? BVSTK_DCP2_CACHE_UNSUBSCRIBE) then st_ret (2, 0, out)
  else if size =? 0 then st_ret (1, 0, out)
  else if negb (body.[0] =? BVSTK_DCP2_CACHE_VERSION) then st_ret (2, 0, out)
  else
    let size := size - 1 in
    if opcode =? BVSTK_DCP2_CACHE_UNSUBSCRIBE then
      let! st := unsubscribe body size in st_ret (st, 0, out)
    else
      match name body 1 size with
      | None => st_ret (1, 0, out)
      | Some (p, size, bus) =>
          match name body p size with
          | None => st_ret (1, 0, out)
          | Some (p, size, device) =>
              if opcode =? BVSTK_DCP2_CACHE_GET then
                if negb (size =? 6) then st_ret (1, 0, out)
                else
                  let token := get32 body p in
                  let first := get16 body (p + 4) in
                  if (token =? 0) && negb (first =? 0) then st_ret (1, 0, out)
                  else if negb (token =? 0) then continue token first bus device now out capacity
                  else capture opcode bus device now out capacity
              else if negb (size =? 0) then st_ret (1, 0, out)
              else capture opcode bus device now out capacity
          end
      end.

(** ** Events *)

(** The event for the subscription [i] and the result [result] of its read. *)
Definition emit_resync (i result now : Z) (out : list Z) : ST connection (Z * list Z) :=
  let! sub := sess (fun s => (se_subscriptions s).[i]) in
  let out := fill BVSTK_DCP2_CACHE_EVENT_HEADER 0 ++ drop (Z.to_nat BVSTK_DCP2_CACHE_EVENT_HEADER) out in
  let out := put32 (put16 (out.[0 <- BVSTK_DCP2_CACHE_VERSION]) 2 (sb_id sub)) 4 (sb_generation sub) in
  let out := (out.[1 <- BVSTK_DCP2_CACHE_RESYNC]).[25 <- u8 (- result)] in
  let out := put64 (put64 out 8 (sb_revision sub)) 16 now in
  upd (on_subscription i (fun b => with_paused 0xFF (with_pending 0 b))) ;;
  st_ret (BVSTK_DCP2_CACHE_EVENT_HEADER, out).

Definition emit_change (i : Z) (c : bvstk_cache_change_t) (out : list Z) : ST connection (Z * list Z) :=
  let! sub := sess (fun s => (se_subscriptions s).[i]) in
  let out := fill BVSTK_DCP2_CACHE_EVENT_HEADER 0 ++ drop (Z.to_nat BVSTK_DCP2_CACHE_EVENT_HEADER) out in
  let out := put32 (put16 (out.[0 <- BVSTK_DCP2_CACHE_VERSION]) 2 (sb_id sub)) 4 (sb_generation sub) in
  let out := put64 (put64 (out.[1 <- ch_kind c]) 8 (ch_revision c)) 16 (ch_time_ms c) in
  let out := out.[24 <- ch_presence c] in
  upd (on_subscription i (with_seen (ch_revision c))) ;;
  if ch_kind c =? BVSTK_CACHE_CHANGE then
    let out := put16 out 26 1 in
    let '(out, n) := entry out BVSTK_DCP2_CACHE_EVENT_HEADER (ch_entry c) in
    st_ret (u16 (BVSTK_DCP2_CACHE_EVENT_HEADER + n), out)
  else st_ret (BVSTK_DCP2_CACHE_EVENT_HEADER, out).

(** [bvstk_cache_next] with the subscription's cursor. *)
Definition next_change (i : Z) : ST connection (Z * option bvstk_cache_change_t) :=
  let! sub := sess (fun s => (se_subscriptions s).[i]) in
  let! o := on_cache (bvstk_cache_next (sb_handle sub) (sb_generation sub) (sb_cursor sub)) in
  let '(result, cursor, c) := o in
  upd (on_subscription i (with_cursor cursor)) ;;
  st_ret (result, c).

(** One subscription: [None] is [continue]. *)
Definition event_step (i now : Z) (out : list Z) : ST connection (option (Z * list Z)) :=
  let! sub := sess (fun s => (se_subscriptions s).[i]) in
  if (sb_id sub =? 0) || (sb_paused sub =? 0xFF) then st_ret None
  else if negb (sb_paused sub =? 0) then
    let! o := emit_resync i (- sb_paused sub) now out in st_ret (Some o)
  else if negb (sb_pending sub =? 0) then st_ret None
  else
    let! o := next_change i in
    match o with
    | (0, _) => st_ret None
    | (result, Some c) =>
        if (0 <? result) && (ch_revision c =? u64 (sb_revision sub + 1)) then
          let! o := emit_change i c out in st_ret (Some o)
        else let! o := emit_resync i (if 0 <? result then - BVSTK_CACHE_LOST else result) now out in st_ret (Some o)
    | (result, None) =>
        let! o := emit_resync i (if 0 <? result then - BVSTK_CACHE_LOST else result) now out in st_ret (Some o)
    end.

(** The loop over the subscriptions: [k] are left. *)
Fixpoint event_loop (k : nat) (now : Z) (out : list Z) : ST connection (Z * list Z) :=
  match k with
  | O => st_ret (0, out)
  | S k =>
      let! rr := sess se_round_robin in
      upd (with_round_robin (u16 (rr + 1))) ;;
      let! o := event_step (rr mod BVSTK_DCP2_CACHE_SUBSCRIPTIONS) now out in
      match o with
      | Some o => st_ret o
      | None => event_loop k now out
      end
  end.

(** The size of the event, zero when there is none, and the buffer. *)
Definition bvstk_dcp2_cache_event (now : Z) (out : list Z) (capacity : Z) : ST connection (Z * list Z) :=
  upd (fun s => expire s now) ;;
  if capacity <? BVSTK_DCP2_CACHE_EVENT_HEADER + BVSTK_CACHE_NAME_MAX - 1 + 20 then st_ret (0, out)
  else event_loop (Z.to_nat BVSTK_DCP2_CACHE_SUBSCRIPTIONS) now out.
End session.

Arguments connection : clear implicits.
