(* ===== verification/Dcp2CacheBytes.v ===== *)
(** * Dcp2CacheBytes: the frames of the cache protocol

    The bytes [Dcp2Cache] writes for an entry, a page and an event, and the
    names it reads from a request. *)
From stdpp Require Import prelude.
From Stdlib Require Import ZArith Lia.
From S2P Require Import Prelude Platform Dcp2Codec.
From S2P Require Import CacheRegistry CacheSync Dcp2Cache.
Local Open Scope Z_scope.

(** ** Stores behind a prefix *)

Lemma aset_app_r (a b : list Z) i v : 0 <= i -> aset (a ++ b) (alen a + i) v = a ++ b.[i <- v].
Proof.
  intros Hi. unfold aset, alen. rewrite insert_app_r_alt by lia.
  by replace (Z.to_nat (Z.of_nat (length a) + i) - length a)%nat with (Z.to_nat i) by lia.
Qed.

Lemma put32_app_r a b i v : 0 <= i -> put32 (a ++ b) (alen a + i) v = a ++ put32 b i v.
Proof.
  intros Hi. unfold put32, bvstk_dcp2_write_be32. rewrite <- !Z.add_assoc. by rewrite !aset_app_r by lia.
Qed.

Lemma put64_app_r a b i v : 0 <= i -> put64 (a ++ b) (alen a + i) v = a ++ put64 b i v.
Proof. intros Hi. unfold put64. rewrite <- Z.add_assoc. by rewrite !put32_app_r by lia. Qed.

Lemma copy_at_app_r a b i n src : 0 <= i -> 0 <= n -> copy_at (alen a + i) n src (a ++ b) = a ++ copy_at i n src b.
Proof.
  intros Hi Hn. unfold copy_at, alen. rewrite take_app_ge by lia. rewrite drop_app_ge by lia.
  replace (Z.to_nat (Z.of_nat (length a) + i) - length a)%nat with (Z.to_nat i) by lia.
  replace (Z.to_nat (Z.of_nat (length a) + i + n) - length a)%nat with (Z.to_nat (i + n)) by lia.
  by rewrite <- app_assoc.
Qed.

(** The first cells of a list that is long enough. *)
Tactic Notation "peel" ident(l) hyp(H) int_or_var(n) := do n (destruct l as [|? l]; [exfalso; cbn [length] in H; lia|]).

(** Compute stores at constant offsets. *)
Ltac run_stores :=
  unfold put16, put64, put32, bvstk_dcp2_write_be16, bvstk_dcp2_write_be32, aset;
  repeat match goal with |- context [Z.to_nat ?k] =>
    let m := eval cbv in (Z.to_nat k) in
    lazymatch m with context [Z.to_nat] => fail | _ => change (Z.to_nat k) with m end end;
  cbn [insert list_insert app].

(** ** Entries *)

Definition be64 (v : Z) : list Z := be32 (u32 (Z.shiftr v 32)) ++ be32 (u32 v).

Definition entry_bytes (e : bvstk_cache_entry_t) : list Z :=
  let s := cstr (en_id e) in
  [alen s] ++ s ++ [en_width_bits e; en_valid e; en_source e] ++ be64 (en_value e) ++ be64 (en_updated_ms e).

Lemma be32_length v : length (be32 v) = 4%nat. Proof. done. Qed.
Lemma be64_length v : length (be64 v) = 8%nat. Proof. done. Qed.

Lemma alen_entry_bytes e : alen (entry_bytes e) = strlen (en_id e) + 20.
Proof. unfold strlen, alen, entry_bytes. rewrite !length_app, !be64_length. cbn [length]. lia. Qed.

Lemma be64_bytes v :
  let h := u32 (Z.shiftr v 32) in let l := u32 v in
  [u8 (Z.shiftr h 24); u8 (Z.shiftr h 16); u8 (Z.shiftr h 8); u8 h;
   u8 (Z.shiftr l 24); u8 (Z.shiftr l 16); u8 (Z.shiftr l 8); u8 l] = be64 v.
Proof.
  cbv zeta. unfold be64. rewrite <- (u32_id (u32 (Z.shiftr v 32))), <- (u32_id (u32 v)) by apply u32_range.
  rewrite <- !be32_bytes. by rewrite !(u32_id (u32 _)) by apply u32_range.
Qed.

(** The 19 bytes after the name. *)
Lemma entry_tail b w v s x y : 19 <= alen b ->
  put64 (put64 (((b.[0 <- w]).[1 <- v]).[2 <- s]) 3 x) 11 y =
    [w; v; s] ++ be64 x ++ be64 y ++ drop 19 b.
Proof.
  unfold alen. intros Hb. assert (19 <= length b)%nat as Hl by lia. clear Hb. peel b Hl 19.
  rewrite <- !be64_bytes. run_stores. cbn [drop].
  done.
Qed.

Lemma cstr_is_prefix s : prefix (alen (cstr s)) s = cstr s.
Proof.
  unfold prefix, alen. rewrite Nat2Z.id. induction s as [|c s IH]; [done|]. cbn [cstr].
  destruct (c =? 0); [done|]. cbn [length take]. by rewrite IH.
Qed.

Lemma entry_spec a b e : strlen (en_id e) < 256 -> strlen (en_id e) + 20 <= alen b ->
  entry (a ++ b) (alen a) e = (a ++ entry_bytes e ++ drop (length (entry_bytes e)) b, alen (entry_bytes e)).
Proof.
  intros Hs Hl. pose proof (alen_entry_bytes e) as Ha. unfold entry. set (n := strlen (en_id e)) in *.
  pose proof (alen_nonneg (cstr (en_id e))) as Hn. change (alen (cstr (en_id e))) with n in Hn.
  f_equal; [|lia]. rewrite u8_id by lia.
  rewrite <- (Z.add_0_r (alen a)) at 1 2. rewrite aset_app_r by lia. rewrite Z.add_0_r.
  rewrite copy_at_app_r by lia.
  set (b1 := copy_at 1 n (en_id e) (b.[0 <- n])).
  assert (b1 = (n :: cstr (en_id e)) ++ drop (S (Z.to_nat n)) b) as ->.
  { unfold b1, copy_at. destruct b as [|x b]; [unfold alen in Hl; cbn in Hl; lia|].
    assert (prefix n (en_id e) = cstr (en_id e)) as -> by apply cstr_is_prefix. change (Z.to_nat 1) with 1%nat. change (Z.to_nat 0) with O.
    unfold aset. change (Z.to_nat 0) with O. cbn [insert list_insert take app]. rewrite Z2Nat.inj_add by lia. done. }
  rewrite app_assoc. set (a1 := a ++ n :: cstr (en_id e)). set (b2 := drop _ b).
  assert (alen a + (n + 1) = alen a1 + 0) as ->.
  { unfold a1, alen. rewrite length_app. cbn [length]. unfold n, strlen, alen. lia. }
  rewrite <- !Z.add_assoc. cbn [Z.add]. rewrite !aset_app_r, !put64_app_r by lia.
  rewrite entry_tail by (unfold b2, alen in *; rewrite length_drop; lia).
  unfold a1, b2, entry_bytes. change (alen (cstr (en_id e))) with n. rewrite <- !app_assoc. cbn [app]. do 4 f_equal.
  cbn [be64]. rewrite drop_drop. do 6 f_equal.
  cbn [length]. rewrite length_app. cbn [length]. rewrite length_app, !be64_length. unfold n, strlen, alen. lia.
Qed.

(** ** Pages *)

(** A list of entries on the wire. *)
Definition entries_bytes (l : list bvstk_cache_entry_t) : list Z := concat (entry_bytes <$> l).

(** The [n] entries from [first]. *)
Definition slice (v : bvstk_cache_snapshot_t) (first n : Z) : list bvstk_cache_entry_t :=
  prefix n (drop (Z.to_nat first) (sn_entries v)).

Lemma slice_cons v first n : 0 <= first -> 0 < n -> first + n <= alen (sn_entries v) ->
  slice v first n = (sn_entries v).[first] :: slice v (first + 1) (n - 1).
Proof.
  intros Hf Hn Hl. unfold slice, prefix, alen in *.
  rewrite (drop_S _ ((sn_entries v).[first]) (Z.to_nat first)) by (apply aget_lookup; unfold alen; lia).
  replace (Z.to_nat n) with (S (Z.to_nat (n - 1))) by lia. cbn [take].
  by replace (S (Z.to_nat first)) with (Z.to_nat (first + 1)) by lia.
Qed.

Lemma slice_0 v first : entries_bytes (slice v first 0) = [].
Proof. done. Qed.

Lemma slice_app v first n m : 0 <= first -> 0 <= n -> 0 <= m -> slice v first n ++ slice v (first + n) m = slice v first (n + m).
Proof.
  intros Hf Hn Hm. unfold slice, prefix. rewrite !Z2Nat.inj_add by lia. rewrite <- drop_drop. apply take_take_drop.
Qed.

(** Names short enough for the length byte. *)
Definition short_names (v : bvstk_cache_snapshot_t) : Prop :=
  forall i, 0 <= i < sn_count v -> 0 < strlen (en_id ((sn_entries v).[i])) < BVSTK_CACHE_NAME_MAX.

(** The entries that fit into [room] bytes. *)
Fixpoint fitting (k : nat) (v : bvstk_cache_snapshot_t) (i room : Z) : nat :=
  match k with
  | O => O
  | S k =>
      let n := strlen (en_id ((sn_entries v).[i])) + 20 in
      if room <? n then O else S (fitting k v (i + 1) (room - n))
  end.

Lemma fitting_le k v i room : (fitting k v i room <= k)%nat.
Proof. revert i room. induction k as [|k IH]; intros i room; cbn [fitting]; [lia|]. destruct (_ <? _); [lia|]. specialize (IH (i + 1) (room - (strlen (en_id ((sn_entries v).[i])) + 20))). lia. Qed.

Lemma page_loop_spec k v first count capacity a b :
  short_names v -> 0 <= first + count -> first + count + Z.of_nat k <= sn_count v -> sn_count v <= alen (sn_entries v) ->
  alen a <= capacity <= alen (a ++ b) ->
  let n := fitting k v (first + count) (capacity - alen a) in
  let bytes := entries_bytes (slice v (first + count) (Z.of_nat n)) in
  page_loop k v first count (alen a) capacity (a ++ b) =
    (count + Z.of_nat n, alen a + alen bytes, a ++ bytes ++ drop (length bytes) b) /\
  alen a + alen bytes <= capacity.
Proof.
  intros Hv. revert count a b. induction k as [|k IH]; intros count a b Hf Hk Hc Ha n bytes.
  { subst n bytes. cbn [page_loop fitting]. change (Z.of_nat 0) with 0. rewrite slice_0. change (alen []) with 0. cbn [length drop app].
    rewrite !Z.add_0_r. split; [done|lia]. }
  subst n bytes. cbn [page_loop fitting]. set (e := (sn_entries v).[first + count]). cbv zeta.
  pose proof (Hv (first + count) ltac:(lia)) as He. fold e in He. unfold BVSTK_CACHE_NAME_MAX in He.
  destruct (_ <? _) eqn:Ef; bsimp.
  { change (Z.of_nat 0) with 0. rewrite slice_0. change (alen []) with 0. cbn [length drop app]. rewrite !Z.add_0_r. split; [done|lia]. }
  assert (strlen (en_id e) + 20 <= alen b) as Hb by (rewrite alen_app in Ha; lia).
  rewrite entry_spec by lia. rewrite app_assoc.
  pose proof (alen_entry_bytes e) as Hel.
  assert (alen (a ++ entry_bytes e) = alen a + alen (entry_bytes e)) as Hlen by apply alen_app.
  rewrite <- Hlen.
  destruct (IH (count + 1) (a ++ entry_bytes e) (drop (length (entry_bytes e)) b)) as [-> Hfit]; [lia|lia|done| |].
  { rewrite alen_app in Ha. rewrite !alen_app. unfold alen at 5. rewrite length_drop. unfold alen in *. lia. }
  replace (first + (count + 1)) with (first + count + 1) in * by lia.
  replace (capacity - alen (a ++ entry_bytes e)) with (capacity - alen a - (strlen (en_id e) + 20)) in * by lia.
  set (m := fitting k v _ _) in *. pose proof (fitting_le k v (first + count + 1) (capacity - alen a - (strlen (en_id e) + 20))) as Hm.
  fold m in Hm.
  rewrite (slice_cons v (first + count)) by lia. fold e.
  replace (Z.of_nat (S m) - 1) with (Z.of_nat m) by lia.
  change (entries_bytes (e :: ?l)) with (entry_bytes e ++ entries_bytes l).
  set (bs := entries_bytes _) in *.
  assert (alen (entry_bytes e ++ bs) = alen (entry_bytes e) + alen bs) as Hl2 by apply alen_app.
  rewrite Hl2. split; [|lia]. f_equal; [f_equal; lia|].
  rewrite <- !app_assoc. do 3 f_equal. rewrite drop_drop, length_app. done.
Qed.

(** The 37 bytes before the entries. *)
Definition header_bytes (s : bvstk_dcp2_cache_session_t) (first count : Z) : list Z :=
  let v := se_snapshot s in
  [BVSTK_DCP2_CACHE_VERSION; BVSTK_DCP2_CACHE_SNAPSHOT] ++ be16 (u16 (se_snapshot_sub s)) ++ be32 (u32 (se_snapshot_id s)) ++
  be32 (u32 (sn_generation v)) ++ be64 (sn_revision v) ++ be64 (sn_captured_ms v) ++ be16 (u16 (sn_count v)) ++
  be16 (u16 (u16 first)) ++ be16 (u16 (u16 count)) ++
  be16 (u16 (if first + count =? sn_count v then 0xFFFF else u16 (first + count))) ++ [sn_presence v].

Lemma page_header_spec s first count a b : alen a = BVSTK_DCP2_CACHE_PAGE_HEADER ->
  page_header s first count (a ++ b) = header_bytes s first count ++ b.
Proof.
  unfold alen, BVSTK_DCP2_CACHE_PAGE_HEADER. intros Ha. assert (length a = 37%nat) as Hl by lia. clear Ha. peel a Hl 37.
  destruct a; [clear Hl|cbn [length] in Hl; lia]. unfold header_bytes. rewrite <- !be64_bytes, <- !be32_bytes, <- !be16_wrap.
  unfold page_header. cbv zeta. run_stores. done.
Qed.

Lemma alen_header s first count : alen (header_bytes s first count) = BVSTK_DCP2_CACHE_PAGE_HEADER.
Proof. done. Qed.

(** The session after a page. *)
Definition page_progress (s : bvstk_dcp2_cache_session_t) (first n : Z) : bvstk_dcp2_cache_session_t :=
  let s1 := if first =? se_snapshot_progress s then with_progress (u16 (first + n)) s else s in
  match subscription s (se_snapshot_sub s) with
  | Some i => if se_snapshot_progress s1 =? sn_count (se_snapshot s) then on_subscription i (with_pending 0) s1 else s1
  | None => s1
  end.

(** The entries of the page from [first]. *)
Definition page_count (s : bvstk_dcp2_cache_session_t) (first capacity : Z) : Z :=
  let v := se_snapshot s in
  Z.of_nat (fitting (Z.to_nat (sn_count v - first)) v first (capacity - BVSTK_DCP2_CACHE_PAGE_HEADER)).

Definition page_bytes (s : bvstk_dcp2_cache_session_t) (first n : Z) : list Z :=
  header_bytes s first n ++ entries_bytes (slice (se_snapshot s) first n).

Lemma page_spec s first out capacity :
  short_names (se_snapshot s) -> sn_count (se_snapshot s) <= alen (sn_entries (se_snapshot s)) ->
  0 <= first <= sn_count (se_snapshot s) -> 88 <= capacity <= alen out -> capacity < 65536 ->
  let n := page_count s first capacity in
  let bytes := page_bytes s first n in
  page s first out capacity = ((0, Some (alen bytes), bytes ++ drop (length bytes) out), page_progress s first n) /\
  alen bytes <= capacity /\ 0 <= n <= sn_count (se_snapshot s) - first /\ (first < sn_count (se_snapshot s) -> 0 < n).
Proof.
  intros Hv Hl Hf Hc Hcap n bytes. unfold page. set (v := se_snapshot s) in *.
  rewrite (proj2 (Z.ltb_ge (sn_count v) first)) by lia.
  unfold BVSTK_DCP2_CACHE_PAGE_HEADER at 1. rewrite (proj2 (Z.ltb_ge capacity 37)) by lia.
  rewrite <- (take_drop 37 out). set (a := take 37 out). set (b := drop 37 out).
  assert (alen a = BVSTK_DCP2_CACHE_PAGE_HEADER) as Ha.
  { unfold a, alen in *. rewrite length_take. unfold BVSTK_DCP2_CACHE_PAGE_HEADER. lia. }
  assert (alen (a ++ b) = alen out) as Hab by (unfold a, b; by rewrite take_drop).
  destruct (page_loop_spec (Z.to_nat (sn_count v - first)) v first 0 capacity a b) as [Hpl Hfit];
    [done|lia|lia|done|rewrite Ha, Hab; unfold BVSTK_DCP2_CACHE_PAGE_HEADER; lia|].
  rewrite Z.add_0_r, Ha in *. rewrite Hpl. clear Hpl.
  change (Z.of_nat (fitting _ _ _ _)) with n in *.
  set (es := entries_bytes (slice v first n)) in *.
  assert (alen bytes = BVSTK_DCP2_CACHE_PAGE_HEADER + alen es) as Hlen by (unfold bytes, page_bytes; by rewrite alen_app).
  pose proof (fitting_le (Z.to_nat (sn_count v - first)) v first (capacity - BVSTK_DCP2_CACHE_PAGE_HEADER)) as Hn.
  assert (0 <= n <= sn_count v - first) as Hnr by (unfold n, page_count; fold v; lia).
  assert (first < sn_count v -> 0 < n) as Hpos.
  { intros Hlt. unfold n, page_count. fold v. replace (Z.to_nat (sn_count v - first)) with (S (Z.to_nat (sn_count v - first - 1))) by lia.
    cbn [fitting]. pose proof (Hv first ltac:(lia)) as Hs. unfold BVSTK_CACHE_NAME_MAX, BVSTK_DCP2_CACHE_PAGE_HEADER in *.
    rewrite (proj2 (Z.ltb_ge _ _)) by lia. lia. }
  rewrite Z.add_0_l. split; [|split; [lia|done]].
  assert ((n =? 0) && (first <? sn_count v) = false) as ->.
  { apply andb_false_iff. destruct (first <? sn_count v) eqn:E; [left|by right]. bsimp. apply Z.eqb_neq. specialize (Hpos E). lia. }
  rewrite page_header_spec by done. rewrite (u16_id (BVSTK_DCP2_CACHE_PAGE_HEADER + alen es)) by (pose proof (alen_nonneg es); unfold BVSTK_DCP2_CACHE_PAGE_HEADER in *; lia). rewrite Hlen.
  assert (a ++ b = out) as -> by apply take_drop.
  unfold page_progress. fold v. f_equal. f_equal. unfold bytes, page_bytes. fold v es. rewrite <- app_assoc. do 2 f_equal.
  unfold b. rewrite drop_drop, length_app. done.
Qed.

(** ** Reading what was written *)

Lemma be32_read x : 0 <= x < 2 ^ 32 -> forall r, get32 (be32 x ++ r) 0 = x.
Proof.
  intros Hx r. unfold get32. unfold be32, be16. cbn [app].
  assert (forall k, 0 <= k < 4 -> fits 8 ((x / 65536 / 256 :: (x / 65536) mod 256 :: x mod 65536 / 256 :: (x mod 65536) mod 256 :: r).[0 + k])) as Hf.
  { intros k Hk. unfold fits. assert (k = 0 \/ k = 1 \/ k = 2 \/ k = 3) as [->|[->|[->| ->]]] by lia.
    all: unfold aget; change (Z.to_nat (0 + 0)) with 0%nat; change (Z.to_nat (0 + 1)) with 1%nat;
      change (Z.to_nat (0 + 2)) with 2%nat; change (Z.to_nat (0 + 3)) with 3%nat; cbn [lookup_total list_lookup_total].
    all: change (2 ^ 8) with 256; Z.to_euclidean_division_equations; lia. }
  rewrite read_be32_value by done. unfold aget. change (Z.to_nat 0) with 0%nat. change (Z.to_nat (0 + 1)) with 1%nat.
  change (Z.to_nat (0 + 2)) with 2%nat. change (Z.to_nat (0 + 3)) with 3%nat. cbn [lookup_total list_lookup_total].
  change (2 ^ 24) with 16777216. change (2 ^ 16) with 65536. change (2 ^ 8) with 256.
  Z.to_euclidean_division_equations. lia.
Qed.

Lemma be16_get x : 0 <= x < 2 ^ 16 -> forall r, get16 (be16 x ++ r) 0 = x.
Proof.
  intros Hx r. unfold get16, be16. cbn [app].
  rewrite read_be16_value; unfold fits, aget; change (Z.to_nat 0) with 0%nat; change (Z.to_nat (0 + 1)) with 1%nat;
    cbn [lookup_total list_lookup_total]; change (2 ^ 8) with 256; Z.to_euclidean_division_equations; lia.
Qed.

Lemma aget_app_r (a b : list Z) i : 0 <= i -> (a ++ b).[alen a + i] = b.[i].
Proof.
  intros Hi. unfold aget, alen. rewrite lookup_total_app_r by lia. f_equal. lia.
Qed.

Lemma get16_app_r a b i : 0 <= i -> get16 (a ++ b) (alen a + i) = get16 b i.
Proof. intros Hi. unfold get16, bvstk_dcp2_read_be16. rewrite <- Z.add_assoc. by rewrite !aget_app_r by lia. Qed.

Lemma get32_app_r a b i : 0 <= i -> get32 (a ++ b) (alen a + i) = get32 b i.
Proof. intros Hi. unfold get32, bvstk_dcp2_read_be32. rewrite <- !Z.add_assoc. by rewrite !aget_app_r by lia. Qed.

Definition get64 (l : list Z) (o : Z) : Z := 2 ^ 32 * get32 l o + get32 l (o + 4).

Lemma be64_read x r : get64 (be64 x ++ r) 0 = u64 x.
Proof.
  unfold get64, be64. rewrite <- app_assoc, be32_read by apply u32_range.
  change (0 + 4) with (alen (be32 (u32 (Z.shiftr x 32))) + 0). rewrite get32_app_r by done. rewrite be32_read by apply u32_range.
  unfold u32, u64, wrap. rewrite Z.shiftr_div_pow2 by done. change (2 ^ 64) with (2 ^ 32 * 2 ^ 32).
  rewrite Z.rem_mul_r by done. lia.
Qed.

(** What an entry says to a client: the name, the width, the flags, the value
    and the time. *)
Definition entry_view (e : bvstk_cache_entry_t) : list Z * Z * Z * Z * Z * Z :=
  (cstr (en_id e), en_width_bits e, en_valid e, en_source e, u64 (en_value e), u64 (en_updated_ms e)).

Definition read_entry (l : list Z) : (list Z * Z * Z * Z * Z * Z) * list Z :=
  let n := l.[0] in
  let t := drop (Z.to_nat n + 1) l in
  ((prefix n (drop 1 l), t.[0], t.[1], t.[2], get64 t 3, get64 t 11), drop 19 t).

Fixpoint read_entries (k : nat) (l : list Z) : list (list Z * Z * Z * Z * Z * Z) :=
  match k with
  | O => []
  | S k => let '(e, l) := read_entry l in e :: read_entries k l
  end.

Lemma read_entry_spec e r : read_entry (entry_bytes e ++ r) = (entry_view e, r).
Proof.
  unfold read_entry, entry_bytes. set (s := cstr (en_id e)). rewrite <- !app_assoc. cbn [app].
  change ((alen s :: ?l).[0]) with (alen s).
  replace (Z.to_nat (alen s) + 1)%nat with (S (length s)) by (unfold alen; lia).
  change (drop (S (length s)) (alen s :: ?l)) with (drop (length s) l). change (drop 1 (alen s :: ?l)) with l.
  set (t := en_width_bits e :: _). rewrite drop_app_length.
  assert (prefix (alen s) (s ++ t) = s) as -> by (unfold prefix, alen; rewrite Nat2Z.id; apply take_app_length).
  assert (get64 t 3 = u64 (en_value e)) as ->.
  { etransitivity; [|apply (be64_read (en_value e) (be64 (en_updated_ms e) ++ r))]. done. }
  assert (get64 t 11 = u64 (en_updated_ms e)) as ->.
  { etransitivity; [|apply (be64_read (en_updated_ms e) r)]. done. }
  done.
Qed.

Lemma read_entries_spec l r : read_entries (length l) (entries_bytes l ++ r) = map entry_view l.
Proof.
  induction l as [|e l IH]; [done|]. cbn [length read_entries map].
  change (entries_bytes (e :: l)) with (entry_bytes e ++ entries_bytes l). rewrite <- app_assoc, read_entry_spec. by rewrite IH.
Qed.

(** ** Names in a request *)

Definition wire_name (s : list Z) : list Z := alen s :: s.

Definition good_name (s : list Z) : Prop :=
  0 < alen s < BVSTK_CACHE_NAME_MAX /\ Forall (fun c => c <> 0 /\ name_char c = true) s.

Lemma name_spec a s r n : good_name s -> 1 + alen s <= n ->
  name (a ++ wire_name s ++ r) (alen a) n = Some (alen a + (1 + alen s), n - (1 + alen s), s ++ [0]).
Proof.
  intros [Hl Hc] Hn. unfold name. rewrite (proj2 (Z.eqb_neq n 0)) by lia.
  assert ((a ++ wire_name s ++ r).[alen a] = alen s) as ->.
  { rewrite <- (Z.add_0_r (alen a)). by rewrite aget_app_r. }
  assert (drop (Z.to_nat (alen a + 1)) (a ++ wire_name s ++ r) = s ++ r) as ->.
  { unfold alen. rewrite drop_app_ge by lia. by replace (Z.to_nat (Z.of_nat (length a) + 1) - length a)%nat with 1%nat by lia. }
  assert (prefix (alen s) (s ++ r) = s) as -> by (unfold prefix, alen; rewrite Nat2Z.id; apply take_app_length).
  rewrite (proj2 (Z.eqb_neq (alen s) 0)), (proj2 (Z.leb_gt BVSTK_CACHE_NAME_MAX (alen s))), (proj2 (Z.ltb_ge (n - 1) (alen s))) by lia.
  rewrite Forall_forall in Hc. rewrite bool_decide_eq_false_2 by (intros H0; by destruct (Hc 0 H0)). cbn [orb].
  destruct (for_find _ _ _) as [i|] eqn:Ef.
  - apply for_find_Some in Ef as (Hi & Hb & _). unfold wire_name in Hb. rewrite <- Z.add_assoc, aget_app_r in Hb by lia.
    assert (((alen s :: s) ++ r).[1 + i] = s.[i]) as Hg.
    { unfold aget, alen in *. replace (Z.to_nat (1 + i)) with (S (Z.to_nat i)) by lia. cbn [app]. 
      change ((Z.of_nat (length s) :: s ++ r) !!! S (Z.to_nat i)) with ((s ++ r) !!! Z.to_nat i).
      rewrite lookup_total_app_l by lia. done. }
    rewrite Hg in Hb. destruct (Hc (s.[i])) as [_ Hok]; [apply aget_in; lia|]. by rewrite Hok in Hb.
  - rewrite bool_decide_eq_false_2 by (by intros [? ?]). do 3 f_equal; lia.
Qed.

Lemma cstr_wire s : Forall (fun c => c <> 0 /\ name_char c = true) s -> cstr (s ++ [0]) = s.
Proof.
  induction 1 as [|c s [Hc _] _ IH]; [done|]. cbn [app cstr]. rewrite (proj2 (Z.eqb_neq c 0) Hc). by rewrite IH.
Qed.
