(* ===== verification/Dcp2CacheFetch.v ===== *)
(** * Dcp2CacheFetch: a client reads a device's catalogue page by page

    The GET requests of [Dcp2Cache] as a client uses them: the first takes a
    snapshot and answers with its first page, the next ones name the snapshot
    and the entry the page before ended at. *)
From stdpp Require Import prelude.
From Stdlib Require Import ZArith Lia.
From S2P Require Import Prelude Platform.
From S2P Require Import CacheRegistry CacheSync Dcp2Cache Dcp2CacheBytes.
From S2P Require Dcp2Codec.
Local Open Scope Z_scope.

(** The body of a GET request. *)
Definition get_body (bus dev : list Z) (token first : Z) : list Z :=
  [BVSTK_DCP2_CACHE_VERSION] ++ wire_name bus ++ wire_name dev ++ Dcp2Codec.be32 token ++ Dcp2Codec.be16 first.

(** What the client takes from the answer: the token, where to go on, and the
    entries. *)
Definition page_answer (o : Z * Z * list Z) : option (Z * Z * list (list Z * Z * Z * Z * Z * Z)) :=
  let '(st, _, out) := o in
  if st =? 0 then
    Some (get32 out 4, get16 out 34, read_entries (Z.to_nat (get16 out 32)) (drop 37 out))
  else None.

Section fetch.
Context {X : Type}.

(** At most [k] requests; [clock] is the time when so many are left after it. *)
Fixpoint fetch (k : nat) (clock : nat -> Z) (bus dev : list Z) (token first : Z) (out : list Z) (capacity : Z)
    : ST (connection X) (option (list (list Z * Z * Z * Z * Z * Z))) :=
  match k with
  | O => st_ret None
  | S k =>
      let body := get_body bus dev token first in
      let! o := bvstk_dcp2_cache_request BVSTK_DCP2_CACHE_GET body (alen body) (clock k) out capacity in
      match page_answer o with
      | None => st_ret None
      | Some (token, next, es) =>
          if next =? 65535 then st_ret (Some es)
          else
            let! rest := fetch k clock bus dev token next (snd o) capacity in
            st_ret (option_map (app es) rest)
      end
  end.

(** ** A GET request, parsed *)

Lemma request_get bus dev token first now out capacity :
  good_name bus -> good_name dev -> 0 <= token < 2 ^ 32 -> 0 <= first < 2 ^ 16 -> (token = 0 -> first = 0) ->
  let body := get_body bus dev token first in
  bvstk_dcp2_cache_request (X:=X) BVSTK_DCP2_CACHE_GET body (alen body) now out capacity =
    (upd (fun s => expire s now) ;;
     if token =? 0 then capture BVSTK_DCP2_CACHE_GET (bus ++ [0]) (dev ++ [0]) now out capacity
     else continue token first (bus ++ [0]) (dev ++ [0]) now out capacity).
Proof.
  intros Hb Hd Ht Hf Hz body. unfold bvstk_dcp2_cache_request. cbv zeta.
  change (negb (BVSTK_DCP2_CACHE_GET =? BVSTK_DCP2_CACHE_GET) && _ && _) with false.
  assert (alen body = 1 + ((1 + alen bus) + ((1 + alen dev) + 6))) as Hl.
  { unfold body, get_body. rewrite !alen_app. unfold wire_name, alen. cbn [length Dcp2Codec.be16]. 
    rewrite Dcp2CacheBytes.be32_length. lia. }
  destruct Hb as [Hb1 Hb2], Hd as [Hd1 Hd2].
  rewrite (proj2 (Z.eqb_neq (alen body) 0)) by lia. change (body.[0]) with 1. change (negb (1 =? BVSTK_DCP2_CACHE_VERSION)) with false.
  change (BVSTK_DCP2_CACHE_GET =? BVSTK_DCP2_CACHE_UNSUBSCRIBE) with false.
  change (BVSTK_DCP2_CACHE_GET =? BVSTK_DCP2_CACHE_GET) with true.
  set (tail := Dcp2Codec.be32 token ++ Dcp2Codec.be16 first).
  assert (name body 1 (alen body - 1) = Some (1 + (1 + alen bus), alen body - 1 - (1 + alen bus), bus ++ [0])) as ->
    by (apply (name_spec [1] bus (wire_name dev ++ tail)); [by split|lia]).
  cbv beta iota. set (a := [1] ++ wire_name bus).
  assert (alen a = 1 + (1 + alen bus)) as Ha by (unfold a, wire_name, alen; cbn [length app]; lia).
  assert (body = a ++ wire_name dev ++ tail) as Hbody by (unfold a, body, get_body; by rewrite <- app_assoc).
  rewrite <- Ha.
  assert (name body (alen a) (alen body - 1 - (1 + alen bus)) = Some (alen a + (1 + alen dev), alen body - 1 - (1 + alen bus) - (1 + alen dev), dev ++ [0])) as ->
    by (rewrite Hbody at 1; apply name_spec; [by split|lia]).
  cbv beta iota.
  replace (alen body - 1 - (1 + alen bus) - (1 + alen dev)) with 6 by lia. 
  change (negb (6 =? 6)) with false. cbv beta iota.
  set (b := a ++ wire_name dev). assert (alen b = alen a + (1 + alen dev)) as Hbl.
  { unfold b. rewrite alen_app. unfold wire_name, alen. cbn [length]. lia. }
  assert (body = b ++ tail) as -> by (unfold b; by rewrite <- app_assoc).
  rewrite <- Hbl. 
  assert (get32 (b ++ tail) (alen b) = token) as ->.
  { rewrite <- (Z.add_0_r (alen b)). rewrite get32_app_r by done. unfold tail. by apply be32_read. }
  assert (get16 (b ++ tail) (alen b + 4) = first) as ->.
  { rewrite get16_app_r by done. unfold tail. change 4 with (alen (Dcp2Codec.be32 token) + 0). rewrite get16_app_r by done.
    rewrite <- (app_nil_r (Dcp2Codec.be16 first)). by apply be16_get. }
  destruct (token =? 0) eqn:E; bsimp; cbn [negb andb].
  - rewrite Hz by done. done.
  - done.
Qed.

(** ** Pages of one snapshot *)

(** The session holds the snapshot [v] under [token], last used at [act]. *)
Record reading (v : bvstk_cache_snapshot_t) (token act : Z) (s : bvstk_dcp2_cache_session_t) : Prop := {
  rd_snapshot : se_snapshot s = v;
  rd_id : se_snapshot_id s = token;
  rd_token : 0 < token < 2 ^ 32;
  rd_activity : se_snapshot_activity s = act;
  rd_ok : device_ok v
}.

(** A page from [first], handed over at [act]. *)
Definition page_given v token first act capacity (r : bvstk_cache_registry_t X) (o : Z * Z * list Z) (c' : connection X) : Prop :=
  let '(st, size, out) := o in
  exists s n rest, reading v token act (cn_session c') /\ cs_reg (cn_cache c') = r /\
    se_snapshot s = v /\ se_snapshot_id s = token /\
    st = 0 /\ size = alen (page_bytes s first n) /\ out = page_bytes s first n ++ rest /\ capacity <= alen out /\
    0 <= n <= sn_count v - first /\ (first < sn_count v -> 0 < n).

Lemma device_short_names v : device_ok v -> short_names v /\ 0 <= sn_count v <= 256 /\ sn_count v <= alen (sn_entries v).
Proof.
  intros Hv. pose proof (do_count v Hv) as Hc. unfold BVSTK_CACHE_RESOURCES_MAX in Hc. split; [|rewrite (do_alen v Hv); unfold BVSTK_CACHE_RESOURCES_MAX; lia].
  intros i Hi. destruct (do_entries v Hv) as [He _]. pose proof (eo_name _ (He i Hi)) as Hn.
  by apply name_valid_spec in Hn as [Hn _].
Qed.

Lemma page_progress_keeps s first n :
  let s' := page_progress s first n in
  se_snapshot s' = se_snapshot s /\ se_snapshot_id s' = se_snapshot_id s /\ se_snapshot_activity s' = se_snapshot_activity s.
Proof.
  unfold page_progress. cbv zeta. set (s1 := if first =? se_snapshot_progress s then with_progress (u16 (first + n)) s else s).
  assert (se_snapshot s1 = se_snapshot s /\ se_snapshot_id s1 = se_snapshot_id s /\ se_snapshot_activity s1 = se_snapshot_activity s) as Hs1
    by (unfold s1; by destruct (_ =? _)).
  destruct (subscription _ _); [|exact Hs1]. destruct (se_snapshot_progress s1 =? _); exact Hs1.
Qed.

Lemma paged_run v token first act out capacity (c : connection X) :
  reading v token act (cn_session c) -> 0 <= first <= sn_count v -> 88 <= capacity <= alen out -> capacity < 65536 ->
  runs (paged first out capacity) c (page_given v token first act capacity (cs_reg (cn_cache c))).
Proof.
  intros [R1 R2 R3 R4 R5] Hf Hc Hcap. destruct (device_short_names v R5) as (Hs & Hn & Hl).
  destruct (page_spec (cn_session c) first out capacity) as (Hp & Hfit & Hcount & Hpos); [by rewrite R1..|done|done|].
  rewrite R1 in Hcount, Hpos. unfold runs, paged. rewrite Hp. cbn [fst snd page_given default id].
  set (n := page_count _ _ _) in *. set (bytes := page_bytes _ _ _) in *.
  exists (cn_session c), n, (drop (length bytes) out). cbn [cn_session cn_cache].
  destruct (page_progress_keeps (cn_session c) first n) as (K1 & K2 & K3).
  split; [split; by rewrite ?K1, ?K2, ?K3|]. split; [done|]. split; [done|]. split; [done|].
  split; [done|]. split; [done|]. split; [done|]. split; [|done].
  rewrite alen_app. unfold alen in *. rewrite length_drop. lia.
Qed.

Lemma get16_at a b x i : 0 <= x < 2 ^ 16 -> alen a = i -> get16 (a ++ Dcp2Codec.be16 x ++ b) i = x.
Proof. intros Hx <-. rewrite <- (Z.add_0_r (alen a)). rewrite get16_app_r by done. by apply be16_get. Qed.
Lemma get32_at a b x i : 0 <= x < 2 ^ 32 -> alen a = i -> get32 (a ++ Dcp2Codec.be32 x ++ b) i = x.
Proof. intros Hx <-. rewrite <- (Z.add_0_r (alen a)). rewrite get32_app_r by done. by apply be32_read. Qed.

Lemma page_answer_spec s first n size rest :
  sn_count (se_snapshot s) <= 256 -> sn_count (se_snapshot s) <= alen (sn_entries (se_snapshot s)) ->
  0 <= first -> 0 <= n <= sn_count (se_snapshot s) - first -> 0 <= se_snapshot_id s < 2 ^ 32 ->
  page_answer (0, size, page_bytes s first n ++ rest) =
    Some (se_snapshot_id s, if first + n =? sn_count (se_snapshot s) then 65535 else first + n,
          map entry_view (slice (se_snapshot s) first n)).
Proof.
  intros Hc Hl Hf Hn Hid. unfold page_answer. cbn [Z.eqb]. set (v := se_snapshot s) in *.
  set (es := entries_bytes (slice v first n)).
  assert (page_bytes s first n ++ rest = header_bytes s first n ++ (es ++ rest)) as ->
    by (unfold page_bytes; fold v es; by rewrite <- app_assoc).
  assert (drop 37 (header_bytes s first n ++ es ++ rest) = es ++ rest) as -> by (apply drop_app_length'; done).
  assert (length (slice v first n) = Z.to_nat n) as Hsl.
  { unfold slice, prefix, alen in *. rewrite length_take, length_drop. lia. }
  unfold header_bytes. fold v. cbv zeta. rewrite <- !app_assoc.
  set (p1 := [BVSTK_DCP2_CACHE_VERSION; BVSTK_DCP2_CACHE_SNAPSHOT] ++ Dcp2Codec.be16 (u16 (se_snapshot_sub s))).
  rewrite (app_assoc [BVSTK_DCP2_CACHE_VERSION; BVSTK_DCP2_CACHE_SNAPSHOT]). fold p1.
  assert (forall r, get32 (p1 ++ Dcp2Codec.be32 (u32 (se_snapshot_id s)) ++ r) 4 = se_snapshot_id s) as ->.
  { intros r. rewrite get32_at by (done || apply u32_range). by apply u32_id. }
  set (p2 := p1 ++ Dcp2Codec.be32 (u32 (se_snapshot_id s)) ++ Dcp2Codec.be32 (u32 (sn_generation v)) ++ be64 (sn_revision v) ++
    be64 (sn_captured_ms v) ++ Dcp2Codec.be16 (u16 (sn_count v)) ++ Dcp2Codec.be16 (u16 (u16 first))).
  set (nx := if first + n =? sn_count v then 65535 else u16 (first + n)).
  assert (forall r, p1 ++ Dcp2Codec.be32 (u32 (se_snapshot_id s)) ++ Dcp2Codec.be32 (u32 (sn_generation v)) ++ be64 (sn_revision v) ++
    be64 (sn_captured_ms v) ++ Dcp2Codec.be16 (u16 (sn_count v)) ++ Dcp2Codec.be16 (u16 (u16 first)) ++ r = p2 ++ r) as E2
    by (intros r; unfold p2; by rewrite <- !app_assoc).
  rewrite !E2. assert (alen p2 = 32) as Hp2 by done.
  rewrite (get16_at p2 _ _ 32) by (done || apply u16_range).
  rewrite (app_assoc p2). rewrite (get16_at (p2 ++ _) _ _ 34) by (apply u16_range || by rewrite alen_app, Hp2).
  rewrite (u16_id (u16 n)), (u16_id n) by (rewrite ?u16_id; lia).
  do 2 f_equal; [f_equal|].
  - unfold nx. destruct (_ =? _); [done|]. by rewrite !u16_id by (rewrite ?u16_id; lia).
  - rewrite <- Hsl. apply read_entries_spec.
Qed.

Lemma on_cache_run {A} (m : ST (cache_state X) A) (c : connection X) (Q : A -> cache_state X -> Prop) :
  runs m (cn_cache c) Q -> runs (on_cache m) c (fun a c' => cn_session c' = cn_session c /\ Q a (cn_cache c')).
Proof. unfold runs, on_cache. by destruct (m (cn_cache c)). Qed.

(** ** The requests of one fetch *)

Section device.
Variables (bus dev : list Z) (out : list Z) (capacity : Z).
Context (Hbus : good_name bus) (Hdev : good_name dev) (Hcap : 88 <= capacity < 65536).

(** A later request within 30 seconds of the one before. *)
Lemma next_page v token first act now o (c : connection X) :
  reading v token act (cn_session c) -> cstr (sn_subsystem v) = bus -> cstr (sn_device v) = dev ->
  0 <= first <= sn_count v -> u64 (now - act) < BVSTK_DCP2_CACHE_SNAPSHOT_MS -> capacity <= alen o ->
  let body := get_body bus dev token first in
  runs (bvstk_dcp2_cache_request BVSTK_DCP2_CACHE_GET body (alen body) now o capacity) c
    (page_given v token first now capacity (cs_reg (cn_cache c))).
Proof.
  intros Hr Hb Hd Hf Hnow Ho body. destruct (device_short_names v (rd_ok _ _ _ _ Hr)) as (_ & Hcount & _).
  pose proof (rd_token _ _ _ _ Hr) as Ht.
  unfold body. rewrite request_get; [|done|done|lia|lia|lia].
  apply runs_bind, runs_mod. rewrite (proj2 (Z.eqb_neq token 0)) by lia.
  assert (expire (cn_session c) now = cn_session c) as ->.
  { unfold expire. rewrite (rd_activity _ _ _ _ Hr). rewrite (proj2 (Z.leb_gt BVSTK_DCP2_CACHE_SNAPSHOT_MS (u64 (now - act)))) by done.
    by rewrite andb_false_r. }
  unfold continue. apply runs_bind, runs_get. cbn [cn_session].
  rewrite (rd_id _ _ _ _ Hr), (rd_snapshot _ _ _ _ Hr), Z.eqb_refl.
  destruct Hbus as [_ Hb2], Hdev as [_ Hd2].
  rewrite (proj2 (streq_spec (bus ++ [0]) (sn_subsystem v))) by (by rewrite cstr_wire).
  rewrite (proj2 (streq_spec (dev ++ [0]) (sn_device v))) by (by rewrite cstr_wire). cbn [negb orb].
  apply runs_bind. eapply runs_mono; [apply (paged_run v token first act); [done|done|lia|lia]|].
  intros [[st size] o'] c1 (s & n & rest & Hr1 & Hc1 & R). apply runs_bind, runs_mod, runs_ret.
  exists s, n, rest. destruct R as (R1 & R2 & -> & R). cbn [Z.eqb cn_session cn_cache].
  split; [|by split]. destruct Hr1 as [P1 P2 P3 P4 P5]. by split.
Qed.

(** The first request, when the registry has the device. *)
Lemma first_page i now o (c : connection X) :
  let r := cs_reg (cn_cache c) in
  registry_wf r -> 0 <= i < BVSTK_CACHE_DEVICES_MAX -> live r i ->
  cstr (sn_subsystem ((rg_devices r).[i])) = bus -> cstr (sn_device ((rg_devices r).[i])) = dev ->
  snapshot_busy (expire (cn_session c) now) = false -> capacity <= alen o ->
  let body := get_body bus dev 0 0 in
  runs (bvstk_dcp2_cache_request BVSTK_DCP2_CACHE_GET body (alen body) now o capacity) c (fun o c' =>
    exists token, page_given (with_captured now ((rg_devices r).[i])) token 0 now capacity r o c').
Proof.
  intros r Hwf Hi Hl Hb Hd Hbusy Ho body. unfold body. rewrite request_get; [|done..].
  apply runs_bind, runs_mod. cbn [Z.eqb]. unfold capture. apply runs_bind, runs_get. cbn [cn_session]. rewrite Hbusy.
  change (BVSTK_DCP2_CACHE_PAGE_HEADER + BVSTK_CACHE_NAME_MAX - 1 + 20) with 88.
  rewrite (proj2 (Z.ltb_ge capacity 88)) by lia.
  change (BVSTK_DCP2_CACHE_GET =? BVSTK_DCP2_CACHE_SUBSCRIBE) with false. cbv beta iota.
  apply runs_bind, runs_get. apply runs_bind. eapply runs_mono; [apply on_cache_run, snapshot_run|].
  intros o1 c1 (E1 & E2 & ->). cbn [cn_session cn_cache] in *. fold r in E2 |- *.
  destruct Hbus as [_ Hb2], Hdev as [_ Hd2].
  assert (forall j, 0 <= j < BVSTK_CACHE_DEVICES_MAX -> named r (bus ++ [0]) (dev ++ [0]) j = true -> j = i) as Huniq.
  { intros j Hj Hn. unfold named in Hn. rewrite !andb_true_iff, negb_true_iff, !streq_spec, !cstr_wire in Hn by done.
    destruct Hn as [[Hlj H1] H2]. bsimp. apply (rw_names r Hwf j i); [done|done|done|done|congruence|congruence]. }
  assert (named r (bus ++ [0]) (dev ++ [0]) i = true) as Hn.
  { unfold named. rewrite (proj2 (Z.eqb_neq _ _) Hl). cbn [negb andb].
    apply andb_true_iff. rewrite !streq_spec, !cstr_wire by done. by split. }
  destruct (for_find _ 0 _) as [j|] eqn:Ef.
  2:{ rewrite for_find_None in Ef. rewrite Ef in Hn; [done|]. done. }
  apply for_find_Some in Ef as (Hj & Hnj & _). rewrite (Huniq j Hj Hnj). cbv beta iota.
  set (v := with_captured now _). apply runs_bind, runs_mod, runs_bind, runs_mod.
  unfold issue_snapshot. set (c2 := Connection _ _). set (token := se_snapshot_id (cn_session c2)).
  assert (reading v token now (cn_session c2)) as Hr.
  { split; [done|done| |done|].
    - unfold token, c2. cbn [cn_session]. cbv zeta. cbn [se_snapshot_id with_activity with_snapshot_id with_next_snapshot].
      set (x := u32 _). pose proof (u32_range (se_next_snapshot (with_progress 0 (with_snapshot_sub 0 (with_snapshot_id 0 (with_capture v (cn_session c1))))) + 1)) as Hx.
      fold x in Hx. destruct (x =? 0) eqn:E0; bsimp; [|change (2 ^ 32) with 4294967296; lia]. by rewrite E0.
    - pose proof (rw_live r Hwf i Hi Hl) as Hok. apply device_ok_update;
        [exact Hok|apply (do_presence _ Hok)|apply (do_alen _ Hok)|apply (do_entries _ Hok)]. }
  destruct (device_short_names v (rd_ok _ _ _ _ Hr)) as (_ & Hcount & _).
  eapply runs_mono; [apply (paged_run v token 0 now _ capacity c2 Hr); lia|]. intros o' c' Hp. exists token.
  assert (cs_reg (cn_cache c2) = r) as E3 by exact E2. rewrite E3 in Hp. exact Hp.
Qed.

(** The pages from a given one on, at most 30 seconds apart. *)
Lemma fetch_run k clock v first t0 r c o :
  (forall j, u64 (clock j - clock (S j)) < BVSTK_DCP2_CACHE_SNAPSHOT_MS) ->
  cstr (sn_subsystem v) = bus -> cstr (sn_device v) = dev -> 0 <= first <= sn_count v -> sn_count v - first <= Z.of_nat k ->
  let body := get_body bus dev t0 first in
  runs (bvstk_dcp2_cache_request BVSTK_DCP2_CACHE_GET body (alen body) (clock k) o capacity) c
    (fun o c' => exists token, page_given v token first (clock k) capacity r o c') ->
  runs (fetch (S k) clock bus dev t0 first o capacity) c (fun l c' =>
    l = Some (map entry_view (slice v first (sn_count v - first))) /\ cs_reg (cn_cache c') = r).
Proof.
  intros Hclock Hb Hd. revert t0 first c o. induction k as [|k IH]; intros t0 first c o Hf Hk body Hreq;
    cbn [fetch]; fold body.
  all: apply runs_bind; eapply runs_mono; [exact Hreq|]; clear Hreq.
  all: intros [[st size] o'] c1 (token & s & n & rest & Hr & Hc1 & Hs & Hid & -> & -> & -> & Hlen & Hn & Hpos).
  all: destruct (device_short_names v (rd_ok _ _ _ _ Hr)) as (_ & Hcount & Hl); pose proof (rd_token _ _ _ _ Hr) as Ht.
  all: rewrite page_answer_spec; rewrite ?Hs, ?Hid; try lia.
  all: destruct (first + n =? sn_count v) eqn:E; bsimp.
  1, 3: rewrite Z.eqb_refl; apply runs_ret; (split; [|done]); do 3 f_equal; lia.
  { exfalso. lia. }
  rewrite (proj2 (Z.eqb_neq (first + n) 65535)) by lia. apply runs_bind. cbn [snd].
  eapply runs_mono; [apply (IH token (first + n) c1); [lia|lia|]|].
  - eapply runs_mono; [apply (next_page v token (first + n) (clock (S k)) (clock k)); auto; lia|].
    intros o2 c2 H2. exists token. rewrite Hc1 in H2. exact H2.
  - intros l c2 [-> H2]. apply runs_ret. split; [|done]. cbn [option_map]. f_equal. rewrite <- map_app. f_equal.
    rewrite slice_app by lia. f_equal. lia.
Qed.
End device.

(** C18: a fetch returns the device's catalogue.  When the registry has a
    device of the two names and no subscription waits for the pages of another
    snapshot, a client that starts with an empty token and follows the page
    answers - requests less than 30 seconds apart, room for 88 bytes at least -
    needs at most 257 requests and gets every entry of the device exactly once
    and in order; the registry is not changed. *)
Theorem dcp2_cache_fetch_complete bus dev i clock out capacity (c : connection X) :
  let r := cs_reg (cn_cache c) in
  good_name bus -> good_name dev -> 88 <= capacity < 65536 -> capacity <= alen out ->
  registry_wf r -> 0 <= i < BVSTK_CACHE_DEVICES_MAX -> live r i ->
  cstr (sn_subsystem ((rg_devices r).[i])) = bus -> cstr (sn_device ((rg_devices r).[i])) = dev ->
  (forall j, u64 (clock j - clock (S j)) < BVSTK_DCP2_CACHE_SNAPSHOT_MS) ->
  snapshot_busy (expire (cn_session c) (clock (Z.to_nat BVSTK_CACHE_RESOURCES_MAX))) = false ->
  runs (fetch (S (Z.to_nat BVSTK_CACHE_RESOURCES_MAX)) clock bus dev 0 0 out capacity) c (fun l c' =>
    l = Some (map entry_view (prefix (sn_count ((rg_devices r).[i])) (sn_entries ((rg_devices r).[i])))) /\
    cs_reg (cn_cache c') = r).
Proof.
  intros r Hbus Hdev Hcap Hout Hwf Hi Hl Hb Hd Hclock Hbusy. set (d := (rg_devices r).[i]) in *.
  pose proof (do_count d (rw_live r Hwf i Hi Hl)) as Hcount. set (k := Z.to_nat BVSTK_CACHE_RESOURCES_MAX) in *.
  eapply runs_mono; [apply (fetch_run bus dev capacity Hbus Hdev Hcap k clock (with_captured (clock k) d) 0 0 r); try done|].
  - unfold k, BVSTK_CACHE_RESOURCES_MAX in *. cbn [sn_count with_captured]. lia.
  - cbn [sn_count with_captured]. unfold k. lia.
  - by apply first_page.
  - intros l c' [-> ?]. split; [|done]. do 2 f_equal. unfold slice. cbn [sn_count sn_entries with_captured]. by rewrite Z.sub_0_r.
Qed.
End fetch.

(** The demonstration registry, read through pages of 88 bytes. *)
Definition demo_connection : connection unit := Connection bvstk_dcp2_cache_init demo_defined.

Lemma dcp2_cache_fetch_complete_witness :
  runs (fetch 257 (fun _ => 7) [115] [100] 0 0 (fill 88 0) 88) demo_connection
    (fun l c' => l = Some [([97], 8, 1, 1, 5, 0); ([98], 8, 1, 1, 5, 0)] /\ cs_reg (cn_cache c') = cs_reg (cn_cache demo_connection)).
Proof.
  assert (registry_wf (cs_reg (cn_cache demo_connection))) as Hwf by exact (proj1 (busy_rtc None tt demo_defined demo_reach)).
  assert (good_name [115] /\ good_name [100]) as [Hb Hd] by (split; (split; [done|by repeat constructor])).
  assert (live (cs_reg (cn_cache demo_connection)) 0) as Hl by (unfold live; intros E; vm_compute in E; discriminate).
  assert (cstr (sn_subsystem ((rg_devices (cs_reg (cn_cache demo_connection))).[0])) = [115]) as Hs by (vm_compute; reflexivity).
  assert (cstr (sn_device ((rg_devices (cs_reg (cn_cache demo_connection))).[0])) = [100]) as Hn by (vm_compute; reflexivity).
  eapply runs_mono.
  - apply (dcp2_cache_fetch_complete [115] [100] 0 (fun _ => 7) (fill 88 0) 88 demo_connection Hb Hd);
      [lia|vm_compute; discriminate|exact Hwf|unfold BVSTK_CACHE_DEVICES_MAX; lia|exact Hl|exact Hs|exact Hn|intros j; vm_compute; reflexivity|vm_compute; reflexivity].
  - intros l c' [-> E]. split; [vm_compute; reflexivity|exact E].
Defined.
