(* ===== verification/Dcp2CacheEvents.v ===== *)
(** * Dcp2CacheEvents: subscriptions keep their clients in step

    The invariant of a [Dcp2Cache] session over a registry that others change,
    and what the events say: a subscriber is handed exactly the revisions after
    its snapshot, or is told why it has to start again. *)
From stdpp Require Import prelude.
From Stdlib Require Import ZArith Lia.
From S2P Require Import Prelude Platform.
From S2P Require Import CacheRegistry CacheSync Dcp2Cache Dcp2CacheBytes Dcp2CacheFetch.
From S2P Require Dcp2Codec.
Local Open Scope Z_scope.

Section events.
Context {X : Type}.
Implicit Types (r : bvstk_cache_registry_t X) (c : connection X) (s : bvstk_dcp2_cache_session_t)
  (b : bvstk_dcp2_cache_subscription_t).

(** ** The invariant *)

Definition sub_at s (i : Z) : bvstk_dcp2_cache_subscription_t := (se_subscriptions s).[i].
Definition active b : Prop := sb_id b <> 0.

(** A subscription waits for the pages of the session's snapshot, or is about
    to hear that they expired. *)
Definition waiting_ok s b : Prop :=
  sb_pending b <> 0 ->
  (se_snapshot_sub s = sb_id b /\ se_snapshot_id s <> 0 /\ sb_paused b = 0) \/ sb_paused b = BVSTK_CACHE_EXPIRED.

(** A subscription that is not paused stands where a client in step stands. *)
Definition in_step r b : Prop :=
  exists copy, client_ok r (sb_handle b) (sb_generation b) copy (sb_cursor b) /\ sn_revision copy = sb_revision b /\
    0 <= sb_revision b.

Record sub_ok r s b : Prop := {
  su_id : 0 < sb_id b <= se_next_sub s;
  su_paused : sb_paused b = 0 \/ sb_paused b = BVSTK_CACHE_EXPIRED \/ sb_paused b = 0xFF;
  su_waiting : waiting_ok s b;
  su_sync : sb_paused b = 0 -> in_step r b
}.

(** Neither the number nor the device is shared. *)
Definition apart b b' : Prop := sb_id b <> sb_id b' /\ sb_handle b <> sb_handle b'.

Record session_ok r s : Prop := {
  so_wf : registry_wf r;
  so_counters : counters_ok r;
  so_alen : alen (se_subscriptions s) = BVSTK_DCP2_CACHE_SUBSCRIPTIONS;
  so_next : 0 <= se_next_sub s <= 65535;
  so_robin : 0 <= se_round_robin s < 65536;
  so_subs : forall i, 0 <= i < BVSTK_DCP2_CACHE_SUBSCRIPTIONS -> active (sub_at s i) -> sub_ok r s (sub_at s i);
  so_apart : forall i j, 0 <= i < BVSTK_DCP2_CACHE_SUBSCRIPTIONS -> 0 <= j < BVSTK_DCP2_CACHE_SUBSCRIPTIONS -> i <> j ->
    active (sub_at s i) -> active (sub_at s j) -> apart (sub_at s i) (sub_at s j);
  so_snapshot : se_snapshot_id s <> 0 -> device_ok (se_snapshot s)
}.

Lemma session_init guard : session_ok (bvstk_cache_init guard) bvstk_dcp2_cache_init.
Proof.
  pose proof (init_client (X:=X) guard) as Hc.
  assert (forall i, 0 <= i < BVSTK_DCP2_CACHE_SUBSCRIPTIONS -> ~ active (sub_at bvstk_dcp2_cache_init i)) as Hn.
  { intros i Hi Ha. apply Ha. unfold sub_at, bvstk_dcp2_cache_init. cbn [se_subscriptions]. by rewrite aget_fill. }
  split; [exact (cl_wf _ _ _ _ _ Hc)|exact (cl_counters _ _ _ _ _ Hc)|done|done|done| | |done].
  - intros i Hi Ha. by destruct (Hn i Hi).
  - intros i j Hi Hj _ Ha. by destruct (Hn i Hi).
Qed.

(** What others do to the registry. *)
Lemma session_step w w' s : busy_step w w' -> session_ok (cs_reg w) s -> session_ok (cs_reg w') s.
Proof.
  intros [Hst Hroom] [W1 W2 W3 W4 W5 W6 W7 W8].
  assert (client_ok (cs_reg w) 1 (-1) zero_snapshot 0) as Hc.
  { split; [done|done|done|pose proof (co_generation _ W2); lia|pose proof (co_head _ W2); lia|].
    intros d Hd Hg. exfalso. apply device_spec in Hd as (_ & Hl & ->); [|done].
    pose proof (co_devices _ W2 0 ltac:(done) Hl). change (1 - 1) with 0 in Hg. lia. }
  apply (step_client w w') in Hc; [|done|done].
  split; [exact (cl_wf _ _ _ _ _ Hc)|exact (cl_counters _ _ _ _ _ Hc)|done|done|done| |done|done].
  intros i Hi Ha. destruct (W6 i Hi Ha) as [S1 S2 S3 S4]. split; [done|done|done|].
  intros Hp. destruct (S4 Hp) as (copy & Hcl & Hrev). exists copy. split; [|done]. by apply (step_client w).
Qed.

(** One subscription replaced, the rest of the session as the client sees it. *)
Lemma session_replace r s s' i b' :
  session_ok r s -> 0 <= i < BVSTK_DCP2_CACHE_SUBSCRIPTIONS ->
  se_subscriptions s' = (se_subscriptions s).[i <- b'] ->
  0 <= se_next_sub s <= se_next_sub s' -> se_next_sub s' <= 65535 -> 0 <= se_round_robin s' < 65536 ->
  (active b' -> sub_ok r s' b' /\
     forall j, 0 <= j < BVSTK_DCP2_CACHE_SUBSCRIPTIONS -> j <> i -> active (sub_at s j) -> apart b' (sub_at s j)) ->
  (forall j, 0 <= j < BVSTK_DCP2_CACHE_SUBSCRIPTIONS -> j <> i -> active (sub_at s j) -> waiting_ok s' (sub_at s j)) ->
  (se_snapshot_id s' <> 0 -> device_ok (se_snapshot s')) ->
  session_ok r s'.
Proof.
  intros [W1 W2 W3 W4 W5 W6 W7 W8] Hi Hsubs Hn1 Hn2 Hrr Hb Hw Hsn.
  assert (forall j, 0 <= j < BVSTK_DCP2_CACHE_SUBSCRIPTIONS -> sub_at s' j = if decide (j = i) then b' else sub_at s j) as Hget.
  { intros j Hj. unfold sub_at. rewrite Hsubs. destruct (decide (j = i)) as [->|]; [apply aget_aset_eq; lia|apply aget_aset_ne; lia]. }
  split; [done|done|by rewrite Hsubs, alen_aset|lia|done| | |done].
  - intros j Hj. rewrite Hget by done. destruct (decide (j = i)); [by intros Ha; destruct (Hb Ha)|].
    intros Ha. destruct (W6 j Hj Ha) as [[S1 S1'] S2 S3 S4]. split; [lia|done|by apply Hw|done].
  - intros j k Hj Hk Hne. rewrite !Hget by done. destruct (decide (j = i)) as [->|], (decide (k = i)) as [->|]; [done| | |by apply W7].
    + intros Ha Hk'. destruct (Hb Ha) as [_ Hap]. by apply Hap.
    + intros Hj' Ha. destruct (Hb Ha) as [_ Hap]. destruct (Hap j Hj n Hj'). by split.
Qed.

(** The same subscription with other flags. *)
Lemma session_update r s s' i b' :
  session_ok r s -> 0 <= i < BVSTK_DCP2_CACHE_SUBSCRIPTIONS -> active (sub_at s i) ->
  se_subscriptions s' = (se_subscriptions s).[i <- b'] ->
  se_next_sub s' = se_next_sub s -> se_round_robin s' = se_round_robin s ->
  sb_id b' = sb_id (sub_at s i) -> sb_handle b' = sb_handle (sub_at s i) -> sub_ok r s' b' ->
  (forall j, 0 <= j < BVSTK_DCP2_CACHE_SUBSCRIPTIONS -> j <> i -> active (sub_at s j) -> waiting_ok s' (sub_at s j)) ->
  (se_snapshot_id s' <> 0 -> device_ok (se_snapshot s')) ->
  session_ok r s'.
Proof.
  intros Hs Hi Ha Hsubs En Er Eid Eh Hb Hw Hsn. pose proof (so_next r s Hs). pose proof (so_robin r s Hs).
  apply (session_replace r s s' i b'); try done; [lia|lia|lia|].
  intros _. split; [done|]. intros j Hj Hne Hj'. destruct (so_apart r s Hs i j Hi Hj ltac:(done) Ha Hj').
  split; congruence.
Qed.

(** Fields the invariant does not mention. *)
Lemma session_same r s s' :
  session_ok r s -> se_subscriptions s' = se_subscriptions s -> se_next_sub s' = se_next_sub s ->
  0 <= se_round_robin s' < 65536 ->
  se_snapshot_id s' = se_snapshot_id s -> se_snapshot_sub s' = se_snapshot_sub s -> se_snapshot s' = se_snapshot s ->
  session_ok r s'.
Proof.
  intros [W1 W2 W3 W4 W5 W6 W7 W8] E1 E2 Hr E4 E5 E6.
  split; unfold sub_at in *; rewrite ?E1, ?E2, ?E4, ?E6; try done.
  intros i Hi Ha. destruct (W6 i Hi Ha) as [S1 S2 S3 S4]. split; rewrite ?E2; try done.
  unfold waiting_ok in *. by rewrite E4, E5.
Qed.

Lemma subscription_spec r s id i : session_ok r s -> subscription s id = Some i ->
  0 <= i < BVSTK_DCP2_CACHE_SUBSCRIPTIONS /\ active (sub_at s i) /\ sb_id (sub_at s i) = id.
Proof.
  intros Hs. unfold subscription. destruct (id =? 0) eqn:E; [done|]. intros Hf.
  apply for_find_Some in Hf as (Hi & Hid & _). bsimp. split; [unfold BVSTK_DCP2_CACHE_SUBSCRIPTIONS in *; lia|].
  unfold active, sub_at. by rewrite Hid.
Qed.

Lemma subscription_found r s j : session_ok r s -> 0 <= j < BVSTK_DCP2_CACHE_SUBSCRIPTIONS -> active (sub_at s j) ->
  subscription s (sb_id (sub_at s j)) = Some j.
Proof.
  intros Hs Hj Ha. destruct (subscription s _) as [i|] eqn:E.
  - apply (subscription_spec r) in E as (Hi & Hai & Hid); [|done]. f_equal. destruct (decide (i = j)); [done|].
    destruct (so_apart r s Hs i j Hi Hj n Hai Ha) as [Hne _]. congruence.
  - unfold subscription in E. unfold active in Ha. rewrite (proj2 (Z.eqb_neq _ _) Ha) in E.
    rewrite for_find_None in E. specialize (E j ltac:(unfold BVSTK_DCP2_CACHE_SUBSCRIPTIONS in *; lia)).
    cbv beta in E. fold (sub_at s j) in E. by rewrite Z.eqb_refl in E.
Qed.

(** The subscription that waits for the snapshot is the one the session names. *)
Lemma waiting_named r s j : session_ok r s -> 0 <= j < BVSTK_DCP2_CACHE_SUBSCRIPTIONS -> active (sub_at s j) ->
  sb_pending (sub_at s j) <> 0 -> sb_paused (sub_at s j) <> BVSTK_CACHE_EXPIRED ->
  subscription s (se_snapshot_sub s) = Some j /\ se_snapshot_id s <> 0.
Proof.
  intros Hs Hj Ha Hp Hn. destruct (su_waiting _ _ _ (so_subs r s Hs j Hj Ha) Hp) as [(E & Hid & _)|]; [|done].
  rewrite E. split; [by apply (subscription_found r)|done].
Qed.

Lemma expire_ok r s now : session_ok r s -> session_ok r (expire s now).
Proof.
  intros Hs. unfold expire. destruct (_ && _) eqn:E; [|done].
  assert (forall j, 0 <= j < BVSTK_DCP2_CACHE_SUBSCRIPTIONS -> active (sub_at s j) -> sb_pending (sub_at s j) <> 0 ->
    subscription s (se_snapshot_sub s) <> Some j -> sb_paused (sub_at s j) = BVSTK_CACHE_EXPIRED) as Hw.
  { intros j Hj Ha Hp Hn. destruct (decide (sb_paused (sub_at s j) = BVSTK_CACHE_EXPIRED)) as [|Hne]; [done|].
    by destruct (waiting_named r s j Hs Hj Ha Hp Hne). }
  pose proof Hs as [W1 W2 W3 W4 W5 W6 W7 W8].
  assert ((forall j, 0 <= j < BVSTK_DCP2_CACHE_SUBSCRIPTIONS -> active (sub_at s j) -> sb_pending (sub_at s j) <> 0 ->
    sb_paused (sub_at s j) = BVSTK_CACHE_EXPIRED) -> session_ok r (with_snapshot_id 0 s)) as Hplain.
  { intros Hall. split; try done. intros i Hi Ha. destruct (W6 i Hi Ha) as [S1 S2 S3 S4]. split; try done.
    intros Hp. right. by apply Hall. }
  destruct (subscription s _) as [i|] eqn:Es.
  2:{ apply Hplain. intros j Hj Ha Hp. by apply Hw. }
  fold (sub_at s i). destruct (sb_pending (sub_at s i) =? 0) eqn:Ep; cbn [negb]; bsimp.
  { apply Hplain. intros j Hj Ha Hp. apply Hw; [done..|]. intros [= ->]. done. }
  apply (subscription_spec r) in Es as (Hi & Ha & Hid); [|done].
  destruct (W6 i Hi Ha) as [S1 S2 S3 S4].
  apply (session_update r s _ i (with_paused BVSTK_CACHE_EXPIRED (sub_at s i))); try done.
  - split; [done|by right; left|by right|done].
  - intros j Hj Hne Hj' Hp. right. apply Hw; try done. congruence.
Qed.

(** ** Requests *)

Definition conn_ok r c : Prop := cs_reg (cn_cache c) = r /\ session_ok r (cn_session c).

Lemma upd_ok r c f : conn_ok r c -> session_ok r (f (cn_session c)) -> runs (upd f) c (fun _ c' => conn_ok r c').
Proof. intros [Hr _] Hf. by apply runs_mod. Qed.

Lemma page_progress_ok r s first n : session_ok r s -> session_ok r (page_progress s first n).
Proof.
  intros Hs. unfold page_progress. cbv zeta.
  set (s1 := if first =? se_snapshot_progress s then with_progress (u16 (first + n)) s else s).
  assert (session_ok r s1 /\ se_subscriptions s1 = se_subscriptions s /\ se_snapshot_sub s1 = se_snapshot_sub s) as (Hs1 & E1 & E2).
  { unfold s1. destruct (_ =? _); [|done]. split; [|done]. apply (session_same r s); try done. apply (so_robin r s Hs). }
  destruct (subscription s (se_snapshot_sub s)) as [i|] eqn:Es; [|done]. destruct (se_snapshot_progress s1 =? _); [|done].
  apply (subscription_spec r) in Es as (Hi & Ha & Hid); [|done].
  assert (sub_at s1 i = sub_at s i) as Hsub by (unfold sub_at; by rewrite E1).
  pose proof Hs1 as [W1 W2 W3 W4 W5 W6 W7 W8]. rewrite <- Hsub in Ha. destruct (W6 i Hi Ha) as [S1 S2 S3 S4].
  apply (session_update r s1 _ i (with_pending 0 (sub_at s1 i))); try done.
  - split; [done|done|by intros Hp|done].
  - intros j Hj _ Hj'. destruct (W6 j Hj Hj') as [_ _ T3 _]. exact T3.
Qed.

Lemma page_session s first out capacity :
  snd (page s first out capacity) = s \/ exists n, snd (page s first out capacity) = page_progress s first n.
Proof.
  unfold page. destruct (_ <? first); [by left|]. destruct (capacity <? _); [by left|].
  destruct (page_loop _ _ _ _ _ _ _) as [[count used] out1]. destruct (_ && _); [by left|]. right. by exists count.
Qed.

Lemma paged_ok r c first out capacity : conn_ok r c -> runs (paged first out capacity) c (fun _ c' => conn_ok r c').
Proof.
  intros [Hr Hs]. unfold runs, paged. pose proof (page_session (cn_session c) first out capacity) as Hp.
  destruct (page _ _ _ _) as [[[st size] o] s']. cbn [fst snd] in *. split; [done|]. cbn [cn_session].
  destruct Hp as [->|[n ->]]; [done|]. by apply page_progress_ok.
Qed.

Lemma unsubscribe_ok r c body size : conn_ok r c -> runs (unsubscribe body size) c (fun _ c' => conn_ok r c').
Proof.
  intros Hc. unfold unsubscribe. destruct (negb _); [by apply runs_ret|]. apply runs_bind, runs_get.
  destruct (subscription _ _) as [i|] eqn:Es; [|by apply runs_ret]. destruct Hc as [Hr Hs].
  apply (subscription_spec r) in Es as (Hi & Ha & _); [|done]. apply runs_bind, runs_mod, runs_bind, runs_mod, runs_ret.
  split; [done|]. cbn [cn_session cn_cache]. set (s := cn_session c) in *. fold (sub_at s i).
  pose proof Hs as [W1 W2 W3 W4 W5 W6 W7 W8].
  set (s1 := if _ =? _ then _ else s).
  assert (se_subscriptions s1 = se_subscriptions s /\ se_next_sub s1 = se_next_sub s /\ se_round_robin s1 = se_round_robin s /\
    se_snapshot s1 = se_snapshot s /\
    (se_snapshot_sub s = sb_id (sub_at s i) /\ se_snapshot_id s1 = 0 \/
     se_snapshot_sub s <> sb_id (sub_at s i) /\ se_snapshot_id s1 = se_snapshot_id s /\ se_snapshot_sub s1 = se_snapshot_sub s))
    as (E1 & E2 & E3 & E4 & E5).
  { unfold s1. destruct (_ =? _) eqn:E; bsimp; (split; [done|]; split; [done|]; split; [done|]; split; [done|]); [left|right]; done. }
  unfold on_subscription. apply (session_replace r s _ i zero_subscription); try done.
  - cbn [se_subscriptions with_subscriptions]. by rewrite E1.
  - cbn [se_next_sub with_subscriptions]. rewrite E2. lia.
  - cbn [se_next_sub with_subscriptions]. rewrite E2. lia.
  - cbn [se_round_robin with_subscriptions]. by rewrite E3.
  - intros j Hj Hne Hj'. destruct (W6 j Hj Hj') as [_ _ T3 _]. intros Hp. destruct (T3 Hp) as [(T1 & T2 & T4)|T1]; [left|by right].
    cbn [se_snapshot_sub se_snapshot_id with_subscriptions]. destruct E5 as [[E5 _]|(E5 & -> & ->)]; [|done].
    exfalso. destruct (W7 j i Hj Hi Hne Hj' Ha) as [Hd _]. congruence.
  - cbn [se_snapshot_id se_snapshot with_subscriptions]. rewrite E4. destruct E5 as [[_ ->]|(_ & -> & _)]; done.
Qed.

Lemma continue_ok r c token first bus dev now out capacity :
  conn_ok r c -> runs (continue token first bus dev now out capacity) c (fun _ c' => conn_ok r c').
Proof.
  intros Hc. unfold continue. apply runs_bind, runs_get. destruct (_ || _); [by apply runs_ret|].
  apply runs_bind. eapply runs_mono; [by apply paged_ok|]. intros [[st size] o] c1 Hc1.
  apply runs_bind. eapply runs_mono; [apply (upd_ok r c1); [done|]|].
  - destruct Hc1 as [_ Hs]. destruct (st =? 0); [|done]. apply (session_same r (cn_session c1)); try done. apply (so_robin _ _ Hs).
  - intros ? c2 Hc2. by apply runs_ret.
Qed.

(** A snapshot leaves the registry and starts a client in step. *)
Lemma snapshot_taken r c bus dev now : conn_ok r c ->
  runs (on_cache (bvstk_cache_snapshot true (Some bus) (Some dev) true true true now)) c (fun o c' =>
    cn_session c' = cn_session c /\ conn_ok r c' /\
    match o with
    | (BVSTK_OK, Some (v, h, cur)) => device_ok v /\ 0 <= sn_revision v /\ client_ok r h (sn_generation v) v cur
    | _ => True
    end).
Proof.
  intros [Hr Hs]. pose proof (snapshot_run bus dev now (cn_cache c)) as Hrun.
  unfold runs, on_cache in *. destruct (bvstk_cache_snapshot _ _ _ _ _ _ now (cn_cache c)) as [o w'] eqn:E.
  cbn [fst snd cn_session cn_cache] in *. destruct Hrun as [Hw Ho]. rewrite Hr in *.
  split; [done|]. split; [by split|]. destruct o as [st [[[v h] cur]|]]; [|by destruct st]. destruct st; try done.
  destruct (for_find _ 0 _) as [i|] eqn:Ef; [|done]. injection Ho as -> -> ->. apply and_assoc. split.
  - apply for_find_Some in Ef as (Hi & Hn & _). unfold named in Hn. rewrite !andb_true_iff, negb_true_iff in Hn.
    destruct Hn as [[Hl _] _]. bsimp. pose proof (rw_live r (so_wf r _ Hs) i Hi Hl) as Hok.
    pose proof (co_devices r (so_counters r _ Hs) i Hi Hl) as [Hrv _]. split.
    + apply device_ok_update; [exact Hok|apply (do_presence _ Hok)|apply (do_alen _ Hok)|apply (do_entries _ Hok)].
    + cbn [sn_revision with_captured]. lia.
  - pose proof (snapshot_client bus dev now (cn_cache c)) as Hcl. rewrite Hr in Hcl.
    by apply (Hcl _ _ _ _ (so_wf r _ Hs) (so_counters r _ Hs)) in E as [_ E].
Qed.

Lemma idle_waiting r s j : session_ok r s -> snapshot_busy s = false -> 0 <= j < BVSTK_DCP2_CACHE_SUBSCRIPTIONS ->
  active (sub_at s j) -> sb_pending (sub_at s j) <> 0 -> sb_paused (sub_at s j) = BVSTK_CACHE_EXPIRED.
Proof.
  intros Hs Hb Hj Ha Hp. destruct (decide (sb_paused (sub_at s j) = BVSTK_CACHE_EXPIRED)) as [|Hne]; [done|].
  destruct (waiting_named r s j Hs Hj Ha Hp Hne) as [E Hid]. exfalso. unfold snapshot_busy in Hb. rewrite E in Hb.
  fold (sub_at s j) in Hb. by rewrite (proj2 (Z.eqb_neq _ _) Hid), (proj2 (Z.eqb_neq _ _) Hp) in Hb.
Qed.

(** The session between a capture and its new token. *)
Definition captured (v : bvstk_cache_snapshot_t) s : bvstk_dcp2_cache_session_t :=
  with_progress 0 (with_snapshot_sub 0 (with_snapshot_id 0 (with_capture v s))).

Lemma captured_ok r s v : session_ok r s -> snapshot_busy s = false -> session_ok r (captured v s).
Proof.
  intros Hs Hb. pose proof Hs as [W1 W2 W3 W4 W5 W6 W7 W8]. split; try done.
  intros i Hi Ha. destruct (W6 i Hi Ha) as [S1 S2 S3 S4]. split; try done.
  intros Hp. right. by apply (idle_waiting r s).
Qed.

Lemma issue_token s now : se_snapshot_id (issue_snapshot now s) <> 0.
Proof.
  unfold issue_snapshot. cbv zeta. cbn [se_snapshot_id with_activity with_snapshot_id with_next_snapshot].
  destruct (u32 _ =? 0) eqn:E; bsimp; [|done]. by rewrite E.
Qed.

Lemma issue_ok r s v now : session_ok r s -> snapshot_busy s = false -> device_ok v ->
  session_ok r (issue_snapshot now (captured v s)).
Proof.
  intros Hs Hb Hv. pose proof (captured_ok r s v Hs Hb) as Hc. pose proof Hc as [W1 W2 W3 W4 W5 W6 W7 W8].
  split; try done. intros i Hi Ha. destruct (W6 i Hi Ha) as [S1 S2 S3 S4]. split; try done.
  intros Hp. right. by apply (idle_waiting r s).
Qed.

Lemma subscribed_ok r s v h cur i now :
  session_ok r s -> snapshot_busy s = false -> device_ok v -> 0 <= sn_revision v -> client_ok r h (sn_generation v) v cur ->
  let s1 := captured v s in
  target_subscription s1 h (free_subscription s) = Some i -> subscription_full s1 (Some i) = false ->
  session_ok r (issue_snapshot now (start_subscription i h cur s1)).
Proof.
  intros Hs Hb Hv Hrv Hcl s1 Ht Hfull. pose proof Hs as [W1 W2 W3 W4 W5 W6 W7 W8].
  unfold target_subscription, subscription_full in *. change (se_subscriptions s1) with (se_subscriptions s) in *.
  change (se_next_sub s1) with (se_next_sub s) in *.
  assert (0 <= i < BVSTK_DCP2_CACHE_SUBSCRIPTIONS /\
    (active (sub_at s i) /\ sb_handle (sub_at s i) = h \/
     ~ active (sub_at s i) /\ forall j, 0 <= j < BVSTK_DCP2_CACHE_SUBSCRIPTIONS -> active (sub_at s j) -> sb_handle (sub_at s j) <> h))
    as [Hi Hcase].
  { destruct (for_find _ 0 _) as [k|] eqn:Ef.
    - injection Ht as ->. apply for_find_Some in Ef as (Hi & Hp & _). bsimp. split; [done|]. left. by split.
    - unfold free_subscription in Ht. apply for_find_Some in Ht as (Hi & Hp & _). bsimp. split; [done|]. right.
      split; [by intros Ha|]. intros j Hj Ha Hh. rewrite for_find_None in Ef. specialize (Ef j Hj). cbv beta in Ef.
      fold (sub_at s j) in Ef. unfold active in Ha. by rewrite (proj2 (Z.eqb_neq _ _) Ha), (proj2 (Z.eqb_eq _ _) Hh) in Ef. }
  fold (sub_at s i) in Hfull. unfold issue_snapshot, start_subscription. cbv zeta.
  change ((se_subscriptions s1).[i]) with (sub_at s i). change (se_next_sub s1) with (se_next_sub s).
  change (se_snapshot s1) with v. set (id := if sb_id (sub_at s i) =? 0 then _ else sb_id (sub_at s i)).
  set (next := if sb_id (sub_at s i) =? 0 then _ else se_next_sub s).
  assert (0 < id <= next /\ se_next_sub s <= next <= 65535 /\
    (active (sub_at s i) /\ id = sb_id (sub_at s i) \/ ~ active (sub_at s i) /\ se_next_sub s < id)) as (Hid & Hnext & Hnew).
  { unfold id, next, active. destruct (sb_id (sub_at s i) =? 0) eqn:E; cbn [andb] in Hfull; bsimp.
    - rewrite u16_id by lia. split; [lia|]. split; [lia|]. right. split; [by intros Hx|lia].
    - destruct (su_id _ _ _ (W6 i Hi E)). split; [lia|]. split; [lia|]. by left. }
  match goal with |- session_ok r (with_activity _ (with_snapshot_id ?t _)) => set (token := t) end.
  assert (token <> 0) as Htok by apply (issue_token (start_subscription i h cur s1) now).
  apply (session_replace r s _ i (Subscription cur (sn_revision v) (sn_generation v) id h 1 0)); try done.
  - exact (conj (proj1 W4) (proj1 Hnext)).
  - exact (proj2 Hnext).
  - intros _. split.
    + split; [done|by left| |].
      * intros _. left. done.
      * intros _. by exists v.
    + intros j Hj Hne Ha. split; cbn [sb_id sb_handle].
      * destruct Hnew as [[Ha' ->]|[_ Hlt]]; [by destruct (W7 i j Hi Hj ltac:(done) Ha' Ha)|].
        destruct (su_id _ _ _ (W6 j Hj Ha)). lia.
      * destruct Hcase as [[Ha' <-]|[_ Hh]]; [by destruct (W7 i j Hi Hj ltac:(done) Ha' Ha)|]. intros E. by destruct (Hh j Hj Ha).
  - intros j Hj _ Ha Hp. right. by apply (idle_waiting r s).
Qed.

Lemma capture_ok r c opcode bus dev now out capacity :
  conn_ok r c -> runs (capture opcode bus dev now out capacity) c (fun _ c' => conn_ok r c').
Proof.
  intros Hc. unfold capture. apply runs_bind, runs_get. destruct (snapshot_busy (cn_session c)) eqn:Eb; [by apply runs_ret|].
  destruct (capacity <? _); [by apply runs_ret|]. apply runs_bind, runs_get. apply runs_bind.
  eapply runs_mono; [by apply snapshot_taken|]. intros [st o] c1 (Es & Hc1 & Ho).
  destruct st; try (by apply runs_ret). destruct o as [[[v h] cur]|]; [|by apply runs_ret]. destruct Ho as (Hv & Hrv & Hcl).
  destruct Hc1 as [Hr1 Hs1]. rewrite <- Es in Eb |- *. fold (captured v).
  apply runs_bind, runs_mod. cbn [cn_session cn_cache]. destruct (opcode =? _).
  - apply runs_bind, runs_get, runs_bind, runs_get. cbn [cn_session].
    destruct (subscription_full _ _) eqn:Ef; [apply runs_ret; split; [done|by apply captured_ok]|].
    destruct (target_subscription _ _ _) as [i|] eqn:Et; [|done]. cbn [default id].
    apply runs_bind, runs_mod, runs_bind, runs_mod. cbn [cn_session cn_cache]. apply paged_ok.
    split; [done|]. by apply subscribed_ok.
  - apply runs_bind, runs_mod. cbn [cn_session cn_cache]. apply paged_ok. split; [done|]. by apply issue_ok.
Qed.

Lemma request_ok r c opcode body size now out capacity :
  conn_ok r c -> runs (bvstk_dcp2_cache_request opcode body size now out capacity) c (fun _ c' => conn_ok r c').
Proof.
  intros [Hr Hs]. unfold bvstk_dcp2_cache_request. apply runs_bind, runs_mod.
  set (c1 := Connection _ _). assert (conn_ok r c1) as Hc1 by (split; [done|by apply expire_ok]). clearbody c1.
  destruct (_ && _); [by apply runs_ret|]. destruct (size =? 0); [by apply runs_ret|]. destruct (negb _); [by apply runs_ret|].
  cbv zeta. destruct (opcode =? BVSTK_DCP2_CACHE_UNSUBSCRIBE).
  { apply runs_bind. eapply runs_mono; [by apply unsubscribe_ok|]. intros st c2 Hc2. by apply runs_ret. }
  destruct (name body 1 (size - 1)) as [[[p n] bus]|]; [|by apply runs_ret].
  destruct (name body p n) as [[[p' n'] dev]|]; [|by apply runs_ret].
  destruct (opcode =? BVSTK_DCP2_CACHE_GET).
  - destruct (negb _); [by apply runs_ret|]. destruct (_ && _); [by apply runs_ret|].
    destruct (negb _); [by apply continue_ok|by apply capture_ok].
  - destruct (negb _); [by apply runs_ret|by apply capture_ok].
Qed.

(** ** Events *)

(** What an event says. *)
Definition resync_bytes b (reason now : Z) : list Z :=
  [BVSTK_DCP2_CACHE_VERSION; BVSTK_DCP2_CACHE_RESYNC] ++ Dcp2Codec.be16 (u16 (sb_id b)) ++
  Dcp2Codec.be32 (u32 (sb_generation b)) ++ be64 (sb_revision b) ++ be64 now ++ [0; u8 reason; 0; 0].

Definition change_head b (ch : bvstk_cache_change_t) : list Z :=
  [BVSTK_DCP2_CACHE_VERSION; ch_kind ch] ++ Dcp2Codec.be16 (u16 (sb_id b)) ++
  Dcp2Codec.be32 (u32 (sb_generation b)) ++ be64 (ch_revision ch) ++ be64 (ch_time_ms ch) ++ [ch_presence ch; 0].
Definition change_bytes b (ch : bvstk_cache_change_t) : list Z :=
  change_head b ch ++ (if ch_kind ch =? BVSTK_CACHE_CHANGE then [0; 1] ++ entry_bytes (ch_entry ch) else [0; 0]).

(** Why a client is told to start again. *)
Definition resync_reason r b (reason : Z) : Prop :=
  (reason = BVSTK_CACHE_EXPIRED /\ sb_paused b = BVSTK_CACHE_EXPIRED) \/
  (sb_paused b = 0 /\ reason = BVSTK_CACHE_LOST /\ BVSTK_CACHE_JOURNAL_SIZE < rg_head r - sb_cursor b) \/
  (sb_paused b = 0 /\ reason = BVSTK_CACHE_RECONFIGURED /\
     forall d, device r (sb_handle b) = Some d -> sn_generation d <> sb_generation b).

(** Nothing to say to the subscriber now: none there, already told to start
    again, still reading its snapshot, or up to date. *)
Definition quiet r b : Prop :=
  ~ active b \/ sb_paused b = 0xFF \/
  (sb_paused b = 0 /\ (sb_pending b <> 0 \/
     exists d, device r (sb_handle b) = Some d /\ sn_generation d = sb_generation b /\ sn_revision d = sb_revision b)).

(** The event [n] bytes of [out'] say, for the subscription [b] at [i]. *)
Definition event_said r b out n out' b' : Prop :=
  active b /\ 0 < n <= 79 /\
  ((exists ch, sb_paused b = 0 /\ sb_pending b = 0 /\ n = alen (change_bytes b ch) /\
      out' = change_bytes b ch ++ drop (length (change_bytes b ch)) out /\
      ch_revision ch = sb_revision b + 1 /\ sb_revision b' = ch_revision ch /\ sb_paused b' = 0 /\
      forall copy, client_ok r (sb_handle b) (sb_generation b) copy (sb_cursor b) -> sn_revision copy = sb_revision b ->
        client_ok r (sb_handle b) (sb_generation b) (applies copy ch) (sb_cursor b')) \/
   (exists reason, resync_reason r b reason /\ n = alen (resync_bytes b reason 0) /\
      (exists now, out' = resync_bytes b reason now ++ drop (length (resync_bytes b reason now)) out) /\ sb_paused b' = 0xFF)).

Lemma resync_store b result now out : 28 <= alen out ->
  let o1 := fill BVSTK_DCP2_CACHE_EVENT_HEADER 0 ++ drop (Z.to_nat BVSTK_DCP2_CACHE_EVENT_HEADER) out in
  let o2 := put32 (put16 (o1.[0 <- BVSTK_DCP2_CACHE_VERSION]) 2 (sb_id b)) 4 (sb_generation b) in
  let o3 := (o2.[1 <- BVSTK_DCP2_CACHE_RESYNC]).[25 <- u8 (- result)] in
  put64 (put64 o3 8 (sb_revision b)) 16 now = resync_bytes b (- result) now ++ drop 28 out.
Proof.
  intros Hl. cbv zeta. unfold resync_bytes. rewrite <- !be64_bytes, <- Dcp2Codec.be32_bytes, <- Dcp2Codec.be16_wrap.
  change (fill BVSTK_DCP2_CACHE_EVENT_HEADER 0) with (replicate 28 0). change (Z.to_nat BVSTK_DCP2_CACHE_EVENT_HEADER) with 28%nat.
  set (rest := drop 28 out). cbn [replicate app]. run_stores. done.
Qed.

Lemma change_store b ch out : 28 <= alen out ->
  let o1 := fill BVSTK_DCP2_CACHE_EVENT_HEADER 0 ++ drop (Z.to_nat BVSTK_DCP2_CACHE_EVENT_HEADER) out in
  let o2 := put32 (put16 (o1.[0 <- BVSTK_DCP2_CACHE_VERSION]) 2 (sb_id b)) 4 (sb_generation b) in
  let o3 := put64 (put64 (o2.[1 <- ch_kind ch]) 8 (ch_revision ch)) 16 (ch_time_ms ch) in
  o3.[24 <- ch_presence ch] = (change_head b ch ++ [0; 0]) ++ drop 28 out /\
  put16 (o3.[24 <- ch_presence ch]) 26 1 = (change_head b ch ++ [0; 1]) ++ drop 28 out.
Proof.
  intros Hl. cbv zeta. unfold change_head. rewrite <- !be64_bytes, <- Dcp2Codec.be32_bytes, <- Dcp2Codec.be16_wrap.
  change (fill BVSTK_DCP2_CACHE_EVENT_HEADER 0) with (replicate 28 0). change (Z.to_nat BVSTK_DCP2_CACHE_EVENT_HEADER) with 28%nat.
  set (rest := drop 28 out). cbn [replicate app]. run_stores. done.
Qed.

(** The session [s] except for the subscription at [i], where [b] is stored. *)
Record based r s (i : Z) b c : Prop := {
  ba_reg : cs_reg (cn_cache c) = r;
  ba_ok : session_ok r s;
  ba_index : 0 <= i < BVSTK_DCP2_CACHE_SUBSCRIPTIONS;
  ba_active : active (sub_at s i);
  ba_id : sb_id b = sb_id (sub_at s i);
  ba_handle : sb_handle b = sb_handle (sub_at s i);
  ba_session : cn_session c = with_subscriptions ((se_subscriptions s).[i <- b]) s
}.

(** An intact session that differs from [s] only there. *)
Definition touched r s (i : Z) b c : Prop :=
  conn_ok r c /\ se_round_robin (cn_session c) = se_round_robin s /\ sub_at (cn_session c) i = b /\
  forall j, 0 <= j -> j <> i -> sub_at (cn_session c) j = sub_at s j.

Lemma based_start r c i : conn_ok r c -> 0 <= i < BVSTK_DCP2_CACHE_SUBSCRIPTIONS -> active (sub_at (cn_session c) i) ->
  based r (cn_session c) i (sub_at (cn_session c) i) c.
Proof.
  intros [Hr Hs] Hi Ha. split; try done. destruct c as [s w]. cbn [cn_session] in *.
  assert ((se_subscriptions s).[i <- sub_at s i] = se_subscriptions s) as ->; [|by destruct s].
  unfold aset. apply list_insert_id. apply aget_lookup. rewrite (so_alen r s Hs). done.
Qed.

Lemma based_sub r s i b c : based r s i b c -> sub_at (cn_session c) i = b.
Proof.
  intros Hb. unfold sub_at. rewrite (ba_session _ _ _ _ _ Hb). cbn [se_subscriptions with_subscriptions].
  apply aget_aset_eq. rewrite (so_alen r s (ba_ok _ _ _ _ _ Hb)). exact (ba_index _ _ _ _ _ Hb).
Qed.

Lemma based_store r s i b c f : based r s i b c -> sb_id (f b) = sb_id b -> sb_handle (f b) = sb_handle b ->
  runs (upd (on_subscription i f)) c (fun _ c' => based r s i (f b) c').
Proof.
  intros Hb Hid Hh. pose proof (based_sub r s i b c Hb) as Hsub. destruct Hb as [B1 B2 B3 B4 B5 B6 B7].
  apply runs_mod. split; cbn [cn_cache cn_session]; try done; [congruence|congruence|].
  unfold on_subscription. fold (sub_at (cn_session c) i). rewrite Hsub, B7. unfold with_subscriptions.
  cbn [se_subscriptions]. f_equal. unfold aset. apply list_insert_insert_eq.
Qed.

Lemma based_settle r s i b c : based r s i b c -> sub_ok r s b -> touched r s i b c.
Proof.
  intros Hb Hok. pose proof (based_sub r s i b c Hb) as Hsub. destruct Hb as [B1 B2 B3 B4 B5 B6 B7].
  split; [split; [done|]|split; [by rewrite B7|split; [done|]]].
  - rewrite B7. apply (session_update r s _ i b); try done; [by destruct Hok| |apply (so_snapshot r s B2)].
    intros j Hj _ Hj'. exact (su_waiting _ _ _ (so_subs r s B2 j Hj Hj')).
  - intros j Hj Hne. rewrite B7. unfold sub_at. cbn [se_subscriptions with_subscriptions]. apply aget_aset_ne; lia.
Qed.

(** What the other fields of a subscription ask for. *)
Lemma sub_ok_paused r s i b' : session_ok r s -> 0 <= i < BVSTK_DCP2_CACHE_SUBSCRIPTIONS -> active (sub_at s i) ->
  sb_id b' = sb_id (sub_at s i) -> sb_pending b' = 0 ->
  (sb_paused b' = 0xFF \/ sb_paused b' = 0 /\ in_step r b') -> sub_ok r s b'.
Proof.
  intros Hs Hi Ha Hid Hp Hb. destruct (so_subs r s Hs i Hi Ha) as [S1 S2 S3 S4].
  split; [by rewrite Hid|destruct Hb as [->|[-> _]]; auto|by intros Hp'|].
  intros H0. destruct Hb as [Hb|[_ Hb]]; [congruence|done].
Qed.

Lemma emit_resync_run r s i b c result now out : based r s i b c -> 28 <= alen out ->
  runs (emit_resync i result now out) c (fun o c' => touched r s i (with_paused 0xFF (with_pending 0 b)) c' /\
    o = (28, resync_bytes b (- result) now ++ drop 28 out)).
Proof.
  intros Hb Ho. unfold emit_resync. apply runs_bind, runs_get. fold (sub_at (cn_session c) i).
  rewrite (based_sub r s i b c Hb). cbv zeta. rewrite resync_store by done. apply runs_bind.
  eapply runs_mono; [by apply (based_store r s i b c (fun b => with_paused 0xFF (with_pending 0 b)))|].
  intros ? c1 Hb1. apply runs_ret. split; [|done]. apply based_settle; [done|]. destruct Hb as [B1 B2 B3 B4 B5 B6 B7].
  apply (sub_ok_paused r s i); try done. by left.
Qed.

Lemma emit_change_run r s i b c ch out : based r s i b c -> 79 <= alen out -> name_short (ch_entry ch) ->
  sb_pending b = 0 -> sb_paused b = 0 -> in_step r (with_seen (ch_revision ch) b) ->
  runs (emit_change i ch out) c (fun o c' => touched r s i (with_seen (ch_revision ch) b) c' /\
    o = (alen (change_bytes b ch), change_bytes b ch ++ drop (length (change_bytes b ch)) out)).
Proof.
  intros Hb Ho Hsh Hpe Hpa Hst. unfold emit_change. apply runs_bind, runs_get. fold (sub_at (cn_session c) i).
  rewrite (based_sub r s i b c Hb). cbv zeta. destruct (change_store b ch out) as [E1 E2]; [lia|]. cbv zeta in E1, E2.
  rewrite E2, E1. apply runs_bind.
  eapply runs_mono; [by apply (based_store r s i b c (with_seen (ch_revision ch)))|].
  intros ? c1 Hb1. set (head := change_head b ch).
  assert (touched r s i (with_seen (ch_revision ch) b) c1) as Ht.
  { apply based_settle; [done|]. destruct Hb as [B1 B2 B3 B4 B5 B6 B7]. apply (sub_ok_paused r s i); try done. by right. }
  unfold change_bytes. fold head. destruct (ch_kind ch =? BVSTK_CACHE_CHANGE).
  - assert (alen (head ++ [0; 1]) = BVSTK_DCP2_CACHE_EVENT_HEADER) as Hh by done.
    unfold name_short, BVSTK_CACHE_NAME_MAX in Hsh. pose proof (alen_entry_bytes (ch_entry ch)) as Hl.
    rewrite <- Hh. rewrite entry_spec; [|unfold strlen; lia|unfold strlen, alen in *; rewrite length_drop; lia].
    apply runs_ret. split; [done|]. rewrite Hh. unfold strlen in Hl. pose proof (alen_nonneg (cstr (en_id (ch_entry ch)))).
    rewrite u16_id by (unfold BVSTK_DCP2_CACHE_EVENT_HEADER; lia). fold head. rewrite (app_assoc head).
    rewrite alen_app, Hh, <- !app_assoc. rewrite drop_drop, length_app. done.
  - apply runs_ret. split; [done|]. by rewrite <- !app_assoc.
Qed.

Lemma alen_change_bytes b ch : name_short (ch_entry ch) -> 0 < alen (change_bytes b ch) <= 79.
Proof.
  unfold name_short, BVSTK_CACHE_NAME_MAX. intros Hs. unfold change_bytes. rewrite alen_app.
  change (alen (change_head b ch)) with 26. pose proof (alen_entry_bytes (ch_entry ch)) as Hl. unfold strlen in Hl.
  pose proof (alen_nonneg (cstr (en_id (ch_entry ch)))).
  destruct (_ =? _); [rewrite alen_app; change (alen [0; 1]) with 2|change (alen [0; 0]) with 2]; lia.
Qed.

(** A read of the journal for the subscription at [i]. *)
Lemma next_change_run r s i b c : based r s i b c ->
  runs (next_change i) c (fun o c' => exists cursor, based r s i (with_cursor cursor b) c' /\
    forall copy, client_ok r (sb_handle b) (sb_generation b) copy (sb_cursor b) ->
      read_outcome r (sb_handle b) (sb_generation b) copy (sb_cursor b) (fst o, cursor, snd o)).
Proof.
  intros Hb. unfold next_change. apply runs_bind, runs_get. fold (sub_at (cn_session c) i). rewrite (based_sub r s i b c Hb).
  pose proof (ba_reg _ _ _ _ _ Hb) as Hr. apply runs_bind.
  eapply runs_mono; [apply (on_cache_run _ c (fun o w' => cs_reg w' = r /\ forall copy,
    client_ok r (sb_handle b) (sb_generation b) copy (sb_cursor b) ->
    read_outcome r (sb_handle b) (sb_generation b) copy (sb_cursor b) o))|].
  { split; [rewrite <- Hr; apply (next_run (sb_handle b) (sb_generation b) (sb_cursor b) (cn_cache c))|].
    intros copy Hcl. by apply (client_read r _ _ copy _ (cn_cache c) Hr Hcl). }
  intros [[result cursor] ch] c1 (E1 & E2 & Hout). cbn [fst snd] in *.
  assert (based r s i b c1) as Hb1.
  { destruct Hb as [B1 B2 B3 B4 B5 B6 B7]. by split; rewrite ?E1. }
  apply runs_bind. eapply runs_mono; [by apply (based_store r s i b c1 (with_cursor cursor))|].
  intros ? c2 Hb2. apply runs_ret. by exists cursor.
Qed.

(** One subscription's turn. *)
Lemma event_step_run r c i now out : conn_ok r c -> 0 <= i < BVSTK_DCP2_CACHE_SUBSCRIPTIONS -> 79 <= alen out ->
  let s := cn_session c in
  runs (event_step i now out) c (fun o c' => exists b', touched r s i b' c' /\
    match o with
    | None => quiet r b'
    | Some (n, out') => event_said r (sub_at s i) out n out' b'
    end).
Proof.
  intros Hc Hi Ho s. unfold event_step. apply runs_bind, runs_get. fold (sub_at (cn_session c) i). fold s. set (b := sub_at s i).
  assert (touched r s i b c) as Hsame by done.
  destruct (decide (active b)) as [Ha|Hna].
  2:{ unfold active in Hna. rewrite (proj2 (Z.eqb_eq (sb_id b) 0)) by (destruct (decide (sb_id b = 0)); done).
      apply runs_ret. exists b. split; [done|]. by left. }
  rewrite (proj2 (Z.eqb_neq (sb_id b) 0) Ha). cbn [orb].
  destruct (sb_paused b =? 255) eqn:Eff; bsimp.
  { apply runs_ret. exists b. split; [done|]. by right; left. }
  pose proof (based_start r c i Hc Hi Ha) as Hb. fold s b in Hb.
  destruct (so_subs r s (proj2 Hc) i Hi Ha) as [S1 S2 S3 S4]. fold b in S1, S2, S3, S4.
  destruct (sb_paused b =? 0) eqn:E0; cbn [negb]; bsimp.
  2:{ destruct S2 as [?|[S2|?]]; [done| |done]. apply runs_bind. eapply runs_mono; [apply (emit_resync_run r s i b c); [done|lia]|].
      intros o c1 [Ht ->]. apply runs_ret. eexists. split; [exact Ht|]. split; [done|]. split; [done|]. right. exists BVSTK_CACHE_EXPIRED.
      rewrite S2. split; [by left|]. split; [done|]. split; [by exists now|done]. }
  destruct (sb_pending b =? 0) eqn:Ep; cbn [negb]; bsimp.
  2:{ apply runs_ret. exists b. split; [done|]. right. right. split; [done|by left]. }
  destruct (S4 E0) as (copy & Hcl & Hrev & Hnn). apply runs_bind.
  eapply runs_mono; [by apply (next_change_run r s i b c)|]. intros [result och] c1 (cursor & Hb1 & Hout). cbn [fst snd] in Hout.
  set (b1 := with_cursor cursor b) in *.
  assert (forall reason, result = - reason -> reason <> 0 -> resync_reason r b reason -> 
    runs (let! o := emit_resync i (if 0 <? result then - BVSTK_CACHE_LOST else result) now out in st_ret (Some o)) c1
      (fun o c' => exists b', touched r s i b' c' /\ match o with None => quiet r b' | Some (n, out') => event_said r b out n out' b' end)) as Hresync.
  { intros reason -> Hne Hreason. assert (0 < reason) as Hpos by (destruct Hreason as [[-> _]|[(_ & -> & _)|(_ & -> & _)]]; done).
    rewrite (proj2 (Z.ltb_ge 0 (- reason))) by lia. apply runs_bind.
    eapply runs_mono; [apply (emit_resync_run r s i b1 c1); [done|lia]|]. intros o c2 [Ht ->]. apply runs_ret.
    eexists. split; [exact Ht|]. split; [done|]. split; [done|]. right. exists reason. split; [done|]. split; [done|].
    split; [|done]. exists now. rewrite Z.opp_involutive. done. }
  pose proof (Hout copy Hcl) as Ho1. unfold read_outcome in Ho1.
  destruct result as [|[| |]|[[| |]|[| |]|]]; try contradiction.
  - destruct Ho1 as (Hcl' & d & Hd & Hg & Hu).
    apply runs_ret. exists b1. split.
    + apply based_settle; [done|]. apply (sub_ok_paused r s i); try done; [apply Hc|]. right. split; [done|]. by exists copy.
    + right. right. split; [done|]. right. exists d. split; [done|]. split; [done|].
      change (sb_revision b1) with (sb_revision b). rewrite <- Hrev. by apply (f_equal sn_revision) in Hu.
  - destruct och as [ch|]; [|done]. destruct Ho1 as (Hlt & Hj & Hr1 & Hr2 & Hsh & Hcl').
    pose proof (co_head _ (cl_counters _ _ _ _ _ Hcl)) as Hhd.
    rewrite u64_id by (change (2 ^ 64) with 18446744073709551616 in Hhd; lia). rewrite (proj2 (Z.eqb_eq (ch_revision ch) (sb_revision b + 1))) by lia. cbn [Z.ltb andb].
    change (0 <? 1) with true. cbn [andb]. apply runs_bind.
    eapply runs_mono; [apply (emit_change_run r s i b1 c1 ch); try done|].
    + exists (applies copy ch). split; [done|]. split; [apply applies_revision|]. cbn [sb_revision with_seen]. lia.
    + intros o c2 [Ht ->]. apply runs_ret. eexists. split; [exact Ht|]. split; [done|]. split; [by apply alen_change_bytes|]. left. exists ch.
      split; [done|]. split; [done|]. split; [done|]. split; [done|]. split; [lia|]. split; [done|]. split; [done|].
      intros copy2 Hcl2 Hrev2. by destruct (Hout copy2 Hcl2) as (_ & _ & _ & _ & _ & ?).
  - destruct och; apply (Hresync 2); done || (right; right; split; [done|]; split; [done|]; apply Ho1).
  - destruct och; apply (Hresync 1); done || (right; left; split; [done|]; split; [done|]; apply Ho1).
Qed.

Lemma next_slot rr t : 0 <= rr < 65536 -> (u16 (rr + 1) + t) mod 8 = (rr + (t + 1)) mod 8.
Proof.
  intros Hr. unfold u16, wrap. change (2 ^ 16) with 65536. destruct (decide (rr = 65535)) as [->|].
  - change ((65535 + 1) mod 65536) with 0. replace (65535 + (t + 1)) with (t + 8192 * 8) by lia. by rewrite Z.mod_add.
  - rewrite (Z.mod_small (rr + 1) 65536) by lia. f_equal. lia.
Qed.

Lemma other_slot rr t : 0 < t < 8 -> (rr + t) mod 8 <> rr mod 8.
Proof. intros Ht He. Z.to_euclidean_division_equations. lia. Qed.

(** The subscriptions from the round-robin position on. *)
Lemma event_loop_run k r c now out : conn_ok r c -> (k <= 8)%nat -> 79 <= alen out ->
  let s := cn_session c in let slot := fun t => (se_round_robin s + t) mod 8 in
  runs (event_loop k now out) c (fun o c' => conn_ok r c' /\
    ((o = (0, out) /\ (forall t, 0 <= t < Z.of_nat k -> quiet r (sub_at (cn_session c') (slot t))) /\
      forall j, 0 <= j < 8 -> (forall t, 0 <= t < Z.of_nat k -> j <> slot t) -> sub_at (cn_session c') j = sub_at s j) \/
     (exists t, 0 <= t < Z.of_nat k /\ event_said r (sub_at s (slot t)) out (fst o) (snd o) (sub_at (cn_session c') (slot t))))).
Proof.
  revert c. induction k as [|k IH]; intros c Hc Hk Ho s slot; cbn [event_loop].
  { apply runs_ret. split; [done|]. left. split; [done|]. split; [intros t Ht; exfalso; lia|done]. }
  apply runs_bind, runs_get. fold s. pose proof (so_robin r s (proj2 Hc)) as Hrr. apply runs_bind, runs_mod. fold s.
  set (c1 := Connection _ _). assert (conn_ok r c1) as Hc1.
  { destruct Hc as [Hr Hs]. split; [done|]. apply (session_same r s); try done. apply u16_range. }
  assert (0 <= se_round_robin s mod 8 < 8) as Hslot by (apply Z.mod_pos_bound; lia).
  apply runs_bind. change BVSTK_DCP2_CACHE_SUBSCRIPTIONS with 8. eapply runs_mono; [apply (event_step_run r c1); [done|exact Hslot|done]|].
  intros [[n out']|] c2 (b' & (Hc2 & Hrob & Hb' & Hoth) & Hsaid).
  - apply runs_ret. split; [done|]. right. exists 0. split; [lia|]. unfold slot. rewrite Z.add_0_r, Hb'. exact Hsaid.
  - eapply runs_mono; [apply (IH c2); [done|lia|done]|]. rewrite Hrob. clear IH.
    change (se_round_robin (cn_session c1)) with (u16 (se_round_robin s + 1)).
    assert (forall j, 0 <= j < 8 -> j <> slot 0 -> sub_at (cn_session c2) j = sub_at s j) as Hkept.
    { intros j Hj Hne. unfold slot in Hne. rewrite Z.add_0_r in Hne. rewrite Hoth by (done || lia). done. }
    assert (forall t, (u16 (se_round_robin s + 1) + t) mod 8 = slot (t + 1)) as Hsl by (intros t; by apply next_slot).
    intros o c3 [Hc3 [(-> & Hq & Hun)|(t & Ht & Hev)]]; (split; [done|]).
    + left. split; [done|]. split.
      * intros t Ht. destruct (decide (t = 0)) as [->|].
        -- rewrite Hun; [unfold slot; rewrite Z.add_0_r, Hb'; exact Hsaid|unfold slot; apply Z.mod_pos_bound; lia|].
           intros t Ht2. rewrite Hsl. unfold slot. rewrite Z.add_0_r. apply not_eq_sym, other_slot. lia.
        -- specialize (Hq (t - 1) ltac:(lia)). rewrite Hsl in Hq. by replace (t - 1 + 1) with t in Hq by lia.
      * intros j Hj Hne. rewrite Hun; [|done|].
        -- apply Hkept; [done|]. apply Hne. lia.
        -- intros t Ht. rewrite Hsl. apply Hne. lia.
    + right. exists (t + 1). split; [lia|]. rewrite Hsl in Hev. rewrite Hkept in Hev; [done| |].
      * unfold slot. apply Z.mod_pos_bound. lia.
      * unfold slot. rewrite Z.add_0_r. apply other_slot. lia.
Qed.

Lemma event_run r c now out capacity : conn_ok r c -> capacity <= alen out ->
  runs (bvstk_dcp2_cache_event now out capacity) c (fun o c' => conn_ok r c' /\
    (79 <= capacity ->
     (o = (0, out) /\ forall i, 0 <= i < BVSTK_DCP2_CACHE_SUBSCRIPTIONS -> quiet r (sub_at (cn_session c') i)) \/
     exists i, 0 <= i < BVSTK_DCP2_CACHE_SUBSCRIPTIONS /\
       event_said r (sub_at (expire (cn_session c) now) i) out (fst o) (snd o) (sub_at (cn_session c') i))).
Proof.
  intros [Hr Hs] Hcap. unfold bvstk_dcp2_cache_event. apply runs_bind, runs_mod.
  set (c1 := Connection _ _). assert (conn_ok r c1) as Hc1 by (split; [done|by apply expire_ok]).
  change (BVSTK_DCP2_CACHE_EVENT_HEADER + BVSTK_CACHE_NAME_MAX - 1 + 20) with 79.
  destruct (capacity <? 79) eqn:E; bsimp; [apply runs_ret; split; [done|lia]|].
  eapply runs_mono; [apply (event_loop_run 8 r c1); [done|lia|lia]|]. unfold BVSTK_DCP2_CACHE_SUBSCRIPTIONS.
  intros o c2 [Hc2 Hcase]. split; [done|]. intros _.
  destruct Hcase as [(-> & Hq & _)|(t & Ht & Hev)]; [left|right].
  - split; [done|]. intros i Hi. set (rr := se_round_robin (cn_session c1)) in *.
    specialize (Hq ((i - rr) mod 8) (Z.mod_pos_bound (i - rr) 8 ltac:(lia))).
    assert ((rr + (i - rr) mod 8) mod 8 = i) as He by (rewrite Zplus_mod_idemp_r; replace (rr + (i - rr)) with i by lia; apply Z.mod_small; lia).
    by rewrite He in Hq.
  - eexists. split; [|exact Hev]. apply Z.mod_pos_bound. lia.
Qed.

(** ** The connection over a registry others change *)

Inductive conn_step : connection X -> connection X -> Prop :=
  | conn_other s w w' : busy_step w w' -> conn_step (Connection s w) (Connection s w')
  | conn_request opcode body size now out capacity c :
      conn_step c (snd (bvstk_dcp2_cache_request opcode body size now out capacity c))
  | conn_event now out capacity c : capacity <= alen out ->
      conn_step c (snd (bvstk_dcp2_cache_event now out capacity c)).

Definition conn_start (guard : option (bvstk_cache_guard_t X)) (x : X) : connection X :=
  Connection bvstk_dcp2_cache_init (CacheState (bvstk_cache_init guard) x).

Lemma conn_step_ok c c' : conn_step c c' ->
  session_ok (cs_reg (cn_cache c)) (cn_session c) -> session_ok (cs_reg (cn_cache c')) (cn_session c').
Proof.
  intros [s w w' Hst|opcode body size now out capacity c0|now out capacity c0 Hcap] Hs.
  - by apply (session_step w).
  - pose proof (request_ok _ c0 opcode body size now out capacity (conj eq_refl Hs)) as [E Hr]. by rewrite E.
  - pose proof (event_run _ c0 now out capacity (conj eq_refl Hs) Hcap) as [[E Hr] _]. by rewrite E.
Qed.

Lemma conn_reach_ok guard x c : rtc conn_step (conn_start guard x) c -> session_ok (cs_reg (cn_cache c)) (cn_session c).
Proof.
  intros Hr. apply (rtc_keeps conn_step (fun c => session_ok (cs_reg (cn_cache c)) (cn_session c)) conn_step_ok _ _ Hr).
  apply session_init.
Qed.

(** The session invariant.  Whatever requests a client sends - well formed
    or not - and whatever events are taken, while others change the registry:
    the subscriptions in use have different numbers between 1 and the last one
    issued and different devices; each is running, expired or told to start
    again; one that waits for pages waits for the session's live snapshot; and
    each running one stands where a client in step with its device stands. *)
Theorem dcp2_cache_session_invariant guard x c :
  rtc conn_step (conn_start guard x) c -> session_ok (cs_reg (cn_cache c)) (cn_session c).
Proof. apply conn_reach_ok. Qed.

(** C12: an event is the truth.  In every reachable connection an event call
    leaves the registry alone and either writes nothing, and then no
    subscription has anything to be told; or writes one frame of at most 79
    bytes for one subscription - the change with the very next revision, after
    which the subscriber is in step again, or a resync whose reason holds: its
    snapshot expired, it is more than 512 changes behind, or its device was
    reconfigured.  In particular the comparison of revisions in the code never
    fails. *)
Theorem dcp2_cache_event_sound guard x c now out capacity :
  rtc conn_step (conn_start guard x) c -> 79 <= capacity <= alen out ->
  let r := cs_reg (cn_cache c) in
  runs (bvstk_dcp2_cache_event now out capacity) c (fun o c' => cs_reg (cn_cache c') = r /\
    ((o = (0, out) /\ forall i, 0 <= i < BVSTK_DCP2_CACHE_SUBSCRIPTIONS -> quiet r (sub_at (cn_session c') i)) \/
     exists i, 0 <= i < BVSTK_DCP2_CACHE_SUBSCRIPTIONS /\
       event_said r (sub_at (expire (cn_session c) now) i) out (fst o) (snd o) (sub_at (cn_session c') i))).
Proof.
  intros Hr Hcap r. eapply runs_mono; [apply (event_run r c now out capacity); [|lia]|].
  - split; [done|]. by apply (conn_reach_ok guard x).
  - intros o c' [[E _] Hcase]. split; [done|]. apply Hcase. lia.
Qed.
End events.

(** A subscriber of the demonstration device, one change later. *)
Definition demo_subscribe : list Z := [BVSTK_DCP2_CACHE_VERSION] ++ wire_name [115] ++ wire_name [100].
Definition demo_client : connection unit := snd (bvstk_dcp2_cache_request BVSTK_DCP2_CACHE_SUBSCRIBE demo_subscribe 5 7
  (fill 88 0) 88 (Connection bvstk_dcp2_cache_init demo_defined)).

Lemma demo_client_reach : rtc conn_step (conn_start None tt) demo_client.
Proof.
  pose proof demo_reach as Hr. apply (rtc_congruence (Connection bvstk_dcp2_cache_init) conn_step) in Hr;
    [|intros w w'; apply conn_other].
  eapply rtc_r; [exact Hr|]. apply conn_request.
Qed.

Lemma dcp2_cache_session_invariant_witness : session_ok (cs_reg (cn_cache demo_client)) (cn_session demo_client).
Proof. apply (dcp2_cache_session_invariant None tt). apply demo_client_reach. Defined.

Lemma dcp2_cache_event_sound_witness :
  let r := cs_reg (cn_cache demo_client) in
  runs (bvstk_dcp2_cache_event 8 (fill 79 0) 79) demo_client (fun o c' => cs_reg (cn_cache c') = r /\
    ((o = (0, fill 79 0) /\ forall i, 0 <= i < BVSTK_DCP2_CACHE_SUBSCRIPTIONS -> quiet r (sub_at (cn_session c') i)) \/
     exists i, 0 <= i < BVSTK_DCP2_CACHE_SUBSCRIPTIONS /\
       event_said r (sub_at (expire (cn_session demo_client) 8) i) (fill 79 0) (fst o) (snd o) (sub_at (cn_session c') i))).
Proof.
  apply (dcp2_cache_event_sound None tt demo_client 8 (fill 79 0) 79 demo_client_reach). change (alen (fill 79 0)) with 79. lia.
Defined.
