(* ===== verification/SdVolume.v ===== *)
(** * SdVolume: finding the FAT volume of an SD card

    [src/src/services/sd/bvstk_sd_volume.c].  A sector is an array of 512
    bytes; the reading callback returns its status and the buffer it filled.
    [size_t] has 32 bits, as on the target. *)
From stdpp Require Import prelude.
From Stdlib Require Import ZArith Lia.
From S2P Require Import Prelude Platform.
Local Open Scope Z_scope.

Definition SIZE_MAX : Z := 4294967295.

Record bvstk_sd_volume_t := Volume { vo_first_lba : Z; vo_sectors : Z; vo_fat_bits : Z }.
Definition zero_volume : bvstk_sd_volume_t := Volume 0 0 0.

Definition le16 (p : list Z) (o : Z) : Z := Z.lor (p.[o]) (Z.shiftl (p.[o + 1]) 8).
Definition le32 (p : list Z) (o : Z) : Z :=
  Z.lor (Z.lor (Z.lor (p.[o]) (Z.shiftl (p.[o + 1]) 8)) (Z.shiftl (p.[o + 2]) 16)) (Z.shiftl (p.[o + 3]) 24).

Definition signature (p : list Z) : bool := (p.[510] =? 0x55) && (p.[511] =? 0xaa).

(** The parameter block at [p]; [Some] is what is stored at [*out]. *)
Definition bpb (p : list Z) (start limit : Z) : option bvstk_sd_volume_t :=
  let total := le16 p 19 in
  let fat := le16 p 22 in
  let reserved := le16 p 14 in
  let roots := le16 p 17 in
  let spc := p.[13] in
  let fats := p.[16] in
  if negb (signature p) || (negb (p.[0] =? 0xeb) && negb (p.[0] =? 0xe9)) || negb (le16 p 11 =? 512) ||
     (reserved =? 0) || (spc =? 0) || (128 <? spc) || negb (Z.land spc (spc - 1) =? 0) ||
     (negb (fats =? 1) && negb (fats =? 2)) || negb (roots mod 16 =? 0) then None
  else
    let total := if total =? 0 then le32 p 32 else total in
    let fat := if fat =? 0 then le32 p 36 else fat in
    if (total =? 0) || (fat =? 0) || (negb (limit =? 0) && (limit <? total)) || (0x100000000 <? u64 (start + total)) then None
    else
      let overhead := u64 (reserved + u64 (fats * fat) + roots / 16) in
      if total <=? overhead then None
      else
        let clusters := u32 ((total - overhead) / spc) in
        if (clusters =? 0) || (0x0ffffff5 - 2 <? clusters) then None
        else
          let bits := if clusters <? 4085 then 12 else if clusters <? 65525 then 16 else 32 in
          let refused :=
            if bits =? 32 then
              let root := le32 p 44 in
              let fsinfo := le16 p 48 in
              let backup := le16 p 50 in
              negb (roots =? 0) || negb (le16 p 22 =? 0) || negb (le16 p 42 =? 0) || (root <? 2) ||
              (u32 (clusters + 2) <=? root) || negb (Z.land (le16 p 40) 0x80 =? 0) ||
              (negb (fsinfo =? 0xffff) && ((fsinfo =? 0) || (reserved <=? fsinfo))) ||
              (negb (backup =? 0xffff) && negb (backup =? 0) && (reserved <=? backup))
            else (roots =? 0) || (le16 p 22 =? 0) in
          if refused then None
          else
            let fat_bytes := u64 (u64 (u32 (clusters + 2) * bits) + 7) / 8 in
            if u64 (fat * 512) <? fat_bytes then None
            else Some (Volume start total bits).

(** The partition types of the loop's switch. *)
Definition fat_type (t : Z) : bool :=
  (t =? 0x01) || (t =? 0x04) || (t =? 0x06) || (t =? 0x0b) || (t =? 0x0c) || (t =? 0x0e).

Section probe.
Context {X : Type}.
Definition bvstk_sd_volume_read_t : Type := Z -> ST X (bvstk_status_t * list Z).

(** Entries [i .. i + n) of the partition table. *)
Fixpoint probe_loop (n : nat) (read : bvstk_sd_volume_read_t) (entries : list Z) (i : Z)
    : ST X (bvstk_status_t * bvstk_sd_volume_t) :=
  match n with
  | O => st_ret (BVSTK_ERR_UNSUPPORTED, zero_volume)
  | S n =>
      let entry := i * 16 in
      let start := le32 entries (entry + 8) in
      let count := le32 entries (entry + 12) in
      if negb (fat_type (entries.[entry + 4])) then probe_loop n read entries (i + 1)
      else if (negb (entries.[entry] =? 0) && negb (entries.[entry] =? 0x80)) || (start =? 0) || (count =? 0) ||
              (0x100000000 <? u64 (start + count)) then probe_loop n read entries (i + 1)
      else
        let! r := read start in
        if negb (is_ok (fst r)) then st_ret (fst r, zero_volume)
        else
          match bpb (snd r) start count with
          | Some v => st_ret (BVSTK_OK, v)
          | None => probe_loop n read entries (i + 1)
          end
  end.

(** [volume] is false for a NULL pointer; the second result is what is stored
    there. *)
Definition bvstk_sd_volume_probe (read : option bvstk_sd_volume_read_t) (volume : bool)
    : ST X (bvstk_status_t * option bvstk_sd_volume_t) :=
  match read with
  | None => st_ret (BVSTK_ERR_MALFORMED, None)
  | Some f =>
      if negb volume then st_ret (BVSTK_ERR_MALFORMED, None)
      else
        let! r := f 0 in
        if negb (is_ok (fst r)) then st_ret (fst r, Some zero_volume)
        else
          match bpb (snd r) 0 0 with
          | Some v => st_ret (BVSTK_OK, Some v)
          | None =>
              if negb (signature (snd r)) then st_ret (BVSTK_ERR_UNSUPPORTED, Some zero_volume)
              else
                let! o := probe_loop 4 f (prefix 64 (drop 446 (snd r))) 0 in
                st_ret (fst o, Some (snd o))
          end
  end.
End probe.

(** [None] is false. *)
Definition bvstk_sd_volume_map (volume : option bvstk_sd_volume_t) (sector count : Z) (physical_lba : bool) : option Z :=
  match volume with
  | None => None
  | Some v =>
      if negb physical_lba || (count =? 0) || (SIZE_MAX / 512 <? count) || (vo_sectors v <=? sector) ||
         (vo_sectors v - sector <? count) || (0x100000000 <? u64 (u64 (vo_first_lba v + sector) + count))
      then None else Some (u32 (vo_first_lba v + sector))
  end.

(** ** What a parameter block promises *)

Lemma le16_value p o : fits 8 (p.[o]) -> fits 8 (p.[o + 1]) -> le16 p o = p.[o] + 256 * p.[o + 1].
Proof.
  unfold le16, fits. intros H0 H1. rewrite Z.lor_comm, lor_shiftl_add by lia. lia.
Qed.

Lemma le32_range p o : (forall k, 0 <= k < 4 -> fits 8 (p.[o + k])) -> fits 32 (le32 p o).
Proof.
  unfold fits. intros H. pose proof (H 0 ltac:(lia)) as H0. pose proof (H 1 ltac:(lia)). pose proof (H 2 ltac:(lia)).
  pose proof (H 3 ltac:(lia)). rewrite Z.add_0_r in H0. unfold le32.
  rewrite (Z.lor_comm (p.[o])), (lor_shiftl_add (p.[o + 1])) by lia.
  rewrite (Z.lor_comm (_ + _)), (lor_shiftl_add (p.[o + 2])) by lia.
  rewrite (Z.lor_comm (_ + _)), (lor_shiftl_add (p.[o + 3])) by lia. lia.
Qed.

Definition sector_ok (p : list Z) : Prop := forall i, 0 <= i < 512 -> fits 8 (p.[i]).

Lemma sector_le16 p o : sector_ok p -> 0 <= o < 511 -> 0 <= le16 p o < 65536.
Proof. intros Hp Ho. pose proof (Hp o ltac:(lia)) as H0. pose proof (Hp (o + 1) ltac:(lia)) as H1. rewrite le16_value by done. unfold fits in *. lia. Qed.

Lemma sector_le32 p o : sector_ok p -> 0 <= o < 509 -> 0 <= le32 p o < 4294967296.
Proof. intros Hp Ho. apply (le32_range p o). intros k Hk. apply Hp. lia. Qed.

(** The layout of an accepted volume, in sectors from its start: [overhead]
    sectors of reserved area, tables and root directory, then [clusters] clusters
    of [spc] sectors. *)
Record layout (p : list Z) (v : bvstk_sd_volume_t) (overhead clusters : Z) : Prop := {
  ly_overhead : overhead = le16 p 14 + p.[16] * (if le16 p 22 =? 0 then le32 p 36 else le16 p 22) + le16 p 17 / 16;
  ly_reserved : 0 < le16 p 14 < overhead;
  ly_spc : 0 < p.[13] <= 128;
  ly_clusters : 0 < clusters <= 0x0ffffff3;
  ly_data : overhead + clusters * p.[13] <= vo_sectors v < overhead + (clusters + 1) * p.[13];
  ly_fat : (clusters + 2) * vo_fat_bits v <= 8 * 512 * (if le16 p 22 =? 0 then le32 p 36 else le16 p 22);
  ly_bits : vo_fat_bits v = 12 /\ clusters < 4085 \/ vo_fat_bits v = 16 /\ 4085 <= clusters < 65525 \/
            vo_fat_bits v = 32 /\ 65525 <= clusters /\ 2 <= le32 p 44 < clusters + 2
}.

Lemma bpb_spec p start limit v : sector_ok p -> 0 <= start < 2 ^ 32 ->
  bpb p start limit = Some v ->
  vo_first_lba v = start /\ 0 < vo_sectors v < 2 ^ 32 /\ start + vo_sectors v <= 2 ^ 32 /\
  (limit <> 0 -> vo_sectors v <= limit) /\ exists overhead clusters, layout p v overhead clusters.
Proof.
  intros Hp Hs Hb. pose proof (sector_le16 p 19 Hp ltac:(lia)) as H19. pose proof (sector_le16 p 22 Hp ltac:(lia)) as H22.
  pose proof (sector_le16 p 14 Hp ltac:(lia)) as H14. pose proof (sector_le16 p 17 Hp ltac:(lia)) as H17.
  pose proof (sector_le32 p 32 Hp ltac:(lia)) as H32. pose proof (sector_le32 p 36 Hp ltac:(lia)) as H36. pose proof (sector_le32 p 44 Hp ltac:(lia)) as H44.
  pose proof (Hp 13 ltac:(lia)) as P13. pose proof (Hp 16 ltac:(lia)) as P16. unfold fits in P13, P16. change (2 ^ 8) with 256 in *. change (2 ^ 32) with 4294967296 in *.
  unfold bpb in Hb. destruct (_ || negb (le16 p 17 mod 16 =? 0)) eqn:E1; [done|].
  rewrite !orb_false_iff in E1. destruct E1 as [[[[[[_ Er] Es0] Es] _] Ef] _]. bsimp.
  set (total := if le16 p 19 =? 0 then le32 p 32 else le16 p 19) in *.
  set (fat := if le16 p 22 =? 0 then le32 p 36 else le16 p 22) in *.
  assert (0 <= total < 4294967296) as Ht by (unfold total; destruct (le16 p 19 =? 0); lia).
  assert (0 <= fat < 4294967296) as Hf by (unfold fat; destruct (le16 p 22 =? 0); lia).
  destruct (_ || (_ <? u64 (start + total))) eqn:E2; [done|]. rewrite !orb_false_iff in E2.
  destruct E2 as [[[Et Ef0] El] Eu]. bsimp. rewrite u64_id in Eu by lia.
  assert (1 <= p.[16] <= 2) as Hfats by (rewrite andb_false_iff, !negb_false_iff in Ef; destruct Ef as [Ef|Ef]; bsimp; lia).
  assert (0 <= le16 p 17 / 16 < 65536) as Hroots by (Z.to_euclidean_division_equations; lia).
  assert (fat <= p.[16] * fat <= 2 * fat) as Hff by nia.
  rewrite (u64_id (p.[16] * fat)) in Hb by lia.
  rewrite (u64_id (le16 p 14 + p.[16] * fat + le16 p 17 / 16)) in Hb by lia.
  set (overhead := le16 p 14 + p.[16] * fat + le16 p 17 / 16) in *.
  destruct (total <=? overhead) eqn:Eo; [done|]. bsimp.
  assert (0 <= (total - overhead) / p.[13] <= total - overhead) as Hq.
  { split; [apply Z.div_pos; lia|apply Z.div_le_upper_bound; nia]. }
  rewrite u32_id in Hb by lia. set (clusters := (total - overhead) / p.[13]) in *.
  destruct (_ || (0x0ffffff5 - 2 <? clusters)) eqn:E3; [done|]. bsimp.
  rewrite !(u32_id (clusters + 2)) in Hb by lia.
  set (bits := if clusters <? 4085 then 12 else if clusters <? 65525 then 16 else 32) in *.
  assert (0 < bits <= 32) as Hbits by (unfold bits; destruct (clusters <? 4085); [lia|destruct (clusters <? 65525); lia]).
  destruct (if bits =? 32 then _ else _) eqn:E4; [done|].
  assert (0 <= (clusters + 2) * bits <= 268435456 * 32) as Hcb by nia.
  rewrite (u64_id ((clusters + 2) * bits)), (u64_id ((clusters + 2) * bits + 7)), (u64_id (fat * 512)) in Hb by lia.
  destruct (fat * 512 <? _) eqn:E5; [done|]. injection Hb as <-. bsimp. cbn [vo_first_lba vo_sectors].
  split; [done|]. split; [lia|]. split; [lia|]. split.
  { intros Hl. rewrite andb_false_iff in El. destruct El as [El|El]; bsimp; lia. }
  exists overhead, clusters. split; cbn [vo_sectors vo_fat_bits]; fold fat.
  - done.
  - unfold overhead. lia.
  - lia.
  - lia.
  - unfold clusters. Z.to_euclidean_division_equations. nia.
  - Z.to_euclidean_division_equations. lia.
  - unfold bits in *. destruct (clusters <? 4085) eqn:B1; [left; bsimp; lia|]. destruct (clusters <? 65525) eqn:B2; [right; left; bsimp; lia|].
    right. right. change (32 =? 32) with true in E4. cbv iota in E4.
    bsimp. lia.
Qed.

(** The partition entry [i] of a master boot record. *)
Definition partition (mbr : list Z) (i start count : Z) : Prop :=
  0 <= i < 4 /\ fat_type (mbr.[446 + i * 16 + 4]) = true /\
  start = le32 mbr (446 + i * 16 + 8) /\ count = le32 mbr (446 + i * 16 + 12) /\ 0 < start /\ 0 < count /\ start + count <= 2 ^ 32.

(** The sectors a mapping hands out. *)
Definition mapped (v : bvstk_sd_volume_t) : Prop :=
  forall sector count, 0 <= sector < 2 ^ 32 -> 0 <= count < 2 ^ 32 ->
    bvstk_sd_volume_map (Some v) sector count true =
      if (0 <? count) && (count <=? SIZE_MAX / 512) && (sector + count <=? vo_sectors v)
      then Some (vo_first_lba v + sector) else None.

Lemma map_iff v : 0 <= vo_first_lba v -> 0 < vo_sectors v < 2 ^ 32 -> vo_first_lba v + vo_sectors v <= 2 ^ 32 -> mapped v.
Proof.
  intros Hf Hs Hr sector count Hsec Hc. unfold bvstk_sd_volume_map. cbn [negb orb]. change (2 ^ 32) with 4294967296 in *.
  change (SIZE_MAX / 512) with 8388607. rewrite (u64_id (vo_first_lba v + sector)), (u64_id (vo_first_lba v + sector + count)) by lia.
  destruct (count =? 0) eqn:E0; bsimp; [subst; done|]. rewrite (proj2 (Z.ltb_lt 0 count)) by lia. cbn [andb orb].
  destruct (8388607 <? count) eqn:E1; bsimp; [by rewrite (proj2 (Z.leb_gt count 8388607)) by lia|].
  rewrite (proj2 (Z.leb_le count 8388607)) by lia. cbn [andb orb].
  destruct (sector + count <=? vo_sectors v) eqn:E2; bsimp.
  - rewrite (proj2 (Z.leb_gt (vo_sectors v) sector)), (proj2 (Z.ltb_ge (vo_sectors v - sector) count)) by lia.
    rewrite (proj2 (Z.ltb_ge 0x100000000 _)) by lia. cbn [orb]. by rewrite u32_id by lia.
  - destruct (vo_sectors v <=? sector); [done|]. cbn [orb]. by rewrite (proj2 (Z.ltb_lt (vo_sectors v - sector) count)) by lia.
Qed.

Section found.
Context {X : Type} (read : bvstk_sd_volume_read_t (X:=X)).

(** The callback fills the sector with bytes. *)
Definition reads_sectors : Prop :=
  forall lba x, fst (fst (read lba x)) = BVSTK_OK -> sector_ok (snd (fst (read lba x))).

(** Where a volume was found: its first sector read at some point. *)
Definition found (mbr : option (list Z)) (v : bvstk_sd_volume_t) : Prop :=
  (exists p x overhead clusters, fst (read (vo_first_lba v) x) = (BVSTK_OK, p) /\ layout p v overhead clusters) /\
  0 < vo_sectors v /\ vo_first_lba v + vo_sectors v <= 2 ^ 32 /\ mapped v /\
  match mbr with
  | None => vo_first_lba v = 0
  | Some m => exists i count, partition m i (vo_first_lba v) count /\ vo_sectors v <= count
  end.

Lemma bpb_found p start limit v x : sector_ok p -> 0 <= start < 2 ^ 32 -> fst (read start x) = (BVSTK_OK, p) ->
  bpb p start limit = Some v ->
  (exists p x overhead clusters, fst (read (vo_first_lba v) x) = (BVSTK_OK, p) /\ layout p v overhead clusters) /\
  vo_first_lba v = start /\ 0 < vo_sectors v /\ vo_first_lba v + vo_sectors v <= 2 ^ 32 /\ mapped v /\
  (limit <> 0 -> vo_sectors v <= limit).
Proof.
  intros Hp Hs Hr Hb. destruct (bpb_spec p start limit v Hp Hs Hb) as (E & Hn & Hsum & Hlim & overhead & clusters & Hl).
  rewrite E. split; [by exists p, x, overhead, clusters|]. split; [done|]. split; [lia|]. split; [done|]. split; [|done].
  apply map_iff; lia.
Qed.

Lemma probe_loop_spec n m i x : sector_ok m -> 0 <= i -> i + Z.of_nat n = 4 -> reads_sectors ->
  runs (probe_loop n read (prefix 64 (drop 446 m)) i) x (fun o _ =>
    match fst o with BVSTK_OK => found (Some m) (snd o) | _ => snd o = zero_volume end).
Proof.
  intros Hm. revert i x. induction n as [|n IH]; intros i x Hi Hn Hread; cbn [probe_loop]; [by apply runs_ret|].
  assert (forall k, 0 <= k < 16 -> (prefix 64 (drop 446 m)).[i * 16 + k] = m.[446 + i * 16 + k]) as Hget.
  { intros k Hk. unfold aget, prefix. rewrite lookup_total_take, lookup_total_drop. 
    destruct (decide _) as [Hd|Hd]; [f_equal; lia|lia]. }
  assert (forall k, 0 <= k < 13 -> le32 (prefix 64 (drop 446 m)) (i * 16 + k) = le32 m (446 + i * 16 + k)) as Hle.
  { intros k Hk. unfold le32. rewrite <- !Z.add_assoc, !Hget by lia. by rewrite <- !Z.add_assoc. }
  rewrite !Hle by lia. rewrite Hget by lia. rewrite <- (Z.add_0_r (i * 16)), !Hget by lia. rewrite Z.add_0_r.
  set (start := le32 m (446 + i * 16 + 8)). set (count := le32 m (446 + i * 16 + 12)).
  destruct (fat_type _) eqn:Ety; cbn [negb]; [|apply IH; [lia|lia|done]].
  pose proof (sector_le32 m (446 + i * 16 + 8) Hm ltac:(lia)) as Hs. fold start in Hs.
  pose proof (sector_le32 m (446 + i * 16 + 12) Hm ltac:(lia)) as Hc. fold count in Hc.
  destruct (_ || (_ <? u64 (start + count))) eqn:E; [apply IH; [lia|lia|done]|].
  rewrite u64_id in E by lia. rewrite !orb_false_iff in E. destruct E as [[[_ E1] E2] E3]. bsimp.
  apply runs_bind. unfold runs at 1. specialize (Hread start x) as Hr. destruct (read start x) as [[st p] x1] eqn:Er.
  cbn [fst snd] in *. destruct st; cbn [is_ok negb]; try (by apply runs_ret).
  destruct (bpb p start count) as [v|] eqn:Eb; [|apply IH; [lia|lia|done]].
  apply runs_ret. cbn [fst snd].
  destruct (bpb_found p start count v x (Hr eq_refl) ltac:(change (2 ^ 32) with 4294967296; lia) ltac:(by rewrite Er) Eb)
    as (F1 & F2 & F3 & F4 & F5 & F6).
  split; [done|]. split; [done|]. split; [done|]. split; [done|]. exists i, count. rewrite F2. split; [|lia].
  split; [lia|]. split; [done|]. split; [done|]. split; [done|]. change (2 ^ 32) with 4294967296. lia.
Qed.

(** A probed volume is what its parameter block and its partition allow.
    When the probe succeeds, the volume's first sector was read and its block
    describes a FAT file system - tables big enough for every cluster, all
    clusters inside the volume - that starts at sector 0 or at a FAT partition of
    the master boot record and does not reach beyond it nor beyond 2^32 sectors;
    and the mapping hands out exactly the sector ranges inside the volume.  When
    it fails, the stored volume is empty and maps nothing. *)
Theorem sd_volume_confined x : reads_sectors ->
  runs (bvstk_sd_volume_probe (Some read) true) x (fun o _ => exists v, snd o = Some v /\
    match fst o with
    | BVSTK_OK => found None v \/ exists mbr x0, fst (read 0 x0) = (BVSTK_OK, mbr) /\ found (Some mbr) v
    | _ => v = zero_volume /\ forall sector count, 0 <= sector -> bvstk_sd_volume_map (Some v) sector count true = None
    end).
Proof.
  intros Hread.
  assert (forall sector count, 0 <= sector -> bvstk_sd_volume_map (Some zero_volume) sector count true = None) as Hzero.
  { intros sector count Hs. unfold bvstk_sd_volume_map. cbn [vo_sectors zero_volume]. rewrite (proj2 (Z.leb_le 0 sector)) by done.
    by rewrite !orb_true_r. }
  unfold bvstk_sd_volume_probe. cbn [negb]. apply runs_bind. unfold runs at 1. specialize (Hread 0 x) as Hr.
  destruct (read 0 x) as [[st p] x1] eqn:Er. cbn [fst snd] in *.
  destruct st; cbn [is_ok negb]; try (apply runs_ret; by exists zero_volume). specialize (Hr eq_refl).
  destruct (bpb p 0 0) as [v|] eqn:Eb.
  { apply runs_ret. exists v. split; [done|]. left. cbn [fst].
    destruct (bpb_found p 0 0 v x Hr ltac:(lia) ltac:(by rewrite Er) Eb) as (F1 & F2 & F3 & F4 & F5 & F6).
    split; [done|]. split; [done|]. split; [done|]. by split. }
  destruct (negb (signature p)); [apply runs_ret; by exists zero_volume|].
  apply runs_bind. eapply runs_mono; [apply probe_loop_spec; done|]. intros [st v] x2 Ho. apply runs_ret.
  cbn [fst snd] in *. exists v. split; [done|]. destruct st; try (subst v; by split).
  right. exists p, x. by rewrite Er.
Qed.
End found.

(** A card whose first sector holds a FAT12 volume of 720 sectors. *)
Definition demo_bpb : list Z :=
  let p := fill 512 0 in
  let p := ((p.[0 <- 0xeb]).[12 <- 2]).[13 <- 1] in
  let p := (((p.[14 <- 1]).[16 <- 2]).[17 <- 112]).[19 <- 208] in
  let p := ((p.[20 <- 2]).[22 <- 3]) in
  (p.[510 <- 0x55]).[511 <- 0xaa].
Definition demo_read : bvstk_sd_volume_read_t (X:=unit) := fun _ => st_ret (BVSTK_OK, demo_bpb).

Example demo_probe : fst (bvstk_sd_volume_probe (Some demo_read) true tt) = (BVSTK_OK, Some (Volume 0 720 12)).
Proof. vm_compute. reflexivity. Qed.

Lemma demo_reads_sectors : reads_sectors demo_read.
Proof.
  intros lba x _. change (sector_ok demo_bpb). intros i Hi.
  assert (forallb (fun b => (0 <=? b) && (b <? 256)) demo_bpb = true) as Hf by (vm_compute; reflexivity).
  rewrite forallb_forall in Hf. specialize (Hf (demo_bpb.[i]) (proj1 (list_elem_of_In _ _) (aget_in demo_bpb i Hi))).
  cbv beta in Hf. bsimp. unfold fits. change (2 ^ 8) with 256. lia.
Qed.

Lemma sd_volume_confined_witness :
  runs (bvstk_sd_volume_probe (Some demo_read) true) tt (fun o _ => exists v, snd o = Some v /\
    match fst o with
    | BVSTK_OK => found demo_read None v \/ exists mbr x0, fst (demo_read 0 x0) = (BVSTK_OK, mbr) /\ found demo_read (Some mbr) v
    | _ => v = zero_volume /\ forall sector count, 0 <= sector -> bvstk_sd_volume_map (Some v) sector count true = None
    end).
Proof. apply sd_volume_confined. apply demo_reads_sectors. Defined.
