(* ===== verification/SdMaster.v ===== *)
(** * SdMaster: the PL SD master driver

    [src/src/drivers/pl/sd/bvstk_sd_master.c]: SD commands in SPI mode through
    the extended command/DMA interface of the programmable logic.

    The state is the driver and the world behind its regions, its clock and its
    interrupt callbacks.  [open] refuses NULL callbacks, so a missing one is
    never called.  The polling loops carry fuel and return [None] without it;
    [SdMasterSafety] shows how much is enough. *)
From stdpp Require Import prelude strings.
From Stdlib Require Import ZArith Lia.
From S2P Require Import Prelude Platform PlAccess.
Local Open Scope Z_scope.

(** ** Registers (hardware/pl/sd/bvstk_sd_master_regs.h) *)

Definition SDM_CSR : Z := 0x00.
Definition SDM_IRQ : Z := 0x04.
Definition SDM_PACKET : Z := 0x08.
Definition SDM_DELAY : Z := 0x0c.
Definition SDM_INIT : Z := 0x14.
Definition SDM_DIVIDER : Z := 0x18.
Definition SDM_RESET : Z := 1.
Definition SDM_START_READ : Z := 6.
Definition SDM_START_COMMAND : Z := 14.
Definition SDM_ACK : Z := 1.
Definition SDM_FALL_THROUGH : Z := 3.
Definition SDM_INIT_VALUE : Z := 0x193.
Definition SDM_TX_CONTROL : Z := 0x00.
Definition SDM_TX_STATUS : Z := 0x04.
Definition SDM_TX_SOURCE : Z := 0x18.
Definition SDM_TX_LENGTH : Z := 0x28.
Definition SDM_RX_CONTROL : Z := 0x30.
Definition SDM_RX_STATUS : Z := 0x34.
Definition SDM_RX_DESTINATION : Z := 0x48.
Definition SDM_RX_LENGTH : Z := 0x58.
Definition SDM_DMA_RUN : Z := 1.
Definition SDM_DMA_RESET : Z := 4.
Definition SDM_DMA_HALTED : Z := 1.
Definition SDM_DMA_IDLE : Z := 2.
Definition SDM_DMA_ERRORS : Z := 0x770.
Definition SDM_DMA_IOC : Z := 0x1000.
Definition SDM_DMA_IRQS : Z := 0x7000.
Definition SDM_MB_CMD13 : Z := 0x34.
Definition SDM_MB_CMD16 : Z := 0x38.
Definition SDM_MB_CMD17 : Z := 0x3c.
Definition SDM_MB_CMD24 : Z := 0x44.
Definition SDM_TX_AREA : Z := 0x400.
Definition SDM_RX_AREA : Z := 0x1000.
Definition SDM_BLOCK_SIZE : Z := 512.
Definition SDM_RX_BYTES : Z := 514.
Definition SDM_TX_BYTES : Z := 522.
Definition SDM_INIT_WORDS : Z := 7.
Definition SDM_BRAM_MIN : Z := 0x1208.

Definition SENTINEL : Z := 0xa5963cc3.
Definition GUARD : Z := 0x69c35aa5.

(** ** Checksums and frames *)

(** One bit of [bvstk_sd_master_crc7]: the checksum and the byte, both at 8 bits. *)
Definition crc7_bit (s : Z * Z) : Z * Z :=
  let '(crc, byte) := s in
  let crc := u8 (Z.shiftl crc 1) in
  let crc := if truth (Z.land (Z.lxor byte crc) 0x80) then Z.lxor crc 0x09 else crc in
  (crc, u8 (Z.shiftl byte 1)).

Definition bvstk_sd_master_crc7 (data : list Z) (size : Z) : Z :=
  let crc := for_each (Z.to_nat size) 0 (fun i crc => fst (for_each 8 0 (fun _ s => crc7_bit s) (crc, data.[i]))) 0 in
  u8 (Z.lor (Z.shiftl crc 1) 1).

Definition crc16_bit (crc : Z) : Z :=
  u16 (Z.lxor (Z.shiftl crc 1) (if truth (Z.land crc 0x8000) then 0x1021 else 0)).

Definition crc16_byte (crc byte : Z) : Z :=
  for_each 8 0 (fun _ crc => crc16_bit crc) (Z.lxor crc (u16 (Z.shiftl byte 8))).

Definition bvstk_sd_master_crc16 (data : list Z) (size : Z) : Z :=
  for_each (Z.to_nat size) 0 (fun i crc => crc16_byte crc (data.[i])) 0.

(** The two words stored at [words]. *)
Definition bvstk_sd_master_encode (command argument : Z) : Z * Z :=
  let frame := [u8 (Z.lor 0x40 command); u8 (Z.shiftr argument 24); u8 (Z.shiftr argument 16);
                u8 (Z.shiftr argument 8); u8 argument] in
  (Z.lor (Z.lor (Z.lor (u32 (Z.shiftl (Z.land argument 0xff) 24)) (u32 (Z.shiftl (Z.land argument 0xff00) 8)))
            (Z.land (Z.shiftr argument 8) 0xff00)) (Z.shiftr argument 24),
   Z.lor (frame.[0]) (u32 (Z.shiftl (bvstk_sd_master_crc7 frame 5) 8))).

(** ** The driver *)

Record bvstk_sd_master_report_t := Report {
  rp_csr : Z;
  rp_irq : Z;
  rp_irq_count : Z;
  rp_tx_status : Z;
  rp_rx_status : Z;
  rp_rx_length : Z;
  rp_reply : Z;
  rp_first_reply : Z;
  rp_init_reply : list Z;
  rp_elapsed_ms : Z;
  rp_crc_calculated : Z;
  rp_crc_received : Z;
  rp_command : Z;
  rp_guards_ok : bool;
  rp_read_idle_reply : bool;
  rp_stage : option string
}.
Definition zero_report : bvstk_sd_master_report_t :=
  Report 0 0 0 0 0 0 0 0 (fill SDM_INIT_WORDS 0) 0 0 0 0 false false None.

Definition with_stage (v : string) (r : bvstk_sd_master_report_t) : bvstk_sd_master_report_t :=
  Report (rp_csr r) (rp_irq r) (rp_irq_count r) (rp_tx_status r) (rp_rx_status r) (rp_rx_length r) (rp_reply r)
    (rp_first_reply r) (rp_init_reply r) (rp_elapsed_ms r) (rp_crc_calculated r) (rp_crc_received r) (rp_command r)
    (rp_guards_ok r) (rp_read_idle_reply r) (Some v).
Definition with_elapsed (v : Z) (r : bvstk_sd_master_report_t) : bvstk_sd_master_report_t :=
  Report (rp_csr r) (rp_irq r) (rp_irq_count r) (rp_tx_status r) (rp_rx_status r) (rp_rx_length r) (rp_reply r)
    (rp_first_reply r) (rp_init_reply r) v (rp_crc_calculated r) (rp_crc_received r) (rp_command r)
    (rp_guards_ok r) (rp_read_idle_reply r) (rp_stage r).
Definition with_init_reply (v : list Z) (r : bvstk_sd_master_report_t) : bvstk_sd_master_report_t :=
  Report (rp_csr r) (rp_irq r) (rp_irq_count r) (rp_tx_status r) (rp_rx_status r) (rp_rx_length r) (rp_reply r)
    (rp_first_reply r) v (rp_elapsed_ms r) (rp_crc_calculated r) (rp_crc_received r) (rp_command r)
    (rp_guards_ok r) (rp_read_idle_reply r) (rp_stage r).
Definition with_reply (v : Z) (r : bvstk_sd_master_report_t) : bvstk_sd_master_report_t :=
  Report (rp_csr r) (rp_irq r) (rp_irq_count r) (rp_tx_status r) (rp_rx_status r) (rp_rx_length r) v
    (rp_first_reply r) (rp_init_reply r) (rp_elapsed_ms r) (rp_crc_calculated r) (rp_crc_received r) (rp_command r)
    (rp_guards_ok r) (rp_read_idle_reply r) (rp_stage r).
Definition with_first_reply (v : Z) (r : bvstk_sd_master_report_t) : bvstk_sd_master_report_t :=
  Report (rp_csr r) (rp_irq r) (rp_irq_count r) (rp_tx_status r) (rp_rx_status r) (rp_rx_length r) (rp_reply r)
    v (rp_init_reply r) (rp_elapsed_ms r) (rp_crc_calculated r) (rp_crc_received r) (rp_command r)
    (rp_guards_ok r) (rp_read_idle_reply r) (rp_stage r).
Definition with_crc (calculated received : Z) (r : bvstk_sd_master_report_t) : bvstk_sd_master_report_t :=
  Report (rp_csr r) (rp_irq r) (rp_irq_count r) (rp_tx_status r) (rp_rx_status r) (rp_rx_length r) (rp_reply r)
    (rp_first_reply r) (rp_init_reply r) (rp_elapsed_ms r) calculated received (rp_command r)
    (rp_guards_ok r) (rp_read_idle_reply r) (rp_stage r).
Definition with_command (v : Z) (r : bvstk_sd_master_report_t) : bvstk_sd_master_report_t :=
  Report (rp_csr r) (rp_irq r) (rp_irq_count r) (rp_tx_status r) (rp_rx_status r) (rp_rx_length r) (rp_reply r)
    (rp_first_reply r) (rp_init_reply r) (rp_elapsed_ms r) (rp_crc_calculated r) (rp_crc_received r) v
    (rp_guards_ok r) (rp_read_idle_reply r) (rp_stage r).
Definition with_guards (v : bool) (r : bvstk_sd_master_report_t) : bvstk_sd_master_report_t :=
  Report (rp_csr r) (rp_irq r) (rp_irq_count r) (rp_tx_status r) (rp_rx_status r) (rp_rx_length r) (rp_reply r)
    (rp_first_reply r) (rp_init_reply r) (rp_elapsed_ms r) (rp_crc_calculated r) (rp_crc_received r) (rp_command r)
    v (rp_read_idle_reply r) (rp_stage r).
Definition with_idle_reply (v : bool) (r : bvstk_sd_master_report_t) : bvstk_sd_master_report_t :=
  Report (rp_csr r) (rp_irq r) (rp_irq_count r) (rp_tx_status r) (rp_rx_status r) (rp_rx_length r) (rp_reply r)
    (rp_first_reply r) (rp_init_reply r) (rp_elapsed_ms r) (rp_crc_calculated r) (rp_crc_received r) (rp_command r)
    (rp_guards_ok r) v (rp_stage r).

Section master.
Context {X : Type} `{PL : Platform X}.

Record bvstk_sd_master_events_t := SdEvents {
  em_prepare : option (X -> bvstk_status_t * X);
  em_count : option (X -> Z * X);
  em_disable : option (X -> X);
  em_barrier : option (X -> X)
}.

Record bvstk_sd_master_config_t := SdConfig {
  sc_core_base : Z;
  sc_dma_base : Z;
  sc_bram_base : Z;
  sc_bram_size : Z;
  sc_init_divider : Z;
  sc_data_divider : Z;
  sc_events : bvstk_sd_master_events_t;
  sc_mailbox_is_stream : bool;
  sc_descriptor_bytes : Z
}.

Record bvstk_sd_master_t := SdDriver {
  sd_core : bvstk_mmio_region_t;
  sd_dma : bvstk_mmio_region_t;
  sd_bram : bvstk_mmio_region_t;
  sd_config : bvstk_sd_master_config_t;
  sd_clock : bvstk_clock_t X;
  sd_open : bool;
  sd_io_error : bool
}.

Record sd_state := SdState { sm_driver : bvstk_sd_master_t; sm_ext : X }.

Definition with_io_error (v : bool) (d : bvstk_sd_master_t) : bvstk_sd_master_t :=
  SdDriver (sd_core d) (sd_dma d) (sd_bram d) (sd_config d) (sd_clock d) (sd_open d) v.

Definition self {A} (f : bvstk_sd_master_t -> A) : ST sd_state A := st_get (fun s => f (sm_driver s)).
Definition set_io_error (v : bool) : ST sd_state unit :=
  st_mod (fun s => SdState (with_io_error v (sm_driver s)) (sm_ext s)).
Definition outside {A} (m : ST X A) : ST sd_state A := fun s =>
  let '(a, x) := m (sm_ext s) in (a, SdState (sm_driver s) x).

Definition call (f : option (X -> X)) : ST sd_state unit :=
  outside (fun x => (tt, match f with Some f => f x | None => x end)).
Definition barrier : ST sd_state unit := let! f := self (fun d => em_barrier (sc_events (sd_config d))) in call f.
Definition disable : ST sd_state unit := let! f := self (fun d => em_disable (sc_events (sd_config d))) in call f.
Definition prepare : ST sd_state bvstk_status_t :=
  let! f := self (fun d => em_prepare (sc_events (sd_config d))) in
  outside (fun x => match f with Some f => f x | None => (BVSTK_OK, x) end).
Definition irq_count : ST sd_state Z :=
  let! f := self (fun d => em_count (sc_events (sd_config d))) in
  outside (fun x => match f with Some f => f x | None => (0, x) end).
Definition now_ms : ST sd_state Z := let! c := self sd_clock in outside (bvstk_clock_now_ms (Some c)).
Definition sleep_ms (ms : Z) : ST sd_state unit := let! c := self sd_clock in outside (clock_sleep (Some c) ms).

Definition rd (region : bvstk_sd_master_t -> bvstk_mmio_region_t) (off : Z) : ST sd_state Z :=
  let! r := self region in
  let! v := outside (bvstk_mmio_read32 (Some r) off true) in
  match v with
  | Some v => st_ret v
  | None => set_io_error true ;; st_ret 0
  end.

Definition wr (region : bvstk_sd_master_t -> bvstk_mmio_region_t) (off value : Z) : ST sd_state unit :=
  let! d := self id in
  (if sd_io_error d then st_ret tt
   else
     let! done := outside (bvstk_mmio_write32 (Some (region d)) off value) in
     if done : bool then st_ret tt else set_io_error true) ;;
  barrier.

Definition elapsed (start : Z) : ST sd_state Z := let! now := now_ms in st_ret (u32 (now - start)).

(** The do-while loop of [dma_reset]. *)
Fixpoint dma_reset_loop (fuel : nat) (start : Z) : ST sd_state (option bvstk_status_t) :=
  match fuel with
  | O => st_ret None
  | S fuel =>
      let! tx := rd sd_dma SDM_TX_CONTROL in
      let! rx := rd sd_dma SDM_RX_CONTROL in
      let! io := self sd_io_error in
      if io : bool then st_ret (Some BVSTK_ERR_IO)
      else if Z.land (Z.lor tx rx) SDM_DMA_RESET =? 0 then
        wr sd_dma SDM_TX_STATUS SDM_DMA_IRQS ;;
        wr sd_dma SDM_RX_STATUS SDM_DMA_IRQS ;;
        let! io := self sd_io_error in
        st_ret (Some (if io : bool then BVSTK_ERR_IO else BVSTK_OK))
      else
        sleep_ms 1 ;;
        let! e := elapsed start in
        if e <? 100 then dma_reset_loop fuel start else st_ret (Some BVSTK_ERR_TIMEOUT)
  end.

Definition dma_reset (fuel : nat) : ST sd_state (option bvstk_status_t) :=
  let! start := now_ms in
  wr sd_dma SDM_TX_CONTROL SDM_DMA_RESET ;;
  dma_reset_loop fuel start.

Definition abort_transfer (fuel : nat) : ST sd_state (option unit) :=
  disable ;;
  set_io_error false ;;
  let? _ := dma_reset fuel in
  wr sd_core SDM_CSR SDM_RESET ;;
  st_ret (Some tt).

Definition snapshot (r : bvstk_sd_master_report_t) : ST sd_state bvstk_sd_master_report_t :=
  let! csr := rd sd_core SDM_CSR in
  let! irq := rd sd_core SDM_IRQ in
  let! count := irq_count in
  let! tx := rd sd_dma SDM_TX_STATUS in
  let! rx := rd sd_dma SDM_RX_STATUS in
  let! len := rd sd_dma SDM_RX_LENGTH in
  st_ret (Report csr (Z.lor (rp_irq r) irq) count tx rx len (rp_reply r) (rp_first_reply r) (rp_init_reply r)
            (rp_elapsed_ms r) (rp_crc_calculated r) (rp_crc_received r) (rp_command r) (rp_guards_ok r)
            (rp_read_idle_reply r) (rp_stage r)).

Definition dma_done (status : Z) : bool :=
  Z.land status (Z.lor (Z.lor (Z.lor SDM_DMA_IOC SDM_DMA_IDLE) SDM_DMA_HALTED) SDM_DMA_ERRORS) =?
    Z.lor SDM_DMA_IOC SDM_DMA_IDLE.

(** [d] is false for NULL; the callbacks are taken from the configuration. *)
Definition bvstk_sd_master_open (d : bool) (cfg : option bvstk_sd_master_config_t)
    (clock : option (bvstk_clock_t X)) : bvstk_status_t * option bvstk_sd_master_t :=
  match cfg with
  | None => (BVSTK_ERR_RANGE, None)
  | Some c =>
      let ev := sc_events c in
      if negb d || negb (bool_decide (is_Some (em_prepare ev))) || negb (bool_decide (is_Some (em_count ev))) ||
         negb (bool_decide (is_Some (em_disable ev))) || negb (bool_decide (is_Some (em_barrier ev))) ||
         (sc_bram_size c <? SDM_BRAM_MIN) || (0xffffffff - SDM_BRAM_MIN <? sc_bram_base c) ||
         negb (Z.land (Z.lor (Z.lor (sc_core_base c) (sc_dma_base c)) (sc_bram_base c)) 3 =? 0) ||
         (sc_init_divider c <? 250) || negb (Z.land (sc_init_divider c) 1 =? 0) ||
         (negb (sc_descriptor_bytes c =? 8) && negb (sc_descriptor_bytes c =? 16)) ||
         (sc_data_divider c <? 2) || negb (Z.land (sc_data_divider c) 1 =? 0)
      then (BVSTK_ERR_RANGE, None)
      else
        let clock := default (Clock None None) clock in
        let closed := SdDriver zero_region zero_region zero_region c clock false false in
        match bvstk_mmio_region_open (Some zero_region) (sc_core_base c) 0x10000,
              bvstk_mmio_region_open (Some zero_region) (sc_dma_base c) 0x10000,
              bvstk_mmio_region_open (Some zero_region) (sc_bram_base c) (sc_bram_size c) with
        | Some core, Some dma, Some bram => (BVSTK_OK, Some (SdDriver core dma bram c clock true false))
        | _, _, _ => (BVSTK_ERR_IO, Some closed)
        end
  end.

Definition bvstk_sd_master_close (fuel : nat) : ST sd_state (option unit) :=
  let! open := self sd_open in
  if negb open then st_ret (Some tt)
  else
    let? _ := abort_transfer fuel in
    st_mod (fun s => let d := sm_driver s in
      SdState (SdDriver zero_region zero_region zero_region (sd_config d) (sd_clock d) false (sd_io_error d)) (sm_ext s)) ;;
    st_ret (Some tt).

(** ** Initialization *)

Definition init_valid (m : list Z) : bool :=
  if bool_decide (is_Some (for_find (Z.to_nat SDM_INIT_WORDS) 0 (fun i => m.[i] =? SENTINEL))) then false
  else (m.[0] =? 1) && (m.[1] =? 0x1aa) && (m.[2] =? 1) && (m.[3] =? 0) && (m.[4] <=? 1) && (m.[6] =? 0) &&
       truth (Z.land (m.[5]) 0x80000000) && truth (Z.land (m.[5]) 0x00ff8000).

(** The words of the mailbox from [i] on, into the reply. *)
Fixpoint read_replies (k : nat) (i : Z) (m : list Z) : ST sd_state (list Z) :=
  match k with
  | O => st_ret m
  | S k => let! v := rd sd_bram (i * 4) in read_replies k (i + 1) (m.[i <- v])
  end.

(** Sentinels into the words from [i] on. *)
Fixpoint write_sentinels (k : nat) (i : Z) : ST sd_state unit :=
  match k with
  | O => st_ret tt
  | S k => wr sd_bram (i * 4) SENTINEL ;; write_sentinels k (i + 1)
  end.

(** The do-while loop of [initialize]: the result and the report. *)
Fixpoint init_loop (fuel : nat) (start timeout : Z) (r : bvstk_sd_master_report_t)
    : ST sd_state (option (bvstk_status_t * bvstk_sd_master_report_t)) :=
  match fuel with
  | O => st_ret None
  | S fuel =>
      let! r := snapshot r in
      let! m := read_replies (Z.to_nat SDM_INIT_WORDS) 0 (rp_init_reply r) in
      let r := with_init_reply m r in
      let! io := self sd_io_error in
      if io : bool then st_ret (Some (BVSTK_ERR_IO, r))
      else if negb (rp_irq_count r =? 0) && init_valid m then st_ret (Some (BVSTK_OK, r))
      else
        sleep_ms 1 ;;
        let! e := elapsed start in
        if e <? timeout then init_loop fuel start timeout r else st_ret (Some (BVSTK_ERR_TIMEOUT, r))
  end.

(** The [failed] label. *)
Definition failed (fuel : nat) (status : bvstk_status_t) (r : bvstk_sd_master_report_t)
    : ST sd_state (option (bvstk_status_t * bvstk_sd_master_report_t)) :=
  let! r := snapshot r in
  let? _ := abort_transfer fuel in
  st_ret (Some (status, r)).

(** From the start of the sequence on, which was at [start]. *)
Definition finish_initialize (fuel : nat) (timeout_ms start : Z) (r : bvstk_sd_master_report_t)
    : ST sd_state (option (bvstk_status_t * bvstk_sd_master_report_t)) :=
  let? o := init_loop fuel start (if timeout_ms =? 0 then 20000 else timeout_ms) r in
  let '(status, r) := o in
  let! e := elapsed start in
  let r := with_elapsed e r in
  if is_ok status then st_ret (Some (status, with_stage "initialized" r)) else failed fuel status r.

Definition run_initialize (fuel : nat) (timeout_ms : Z) : ST sd_state (option (bvstk_status_t * bvstk_sd_master_report_t)) :=
  set_io_error false ;;
  let r := with_stage "DMA reset" zero_report in
  disable ;;
  let? status := dma_reset fuel in
  if negb (is_ok status) then failed fuel status r
  else
    wr sd_core SDM_CSR SDM_RESET ;;
    sleep_ms 2 ;;
    write_sentinels (Z.to_nat SDM_INIT_WORDS) 0 ;;
    wr sd_core SDM_PACKET SDM_FALL_THROUGH ;;
    wr sd_core SDM_DELAY 1 ;;
    let! divider := self (fun d => sc_init_divider (sd_config d)) in
    wr sd_core SDM_DIVIDER divider ;;
    wr sd_core SDM_CSR SDM_START_READ ;;
    let r := with_stage "initialization" r in
    let! status := prepare in
    if negb (is_ok status) then failed fuel status r
    else
      let! start := now_ms in
      wr sd_core SDM_INIT SDM_INIT_VALUE ;;
      finish_initialize fuel timeout_ms start r.

(** [report] is false for a NULL pointer; without one no report comes back. *)
Definition bvstk_sd_master_initialize (fuel : nat) (report : bool) (timeout_ms : Z)
    : ST sd_state (option (bvstk_status_t * option bvstk_sd_master_report_t)) :=
  let! open := self sd_open in
  if negb open || negb report then st_ret (Some (BVSTK_ERR_NOT_READY, None))
  else
    let? o := run_initialize fuel timeout_ms in
    st_ret (Some (fst o, Some (snd o))).

(** ** Commands *)

Definition align4 (size : Z) : Z := Z.land (u32 (size + 3)) 0xfffffffc.

(** A conjunct that is read only when the ones before it hold. *)
Definition and_then (a : bool) (m : ST sd_state bool) : ST sd_state bool := if a then m else st_ret false.
Definition guarded_at (off : Z) : ST sd_state bool := let! v := rd sd_bram off in st_ret (v =? GUARD).

Definition guards_valid (tx_size : Z) (receive : bool) : ST sd_state bool :=
  let! a := guarded_at (SDM_TX_AREA - 4) in
  let! ok := and_then a (guarded_at (SDM_TX_AREA + align4 tx_size)) in
  if receive then
    let! ok := and_then ok (guarded_at (SDM_RX_AREA - 4)) in
    let! ok := and_then ok (guarded_at (SDM_RX_AREA + 516)) in
    and_then ok (let! v := rd sd_bram (SDM_RX_AREA + 512) in
                 st_ret (Z.land v 0xffff0000 =? Z.land SENTINEL 0xffff0000))
  else st_ret ok.

Definition mailbox_of (command : Z) : option Z :=
  if command =? 13 then Some SDM_MB_CMD13
  else if command =? 16 then Some SDM_MB_CMD16
  else if command =? 17 then Some SDM_MB_CMD17
  else if command =? 24 then Some SDM_MB_CMD24
  else None.

(** The big-endian word of the block at [off]. *)
Definition block_word (block : list Z) (off : Z) : Z :=
  Z.lor (Z.lor (Z.lor (Z.shiftl (block.[off]) 24) (Z.shiftl (block.[off + 1]) 16)) (Z.shiftl (block.[off + 2]) 8))
    (block.[off + 3]).

Fixpoint load_block (k : nat) (block : list Z) (off : Z) : ST sd_state unit :=
  match k with
  | O => st_ret tt
  | S k => wr sd_bram (SDM_TX_AREA + 8 + off) (block_word block off) ;; load_block k block (off + 4)
  end.

Fixpoint load_sentinels (k : nat) (off : Z) : ST sd_state unit :=
  match k with
  | O => st_ret tt
  | S k => wr sd_bram (SDM_RX_AREA + off) SENTINEL ;; load_sentinels k (off + 4)
  end.

(** The command frame, the block to write and the guards. *)
Definition load_command (command argument size mailbox : Z) (write_block : option (list Z)) : ST sd_state unit :=
  wr sd_bram mailbox SENTINEL ;;
  let '(w0, w1) := bvstk_sd_master_encode command argument in
  wr sd_bram (SDM_TX_AREA - 4) GUARD ;;
  wr sd_bram SDM_TX_AREA w0 ;;
  wr sd_bram (SDM_TX_AREA + 4) w1 ;;
  (if (command =? 17) && (size =? 16) then
     wr sd_bram (SDM_TX_AREA + 8) w0 ;;
     wr sd_bram (SDM_TX_AREA + 12) (Z.lor (Z.land w1 0xff) 0xff00)
   else st_ret tt) ;;
  match write_block with
  | Some block =>
      load_block 128 block 0 ;;
      wr sd_bram (SDM_TX_AREA + 520) (Z.lor 0xffff0000 (bvstk_sd_master_crc16 block SDM_BLOCK_SIZE))
  | None => st_ret tt
  end ;;
  wr sd_bram (SDM_TX_AREA + align4 size) GUARD.

(** The receive area and its DMA channel. *)
Definition arm_receive : ST sd_state unit :=
  let! base := self (fun d => u32 (sc_bram_base (sd_config d))) in
  wr sd_bram (SDM_RX_AREA - 4) GUARD ;;
  load_sentinels 129 0 ;;
  wr sd_bram (SDM_RX_AREA + 516) GUARD ;;
  wr sd_dma SDM_RX_CONTROL SDM_DMA_RUN ;;
  wr sd_dma SDM_RX_DESTINATION (u32 (base + SDM_RX_AREA)) ;;
  wr sd_dma SDM_RX_LENGTH SDM_RX_BYTES.

(** The do-while loop of [command]. *)
Fixpoint command_loop (fuel : nat) (mailbox : Z) (receive : bool) (start timeout : Z) (r : bvstk_sd_master_report_t)
    : ST sd_state (option (bvstk_status_t * bvstk_sd_master_report_t)) :=
  match fuel with
  | O => st_ret None
  | S fuel =>
      let! r := snapshot r in
      let! reply := rd sd_bram mailbox in
      let r := with_reply reply r in
      let r := if (rp_first_reply r =? SENTINEL) && negb (reply =? SENTINEL) then with_first_reply reply r else r in
      let! io := self sd_io_error in
      if (io : bool) || truth (Z.land (Z.lor (rp_tx_status r) (rp_rx_status r)) SDM_DMA_ERRORS)
      then st_ret (Some (BVSTK_ERR_IO, r))
      else if negb (rp_irq_count r =? 0) && negb (rp_reply r =? SENTINEL) && dma_done (rp_tx_status r) &&
              (negb receive || dma_done (rp_rx_status r)) then st_ret (Some (BVSTK_OK, r))
      else
        sleep_ms 1 ;;
        let! e := elapsed start in
        if e <? timeout then command_loop fuel mailbox receive start timeout r
        else st_ret (Some (BVSTK_ERR_TIMEOUT, r))
  end.

(** The bytes from [off] on; [word] is the word read last. *)
Fixpoint receive_loop (k : nat) (off word : Z) (received : list Z) : ST sd_state (list Z) :=
  match k with
  | O => st_ret received
  | S k =>
      let! word := (if Z.land off 3 =? 0 then rd sd_bram (SDM_RX_AREA + off) else st_ret word) in
      receive_loop k (off + 1) word (received ++ [byte_of word (Z.land off 3)])
  end.

(** The checks after completion: the verdict, the report and the bytes received. *)
Definition check_transfer (size : Z) (receive : bool) (r : bvstk_sd_master_report_t)
    : ST sd_state (bvstk_status_t * bvstk_sd_master_report_t * list Z) :=
  let r := with_stage "DMA bounds" r in
  let! ok := guards_valid size receive in
  let r := with_guards ok r in
  let! io := self sd_io_error in
  if negb ok || (receive && negb (rp_rx_length r =? SDM_RX_BYTES)) || (io : bool) then st_ret (BVSTK_ERR_IO, r, [])
  else if receive then
    let! received := receive_loop (Z.to_nat SDM_RX_BYTES) 0 0 [] in
    let r := with_stage "CRC16" r in
    let r := with_crc (bvstk_sd_master_crc16 received SDM_BLOCK_SIZE)
               (u16 (Z.lor (u16 (Z.shiftl (received.[512]) 8)) (received.[513]))) r in
    let! io := self sd_io_error in
    if (io : bool) || negb (rp_crc_calculated r =? rp_crc_received r) then st_ret (BVSTK_ERR_IO, r, received)
    else st_ret (BVSTK_OK, r, received)
  else st_ret (BVSTK_OK, r, []).

(** The card's answer. *)
Definition check_response (command : Z) (stream : bool) (r : bvstk_sd_master_report_t)
    : bvstk_status_t * bvstk_sd_master_report_t :=
  let r := with_stage "card response" r in
  if rp_reply r =? 0 then (BVSTK_OK, r)
  else if (command =? 17) && stream && (rp_reply r =? 0xff) then (BVSTK_OK, with_idle_reply true r)
  else (BVSTK_ERR_IO, r).

Definition submit (size : Z) : ST sd_state Z :=
  let! base := self (fun d => u32 (sc_bram_base (sd_config d))) in
  wr sd_dma SDM_TX_CONTROL SDM_DMA_RUN ;;
  wr sd_dma SDM_TX_SOURCE (u32 (base + SDM_TX_AREA)) ;;
  let! start := now_ms in
  wr sd_dma SDM_TX_LENGTH size ;;
  wr sd_core SDM_CSR SDM_START_COMMAND ;;
  st_ret start.

(** The [failed] label of [command]: nothing was received. *)
Definition fail_command (fuel : nat) (status : bvstk_status_t) (r : bvstk_sd_master_report_t)
    : ST sd_state (option (bvstk_status_t * bvstk_sd_master_report_t * list Z)) :=
  let? o := failed fuel status r in
  st_ret (Some (o, [])).

(** From the submission on, which was at [start]. *)
Definition finish_command (fuel : nat) (command size mailbox : Z) (receive : bool) (timeout_ms start : Z)
    (r : bvstk_sd_master_report_t) : ST sd_state (option (bvstk_status_t * bvstk_sd_master_report_t * list Z)) :=
  let r := with_stage "command completion" r in
  let? o := command_loop fuel mailbox receive start (if timeout_ms =? 0 then 5000 else timeout_ms) r in
  let '(status, r) := o in
  let! e := elapsed start in
  let r := with_elapsed e r in
  if negb (is_ok status) then fail_command fuel status r
  else
    let! o := check_transfer size receive r in
    let '(status, r, received) := o in
    if negb (is_ok status) then fail_command fuel status r
    else
      let! stream := self (fun d => sc_mailbox_is_stream (sd_config d)) in
      let '(status, r) := check_response command stream r in
      if negb (is_ok status) then fail_command fuel status r
      else st_ret (Some (BVSTK_OK, with_stage "complete" r, received)).

(** The command once the arguments are accepted; the bytes received on success. *)
Definition run_command (fuel : nat) (command argument size mailbox : Z) (write_block : option (list Z)) (receive : bool)
    (timeout_ms : Z) (r : bvstk_sd_master_report_t)
    : ST sd_state (option (bvstk_status_t * bvstk_sd_master_report_t * list Z)) :=
  set_io_error false ;;
  let r := with_stage "DMA reset" r in
  let? status := dma_reset fuel in
  if negb (is_ok status) then fail_command fuel status r
  else
    wr sd_core SDM_PACKET SDM_FALL_THROUGH ;;
    wr sd_core SDM_DELAY 1 ;;
    let! divider := self (fun d => sc_data_divider (sd_config d)) in
    wr sd_core SDM_DIVIDER divider ;;
    let! status := prepare in
    if negb (is_ok status) then fail_command fuel status r
    else
      load_command command argument size mailbox write_block ;;
      (if receive then arm_receive else st_ret tt) ;;
      let! start := submit size in
      finish_command fuel command size mailbox receive timeout_ms start r.

(** [write_block] and [read_block] are the buffers, [None] for NULL; the result
    holds what the read buffer holds afterwards. *)
Definition bvstk_sd_master_command (fuel : nat) (report : bool) (command argument : Z) (write_block read_block : option (list Z))
    (timeout_ms : Z) : ST sd_state (option (bvstk_status_t * option bvstk_sd_master_report_t * option (list Z))) :=
  let! d := self id in
  if negb (sd_open d) || negb report then st_ret (Some (BVSTK_ERR_NOT_READY, None, read_block))
  else
    let r := with_stage "arguments" (with_first_reply SENTINEL (with_command command zero_report)) in
    match mailbox_of command with
    | None => st_ret (Some (BVSTK_ERR_UNSUPPORTED, Some r, read_block))
    | Some mailbox =>
        if negb (eqb (command =? 24) (bool_decide (is_Some write_block))) ||
           negb (eqb (command =? 17) (bool_decide (is_Some read_block)))
        then st_ret (Some (BVSTK_ERR_MALFORMED, Some r, read_block))
        else
          let size := if command =? 17 then sc_descriptor_bytes (sd_config d)
                      else if command =? 24 then SDM_TX_BYTES else 8 in
          let? o := run_command fuel command argument size mailbox write_block (bool_decide (is_Some read_block)) timeout_ms r in
          let '(status, r, received) := o in
          st_ret (Some (status, Some r,
            match read_block with
            | Some buf => Some (if is_ok status then copy_prefix SDM_BLOCK_SIZE received buf else buf)
            | None => None
            end))
    end.
End master.

(** ** The callbacks of the FreeRTOS port

    [src/src/ports/freertos-xilinx/storage/sd-pl/bvstk_sd_master_freertos.c].  What
    the port calls is a parameter: the interrupt controller, the data barrier,
    [vTaskDelay] and its unit, the time counter; [irq_count_of] and [set_irq_count]
    are its static [s_irq_count], which the interrupt handler counts up. *)
Section port.
Context {X : Type} `{PL : Platform X}.
Context (xscugic_disable xscugic_clear_pending xscugic_enable dsb : X -> X).
Context (vTaskDelay : Z -> X -> X) (pdMS_TO_TICKS : Z -> Z).
Context (XTime_GetTime : X -> Z * X) (counts_per_second : Z).
Context (irq_count_of : X -> Z) (set_irq_count : Z -> X -> X).

Definition port_barrier (x : X) : X := dsb x.
Definition port_disable (x : X) : X := dsb (xscugic_disable x).
Definition core_isr (x : X) : X :=
  let x := port_disable x in
  let x := set_irq_count (u32 (irq_count_of x + 1)) x in
  dsb x.
Definition port_count (x : X) : Z * X := (irq_count_of x, x).

Definition port_sleep_ms (ms : Z) (x : X) : X :=
  let ticks := pdMS_TO_TICKS ms in
  vTaskDelay (if truth ticks then ticks else 1) x.
Definition port_now_ms (x : X) : Z * X :=
  let '(ticks, x) := XTime_GetTime x in
  (ticks / (counts_per_second / 1000), x).

(** Masks the interrupt, acknowledges a stale one, forgets its count and arms it. *)
Definition port_prepare (core_base : Z) (x : X) : bvstk_status_t * X :=
  let x := port_disable x in
  let x := Xil_Out32 (core_base + SDM_IRQ) SDM_ACK x in
  let x := dsb x in
  let x := port_sleep_ms 1 x in
  let '(_, x) := Xil_In32 (core_base + SDM_IRQ) x in
  let x := set_irq_count 0 x in
  let x := xscugic_clear_pending x in
  let x := dsb x in
  let x := xscugic_enable x in
  (BVSTK_OK, dsb x).

Definition port_events (core_base : Z) : bvstk_sd_master_events_t (X := X) :=
  SdEvents (Some (port_prepare core_base)) (Some port_count) (Some port_disable) (Some port_barrier).

(** The configuration of [bvstk_sd_master_freertos_start]; the addresses come
    from the hardware description. *)
Definition port_config (core_base dma_base bram_base bram_high : Z) : bvstk_sd_master_config_t (X := X) :=
  SdConfig core_base dma_base bram_base (bram_high - bram_base + 1) 512 512 (port_events core_base) true 8.
End port.

Arguments bvstk_sd_master_events_t : clear implicits.
Arguments bvstk_sd_master_config_t : clear implicits.
Arguments bvstk_sd_master_t : clear implicits.
Arguments sd_state : clear implicits.
