(* ===== verification/SdCrc.v ===== *)
(** * SdCrc: what the data checksum of an SD block detects

    [bvstk_sd_master_crc16] is linear over bitwise exclusive or and loses no
    state, so two blocks that differ in a burst of at most sixteen bits - any two
    neighbouring bytes - never have the same checksum. *)
From stdpp Require Import prelude.
From Stdlib Require Import ZArith Lia.
From S2P Require Import Prelude Platform PlAccess SdMaster.
Local Open Scope Z_scope.

(** ** One bit *)

Lemma lxor_wrap w a b : 0 <= w -> wrap w (Z.lxor a b) = Z.lxor (wrap w a) (wrap w b).
Proof.
  intros Hw. unfold wrap. rewrite <- !Z.land_ones by done. apply Z.bits_inj'. intros i Hi.
  rewrite Z.land_spec, !Z.lxor_spec, !Z.land_spec. destruct (Z.testbit (Z.ones w) i); [by rewrite !andb_true_r|by rewrite !andb_false_r].
Qed.

Lemma lxor_fits w a b : 0 <= w -> fits w a -> fits w b -> fits w (Z.lxor a b).
Proof. intros Hw Ha Hb. rewrite <- (wrap_id w a Ha), <- (wrap_id w b Hb), <- lxor_wrap by done. by apply wrap_fits. Qed.

Lemma top_bit c : truth (Z.land c 0x8000) = Z.testbit c 15.
Proof.
  unfold truth. change 0x8000 with (2 ^ 15). destruct (Z.testbit c 15) eqn:E.
  - apply negb_true_iff, Z.eqb_neq. intros H0. apply (f_equal (fun v => Z.testbit v 15)) in H0.
    by rewrite Z.land_spec, E, Z.pow2_bits_true, Z.testbit_0_l in H0.
  - apply negb_false_iff, Z.eqb_eq. apply Z.bits_inj'. intros i Hi. rewrite Z.land_spec, Z.testbit_0_l.
    destruct (decide (i = 15)) as [->|Hne]; [by rewrite E|]. rewrite Z.pow2_bits_false by congruence. by rewrite andb_false_r.
Qed.

Lemma bit_xor a b : crc16_bit (Z.lxor a b) = Z.lxor (crc16_bit a) (crc16_bit b).
Proof.
  unfold crc16_bit, u16. rewrite !top_bit, Z.lxor_spec, Z.shiftl_lxor, <- lxor_wrap by lia. f_equal.
  destruct (Z.testbit a 15), (Z.testbit b 15); cbn [xorb]; apply Z.bits_inj'; intros i Hi; rewrite !Z.lxor_spec;
    rewrite ?Z.testbit_0_l; destruct (Z.testbit (Z.shiftl a 1) i), (Z.testbit (Z.shiftl b 1) i), (Z.testbit 0x1021 i); done.
Qed.

Lemma bit_fits c : fits 16 (crc16_bit c).
Proof. apply (wrap_fits 16). lia. Qed.

Lemma bit_kernel c : fits 16 c -> crc16_bit c = 0 -> c = 0.
Proof.
  unfold fits, crc16_bit, u16, wrap. rewrite top_bit. intros Hc H0. destruct (Z.testbit c 15) eqn:E.
  - apply (f_equal (fun v => Z.testbit v 0)) in H0. rewrite Z.mod_pow2_bits_low, Z.lxor_spec, Z.shiftl_spec_low in H0 by lia. done.
  - rewrite Z.lxor_0_r, Z.shiftl_mul_pow2 in H0 by lia.
    assert (c < 2 ^ 15); [|change (2 ^ 15) with 32768 in *; change (2 ^ 16) with 65536 in *; change (2 ^ 1) with 2 in *;
      rewrite Z.mod_small in H0 by lia; lia].
    apply Z.nle_gt. intros Hge. assert (Z.testbit c 15 = true); [|congruence].
    rewrite Z.testbit_true by lia. change (2 ^ 15) with 32768 in *. change (2 ^ 16) with 65536 in *.
    assert (c / 32768 = 1) as ->; [|done]. symmetry. apply Z.div_unique with (c - 32768); lia.
Qed.

(** ** One byte *)

#[local] Opaque crc16_bit.

Definition eight (c : Z) : Z := for_each 8 0 (fun _ c => crc16_bit c) c.

Lemma eight_bits c : eight c = Nat.iter 8 crc16_bit c.
Proof. unfold eight. cbn [for_each Nat.iter nat_rect]. reflexivity. Qed.

Lemma eight_xor a b : eight (Z.lxor a b) = Z.lxor (eight a) (eight b).
Proof.
  rewrite (eight_bits (Z.lxor a b)), (eight_bits a), (eight_bits b). generalize 8%nat. intros n.
  induction n as [|n IH]; [reflexivity|]. cbn [Nat.iter nat_rect]. unfold Nat.iter in IH. by rewrite IH, bit_xor.
Qed.

Lemma eight_fits c : fits 16 (eight c).
Proof. rewrite eight_bits. apply bit_fits. Qed.

Lemma iter_kernel n c : fits 16 c -> Nat.iter n crc16_bit c = 0 -> c = 0.
Proof.
  intros Hc. induction n as [|n IH]; [done|]. cbn [Nat.iter nat_rect]. intros H0. apply IH.
  apply bit_kernel; [|done]. destruct n; [done|]. apply bit_fits.
Qed.

Lemma eight_inj a b : fits 16 a -> fits 16 b -> eight a = eight b -> a = b.
Proof.
  intros Ha Hb He. apply Z.lxor_eq, (iter_kernel 8); [apply lxor_fits; [lia|done..]|].
  rewrite <- eight_bits, eight_xor, He. apply Z.lxor_nilpotent.
Qed.

(** A byte in the top half always leaves a trace in the bottom half. *)
Lemma eight_low h : 0 <= h < 256 -> eight (Z.shiftl h 8) mod 256 = 0 -> h = 0.
Proof.
  intros Hh H0.
  assert (forallb (fun h => negb (eight (Z.shiftl h 8) mod 256 =? 0) || (h =? 0)) (seqZ 0 256) = true) as Hall by (vm_compute; done).
  rewrite forallb_forall in Hall. specialize (Hall h). rewrite H0 in Hall.
  assert ((h =? 0) = true); [|by apply Z.eqb_eq]. apply Hall, list_elem_of_In, elem_of_seqZ. lia.
Qed.

Lemma byte_step c b : fits 8 b -> crc16_byte c b = eight (Z.lxor c (Z.shiftl b 8)).
Proof.
  intros Hb. unfold crc16_byte, eight. do 2 f_equal. unfold fits in Hb. apply u16_id. rewrite Z.shiftl_mul_pow2 by lia. lia.
Qed.

Lemma byte_fits c b : fits 16 (crc16_byte c b).
Proof. apply eight_fits. Qed.

Lemma shifted_fits b : fits 8 b -> fits 16 (Z.shiftl b 8).
Proof. unfold fits. intros Hb. rewrite Z.shiftl_mul_pow2 by lia. change (2 ^ 16) with 65536. lia. Qed.

Lemma byte_inj c c' b : fits 16 c -> fits 16 c' -> fits 8 b -> crc16_byte c b = crc16_byte c' b -> c = c'.
Proof.
  intros Hc Hc' Hb. rewrite !byte_step by done. intros He.
  apply eight_inj in He; [|apply lxor_fits; [lia|done|by apply shifted_fits]..].
  apply (f_equal (fun v => Z.lxor v (Z.shiftl b 8))) in He. by rewrite !Z.lxor_assoc, Z.lxor_nilpotent, !Z.lxor_0_r in He.
Qed.

Lemma pair_inj c x y x' y' : fits 16 c -> fits 8 x -> fits 8 y -> fits 8 x' -> fits 8 y' ->
  crc16_byte (crc16_byte c x) y = crc16_byte (crc16_byte c x') y' -> x = x' /\ y = y'.
Proof.
  intros Hc Hx Hy Hx' Hy'. rewrite !byte_step by done. intros He.
  apply eight_inj in He; [|apply lxor_fits; [lia|apply eight_fits|by apply shifted_fits]..].
  rewrite !eight_xor in He. apply (f_equal (fun v => Z.lxor (eight c) v)) in He.
  rewrite <- !Z.lxor_assoc, Z.lxor_nilpotent, !Z.lxor_0_l in He.
  assert (eight (Z.shiftl (Z.lxor x x') 8) = Z.shiftl (Z.lxor y y') 8) as Hd.
  { rewrite !Z.shiftl_lxor, eight_xor.
    apply Z.bits_inj'. intros i Hi. apply (f_equal (fun v => Z.testbit v i)) in He. rewrite !Z.lxor_spec in *.
    destruct (Z.testbit (eight (Z.shiftl x 8)) i), (Z.testbit (eight (Z.shiftl x' 8)) i),
      (Z.testbit (Z.shiftl y 8) i), (Z.testbit (Z.shiftl y' 8) i); done. }
  assert (fits 8 (Z.lxor x x')) as Hxx by (apply lxor_fits; [lia|done..]).
  assert (Z.lxor x x' = 0) as E0.
  { apply eight_low; [exact Hxx|]. rewrite Hd, Z.shiftl_mul_pow2 by lia. apply Z.mod_mul. lia. }
  split; [by apply Z.lxor_eq|]. rewrite E0 in Hd. apply Z.lxor_eq. apply (Z.shiftl_eq_0_iff _ 8); [lia|]. by rewrite <- Hd.
Qed.

(** ** A block *)

Lemma run_inj c c' l : fits 16 c -> fits 16 c' -> Forall (fits 8) l -> foldl crc16_byte c l = foldl crc16_byte c' l -> c = c'.
Proof.
  revert c c'. induction l as [|b l IH]; intros c c' Hc Hc' Hl He; [done|]. apply Forall_cons in Hl as [Hb Hl].
  apply (byte_inj c c' b); try done. apply IH; try done; apply byte_fits.
Qed.

Lemma run_fits c l : fits 16 c -> fits 16 (foldl crc16_byte c l).
Proof. revert c. induction l as [|b l IH]; intros c Hc; [done|]. apply IH, byte_fits. Qed.

Lemma crc16_fold data n : 0 <= n <= alen data -> bvstk_sd_master_crc16 data n = foldl crc16_byte 0 (prefix n data).
Proof.
  intros Hn. unfold bvstk_sd_master_crc16.
  pose proof (for_each_ind (fun i c => i <= n -> c = foldl crc16_byte 0 (prefix i data)) (Z.to_nat n) 0
    (fun i crc => crc16_byte crc (data.[i])) 0) as Hind. rewrite Z.add_0_l, Z2Nat.id in Hind by lia.
  apply Hind; [|done|lia]. intros i c Hi Hc Hi'. rewrite prefix_snoc_get by lia. rewrite foldl_app. cbn [foldl]. by rewrite Hc by lia.
Qed.

(** Blocks that differ in at most two neighbouring bytes. *)
Definition burst_apart (n : Z) (a b : list Z) : Prop :=
  exists k, 0 <= k /\ k + 1 < n /\ forall i, 0 <= i < n -> i <> k -> i <> k + 1 -> a.[i] = b.[i].

Lemma prefix_split (a : list Z) n k : 0 <= k -> k + 1 < n -> n <= alen a ->
  prefix n a = prefix k a ++ [a.[k]; a.[k + 1]] ++ prefix (n - (k + 2)) (drop (Z.to_nat (k + 2)) a).
Proof.
  intros Hk Hn Ha. unfold prefix. rewrite <- (take_drop (Z.to_nat k) (take (Z.to_nat n) a)) at 1.
  rewrite take_take, Nat.min_l by lia. f_equal.
  apply list_eq. intros i. rewrite lookup_drop.
  destruct (decide (i < Z.to_nat (n - k))%nat) as [Hi|Hi].
  - rewrite lookup_take_lt by lia. destruct i as [|[|i]].
    + cbn. rewrite Nat.add_0_r. by rewrite (aget_lookup a k) by lia.
    + cbn. replace (Z.to_nat k + 1)%nat with (Z.to_nat (k + 1)) by lia. by rewrite (aget_lookup a (k + 1)) by lia.
    + rewrite lookup_app_r by (cbn; lia). cbn [length]. rewrite lookup_take_lt, lookup_drop by lia. f_equal. lia.
  - rewrite lookup_take_ge by lia. symmetry. apply lookup_ge_None. rewrite length_app, length_take, length_drop. cbn [length]. lia.
Qed.

Lemma crc16_burst n a b : n <= alen a -> n <= alen b ->
  (forall i, 0 <= i < n -> fits 8 (a.[i]) /\ fits 8 (b.[i])) -> burst_apart n a b ->
  bvstk_sd_master_crc16 a n = bvstk_sd_master_crc16 b n -> forall i, 0 <= i < n -> a.[i] = b.[i].
Proof.
  intros Ha Hb Hbytes (k & Hk & Hn & Hsame). rewrite !crc16_fold by lia.
  assert (prefix k a = prefix k b) as Epre.
  { apply list_eq. intros i. unfold prefix. destruct (decide (i < Z.to_nat k)%nat).
    - rewrite !lookup_take_lt by lia. rewrite <- (Nat2Z.id i), !aget_lookup by lia. by rewrite Hsame by lia.
    - by rewrite !lookup_take_ge by lia. }
  assert (prefix (n - (k + 2)) (drop (Z.to_nat (k + 2)) a) = prefix (n - (k + 2)) (drop (Z.to_nat (k + 2)) b)) as Esuf.
  { apply list_eq. intros i. unfold prefix. destruct (decide (i < Z.to_nat (n - (k + 2)))%nat).
    - rewrite !lookup_take_lt, !lookup_drop by lia. replace (Z.to_nat (k + 2) + i)%nat with (Z.to_nat (k + 2 + Z.of_nat i)) by lia.
      rewrite !aget_lookup by lia. by rewrite Hsame by lia.
    - by rewrite !lookup_take_ge by lia. }
  rewrite (prefix_split a n k), (prefix_split b n k), Epre, Esuf by lia. rewrite !foldl_app. cbn [foldl]. intros He.
  apply run_inj in He; [|apply byte_fits..|].
  2:{ apply Forall_lookup. intros i v Hv. unfold prefix in Hv. apply lookup_take_Some in Hv as [Hv Hi].
    rewrite lookup_drop in Hv. replace (Z.to_nat (k + 2) + i)%nat with (Z.to_nat (k + 2 + Z.of_nat i)) in Hv by lia.
    rewrite aget_lookup in Hv by lia. injection Hv as <-. apply Hbytes. lia. }
  apply pair_inj in He as [E1 E2]; [|apply run_fits; done|apply Hbytes; lia..].
  intros i Hi. destruct (decide (i = k)) as [->|]; [done|]. destruct (decide (i = k + 1)) as [->|]; [done|]. by apply Hsame.
Qed.
