(* ===== verification/SdMasterSafety.v ===== *)
(** * SdMasterSafety: what an SD command does on the bus

    Every command returns, and what it writes in the driver's three windows is the
    command protocol: reset, parameters, the acknowledgement of a stale interrupt
    by the port's [prepare], block RAM, one submission, and a reset again when
    something failed - never a second submission.  Accesses elsewhere, to the
    interrupt controller or a timer, are left open.  A block read is handed
    out only when the interrupt came, both DMA channels finished, the length, the
    guards and the checksum are right. *)
From stdpp Require Import prelude strings.
From Stdlib Require Import ZArith Lia.
From S2P Require Import Prelude Platform PlAccess SdMaster SdCrc.
Local Open Scope Z_scope.

(** No single operation takes longer than this many milliseconds (17 minutes);
    the 32-bit elapsed times of the driver are right under this bound. *)
Local Abbreviation op_time := 1048576 (only parsing).

Definition writes (l : list io) : list (Z * Z) := omap (fun e => match e with Wr a v => Some (a, v) | Rd _ _ => None end) l.

Lemma writes_app l1 l2 : writes (l1 ++ l2) = writes l1 ++ writes l2.
Proof. apply omap_app. Qed.

Section safety.
Context {X : Type} `{PL : Platform X} (log : X -> list io) (time : X -> Z).

(** The accesses inside the windows of a configuration, out of all those on the
    bus: an interrupt controller or a timer may be used as well. *)
Definition within_window (base size a : Z) : bool := (base <=? a) && (a <? base + size).
Definition owns (c : bvstk_sd_master_config_t X) (e : io) : bool :=
  let a := match e with Rd a _ => a | Wr a _ => a end in
  within_window (sc_core_base c) 0x10000 a || within_window (sc_dma_base c) 0x10000 a ||
  within_window (sc_bram_base c) (sc_bram_size c) a.
Definition owned (c : bvstk_sd_master_config_t X) (x : X) : list io := List.filter (owns c) (log x).

(** A step that stays off the driver's windows. *)
Definition aside (c : bvstk_sd_master_config_t X) (x x' : X) : Prop := owned c x' = owned c x /\ 0 <= time x' - time x <= op_time.

(** Acknowledging an interrupt: the register is written and read. *)
Definition acknowledges (c : bvstk_sd_master_config_t X) (e : io) : Prop :=
  match e with Wr a v => a = sc_core_base c + SDM_IRQ /\ v = SDM_ACK | Rd a _ => a = sc_core_base c + SDM_IRQ end.

(** What the driver relies on: the clock runs, operations are prompt and its
    callbacks leave the driver's registers alone, but for the interrupt register,
    which [prepare] may acknowledge. *)
Record sd_laws (d : bvstk_sd_master_t X) : Prop := {
  lw_in : forall a x, let r := Xil_In32 a x in log (snd r) = log x ++ [Rd a (fst r)] /\ 0 <= time (snd r) - time x <= op_time;
  lw_out : forall a v x, let x' := Xil_Out32 a v x in log x' = log x ++ [Wr a v] /\ 0 <= time x' - time x <= op_time;
  lw_now : forall x, let r := bvstk_clock_now_ms (Some (sd_clock d)) x in fst r = u64 (time x) /\ aside (sd_config d) x (snd r);
  lw_sleep : forall ms x, 0 <= ms < 2 ^ 32 -> let x' := bvstk_clock_sleep_ms (Some (sd_clock d)) ms x in
    owned (sd_config d) x' = owned (sd_config d) x /\ ms <= time x' - time x <= ms + op_time;
  lw_prepare : forall f, em_prepare (sc_events (sd_config d)) = Some f -> forall x, exists l,
    owned (sd_config d) (snd (f x)) = owned (sd_config d) x ++ l /\ Forall (acknowledges (sd_config d)) l /\
    0 <= time (snd (f x)) - time x <= 16 * op_time;
  lw_count : forall f, em_count (sc_events (sd_config d)) = Some f -> forall x, aside (sd_config d) x (snd (f x));
  lw_disable : forall f, em_disable (sc_events (sd_config d)) = Some f -> forall x, aside (sd_config d) x (f x);
  lw_barrier : forall f, em_barrier (sc_events (sd_config d)) = Some f -> forall x, aside (sd_config d) x (f x)
}.

Lemma owned_snoc c x x' e : log x' = log x ++ [e] -> owned c x' = owned c x ++ (if owns c e then [e] else []).
Proof. unfold owned. intros ->. rewrite List.filter_app. cbn. by destruct (owns c e). Qed.

(** An open driver. *)
Record sd_usable (d : bvstk_sd_master_t X) : Prop := {
  us_open : sd_open d = true;
  us_core : opened (sd_core d) (sc_core_base (sd_config d)) 0x10000;
  us_dma : opened (sd_dma d) (sc_dma_base (sd_config d)) 0x10000;
  us_bram : opened (sd_bram d) (sc_bram_base (sd_config d)) (sc_bram_size (sd_config d));
  us_size : SDM_BRAM_MIN <= sc_bram_size (sd_config d);
  us_descriptor : sc_descriptor_bytes (sd_config d) = 8 \/ sc_descriptor_bytes (sd_config d) = 16
}.

(** [open] gives an open driver, provided the windows exist: they are not at
    address 0 and end below 4 GiB. *)
Lemma open_usable c clock d :
  bvstk_sd_master_open true (Some c) clock = (BVSTK_OK, Some d) ->
  0 < sc_core_base c /\ sc_core_base c + 0x10000 <= 2 ^ 32 -> 0 < sc_dma_base c /\ sc_dma_base c + 0x10000 <= 2 ^ 32 ->
  0 < sc_bram_base c /\ sc_bram_base c + sc_bram_size c <= 2 ^ 32 ->
  sd_usable d /\ sd_config d = c /\ sd_io_error d = false.
Proof.
  unfold bvstk_sd_master_open. cbn [negb orb]. intros Ho Hc Hd Hb.
  destruct (_ || negb (Z.land (sc_data_divider c) 1 =? 0)) eqn:E in Ho; [done|]. bsimp.
  match goal with H : _ && _ = false |- _ => rewrite andb_false_iff, !negb_false_iff in H; rename H into Hdesc end.
  unfold bvstk_mmio_region_open in Ho. rewrite (proj2 (Z.eqb_neq (sc_bram_size c) 0)) in Ho by (unfold SDM_BRAM_MIN in *; lia).
  injection Ho as <-. cbn. split; [|done]. unfold SDM_BRAM_MIN in *. constructor; cbn; unfold opened; repeat split; try lia.
  destruct Hdesc; bsimp; auto.
Qed.

Context (d : bvstk_sd_master_t X) (Hl : sd_laws d) (Hu : sd_usable d) (Hio : sd_io_error d = false).

(** ** A logic for what is done between two moments

    [does x m n Q]: run from world [x], [m] takes at most [n] milliseconds, leaves
    the driver as it was, and its result and bus accesses satisfy [Q]. *)

Local Abbreviation seen := (owned (sd_config d)) (only parsing).

Definition does {A} (x : X) (m : ST (sd_state X) A) (n : Z) (Q : A -> list io -> Prop) : Prop :=
  runs m (SdState d x) (fun a s' => exists x' l, s' = SdState d x' /\
    seen x' = seen x ++ l /\ 0 <= time x' - time x <= n /\ Q a l).

Lemma does_ret {A} x (a : A) n Q : 0 <= n -> Q a [] -> does x (st_ret a) n Q.
Proof. intros Hn HQ. exists x, []. rewrite app_nil_r. repeat split; try done; lia. Qed.

Lemma does_bind {A B} n1 Q1 x (m : ST (sd_state X) A) (k : A -> ST (sd_state X) B) n Q :
  does x m n1 Q1 ->
  (forall a l x', Q1 a l -> 0 <= time x' - time x <= n1 -> does x' (k a) (n - (time x' - time x)) (fun b l2 => Q b (l ++ l2))) ->
  does x (st_bind m k) n Q.
Proof.
  unfold does. intros Hm Hk. apply runs_bind. eapply runs_mono; [exact Hm|]. intros a s1 (x1 & l1 & -> & E1 & T1 & HQ1).
  eapply runs_mono; [exact (Hk a l1 x1 HQ1 T1)|]. intros b s2 (x2 & l2 & -> & E2 & T2 & HQ2).
  exists x2, (l1 ++ l2). rewrite E2, E1, app_assoc. repeat split; try done; lia.
Qed.

Lemma does_mono {A} n1 Q1 x (m : ST (sd_state X) A) n Q :
  does x m n1 Q1 -> n1 <= n -> (forall a l, Q1 a l -> Q a l) -> does x m n Q.
Proof.
  unfold does. intros Hm Hn HQ. eapply runs_mono; [exact Hm|]. intros a s1 (x1 & l1 & -> & E1 & T1 & HQ1).
  exists x1, l1. repeat split; try done; try lia. by apply HQ.
Qed.

Lemma does_self {A B} x (f : bvstk_sd_master_t X -> A) (k : A -> ST (sd_state X) B) n Q :
  does x (k (f d)) n Q -> does x (st_bind (self f) k) n Q.
Proof. intros Hk. exact Hk. Qed.

Lemma outside_aside {A} x (m : ST X A) : aside (sd_config d) x (snd (m x)) -> does x (outside m) op_time (fun a l => a = fst (m x) /\ l = []).
Proof.
  intros [El Et]. unfold does, runs, outside. cbn [sm_ext sm_driver]. destruct (m x) as [a x']. cbn in *.
  exists x', []. rewrite app_nil_r. done.
Qed.

Lemma aside_refl x : aside (sd_config d) x x.
Proof. split; [done|lia]. Qed.

Lemma barrier_does x : does x barrier op_time (fun _ l => l = []).
Proof.
  apply does_self. eapply does_mono; [apply outside_aside|done|by intros ? ? [_ ->]]. cbn.
  destruct (em_barrier _) eqn:E; [by apply (lw_barrier d Hl)|apply aside_refl].
Qed.
Lemma disable_does x : does x disable op_time (fun _ l => l = []).
Proof.
  apply does_self. eapply does_mono; [apply outside_aside|done|by intros ? ? [_ ->]]. cbn.
  destruct (em_disable _) eqn:E; [by apply (lw_disable d Hl)|apply aside_refl].
Qed.
Lemma irq_count_does x : does x irq_count op_time (fun _ l => l = []).
Proof.
  apply does_self. eapply does_mono; [apply outside_aside|done|by intros ? ? [_ ->]]. cbn.
  destruct (em_count _) eqn:E; [by apply (lw_count d Hl)|apply aside_refl].
Qed.

(** The writes that acknowledge an interrupt. *)
Definition acks (w : list (Z * Z)) : Prop := Forall (fun p => p = (sc_core_base (sd_config d) + SDM_IRQ, SDM_ACK)) w.

Lemma acks_writes l : Forall (acknowledges (sd_config d)) l -> acks (writes l).
Proof.
  unfold acks. induction 1 as [|[a v|a v] l He Hl' IH]; cbn; [constructor|done|]. destruct He as [-> ->]. by constructor.
Qed.

Lemma prepare_does x : does x prepare (16 * op_time) (fun _ l => acks (writes l)).
Proof.
  apply does_self. unfold does, runs, outside. cbn [sm_ext sm_driver]. destruct (em_prepare _) as [f|] eqn:E.
  - destruct (lw_prepare d Hl f E x) as (l & El & Ha & Et). destruct (f x) as [st x']. exists x', l.
    split; [done|]. split; [done|]. split; [done|]. by apply acks_writes.
  - exists x, []. rewrite app_nil_r. split; [done|]. split; [done|]. split; [lia|constructor].
Qed.

Lemma now_does x : does x now_ms op_time (fun now l => now = u64 (time x) /\ l = []).
Proof.
  destruct (lw_now d Hl x) as [E Ha]. apply does_self. eapply does_mono; [by apply outside_aside|done|]. intros ? ? [-> ->]. by rewrite E.
Qed.

Lemma sleep_does ms x : 0 <= ms < 2 ^ 32 ->
  runs (sleep_ms ms) (SdState d x) (fun _ s' => exists x', s' = SdState d x' /\ seen x' = seen x /\ ms <= time x' - time x <= ms + op_time).
Proof.
  intros Hms. unfold runs, sleep_ms. cbn [self st_get st_bind outside sm_driver sm_ext fst snd clock_sleep]. eexists. split; [done|].
  by apply (lw_sleep d Hl).
Qed.

(** A window of the driver, open. *)
Definition window (region : bvstk_sd_master_t X -> bvstk_mmio_region_t) (base size : Z) : Prop :=
  opened (region d) base size /\ forall a, base <= a < base + size -> forall v, owns (sd_config d) (Rd a v) = true /\ owns (sd_config d) (Wr a v) = true.

Lemma rd_does region base size off x : window region base size -> 0 <= off -> off + 4 <= size -> off mod 4 = 0 ->
  does x (rd region off) op_time (fun v l => l = [Rd (base + off) v]).
Proof.
  intros [Hw Hin] Ho Hs Hm. destruct (opened_access _ _ _ off Hw Ho Hs Hm) as [Ha Eb].
  apply does_self. unfold does. apply runs_bind. unfold runs at 1, outside, bvstk_mmio_read32. cbn [sm_ext sm_driver negb orb].
  rewrite Ha, Eb. destruct (lw_in d Hl (base + off) x) as [E1%(owned_snoc (sd_config d)) E2].
  rewrite (proj1 (Hin (base + off) ltac:(lia) _)) in E1.
  destruct (Xil_In32 _ x) as [v x']. cbn [fst snd] in *. apply runs_ret. exists x', [Rd (base + off) v]. repeat split; try done; lia.
Qed.

Lemma wr_does region base size off v x : window region base size -> 0 <= off -> off + 4 <= size -> off mod 4 = 0 ->
  does x (wr region off v) (2 * op_time) (fun _ l => l = [Wr (base + off) v]).
Proof.
  intros [Hw Hin] Ho Hs Hm. destruct (opened_access _ _ _ off Hw Ho Hs Hm) as [Ha Eb].
  apply does_self. cbn [id]. rewrite Hio. apply (does_bind op_time (fun _ l => l = [Wr (base + off) v])).
  - unfold does. apply runs_bind. unfold runs at 1, outside, bvstk_mmio_write32. cbn [sm_ext sm_driver fst snd].
    unfold id. rewrite Ha, Eb. cbn [fst snd]. apply runs_ret. destruct (lw_out d Hl (base + off) v x) as [E1%(owned_snoc (sd_config d)) E2].
    rewrite (proj2 (Hin (base + off) ltac:(lia) _)) in E1. eexists _, _. split; [done|]. split; [exact E1|]. by split.
  - intros _ l x' -> Hx. eapply does_mono; [apply barrier_does|lia|]. intros [] l ->. by rewrite app_nil_r.
Qed.

Lemma io_error_does x v : v = false -> does x (set_io_error v) 0 (fun _ l => l = []).
Proof.
  intros ->. exists x, []. unfold with_io_error. cbn. rewrite app_nil_r. rewrite <- Hio. repeat split; try lia. by destruct d.
Qed.

(** Elapsed time as the driver computes it: a difference at 64 bits, cut to 32. *)
Lemma elapsed_u32 a b : 0 <= a - b < 2 ^ 32 -> u32 (u64 a - u64 b) = a - b.
Proof.
  intros Hab. assert (forall v, (v mod 2 ^ 64) mod 2 ^ 32 = v mod 2 ^ 32) as Hmm.
  { intros v. apply Z.mod_mod_divide. by exists (2 ^ 32). }
  unfold u32, u64, wrap. rewrite Zminus_mod, !Hmm, <- Zminus_mod. by apply Z.mod_small.
Qed.

(** ** The registers of the command *)

Local Abbreviation cfg := (sd_config d) (only parsing).
Definition core_reg (off : Z) : Z := sc_core_base cfg + off.
Definition dma_reg (off : Z) : Z := sc_dma_base cfg + off.
Definition bram_word (off : Z) : Z := sc_bram_base cfg + off.

Lemma window_core : window sd_core (sc_core_base cfg) 0x10000.
Proof. split; [apply (us_core d Hu)|]. intros a Ha v. unfold owns, within_window. split; rewrite !orb_true_iff, !andb_true_iff, !Z.leb_le, !Z.ltb_lt; lia. Qed.
Lemma window_dma : window sd_dma (sc_dma_base cfg) 0x10000.
Proof. split; [apply (us_dma d Hu)|]. intros a Ha v. unfold owns, within_window. split; rewrite !orb_true_iff, !andb_true_iff, !Z.leb_le, !Z.ltb_lt; lia. Qed.
Lemma window_bram : window sd_bram (sc_bram_base cfg) (sc_bram_size cfg).
Proof. split; [apply (us_bram d Hu)|]. intros a Ha v. unfold owns, within_window. split; rewrite !orb_true_iff, !andb_true_iff, !Z.leb_le, !Z.ltb_lt; lia. Qed.

Lemma wr_core off v x : 0 <= off -> off + 4 <= 0x10000 -> off mod 4 = 0 ->
  does x (wr sd_core off v) (2 * op_time) (fun _ l => l = [Wr (core_reg off) v]).
Proof. intros. eapply wr_does; [apply window_core|done..]. Qed.
Lemma wr_dma off v x : 0 <= off -> off + 4 <= 0x10000 -> off mod 4 = 0 ->
  does x (wr sd_dma off v) (2 * op_time) (fun _ l => l = [Wr (dma_reg off) v]).
Proof. intros. eapply wr_does; [apply window_dma|done..]. Qed.
Lemma wr_bram off v x : 0 <= off -> off + 4 <= SDM_BRAM_MIN -> off mod 4 = 0 ->
  does x (wr sd_bram off v) (2 * op_time) (fun _ l => l = [Wr (bram_word off) v]).
Proof. intros. eapply wr_does; [apply window_bram|done| |done]. pose proof (us_size d Hu). lia. Qed.
Lemma rd_core off x : 0 <= off -> off + 4 <= 0x10000 -> off mod 4 = 0 ->
  does x (rd sd_core off) op_time (fun v l => l = [Rd (core_reg off) v]).
Proof. intros. eapply rd_does; [apply window_core|done..]. Qed.
Lemma rd_dma off x : 0 <= off -> off + 4 <= 0x10000 -> off mod 4 = 0 ->
  does x (rd sd_dma off) op_time (fun v l => l = [Rd (dma_reg off) v]).
Proof. intros. eapply rd_does; [apply window_dma|done..]. Qed.
Lemma rd_bram off x : 0 <= off -> off + 4 <= SDM_BRAM_MIN -> off mod 4 = 0 ->
  does x (rd sd_bram off) op_time (fun v l => l = [Rd (bram_word off) v]).
Proof. intros. eapply rd_does; [apply window_bram|done| |done]. pose proof (us_size d Hu). lia. Qed.

(** One access, and what follows it. *)
Lemma after_wr {A} x region off v a (k : unit -> ST (sd_state X) A) n Q :
  does x (wr region off v) (2 * op_time) (fun _ l => l = [Wr a v]) ->
  (forall x', 0 <= time x' - time x <= 2 * op_time -> does x' (k tt) (n - (time x' - time x)) (fun b l => Q b (Wr a v :: l))) ->
  does x (st_bind (wr region off v) k) n Q.
Proof. intros Hw Hk. eapply does_bind; [exact Hw|]. intros [] l x' -> Hx. by apply Hk. Qed.

Lemma after_rd {A} x region off a (k : Z -> ST (sd_state X) A) n Q :
  does x (rd region off) op_time (fun v l => l = [Rd a v]) ->
  (forall v x', 0 <= time x' - time x <= op_time -> does x' (k v) (n - (time x' - time x)) (fun b l => Q b (Rd a v :: l))) ->
  does x (st_bind (rd region off) k) n Q.
Proof. intros Hw Hk. eapply does_bind; [exact Hw|]. intros v l x' -> Hx. by apply Hk. Qed.

(** A step that does not touch the bus. *)
Lemma after_quiet {A B} n1 x (m : ST (sd_state X) A) (k : A -> ST (sd_state X) B) n Q :
  does x m n1 (fun _ l => l = []) ->
  (forall a x', 0 <= time x' - time x <= n1 -> does x' (k a) (n - (time x' - time x)) Q) ->
  does x (st_bind m k) n Q.
Proof. intros Hm Hk. eapply does_bind; [exact Hm|]. intros a l x' -> Hx. by apply Hk. Qed.

(** The end of a polling round that found nothing: sleep, look at the clock and
    go on, unless the time is up. *)
Lemma poll_once {A} x t0 T n (late : A) (loop : ST (sd_state X) A) Q :
  0 <= time x - t0 <= 3 * 2 ^ 30 -> 0 <= T <= 2 ^ 31 -> time x + 3 * op_time <= n ->
  (forall x', time x + 1 <= time x' -> time x + 1 < t0 + T -> time x' < t0 + T + op_time -> does x' loop (n - time x') Q) ->
  Q late [] ->
  does x (sleep_ms 1 ;; let! e := elapsed (u64 t0) in if e <? T then loop else st_ret late) (n - time x) Q.
Proof.
  intros Hx HT Hn Hloop Hlate. apply runs_bind. eapply runs_mono; [apply sleep_does; lia|]. intros _ s1 (x1 & -> & El1 & Et1).
  assert (does x1 (let! e := elapsed (u64 t0) in if e <? T then loop else st_ret late) (n - time x1) Q) as Hd.
  { apply (does_bind op_time (fun e l => e = time x1 - t0 /\ l = [])).
    - apply (does_bind op_time (fun now l => now = u64 (time x1) /\ l = [])); [apply now_does|]. intros now l x2 [-> ->] Hx2.
      apply does_ret; [lia|]. split; [|done]. apply elapsed_u32. lia.
    - intros e l x2 [-> ->] Hx2. destruct (time x1 - t0 <? T) eqn:E; bsimp.
      + eapply does_mono; [apply Hloop; lia|lia|done].
      + apply does_ret; [lia|done]. }
  unfold does in Hd. eapply runs_mono; [exact Hd|]. intros a s2 (x2 & l & -> & El2 & Et2 & HQ). exists x2, l. rewrite El2, El1.
  repeat split; try done; lia.
Qed.

(** ** Resetting the DMA channels *)

(** The writes of [dma_reset] after the first. *)
Inductive reset_rest : bvstk_status_t -> list (Z * Z) -> Prop :=
  | reset_done : reset_rest BVSTK_OK [(dma_reg SDM_TX_STATUS, SDM_DMA_IRQS); (dma_reg SDM_RX_STATUS, SDM_DMA_IRQS)]
  | reset_late : reset_rest BVSTK_ERR_TIMEOUT [].
Definition resets (st : bvstk_status_t) (w : list (Z * Z)) : Prop :=
  exists w', w = (dma_reg SDM_TX_CONTROL, SDM_DMA_RESET) :: w' /\ reset_rest st w'.

Lemma dma_reset_loop_does fuel t0 x :
  0 <= time x - t0 <= 4 * op_time -> 100 - (time x - t0) < Z.of_nat fuel -> 0 < Z.of_nat fuel ->
  does x (dma_reset_loop fuel (u64 t0)) (t0 + 16 * op_time - time x) (fun o l => exists st, o = Some st /\ reset_rest st (writes l)).
Proof.
  revert x. induction fuel as [|fuel IH]; intros x Hx Hf Hf0; [lia|]. cbn [dma_reset_loop].
  eapply after_rd; [by apply rd_dma|]. intros tx x1 Hx1. eapply after_rd; [by apply rd_dma|]. intros rx x2 Hx2.
  apply does_self. rewrite Hio. destruct (Z.land _ _ =? 0).
  - eapply after_wr; [by apply wr_dma|]. intros x3 Hx3. eapply after_wr; [by apply wr_dma|]. intros x4 Hx4.
    apply does_self. rewrite Hio. apply does_ret; [lia|]. eexists. split; [done|]. apply reset_done.
  - replace (t0 + 16 * op_time - time x - (time x1 - time x) - (time x2 - time x1)) with (t0 + 16 * op_time - time x2) by lia.
    apply poll_once; [lia..| |].
    + intros x3 H1 H2 H3. eapply does_mono; [apply IH; lia|lia|]. intros o l (st & -> & Hr). by exists st.
    + eexists. split; [done|]. apply reset_late.
Qed.

Lemma dma_reset_does fuel x : 100 < Z.of_nat fuel ->
  does x (dma_reset fuel) (16 * op_time) (fun o l => exists st, o = Some st /\ resets st (writes l)).
Proof.
  intros Hf. eapply does_bind; [apply now_does|]. intros now l x1 [-> ->] Hx1.
  eapply after_wr; [by apply wr_dma|]. intros x2 Hx2. eapply does_mono; [apply (dma_reset_loop_does fuel (time x)); lia|lia|].
  intros o l (st & -> & Hr). exists st. split; [done|]. eexists. split; [|exact Hr]. done.
Qed.

(** What a failed transfer ends with. *)
Definition aborts (w : list (Z * Z)) : Prop := exists st w', resets st w' /\ w = w' ++ [(core_reg SDM_CSR, SDM_RESET)].

Lemma abort_does fuel x : 100 < Z.of_nat fuel ->
  does x (abort_transfer fuel) (20 * op_time) (fun o l => o = Some tt /\ aborts (writes l)).
Proof.
  intros Hf. eapply after_quiet; [apply disable_does|]. intros [] x1 Hx1. eapply after_quiet; [by apply io_error_does|].
  intros [] x2 Hx2. eapply does_bind; [by apply dma_reset_does|]. intros o l x3 (st & -> & Hr) Hx3.
  eapply after_wr; [by apply wr_core|]. intros x4 Hx4. apply does_ret; [lia|]. split; [done|]. exists st. eexists.
  split; [exact Hr|]. by rewrite writes_app.
Qed.

Lemma snapshot_does x r : does x (snapshot r) (6 * op_time) (fun r' l => writes l = [] /\
  rp_reply r' = rp_reply r /\ rp_first_reply r' = rp_first_reply r).
Proof.
  eapply after_rd; [by apply rd_core|]. intros v1 x1 H1. eapply after_rd; [by apply rd_core|]. intros v2 x2 H2.
  eapply after_quiet; [apply irq_count_does|]. intros c x3 H3. eapply after_rd; [by apply rd_dma|]. intros v4 x4 H4.
  eapply after_rd; [by apply rd_dma|]. intros v5 x5 H5. eapply after_rd; [by apply rd_dma|]. intros v6 x6 H6.
  apply does_ret; [lia|done].
Qed.

Lemma failed_does fuel st r x : 100 < Z.of_nat fuel ->
  does x (failed fuel st r) (26 * op_time) (fun o l => exists r', o = Some (st, r') /\ aborts (writes l)).
Proof.
  intros Hf. eapply does_bind; [apply snapshot_does|]. intros r' l x1 (E & _) H1.
  eapply does_bind; [by apply abort_does|]. intros o l2 x2 [-> Ha] H2. apply does_ret; [lia|].
  exists r'. split; [done|]. rewrite app_nil_r, writes_app, E. exact Ha.
Qed.

(** ** What is written for a command *)

Definition params : list (Z * Z) :=
  [(core_reg SDM_PACKET, SDM_FALL_THROUGH); (core_reg SDM_DELAY, 1); (core_reg SDM_DIVIDER, sc_data_divider cfg)].

(** The words of the block to write, word [j] first. *)
Definition block_writes (block : list Z) (j n : Z) : list (Z * Z) :=
  map (fun i => (bram_word (SDM_TX_AREA + 8 + 4 * i), block_word block (4 * i))) (seqZ j n).
Definition sentinel_writes (j n : Z) : list (Z * Z) := map (fun i => (bram_word (SDM_RX_AREA + 4 * i), SENTINEL)) (seqZ j n).

Definition loads (command argument size mailbox : Z) (write_block : option (list Z)) : list (Z * Z) :=
  let '(w0, w1) := bvstk_sd_master_encode command argument in
  [(bram_word mailbox, SENTINEL); (bram_word (SDM_TX_AREA - 4), GUARD); (bram_word SDM_TX_AREA, w0); (bram_word (SDM_TX_AREA + 4), w1)] ++
  (if (command =? 17) && (size =? 16)
   then [(bram_word (SDM_TX_AREA + 8), w0); (bram_word (SDM_TX_AREA + 12), Z.lor (Z.land w1 0xff) 0xff00)] else []) ++
  match write_block with
  | Some block => block_writes block 0 128 ++ [(bram_word (SDM_TX_AREA + 520), Z.lor 0xffff0000 (bvstk_sd_master_crc16 block SDM_BLOCK_SIZE))]
  | None => []
  end ++ [(bram_word (SDM_TX_AREA + align4 size), GUARD)].

Definition arms : list (Z * Z) :=
  [(bram_word (SDM_RX_AREA - 4), GUARD)] ++ sentinel_writes 0 129 ++
  [(bram_word (SDM_RX_AREA + 516), GUARD); (dma_reg SDM_RX_CONTROL, SDM_DMA_RUN);
   (dma_reg SDM_RX_DESTINATION, u32 (u32 (sc_bram_base cfg) + SDM_RX_AREA)); (dma_reg SDM_RX_LENGTH, SDM_RX_BYTES)].

Definition submits (size : Z) : list (Z * Z) :=
  [(dma_reg SDM_TX_CONTROL, SDM_DMA_RUN); (dma_reg SDM_TX_SOURCE, u32 (u32 (sc_bram_base cfg) + SDM_TX_AREA));
   (dma_reg SDM_TX_LENGTH, size); (core_reg SDM_CSR, SDM_START_COMMAND)].

Lemma writes_map {A} (f : A -> Z * Z) l : writes (map (fun i => Wr (fst (f i)) (snd (f i))) l) = map f l.
Proof. induction l as [|i l IH]; [done|]. cbn. destruct (f i). cbn. by f_equal. Qed.

Lemma load_block_does k block j x : 0 <= j -> j + Z.of_nat k = 128 ->
  does x (load_block k block (4 * j)) (2 * op_time * Z.of_nat k) (fun _ l => writes l = block_writes block j (Z.of_nat k)).
Proof.
  revert j x. induction k as [|k IH]; intros j x Hj Hk; cbn [load_block]; [by apply does_ret|].
  eapply after_wr; [apply wr_bram; unfold SDM_TX_AREA, SDM_BRAM_MIN; [lia|lia|Z.to_euclidean_division_equations; lia]|]. intros x1 H1.
  replace (4 * j + 4) with (4 * (j + 1)) by lia. eapply does_mono; [apply IH; lia|lia|]. intros [] l El.
  unfold block_writes. rewrite seqZ_cons by lia. replace (Z.succ j) with (j + 1) by lia.
  replace (Z.pred (Z.of_nat (S k))) with (Z.of_nat k) by lia. cbn [map writes omap list_omap]. by f_equal.
Qed.

Lemma load_sentinels_does k j x : 0 <= j -> j + Z.of_nat k = 129 ->
  does x (load_sentinels k (4 * j)) (2 * op_time * Z.of_nat k) (fun _ l => writes l = sentinel_writes j (Z.of_nat k)).
Proof.
  revert j x. induction k as [|k IH]; intros j x Hj Hk; cbn [load_sentinels]; [by apply does_ret|].
  eapply after_wr; [apply wr_bram; unfold SDM_RX_AREA, SDM_BRAM_MIN; [lia|lia|Z.to_euclidean_division_equations; lia]|]. intros x1 H1.
  replace (4 * j + 4) with (4 * (j + 1)) by lia. eapply does_mono; [apply IH; lia|lia|]. intros [] l El.
  unfold sentinel_writes. rewrite seqZ_cons by lia. replace (Z.succ j) with (j + 1) by lia.
  replace (Z.pred (Z.of_nat (S k))) with (Z.of_nat k) by lia. cbn [map writes omap list_omap]. by f_equal.
Qed.

(** What the code derives from the command number. *)
Definition size_of (command : Z) : Z :=
  if command =? 17 then sc_descriptor_bytes cfg else if command =? 24 then SDM_TX_BYTES else 8.

Lemma size_cases command : size_of command = 8 \/ size_of command = 16 \/ size_of command = SDM_TX_BYTES.
Proof. unfold size_of. destruct (command =? 17); [destruct (us_descriptor d Hu) as [-> | ->]; auto|]. destruct (command =? 24); auto. Qed.

Lemma mailbox_ok command mailbox : mailbox_of command = Some mailbox -> 0 <= mailbox /\ mailbox + 4 <= SDM_BRAM_MIN /\ mailbox mod 4 = 0.
Proof.
  unfold mailbox_of. destruct (command =? 13); [by intros [= <-]|]. destruct (command =? 16); [by intros [= <-]|].
  destruct (command =? 17); [by intros [= <-]|]. destruct (command =? 24); [by intros [= <-]|done].
Qed.

Lemma load_command_does command argument mailbox wb x : mailbox_of command = Some mailbox ->
  does x (load_command command argument (size_of command) mailbox wb) (300 * op_time)
    (fun _ l => writes l = loads command argument (size_of command) mailbox wb).
Proof.
  intros (M1 & M2 & M3)%mailbox_ok. unfold load_command, loads. destruct (bvstk_sd_master_encode command argument) as [w0 w1].
  eapply after_wr; [by apply wr_bram|]. intros x1 H1. do 3 (eapply after_wr; [by apply wr_bram|]; intros ? ?).
  eapply (does_bind (4 * op_time)).
  { instantiate (1 := fun _ l => writes l = if (command =? 17) && (size_of command =? 16)
      then [(bram_word (SDM_TX_AREA + 8), w0); (bram_word (SDM_TX_AREA + 12), Z.lor (Z.land w1 0xff) 0xff00)] else []).
    destruct ((command =? 17) && (size_of command =? 16)); [|by apply does_ret].
    eapply after_wr; [by apply wr_bram|]. intros x5 H5. eapply does_mono; [by apply wr_bram|lia|]. by intros [] l ->. }
  intros [] l5 x5 E5 H5. eapply (does_bind (260 * op_time)).
  { instantiate (1 := fun _ l => writes l = match wb with
      | Some block => block_writes block 0 128 ++ [(bram_word (SDM_TX_AREA + 520), Z.lor 0xffff0000 (bvstk_sd_master_crc16 block SDM_BLOCK_SIZE))]
      | None => [] end).
    destruct wb as [block|]; [|by apply does_ret].
    eapply does_bind; [apply (load_block_does 128 block 0); lia|]. intros [] l6 x6 E6 H6.
    eapply does_mono; [by apply wr_bram|lia|]. intros [] l ->. by rewrite writes_app, E6. }
  intros [] l6 x6 E6 H6. eapply (does_mono (2 * op_time)); [|lia|].
  { apply wr_bram; destruct (size_cases command) as [-> | [-> | ->]]; done. }
  intros [] l ->. cbn [writes omap list_omap app]. fold (writes (l5 ++ l6 ++ [Wr (bram_word (SDM_TX_AREA + align4 (size_of command))) GUARD])).
  rewrite !writes_app, E5, E6. done.
Qed.

Lemma arm_does x : does x arm_receive (280 * op_time) (fun _ l => writes l = arms).
Proof.
  apply does_self. eapply after_wr; [by apply wr_bram|]. intros x1 H1.
  eapply does_bind; [apply (load_sentinels_does 129 0); lia|]. intros [] l2 x2 E2 H2.
  eapply after_wr; [by apply wr_bram|]. intros x3 H3. do 2 (eapply after_wr; [by apply wr_dma|]; intros ? ?).
  eapply does_mono; [by apply wr_dma|lia|]. intros [] l ->. cbn [writes omap list_omap]. fold (writes (l2 ++
    [Wr (bram_word (SDM_RX_AREA + 516)) GUARD; Wr (dma_reg SDM_RX_CONTROL) SDM_DMA_RUN;
     Wr (dma_reg SDM_RX_DESTINATION) (u32 (u32 (sc_bram_base cfg) + SDM_RX_AREA)); Wr (dma_reg SDM_RX_LENGTH) SDM_RX_BYTES])).
  rewrite writes_app, E2. done.
Qed.

(** ** Submission and completion *)

Definition submit_io (size : Z) : list io := map (fun w => Wr (fst w) (snd w)) (submits size).

Lemma submit_then {B} size (k : Z -> ST (sd_state X) B) x n Q :
  (forall t0 x', 0 <= time x' - time x <= 10 * op_time -> 0 <= time x' - t0 <= 5 * op_time ->
     does x' (k (u64 t0)) (n - (time x' - time x)) (fun b l => Q b (submit_io size ++ l))) ->
  does x (st_bind (submit size) k) n Q.
Proof.
  intros Hk. unfold does, submit. apply runs_bind. apply runs_bind. unfold self. apply runs_get. apply runs_bind.
  eapply runs_mono; [apply wr_dma; done|]. intros [] s1 (x1 & l1 & -> & E1 & T1 & ->). apply runs_bind.
  eapply runs_mono; [apply wr_dma; done|]. intros [] s2 (x2 & l2 & -> & E2 & T2 & ->). apply runs_bind.
  eapply runs_mono; [apply now_does|]. intros now s3 (x3 & l3 & -> & E3 & T3 & -> & ->). apply runs_bind.
  eapply runs_mono; [apply wr_dma; done|]. intros [] s4 (x4 & l4 & -> & E4 & T4 & ->). apply runs_bind.
  eapply runs_mono; [apply wr_core; done|]. intros [] s5 (x5 & l5 & -> & E5 & T5 & ->). apply runs_ret.
  specialize (Hk (time x2) x5 ltac:(lia) ltac:(lia)). unfold does in Hk. eapply runs_mono; [exact Hk|].
  intros b s6 (x6 & l6 & -> & E6 & T6 & HQ). exists x6, (submit_io size ++ l6).
  split; [done|]. split; [|split; [lia|done]]. rewrite E6, E5, E4, E3, E2, E1. cbn [submit_io submits map fst snd sm_driver].
  by rewrite app_nil_r, <- !app_assoc.
Qed.

(** The report of a command the hardware completed. *)
Definition completed (receive : bool) (r : bvstk_sd_master_report_t) : Prop :=
  rp_irq_count r <> 0 /\ rp_reply r <> SENTINEL /\ dma_done (rp_tx_status r) = true /\
  (receive = true -> dma_done (rp_rx_status r) = true).

Definition loop_result (receive : bool) (st : bvstk_status_t) (r : bvstk_sd_master_report_t) : Prop :=
  match st with BVSTK_OK => completed receive r | BVSTK_ERR_IO | BVSTK_ERR_TIMEOUT => True | _ => False end.

Lemma command_loop_does fuel mailbox receive t0 T r x :
  0 <= mailbox /\ mailbox + 4 <= SDM_BRAM_MIN /\ mailbox mod 4 = 0 -> 0 <= T <= 2 ^ 31 ->
  0 <= time x - t0 <= T + 6 * op_time -> T - (time x - t0) < Z.of_nat fuel -> 0 < Z.of_nat fuel ->
  does x (command_loop fuel mailbox receive (u64 t0) T r) (t0 + T + 32 * op_time - time x)
    (fun o l => exists st r', o = Some (st, r') /\ writes l = [] /\ loop_result receive st r').
Proof.
  intros Hm HT. revert r x. induction fuel as [|fuel IH]; intros r x Hx Hf Hf0; [lia|]. cbn [command_loop].
  eapply does_bind; [apply snapshot_does|]. intros r1 l1 x1 (E1 & _) H1.
  eapply after_rd; [by apply rd_bram; apply Hm|]. intros reply x2 H2.
  apply does_self. rewrite Hio. cbn [orb].
  destruct (truth _); [apply does_ret; [lia|]; eexists _, _; split; [done|]; split; [by rewrite writes_app, E1|done]|].
  destruct (_ && _) eqn:E.
  - apply does_ret; [lia|]. eexists _, _. split; [done|]. split; [by rewrite writes_app, E1|]. bsimp.
    repeat split; try done. intros ->. match goal with H : _ || _ = true |- _ => by cbn in H end.
  - replace (t0 + T + 32 * op_time - time x - (time x1 - time x) - (time x2 - time x1)) with (t0 + T + 32 * op_time - time x2) by lia.
    apply poll_once; [lia..| |].
    + intros x3 H3 H4 H5. eapply does_mono; [apply IH; lia|lia|]. intros o l (st & r' & -> & Ew & Hr).
      exists st, r'. split; [done|]. split; [|done]. rewrite writes_app, E1. exact Ew.
    + eexists _, _. split; [done|]. split; [by rewrite writes_app, E1|done].
Qed.

(** ** The bytes received *)

Lemma receive_loop_does k off word received x : 0 <= off -> off + Z.of_nat k = SDM_RX_BYTES ->
  does x (receive_loop k off word received) (op_time * Z.of_nat k) (fun res l => exists m,
    (off mod 4 <> 0 -> m (4 * (off / 4)) = word) /\ res = received ++ map (mem_byte m 0) (seqZ off (Z.of_nat k)) /\
    l = word_reads m (bram_word SDM_RX_AREA) ((off + 3) / 4) SDM_RX_BYTES).
Proof.
  revert off word received x. induction k as [|k IH]; intros off word received x Ho Hk; cbn [receive_loop].
  { apply does_ret; [lia|]. exists (fun _ => word). split; [done|]. split; [by rewrite app_nil_r|].
    replace off with SDM_RX_BYTES by lia. done. }
  assert (Z.land off 3 = off mod 4) as El by (change 3 with (Z.ones 2); by rewrite Z.land_ones by lia). rewrite El.
  assert (seqZ off (Z.of_nat (S k)) = off :: seqZ (off + 1) (Z.of_nat k)) as Es.
  { rewrite seqZ_cons by lia. f_equal. f_equal; lia. }
  unfold SDM_RX_BYTES in *. destruct (off mod 4 =? 0) eqn:E; bsimp.
  - eapply after_rd; [apply rd_bram; unfold SDM_RX_AREA, SDM_BRAM_MIN; [lia|lia|Z.to_euclidean_division_equations; lia]|]. intros v x1 H1.
    eapply does_mono; [apply IH; lia|lia|]. intros res l (m & Hm & -> & ->).
    assert ((off + 1) / 4 = off / 4) as Ed by (Z.to_euclidean_division_equations; lia).
    assert ((off + 1 + 3) / 4 = (off + 3) / 4 + 1) as Ed' by (Z.to_euclidean_division_equations; lia).
    assert (4 * ((off + 3) / 4) = off) as Ed3 by (Z.to_euclidean_division_equations; lia).
    assert (4 * (off / 4) = off) as Ed4 by (Z.to_euclidean_division_equations; lia).
    rewrite Ed, Ed4 in Hm. specialize (Hm ltac:(Z.to_euclidean_division_equations; lia)).
    exists m. split; [lia|]. rewrite Es, <- app_assoc. cbn [map app]. split.
    + do 2 f_equal. unfold mem_byte. by rewrite Z.add_0_l, Ed4, Hm, E.
    + rewrite Ed', (word_reads_cons m _ ((off + 3) / 4)) by lia. rewrite Ed3, Hm. unfold bram_word. by rewrite Z.add_assoc.
  - eapply (does_bind 0 (fun w l => w = word /\ l = [])); [by apply does_ret|]. intros ? ? x1 [-> ->] H1.
    eapply does_mono; [apply IH; lia|lia|]. intros res l (m & Hm & -> & ->).
    set (a := 4 * (off / 4)). exists (fun b => if decide (b = a) then word else m b).
    split; [by rewrite decide_True by done|]. rewrite Es, <- app_assoc. cbn [map app]. split.
    + f_equal. f_equal.
      * unfold mem_byte. by rewrite Z.add_0_l, decide_True by done.
      * apply map_ext_in. intros b Hb. apply list_elem_of_In, elem_of_seqZ in Hb. unfold mem_byte. f_equal. rewrite Z.add_0_l.
        destruct (decide (4 * (b / 4) = a)) as [Eb|]; [|done]. subst a.
        assert ((off + 1) / 4 = off / 4 /\ (off + 1) mod 4 <> 0) as [E1 E2] by (Z.to_euclidean_division_equations; lia).
        rewrite Eb, <- E1. by apply Hm.
    + assert ((off + 1 + 3) / 4 = (off + 3) / 4) as -> by (Z.to_euclidean_division_equations; lia).
      apply map_ext_in. intros b Hb. apply list_elem_of_In, elem_of_seqZ in Hb. rewrite decide_False; [done|].
      subst a. Z.to_euclidean_division_equations. lia.
Qed.

(** ** The checks after completion *)

(** The reads that find every guard word intact. *)
Definition guard_reads (size : Z) (receive : bool) (v : Z) : list io :=
  [Rd (bram_word (SDM_TX_AREA - 4)) GUARD; Rd (bram_word (SDM_TX_AREA + align4 size)) GUARD] ++
  if receive then [Rd (bram_word (SDM_RX_AREA - 4)) GUARD; Rd (bram_word (SDM_RX_AREA + 516)) GUARD; Rd (bram_word (SDM_RX_AREA + 512)) v]
  else [].

Lemma guarded_does off x : 0 <= off -> off + 4 <= SDM_BRAM_MIN -> off mod 4 = 0 ->
  does x (guarded_at off) op_time (fun ok l => writes l = [] /\ (ok = true -> l = [Rd (bram_word off) GUARD])).
Proof.
  intros ? ? ?. eapply after_rd; [by apply rd_bram|]. intros v x1 Hx1. apply does_ret; [lia|]. split; [done|]. intros E. bsimp. by subst.
Qed.

Lemma and_then_does a m n (P : list io -> Prop) x : 0 <= n -> (a = true -> does x m n (fun ok l => writes l = [] /\ (ok = true -> P l))) ->
  does x (and_then a m) n (fun ok l => writes l = [] /\ (ok = true -> a = true /\ P l)).
Proof.
  intros Hn Hm. destruct a; cbn [and_then]; [|by apply does_ret].
  eapply does_mono; [by apply Hm|lia|]. intros ok l [E Hok]. split; [done|]. intros ->. auto.
Qed.

Lemma guards_does command receive x :
  does x (guards_valid (size_of command) receive) (6 * op_time) (fun ok l => writes l = [] /\
    (ok = true -> exists v, l = guard_reads (size_of command) receive v /\ Z.land v 0xffff0000 = Z.land SENTINEL 0xffff0000)).
Proof.
  unfold guards_valid, guard_reads. eapply does_bind; [by apply guarded_does|]. intros a l1 x1 [E1 P1] H1.
  eapply does_bind.
  { apply (and_then_does _ _ op_time); [done|]. intros _. apply guarded_does; destruct (size_cases command) as [-> | [-> | ->]]; done. }
  intros b l2 x2 [E2 P2] H2. destruct receive.
  - eapply does_bind; [apply (and_then_does _ _ op_time); [done|]; intros _; by apply guarded_does|]. intros c l3 x3 [E3 P3] H3.
    eapply does_bind; [apply (and_then_does _ _ op_time); [done|]; intros _; by apply guarded_does|]. intros e l4 x4 [E4 P4] H4.
    eapply (does_mono op_time).
    { apply (and_then_does _ _ op_time (fun l => exists v, l = [Rd (bram_word (SDM_RX_AREA + 512)) v] /\
        Z.land v 0xffff0000 = Z.land SENTINEL 0xffff0000)); [done|]. intros _.
      eapply after_rd; [by apply rd_bram|]. intros v x5 H5. apply does_ret; [lia|]. split; [done|]. intros E. bsimp. eauto. }
    { lia. }
    intros ok l [E5 P5]. rewrite !writes_app, E1, E2, E3, E4, E5. split; [done|]. intros ->.
    destruct (P5 eq_refl) as (-> & v & -> & Ev). destruct (P4 eq_refl) as (-> & ->). destruct (P3 eq_refl) as (-> & ->).
    destruct (P2 eq_refl) as (-> & ->). rewrite (P1 eq_refl). exists v. by split.
  - apply does_ret; [lia|]. rewrite app_nil_r, !writes_app, E1, E2. split; [done|]. intros ->.
    destruct (P2 eq_refl) as (-> & ->). rewrite (P1 eq_refl). by exists SENTINEL.
Qed.

(** The frame the hardware delivered: word [j] of the receive area is [m (4 * j)]. *)
Definition frame_of (m : Z -> Z) : list Z := map (mem_byte m 0) (seqZ 0 SDM_RX_BYTES).
Definition frame_valid (m : Z -> Z) : Prop :=
  bvstk_sd_master_crc16 (frame_of m) SDM_BLOCK_SIZE = 256 * (frame_of m).[512] + (frame_of m).[513].

Lemma frame_length m : alen (frame_of m) = SDM_RX_BYTES.
Proof. unfold alen, frame_of. by rewrite length_map, length_seqZ. Qed.

Lemma byte_of_fits w k : fits 8 (byte_of w k).
Proof. apply (wrap_fits 8). lia. Qed.

Lemma frame_byte m i : 0 <= i < SDM_RX_BYTES -> (frame_of m).[i] = mem_byte m 0 i.
Proof.
  intros Hi. unfold aget, frame_of. apply list_lookup_total_correct. change (map ?f ?l) with (f <$> l).
  rewrite list_lookup_fmap, lookup_seqZ_lt by lia. cbn. f_equal. f_equal. lia.
Qed.

Lemma frame_fits m i : 0 <= i < SDM_RX_BYTES -> fits 8 ((frame_of m).[i]).
Proof. intros Hi. rewrite frame_byte by done. apply byte_of_fits. Qed.

Lemma frame_checksum m :
  u16 (Z.lor (u16 (Z.shiftl ((frame_of m).[512]) 8)) ((frame_of m).[513])) = 256 * (frame_of m).[512] + (frame_of m).[513].
Proof.
  assert (forall a b, fits 8 a -> fits 8 b -> u16 (Z.lor (u16 (Z.shiftl a 8)) b) = 256 * a + b) as H.
  { unfold fits. intros a b Ha Hb. rewrite (u16_id (Z.shiftl a 8)) by (rewrite Z.shiftl_mul_pow2 by lia; lia).
    rewrite lor_shiftl_add by lia. rewrite u16_id by lia. lia. }
  apply H; by apply frame_fits.
Qed.

(** What is seen of the hardware in a report. *)
Definition observed (r : bvstk_sd_master_report_t) : Z * Z * Z * Z := (rp_irq_count r, rp_reply r, rp_tx_status r, rp_rx_status r).

Definition delivered (command : Z) (receive : bool) (received : list Z) (l : list io) : Prop :=
  exists l0 v, Z.land v 0xffff0000 = Z.land SENTINEL 0xffff0000 /\
    if receive then exists m, received = frame_of m /\ frame_valid m /\
      l = l0 ++ guard_reads (size_of command) true v ++ word_reads m (bram_word SDM_RX_AREA) 0 SDM_RX_BYTES
    else l = l0 ++ guard_reads (size_of command) false v.

Lemma check_transfer_does command receive r x :
  does x (check_transfer (size_of command) receive r) (600 * op_time) (fun o l => writes l = [] /\
    exists st r' received, o = (st, r', received) /\ (st = BVSTK_OK \/ st = BVSTK_ERR_IO) /\
      (st = BVSTK_OK -> observed r' = observed r /\ rp_guards_ok r' = true /\ (receive = true -> rp_rx_length r' = SDM_RX_BYTES) /\
         delivered command receive received l)).
Proof.
  unfold check_transfer. eapply does_bind; [apply guards_does|]. intros ok l1 x1 [E1 P1] Hx1. apply does_self. rewrite Hio.
  destruct (_ || _) eqn:E.
  { apply does_ret; [lia|]. rewrite app_nil_r. split; [done|]. eexists _, _, _. split; [done|]. split; [by right|done]. }
  bsimp. subst ok. destruct (P1 eq_refl) as (v & -> & Ev). destruct receive.
  - eapply does_bind; [apply (receive_loop_does _ 0); [lia|done]|]. intros res l2 x2 (m & _ & -> & ->) Hx2.
    change (Z.of_nat (Z.to_nat SDM_RX_BYTES)) with 514 in Hx2. change ([] ++ map (mem_byte m 0) _) with (frame_of m). change ((0 + 3) / 4) with 0. apply does_self. rewrite Hio. cbn [orb].
    assert (writes (guard_reads (size_of command) true v ++ word_reads m (bram_word SDM_RX_AREA) 0 SDM_RX_BYTES) = []) as Ew.
    { rewrite writes_app, E1. cbn [app]. unfold word_reads. generalize (seqZ 0 ((SDM_RX_BYTES + 3) / 4 - 0)). intros s. by induction s. }
    unfold with_crc at 1 2. cbn [rp_crc_calculated rp_crc_received].
    destruct (negb (bvstk_sd_master_crc16 _ _ =? _)) eqn:Ec; (apply does_ret; [lia|]); rewrite app_nil_r.
    { split; [done|]. eexists _, _, _. split; [done|]. split; [by right|done]. }
    bsimp. split; [done|]. eexists _, _, _. split; [done|]. split; [by left|]. intros _. split; [done|]. split; [done|].
    split.
    { intros _. match goal with H : true && _ = false |- _ => rename H into Hlen end. cbn [andb with_guards with_stage rp_rx_length] in Hlen.
      cbn [with_crc with_guards with_stage rp_rx_length]. by bsimp. }
    exists [], v. split; [done|]. exists m. split; [done|]. split; [|done]. unfold frame_valid. rewrite Ec.
    apply frame_checksum.
  - apply does_ret; [lia|]. rewrite app_nil_r. split; [done|]. eexists _, _, _. split; [done|]. split; [by left|]. intros _.
    split; [done|]. split; [done|]. split; [done|]. exists [], v. by split.
Qed.

(** ** The whole command *)

(** The writes of a command: its result and what it put on the bus; [k] is what
    [prepare] writes, acknowledgements and nothing else.  [command_io] has at most
    one submission on every path. *)
Inductive command_io (command argument mailbox : Z) (wb : option (list Z)) (receive : bool) : bvstk_status_t -> list (Z * Z) -> Prop :=
  | io_stuck st r a : st <> BVSTK_OK -> resets st r -> aborts a -> command_io command argument mailbox wb receive st (r ++ a)
  | io_refused st r k a : st <> BVSTK_OK -> resets BVSTK_OK r -> acks k -> aborts a ->
      command_io command argument mailbox wb receive st (r ++ params ++ k ++ a)
  | io_failed st r k a : st = BVSTK_ERR_IO \/ st = BVSTK_ERR_TIMEOUT -> resets BVSTK_OK r -> acks k -> aborts a ->
      command_io command argument mailbox wb receive st
        (r ++ params ++ k ++ loads command argument (size_of command) mailbox wb ++ (if receive then arms else []) ++
         submits (size_of command) ++ a)
  | io_done r k : resets BVSTK_OK r -> acks k ->
      command_io command argument mailbox wb receive BVSTK_OK
        (r ++ params ++ k ++ loads command argument (size_of command) mailbox wb ++ (if receive then arms else []) ++
         submits (size_of command)).

(** What a successful command has seen. *)
Definition succeeded (command : Z) (receive : bool) (r : bvstk_sd_master_report_t) : Prop :=
  completed receive r /\ rp_guards_ok r = true /\ (receive = true -> rp_rx_length r = SDM_RX_BYTES) /\
  (rp_reply r = 0 \/ rp_reply r = 0xff /\ command = 17 /\ sc_mailbox_is_stream cfg = true).

Lemma check_response_spec command stream r st r' : check_response command stream r = (st, r') ->
  observed r' = observed r /\ rp_guards_ok r' = rp_guards_ok r /\ rp_rx_length r' = rp_rx_length r /\
  (st = BVSTK_OK /\ (rp_reply r = 0 \/ rp_reply r = 0xff /\ command = 17 /\ stream = true) \/ st = BVSTK_ERR_IO).
Proof.
  unfold check_response. cbn [with_stage rp_reply]. destruct (rp_reply r =? 0) eqn:E0; bsimp; [intros [= <- <-]; repeat split; left; auto|].
  destruct (_ && _) eqn:E; intros [= <- <-]; repeat split; auto. bsimp. left. auto.
Qed.

(** A failing step: the report is completed and the transfer aborted. *)
Lemma fail_does fuel st r x : 100 < Z.of_nat fuel ->
  does x (fail_command fuel st r) (26 * op_time)
    (fun o l => exists r', o = Some (st, r', []) /\ aborts (writes l)).
Proof.
  intros Hf. eapply does_bind; [by apply failed_does|]. intros o l x1 (r' & -> & Ha) Hx. apply does_ret; [lia|].
  exists r'. rewrite app_nil_r. by split.
Qed.

Lemma elapsed_does start x : does x (elapsed start) op_time (fun _ l => l = []).
Proof. eapply does_bind; [apply now_does|]. intros now l x1 [-> ->] Hx. by apply does_ret; [lia|]. Qed.

Definition run_post (command argument mailbox : Z) (wb : option (list Z)) (receive : bool)
    (o : option (bvstk_status_t * bvstk_sd_master_report_t * list Z)) (l : list io) : Prop :=
  exists st r received, o = Some (st, r, received) /\ command_io command argument mailbox wb receive st (writes l) /\
    (st = BVSTK_OK -> succeeded command receive r /\ delivered command receive received l).

(** Completion, checks and answer: what they are after the submission. *)
Definition finish_post (command : Z) (receive : bool) (o : option (bvstk_status_t * bvstk_sd_master_report_t * list Z)) (l : list io) : Prop :=
  exists st r received, o = Some (st, r, received) /\
    (st = BVSTK_OK /\ writes l = [] /\ succeeded command receive r /\ delivered command receive received l \/
     (st = BVSTK_ERR_IO \/ st = BVSTK_ERR_TIMEOUT) /\ aborts (writes l)).

Lemma fail_finish fuel command receive st r x n l0 : 100 < Z.of_nat fuel -> 26 * op_time <= n ->
  st = BVSTK_ERR_IO \/ st = BVSTK_ERR_TIMEOUT -> writes l0 = [] ->
  does x (fail_command fuel st r) n (fun o l => finish_post command receive o (l0 ++ l)).
Proof.
  intros Hf Hn Hst Hl0. eapply does_mono; [by apply fail_does|done|]. intros o l (r' & -> & Ha).
  eexists _, _, _. split; [done|]. right. split; [done|]. by rewrite writes_app, Hl0.
Qed.

Lemma finish_does fuel command mailbox receive timeout t0 r x : mailbox_of command = Some mailbox -> 0 <= timeout <= 2 ^ 31 ->
  0 <= time x - t0 <= 5 * op_time -> 5000 < Z.of_nat fuel -> timeout < Z.of_nat fuel ->
  does x (finish_command fuel command (size_of command) mailbox receive timeout (u64 t0) r) (2 ^ 32) (finish_post command receive).
Proof.
  intros Hm%mailbox_ok HT Hx Hf Hf'. unfold finish_command. set (T := if timeout =? 0 then 5000 else timeout).
  assert (0 <= T <= 2 ^ 31 /\ T < Z.of_nat fuel) as [HT1 HT2] by (unfold T; destruct (timeout =? 0); lia).
  apply (does_bind (T + 40 * op_time) (fun o l => exists st r', o = Some (st, r') /\ writes l = [] /\ loop_result receive st r')).
  { eapply does_mono; [apply command_loop_does; [exact Hm|exact HT1|lia..]|lia|done]. }
  intros o l1 x1 (st & r1 & -> & E1 & Hres) H1. eapply does_bind; [apply elapsed_does|]. intros e l2 x2 -> H2. cbn [app].
  destruct (is_ok st) eqn:Est; cbn [negb].
  2:{ apply fail_finish; [lia|lia| |done]. destruct st; try done; auto. }
  apply is_ok_true in Est as ->. cbn in Hres.
  eapply does_bind; [apply check_transfer_does|]. intros ? l3 x3 (E3 & st & r3 & received & -> & Hst & Hok) H3.
  destruct Hst as [-> | ->]; cbn [is_ok negb].
  2:{ eapply does_mono; [eapply (fail_finish fuel command receive BVSTK_ERR_IO r3 x3 (26 * op_time) (l1 ++ l3)); [lia|lia|by left|by rewrite writes_app, E1, E3]|lia|].
    intros o l Ho. cbv beta in *. by rewrite app_assoc. }
  destruct (Hok eq_refl) as (Hob & Hg & Hlen & (l0 & v & Hv & Hdel)). apply does_self.
  destruct (check_response command _ r3) as [st4 r4] eqn:E4. apply check_response_spec in E4 as (Ho4 & Hg4 & Hl4 & [[-> Hrep]| ->]); cbn [is_ok negb].
  2:{ eapply does_mono; [eapply (fail_finish fuel command receive BVSTK_ERR_IO r4 x3 (26 * op_time) (l1 ++ l3)); [lia|lia|by left|by rewrite writes_app, E1, E3]|lia|].
    intros o l Ho. cbv beta in *. by rewrite app_assoc. }
  apply does_ret; [lia|]. rewrite app_nil_r. eexists _, _, _. split; [done|]. left. split; [done|]. split; [by rewrite writes_app, E1, E3|].
  injection Hob as ? ? ? ?. injection Ho4 as ? ? ? ?. split.
  - unfold succeeded, completed. cbn [with_stage rp_irq_count rp_reply rp_tx_status rp_rx_status rp_guards_ok rp_rx_length].
    destruct Hres as (R1 & R2 & R3 & R4). cbn [with_elapsed rp_irq_count rp_reply rp_tx_status rp_rx_status] in *.
    split; [split; [congruence|split; [congruence|split; [congruence|]]]|].
    + intros Hr. specialize (R4 Hr). congruence.
    + split; [congruence|]. split; [intros Hr; rewrite Hl4; by apply Hlen|].
      match goal with H : rp_reply r4 = rp_reply r3 |- _ => by rewrite H end.
  - exists (l1 ++ l0), v. split; [done|]. destruct receive.
    + destruct Hdel as (m & -> & Hv2 & ->). exists m. split; [done|]. split; [done|]. by rewrite <- app_assoc.
    + rewrite Hdel. by rewrite app_assoc.
Qed.

Lemma after_failed fuel command argument mailbox wb receive st r x n l0 w : 100 < Z.of_nat fuel -> 26 * op_time <= n -> st <> BVSTK_OK ->
  writes l0 = w -> (forall a, aborts a -> command_io command argument mailbox wb receive st (w ++ a)) ->
  does x (fail_command fuel st r) n (fun o l => run_post command argument mailbox wb receive o (l0 ++ l)).
Proof.
  intros Hf Hn Hst Hl0 Hio'. eapply does_mono; [by apply fail_does|done|]. intros o l (r' & -> & Ha).
  eexists _, _, _. split; [done|]. split; [|done]. rewrite writes_app, Hl0. by apply Hio'.
Qed.

Lemma run_command_does fuel command argument mailbox wb receive timeout r x : mailbox_of command = Some mailbox -> 0 <= timeout <= 2 ^ 31 ->
  5000 < Z.of_nat fuel -> timeout < Z.of_nat fuel ->
  does x (run_command fuel command argument (size_of command) mailbox wb receive timeout r) (2 ^ 40)
    (run_post command argument mailbox wb receive).
Proof.
  intros Hm HT Hf Hf'. unfold run_command. eapply after_quiet; [by apply io_error_does|]. intros [] x0 H0.
  eapply does_bind; [apply dma_reset_does; lia|]. intros o l1 x1 (st & -> & Hr) H1.
  destruct (is_ok st) eqn:Est; cbn [negb].
  2:{ apply (after_failed fuel _ _ _ _ _ _ _ _ _ _ (writes l1)); [lia|lia|by apply is_ok_false|done|]. intros a Ha.
    apply io_stuck; try done. by apply is_ok_false. }
  apply is_ok_true in Est as ->. eapply after_wr; [by apply wr_core|]. intros x2 H2. eapply after_wr; [by apply wr_core|]. intros x3 H3.
  apply does_self. eapply after_wr; [by apply wr_core|]. intros x4 H4.
  eapply does_bind; [apply prepare_does|]. intros st l5 x5 Hk H5. destruct (is_ok st) eqn:Est; cbn [negb].
  2:{ eapply does_mono.
    - apply (after_failed fuel command argument mailbox wb receive st (with_stage "DMA reset" r) x5 (26 * op_time)
        (l1 ++ map (fun w => Wr (fst w) (snd w)) params ++ l5) (writes l1 ++ params ++ writes l5)); [lia|done|by apply is_ok_false| |].
      + by rewrite !writes_app.
      + intros a Ha. rewrite <- !app_assoc. apply io_refused; try done. by apply is_ok_false.
    - lia.
    - intros o l Ho. cbv beta in *. by rewrite <- !app_assoc in Ho. }
  eapply does_bind; [by apply load_command_does|]. intros [] l6 x6 E6 H6.
  apply (does_bind (280 * op_time) (fun _ l => writes l = if receive then arms else [])).
  { destruct receive; [apply arm_does|by apply does_ret]. }
  intros [] l7 x7 E7 H7. apply submit_then. intros t0 x8 H8 Ht0.
  eapply does_mono; [by apply finish_does|lia|]. intros o l (st' & r' & received & -> & Hcase). eexists _, _, _. split; [done|].
  assert (writes (l1 ++ Wr (core_reg SDM_PACKET) SDM_FALL_THROUGH :: Wr (core_reg SDM_DELAY) 1 ::
    Wr (core_reg SDM_DIVIDER) (sc_data_divider cfg) :: l5 ++ l6 ++ l7 ++ submit_io (size_of command) ++ l) =
    writes l1 ++ params ++ writes l5 ++ loads command argument (size_of command) mailbox wb ++ (if receive then arms else []) ++ submits (size_of command) ++ writes l) as Ew.
  { change (writes (l1 ++ map (fun w => Wr (fst w) (snd w)) params ++ l5 ++ l6 ++ l7 ++ submit_io (size_of command) ++ l) =
      writes l1 ++ params ++ writes l5 ++ loads command argument (size_of command) mailbox wb ++ (if receive then arms else []) ++ submits (size_of command) ++ writes l).
    rewrite !writes_app, E6, E7. done. }
  rewrite Ew. destruct Hcase as [(-> & E8 & Hs & (l0 & v & Hv & Hd))|[Hst Ha]].
  - split; [rewrite E8, app_nil_r; by apply io_done|]. intros _. split; [done|].
    exists (l1 ++ Wr (core_reg SDM_PACKET) SDM_FALL_THROUGH :: Wr (core_reg SDM_DELAY) 1 ::
      Wr (core_reg SDM_DIVIDER) (sc_data_divider cfg) :: l5 ++ l6 ++ l7 ++ submit_io (size_of command) ++ l0), v. split; [done|].
    destruct receive; [destruct Hd as (m & -> & Hv2 & ->); exists m; split; [done|]; split; [done|]|subst l];
      rewrite <- app_assoc; cbn [app]; by rewrite <- !app_assoc.
  - split; [by apply io_failed|]. intros ->. by destruct Hst.
Qed.

(** ** Initialization *)

Definition init_loads : list (Z * Z) :=
  [(core_reg SDM_CSR, SDM_RESET)] ++ map (fun i => (bram_word (i * 4), SENTINEL)) (seqZ 0 SDM_INIT_WORDS) ++
  [(core_reg SDM_PACKET, SDM_FALL_THROUGH); (core_reg SDM_DELAY, 1); (core_reg SDM_DIVIDER, sc_init_divider cfg);
   (core_reg SDM_CSR, SDM_START_READ)].

(** The writes of an initialization: one start of the init sequence at most. *)
Inductive init_io : bvstk_status_t -> list (Z * Z) -> Prop :=
  | init_stuck st r a : st <> BVSTK_OK -> resets st r -> aborts a -> init_io st (r ++ a)
  | init_refused st r k a : st <> BVSTK_OK -> resets BVSTK_OK r -> acks k -> aborts a -> init_io st (r ++ init_loads ++ k ++ a)
  | init_failed st r k a : st = BVSTK_ERR_IO \/ st = BVSTK_ERR_TIMEOUT -> resets BVSTK_OK r -> acks k -> aborts a ->
      init_io st (r ++ init_loads ++ k ++ [(core_reg SDM_INIT, SDM_INIT_VALUE)] ++ a)
  | init_done r k : resets BVSTK_OK r -> acks k -> init_io BVSTK_OK (r ++ init_loads ++ k ++ [(core_reg SDM_INIT, SDM_INIT_VALUE)]).

Lemma read_replies_does k i m x : 0 <= i -> i + Z.of_nat k = SDM_INIT_WORDS ->
  does x (read_replies k i m) (op_time * Z.of_nat k) (fun _ l => writes l = []).
Proof.
  unfold SDM_INIT_WORDS. revert i m x. induction k as [|k IH]; intros i m x Hi Hk; cbn [read_replies]; [by apply does_ret|].
  eapply after_rd; [apply rd_bram; unfold SDM_BRAM_MIN; [lia|lia|by apply Z.mod_mul]|]. intros v x1 H1.
  eapply does_mono; [apply IH; lia|lia|done].
Qed.

Lemma write_sentinels_does k i x : 0 <= i -> i + Z.of_nat k = SDM_INIT_WORDS ->
  does x (write_sentinels k i) (2 * op_time * Z.of_nat k) (fun _ l => writes l = map (fun i => (bram_word (i * 4), SENTINEL)) (seqZ i (Z.of_nat k))).
Proof.
  unfold SDM_INIT_WORDS. revert i x. induction k as [|k IH]; intros i x Hi Hk; cbn [write_sentinels]; [by apply does_ret|].
  eapply after_wr; [apply wr_bram; unfold SDM_BRAM_MIN; [lia|lia|by apply Z.mod_mul]|]. intros x1 H1.
  eapply does_mono; [apply IH; lia|lia|]. intros [] l El. rewrite seqZ_cons by lia. replace (Z.succ i) with (i + 1) by lia.
  replace (Z.pred (Z.of_nat (S k))) with (Z.of_nat k) by lia. cbn [map writes omap list_omap]. by f_equal.
Qed.

Lemma init_loop_does fuel t0 T r x : 0 <= T <= 2 ^ 31 ->
  0 <= time x - t0 <= T + 6 * op_time -> T - (time x - t0) < Z.of_nat fuel -> 0 < Z.of_nat fuel ->
  does x (init_loop fuel (u64 t0) T r) (t0 + T + 32 * op_time - time x) (fun o l => exists st r', o = Some (st, r') /\ writes l = [] /\
    match st with BVSTK_OK => init_valid (rp_init_reply r') = true | BVSTK_ERR_IO | BVSTK_ERR_TIMEOUT => True | _ => False end).
Proof.
  intros HT. revert r x. induction fuel as [|fuel IH]; intros r x Hx Hf Hf0; [lia|]. cbn [init_loop].
  eapply does_bind; [apply snapshot_does|]. intros r1 l1 x1 (E1 & _) H1.
  eapply does_bind; [apply read_replies_does; done|]. intros m l2 x2 E2 H2. change (Z.of_nat (Z.to_nat SDM_INIT_WORDS)) with 7 in H2.
  apply does_self. rewrite Hio. destruct (_ && init_valid _) eqn:E.
  - apply does_ret; [lia|]. eexists _, _. split; [done|]. rewrite app_nil_r, writes_app, E1, E2. split; [done|]. apply andb_true_iff in E as [_ E]. exact E.
  - replace (t0 + T + 32 * op_time - time x - (time x1 - time x) - (time x2 - time x1)) with (t0 + T + 32 * op_time - time x2) by lia.
    apply poll_once; [lia..| |].
    + intros x3 H3 H4 H5. eapply does_mono; [apply IH; lia|lia|]. intros o l (st & r' & -> & Ew & Hr).
      exists st, r'. split; [done|]. split; [|done]. by rewrite !writes_app, E1, E2.
    + eexists _, _. split; [done|]. by rewrite app_nil_r, writes_app, E1, E2.
Qed.

(** The clock is read before the start, so the reading is tied to the moment. *)
Lemma now_then {B} (k : Z -> ST (sd_state X) B) x n Q :
  (forall x', 0 <= time x' - time x <= op_time -> does x' (k (u64 (time x))) (n - (time x' - time x)) Q) -> does x (st_bind now_ms k) n Q.
Proof. intros Hk. eapply does_bind; [apply now_does|]. intros now l x' [-> ->] Hx. by apply Hk. Qed.

Lemma sleep_then {B} ms (k : unit -> ST (sd_state X) B) x n Q : 0 <= ms < 2 ^ 32 ->
  (forall x', 0 <= time x' - time x <= ms + op_time -> does x' (k tt) (n - (time x' - time x)) Q) -> does x (st_bind (sleep_ms ms) k) n Q.
Proof.
  intros Hms Hk. unfold does. apply runs_bind. eapply runs_mono; [by apply sleep_does|]. intros [] s1 (x1 & -> & El & Et).
  specialize (Hk x1 ltac:(lia)). unfold does in Hk. eapply runs_mono; [exact Hk|]. intros b s2 (x2 & l & -> & El2 & Et2 & HQ).
  exists x2, l. rewrite El2, El. split; [done|]. split; [done|]. split; [lia|done].
Qed.

Definition init_post (o : option (bvstk_status_t * bvstk_sd_master_report_t)) (l : list io) : Prop :=
  exists st r, o = Some (st, r) /\ init_io st (writes l) /\ (st = BVSTK_OK -> init_valid (rp_init_reply r) = true).

Lemma init_failing fuel st r x n l0 w : 100 < Z.of_nat fuel -> 26 * op_time <= n -> st <> BVSTK_OK -> writes l0 = w ->
  (forall a, aborts a -> init_io st (w ++ a)) -> does x (failed fuel st r) n (fun o l => init_post o (l0 ++ l)).
Proof.
  intros Hf Hn Hst Hl0 Hinit. eapply does_mono; [by apply failed_does|done|]. intros o l (r' & -> & Ha).
  eexists _, _. split; [done|]. split; [|done]. rewrite writes_app, Hl0. by apply Hinit.
Qed.

Lemma finish_initialize_does fuel timeout t0 r x l0 w k : 0 <= timeout <= 2 ^ 31 -> 0 <= time x - t0 <= 5 * op_time ->
  20000 < Z.of_nat fuel -> timeout < Z.of_nat fuel -> resets BVSTK_OK w -> acks k ->
  writes l0 = w ++ init_loads ++ k ++ [(core_reg SDM_INIT, SDM_INIT_VALUE)] ->
  does x (finish_initialize fuel timeout (u64 t0) r) (2 ^ 33) (fun o l => init_post o (l0 ++ l)).
Proof.
  intros HT Hx Hf Hf' Hw Hk Hl0. unfold finish_initialize. set (T := if timeout =? 0 then 20000 else timeout).
  assert (0 <= T <= 2 ^ 31 /\ T < Z.of_nat fuel) as [HT1 HT2] by (unfold T; destruct (timeout =? 0); lia).
  apply (does_bind (T + 40 * op_time) (fun o l => exists st r', o = Some (st, r') /\ writes l = [] /\
    match st with BVSTK_OK => init_valid (rp_init_reply r') = true | BVSTK_ERR_IO | BVSTK_ERR_TIMEOUT => True | _ => False end)).
  { eapply does_mono; [apply init_loop_does; [exact HT1|lia..]|lia|done]. }
  intros o l1 x1 (st & r1 & -> & E1 & Hres) H1. eapply does_bind; [apply elapsed_does|]. intros e l2 x2 -> H2. cbn [app].
  destruct (is_ok st) eqn:Est.
  - apply is_ok_true in Est as ->. apply does_ret; [lia|]. eexists _, _. split; [done|]. rewrite app_nil_r, writes_app, E1, Hl0, app_nil_r.
    split; [by apply init_done|]. intros _. exact Hres.
  - eapply does_mono; [apply (init_failing fuel st (with_elapsed e r1) x2 (26 * op_time) (l0 ++ l1) (w ++ init_loads ++ k ++ [(core_reg SDM_INIT, SDM_INIT_VALUE)])); [lia|lia| | |]|lia|].
    + intros ->. done.
    + by rewrite writes_app, E1, app_nil_r.
    + intros a Ha. rewrite <- !app_assoc. apply init_failed; try done. destruct st; try done; auto.
    + intros o l Ho. cbv beta in *. by rewrite app_assoc.
Qed.

Lemma run_initialize_does fuel timeout x : 0 <= timeout <= 2 ^ 31 -> 20000 < Z.of_nat fuel -> timeout < Z.of_nat fuel ->
  does x (run_initialize fuel timeout) (2 ^ 40) init_post.
Proof.
  intros HT Hf Hf'. unfold run_initialize. eapply after_quiet; [by apply io_error_does|]. intros [] x0 H0.
  eapply after_quiet; [apply disable_does|]. intros [] x00 H00.
  eapply does_bind; [apply dma_reset_does; lia|]. intros o l1 x1 (st & -> & Hr) H1.
  destruct (is_ok st) eqn:Est; cbn [negb].
  2:{ apply (init_failing fuel _ _ _ _ _ (writes l1)); [lia|lia|by apply is_ok_false|done|]. intros a Ha.
    apply init_stuck; try done. by apply is_ok_false. }
  apply is_ok_true in Est as ->. eapply after_wr; [by apply wr_core|]. intros x2 H2. apply sleep_then; [done|]. intros x3 H3.
  eapply does_bind; [by apply write_sentinels_does|]. intros [] l4 x4 E4 H4. change (Z.of_nat (Z.to_nat SDM_INIT_WORDS)) with 7 in *.
  eapply after_wr; [by apply wr_core|]. intros x5 H5. eapply after_wr; [by apply wr_core|]. intros x6 H6.
  apply does_self. eapply after_wr; [by apply wr_core|]. intros x7 H7. eapply after_wr; [by apply wr_core|]. intros x8 H8.
  eapply does_bind; [apply prepare_does|]. intros st l9 x9 Hk H9.
  set (l := l1 ++ Wr (core_reg SDM_CSR) SDM_RESET :: l4 ++ [Wr (core_reg SDM_PACKET) SDM_FALL_THROUGH; Wr (core_reg SDM_DELAY) 1;
    Wr (core_reg SDM_DIVIDER) (sc_init_divider cfg); Wr (core_reg SDM_CSR) SDM_START_READ]).
  assert (writes l = writes l1 ++ init_loads) as El0.
  { unfold l. rewrite writes_app. f_equal. cbn [writes omap list_omap]. fold (writes (l4 ++ [Wr (core_reg SDM_PACKET) SDM_FALL_THROUGH;
      Wr (core_reg SDM_DELAY) 1; Wr (core_reg SDM_DIVIDER) (sc_init_divider cfg); Wr (core_reg SDM_CSR) SDM_START_READ])).
    by rewrite writes_app, E4. }
  assert (writes (l ++ l9) = writes l1 ++ init_loads ++ writes l9) as El by (by rewrite writes_app, El0, <- app_assoc).
  apply (does_mono (2 ^ 39) (fun o l2 => init_post o ((l ++ l9) ++ l2))); [|lia|].
  2:{ intros o l2 Ho. unfold l in Ho. rewrite <- !app_assoc in Ho. cbn [app] in Ho. by rewrite <- !app_assoc in Ho. }
  destruct (is_ok st) eqn:Est; cbn [negb].
  - apply now_then. intros x10 H10. eapply after_wr; [by apply wr_core|]. intros x11 H11.
    eapply does_mono; [apply (finish_initialize_does fuel timeout (time x9) _ x11 ((l ++ l9) ++ [Wr (core_reg SDM_INIT) SDM_INIT_VALUE]) (writes l1) (writes l9));
      [lia|lia|lia|lia|done|done|by rewrite writes_app, El, <- !app_assoc]|lia|].
    intros o l2 Ho. cbv beta in *. by rewrite <- app_assoc in Ho.
  - eapply does_mono; [apply (init_failing fuel st _ x9 (26 * op_time) (l ++ l9) (writes l1 ++ init_loads ++ writes l9)); [lia|done|by apply is_ok_false|done|]|lia|done].
    intros a Ha. rewrite <- !app_assoc. apply init_refused; try done. by apply is_ok_false.
Qed.
End safety.

(** ** The theorems *)

Section theorems.
Context {X : Type} `{PL : Platform X} (log : X -> list io) (time : X -> Z).
Context (d : bvstk_sd_master_t X) (Hl : sd_laws log time (with_io_error false d)) (Hu : sd_usable (with_io_error false d)).

Local Abbreviation seen := (owned log (sd_config d)) (only parsing).

(** A command as its callers may issue it. *)
Definition command_valid (command : Z) (wb rb : option (list Z)) (timeout : Z) (fuel : nat) (mailbox : Z) : Prop :=
  mailbox_of command = Some mailbox /\ (command = 24 <-> is_Some wb) /\ (command = 17 <-> is_Some rb) /\
  0 <= timeout <= 2 ^ 31 /\ 5000 < Z.of_nat fuel /\ timeout < Z.of_nat fuel.

Lemma eqb_iff (P : Prop) `{Decision P} v n : (v = n <-> P) -> eqb (v =? n) (bool_decide P) = true.
Proof. intros HP. destruct (v =? n) eqn:E, (decide P); rewrite ?bool_decide_eq_true_2, ?bool_decide_eq_false_2 by done; bsimp; tauto. Qed.

(** A command starts by forgetting an earlier bus error. *)
Lemma run_from fuel command argument mailbox wb receive timeout r x : mailbox_of command = Some mailbox -> 0 <= timeout <= 2 ^ 31 ->
  5000 < Z.of_nat fuel -> timeout < Z.of_nat fuel ->
  runs (run_command fuel command argument (size_of (with_io_error false d) command) mailbox wb receive timeout r) (SdState d x)
    (fun o s' => exists x' l, s' = SdState (with_io_error false d) x' /\ seen x' = seen x ++ l /\ 0 <= time x' - time x <= 2 ^ 40 /\
       run_post (with_io_error false d) command argument mailbox wb receive o l).
Proof. exact (run_command_does log time _ Hl Hu eq_refl fuel command argument mailbox wb receive timeout r x). Qed.

Lemma command_run fuel command argument wb rb timeout mailbox x : command_valid command wb rb timeout fuel mailbox ->
  runs (bvstk_sd_master_command fuel true command argument wb rb timeout) (SdState d x) (fun o s' => exists st r received l,
    o = Some (st, Some r, match rb with Some buf => Some (if is_ok st then copy_prefix SDM_BLOCK_SIZE received buf else buf) | None => None end) /\
    sm_driver s' = with_io_error false d /\ seen (sm_ext s') = seen x ++ l /\
    run_post (with_io_error false d) command argument mailbox wb (bool_decide (is_Some rb)) (Some (st, r, received)) l).
Proof.
  intros (Hm & Hwb & Hrb & HT & Hf & Hf'). unfold bvstk_sd_master_command, self. apply runs_bind, runs_get. cbn [sm_driver]. unfold id.
  pose proof (us_open _ Hu) as Ho. cbn [sd_open with_io_error] in Ho. rewrite Ho. cbn [negb orb]. rewrite Hm.
  rewrite (eqb_iff _ _ _ Hwb), (eqb_iff _ _ _ Hrb). cbn [negb orb]. apply runs_bind.
  eapply runs_mono; [by apply run_from|]. intros o s' (x' & l & -> & El & _ & st & r & received & -> & Hio & Hok).
  apply runs_ret. exists st, r, received, l. split; [done|]. split; [done|]. split; [done|]. exists st, r, received. auto.
Qed.

Lemma initialize_run fuel timeout x : 0 <= timeout <= 2 ^ 31 -> 20000 < Z.of_nat fuel -> timeout < Z.of_nat fuel ->
  runs (bvstk_sd_master_initialize fuel true timeout) (SdState d x) (fun o s' => exists st r l,
    o = Some (st, Some r) /\ sm_driver s' = with_io_error false d /\ seen (sm_ext s') = seen x ++ l /\
    init_io (with_io_error false d) st (writes l) /\ (st = BVSTK_OK -> init_valid (rp_init_reply r) = true)).
Proof.
  intros HT Hf Hf'. unfold bvstk_sd_master_initialize, self. apply runs_bind, runs_get. cbn [sm_driver].
  pose proof (us_open _ Hu) as Ho. cbn [sd_open with_io_error] in Ho. rewrite Ho. cbn [negb orb]. apply runs_bind.
  assert (runs (run_initialize fuel timeout) (SdState d x) (fun o s' => exists x' l, s' = SdState (with_io_error false d) x' /\
    seen x' = seen x ++ l /\ 0 <= time x' - time x <= 2 ^ 40 /\ init_post (with_io_error false d) o l)) as Hrun.
  { exact (run_initialize_does log time _ Hl Hu eq_refl fuel timeout x HT Hf Hf'). }
  eapply runs_mono; [exact Hrun|]. intros o s' (x' & l & -> & El & _ & st & r & -> & Hio & Hok).
  apply runs_ret. exists st, r, l. auto.
Qed.

(** C33: a command on the wire.  Given a running clock, every command returns, its
    driver stays open, and what is written in its windows is exactly: the DMA reset;
    the parameters; whatever acknowledgements of the interrupt [prepare] makes (in
    the FreeRTOS port one, [port_prepare_acks]); the command frame with its
    checksum, the block to write with its own, and the guard words; for a read the
    receive channel; and one submission.
    Whatever fails - the reset, the interrupt, the card, a check - ends in a reset
    and is never submitted again, and the caller's buffer is left as it was. *)
Theorem sd_command_protocol fuel command argument wb rb timeout mailbox x : command_valid command wb rb timeout fuel mailbox ->
  runs (bvstk_sd_master_command fuel true command argument wb rb timeout) (SdState d x) (fun o s' => exists st r buf l,
    o = Some (st, Some r, buf) /\ sm_driver s' = with_io_error false d /\ seen (sm_ext s') = seen x ++ l /\
    command_io (with_io_error false d) command argument mailbox wb (bool_decide (is_Some rb)) st (writes l) /\
    (st = BVSTK_OK -> succeeded (with_io_error false d) command (bool_decide (is_Some rb)) r) /\
    (st <> BVSTK_OK -> buf = rb)).
Proof.
  intros Hv. eapply runs_mono; [by eapply command_run|]. intros o s' (st & r & received & l & -> & Ed & El & st' & r' & rec' & E & Hio & Hok).
  injection E as <- <- <-. eexists _, _, _, _. split; [done|]. split; [done|]. split; [done|]. split; [exact Hio|].
  split; [intros Hst; by apply Hok|]. intros Hst. destruct rb; [|done]. by apply is_ok_false in Hst as ->.
Qed.

(** A block that was read is the block the card sent.  A read that succeeds
    filled the buffer with the 512 bytes read from the receive area after the
    interrupt came, both DMA channels finished with exactly 514 bytes and the
    guard words were intact, and their checksum is the one in bytes 512 and 513.
    So if the card sent a block with its checksum and the frame arrived with a
    burst error inside any two neighbouring bytes of the data, the read failed:
    success means the buffer holds the block sent. *)
Theorem sd_read_verified fuel argument buf0 timeout mailbox x : command_valid 17 None (Some buf0) timeout fuel mailbox -> alen buf0 = SDM_BLOCK_SIZE ->
  runs (bvstk_sd_master_command fuel true 17 argument None (Some buf0) timeout) (SdState d x) (fun o s' => exists st r buf,
    o = Some (st, Some r, Some buf) /\
    (st <> BVSTK_OK -> buf = buf0) /\
    (st = BVSTK_OK -> succeeded (with_io_error false d) 17 true r /\ exists m l0 v,
       buf = prefix SDM_BLOCK_SIZE (frame_of m) /\ Z.land v 0xffff0000 = Z.land SENTINEL 0xffff0000 /\
       seen (sm_ext s') = seen x ++ l0 ++ guard_reads (with_io_error false d) (sc_descriptor_bytes (sd_config d)) true v ++
         word_reads m (bram_word (with_io_error false d) SDM_RX_AREA) 0 SDM_RX_BYTES /\
       bvstk_sd_master_crc16 buf SDM_BLOCK_SIZE = 256 * (frame_of m).[512] + (frame_of m).[513] /\
       forall sent, alen sent = SDM_BLOCK_SIZE -> Forall (fits 8) sent -> burst_apart SDM_BLOCK_SIZE sent buf ->
         bvstk_sd_master_crc16 sent SDM_BLOCK_SIZE = 256 * (frame_of m).[512] + (frame_of m).[513] -> buf = sent)).
Proof.
  intros Hv Hbuf. eapply runs_mono; [by eapply command_run|]. intros o s' (st & r & received & l & -> & Ed & El & st' & r' & rec' & E & Hio & Hok).
  injection E as <- <- <-. eexists _, _, _. split; [done|]. split; [by intros ->%is_ok_false|]. intros ->. cbn [is_ok].
  destruct (Hok eq_refl) as (Hs & l0 & v & Hv' & (m & -> & Hval & ->)). split; [exact Hs|]. exists m, l0, v.
  pose proof (frame_length m) as Hlen. unfold SDM_RX_BYTES, SDM_BLOCK_SIZE in *.
  assert (copy_prefix 512 (frame_of m) buf0 = prefix 512 (frame_of m)) as Ec.
  { unfold copy_prefix, prefix. rewrite (drop_ge buf0) by (unfold alen in Hbuf; lia). apply app_nil_r. }
  assert (alen (prefix 512 (frame_of m)) = 512) as Hp by (rewrite alen_prefix; lia).
  assert (forall i, 0 <= i < 512 -> (prefix 512 (frame_of m)).[i] = (frame_of m).[i]) as Hget.
  { intros i Hi. unfold aget, prefix. rewrite lookup_total_take. by rewrite decide_True by lia. }
  assert (bvstk_sd_master_crc16 (prefix 512 (frame_of m)) 512 = 256 * (frame_of m).[512] + (frame_of m).[513]) as Hcrc.
  { rewrite <- Hval. unfold SDM_BLOCK_SIZE. rewrite !crc16_fold by lia. unfold prefix. rewrite take_take, Nat.min_id. reflexivity. }
  rewrite Ec. split; [done|]. split; [done|]. split; [by rewrite El|]. split; [done|].
  intros sent Hsl Hsb Hburst Hsc. apply list_eq_same_length with (length sent).
  - reflexivity.
  - unfold alen in Hsl, Hp. lia.
  - intros i b s Hi Hb Hs'. assert (0 <= Z.of_nat i < 512) as Hi' by (unfold alen in Hsl; lia).
    pose proof (aget_lookup sent (Z.of_nat i) ltac:(lia)) as G1. pose proof (aget_lookup (prefix 512 (frame_of m)) (Z.of_nat i) ltac:(lia)) as G2.
    rewrite Nat2Z.id in G1, G2. assert (sent.[Z.of_nat i] = (prefix 512 (frame_of m)).[Z.of_nat i]) as Heq; [|congruence].
    apply (crc16_burst 512); [lia|lia| |exact Hburst|congruence|done]. intros j Hj. rewrite Hget by done. split.
    + rewrite Forall_forall in Hsb. apply Hsb, aget_in. lia.
    + apply frame_fits. unfold SDM_RX_BYTES. lia.
Qed.
End theorems.

(** ** The FreeRTOS port keeps the laws *)

Section port_laws.
Context {X : Type} `{PL : Platform X} (log : X -> list io) (time : X -> Z) (c : bvstk_sd_master_config_t X).
Context (xscugic_disable xscugic_clear_pending xscugic_enable dsb : X -> X) (vTaskDelay : Z -> X -> X) (pdMS_TO_TICKS : Z -> Z).
Context (set_irq_count : Z -> X -> X).
Local Abbreviation quiet := (aside log time c) (only parsing).
Local Abbreviation prepares := (port_prepare xscugic_disable xscugic_clear_pending xscugic_enable dsb vTaskDelay pdMS_TO_TICKS set_irq_count
  (sc_core_base c)) (only parsing).

(** What the port calls is prompt and stays off the windows of the driver. *)
Context (Hin : forall a x, let r := Xil_In32 a x in log (snd r) = log x ++ [Rd a (fst r)] /\ 0 <= time (snd r) - time x <= op_time).
Context (Hout : forall a v x, let x' := Xil_Out32 a v x in log x' = log x ++ [Wr a v] /\ 0 <= time x' - time x <= op_time).
Context (Hdisable : forall x, quiet x (xscugic_disable x)) (Hclear : forall x, quiet x (xscugic_clear_pending x)).
Context (Henable : forall x, quiet x (xscugic_enable x)) (Hdsb : forall x, quiet x (dsb x)).
Context (Hdelay : forall x, quiet x (port_sleep_ms vTaskDelay pdMS_TO_TICKS 1 x)) (Hcount : forall v x, quiet x (set_irq_count v x)).

Lemma port_disable_aside x : owned log c (port_disable xscugic_disable dsb x) = owned log c x /\
  0 <= time (port_disable xscugic_disable dsb x) - time x <= 2 * op_time.
Proof.
  unfold port_disable. destruct (Hdisable x) as [E1 T1], (Hdsb (xscugic_disable x)) as [E2 T2]. split; [congruence|lia].
Qed.

(** [prepare] of the port writes the acknowledgement and reads the register back. *)
Lemma port_prepare_acks x : exists v, owned log c (snd (prepares x)) =
    owned log c x ++ [Wr (sc_core_base c + SDM_IRQ) SDM_ACK; Rd (sc_core_base c + SDM_IRQ) v] /\
  0 <= time (snd (prepares x)) - time x <= 16 * op_time.
Proof.
  assert (forall v, owns c (Rd (sc_core_base c + SDM_IRQ) v) = true /\ owns c (Wr (sc_core_base c + SDM_IRQ) v) = true) as Hown.
  { intros v. unfold owns, within_window, SDM_IRQ. rewrite !orb_true_iff, !andb_true_iff, !Z.leb_le, !Z.ltb_lt. lia. }
  unfold port_prepare. set (x1 := port_disable _ _ _). set (x2 := Xil_Out32 _ _ x1). set (x3 := dsb x2). set (x4 := port_sleep_ms _ _ _ x3).
  destruct (port_disable_aside x) as [E1 T1]. destruct (Hout (sc_core_base c + SDM_IRQ) SDM_ACK x1) as [E2%(owned_snoc log c) T2].
  destruct (Hdsb x2) as [E3 T3]. destruct (Hdelay x3) as [E4 T4]. destruct (Hin (sc_core_base c + SDM_IRQ) x4) as [E5%(owned_snoc log c) T5].
  fold x1 in E1, T1. fold x2 in E2, T2. fold x3 in E3, T3. fold x4 in E4, T4.
  destruct (Xil_In32 (sc_core_base c + SDM_IRQ) x4) as [v x5]. cbn [fst snd] in *. exists v.
  set (x6 := set_irq_count 0 x5). set (x7 := xscugic_clear_pending x6). set (x8 := dsb x7). set (x9 := xscugic_enable x8).
  destruct (Hcount 0 x5) as [E6 T6]. destruct (Hclear x6) as [E7 T7]. destruct (Hdsb x7) as [E8 T8]. destruct (Henable x8) as [E9 T9].
  destruct (Hdsb x9) as [E10 T10]. fold x6 in E6, T6. fold x7 in E7, T7. fold x8 in E8, T8. fold x9 in E9, T9.
  rewrite (proj1 (Hown v)) in E5. rewrite (proj2 (Hown SDM_ACK)) in E2. split; [|lia].
  rewrite E10, E9, E8, E7, E6, E5, E4, E3, E2, E1. by rewrite <- app_assoc.
Qed.

Lemma port_prepare_law x : exists l, owned log c (snd (prepares x)) = owned log c x ++ l /\ Forall (acknowledges c) l /\
  0 <= time (snd (prepares x)) - time x <= 16 * op_time.
Proof. destruct (port_prepare_acks x) as (v & El & Et). eexists. split; [exact El|]. split; [|exact Et]. by repeat constructor. Qed.
End port_laws.

(** ** Concrete runs *)

(** A card that holds zeros everywhere, behind windows at fixed addresses. *)
Definition demo_sd_bus (a : Z) : Z :=
  if (a =? 0x43C80000 + SDM_TX_STATUS) || (a =? 0x43C80000 + SDM_RX_STATUS) then 0x1002
  else if a =? 0x43C80000 + SDM_RX_LENGTH then SDM_RX_BYTES
  else if (a =? 0x46000000 + SDM_TX_AREA - 4) || (a =? 0x46000000 + SDM_TX_AREA + 8) ||
          (a =? 0x46000000 + SDM_TX_AREA + 524) ||
          (a =? 0x46000000 + SDM_RX_AREA - 4) || (a =? 0x46000000 + SDM_RX_AREA + 516) then GUARD
  else if a =? 0x46000000 + SDM_RX_AREA + 512 then 0xa5960000
  else 0.
#[local] Instance demo_sd_platform : Platform (list io * Z) := scripted_platform demo_sd_bus.

(** The configuration of the port, with an interrupt that has always come. *)
Definition demo_sd_delay (ticks : Z) (x : list io * Z) : list io * Z := (fst x, snd x + ticks).
Definition demo_sd_config : bvstk_sd_master_config_t (list io * Z) :=
  port_config id id id id demo_sd_delay id (fun _ => 1) (fun _ x => x) 0x43C70000 0x43C80000 0x46000000 0x46001FFF.
Definition demo_sd_driver : bvstk_sd_master_t (list io * Z) :=
  SdDriver (Region 0x43C70000 0x10000 0x43C70000) (Region 0x43C80000 0x10000 0x43C80000)
    (Region 0x46000000 0x2000 0x46000000) demo_sd_config (Clock None None) true false.

Lemma demo_sd_aside x x' : fst x' = fst x -> 0 <= snd x' - snd x <= op_time -> aside fst snd demo_sd_config x x'.
Proof. unfold aside, owned. by intros ->. Qed.

Lemma demo_sd_laws : sd_laws fst snd demo_sd_driver.
Proof.
  constructor; cbn; intros; try match goal with H : Some _ = Some _ |- _ => injection H as <- end.
  1, 2: split; [done|lia].
  1: split; [done|]; apply demo_sd_aside; cbn; done || lia.
  1: split; [done|lia].
  2-4: apply demo_sd_aside; unfold port_disable, port_barrier, id; cbn; done || lia.
  apply (port_prepare_law fst snd demo_sd_config id id id id demo_sd_delay id (fun _ x => x)); cbn; intros;
    try change (port_sleep_ms _ _ _ x0) with (demo_sd_delay 1 x0);
    first [split; [done|lia]|apply demo_sd_aside; unfold demo_sd_delay, id; cbn; done || lia].
Qed.

Lemma demo_sd_usable : sd_usable demo_sd_driver.
Proof. constructor; cbn; unfold opened; repeat split; try lia; try done. Qed.

(** The driver of these runs is one that [open] returns. *)
Example demo_sd_open : bvstk_sd_master_open true (Some demo_sd_config) None = (BVSTK_OK, Some demo_sd_driver).
Proof. vm_compute. reflexivity. Qed.

Definition demo_fuel : nat := Z.to_nat 5001.

Lemma demo_valid : command_valid 17 None (Some (fill 512 7)) 0 demo_fuel SDM_MB_CMD17.
Proof.
  unfold command_valid. split; [done|]. split; [split; [done|by intros []]|]. split; [split; [by eexists|done]|].
  unfold demo_fuel. rewrite Z2Nat.id; lia.
Qed.

Lemma sd_read_verified_witness : exists st r buf s',
  bvstk_sd_master_command demo_fuel true 17 0 None (Some (fill 512 7)) 0 (SdState demo_sd_driver ([], 0)) = (Some (st, Some r, Some buf), s') /\
  (st <> BVSTK_OK -> buf = fill 512 7) /\ (st = BVSTK_OK -> succeeded demo_sd_driver 17 true r).
Proof.
  pose proof (sd_read_verified fst snd demo_sd_driver demo_sd_laws demo_sd_usable demo_fuel 0 (fill 512 7) 0 SDM_MB_CMD17 ([], 0) demo_valid eq_refl) as H.
  unfold runs in H. destruct (bvstk_sd_master_command _ _ _ _ _ _ _ _) as [o s'].
  destruct H as (st & r & buf & Ho & Hfail & Hok). exists st, r, buf, s'. cbn [fst] in Ho. rewrite Ho. split; [reflexivity|].
  split; [exact Hfail|]. intros Hst. apply (proj1 (Hok Hst)).
Defined.

(** The read of these runs succeeds, and the buffer holds the card's zeros. *)
Example demo_sd_read :
  match fst (bvstk_sd_master_command demo_fuel true 17 0 None (Some (fill 512 7)) 0 (SdState demo_sd_driver ([], 0))) with
  | Some (st, _, Some buf) => st = BVSTK_OK /\ buf = fill 512 0
  | _ => False
  end.
Proof. vm_compute. split; reflexivity. Qed.

Lemma sd_command_protocol_witness : exists st r buf s',
  bvstk_sd_master_command demo_fuel true 17 0 None (Some (fill 512 7)) 0 (SdState demo_sd_driver ([], 0)) = (Some (st, Some r, buf), s') /\
  command_io demo_sd_driver 17 0 SDM_MB_CMD17 None true st (writes (owned fst demo_sd_config (sm_ext s'))).
Proof.
  pose proof (sd_command_protocol fst snd demo_sd_driver demo_sd_laws demo_sd_usable demo_fuel 17 0 None (Some (fill 512 7)) 0 SDM_MB_CMD17 ([], 0) demo_valid) as H.
  unfold runs in H. destruct (bvstk_sd_master_command _ _ _ _ _ _ _ _) as [o s'].
  destruct H as (st & r & buf & l & Ho & _ & Hl & Hio & _). exists st, r, buf, s'. cbn [fst snd] in *. rewrite Ho. split; [reflexivity|].
  change demo_sd_config with (sd_config demo_sd_driver). rewrite Hl. exact Hio.
Defined.
