(* ===== verification/SdService.v ===== *)
(** * SdService: the SD card service

    [src/src/services/sd/bvstk_sd_service.c]: block reads and verified writes
    over the PL master driver, with one owner at a time - the raw commands or the
    filesystem.

    The state is the service and the driver it points to.  A NULL service or
    result is a [false] argument; what is stored at a result pointer comes back
    with the status.  The fuel is the driver's. *)
From stdpp Require Import prelude strings.
From Stdlib Require Import ZArith Lia.
From S2P Require Import Prelude Platform PlAccess SdMaster.
Local Open Scope Z_scope.

Definition COMMAND_TIMEOUT_MS : Z := 5000.
Definition UINT32_MAX : Z := 4294967295.

Record bvstk_sd_result_t := SdResult {
  rs_hardware : bvstk_sd_master_report_t;
  rs_write_hardware : bvstk_sd_master_report_t;
  rs_prepare_hardware : bvstk_sd_master_report_t;
  rs_lba : Z;
  rs_mismatch_offset : Z;
  rs_reinitializations : Z;
  rs_status : bvstk_status_t
}.

(** What [begin] fills in. *)
Definition fresh_result : bvstk_sd_result_t :=
  SdResult (with_stage "service" zero_report) zero_report zero_report 0 UINT32_MAX 0 BVSTK_ERR_NOT_READY.

Definition put_hardware (h : bvstk_sd_master_report_t) (r : bvstk_sd_result_t) : bvstk_sd_result_t :=
  SdResult h (rs_write_hardware r) (rs_prepare_hardware r) (rs_lba r) (rs_mismatch_offset r) (rs_reinitializations r) (rs_status r).
Definition put_write_hardware (h : bvstk_sd_master_report_t) (r : bvstk_sd_result_t) : bvstk_sd_result_t :=
  SdResult (rs_hardware r) h (rs_prepare_hardware r) (rs_lba r) (rs_mismatch_offset r) (rs_reinitializations r) (rs_status r).
Definition put_prepare_hardware (h : bvstk_sd_master_report_t) (r : bvstk_sd_result_t) : bvstk_sd_result_t :=
  SdResult (rs_hardware r) (rs_write_hardware r) h (rs_lba r) (rs_mismatch_offset r) (rs_reinitializations r) (rs_status r).
Definition put_lba (v : Z) (r : bvstk_sd_result_t) : bvstk_sd_result_t :=
  SdResult (rs_hardware r) (rs_write_hardware r) (rs_prepare_hardware r) v (rs_mismatch_offset r) (rs_reinitializations r) (rs_status r).
Definition put_mismatch (v : Z) (r : bvstk_sd_result_t) : bvstk_sd_result_t :=
  SdResult (rs_hardware r) (rs_write_hardware r) (rs_prepare_hardware r) (rs_lba r) v (rs_reinitializations r) (rs_status r).
Definition put_reinitializations (v : Z) (r : bvstk_sd_result_t) : bvstk_sd_result_t :=
  SdResult (rs_hardware r) (rs_write_hardware r) (rs_prepare_hardware r) (rs_lba r) (rs_mismatch_offset r) v (rs_status r).
Definition put_status (v : bvstk_status_t) (r : bvstk_sd_result_t) : bvstk_sd_result_t :=
  SdResult (rs_hardware r) (rs_write_hardware r) (rs_prepare_hardware r) (rs_lba r) (rs_mismatch_offset r) (rs_reinitializations r) v.
(** [r->hardware.stage = v]. *)
Definition put_stage (v : string) (r : bvstk_sd_result_t) : bvstk_sd_result_t := put_hardware (with_stage v (rs_hardware r)) r.

Record bvstk_sd_card_info_t := CardInfo {
  ci_ready : bool;
  ci_block_addressed : bool;
  ci_filesystem_owned : bool;
  ci_ocr : Z;
  ci_last : bvstk_sd_result_t
}.

(** [xorshift32] steps of [bvstk_sd_service_pattern]. *)
Definition pattern_step (state : Z) : Z :=
  let state := Z.lxor state (u32 (Z.shiftl state 13)) in
  let state := Z.lxor state (Z.shiftr state 17) in
  Z.lxor state (u32 (Z.shiftl state 5)).

(** The block that is written for [lba] and [seed]. *)
Definition bvstk_sd_service_pattern (block : list Z) (lba seed : Z) : list Z :=
  let state := Z.lxor (Z.lxor seed lba) 0x9e3779b9 in
  let state := if state =? 0 then 1 else state in
  let block := snd (for_each (Z.to_nat SDM_BLOCK_SIZE) 0 (fun i s =>
    let state := pattern_step (fst s) in (state, (snd s).[i <- u8 state])) (state, block)) in
  for_each 4 0 (fun i block => (block.[i <- u8 (Z.shiftr lba (i * 8))]).[i + 4 <- u8 (Z.shiftr seed (i * 8))]) block.

Definition compare (expected received : list Z) (r : bvstk_sd_result_t) : bvstk_status_t * bvstk_sd_result_t :=
  match for_find (Z.to_nat SDM_BLOCK_SIZE) 0 (fun i => negb (expected.[i] =? received.[i])) with
  | Some i => (BVSTK_ERR_IO, put_stage "readback mismatch" (put_mismatch i r))
  | None => (BVSTK_OK, r)
  end.

Section service.
Context {X : Type} `{PL : Platform X}.

(** [sv_driver] is false for a NULL driver. *)
Record bvstk_sd_service_t := SdService {
  sv_driver : bool;
  sv_mutex : bvstk_mutex_t X;
  sv_info : bvstk_sd_card_info_t;
  sv_reinitialize : bool;
  sv_since_init : bool;
  sv_expected : list Z;
  sv_received : list Z
}.

Record card := Card { cd_service : bvstk_sd_service_t; cd_driver : sd_state X }.

Definition with_info (v : bvstk_sd_card_info_t) (s : bvstk_sd_service_t) : bvstk_sd_service_t :=
  SdService (sv_driver s) (sv_mutex s) v (sv_reinitialize s) (sv_since_init s) (sv_expected s) (sv_received s).
Definition with_since_init (v : bool) (s : bvstk_sd_service_t) : bvstk_sd_service_t :=
  SdService (sv_driver s) (sv_mutex s) (sv_info s) (sv_reinitialize s) v (sv_expected s) (sv_received s).
Definition with_expected (v : list Z) (s : bvstk_sd_service_t) : bvstk_sd_service_t :=
  SdService (sv_driver s) (sv_mutex s) (sv_info s) (sv_reinitialize s) (sv_since_init s) v (sv_received s).
Definition with_received (v : list Z) (s : bvstk_sd_service_t) : bvstk_sd_service_t :=
  SdService (sv_driver s) (sv_mutex s) (sv_info s) (sv_reinitialize s) (sv_since_init s) (sv_expected s) v.

Definition put_ready (v : bool) (i : bvstk_sd_card_info_t) : bvstk_sd_card_info_t :=
  CardInfo v (ci_block_addressed i) (ci_filesystem_owned i) (ci_ocr i) (ci_last i).
Definition put_last (v : bvstk_sd_result_t) (i : bvstk_sd_card_info_t) : bvstk_sd_card_info_t :=
  CardInfo (ci_ready i) (ci_block_addressed i) (ci_filesystem_owned i) (ci_ocr i) v.
Definition put_card (ready block_addressed : bool) (ocr : Z) (i : bvstk_sd_card_info_t) : bvstk_sd_card_info_t :=
  CardInfo ready block_addressed (ci_filesystem_owned i) ocr (ci_last i).
Definition put_owned (i : bvstk_sd_card_info_t) : bvstk_sd_card_info_t :=
  CardInfo (ci_ready i) (ci_block_addressed i) true (ci_ocr i) (ci_last i).

Definition service {A} (f : bvstk_sd_service_t -> A) : ST card A := st_get (fun c => f (cd_service c)).
Definition set_service (f : bvstk_sd_service_t -> bvstk_sd_service_t) : ST card unit :=
  st_mod (fun c => Card (f (cd_service c)) (cd_driver c)).
Definition set_info (f : bvstk_sd_card_info_t -> bvstk_sd_card_info_t) : ST card unit :=
  set_service (fun s => with_info (f (sv_info s)) s).
Definition drive {A} (m : ST (sd_state X) A) : ST card A := fun c =>
  let '(a, d) := m (cd_driver c) in (a, Card (cd_service c) d).
Definition lock_card (timeout : Z) : ST card bvstk_status_t :=
  let! m := service sv_mutex in drive (outside (bvstk_mutex_lock (Some m) timeout)).
Definition unlock_card : ST card unit :=
  let! m := service sv_mutex in drive (outside (fun x => (tt, bvstk_mutex_unlock (Some m) x))).

(** [s] and [r] are false for NULL pointers. *)
Definition begin (s r require_ready filesystem : bool) : ST card (bvstk_status_t * option bvstk_sd_result_t) :=
  if negb r then st_ret (BVSTK_ERR_MALFORMED, None)
  else
    let r := fresh_result in
    let! driver := service sv_driver in
    let! open := drive (self sd_open) in
    if negb s || negb driver || negb open then st_ret (BVSTK_ERR_NOT_READY, Some r)
    else
      let! status := lock_card 1000 in
      if negb (is_ok status) then st_ret (status, Some (put_status status r))
      else
        let! info := service sv_info in
        if negb (eqb (ci_filesystem_owned info) filesystem) then
          unlock_card ;;
          st_ret (BVSTK_ERR_BUSY, Some (put_stage "filesystem owns card; raw commands disabled" (put_status BVSTK_ERR_BUSY r)))
        else if require_ready && negb (ci_ready info) then
          unlock_card ;;
          st_ret (BVSTK_ERR_NOT_READY, Some r)
        else st_ret (BVSTK_OK, Some r).

Definition finish (r : bvstk_sd_result_t) (status : bvstk_status_t) : ST card (bvstk_status_t * bvstk_sd_result_t) :=
  let r := put_status status r in
  (match status with
   | BVSTK_ERR_IO | BVSTK_ERR_TIMEOUT | BVSTK_ERR_INTERNAL => set_info (put_ready false)
   | _ => st_ret tt
   end) ;;
  set_info (put_last r) ;;
  unlock_card ;;
  st_ret (status, r).

(** The pattern shared by the operations: [begin], and [k] when it succeeds. *)
Definition begun (s r require_ready filesystem : bool)
    (k : bvstk_sd_result_t -> ST card (option (bvstk_status_t * bvstk_sd_result_t)))
    : ST card (option (bvstk_status_t * option bvstk_sd_result_t)) :=
  let! b := begin s r require_ready filesystem in
  match b with
  | (BVSTK_OK, Some r) => let? o := k r in st_ret (Some (fst o, Some (snd o)))
  | (status, r) => st_ret (Some (status, r))
  end.
Definition finished (r : bvstk_sd_result_t) (status : bvstk_status_t) : ST card (option (bvstk_status_t * bvstk_sd_result_t)) :=
  let! o := finish r status in st_ret (Some o).

(** [None] is BVSTK_ERR_RANGE. *)
Definition address (s : bvstk_sd_service_t) (lba : Z) : option Z :=
  if negb (ci_block_addressed (sv_info s)) && (UINT32_MAX / SDM_BLOCK_SIZE <? lba) then None
  else Some (if ci_block_addressed (sv_info s) then lba else u32 (lba * SDM_BLOCK_SIZE)).

Definition prepare_command (fuel : nat) (r : bvstk_sd_result_t) : ST card (option (bvstk_status_t * bvstk_sd_result_t)) :=
  let! s := service id in
  if negb (sv_reinitialize s) || negb (sv_since_init s) then st_ret (Some (BVSTK_OK, r))
  else
    let r := put_reinitializations (u32 (rs_reinitializations r + 1)) r in
    let? o := drive (bvstk_sd_master_initialize fuel true 20000) in
    let r := put_prepare_hardware (default (rs_prepare_hardware r) (snd o)) r in
    if negb (is_ok (fst o)) then st_ret (Some (fst o, r))
    else if negb ((rp_init_reply (rs_prepare_hardware r)).[5] =? ci_ocr (sv_info s)) then
      st_ret (Some (BVSTK_ERR_IO, put_prepare_hardware (with_stage "OCR changed; explicit init required" (rs_prepare_hardware r)) r))
    else
      set_service (with_since_init false) ;;
      st_ret (Some (BVSTK_OK, r)).

(** The last result is what the read buffer holds afterwards. *)
Definition transfer (fuel : nat) (lba : Z) (write_block read_block : option (list Z)) (r : bvstk_sd_result_t)
    : ST card (option (bvstk_status_t * bvstk_sd_result_t * option (list Z))) :=
  let! s := service id in
  let r := put_lba lba r in
  match address s lba with
  | None => st_ret (Some (BVSTK_ERR_RANGE, put_stage "LBA range" r, read_block))
  | Some argument =>
      let? o := prepare_command fuel r in
      let '(status, r) := o in
      if negb (is_ok status) then st_ret (Some (status, r, read_block))
      else
        set_service (with_since_init true) ;;
        let? o := drive (bvstk_sd_master_command fuel true (if bool_decide (is_Some write_block) then 24 else 17) argument
                           write_block read_block COMMAND_TIMEOUT_MS) in
        let '(status, report, block) := o in
        st_ret (Some (status, put_hardware (default (rs_hardware r) report) r, block))
  end.

(** A transfer into [s->received]. *)
Definition transfer_received (fuel : nat) (lba : Z) (r : bvstk_sd_result_t) : ST card (option (bvstk_status_t * bvstk_sd_result_t)) :=
  let! buf := service sv_received in
  let? o := transfer fuel lba None (Some buf) r in
  let '(status, r, block) := o in
  set_service (with_received (default buf block)) ;;
  st_ret (Some (status, r)).

(** [driver] and [mutex] are [false]/[None] for NULL; [open] is the driver's. *)
Definition bvstk_sd_service_attach (s driver open : bool) (mutex : option (bvstk_mutex_t X)) (reinitialize : bool)
    : bvstk_status_t * option bvstk_sd_service_t :=
  match mutex with
  | None => (BVSTK_ERR_MALFORMED, None)
  | Some m =>
      if negb s || negb driver || negb open || negb (bool_decide (is_Some (mtx_lock m))) || negb (bool_decide (is_Some (mtx_unlock m)))
      then (BVSTK_ERR_MALFORMED, None)
      else
        let last := SdResult (with_stage "not initialized" zero_report) zero_report zero_report 0 UINT32_MAX 0 BVSTK_ERR_NOT_READY in
        (BVSTK_OK, Some (SdService true m (CardInfo false false false 0 last) reinitialize false
                           (fill SDM_BLOCK_SIZE 0) (fill SDM_BLOCK_SIZE 0)))
  end.

(** [info] is false for a NULL pointer; the second result is what is stored. *)
Definition bvstk_sd_service_info (s info : bool) : ST card (bvstk_status_t * option bvstk_sd_card_info_t) :=
  let! driver := service sv_driver in
  if negb s || negb driver || negb info then st_ret (BVSTK_ERR_NOT_READY, None)
  else
    let! status := lock_card 1000 in
    if negb (is_ok status) then st_ret (status, None)
    else
      let! i := service sv_info in
      unlock_card ;;
      st_ret (BVSTK_OK, Some i).

(** The body of [initialize_locked] after the driver answered OK: the status of
    the card and the result. *)
Definition qualify (fuel : nat) (r : bvstk_sd_result_t) : ST card (option (bvstk_status_t * bvstk_sd_result_t)) :=
  let ocr := (rp_init_reply (rs_hardware r)).[5] in
  let block_addressed := truth (Z.land ocr 0x40000000) in
  set_info (put_card false block_addressed ocr) ;;
  let! reinitialize := service sv_reinitialize in
  if negb block_addressed && reinitialize then
    st_ret (Some (BVSTK_ERR_UNSUPPORTED, put_stage "SDSC not qualified for isolated profile" r))
  else if negb block_addressed then
    let? o := drive (bvstk_sd_master_command fuel true 16 SDM_BLOCK_SIZE None None COMMAND_TIMEOUT_MS) in
    let '(status, report, _) := o in
    set_service (with_since_init true) ;;
    st_ret (Some (status, put_write_hardware (default (rs_write_hardware r) report) r))
  else st_ret (Some (BVSTK_OK, r)).

Definition initialize_locked (fuel : nat) (timeout_ms : Z) (r : bvstk_sd_result_t)
    : ST card (option (bvstk_status_t * bvstk_sd_result_t)) :=
  if 120000 <? timeout_ms then finished r BVSTK_ERR_RANGE
  else
    set_info (put_card false false 0) ;;
    set_service (with_since_init false) ;;
    let? o := drive (bvstk_sd_master_initialize fuel true timeout_ms) in
    let r := put_hardware (default (rs_hardware r) (snd o)) r in
    if negb (is_ok (fst o)) then finished r (fst o)
    else
      let? o := qualify fuel r in
      set_info (put_ready (is_ok (fst o))) ;;
      finished (snd o) (fst o).

Definition bvstk_sd_service_initialize (fuel : nat) (s r : bool) (timeout_ms : Z)
    : ST card (option (bvstk_status_t * option bvstk_sd_result_t)) :=
  begun s r false false (initialize_locked fuel timeout_ms).

Definition bvstk_sd_service_disk_claim (fuel : nat) (s r : bool) : ST card (option (bvstk_status_t * option bvstk_sd_result_t)) :=
  begun s r false false (fun r => set_info put_owned ;; initialize_locked fuel 20000 r).

(** [block] is [None] for NULL; the last result is what it holds afterwards. *)
Definition read_block (fuel : nat) (s r : bool) (lba : Z) (block : option (list Z)) (filesystem : bool)
    : ST card (option (bvstk_status_t * option bvstk_sd_result_t * option (list Z))) :=
  let! b := begin s r true filesystem in
  match b with
  | (BVSTK_OK, Some r) =>
      let? o := (match block with
                 | Some buf => transfer fuel lba None (Some buf) r
                 | None => st_ret (Some (BVSTK_ERR_MALFORMED, r, None))
                 end) in
      let '(status, r, block) := o in
      let! o := finish r status in
      st_ret (Some (fst o, Some (snd o), block))
  | (status, r) => st_ret (Some (status, r, block))
  end.

(** Read back and compare, once the write has status [status]. *)
Definition verify (fuel : nat) (lba : Z) (block : list Z) (status : bvstk_status_t) (r : bvstk_sd_result_t)
    : ST card (option (bvstk_status_t * bvstk_sd_result_t)) :=
  if negb (is_ok status) then st_ret (Some (status, r))
  else
    let? o := transfer_received fuel lba r in
    if negb (is_ok (fst o)) then st_ret (Some o)
    else
      let! received := service sv_received in
      st_ret (Some (compare block received (snd o))).

Definition write_block (fuel : nat) (s r : bool) (lba : Z) (block : option (list Z)) (filesystem : bool)
    : ST card (option (bvstk_status_t * option bvstk_sd_result_t)) :=
  begun s r true filesystem (fun r =>
    match block with
    | None => finished r BVSTK_ERR_MALFORMED
    | Some block =>
        let? o := transfer fuel lba (Some block) None r in
        let '(status, r, _) := o in
        let r := put_write_hardware (rs_hardware r) r in
        let? o := verify fuel lba block status r in
        finished (snd o) (fst o)
    end).

Definition bvstk_sd_service_read (fuel : nat) (s r : bool) (lba : Z) (block : option (list Z)) := read_block fuel s r lba block false.
Definition bvstk_sd_service_write_verify (fuel : nat) (s r : bool) (lba : Z) (block : option (list Z)) := write_block fuel s r lba block false.
Definition bvstk_sd_service_disk_read (fuel : nat) (s r : bool) (lba : Z) (block : option (list Z)) := read_block fuel s r lba block true.
Definition bvstk_sd_service_disk_write (fuel : nat) (s r : bool) (lba : Z) (block : option (list Z)) := write_block fuel s r lba block true.

Definition simple_command (fuel : nat) (s r : bool) (cmd : Z) : ST card (option (bvstk_status_t * option bvstk_sd_result_t)) :=
  begun s r true false (fun r =>
    let? o := prepare_command fuel r in
    let '(status, r) := o in
    if negb (is_ok status) then finished r status
    else
      set_service (with_since_init true) ;;
      let? o := drive (bvstk_sd_master_command fuel true cmd (if cmd =? 16 then SDM_BLOCK_SIZE else 0) None None COMMAND_TIMEOUT_MS) in
      let '(status, report, _) := o in
      finished (put_hardware (default (rs_hardware r) report) r) status).

Definition bvstk_sd_service_card_status (fuel : nat) (s r : bool) := simple_command fuel s r 13.
Definition bvstk_sd_service_block_length (fuel : nat) (s r : bool) := simple_command fuel s r 16.

(** The first loop of the test, from sector [lba + i] on. *)
Fixpoint test_writes (n : nat) (fuel : nat) (lba seed i : Z) (r : bvstk_sd_result_t)
    : ST card (option (bvstk_status_t * bvstk_sd_result_t)) :=
  match n with
  | O => st_ret (Some (BVSTK_OK, r))
  | S n =>
      set_service (fun s => with_expected (bvstk_sd_service_pattern (sv_expected s) (u32 (lba + i)) seed) s) ;;
      let! expected := service sv_expected in
      let? o := transfer fuel (u32 (lba + i)) (Some expected) None r in
      let '(status, r, _) := o in
      let r := put_write_hardware (rs_hardware r) r in
      if negb (is_ok status) then st_ret (Some (status, r)) else test_writes n fuel lba seed (i + 1) r
  end.

(** The second. *)
Fixpoint test_reads (n : nat) (fuel : nat) (lba seed i : Z) (r : bvstk_sd_result_t)
    : ST card (option (bvstk_status_t * bvstk_sd_result_t)) :=
  match n with
  | O => st_ret (Some (BVSTK_OK, r))
  | S n =>
      let? o := transfer_received fuel (u32 (lba + i)) r in
      let '(status, r) := o in
      if negb (is_ok status) then st_ret (Some (status, r))
      else
        set_service (fun s => with_expected (bvstk_sd_service_pattern (sv_expected s) (u32 (lba + i)) seed) s) ;;
        let! s := service id in
        let '(status, r) := compare (sv_expected s) (sv_received s) r in
        if negb (is_ok status) then st_ret (Some (status, r)) else test_reads n fuel lba seed (i + 1) r
  end.

Definition bvstk_sd_service_test (fuel : nat) (s r : bool) (lba count seed : Z)
    : ST card (option (bvstk_status_t * option bvstk_sd_result_t)) :=
  begun s r true false (fun r =>
    let! sv := service id in
    if (count =? 0) || (8 <? count) || (UINT32_MAX - u32 (count - 1) <? lba) ||
       negb (bool_decide (is_Some (address sv (u32 (lba + count - 1))))) then finished r BVSTK_ERR_RANGE
    else
      let? o := test_writes (Z.to_nat count) fuel lba seed 0 r in
      if negb (is_ok (fst o)) then finished (snd o) (fst o)
      else
        let? o := test_reads (Z.to_nat count) fuel lba seed 0 (snd o) in
        finished (snd o) (fst o)).
End service.

Arguments bvstk_sd_service_t : clear implicits.
Arguments card : clear implicits.
