(* ===== verification/SdServiceSafety.v ===== *)
(** * SdServiceSafety: ownership, readiness and verified writes of the SD service

    Each operation is described by the driver calls it makes.  The calls stand
    for the register writes of [SdMasterSafety]. *)
From stdpp Require Import prelude strings.
From Stdlib Require Import ZArith Lia.
From S2P Require Import Prelude Platform PlAccess SdMaster SdCrc SdMasterSafety SdService.
Local Open Scope Z_scope.

(** ** Driver calls *)

Inductive call := CInit | CCommand (command argument : Z) (write_block : option (list Z)).
Definition calls : Type := list (call * bvstk_status_t).

(** A block goes to the card. *)
Definition is_write (c : call * bvstk_status_t) : bool :=
  match fst c with CCommand command _ _ => command =? 24 | CInit => false end.
Definition write_count (cs : calls) : nat := length (List.filter is_write cs).

Lemma write_count_app a b : write_count (a ++ b) = (write_count a + write_count b)%nat.
Proof. unfold write_count. by rewrite List.filter_app, length_app. Qed.

(** ** Test patterns *)

(** The bytes after [state]. *)
Fixpoint pattern_bytes (n : nat) (state : Z) : list Z :=
  match n with
  | O => []
  | S n => let state := pattern_step state in u8 state :: pattern_bytes n state
  end.

Lemma pattern_loop n i state block : 0 <= i -> i + Z.of_nat n = alen block ->
  snd (for_each n i (fun i s => let state := pattern_step (fst s) in (state, (snd s).[i <- u8 state])) (state, block)) =
  prefix i block ++ pattern_bytes n state.
Proof.
  revert i state block. induction n as [|n IH]; intros i state block Hi Hn; cbn [for_each pattern_bytes].
  - rewrite app_nil_r. unfold prefix. rewrite take_ge; [done|]. unfold alen in Hn. lia.
  - cbn [fst snd]. rewrite IH; [|lia|rewrite alen_aset; lia]. rewrite prefix_snoc by lia. by rewrite <- app_assoc.
Qed.

Definition block_of (lba seed : Z) : list Z := bvstk_sd_service_pattern (fill SDM_BLOCK_SIZE 0) lba seed.

(** The pattern overwrites the whole block. *)
Lemma pattern_block block lba seed : alen block = SDM_BLOCK_SIZE -> bvstk_sd_service_pattern block lba seed = block_of lba seed.
Proof.
  intros Hb. unfold block_of, bvstk_sd_service_pattern. rewrite !pattern_loop, !prefix_0; [done|lia|rewrite alen_fill; unfold SDM_BLOCK_SIZE; lia|lia|].
  unfold SDM_BLOCK_SIZE in *. lia.
Qed.

Lemma pattern_bytes_length n state : length (pattern_bytes n state) = n.
Proof. revert state. induction n as [|n IH]; intros state; cbn [pattern_bytes length]; [done|by rewrite IH]. Qed.

(** The base block, and the address and the seed on top of it. *)
Lemma block_of_stamped lba seed : exists base, alen base = SDM_BLOCK_SIZE /\
  block_of lba seed = for_each 4 0 (fun i block => (block.[i <- u8 (Z.shiftr lba (i * 8))]).[i + 4 <- u8 (Z.shiftr seed (i * 8))]) base.
Proof.
  unfold block_of, bvstk_sd_service_pattern. rewrite pattern_loop, prefix_0; [|lia|rewrite alen_fill; unfold SDM_BLOCK_SIZE; lia].
  eexists. split; [|reflexivity]. unfold alen. by rewrite length_app, pattern_bytes_length.
Qed.

Lemma block_of_length lba seed : alen (block_of lba seed) = SDM_BLOCK_SIZE.
Proof.
  destruct (block_of_stamped lba seed) as (base & Hb & ->). cbn [for_each]. by rewrite !alen_aset.
Qed.

Lemma block_of_address lba seed i : 0 <= i < 4 -> (block_of lba seed).[i] = byte_of lba i.
Proof.
  intros Hi. destruct (block_of_stamped lba seed) as (base & Hb & ->). cbn [for_each]. unfold byte_of. unfold SDM_BLOCK_SIZE in Hb.
  assert (i = 0 \/ i = 1 \/ i = 2 \/ i = 3) as [-> |[-> |[-> | ->]]] by lia;
    repeat (first [rewrite aget_aset_eq by (rewrite ?alen_aset; lia)|rewrite aget_aset_ne by lia]); do 2 f_equal; lia.
Qed.

(** Different sectors get different blocks. *)
Lemma block_of_inj lba lba' seed : fits 32 lba -> fits 32 lba' -> block_of lba seed = block_of lba' seed -> lba = lba'.
Proof.
  intros Hl Hl' He. apply Z.bits_inj'. intros n Hn. destruct (decide (n < 32)) as [Hlt|Hge].
  - assert (byte_of lba (n / 8) = byte_of lba' (n / 8)) as Hb.
    { rewrite <- !(block_of_address _ seed) by (Z.to_euclidean_division_equations; lia). by rewrite He. }
    apply (f_equal (fun v => Z.testbit v (n mod 8))) in Hb. pose proof (Z.mod_pos_bound n 8 ltac:(lia)).
    rewrite !byte_of_testbit in Hb by (Z.to_euclidean_division_equations; lia).
    by replace (8 * (n / 8) + n mod 8) with n in Hb by (Z.to_euclidean_division_equations; lia).
  - rewrite <- (wrap_id 32 lba), <- (wrap_id 32 lba') by done. unfold wrap. by rewrite !Z.mod_pow2_bits_high by lia.
Qed.

Section safety.
Context {X : Type} `{PL : Platform X} (log : X -> list io) (time : X -> Z).
Context (d : bvstk_sd_master_t X) (Hl : sd_laws log time d) (Hu : sd_usable d).
Local Abbreviation seen := (owned log (sd_config d)) (only parsing).
(** The service's mutex stays off the driver's windows. *)
Context (M : bvstk_mutex_t X).
Context (HM : forall t x, seen (snd (bvstk_mutex_lock (Some M) t x)) = seen x /\ seen (bvstk_mutex_unlock (Some M) x) = seen x).
(** Fuel for the longest timeout, 120 s. *)
Context (fuel : nat) (Hf : 120000 < Z.of_nat fuel).

Definition call_io (c : call) (st : bvstk_status_t) (w : list (Z * Z)) : Prop :=
  match c with
  | CInit => init_io d st w
  | CCommand command argument wb => exists mailbox, mailbox_of command = Some mailbox /\
      command_io d command argument mailbox wb (command =? 17) st w
  end.

(** The register writes of a list of calls. *)
Inductive traced : calls -> list (Z * Z) -> Prop :=
  | traced_nil : traced [] []
  | traced_cons c st w cs w' : call_io c st w -> traced cs w' -> traced ((c, st) :: cs) (w ++ w').

Lemma traced_app cs1 w1 cs2 w2 : traced cs1 w1 -> traced cs2 w2 -> traced (cs1 ++ cs2) (w1 ++ w2).
Proof. intros H1 H2. induction H1; [done|]. cbn [app]. rewrite <- app_assoc. by constructor. Qed.

(** A service attached to the open driver. *)
Definition card_ok (c : card X) : Prop :=
  with_io_error false (sm_driver (cd_driver c)) = d /\ sv_mutex (cd_service c) = M /\ sv_driver (cd_service c) = true /\
  alen (sv_expected (cd_service c)) = SDM_BLOCK_SIZE /\ alen (sv_received (cd_service c)) = SDM_BLOCK_SIZE.

Definition card_log (c : card X) : list io := seen (sm_ext (cd_driver c)).

(** [m] makes some driver calls and nothing else in the driver's windows. *)
Definition serves {A} (c : card X) (m : ST (card X) A) (Q : A -> calls -> bvstk_sd_service_t X -> Prop) : Prop :=
  runs m c (fun a c' => exists cs l, card_ok c' /\ card_log c' = card_log c ++ l /\ traced cs (writes l) /\ Q a cs (cd_service c')).

Lemma serves_ret {A} c (a : A) Q : card_ok c -> Q a [] (cd_service c) -> serves c (st_ret a) Q.
Proof. intros Hc HQ. apply runs_ret. exists [], []. rewrite app_nil_r. repeat split; try apply Hc; try done. constructor. Qed.

Lemma serves_bind {A B} Q1 c (m : ST (card X) A) (k : A -> ST (card X) B) Q :
  serves c m Q1 ->
  (forall a cs c', card_ok c' -> Q1 a cs (cd_service c') -> serves c' (k a) (fun b cs2 s => Q b (cs ++ cs2) s)) ->
  serves c (st_bind m k) Q.
Proof.
  unfold serves. intros Hm Hk. apply runs_bind. eapply runs_mono; [exact Hm|]. intros a c1 (cs1 & l1 & Hc1 & E1 & T1 & HQ1).
  specialize (Hk a cs1 c1 Hc1 HQ1). eapply runs_mono; [exact Hk|]. intros b c2 (cs2 & l2 & Hc2 & E2 & T2 & HQ2).
  exists (cs1 ++ cs2), (l1 ++ l2). split; [done|]. rewrite E2, E1, app_assoc. split; [done|]. split; [|done].
  rewrite writes_app. by apply traced_app.
Qed.

Lemma serves_mono {A} Q1 c (m : ST (card X) A) Q : serves c m Q1 -> (forall a cs s, Q1 a cs s -> Q a cs s) -> serves c m Q.
Proof.
  unfold serves. intros Hm HQ. eapply runs_mono; [exact Hm|]. intros a c1 (cs1 & l1 & Hc1 & E1 & T1 & HQ1). exists cs1, l1. auto.
Qed.

Lemma serves_get {A B} c (f : bvstk_sd_service_t X -> A) (k : A -> ST (card X) B) Q :
  serves c (k (f (cd_service c))) Q -> serves c (st_bind (service f) k) Q.
Proof. intros Hk. exact Hk. Qed.

(** Storing into the service. *)
Lemma serves_set {B} c f (k : unit -> ST (card X) B) Q :
  card_ok (Card (f (cd_service c)) (cd_driver c)) -> serves (Card (f (cd_service c)) (cd_driver c)) (k tt) Q ->
  serves c (st_bind (set_service f) k) Q.
Proof. intros _ Hk. exact Hk. Qed.

Lemma ok_with_info i c : card_ok c -> card_ok (Card (with_info i (cd_service c)) (cd_driver c)).
Proof. done. Qed.
Lemma ok_with_since v c : card_ok c -> card_ok (Card (with_since_init v (cd_service c)) (cd_driver c)).
Proof. done. Qed.
Lemma ok_with_received v c : alen v = SDM_BLOCK_SIZE -> card_ok c -> card_ok (Card (with_received v (cd_service c)) (cd_driver c)).
Proof. intros Hv (H1 & H2 & H3 & H4 & H5). repeat split; done. Qed.
Lemma ok_with_expected v c : alen v = SDM_BLOCK_SIZE -> card_ok c -> card_ok (Card (with_expected v (cd_service c)) (cd_driver c)).
Proof. intros Hv (H1 & H2 & H3 & H4 & H5). repeat split; done. Qed.

Lemma serves_lock c t : card_ok c -> serves c (lock_card t) (fun _ cs s => cs = [] /\ s = cd_service c).
Proof.
  intros Hc. pose proof Hc as (H1 & H2 & _). apply serves_get. rewrite H2. unfold serves, runs, drive, outside. destruct (cd_driver c) as [dr x] eqn:Ed.
  cbn [sm_ext sm_driver]. pose proof (proj1 (HM t x)) as El. destruct (bvstk_mutex_lock (Some M) t x) as [st x']. cbn [fst snd cd_driver cd_service] in *.
  exists [], []. unfold card_ok, card_log. cbn [cd_driver cd_service sm_ext sm_driver]. rewrite Ed in *. cbn [sm_ext sm_driver] in *.
  rewrite app_nil_r. repeat split; try apply Hc; try done. constructor.
Qed.

Lemma serves_unlock c : card_ok c -> serves c unlock_card (fun _ cs s => cs = [] /\ s = cd_service c).
Proof.
  intros Hc. pose proof Hc as (H1 & H2 & _). apply serves_get. rewrite H2. unfold serves, runs, drive, outside. destruct (cd_driver c) as [dr x] eqn:Ed.
  cbn [sm_ext sm_driver fst snd cd_driver cd_service]. pose proof (proj2 (HM 0 x)) as El.
  exists [], []. unfold card_ok, card_log. cbn [cd_driver cd_service sm_ext sm_driver]. rewrite Ed in *. cbn [sm_ext sm_driver] in *.
  rewrite app_nil_r. repeat split; try apply Hc; try done. constructor.
Qed.

(** ** The two driver calls *)

Lemma serves_drive {A} c (m : ST (sd_state X) A) Q : card_ok c ->
  runs m (cd_driver c) (fun a s' => exists cs l, with_io_error false (sm_driver s') = d /\ seen (sm_ext s') = seen (sm_ext (cd_driver c)) ++ l /\
    traced cs (writes l) /\ Q a cs (cd_service c)) ->
  serves c (drive m) Q.
Proof.
  intros (H1 & H2 & H3 & H4 & H5) Hm. unfold serves, runs, drive in *. destruct (m (cd_driver c)) as [a s']. cbn [fst snd] in *.
  destruct Hm as (cs & l & Ed & El & Ht & HQ). exists cs, l. unfold card_ok, card_log. cbn [cd_driver cd_service].
  split; [|split; [exact El|by split]]. by repeat split.
Qed.

Lemma serves_initialize c timeout : card_ok c -> 0 <= timeout <= 120000 ->
  serves c (drive (bvstk_sd_master_initialize fuel true timeout)) (fun o cs s => exists st r, o = Some (st, Some r) /\
    cs = [(CInit, st)] /\ s = cd_service c /\ (st = BVSTK_OK -> init_valid (rp_init_reply r) = true)).
Proof.
  intros Hc HT. pose proof Hc as (H1 & _). apply serves_drive; [done|]. destruct (cd_driver c) as [dr x]. cbn [sm_driver sm_ext] in *.
  assert (sd_config dr = sd_config d) as Ec by (by rewrite <- H1).
  eapply runs_mono; [apply (initialize_run log time dr); rewrite ?H1; try done; lia|].
  intros o s' (st & r & l & -> & Ed & El & Hio & Hok). exists [(CInit, st)], l. split; [by rewrite Ed|]. rewrite H1, ?Ec in *. split; [done|].
  split; [rewrite <- (app_nil_r (writes l)); constructor; [done|constructor]|]. exists st, r. auto.
Qed.

(** What comes back from a command; a read gives the bytes of a valid frame. *)
Lemma serves_command c command argument wb rb mailbox : card_ok c -> mailbox_of command = Some mailbox ->
  (command = 24 <-> is_Some wb) -> (command = 17 <-> is_Some rb) -> (forall buf, rb = Some buf -> alen buf = SDM_BLOCK_SIZE) ->
  serves c (drive (bvstk_sd_master_command fuel true command argument wb rb COMMAND_TIMEOUT_MS)) (fun o cs s => exists st r buf,
    o = Some (st, Some r, buf) /\ cs = [(CCommand command argument wb, st)] /\ s = cd_service c /\
    (st <> BVSTK_OK -> buf = rb) /\
    (st = BVSTK_OK -> match rb with Some _ => exists m, buf = Some (prefix SDM_BLOCK_SIZE (frame_of m)) /\ frame_valid m | None => buf = None end)).
Proof.
  intros Hc Hm Hw Hr Hlen. pose proof Hc as (H1 & _). apply serves_drive; [done|]. destruct (cd_driver c) as [dr x]. cbn [sm_driver sm_ext] in *.
  assert (sd_config dr = sd_config d) as Ec by (by rewrite <- H1).
  unfold COMMAND_TIMEOUT_MS. eapply runs_mono.
  { apply (command_run log time dr ltac:(by rewrite H1) ltac:(by rewrite H1) fuel command argument wb rb 5000 mailbox).
    repeat split; try tauto; lia. }
  intros o s' (st & r & received & l & -> & Ed & El & Hpost). assert (with_io_error false (sm_driver s') = d) as Ed' by (by rewrite Ed).
  rewrite H1, Ec in *. destruct Hpost as (st' & r' & rec' & E & Hio & Hok). injection E as <- <- <-.
  exists [(CCommand command argument wb, st)], l. split; [done|]. split; [done|]. split.
  { rewrite <- (app_nil_r (writes l)). constructor; [|constructor]. exists mailbox. split; [done|].
    assert (bool_decide (is_Some rb) = (command =? 17)) as <-; [|done].
    destruct (command =? 17) eqn:E; bsimp; [apply bool_decide_eq_true_2|apply bool_decide_eq_false_2]; tauto. }
  eexists _, _, _. split; [done|]. split; [done|]. split; [done|]. split.
  - intros Hst. destruct rb; [|done]. by apply is_ok_false in Hst as ->.
  - intros ->. destruct rb as [buf0|]; [|done]. cbn [is_ok]. destruct (Hok eq_refl) as [_ (l0 & v & _ & Hdel)].
    rewrite bool_decide_eq_true_2 in Hdel by eauto. destruct Hdel as (m & -> & Hval & _). exists m. split; [|done]. f_equal.
    specialize (Hlen buf0 eq_refl). unfold copy_prefix, prefix, SDM_BLOCK_SIZE, alen in *. rewrite (drop_ge buf0) by lia. apply app_nil_r.
Qed.

(** ** Transfers *)

(** A compatibility profile initializes the card before a command. *)
Definition prep (cs : calls) : Prop := cs = [] \/ cs = [(CInit, BVSTK_OK)].

Lemma prep_writes cs : prep cs -> write_count cs = 0%nat.
Proof. by intros [-> | ->]. Qed.

(** The card and the blocks the service holds stay as they are. *)
Definition keeps (s s' : bvstk_sd_service_t X) : Prop :=
  sv_info s' = sv_info s /\ sv_reinitialize s' = sv_reinitialize s /\ sv_expected s' = sv_expected s /\ sv_received s' = sv_received s.

Lemma keeps_refl s : keeps s s.
Proof. done. Qed.
Lemma keeps_trans s1 s2 s3 : keeps s1 s2 -> keeps s2 s3 -> keeps s1 s3.
Proof. intros (? & ? & ? & ?) (? & ? & ? & ?). repeat split; congruence. Qed.

Lemma prepare_serves c r : card_ok c ->
  serves c (prepare_command fuel r) (fun o cs s => exists st r', o = Some (st, r') /\ keeps (cd_service c) s /\
    write_count cs = 0%nat /\ (st = BVSTK_OK -> prep cs)).
Proof.
  intros Hc. unfold prepare_command. apply serves_get. unfold id. destruct (_ || _).
  { apply serves_ret; [done|]. eexists _, _. split; [done|]. split; [done|]. split; [done|]. by left. }
  eapply serves_bind; [apply serves_initialize; [done|lia]|]. intros o cs c1 Hc1 (st & h & -> & -> & Es & Hv). cbn [fst snd default].
  destruct (is_ok st) eqn:Est; cbn [negb].
  2:{ apply serves_ret; [done|]. eexists _, _. split; [done|]. rewrite Es. split; [done|]. split; [done|]. by intros ->. }
  apply is_ok_true in Est as ->. destruct (negb _).
  - apply serves_ret; [done|]. eexists _, _. split; [done|]. rewrite Es. split; [done|]. split; [done|]. by right.
  - apply serves_set; [by apply ok_with_since|]. apply serves_ret; [by apply ok_with_since|]. eexists _, _. split; [done|].
    cbn [cd_service]. split; [by rewrite <- Es|]. split; [done|]. by right.
Qed.

Definition sends (wb : option (list Z)) : nat := match wb with Some _ => 1 | None => 0 end.
Definition command_of (wb : option (list Z)) : Z := if bool_decide (is_Some wb) then 24 else 17.

(** A transfer writes its block at most once; a success is one command, at the
    address of the sector. *)
Definition transfer_post (s0 : bvstk_sd_service_t X) (lba : Z) (wb rb : option (list Z)) (st : bvstk_status_t) (buf : option (list Z)) (cs : calls) : Prop :=
  (write_count cs <= sends wb)%nat /\ (st <> BVSTK_OK -> buf = rb) /\
  (st = BVSTK_OK -> exists argument p, address s0 lba = Some argument /\ prep p /\
     cs = p ++ [(CCommand (command_of wb) argument wb, BVSTK_OK)] /\
     match rb with Some _ => exists m, buf = Some (prefix SDM_BLOCK_SIZE (frame_of m)) /\ frame_valid m | None => buf = None end).

Lemma transfer_serves c lba wb rb r : card_ok c -> (is_Some wb <-> rb = None) -> (forall buf, rb = Some buf -> alen buf = SDM_BLOCK_SIZE) ->
  serves c (transfer fuel lba wb rb r) (fun o cs s => exists st r' buf, o = Some (st, r', buf) /\ keeps (cd_service c) s /\
    transfer_post (cd_service c) lba wb rb st buf cs).
Proof.
  intros Hc Hdir Hlen. unfold transfer. apply serves_get. unfold id. destruct (address _ lba) as [argument|] eqn:Ea.
  2:{ apply serves_ret; [done|]. eexists _, _, _. split; [done|]. split; [done|]. split; [destruct wb; cbn; lia|done]. }
  eapply serves_bind; [by apply prepare_serves|]. intros o cs c1 Hc1 (st & r1 & -> & Hk1 & Hw1 & Hp1).
  destruct (is_ok st) eqn:Est; cbn [negb].
  2:{ apply serves_ret; [done|]. eexists _, _, _. split; [done|]. split; [done|]. rewrite app_nil_r. split; [rewrite Hw1; destruct wb; lia|].
    split; [done|]. by intros ->. }
  apply is_ok_true in Est as ->. specialize (Hp1 eq_refl). apply serves_set; [by apply ok_with_since|]. fold (command_of wb).
  assert (exists mailbox, mailbox_of (command_of wb) = Some mailbox) as [mailbox Hm] by (unfold command_of; destruct (bool_decide _); by eexists).
  assert (forall w' p, write_count (p ++ [(CCommand (command_of wb) argument wb, w')]) = (write_count p + sends wb)%nat) as Hcount.
  { intros w' p. rewrite write_count_app. f_equal. destruct wb; [|done]. unfold command_of. by rewrite bool_decide_eq_true_2 by eauto. }
  eapply serves_bind.
  { apply (serves_command _ (command_of wb) argument wb rb mailbox); [by apply ok_with_since|done| | |done]; unfold command_of.
    - destruct wb; [rewrite bool_decide_eq_true_2 by eauto; split; [by eauto|done]|rewrite bool_decide_eq_false_2 by (by intros []); split; [done|by intros []]].
    - destruct rb, wb; try (rewrite bool_decide_eq_true_2 by eauto); try (rewrite bool_decide_eq_false_2 by (by intros [])).
      + destruct Hdir as [Hd _]. by specialize (Hd ltac:(eauto)).
      + split; [by eauto|done].
      + split; [done|by intros []].
      + destruct Hdir as [_ Hd]. destruct (Hd eq_refl). done. }
  intros o2 cs2 c2 Hc2 (st2 & h & buf & -> & -> & Es & Hfail & Hok). cbn [cd_service] in Es.
  apply serves_ret; [done|]. eexists _, _, _. split; [done|]. split; [rewrite Es; exact Hk1|]. rewrite app_nil_r.
  split; [rewrite Hcount, Hw1; destruct wb; lia|]. split; [done|]. intros ->. exists argument, cs. split; [done|]. split; [done|]. split; [done|]. by apply Hok.
Qed.

Lemma frame_block_length m : alen (prefix SDM_BLOCK_SIZE (frame_of m)) = SDM_BLOCK_SIZE.
Proof. apply alen_prefix. rewrite frame_length. unfold SDM_BLOCK_SIZE, SDM_RX_BYTES. lia. Qed.

(** A read into the service's own block. *)
Lemma transfer_received_serves c lba r : card_ok c ->
  serves c (transfer_received fuel lba r) (fun o cs s => exists st r', o = Some (st, r') /\
    sv_info s = sv_info (cd_service c) /\ sv_reinitialize s = sv_reinitialize (cd_service c) /\ sv_expected s = sv_expected (cd_service c) /\
    transfer_post (cd_service c) lba None (Some (sv_received (cd_service c))) st (Some (sv_received s)) cs).
Proof.
  intros Hc. unfold transfer_received. apply serves_get.
  eapply serves_bind; [apply (transfer_serves c lba None (Some (sv_received (cd_service c)))); [done|split; [by intros []|done]|]|].
  { intros buf [= <-]. apply Hc. }
  intros o cs c1 Hc1 (st & r1 & buf & -> & (E1 & E2 & E3 & E4) & Hpost).
  assert (exists b, buf = Some b /\ alen b = SDM_BLOCK_SIZE) as (b & -> & Hb).
  { destruct Hpost as (_ & Hfail & Hok). destruct st; try (exists (sv_received (cd_service c)); split; [by apply Hfail|apply Hc]).
    destruct (Hok eq_refl) as (a & p & _ & _ & _ & m & -> & _). eexists. split; [done|]. apply frame_block_length. }
  cbn [default]. apply serves_set; [by apply ok_with_received|]. apply serves_ret; [by apply ok_with_received|].
  eexists _, _. split; [done|]. cbn [cd_service with_received sv_info sv_reinitialize sv_expected sv_received]. rewrite app_nil_r. auto.
Qed.

(** ** The frame of an operation *)

(** What an operation finds when it starts. *)
Inductive begins (s : bvstk_sd_service_t X) (require_ready filesystem : bool) : bvstk_status_t -> Prop :=
  | begins_ok : ci_filesystem_owned (sv_info s) = filesystem -> (require_ready = true -> ci_ready (sv_info s) = true) ->
      begins s require_ready filesystem BVSTK_OK
  | begins_busy : ci_filesystem_owned (sv_info s) <> filesystem -> begins s require_ready filesystem BVSTK_ERR_BUSY
  | begins_cold : ci_filesystem_owned (sv_info s) = filesystem -> require_ready = true -> ci_ready (sv_info s) = false ->
      begins s require_ready filesystem BVSTK_ERR_NOT_READY
  | begins_locked st : st <> BVSTK_OK -> begins s require_ready filesystem st.

Lemma begin_serves c require_ready filesystem : card_ok c ->
  serves c (begin true true require_ready filesystem) (fun o cs s => cs = [] /\ s = cd_service c /\
    exists st r, o = (st, Some r) /\ begins (cd_service c) require_ready filesystem st).
Proof.
  intros Hc. pose proof Hc as (H1 & _ & H3 & _). unfold begin. cbn [negb]. apply serves_get. rewrite H3.
  eapply serves_bind.
  { apply (serves_drive _ _ (fun o cs s => o = true /\ cs = [] /\ s = cd_service c)); [done|]. unfold self. apply runs_get. exists [], [].
    split; [done|]. split; [by rewrite app_nil_r|]. split; [constructor|]. split; [|done]. pose proof (us_open _ Hu) as Ho. by rewrite <- H1 in Ho. }
  intros ? ? c1 Hc1 (-> & -> & Es). cbn [negb orb]. eapply serves_bind; [by apply serves_lock|]. intros st cs c2 Hc2 [-> Es2].
  rewrite Es in Es2. destruct (is_ok st) eqn:Est; cbn [negb].
  2:{ apply serves_ret; [done|]. split; [done|]. split; [done|]. eexists _, _. split; [done|]. apply begins_locked. by apply is_ok_false. }
  apply serves_get. rewrite Es2. destruct (eqb _ filesystem) eqn:Eo; cbn [negb].
  2:{ eapply serves_bind; [by apply serves_unlock|]. intros [] cs c3 Hc3 [-> Es3]. apply serves_ret; [done|]. split; [done|]. split; [congruence|].
    eexists _, _. split; [done|]. apply begins_busy. by apply eqb_false_iff. }
  apply eqb_prop in Eo. destruct (require_ready && negb _) eqn:Er.
  - apply andb_true_iff in Er as [-> Er]. apply negb_true_iff in Er. eapply serves_bind; [by apply serves_unlock|]. intros [] cs c3 Hc3 [-> Es3].
    apply serves_ret; [done|]. split; [done|]. split; [congruence|]. eexists _, _. split; [done|]. by apply begins_cold.
  - apply serves_ret; [done|]. split; [done|]. split; [done|]. eexists _, _. split; [done|]. apply begins_ok; [done|]. intros ->.
    by apply negb_false_iff in Er.
Qed.

(** A failure that leaves the card in an unknown state. *)
Definition fatal (st : bvstk_status_t) : bool :=
  match st with BVSTK_ERR_IO | BVSTK_ERR_TIMEOUT | BVSTK_ERR_INTERNAL => true | _ => false end.

(** Readiness and ownership. *)
Definition phase (s : bvstk_sd_service_t X) : bool * bool := (ci_ready (sv_info s), ci_filesystem_owned (sv_info s)).
Definition after_status (st : bvstk_status_t) (s : bvstk_sd_service_t X) : bool * bool :=
  (ci_ready (sv_info s) && negb (fatal st), ci_filesystem_owned (sv_info s)).

Lemma finish_serves c r st : card_ok c ->
  serves c (finish r st) (fun o cs s => cs = [] /\ o = (st, put_status st r) /\ phase s = after_status st (cd_service c) /\
    sv_received s = sv_received (cd_service c)).
Proof.
  intros Hc. unfold finish.
  eapply (serves_bind (fun _ cs s => cs = [] /\ phase s = after_status st (cd_service c) /\ sv_received s = sv_received (cd_service c))).
  { unfold after_status. destruct st; cbn [fatal negb]; rewrite ?andb_true_r, ?andb_false_r;
      first [by apply serves_ret|apply runs_mod; exists [], []; rewrite app_nil_r; repeat split; try apply Hc; constructor]. }
  intros [] cs c1 Hc1 (-> & Ep & Er). apply serves_set; [by apply ok_with_info|].
  eapply serves_bind; [apply serves_unlock; by apply ok_with_info|]. intros [] cs c2 Hc2 [-> Es2]. apply serves_ret; [done|].
  split; [done|]. split; [done|]. rewrite Es2. by split.
Qed.

Lemma finished_serves c r st : card_ok c ->
  serves c (finished r st) (fun o cs s => cs = [] /\ o = Some (st, put_status st r) /\ phase s = after_status st (cd_service c)).
Proof.
  intros Hc. eapply serves_bind; [by apply finish_serves|]. intros o cs c1 Hc1 (-> & -> & Ep & _). apply serves_ret; [done|]. by repeat split.
Qed.

(** What an operation that starts as [begins] comes to. *)
Definition op_post (s0 : bvstk_sd_service_t X) (require_ready filesystem : bool)
    (body : bvstk_status_t -> calls -> bvstk_sd_service_t X -> Prop) (st : bvstk_status_t) (cs : calls) (s : bvstk_sd_service_t X) : Prop :=
  (st <> BVSTK_OK /\ begins s0 require_ready filesystem st /\ cs = [] /\ s = s0) \/
  (begins s0 require_ready filesystem BVSTK_OK /\ body st cs s).

Lemma begun_serves c require_ready filesystem k body : card_ok c ->
  (forall c1 r, card_ok c1 -> cd_service c1 = cd_service c -> begins (cd_service c) require_ready filesystem BVSTK_OK ->
     serves c1 (k r) (fun o cs s => exists st r', o = Some (st, r') /\ body st cs s)) ->
  serves c (begun true true require_ready filesystem k) (fun o cs s => exists st r', o = Some (st, Some r') /\
    op_post (cd_service c) require_ready filesystem body st cs s).
Proof.
  intros Hc Hk. unfold begun. eapply serves_bind; [by apply begin_serves|]. intros o cs c1 Hc1 (-> & Es & st & r & -> & Hb).
  assert (forall c', card_ok c' -> cd_service c' = cd_service c -> st <> BVSTK_OK -> serves c' (st_ret (Some (st, Some r))) (fun o cs s =>
    exists st r', o = Some (st, Some r') /\ op_post (cd_service c) require_ready filesystem body st cs s)) as Href.
  { intros c' Hc' Es' Hst. apply serves_ret; [done|]. eexists _, _. split; [done|]. left. auto. }
  cbn [app]. destruct st; try (by apply Href).
  eapply serves_bind; [by apply Hk|]. intros o cs c2 Hc2 (st & r' & -> & Hbody). apply serves_ret; [done|]. cbn [fst snd].
  eexists _, _. split; [done|]. right. rewrite app_nil_r. by split.
Qed.

(** ** Initialization *)

(** After an accepted initialization the card is ready exactly when the status
    says so; an unacceptable timeout changes nothing. *)
Definition init_body (s0 : bvstk_sd_service_t X) (timeout : Z) (st : bvstk_status_t) (cs : calls) (s : bvstk_sd_service_t X) : Prop :=
  write_count cs = 0%nat /\ ci_filesystem_owned (sv_info s) = ci_filesystem_owned (sv_info s0) /\
  (120000 < timeout /\ st = BVSTK_ERR_RANGE /\ cs = [] /\ ci_ready (sv_info s) = ci_ready (sv_info s0) \/
   timeout <= 120000 /\ (exists st0 cs', cs = (CInit, st0) :: cs') /\ ci_ready (sv_info s) = is_ok st).

Lemma qualify_serves c r : card_ok c ->
  serves c (qualify fuel r) (fun o cs s => exists st r', o = Some (st, r') /\ write_count cs = 0%nat /\
    ci_filesystem_owned (sv_info s) = ci_filesystem_owned (sv_info (cd_service c))).
Proof.
  intros Hc. unfold qualify. apply serves_set; [by apply ok_with_info|]. apply serves_get.
  destruct (negb _ && _); [apply serves_ret; [by apply ok_with_info|]; by eexists _, _|].
  destruct (negb _); [|apply serves_ret; [by apply ok_with_info|]; by eexists _, _].
  eapply serves_bind; [apply (serves_command _ 16 SDM_BLOCK_SIZE None None SDM_MB_CMD16); try done; by split; [done|intros []]|].
  intros o cs c1 Hc1 (st & h & buf & -> & -> & Es & _). apply serves_set; [by apply ok_with_since|].
  apply serves_ret; [by apply ok_with_since|]. eexists _, _. split; [done|]. split; [done|]. cbn [cd_service with_since_init sv_info]. by rewrite Es.
Qed.

Lemma fatal_ok st : is_ok st && negb (fatal st) = is_ok st.
Proof. by destruct st. Qed.

Lemma initialize_serves c timeout r : card_ok c -> 0 <= timeout ->
  serves c (initialize_locked fuel timeout r) (fun o cs s => exists st r', o = Some (st, r') /\ init_body (cd_service c) timeout st cs s).
Proof.
  intros Hc HT. unfold initialize_locked. destruct (120000 <? timeout) eqn:E; bsimp.
  { eapply serves_mono; [by apply finished_serves|]. intros o cs s (-> & -> & Ep). eexists _, _. split; [done|]. injection Ep as E1 E2.
    split; [done|]. split; [done|]. left. split; [lia|]. split; [done|]. split; [done|]. rewrite E1. by rewrite andb_true_r. }
  apply serves_set; [by apply ok_with_info|]. apply serves_set; [by apply ok_with_since, ok_with_info|].
  eapply serves_bind; [apply serves_initialize; [by apply ok_with_since, ok_with_info|lia]|]. intros o cs c1 Hc1 (st & h & -> & -> & Es & _).
  cbn [fst snd default]. assert (phase (cd_service c1) = (false, ci_filesystem_owned (sv_info (cd_service c)))) as Ep1 by (by rewrite Es).
  injection Ep1 as R1 O1. destruct (is_ok st) eqn:Est; cbn [negb].
  2:{ eapply serves_mono; [by apply finished_serves|]. intros o cs s (-> & -> & Ep). eexists _, _. split; [done|]. injection Ep as E1 E2.
    split; [done|]. split; [congruence|]. right. split; [done|]. split; [by eexists _, _|]. by rewrite E1, R1, Est. }
  eapply serves_bind; [by apply qualify_serves|]. intros o cs c2 Hc2 (st2 & r2 & -> & Hw2 & O2). cbn [fst snd].
  apply serves_set; [by apply ok_with_info|]. eapply serves_mono; [apply finished_serves; by apply ok_with_info|].
  intros o cs3 s (-> & -> & Ep). eexists _, _. split; [done|]. injection Ep as E1 E2. cbn [cd_service with_info put_ready sv_info ci_ready ci_filesystem_owned] in E1, E2.
  split; [by rewrite app_nil_r; change (write_count cs = 0%nat)|]. split; [congruence|]. right. split; [done|]. split; [by eexists _, _|].
  by rewrite E1, fatal_ok.
Qed.

(** ** Verified writes *)

Lemma compare_ok b v r r' : compare b v r = (BVSTK_OK, r') -> alen b = SDM_BLOCK_SIZE -> alen v = SDM_BLOCK_SIZE -> b = v.
Proof.
  unfold compare. destruct (for_find _ _ _) eqn:E; [done|]. intros _ Hb Hv. rewrite for_find_None in E. unfold SDM_BLOCK_SIZE, alen in *.
  apply list_eq_same_length with (length v); [reflexivity|lia|]. intros i x y Hi Hx Hy. specialize (E (Z.of_nat i) ltac:(lia)). bsimp.
  unfold aget in E. rewrite Nat2Z.id, (list_lookup_total_correct _ _ _ Hx), (list_lookup_total_correct _ _ _ Hy) in E. done.
Qed.

Lemma compare_status b v r : fst (compare b v r) = BVSTK_OK \/ fst (compare b v r) = BVSTK_ERR_IO.
Proof. unfold compare. destruct (for_find _ _ _); auto. Qed.

(** One write and one read back of the same sector, each after an
    initialization where the profile asks for it, and a frame with a valid
    checksum that holds the block. *)
Definition verified (s0 : bvstk_sd_service_t X) (lba : Z) (block : list Z) (cs : calls) : Prop :=
  exists argument p1 p2 m, address s0 lba = Some argument /\ prep p1 /\ prep p2 /\
    cs = p1 ++ [(CCommand 24 argument (Some block), BVSTK_OK)] ++ p2 ++ [(CCommand 17 argument None, BVSTK_OK)] /\
    frame_valid m /\ block = prefix SDM_BLOCK_SIZE (frame_of m).

Definition write_body (lba : Z) (block : list Z) (s0 : bvstk_sd_service_t X) (st : bvstk_status_t) (cs : calls) (s : bvstk_sd_service_t X) : Prop :=
  phase s = after_status st s0 /\ (write_count cs <= 1)%nat /\ (st = BVSTK_OK -> verified s0 lba block cs).

Lemma verify_serves c lba block st r : card_ok c -> alen block = SDM_BLOCK_SIZE ->
  serves c (verify fuel lba block st r) (fun o cs s => exists st' r', o = Some (st', r') /\ sv_info s = sv_info (cd_service c) /\
    write_count cs = 0%nat /\ (st <> BVSTK_OK -> st' = st /\ cs = []) /\
    (st' = BVSTK_OK -> exists argument p m, address (cd_service c) lba = Some argument /\ prep p /\
       cs = p ++ [(CCommand 17 argument None, BVSTK_OK)] /\ frame_valid m /\ block = prefix SDM_BLOCK_SIZE (frame_of m))).
Proof.
  intros Hc Hb. unfold verify. destruct (is_ok st) eqn:Est; cbn [negb].
  2:{ apply serves_ret; [done|]. eexists _, _. split; [done|]. split; [done|]. split; [done|]. split; [done|]. by intros ->. }
  apply is_ok_true in Est as ->. eapply serves_bind; [by apply transfer_received_serves|].
  intros o cs c1 Hc1 (st1 & r1 & -> & E1 & E2 & E3 & (Hw & Hfail & Hok)). cbn [sends] in Hw. assert (write_count cs = 0%nat) as Hw0 by lia.
  cbn [fst snd]. destruct (is_ok st1) eqn:Est; cbn [negb].
  2:{ apply serves_ret; [done|]. eexists _, _. split; [done|]. rewrite app_nil_r. split; [done|]. split; [done|]. split; [done|]. by intros ->. }
  apply is_ok_true in Est as ->. destruct (Hok eq_refl) as (a & p & Ha & Hp & -> & m & Em & Hval). injection Em as Em.
  apply serves_get. apply serves_ret; [done|]. destruct (compare block _ r1) as [st2 r2] eqn:Ec. eexists _, _. split; [done|]. rewrite app_nil_r.
  split; [exact E1|]. split; [exact Hw0|]. split; [intros Hne; destruct (Hne eq_refl)|]. intros ->. exists a, p, m.
  split; [exact Ha|]. split; [exact Hp|]. split; [reflexivity|]. split; [exact Hval|].
  rewrite <- Em. apply (compare_ok _ _ _ _ Ec); [exact Hb|apply Hc1].
Qed.

Lemma write_block_serves c lba block filesystem : card_ok c -> alen block = SDM_BLOCK_SIZE ->
  serves c (write_block fuel true true lba (Some block) filesystem) (fun o cs s => exists st r, o = Some (st, Some r) /\
    op_post (cd_service c) true filesystem (write_body lba block (cd_service c)) st cs s).
Proof.
  intros Hc Hb. unfold write_block. apply begun_serves; [done|]. intros c1 r Hc1 Es Hbegin.
  eapply serves_bind; [apply (transfer_serves c1 lba (Some block) None); [done|split; [done|by eexists]|done]|].
  intros o cs c2 Hc2 (st & r2 & buf & -> & Hk & (Hw & Hfail & Hok)). cbn [sends] in Hw.
  eapply serves_bind; [by apply verify_serves|]. intros o cs2 c3 Hc3 (st3 & r3 & -> & Ei & Hw2 & Hskip & Hver). cbn [fst snd].
  eapply serves_mono; [by apply finished_serves|]. intros o cs3 s (-> & -> & Ep). eexists _, _. split; [done|]. rewrite app_nil_r.
  split; [|split].
  - rewrite Ep. unfold after_status. rewrite Ei. destruct Hk as (-> & _). by rewrite Es.
  - rewrite write_count_app. lia.
  - intros ->. destruct (decide (st = BVSTK_OK)) as [->|Hst]; [|destruct (Hskip Hst) as [E _]; by rewrite <- E in Hst].
    destruct (Hok eq_refl) as (a & p & Ha & Hp & -> & _). destruct (Hver eq_refl) as (a2 & p2 & m & Ha2 & Hp2 & -> & Hval & ->).
    exists a, p, p2, m. rewrite <- Es. split; [done|]. split; [done|]. split; [done|].
    assert (a2 = a) as ->. { unfold address in Ha, Ha2. destruct Hk as (Hk & _). rewrite Hk in Ha2. congruence. }
    split; [by rewrite <- app_assoc|]. by split.
Qed.

(** ** Reads and plain commands *)

Definition read_body (lba : Z) (buf0 : list Z) (s0 : bvstk_sd_service_t X) (buf : list Z) (st : bvstk_status_t) (cs : calls) (s : bvstk_sd_service_t X) : Prop :=
  phase s = after_status st s0 /\ write_count cs = 0%nat /\ (st <> BVSTK_OK -> buf = buf0) /\
  (st = BVSTK_OK -> exists argument p m, address s0 lba = Some argument /\ prep p /\
     cs = p ++ [(CCommand 17 argument None, BVSTK_OK)] /\ frame_valid m /\ buf = prefix SDM_BLOCK_SIZE (frame_of m)).

Lemma read_block_serves c lba buf0 filesystem : card_ok c -> alen buf0 = SDM_BLOCK_SIZE ->
  serves c (read_block fuel true true lba (Some buf0) filesystem) (fun o cs s => exists st r buf, o = Some (st, Some r, Some buf) /\
    op_post (cd_service c) true filesystem (read_body lba buf0 (cd_service c) buf) st cs s).
Proof.
  intros Hc Hb. unfold read_block. eapply serves_bind; [by apply begin_serves|]. intros o cs c1 Hc1 (-> & Es & st & r & -> & Hbegin).
  assert (st <> BVSTK_OK -> serves c1 (st_ret (Some (st, Some r, Some buf0))) (fun o cs s => exists st r buf, o = Some (st, Some r, Some buf) /\
    op_post (cd_service c) true filesystem (read_body lba buf0 (cd_service c) buf) st cs s)) as Href.
  { intros Hst. apply serves_ret; [done|]. eexists _, _, _. split; [done|]. left. auto. }
  cbn [app]. destruct st; try (by apply Href). clear Href.
  eapply serves_bind; [apply (transfer_serves c1 lba None (Some buf0)); [done|split; [by intros []|done]|by intros ? [= <-]]|].
  intros o cs c2 Hc2 (st & r2 & buf & -> & Hk & (Hw & Hfail & Hok)). cbn [sends] in Hw.
  eapply serves_bind; [by apply finish_serves|]. intros o cs2 c3 Hc3 (-> & -> & Ep & _). apply serves_ret; [done|]. cbn [fst snd].
  assert (exists b, buf = Some b) as [b ->].
  { destruct st; try (exists buf0; by apply Hfail). destruct (Hok eq_refl) as (? & ? & _ & _ & _ & m & -> & _). by eexists. }
  eexists _, _, _. split; [done|]. right. split; [done|]. rewrite !app_nil_r. split.
  { rewrite Ep. unfold after_status. destruct Hk as (-> & _). by rewrite Es. }
  split; [lia|]. split; [intros Hst; specialize (Hfail Hst); congruence|]. intros ->.
  destruct (Hok eq_refl) as (a & p & Ha & Hp & -> & m & Em & Hval). injection Em as ->. exists a, p, m. rewrite <- Es. auto.
Qed.

Definition plain_body (s0 : bvstk_sd_service_t X) (st : bvstk_status_t) (cs : calls) (s : bvstk_sd_service_t X) : Prop :=
  phase s = after_status st s0 /\ write_count cs = 0%nat.

Lemma simple_command_serves c cmd : card_ok c -> cmd = 13 \/ cmd = 16 ->
  serves c (simple_command fuel true true cmd) (fun o cs s => exists st r, o = Some (st, Some r) /\
    op_post (cd_service c) true false (plain_body (cd_service c)) st cs s).
Proof.
  intros Hc Hcmd. unfold simple_command. apply begun_serves; [done|]. intros c1 r Hc1 Es Hbegin.
  eapply serves_bind; [by apply prepare_serves|]. intros o cs c2 Hc2 (st & r2 & -> & (Ei & _) & Hw & _). destruct (is_ok st); cbn [negb].
  2:{ eapply serves_mono; [by apply finished_serves|]. intros o cs3 s (-> & -> & Ep). eexists _, _. split; [done|]. rewrite app_nil_r.
    split; [|done]. rewrite Ep. unfold after_status. by rewrite Ei, Es. }
  apply serves_set; [by apply ok_with_since|].
  assert (exists mailbox, mailbox_of cmd = Some mailbox) as [mailbox Hm] by (destruct Hcmd as [-> | ->]; by eexists).
  eapply serves_bind.
  { apply (serves_command _ cmd _ None None mailbox); [by apply ok_with_since|done| | |done]; (split; [intros ->; lia|by intros []]). }
  intros o cs2 c3 Hc3 (st3 & h & buf & -> & -> & Es3 & _). eapply serves_mono; [by apply finished_serves|].
  intros o cs3 s (-> & -> & Ep). eexists _, _. split; [done|]. rewrite app_nil_r. split.
  - rewrite Ep. unfold after_status. rewrite Es3. cbn [cd_service with_since_init sv_info]. by rewrite Ei, Es.
  - rewrite write_count_app, Hw. destruct Hcmd as [-> | ->]; done.
Qed.

(** ** The sector test *)

(** Successful commands on the sectors from [i] on, one each and in order. *)
Inductive covers (f : Z -> call -> Prop) : nat -> Z -> calls -> Prop :=
  | covers_O i : covers f 0 i []
  | covers_S n i p c cs : prep p -> f i c -> covers f n (i + 1) cs -> covers f (S n) i (p ++ (c, BVSTK_OK) :: cs).

Lemma covers_mono (f g : Z -> call -> Prop) n i cs : (forall j c, f j c -> g j c) -> covers f n i cs -> covers g n i cs.
Proof. intros Hfg Hc. induction Hc; constructor; auto. Qed.

Definition writes_sector (s0 : bvstk_sd_service_t X) (lba seed i : Z) (c : call) : Prop :=
  exists argument, address s0 (lba + i) = Some argument /\ c = CCommand 24 argument (Some (block_of (lba + i) seed)).
Definition reads_sector (s0 : bvstk_sd_service_t X) (lba seed i : Z) (c : call) : Prop :=
  exists argument m, address s0 (lba + i) = Some argument /\ c = CCommand 17 argument None /\
    frame_valid m /\ block_of (lba + i) seed = prefix SDM_BLOCK_SIZE (frame_of m).

Lemma address_info (s s' : bvstk_sd_service_t X) lba : sv_info s' = sv_info s -> address s' lba = address s lba.
Proof. unfold address. by intros ->. Qed.

Lemma test_writes_serves n c lba seed i r : card_ok c -> 0 <= lba -> 0 <= i -> lba + i + Z.of_nat n <= 2 ^ 32 ->
  serves c (test_writes n fuel lba seed i r) (fun o cs s => exists st r', o = Some (st, r') /\ sv_info s = sv_info (cd_service c) /\
    (write_count cs <= n)%nat /\ (st = BVSTK_OK -> covers (writes_sector (cd_service c) lba seed) n i cs)).
Proof.
  revert c i r. induction n as [|n IH]; intros c i r Hc Hlba Hi Hn; cbn [test_writes].
  { apply serves_ret; [done|]. eexists _, _. split; [done|]. split; [done|]. split; [done|]. intros _. constructor. }
  rewrite (u32_id (lba + i)) by lia. pose proof Hc as (_ & _ & _ & Hexp & _).
  apply serves_set; [apply ok_with_expected; [rewrite pattern_block by done; apply block_of_length|done]|]. apply serves_get.
  cbn [cd_service with_expected sv_expected]. rewrite (pattern_block _ _ _ Hexp).
  set (c0 := Card (with_expected (block_of (lba + i) seed) (cd_service c)) (cd_driver c)).
  assert (card_ok c0) as Hc0 by (apply ok_with_expected; [apply block_of_length|done]).
  eapply serves_bind; [apply (transfer_serves c0 (lba + i) (Some (block_of (lba + i) seed)) None); [done|split; [done|by eexists]|done]|].
  intros o cs c1 Hc1 (st & r1 & buf & -> & (Ei & _) & (Hw & Hfail & Hok)). cbn [sends] in Hw. cbn [cd_service c0 with_expected sv_info] in Ei.
  destruct (is_ok st) eqn:Est; cbn [negb].
  2:{ apply serves_ret; [done|]. eexists _, _. split; [done|]. rewrite app_nil_r. split; [done|]. split; [lia|]. by intros ->. }
  apply is_ok_true in Est as ->. destruct (Hok eq_refl) as (a & p & Ha & Hp & -> & _).
  eapply serves_mono; [apply IH; [done|lia|lia|lia]|]. intros o cs2 s (st2 & r2 & -> & Ei2 & Hw2 & Hcov). eexists _, _. split; [done|].
  split; [congruence|]. split; [rewrite !write_count_app in *; lia|]. intros ->. rewrite <- app_assoc. apply covers_S; [done| |].
  - exists a. split; [done|]. unfold command_of. by rewrite bool_decide_eq_true_2 by eauto.
  - eapply covers_mono; [|exact (Hcov eq_refl)]. intros j cl (a2 & Ha2 & ->). exists a2. by rewrite <- (address_info _ (cd_service c1)) by done.
Qed.

Lemma test_reads_serves n c lba seed i r : card_ok c -> 0 <= lba -> 0 <= i -> lba + i + Z.of_nat n <= 2 ^ 32 ->
  serves c (test_reads n fuel lba seed i r) (fun o cs s => exists st r', o = Some (st, r') /\ sv_info s = sv_info (cd_service c) /\
    write_count cs = 0%nat /\ (st = BVSTK_OK -> covers (reads_sector (cd_service c) lba seed) n i cs)).
Proof.
  revert c i r. induction n as [|n IH]; intros c i r Hc Hlba Hi Hn; cbn [test_reads].
  { apply serves_ret; [done|]. eexists _, _. split; [done|]. split; [done|]. split; [done|]. intros _. constructor. }
  rewrite (u32_id (lba + i)) by lia. eapply serves_bind; [by apply transfer_received_serves|].
  intros o cs c1 Hc1 (st & r1 & -> & Ei & _ & _ & (Hw & Hfail & Hok)). cbn [sends] in Hw. assert (write_count cs = 0%nat) as Hw0 by lia.
  destruct (is_ok st) eqn:Est; cbn [negb].
  2:{ apply serves_ret; [done|]. eexists _, _. split; [done|]. rewrite app_nil_r. split; [done|]. split; [done|]. by intros ->. }
  apply is_ok_true in Est as ->. destruct (Hok eq_refl) as (a & p & Ha & Hp & -> & m & Em & Hval). injection Em as Em.
  pose proof Hc1 as (_ & _ & _ & Hexp & Hrec).
  apply serves_set; [apply ok_with_expected; [rewrite pattern_block by exact Hexp; apply block_of_length|exact Hc1]|].
  rewrite (pattern_block _ _ _ Hexp). apply serves_get. unfold id. cbn [cd_service with_expected sv_expected sv_received].
  set (c2 := Card (with_expected (block_of (lba + i) seed) (cd_service c1)) (cd_driver c1)).
  assert (card_ok c2) as Hc2 by (apply ok_with_expected; [apply block_of_length|done]).
  destruct (compare (block_of (lba + i) seed) _ r1) as [st2 r2] eqn:Ec. destruct (is_ok st2) eqn:Est; cbn [negb].
  2:{ apply serves_ret; [exact Hc2|]. eexists _, _. split; [reflexivity|]. rewrite app_nil_r. split; [exact Ei|]. split; [exact Hw0|].
    intros E. rewrite E in Est. discriminate Est. }
  apply is_ok_true in Est as ->. eapply serves_mono; [apply IH; [exact Hc2|lia|lia|lia]|].
  intros o cs2 s (st3 & r3 & -> & Ei2 & Hw2 & Hcov). eexists _, _. split; [reflexivity|]. cbn [c2 cd_service with_expected sv_info] in Ei2.
  split; [congruence|]. split; [rewrite write_count_app; lia|]. intros ->. rewrite <- app_assoc. apply covers_S; [exact Hp| |].
  - exists a, m. split; [exact Ha|]. split; [reflexivity|]. split; [exact Hval|]. rewrite <- Em.
    apply (compare_ok _ _ _ _ Ec); [apply block_of_length|exact Hrec].
  - eapply covers_mono; [|exact (Hcov eq_refl)]. intros j cl (a2 & m2 & Ha2 & Hrest). exists a2, m2.
    rewrite <- (address_info _ (cd_service c1)) by exact Ei. exact (conj Ha2 Hrest).
Qed.

Definition test_body (lba count seed : Z) (s0 : bvstk_sd_service_t X) (st : bvstk_status_t) (cs : calls) (s : bvstk_sd_service_t X) : Prop :=
  phase s = after_status st s0 /\ (write_count cs <= 8)%nat /\
  (st = BVSTK_OK -> 1 <= count <= 8 /\ lba + count <= 2 ^ 32 /\ exists ws rs, cs = ws ++ rs /\
     covers (writes_sector s0 lba seed) (Z.to_nat count) 0 ws /\ covers (reads_sector s0 lba seed) (Z.to_nat count) 0 rs).

Lemma test_serves c lba count seed : card_ok c -> fits 32 lba -> fits 32 count ->
  serves c (bvstk_sd_service_test fuel true true lba count seed) (fun o cs s => exists st r, o = Some (st, Some r) /\
    op_post (cd_service c) true false (test_body lba count seed (cd_service c)) st cs s).
Proof.
  unfold fits. intros Hc Hlba Hcount. unfold bvstk_sd_service_test. apply begun_serves; [done|]. intros c1 r Hc1 Es Hbegin.
  apply serves_get. unfold id.
  assert (forall c' st r' cs s, phase s = after_status st (cd_service c') -> sv_info (cd_service c') = sv_info (cd_service c1) ->
    (write_count cs <= 8)%nat -> st <> BVSTK_OK -> exists st0 r0, Some (st, put_status st r') = Some (st0, r0) /\
      test_body lba count seed (cd_service c) st0 cs s) as Hbad.
  { intros c' st r' cs s Ep Ei Hw Hst. eexists _, _. split; [done|]. split; [|by split]. rewrite Ep. unfold after_status. by rewrite Ei, Es. }
  destruct (_ || _ || _ || _) eqn:E.
  { eapply serves_mono; [by apply finished_serves|]. intros o cs s (-> & -> & Ep). apply (Hbad c1); [done..|cbn; lia|done]. }
  bsimp. rewrite u32_id in * by lia. unfold UINT32_MAX in *.
  eapply serves_bind; [apply test_writes_serves; [done|lia|lia|lia]|]. intros o cs c2 Hc2 (st & r2 & -> & Ei2 & Hw2 & Hcov2). cbn [fst snd].
  destruct (is_ok st) eqn:Est; cbn [negb].
  2:{ eapply serves_mono; [by apply finished_serves|]. intros o cs3 s (-> & -> & Ep). rewrite app_nil_r. apply (Hbad c2); [done..|lia|by apply is_ok_false]. }
  apply is_ok_true in Est as ->. specialize (Hcov2 eq_refl).
  eapply serves_bind; [apply test_reads_serves; [done|lia|lia|lia]|]. intros o cs3 c3 Hc3 (st3 & r3 & -> & Ei3 & Hw3 & Hcov3). cbn [fst snd].
  eapply serves_mono; [by apply finished_serves|]. intros o cs4 s (-> & -> & Ep). rewrite app_nil_r. eexists _, _. split; [done|]. split.
  { rewrite Ep. unfold after_status. by rewrite Ei3, Ei2, Es. }
  split; [rewrite write_count_app; lia|]. intros ->. split; [lia|]. split; [lia|]. rewrite <- Es. exists cs, cs3. split; [done|]. split; [done|].
  eapply covers_mono; [|exact (Hcov3 eq_refl)]. intros j cl (a2 & m2 & Ha2 & Hrest). exists a2, m2.
  by rewrite <- (address_info _ (cd_service c2)) by done.
Qed.

(** ** The service as a machine *)

Definition op_result {A B} (m : ST (card X) (option (bvstk_status_t * A * B))) : ST (card X) (option bvstk_status_t) :=
  let? o := m in st_ret (Some (fst (fst o))).
Definition op_status {A} (m : ST (card X) (option (bvstk_status_t * A))) : ST (card X) (option bvstk_status_t) :=
  let? o := m in st_ret (Some (fst o)).

Inductive sd_op :=
  | OpInitialize (timeout : Z)
  | OpClaim
  | OpRead (lba : Z) (buf : list Z)
  | OpWrite (lba : Z) (block : list Z)
  | OpDiskRead (lba : Z) (buf : list Z)
  | OpDiskWrite (lba : Z) (block : list Z)
  | OpStatus
  | OpBlockLength
  | OpTest (lba count seed : Z).

Definition run_op (op : sd_op) : ST (card X) (option bvstk_status_t) :=
  match op with
  | OpInitialize timeout => op_status (bvstk_sd_service_initialize fuel true true timeout)
  | OpClaim => op_status (bvstk_sd_service_disk_claim fuel true true)
  | OpRead lba buf => op_result (bvstk_sd_service_read fuel true true lba (Some buf))
  | OpWrite lba block => op_status (bvstk_sd_service_write_verify fuel true true lba (Some block))
  | OpDiskRead lba buf => op_result (bvstk_sd_service_disk_read fuel true true lba (Some buf))
  | OpDiskWrite lba block => op_status (bvstk_sd_service_disk_write fuel true true lba (Some block))
  | OpStatus => op_status (bvstk_sd_service_card_status fuel true true)
  | OpBlockLength => op_status (bvstk_sd_service_block_length fuel true true)
  | OpTest lba count seed => op_status (bvstk_sd_service_test fuel true true lba count seed)
  end.

(** Blocks have 512 bytes, numbers fit their types. *)
Definition op_ok (op : sd_op) : Prop :=
  match op with
  | OpInitialize timeout => 0 <= timeout
  | OpRead _ b | OpWrite _ b | OpDiskRead _ b | OpDiskWrite _ b => alen b = SDM_BLOCK_SIZE
  | OpTest lba count _ => fits 32 lba /\ fits 32 count
  | _ => True
  end.

Definition disk_op (op : sd_op) : bool := match op with OpDiskRead _ _ | OpDiskWrite _ _ => true | _ => false end.
Definition moves_blocks (op : sd_op) : bool := match op with OpInitialize _ | OpClaim => false | _ => true end.
(** The blocks an operation may send to the card. *)
Definition write_limit (op : sd_op) : nat :=
  match op with OpWrite _ _ | OpDiskWrite _ _ => 1 | OpTest _ _ _ => 8 | _ => 0 end.

(** The abstract service: whether the card is ready, and whether the filesystem
    owns it. *)
Inductive sd_spec : bool * bool -> sd_op -> bvstk_status_t -> calls -> bool * bool -> Prop :=
  | spec_refused a op st : st <> BVSTK_OK -> sd_spec a op st [] a
  | spec_initialize ready timeout st cs : (exists st0 cs', cs = (CInit, st0) :: cs') -> write_count cs = 0%nat ->
      sd_spec (ready, false) (OpInitialize timeout) st cs (is_ok st, false)
  | spec_claim ready st cs : (exists st0 cs', cs = (CInit, st0) :: cs') -> write_count cs = 0%nat ->
      sd_spec (ready, false) OpClaim st cs (is_ok st, true)
  | spec_moves op st cs : moves_blocks op = true -> (write_count cs <= write_limit op)%nat ->
      sd_spec (true, disk_op op) op st cs (negb (fatal st), disk_op op).

Lemma dead_spec a op st cs a' : sd_spec a op st cs a' -> a = (false, true) -> cs = [] /\ a' = (false, true).
Proof. by intros [] E; simplify_eq. Qed.

Lemma op_status_serves {A} c (m : ST (card X) (option (bvstk_status_t * A))) (P : bvstk_status_t -> calls -> bvstk_sd_service_t X -> Prop) :
  serves c m (fun o cs s => exists st a, o = Some (st, a) /\ P st cs s) -> serves c (op_status m) (fun o cs s => exists st, o = Some st /\ P st cs s).
Proof.
  intros Hm. eapply serves_bind; [exact Hm|]. intros o cs c1 Hc1 (st & a & -> & HP). apply serves_ret; [done|]. exists st. by rewrite app_nil_r.
Qed.

Lemma op_result_serves {A B} c (m : ST (card X) (option (bvstk_status_t * A * B))) (P : bvstk_status_t -> calls -> bvstk_sd_service_t X -> Prop) :
  serves c m (fun o cs s => exists st a b, o = Some (st, a, b) /\ P st cs s) -> serves c (op_result m) (fun o cs s => exists st, o = Some st /\ P st cs s).
Proof.
  intros Hm. eapply serves_bind; [exact Hm|]. intros o cs c1 Hc1 (st & a & b & -> & HP). apply serves_ret; [done|]. exists st. by rewrite app_nil_r.
Qed.

(** The operations that move blocks refine the machine as their frames say. *)
Lemma moves_spec (s0 s : bvstk_sd_service_t X) op (body : bvstk_status_t -> calls -> bvstk_sd_service_t X -> Prop) st cs :
  moves_blocks op = true -> (forall st cs s, body st cs s -> phase s = after_status st s0 /\ (write_count cs <= write_limit op)%nat) ->
  op_post s0 true (disk_op op) body st cs s -> sd_spec (phase s0) op st cs (phase s).
Proof.
  intros Hop Hbody [(Hst & _ & -> & ->)|(Hb & H)]; [by apply spec_refused|]. apply Hbody in H as [-> Hw].
  unfold phase, after_status. inversion Hb as [Ho Hr| | |]; [|done]. rewrite Ho, (Hr eq_refl). by apply spec_moves.
Qed.

Lemma service_initialize_serves c timeout : card_ok c -> 0 <= timeout ->
  serves c (bvstk_sd_service_initialize fuel true true timeout) (fun o cs s => exists st r, o = Some (st, Some r) /\
    op_post (cd_service c) false false (init_body (cd_service c) timeout) st cs s).
Proof.
  intros Hc HT. apply begun_serves; [done|]. intros c1 r Hc1 Es Hb. rewrite <- Es. by apply initialize_serves.
Qed.

Lemma service_claim_serves c : card_ok c ->
  serves c (bvstk_sd_service_disk_claim fuel true true) (fun o cs s => exists st r, o = Some (st, Some r) /\
    op_post (cd_service c) false false (init_body (with_info (put_owned (sv_info (cd_service c))) (cd_service c)) 20000) st cs s).
Proof.
  intros Hc. apply begun_serves; [done|]. intros c1 r Hc1 Es Hb. apply serves_set; [by apply ok_with_info|]. rewrite <- Es.
  by apply (initialize_serves (Card (with_info (put_owned (sv_info (cd_service c1))) (cd_service c1)) (cd_driver c1))).
Qed.

Lemma initialize_spec (s0 s : bvstk_sd_service_t X) timeout st cs :
  op_post s0 false false (init_body s0 timeout) st cs s -> sd_spec (phase s0) (OpInitialize timeout) st cs (phase s).
Proof.
  intros [(Hst & _ & -> & ->)|(Hb & Hw & Ho & [(Hlt & -> & -> & Er)|(Hle & Hcs & Er)])]; [by apply spec_refused|..]; unfold phase; rewrite Er, Ho.
  - by apply spec_refused.
  - inversion Hb as [Ho' _| | |]; [|done]. rewrite Ho'. by apply spec_initialize.
Qed.

Lemma claim_spec (s0 s : bvstk_sd_service_t X) st cs :
  op_post s0 false false (init_body (with_info (put_owned (sv_info s0)) s0) 20000) st cs s -> sd_spec (phase s0) OpClaim st cs (phase s).
Proof.
  intros [(Hst & _ & -> & ->)|(Hb & Hw & Ho & [(Hlt & -> & -> & Er)|(Hle & Hcs & Er)])]; [by apply spec_refused|lia|]. unfold phase.
  rewrite Er, Ho. inversion Hb as [Ho' _| | |]; [|done]. rewrite Ho'. by apply spec_claim.
Qed.

Lemma run_op_serves c op : card_ok c -> op_ok op ->
  serves c (run_op op) (fun o cs s => exists st, o = Some st /\ sd_spec (phase (cd_service c)) op st cs (phase s)).
Proof.
  intros Hc Hop. destruct op as [timeout| |lba b|lba b|lba b|lba b| | |lba count seed]; cbn [run_op op_ok] in *.
  - apply op_status_serves. eapply serves_mono; [by apply service_initialize_serves|]. intros o cs s (st & r & -> & Hp).
    eexists _, _. split; [done|]. by apply initialize_spec.
  - apply op_status_serves. eapply serves_mono; [by apply service_claim_serves|]. intros o cs s (st & r & -> & Hp).
    eexists _, _. split; [done|]. by apply claim_spec.
  - apply op_result_serves. eapply serves_mono; [by apply (read_block_serves c lba b false)|]. intros o cs s (st & r & buf & -> & Hp).
    eexists _, _, _. split; [done|]. eapply (moves_spec _ _ (OpRead lba b)); [done| |exact Hp]. intros ? ? ? (Ep & Hw & _). split; [exact Ep|]. cbn. lia.
  - apply op_status_serves. eapply serves_mono; [by apply (write_block_serves c lba b false)|]. intros o cs s (st & r & -> & Hp).
    eexists _, _. split; [done|]. eapply (moves_spec _ _ (OpWrite lba b)); [done| |exact Hp]. intros ? ? ? (Ep & Hw & _). by split.
  - apply op_result_serves. eapply serves_mono; [by apply (read_block_serves c lba b true)|]. intros o cs s (st & r & buf & -> & Hp).
    eexists _, _, _. split; [done|]. eapply (moves_spec _ _ (OpDiskRead lba b)); [done| |exact Hp]. intros ? ? ? (Ep & Hw & _). split; [exact Ep|]. cbn. lia.
  - apply op_status_serves. eapply serves_mono; [by apply (write_block_serves c lba b true)|]. intros o cs s (st & r & -> & Hp).
    eexists _, _. split; [done|]. eapply (moves_spec _ _ (OpDiskWrite lba b)); [done| |exact Hp]. intros ? ? ? (Ep & Hw & _). by split.
  - apply op_status_serves. eapply serves_mono; [apply simple_command_serves; [done|by left]|]. intros o cs s (st & r & -> & Hp).
    eexists _, _. split; [done|]. eapply (moves_spec _ _ OpStatus); [done| |exact Hp]. intros ? ? ? (Ep & Hw). split; [exact Ep|]. cbn. lia.
  - apply op_status_serves. eapply serves_mono; [apply simple_command_serves; [done|by right]|]. intros o cs s (st & r & -> & Hp).
    eexists _, _. split; [done|]. eapply (moves_spec _ _ OpBlockLength); [done| |exact Hp]. intros ? ? ? (Ep & Hw). split; [exact Ep|]. cbn. lia.
  - apply op_status_serves. eapply serves_mono; [apply (test_serves c lba count seed); by destruct Hop|]. intros o cs s (st & r & -> & Hp).
    eexists _, _. split; [done|]. eapply (moves_spec _ _ (OpTest lba count seed)); [done| |exact Hp]. intros ? ? ? (Ep & Hw & _). by split.
Qed.

(** Operations one after the other. *)
Fixpoint run_ops (ops : list sd_op) : ST (card X) unit :=
  match ops with
  | [] => st_ret tt
  | op :: ops => run_op op ;; run_ops ops
  end.

(** C4: a verified write.  Whatever happens, [write_verify] sends its block to the
    card at most once.  It reports success only after one successful write
    command and one successful read command, both at the address of the sector,
    and only when the frame that was read back had a valid checksum and held the
    very bytes that were to be written. *)
Theorem sd_write_verified c lba block : card_ok c -> alen block = SDM_BLOCK_SIZE ->
  serves c (bvstk_sd_service_write_verify fuel true true lba (Some block)) (fun o cs s => exists st r, o = Some (st, Some r) /\
    (write_count cs <= 1)%nat /\
    (st = BVSTK_OK -> phase (cd_service c) = (true, false) /\ phase s = (true, false) /\ verified (cd_service c) lba block cs)).
Proof.
  intros Hc Hb. eapply serves_mono; [by apply (write_block_serves c lba block false)|]. intros o cs s (st & r & -> & Hp).
  eexists _, _. split; [done|]. destruct Hp as [(Hst & _ & -> & ->)|(Hbegin & Ep & Hw & Hok)]; [split; [cbn; lia|done]|]. split; [done|].
  intros ->. inversion Hbegin as [Ho Hr| | |]; [|done]. rewrite Ep. unfold phase, after_status. rewrite Ho, (Hr eq_refl). auto.
Qed.

(** C7: the service refines a machine of two flags.  Whatever an operation is asked
    to do, it is refused without a driver call and without a change, or it does
    what the flags allow: only the owner moves blocks, only while the card is
    ready; a fatal failure takes the readiness away; an initialization decides it
    afresh, is open to raw commands only, and writes no block; a claim makes the
    filesystem the owner, whatever becomes of it. *)
Theorem sd_service_refines c op : card_ok c -> op_ok op ->
  serves c (run_op op) (fun o cs s => exists st, o = Some st /\ sd_spec (phase (cd_service c)) op st cs (phase s)).
Proof. apply run_op_serves. Qed.

(** A failed card stays silent.  Once the filesystem owns a card that is not
    ready - because a transfer or the claim itself failed - no sequence of
    operations writes a register of the driver again. *)
Theorem sd_dead_card_silent c ops : card_ok c -> Forall op_ok ops -> phase (cd_service c) = (false, true) ->
  runs (run_ops ops) c (fun _ c' => card_ok c' /\ phase (cd_service c') = (false, true) /\ writes (card_log c') = writes (card_log c)).
Proof.
  intros Hc Hops Ep. revert c Hc Ep. induction Hops as [|op ops Hop Hops IH]; intros c Hc Ep; cbn [run_ops]; [by apply runs_ret|].
  apply runs_bind. pose proof (run_op_serves c op Hc Hop) as Hrun. unfold serves in Hrun. eapply runs_mono; [exact Hrun|].
  intros o c1 (cs & l & Hc1 & El & Ht & st & -> & Hs). rewrite Ep in Hs.
  destruct (dead_spec _ _ _ _ _ Hs eq_refl) as [-> Ep1].
  eapply runs_mono; [by apply IH|]. intros [] c2 (Hc2 & Ep2 & Ew). split; [done|]. split; [done|]. rewrite Ew, El, writes_app.
  assert (writes l = []) as -> by (by inversion Ht). by rewrite app_nil_r.
Qed.

(** The sector test.  When the test reports success, one to eight sectors were
    each written with a block of their own and each read back afterwards, every
    write before the first read; each frame that came back had a valid checksum and
    held the block of its own sector; and no two of these blocks are equal, so a
    card that maps two of the sectors to one place cannot pass. *)
Theorem sd_test_covers c lba count seed : card_ok c -> fits 32 lba -> fits 32 count ->
  serves c (bvstk_sd_service_test fuel true true lba count seed) (fun o cs s => exists st r, o = Some (st, Some r) /\
    (write_count cs <= 8)%nat /\
    (st = BVSTK_OK -> 1 <= count <= 8 /\ exists ws rs, cs = ws ++ rs /\
       covers (writes_sector (cd_service c) lba seed) (Z.to_nat count) 0 ws /\
       covers (reads_sector (cd_service c) lba seed) (Z.to_nat count) 0 rs /\
       forall i j, 0 <= i < count -> 0 <= j < count -> block_of (lba + i) seed = block_of (lba + j) seed -> i = j)).
Proof.
  intros Hc Hlba Hn. eapply serves_mono; [by apply (test_serves c lba count seed)|]. intros o cs s (st & r & -> & Hp).
  eexists _, _. split; [done|]. destruct Hp as [(Hst & _ & -> & ->)|(_ & _ & Hw & Hok)]; [split; [cbn; lia|done]|]. split; [done|].
  intros Hst. destruct (Hok Hst) as (Hcount & Hmax & ws & rs & E1 & E2 & E3). split; [done|]. exists ws, rs. split; [done|]. split; [done|]. split; [done|].
  intros i j Hi Hj He. unfold fits in *. apply block_of_inj in He; unfold fits; lia.
Qed.
End safety.

(** ** Concrete runs *)

#[local] Existing Instance demo_sd_platform.

(** A ready card of the demonstration driver. *)
Definition demo_card : card (list io * Z) :=
  Card (SdService true (Mutex None None) (CardInfo true true false 0xC0FF8000 fresh_result) false false (fill SDM_BLOCK_SIZE 0) (fill SDM_BLOCK_SIZE 1))
    (SdState demo_sd_driver ([], 0)).
Definition demo_card_fuel : nat := Z.to_nat 120001.

Lemma demo_card_mutex : forall t (x : list io * Z),
  owned fst demo_sd_config (snd (bvstk_mutex_lock (Some (Mutex None None)) t x)) = owned fst demo_sd_config x /\
  owned fst demo_sd_config (bvstk_mutex_unlock (Some (Mutex None None)) x) = owned fst demo_sd_config x.
Proof. done. Qed.

Lemma demo_card_enough : 120000 < Z.of_nat demo_card_fuel.
Proof. unfold demo_card_fuel. rewrite Z2Nat.id; lia. Qed.

Lemma demo_card_ok : card_ok demo_sd_driver (Mutex None None) demo_card.
Proof. repeat split. Qed.

(** A block of zeros is written and verified. *)
Example demo_write :
  match fst (bvstk_sd_service_write_verify demo_card_fuel true true 7 (Some (fill SDM_BLOCK_SIZE 0)) demo_card) with
  | Some (st, _) => st = BVSTK_OK
  | None => False
  end.
Proof. vm_compute. reflexivity. Qed.

Lemma sd_write_verified_witness :
  serves fst demo_sd_driver (Mutex None None) demo_card (bvstk_sd_service_write_verify demo_card_fuel true true 7 (Some (fill SDM_BLOCK_SIZE 0)))
    (fun o cs s => exists st r, o = Some (st, Some r) /\ (write_count cs <= 1)%nat /\
      (st = BVSTK_OK -> phase (cd_service demo_card) = (true, false) /\ phase s = (true, false) /\
        verified (cd_service demo_card) 7 (fill SDM_BLOCK_SIZE 0) cs)).
Proof.
  exact (sd_write_verified fst snd demo_sd_driver demo_sd_laws demo_sd_usable (Mutex None None) demo_card_mutex demo_card_fuel demo_card_enough
    demo_card 7 (fill SDM_BLOCK_SIZE 0) demo_card_ok eq_refl).
Defined.

Lemma sd_service_refines_witness :
  serves fst demo_sd_driver (Mutex None None) demo_card (run_op demo_card_fuel OpClaim)
    (fun o cs s => exists st, o = Some st /\ sd_spec (true, false) OpClaim st cs (phase s)).
Proof.
  exact (sd_service_refines fst snd demo_sd_driver demo_sd_laws demo_sd_usable (Mutex None None) demo_card_mutex demo_card_fuel demo_card_enough
    demo_card OpClaim demo_card_ok I).
Defined.

(** The same card after a failed claim. *)
Definition demo_dead_card : card (list io * Z) :=
  Card (with_info (CardInfo false true true 0xC0FF8000 fresh_result) (cd_service demo_card)) (cd_driver demo_card).

Lemma sd_dead_card_silent_witness :
  runs (run_ops demo_card_fuel [OpInitialize 1000; OpClaim; OpDiskRead 0 (fill SDM_BLOCK_SIZE 0); OpStatus]) demo_dead_card (fun _ c' =>
    card_ok demo_sd_driver (Mutex None None) c' /\ phase (cd_service c') = (false, true) /\ writes (card_log fst demo_sd_driver c') = []).
Proof.
  apply (sd_dead_card_silent fst snd demo_sd_driver demo_sd_laws demo_sd_usable (Mutex None None) demo_card_mutex demo_card_fuel demo_card_enough
    demo_dead_card); [repeat split|repeat constructor; cbn; lia|reflexivity].
Defined.

Lemma sd_test_covers_witness :
  serves fst demo_sd_driver (Mutex None None) demo_card (bvstk_sd_service_test demo_card_fuel true true 5 2 3)
    (fun o cs s => exists st r, o = Some (st, Some r) /\ (write_count cs <= 8)%nat /\
    (st = BVSTK_OK -> 1 <= 2 <= 8 /\ exists ws rs, cs = ws ++ rs /\
       covers (writes_sector (cd_service demo_card) 5 3) 2 0 ws /\ covers (reads_sector (cd_service demo_card) 5 3) 2 0 rs /\
       forall i j, 0 <= i < 2 -> 0 <= j < 2 -> block_of (5 + i) 3 = block_of (5 + j) 3 -> i = j)).
Proof.
  apply (sd_test_covers fst snd demo_sd_driver demo_sd_laws demo_sd_usable (Mutex None None) demo_card_mutex demo_card_fuel demo_card_enough
    demo_card 5 2 3 demo_card_ok); (split; [lia|reflexivity]).
Defined.
