(* ===== verification/FsPath.v ===== *)
(** * FsPath: the names of files at the file boundary

    [src/src/services/fs/bvstk_fs_reader.c], first part, with the types of
    [bvstk_fs_reader.h]: UTF-8, components of a path, and the paths a host may
    name.  Text is a list of bytes; where the code walks it with a position and a
    size, the list is what remains. *)
From stdpp Require Import prelude.
From Stdlib Require Import ZArith Lia.
From Stdlib Require String.
Import String.StringSyntax.
From S2P Require Import Prelude Text JsonReader JsonGrammar.
Local Open Scope Z_scope.

Definition BVSTK_FS_PATH_CAPACITY : Z := 512.
Definition BVSTK_FS_MAX_DEPTH : Z := 16.

Inductive bvstk_fs_result_t : Type :=
  | BVSTK_FS_OK
  | BVSTK_FS_INVALID
  | BVSTK_FS_RANGE
  | BVSTK_FS_NOT_FOUND
  | BVSTK_FS_NOT_READY
  | BVSTK_FS_TYPE_ERROR
  | BVSTK_FS_IO
  | BVSTK_FS_CHANGED
  | BVSTK_FS_BUSY
  | BVSTK_FS_UNSUPPORTED.

#[export] Instance fs_result_eq_dec : EqDecision bvstk_fs_result_t.
Proof. solve_decision. Defined.

Definition fs_ok (rc : bvstk_fs_result_t) : bool := bool_decide (rc = BVSTK_FS_OK).

(** The anonymous enumerations: kinds of a reader, flags, types of entries. *)
Definition BVSTK_FS_FILE : Z := 1.
Definition BVSTK_FS_TREE : Z := 2.
Definition BVSTK_FS_TAR : Z := 3.
Definition BVSTK_FS_RECURSIVE : Z := 1.
Definition BVSTK_FS_ENTRY_FILE : Z := 1.
Definition BVSTK_FS_ENTRY_DIR : Z := 2.

(** ** UTF-8 *)

(** [n], the bits of the first byte, and the least value of this length. *)
Definition lead (c : Z) : option (Z * Z * Z) :=
  if (0xC2 <=? c) && (c <=? 0xDF) then Some (2, Z.land c 31, 0x80)
  else if (0xE0 <=? c) && (c <=? 0xEF) then Some (3, Z.land c 15, 0x800)
  else if (0xF0 <=? c) && (c <=? 0xF4) then Some (4, Z.land c 7, 0x10000)
  else None.

Fixpoint continuation (k : nat) (data : chars) (value : Z) : option Z :=
  match k, data with
  | O, _ => Some value
  | S k, d :: data =>
      if negb (Z.land d 0xC0 =? 0x80) then None
      else continuation k data (Z.lor (u32 (Z.shiftl value 6)) (Z.land d 63))
  | S _, [] => None
  end.

(** The pointers are given; the result is what is stored at [used] and [cp]. *)
Definition bvstk_fs_utf8_decode (data : chars) : option (Z * Z) :=
  match data with
  | [] => None
  | c :: rest =>
      if c <? 0x80 then Some (1, c)
      else
        match lead c with
        | None => None
        | Some (n, value, minimum) =>
            if alen data <? n then None
            else
              match continuation (Z.to_nat (n - 1)) rest value with
              | None => None
              | Some value =>
                  if (value <? minimum) || (0x10FFFF <? value) || (0xD800 <=? value) && (value <=? 0xDFFF) then None
                  else Some (n, value)
              end
        end
  end.

(** ** Components and paths *)

Definition refused_char (cp : Z) : bool :=
  (cp <? 32) || (cp =? 127) || (cp =? 47) || (cp =? 92) || (cp =? 58) || (cp =? 42) || (cp =? 63) ||
  (cp =? 34) || (cp =? 60) || (cp =? 62) || (cp =? 124).

(** The loop; a character takes at least a byte, so [length name] rounds do. *)
Fixpoint component_loop (fuel : nat) (name : chars) : bool :=
  match name with
  | [] => true
  | _ =>
      match fuel with
      | O => false
      | S fuel =>
          match bvstk_fs_utf8_decode name with
          | None => false
          | Some (used, cp) => if refused_char cp then false else component_loop fuel (drop (Z.to_nat used) name)
          end
      end
  end.

Definition valid_component (name : chars) : bool :=
  if (alen name =? 0) || (alen name =? 1) && (name.[0] =? 46) ||
     (alen name =? 2) && (name.[0] =? 46) && (name.[1] =? 46) then false
  else component_loop (length name) name.

Definition volume_char (c : Z) : bool :=
  (97 <=? c) && (c <=? 122) || (48 <=? c) && (c <=? 57) || (c =? 45).

(** The first loop: [colon], unless a character before it is refused. *)
Fixpoint find_colon (data : chars) (colon : Z) : option Z :=
  match data with
  | [] => Some colon
  | c :: data =>
      if c =? 58 then Some colon
      else if negb (volume_char c) then None
      else find_colon data (colon + 1)
  end.

(** The second loop: [cur] is the text from [start] to [pos], [rest] the text
    from [pos] on. *)
Fixpoint components_loop (cur rest : chars) : bool :=
  match rest with
  | [] => match cur with [] => true | _ => valid_component cur end
  | c :: rest =>
      if c =? 47 then
        match cur with
        | [] => false
        | _ => if valid_component cur then components_loop [] rest else false
        end
      else components_loop (cur ++ [c]) rest
  end.

(** [inr] is the text left in [out], which is not written otherwise. *)
Definition bvstk_fs_validate_path (data : chars) (capacity : Z) : bvstk_fs_result_t + chars :=
  let size := alen data in
  if size =? 0 then inl BVSTK_FS_INVALID
  else if (capacity <=? size) || (BVSTK_FS_PATH_CAPACITY <=? size) then inl BVSTK_FS_RANGE
  else
    match find_colon data 0 with
    | None => inl BVSTK_FS_INVALID
    | Some colon =>
        if (colon =? 0) || (16 <=? colon) || (size <=? colon + 1) || negb (data.[colon + 1] =? 47) then
          inl BVSTK_FS_INVALID
        else if negb (components_loop [] (drop (Z.to_nat (colon + 2)) data)) then inl BVSTK_FS_INVALID
        else
          let size := if (colon + 2 <? size) && (data.[size - 1] =? 47) then size - 1 else size in
          inr (prefix size data)
    end.

(** ** What they decide *)

(** Scalar values with NUL, and the text of a list of them. *)
Definition code_point (cp : Z) : Prop := 0 <= cp <= 0x10FFFF /\ ~ (0xD800 <= cp <= 0xDFFF).
Definition text_of (cps : list Z) : chars := mjoin (utf8 <$> cps).

(** A character of a name: no control character, no separator, no wild card. *)
Definition name_char (cp : Z) : Prop :=
  32 <= cp /\ cp <> 127 /\ Forall (fun c => cp <> c) [47; 92; 58; 42; 63; 34; 60; 62; 124].

(** A component names one entry of a directory: well-formed text of such
    characters, and neither [.] nor [..]. *)
Definition good_component (name : chars) : Prop :=
  (exists cps, name = text_of cps /\ Forall (fun cp => code_point cp /\ name_char cp) cps) /\
  name <> [] /\ name <> [46] /\ name <> [46; 46].

Definition good_volume (vol : chars) : Prop :=
  vol <> [] /\ alen vol < 16 /\ Forall (fun c => volume_char c = true) vol.

Fixpoint join (comps : list chars) : chars :=
  match comps with
  | [] => []
  | [c] => c
  | c :: comps => c ++ 47 :: join comps
  end.

(** [volume:/component/component]. *)
Definition path_text (vol : chars) (comps : list chars) : chars := vol ++ 58 :: 47 :: join comps.

(** ** UTF-8 is decoded exactly *)

Lemma lead_lead c :
  lead c = match utf8_lead c with Some (v, k, m) => Some (Z.of_nat k + 1, v, m) | None => None end.
Proof. unfold lead, utf8_lead. by repeat case_match. Qed.

Lemma continuation_tail k data v : continuation k data v = fst <$> utf8_tail k data v.
Proof. revert data v. induction k as [|k IH]; intros [|d data] v; try done. cbn. destruct (negb _); [done|]. apply IH. Qed.

Lemma utf8_tail_length k data v r : utf8_tail k data v = Some r -> alen data = Z.of_nat k + alen r.2.
Proof.
  revert data v. induction k as [|k IH]; intros [|d data] v; cbn; try done.
  - by intros [= <-].
  - by intros [= <-].
  - destruct (negb _); [done|]. intros H. apply IH in H. unfold alen in *. cbn. lia.
Qed.

Lemma decode_long c rest :
  0x80 <= c ->
  bvstk_fs_utf8_decode (c :: rest) =
  match utf8_decode c rest with
  | Some (cp, q) =>
      if (0x10FFFF <? cp) || (0xD800 <=? cp) && (cp <=? 0xDFFF) then None else Some (1 + alen rest - alen q, cp)
  | None => None
  end.
Proof.
  intros Hc. unfold bvstk_fs_utf8_decode, utf8_decode. rewrite (proj2 (Z.ltb_ge _ _)), lead_lead by lia.
  destruct (utf8_lead c) as [[[v k] m]|]; [|done].
  replace (alen (c :: rest) <? Z.of_nat k + 1) with (alen rest <? Z.of_nat k)
    by (unfold alen; cbn [length]; destruct (Z.ltb_spec (Z.of_nat (length rest)) (Z.of_nat k)), (Z.ltb_spec (Z.of_nat (S (length rest))) (Z.of_nat k + 1)); done || lia).
  destruct (_ <? _); [done|]. replace (Z.to_nat (Z.of_nat k + 1 - 1)) with k by lia. rewrite continuation_tail.
  destruct (utf8_tail k rest v) as [[cp q]|] eqn:E; [|done]. apply utf8_tail_length in E. cbn in *.
  destruct (cp <? m); [done|]. cbn. destruct (_ || _); [done|]. do 2 f_equal. lia.
Qed.

Lemma utf8_some cp : utf8 cp <> [].
Proof. unfold utf8. by repeat case_match. Qed.

Lemma utf8_decode_text cp rest :
  code_point cp -> bvstk_fs_utf8_decode (utf8 cp ++ rest) = Some (alen (utf8 cp), cp).
Proof.
  intros [Hs Hn]. destruct (Z.ltb_spec cp 0x80) as [Hlt|Hge].
  - unfold utf8. rewrite (proj2 (Z.ltb_lt _ _)) by done. cbn. by rewrite (proj2 (Z.ltb_lt _ _)).
  - destruct (utf8_decode_complete cp rest) as (c & q & -> & Hc & _ & Hd); [split; [lia|done]|done|].
    cbn [app]. rewrite decode_long, Hd by lia.
    assert ((0x10FFFF <? cp) = false) as -> by (apply Z.ltb_ge; lia).
    destruct ((0xD800 <=? cp) && (cp <=? 0xDFFF)) eqn:E; [apply andb_true_iff in E as [? ?]; bsimp; lia|].
    cbn. unfold alen. rewrite length_app. cbn. do 2 f_equal. lia.
Qed.

Lemma utf8_decode_only data n cp :
  Forall byte data -> bvstk_fs_utf8_decode data = Some (n, cp) ->
  code_point cp /\ data = utf8 cp ++ drop (Z.to_nat n) data /\ n = alen (utf8 cp).
Proof.
  intros Hb Hd. destruct data as [|c rest]; [done|]. inversion_clear Hb as [|? ? Hc Hr].
  destruct (Z.ltb_spec c 0x80) as [Hlt|Hge].
  - cbn in Hd. rewrite (proj2 (Z.ltb_lt _ _)) in Hd by done. injection Hd as <- <-. unfold byte in Hc.
    unfold code_point, utf8. rewrite (proj2 (Z.ltb_lt _ _)) by done. split; [lia|]. by split.
  - rewrite decode_long in Hd by done. destruct (utf8_decode c rest) as [[cp' q]|] eqn:E; [|done].
    destruct (_ || _) eqn:Er in Hd; [done|]. injection Hd as Hn ->.
    apply utf8_decode_sound in E as [Hlo E]; [|done|done]. apply orb_false_iff in Er as [E1 E2]. bsimp.
    assert (n = alen (utf8 cp)) as ->.
    { rewrite <- Hn. apply (f_equal length) in E. rewrite length_app in E. cbn in E. unfold alen. lia. }
    split; [|split; [|done]].
    + split; [lia|]. intros [Ha Hb]. apply andb_false_iff in E2 as [E2|E2]; bsimp; lia.
    + rewrite E. unfold alen. by rewrite Nat2Z.id, drop_app_length.
Qed.

Theorem utf8_decode_iff data n cp :
  Forall byte data ->
  bvstk_fs_utf8_decode data = Some (n, cp) <->
  code_point cp /\ exists rest, data = utf8 cp ++ rest /\ n = alen (utf8 cp).
Proof.
  intros Hb. split.
  - intros H. apply utf8_decode_only in H as (Hs & Hd & Hn); [|done]. eauto.
  - intros (Hs & rest & -> & ->). by apply utf8_decode_text.
Qed.

(** ** Components *)

Lemma text_of_cons cp cps : text_of (cp :: cps) = utf8 cp ++ text_of cps.
Proof. done. Qed.

Lemma refused_char_iff cp : refused_char cp = false <-> name_char cp.
Proof.
  unfold refused_char, name_char. rewrite !orb_false_iff, !Z.eqb_neq, Z.ltb_ge. rewrite !Forall_cons, Forall_nil. tauto.
Qed.

Lemma component_loop_iff fuel name :
  Forall byte name -> (length name <= fuel)%nat ->
  component_loop fuel name = true <->
  exists cps, name = text_of cps /\ Forall (fun cp => code_point cp /\ name_char cp) cps.
Proof.
  setoid_rewrite <- refused_char_iff. revert name. induction fuel as [|fuel IH]; intros name Hb Hf.
  { destruct name; [|cbn in Hf; lia]. split; [intros _; by exists []|done]. }
  destruct name as [|c rest]; [split; [intros _; by exists []|done]|].
  remember (c :: rest) as name eqn:En. assert (component_loop (S fuel) name =
    match bvstk_fs_utf8_decode name with
    | None => false
    | Some (used, cp) => if refused_char cp then false else component_loop fuel (drop (Z.to_nat used) name)
    end) as -> by (by subst).
  split.
  - destruct (bvstk_fs_utf8_decode name) as [[used cp]|] eqn:E; [|done].
    apply utf8_decode_only in E as (Hs & Hd & Hu); [|done]. destruct (refused_char cp) eqn:Er; [done|].
    pose proof (utf8_some cp) as Hne.
    intros Hl. apply IH in Hl as (cps & Hc & Hf').
    + exists (cp :: cps). rewrite text_of_cons, <- Hc. split; [done|]. by constructor.
    + by apply Forall_drop.
    + apply (f_equal length) in Hd. rewrite length_app in Hd. destruct (utf8 cp); [done|]. cbn in Hd. lia.
  - intros ([|cp cps] & Hn & Hf'); [by subst|]. inversion_clear Hf' as [|? ? [Hs Hr] Hcps].
    rewrite text_of_cons in Hn. rewrite Hn, utf8_decode_text, Hr by done.
    unfold alen. rewrite Nat2Z.id, drop_app_length. rewrite Hn in Hb, Hf.
    apply Forall_app in Hb as [_ Hb]. rewrite length_app in Hf. pose proof (utf8_some cp) as Hne.
    apply IH; [done| |eauto]. destruct (utf8 cp); [done|]. cbn in Hf. lia.
Qed.

Lemma valid_component_iff name : Forall byte name -> valid_component name = true <-> good_component name.
Proof.
  intros Hb. unfold valid_component, good_component.
  pose proof (component_loop_iff (length name) name Hb (le_n _)) as Hl.
  destruct name as [|a [|b [|c name]]].
  - split; [done|]. by intros (_ & ? & _).
  - change (alen [a]) with 1. cbn [Z.eqb Pos.eqb orb andb]. change ([a].[0]) with a. rewrite orb_false_r.
    destruct (Z.eqb_spec a 46) as [->|Hne]; [split; [done|by intros (_ & _ & ? & _)]|].
    rewrite Hl. split; [|by intros [? _]]. intros H. split; [done|]. repeat split; congruence.
  - change (alen [a; b]) with 2. cbn [Z.eqb Pos.eqb orb andb]. change ([a; b].[0]) with a. change ([a; b].[1]) with b.
    destruct (Z.eqb_spec a 46) as [->|Hne]; [destruct (Z.eqb_spec b 46) as [->|Hne]|]; cbn [andb].
    + split; [done|by intros (_ & _ & _ & ?)].
    + rewrite Hl. split; [|by intros [? _]]. intros H. split; [done|]. repeat split; congruence.
    + rewrite Hl. split; [|by intros [? _]]. intros H. split; [done|]. repeat split; congruence.
  - assert (forall k, (0 <= k <= 2) -> (alen (a :: b :: c :: name) =? k) = false) as Ha.
    { intros k Hk. apply Z.eqb_neq. unfold alen. cbn. lia. }
    rewrite !Ha by lia. cbn [orb andb]. rewrite Hl. split; [|by intros [? _]]. intros H. by split.
Qed.

(** No byte of an encoded character is a slash but the slash itself. *)
Lemma utf8_no_slash cp : code_point cp -> cp <> 47 -> 47 ∉ utf8 cp.
Proof.
  intros [Hs _] Hne. unfold utf8. pose proof (Z.mod_pos_bound cp 64 ltac:(lia)).
  pose proof (Z.mod_pos_bound (cp `div` 64) 64 ltac:(lia)). pose proof (Z.mod_pos_bound (cp `div` 4096) 64 ltac:(lia)).
  pose proof (Z.div_pos cp 64 ltac:(lia) ltac:(lia)). pose proof (Z.div_pos cp 4096 ltac:(lia) ltac:(lia)).
  pose proof (Z.div_pos cp 262144 ltac:(lia) ltac:(lia)).
  repeat case_match; rewrite ?not_elem_of_cons; repeat split; try lia; apply not_elem_of_nil.
Qed.

Lemma good_component_no_slash name : good_component name -> 47 ∉ name.
Proof.
  intros ((cps & -> & Hf) & _). induction Hf as [|cp cps [Hs Hr] _ IH]; [apply not_elem_of_nil|].
  rewrite text_of_cons, not_elem_of_app. split; [|done]. apply utf8_no_slash; [done|]. intros ->. by apply refused_char_iff in Hr.
Qed.

(** ** Paths *)

Definition slash_text (slash : bool) : chars := if slash then [47] else [].

Lemma join_nil_iff comps : Forall good_component comps -> join comps = [] -> comps = [].
Proof.
  intros Hf. destruct comps as [|c [|d comps]]; [done| |]; cbn; intros He; [|by destruct c].
  inversion_clear Hf as [|? ? (_ & Hne & _) _]. done.
Qed.

Lemma components_loop_skip cur s rest :
  47 ∉ s -> components_loop cur (s ++ rest) = components_loop (cur ++ s) rest.
Proof.
  revert cur. induction s as [|c s IH]; intros cur Hs; [by rewrite app_nil_r|].
  apply not_elem_of_cons in Hs as [Hc Hs]. cbn. rewrite (proj2 (Z.eqb_neq c 47)) by congruence.
  by rewrite IH, <- app_assoc.
Qed.

Lemma components_loop_complete comps slash :
  Forall (fun c => valid_component c = true /\ c <> [] /\ 47 ∉ c) comps -> (slash = true -> comps <> []) ->
  components_loop [] (join comps ++ slash_text slash) = true.
Proof.
  intros Hf Hs. induction Hf as [|c comps (Hv & Hne & Hsl) Hf IH].
  { destruct slash; [by destruct (Hs eq_refl)|done]. }
  destruct comps as [|d comps].
  - cbn [join]. rewrite components_loop_skip by done. cbn. destruct slash; cbn; rewrite Hv; by destruct c.
  - change (join (c :: d :: comps)) with (c ++ 47 :: join (d :: comps)). rewrite <- app_assoc, components_loop_skip by done.
    cbn [app components_loop Z.eqb Pos.eqb]. rewrite Hv. destruct c; [done|]. by apply IH.
Qed.

Lemma components_loop_sound cur rest :
  components_loop cur rest = true ->
  exists comps slash, cur ++ rest = join comps ++ slash_text slash /\
    (slash = true -> comps <> []) /\ (cur <> [] -> comps <> []) /\
    (forall c, c ∈ comps -> valid_component c = true).
Proof.
  revert cur. induction rest as [|c rest IH]; intros cur; cbn [components_loop].
  - destruct cur as [|a cur]; intros H.
    + exists [], false. split; [done|]. split; [done|]. split; [done|]. intros c Hc. by apply not_elem_of_nil in Hc.
    + exists [a :: cur], false. cbn. split; [done|]. split; [done|]. split; [done|]. intros c Hc.
      apply list_elem_of_singleton in Hc. by subst.
  - destruct (Z.eqb_spec c 47) as [->|Hne].
    + destruct cur as [|a cur]; [done|]. destruct (valid_component (a :: cur)) eqn:Ev; [|done]. intros H.
      apply IH in H as (comps & slash & He & Hs & _ & Hall). cbn [app] in He.
      destruct comps as [|d comps].
      * destruct slash; [by destruct (Hs eq_refl)|]. cbn in He. subst rest. exists [a :: cur], true. cbn.
        split; [done|]. split; [done|]. split; [done|]. intros c Hc. apply list_elem_of_singleton in Hc. by subst.
      * exists ((a :: cur) :: d :: comps), slash.
        change (join ((a :: cur) :: d :: comps)) with ((a :: cur) ++ 47 :: join (d :: comps)).
        rewrite He, <- app_assoc. split; [done|]. split; [done|]. split; [done|]. intros c Hc.
        apply elem_of_cons in Hc as [->|Hc]; [done|]. by apply Hall.
    + intros H. apply IH in H as (comps & slash & He & Hs & Hc & Hall). exists comps, slash.
      rewrite <- app_assoc in He. split; [done|]. split; [done|]. split; [|done]. intros _. apply Hc. by destruct cur.
Qed.

Lemma find_colon_shift data k : find_colon data k = (fun n => n + k) <$> find_colon data 0.
Proof.
  revert k. induction data as [|c data IH]; intros k; cbn; [done|].
  destruct (c =? 58); [done|]. destruct (negb _); [done|]. rewrite (IH (k + 1)), (IH (0 + 1)).
  destruct (find_colon data 0); cbn; [f_equal; lia|done].
Qed.

Lemma find_colon_complete vol rest :
  Forall (fun c => volume_char c = true) vol -> find_colon (vol ++ 58 :: rest) 0 = Some (alen vol).
Proof.
  induction 1 as [|c vol Hc _ IH]; [done|]. cbn. assert ((c =? 58) = false) as ->.
  { apply Z.eqb_neq. intros ->. done. }
  rewrite Hc. cbn. rewrite find_colon_shift, IH. cbn. f_equal. unfold alen. cbn. lia.
Qed.

Lemma find_colon_sound data n :
  find_colon data 0 = Some n ->
  exists vol rest, alen vol = n /\ Forall (fun c => volume_char c = true) vol /\
    (data = vol \/ data = vol ++ 58 :: rest).
Proof.
  revert n. induction data as [|c data IH]; intros n; cbn.
  { intros [= <-]. exists [], []. split; [done|]. split; [done|]. by left. }
  destruct (Z.eqb_spec c 58) as [->|Hne].
  { intros [= <-]. exists [], data. split; [done|]. split; [done|]. by right. }
  destruct (negb _) eqn:Ec; [done|]. apply negb_false_iff in Ec. rewrite find_colon_shift.
  destruct (find_colon data 0) as [m|]; [|done]. cbn. intros [= <-].
  destruct (IH m eq_refl) as (vol & rest & Hn & Hf & Hd). exists (c :: vol), rest.
  split; [unfold alen in *; cbn; lia|]. split; [by constructor|]. destruct Hd as [->| ->]; [by left|by right].
Qed.

Lemma join_last comps :
  Forall good_component comps -> comps <> [] -> exists l c, join comps = l ++ [c] /\ c <> 47.
Proof.
  induction 1 as [|c comps Hc Hf IH]; [done|]. intros _. destruct comps as [|d comps].
  - cbn. pose proof (good_component_no_slash c Hc) as Hs. destruct Hc as (_ & Hne & _).
    destruct c as [|x l _] using rev_ind; [done|]. exists l, x. split; [done|]. intros ->.
    apply Hs. apply elem_of_app. right. by left.
  - destruct IH as (l & x & Hl & Hx); [done|]. change (join (c :: d :: comps)) with (c ++ 47 :: join (d :: comps)).
    rewrite Hl. exists (c ++ 47 :: l), x. by rewrite <- app_assoc.
Qed.

Lemma join_bytes comps c : Forall byte (join comps) -> c ∈ comps -> Forall byte c.
Proof.
  intros Hb Hc. induction comps as [|d comps IH]; [by apply not_elem_of_nil in Hc|].
  destruct comps as [|e comps]; [apply list_elem_of_singleton in Hc; by subst|].
  change (join (d :: e :: comps)) with (d ++ 47 :: join (e :: comps)) in Hb.
  apply Forall_app in Hb as [Hd Hr]. inversion_clear Hr. apply elem_of_cons in Hc as [->|Hc]; [done|]. by apply IH.
Qed.

Lemma aget_app_last {A} `{Inhabited A} (l : list A) (x : A) : (l ++ [x]).[alen l + 1 - 1] = x.
Proof. replace (alen l + 1 - 1) with (alen l) by lia. apply aget_app. Qed.

Lemma prefix_app_l {A} (a b : list A) : prefix (alen a) (a ++ b) = a.
Proof. unfold prefix, alen. by rewrite Nat2Z.id, take_app_length. Qed.

Lemma canonical_text vol comps slash :
  Forall good_component comps -> (slash = true -> comps <> []) ->
  let data := path_text vol comps ++ slash_text slash in
  prefix (if (alen vol + 2 <? alen data) && (data.[alen data - 1] =? 47) then alen data - 1 else alen data) data =
  path_text vol comps.
Proof.
  intros Hf Hs data. subst data.
  assert (alen (path_text vol comps) = alen vol + 2 + alen (join comps)) as Hl.
  { unfold path_text, alen. rewrite length_app. cbn. lia. }
  destruct slash; cbn [slash_text].
  - rewrite !alen_app. change (alen [47]) with 1. rewrite aget_app_last. cbn [Z.eqb Pos.eqb].
    pose proof (alen_nonneg (join comps)). rewrite (proj2 (Z.ltb_lt _ _)) by lia. cbn [andb].
    replace (alen (path_text vol comps) + 1 - 1) with (alen (path_text vol comps)) by lia. apply prefix_app_l.
  - rewrite app_nil_r. destruct (decide (comps = [])) as [->|Hne].
    + cbn [join] in Hl. change (alen []) with 0 in Hl. rewrite (proj2 (Z.ltb_ge _ _)) by lia. apply prefix_whole.
    + destruct (join_last comps Hf Hne) as (l & c & Hj & Hc).
      assert (path_text vol comps = (vol ++ 58 :: 47 :: l) ++ [c]) as Hp.
      { unfold path_text. rewrite Hj. by rewrite <- app_assoc. }
      assert ((path_text vol comps).[alen (path_text vol comps) - 1] = c) as ->.
      { rewrite Hp, alen_app. apply aget_app_last. }
      rewrite (proj2 (Z.eqb_neq c 47)), andb_false_r by done. apply prefix_whole.
Qed.

Lemma drop_volume {A} (vol : list A) a b rest : drop (Z.to_nat (alen vol + 2)) (vol ++ a :: b :: rest) = rest.
Proof.
  unfold alen. replace (Z.to_nat (Z.of_nat (length vol) + 2)) with (length vol + 2)%nat by lia.
  rewrite drop_app_ge by lia. by replace (length vol + 2 - length vol)%nat with 2%nat by lia.
Qed.

Lemma aget_after {A} `{Inhabited A} (vol : list A) a b rest : (vol ++ a :: b :: rest).[alen vol + 1] = b.
Proof.
  replace (vol ++ a :: b :: rest) with ((vol ++ [a]) ++ b :: rest) by (by rewrite <- app_assoc).
  replace (alen vol + 1) with (alen (vol ++ [a])) by (rewrite alen_app; done). apply aget_app.
Qed.

(** C35: A host can name exactly the paths [volume:/component/...] of well-formed
    components, no [..] among them, that fit the buffer; the text that is used is
    the path without a trailing slash. *)
Theorem validate_path_iff data capacity p :
  Forall byte data ->
  bvstk_fs_validate_path data capacity = inr p <->
  exists vol comps slash, data = path_text vol comps ++ slash_text slash /\ (slash = true -> comps <> []) /\
    p = path_text vol comps /\ good_volume vol /\ Forall good_component comps /\
    alen data < capacity /\ alen data < BVSTK_FS_PATH_CAPACITY.
Proof.
  intros Hb. unfold bvstk_fs_validate_path. split.
  - destruct (alen data =? 0) eqn:E0; [done|]. destruct (_ || _) eqn:E1; [done|]. apply orb_false_iff in E1 as [? ?].
    destruct (find_colon data 0) as [colon|] eqn:Ec; [|done].
    destruct (((_ || _) || _) || _) eqn:E2; [done|]. apply orb_false_iff in E2 as [E2 E3].
    apply orb_false_iff in E2 as [E2 E4]. apply orb_false_iff in E2 as [E5 E6]. bsimp.
    destruct (negb (components_loop _ _)) eqn:El; [done|]. apply negb_false_iff in El.
    apply find_colon_sound in Ec as (vol & rest & Hn & Hv & [Hd|Hd]); [subst; lia|].
    destruct rest as [|c rest].
    { subst data. rewrite alen_app in E4. change (alen [58]) with 1 in E4. lia. }
    rewrite Hd, <- Hn in E3. rewrite aget_after in E3. subst c.
    rewrite Hd, <- Hn, drop_volume in El. apply components_loop_sound in El as (comps & slash & He & Hs & _ & Hall).
    cbn [app] in He. assert (Forall good_component comps) as Hg.
    { assert (Forall byte rest) as Hr.
      { rewrite Hd in Hb. apply Forall_app in Hb as [_ Hb]. inversion_clear Hb as [|? ? _ Hb']. by inversion_clear Hb'. }
      rewrite He in Hr. apply Forall_app in Hr as [Hr _]. apply Forall_forall. intros c Hc.
      apply valid_component_iff; [by eapply join_bytes|by apply Hall]. }
    assert (data = path_text vol comps ++ slash_text slash) as Hdata.
    { rewrite Hd, He. unfold path_text. rewrite <- app_assoc. done. }
    intros [= <-]. exists vol, comps, slash. rewrite <- Hn. rewrite Hdata at 1 2 3 4. rewrite Hdata in *.
    split; [done|]. split; [done|].
    split; [by apply canonical_text|]. split; [|by repeat split].
    split; [intros ->; change (alen []) with 0 in Hn; lia|]. split; [lia|done].
  - intros (vol & comps & slash & Hd & Hs & -> & (Hv & Hl & Hvc) & Hg & Hcap & Hmax).
    assert (data = vol ++ 58 :: 47 :: (join comps ++ slash_text slash)) as Hdata.
    { rewrite Hd. unfold path_text. by rewrite <- app_assoc. }
    assert (alen data = alen vol + 2 + alen (join comps ++ slash_text slash)) as Hlen.
    { rewrite Hdata. unfold alen. rewrite length_app. cbn. lia. }
    pose proof (alen_nonneg vol). pose proof (alen_nonneg (join comps ++ slash_text slash)).
    assert (0 < alen vol) by (destruct vol; [done|unfold alen; cbn; lia]).
    rewrite (proj2 (Z.eqb_neq _ _)), (proj2 (Z.leb_gt _ _)), (proj2 (Z.leb_gt _ _)) by lia. cbn [orb].
    assert (find_colon data 0 = Some (alen vol)) as -> by (rewrite Hdata; by apply find_colon_complete).
    rewrite (proj2 (Z.eqb_neq _ _)), (proj2 (Z.leb_gt _ _)), (proj2 (Z.leb_gt _ _)) by lia. cbn [orb].
    rewrite Hdata, aget_after, drop_volume. cbn [Z.eqb Pos.eqb negb].
    rewrite components_loop_complete; [|..|done].
    + cbn [negb]. f_equal. rewrite <- Hdata, Hd. by apply canonical_text.
    + apply Forall_forall. intros c Hc. rewrite Forall_forall in Hg.
      assert (good_component c) as Hgc by (by apply Hg). split; [|split; [by destruct Hgc as (_ & ? & _)|by apply good_component_no_slash]].
      apply valid_component_iff; [|done]. rewrite Hdata in Hb.
      apply Forall_app in Hb as [_ Hb]. inversion_clear Hb as [|? ? _ Hb']. inversion_clear Hb' as [|? ? _ Hb].
      apply Forall_app in Hb as [Hb _]. by eapply join_bytes.
Qed.

Lemma validate_path_iff_witness :
  bvstk_fs_validate_path (lit "sd:/logs/boot.txt/") 512 = inr (path_text (lit "sd") [lit "logs"; lit "boot.txt"]).
Proof.
  apply (validate_path_iff (lit "sd:/logs/boot.txt/") 512).
  - apply Forall_forall. intros c Hc. assert (forallb (fun c => (0 <=? c) && (c <? 256)) (lit "sd:/logs/boot.txt/") = true) as H by reflexivity.
    rewrite forallb_forall in H. apply list_elem_of_In in Hc. apply H in Hc. apply andb_true_iff in Hc as [? ?]. bsimp. done.
  - exists (lit "sd"), [lit "logs"; lit "boot.txt"], true. split; [reflexivity|]. split; [done|]. split; [reflexivity|].
    assert (forall name, forallb (fun c => (0 <=? c) && (c <? 256)) name = true -> valid_component name = true -> good_component name) as Hg.
    { intros name Hb Hv. apply valid_component_iff; [|done]. apply Forall_forall. intros c Hc. rewrite forallb_forall in Hb.
      apply list_elem_of_In in Hc. apply Hb in Hc. apply andb_true_iff in Hc as [? ?]. bsimp. done. }
    split; [|split; [|done]].
    + split; [done|]. split; [done|]. by repeat constructor.
    + repeat constructor; by apply Hg.
Defined.
