(* ===== verification/FsReader.v ===== *)
(** * FsReader: directories and files as a stream of bytes

    [src/src/services/fs/bvstk_fs_reader.c], the reader, with the types of
    [bvstk_fs_reader.h].  A reader delivers one file, the records of the entries
    of a directory (TREE) or an archive of it (TAR), in blocks of the caller's
    size, over a backend that opens files and directories.

    The backend is a record of callbacks over its world [X]; a handle is a number,
    0 for NULL, and what a callback leaves in an output parameter is a further
    result.  The callers of the file pass set pointers where no test of the code
    asks; the bytes of an output block are collected in a list, whose length is
    the code's [*size]. *)
From stdpp Require Import prelude.
From Stdlib Require Import ZArith Lia.
From Stdlib Require String.
Import String.StringSyntax.
From S2P Require Import Prelude Text FsPath.
Local Open Scope Z_scope.

Definition UINT64_MAX : Z := 18446744073709551615.

Record bvstk_fs_info_t := FsInfo { fi_size : Z; fi_stamp : Z; fi_type : Z; fi_attributes : Z }.
Record bvstk_fs_volume_t := FsVolume { fv_name : chars; fv_state : Z }.

Definition zero_info : bvstk_fs_info_t := FsInfo 0 0 0 0.

(** [bk_file_open]: status, [*file], [*size].  [bk_file_read]: status, the bytes
    it stores at [data], whose number is [*size].  [bk_dir_open]: status, [*dir].  [bk_dir_read]:
    status, the name, empty at the end, and [*info]. *)
Record bvstk_fs_backend_t {X : Type} := FsBackend {
  bk_volume_count : ST X Z;
  bk_volume : Z -> ST X (bvstk_fs_result_t * bvstk_fs_volume_t);
  bk_stat : chars -> ST X (bvstk_fs_result_t * bvstk_fs_info_t);
  bk_file_open : chars -> ST X (bvstk_fs_result_t * Z * Z);
  bk_file_read : Z -> Z -> ST X (bvstk_fs_result_t * chars);
  bk_file_close : Z -> ST X unit;
  bk_dir_open : chars -> ST X (bvstk_fs_result_t * Z);
  bk_dir_read : Z -> Z -> ST X (bvstk_fs_result_t * chars * bvstk_fs_info_t);
  bk_dir_close : Z -> ST X unit
}.
Arguments bvstk_fs_backend_t : clear implicits.
Arguments FsBackend {X}.

Inductive phase_t : Type := WALK | FILE_DATA | FILE_PADDING | FINISHED.

#[export] Instance phase_eq_dec : EqDecision phase_t.
Proof. solve_decision. Defined.

Record fs_dir_t := FsDir { dr_handle : Z; dr_path_len : Z }.

#[export] Instance fs_dir_inhabited : Inhabited fs_dir_t := populate (FsDir 0 0).

Record bvstk_fs_reader_t {X : Type} := FsReader {
  rd_backend : option (bvstk_fs_backend_t X);
  rd_root : chars;
  rd_path : chars;
  rd_dirs : list fs_dir_t;
  rd_depth : Z;
  rd_relative_offset : Z;
  rd_file : Z;
  rd_info : bvstk_fs_info_t;
  rd_remaining : Z;
  rd_total_size : Z;
  rd_padding : Z;
  rd_stage : list Z;
  rd_stage_size : Z;
  rd_stage_offset : Z;
  rd_kind : Z;
  rd_flags : Z;
  rd_phase : phase_t
}.
Arguments bvstk_fs_reader_t : clear implicits.
Arguments FsReader {X}.

(** [memset (r, 0, sizeof *r)]. *)
Definition zero_reader {X} : bvstk_fs_reader_t X :=
  FsReader None (fill BVSTK_FS_PATH_CAPACITY 0) (fill BVSTK_FS_PATH_CAPACITY 0)
    (fill BVSTK_FS_MAX_DEPTH (FsDir 0 0)) 0 0 0 zero_info 0 0 0 (fill 2048 0) 0 0 0 0 WALK.

Section fields.
Context {X : Type}.
Abbreviation reader := (bvstk_fs_reader_t X).
Definition with_request b k f (r : reader) : reader :=
  FsReader (Some b) (rd_root r) (rd_path r) (rd_dirs r) (rd_depth r) (rd_relative_offset r) (rd_file r) (rd_info r)
    (rd_remaining r) (rd_total_size r) (rd_padding r) (rd_stage r) (rd_stage_size r) (rd_stage_offset r) k f (rd_phase r).
Definition with_paths ro pa rl (r : reader) : reader :=
  FsReader (rd_backend r) ro pa (rd_dirs r) (rd_depth r) rl (rd_file r) (rd_info r)
    (rd_remaining r) (rd_total_size r) (rd_padding r) (rd_stage r) (rd_stage_size r) (rd_stage_offset r) (rd_kind r) (rd_flags r) (rd_phase r).
Definition with_path pa (r : reader) : reader :=
  FsReader (rd_backend r) (rd_root r) pa (rd_dirs r) (rd_depth r) (rd_relative_offset r) (rd_file r) (rd_info r)
    (rd_remaining r) (rd_total_size r) (rd_padding r) (rd_stage r) (rd_stage_size r) (rd_stage_offset r) (rd_kind r) (rd_flags r) (rd_phase r).
Definition with_dirs ds dp (r : reader) : reader :=
  FsReader (rd_backend r) (rd_root r) (rd_path r) ds dp (rd_relative_offset r) (rd_file r) (rd_info r)
    (rd_remaining r) (rd_total_size r) (rd_padding r) (rd_stage r) (rd_stage_size r) (rd_stage_offset r) (rd_kind r) (rd_flags r) (rd_phase r).
Definition with_file fh (r : reader) : reader :=
  FsReader (rd_backend r) (rd_root r) (rd_path r) (rd_dirs r) (rd_depth r) (rd_relative_offset r) fh (rd_info r)
    (rd_remaining r) (rd_total_size r) (rd_padding r) (rd_stage r) (rd_stage_size r) (rd_stage_offset r) (rd_kind r) (rd_flags r) (rd_phase r).
Definition with_info i (r : reader) : reader :=
  FsReader (rd_backend r) (rd_root r) (rd_path r) (rd_dirs r) (rd_depth r) (rd_relative_offset r) (rd_file r) i
    (rd_remaining r) (rd_total_size r) (rd_padding r) (rd_stage r) (rd_stage_size r) (rd_stage_offset r) (rd_kind r) (rd_flags r) (rd_phase r).
Definition with_remaining rm (r : reader) : reader :=
  FsReader (rd_backend r) (rd_root r) (rd_path r) (rd_dirs r) (rd_depth r) (rd_relative_offset r) (rd_file r) (rd_info r)
    rm (rd_total_size r) (rd_padding r) (rd_stage r) (rd_stage_size r) (rd_stage_offset r) (rd_kind r) (rd_flags r) (rd_phase r).
Definition with_total_size tl (r : reader) : reader :=
  FsReader (rd_backend r) (rd_root r) (rd_path r) (rd_dirs r) (rd_depth r) (rd_relative_offset r) (rd_file r) (rd_info r)
    (rd_remaining r) tl (rd_padding r) (rd_stage r) (rd_stage_size r) (rd_stage_offset r) (rd_kind r) (rd_flags r) (rd_phase r).
Definition with_padding pd (r : reader) : reader :=
  FsReader (rd_backend r) (rd_root r) (rd_path r) (rd_dirs r) (rd_depth r) (rd_relative_offset r) (rd_file r) (rd_info r)
    (rd_remaining r) (rd_total_size r) pd (rd_stage r) (rd_stage_size r) (rd_stage_offset r) (rd_kind r) (rd_flags r) (rd_phase r).
Definition with_stage st sz so (r : reader) : reader :=
  FsReader (rd_backend r) (rd_root r) (rd_path r) (rd_dirs r) (rd_depth r) (rd_relative_offset r) (rd_file r) (rd_info r)
    (rd_remaining r) (rd_total_size r) (rd_padding r) st sz so (rd_kind r) (rd_flags r) (rd_phase r).
Definition with_phase ph (r : reader) : reader :=
  FsReader (rd_backend r) (rd_root r) (rd_path r) (rd_dirs r) (rd_depth r) (rd_relative_offset r) (rd_file r) (rd_info r)
    (rd_remaining r) (rd_total_size r) (rd_padding r) (rd_stage r) (rd_stage_size r) (rd_stage_offset r) (rd_kind r) (rd_flags r) ph.
End fields.

(** ** Records of a stream *)

Definition put16 (p : list Z) (o v : Z) : list Z := write_at p o [u8 (Z.shiftr v 8); u8 v].
Definition put64 (p : list Z) (o v : Z) : list Z :=
  write_at p o ((fun i => u8 (Z.shiftr v (56 - 8 * i))) <$> seqZ 0 8).

(** [snprintf (out, cap, ...)] of a text: what is stored. *)
Definition printed (cap : Z) (text : chars) : chars := prefix (cap - 1) text ++ [0].

(** [%0nllo]. *)
Definition octal (width n : Z) : chars :=
  let s := to_digits 22 8 n [] in fill (width - alen s) 48 ++ s.

(** The 512 bytes stored at [header]; [name] is the C string, shorter than 100. *)
Definition tar_header (name : chars) (type size : Z) : list Z :=
  let h := fill 512 0 in
  let h := write_at h 0 name in
  let h := write_at h 100 (if type =? 53 then lit "0000755" else lit "0000644") in
  let h := write_at h 108 (lit "0000000") in
  let h := write_at h 116 (lit "0000000") in
  let h := write_at h 124 (printed 12 (octal 11 size)) in
  let h := write_at h 136 (lit "00000000000") in
  let h := write_at h 148 (fill 8 32) in
  let h := h.[156 <- u8 type] in
  let h := write_at h 257 (lit "ustar") in
  let h := write_at h 263 (lit "00") in
  let checksum := foldl (fun sum c => u32 (sum + c)) 0 h in
  let h := write_at h 148 (printed 7 (octal 6 checksum)) in
  h.[155 <- 32].

(** The loop of [pax_record]: a length that counts its own digits.  It settles
    within a few rounds ([pax_length_settles]). *)
Fixpoint pax_length (fuel : nat) (base length : Z) : Z :=
  match fuel with
  | O => length
  | S fuel =>
      let next := base + alen (dec length) in
      if next =? length then length else pax_length fuel base next
  end.

(** The record, unless it does not fit, in which case the code returns 0. *)
Definition pax_record (capacity : Z) (key value : chars) : option chars :=
  let base := alen key + alen value + 3 in
  let length := pax_length 20 base (base + 1) in
  let text := dec length ++ 32 :: key ++ 61 :: value ++ [10] in
  if alen text <? capacity then Some text else None.

Definition octal_max : Z := 8589934591.

(** [stage_tar_entry] without its stores: the staged area and its size. *)
Definition tar_stage (path : chars) (info : bvstk_fs_info_t) : option (list Z * Z) :=
  let size := if fi_type info =? BVSTK_FS_ENTRY_FILE then fi_size info else 0 in
  let dir := fi_type info =? BVSTK_FS_ENTRY_DIR in
  let name := prefix BVSTK_FS_PATH_CAPACITY (path ++ if dir then [47] else []) in
  let extended := (100 <=? alen name) || (octal_max <? size) || existsb (fun c => 128 <=? c) name in
  let stage := fill 2048 0 in
  let entry stage offset :=
    Some (write_at stage offset
            (tar_header (if extended then lit "entry" else name) (if dir then 53 else 48)
               (if octal_max <? size then 0 else size)), offset + 512) in
  if extended then
    match pax_record 1024 (lit "path") name with
    | None => None
    | Some text =>
        let stage := write_at stage 512 text in
        let pax_size := alen text in
        match (if octal_max <? size then
                 match pax_record (1024 - pax_size) (lit "size") (dec size) with
                 | None => None
                 | Some more => Some (write_at stage (512 + pax_size) more, pax_size + alen more)
                 end
               else Some (stage, pax_size)) with
        | None => None
        | Some (stage, pax_size) =>
            entry (write_at stage 0 (tar_header (lit "PaxHeader") 120 pax_size))
              (512 + ((pax_size + 511) `div` 512) * 512)
        end
    end
  else entry stage 0.

(** The record of TREE, stored over [stage], and its size. *)
Definition tree_stage (stage : list Z) (relative : chars) (info : bvstk_fs_info_t) : list Z * Z :=
  let length := alen relative in
  let size := 14 + length in
  let s := put16 stage 0 (u16 size) in
  let s := s.[2 <- fi_type info] in
  let s := s.[3 <- 0] in
  let s := put64 s 4 (if fi_type info =? BVSTK_FS_ENTRY_FILE then fi_size info else 0) in
  let s := put16 s 12 (u16 length) in
  (write_at s 14 relative, size).

(** ** Operations *)

Section operations.
Context {X : Type}.
Abbreviation backend := (bvstk_fs_backend_t X).
Abbreviation reader := (bvstk_fs_reader_t X).

(** A reader and the world of its backend. *)
Definition session : Type := reader * X.
Definition look {A} (f : reader -> A) : ST session A := st_get (fun s => f s.1).
Definition edit (f : reader -> reader) : ST session unit := st_mod (fun s => (f s.1, s.2)).
Definition world {A} (f : ST X A) : ST session A := fun s => let '(a, x) := f s.2 in (a, (s.1, x)).

Section with_backend.
Variable b : backend.

(** The loop over the [n = r->depth] open directories, the innermost first. *)
Fixpoint close_dirs (n : nat) : ST session unit :=
  match n with
  | O => st_ret tt
  | S n =>
      edit (fun r => with_dirs (rd_dirs r) (rd_depth r - 1) r) ;;
      let! r := look id in
      world (bk_dir_close b (dr_handle ((rd_dirs r).[rd_depth r]))) ;;
      edit (fun r => with_dirs ((rd_dirs r).[rd_depth r <- FsDir 0 (dr_path_len ((rd_dirs r).[rd_depth r]))]) (rd_depth r) r) ;;
      close_dirs n
  end.

Definition reader_close : ST session unit :=
  let! r := look id in
  (if rd_file r =? 0 then st_ret tt else world (bk_file_close b (rd_file r))) ;;
  edit (with_file 0) ;;
  close_dirs (Z.to_nat (rd_depth r)) ;;
  edit (with_phase FINISHED).

Definition open_file : ST session bvstk_fs_result_t :=
  let! r := look id in
  let! (rc, handle, size) := world (bk_file_open b (cstr (rd_path r))) in
  edit (with_file handle) ;;
  if negb (fs_ok rc) then st_ret rc
  else if negb (size =? fi_size (rd_info r)) then st_ret BVSTK_FS_CHANGED
  else edit (with_remaining size) ;; st_ret BVSTK_FS_OK.

(** The entry [name] of the directory whose path ends at [parent]: the path with
    it and its length, unless it does not fit. *)
Definition path_entry (path : chars) (parent : Z) (name : chars) : option (chars * Z) :=
  let separator := negb (parent =? 0) && negb (path.[parent - 1] =? 47) in
  if separator && (BVSTK_FS_PATH_CAPACITY <=? parent + 1) then None
  else
    let path := if separator then path.[parent <- 47] else path in
    let parent := if separator then parent + 1 else parent in
    if BVSTK_FS_PATH_CAPACITY <=? parent + alen name then None
    else Some (write_at path parent (name ++ [0]), parent + alen name).

(** The end of a round of [next_entry]: an entry was found. *)
Definition enter_entry (length : Z) : ST session bvstk_fs_result_t :=
  let! r := look id in
  if (fi_type (rd_info r) =? BVSTK_FS_ENTRY_DIR) &&
     ((rd_kind r =? BVSTK_FS_TAR) || negb (Z.land (rd_flags r) BVSTK_FS_RECURSIVE =? 0)) then
    if rd_depth r =? BVSTK_FS_MAX_DEPTH then st_ret BVSTK_FS_RANGE
    else
      let! (rc, handle) := world (bk_dir_open b (cstr (rd_path r))) in
      let stored len := with_dirs ((rd_dirs r).[rd_depth r <- FsDir handle len]) in
      if negb (fs_ok rc) then
        edit (stored (dr_path_len ((rd_dirs r).[rd_depth r])) (rd_depth r)) ;; st_ret rc
      else edit (stored length (rd_depth r + 1)) ;; st_ret BVSTK_FS_OK
  else if negb (fi_type (rd_info r) =? BVSTK_FS_ENTRY_FILE) && negb (fi_type (rd_info r) =? BVSTK_FS_ENTRY_DIR) then
    st_ret BVSTK_FS_UNSUPPORTED
  else st_ret BVSTK_FS_OK.

(** The loop, [n = r->depth]; the second result is [*done]. *)
Fixpoint next_entry_loop (n : nat) : ST session (bvstk_fs_result_t * bool) :=
  match n with
  | O => st_ret (BVSTK_FS_OK, true)
  | S n =>
      let! r := look id in
      let top := rd_depth r - 1 in
      let parent := dr_path_len ((rd_dirs r).[top]) in
      let handle := dr_handle ((rd_dirs r).[top]) in
      edit (with_path ((rd_path r).[parent <- 0])) ;;
      let! (rc, name, info) := world (bk_dir_read b handle BVSTK_FS_PATH_CAPACITY) in
      edit (with_info info) ;;
      if negb (fs_ok rc) then st_ret (rc, false)
      else
        match cstr name with
        | [] =>
            world (bk_dir_close b handle) ;;
            edit (with_dirs ((rd_dirs r).[top <- FsDir 0 parent]) top) ;;
            next_entry_loop n
        | name =>
            if negb (valid_component name) then st_ret (BVSTK_FS_INVALID, false)
            else
              match path_entry ((rd_path r).[parent <- 0]) parent name with
              | None => st_ret (BVSTK_FS_RANGE, false)
              | Some (path, length) =>
                  edit (with_path path) ;;
                  let! rc := enter_entry length in
                  st_ret (rc, false)
              end
        end
  end.

Definition next_entry : ST session (bvstk_fs_result_t * bool) :=
  let! depth := look rd_depth in next_entry_loop (Z.to_nat depth).

(** [r->path + r->relative_offset]. *)
Definition relative_path (r : reader) : chars := cstr (drop (Z.to_nat (rd_relative_offset r)) (rd_path r)).

(** When it fails, what it left in the stage is not read any more. *)
Definition stage_tar_entry : ST session bvstk_fs_result_t :=
  let! r := look id in
  match tar_stage (relative_path r) (rd_info r) with
  | None => st_ret BVSTK_FS_RANGE
  | Some (stage, size) => edit (with_stage stage size 0) ;; st_ret BVSTK_FS_OK
  end.

Definition finish_file : ST session bvstk_fs_result_t :=
  let! r := look id in
  let! (rc, current) := world (bk_stat b (cstr (rd_path r))) in
  world (bk_file_close b (rd_file r)) ;;
  edit (with_file 0) ;;
  if bool_decide (rc = BVSTK_FS_NOT_FOUND) then st_ret BVSTK_FS_CHANGED
  else if negb (fs_ok rc) then st_ret rc
  else if negb (fi_type current =? BVSTK_FS_ENTRY_FILE) || negb (fi_size current =? fi_size (rd_info r)) ||
          negb (fi_stamp current =? fi_stamp (rd_info r)) then st_ret BVSTK_FS_CHANGED
  else
    (if rd_kind r =? BVSTK_FS_FILE then edit (with_phase FINISHED)
     else
       edit (with_padding ((512 - fi_size (rd_info r) mod 512) mod 512)) ;;
       edit (with_phase FILE_PADDING)) ;;
    st_ret BVSTK_FS_OK.

(** ** Reading *)

(** A round of the loop of [bvstk_fs_reader_read] goes on or breaks, with the
    bytes of the block so far. *)
Inductive round : Type :=
  | Again (out : chars)
  | Break (rc : bvstk_fs_result_t) (out : chars).

Definition read_stage (available : Z) (out : chars) : ST session round :=
  let! r := look id in
  let n := Z.min (rd_stage_size r - rd_stage_offset r) available in
  edit (with_stage (rd_stage r) (rd_stage_size r) (rd_stage_offset r + n)) ;;
  st_ret (Again (out ++ cells (rd_stage r) (rd_stage_offset r) n)).

Definition read_data (available : Z) (out : chars) : ST session round :=
  let! r := look id in
  if rd_remaining r =? 0 then
    let! rc := finish_file in
    st_ret (if fs_ok rc then Again out else Break rc out)
  else
    let want := if rd_remaining r <? available then rd_remaining r else available in
    let! (rc, bytes) := world (bk_file_read b (rd_file r) want) in
    let n := alen bytes in
    if negb (fs_ok rc) then st_ret (Break rc out)
    else if (n =? 0) || (want <? n) then st_ret (Break BVSTK_FS_CHANGED out)
    else
      edit (with_remaining (rd_remaining r - n)) ;;
      st_ret (Again (out ++ bytes)).

Definition read_padding (available : Z) (out : chars) : ST session round :=
  let! r := look id in
  let n := if rd_padding r <? available then rd_padding r else available in
  edit (with_padding (rd_padding r - n)) ;;
  (if rd_padding r - n =? 0 then edit (with_phase WALK) else st_ret tt) ;;
  st_ret (Again (out ++ fill n 0)).

Definition read_walk (out : chars) : ST session round :=
  let! (rc, done) := next_entry in
  if negb (fs_ok rc) then st_ret (Break rc out)
  else
    edit (fun r => with_stage (rd_stage r) (rd_stage_size r) 0 r) ;;
    let! r := look id in
    if done : bool then
      edit (with_phase FINISHED) ;;
      (let size := if rd_kind r =? BVSTK_FS_TAR then 1024 else 0 in
       edit (with_stage (write_at (rd_stage r) 0 (fill size 0)) size 0)) ;;
      st_ret (Again out)
    else if rd_kind r =? BVSTK_FS_TREE then
      let '(stage, size) := tree_stage (rd_stage r) (relative_path r) (rd_info r) in
      edit (with_stage stage size 0) ;;
      st_ret (Again out)
    else
      let! rc := (if fi_type (rd_info r) =? BVSTK_FS_ENTRY_FILE then
                    let! rc := open_file in
                    (if fs_ok rc then edit (with_phase FILE_DATA) else st_ret tt) ;; st_ret rc
                  else st_ret BVSTK_FS_OK) in
      if negb (fs_ok rc) then st_ret (Break rc out)
      else
        let! rc := stage_tar_entry in
        st_ret (if fs_ok rc then Again out else Break rc out).

Definition read_round (capacity : Z) (out : chars) : ST session round :=
  let available := capacity - alen out in
  let! r := look id in
  if rd_stage_offset r <? rd_stage_size r then read_stage available out
  else
    match rd_phase r with
    | FILE_DATA => read_data available out
    | FILE_PADDING => read_padding available out
    | WALK => read_walk out
    | FINISHED => st_ret (Break BVSTK_FS_OK out)
    end.

Fixpoint blocks_loop (fuel : nat) (capacity : Z) (out : chars) : ST session (option (bvstk_fs_result_t * chars)) :=
  match fuel with
  | O => st_ret None
  | S fuel =>
      if capacity <=? alen out then st_ret (Some (BVSTK_FS_OK, out))
      else
        let! o := read_round capacity out in
        match o with
        | Again out => blocks_loop fuel capacity out
        | Break rc out => st_ret (Some (rc, out))
        end
  end.
End with_backend.

Definition bvstk_fs_reader_close (reader : bool) : ST session unit :=
  let! r := look id in
  match rd_backend r with
  | Some b => if reader then reader_close b else st_ret tt
  | None => st_ret tt
  end.

Definition bvstk_fs_reader_open (reader : bool) (backend : option backend) (path : option chars) (kind flags : Z)
    : ST session bvstk_fs_result_t :=
  match backend, path with
  | Some b, Some path =>
      if negb reader then st_ret BVSTK_FS_INVALID
      else
        let path := cstr path in
        let length := alen path in
        edit (fun _ => with_request b kind flags zero_reader) ;;
        if BVSTK_FS_PATH_CAPACITY <=? length then st_ret BVSTK_FS_RANGE
        else if (kind <? BVSTK_FS_FILE) || (BVSTK_FS_TAR <? kind) then st_ret BVSTK_FS_UNSUPPORTED
        else if negb (kind =? BVSTK_FS_TREE) && negb (flags =? 0) || negb (Z.ldiff flags BVSTK_FS_RECURSIVE =? 0) then
          st_ret BVSTK_FS_INVALID
        else
          edit (fun r =>
            with_paths (write_at (rd_root r) 0 (path ++ [0])) (write_at (rd_path r) 0 (path ++ [0]))
              (length + if negb (length =? 0) && negb (path.[length - 1] =? 47) then 1 else 0) r) ;;
          let! (rc, info) := world (bk_stat b path) in
          edit (with_info info) ;;
          if negb (fs_ok rc) then st_ret rc
          else if negb (fi_type info =? if kind =? BVSTK_FS_FILE then BVSTK_FS_ENTRY_FILE else BVSTK_FS_ENTRY_DIR) then
            st_ret BVSTK_FS_TYPE_ERROR
          else
            edit (with_total_size (if kind =? BVSTK_FS_FILE then fi_size info else UINT64_MAX)) ;;
            let! rc :=
              (if kind =? BVSTK_FS_FILE then
                 let! rc := open_file b in
                 edit (with_phase FILE_DATA) ;; st_ret rc
               else
                 let! (rc, handle) := world (bk_dir_open b path) in
                 edit (fun r => with_dirs ((rd_dirs r).[0 <- FsDir handle (if fs_ok rc then length else 0)])
                                  (if fs_ok rc then 1 else 0) r) ;;
                 edit (with_phase WALK) ;; st_ret rc) in
            (if fs_ok rc then st_ret tt else reader_close b) ;;
            st_ret rc
  | _, _ => st_ret BVSTK_FS_INVALID
  end.

(** Rounds of the loop: at most three of them go by without a byte. *)
Definition read_fuel (capacity : Z) : nat := Z.to_nat (4 * capacity + 8).

(** [size] and [eof] tell whether their pointers are set; the bytes stored and
    [*eof] are results. *)
Definition bvstk_fs_reader_read (reader data : bool) (capacity : Z) (size eof : bool)
    : ST session (option (bvstk_fs_result_t * chars * bool)) :=
  let! r := look id in
  match rd_backend r with
  | Some b =>
      if negb reader || negb data || (capacity =? 0) || negb size || negb eof then
        st_ret (Some (BVSTK_FS_INVALID, [], false))
      else
        let? (rc, out) := blocks_loop b (read_fuel capacity) capacity [] in
        let! r := look id in
        let! rc :=
          (match rd_phase r with
           | FILE_DATA =>
               if fs_ok rc && (rd_remaining r =? 0) && (rd_stage_offset r =? rd_stage_size r) then finish_file b
               else st_ret rc
           | _ => st_ret rc
           end) in
        if negb (fs_ok rc) then reader_close b ;; st_ret (Some (rc, out, false))
        else
          let! r := look id in
          st_ret (Some (BVSTK_FS_OK, out,
                        bool_decide (rd_phase r = FINISHED) && (rd_stage_offset r =? rd_stage_size r)))
  | None => st_ret (Some (BVSTK_FS_INVALID, [], false))
  end.
End operations.
