(* ===== verification/FsStream.v ===== *)
(** * FsStream: what a reader delivers

    The rounds of the reader end over any backend.  The trees a backend serves,
    the laws of a backend, and the stream of bytes a tree stands for: the file, the
    TREE records of its entries, or a TAR archive. *)
From stdpp Require Import prelude gmap.
From Stdlib Require Import ZArith Lia.
From Stdlib Require String.
Import String.StringSyntax.
From S2P Require Import Prelude Text FsPath FsReader.
Local Open Scope Z_scope.

Lemma fs_ok_true rc : fs_ok rc = true -> rc = BVSTK_FS_OK.
Proof. apply bool_decide_eq_true. Qed.

(** ** Computation rules *)

Section rules.
Context {X : Type}.
Implicit Types (s : session (X := X)).

Lemma runs_look {A} (f : bvstk_fs_reader_t X -> A) s Q : Q (f s.1) s -> runs (look f) s Q.
Proof. done. Qed.
Lemma runs_edit f s Q : Q tt (f s.1, s.2) -> runs (edit f) s Q.
Proof. done. Qed.
Lemma runs_world {A} (m : ST X A) s Q : runs m s.2 (fun a x => Q a (s.1, x)) -> runs (world m) s Q.
Proof. unfold runs, world. by destruct (m s.2). Qed.
End rules.

(** One step of a computation over a reader. *)
Ltac fs_step :=
  lazymatch goal with
  | |- runs (st_bind _ _) _ _ => apply runs_bind
  | |- runs (st_ret _) _ _ => apply runs_ret
  | |- runs (look _) _ _ => apply runs_look
  | |- runs (edit _) _ _ => apply runs_edit
  end; cbn beta iota delta [id fst snd].
Ltac fs_steps := repeat fs_step.

(** ** Staged areas *)

Lemma alen_printed cap text : 1 <= cap -> alen (printed cap text) <= cap.
Proof.
  intros Hc. unfold printed. rewrite alen_app. change (alen [0]) with 1.
  pose proof (prefix_short text (cap - 1) ltac:(lia)). lia.
Qed.

Lemma alen_to_digits fuel base n acc : alen (to_digits fuel base n acc) <= Z.of_nat fuel + alen acc.
Proof.
  revert n acc. induction fuel as [|fuel IH]; intros n acc; cbn [to_digits]; [lia|].
  assert (forall d, alen (d :: acc) = 1 + alen acc) as Hd by (intros d; unfold alen; cbn [length]; lia).
  destruct (n <? base); [rewrite Hd; lia|]. etransitivity; [apply IH|]. rewrite Hd. lia.
Qed.

Lemma alen_to_digits_grows fuel base n acc : 1 + alen acc <= alen (to_digits (S fuel) base n acc).
Proof.
  assert (forall (acc : chars) d, alen (d :: acc) = 1 + alen acc) as Hd by (intros acc' d; unfold alen; cbn [length]; lia).
  revert n acc. induction fuel as [|fuel IH]; intros n acc.
  - cbn. destruct (n <? base); rewrite Hd; lia.
  - remember (S fuel) as m. cbn [to_digits]. destruct (n <? base); [rewrite Hd; lia|].
    etransitivity; [|apply IH]. rewrite Hd. lia.
Qed.

Lemma alen_dec n : 1 <= alen (dec n) <= 20.
Proof. split; [exact (alen_to_digits_grows 19 10 n [])|exact (alen_to_digits 20 10 n [])]. Qed.

Lemma write_fits (h d : chars) n o : alen h = n -> 0 <= o -> o + alen d <= n -> alen (write_at h o d) = n.
Proof. intros <- Ho Hd. by apply alen_write_at. Qed.

Lemma write_printed (h t : chars) n o cap :
  alen h = n -> 0 <= o -> 1 <= cap -> o + cap <= n -> alen (write_at h o (printed cap t)) = n.
Proof. intros Hh Ho Hc Hn. apply write_fits; [done|done|]. pose proof (alen_printed cap t Hc). lia. Qed.

Lemma alen_tar_header name type size : alen name <= 512 -> alen (tar_header name type size) = 512.
Proof.
  intros Hn. unfold tar_header. rewrite alen_aset. apply write_printed; [|lia..].
  do 2 (apply write_fits; [|lia|done]). rewrite alen_aset. do 2 (apply write_fits; [|lia|done]).
  apply write_printed; [|lia..]. do 2 (apply write_fits; [|lia|done]).
  apply write_fits; [|lia|by destruct (type =? 53)].
  apply write_fits; [done|lia|lia].
Qed.

Lemma pax_length_bounds fuel base length :
  base + 1 <= length <= base + 20 -> base + 1 <= pax_length fuel base length <= base + 20.
Proof.
  revert length. induction fuel as [|fuel IH]; intros length Hl; [done|]. cbn [pax_length].
  destruct (_ =? _); [done|]. apply IH. pose proof (alen_dec length). lia.
Qed.

Lemma alen_pax_text (digits key value : chars) :
  alen (digits ++ 32 :: key ++ 61 :: value ++ [10]) = alen digits + alen key + alen value + 3.
Proof.
  unfold alen. rewrite length_app. cbn [length]. rewrite length_app. cbn [length]. rewrite length_app. cbn. lia.
Qed.

Lemma pax_record_fits capacity key value :
  alen key + alen value + 23 < capacity ->
  exists text, pax_record capacity key value = Some text /\ alen text <= alen key + alen value + 23.
Proof.
  intros Hc. unfold pax_record. set (digits := dec _). pose proof (alen_dec (pax_length 20 (alen key + alen value + 3)
    (alen key + alen value + 3 + 1))) as Hd. fold digits in Hd.
  assert (alen (digits ++ 32 :: key ++ 61 :: value ++ [10]) <= alen key + alen value + 23) by (rewrite alen_pax_text; lia).
  rewrite (proj2 (Z.ltb_lt _ _)) by lia. eauto.
Qed.

Lemma tar_stage_fits path info :
  exists stage size, tar_stage path info = Some (stage, size) /\ alen stage = 2048 /\ 512 <= size <= 2048.
Proof.
  unfold tar_stage, BVSTK_FS_PATH_CAPACITY.
  set (size := if fi_type info =? BVSTK_FS_ENTRY_FILE then fi_size info else 0).
  set (name := prefix 512 _). assert (alen name <= 512) as Hn by (by apply prefix_short).
  destruct ((100 <=? alen name) || _ || _) eqn:Ee.
  - destruct (pax_record_fits 1024 (lit "path") name) as (t1 & -> & H1); [change (alen (lit "path")) with 4; lia|].
    change (alen (lit "path")) with 4 in H1. pose proof (alen_nonneg t1).
    assert (exists st n, (if octal_max <? size then
       match pax_record (1024 - alen t1) (lit "size") (dec size) with
       | Some more => Some (write_at (write_at (fill 2048 0) 512 t1) (512 + alen t1) more, alen t1 + alen more)
       | None => None
       end
     else Some (write_at (fill 2048 0) 512 t1, alen t1)) = Some (st, n) /\ alen st = 2048 /\ 0 <= n <= 600) as (st & n & -> & Hst & Hsz).
    { assert (alen (write_at (fill 2048 0) 512 t1) = 2048) as Hw by (apply write_fits; [done|lia|lia]).
      destruct (octal_max <? size); [|eexists _, _; split; [done|]; split; [done|lia]].
      pose proof (alen_dec size). destruct (pax_record_fits (1024 - alen t1) (lit "size") (dec size)) as (t2 & -> & H2);
        change (alen (lit "size")) with 4 in *; [lia|]. pose proof (alen_nonneg t2).
      eexists _, _. split; [done|]. split; [apply write_fits; [done|lia|lia]|lia]. }
    eexists _, _. split; [done|]. assert (0 <= (n + 511) `div` 512 <= 2) as Hb.
    { split; [apply Z.div_pos; lia|]. apply Z.lt_succ_r, Z.div_lt_upper_bound; lia. }
    split; [|lia]. apply write_fits; [|lia|rewrite alen_tar_header; [lia|done]].
    apply write_fits; [done|lia|]. by rewrite alen_tar_header.
  - eexists _, _. split; [done|]. apply orb_false_iff in Ee as [Ee _]. apply orb_false_iff in Ee as [Ee _]. bsimp.
    split; [|lia]. apply write_fits; [done|lia|]. rewrite alen_tar_header; lia.
Qed.

(** ** Handles

    A backend knows its open handles, each with what is still to be read from
    it.  A reader owns those of a list; [frame] are the handles of others. *)

Section handles.
Context {A : Type}.
Implicit Types (own : list (Z * A)) (frame m : gmap Z A).

Definition owns own frame m : Prop :=
  m = list_to_map own ∪ frame /\ NoDup own.*1 /\ (list_to_map own : gmap Z A) ##ₘ frame.

Lemma owns_nil frame : owns [] frame frame.
Proof. split; [cbn; by rewrite (left_id_L ∅ (∪))|]. split; [constructor|]. apply map_disjoint_empty_l. Qed.

Lemma owns_nil_inv frame m : owns [] frame m -> m = frame.
Proof. intros (-> & _). cbn. by rewrite (left_id_L ∅ (∪)). Qed.

Lemma owns_top h a own frame m : owns ((h, a) :: own) frame m -> m !! h = Some a.
Proof. intros (-> & _). apply lookup_union_Some_l. cbn. by rewrite lookup_insert_eq. Qed.

Lemma owns_push h a own frame m : owns own frame m -> m !! h = None -> owns ((h, a) :: own) frame (<[h := a]> m).
Proof.
  intros (-> & Hn & Hd) Hh. apply lookup_union_None in Hh as [Ho Hf]. cbn. split; [by rewrite insert_union_l|].
  split; [constructor; [|done]|by apply map_disjoint_insert_l].
  by apply not_elem_of_list_to_map_2 in Ho.
Qed.

Lemma owns_set h a a' own frame m : owns ((h, a) :: own) frame m -> owns ((h, a') :: own) frame (<[h := a']> m).
Proof.
  intros (-> & Hn & Hd). cbn in *. split; [by rewrite insert_union_l, insert_insert_eq|]. split; [done|].
  apply map_disjoint_insert_l in Hd as [? ?]. by apply map_disjoint_insert_l.
Qed.

Lemma owns_pop h a own frame m : owns ((h, a) :: own) frame m -> owns own frame (delete h m).
Proof.
  intros (-> & Hn & Hd). cbn in *. inversion_clear Hn as [|? ? Hh Hn'].
  apply map_disjoint_insert_l in Hd as [Hf Hd]. apply not_elem_of_list_to_map_1 in Hh.
  split; [|done]. rewrite delete_union, delete_insert_id by done. by rewrite (delete_id frame).
Qed.
End handles.

(** ** Trees

    A listing is what a directory holds, in the order the backend reads it. *)

Inductive listing : Type :=
  | End
  | AFile (name content : chars) (stamp : Z) (rest : listing)
  | ADir (name : chars) (inside rest : listing).

Inductive object : Type :=
  | OFile (content : chars) (stamp : Z)
  | ODir (inside : listing).

Definition describes (info : bvstk_fs_info_t) (o : object) : Prop :=
  match o with
  | OFile c st => fi_type info = BVSTK_FS_ENTRY_FILE /\ fi_size info = alen c /\ fi_stamp info = st
  | ODir _ => fi_type info = BVSTK_FS_ENTRY_DIR
  end.

(** The path of an entry; the root of a volume ends with its slash. *)
Definition child (dir name : chars) : chars :=
  if dir.[alen dir - 1] =? 47 then dir ++ name else dir ++ 47 :: name.

(** The entries of a listing in the order of the stream. *)
Fixpoint walk (deep : bool) (dir : chars) (l : listing) : list (chars * object) :=
  match l with
  | End => []
  | AFile n c st rest => (child dir n, OFile c st) :: walk deep dir rest
  | ADir n inside rest =>
      (child dir n, ODir inside) :: (if deep then walk deep (child dir n) inside else []) ++ walk deep dir rest
  end.

(** A listing that a reader can deliver with [k] more levels: names are valid,
    paths fit, and the tree [T] has the same objects. *)
Definition good_name (n : chars) : Prop := valid_component n = true /\ 0 ∉ n.

Fixpoint present (T : chars -> option object) (deep : bool) (k : nat) (dir : chars) (l : listing) : Prop :=
  match l with
  | End => True
  | AFile n c st rest =>
      (good_name n /\ alen (child dir n) < BVSTK_FS_PATH_CAPACITY /\ alen c <= UINT64_MAX /\
       T (child dir n) = Some (OFile c st)) /\ present T deep k dir rest
  | ADir n inside rest =>
      (good_name n /\ alen (child dir n) < BVSTK_FS_PATH_CAPACITY /\ T (child dir n) = Some (ODir inside) /\
       (deep = true -> match k with O => False | S k => present T deep k (child dir n) inside end)) /\
      present T deep k dir rest
  end.

(** ** Streams *)

Definition be16 (v : Z) : chars := [u8 (Z.shiftr v 8); u8 v].
Definition be64 (v : Z) : chars := (fun i => u8 (Z.shiftr v (56 - 8 * i))) <$> seqZ 0 8.

Definition info_of (o : object) : bvstk_fs_info_t :=
  match o with
  | OFile c st => FsInfo (alen c) st BVSTK_FS_ENTRY_FILE 0
  | ODir _ => FsInfo 0 0 BVSTK_FS_ENTRY_DIR 0
  end.

Definition tree_record (path : chars) (o : object) : chars :=
  be16 (14 + alen path) ++ [fi_type (info_of o); 0] ++ be64 (fi_size (info_of o)) ++ be16 (alen path) ++ path.

(** The headers of an entry of an archive, and the padding of a file. *)
Definition tar_headers (path : chars) (o : object) : chars :=
  match tar_stage path (info_of o) with Some (stage, size) => prefix size stage | None => [] end.

Definition padding_of (n : Z) : Z := (512 - n mod 512) mod 512.

Definition tar_entry (path : chars) (o : object) : chars :=
  tar_headers path o ++ match o with OFile c _ => c ++ fill (padding_of (alen c)) 0 | ODir _ => [] end.

(** [base]: the length of what all paths share, dropped from the records. *)
Definition entry_record (kind base : Z) (e : chars * object) : chars :=
  let path := drop (Z.to_nat base) e.1 in
  if kind =? BVSTK_FS_TREE then tree_record path e.2 else tar_entry path e.2.

Definition trailer (kind : Z) : chars := if kind =? BVSTK_FS_TAR then fill 1024 0 else [].

Definition entries_stream (kind base : Z) (es : list (chars * object)) : chars :=
  mjoin (entry_record kind base <$> es) ++ trailer kind.

Definition base_of (root : chars) : Z := alen root + if root.[alen root - 1] =? 47 then 0 else 1.

(** What a request for [root] delivers. *)
Definition stream_of (kind flags : Z) (root : chars) (o : object) : chars :=
  match o with
  | OFile c _ => c
  | ODir l =>
      entries_stream kind (base_of root)
        (walk ((kind =? BVSTK_FS_TAR) || negb (Z.land flags BVSTK_FS_RECURSIVE =? 0)) root l)
  end.

(** ** The laws of a backend

    [files] and [dirs] are the open handles.  Whatever a backend answers, it keeps
    account of them: a handle it gives out was not open, a failed open leaves
    none, a close closes.  When it answers that a call succeeded, the answer is
    true of the tree [T] - unless [wrong] holds, which a backend may choose; and
    what the tree has it delivers, unless [fails] holds. *)

Section laws.
Context {X : Type} (b : bvstk_fs_backend_t X).
Context (files : X -> gmap Z chars) (dirs : X -> gmap Z listing).
Context (T : chars -> option object) (wrong fails : Prop).

Definition excused : Prop := fails \/ wrong.

Definition read_law (l : listing) (name : chars) (info : bvstk_fs_info_t) (l' : listing) : Prop :=
  match l with
  | End => cstr name = [] /\ l' = End
  | AFile n c st rest => (0 ∉ n -> cstr name = n) /\ describes info (OFile c st) /\ l' = rest
  | ADir n inside rest => (0 ∉ n -> cstr name = n) /\ describes info (ODir inside) /\ l' = rest
  end.

Class Serves : Prop := {
  law_volume_count x : runs (bk_volume_count b) x (fun _ x' => files x' = files x /\ dirs x' = dirs x);
  law_volume i x : runs (bk_volume b i) x (fun _ x' => files x' = files x /\ dirs x' = dirs x);
  law_stat p x : runs (bk_stat b p) x (fun '(rc, info) x' =>
    files x' = files x /\ dirs x' = dirs x /\
    if fs_ok rc then wrong \/ forall o, T p = Some o -> describes info o else excused \/ T p = None);
  law_file_open p x : runs (bk_file_open b p) x (fun '(rc, h, size) x' =>
    dirs x' = dirs x /\
    if fs_ok rc then
      h <> 0 /\ 0 <= size /\ files x !! h = None /\ exists c, files x' = <[h := c]> (files x) /\
        (wrong \/ forall c0 st, T p = Some (OFile c0 st) -> c = c0 /\ size = alen c0)
    else h = 0 /\ files x' = files x /\ (excused \/ forall c st, T p <> Some (OFile c st)));
  law_file_read h n x c : files x !! h = Some c -> 0 < n -> runs (bk_file_read b h n) x (fun '(rc, bytes) x' =>
    dirs x' = dirs x /\ exists c', files x' = <[h := c']> (files x) /\
    if fs_ok rc then wrong \/ (c = bytes ++ c' /\ alen bytes <= n /\ (c <> [] -> bytes <> [])) else excused);
  law_file_close h x c : files x !! h = Some c -> runs (bk_file_close b h) x (fun _ x' =>
    dirs x' = dirs x /\ files x' = delete h (files x));
  law_dir_open p x : runs (bk_dir_open b p) x (fun '(rc, h) x' =>
    files x' = files x /\
    if fs_ok rc then
      dirs x !! h = None /\ exists l, dirs x' = <[h := l]> (dirs x) /\
        (wrong \/ forall l0, T p = Some (ODir l0) -> l = l0)
    else dirs x' = dirs x /\ (excused \/ forall l, T p <> Some (ODir l)));
  law_dir_read h n x l : dirs x !! h = Some l -> runs (bk_dir_read b h n) x (fun '(rc, name, info) x' =>
    files x' = files x /\ exists l', dirs x' = <[h := l']> (dirs x) /\
    if fs_ok rc then wrong \/ read_law l name info l' else excused);
  law_dir_close h x l : dirs x !! h = Some l -> runs (bk_dir_close b h) x (fun _ x' =>
    files x' = files x /\ dirs x' = delete h (dirs x))
}.
End laws.
