(* ===== verification/FsReaderSafety.v ===== *)
(** * FsReaderSafety: a reader delivers the stream of its tree

    The invariant of a reader - its buffers, its handles and what is to come - and
    its operations, over a backend with the laws of [FsStream]: every read ends,
    stays inside its buffers, closes what it opened, and continues the stream. *)
From stdpp Require Import prelude gmap.
From Stdlib Require Import ZArith Lia.
From S2P Require Import Prelude Text FsPath FsReader FsStream.
Local Open Scope Z_scope.

(** ** Paths in their buffer *)

Lemma cstr_text (p junk : chars) : 0 ∉ p -> cstr (p ++ 0 :: junk) = p.
Proof.
  induction p as [|c p IH]; [done|]. intros Hn. apply not_elem_of_cons in Hn as [Hc Hp]. cbn.
  rewrite (proj2 (Z.eqb_neq c 0)) by congruence. by rewrite IH.
Qed.

Lemma prefix_length {A} (n : Z) (l : list A) : 0 <= n <= alen l -> alen (prefix n l) = n.
Proof. apply alen_prefix. Qed.

(** The text of a path entry: the buffer starts with it, terminated. *)
Definition holds_text (path p : chars) : Prop := exists junk, path = p ++ 0 :: junk.

Lemma path_entry_bounds path parent name path' len' :
  alen path = BVSTK_FS_PATH_CAPACITY -> 0 <= parent -> path_entry path parent name = Some (path', len') ->
  alen path' = BVSTK_FS_PATH_CAPACITY /\ 0 <= len' < BVSTK_FS_PATH_CAPACITY.
Proof.
  unfold path_entry. intros Hp Hpar. pose proof (alen_nonneg name).
  destruct (negb (parent =? 0) && negb (path.[parent - 1] =? 47)); cbn [andb].
  - destruct (_ <=? parent + 1) eqn:E1; [done|]. destruct (_ <=? _ + alen name) eqn:E2; [done|]. intros [= <- <-]. bsimp.
    split; [|lia]. apply write_fits; [by rewrite alen_aset|lia|]. rewrite alen_app. change (alen [0]) with 1. lia.
  - destruct (_ <=? _) eqn:E2; [done|]. intros [= <- <-]. bsimp.
    split; [|lia]. apply write_fits; [done|lia|]. rewrite alen_app. change (alen [0]) with 1. lia.
Qed.

Lemma path_entry_child path parent name :
  alen path = BVSTK_FS_PATH_CAPACITY -> 0 < parent < BVSTK_FS_PATH_CAPACITY ->
  let dir := prefix parent path in
  alen (child dir name) < BVSTK_FS_PATH_CAPACITY ->
  exists path', path_entry path parent name = Some (path', alen (child dir name)) /\ holds_text path' (child dir name).
Proof.
  intros Hp Hpar dir. assert (alen dir = parent) as Hd by (apply alen_prefix; lia).
  assert (dir.[alen dir - 1] = path.[parent - 1]) as Hlast.
  { rewrite Hd. subst dir. unfold aget, prefix. rewrite lookup_total_take. by rewrite decide_True by lia. }
  unfold child, path_entry. rewrite Hlast, (proj2 (Z.eqb_neq parent 0)) by lia. cbn [negb andb].
  assert (path = dir ++ drop (Z.to_nat parent) path) as Hsplit by (subst dir; unfold prefix; by rewrite take_drop).
  assert (alen (drop (Z.to_nat parent) path) = 512 - parent) as Hrest.
  { unfold alen, BVSTK_FS_PATH_CAPACITY in *. rewrite length_drop. lia. }
  destruct (drop (Z.to_nat parent) path) as [|z rest] eqn:Er; [change (alen []) with 0 in Hrest; unfold BVSTK_FS_PATH_CAPACITY in *; lia|].
  destruct (path.[parent - 1] =? 47); cbn [negb andb]; intros Hc.
  - rewrite alen_app in Hc |- *. rewrite Hd in *. rewrite (proj2 (Z.leb_gt _ _)) by lia. eexists. split; [done|].
    rewrite Hsplit, <- Hd, write_at_app. eexists. rewrite <- !app_assoc. done.
  - assert (alen (dir ++ 47 :: name) = parent + 1 + alen name) as Hl.
    { unfold alen in *. rewrite length_app. cbn [length]. lia. }
    rewrite Hl in Hc |- *. pose proof (alen_nonneg name).
    rewrite (proj2 (Z.leb_gt _ _)), (proj2 (Z.leb_gt _ _)) by lia. eexists. split; [done|].
    rewrite Hsplit, <- Hd, aset_app.
    replace (dir ++ 47 :: rest) with ((dir ++ [47]) ++ rest) by (by rewrite <- app_assoc).
    replace (alen dir + 1) with (alen (dir ++ [47])) by (rewrite alen_app; done).
    rewrite write_at_app. eexists. rewrite <- !app_assoc. done.
Qed.

(** The path of a child starts with that of its directory. *)
Lemma child_app dir name : exists sep, child dir name = dir ++ sep ++ name /\ (sep = [] \/ sep = [47]) /\ base_of dir = alen dir + alen sep.
Proof.
  unfold child, base_of. destruct (_ =? 47); [exists []|exists [47]]; (split; [done|]); (split; [auto|]); done.
Qed.

Lemma child_facts dir name :
  0 ∉ dir -> good_name name ->
  (0 ∉ child dir name) /\ alen dir < alen (child dir name) /\ base_of dir <= alen (child dir name).
Proof.
  intros Hd [Hv Hz]. destruct (child_app dir name) as (sep & -> & Hs & ->). rewrite !alen_app.
  assert (0 < alen name) by (destruct name; [done|rewrite alen_cons; pose proof (alen_nonneg name); lia]).
  pose proof (alen_nonneg sep). split; [|lia]. rewrite !not_elem_of_app. split; [done|]. split; [|done].
  destruct Hs as [-> | ->]; [apply not_elem_of_nil|]. rewrite list_elem_of_singleton. lia.
Qed.

Lemma prefix_prefix {A} (l : list A) n m : 0 <= n <= m -> prefix n (prefix m l) = prefix n l.
Proof. intros H. unfold prefix. rewrite take_take. f_equal. lia. Qed.

Lemma prefix_app_short {A} (a c : list A) n : 0 <= n <= alen a -> prefix n (a ++ c) = prefix n a.
Proof. intros H. unfold prefix, alen in *. rewrite take_app_le by lia. done. Qed.

Lemma prefix_aset {A} (l : list A) n m v : 0 <= n <= m -> prefix n (l.[m <- v]) = prefix n l.
Proof. intros H. unfold prefix, aset. rewrite take_insert_ge by lia. done. Qed.

Lemma holds_prefix path p : holds_text path p -> prefix (alen p) path = p.
Proof. intros [junk ->]. unfold prefix, alen. by rewrite Nat2Z.id, take_app_length. Qed.

Lemma path_cstr path p : 0 ∉ p -> holds_text path p -> cstr path = p.
Proof. intros Hz [junk ->]. by apply cstr_text. Qed.

Lemma holds_below path dir name n :
  holds_text path (child dir name) -> 0 <= n <= alen dir -> prefix n path = prefix n dir.
Proof.
  intros [junk ->] Hn. destruct (child_app dir name) as (sep & -> & _). rewrite <- !app_assoc. by apply prefix_app_short.
Qed.

(** The staged record is the reference record. *)
Lemma tree_stage_record stage relative info :
  alen stage = 2048 -> alen relative <= 512 ->
  let '(s, size) := tree_stage stage relative info in
  alen s = 2048 /\ size = 14 + alen relative /\
  prefix size s = be16 (14 + alen relative) ++ [fi_type info; 0] ++
    be64 (if fi_type info =? BVSTK_FS_ENTRY_FILE then fi_size info else 0) ++ be16 (alen relative) ++ relative.
Proof.
  intros Hs Hr. pose proof (alen_nonneg relative). unfold tree_stage. rewrite !u16_id by lia.
  set (sz := if fi_type info =? BVSTK_FS_ENTRY_FILE then fi_size info else 0).
  do 14 (destruct stage as [|? stage]; [done|]). rewrite !alen_cons in Hs.
  set (n := 14 + alen relative) in *.
  assert (put64 ((put16 (z :: z0 :: z1 :: z2 :: z3 :: z4 :: z5 :: z6 :: z7 :: z8 :: z9 :: z10 :: z11 :: z12 :: stage) 0 n)
    .[2 <- fi_type info].[3 <- 0]) 4 sz = (be16 n ++ [fi_type info; 0] ++ be64 sz) ++ z11 :: z12 :: stage) as -> by reflexivity.
  assert (forall a b v, put16 ((be16 n ++ [fi_type info; 0] ++ be64 sz) ++ a :: b :: stage) 12 v =
    (be16 n ++ [fi_type info; 0] ++ be64 sz ++ be16 v) ++ stage) as -> by reflexivity.
  set (head := be16 n ++ [fi_type info; 0] ++ be64 sz ++ be16 (alen relative)).
  assert (alen head = 14) as Hh by reflexivity.
  replace (write_at (head ++ stage) 14 relative) with (write_at (head ++ stage) (alen head) relative) by (by rewrite Hh).
  rewrite write_at_app. split; [|split; [done|]].
  - rewrite !alen_app. unfold alen in *. rewrite length_drop. lia.
  - assert (n = alen (head ++ relative)) as Hn by (rewrite alen_app, Hh; done).
    rewrite app_assoc, Hn, prefix_app_short, prefix_whole by (pose proof (alen_nonneg (head ++ relative)); lia).
    rewrite <- Hn. unfold head. by rewrite <- !app_assoc.
Qed.

(** ** The invariant *)

Section reader.
Context {X : Type} (b : bvstk_fs_backend_t X).
Context (files : X -> gmap Z chars) (dirs : X -> gmap Z listing).
Context (T : chars -> option object) (wrong fails : Prop).
Context `{Hserves : !Serves b files dirs T wrong fails}.

(** The request, and the handles of others. *)
Context (kind flags base : Z) (root_cells : chars) (F : gmap Z chars) (D : gmap Z listing).

Abbreviation excuse := (excused wrong fails).
Implicit Types (r : bvstk_fs_reader_t X) (x : X) (SF : list (Z * chars)) (SD : list (Z * listing)).

Definition deep : bool := (kind =? BVSTK_FS_TAR) || negb (Z.land flags BVSTK_FS_RECURSIVE =? 0).

(** Buffers and indices are inside their arrays. *)
Record sound r : Prop := {
  so_backend : rd_backend r = Some b;
  so_kind : rd_kind r = kind;
  so_flags : rd_flags r = flags;
  so_base : rd_relative_offset r = base;
  so_root : rd_root r = root_cells;
  so_path : alen (rd_path r) = BVSTK_FS_PATH_CAPACITY;
  so_stage : alen (rd_stage r) = 2048;
  so_offset : 0 <= rd_stage_offset r <= rd_stage_size r;
  so_size : rd_stage_size r <= 2048;
  so_dirs : alen (rd_dirs r) = BVSTK_FS_MAX_DEPTH;
  so_lens : Forall (fun d => 0 <= dr_path_len d < BVSTK_FS_PATH_CAPACITY) (rd_dirs r)
}.

(** The open directories, the innermost first, are the first cells of [dirs]. *)
Fixpoint handles_at (ds : list fs_dir_t) SD : Prop :=
  match SD with
  | [] => True
  | (h, _) :: SD => dr_handle (ds.[alen SD]) = h /\ handles_at ds SD
  end.

Record holding r SF SD x : Prop := {
  ho_files : owns SF F (files x);
  ho_dirs : owns SD D (dirs x);
  ho_file : match SF with [] => rd_file r = 0 | [(h, _)] => rd_file r = h /\ h <> 0 | _ => False end;
  ho_depth : rd_depth r = alen SD;
  ho_max : alen SD <= BVSTK_FS_MAX_DEPTH;
  ho_handles : handles_at (rd_dirs r) SD
}.

(** The path of the innermost directory, and the entries still to come. *)
Definition dir_path (path : chars) (ds : list fs_dir_t) SD : chars := prefix (dr_path_len (ds.[alen SD])) path.

Fixpoint to_come (path : chars) (ds : list fs_dir_t) SD : list (chars * object) :=
  match SD with
  | [] => []
  | (_, l) :: SD => walk deep (dir_path path ds SD) l ++ to_come path ds SD
  end.

Fixpoint ready (path : chars) (ds : list fs_dir_t) SD : Prop :=
  match SD with
  | [] => True
  | (_, l) :: SD =>
      let len := dr_path_len (ds.[alen SD]) in
      present T deep (15 - length SD) (dir_path path ds SD) l /\
      0 < len < BVSTK_FS_PATH_CAPACITY /\ (0 ∉ dir_path path ds SD) /\ base <= base_of (dir_path path ds SD) /\
      (SD <> [] -> (dr_path_len (ds.[alen SD - 1]) <= len)%Z) /\ ready path ds SD
  end.

(** They only depend on the cells in use and on the path up to the innermost. *)
Lemma ready_ext path path' ds ds' SD :
  (forall i, 0 <= i < alen SD -> ds'.[i] = ds.[i]) ->
  (SD <> [] -> forall n, (n <= dr_path_len (ds.[alen SD - 1])) -> prefix n path' = prefix n path) ->
  ready path ds SD -> ready path' ds' SD /\ to_come path' ds' SD = to_come path ds SD.
Proof.
  induction SD as [|[h l] SD IH]; [done|]. intros Hds Hpath (Hp & Hlen & Hz & Hb & Hmono & Hr).
  assert (alen ((h, l) :: SD) = alen SD + 1) as Hl by (unfold alen; cbn [length]; lia). pose proof (alen_nonneg SD).
  rewrite Hl in Hds, Hpath. assert (ds'.[alen SD] = ds.[alen SD]) as E by (apply Hds; lia).
  assert (dir_path path' ds' SD = dir_path path ds SD) as Ed.
  { unfold dir_path. rewrite E. apply Hpath; [done|]. replace (alen SD + 1 - 1) with (alen SD) by lia. done. }
  destruct IH as [IH1 IH2]; [|intros Hne n Hn|done|].
  - intros i Hi. apply Hds. lia.
  - apply Hpath; [done|]. replace (alen SD + 1 - 1) with (alen SD) by lia. specialize (Hmono Hne). lia.
  - cbn [ready to_come]. rewrite Ed, E, IH2. split; [|done]. repeat split; try done.
    + by destruct Hlen.
    + by destruct Hlen.
    + intros Hne. rewrite Hds; [by apply Hmono|]. destruct SD; [done|]. unfold alen in *. cbn in *. lia.
Qed.

Lemma handles_ext ds ds' SD : (forall i, 0 <= i < alen SD -> ds'.[i] = ds.[i]) -> handles_at ds SD -> handles_at ds' SD.
Proof.
  induction SD as [|[h l] SD IH]; [done|]. intros Hds [Hh Hr]. pose proof (alen_nonneg SD).
  assert (alen ((h, l) :: SD) = alen SD + 1) as Hl by (unfold alen; cbn [length]; lia). rewrite Hl in Hds.
  split; [rewrite Hds by lia; done|]. apply IH; [|done]. intros i Hi. apply Hds. lia.
Qed.

(** What [next_entry] changes. *)
Definition walked r r' : Prop := exists pa ds dp i, r' = with_info i (with_path pa (with_dirs ds dp r)).

Lemma walked_refl r : walked r r.
Proof. exists (rd_path r), (rd_dirs r), (rd_depth r), (rd_info r). by destruct r. Qed.

Lemma walked_dirs ds dp r : walked r (with_dirs ds dp r).
Proof. exists (rd_path r), ds, dp, (rd_info r). by destruct r. Qed.

Lemma walked_trans r r' r'' : walked r r' -> walked r' r'' -> walked r r''.
Proof. intros (pa & ds & dp & i & ->) (pa' & ds' & dp' & i' & ->). by eexists _, _, _, _. Qed.

Lemma dirs_step (ds : list fs_dir_t) SD h l len :
  alen SD < BVSTK_FS_MAX_DEPTH -> alen ds = BVSTK_FS_MAX_DEPTH -> handles_at ds SD ->
  handles_at (ds.[alen SD <- FsDir h len]) ((h, l) :: SD).
Proof.
  intros Hm Hl Hh. pose proof (alen_nonneg SD). cbn [handles_at]. rewrite aget_aset_eq by lia. split; [done|].
  eapply handles_ext; [|done]. intros i Hi. by rewrite aget_aset_ne by lia.
Qed.

Lemma lens_step (ds : list fs_dir_t) n h len :
  Forall (fun d => 0 <= dr_path_len d < BVSTK_FS_PATH_CAPACITY) ds -> 0 <= len < BVSTK_FS_PATH_CAPACITY ->
  Forall (fun d => 0 <= dr_path_len d < BVSTK_FS_PATH_CAPACITY) (ds.[n <- FsDir h len]).
Proof. intros Hf Hl. by apply Forall_insert. Qed.

Lemma lens_get (ds : list fs_dir_t) n :
  Forall (fun d => 0 <= dr_path_len d < BVSTK_FS_PATH_CAPACITY) ds -> 0 <= n < alen ds ->
  0 <= dr_path_len (ds.[n]) < BVSTK_FS_PATH_CAPACITY.
Proof. intros Hf Hn. rewrite Forall_forall in Hf. apply Hf. by apply aget_in. Qed.

(** A directory that is entered is open; nothing else changes. *)
Lemma enter_entry_spec r x SF SD len :
  sound r -> holding r SF SD x -> 0 <= len < BVSTK_FS_PATH_CAPACITY ->
  runs (enter_entry b len) (r, x) (fun rc s' => exists SD',
    sound s'.1 /\ holding s'.1 SF SD' s'.2 /\ walked r s'.1 /\
    rd_path s'.1 = rd_path r /\ rd_info s'.1 = rd_info r /\
    if fs_ok rc then
      if (fi_type (rd_info r) =? BVSTK_FS_ENTRY_DIR) && deep then
        exists h l, SD' = (h, l) :: SD /\ rd_dirs s'.1 = (rd_dirs r).[alen SD <- FsDir h len] /\
          (wrong \/ forall l0, T (cstr (rd_path r)) = Some (ODir l0) -> l = l0)
      else SD' = SD /\ rd_dirs s'.1 = rd_dirs r
    else excuse \/ (fi_type (rd_info r) <> BVSTK_FS_ENTRY_FILE /\ fi_type (rd_info r) <> BVSTK_FS_ENTRY_DIR) \/
         (fi_type (rd_info r) = BVSTK_FS_ENTRY_DIR /\ deep = true /\
          (alen SD = BVSTK_FS_MAX_DEPTH \/ forall l, T (cstr (rd_path r)) <> Some (ODir l)))).
Proof.
  intros Hs Hh Hlen. unfold enter_entry. fs_steps. cbn [fst snd].
  rewrite (so_kind r Hs), (so_flags r Hs), (ho_depth _ _ _ _ Hh). fold deep.
  destruct ((fi_type (rd_info r) =? BVSTK_FS_ENTRY_DIR) && deep) eqn:Ed.
  - apply andb_true_iff in Ed as [Et Edp]. apply Z.eqb_eq in Et.
    destruct (Z.eqb_spec (alen SD) BVSTK_FS_MAX_DEPTH) as [He|Hne].
    { fs_steps. exists SD. split; [done|]. split; [done|]. split; [apply walked_refl|]. do 2 (split; [done|]).
      right. right. split; [done|]. split; [done|]. by left. }
    pose proof (ho_max _ _ _ _ Hh) as Hm. fs_steps. apply runs_world. cbn [fst snd].
    eapply runs_mono; [eapply (law_dir_open b files dirs T wrong fails)|]. intros [rc h] x' [Hf Hl]. cbn [fst snd].
    destruct (fs_ok rc) eqn:Erc; cbn [negb].
    + destruct Hl as (Hn & l & Hd & Ht). fs_steps. exists ((h, l) :: SD). cbn [fst snd].
      split; [|split; [|split; [|split; [|split]]]]; try done.
      * destruct Hs. split; try done; cbn; [by rewrite alen_aset|by apply lens_step].
      * destruct Hh as [h1 h2 h3 h4 h5 h6]. split; cbn; try done.
        -- by rewrite Hf.
        -- rewrite Hd. by apply owns_push.
        -- rewrite alen_cons. lia.
        -- rewrite alen_cons. lia.
        -- apply (dirs_step _ SD h l len); [lia|by destruct Hs|done].
      * apply walked_dirs.
      * exists h, l. by repeat split.
    + destruct Hl as (Hd & Ht). fs_steps. exists SD. cbn [fst snd].
      split; [|split; [|split; [|split; [|split]]]]; try done.
      * destruct Hs. split; try done; cbn; [by rewrite alen_aset|]. apply lens_step; [done|]. apply lens_get; [done|].
        pose proof (alen_nonneg SD). lia.
      * destruct Hh as [h1 h2 h3 h4 h5 h6]. split; cbn; try done; [by rewrite Hf|by rewrite Hd|].
        eapply handles_ext; [|done]. intros i Hi. by rewrite aget_aset_ne by lia.
      * apply walked_dirs.
      * rewrite Erc. destruct Ht as [Ht|Ht]; [by left|]. right. right. split; [done|]. split; [done|]. by right.
  - assert (fi_type (rd_info r) = BVSTK_FS_ENTRY_DIR -> deep = false) as Hnd.
    { intros Ht. apply andb_false_iff in Ed as [Ed|Ed]; [by bsimp|done]. }
    destruct (negb _ && negb _) eqn:Eu; fs_steps; exists SD; (split; [done|]; split; [done|]; split; [apply walked_refl|]; do 2 (split; [done|])); [|done].
    apply andb_true_iff in Eu as [? ?]. bsimp. right. left. done.
Qed.

(** ** Walking *)

Definition entry_fits (e : chars * object) : Prop :=
  T e.1 = Some e.2 /\ (0 ∉ e.1) /\ base <= alen e.1 < BVSTK_FS_PATH_CAPACITY /\
  match e.2 with OFile c _ => alen c <= UINT64_MAX | ODir _ => True end.

(** What [next_entry] found, in a tree that is what the backend says. *)
Definition found r SD r' SD' : Prop :=
  exists p o, to_come (rd_path r) (rd_dirs r) SD = (p, o) :: to_come (rd_path r') (rd_dirs r') SD' /\
    ready (rd_path r') (rd_dirs r') SD' /\ cstr (rd_path r') = p /\ holds_text (rd_path r') p /\
    entry_fits (p, o) /\ describes (rd_info r') o.

Lemma ready_rest path ds h l h' l' SD :
  ready path ds ((h, l) :: SD) -> present T deep (15 - length SD) (dir_path path ds SD) l' -> ready path ds ((h', l') :: SD).
Proof. intros (_ & Hr) Hp. by split. Qed.

Lemma ready_same path path' ds h l SD :
  let len := dr_path_len (ds.[alen SD]) in
  (forall n, 0 <= n <= len -> prefix n path' = prefix n path) ->
  ready path ds ((h, l) :: SD) ->
  ready path' ds ((h, l) :: SD) /\ to_come path' ds ((h, l) :: SD) = to_come path ds ((h, l) :: SD).
Proof.
  intros len Hn Hr. apply ready_ext; [done| |done]. intros _ n Hle. rewrite alen_cons in Hle.
  replace (1 + alen SD - 1) with (alen SD) in Hle by lia. destruct (decide (0 <= n)); [by apply Hn|].
  unfold prefix. by rewrite Z2Nat.nonpos by lia.
Qed.

(** A file or a directory that is not entered: only the path moves on. *)
Lemma found_flat r path' info h name o rest SD :
  ready (rd_path r) (rd_dirs r) ((h, rest) :: SD) ->
  let dir := dir_path (rd_path r) (rd_dirs r) SD in
  alen dir = dr_path_len ((rd_dirs r).[alen SD]) -> holds_text path' (child dir name) -> good_name name ->
  alen (child dir name) < BVSTK_FS_PATH_CAPACITY -> T (child dir name) = Some o ->
  match o with OFile c _ => alen c <= UINT64_MAX | ODir _ => True end -> describes info o ->
  forall r', rd_path r' = path' -> rd_dirs r' = rd_dirs r -> rd_info r' = info ->
  exists p, to_come (rd_path r') (rd_dirs r') ((h, rest) :: SD) = to_come (rd_path r) (rd_dirs r) ((h, rest) :: SD) /\
    p = child dir name /\ ready (rd_path r') (rd_dirs r') ((h, rest) :: SD) /\ cstr (rd_path r') = p /\
    holds_text (rd_path r') p /\ entry_fits (p, o) /\ describes (rd_info r') o.
Proof.
  intros Hr dir Hlen Hp Hn Hc HT Ho Hd r' -> -> ->.
  assert ((0 ∉ dir) /\ base <= base_of dir) as [Hz Hb] by (by destruct Hr as (_ & _ & ? & ? & _)).
  destruct (child_facts dir name Hz Hn) as (Hzc & Hlt & Hbc).
  destruct (ready_same (rd_path r) path' (rd_dirs r) h rest SD) as [Hr' Ht]; [|done|].
  { intros n Hle. rewrite (holds_below path' dir name n) by (done || lia). subst dir. unfold dir_path. by apply prefix_prefix. }
  exists (child dir name). split; [done|]. split; [done|]. split; [done|]. split; [by apply path_cstr|]. split; [done|].
  split; [|done]. split; [done|]. split; [done|]. cbn. split; [lia|done].
Qed.

(** A directory that is entered. *)
Lemma ready_push path path' ds ds' h name inside rest h' SD :
  ready path ds ((h, rest) :: SD) ->
  let dir := dir_path path ds SD in
  let len' := alen (child dir name) in
  alen dir = dr_path_len (ds.[alen SD]) -> holds_text path' (child dir name) -> good_name name ->
  len' < BVSTK_FS_PATH_CAPACITY -> alen SD + 1 < alen ds ->
  present T deep (15 - length ((h, rest) :: SD)) (child dir name) inside ->
  ds' = ds.[alen ((h, rest) :: SD) <- FsDir h' len'] ->
  ready path' ds' ((h', inside) :: (h, rest) :: SD) /\
  to_come path' ds' ((h', inside) :: (h, rest) :: SD) = walk deep (child dir name) inside ++ to_come path ds ((h, rest) :: SD).
Proof.
  intros Hr dir len' Hlen Hp Hn Hc Hds Hin ->.
  assert ((0 ∉ dir) /\ base <= base_of dir) as [Hz Hb] by (by destruct Hr as (_ & _ & ? & ? & _)).
  destruct (child_facts dir name Hz Hn) as (Hzc & Hlt & Hbc). rewrite alen_cons in *. pose proof (alen_nonneg SD).
  set (ds' := ds.[1 + alen SD <- FsDir h' len']).
  assert (ds'.[1 + alen SD] = FsDir h' len') as Etop by (unfold ds'; apply aget_aset_eq; lia).
  assert (dir_path path' ds' ((h, rest) :: SD) = child dir name) as Edir.
  { unfold dir_path. rewrite alen_cons, Etop. cbn [dr_path_len]. by apply holds_prefix. }
  destruct (ready_ext path path' ds ds' ((h, rest) :: SD)) as [Hr' Ht].
  - intros i Hi. rewrite alen_cons in Hi. unfold ds'. by rewrite aget_aset_ne by lia.
  - intros _ n Hle. rewrite alen_cons in Hle. replace (1 + alen SD - 1) with (alen SD) in Hle by lia.
    destruct (decide (0 <= n)); [|unfold prefix; by rewrite Z2Nat.nonpos by lia].
    rewrite (holds_below path' dir name n) by (done || lia). subst dir. unfold dir_path. apply prefix_prefix. lia.
  - done.
  - cbn [ready to_come] in *. rewrite Edir, alen_cons, Etop. cbn [dr_path_len].
    assert (base <= base_of (child dir name)) by (unfold base_of; case_match; lia).
    assert (ds'.[1 + alen SD - 1] = ds.[alen SD]) as Eb.
    { replace (1 + alen SD - 1) with (alen SD) by lia. unfold ds'. by rewrite aget_aset_ne by lia. }
    rewrite Ht. split; [|done]. split; [done|]. pose proof (alen_nonneg dir). split; [lia|]. split; [done|]. split; [done|].
    split; [|done]. intros _. rewrite Eb. unfold len'. lia.
Qed.

(** The state after a call to [bk_dir_read], and after the innermost directory
    was closed. *)
Lemma after_read r x SF h l SD pos info l' x' :
  sound r -> holding r SF ((h, l) :: SD) x -> files x' = files x -> dirs x' = <[h := l']> (dirs x) ->
  let r1 := with_info info (with_path ((rd_path r).[pos <- 0]) r) in
  sound r1 /\ holding r1 SF ((h, l') :: SD) x' /\ walked r r1.
Proof.
  intros Hs Hh Hf Hd r1. split; [|split].
  - destruct Hs. split; try done. cbn. by rewrite alen_aset.
  - destruct Hh as [h1 h2 h3 h4 h5 h6]. split; try done.
    + by rewrite Hf.
    + rewrite Hd. by eapply owns_set.
  - exists ((rd_path r).[pos <- 0]), (rd_dirs r), (rd_depth r), info. by destruct r.
Qed.

Lemma after_close r x SF h l SD len x' :
  sound r -> holding r SF ((h, l) :: SD) x -> files x' = files x -> dirs x' = delete h (dirs x) ->
  0 <= len < BVSTK_FS_PATH_CAPACITY ->
  let r1 := with_dirs ((rd_dirs r).[alen SD <- FsDir 0 len]) (alen SD) r in
  sound r1 /\ holding r1 SF SD x' /\ walked r r1.
Proof.
  intros Hs Hh Hf Hd Hlen r1. split; [|split].
  - destruct Hs. split; try done; cbn; [by rewrite alen_aset|by apply lens_step].
  - destruct Hh as [h1 h2 h3 h4 h5 h6]. rewrite alen_cons in *. split; try done.
    + by rewrite Hf.
    + rewrite Hd. by eapply owns_pop.
    + lia.
    + cbn in *. eapply handles_ext; [|apply h6]. intros i Hi. by rewrite aget_aset_ne by lia.
  - apply walked_dirs.
Qed.

Definition walked_to r SF SD (o : bvstk_fs_result_t * bool) (s' : session) : Prop :=
  exists SD', sound s'.1 /\ holding s'.1 SF SD' s'.2 /\ walked r s'.1 /\
    if fs_ok o.1 then
      if o.2 then SD' = [] /\ (wrong \/ to_come (rd_path r) (rd_dirs r) SD = [])
      else wrong \/ found r SD s'.1 SD'
    else excuse.

(** The entry behind a name. *)
Definition entry_of path ds h l SD name info l' (o : object) : Prop :=
  let dir := dir_path path ds SD in
  let p := child dir name in
  good_name name /\ alen p < BVSTK_FS_PATH_CAPACITY /\ T p = Some o /\ describes info o /\
  match o with OFile c _ => alen c <= UINT64_MAX | ODir _ => True end /\
  ready path ds ((h, l') :: SD) /\
  walk deep dir l = (p, o) :: match o with ODir inside => if deep then walk deep p inside else [] | OFile _ _ => [] end ++ walk deep dir l' /\
  forall inside, o = ODir inside -> deep = true ->
    present T deep (15 - length ((h, l') :: SD)) p inside /\ alen SD + 1 < BVSTK_FS_MAX_DEPTH.

Lemma entry_of_read path ds h l SD name info l' :
  ready path ds ((h, l) :: SD) -> read_law l name info l' -> cstr name <> [] -> exists o, entry_of path ds h l SD (cstr name) info l' o.
Proof.
  intros Hr Hl Hne. unfold entry_of. destruct l as [|nm c st rest|nm inside rest]; [by destruct Hl| |]; destruct Hl as (Hnm & Hd & ->);
    (rewrite Hnm by (by destruct Hr as ((((_ & Hz) & _) & _) & _))).
  - pose proof Hr as (((Hn & Hlen & Hc & HT) & Hp) & _). exists (OFile c st). repeat (split; [done|]).
    split; [by eapply ready_rest|]. by split.
  - pose proof Hr as (((Hn & Hlen & HT & Hin) & Hp) & _). exists (ODir inside). repeat (split; [done|]).
    split; [by eapply ready_rest|]. split; [done|]. intros ? [= <-] Hdp. specialize (Hin Hdp).
    destruct (15 - length SD)%nat as [|k] eqn:Ek; [done|]. cbn [length]. replace (15 - S (length SD))%nat with k by lia.
    split; [done|]. unfold alen, BVSTK_FS_MAX_DEPTH. lia.
Qed.

(** A name was read: what the rest of the round makes of it. *)
Lemma named_entry r x SF h l' SD parent name info r0 l :
  sound r -> holding r SF ((h, l') :: SD) x -> walked r0 r ->
  rd_path r = (rd_path r0).[parent <- 0] -> rd_dirs r = rd_dirs r0 -> rd_info r = info ->
  parent = dr_path_len ((rd_dirs r0).[alen SD]) -> 0 <= parent < BVSTK_FS_PATH_CAPACITY ->
  alen (rd_path r0) = BVSTK_FS_PATH_CAPACITY ->
  (wrong \/ ready (rd_path r0) (rd_dirs r0) ((h, l) :: SD) /\ read_law l name info l') -> cstr name <> [] ->
  runs (if negb (valid_component (cstr name)) then st_ret (BVSTK_FS_INVALID, false)
        else
          match path_entry ((rd_path r0).[parent <- 0]) parent (cstr name) with
          | None => st_ret (BVSTK_FS_RANGE, false)
          | Some (path, length) => edit (with_path path) ;; let! rc := enter_entry b length in st_ret (rc, false)
          end) (r, x) (walked_to r0 SF ((h, l) :: SD)).
Proof.
  intros Hs Hh Hw Hpath Hds Hinfo Hpar Hrange Hcap Hc Hne.
  assert (wrong \/ exists o, entry_of (rd_path r0) (rd_dirs r0) h l SD (cstr name) info l' o /\ 0 < parent /\
    dir_path (rd_path r0) (rd_dirs r0) SD = prefix parent (rd_path r)) as He.
  { destruct Hc as [|[Hr Hl]]; [by left|]. right. destruct (entry_of_read _ _ _ _ _ _ _ _ Hr Hl Hne) as [o Ho]. exists o.
    split; [done|]. destruct Hr as (_ & Hlen & _). split; [lia|]. rewrite Hpath, prefix_aset by lia. by rewrite Hpar. }
  clear Hc. rewrite <- Hpath. destruct (valid_component (cstr name)) eqn:Ev; cbn [negb].
  2: { apply runs_ret. exists ((h, l') :: SD). split; [done|]. split; [done|]. split; [done|]. right.
    destruct He as [|(o & ((Hv & _) & _) & _)]; [done|]. by rewrite Hv in Ev. }
  assert (alen (rd_path r) = BVSTK_FS_PATH_CAPACITY) as Hcap' by apply (so_path _ Hs).
  assert (wrong \/ exists o, entry_of (rd_path r0) (rd_dirs r0) h l SD (cstr name) info l' o /\
    exists path', path_entry (rd_path r) parent (cstr name) = Some (path', alen (child (dir_path (rd_path r0) (rd_dirs r0) SD) (cstr name))) /\
      holds_text path' (child (dir_path (rd_path r0) (rd_dirs r0) SD) (cstr name))) as He'.
  { destruct He as [|(o & Ho & Hpos & Hdir)]; [by left|]. right. exists o. split; [done|].
    destruct Ho as (_ & Hl & _). rewrite Hdir in *. apply path_entry_child; [done|lia|done]. }
  clear He. destruct (path_entry (rd_path r) parent (cstr name)) as [[path' len']|] eqn:Ep.
  2: { apply runs_ret. exists ((h, l') :: SD). split; [done|]. split; [done|]. split; [done|]. right.
    by destruct He' as [|(o & _ & ? & ? & _)]. }
  apply path_entry_bounds in Ep as Hb; [|done|lia]. destruct Hb as [Hb1 Hb2]. fs_steps.
  set (r2 := with_path path' r). assert (sound r2) as Hs2 by (by destruct Hs; split).
  assert (holding r2 SF ((h, l') :: SD) x) as Hh2 by (by destruct Hh; split).
  eapply runs_mono; [by eapply (enter_entry_spec r2 x SF ((h, l') :: SD) len')|].
  intros rc s' (SD' & Hs' & Hh' & Hw' & Hp' & Hi' & Hres). apply runs_ret. exists SD'. split; [done|]. split; [done|].
  split.
  { eapply walked_trans; [exact Hw|]. eapply walked_trans; [|exact Hw']. exists path', (rd_dirs r), (rd_depth r), (rd_info r). by destruct r. }
  cbn [fst snd]. assert (rd_info r2 = info) as Hi2 by done. rewrite Hi2 in *. clear Hi2.
  destruct He' as [Hwr|(o & (Hg & Hlen & HT & Hd & Ho & Hr & Hwk & Hin) & path2 & [= -> ->] & Hh3)].
  { destruct (fs_ok rc); [by left|by right]. }
  set (dir := dir_path (rd_path r0) (rd_dirs r0) SD) in *. set (p := child dir (cstr name)) in *.
  assert (alen dir = dr_path_len ((rd_dirs r0).[alen SD])) as Hdl.
  { unfold dir, dir_path. apply alen_prefix. rewrite <- Hpar. lia. }
  assert ((0 ∉ dir) /\ base <= base_of dir) as [Hz _] by (by destruct Hr as (_ & _ & ? & ? & _)).
  destruct (child_facts dir (cstr name) Hz Hg) as (Hzp & _).
  assert (cstr (rd_path r2) = p) as Hcs by (by apply path_cstr). rewrite Hcs in Hres.
  assert (Htc : to_come (rd_path r0) (rd_dirs r0) ((h, l) :: SD) =
    (p, o) :: match o with ODir inside => if deep then walk deep p inside else [] | OFile _ _ => [] end ++
      to_come (rd_path r0) (rd_dirs r0) ((h, l') :: SD)) by (cbn; fold dir; rewrite Hwk; cbn; by rewrite <- app_assoc).
  destruct (fs_ok rc) eqn:Erc.
  - destruct ((fi_type info =? BVSTK_FS_ENTRY_DIR) && deep) eqn:Ed.
    + destruct Hres as (h2 & l2 & -> & Hds' & Hl2). destruct Hl2 as [|Hl2]; [by left|]. right.
      apply andb_true_iff in Ed as [Et Edp]. apply Z.eqb_eq in Et. destruct o as [c st|inside]; [destruct Hd as [Hd _]; rewrite Et in Hd; done|].
      rewrite (Hl2 inside) in * by done. destruct (Hin inside) as [Hpr Hmax]; [done|done|].
      destruct (ready_push (rd_path r0) (rd_path s'.1) (rd_dirs r0) (rd_dirs s'.1) h (cstr name) inside l' h2 SD) as [Hr' Ht']; try done.
      * rewrite Hp'. done.
      * rewrite <- Hds, (so_dirs _ Hs). done.
      * rewrite Hds'. cbn. by rewrite Hds.
      * exists p, (ODir inside). rewrite Ht', Htc. split; [by rewrite Edp|]. split; [done|].
        split; [by rewrite Hp'|]. split; [by rewrite Hp'|]. split; [|by rewrite Hi'].
        split; [done|]. split; [done|]. cbn. split; [|done]. destruct Hr as (_ & _ & _ & Hbase & _).
        destruct (child_facts dir (cstr name) Hz Hg) as (_ & _ & ?). fold dir in Hbase. fold p in H. lia.
    + destruct Hres as [-> Hds']. right.
      destruct (found_flat r0 path2 info h (cstr name) o l' SD Hr Hdl Hh3 Hg Hlen HT Ho Hd s'.1) as (p' & Ht' & -> & Hrest).
      * by rewrite Hp'.
      * by rewrite Hds'.
      * done.
      * exists p, o. rewrite Ht', Htc. split; [|done]. destruct o as [c st|inside]; [done|]. cbn in Hd.
        rewrite (proj2 (Z.eqb_eq _ _) Hd) in Ed. cbn in Ed. by rewrite Ed.
  - destruct Hres as [|[[H1 H2]|(H1 & H2 & H3)]]; [done|exfalso..].
    + destruct o; [by destruct Hd as [? _]|done].
    + destruct o as [c st|inside]; [destruct Hd as [Hd _]; rewrite H1 in Hd; done|].
      destruct (Hin inside) as [_ Hmax]; [done|done|]. destruct H3 as [H3|H3]; [rewrite alen_cons in H3; lia|].
      by apply (H3 inside).
Qed.

Lemma next_entry_spec n r x SF SD :
  sound r -> holding r SF SD x -> n = length SD -> (wrong \/ ready (rd_path r) (rd_dirs r) SD) ->
  runs (next_entry_loop b n) (r, x) (walked_to r SF SD).
Proof.
  revert r x SD. induction n as [|n IH]; intros r x SD Hs Hh Hn Hc.
  { destruct SD; [|done]. apply runs_ret. exists []. split; [done|]. split; [done|]. split; [apply walked_refl|].
    split; [done|]. by right. }
  destruct SD as [|[h l] SD]; [done|]. injection Hn as Hn. cbn [next_entry_loop]. fs_steps.
  assert (rd_depth r - 1 = alen SD) as Htop by (rewrite (ho_depth _ _ _ _ Hh), alen_cons; lia). rewrite Htop.
  pose proof (lens_get (rd_dirs r) (alen SD) (so_lens _ Hs)) as Hlen.
  assert (0 <= alen SD < alen (rd_dirs r)) as Hin.
  { pose proof (ho_max _ _ _ _ Hh) as Hm. rewrite alen_cons in Hm. rewrite (so_dirs _ Hs). pose proof (alen_nonneg SD). lia. }
  specialize (Hlen Hin). set (parent := dr_path_len ((rd_dirs r).[alen SD])) in *.
  destruct (ho_handles _ _ _ _ Hh) as [Hhd _]. rewrite Hhd. apply runs_world. cbn [fst snd].
  eapply runs_mono; [eapply (law_dir_read b files dirs T wrong fails); by eapply owns_top, ho_dirs|].
  intros [[rc name] info] x' (Hf & l' & Hd & Hl). cbn beta iota. fs_steps.
  destruct (after_read r x SF h l SD parent info l' x' Hs Hh Hf Hd) as (Hs1 & Hh1 & Hw1).
  set (r1 := with_info info (with_path ((rd_path r).[parent <- 0]) r)) in *.
  destruct (fs_ok rc) eqn:Erc; cbn [negb].
  2: { apply runs_ret. exists ((h, l') :: SD). split; [done|]. split; [done|]. split; [done|]. cbn [fst]. by rewrite Erc. }
  assert (wrong \/ ready (rd_path r) (rd_dirs r) ((h, l) :: SD) /\ read_law l name info l') as Hc'.
  { destruct Hc as [|Hc]; [by left|]. destruct Hl; [by left|by right]. }
  destruct (cstr name) as [|ch name'] eqn:En.
  - fs_steps. apply runs_world. cbn [fst snd].
    eapply runs_mono; [eapply (law_dir_close b files dirs T wrong fails); by eapply owns_top, ho_dirs|].
    intros _ x2 [Hf2 Hd2]. fs_steps. cbn [rd_dirs with_info with_path].
    destruct (after_close r1 x' SF h l' SD parent x2 Hs1 Hh1 Hf2 Hd2 Hlen) as (Hs2 & Hh2 & Hw2).
    set (r2 := with_dirs _ _ r1) in *. change (runs (next_entry_loop b n) (r2, x2) (walked_to r SF ((h, l) :: SD))).
    assert (wrong \/ ready (rd_path r) (rd_dirs r) ((h, l) :: SD) /\ l = End) as Hend.
    { destruct Hc' as [|[Hr Hl']]; [by left|]. right. split; [done|]. destruct l as [|nm c st rest|nm inside rest]; [done|..];
        destruct Hl' as (Hnm & _); destruct Hr as ((((Hv & Hz) & _) & _) & _); rewrite <- (Hnm Hz), En in Hv; done. }
    assert (wrong \/ (ready (rd_path r2) (rd_dirs r2) SD /\ to_come (rd_path r2) (rd_dirs r2) SD = to_come (rd_path r) (rd_dirs r) SD)) as Hnext.
    { destruct Hend as [|[(_ & _ & _ & _ & Hmono & Hr) ->]]; [by left|]. right. apply ready_ext; [..|done].
      - intros i Hi. cbn. by rewrite aget_aset_ne by lia.
      - intros Hne k Hk. specialize (Hmono Hne). cbn. destruct (decide (0 <= k)); [apply prefix_aset; lia|].
        unfold prefix. by rewrite Z2Nat.nonpos by lia. }
    eapply runs_mono; [apply IH; [done|done|done|]|].
    { destruct Hnext as [|[? _]]; [by left|by right]. }
    intros [rc2 done2] s' (SD' & Hs' & Hh' & Hw' & Hres). exists SD'. split; [done|]. split; [done|].
    split; [eapply walked_trans; [exact Hw1|]; eapply walked_trans; [exact Hw2|exact Hw']|]. cbn [fst snd] in *. destruct (fs_ok rc2); [|done].
    destruct done2; [destruct Hres as [-> Hres]; split; [done|]|].
    + destruct Hres as [|Hres]; [by left|]. destruct Hend as [|[_ ->]]; [by left|]. destruct Hnext as [|[_ He]]; [by left|].
      right. cbn. by rewrite <- He.
    + destruct Hres as [|(p & o & He & Hrest)]; [by left|]. destruct Hend as [|[_ ->]]; [by left|].
      destruct Hnext as [|[_ Heq]]; [by left|]. right. exists p, o. cbn. by rewrite <- Heq.
  - rewrite <- En. assert (cstr name <> []) as Hne by (by rewrite En).
    eapply (named_entry r1 x' SF h l' SD parent name info r l); done || (try by apply (so_path _ Hs)).
Qed.

(** ** Rounds *)

(** Which handles a phase holds. *)
Definition shape r SF SD : Prop :=
  match rd_phase r with
  | WALK | FILE_PADDING => SF = [] /\ kind <> BVSTK_FS_FILE
  | FILE_DATA => SF <> [] /\ (kind = BVSTK_FS_FILE -> SD = [])
  | FINISHED => SF = [] /\ SD = []
  end.

Record live r SF SD x : Prop := {
  li_sound : sound r;
  li_holding : holding r SF SD x;
  li_shape : shape r SF SD;
  li_remaining : 0 <= rd_remaining r
}.

Definition staged r : chars := cells (rd_stage r) (rd_stage_offset r) (rd_stage_size r - rd_stage_offset r).
Definition listed r SD : chars := entries_stream kind base (to_come (rd_path r) (rd_dirs r) SD).
Definition walking r SD : Prop := ready (rd_path r) (rd_dirs r) SD.

(** The bytes that follow those in the stage. *)
Definition body r SF SD (rest : chars) : Prop :=
  match rd_phase r with
  | WALK => walking r SD /\ rest = listed r SD
  | FILE_DATA =>
      exists h c c0 st, SF = [(h, c)] /\ rd_remaining r = alen c /\ describes (rd_info r) (OFile c0 st) /\
        T (cstr (rd_path r)) = Some (OFile c0 st) /\
        if kind =? BVSTK_FS_FILE then rest = c
        else walking r SD /\ rest = c ++ fill (padding_of (alen c0)) 0 ++ listed r SD
  | FILE_PADDING => walking r SD /\ 0 <= rd_padding r /\ rest = fill (rd_padding r) 0 ++ listed r SD
  | FINISHED => rest = []
  end.

Definition incoming r SF SD (rest : chars) : Prop := exists more, rest = staged r ++ more /\ body r SF SD more.

Lemma staged_empty r : rd_stage_size r <= rd_stage_offset r -> staged r = [].
Proof. intros H. unfold staged, cells, prefix. by rewrite Z2Nat.nonpos by lia. Qed.

(** What a reader that failed is left with: handles it can still close. *)
Definition broken r SF SD x : Prop := sound r /\ holding r SF SD x /\ excuse.

Lemma finish_file_spec r x SF SD rest :
  live r SF SD x -> rd_phase r = FILE_DATA -> rd_remaining r = 0 -> (wrong \/ incoming r SF SD rest) ->
  runs (finish_file b) (r, x) (fun rc s' =>
    if fs_ok rc then
      live s'.1 [] SD s'.2 /\ (rd_phase s'.1 = FINISHED \/ rd_phase s'.1 = FILE_PADDING) /\
      rd_stage_offset s'.1 = rd_stage_offset r /\ rd_stage_size s'.1 = rd_stage_size r /\
      (wrong \/ incoming s'.1 [] SD rest)
    else broken s'.1 [] SD s'.2).
Proof.
  intros [Hs Hh Hsh Hrem] Hph H0 Hc. unfold shape in Hsh. rewrite Hph in Hsh. destruct Hsh as [Hsf Hsd].
  assert (exists h c, SF = [(h, c)] /\ rd_file r = h) as (h & c & -> & Hfile).
  { pose proof (ho_file _ _ _ _ Hh) as Hf. destruct SF as [|[h c] [|]]; try done. exists h, c. by destruct Hf. }
  unfold finish_file. fs_steps. apply runs_world. cbn [fst snd].
  eapply runs_mono; [eapply (law_stat b files dirs T wrong fails)|]. intros [rc current] x1 (Hf1 & Hd1 & Hst). fs_steps.
  apply runs_world. cbn [fst snd]. rewrite Hfile.
  eapply runs_mono; [eapply (law_file_close b files dirs T wrong fails)|].
  { rewrite Hf1. by eapply owns_top, ho_files. }
  intros _ x2 [Hd2 Hf2]. fs_steps.
  assert (forall r', with_file 0 r = r' -> holding r' [] SD x2) as Hclosed.
  { intros r' <-. destruct Hh as [h1 h2 h3 h4 h5 h6]. split; try done.
    - rewrite Hf2, Hf1. by eapply owns_pop.
    - by rewrite Hd2, Hd1. }
  assert (sound (with_file 0 r)) as Hs' by (by destruct Hs; split).
  assert (wrong \/ (fs_ok rc = true -> fi_type current = BVSTK_FS_ENTRY_FILE /\ fi_size current = fi_size (rd_info r) /\
      fi_stamp current = fi_stamp (rd_info r)) /\ (fs_ok rc = false -> excuse)) as Htrue.
  { destruct Hc as [|(more & _ & Hb)]; [by left|]. unfold body in Hb. rewrite Hph in Hb.
    destruct Hb as (? & ? & c0 & st & _ & _ & (_ & Hsz & Hst0) & HT & _). destruct (fs_ok rc).
    - destruct Hst as [|Hst]; [by left|]. right. split; [|done]. intros _. destruct (Hst _ HT) as (? & ? & ?).
      split; [done|]. split; congruence.
    - right. split; [done|]. intros _. destruct Hst as [|Hst]; [done|congruence]. }
  destruct (bool_decide (rc = BVSTK_FS_NOT_FOUND)) eqn:Enf.
  { apply runs_ret. cbn. split; [done|]. split; [by apply Hclosed|]. apply bool_decide_eq_true in Enf. subst rc.
    destruct Htrue as [|[_ H]]; [by right|by apply H]. }
  destruct (fs_ok rc) eqn:Erc; cbn [negb].
  2: { apply runs_ret. rewrite Erc. split; [done|]. split; [by apply Hclosed|]. destruct Htrue as [|[_ H]]; [by right|by apply H]. }
  destruct (_ || _) eqn:Echanged.
  { apply runs_ret. cbn. split; [done|]. split; [by apply Hclosed|]. destruct Htrue as [|[H _]]; [by right|exfalso].
    destruct (H eq_refl) as (H1 & H2 & H3). rewrite H1, H2, H3, !Z.eqb_refl in Echanged. done. }
  rewrite (so_kind _ Hs). destruct (Z.eqb_spec kind BVSTK_FS_FILE) as [Hk|Hk].
  - fs_steps. cbn. specialize (Hsd Hk). subst SD. split; [|split; [by left|split; [done|split; [done|]]]].
    + split; [by destruct Hs'; split| |by split|done]. destruct (Hclosed _ eq_refl). by split.
    + destruct Hc as [|(more & -> & Hb)]; [by left|]. right. exists more. split; [done|].
      unfold body in *. rewrite Hph in Hb. cbn. destruct Hb as (? & ? & ? & ? & [= <- <-] & Hr & _ & _ & Hb).
      rewrite (proj2 (Z.eqb_eq _ _) Hk) in Hb. subst more. rewrite H0 in Hr. destruct c; [done|].
      rewrite alen_cons in Hr. pose proof (alen_nonneg c). lia.
  - fs_steps. cbn. split; [|split; [by right|split; [done|split; [done|]]]].
    + split; [by destruct Hs'; split| |by split|done]. destruct (Hclosed _ eq_refl). by split.
    + destruct Hc as [|(more & -> & Hb)]; [by left|]. right. exists more. split; [done|].
      unfold body in *. rewrite Hph in Hb. cbn. destruct Hb as (? & ? & c0 & st & [= <- <-] & Hr & (_ & Hsz & _) & _ & Hb).
      rewrite (proj2 (Z.eqb_neq _ _) Hk) in Hb. destruct Hb as [Hw ->]. rewrite H0 in Hr.
      assert (c = []) as -> by (destruct c; [done|rewrite alen_cons in Hr; pose proof (alen_nonneg c); lia]).
      split; [done|]. unfold padding_of. rewrite Hsz. split; [|done]. apply Z.mod_pos_bound. lia.
Qed.

(** Rounds without a byte bring the reader closer to its next byte. *)
Definition rank r : Z :=
  if rd_stage_offset r <? rd_stage_size r then 0
  else match rd_phase r with FILE_DATA => 3 | FILE_PADDING => 2 | WALK => 1 | FINISHED => 0 end.

Definition potential (capacity : Z) (out : chars) r : Z := 4 * (capacity - alen out) + rank r.

Lemma rank_range r : 0 <= rank r <= 3.
Proof. unfold rank. repeat case_match; lia. Qed.

Definition continues (out rest out' : chars) r SF SD : Prop :=
  exists new rest', out' = out ++ new /\ rest = new ++ rest' /\ incoming r SF SD rest'.

Definition rounded r capacity (out rest : chars) (o : round) (s' : session (X := X)) : Prop :=
  exists SF SD,
    match o with
    | Again out' =>
        live s'.1 SF SD s'.2 /\ alen out' <= capacity /\ potential capacity out' s'.1 < potential capacity out r /\
        (wrong \/ continues out rest out' s'.1 SF SD)
    | Break rc out' =>
        alen out' <= capacity /\
        if fs_ok rc then
          live s'.1 SF SD s'.2 /\ out' = out /\ rd_phase s'.1 = FINISHED /\ rd_stage_size s'.1 <= rd_stage_offset s'.1 /\
          (wrong \/ incoming s'.1 SF SD rest)
        else broken s'.1 SF SD s'.2
    end.

(** A round that stores bytes. *)
Lemma stored_progress r r' capacity out new :
  0 < alen new -> potential capacity (out ++ new) r' < potential capacity out r + rank r' - rank r - 3.
Proof. intros H. unfold potential. rewrite alen_app. pose proof (rank_range r). lia. Qed.

Lemma read_stage_spec r x SF SD capacity out rest :
  live r SF SD x -> (wrong \/ incoming r SF SD rest) -> alen out < capacity -> rd_stage_offset r < rd_stage_size r ->
  runs (read_stage (capacity - alen out) out) (r, x) (rounded r capacity out rest).
Proof.
  intros [Hs Hh Hsh Hrem] Hc Hcap Hoff. unfold read_stage. fs_steps. pose proof (so_offset _ Hs) as Ho.
  pose proof (so_size _ Hs) as Hsz. pose proof (so_stage _ Hs) as Hst.
  set (n := Z.min _ _). assert (1 <= n) as Hn by lia. assert (n <= rd_stage_size r - rd_stage_offset r) as Hn' by lia.
  assert (alen (cells (rd_stage r) (rd_stage_offset r) n) = n) as Hl by (apply alen_cells; lia).
  set (r1 := with_stage (rd_stage r) (rd_stage_size r) (rd_stage_offset r + n) r).
  exists SF, SD. split; [|split; [|split]].
  - split; [|by destruct Hh; split|done|done]. destruct Hs. split; try done. cbn. lia.
  - rewrite alen_app, Hl. lia.
  - pose proof (stored_progress r r1 capacity out (cells (rd_stage r) (rd_stage_offset r) n) ltac:(lia)) as Hp.
    pose proof (rank_range r1). change (r1, x).1 with r1. pose proof (rank_range r). lia.
  - destruct Hc as [|(more & -> & Hb)]; [by left|]. right.
    exists (cells (rd_stage r) (rd_stage_offset r) n), (staged r1 ++ more). split; [done|]. split; [|by exists more].
    rewrite app_assoc. f_equal. unfold staged. cbn. rewrite (cells_split _ _ n) by lia. do 2 f_equal. lia.
Qed.

Lemma read_padding_spec r x SF SD capacity out rest :
  live r SF SD x -> (wrong \/ incoming r SF SD rest) -> alen out < capacity -> rd_stage_size r <= rd_stage_offset r ->
  rd_phase r = FILE_PADDING ->
  runs (read_padding (capacity - alen out) out) (r, x) (rounded r capacity out rest).
Proof.
  intros [Hs Hh Hsh Hrem] Hc Hcap Hoff Hph. unfold read_padding. fs_steps. unfold shape in Hsh. rewrite Hph in Hsh.
  set (n := if rd_padding r <? capacity - alen out then rd_padding r else capacity - alen out).
  assert (n <= capacity - alen out /\ n <= rd_padding r /\ (n <= 0 -> n = rd_padding r)) as (Hn1 & Hn2 & Hn3).
  { unfold n. destruct (Z.ltb_spec (rd_padding r) (capacity - alen out)); lia. }
  assert (alen (fill n 0) = Z.max n 0) as Hfill by (unfold alen, fill; rewrite length_replicate; lia).
  assert (rank r = 2) as Hr by (unfold rank; rewrite Hph, (proj2 (Z.ltb_ge _ _)) by lia; done).
  assert (forall r1, (rd_padding r - n = 0 /\ r1 = with_phase WALK (with_padding (rd_padding r - n) r)) \/
      (rd_padding r - n <> 0 /\ r1 = with_padding (rd_padding r - n) r) -> rounded r capacity out rest (Again (out ++ fill n 0)) (r1, x)) as Hend.
  2: { destruct (Z.eqb_spec (rd_padding r - n) 0) as [He|He]; fs_steps; apply Hend; [by left|by right]. }
  intros r1 Hr1. exists SF, SD. split; [|split; [rewrite alen_app; lia|split]].
  - destruct Hr1 as [[_ ->]|[_ ->]]; (split; [by destruct Hs; split|by destruct Hh; split| |done]);
      unfold shape; cbn; rewrite ?Hph; done.
  - unfold potential. rewrite alen_app, Hfill, Hr. cbn [fst].
    assert (rank r1 <= 2 /\ (rd_padding r = n -> rank r1 = 1)) as [H1 H2].
    { unfold rank. destruct Hr1 as [[Hz ->]|[Hz ->]]; cbn; rewrite (proj2 (Z.ltb_ge _ _)) by lia; [done|]. rewrite Hph. split; [done|lia]. }
    lia.
  - destruct Hc as [|(more & -> & Hb)]; [by left|]. right. unfold body in Hb. rewrite Hph in Hb.
    destruct Hb as (Hw & Hp & ->). rewrite (staged_empty r) by done. cbn [app].
    assert (0 <= n) as Hn0 by (unfold n; destruct (_ <? _); lia).
    exists (fill n 0), (fill (rd_padding r - n) 0 ++ listed r SD). split; [done|]. split.
    + rewrite app_assoc. f_equal. unfold fill. rewrite <- replicate_add. f_equal. lia.
    + exists (fill (rd_padding r - n) 0 ++ listed r SD). cbn [fst].
      destruct Hr1 as [[Hz ->]|[Hz ->]]; (split; [by rewrite staged_empty|]); unfold body; cbn; rewrite ?Hph.
      * split; [done|]. rewrite Hz. done.
      * split; [done|]. split; [lia|done].
Qed.

Lemma read_data_spec r x SF SD capacity out rest :
  live r SF SD x -> (wrong \/ incoming r SF SD rest) -> alen out < capacity -> rd_stage_size r <= rd_stage_offset r ->
  rd_phase r = FILE_DATA ->
  runs (read_data b (capacity - alen out) out) (r, x) (rounded r capacity out rest).
Proof.
  intros Hl Hc Hcap Hoff Hph. unfold read_data. fs_steps.
  assert (rank r = 3) as Hr by (unfold rank; rewrite Hph, (proj2 (Z.ltb_ge _ _)) by lia; done).
  destruct (Z.eqb_spec (rd_remaining r) 0) as [Hz|Hz].
  - fs_steps. eapply runs_mono; [by eapply finish_file_spec|]. intros rc s' Hf. cbn beta in Hf. apply runs_ret. destruct (fs_ok rc) eqn:Erc.
    + destruct Hf as (Hl' & Hp' & Ho & Hsz & Hc'). exists [], SD. split; [done|]. split; [lia|]. split.
      * unfold potential. rewrite Hr. enough (rank s'.1 <= 2) by lia. unfold rank. rewrite Ho, Hsz, (proj2 (Z.ltb_ge _ _)) by lia.
        by destruct Hp' as [-> | ->].
      * destruct Hc' as [|Hc']; [by left|]. right. exists [], rest. by rewrite app_nil_r.
    + exists [], SD. split; [lia|]. by rewrite Erc.
  - destruct Hl as [Hs Hh Hsh Hrem]. unfold shape in Hsh. rewrite Hph in Hsh. destruct Hsh as [Hsf Hsd].
    assert (exists h c, SF = [(h, c)] /\ rd_file r = h) as (h & c & -> & Hfile).
    { pose proof (ho_file _ _ _ _ Hh) as Hf. destruct SF as [|[h c] [|]]; try done. exists h, c. by destruct Hf. }
    fs_steps. set (want := if rd_remaining r <? capacity - alen out then rd_remaining r else capacity - alen out).
    assert (0 < want /\ want <= capacity - alen out /\ want <= rd_remaining r) as (Hw1 & Hw2 & Hw3).
    { unfold want. destruct (Z.ltb_spec (rd_remaining r) (capacity - alen out)); lia. }
    apply runs_world. cbn [fst snd]. rewrite Hfile.
    eapply runs_mono; [eapply (law_file_read b files dirs T wrong fails); [by eapply owns_top, ho_files|done]|].
    intros [rc bytes] x' (Hd & c' & Hf & Hres). cbn beta iota.
    assert (holding r [(h, c')] SD x') as Hh'.
    { destruct Hh as [h1 h2 h3 h4 h5 h6]. split; try done; [rewrite Hf; by eapply owns_set|by rewrite Hd]. }
    destruct (fs_ok rc) eqn:Erc; cbn [negb].
    2: { apply runs_ret. exists [(h, c')], SD. split; [lia|]. rewrite Erc. by split. }
    destruct ((alen bytes =? 0) || (want <? alen bytes)) eqn:Ebad.
    { apply runs_ret. exists [(h, c')], SD. split; [lia|]. cbn. split; [done|]. split; [done|].
      destruct Hres as [|(Hcb & Hle & Hne)]; [by right|]. destruct Hc as [|(more & _ & Hb)]; [by right|exfalso].
      unfold body in Hb. rewrite Hph in Hb. destruct Hb as (? & ? & ? & ? & [= <- <-] & Hra & _).
      apply orb_true_iff in Ebad as [Eb|Eb]; bsimp; [|lia]. assert (c <> []) as Hcne.
      { intros ->. change (alen []) with 0 in Hra. lia. }
      specialize (Hne Hcne). destruct bytes; [done|]. rewrite alen_cons in Eb. pose proof (alen_nonneg bytes). lia. }
    apply orb_false_iff in Ebad as [Eb1 Eb2]. bsimp. pose proof (alen_nonneg bytes). fs_steps.
    exists [(h, c')], SD. set (r1 := with_remaining (rd_remaining r - alen bytes) r). split; [|split; [|split]].
    + split; [by destruct Hs; split|by destruct Hh'; split| |cbn; lia]. unfold shape. cbn. rewrite Hph. split; [done|]. done.
    + rewrite alen_app. lia.
    + cbn [fst]. assert (rank r1 = 3) as Hr1 by exact Hr. pose proof (stored_progress r r1 capacity out bytes ltac:(lia)). lia.
    + destruct Hc as [|(more & -> & Hb)]; [by left|]. destruct Hres as [|(Hcb & _)]; [by left|]. right.
      unfold body in Hb. rewrite Hph in Hb. destruct Hb as (? & ? & c0 & st & [= <- <-] & Hra & Hdes & HT & Hb).
      rewrite (staged_empty r) by done. cbn [app].
      assert (rd_remaining r - alen bytes = alen c') as Hrem' by (rewrite Hra, Hcb, alen_app; lia).
      destruct (kind =? BVSTK_FS_FILE) eqn:Ek.
      * subst more. exists bytes, c'. split; [done|]. split; [done|]. exists c'. cbn [fst]. split; [by rewrite staged_empty|].
        unfold body. cbn. rewrite Hph, Ek. by exists h, c', c0, st.
      * destruct Hb as [Hw ->]. exists bytes, (c' ++ fill (padding_of (alen c0)) 0 ++ listed r SD). split; [done|].
        split; [by rewrite Hcb, <- app_assoc|]. exists (c' ++ fill (padding_of (alen c0)) 0 ++ listed r SD). cbn [fst].
        split; [by rewrite staged_empty|]. unfold body. cbn. rewrite Hph, Ek. by exists h, c', c0, st.
Qed.

Definition file_here r : Prop :=
  exists c st, T (cstr (rd_path r)) = Some (OFile c st) /\ describes (rd_info r) (OFile c st).

Lemma open_file_spec r x SD :
  sound r -> holding r [] SD x -> (wrong \/ file_here r) ->
  runs (open_file b) (r, x) (fun rc s' => exists h c size, 0 <= size /\
    (s'.1 = with_file h r \/ s'.1 = with_remaining size (with_file h r)) /\
    if fs_ok rc then
      s'.1 = with_remaining size (with_file h r) /\ holding s'.1 [(h, c)] SD s'.2 /\
      (wrong \/ size = alen c /\ forall c0 st, T (cstr (rd_path r)) = Some (OFile c0 st) -> c = c0)
    else excuse /\ exists SF, holding s'.1 SF SD s'.2).
Proof.
  intros Hs Hh Hc. unfold open_file. fs_steps. apply runs_world. cbn [fst snd].
  eapply runs_mono; [eapply (law_file_open b files dirs T wrong fails)|]. intros [[rc h] size] x' [Hd Hres]. cbn beta iota. fs_steps.
  destruct Hh as [h1 h2 h3 h4 h5 h6]. destruct (fs_ok rc) eqn:Erc; cbn [negb].
  - destruct Hres as (Hne & Hsz & Hfresh & c & Hf & Ht).
    assert (forall r', r' = with_file h r \/ r' = with_remaining size (with_file h r) -> holding r' [(h, c)] SD x') as Hh'.
    { intros r' [-> | ->]; (split; try done; [rewrite Hf; by apply owns_push|by rewrite Hd]). }
    destruct (Z.eqb_spec size (fi_size (rd_info r))) as [Hsize|Hsize]; cbn [negb].
    + fs_steps. exists h, c, size. split; [done|]. split; [by right|]. cbn. split; [done|]. split; [by apply Hh'; right|].
      destruct Hc as [|(c0 & st & HT & Hdes)]; [by left|]. destruct Ht as [|Ht]; [by left|]. right.
      destruct (Ht _ _ HT) as [-> ->]. split; [done|]. intros c1 st1 HT1. congruence.
    + fs_steps. exists h, c, size. split; [done|]. split; [by left|]. cbn. split; [|exists [(h, c)]; by apply Hh'; left].
      destruct Hc as [|(c0 & st & HT & (_ & Hz & _))]; [by right|]. destruct Ht as [|Ht]; [by right|].
      destruct (Ht _ _ HT) as [_ ->]. congruence.
  - destruct Hres as (-> & Hf & Hex). fs_steps. exists 0, [], 0. split; [done|]. split; [by left|]. rewrite Erc. split.
    + destruct Hc as [|(c0 & st & HT & _)]; [by right|]. destruct Hex as [|Hex]; [done|]. by destruct (Hex c0 st).
    + exists []. split; try done; [by rewrite Hf|by rewrite Hd].
Qed.

(** The path of an entry, without what all paths share. *)
Lemma relative_path_text r p :
  sound r -> holds_text (rd_path r) p -> (0 ∉ p) -> 0 <= base <= alen p -> relative_path r = drop (Z.to_nat base) p.
Proof.
  intros Hs [junk Hp] Hz Hb. unfold relative_path. rewrite (so_base _ Hs), Hp.
  assert (Z.to_nat base <= length p)%nat by (unfold alen in Hb; lia).
  rewrite drop_app_le by done. apply cstr_text. intros Hin. apply Hz. rewrite <- (take_drop (Z.to_nat base) p).
  apply elem_of_app. by right.
Qed.

Lemma relative_path_short r : sound r -> alen (relative_path r) <= 512.
Proof.
  intros Hs. pose proof (so_path _ Hs) as Hp. unfold relative_path, alen, BVSTK_FS_PATH_CAPACITY in *.
  assert (forall l, (length (cstr l) <= length l)%nat) as Hc by (induction l as [|c l IH]; cbn; [lia|destruct (c =? 0); cbn; lia]).
  specialize (Hc (drop (Z.to_nat (rd_relative_offset r)) (rd_path r))). rewrite length_drop in Hc. lia.
Qed.

(** Staging an entry that was found, or the end. *)
Lemma staged_whole r stage size : staged (with_stage stage size 0 r) = prefix size stage.
Proof. unfold staged, cells. cbn. by rewrite Z.sub_0_r. Qed.

Lemma sound_stage r stage size :
  sound r -> alen stage = 2048 -> 0 <= size <= 2048 -> sound (with_stage stage size 0 r).
Proof. intros [] Hst Hsz. split; try done; cbn; lia. Qed.

Lemma rank_staged r stage size : 0 < size -> rank (with_stage stage size 0 r) = 0.
Proof. intros H. unfold rank. cbn. by rewrite (proj2 (Z.ltb_lt _ _)) by lia. Qed.

Lemma record_found r p o :
  sound r -> holds_text (rd_path r) p -> entry_fits (p, o) -> describes (rd_info r) o -> 0 <= base ->
  relative_path r = drop (Z.to_nat base) p /\
  fi_type (rd_info r) = fi_type (info_of o) /\
  (if fi_type (rd_info r) =? BVSTK_FS_ENTRY_FILE then fi_size (rd_info r) else 0) = fi_size (info_of o).
Proof.
  intros Hs Hp (_ & Hz & Hb & _) Hd H0. cbn in Hb. split; [by apply relative_path_text; try lia|].
  destruct o as [c st|l]; cbn in *; [|by rewrite Hd]. destruct Hd as (-> & -> & _). done.
Qed.

Lemma tar_stage_found path info o :
  fi_type info = fi_type (info_of o) ->
  (if fi_type info =? BVSTK_FS_ENTRY_FILE then fi_size info else 0) = fi_size (info_of o) ->
  tar_stage path info = tar_stage path (info_of o).
Proof. intros Ht Hs. unfold tar_stage. rewrite Hs, Ht. by destruct o. Qed.

Lemma listed_cons p o es : entries_stream kind base ((p, o) :: es) = entry_record kind base (p, o) ++ entries_stream kind base es.
Proof. unfold entries_stream. cbn. by rewrite <- app_assoc. Qed.

(** A walking reader, with nothing staged, after [next_entry]. *)
Definition walked_live r r1 SD x1 : Prop :=
  sound r1 /\ holding r1 [] SD x1 /\ walked r r1 /\ rd_phase r = WALK /\ 0 <= rd_remaining r /\ kind <> BVSTK_FS_FILE.

Lemma walk_end r r1 x1 capacity out rest :
  walked_live r r1 [] x1 -> rank r = 1 -> alen out < capacity -> (wrong \/ rest = trailer kind) ->
  let size := if kind =? BVSTK_FS_TAR then 1024 else 0 in
  rounded r capacity out rest (Again out)
    (with_stage (write_at (rd_stage r1) 0 (fill size 0)) size 0 (with_phase FINISHED (with_stage (rd_stage r1) (rd_stage_size r1) 0 r1)), x1).
Proof.
  intros (Hs & Hh & Hw & Hph & Hrem & Hk) Hr Hcap Hc size.
  assert (size = alen (fill size 0) /\ 0 <= size <= 1024) as [Hsz Hsz'] by (unfold size; destruct (_ =? _); done).
  set (r2 := with_stage (rd_stage r1) (rd_stage_size r1) 0 r1).
  assert (sound (with_phase FINISHED r2)) as Hs2.
  { destruct Hs. split; try done; cbn; lia. }
  exists [], []. split; [|split; [lia|split]].
  - split; [|by destruct Hh; split|by split|].
    + apply sound_stage; [done| |lia]. apply write_fits; [by destruct Hs|lia|lia].
    + destruct Hw as (? & ? & ? & ? & ->). done.
  - unfold potential. rewrite Hr. cbn [fst]. unfold rank. cbn. destruct (_ <? _); lia.
  - destruct Hc as [| ->]; [by left|]. right. exists [], (trailer kind). rewrite app_nil_r. split; [done|]. split; [done|].
    exists []. split; [|done]. rewrite app_nil_r. cbn [fst]. rewrite staged_whole.
    assert (forall buf, prefix size (write_at buf 0 (fill size 0)) = fill size 0) as ->.
    { intros buf. unfold write_at. change (prefix 0 buf) with (@nil Z). cbn [app]. rewrite Hsz at 1. apply prefix_app_l. }
    unfold trailer, size. by destruct (kind =? BVSTK_FS_TAR).
Qed.

Lemma walk_tree r r1 SD x1 capacity out rest stage size :
  walked_live r r1 SD x1 -> 0 <= base -> rank r = 1 -> alen out < capacity -> kind = BVSTK_FS_TREE ->
  tree_stage (rd_stage r1) (relative_path r1) (rd_info r1) = (stage, size) ->
  (wrong \/ exists p o es, rest = entries_stream kind base ((p, o) :: es) /\ es = to_come (rd_path r1) (rd_dirs r1) SD /\
     walking r1 SD /\ holds_text (rd_path r1) p /\ entry_fits (p, o) /\ describes (rd_info r1) o) ->
  rounded r capacity out rest (Again out) (with_stage stage size 0 (with_stage (rd_stage r1) (rd_stage_size r1) 0 r1), x1).
Proof.
  intros (Hs & Hh & Hw & Hph & Hrem & Hk) H0 Hr Hcap Hkt Hst Hc.
  pose proof (tree_stage_record (rd_stage r1) (relative_path r1) (rd_info r1) (so_stage _ Hs) (relative_path_short _ Hs)) as Ht.
  rewrite Hst in Ht. destruct Ht as (Hlst & Hsz & Hrec). pose proof (relative_path_short _ Hs). pose proof (alen_nonneg (relative_path r1)).
  set (r3 := with_stage stage size 0 _).
  assert (rd_phase r3 = WALK) as Hp3 by (destruct Hw as (? & ? & ? & ? & ->); done).
  exists [], SD. split; [|split; [lia|split]].
  - split; [|by destruct Hh; split| |].
    + destruct Hs. split; try done; cbn; lia.
    + unfold shape. cbn [fst]. by rewrite Hp3.
    + destruct Hw as (? & ? & ? & ? & ->). done.
  - unfold potential. rewrite Hr. cbn [fst]. unfold r3. rewrite rank_staged by lia. lia.
  - destruct Hc as [|(p & o & es & -> & -> & Hwk & Hp & Hfit & Hd)]; [by left|]. right. rewrite listed_cons.
    exists [], (entry_record kind base (p, o) ++ listed r1 SD). rewrite app_nil_r. split; [done|]. split; [done|].
    exists (listed r1 SD). cbn [fst]. split; [|unfold body; rewrite Hp3; done]. f_equal. unfold r3. rewrite staged_whole, Hrec.
    destruct (record_found r1 p o Hs Hp Hfit Hd H0) as (-> & Ht & Hs'). unfold entry_record. rewrite Hkt. cbn [Z.eqb].
    cbn. unfold tree_record. rewrite Hs', Ht. done.
Qed.

(** The last steps of a round of TAR: [r2] may have opened the file of the entry. *)
Lemma walk_tar r r2 SF SD x2 capacity out rest :
  sound r2 -> holding r2 SF SD x2 -> rank r = 1 -> alen out < capacity -> 0 <= base -> 0 <= rd_remaining r2 ->
  kind <> BVSTK_FS_FILE -> kind <> BVSTK_FS_TREE -> rd_stage_offset r2 = 0 ->
  (SF = [] /\ rd_phase r2 = WALK \/ SF <> [] /\ rd_phase r2 = FILE_DATA) ->
  (wrong \/ exists p o es, rest = entries_stream kind base ((p, o) :: es) /\ es = to_come (rd_path r2) (rd_dirs r2) SD /\
     walking r2 SD /\ holds_text (rd_path r2) p /\ entry_fits (p, o) /\ describes (rd_info r2) o /\
     match o with
     | OFile c st => rd_phase r2 = FILE_DATA /\ (exists h, SF = [(h, c)]) /\ rd_remaining r2 = alen c
     | ODir _ => rd_phase r2 = WALK
     end) ->
  runs (let! rc := stage_tar_entry in st_ret (if fs_ok rc then Again out else Break rc out)) (r2, x2) (rounded r capacity out rest).
Proof.
  intros Hs Hh Hr Hcap H0 Hrem Hkf Hkt Hoff Hph Hc. unfold stage_tar_entry. fs_steps.
  destruct (tar_stage_fits (relative_path r2) (rd_info r2)) as (stage & size & Hst & Hl & Hsz). rewrite Hst. fs_steps. cbn [fs_ok].
  change (if fs_ok BVSTK_FS_OK then Again out else Break BVSTK_FS_OK out) with (Again out).
  exists SF, SD. split; [|split; [lia|split]].
  - split; [apply sound_stage; [done|done|lia]|by destruct Hh; split| |done]. unfold shape. cbn.
    destruct Hph as [[-> ->]|[? ->]]; by split.
  - unfold potential. rewrite Hr. cbn [fst]. rewrite rank_staged by lia. lia.
  - destruct Hc as [|(p & o & es & -> & -> & Hwk & Hp & Hfit & Hd & Ho)]; [by left|]. right. rewrite listed_cons.
    exists [], (entry_record kind base (p, o) ++ listed r2 SD). rewrite app_nil_r. split; [done|]. split; [done|].
    destruct (record_found r2 p o Hs Hp Hfit Hd H0) as (Hrel & Ht & Hs').
    rewrite (tar_stage_found _ _ o Ht Hs'), Hrel in Hst.
    assert (entry_record kind base (p, o) = prefix size stage ++
      match o with OFile c _ => c ++ fill (padding_of (alen c)) 0 | ODir _ => [] end) as ->.
    { unfold entry_record. rewrite (proj2 (Z.eqb_neq _ _) Hkt). cbn [fst snd]. unfold tar_entry, tar_headers. by rewrite Hst. }
    exists (match o with OFile c _ => c ++ fill (padding_of (alen c)) 0 | ODir _ => [] end ++ listed r2 SD). cbn [fst].
    split; [by rewrite staged_whole, <- app_assoc|]. unfold body. cbn. destruct o as [c st|l].
    + destruct Ho as (-> & (h & ->) & Hre). exists h, c, c, st. destruct Hfit as (HT & Hz & _). cbn in HT, Hz.
      rewrite (path_cstr _ p Hz Hp), (proj2 (Z.eqb_neq _ _) Hkf). do 4 (split; [done|]). split; [done|]. by rewrite <- app_assoc.
    + rewrite Ho. done.
Qed.

Lemma read_walk_spec r x SF SD capacity out rest :
  live r SF SD x -> (wrong \/ incoming r SF SD rest) -> alen out < capacity -> rd_stage_size r <= rd_stage_offset r ->
  rd_phase r = WALK -> 0 <= base ->
  runs (read_walk b out) (r, x) (rounded r capacity out rest).
Proof.
  intros [Hs Hh Hsh Hrem] Hc Hcap Hoff Hph H0. unfold shape in Hsh. rewrite Hph in Hsh. destruct Hsh as [-> Hkf].
  assert (rank r = 1) as Hr by (unfold rank; rewrite Hph, (proj2 (Z.ltb_ge _ _)) by lia; done).
  assert (wrong \/ walking r SD /\ rest = listed r SD) as Hc'.
  { destruct Hc as [|(more & -> & Hb)]; [by left|]. right. unfold body in Hb. rewrite Hph in Hb. by rewrite (staged_empty r). }
  clear Hc. unfold read_walk, next_entry. fs_steps. rewrite (ho_depth _ _ _ _ Hh). unfold alen at 1. rewrite Nat2Z.id.
  eapply runs_mono; [apply (next_entry_spec _ r x [] SD); [done|done|done|]|].
  { destruct Hc' as [|[? _]]; [by left|by right]. }
  intros [rc fin] [r1 x1] (SD1 & Hs1 & Hh1 & Hw1 & Hres). cbn [fst snd] in *.
  destruct (fs_ok rc) eqn:Erc; cbn [negb].
  2: { apply runs_ret. exists [], SD1. split; [lia|]. by rewrite Erc. }
  assert (walked_live r r1 SD1 x1) as Hwl by (do 5 (split; [done|]); done). fs_steps.
  assert (rd_kind r1 = kind) as Hk1 by apply (so_kind _ Hs1). cbn [rd_kind rd_stage rd_info with_stage]. rewrite Hk1.
  destruct fin.
  - destruct Hres as [-> Hend]. fs_steps. apply (walk_end r r1 x1); [done|done|done|].
    destruct Hend as [|Hend]; [by left|]. destruct Hc' as [|[_ ->]]; [by left|]. right. unfold listed. by rewrite Hend.
  - assert (wrong \/ exists p o es, rest = entries_stream kind base ((p, o) :: es) /\ es = to_come (rd_path r1) (rd_dirs r1) SD1 /\
      walking r1 SD1 /\ holds_text (rd_path r1) p /\ entry_fits (p, o) /\ describes (rd_info r1) o /\ cstr (rd_path r1) = p) as Hf.
    { destruct Hres as [|(p & o & Ht & Hw & Hcs & Hp & Hfit & Hd)]; [by left|]. destruct Hc' as [|[_ ->]]; [by left|].
      right. exists p, o, (to_come (rd_path r1) (rd_dirs r1) SD1). unfold listed. rewrite Ht. done. }
    destruct (Z.eqb_spec kind BVSTK_FS_TREE) as [Hkt|Hkt].
    + destruct (tree_stage _ _ _) as [stage size] eqn:Est. fs_steps.
      eapply (walk_tree r r1 SD1 x1); [done|done|done|done|done|exact Est|].
      destruct Hf as [|(p & o & es & ? & ? & ? & ? & ? & ? & _)]; [by left|]. right. by exists p, o, es.
    + set (r2 := with_stage (rd_stage r1) (rd_stage_size r1) 0 r1).
      assert (sound r2) as Hs2 by (destruct Hs1; split; try done; cbn; lia).
      assert (holding r2 [] SD1 x1) as Hh2 by (by destruct Hh1; split).
      assert (rd_phase r2 = WALK /\ 0 <= rd_remaining r2) as [Hp2 Hr2].
      { destruct Hw1 as (? & ? & ? & ? & ->). done. }
      destruct (Z.eqb_spec (fi_type (rd_info r1)) BVSTK_FS_ENTRY_FILE) as [Hty|Hty].
      * fs_steps. eapply runs_mono; [apply (open_file_spec r2 x1 SD1 Hs2 Hh2)|].
        { destruct Hf as [|(p & o & es & _ & _ & _ & _ & (HT & _) & Hd & Hcs)]; [by left|]. right.
          destruct o as [c st|l]; [|cbn in Hd; rewrite Hty in Hd; done]. exists c, st. cbn. rewrite Hcs. by split. }
        intros rc2 s3 (h & c & size & Hsz & Hr3 & Hres3). cbn beta in Hres3. destruct (fs_ok rc2) eqn:Erc2; cbn [negb].
        -- destruct s3 as [r3 x3]. cbn [fst snd] in *. destruct Hres3 as (-> & Hh3 & Hc3). fs_steps. rewrite Erc2. cbn [negb].
           apply (walk_tar r _ [(h, c)] SD1); try done.
           ++ by destruct Hs2; split.
           ++ by destruct Hh3; split.
           ++ by right.
           ++ destruct Hf as [|(p & o & es & ? & ? & ? & ? & Hfit & Hd & Hcs)]; [by left|]. destruct Hc3 as [|[Hc3 Hc4]]; [by left|].
              right. exists p, o, es. do 6 (split; [done|]). destruct o as [c0 st|l]; [|cbn in Hd; rewrite Hty in Hd; done].
              split; [done|]. destruct Hfit as [HT _]. cbn in Hc4. rewrite Hcs in Hc4. rewrite (Hc4 c0 st HT) in *. split; [by exists h|done].
        -- destruct Hres3 as [Hex [SF3 Hh3]]. fs_steps. rewrite Erc2. cbn [negb]. apply runs_ret. exists SF3, SD1. split; [lia|].
           rewrite Erc2. split; [|by split]. destruct Hr3 as [-> | ->]; by destruct Hs2; split.
      * fs_steps. cbn [fs_ok negb]. change (negb (fs_ok BVSTK_FS_OK)) with false. cbn iota.
        apply (walk_tar r r2 [] SD1); try done; [by left|].
        destruct Hf as [|(p & o & es & ? & ? & ? & ? & ? & Hd & _)]; [by left|]. right. exists p, o, es. do 6 (split; [done|]).
        destruct o; [by destruct Hd|done].
Qed.

Lemma read_round_spec r x SF SD capacity out rest :
  live r SF SD x -> (wrong \/ incoming r SF SD rest) -> alen out < capacity -> 0 <= base ->
  runs (read_round b capacity out) (r, x) (rounded r capacity out rest).
Proof.
  intros Hl Hc Hcap H0. unfold read_round. fs_steps.
  destruct (Z.ltb_spec (rd_stage_offset r) (rd_stage_size r)) as [Hlt|Hge]; [by eapply read_stage_spec|].
  destruct (rd_phase r) eqn:Hph; [by eapply read_walk_spec|by eapply read_data_spec|by eapply read_padding_spec|].
  apply runs_ret. exists SF, SD. split; [lia|]. cbn. done.
Qed.

(** ** The loop *)

Definition looped capacity (out rest : chars) (o : option (bvstk_fs_result_t * chars)) (s' : session (X := X)) : Prop :=
  exists SF SD rc out', o = Some (rc, out') /\ alen out' <= capacity /\
    if fs_ok rc then
      live s'.1 SF SD s'.2 /\ (alen out' = capacity \/ rd_phase s'.1 = FINISHED /\ rd_stage_size s'.1 <= rd_stage_offset s'.1) /\
      (wrong \/ continues out rest out' s'.1 SF SD)
    else broken s'.1 SF SD s'.2.

Lemma reader_loop_spec fuel r x SF SD capacity out rest :
  live r SF SD x -> (wrong \/ incoming r SF SD rest) -> alen out <= capacity -> 0 <= base ->
  potential capacity out r < Z.of_nat fuel ->
  runs (blocks_loop b fuel capacity out) (r, x) (looped capacity out rest).
Proof.
  revert r x SF SD out rest. induction fuel as [|fuel IH]; intros r x SF SD out rest Hl Hc Hcap H0 Hfuel.
  { unfold potential in Hfuel. pose proof (rank_range r). lia. }
  cbn [blocks_loop]. destruct (Z.leb_spec capacity (alen out)) as [Hfull|Hroom].
  { apply runs_ret. exists SF, SD, BVSTK_FS_OK, out. split; [done|]. split; [lia|]. cbn. split; [done|]. split; [left; lia|].
    destruct Hc as [|Hc]; [by left|]. right. exists [], rest. by rewrite app_nil_r. }
  fs_steps. eapply runs_mono; [by eapply read_round_spec|]. intros o [r1 x1] (SF1 & SD1 & Ho). cbn [fst snd] in Ho.
  destruct o as [out1|rc out1].
  - destruct Ho as (Hl1 & Hcap1 & Hpot & Hc1).
    assert (wrong \/ exists new rest', out1 = out ++ new /\ rest = new ++ rest' /\ incoming r1 SF1 SD1 rest') as [Hw|(new & rest' & -> & -> & Hi)] by done.
    + eapply runs_mono; [apply (IH r1 x1 SF1 SD1 out1 []); try done; [by left|lia]|].
      intros o' s' (SF2 & SD2 & rc & out' & -> & Hle & Hres). exists SF2, SD2, rc, out'. split; [done|]. split; [done|].
      destruct (fs_ok rc); [|done]. destruct Hres as (? & ? & _). split; [done|]. split; [done|]. by left.
    + eapply runs_mono; [apply (IH r1 x1 SF1 SD1 (out ++ new) rest'); try done; [by right|lia]|].
      intros o' s' (SF2 & SD2 & rc & out' & -> & Hle & Hres). exists SF2, SD2, rc, out'. split; [done|]. split; [done|].
      destruct (fs_ok rc); [|done]. destruct Hres as (? & ? & Hc2). split; [done|]. split; [done|].
      destruct Hc2 as [|(new2 & rest2 & -> & -> & Hi2)]; [by left|]. right. exists (new ++ new2), rest2. by rewrite !app_assoc.
  - apply runs_ret. destruct Ho as [Hle Ho]. exists SF1, SD1, rc, out1. split; [done|]. split; [done|]. destruct (fs_ok rc); [|done].
    destruct Ho as (? & -> & ? & ? & Hc1). split; [done|]. split; [by right|]. destruct Hc1 as [|Hc1]; [by left|]. right.
    exists [], rest. by rewrite app_nil_r.
Qed.

(** ** Closing *)

Definition closed r x : Prop := sound r /\ holding r [] [] x /\ rd_phase r = FINISHED.

Lemma close_dirs_spec n r x SF SD :
  sound r -> holding r SF SD x -> n = length SD ->
  runs (close_dirs b n) (r, x) (fun _ s' => sound s'.1 /\ holding s'.1 SF [] s'.2).
Proof.
  revert r x SD. induction n as [|n IH]; intros r x SD Hs Hh Hn; [by destruct SD|].
  destruct SD as [|[h l] SD]; [done|]. injection Hn as Hn. cbn [close_dirs]. fs_steps.
  assert (rd_depth r - 1 = alen SD) as Htop by (rewrite (ho_depth _ _ _ _ Hh), alen_cons; lia).
  cbn [rd_dirs rd_depth with_dirs]. rewrite Htop. destruct (ho_handles _ _ _ _ Hh) as [Hhd _]. rewrite Hhd.
  apply runs_world. cbn [fst snd].
  eapply runs_mono; [eapply (law_dir_close b files dirs T wrong fails); by eapply owns_top, ho_dirs|].
  intros _ x' [Hf Hd]. fs_steps. cbn [rd_dirs rd_depth with_dirs]. rewrite ?Htop.
  assert (0 <= dr_path_len ((rd_dirs r).[alen SD]) < BVSTK_FS_PATH_CAPACITY) as Hlen.
  { apply lens_get; [apply (so_lens _ Hs)|]. pose proof (ho_max _ _ _ _ Hh) as Hm. rewrite alen_cons in Hm.
    rewrite (so_dirs _ Hs). pose proof (alen_nonneg SD). lia. }
  destruct (after_close r x SF h l SD _ x' Hs Hh Hf Hd Hlen) as (Hs1 & Hh1 & _). by apply (IH _ x' SD Hs1 Hh1).
Qed.

Lemma reader_close_spec r x SF SD :
  sound r -> holding r SF SD x -> runs (reader_close b) (r, x) (fun _ s' => closed s'.1 s'.2).
Proof.
  intros Hs Hh. unfold reader_close. fs_steps.
  assert (runs (if rd_file r =? 0 then st_ret tt else world (bk_file_close b (rd_file r))) (r, x)
    (fun _ s' => s'.1 = r /\ holding (with_file 0 r) [] SD s'.2)) as Hfile.
  { pose proof (ho_file _ _ _ _ Hh) as Hf. destruct Hh as [h1 h2 h3 h4 h5 h6]. destruct SF as [|[h c] [|]]; [..|done].
    - rewrite Hf. apply runs_ret. split; [done|]. by split.
    - destruct Hf as [Hf Hne]. rewrite Hf, (proj2 (Z.eqb_neq _ _) Hne). apply runs_world.
      eapply runs_mono; [eapply (law_file_close b files dirs T wrong fails); by eapply owns_top|].
      intros _ x' [Hd Hfx]. split; [done|]. cbn [fst snd]. split; try done; [rewrite Hfx; by eapply owns_pop|by rewrite Hd]. }
  eapply runs_mono; [exact Hfile|]. intros _ [r1 x1] [Hr1 Hh1]. cbn [fst snd] in Hr1, Hh1. subst r1. fs_steps.
  assert (sound (with_file 0 r)) as Hs1 by (by destruct Hs; split).
  eapply runs_mono; [eapply (close_dirs_spec _ _ x1 [] SD Hs1 Hh1)|].
  { rewrite (ho_depth _ _ _ _ Hh). unfold alen. lia. }
  intros _ [r2 x2] [Hs2 Hh2]. cbn [fst snd] in *. fs_steps. split; [|split; [|done]].
  - by destruct Hs2; split.
  - by destruct Hh2; split.
Qed.

(** ** Reading a block *)

Definition delivered capacity (rest : chars) (o : option (bvstk_fs_result_t * chars * bool)) (s' : session (X := X)) : Prop :=
  exists rc out eof, o = Some (rc, out, eof) /\ alen out <= capacity /\
    if fs_ok rc then
      exists SF SD, live s'.1 SF SD s'.2 /\ (if eof : bool then SF = [] /\ SD = [] else alen out = capacity) /\
        (wrong \/ exists rest', rest = out ++ rest' /\ incoming s'.1 SF SD rest' /\
           if eof then rest' = [] else kind <> BVSTK_FS_TREE -> rest' <> [])
    else closed s'.1 s'.2 /\ excuse.

(** At the end of a block, something is to come unless the end was reported. *)
Lemma incoming_nonempty r SF SD rest x :
  live r SF SD x -> incoming r SF SD rest -> kind <> BVSTK_FS_TREE -> BVSTK_FS_FILE <= kind <= BVSTK_FS_TAR ->
  (rd_phase r = FINISHED -> rd_stage_offset r <> rd_stage_size r) ->
  (rd_phase r = FILE_DATA -> rd_remaining r <> 0 \/ rd_stage_offset r <> rd_stage_size r) -> rest <> [].
Proof.
  intros [Hs Hh Hsh _] (more & -> & Hb) Hk Hrange Hfin Hdata. destruct (Z.eq_dec (rd_stage_offset r) (rd_stage_size r)) as [He|Hne].
  - enough (more <> []) as Hmore by (by intros [_ ?]%app_nil). unfold body in Hb.
    assert (kind <> BVSTK_FS_FILE -> forall es l, l ++ entries_stream kind base es <> []) as Htar.
    { intros Hkf es l. assert (kind = BVSTK_FS_TAR) as -> by (unfold BVSTK_FS_FILE, BVSTK_FS_TREE, BVSTK_FS_TAR in *; lia).
      unfold entries_stream. rewrite app_assoc. change (trailer BVSTK_FS_TAR) with (fill 1024 0).
      intros [_ Hz]%app_nil. by apply (f_equal length) in Hz. }
    unfold shape in Hsh. destruct (rd_phase r).
    + destruct Hb as [_ ->]. destruct Hsh as [_ Hkf]. by apply (Htar Hkf _ []).
    + destruct Hb as (h & c & c0 & st & -> & Hr & _ & _ & Hb). destruct (Hdata eq_refl) as [Hrem|]; [|done].
      assert (c <> []) as Hc by (intros ->; done). destruct (kind =? BVSTK_FS_FILE); [by subst|].
      destruct Hb as [_ ->]. by intros [? _]%app_nil.
    + destruct Hb as (_ & _ & ->). destruct Hsh as [_ Hkf]. by apply Htar.
    + by destruct (Hfin eq_refl).
  - intros [Hst _]%app_nil. pose proof (so_offset _ Hs). pose proof (so_size _ Hs). pose proof (so_stage _ Hs).
    apply (f_equal alen) in Hst. unfold staged in Hst. rewrite alen_cells in Hst by lia. change (alen (@nil Z)) with 0 in Hst. lia.
Qed.

(** The end of [bvstk_fs_reader_read]: the block is there. *)
Definition finish_read (rc : bvstk_fs_result_t) (out : chars) : ST (session (X := X)) (option (bvstk_fs_result_t * chars * bool)) :=
  if negb (fs_ok rc) then reader_close b ;; st_ret (Some (rc, out, false))
  else
    let! r := look id in
    st_ret (Some (BVSTK_FS_OK, out, bool_decide (rd_phase r = FINISHED) && (rd_stage_offset r =? rd_stage_size r))).

Lemma finish_broken r x SF SD capacity rest rc out :
  broken r SF SD x -> fs_ok rc = false -> alen out <= capacity ->
  runs (finish_read rc out) (r, x) (delivered capacity rest).
Proof.
  intros (Hs & Hh & Hex) Hrc Hle. unfold finish_read. rewrite Hrc. cbn [negb]. fs_steps.
  eapply runs_mono; [by eapply reader_close_spec|]. intros [] s' Hcl. apply runs_ret. exists rc, out, false.
  split; [done|]. split; [done|]. by rewrite Hrc.
Qed.

Lemma finish_live r x SF SD capacity rest out :
  live r SF SD x -> alen out <= capacity -> BVSTK_FS_FILE <= kind <= BVSTK_FS_TAR ->
  (alen out = capacity \/ rd_phase r = FINISHED /\ rd_stage_size r <= rd_stage_offset r) ->
  (rd_phase r = FILE_DATA -> rd_remaining r <> 0 \/ rd_stage_offset r <> rd_stage_size r) ->
  (wrong \/ exists rest', rest = out ++ rest' /\ incoming r SF SD rest') ->
  runs (finish_read BVSTK_FS_OK out) (r, x) (delivered capacity rest).
Proof.
  intros Hl Hle Hk Hfull Hdata Hc. unfold finish_read. cbn [fs_ok]. change (negb (fs_ok BVSTK_FS_OK)) with false. cbn iota. fs_steps.
  pose proof (so_offset _ (li_sound _ _ _ _ Hl)) as Hoff.
  set (eof := _ && _). exists BVSTK_FS_OK, out, eof. split; [done|]. split; [done|]. cbn. exists SF, SD. split; [done|].
  destruct (decide (rd_phase r = FINISHED /\ rd_stage_offset r = rd_stage_size r)) as [[Hp Ho]|Hne].
  - assert (eof = true) as -> by (unfold eof; rewrite bool_decide_eq_true_2 by done; rewrite Ho; apply Z.eqb_refl).
    split; [pose proof (li_shape _ _ _ _ Hl) as Hsh; unfold shape in Hsh; by rewrite Hp in Hsh|].
    destruct Hc as [|(rest' & -> & more & -> & Hb)]; [by left|]. right. unfold body in Hb. rewrite Hp in Hb. subst more.
    exists []. rewrite staged_empty by lia. split; [done|]. split; [|done]. exists []. rewrite staged_empty by lia. split; [done|].
    unfold body. by rewrite Hp.
  - assert (eof = false) as ->.
    { unfold eof. apply andb_false_iff. destruct (decide (rd_phase r = FINISHED)); [right; apply Z.eqb_neq; tauto|left; by apply bool_decide_eq_false_2]. }
    split; [destruct Hfull as [|[? ?]]; [done|]; exfalso; apply Hne; split; [done|lia]|].
    destruct Hc as [|(rest' & -> & Hi)]; [by left|]. right. exists rest'. split; [done|]. split; [done|]. intros Hkt.
    eapply incoming_nonempty; [exact Hl|exact Hi|done|done| |done]. intros Hp Ho. by apply Hne.
Qed.

Lemma reader_read_spec r x SF SD capacity rest :
  live r SF SD x -> (wrong \/ incoming r SF SD rest) -> 0 < capacity -> 0 <= base -> BVSTK_FS_FILE <= kind <= BVSTK_FS_TAR ->
  runs (bvstk_fs_reader_read true true capacity true true) (r, x) (delivered capacity rest).
Proof.
  intros Hl Hc Hcap H0 Hk. unfold bvstk_fs_reader_read. fs_steps. rewrite (so_backend _ (li_sound _ _ _ _ Hl)).
  rewrite (proj2 (Z.eqb_neq capacity 0)) by lia. cbn [negb orb]. fs_steps.
  eapply runs_mono.
  { eapply (reader_loop_spec _ r x SF SD capacity [] rest Hl Hc); [change (alen (@nil Z)) with 0; lia|done|].
    unfold potential, read_fuel. change (alen (@nil Z)) with 0. pose proof (rank_range r). lia. }
  intros o [r1 x1] (SF1 & SD1 & rc & out & -> & Hle & Hres). cbn [fst snd] in Hres. cbn beta iota. fs_steps.
  match goal with |- runs ?m ?s _ => change (runs m s (fun rc s' => runs (finish_read rc out) s' (delivered capacity rest))) end.
  destruct (fs_ok rc) eqn:Erc.
  2: { assert (runs (st_ret rc) (r1, x1) (fun rc s' => runs (finish_read rc out) s' (delivered capacity rest))) as Hd.
       { apply runs_ret. by eapply finish_broken. }
       destruct (rd_phase r1); cbn [andb]; exact Hd. }
  assert (rc = BVSTK_FS_OK) as -> by (by apply fs_ok_true). destruct Hres as (Hl1 & Hfull & Hc1).
  assert (exists rest', wrong \/ rest = out ++ rest' /\ incoming r1 SF1 SD1 rest') as [rest' Hc2].
  { destruct Hc1 as [|(new & rest' & -> & -> & Hi)]; [by exists []; left|]. exists rest'. by right. }
  assert (wrong \/ exists rest', rest = out ++ rest' /\ incoming r1 SF1 SD1 rest') as Hc3.
  { destruct Hc2 as [|[? ?]]; [by left|]. right. by exists rest'. }
  destruct (decide (rd_phase r1 = FILE_DATA)) as [Hp|Hp].
  - rewrite Hp. cbn [andb]. destruct ((rd_remaining r1 =? 0) && (rd_stage_offset r1 =? rd_stage_size r1)) eqn:Eend.
    + apply andb_true_iff in Eend as [E1 E2]. bsimp.
      eapply runs_mono; [apply (finish_file_spec r1 x1 SF1 SD1 rest' Hl1 Hp E1)|].
      { destruct Hc2 as [|[_ ?]]; [by left|by right]. }
      intros rc [r2 x2] Hf. cbn beta in Hf. destruct (fs_ok rc) eqn:Erc2; [|by eapply finish_broken].
      assert (rc = BVSTK_FS_OK) as -> by (by apply fs_ok_true).
      destruct Hf as (Hl2 & Hp2 & Ho2 & Hs2 & Hc4). cbn [fst snd] in *. apply (finish_live r2 x2 [] SD1); [done|done|done| | |].
      * destruct Hfull as [|[? _]]; [by left|congruence].
      * intros Hp3. destruct Hp2; congruence.
      * destruct Hc2 as [|[? _]]; [by left|]. destruct Hc4 as [|Hc4]; [by left|]. right. by exists rest'.
    + apply runs_ret. apply (finish_live r1 x1 SF1 SD1); try done. intros _. apply andb_false_iff in Eend as [E|E]; bsimp; [by left|by right].
  - assert (runs (st_ret BVSTK_FS_OK) (r1, x1) (fun rc s' => runs (finish_read rc out) s' (delivered capacity rest))) as Hd.
    { apply runs_ret. by apply (finish_live r1 x1 SF1 SD1). }
    destruct (rd_phase r1); [exact Hd|done|exact Hd|exact Hd].
Qed.

(** ** Opening *)

(** What a request can deliver. *)
Definition servable (root : chars) (o : object) : Prop :=
  T root = Some o /\ (0 ∉ root) /\ alen root < BVSTK_FS_PATH_CAPACITY /\
  match o with
  | OFile c _ => kind = BVSTK_FS_FILE /\ flags = 0
  | ODir l =>
      (kind = BVSTK_FS_TREE /\ (flags = 0 \/ flags = BVSTK_FS_RECURSIVE) \/ kind = BVSTK_FS_TAR /\ flags = 0) /\
      present T deep 15 root l
  end.

Definition opened (root : chars) (o : object) (rc : bvstk_fs_result_t) (s' : session (X := X)) : Prop :=
  if fs_ok rc then
    BVSTK_FS_FILE <= kind <= BVSTK_FS_TAR /\
    exists SF SD, live s'.1 SF SD s'.2 /\ (wrong \/ incoming s'.1 SF SD (stream_of kind flags root o))
  else files s'.2 = F /\ dirs s'.2 = D /\ excuse.

Lemma opened_error root o rc s' :
  fs_ok rc = false -> files s'.2 = F -> dirs s'.2 = D -> (wrong \/ False) -> opened root o rc s'.
Proof. unfold opened. intros -> Hf Hd [|[]]. split; [done|]. split; [done|]. by right. Qed.

Definition root_buffer (root : chars) : chars := write_at (fill BVSTK_FS_PATH_CAPACITY 0) 0 (root ++ [0]).

(** The reader before anything is open. *)
Definition prepared (root : chars) info total : bvstk_fs_reader_t X :=
  let r := with_request b kind flags zero_reader in
  let r := with_paths (write_at (rd_root r) 0 (root ++ [0])) (write_at (rd_path r) 0 (root ++ [0])) base r in
  with_total_size total (with_info info r).

Lemma prepared_path root info total : alen root < BVSTK_FS_PATH_CAPACITY -> holds_text (rd_path (prepared root info total)) root.
Proof.
  intros Hl. eexists. cbn [prepared rd_path with_total_size with_info with_paths]. unfold write_at.
  change (prefix 0 (rd_path (with_request b kind flags zero_reader))) with (@nil Z). cbn [app]. by rewrite <- app_assoc.
Qed.

Lemma prepared_sound root info total x :
  root_cells = root_buffer root -> alen root < BVSTK_FS_PATH_CAPACITY -> files x = F -> dirs x = D ->
  sound (prepared root info total) /\ holding (prepared root info total) [] [] x.
Proof.
  intros Hroot Hl Hf Hd. split.
  - split; try (done || (cbn; lia)).
    + apply write_fits; [done|lia|]. rewrite alen_app. change (alen [0]) with 1. lia.
    + by apply Forall_replicate.
  - split; try done; [rewrite Hf; apply owns_nil|rewrite Hd; apply owns_nil].
Qed.

(** After a failed open the reader is closed. *)
Lemma open_failed root o rc r x SF SD :
  fs_ok rc = false -> sound r -> holding r SF SD x -> excuse ->
  runs (reader_close b) (r, x) (fun _ s' => opened root o rc s').
Proof.
  intros Hrc Hs Hh Hex. eapply runs_mono; [by eapply reader_close_spec|].
  intros [] s' (_ & Hh' & _). unfold opened. rewrite Hrc.
  split; [by apply owns_nil_inv, (ho_files _ _ _ _ Hh')|]. split; [by apply owns_nil_inv, (ho_dirs _ _ _ _ Hh')|done].
Qed.

Lemma open_as_file root o info total x :
  root_cells = root_buffer root -> alen root < BVSTK_FS_PATH_CAPACITY -> files x = F -> dirs x = D -> kind = BVSTK_FS_FILE ->
  (wrong \/ servable root o /\ describes info o) ->
  runs (let! rc := open_file b in edit (with_phase FILE_DATA) ;; st_ret rc) (prepared root info total, x)
    (fun rc s' => runs ((if fs_ok rc then st_ret tt else reader_close b) ;; st_ret rc) s' (opened root o)).
Proof.
  intros Hroot Hl Hf Hd Hk Hinfo. destruct (prepared_sound root info total x Hroot Hl Hf Hd) as [Hs Hh].
  pose proof (prepared_path root info total Hl) as Hpath. set (r := prepared root info total) in *. assert (rd_info r = info /\ staged r = []) as [Hi Hst] by done. clearbody r. subst info.
  assert (wrong \/ exists c st, o = OFile c st /\ cstr (rd_path r) = root /\ T root = Some (OFile c st) /\ describes (rd_info r) (OFile c st)) as Hc.
  { destruct Hinfo as [|((HT & Hz & _ & Hreq) & Hdes)]; [by left|]. right. destruct o as [c st|l].
    - exists c, st. split; [done|]. split; [by apply path_cstr|done].
    - destruct Hreq as [[[Hk' _]|[Hk' _]] _]; rewrite Hk in Hk'; done. }
  fs_steps. eapply runs_mono; [apply (open_file_spec r x [] Hs Hh)|].
  { destruct Hc as [|(c & st & -> & Hcs & HT & Hdes)]; [by left|]. right. exists c, st. by rewrite Hcs. }
  intros rc [r1 x1] (h & c & size & Hsz & Hr1 & Hres). cbn [fst snd] in *. fs_steps.
  assert (sound (with_phase FILE_DATA r1)) as Hs1 by (destruct Hr1 as [-> | ->]; by destruct Hs; split).
  destruct (fs_ok rc) eqn:Erc.
  - destruct Hres as (-> & Hh1 & Hc1). fs_steps. unfold opened. rewrite Erc. split; [rewrite Hk; done|].
    exists [(h, c)], []. cbn [fst snd]. split; [split; [done|by destruct Hh1; split|by split|done]|].
    destruct Hc as [|(c0 & st & -> & Hcs & HT & Hdes)]; [by left|]. destruct Hc1 as [|[Hc1 Hc2]]; [by left|]. right.
    exists c0. split; [transitivity (staged r ++ c0); [by rewrite Hst|done]|]. unfold body. cbn. rewrite Hcs in Hc2. rewrite (Hc2 c0 st HT) in *. exists h, c0, c0, st.
    split; [done|]. split; [done|]. split; [done|]. rewrite Hk. split; [by rewrite Hcs|]. done.
  - destruct Hres as [Hex [SF Hh1]].
    apply (open_failed root o rc _ x1 SF []); [done|done|by destruct Hh1; split|done].
Qed.

Lemma open_as_dir root o info total x :
  root_cells = root_buffer root -> alen root < BVSTK_FS_PATH_CAPACITY -> files x = F -> dirs x = D -> kind <> BVSTK_FS_FILE ->
  BVSTK_FS_FILE <= kind <= BVSTK_FS_TAR -> root <> [] -> base = base_of root ->
  (wrong \/ servable root o /\ describes info o) ->
  runs (let! (rc, handle) := world (bk_dir_open b root) in
        edit (fun r => with_dirs ((rd_dirs r).[0 <- FsDir handle (if fs_ok rc then alen root else 0)])
                         (if fs_ok rc then 1 else 0) r) ;;
        edit (with_phase WALK) ;; st_ret rc) (prepared root info total, x)
    (fun rc s' => runs ((if fs_ok rc then st_ret tt else reader_close b) ;; st_ret rc) s' (opened root o)).
Proof.
  intros Hroot Hl Hf Hd Hk Hrange Hne Hbase Hinfo. destruct (prepared_sound root info total x Hroot Hl Hf Hd) as [Hs Hh].
  pose proof (prepared_path root info total Hl) as Hpath. set (r := prepared root info total) in *.
  assert (rd_info r = info /\ staged r = [] /\ rd_remaining r = 0) as (Hi & Hst & Hrem) by done. clearbody r. subst info.
  assert (wrong \/ exists l, o = ODir l /\ T root = Some (ODir l) /\ (0 ∉ root) /\ present T deep 15 root l) as Hc.
  { destruct Hinfo as [|((HT & Hz & _ & Hreq) & Hdes)]; [by left|]. right. destruct o as [c st|l]; [by destruct Hreq|].
    exists l. destruct Hreq as [_ Hp]. done. }
  fs_steps. apply runs_world. cbn [fst snd].
  eapply runs_mono; [eapply (law_dir_open b files dirs T wrong fails)|]. intros [rc h] x1 [Hf1 Hres]. fs_steps.
  destruct Hh as [h1 h2 h3 h4 h5 h6]. destruct (fs_ok rc) eqn:Erc.
  - destruct Hres as (Hfresh & l & Hd1 & Ht). fs_steps. unfold opened. rewrite Erc. split; [done|].
    set (r1 := with_phase WALK _). assert (rd_dirs r1 = (rd_dirs r).[0 <- FsDir h (alen root)]) as Hds by done.
    assert ((rd_dirs r1).[0] = FsDir h (alen root)) as H0.
    { rewrite Hds. apply aget_aset_eq. rewrite (so_dirs _ Hs). done. }
    exists [], [(h, l)]. cbn [fst snd]. split; [split|].
    + destruct Hs. split; try done; [rewrite Hds; by rewrite alen_aset|rewrite Hds; apply lens_step; [done|]].
      pose proof (alen_nonneg root). lia.
    + split; try done; [by rewrite Hf1|rewrite Hd1; by apply owns_push|]. cbn [handles_at]. change (alen []) with 0. by rewrite H0.
    + by split.
    + change (0 <= rd_remaining r). lia.
    + destruct Hc as [|(l0 & -> & HT & Hz & Hp)]; [by left|]. destruct Ht as [|Ht]; [by left|]. right.
      rewrite (Ht l0 HT) in *. assert (dir_path (rd_path r1) (rd_dirs r1) [] = root) as Hdir.
      { unfold dir_path. change (alen []) with 0. rewrite H0. by apply holds_prefix. }
      exists (stream_of kind flags root (ODir l0)). split; [transitivity (staged r ++ stream_of kind flags root (ODir l0)); [by rewrite Hst|done]|].
      unfold body. change (rd_phase r1) with WALK. split.
      * unfold walking. cbn [ready]. rewrite Hdir. change (alen []) with 0. rewrite H0. cbn [dr_path_len].
        split; [done|]. split; [|split; [done|split; [lia|done]]].
        split; [|done]. destruct root; [done|]. rewrite alen_cons. pose proof (alen_nonneg root). lia.
      * unfold listed. cbn [to_come]. rewrite Hdir, app_nil_r. cbn [stream_of]. by rewrite Hbase.
  - destruct Hres as [Hd1 Hex]. apply (open_failed root o rc _ x1 [] []); [done|..].
    + destruct Hs. split; try done; cbn; [by rewrite alen_aset|by apply lens_step].
    + split; try done; [by rewrite Hf1|by rewrite Hd1].
    + destruct Hc as [|(l & -> & HT & _)]; [by right|]. destruct Hex as [|Hex]; [done|]. by destruct (Hex l).
Qed.

Lemma reader_open_spec r0 x path root o :
  cstr path = root -> root <> [] -> base = base_of root -> root_cells = root_buffer root -> files x = F -> dirs x = D ->
  (wrong \/ servable root o) ->
  runs (bvstk_fs_reader_open true (Some b) (Some path) kind flags) (r0, x) (opened root o).
Proof.
  intros Hroot Hne Hbase Hcells Hf Hd Hc. unfold bvstk_fs_reader_open. cbn [negb]. fs_steps. rewrite Hroot.
  destruct (BVSTK_FS_PATH_CAPACITY <=? alen root) eqn:El; bsimp.
  { apply runs_ret. apply opened_error; [done|done|done|]. destruct Hc as [|(_ & _ & Hc & _)]; [by left|lia]. }
  destruct ((kind <? BVSTK_FS_FILE) || (BVSTK_FS_TAR <? kind)) eqn:Ek.
  { apply runs_ret. apply opened_error; [done|done|done|]. destruct Hc as [|(_ & _ & _ & Hc)]; [by left|exfalso].
    destruct o as [c st|l]; [destruct Hc as [-> _]; done|]. destruct Hc as [[[-> _]|[-> _]] _]; done. }
  apply orb_false_iff in Ek as [Ek1 Ek2]. bsimp.
  destruct (_ || _) eqn:Efl.
  { apply runs_ret. apply opened_error; [done|done|done|]. destruct Hc as [|(_ & _ & _ & Hc)]; [by left|exfalso].
    destruct o as [c st|l]; [destruct Hc as [-> ->]; done|]. destruct Hc as [[[-> [-> | ->]]|[-> ->]] _]; done. }
  fs_steps. apply runs_world. cbn [fst snd].
  eapply runs_mono; [eapply (law_stat b files dirs T wrong fails)|]. intros [rc info] x1 (Hf1 & Hd1 & Hst). fs_steps.
  destruct (fs_ok rc) eqn:Erc; cbn [negb].
  2: { apply runs_ret. unfold opened. rewrite Erc. cbn [snd]. split; [congruence|]. split; [congruence|].
    destruct Hc as [|(HT & _)]; [by right|]. destruct Hst as [|Hst]; [done|congruence]. }
  assert (wrong \/ servable root o /\ describes info o) as Hinfo.
  { destruct Hc as [|Hc]; [by left|]. destruct Hst as [|Hst]; [by left|]. right. split; [done|]. destruct Hc as [HT _]. by apply Hst. }
  destruct (negb (fi_type info =? _)) eqn:Ety.
  { apply runs_ret. apply opened_error; [done|cbn; congruence|cbn; congruence|]. destruct Hinfo as [|((HT & _ & _ & Hreq) & Hdes)]; [by left|exfalso].
    destruct o as [c st|l]; [destruct Hreq as [Hk _]; destruct Hdes as (Ht & _); rewrite Hk, Ht in Ety; done|]. cbn in Hdes. rewrite Hdes in Ety.
    destruct Hreq as [[[Hk _]|[Hk _]] _]; rewrite Hk in Ety; done. }
  apply negb_false_iff, Z.eqb_eq in Ety. fs_steps.
  assert (alen root + (if negb (alen root =? 0) && negb (root.[alen root - 1] =? 47) then 1 else 0) = base) as Hb.
  { rewrite Hbase. unfold base_of. assert ((alen root =? 0) = false) as ->.
    { apply Z.eqb_neq. destruct root; [done|]. rewrite alen_cons. pose proof (alen_nonneg root). lia. }
    cbn [negb andb]. by destruct (_ =? 47). }
  rewrite Hb. destruct (Z.eqb_spec kind BVSTK_FS_FILE) as [Hk|Hk].
  - apply (open_as_file root o info (fi_size info) x1); try done; congruence.
  - apply (open_as_dir root o info UINT64_MAX x1); try done; congruence.
Qed.
End reader.
