(* ===== verification/FsTransfer.v ===== *)
(** * FsTransfer: whole transfers

    Opening a reader and reading it to its end: what arrives is the stream of the
    tree, and no handle stays behind.  A concrete backend for runs. *)
From stdpp Require Import prelude gmap.
From Stdlib Require Import ZArith Lia.
From Stdlib Require String.
Import String.StringSyntax.
From S2P Require Import Prelude Text FsPath FsReader FsStream FsReaderSafety.
Local Open Scope Z_scope.

(** ** A backend in memory

    Its world is the open handles; it serves the objects of [T] and never fails. *)

Record memory : Type := Memory { m_files : gmap Z chars; m_dirs : gmap Z listing }.

Definition new_handle {A} (m : gmap Z A) : Z := fresh ({[0]} ∪ dom m).

Section memory_backend.
Context (T : chars -> option object).

Definition m_stat (p : chars) : ST memory (bvstk_fs_result_t * bvstk_fs_info_t) :=
  st_ret match T p with Some o => (BVSTK_FS_OK, info_of o) | None => (BVSTK_FS_NOT_FOUND, zero_info) end.

Definition m_file_open (p : chars) : ST memory (bvstk_fs_result_t * Z * Z) := fun m =>
  match T p with
  | Some (OFile c _) =>
      let h := new_handle (m_files m) in
      ((BVSTK_FS_OK, h, alen c), Memory (<[h := c]> (m_files m)) (m_dirs m))
  | Some (ODir _) => ((BVSTK_FS_TYPE_ERROR, 0, 0), m)
  | None => ((BVSTK_FS_NOT_FOUND, 0, 0), m)
  end.

Definition m_file_read (h n : Z) : ST memory (bvstk_fs_result_t * chars) := fun m =>
  match m_files m !! h with
  | Some c => ((BVSTK_FS_OK, prefix n c), Memory (<[h := drop (Z.to_nat n) c]> (m_files m)) (m_dirs m))
  | None => ((BVSTK_FS_IO, []), m)
  end.

Definition m_dir_open (p : chars) : ST memory (bvstk_fs_result_t * Z) := fun m =>
  match T p with
  | Some (ODir l) =>
      let h := new_handle (m_dirs m) in
      ((BVSTK_FS_OK, h), Memory (m_files m) (<[h := l]> (m_dirs m)))
  | Some (OFile _ _) => ((BVSTK_FS_TYPE_ERROR, 0), m)
  | None => ((BVSTK_FS_NOT_FOUND, 0), m)
  end.

Definition m_dir_read (h n : Z) : ST memory (bvstk_fs_result_t * chars * bvstk_fs_info_t) := fun m =>
  let advance l := Memory (m_files m) (<[h := l]> (m_dirs m)) in
  match m_dirs m !! h with
  | Some End => ((BVSTK_FS_OK, [0], zero_info), advance End)
  | Some (AFile name c st rest) => ((BVSTK_FS_OK, name ++ [0], info_of (OFile c st)), advance rest)
  | Some (ADir name inside rest) => ((BVSTK_FS_OK, name ++ [0], info_of (ODir inside)), advance rest)
  | None => ((BVSTK_FS_IO, [0], zero_info), m)
  end.

Definition memory_backend : bvstk_fs_backend_t memory :=
  FsBackend (st_ret 1) (fun _ => st_ret (BVSTK_FS_OK, FsVolume (lit "sd") 1)) m_stat m_file_open m_file_read
    (fun h => st_mod (fun m => Memory (delete h (m_files m)) (m_dirs m)))
    m_dir_open m_dir_read
    (fun h => st_mod (fun m => Memory (m_files m) (delete h (m_dirs m)))).

Lemma new_handle_fresh {A} (m : gmap Z A) : new_handle m <> 0 /\ m !! new_handle m = None.
Proof.
  pose proof (is_fresh (({[0]} : gset Z) ∪ dom m)) as Hf. unfold new_handle. rewrite not_elem_of_union in Hf. destruct Hf as [H0 Hd].
  split; [|by apply not_elem_of_dom]. intros He. apply H0. rewrite He. set_solver.
Qed.

#[export] Instance memory_serves wrong fails : Serves memory_backend m_files m_dirs T wrong fails.
Proof.
  split.
  - done.
  - done.
  - intros p x. unfold runs. cbn. destruct (T p) as [o|] eqn:E; cbn; (split; [done|]); (split; [done|]); right; [|done].
    intros o' [= ->]. destruct o'; done.
  - intros p x. unfold runs. cbn. unfold m_file_open. destruct (new_handle_fresh (m_files x)) as [Hn Hfr].
    destruct (T p) as [[c st|l]|] eqn:E; cbn; [|split; [done|]; split; [done|]; split; [done|]; right; congruence..].
    split; [done|]. split; [done|]. split; [apply alen_nonneg|]. split; [done|]. exists c. split; [done|]. right.
    intros c0 st0 [= -> ->]. done.
  - intros h n x c Hh Hn. unfold runs. cbn. unfold m_file_read. rewrite Hh. cbn. split; [done|].
    exists (drop (Z.to_nat n) c). split; [done|]. right. split; [unfold prefix; by rewrite take_drop|].
    split; [apply prefix_short; lia|]. intros Hc. destruct c; [done|]. unfold prefix.
    by replace (Z.to_nat n) with (S (Z.to_nat n - 1)) by lia.
  - done.
  - intros p x. unfold runs. cbn. unfold m_dir_open. destruct (new_handle_fresh (m_dirs x)) as [Hn Hfr].
    destruct (T p) as [[c st|l]|] eqn:E; cbn; [split; [done|]; split; [done|]; right; congruence| |split; [done|]; split; [done|]; right; congruence].
    split; [done|]. split; [done|]. exists l. split; [done|]. right. by intros l0 [= ->].
  - intros h n x l Hh. unfold runs. cbn. unfold m_dir_read. rewrite Hh. destruct l as [|name c st rest|name inside rest]; cbn.
    + split; [done|]. exists End. split; [done|]. by right.
    + split; [done|]. exists rest. split; [done|]. right. split; [intros Hz; by apply cstr_text|]. by split.
    + split; [done|]. exists rest. split; [done|]. right. split; [intros Hz; by apply cstr_text|]. by split.
  - done.
Qed.
End memory_backend.

(** The objects of a tree by path. *)
Fixpoint find_in (dir : chars) (l : listing) (p : chars) : option object :=
  match l with
  | End => None
  | AFile n c st rest => if decide (child dir n = p) then Some (OFile c st) else find_in dir rest p
  | ADir n inside rest =>
      if decide (child dir n = p) then Some (ODir inside)
      else match find_in (child dir n) inside p with Some o => Some o | None => find_in dir rest p end
  end.

Definition objects (root : chars) (l : listing) (p : chars) : option object :=
  if decide (p = root) then Some (ODir l) else find_in root l p.

Section transfer.
Context {X : Type} (b : bvstk_fs_backend_t X).
Implicit Types (s : session (X := X)).

Definition next_block (capacity : Z) : ST (session (X := X)) (option (bvstk_fs_result_t * chars * bool)) :=
  bvstk_fs_reader_read true true capacity true true.

(** Blocks of [capacity] bytes until the end or an error. *)
Fixpoint fetch (fuel : nat) (capacity : Z) (got : chars) : ST (session (X := X)) (option (bvstk_fs_result_t * chars)) :=
  match fuel with
  | O => st_ret None
  | S fuel =>
      let? (rc, out, eof) := next_block capacity in
      if negb (fs_ok rc) then st_ret (Some (rc, got))
      else if eof : bool then st_ret (Some (BVSTK_FS_OK, got ++ out))
      else fetch fuel capacity (got ++ out)
  end.

Definition transfer (fuel : nat) (capacity : Z) (root : chars) (kind flags : Z)
    : ST (session (X := X)) (option (bvstk_fs_result_t * chars)) :=
  let! rc := bvstk_fs_reader_open true (Some b) (Some root) kind flags in
  if fs_ok rc then fetch fuel capacity [] else st_ret (Some (rc, [])).

(** Blocks of given sizes, at most up to the end, then close. *)
Fixpoint consume (capacities : list Z) (got : list chars) : ST (session (X := X)) (option (list chars)) :=
  match capacities with
  | [] => st_ret (Some got)
  | capacity :: capacities =>
      let? (rc, out, eof) := next_block capacity in
      if negb (fs_ok rc) || eof then st_ret (Some (got ++ [out]))
      else consume capacities (got ++ [out])
  end.

Definition consume_and_close (root : chars) (kind flags : Z) (capacities : list Z) : ST (session (X := X)) (option (list chars)) :=
  let! rc := bvstk_fs_reader_open true (Some b) (Some root) kind flags in
  if fs_ok rc then
    let? blocks := consume capacities [] in
    bvstk_fs_reader_close true ;; st_ret (Some blocks)
  else st_ret (Some []).
End transfer.

Section properties.
Context {X : Type} (b : bvstk_fs_backend_t X).
Context (files : X -> gmap Z chars) (dirs : X -> gmap Z listing) (T : chars -> option object).

Lemma fetch_spec fails `{!Serves b files dirs T False fails} kind flags base root_cells F D fuel r x SF SD capacity got rest :
  live b files dirs kind flags base root_cells F D r SF SD x -> incoming T kind flags base r SF SD rest ->
  0 < capacity -> 0 <= base -> BVSTK_FS_FILE <= kind <= BVSTK_FS_TAR -> alen rest < Z.of_nat fuel * capacity ->
  runs (fetch fuel capacity got) (r, x) (fun o s' => exists rc text, o = Some (rc, text) /\
    files s'.2 = F /\ dirs s'.2 = D /\
    if fs_ok rc then text = got ++ rest else fails /\ text `prefix_of` got ++ rest).
Proof.
  revert r x SF SD got rest. induction fuel as [|fuel IH]; intros r x SF SD got rest Hl Hi Hcap H0 Hk Hf.
  { pose proof (alen_nonneg rest). lia. }
  cbn [fetch]. apply runs_bind. eapply runs_mono; [eapply (reader_read_spec b files dirs T False fails); try done; by right|].
  intros o [r1 x1] (rc & out & eof & -> & Hle & Hres). cbn [fst snd] in Hres. cbn beta iota.
  destruct (fs_ok rc) eqn:Erc; cbn [negb].
  - destruct Hres as (SF1 & SD1 & Hl1 & Hend & [[]|(rest' & -> & Hi1 & Hr)]). destruct eof.
    + destruct Hend as [-> ->]. subst rest'. apply runs_ret. exists BVSTK_FS_OK, (got ++ out). split; [done|].
      destruct Hl1 as [_ [h1 h2 _ _ _ _] _ _]. apply owns_nil_inv in h1, h2.
      split; [done|]. split; [done|]. cbn. by rewrite app_nil_r.
    + eapply runs_mono; [apply (IH r1 x1 SF1 SD1 (got ++ out) rest'); try done|].
      * rewrite alen_app in Hf. rewrite Nat2Z.inj_succ in Hf. nia.
      * intros o s' (rc2 & text & -> & Hf2 & Hd2 & Ht). exists rc2, text. do 3 (split; [done|]). by rewrite <- app_assoc in Ht.
  - destruct Hres as ((_ & Hh & _) & [Hfails|[]]). apply runs_ret. exists rc, got. split; [done|].
    destruct Hh as [h1 h2 _ _ _ _]. apply owns_nil_inv in h1, h2. split; [done|]. split; [done|]. rewrite Erc.
    split; [done|]. by apply prefix_app_r.
Qed.

(** C6: A transfer in blocks of any size that ends without an error delivered the
    stream of the tree, byte for byte; a transfer over a backend that does not fail
    ends without an error, and one that fails delivered a beginning of the stream.
    No handle is left open in either case. *)
Theorem fs_transfer_exact fails `{!Serves b files dirs T False fails} kind flags root o fuel capacity r0 x :
  root <> [] -> servable T kind flags root o -> 0 < capacity ->
  alen (stream_of kind flags root o) < Z.of_nat fuel * capacity ->
  runs (transfer b fuel capacity root kind flags) (r0, x) (fun res s' => exists rc text, res = Some (rc, text) /\
    files s'.2 = files x /\ dirs s'.2 = dirs x /\
    if fs_ok rc then text = stream_of kind flags root o else fails /\ text `prefix_of` stream_of kind flags root o).
Proof.
  intros Hne Hs Hcap Hfuel. unfold transfer. apply runs_bind.
  assert (cstr root = root) as Hc.
  { destruct Hs as (_ & Hz & _). clear -Hz. induction root as [|c root IH]; [done|]. apply not_elem_of_cons in Hz as [Hc Hz]. cbn.
    rewrite (proj2 (Z.eqb_neq c 0)) by congruence. by rewrite IH. }
  eapply runs_mono; [apply (reader_open_spec b files dirs T False fails kind flags (base_of root) (root_buffer root) (files x) (dirs x) r0 x root root o); try done; by right|].
  intros rc [r x1] Ho. unfold opened in Ho. destruct (fs_ok rc) eqn:Erc.
  - destruct Ho as (Hk & SF & SD & Hl & [[]|Hi]). cbn [fst snd] in Hl, Hi.
    eapply runs_mono; [apply (fetch_spec fails kind flags (base_of root) (root_buffer root) (files x) (dirs x) fuel r x1 SF SD capacity [] _ Hl Hi); try done|].
    { unfold base_of. pose proof (alen_nonneg root). case_match; lia. }
    intros res s' Hres. exact Hres.
  - destruct Ho as (Hf & Hd & [Hfail|[]]). apply runs_ret. exists rc, []. split; [done|]. split; [done|]. split; [done|]. rewrite Erc.
    split; [done|]. apply prefix_nil.
Qed.

Lemma consume_spec `{!Serves b files dirs T True True} kind flags base root_cells F D capacities r x SF SD got :
  live b files dirs kind flags base root_cells F D r SF SD x -> 0 <= base -> BVSTK_FS_FILE <= kind <= BVSTK_FS_TAR ->
  Forall (fun c => 0 < c) capacities ->
  runs (consume capacities got) (r, x) (fun o s' => exists blocks SF SD, o = Some (got ++ blocks) /\
    (length blocks <= length capacities)%nat /\
    (forall i block, blocks !! i = Some block -> exists c, capacities !! i = Some c /\ alen block <= c) /\
    sound b kind flags base root_cells s'.1 /\ holding files dirs F D s'.1 SF SD s'.2).
Proof.
  intros Hl H0 Hk Hcaps. revert r x SF SD got Hl. induction Hcaps as [|c capacities Hc _ IH]; intros r x SF SD got Hl.
  { apply runs_ret. exists [], SF, SD. rewrite app_nil_r. split; [done|]. split; [done|]. split; [done|]. by destruct Hl. }
  cbn [consume]. apply runs_bind.
  eapply runs_mono; [eapply (reader_read_spec b files dirs T True True _ _ _ _ _ _ r x SF SD c []); try done; by left|].
  intros o [r1 x1] (rc & out & eof & -> & Hle & Hres). cbn [fst snd] in Hres. cbn beta iota.
  assert (exists SF SD, sound b kind flags base root_cells r1 /\ holding files dirs F D r1 SF SD x1 /\
    (negb (fs_ok rc) || eof = false -> live b files dirs kind flags base root_cells F D r1 SF SD x1)) as (SF1 & SD1 & Hs1 & Hh1 & Hl1).
  { destruct (fs_ok rc); cbn in *.
    - destruct Hres as (SF1 & SD1 & Hl1 & _). exists SF1, SD1. by destruct Hl1.
    - destruct Hres as ((? & ? & _) & _). by exists [], []. }
  assert (forall i block, [out] !! i = Some block -> exists c', (c :: capacities) !! i = Some c' /\ alen block <= c') as Hone.
  { intros [|i] block; [|done]. intros [= <-]. by exists c. }
  destruct (negb (fs_ok rc) || eof) eqn:Estop.
  - apply runs_ret. exists [out], SF1, SD1. split; [done|]. split; [cbn; lia|]. by split.
  - eapply runs_mono; [by eapply (IH r1 x1 SF1 SD1 (got ++ [out])), Hl1|].
    intros o s' (blocks & SF2 & SD2 & -> & Hlen & Hb & Hs2 & Hh2). exists (out :: blocks), SF2, SD2.
    rewrite <- app_assoc. split; [done|]. split; [cbn; lia|]. split; [|done].
    intros [|i] block; [intros [= <-]; by exists c|]. apply Hb.
Qed.

(** Whatever the backend answers - errors, wrong sizes, names that are no
    names - a reader that is opened, read with blocks of any sizes and closed
    leaves no handle open, closes none that is not its own, returns from every
    call, and stores at most as much as a block holds. *)
Theorem fs_reader_safe `{!Serves b files dirs T True True} kind flags root capacities r0 x :
  cstr root <> [] -> Forall (fun c => 0 < c) capacities ->
  runs (consume_and_close b root kind flags capacities) (r0, x) (fun o s' => exists blocks, o = Some blocks /\
    files s'.2 = files x /\ dirs s'.2 = dirs x /\
    forall i block, blocks !! i = Some block -> exists c, capacities !! i = Some c /\ alen block <= c).
Proof.
  intros Hne Hcaps. unfold consume_and_close. apply runs_bind.
  eapply runs_mono; [apply (reader_open_spec b files dirs T True True kind flags (base_of (cstr root)) (root_buffer (cstr root)) (files x) (dirs x) r0 x root (cstr root) (ODir End)); try done; by left|].
  intros rc [r x1] Ho. unfold opened in Ho. destruct (fs_ok rc).
  - destruct Ho as (Hk & SF & SD & Hl & _). apply runs_bind.
    eapply runs_mono; [eapply (consume_spec _ _ _ _ _ _ _ _ _ _ _ [] Hl); try done|].
    { unfold base_of. pose proof (alen_nonneg (cstr root)). case_match; lia. }
    intros o [r2 x2] (blocks & SF2 & SD2 & -> & _ & Hb & Hs2 & Hh2). cbn [fst snd app] in *. cbn beta iota. apply runs_bind.
    unfold bvstk_fs_reader_close. fs_steps. rewrite (so_backend _ _ _ _ _ _ Hs2).
    eapply runs_mono; [by eapply (reader_close_spec b files dirs T True True)|].
    intros [] s' (_ & Hh & _). apply runs_ret. exists blocks. split; [done|].
    destruct Hh as [h1 h2 _ _ _ _]. apply owns_nil_inv in h1, h2. by split.
  - destruct Ho as (Hf & Hd & _). apply runs_ret. exists []. split; [done|]. split; [done|]. by split.
Qed.
End properties.

(** ** Runs *)

Definition demo_root : chars := lit "sd:/".
Definition demo_listing : listing :=
  ADir (lit "logs") (AFile (lit "boot.txt") (lit "ready") 7 End) (AFile (lit "empty") [] 8 End).
Definition demo_objects : chars -> option object := objects demo_root demo_listing.
Definition demo_fs : session := (zero_reader, Memory ∅ ∅).

Lemma demo_servable : servable demo_objects BVSTK_FS_TAR 0 demo_root (ODir demo_listing).
Proof.
  split; [reflexivity|]. split; [by vm_compute; repeat (apply not_elem_of_cons; split; [lia|]); apply not_elem_of_nil|].
  split; [reflexivity|]. split; [by right|].
  assert (forall n : chars, forallb (fun c => negb (c =? 0)) n = true -> 0 ∉ n) as Hz.
  { intros n Hn Hin. rewrite forallb_forall in Hn. specialize (Hn 0). rewrite <- list_elem_of_In in Hn. by specialize (Hn Hin). }
  assert (forall n, valid_component n = true -> forallb (fun c => negb (c =? 0)) n = true -> good_name n) as Hg by (intros n; split; auto).
  repeat (match goal with
    | |- _ /\ _ => split
    | |- good_name _ => by apply Hg
    | |- True => exact I
    | |- true = true -> _ => intros _
    | |- deep _ _ = true -> _ => intros _
    end || (progress cbn [present demo_listing]) || reflexivity || (vm_compute; congruence)).
Qed.

Lemma fs_transfer_exact_witness :
  (transfer (memory_backend demo_objects) 9 1000 demo_root BVSTK_FS_TAR 0 demo_fs).1 =
    Some (BVSTK_FS_OK, stream_of BVSTK_FS_TAR 0 demo_root (ODir demo_listing)) /\
  alen (stream_of BVSTK_FS_TAR 0 demo_root (ODir demo_listing)) = 3072.
Proof.
  split; [|vm_compute; reflexivity].
  destruct (fs_transfer_exact (memory_backend demo_objects) m_files m_dirs demo_objects False BVSTK_FS_TAR 0 demo_root
    (ODir demo_listing) 9 1000 zero_reader (Memory ∅ ∅)) as (rc & text & Hr & _ & _ & Hrc).
  - discriminate.
  - exact demo_servable.
  - reflexivity.
  - vm_compute. reflexivity.
  - destruct (fs_ok rc) eqn:E; [|by destruct Hrc]. apply fs_ok_true in E. subst rc text. exact Hr.
Defined.

Lemma fs_reader_safe_witness :
  exists blocks, (consume_and_close (memory_backend demo_objects) demo_root BVSTK_FS_TREE 1 [10; 20; 1] demo_fs).1 = Some blocks /\
    alen <$> blocks = [10; 20; 1].
Proof.
  destruct (fs_reader_safe (memory_backend demo_objects) m_files m_dirs demo_objects BVSTK_FS_TREE 1 demo_root [10; 20; 1] zero_reader
    (Memory ∅ ∅)) as (blocks & Hr & _).
  - discriminate.
  - repeat constructor.
  - exists blocks. split; [exact Hr|]. vm_compute in Hr. injection Hr as <-. reflexivity.
Defined.
