(* ===== verification/Dcp2Fs.v ===== *)
(** * Dcp2Fs: file requests over DCP2

    [src/src/protocols/dcp2/bvstk_dcp2_fs.c]: a session of two file handles, each
    a reader whose last block is kept for retransmission.

    The state is the session and the world of its backend.  [body] are the [size]
    bytes of a request; the reply is the list of the bytes stored at [out], as
    many as [*out_size] says, and empty unless the status is 0.  [size_t] sums of
    a buffer's capacity and an offset do not wrap. *)
From stdpp Require Import prelude.
From Stdlib Require Import ZArith Lia.
From S2P Require Import Prelude Text FsPath FsReader Dcp2Codec.
Local Open Scope Z_scope.

Definition BVSTK_DCP2_FS_VERSION : Z := 1.
Definition BVSTK_DCP2_FS_BLOCK_MAX : Z := 3072.
Definition BVSTK_DCP2_FS_HANDLES_MAX : Z := 2.
Definition BVSTK_DCP2_FS_IDLE_MS : Z := 30000.

Definition BVSTK_DCP2_FS_INFO : Z := 0.
Definition BVSTK_DCP2_FS_STAT : Z := 1.
Definition BVSTK_DCP2_FS_OPEN : Z := 2.
Definition BVSTK_DCP2_FS_READ : Z := 3.
Definition BVSTK_DCP2_FS_CLOSE : Z := 4.
Definition BVSTK_DCP2_FS_EOF : Z := 1.

Definition BVSTK_DCP2_FS_NOT_FOUND : Z := 0x0100.
Definition BVSTK_DCP2_FS_NOT_READY : Z := 0x0101.
Definition BVSTK_DCP2_FS_BAD_HANDLE : Z := 0x0102.
Definition BVSTK_DCP2_FS_TYPE_ERROR : Z := 0x0103.
Definition BVSTK_DCP2_FS_IO_ERROR : Z := 0x0104.
Definition BVSTK_DCP2_FS_CHANGED : Z := 0x0105.

(** The private enumeration of wire statuses. *)
Definition FS_OK : Z := 0.
Definition FS_MALFORMED : Z := 1.
Definition FS_UNSUPPORTED : Z := 2.
Definition FS_BUSY : Z := 4.
Definition FS_RANGE : Z := 6.
Definition FS_INTERNAL : Z := 7.

Definition UINT16_MAX : Z := 65535.
Definition UINT32_MAX : Z := 4294967295.

Definition wire_status (result : bvstk_fs_result_t) : Z :=
  match result with
  | BVSTK_FS_OK => FS_OK
  | BVSTK_FS_INVALID => FS_MALFORMED
  | BVSTK_FS_RANGE => FS_RANGE
  | BVSTK_FS_NOT_FOUND => BVSTK_DCP2_FS_NOT_FOUND
  | BVSTK_FS_NOT_READY => BVSTK_DCP2_FS_NOT_READY
  | BVSTK_FS_TYPE_ERROR => BVSTK_DCP2_FS_TYPE_ERROR
  | BVSTK_FS_IO => BVSTK_DCP2_FS_IO_ERROR
  | BVSTK_FS_CHANGED => BVSTK_DCP2_FS_CHANGED
  | BVSTK_FS_BUSY => FS_BUSY
  | BVSTK_FS_UNSUPPORTED => FS_UNSUPPORTED
  end.

(** The [static] copy of [put64], over the codec. *)
Definition put64 (out : list Z) (o value : Z) : list Z :=
  bvstk_dcp2_write_be32 (bvstk_dcp2_write_be32 out o (u32 (Z.shiftr value 32))) (o + 4) (u32 value).

Record bvstk_dcp2_fs_handle_t {X : Type} := FsHandle {
  fh_reader : bvstk_fs_reader_t X;
  fh_handle : Z;
  fh_open_id : Z;
  fh_last_activity : Z;
  fh_last_block : Z;
  fh_requested_block_size : Z;
  fh_block_size : Z;
  fh_cached_size : Z;
  fh_terminal_status : Z;
  fh_has_block : bool;
  fh_eof : bool;
  fh_cached : chars
}.
Arguments bvstk_dcp2_fs_handle_t : clear implicits.
Arguments FsHandle {X}.

(** [memset (h, 0, sizeof *h)]; [cached] holds the bytes the reader stored. *)
Definition zero_handle {X} : bvstk_dcp2_fs_handle_t X := FsHandle zero_reader 0 0 0 0 0 0 0 0 false false [].

#[export] Instance fs_handle_inhabited {X} : Inhabited (bvstk_dcp2_fs_handle_t X) := populate zero_handle.

Record bvstk_dcp2_fs_session_t {X : Type} := FsSession {
  fs_backend : option (bvstk_fs_backend_t X);
  fs_next_handle : Z;
  fs_handles : list (bvstk_dcp2_fs_handle_t X)
}.
Arguments bvstk_dcp2_fs_session_t : clear implicits.
Arguments FsSession {X}.

Section session.
Context {X : Type}.
Abbreviation handle := (bvstk_dcp2_fs_handle_t X).

Definition with_reader r (h : handle) : handle :=
  FsHandle r (fh_handle h) (fh_open_id h) (fh_last_activity h) (fh_last_block h) (fh_requested_block_size h) (fh_block_size h)
    (fh_cached_size h) (fh_terminal_status h) (fh_has_block h) (fh_eof h) (fh_cached h).
Definition with_activity t (h : handle) : handle :=
  FsHandle (fh_reader h) (fh_handle h) (fh_open_id h) t (fh_last_block h) (fh_requested_block_size h) (fh_block_size h)
    (fh_cached_size h) (fh_terminal_status h) (fh_has_block h) (fh_eof h) (fh_cached h).
Definition with_terminal t (h : handle) : handle :=
  FsHandle (fh_reader h) (fh_handle h) (fh_open_id h) (fh_last_activity h) (fh_last_block h) (fh_requested_block_size h)
    (fh_block_size h) (fh_cached_size h) t (fh_has_block h) (fh_eof h) (fh_cached h).
Definition with_opened n id requested block (h : handle) : handle :=
  FsHandle (fh_reader h) n id (fh_last_activity h) (fh_last_block h) requested block
    (fh_cached_size h) (fh_terminal_status h) (fh_has_block h) (fh_eof h) (fh_cached h).
Definition with_block block size eof bytes (h : handle) : handle :=
  FsHandle (fh_reader h) (fh_handle h) (fh_open_id h) (fh_last_activity h) block (fh_requested_block_size h) (fh_block_size h)
    size (fh_terminal_status h) true eof bytes.

(** The session with the world, one of its handles with the world, and a reader
    with the world. *)
Definition fs_state : Type := bvstk_dcp2_fs_session_t X * X.
Definition slot_state : Type := handle * X.

Definition on_slot {A} (i : Z) (m : ST slot_state A) : ST fs_state A := fun s =>
  let '(a, (h, x)) := m ((fs_handles s.1).[i], s.2) in
  (a, (FsSession (fs_backend s.1) (fs_next_handle s.1) ((fs_handles s.1).[i <- h]), x)).

Definition on_reader {A} (m : ST (bvstk_fs_reader_t X * X) A) : ST slot_state A := fun s =>
  let '(a, (r, x)) := m (fh_reader s.1, s.2) in (a, (with_reader r s.1, x)).

Definition edit_slot (f : handle -> handle) : ST slot_state unit := st_mod (fun s => (f s.1, s.2)).
Definition look_slot : ST slot_state handle := st_get fst.
Definition look_session : ST fs_state (bvstk_dcp2_fs_session_t X) := st_get fst.
Definition ask {A} (m : ST X A) : ST fs_state A := fun s => let '(a, x) := m s.2 in (a, (s.1, x)).

Definition close_handle : ST slot_state unit :=
  let! h := look_slot in
  (if fh_handle h =? 0 then st_ret tt else on_reader (bvstk_fs_reader_close true)) ;;
  edit_slot (fun _ => zero_handle).

Definition bvstk_dcp2_fs_init (backend : option (bvstk_fs_backend_t X)) : bvstk_dcp2_fs_session_t X :=
  FsSession backend 1 (fill BVSTK_DCP2_FS_HANDLES_MAX zero_handle).

(** The loops over the handles. *)
Fixpoint each_slot (n : nat) (i : Z) (m : ST slot_state unit) : ST fs_state unit :=
  match n with
  | O => st_ret tt
  | S n => on_slot i m ;; each_slot n (i + 1) m
  end.

Definition bvstk_dcp2_fs_destroy : ST fs_state unit :=
  each_slot (Z.to_nat BVSTK_DCP2_FS_HANDLES_MAX) 0 close_handle.

Definition expire_slot (now : Z) : ST slot_state unit :=
  let! h := look_slot in
  if negb (fh_handle h =? 0) && (BVSTK_DCP2_FS_IDLE_MS <=? u32 (now - fh_last_activity h)) then close_handle else st_ret tt.

Definition bvstk_dcp2_fs_expire (now : Z) : ST fs_state unit :=
  each_slot (Z.to_nat BVSTK_DCP2_FS_HANDLES_MAX) 0 (expire_slot now).

(** [inr] is the path. *)
Definition parse_path (body : chars) : Z + chars :=
  if alen body <? 2 then inl FS_MALFORMED
  else
    let length := bvstk_dcp2_read_be16 (Some body) 0 in
    if negb (alen body =? length + 2) then inl FS_MALFORMED
    else match bvstk_fs_validate_path (drop 2 body) BVSTK_FS_PATH_CAPACITY with
         | inl rc => inl (wire_status rc)
         | inr path => inr path
         end.

(** The volumes [i .. i + n) of INFO, appended to [out]. *)
Fixpoint volumes_loop (b : bvstk_fs_backend_t X) (n : nat) (i capacity : Z) (out : chars) : ST fs_state (Z * chars) :=
  match n with
  | O => st_ret (FS_OK, out)
  | S n =>
      let! (rc, volume) := ask (bk_volume b i) in
      let status := wire_status rc in
      if negb (status =? 0) then st_ret (status, [])
      else
        let name := cstr (fv_name volume) in
        let length := alen name in
        if (length =? 0) || (16 <=? length) || (capacity <? alen out + 2 + length) then st_ret (FS_INTERNAL, [])
        else volumes_loop b n (i + 1) capacity (out ++ [fv_state volume; u8 length] ++ name)
  end.

Definition info_response (b : bvstk_fs_backend_t X) (capacity : Z) : ST fs_state (Z * chars) :=
  let! count := ask (bk_volume_count b) in
  if (capacity <? 20) || (UINT16_MAX <? count) then st_ret (FS_INTERNAL, [])
  else
    let out := fill 20 0 in
    let out := bvstk_dcp2_write_be16 out 0 BVSTK_DCP2_FS_VERSION in
    let out := bvstk_dcp2_write_be32 out 2 0x3F in
    let out := bvstk_dcp2_write_be16 out 6 BVSTK_DCP2_FS_BLOCK_MAX in
    let out := bvstk_dcp2_write_be16 out 8 (BVSTK_FS_PATH_CAPACITY - 1) in
    let out := bvstk_dcp2_write_be16 out 10 BVSTK_FS_MAX_DEPTH in
    let out := bvstk_dcp2_write_be16 out 12 BVSTK_DCP2_FS_HANDLES_MAX in
    let out := bvstk_dcp2_write_be32 out 14 BVSTK_DCP2_FS_IDLE_MS in
    let out := bvstk_dcp2_write_be16 out 18 count in
    volumes_loop b (Z.to_nat count) 0 capacity out.

Definition stat_response (b : bvstk_fs_backend_t X) (body : chars) (capacity : Z) : ST fs_state (Z * chars) :=
  match parse_path body with
  | inl status => st_ret (status, [])
  | inr path =>
      if capacity <? 10 then st_ret (FS_INTERNAL, [])
      else
        let! (rc, info) := ask (bk_stat b path) in
        let status := wire_status rc in
        if negb (status =? 0) then st_ret (status, [])
        else
          let out := fill 10 0 in
          let out := out.[0 <- fi_type info] in
          let out := out.[1 <- fi_attributes info] in
          st_ret (FS_OK, put64 out 2 (if fi_type info =? BVSTK_FS_ENTRY_DIR then 0 else fi_size info))
  end.

(** The search of OPEN: [inl] returns, [inr] is the slot that was found, [best] the
    first free slot so far. *)
Fixpoint find_slot (n : nat) (i : Z) (hs : list handle) (open_id kind flags requested : Z) (path : chars) (best : option Z)
    : Z + option Z :=
  match n with
  | O => inr best
  | S n =>
      let h := hs.[i] in
      if negb (fh_handle h =? 0) && (fh_open_id h =? open_id) then
        if negb (rd_kind (fh_reader h) =? kind) || negb (rd_flags (fh_reader h) =? flags) ||
           negb (fh_requested_block_size h =? requested) || negb (streq (rd_root (fh_reader h)) path) then inl FS_MALFORMED
        else inr (Some i)
      else
        find_slot n (i + 1) hs open_id kind flags requested path
          (if (fh_handle h =? 0) && match best with None => true | Some _ => false end then Some i else best)
  end.

(** A free slot is given a reader; the result is the status. *)
Definition open_slot (b : bvstk_fs_backend_t X) (n open_id kind flags requested : Z) (path : chars) : ST slot_state Z :=
  let! rc := on_reader (bvstk_fs_reader_open true (Some b) (Some path) kind flags) in
  let status := wire_status rc in
  if negb (status =? 0) then edit_slot (fun _ => zero_handle) ;; st_ret status
  else
    edit_slot (with_opened n open_id requested (if requested =? 0 then BVSTK_DCP2_FS_BLOCK_MAX else requested)) ;;
    st_ret FS_OK.

Definition open_reply (h : handle) : chars :=
  let out := bvstk_dcp2_write_be32 (fill 14 0) 0 (fh_handle h) in
  let out := bvstk_dcp2_write_be16 out 4 (fh_block_size h) in
  put64 out 6 (rd_total_size (fh_reader h)).

Definition open_response (b : bvstk_fs_backend_t X) (body : chars) (now capacity : Z) : ST fs_state (Z * chars) :=
  let size := alen body in
  let open_id := bvstk_dcp2_read_be32 (Some body) 0 in
  let requested := bvstk_dcp2_read_be16 (Some body) 6 in
  let kind := body.[4] in
  let flags := body.[5] in
  if size <? 10 then st_ret (FS_MALFORMED, [])
  else if capacity <? 14 then st_ret (FS_INTERNAL, [])
  else if open_id =? 0 then st_ret (FS_MALFORMED, [])
  else if BVSTK_DCP2_FS_BLOCK_MAX <? requested then st_ret (FS_RANGE, [])
  else if (kind <? BVSTK_FS_FILE) || (BVSTK_FS_TAR <? kind) then st_ret (FS_UNSUPPORTED, [])
  else if negb (kind =? BVSTK_FS_TREE) && negb (flags =? 0) || negb (Z.ldiff flags BVSTK_FS_RECURSIVE =? 0) then
    st_ret (FS_MALFORMED, [])
  else
    match parse_path (drop 8 body) with
    | inl status => st_ret (status, [])
    | inr path =>
        let! s := look_session in
        match find_slot (Z.to_nat BVSTK_DCP2_FS_HANDLES_MAX) 0 (fs_handles s) open_id kind flags requested path None with
        | inl status => st_ret (status, [])
        | inr None => st_ret (FS_BUSY, [])
        | inr (Some i) =>
            if fs_next_handle s =? 0 then st_ret (FS_BUSY, [])
            else
              let! status :=
                (if fh_handle ((fs_handles s).[i]) =? 0 then
                   let! status := on_slot i (open_slot b (fs_next_handle s) open_id kind flags requested path) in
                   (if status =? 0 then st_mod (fun s => (FsSession (fs_backend s.1) (u32 (fs_next_handle s.1 + 1)) (fs_handles s.1), s.2))
                    else st_ret tt) ;;
                   st_ret status
                 else st_ret FS_OK) in
              if negb (status =? 0) then st_ret (status, [])
              else
                let! h := on_slot i (edit_slot (with_activity now) ;; look_slot) in
                st_ret (FS_OK, open_reply h)
        end
    end.

(** The first part of READ: the status after the block is in [cached]. *)
Definition cache_block (block : Z) : ST slot_state (option Z) :=
  let! h := look_slot in
  if fh_has_block h && (block =? fh_last_block h) then st_ret (Some FS_OK)
  else if negb (fh_has_block h) && negb (block =? 0) ||
          fh_has_block h && (fh_eof h || (fh_last_block h =? UINT32_MAX) || negb (block =? u32 (fh_last_block h + 1))) then
    st_ret (Some FS_RANGE)
  else
    let? (rc, bytes, eof) := on_reader (bvstk_fs_reader_read true true (fh_block_size h) true true) in
    let status := wire_status rc in
    if negb (status =? 0) then
      let status := if status =? FS_BUSY then BVSTK_DCP2_FS_IO_ERROR else status in
      edit_slot (with_terminal status) ;; st_ret (Some status)
    else
      edit_slot (with_block block (u16 (alen bytes)) eof bytes) ;; st_ret (Some FS_OK).

Definition read_reply (h : handle) (block : Z) : chars :=
  let out := bvstk_dcp2_write_be32 (fill 12 0) 0 (fh_handle h) in
  let out := bvstk_dcp2_write_be32 out 4 block in
  let out := out.[8 <- if fh_eof h then BVSTK_DCP2_FS_EOF else 0] in
  let out := out.[9 <- 0] in
  let out := bvstk_dcp2_write_be16 out 10 (fh_cached_size h) in
  out ++ prefix (fh_cached_size h) (fh_cached h).

Definition read_response (block capacity : Z) : ST slot_state (option (Z * chars)) :=
  let! h := look_slot in
  if capacity <? fh_block_size h + 12 then st_ret (Some (FS_INTERNAL, []))
  else if negb (fh_terminal_status h =? 0) then st_ret (Some (fh_terminal_status h, []))
  else
    let? status := cache_block block in
    if negb (status =? 0) then st_ret (Some (status, []))
    else let! h := look_slot in st_ret (Some (FS_OK, read_reply h block)).

(** The loop over the handles of READ and CLOSE, from slot [i] on. *)
Fixpoint handle_loop (n : nat) (i : Z) (opcode handle : Z) (body : chars) (now capacity : Z) : ST fs_state (option (Z * chars)) :=
  match n with
  | O => st_ret (Some (if opcode =? BVSTK_DCP2_FS_CLOSE then FS_OK else BVSTK_DCP2_FS_BAD_HANDLE, []))
  | S n =>
      let! s := look_session in
      if negb (fh_handle ((fs_handles s).[i]) =? handle) then handle_loop n (i + 1) opcode handle body now capacity
      else if opcode =? BVSTK_DCP2_FS_CLOSE then on_slot i close_handle ;; st_ret (Some (FS_OK, []))
      else on_slot i (edit_slot (with_activity now) ;; read_response (bvstk_dcp2_read_be32 (Some body) 4) capacity)
  end.

(** [session], [body_given], [out] and [out_size] tell whether the pointers are
    set. *)
Definition bvstk_dcp2_fs_request (session : bool) (opcode : Z) (body_given : bool) (body : chars) (now : Z) (out : bool)
    (capacity : Z) (out_size : bool) : ST fs_state (option (Z * chars)) :=
  let! s := look_session in
  match fs_backend s with
  | None => st_ret (Some (FS_INTERNAL, []))
  | Some b =>
      if negb session || negb out || negb out_size || negb body_given && negb (alen body =? 0) then st_ret (Some (FS_INTERNAL, []))
      else
        bvstk_dcp2_fs_expire now ;;
        (let answer (m : ST fs_state (Z * chars)) := let! a := m in st_ret (Some a) in
         if opcode =? BVSTK_DCP2_FS_INFO then
           if negb (alen body =? 0) then st_ret (Some (FS_MALFORMED, [])) else answer (info_response b capacity)
         else if opcode =? BVSTK_DCP2_FS_STAT then answer (stat_response b body capacity)
         else if opcode =? BVSTK_DCP2_FS_OPEN then answer (open_response b body now capacity)
         else if negb (opcode =? BVSTK_DCP2_FS_READ) && negb (opcode =? BVSTK_DCP2_FS_CLOSE) then st_ret (Some (FS_UNSUPPORTED, []))
         else if negb (alen body =? if opcode =? BVSTK_DCP2_FS_READ then 8 else 4) then st_ret (Some (FS_MALFORMED, []))
         else
           let handle := bvstk_dcp2_read_be32 (Some body) 0 in
           if handle =? 0 then st_ret (Some (BVSTK_DCP2_FS_BAD_HANDLE, []))
           else handle_loop (Z.to_nat BVSTK_DCP2_FS_HANDLES_MAX) 0 opcode handle body now capacity)
  end.
End session.
