(* ===== verification/Dcp2FsSafety.v ===== *)
(** * Dcp2FsSafety: blocks of a stream, whatever is asked

    The invariant of a session of [Dcp2Fs] over a backend with the laws of
    [FsStream]: which handles each slot holds, and which block of its stream it
    keeps.  A ledger of the openings that were answered ties the blocks that are
    read to the paths that were opened. *)
From stdpp Require Import prelude gmap.
From Stdlib Require Import ZArith Lia.
From Stdlib Require String.
Import String.StringSyntax.
From S2P Require Import Prelude Text JsonGrammar FsPath FsReader FsStream FsReaderSafety FsTransfer Dcp2Codec Dcp2Fs.
Local Open Scope Z_scope.

(** ** Handles of two owners *)

Lemma owns_swap {A} (l k : list (Z * A)) frame m :
  owns l (list_to_map k ∪ frame) m -> NoDup k.*1 -> (list_to_map k : gmap Z A) ##ₘ frame ->
  owns k (list_to_map l ∪ frame) m.
Proof.
  intros (-> & Hn & Hd) Hk Hf. apply map_disjoint_union_r in Hd as [Hlk Hlf]. split; [|split; [done|]].
  - rewrite !(assoc_L (∪)). by rewrite (map_union_comm (list_to_map l)).
  - apply map_disjoint_union_r. by split.
Qed.

Lemma owns_beside {A} (k l : list (Z * A)) frame m :
  owns k (list_to_map l ∪ frame) m -> NoDup k.*1 /\ (list_to_map k : gmap Z A) ##ₘ frame.
Proof. intros (_ & Hn & Hd). by apply map_disjoint_union_r in Hd as [_ Hd]. Qed.

(** ** What can be delivered is decidable, and a backend may be trusted less *)

#[export] Instance listing_eq_dec : EqDecision listing.
Proof. solve_decision. Defined.
#[export] Instance object_eq_dec : EqDecision object.
Proof. solve_decision. Defined.

#[export] Instance present_dec T deep k dir l : Decision (present T deep k dir l).
Proof.
  revert k dir. induction l as [|n c st rest IH|n inside IH1 rest IH2]; intros k dir; cbn [present]; [apply _| |].
  - unfold good_name. apply _.
  - assert (Decision (deep = true -> match k with O => False | S k => present T deep k (child dir n) inside end)) as Hd.
    { destruct deep; [|by left]. destruct k as [|k]; [right; by intros []|]. destruct (IH1 k (child dir n)); [by left|right; tauto]. }
    unfold good_name. apply _.
Defined.

#[export] Instance servable_dec T kind flags root o : Decision (servable T kind flags root o).
Proof. unfold servable. destruct o; apply _. Defined.

Lemma served_or_not T kind flags root : (exists o, servable T kind flags root o) \/ forall o, ~ servable T kind flags root o.
Proof.
  destruct (T root) as [o|] eqn:E; [destruct (decide (servable T kind flags root o)); [left; by exists o|]|];
    right; intros o' Hs; pose proof Hs as [Ho _]; [|congruence].
  assert (o' = o) as -> by congruence. tauto.
Qed.

Lemma serves_doubted {X} (b : bvstk_fs_backend_t X) files dirs T wrong fails :
  Serves b files dirs T wrong fails -> Serves b files dirs T True fails.
Proof.
  intros [L1 L2 L3 L4 L5 L6 L7 L8 L9]. split; [exact L1|exact L2| | | |exact L6| | |exact L9].
  - intros p x. eapply runs_mono; [apply L3|]. intros [rc info] x' (? & ? & ?). unfold excused. destruct (fs_ok rc); tauto.
  - intros p x. eapply runs_mono; [apply L4|]. intros [[rc h] size] x' [? H]. unfold excused. destruct (fs_ok rc); [|tauto].
    destruct H as (? & ? & ? & c & ? & _). split; [done|]. do 3 (split; [done|]). exists c. tauto.
  - intros h n x c Hh Hn. eapply runs_mono; [by apply L5|]. intros [rc bytes] x' (? & c' & ? & _). unfold excused.
    split; [done|]. exists c'. destruct (fs_ok rc); tauto.
  - intros p x. eapply runs_mono; [apply L7|]. intros [rc h] x' [? H]. unfold excused. destruct (fs_ok rc); [|tauto].
    destruct H as (? & l & ? & _). split; [done|]. split; [done|]. exists l. tauto.
  - intros h n x l Hh. eapply runs_mono; [by apply L8|]. intros [[rc name] info] x' (? & l' & ? & _). unfold excused.
    split; [done|]. exists l'. destruct (fs_ok rc); tauto.
Qed.

(** ** Bytes of requests and replies *)

Lemma byte_get (l : chars) i : Forall byte l -> fits 8 (l.[i]).
Proof.
  intros Hl. unfold aget. destruct (lt_dec (Z.to_nat i) (length l)) as [Hi|Hi].
  - rewrite Forall_forall in Hl. destruct (lookup_lt_is_Some_2 _ _ Hi) as [c Hc].
    rewrite (list_lookup_total_correct _ _ _ Hc). apply (Hl c). by eapply list_elem_of_lookup_2.
  - rewrite list_lookup_total_alt, (proj2 (lookup_ge_None _ _)) by lia. by cbn.
Qed.

Lemma read_be32_range (l : chars) o : Forall byte l -> 0 <= bvstk_dcp2_read_be32 (Some l) o <= UINT32_MAX.
Proof.
  intros Hl. pose proof (byte_get l o Hl) as H0. pose proof (byte_get l (o + 1) Hl) as H1.
  pose proof (byte_get l (o + 2) Hl) as H2. pose proof (byte_get l (o + 3) Hl) as H3.
  rewrite read_be32_value by (intros; by apply byte_get). unfold fits, UINT32_MAX in *. change (2 ^ 8) with 256 in *. lia.
Qed.

Lemma read_be16_range (l : chars) o : 0 <= bvstk_dcp2_read_be16 (Some l) o <= 65535.
Proof. unfold bvstk_dcp2_read_be16. pose proof (u16_range (Z.lor (Z.shiftl (l.[o]) 8) (l.[o + 1]))). lia. Qed.

Lemma u8_fits z : fits 8 (u8 z).
Proof. apply u8_range. Qed.

Section open_reply.
Context {X : Type} (h : bvstk_dcp2_fs_handle_t X).
Context (Hh : 0 <= fh_handle h <= UINT32_MAX) (Hb : 0 <= fh_block_size h <= 65535).

Lemma open_reply_handle : bvstk_dcp2_read_be32 (Some (open_reply h)) 0 = fh_handle h.
Proof.
  assert (forall i, 0 <= i < 4 -> (open_reply h).[i] = u8 (Z.shiftr (fh_handle h) (24 - 8 * i))) as Hget.
  { intros i Hi. assert (i = 0 \/ i = 1 \/ i = 2 \/ i = 3) as [-> | [-> | [-> | ->]]] by lia; [reflexivity..|].
    change (24 - 8 * 3) with 0. rewrite Z.shiftr_0_r. reflexivity. }
  rewrite read_be32_value by (intros k Hk; rewrite Hget by lia; apply u8_fits). rewrite !Hget by lia.
  unfold u8, wrap, UINT32_MAX in *. rewrite !Z.shiftr_div_pow2 by lia. cbn [Z.mul Z.add Z.sub Z.opp Z.pos_sub Pos.mul Pos.pred_double Pos.add].
  change (2 ^ 8) with 256. change (2 ^ 0) with 1. rewrite Z.div_1_r. Z.to_euclidean_division_equations. lia.
Qed.

Lemma open_reply_block : bvstk_dcp2_read_be16 (Some (open_reply h)) 4 = fh_block_size h.
Proof.
  assert ((open_reply h).[4] = u8 (Z.shiftr (fh_block_size h) 8) /\ (open_reply h).[4 + 1] = u8 (fh_block_size h)) as [E1 E2] by done.
  rewrite read_be16_value by (rewrite ?E1, ?E2; apply u8_fits). rewrite E1, E2.
  unfold u8, wrap. rewrite Z.shiftr_div_pow2 by lia. change (2 ^ 8) with 256. Z.to_euclidean_division_equations. lia.
Qed.
End open_reply.

Lemma validated_text data capacity p : bvstk_fs_validate_path data capacity = inr p -> cstr p <> [].
Proof.
  unfold bvstk_fs_validate_path. destruct data as [|c data]; [done|]. destruct (_ =? 0); [done|]. destruct (_ || _); [done|].
  cbn [find_colon]. destruct (c =? 58); [done|]. destruct (volume_char c) eqn:Ec; cbn [negb]; [|done].
  rewrite find_colon_shift. destruct (find_colon data 0) as [n|] eqn:En; cbn; [|done].
  apply find_colon_sound in En as (vol & rest & Hn & _). pose proof (alen_nonneg vol).
  destruct (_ || _) eqn:E; [done|]. apply orb_false_iff in E as [E _]. apply orb_false_iff in E as [_ E]. bsimp.
  destruct (negb _); [done|]. set (size := if _ : bool then _ else _). assert (0 < size) as Hs by (subst size; case_match; lia).
  intros [= <-]. unfold prefix. replace (Z.to_nat size) with (S (Z.to_nat (size - 1))) by lia. cbn.
  assert ((c =? 0) = false) as -> by (apply Z.eqb_neq; intros ->; done). done.
Qed.

Lemma parsed_text body p : parse_path body = inr p -> cstr p <> [].
Proof.
  unfold parse_path. destruct (_ <? _); [done|]. destruct (negb _); [done|].
  destruct (bvstk_fs_validate_path _ _) eqn:E; [done|]. intros [= ->]. by eapply validated_text.
Qed.

Section rules.
Context {X : Type}.

Lemma runs_on_slot {A} i (m : ST (slot_state (X := X)) A) s Q :
  runs m ((fs_handles s.1).[i], s.2) (fun a s' =>
    Q a (FsSession (fs_backend s.1) (fs_next_handle s.1) ((fs_handles s.1).[i <- s'.1]), s'.2)) ->
  runs (on_slot i m) s Q.
Proof. unfold runs, on_slot. by destruct (m _) as [a [h x]]. Qed.

Lemma runs_on_reader {A} (m : ST (bvstk_fs_reader_t X * X) A) s Q :
  runs m (fh_reader s.1, s.2) (fun a s' => Q a (with_reader s'.1 s.1, s'.2)) -> runs (on_reader m) s Q.
Proof. unfold runs, on_reader. by destruct (m _) as [a [h x]]. Qed.

Lemma runs_edit_slot (f : bvstk_dcp2_fs_handle_t X -> bvstk_dcp2_fs_handle_t X) s Q : Q tt (f s.1, s.2) -> runs (edit_slot f) s Q.
Proof. done. Qed.

Lemma runs_look_slot (s : slot_state (X := X)) Q : Q s.1 s -> runs look_slot s Q.
Proof. done. Qed.

Lemma runs_ask {A} (m : ST X A) (s : fs_state (X := X)) Q : runs m s.2 (fun a x => Q a (s.1, x)) -> runs (ask m) s Q.
Proof. unfold runs, ask. by destruct (m _). Qed.
End rules.

(** ** Sequences of requests *)

Record fs_call : Type := FsCall { fc_opcode : Z; fc_body : chars; fc_now : Z; fc_capacity : Z }.

Definition well_formed (c : fs_call) : Prop := Forall byte (fc_body c) /\ 0 <= fc_capacity c.

Section serve.
Context {X : Type}.

Fixpoint serve (calls : list fs_call) : ST (fs_state (X := X)) (option (list (Z * chars))) :=
  match calls with
  | [] => st_ret (Some [])
  | c :: calls =>
      let? answer := bvstk_dcp2_fs_request true (fc_opcode c) true (fc_body c) (fc_now c) true (fc_capacity c) true in
      let? answers := serve calls in
      st_ret (Some (answer :: answers))
  end.

(** A session from its start to its end. *)
Definition serve_and_destroy (b : bvstk_fs_backend_t X) (calls : list fs_call) (x : X)
    : option (list (Z * chars)) * fs_state (X := X) :=
  (let? answers := serve calls in bvstk_dcp2_fs_destroy ;; st_ret (Some answers)) (bvstk_dcp2_fs_init (Some b), x).
End serve.

(** ** Slots *)

(** What a client was told when a stream was opened. *)
Record opening : Type := Opening {
  op_handle : Z;
  op_kind : Z;
  op_flags : Z;
  op_root : chars;
  op_block : Z
}.

Definition opening_of {X} (h : bvstk_dcp2_fs_handle_t X) : opening :=
  Opening (fh_handle h) (rd_kind (fh_reader h)) (rd_flags (fh_reader h)) (cstr (rd_root (fh_reader h))) (fh_block_size h).

Section session.
Context {X : Type} (b : bvstk_fs_backend_t X).
Context (files : X -> gmap Z chars) (dirs : X -> gmap Z listing).
Context (T : chars -> option object) (wrong fails : Prop).
Context `{Hserves : !Serves b files dirs T wrong fails}.

Abbreviation handle := (bvstk_dcp2_fs_handle_t X).
Implicit Types (h : handle) (x : X) (SF : list (Z * chars)) (SD : list (Z * listing)) (F : gmap Z chars) (D : gmap Z listing).

Abbreviation kind h := (op_kind (opening_of h)).
Abbreviation flags h := (op_flags (opening_of h)).
Abbreviation root h := (op_root (opening_of h)).
Abbreviation sound_at h := (sound b (kind h) (flags h) (base_of (root h)) (root_buffer (root h))).
Abbreviation live_at F D h := (live b files dirs (kind h) (flags h) (base_of (root h)) (root_buffer (root h)) F D (fh_reader h)).
Abbreviation closed_at F D h := (closed b files dirs (kind h) (flags h) (base_of (root h)) (root_buffer (root h)) F D (fh_reader h)).

(** The stream up to the block that is kept, that block, and the rest. *)
Definition kept h : chars := if fh_has_block h then fh_cached h else [].

Definition follows h SF SD (before rest : chars) : Prop :=
  incoming T (kind h) (flags h) (base_of (root h)) (fh_reader h) SF SD rest /\
  if fh_has_block h then
    alen before = fh_last_block h * fh_block_size h /\
    if fh_eof h then rest = [] else alen (fh_cached h) = fh_block_size h /\ (kind h <> BVSTK_FS_TREE -> rest <> [])
  else before = [].

Definition positioned h SF SD : Prop :=
  wrong \/ forall o, servable T (kind h) (flags h) (root h) o -> exists before rest,
    stream_of (kind h) (flags h) (root h) o = before ++ kept h ++ rest /\ follows h SF SD before rest.

Record busy F D h SF SD x : Prop := {
  bu_handle : fh_handle h <> 0;
  bu_kind : BVSTK_FS_FILE <= kind h <= BVSTK_FS_TAR;
  bu_block : 0 < fh_block_size h <= BVSTK_DCP2_FS_BLOCK_MAX;
  bu_kept : fh_has_block h = true ->
    fh_cached_size h = alen (fh_cached h) /\ alen (fh_cached h) <= fh_block_size h /\ 0 <= fh_last_block h <= UINT32_MAX;
  bu_reader :
    if fh_terminal_status h =? 0 then live_at F D h SF SD x /\ positioned h SF SD
    else SF = [] /\ SD = [] /\ closed_at F D h x /\ forall o, servable T (kind h) (flags h) (root h) o -> excused wrong fails
}.

Inductive slot_ok F D h SF SD x : Prop :=
  | SlotFree : h = zero_handle -> SF = [] -> SD = [] -> files x = F -> dirs x = D -> slot_ok F D h SF SD x
  | SlotBusy : busy F D h SF SD x -> slot_ok F D h SF SD x.

Lemma busy_holding F D h SF SD x : busy F D h SF SD x ->
  sound_at h (fh_reader h) /\ holding files dirs F D (fh_reader h) SF SD x.
Proof.
  intros [_ _ _ _ Hr]. destruct (_ =? 0); [by destruct Hr as [[Hs Hh _ _] _]|].
  destruct Hr as (-> & -> & (Hs & Hh & _) & _). done.
Qed.

Lemma slot_owns F D h SF SD x : slot_ok F D h SF SD x -> owns SF F (files x) /\ owns SD D (dirs x).
Proof.
  intros [_ -> -> <- <-|Hb]; [split; apply owns_nil|]. apply busy_holding in Hb as [_ Hh]. by destruct Hh.
Qed.

Lemma slot_move F D F' D' h SF SD x x' :
  slot_ok F D h SF SD x -> owns SF F' (files x') -> owns SD D' (dirs x') -> slot_ok F' D' h SF SD x'.
Proof.
  intros [-> -> -> _ _|[H1 H2 H3 H4 H5]] Hf Hd.
  - apply SlotFree; try done; by apply owns_nil_inv.
  - apply SlotBusy. split; try done. destruct (_ =? 0).
    + destruct H5 as [[Hs Hh Hsh Hr] Hp]. split; [|done]. split; try done. by destruct Hh; split.
    + destruct H5 as (-> & -> & (Hs & Hh & Hp) & He). split; [done|]. split; [done|]. split; [|done]. split; [done|]. split; [|done]. by destruct Hh; split.
Qed.

(** Operations on a slot keep its opening or free it. *)
Definition same_opening h h' : Prop := h' = zero_handle \/ opening_of h' = opening_of h.

Definition slot_after F D h (s' : slot_state (X := X)) : Prop :=
  same_opening h s'.1 /\ exists SF SD, slot_ok F D s'.1 SF SD s'.2.

Lemma close_handle_spec F D h SF SD x :
  slot_ok F D h SF SD x -> runs close_handle (h, x) (fun _ s' => s'.1 = zero_handle /\ slot_ok F D zero_handle [] [] s'.2).
Proof.
  intros Hs. unfold close_handle. apply runs_bind, runs_look_slot. cbn [fst]. apply runs_bind.
  destruct Hs as [-> -> -> Hf Hd|Hb].
  - apply runs_ret, runs_edit_slot. split; [done|]. by apply SlotFree.
  - rewrite (proj2 (Z.eqb_neq _ _) (bu_handle _ _ _ _ _ _ Hb)). apply runs_on_reader. cbn [fst snd].
    apply busy_holding in Hb as [Hs Hh]. unfold bvstk_fs_reader_close. fs_steps. rewrite (so_backend _ _ _ _ _ _ Hs).
    eapply runs_mono; [by eapply (reader_close_spec b files dirs T wrong fails)|].
    intros [] [r' x'] (_ & Hh' & _). apply runs_edit_slot. split; [done|].
    destruct Hh' as [h1 h2 _ _ _ _]. apply owns_nil_inv in h1, h2. by apply SlotFree.
Qed.

Lemma expire_slot_spec now F D h SF SD x :
  slot_ok F D h SF SD x -> runs (expire_slot now) (h, x) (fun _ => slot_after F D h).
Proof.
  intros Hs. unfold expire_slot. apply runs_bind, runs_look_slot. cbn [fst]. destruct (_ && _).
  - eapply runs_mono; [by eapply close_handle_spec|]. intros _ [h' x'] [Hh Hs']. cbn [fst snd] in *. subst h'.
    split; [by left|]. eauto.
  - apply runs_ret. split; [by right|]. eauto.
Qed.

(** ** Opening *)

Lemma cstr_root_buffer (p : chars) : cstr (root_buffer (cstr p)) = cstr p.
Proof.
  unfold root_buffer, write_at. rewrite prefix_0. cbn [app]. rewrite <- app_assoc. cbn [app]. apply cstr_text.
  induction p as [|c p IH]; cbn; [apply not_elem_of_nil|]. destruct (c =? 0) eqn:E; [apply not_elem_of_nil|]. bsimp.
  apply not_elem_of_cons. split; [congruence|done].
Qed.

Lemma wire_status_ok rc : (wire_status rc =? 0) = fs_ok rc.
Proof. by destruct rc. Qed.

Lemma reader_open_any kind flags path F D r0 x :
  files x = F -> dirs x = D -> cstr path <> [] ->
  let base := base_of (cstr path) in
  let cells := root_buffer (cstr path) in
  runs (bvstk_fs_reader_open true (Some b) (Some path) kind flags) (r0, x) (fun rc s' =>
    if fs_ok rc then
      BVSTK_FS_FILE <= kind <= BVSTK_FS_TAR /\
      exists SF SD, live b files dirs kind flags base cells F D s'.1 SF SD s'.2 /\
        (wrong \/ forall o, servable T kind flags (cstr path) o ->
           incoming T kind flags base s'.1 SF SD (stream_of kind flags (cstr path) o))
    else files s'.2 = F /\ dirs s'.2 = D /\ forall o, servable T kind flags (cstr path) o -> excused wrong fails).
Proof.
  intros Hf Hd Hne base cells. destruct (served_or_not T kind flags (cstr path)) as [[o Ho]|Hnone].
  - eapply runs_mono; [apply (reader_open_spec b files dirs T wrong fails kind flags base cells F D r0 x path (cstr path) o); try done; by right|].
    intros rc s' H. unfold opened in H. destruct (fs_ok rc); [|tauto]. destruct H as (Hk & SF & SD & Hl & Hi).
    split; [done|]. exists SF, SD. split; [done|]. destruct Hi as [Hi|Hi]; [by left|]. right. intros o' Ho'.
    assert (o' = o) as -> by (destruct Ho as [? _], Ho' as [? _]; congruence). done.
  - pose proof (serves_doubted _ _ _ _ _ _ Hserves) as Hany.
    eapply runs_mono; [apply (reader_open_spec b files dirs T True fails kind flags base cells F D r0 x path (cstr path) (ODir End)); try done; by left|].
    intros rc s' H. unfold opened in H. destruct (fs_ok rc).
    + destruct H as (Hk & SF & SD & Hl & _). split; [done|]. exists SF, SD. split; [done|]. right. intros o Ho. by destruct (Hnone o).
    + destruct H as (? & ? & _). split; [done|]. split; [done|]. intros o Ho. by destruct (Hnone o).
Qed.

Definition block_size (requested : Z) : Z := if requested =? 0 then BVSTK_DCP2_FS_BLOCK_MAX else requested.

Lemma open_slot_spec n open_id kind flags requested path F D x :
  files x = F -> dirs x = D -> cstr path <> [] -> n <> 0 -> 0 <= requested <= BVSTK_DCP2_FS_BLOCK_MAX ->
  runs (open_slot b n open_id kind flags requested path) (zero_handle, x) (fun status s' =>
    (exists SF SD, slot_ok F D s'.1 SF SD s'.2) /\
    if status =? 0 then opening_of s'.1 = Opening n kind flags (cstr path) (block_size requested)
    else s'.1 = zero_handle /\ forall o, servable T kind flags (cstr path) o -> excused wrong fails).
Proof.
  intros Hf Hd Hne Hn Hreq. unfold open_slot. apply runs_bind, runs_on_reader. cbn [fst snd].
  eapply runs_mono; [by apply reader_open_any|]. intros rc [r' x'] H. rewrite wire_status_ok. cbn [fst snd] in H.
  destruct (fs_ok rc) eqn:Erc; cbn [negb].
  - destruct H as (Hk & SF & SD & Hl & Hi). apply runs_bind, runs_edit_slot, runs_ret. cbn [fst snd].
    destruct Hl as [Hs Hh Hsh Hr]. pose proof Hs as [_ s2 s3 _ s4 _ _ _ _ _ _].
    assert (forall h : handle, fh_reader h = r' -> fh_handle h = n -> fh_block_size h = block_size requested ->
      opening_of h = Opening n kind flags (cstr path) (block_size requested)) as Hop.
    { intros h <- <- Hb. unfold opening_of. by rewrite s2, s3, s4, cstr_root_buffer, Hb. }
    set (h := with_opened _ _ _ _ _). specialize (Hop h eq_refl eq_refl eq_refl). split; [|exact Hop].
    exists SF, SD. apply SlotBusy. split; rewrite ?Hop; cbn [op_kind op_flags op_root op_block].
    + done.
    + done.
    + change (fh_block_size h) with (block_size requested). unfold block_size, BVSTK_DCP2_FS_BLOCK_MAX in *. case_match; bsimp; lia.
    + done.
    + split; [by split|]. unfold positioned, follows, kept. rewrite Hop. cbn [op_kind op_flags op_root op_block].
      destruct Hi as [Hi|Hi]; [by left|]. right. intros o Ho. exists [], (stream_of kind flags (cstr path) o).
      split; [done|]. split; [by apply Hi|done].
  - destruct H as (Hf' & Hd' & He). apply runs_bind, runs_edit_slot, runs_ret. cbn [fst snd].
    rewrite <- wire_status_ok in Erc. rewrite Erc. split; [|done]. exists [], []. by apply SlotFree.
Qed.

(** ** Reading *)

Lemma read_any F D h SF SD x :
  busy F D h SF SD x -> fh_terminal_status h = 0 ->
  let base := base_of (root h) in
  let cells := root_buffer (root h) in
  runs (bvstk_fs_reader_read true true (fh_block_size h) true true) (fh_reader h, x) (fun res s' =>
    exists rc out eof, res = Some (rc, out, eof) /\ alen out <= fh_block_size h /\
    if fs_ok rc then
      exists SF' SD', live b files dirs (kind h) (flags h) base cells F D s'.1 SF' SD' s'.2 /\
        (wrong \/ forall o, servable T (kind h) (flags h) (root h) o -> exists before rest,
           stream_of (kind h) (flags h) (root h) o = before ++ kept h ++ out ++ rest /\
           follows h SF SD before (out ++ rest) /\
           incoming T (kind h) (flags h) base s'.1 SF' SD' rest /\
           if eof : bool then rest = [] else alen out = fh_block_size h /\ (kind h <> BVSTK_FS_TREE -> rest <> []))
    else closed b files dirs (kind h) (flags h) base cells F D s'.1 s'.2 /\
      forall o, servable T (kind h) (flags h) (root h) o -> excused wrong fails).
Proof.
  intros Hb Ht base cells. pose proof (bu_reader _ _ _ _ _ _ Hb) as Hr. rewrite Ht in Hr. cbn [Z.eqb] in Hr. destruct Hr as [Hl Hp].
  pose proof (bu_block _ _ _ _ _ _ Hb) as Hbs. pose proof (bu_kind _ _ _ _ _ _ Hb) as Hk.
  assert (0 <= base) as H0 by (unfold base, base_of; pose proof (alen_nonneg (root h)); case_match; lia).
  assert (0 < fh_block_size h) as Hpos by lia. pose proof (serves_doubted _ _ _ _ _ _ Hserves) as Hany.
  destruct (served_or_not T (kind h) (flags h) (root h)) as [[o Ho]|Hnone].
  - destruct Hp as [Hw|Hp].
    + eapply runs_mono; [apply (reader_read_spec b files dirs T wrong fails (kind h) (flags h) base cells F D _ x SF SD _ [] Hl); try done; by left|].
      intros res s' (rc & out & eof & -> & Hle & H). exists rc, out, eof. split; [done|]. split; [done|]. destruct (fs_ok rc); [|by destruct H].
      destruct H as (SF' & SD' & Hl' & _). exists SF', SD'. split; [done|]. by left.
    + destruct (Hp o Ho) as (before & rest & Hst & Hf).
      eapply runs_mono; [apply (reader_read_spec b files dirs T wrong fails (kind h) (flags h) base cells F D _ x SF SD _ rest Hl); try done; right; by destruct Hf|].
      intros res s' (rc & out & eof & -> & Hle & H). exists rc, out, eof. split; [done|]. split; [done|]. destruct (fs_ok rc); [|by destruct H].
      destruct H as (SF' & SD' & Hl' & Heof & [Hw|(rest' & -> & Hi & He)]); exists SF', SD'; (split; [done|]); [by left|]. right.
      intros o' Ho'. assert (o' = o) as -> by (destruct Ho as [? _], Ho' as [? _]; congruence). exists before, rest'. by destruct eof.
  - eapply runs_mono; [apply (reader_read_spec b files dirs T True fails (kind h) (flags h) base cells F D _ x SF SD _ [] Hl); try done; by left|].
    intros res s' (rc & out & eof & -> & Hle & H). exists rc, out, eof. split; [done|]. split; [done|]. destruct (fs_ok rc).
    + destruct H as (SF' & SD' & Hl' & _). exists SF', SD'. split; [done|]. right. intros o Ho. by destruct (Hnone o).
    + destruct H as [H _]. split; [done|]. intros o Ho. by destruct (Hnone o).
Qed.

(** A block is asked for out of order. *)
Definition out_of_order h (block : Z) : bool :=
  negb (fh_has_block h && (block =? fh_last_block h)) &&
  (negb (fh_has_block h) && negb (block =? 0) ||
   fh_has_block h && (fh_eof h || (fh_last_block h =? UINT32_MAX) || negb (block =? u32 (fh_last_block h + 1)))).

Lemma next_block_number h block : 0 <= fh_last_block h <= UINT32_MAX ->
  fh_has_block h && (block =? fh_last_block h) = false -> out_of_order h block = false ->
  if fh_has_block h then block = fh_last_block h + 1 /\ block <= UINT32_MAX /\ fh_eof h = false else block = 0.
Proof.
  unfold out_of_order, UINT32_MAX. intros Hl -> Ho. cbn [negb andb] in Ho. destruct (fh_has_block h); cbn [negb andb orb] in Ho.
  - apply orb_false_iff in Ho as [Ho Hn]. apply orb_false_iff in Ho as [He Hm]. bsimp.
    rewrite u32_id in Hn by lia. split; [done|]. split; [lia|done].
  - rewrite orb_false_r in Ho. by bsimp.
Qed.

Lemma cache_block_spec block F D h SF SD x :
  busy F D h SF SD x -> fh_terminal_status h = 0 -> 0 <= block <= UINT32_MAX ->
  runs (cache_block block) (h, x) (fun res s' => exists status, res = Some status /\
    opening_of s'.1 = opening_of h /\ (exists SF' SD', busy F D s'.1 SF' SD' s'.2) /\
    if status =? 0 then fh_terminal_status s'.1 = 0 /\ fh_has_block s'.1 = true /\ fh_last_block s'.1 = block
    else out_of_order h block = true \/ forall o, servable T (kind h) (flags h) (root h) o -> excused wrong fails).
Proof.
  intros Hb Ht Hblock. unfold cache_block. apply runs_bind, runs_look_slot. cbn [fst].
  destruct (fh_has_block h && (block =? fh_last_block h)) eqn:Ere.
  { apply runs_ret. exists FS_OK. apply andb_true_iff in Ere as [? ?]. bsimp. split; [done|]. split; [done|]. split; [eauto|done]. }
  assert (forall Q, (out_of_order h block = true -> runs (st_ret (Some FS_RANGE)) (h, x) Q) ->
    forall m, (out_of_order h block = false -> runs m (h, x) Q) ->
    runs (if negb (fh_has_block h) && negb (block =? 0) ||
             fh_has_block h && (fh_eof h || (fh_last_block h =? UINT32_MAX) || negb (block =? u32 (fh_last_block h + 1)))
          then st_ret (Some FS_RANGE) else m) (h, x) Q) as Hif.
  { unfold out_of_order. rewrite Ere. cbn [negb andb]. intros Q H1 m H2. destruct (_ || _); [by apply H1|by apply H2]. }
  apply Hif; clear Hif; intros Hord.
  { apply runs_ret. exists FS_RANGE. split; [done|]. split; [done|]. split; [eauto|]. by left. }
  apply runs_bind, runs_on_reader. cbn [fst snd]. eapply runs_mono; [by eapply read_any|].
  intros res [r' x'] (rc & out & eof & -> & Hle & H). cbn beta iota zeta. cbn [fst snd] in H. rewrite wire_status_ok.
  pose proof Hb as [b1 b2 b3 b4 _]. destruct (fs_ok rc) eqn:Erc; cbn [negb].
  - destruct H as (SF' & SD' & Hl & Hp). apply runs_bind, runs_edit_slot, runs_ret. exists FS_OK. cbn [fst snd].
    set (h' := with_block _ _ _ _ _).
    assert (opening_of h' = opening_of h) as Hop.
    { destruct Hl as [[_ s2 s3 _ s4 _ _ _ _ _ _] _ _ _]. unfold opening_of, h'. cbn. rewrite s2, s3, s4.
      unfold opening_of. cbn. by rewrite cstr_root_buffer. }
    split; [done|]. split; [done|]. split; [|by split]. exists SF', SD'. pose proof (alen_nonneg out).
    assert (u16 (alen out) = alen out) as Hu by (apply u16_id; unfold BVSTK_DCP2_FS_BLOCK_MAX in *; lia).
    split; rewrite ?Hop; [exact b1|exact b2|exact b3| |].
    + intros _. change (fh_cached_size h') with (u16 (alen out)). by rewrite Hu.
    + change (fh_terminal_status h') with (fh_terminal_status h). rewrite Ht. cbn [Z.eqb]. split; [done|].
      destruct Hp as [Hw|Hp]; [by left|]. right. rewrite Hop. intros o Ho. destruct (Hp o Ho) as (before & rest & Hst & Hf & Hi & Hend).
      exists (before ++ kept h), rest. unfold follows. rewrite Hop. change (kept h') with out. rewrite Hst, <- !app_assoc.
      split; [done|]. split; [done|]. change (fh_has_block h') with true. cbn iota. split; [|done].
      change (fh_block_size h') with (fh_block_size h). change (fh_last_block h') with block.
      rewrite alen_app. destruct Hf as [_ Hf]. unfold kept.
      destruct (fh_has_block h) eqn:Eh.
      * destruct (b4 eq_refl) as (_ & _ & Hlast). pose proof (next_block_number h block Hlast) as Hn. rewrite Eh in Hn.
        destruct (Hn Ere Hord) as (-> & _ & He). rewrite He in Hf. destruct Hf as (-> & -> & _). lia.
      * subst before. change (alen (@nil Z)) with 0. unfold out_of_order in Hord. rewrite Eh in Hord. cbn in Hord. bsimp. lia.
  - destruct H as [Hcl He]. apply runs_bind, runs_edit_slot, runs_ret. cbn [fst snd].
    set (st := if _ : bool then _ else _).
    assert (st <> 0) as Hst by (unfold st; rewrite <- wire_status_ok in Erc; bsimp; case_match; [done|done]).
    exists st. set (h' := with_terminal _ _).
    assert (opening_of h' = opening_of h) as Hop.
    { destruct Hcl as [[_ s2 s3 _ s4 _ _ _ _ _ _] _]. unfold opening_of, h'. cbn. rewrite s2, s3, s4.
      unfold opening_of. cbn. by rewrite cstr_root_buffer. }
    split; [done|]. split; [done|]. rewrite (proj2 (Z.eqb_neq _ _) Hst). split; [|by right].
    exists [], []. split; rewrite ?Hop; [exact b1|exact b2|exact b3|exact b4|]. change (fh_terminal_status h') with st. rewrite (proj2 (Z.eqb_neq _ _) Hst). done.
Qed.

(** ** The reply to READ *)

Lemma read_reply_parts h block :
  (read_reply h block).[8] = (if fh_eof h then BVSTK_DCP2_FS_EOF else 0) /\
  drop 12 (read_reply h block) = prefix (fh_cached_size h) (fh_cached h) /\
  alen (read_reply h block) = 12 + alen (prefix (fh_cached_size h) (fh_cached h)).
Proof.
  unfold read_reply. set (data := prefix _ _). set (eof := if fh_eof h then _ else _).
  split; [reflexivity|]. split; [reflexivity|]. rewrite alen_app. reflexivity.
Qed.

(** What a block of the stream of an opening is told as. *)
Definition block_told (e : opening) (block : Z) (reply : chars) : Prop :=
  forall o, servable T (op_kind e) (op_flags e) (op_root e) o ->
    let stream := stream_of (op_kind e) (op_flags e) (op_root e) o in
    drop 12 reply = cells stream (block * op_block e) (op_block e) /\
    if reply.[8] =? BVSTK_DCP2_FS_EOF then alen stream <= (block + 1) * op_block e
    else op_kind e <> BVSTK_FS_TREE -> (block + 1) * op_block e < alen stream.

Lemma reply_told F D h SF SD x block :
  busy F D h SF SD x -> fh_terminal_status h = 0 -> fh_has_block h = true -> fh_last_block h = block ->
  wrong \/ block_told (opening_of h) block (read_reply h block).
Proof.
  intros [_ _ Hbs Hk Hr] Ht Hh Hl. rewrite Ht in Hr. cbn [Z.eqb] in Hr. destruct Hr as [_ [Hw|Hp]]; [by left|]. right.
  intros o Ho. destruct (Hp o Ho) as (before & rest & Hst & Hi & Hf). unfold kept in Hst. rewrite Hh in Hst, Hf.
  destruct (Hk Hh) as (Hsize & Hle & Hlast). destruct (read_reply_parts h block) as (E8 & E12 & _). rewrite E8, E12, Hsize, prefix_whole.
  destruct Hf as [Hbefore Hend]. rewrite Hl in Hbefore, Hlast. change (op_block (opening_of h)) with (fh_block_size h).
  cbn zeta. rewrite Hst, !alen_app, <- Hbefore. destruct (fh_eof h) eqn:Ee.
  - subst rest. change (BVSTK_DCP2_FS_EOF =? BVSTK_DCP2_FS_EOF) with true. cbn iota. split.
    + unfold cells. rewrite app_nil_r. rewrite drop_app_length' by (unfold alen; lia).
      symmetry. unfold prefix. apply take_ge. unfold alen in Hle. lia.
    + change (alen (@nil Z)) with 0. lia.
  - change (0 =? BVSTK_DCP2_FS_EOF) with false. cbn iota. destruct Hend as [Hsz Hne]. split.
    + by rewrite <- Hsz, cells_app.
    + intros Hkt. specialize (Hne Hkt). pose proof (alen_nonneg rest). destruct rest; [done|]. rewrite alen_cons. pose proof (alen_nonneg rest). lia.
Qed.

Lemma read_response_spec block capacity F D h SF SD x :
  busy F D h SF SD x -> 0 <= block <= UINT32_MAX -> 0 <= capacity ->
  runs (read_response block capacity) (h, x) (fun res s' => exists status reply, res = Some (status, reply) /\
    opening_of s'.1 = opening_of h /\ (exists SF' SD', busy F D s'.1 SF' SD' s'.2) /\ alen reply <= capacity /\
    if status =? 0 then wrong \/ block_told (opening_of h) block reply
    else capacity < fh_block_size h + 12 \/ out_of_order h block = true \/
      forall o, servable T (kind h) (flags h) (root h) o -> excused wrong fails).
Proof.
  intros Hb Hblock Hcap. unfold read_response. apply runs_bind, runs_look_slot. cbn [fst].
  destruct (Z.ltb_spec capacity (fh_block_size h + 12)) as [Hsmall|Hroom].
  { apply runs_ret. exists FS_INTERNAL, []. split; [done|]. split; [done|]. split; [eauto|]. split; [done|]. by left. }
  destruct (Z.eqb_spec (fh_terminal_status h) 0) as [Ht|Ht]; cbn [negb].
  2: { apply runs_ret. exists (fh_terminal_status h), []. split; [done|]. split; [done|]. split; [eauto|]. split; [done|].
       pose proof (bu_reader _ _ _ _ _ _ Hb) as Hr. rewrite (proj2 (Z.eqb_neq _ _) Ht) in Hr |- *. right. right. apply Hr. }
  apply runs_bind. eapply runs_mono; [by eapply cache_block_spec|].
  intros res [h' x'] (status & -> & Hop & (SF' & SD' & Hb') & Hres). cbn beta iota. cbn [fst snd] in *.
  destruct (status =? 0) eqn:Est; cbn [negb].
  - apply runs_bind, runs_look_slot, runs_ret. cbn [fst snd]. destruct Hres as (Ht' & Hh & Hl).
    exists FS_OK, (read_reply h' block). split; [done|]. split; [done|]. split; [eauto|].
    destruct (bu_kept _ _ _ _ _ _ Hb' Hh) as (Hsize & Hle & _).
    assert (fh_block_size h' = fh_block_size h) as Hbs by (by injection Hop).
    split; [destruct (read_reply_parts h' block) as (_ & _ & ->); rewrite Hsize, prefix_whole; lia|].
    cbn [Z.eqb FS_OK]. rewrite <- Hop. by eapply reply_told.
  - apply runs_ret. exists status, []. split; [done|]. split; [done|]. split; [eauto|]. split; [done|]. rewrite Est. by right.
Qed.

(** ** The two slots *)

Section two_slots.
Context (F : gmap Z chars) (D : gmap Z listing).

Definition pair_ok h0 h1 x : Prop := exists SF0 SD0 SF1 SD1,
  slot_ok (list_to_map SF1 ∪ F) (list_to_map SD1 ∪ D) h0 SF0 SD0 x /\
  slot_ok (list_to_map SF0 ∪ F) (list_to_map SD0 ∪ D) h1 SF1 SD1 x.

Lemma pair_swap h0 h1 x : pair_ok h0 h1 x -> pair_ok h1 h0 x.
Proof. intros (SF0 & SD0 & SF1 & SD1 & H0 & H1). by exists SF1, SD1, SF0, SD0. Qed.

(** An operation on a slot, whoever owns the other handles. *)
Definition on_any_frame {A} (m : ST (slot_state (X := X)) A) h x (Q : A -> handle -> Prop) : Prop :=
  forall F D SF SD, slot_ok F D h SF SD x ->
    runs m (h, x) (fun a s' => Q a s'.1 /\ exists SF' SD', slot_ok F D s'.1 SF' SD' s'.2).

Lemma pair_step {A} (m : ST (slot_state (X := X)) A) h0 h1 x Q :
  pair_ok h0 h1 x -> on_any_frame m h0 x Q ->
  runs m (h0, x) (fun a s' => Q a s'.1 /\ pair_ok s'.1 h1 s'.2).
Proof.
  intros (SF0 & SD0 & SF1 & SD1 & H0 & H1) Hm. eapply runs_mono; [exact (Hm _ _ SF0 SD0 H0)|].
  intros a [h' x'] [HQ (SF & SD & Hs)]. split; [done|]. cbn [fst snd] in *.
  destruct (slot_owns _ _ _ _ _ _ H1) as [Of Od]. destruct (owns_beside _ _ _ _ Of) as [Nf Df], (owns_beside _ _ _ _ Od) as [Nd Dd].
  exists SF, SD, SF1, SD1. split; [done|]. pose proof (slot_owns _ _ _ _ _ _ Hs) as [Of' Od'].
  eapply slot_move; [exact H1|by apply owns_swap..].
Qed.

Definition slots_ok (s : fs_state (X := X)) : Prop :=
  fs_backend s.1 = Some b /\ exists h0 h1, fs_handles s.1 = [h0; h1] /\ pair_ok h0 h1 s.2.

Lemma two_indices i : 0 <= i < 2 -> i = 0 \/ i = 1.
Proof. lia. Qed.

Lemma on_slot_step {A} i (m : ST (slot_state (X := X)) A) s Q :
  slots_ok s -> 0 <= i < 2 -> on_any_frame m ((fs_handles s.1).[i]) s.2 Q ->
  runs (on_slot i m) s (fun a s' => slots_ok s' /\ exists h', Q a h' /\
    s'.1 = FsSession (fs_backend s.1) (fs_next_handle s.1) ((fs_handles s.1).[i <- h'])).
Proof.
  intros (Hb & h0 & h1 & Hh & Hp) Hi Hm. apply runs_on_slot.
  destruct (two_indices i Hi) as [-> | ->]; rewrite Hh in *.
  - eapply runs_mono; [exact (pair_step m h0 h1 s.2 Q Hp Hm)|]. intros a [h' x'] [HQ Hp']. cbn [fst snd] in *.
    split; [|exists h'; by split]. split; [done|]. exists h', h1. by split.
  - eapply runs_mono; [exact (pair_step m h1 h0 s.2 Q (pair_swap _ _ _ Hp) Hm)|]. intros a [h' x'] [HQ Hp']. cbn [fst snd] in *.
    split; [|exists h'; by split]. split; [done|]. exists h0, h'. split; [done|]. by apply pair_swap.
Qed.

Lemma slots_world s x' : slots_ok s -> files x' = files s.2 -> dirs x' = dirs s.2 -> slots_ok (s.1, x').
Proof.
  intros (Hb & h0 & h1 & Hh & SF0 & SD0 & SF1 & SD1 & H0 & H1) Hf Hd. split; [done|]. exists h0, h1. split; [done|].
  exists SF0, SD0, SF1, SD1. pose proof (slot_owns _ _ _ _ _ _ H0) as [? ?]. pose proof (slot_owns _ _ _ _ _ _ H1) as [? ?].
  cbn [fst snd]. split; [eapply slot_move; [exact H0|by rewrite Hf|by rewrite Hd]|eapply slot_move; [exact H1|by rewrite Hf|by rewrite Hd]].
Qed.

Lemma slots_next s n : slots_ok s -> slots_ok (FsSession (fs_backend s.1) n (fs_handles s.1), s.2).
Proof. by intros (Hb & Hrest). Qed.

Lemma close_any h x : on_any_frame close_handle h x (fun _ h' => h' = zero_handle).
Proof.
  intros F' D' SF SD Hs. eapply runs_mono; [exact (close_handle_spec _ _ _ _ _ _ Hs)|]. intros a [h' x'] [-> H]. cbn [fst snd] in *. eauto.
Qed.

Lemma expire_any now h x : on_any_frame (expire_slot now) h x (fun _ h' => same_opening h h').
Proof. intros F' D' SF SD Hs. exact (expire_slot_spec now F' D' h SF SD x Hs). Qed.

(** ** The ledger

    Every handle in use was told to a client with the opening it stands for, and
    no handle is given twice. *)

Definition issued (next n : Z) : Prop := 0 < n <= UINT32_MAX /\ (next = 0 \/ n < next).

Definition known (L : list opening) (next : Z) h : Prop :=
  fh_handle h <> 0 -> opening_of h ∈ L /\ forall e, e ∈ L -> op_handle e = fh_handle h -> e = opening_of h.

Record session_ok (L : list opening) (s : fs_state (X := X)) : Prop := {
  ss_slots : slots_ok s;
  ss_next : 0 <= fs_next_handle s.1 <= UINT32_MAX;
  ss_known : Forall (known L (fs_next_handle s.1)) (fs_handles s.1);
  ss_ledger : Forall (fun e => issued (fs_next_handle s.1) (op_handle e)) L
}.

Lemma known_same L next h h' : known L next h -> same_opening h h' -> known L next h'.
Proof.
  intros Hk [-> | He]; [by intros []|]. unfold known. assert (fh_handle h' = fh_handle h) as -> by (by injection He).
  by rewrite He.
Qed.

Lemma Forall_aset {A} (P : A -> Prop) (l : list A) i v : Forall P l -> P v -> Forall P (l.[i <- v]).
Proof. intros Hl Hv. by apply Forall_insert. Qed.

Lemma Forall_aget {A} `{Inhabited A} (P : A -> Prop) (l : list A) i : Forall P l -> 0 <= i < alen l -> P (l.[i]).
Proof. intros Hl Hi. rewrite Forall_forall in Hl. apply Hl. by apply aget_in. Qed.

Lemma handles_two s : slots_ok s -> alen (fs_handles s.1) = 2.
Proof. by intros (_ & h0 & h1 & -> & _). Qed.

(** Operations that keep or free the opening of a slot. *)
Lemma keep_step {A} L i (m : ST (slot_state (X := X)) A) s Q :
  session_ok L s -> 0 <= i < 2 ->
  on_any_frame m ((fs_handles s.1).[i]) s.2 (fun a h' => same_opening ((fs_handles s.1).[i]) h' /\ Q a h') ->
  runs (on_slot i m) s (fun a s' => session_ok L s' /\ exists h', same_opening ((fs_handles s.1).[i]) h' /\ Q a h' /\
    s'.1 = FsSession (fs_backend s.1) (fs_next_handle s.1) ((fs_handles s.1).[i <- h'])).
Proof.
  intros [H1 H2 H3 H4] Hi Hm. eapply runs_mono; [by eapply on_slot_step|].
  intros a s' (Hs & h' & (Hsame & HQ) & Heq). split; [|by exists h'].
  split; rewrite ?Heq; cbn [fs_next_handle fs_handles]; try done. apply Forall_aset; [done|].
  eapply known_same; [|exact Hsame]. apply Forall_aget; [done|]. by rewrite (handles_two _ H1).
Qed.

Lemma any_weaken {A} (m : ST (slot_state (X := X)) A) h x (Q Q' : A -> handle -> Prop) :
  on_any_frame m h x Q -> (forall a h', Q a h' -> Q' a h') -> on_any_frame m h x Q'.
Proof.
  intros Hm HQ F' D' SF SD Hs. eapply runs_mono; [by eapply Hm|]. intros a s' [H ?]. split; [by apply HQ|done].
Qed.

Lemma each_slot_spec L n i m s :
  session_ok L s -> 0 <= i -> i + Z.of_nat n <= 2 ->
  (forall h x, on_any_frame m h x (fun _ h' => same_opening h h')) ->
  runs (each_slot n i m) s (fun _ s' => session_ok L s').
Proof.
  intros Hs Hi Hn Hm. revert i s Hs Hi Hn. induction n as [|n IH]; intros i s Hs Hi Hn; [by apply runs_ret|].
  cbn [each_slot]. apply runs_bind. eapply runs_mono.
  { apply (keep_step L i m s (fun _ _ => True)); [done|lia|]. eapply any_weaken; [apply Hm|]. done. }
  intros _ s' [Hs' _]. apply IH; [done|lia|lia].
Qed.

Lemma expire_spec L now s : session_ok L s -> runs (bvstk_dcp2_fs_expire now) s (fun _ s' => session_ok L s').
Proof. intros Hs. apply each_slot_spec; [done|done|done|]. intros h x. apply expire_any. Qed.

(** Everything closed: nothing is left of the session. *)
Lemma destroy_spec s : slots_ok s ->
  runs bvstk_dcp2_fs_destroy s (fun _ s' => files s'.2 = F /\ dirs s'.2 = D /\ fs_handles s'.1 = [zero_handle; zero_handle]).
Proof.
  intros Hs. unfold bvstk_dcp2_fs_destroy. change (Z.to_nat BVSTK_DCP2_FS_HANDLES_MAX) with 2%nat. cbn [each_slot].
  apply runs_bind. eapply runs_mono; [exact (on_slot_step 0 close_handle s _ Hs ltac:(lia) (close_any _ _))|].
  intros _ s1 (Hs1 & h & -> & E1). apply runs_bind.
  eapply runs_mono; [exact (on_slot_step (0 + 1) close_handle s1 _ Hs1 ltac:(lia) (close_any _ _))|].
  intros _ s2 (Hs2 & h & -> & E2). apply runs_ret.
  destruct Hs as (_ & h0 & h1 & Hh & _). rewrite E1 in E2. cbn in E2. rewrite Hh in E2. cbn in E2.
  destruct Hs2 as (_ & g0 & g1 & Hg & SF0 & SD0 & SF1 & SD1 & G0 & G1). rewrite E2 in Hg |- *. injection Hg as <- <-.
  destruct G0 as [_ -> -> Hf Hd|[Hz]]; [|by destruct Hz]. destruct G1 as [_ -> -> _ _|[Hz]]; [|by destruct Hz].
  cbn in Hf, Hd. rewrite (left_id_L ∅ (∪)) in Hf. rewrite (left_id_L ∅ (∪)) in Hd. done.
Qed.

(** ** Requests *)

(** What an OPEN that was answered has opened. *)
Definition opening_in (body reply : chars) : opening :=
  Opening (bvstk_dcp2_read_be32 (Some reply) 0) (body.[4]) (body.[5])
    (match parse_path (drop 8 body) with inr path => cstr path | inl _ => [] end)
    (bvstk_dcp2_read_be16 (Some reply) 4).

Definition answered (opcode : Z) (body : chars) (capacity : Z) (L : list opening)
    (res : option (Z * chars)) (s' : fs_state (X := X)) : Prop :=
  exists status reply L', res = Some (status, reply) /\ alen reply <= capacity /\ L ⊆ L' /\ session_ok L' s' /\
    (opcode = BVSTK_DCP2_FS_OPEN -> status = 0 -> opening_in body reply ∈ L') /\
    (opcode = BVSTK_DCP2_FS_READ -> status = 0 -> forall e, e ∈ L -> op_handle e = bvstk_dcp2_read_be32 (Some body) 0 ->
       wrong \/ block_told e (bvstk_dcp2_read_be32 (Some body) 4) reply).

Lemma answered_error opcode body capacity L status s' :
  status <> 0 -> 0 <= capacity -> session_ok L s' -> answered opcode body capacity L (Some (status, [])) s'.
Proof. intros Hst Hc Hs. by exists status, [], L. Qed.

Lemma answered_other opcode body capacity L status reply s' :
  opcode <> BVSTK_DCP2_FS_OPEN -> opcode <> BVSTK_DCP2_FS_READ -> alen reply <= capacity -> session_ok L s' ->
  answered opcode body capacity L (Some (status, reply)) s'.
Proof. intros Ho Hr Hc Hs. by exists status, reply, L. Qed.

Lemma session_world L s x' : session_ok L s -> files x' = files s.2 -> dirs x' = dirs s.2 -> session_ok L (s.1, x').
Proof. intros [H1 H2 H3 H4] Hf Hd. split; try done. by apply slots_world. Qed.

(** *** INFO and STAT *)

Lemma volumes_loop_spec L n i capacity out s :
  session_ok L s -> 0 <= capacity -> alen out <= capacity ->
  runs (volumes_loop b n i capacity out) s (fun '(_, reply) s' => session_ok L s' /\ alen reply <= capacity).
Proof.
  intros Hs Hc Ho. revert i out s Hs Ho. induction n as [|n IH]; intros i out s Hs Ho; [by apply runs_ret|].
  cbn [volumes_loop]. apply runs_bind, runs_ask. eapply runs_mono; [apply (law_volume b files dirs T wrong fails)|].
  intros [rc volume] x' [Hf Hd]. pose proof (session_world _ _ _ Hs Hf Hd) as Hs'.
  destruct (negb _); [by apply runs_ret|]. destruct (_ || _) eqn:E; [by apply runs_ret|].
  apply orb_false_iff in E as [_ E]. bsimp. apply IH; [done|]. rewrite !alen_app.
  change (alen [fv_state volume; u8 (alen (cstr (fv_name volume)))]) with 2. lia.
Qed.

Lemma info_response_spec L capacity s :
  session_ok L s -> 0 <= capacity ->
  runs (info_response b capacity) s (fun '(_, reply) s' => session_ok L s' /\ alen reply <= capacity).
Proof.
  intros Hs Hc. unfold info_response. apply runs_bind, runs_ask.
  eapply runs_mono; [apply (law_volume_count b files dirs T wrong fails)|]. intros count x' [Hf Hd].
  pose proof (session_world _ _ _ Hs Hf Hd) as Hs'. destruct (_ || _) eqn:E; [by apply runs_ret|].
  apply orb_false_iff in E as [E _]. bsimp. cbn zeta. apply volumes_loop_spec; [done|done|].
  unfold bvstk_dcp2_write_be32, bvstk_dcp2_write_be16. by rewrite !alen_aset.
Qed.

Lemma stat_response_spec L body capacity s :
  session_ok L s -> 0 <= capacity ->
  runs (stat_response b body capacity) s (fun '(_, reply) s' => session_ok L s' /\ alen reply <= capacity).
Proof.
  intros Hs Hc. unfold stat_response. destruct (parse_path body) as [status|path]; [by apply runs_ret|].
  destruct (Z.ltb_spec capacity 10); [by apply runs_ret|]. apply runs_bind, runs_ask.
  eapply runs_mono; [apply (law_stat b files dirs T wrong fails)|]. intros [rc info] x' (Hf & Hd & _).
  pose proof (session_world _ _ _ Hs Hf Hd) as Hs'. cbn zeta. destruct (negb _); apply runs_ret; [done|]. split; [done|].
  unfold put64, bvstk_dcp2_write_be32. by rewrite !alen_aset.
Qed.

(** *** OPEN *)

Lemma find_slot_spec n i (hs : list handle) open_id kind flags requested path best r :
  0 <= i -> (forall j, best = Some j -> 0 <= j < i /\ fh_handle (hs.[j]) = 0) ->
  find_slot n i hs open_id kind flags requested path best = inr (Some r) ->
  0 <= r < i + Z.of_nat n /\
  (fh_handle (hs.[r]) = 0 \/
   fh_handle (hs.[r]) <> 0 /\ rd_kind (fh_reader (hs.[r])) = kind /\ rd_flags (fh_reader (hs.[r])) = flags /\
   cstr (rd_root (fh_reader (hs.[r]))) = cstr path).
Proof.
  revert i best. induction n as [|n IH]; intros i best Hi Hbest; cbn [find_slot].
  { intros [= ->]. destruct (Hbest r eq_refl). split; [lia|by left]. }
  destruct (negb (fh_handle (hs.[i]) =? 0) && (fh_open_id (hs.[i]) =? open_id)) eqn:E.
  - destruct (_ || _) eqn:E2; [done|]. intros [= <-]. apply andb_true_iff in E as [E _].
    apply orb_false_iff in E2 as [E2 E3]. apply orb_false_iff in E2 as [E2 _]. apply orb_false_iff in E2 as [E4 E5].
    apply negb_false_iff, streq_spec in E3. bsimp. split; [lia|]. by right.
  - match goal with |- find_slot _ _ _ _ _ _ _ _ ?nb = _ -> _ => remember nb as best' eqn:Hb' end.
    intros Hf. destruct (IH (i + 1) best') as [H1 H2]; [lia| |exact Hf|split; [lia|done]].
    intros j ->. destruct (_ && match best with None => true | Some _ => false end) eqn:Ef; [|symmetry in Hb'; destruct (Hbest j Hb'); split; [lia|done]].
    injection Hb' as ->. apply andb_true_iff in Ef as [Ef _]. bsimp. split; [lia|done].
Qed.

Lemma known_opening L next h :
  known L next h -> fh_handle h <> 0 -> Forall (fun e => issued next (op_handle e)) L -> issued next (fh_handle h).
Proof.
  intros Hk Hh HL. destruct (Hk Hh) as [Hin _]. rewrite Forall_forall in HL. exact (HL _ Hin).
Qed.

(** The next handle is new. *)
Lemma fresh_known L next h :
  0 < next <= UINT32_MAX -> Forall (fun e => issued next (op_handle e)) L -> fh_handle h = next ->
  known (opening_of h :: L) (u32 (next + 1)) h.
Proof.
  intros Hn HL Hh _. split; [by left|]. intros e He Heq. apply elem_of_cons in He as [->|He]; [done|].
  rewrite Forall_forall in HL. destruct (HL e He) as [_ [?|?]]; lia.
Qed.

Lemma issued_next next n : 0 < next <= UINT32_MAX -> issued next n -> issued (u32 (next + 1)) n.
Proof.
  unfold issued, UINT32_MAX. intros Hn [Hr [?|?]]; [lia|]. split; [done|].
  destruct (decide (next = 4294967295)) as [-> | ?]; [by left|]. right. rewrite u32_id by lia. lia.
Qed.

Lemma issued_this next : 0 < next <= UINT32_MAX -> issued (u32 (next + 1)) next.
Proof.
  unfold issued, UINT32_MAX. intros Hn. split; [done|].
  destruct (decide (next = 4294967295)) as [-> | ?]; [by left|]. right. rewrite u32_id by lia. lia.
Qed.

Lemma known_other L next h h' :
  known L next h -> 0 < next <= UINT32_MAX -> Forall (fun e => issued next (op_handle e)) L ->
  op_handle (opening_of h') = next -> known (opening_of h' :: L) (u32 (next + 1)) h.
Proof.
  intros Hk Hn HL Hh' Hh. destruct (Hk Hh) as [Hin Hu]. split; [by right|]. intros e He Heq.
  apply elem_of_cons in He as [->|He]; [|by apply Hu].
  rewrite Forall_forall in HL. destruct (HL _ Hin) as [_ Hlt]. rewrite Hh' in Heq. cbn in Hlt. lia.
Qed.

Lemma free_slot F' D' h SF SD x : slot_ok F' D' h SF SD x -> fh_handle h = 0 -> h = zero_handle /\ files x = F' /\ dirs x = D'.
Proof. intros [-> _ _ ? ?|[Hh]] Hz; [done|]. by destruct Hh. Qed.

(** A free slot is opened. *)
Lemma open_step i open_id kind flags requested path s L :
  session_ok L s -> 0 <= i < 2 -> fh_handle ((fs_handles s.1).[i]) = 0 -> cstr path <> [] ->
  0 <= requested <= BVSTK_DCP2_FS_BLOCK_MAX -> fs_next_handle s.1 <> 0 ->
  runs (let! status := on_slot i (open_slot b (fs_next_handle s.1) open_id kind flags requested path) in
        (if status =? 0 then st_mod (fun s => (FsSession (fs_backend s.1) (u32 (fs_next_handle s.1 + 1)) (fs_handles s.1), s.2))
         else st_ret tt) ;;
        st_ret status) s (fun status s' => exists h',
    fs_handles s'.1 = (fs_handles s.1).[i <- h'] /\
    if status =? 0 then
      opening_of h' = Opening (fs_next_handle s.1) kind flags (cstr path) (block_size requested) /\
      session_ok (opening_of h' :: L) s'
    else session_ok L s' /\ forall o, servable T kind flags (cstr path) o -> excused wrong fails).
Proof.
  intros [H1 H2 H3 H4] Hi Hz Hp Hreq Hn. apply runs_bind.
  eapply runs_mono.
  { apply (on_slot_step i _ s (fun status h' =>
      if status =? 0 then opening_of h' = Opening (fs_next_handle s.1) kind flags (cstr path) (block_size requested)
      else h' = zero_handle /\ forall o, servable T kind flags (cstr path) o -> excused wrong fails) H1 Hi).
    intros F' D' SF SD Hs. destruct (free_slot _ _ _ _ _ _ Hs Hz) as (-> & Hf & Hd).
    eapply runs_mono; [by apply (open_slot_spec _ _ _ _ _ _ F' D')|]. intros status s' [? ?]. by split. }
  intros status s' (Hs' & h' & Hh' & Heq).
  assert (fs_handles s'.1 = (fs_handles s.1).[i <- h']) as Hhs by (by rewrite Heq).
  assert (fs_next_handle s'.1 = fs_next_handle s.1) as Hnx by (by rewrite Heq).
  destruct (status =? 0) eqn:Est.
  - apply runs_bind, runs_mod, runs_ret. rewrite Est. exists h'. split; [done|]. split; [done|].
    assert (op_handle (opening_of h') = fs_next_handle s.1) as Hop by (by rewrite Hh').
    assert (0 < fs_next_handle s.1 <= UINT32_MAX) as Hr by lia.
    split; [by apply slots_next|..]; cbn [fst fs_next_handle fs_handles]; rewrite ?Hnx, ?Hhs.
    + pose proof (u32_range (fs_next_handle s.1 + 1)). unfold UINT32_MAX. lia.
    + apply Forall_aset.
      * eapply Forall_impl; [exact H3|]. intros h Hk. by apply known_other.
      * by apply fresh_known.
    + constructor; [rewrite Hop; by apply issued_this|]. eapply Forall_impl; [exact H4|]. intros e. by apply issued_next.
  - apply runs_bind, runs_ret, runs_ret. rewrite Est. destruct Hh' as [-> He]. exists zero_handle. split; [done|]. split; [|done].
    split; rewrite ?Hnx, ?Hhs; try done. apply Forall_aset; [done|]. by intros [].
Qed.

(** The slot that was found is used, and the reply tells its opening. *)
Lemma reply_step i now s L body kind flags path :
  session_ok L s -> 0 <= i < 2 ->
  (exists n bs, opening_of ((fs_handles s.1).[i]) = Opening n kind flags (cstr path) bs /\ n <> 0) ->
  body.[4] = kind -> body.[5] = flags -> parse_path (drop 8 body) = inr path ->
  runs (let! h := on_slot i (edit_slot (with_activity now) ;; look_slot) in st_ret (FS_OK, open_reply h)) s
    (fun '(status, reply) s' => status = FS_OK /\ alen reply = 14 /\ session_ok L s' /\ opening_in body reply ∈ L).
Proof.
  intros Hs Hi (n & bs & Hop & Hn) Hk Hf Hp. pose proof Hs as [H1 H2 H3 H4].
  set (h := (fs_handles s.1).[i]) in *. assert (fh_handle h = n /\ fh_block_size h = bs) as [Hhn Hbs] by (by injection Hop).
  apply runs_bind. eapply runs_mono.
  { apply (keep_step L i _ s (fun a h' => a = h' /\ opening_of h' = opening_of h /\ 0 < fh_block_size h <= BVSTK_DCP2_FS_BLOCK_MAX) Hs Hi).
    intros F' D' SF SD Hslot. apply runs_bind, runs_edit_slot, runs_look_slot. cbn [fst snd].
    destruct Hslot as [Hz|Hb]; [|].
    - exfalso. apply Hn. rewrite <- Hhn. fold h in Hz. by rewrite Hz.
    - pose proof Hb as [b1 b2 b3 b4 b5]. split.
      + split; [by right|]. split; [done|]. split; [done|]. exact b3.
      + exists SF, SD. apply SlotBusy. split; [exact b1|exact b2|exact b3|exact b4|exact b5]. }
  intros a s' (Hs' & h' & _ & (-> & Hop' & Hb) & Heq). apply runs_ret. split; [done|]. split; [|split; [done|]].
  { unfold open_reply, put64, bvstk_dcp2_write_be32, bvstk_dcp2_write_be16. by rewrite !alen_aset. }
  assert (known L (fs_next_handle s.1) h) as Hknown by (apply Forall_aget; [done|]; by rewrite (handles_two _ H1)).
  assert (fh_handle h <> 0) as Hne by (by rewrite Hhn).
  destruct (known_opening _ _ _ Hknown Hne H4) as [Hr _].
  assert (fh_handle h' = fh_handle h /\ fh_block_size h' = fh_block_size h) as [E1 E2] by (by injection Hop').
  destruct (Hknown Hne) as [Hin _]. enough (opening_in body (open_reply h') = opening_of h) as -> by done.
  unfold opening_in. rewrite open_reply_handle, open_reply_block, Hk, Hf, Hp, Hop, E1, E2, Hhn, Hbs; try done;
    unfold BVSTK_DCP2_FS_BLOCK_MAX in *; lia.
Qed.

Lemma open_response_spec L body now capacity s :
  session_ok L s -> 0 <= capacity ->
  runs (open_response b body now capacity) s (fun res s' => answered BVSTK_DCP2_FS_OPEN body capacity L (Some res) s').
Proof.
  intros Hs Hc. unfold open_response.
  assert (forall status s', status <> 0 -> session_ok L s' ->
    runs (st_ret (status, [])) s' (fun res s' => answered BVSTK_DCP2_FS_OPEN body capacity L (Some res) s')) as Herr.
  { intros status s' Hst Hs'. apply runs_ret. by apply answered_error. }
  destruct (alen body <? 10); [by apply Herr|]. destruct (Z.ltb_spec capacity 14); [by apply Herr|].
  destruct (_ =? 0); [by apply Herr|]. destruct (Z.ltb_spec BVSTK_DCP2_FS_BLOCK_MAX (bvstk_dcp2_read_be16 (Some body) 6)); [by apply Herr|].
  destruct (_ || _); [by apply Herr|]. destruct (_ || _); [by apply Herr|].
  destruct (parse_path (drop 8 body)) as [status|path] eqn:Ep.
  { apply Herr; [|done]. clear -Ep. unfold parse_path in Ep. destruct (_ <? _); [by injection Ep as <-|].
    destruct (negb _); [by injection Ep as <-|]. destruct (bvstk_fs_validate_path _ _) as [rc|] eqn:E; [|done]. injection Ep as <-.
    assert (rc <> BVSTK_FS_OK) as Hne.
    { intros ->. unfold bvstk_fs_validate_path in E. repeat (case_match; try done). }
    by destruct rc. }
  apply runs_bind. unfold look_session. apply runs_get.
  destruct (find_slot _ 0 _ _ _ _ _ _ None) as [status|[i|]] eqn:Ef.
  - apply Herr; [|done]. revert Ef. generalize (@None Z). generalize 0 at 1. intros i best. revert i best.
    induction (Z.to_nat BVSTK_DCP2_FS_HANDLES_MAX) as [|n IH]; intros i best; cbn [find_slot]; [done|].
    destruct (_ && _); [|apply IH]. destruct (_ || _); [by intros [= <-]|done].
  - destruct (find_slot_spec _ _ _ _ _ _ _ _ None _ (Z.le_refl 0) (fun j Hj => ltac:(discriminate Hj)) Ef) as [Hi Hslot].
    change (0 + Z.of_nat (Z.to_nat BVSTK_DCP2_FS_HANDLES_MAX)) with 2 in Hi.
    destruct (Z.eqb_spec (fs_next_handle s.1) 0) as [Hn|Hn]; [by apply Herr|].
    pose proof (read_be16_range body 6) as Hreq. apply runs_bind.
    destruct (Z.eqb_spec (fh_handle ((fs_handles s.1).[i])) 0) as [Hz|Hz].
    + eapply runs_mono; [apply (open_step i _ _ _ _ path s L Hs Hi Hz); [by eapply parsed_text|lia|done]|].
      intros status s' (h' & Hhs & Hres). destruct (status =? 0) eqn:Est; cbn [negb].
      2: { destruct Hres as [Hs' _]. apply Herr; [by apply Z.eqb_neq|done]. }
      destruct Hres as [Hop Hs'].
      assert ((fs_handles s'.1).[i] = h') as Hget.
      { rewrite Hhs. apply aget_aset_eq. rewrite (handles_two s) by (by destruct Hs). done. }
      eapply runs_mono; [apply (reply_step i now s' (opening_of h' :: L) body (body.[4]) (body.[5]) path Hs' Hi); [|done|done|exact Ep]|].
      { rewrite Hget. eauto. }
      intros [st reply] s2 (-> & Hl & Hs2 & Hin). exists FS_OK, reply, (opening_of h' :: L).
      split; [done|]. split; [lia|]. split; [by intros e; right|]. by split.
    + destruct Hslot as [?|(_ & Hk & Hf & Hr)]; [done|]. apply runs_ret. change (negb (FS_OK =? 0)) with false. cbn iota.
      eapply runs_mono; [apply (reply_step i now s L body (body.[4]) (body.[5]) path Hs Hi); [|done|done|exact Ep]|].
      { eexists _, _. split; [|exact Hz]. unfold opening_of. by rewrite Hk, Hf, Hr. }
      intros [st reply] s2 (-> & Hl & Hs2 & Hin). exists FS_OK, reply, L. split; [done|]. split; [lia|]. by split.
  - by apply Herr.
Qed.

(** *** READ and CLOSE *)

Lemma read_any_frame now block capacity h x :
  fh_handle h <> 0 -> 0 <= block <= UINT32_MAX -> 0 <= capacity ->
  on_any_frame (edit_slot (with_activity now) ;; read_response block capacity) h x (fun res h' => same_opening h h' /\
    exists status reply, res = Some (status, reply) /\ alen reply <= capacity /\
      (status = 0 -> wrong \/ block_told (opening_of h) block reply)).
Proof.
  intros Hh Hblock Hc F' D' SF SD Hs. destruct Hs as [-> | Hb]; [by destruct Hh|].
  apply runs_bind, runs_edit_slot. cbn [fst snd].
  assert (busy F' D' (with_activity now h) SF SD x) as Hb'.
  { destruct Hb as [b1 b2 b3 b4 b5]. split; [exact b1|exact b2|exact b3|exact b4|exact b5]. }
  eapply runs_mono; [apply (read_response_spec block capacity _ _ _ _ _ _ Hb' Hblock Hc)|].
  intros res s' (status & reply & -> & Hop & (SF' & SD' & Hs') & Hle & Hres). split; [split|].
  - right. exact Hop.
  - exists status, reply. split; [done|]. split; [done|]. intros ->. exact Hres.
  - exists SF', SD'. by apply SlotBusy.
Qed.

Lemma handle_loop_spec L n i opcode body now capacity s :
  session_ok L s -> 0 <= i -> i + Z.of_nat n <= 2 -> opcode <> BVSTK_DCP2_FS_OPEN ->
  bvstk_dcp2_read_be32 (Some body) 0 <> 0 -> Forall byte body -> 0 <= capacity ->
  runs (handle_loop n i opcode (bvstk_dcp2_read_be32 (Some body) 0) body now capacity) s (answered opcode body capacity L).
Proof.
  intros Hs Hi Hn Hop Hnz Hbody Hc. revert i Hi Hn. induction n as [|n IH]; intros i Hi Hn; cbn [handle_loop].
  { apply runs_ret. destruct (Z.eqb_spec opcode BVSTK_DCP2_FS_CLOSE) as [-> | ?]; [by apply answered_other|by apply answered_error]. }
  apply runs_bind. unfold look_session. apply runs_get.
  destruct (Z.eqb_spec (fh_handle ((fs_handles s.1).[i])) (bvstk_dcp2_read_be32 (Some body) 0)) as [Hh|Hh]; cbn [negb]; [|apply IH; lia].
  destruct (Z.eqb_spec opcode BVSTK_DCP2_FS_CLOSE) as [-> | Hcl].
  - apply runs_bind. eapply runs_mono.
    { apply (keep_step L i close_handle s (fun _ _ => True) Hs ltac:(lia)). eapply any_weaken; [apply close_any|].
      intros _ h' ->. split; [by left|done]. }
    intros _ s' [Hs' _]. apply runs_ret. by apply answered_other.
  - pose proof (read_be32_range body 4 Hbody) as Hblock. set (h := (fs_handles s.1).[i]) in *.
    eapply runs_mono.
    { eapply (keep_step L i _ s _ Hs ltac:(lia)). eapply any_weaken; [apply read_any_frame; [fold h; by rewrite Hh|exact Hblock|exact Hc]|].
      intros a h' [H1 H2]. split; [exact H1|exact H2]. }
    intros res s' (Hs' & h' & _ & (status & reply & -> & Hle & Htold) & _). exists status, reply, L.
    split; [done|]. split; [done|]. split; [done|]. split; [done|]. split; [done|]. intros _ Hst e He Heq.
    assert (known L (fs_next_handle s.1) h) as Hk.
    { apply Forall_aget; [by destruct Hs|]. rewrite (handles_two s) by (by destruct Hs). lia. }
    destruct (Hk ltac:(by rewrite Hh)) as [_ Hu]. rewrite (Hu e He); [by apply Htold|]. by rewrite Hh.
Qed.

Lemma request_spec L opcode body now capacity s :
  session_ok L s -> Forall byte body -> 0 <= capacity ->
  runs (bvstk_dcp2_fs_request true opcode true body now true capacity true) s (answered opcode body capacity L).
Proof.
  intros Hs Hbody Hc. unfold bvstk_dcp2_fs_request. apply runs_bind. unfold look_session. apply runs_get.
  pose proof Hs as [[-> _] _ _ _]. cbn [negb orb andb]. apply runs_bind.
  eapply runs_mono; [exact (expire_spec L now s Hs)|]. intros [] s1 Hs1. cbn zeta.
  assert (forall status, status <> 0 -> runs (st_ret (Some (status, []))) s1 (answered opcode body capacity L)) as Herr.
  { intros status Hst. apply runs_ret. by apply answered_error. }
  assert (forall m : ST fs_state (Z * chars), opcode <> BVSTK_DCP2_FS_OPEN -> opcode <> BVSTK_DCP2_FS_READ ->
    runs m s1 (fun '(_, reply) s' => session_ok L s' /\ alen reply <= capacity) ->
    runs (let! a := m in st_ret (Some a)) s1 (answered opcode body capacity L)) as Hanswer.
  { intros m Ho Hr Hm. apply runs_bind. eapply runs_mono; [exact Hm|]. intros [status reply] s' [? ?]. apply runs_ret. by apply answered_other. }
  destruct (Z.eqb_spec opcode BVSTK_DCP2_FS_INFO) as [Ho|_].
  { destruct (negb _); [by apply Herr|]. apply Hanswer; [by rewrite Ho..|]. by apply info_response_spec. }
  destruct (Z.eqb_spec opcode BVSTK_DCP2_FS_STAT) as [Ho|_].
  { apply Hanswer; [by rewrite Ho..|]. by apply stat_response_spec. }
  destruct (Z.eqb_spec opcode BVSTK_DCP2_FS_OPEN) as [Ho|Hne].
  { apply runs_bind. rewrite Ho. eapply runs_mono; [by apply open_response_spec|]. intros res s' Ha. by apply runs_ret. }
  destruct (_ && _); [by apply Herr|]. destruct (negb _); [by apply Herr|].
  destruct (Z.eqb_spec (bvstk_dcp2_read_be32 (Some body) 0) 0); [by apply Herr|].
  by apply handle_loop_spec.
Qed.

Lemma fresh_session_ok x : files x = F -> dirs x = D -> session_ok [] (bvstk_dcp2_fs_init (Some b), x).
Proof.
  intros Hf Hd. split; [|done| |constructor].
  - split; [done|]. exists zero_handle, zero_handle. split; [done|]. exists [], [], [], [].
    cbn [list_to_map foldr snd]. rewrite !(left_id_L ∅ (∪)). split; by apply SlotFree.
  - constructor; [by intros []|]. constructor; [by intros []|constructor].
Qed.
End two_slots.

(** *** Sequences of requests *)

Lemma serve_spec F D calls L s :
  session_ok F D L s -> Forall well_formed calls ->
  runs (serve calls) s (fun res s' => exists answers L', res = Some answers /\ session_ok F D L' s' /\ L ⊆ L' /\
    Forall2 (fun c a => alen a.2 <= fc_capacity c) calls answers /\
    (forall j c reply, calls !! j = Some c -> answers !! j = Some (FS_OK, reply) -> fc_opcode c = BVSTK_DCP2_FS_READ ->
       (forall e, e ∈ L -> op_handle e = bvstk_dcp2_read_be32 (Some (fc_body c)) 0 ->
          wrong \/ block_told e (bvstk_dcp2_read_be32 (Some (fc_body c)) 4) reply) /\
       (forall i c0 reply0, (i < j)%nat -> calls !! i = Some c0 -> answers !! i = Some (FS_OK, reply0) ->
          fc_opcode c0 = BVSTK_DCP2_FS_OPEN ->
          bvstk_dcp2_read_be32 (Some reply0) 0 = bvstk_dcp2_read_be32 (Some (fc_body c)) 0 ->
          wrong \/ block_told (opening_in (fc_body c0) reply0) (bvstk_dcp2_read_be32 (Some (fc_body c)) 4) reply))).
Proof.
  intros Hs Hcalls. revert L s Hs. induction Hcalls as [|c calls [Hbody Hcap] _ IH]; intros L s Hs.
  { apply runs_ret. exists [], L. split; [done|]. split; [done|]. split; [done|]. split; [constructor|done]. }
  cbn [serve]. apply runs_bind. eapply runs_mono; [by apply request_spec|].
  intros res s1 (status & reply & L1 & -> & Hle & HL1 & Hs1 & Hopen & Hread). cbn beta iota. apply runs_bind.
  eapply runs_mono; [by apply (IH L1)|]. intros res s2 (answers & L2 & -> & Hs2 & HL2 & Hfit & Htold). apply runs_ret.
  exists ((status, reply) :: answers), L2. split; [done|]. split; [done|]. split; [by trans L1|].
  split; [by constructor|]. intros [|j] c1 reply1; cbn [lookup list_lookup].
  - intros [= <-] [= -> <-] Hop. split; [intros e He Heq; by apply Hread|]. intros i c0 r0 Hi. lia.
  - intros Hc1 Ha1 Hop. destruct (Htold j c1 reply1 Hc1 Ha1 Hop) as [H1 H2]. split; [intros e He; by apply H1, HL1|].
    intros [|i] c0 reply0 Hi; cbn [lookup list_lookup].
    + intros [= <-] [= -> <-] Hop0 Heq. apply H1; [by apply Hopen|]. exact Heq.
    + intros Hc0 Ha0. apply (H2 i); [lia|done|done].
Qed.
End session.

Section properties.
Context {X : Type} (b : bvstk_fs_backend_t X).
Context (files : X -> gmap Z chars) (dirs : X -> gmap Z listing) (T : chars -> option object).

(** C5: Whatever requests a session gets, in any order, a READ that is answered
    with status 0 for a handle that an earlier OPEN was answered with carries the
    bytes of that block of the stream of the path, kind and flags of that OPEN -
    whether it is asked for the first time or again - with the end of the stream
    marked on a block only when nothing follows it, and, save for TREE, always
    then.  Handles are never mixed up, even after a close or an expiry. *)
Theorem dcp2_fs_blocks_exact fails `{!Serves b files dirs T False fails} calls x :
  Forall well_formed calls ->
  runs (serve calls) (bvstk_dcp2_fs_init (Some b), x) (fun res _ => exists answers, res = Some answers /\
    forall i j opening_call reading_call opening_reply reading_reply, (i < j)%nat ->
      calls !! i = Some opening_call -> answers !! i = Some (FS_OK, opening_reply) ->
      fc_opcode opening_call = BVSTK_DCP2_FS_OPEN ->
      calls !! j = Some reading_call -> answers !! j = Some (FS_OK, reading_reply) ->
      fc_opcode reading_call = BVSTK_DCP2_FS_READ ->
      bvstk_dcp2_read_be32 (Some opening_reply) 0 = bvstk_dcp2_read_be32 (Some (fc_body reading_call)) 0 ->
      block_told T (opening_in (fc_body opening_call) opening_reply)
        (bvstk_dcp2_read_be32 (Some (fc_body reading_call)) 4) reading_reply).
Proof.
  intros Hcalls. eapply runs_mono.
  { apply (serve_spec b files dirs T False fails (files x) (dirs x) calls []); [by apply fresh_session_ok|done]. }
  intros res s' (answers & L & -> & _ & _ & _ & Htold). exists answers. split; [done|].
  intros i j c0 c r0 r Hi Hc0 Ha0 Ho Hc Ha Hr Heq. destruct (Htold j c r Hc Ha Hr) as [_ H].
  by destruct (H i c0 r0 Hi Hc0 Ha0 Ho Heq).
Qed.

(** C36: Whatever requests a session gets and whatever the backend answers, every
    request returns, no reply is larger than the room there is for it, and a
    session that is destroyed leaves no file and no directory open and has closed
    none but its own. *)
Theorem dcp2_fs_returns_handles `{!Serves b files dirs T True True} calls x :
  Forall well_formed calls ->
  exists answers, (serve_and_destroy b calls x).1 = Some answers /\
    Forall2 (fun c answer => alen answer.2 <= fc_capacity c) calls answers /\
    files (serve_and_destroy b calls x).2.2 = files x /\ dirs (serve_and_destroy b calls x).2.2 = dirs x.
Proof.
  intros Hcalls. unfold serve_and_destroy.
  match goal with |- context [(st_bind ?m ?k) ?s] => enough (runs (st_bind m k) s (fun res s' => exists answers, res = Some answers /\
    Forall2 (fun c answer => alen answer.2 <= fc_capacity c) calls answers /\ files s'.2 = files x /\ dirs s'.2 = dirs x)) as H by exact H end.
  apply runs_bind. eapply runs_mono.
  { apply (serve_spec b files dirs T True True (files x) (dirs x) calls []); [by apply fresh_session_ok|done]. }
  intros res s1 (answers & L & -> & [Hs _ _ _] & _ & Hfit & _). cbn beta iota. apply runs_bind.
  eapply runs_mono; [exact (destroy_spec b files dirs T True True (files x) (dirs x) s1 Hs)|].
  intros [] s2 (Hf & Hd & _). apply runs_ret. by exists answers.
Qed.
End properties.

(** ** A run: a directory is opened as an archive, read, read again and closed *)

Definition demo_open : fs_call :=
  FsCall BVSTK_DCP2_FS_OPEN ([0; 0; 0; 7; 3; 0; 4; 0; 0; 4] ++ demo_root) 0 1040.
Definition demo_read (n : Z) : fs_call := FsCall BVSTK_DCP2_FS_READ [0; 0; 0; 1; 0; 0; 0; n] 10 1040.
Definition demo_calls : list fs_call :=
  [demo_open; demo_read 0; demo_read 1; demo_read 1; demo_read 3; demo_read 2; FsCall BVSTK_DCP2_FS_CLOSE [0; 0; 0; 1] 20 0].

Lemma demo_calls_formed : Forall well_formed demo_calls.
Proof.
  assert (forall l, forallb (fun c => (0 <=? c) && (c <? 256)) l = true -> Forall byte l) as Hb.
  { intros l Hl. apply Forall_forall. intros c Hc. rewrite forallb_forall in Hl. apply list_elem_of_In in Hc.
    apply Hl, andb_true_iff in Hc as [? ?]. bsimp. done. }
  repeat constructor; try (by apply Hb); done.
Qed.

Definition demo_answers : option (list (Z * chars)) :=
  (serve demo_calls (bvstk_dcp2_fs_init (Some (memory_backend demo_objects)), Memory ∅ ∅)).1.

Lemma dcp2_fs_blocks_exact_witness :
  exists answers reply, demo_answers = Some answers /\ map fst answers = [0; 0; 0; 0; FS_RANGE; 0; 0] /\
    answers !! 3%nat = Some (FS_OK, reply) /\
    drop 12 reply = cells (stream_of BVSTK_FS_TAR 0 demo_root (ODir demo_listing)) 1024 1024.
Proof.
  destruct (dcp2_fs_blocks_exact (memory_backend demo_objects) m_files m_dirs demo_objects False demo_calls (Memory ∅ ∅) demo_calls_formed)
    as (answers & Hr & Hall).
  assert (demo_answers = Some answers) as Hd by exact Hr. clear Hr.
  assert (exists r0 r3, answers !! 0%nat = Some (FS_OK, r0) /\ answers !! 3%nat = Some (FS_OK, r3) /\
    r0 = [0; 0; 0; 1; 4; 0; 255; 255; 255; 255; 255; 255; 255; 255] /\ map fst answers = [0; 0; 0; 0; FS_RANGE; 0; 0])
    as (r0 & r3 & H0 & H3 & E0 & Est).
  { vm_compute in Hd. injection Hd as <-. eexists _, _. split; [reflexivity|]. split; [reflexivity|]. split; reflexivity. }
  exists answers, r3. split; [exact Hd|]. split; [exact Est|]. split; [exact H3|]. subst r0.
  destruct (Hall 0%nat 3%nat demo_open (demo_read 1) _ r3 ltac:(lia) eq_refl H0 eq_refl eq_refl H3 eq_refl eq_refl _ demo_servable) as [Hc _].
  exact Hc.
Defined.

Lemma dcp2_fs_returns_handles_witness :
  exists answers, (serve_and_destroy (memory_backend demo_objects) (take 3 demo_calls) (Memory ∅ ∅)).1 = Some answers /\
    map (fun a => alen a.2) answers = [14; 1036; 1036] /\
    m_dirs (serve_and_destroy (memory_backend demo_objects) (take 3 demo_calls) (Memory ∅ ∅)).2.2 = ∅.
Proof.
  destruct (dcp2_fs_returns_handles (memory_backend demo_objects) m_files m_dirs demo_objects (take 3 demo_calls) (Memory ∅ ∅))
    as (answers & Hr & _ & _ & Hd).
  - apply Forall_take, demo_calls_formed.
  - exists answers. split; [exact Hr|]. split; [|exact Hd]. vm_compute in Hr. injection Hr as <-. reflexivity.
Defined.
