(* ===== verification/SdController.v ===== *)
(** * SdController: the FIFO SD driver

    [src/src/drivers/pl/sd/bvstk_sd_controller.c]: blocks of a card through the
    data window of the SPI controller, at most eight in a transfer, polled or with
    a completion callback.  Polling loops carry fuel and return [None] without
    it. *)
From stdpp Require Import prelude.
From Stdlib Require Import ZArith Lia.
From S2P Require Import Prelude Platform PlAccess.
Local Open Scope Z_scope.

(** ** Registers (hardware/pl/sd/bvstk_sd_regs.h) *)

Definition BVSTK_SD_CONTROLLER_BASE : Z := BVSTK_SPI_MASTER_BASE.
Definition BVSTK_SD_CONTROLLER_SIZE : Z := 0x00010000.
Definition BVSTK_SD_SECTOR_SIZE : Z := 512.
Definition BVSTK_SD_CLOCK_DIV_DEFAULT : Z := 50.

Definition BVSTK_SD_CONTROL_OFFSET : Z := 0x00.
Definition BVSTK_SD_STATUS_OFFSET : Z := 0x04.
Definition BVSTK_SD_BLOCK_OFFSET : Z := 0x08.
Definition BVSTK_SD_BUFFER_INDEX_OFFSET : Z := 0x10.
Definition BVSTK_SD_CLOCK_DIV_OFFSET : Z := 0x14.
Definition BVSTK_SD_BLOCK_COUNT_OFFSET : Z := 0x20.
Definition BVSTK_SD_DATA_WINDOW_OFFSET : Z := 0x100.
Definition BVSTK_SD_MAX_TRANSFER_BLOCKS : Z := 8.
Definition BVSTK_SD_BUFFER_WORDS_PER_BLOCK : Z := BVSTK_SD_SECTOR_SIZE `div` 4.
Definition BVSTK_SD_CONTROL_INIT : Z := Z.shiftl 1 0.
Definition BVSTK_SD_CONTROL_READ : Z := Z.shiftl 1 1.
Definition BVSTK_SD_CONTROL_WRITE : Z := Z.shiftl 1 2.
Definition BVSTK_SD_CONTROL_CLEAR : Z := Z.shiftl 1 3.
Definition BVSTK_SD_STATUS_BUSY : Z := Z.shiftl 1 0.
Definition BVSTK_SD_STATUS_DONE : Z := Z.shiftl 1 1.
Definition BVSTK_SD_STATUS_ERROR : Z := Z.shiftl 1 2.
Definition BVSTK_SD_STATUS_INITIALIZED : Z := Z.shiftl 1 3.
Definition BVSTK_SD_STATUS_HIGH_CAPACITY : Z := Z.shiftl 1 4.
Definition BVSTK_SD_STATUS_ERROR_SHIFT : Z := 8.
Definition BVSTK_SD_STATUS_ERROR_MASK : Z := 0x0000FF00.

Definition BVSTK_SD_BLOCK_SIZE : Z := BVSTK_SD_SECTOR_SIZE.
Definition BVSTK_SD_DEFAULT_TIMEOUT_MS : Z := 5000.

Record bvstk_sd_controller_status_t := SdStatus {
  st_busy : bool;
  st_done : bool;
  st_error : bool;
  st_initialized : bool;
  st_high_capacity : bool;
  st_error_code : Z
}.

(** [read_status] of the register's value. *)
Definition status_of (value : Z) : bvstk_sd_controller_status_t :=
  SdStatus (truth (Z.land value BVSTK_SD_STATUS_BUSY)) (truth (Z.land value BVSTK_SD_STATUS_DONE))
    (truth (Z.land value BVSTK_SD_STATUS_ERROR)) (truth (Z.land value BVSTK_SD_STATUS_INITIALIZED))
    (truth (Z.land value BVSTK_SD_STATUS_HIGH_CAPACITY))
    (u8 (Z.shiftr (Z.land value BVSTK_SD_STATUS_ERROR_MASK) BVSTK_SD_STATUS_ERROR_SHIFT)).

Section controller.
Context {X : Type} `{PL : Platform X}.

Record bvstk_sd_completion_ops_t := SdCompletion {
  cp_prepare : option (X -> bvstk_status_t * X);
  cp_wait : option (Z -> X -> bvstk_status_t * X)
}.

Record bvstk_sd_controller_config_t := SdConfig {
  cf_timeout_ms : Z;
  cf_clock_div : Z;
  cf_completion : bvstk_sd_completion_ops_t
}.

Record bvstk_sd_controller_t := SdController {
  sc_registers : bvstk_mmio_region_t;
  sc_clock : bvstk_clock_t X;
  sc_mutex : bvstk_mutex_t X;
  sc_config : bvstk_sd_controller_config_t;
  sc_initialized : bool
}.

Definition zero_sd_config : bvstk_sd_controller_config_t := SdConfig 0 0 (SdCompletion None None).
Definition zero_sd_controller : bvstk_sd_controller_t :=
  SdController zero_region (Clock None None) (Mutex None None) zero_sd_config false.

Definition sd_effective_timeout (controller : bvstk_sd_controller_t) (timeout_ms : Z) : Z :=
  if negb (timeout_ms =? 0) then timeout_ms
  else if negb (cf_timeout_ms (sc_config controller) =? 0) then cf_timeout_ms (sc_config controller)
  else BVSTK_SD_DEFAULT_TIMEOUT_MS.

(** The output is always given. *)
Definition sd_normalize_config (input : option bvstk_sd_controller_config_t) : bvstk_sd_controller_config_t :=
  let output :=
    match input with
    | Some c => c
    | None => SdConfig BVSTK_SD_DEFAULT_TIMEOUT_MS BVSTK_SD_CLOCK_DIV_DEFAULT (SdCompletion None None)
    end in
  let timeout := if cf_timeout_ms output =? 0 then BVSTK_SD_DEFAULT_TIMEOUT_MS else cf_timeout_ms output in
  let div := if cf_clock_div output =? 0 then BVSTK_SD_CLOCK_DIV_DEFAULT else cf_clock_div output in
  SdConfig timeout div (cf_completion output).

Definition lock_controller (controller : bvstk_sd_controller_t) (timeout_ms : Z) : ST X bvstk_status_t :=
  bvstk_mutex_lock (Some (sc_mutex controller)) (sd_effective_timeout controller timeout_ms).

Definition unlock_controller (controller : bvstk_sd_controller_t) : ST X unit :=
  fun x => (tt, bvstk_mutex_unlock (Some (sc_mutex controller)) x).

(** [status] is given; the second result is what is stored. *)
Definition read_status (controller : bvstk_sd_controller_t) : ST X (bvstk_status_t * bvstk_sd_controller_status_t) :=
  let! value := read32 (sc_registers controller) BVSTK_SD_STATUS_OFFSET in
  st_ret (fst value, status_of (snd value)).

Fixpoint wait_loop (fuel : nat) (controller : bvstk_sd_controller_t) (started effective : Z) : ST X (option bvstk_status_t) :=
  match fuel with
  | O => st_ret None
  | S fuel =>
      let! result :=
        match cp_wait (cf_completion (sc_config controller)) with
        | Some wait => wait effective
        | None => st_ret BVSTK_OK
        end in
      if negb (is_ok result) && negb (bool_decide (result = BVSTK_ERR_TIMEOUT)) then st_ret (Some result)
      else
        let! status := read_status controller in
        if negb (is_ok (fst status)) then st_ret (Some (fst status))
        else if negb (st_busy (snd status)) then
          if st_error (snd status) then st_ret (Some BVSTK_ERR_IO)
          else st_ret (Some (if st_done (snd status) then BVSTK_OK else BVSTK_ERR_IO))
        else
          match cp_wait (cf_completion (sc_config controller)) with
          | Some _ => st_ret (Some BVSTK_ERR_TIMEOUT)
          | None =>
              let! now := bvstk_clock_now_ms (Some (sc_clock controller)) in
              if effective <=? u64 (now - started) then st_ret (Some BVSTK_ERR_TIMEOUT)
              else clock_sleep (Some (sc_clock controller)) 1 ;; wait_loop fuel controller started effective
          end
  end.

Definition wait_for_done (fuel : nat) (controller : bvstk_sd_controller_t) (timeout_ms : Z) : ST X (option bvstk_status_t) :=
  let! started := bvstk_clock_now_ms (Some (sc_clock controller)) in
  wait_loop fuel controller started (sd_effective_timeout controller timeout_ms).

Definition prepare_completion (controller : bvstk_sd_controller_t) : ST X bvstk_status_t :=
  match cp_prepare (cf_completion (sc_config controller)) with
  | None => st_ret BVSTK_OK
  | Some prepare => prepare
  end.

Definition clear_result (controller : bvstk_sd_controller_t) : ST X bvstk_status_t :=
  write32 (sc_registers controller) BVSTK_SD_CONTROL_OFFSET BVSTK_SD_CONTROL_CLEAR.

(** The words [word .. word + n) of the window into [buffer] from [at] on; a word
    is four bytes, the least significant first. *)
Fixpoint copy_from_loop (n : nat) (controller : bvstk_sd_controller_t) (at_ word : Z) (buffer : list Z)
    : ST X (bvstk_status_t * list Z) :=
  match n with
  | O => st_ret (BVSTK_OK, buffer)
  | S n =>
      let! value := read32 (sc_registers controller) (BVSTK_SD_DATA_WINDOW_OFFSET + word * 4) in
      if negb (is_ok (fst value)) then st_ret (fst value, buffer)
      else copy_from_loop n controller at_ (word + 1) (store_bytes buffer (at_ + word * 4) (snd value) 4)
  end.

Definition copy_buffer_from_controller (controller : bvstk_sd_controller_t) (at_ : Z) (buffer : list Z) (sector_count : Z)
    : ST X (bvstk_status_t * list Z) :=
  if (sector_count =? 0) || (BVSTK_SD_MAX_TRANSFER_BLOCKS <? sector_count) then st_ret (BVSTK_ERR_IO, buffer)
  else
    let! status := write32 (sc_registers controller) BVSTK_SD_BUFFER_INDEX_OFFSET 0 in
    if negb (is_ok status) then st_ret (BVSTK_ERR_IO, buffer)
    else copy_from_loop (Z.to_nat (sector_count * BVSTK_SD_BUFFER_WORDS_PER_BLOCK)) controller at_ 0 buffer.

Fixpoint copy_to_loop (n : nat) (controller : bvstk_sd_controller_t) (at_ word : Z) (buffer : list Z) : ST X bvstk_status_t :=
  match n with
  | O => st_ret BVSTK_OK
  | S n =>
      let! status := write32 (sc_registers controller) (BVSTK_SD_DATA_WINDOW_OFFSET + word * 4) (pack_word buffer (at_ + word * 4) 4) in
      if negb (is_ok status) then st_ret BVSTK_ERR_IO else copy_to_loop n controller at_ (word + 1) buffer
  end.

Definition copy_buffer_to_controller (controller : bvstk_sd_controller_t) (at_ : Z) (buffer : list Z) (sector_count : Z)
    : ST X bvstk_status_t :=
  if (sector_count =? 0) || (BVSTK_SD_MAX_TRANSFER_BLOCKS <? sector_count) then st_ret BVSTK_ERR_IO
  else
    let! status := write32 (sc_registers controller) BVSTK_SD_BUFFER_INDEX_OFFSET 0 in
    if negb (is_ok status) then st_ret BVSTK_ERR_IO
    else copy_to_loop (Z.to_nat (sector_count * BVSTK_SD_BUFFER_WORDS_PER_BLOCK)) controller at_ 0 buffer.

(** A step of a sequence that stops at the first failure. *)
Definition when_ok (status : bvstk_status_t) (m : ST X bvstk_status_t) : ST X bvstk_status_t :=
  if is_ok status then m else st_ret status.

(** Clear the last result, announce and give a command, wait for its end: the
    middle of [transfer_chunk] and of [bvstk_sd_controller_initialize_card]. *)
Definition issue (fuel : nat) (controller : bvstk_sd_controller_t) (command timeout_ms : Z) : ST X (option bvstk_status_t) :=
  let! result := clear_result controller in
  let! result := when_ok result (prepare_completion controller) in
  let! result := when_ok result (write32 (sc_registers controller) BVSTK_SD_CONTROL_OFFSET command) in
  if is_ok result then wait_for_done fuel controller timeout_ms else st_ret (Some result).

(** The result, and the buffer as a read leaves it; [write] selects which of the
    buffers of the code [buffer] is. *)
Definition transfer_chunk (fuel : nat) (controller : bvstk_sd_controller_t) (sector at_ : Z) (buffer : list Z) (write : bool)
    (sector_count timeout_ms : Z) : ST X (option (bvstk_status_t * list Z)) :=
  if (sector_count =? 0) || (BVSTK_SD_MAX_TRANSFER_BLOCKS <? sector_count) then st_ret (Some (BVSTK_ERR_RANGE, buffer))
  else
    let! result := write32 (sc_registers controller) BVSTK_SD_BLOCK_OFFSET sector in
    let! result := when_ok result (write32 (sc_registers controller) BVSTK_SD_BLOCK_COUNT_OFFSET (u32 sector_count)) in
    if negb (is_ok result) then st_ret (Some (result, buffer))
    else
      let! result := (if write then copy_buffer_to_controller controller at_ buffer sector_count else st_ret result) in
      let? result :=
        (if is_ok result then
           issue fuel controller (if write then BVSTK_SD_CONTROL_WRITE else BVSTK_SD_CONTROL_READ) timeout_ms
         else st_ret (Some result)) in
      if is_ok result && negb write then
        let! r := copy_buffer_from_controller controller at_ buffer sector_count in st_ret (Some r)
      else st_ret (Some (result, buffer)).

Definition bvstk_sd_controller_shutdown (controller : option bvstk_sd_controller_t) : option bvstk_sd_controller_t :=
  match controller with None => None | Some _ => Some zero_sd_controller end.

Definition bvstk_sd_controller_init (controller : option bvstk_sd_controller_t) (config : option bvstk_sd_controller_config_t)
    (clock : option (bvstk_clock_t X)) (mutex : option (bvstk_mutex_t X)) : ST X (bvstk_status_t * option bvstk_sd_controller_t) :=
  match controller with
  | None => st_ret (BVSTK_ERR_MALFORMED, None)
  | Some _ =>
      let config := sd_normalize_config config in
      let clock := default (Clock None None) clock in
      let mutex := default (Mutex None None) mutex in
      match bvstk_mmio_region_open (Some zero_region) BVSTK_SD_CONTROLLER_BASE BVSTK_SD_CONTROLLER_SIZE with
      | None => st_ret (BVSTK_ERR_IO, Some (SdController zero_region clock mutex config false))
      | Some registers =>
          let! status := write32 registers BVSTK_SD_CLOCK_DIV_OFFSET (cf_clock_div config) in
          if negb (is_ok status) then st_ret (BVSTK_ERR_IO, bvstk_sd_controller_shutdown controller)
          else st_ret (BVSTK_OK, Some (SdController registers clock mutex config true))
      end
  end.

(** [None]: the controller is NULL or closed. *)
Definition ready_controller (controller : option bvstk_sd_controller_t) : option bvstk_sd_controller_t :=
  match controller with
  | Some c => if sc_initialized c then Some c else None
  | None => None
  end.

(** [status] tells whether the pointer is set. *)
Definition bvstk_sd_controller_get_status (controller : option bvstk_sd_controller_t) (status : bool)
    : ST X (bvstk_status_t * option bvstk_sd_controller_status_t) :=
  match ready_controller controller with
  | None => st_ret (BVSTK_ERR_NOT_READY, None)
  | Some c =>
      if negb status then st_ret (BVSTK_ERR_MALFORMED, None)
      else
        let! r := read_status c in
        st_ret (fst r, if is_ok (fst r) then Some (snd r) else None)
  end.

Definition bvstk_sd_controller_initialize_card (fuel : nat) (controller : option bvstk_sd_controller_t) (timeout_ms : Z)
    : ST X (option bvstk_status_t) :=
  match ready_controller controller with
  | None => st_ret (Some BVSTK_ERR_NOT_READY)
  | Some c =>
      let! result := lock_controller c timeout_ms in
      if negb (is_ok result) then st_ret (Some result)
      else
        let? result := issue fuel c BVSTK_SD_CONTROL_INIT timeout_ms in
        unlock_controller c ;;
        st_ret (Some result)
  end.

(** The loop over the chunks; every round takes a sector at least. *)
Fixpoint chunks_loop (rounds fuel : nat) (controller : bvstk_sd_controller_t) (write : bool) (first_sector sector sector_count : Z)
    (timeout_ms : Z) (result : bvstk_status_t) (buffer : list Z) : ST X (option (bvstk_status_t * list Z)) :=
  match rounds with
  | O => st_ret None
  | S rounds =>
      if is_ok result && (sector <? sector_count) then
        let chunk := Z.min (sector_count - sector) BVSTK_SD_MAX_TRANSFER_BLOCKS in
        let? (result, buffer) := transfer_chunk fuel controller (u32 (first_sector + u32 sector)) (sector * BVSTK_SD_BLOCK_SIZE) buffer
                                   write chunk timeout_ms in
        chunks_loop rounds fuel controller write first_sector (sector + chunk) sector_count timeout_ms result buffer
      else st_ret (Some (result, buffer))
  end.

(** [bvstk_sd_controller_read] and [bvstk_sd_controller_write], which differ in
    [write]; the result is the status and the caller's buffer. *)
Definition sd_controller_transfer (fuel : nat) (write : bool) (controller : option bvstk_sd_controller_t) (first_sector : Z)
    (buffer : option (list Z)) (sector_count timeout_ms : Z) : ST X (option (bvstk_status_t * option (list Z))) :=
  match ready_controller controller with
  | None => st_ret (Some (BVSTK_ERR_NOT_READY, buffer))
  | Some c =>
      match buffer with
      | None => st_ret (Some (BVSTK_ERR_RANGE, buffer))
      | Some data =>
          if (sector_count =? 0) || (4294967295 - first_sector <? sector_count - 1) then st_ret (Some (BVSTK_ERR_RANGE, buffer))
          else
            let! result := lock_controller c timeout_ms in
            if negb (is_ok result) then st_ret (Some (result, buffer))
            else
              let! status := read_status c in
              let result := if is_ok (fst status) && negb (st_initialized (snd status)) then BVSTK_ERR_NOT_READY else fst status in
              let? (result, data) := chunks_loop (S (Z.to_nat sector_count)) fuel c write first_sector 0 sector_count timeout_ms result data in
              unlock_controller c ;;
              st_ret (Some (result, Some data))
      end
  end.

Definition bvstk_sd_controller_read (fuel : nat) := sd_controller_transfer fuel false.
Definition bvstk_sd_controller_write (fuel : nat) := sd_controller_transfer fuel true.
End controller.

Arguments bvstk_sd_completion_ops_t : clear implicits.
Arguments bvstk_sd_controller_config_t : clear implicits.
Arguments bvstk_sd_controller_t : clear implicits.
