(* ===== verification/SdControllerSafety.v ===== *)
(** * SdControllerSafety: what the FIFO SD driver does on the bus

    The register accesses of a transfer are a word of the grammar below: chunks of
    at most eight blocks that follow one another from the first sector on, each
    written or read whole, each started once, the first that fails the last. *)
From stdpp Require Import prelude.
From Stdlib Require Import ZArith Lia.
From S2P Require Import Prelude Platform PlAccess SdController.
Local Open Scope Z_scope.

(** ** The grammar *)

Definition sd_reg (offset : Z) : Z := BVSTK_SD_CONTROLLER_BASE + offset.

Definition sd_verdict (v : Z) : bvstk_status_t :=
  if st_error (status_of v) then BVSTK_ERR_IO else if st_done (status_of v) then BVSTK_OK else BVSTK_ERR_IO.

Inductive sd_wait : list io -> bvstk_status_t -> Prop :=
  | sd_answered v : st_busy (status_of v) = false -> sd_wait [Rd (sd_reg BVSTK_SD_STATUS_OFFSET) v] (sd_verdict v)
  | sd_late v : st_busy (status_of v) = true -> sd_wait [Rd (sd_reg BVSTK_SD_STATUS_OFFSET) v] BVSTK_ERR_TIMEOUT
  | sd_poll v l st : st_busy (status_of v) = true -> sd_wait l st -> sd_wait (Rd (sd_reg BVSTK_SD_STATUS_OFFSET) v :: l) st
  | sd_unanswered st : st <> BVSTK_OK -> sd_wait [] st.

(** A command for [n] blocks from [sector] on, after [body]. *)
Definition sd_setup (sector n : Z) (body : list io) : list io :=
  [Wr (sd_reg BVSTK_SD_BLOCK_OFFSET) sector; Wr (sd_reg BVSTK_SD_BLOCK_COUNT_OFFSET) n] ++ body ++
  [Wr (sd_reg BVSTK_SD_CONTROL_OFFSET) BVSTK_SD_CONTROL_CLEAR].

Inductive sd_chunk (sector n : Z) (body : list io) (command : Z) : list io -> bvstk_status_t -> Prop :=
  | sd_started w st : sd_wait w st ->
      sd_chunk sector n body command (sd_setup sector n body ++ Wr (sd_reg BVSTK_SD_CONTROL_OFFSET) command :: w) st
  | sd_unprepared st : st <> BVSTK_OK -> sd_chunk sector n body command (sd_setup sector n body) st.

(** Bytes through the window, four to a word. *)
Definition window_writes (data : list Z) : list io :=
  Wr (sd_reg BVSTK_SD_BUFFER_INDEX_OFFSET) 0 ::
  map (fun k => Wr (sd_reg (BVSTK_SD_DATA_WINDOW_OFFSET + 4 * k)) (pack_word data (4 * k) 4)) (seqZ 0 (alen data `div` 4)).

Definition window_reads (m : Z -> Z) (n : Z) : list io :=
  Wr (sd_reg BVSTK_SD_BUFFER_INDEX_OFFSET) 0 ::
  map (fun k => Rd (sd_reg (BVSTK_SD_DATA_WINDOW_OFFSET + 4 * k)) (m (4 * k))) (seqZ 0 n).

Inductive sd_writes : Z -> list Z -> list io -> bvstk_status_t -> Prop :=
  | sd_written sector : sd_writes sector [] [] BVSTK_OK
  | sd_write_next sector n data rest l l' st :
      0 < n <= BVSTK_SD_MAX_TRANSFER_BLOCKS -> alen data = n * BVSTK_SD_BLOCK_SIZE ->
      (rest <> [] -> n = BVSTK_SD_MAX_TRANSFER_BLOCKS) ->
      sd_chunk sector n (window_writes data) BVSTK_SD_CONTROL_WRITE l BVSTK_OK -> sd_writes (sector + n) rest l' st ->
      sd_writes sector (data ++ rest) (l ++ l') st
  | sd_write_failed sector n data rest l st :
      0 < n <= BVSTK_SD_MAX_TRANSFER_BLOCKS -> alen data = n * BVSTK_SD_BLOCK_SIZE -> st <> BVSTK_OK ->
      sd_chunk sector n (window_writes data) BVSTK_SD_CONTROL_WRITE l st -> sd_writes sector (data ++ rest) l st.

(** The last argument are the bytes that were read. *)
Inductive sd_reads : Z -> Z -> list io -> bvstk_status_t -> list Z -> Prop :=
  | sd_read_all sector : sd_reads sector 0 [] BVSTK_OK []
  | sd_read_next sector n count m l l' st bytes :
      0 < n <= BVSTK_SD_MAX_TRANSFER_BLOCKS -> n = Z.min count BVSTK_SD_MAX_TRANSFER_BLOCKS ->
      sd_chunk sector n [] BVSTK_SD_CONTROL_READ l BVSTK_OK -> sd_reads (sector + n) (count - n) l' st bytes ->
      sd_reads sector count (l ++ window_reads m (n * BVSTK_SD_BUFFER_WORDS_PER_BLOCK) ++ l') st
        (map (mem_byte m 0) (seqZ 0 (n * BVSTK_SD_BLOCK_SIZE)) ++ bytes)
  | sd_read_failed sector n count l st :
      0 < n <= BVSTK_SD_MAX_TRANSFER_BLOCKS -> n = Z.min count BVSTK_SD_MAX_TRANSFER_BLOCKS -> st <> BVSTK_OK ->
      sd_chunk sector n [] BVSTK_SD_CONTROL_READ l st -> sd_reads sector count l st [].

(** ** The driver *)

Section protocol.
Context {X : Type} `{PL : Platform X} (c : bvstk_sd_controller_t X).
Context (log : X -> list io) (time : X -> Z) `{HT : !Traced (Some (sc_clock c)) log time}.

(** As [init] leaves it. *)
Definition sd_controller_open : Prop :=
  sc_initialized c = true /\
  sc_registers c = Region BVSTK_SD_CONTROLLER_BASE BVSTK_SD_CONTROLLER_SIZE BVSTK_SD_CONTROLLER_BASE.

(** Callbacks leave the registers alone. *)
Definition sd_quiet : Prop :=
  (forall t x, log (snd (bvstk_mutex_lock (Some (sc_mutex c)) t x)) = log x) /\
  (forall x, log (bvstk_mutex_unlock (Some (sc_mutex c)) x) = log x) /\
  (forall f x, cp_prepare (cf_completion (sc_config c)) = Some f -> log (snd (f x)) = log x /\ time x <= time (snd (f x))) /\
  (forall f t x, cp_wait (cf_completion (sc_config c)) = Some f -> log (snd (f t x)) = log x /\ time x <= time (snd (f t x))).

Context (Hopen : sd_controller_open) (Hquiet : sd_quiet).
Local Abbreviation afterc := (after log time).

Lemma sd_write offset v x :
  0 <= offset -> offset + 4 <= BVSTK_SD_CONTROLLER_SIZE -> offset mod 4 = 0 ->
  runs (write32 (sc_registers c) offset v) x (fun st x' => st = BVSTK_OK /\ afterc x x' [Wr (sd_reg offset) v]).
Proof.
  intros. eapply runs_mono.
  { apply (write32_traced _ log time _ BVSTK_SD_CONTROLLER_BASE BVSTK_SD_CONTROLLER_SIZE); [|done..]. by destruct Hopen as (_ & ->). }
  by intros ? x1 (-> & Hx & _).
Qed.

Lemma sd_read offset x :
  0 <= offset -> offset + 4 <= BVSTK_SD_CONTROLLER_SIZE -> offset mod 4 = 0 ->
  runs (read32 (sc_registers c) offset) x (fun r x' => exists v,
    r = (BVSTK_OK, v) /\ afterc x x' [Rd (sd_reg offset) v] /\ time x' < time x + 2 ^ 32).
Proof. intros. eapply read32_traced; try done. by destruct Hopen as (_ & ->). Qed.

Lemma sd_seq x1 x2 x3 l1 l2 : afterc x1 x2 l1 -> afterc x2 x3 l2 -> afterc x1 x3 (l1 ++ l2).
Proof. apply after_trans. Qed.

Lemma read_status_trace x :
  runs (read_status c) x (fun r x' => exists v, r = (BVSTK_OK, status_of v) /\
    afterc x x' [Rd (sd_reg BVSTK_SD_STATUS_OFFSET) v] /\ time x' < time x + 2 ^ 32).
Proof.
  unfold read_status. apply runs_bind. eapply runs_mono; [by apply sd_read|]. intros ? x1 (v & -> & H1 & H2).
  apply runs_ret. by exists v.
Qed.

Lemma wait_loop_trace fuel t0 effective x :
  0 <= effective < 2 ^ 32 -> polling time t0 effective fuel x ->
  runs (wait_loop fuel c (u64 t0) effective) x (fun o x' => exists st l, o = Some st /\ afterc x x' l /\ sd_wait l st).
Proof.
  intros Hto. revert x. induction fuel as [|fuel IH]; intros x (Hp & Hf & Hf'); [lia|].
  cbn [wait_loop]. destruct Hquiet as (_ & _ & _ & Hwait). destruct (cp_wait (cf_completion (sc_config c))) as [wait|].
  - apply runs_bind. destruct (Hwait wait effective x eq_refl) as [Hl Ht]. unfold runs at 1.
    destruct (wait effective x) as [result x1]. cbn [fst snd] in *.
    assert (afterc x x1 []) as H1 by (split; [by rewrite Hl, app_nil_r|lia]).
    destruct (is_ok result) eqn:Eok; [|destruct (bool_decide (result = BVSTK_ERR_TIMEOUT))]; cbn [negb andb].
    3: { apply runs_ret. exists result, []. split; [done|]. split; [done|]. constructor. by apply is_ok_false. }
    all: apply runs_bind; (eapply runs_mono; [apply read_status_trace|]); intros ? x2 (v & -> & H2 & _); cbn [fst snd is_ok negb];
      pose proof (sd_seq _ _ _ [] _ H1 H2) as H3; destruct (st_busy (status_of v)) eqn:Eb; cbn [negb].
    1, 3: apply runs_ret; exists BVSTK_ERR_TIMEOUT; eexists; split; [done|]; split; [exact H3|by constructor].
    all: assert (sd_wait [Rd (sd_reg BVSTK_SD_STATUS_OFFSET) v] (sd_verdict v)) as Hw by (by constructor);
      unfold sd_verdict in Hw; destruct (st_error (status_of v)); apply runs_ret; eauto.
  - apply runs_bind, runs_ret. cbn [is_ok negb andb]. apply runs_bind. eapply runs_mono; [apply read_status_trace|].
    intros ? x1 (v & -> & H1 & H1'). cbn [fst snd is_ok negb]. pose proof H1 as [_ Ht].
    destruct (st_busy (status_of v)) eqn:Eb; cbn [negb].
    2: { assert (sd_wait [Rd (sd_reg BVSTK_SD_STATUS_OFFSET) v] (sd_verdict v)) as Hw by (by constructor).
         unfold sd_verdict in Hw. destruct (st_error (status_of v)); apply runs_ret; eauto. }
    apply (poll_again _ log time _ fuel t0 effective); [lia|done|lia|..].
    + intros x2 H2 _. eexists _, _. split; [done|]. split; [by apply (sd_seq _ _ _ [_] [] H1 H2)|by apply sd_late].
    + intros x2 H2 Hp2 _. eapply runs_mono; [by apply IH|]. intros ? x3 (st & l & -> & H3 & Hw).
      eexists _, (_ :: l). split; [done|]. split; [by apply (sd_seq _ _ _ [_] _ H1 (sd_seq _ _ _ [] _ H2 H3))|by apply sd_poll].
Qed.

Lemma sd_effective_range timeout : 0 <= timeout < 2 ^ 32 -> fits 32 (cf_timeout_ms (sc_config c)) ->
  0 <= sd_effective_timeout c timeout < 2 ^ 32.
Proof.
  intros Hto Hcf. unfold fits, sd_effective_timeout, BVSTK_SD_DEFAULT_TIMEOUT_MS in *. destruct (timeout =? 0); cbn [negb]; [|done].
  destruct (_ =? 0); cbn [negb]; lia.
Qed.

Context (Hconfig : fits 32 (cf_timeout_ms (sc_config c))).

Lemma wait_for_done_trace fuel timeout x :
  0 <= timeout < 2 ^ 32 -> sd_effective_timeout c timeout < Z.of_nat fuel ->
  runs (wait_for_done fuel c timeout) x (fun o x' => exists st l, o = Some st /\ afterc x x' l /\ sd_wait l st).
Proof.
  intros Hto Hf. unfold wait_for_done. apply runs_bind. eapply runs_mono; [apply (now_traced _ log time)|].
  intros ? x1 (-> & H1 & H1'). pose proof H1 as [_ Ht]. pose proof (sd_effective_range timeout Hto Hconfig).
  eapply runs_mono; [apply wait_loop_trace; [done|]; split; [|split]; lia|].
  intros ? x2 (st & l & -> & H2 & Hw). eexists _, _. split; [done|]. split; [exact (sd_seq _ _ _ [] _ H1 H2)|done].
Qed.

(** ** The window *)

Lemma pack_word_slice (data : list Z) (at_ n k : Z) :
  0 <= at_ -> 0 <= k -> 4 * k + 4 <= n -> at_ + n <= alen data ->
  pack_word (cells data at_ n) (4 * k) 4 = pack_word data (at_ + 4 * k) 4.
Proof.
  intros Ha Hk Hn Hl. unfold pack_word. change (Z.to_nat 4) with 4%nat.
  assert (forall j, 0 <= j < n -> (cells data at_ n).[j] = data.[at_ + j]) as Hget.
  { intros j Hj. unfold cells, prefix, aget. rewrite lookup_total_take, lookup_total_drop by lia.
    rewrite decide_True by lia. f_equal. lia. }
  cbn [for_each]. rewrite !Hget by lia. rewrite !Z.add_assoc. done.
Qed.

Definition word_writes (data : list Z) (at_ j n : Z) : list io :=
  map (fun k => Wr (sd_reg (BVSTK_SD_DATA_WINDOW_OFFSET + 4 * k)) (pack_word data (at_ + 4 * k) 4)) (seqZ j n).

Lemma window_offset k : 0 <= k < 1024 ->
  0 <= BVSTK_SD_DATA_WINDOW_OFFSET + k * 4 /\ BVSTK_SD_DATA_WINDOW_OFFSET + k * 4 + 4 <= BVSTK_SD_CONTROLLER_SIZE /\
  (BVSTK_SD_DATA_WINDOW_OFFSET + k * 4) mod 4 = 0.
Proof.
  unfold BVSTK_SD_DATA_WINDOW_OFFSET, BVSTK_SD_CONTROLLER_SIZE. intros Hk. split; [lia|]. split; [lia|].
  Z.to_euclidean_division_equations. lia.
Qed.

Lemma copy_to_loop_trace n at_ word buffer x :
  0 <= word -> word + Z.of_nat n <= 1024 ->
  runs (copy_to_loop n c at_ word buffer) x (fun st x' => st = BVSTK_OK /\ afterc x x' (word_writes buffer at_ word (Z.of_nat n))).
Proof.
  revert word x. induction n as [|n IH]; intros word x Hw Hn; cbn [copy_to_loop].
  { apply runs_ret. split; [done|]. apply after_refl. }
  destruct (window_offset word ltac:(lia)) as (H1 & H2 & H3).
  apply runs_bind. eapply runs_mono; [by apply sd_write|]. intros ? x1 [-> Hx1]. cbn [is_ok negb].
  eapply runs_mono; [apply IH; lia|]. intros ? x2 [-> Hx2]. split; [done|].
  unfold word_writes. rewrite Nat2Z.inj_succ, seqZ_cons, Z.pred_succ by lia. cbn [map].
  replace (Z.succ word) with (word + 1) by lia. replace (word * 4) with (4 * word) in Hx1 by lia. exact (sd_seq _ _ _ [_] _ Hx1 Hx2).
Qed.

Lemma copy_from_loop_trace n at_ word buffer x :
  0 <= at_ -> 0 <= word -> word + Z.of_nat n <= 1024 -> at_ + 4 * (word + Z.of_nat n) <= alen buffer ->
  runs (copy_from_loop n c at_ word buffer) x (fun r x' => exists m,
    r = (BVSTK_OK, prefix (at_ + 4 * word) buffer ++ map (mem_byte m 0) (seqZ (4 * word) (4 * Z.of_nat n)) ++
                   drop (Z.to_nat (at_ + 4 * (word + Z.of_nat n))) buffer) /\
    afterc x x' (map (fun k => Rd (sd_reg (BVSTK_SD_DATA_WINDOW_OFFSET + 4 * k)) (m (4 * k))) (seqZ word (Z.of_nat n)))).
Proof.
  revert word buffer x. induction n as [|n IH]; intros word buffer x Ha Hw Hn Hl; cbn [copy_from_loop].
  { apply runs_ret. exists (fun _ => 0). split; [|apply after_refl]. change (Z.of_nat 0) with 0. rewrite Z.add_0_r, seqZ_nil by done.
    unfold prefix. cbn [map app]. by rewrite take_drop. }
  destruct (window_offset word ltac:(lia)) as (H1 & H2 & H3).
  apply runs_bind. eapply runs_mono; [by apply sd_read|]. intros ? x1 (v & -> & Hx1 & _). cbn [fst snd is_ok negb].
  replace (word * 4) with (4 * word) in * by lia.
  destruct (store_bytes_spec buffer (at_ + 4 * word) v 4) as (Hl1 & Hp1 & Hd1); [lia..|].
  eapply runs_mono; [apply IH; [lia|lia|lia|rewrite Hl1; lia]|]. intros ? x2 (m & -> & Hx2).
  exists (fun a => if decide (a = 4 * word) then v else m a). split.
  - f_equal. replace (at_ + 4 * (word + 1)) with (at_ + 4 * word + 4) by lia. rewrite Hp1, <- app_assoc. f_equal.
    replace (4 * Z.of_nat (S n)) with (4 + 4 * Z.of_nat n) by lia. rewrite seqZ_app by lia. rewrite map_app, <- app_assoc. f_equal; [|f_equal].
    + pose proof (word_bytes (fun a => if decide (a = 4 * word) then v else m a) 0 (4 * word) 4) as Hb.
      rewrite Z.add_0_l, decide_True in Hb by done. apply Hb; [|lia]. Z.to_euclidean_division_equations. lia.
    + replace (4 * word + 4) with (4 * (word + 1)) by lia. apply map_ext_in. intros k Hk. apply list_elem_of_In, elem_of_seqZ in Hk.
      unfold mem_byte. rewrite decide_False; [done|]. Z.to_euclidean_division_equations. lia.
    + replace (at_ + 4 * (word + 1 + Z.of_nat n)) with (at_ + 4 * (word + Z.of_nat (S n))) by lia. apply Hd1. lia.
  - rewrite Nat2Z.inj_succ, seqZ_cons, Z.pred_succ by lia. cbn [map]. rewrite decide_True by done. replace (Z.succ word) with (word + 1) by lia.
    apply (sd_seq _ _ _ [_] _ Hx1). erewrite map_ext_in; [exact Hx2|]. intros k Hk. apply list_elem_of_In, elem_of_seqZ in Hk.
    cbn beta. by rewrite decide_False by lia.
Qed.

(** ** Chunks *)

Lemma issue_trace fuel command timeout x :
  0 <= timeout < 2 ^ 32 -> sd_effective_timeout c timeout < Z.of_nat fuel ->
  runs (issue fuel c command timeout) x (fun o x' => exists st l, o = Some st /\ afterc x x' l /\
    forall sector n body, exists l', sd_setup sector n body ++ l' =
        ([Wr (sd_reg BVSTK_SD_BLOCK_OFFSET) sector; Wr (sd_reg BVSTK_SD_BLOCK_COUNT_OFFSET) n] ++ body) ++ l /\
      sd_chunk sector n body command (sd_setup sector n body ++ l') st).
Proof.
  intros Hto Hf. unfold issue, clear_result, prepare_completion, when_ok. apply runs_bind. eapply runs_mono; [by apply sd_write|].
  intros ? x1 [-> H1]. cbn [is_ok]. apply runs_bind. destruct Hquiet as (_ & _ & Hprep & _).
  assert (forall sector n body l', sd_setup sector n body ++ l' =
    ([Wr (sd_reg BVSTK_SD_BLOCK_OFFSET) sector; Wr (sd_reg BVSTK_SD_BLOCK_COUNT_OFFSET) n] ++ body) ++
     [Wr (sd_reg BVSTK_SD_CONTROL_OFFSET) BVSTK_SD_CONTROL_CLEAR] ++ l') as Hsplit.
  { intros. unfold sd_setup. by rewrite <- !app_assoc. }
  assert (runs (match cp_prepare (cf_completion (sc_config c)) with Some p => p | None => st_ret BVSTK_OK end) x1
    (fun _ x' => afterc x1 x' [])) as Hp.
  { destruct (cp_prepare _) as [p|]; [|apply runs_ret, after_refl]. destruct (Hprep p x1 eq_refl) as [Hl Ht].
    split; [by rewrite Hl, app_nil_r|lia]. }
  eapply runs_mono; [exact Hp|]. intros result x2 H2. pose proof (sd_seq _ _ _ [_] [] H1 H2) as H12. cbn [app] in H12.
  destruct (is_ok result) eqn:Eok.
  - apply runs_bind. eapply runs_mono; [by apply sd_write|]. intros ? x3 [-> H3]. cbn [is_ok].
    eapply runs_mono; [by apply wait_for_done_trace|]. intros ? x4 (st & w & -> & H4 & Hw).
    exists st. eexists. split; [done|]. split; [exact (sd_seq _ _ _ [_] _ H12 (sd_seq _ _ _ [_] _ H3 H4))|].
    intros sector n body. exists (Wr (sd_reg BVSTK_SD_CONTROL_OFFSET) command :: w). split; [by rewrite Hsplit|by constructor].
  - apply runs_bind, runs_ret. rewrite Eok. apply runs_ret. exists result. eexists. split; [done|]. split; [exact H12|].
    intros sector n body. exists []. split; [by rewrite Hsplit|]. rewrite app_nil_r. constructor. by apply is_ok_false.
Qed.

Lemma copy_to_trace at_ buffer n x :
  1 <= n <= BVSTK_SD_MAX_TRANSFER_BLOCKS -> 0 <= at_ -> at_ + n * BVSTK_SD_BLOCK_SIZE <= alen buffer ->
  runs (copy_buffer_to_controller c at_ buffer n) x (fun st x' => st = BVSTK_OK /\
    afterc x x' (window_writes (cells buffer at_ (n * BVSTK_SD_BLOCK_SIZE)))).
Proof.
  unfold BVSTK_SD_MAX_TRANSFER_BLOCKS, BVSTK_SD_BLOCK_SIZE, BVSTK_SD_SECTOR_SIZE. intros Hn Ha Hl.
  unfold copy_buffer_to_controller, BVSTK_SD_MAX_TRANSFER_BLOCKS.
  rewrite (proj2 (Z.eqb_neq n 0)), (proj2 (Z.ltb_ge 8 n)) by lia. cbn [orb]. apply runs_bind.
  eapply runs_mono; [by apply sd_write|]. intros ? x1 [-> H1]. cbn [is_ok negb]. change BVSTK_SD_BUFFER_WORDS_PER_BLOCK with 128.
  eapply runs_mono; [apply copy_to_loop_trace; lia|]. intros ? x2 [-> H2]. split; [done|]. rewrite Z2Nat.id in H2 by lia.
  unfold window_writes. assert (alen (cells buffer at_ (n * 512)) = n * 512) as Hc.
  { unfold cells. rewrite alen_prefix; [done|]. unfold alen in *. rewrite length_drop. lia. }
  rewrite Hc. replace ((n * 512) `div` 4) with (n * 128) by (apply Z.div_unique_exact; lia).
  erewrite map_ext_in; [exact (sd_seq _ _ _ [_] _ H1 H2)|]. intros k Hk. apply list_elem_of_In, elem_of_seqZ in Hk. cbn beta.
  by rewrite pack_word_slice by lia.
Qed.

Lemma copy_from_trace at_ buffer n x :
  1 <= n <= BVSTK_SD_MAX_TRANSFER_BLOCKS -> 0 <= at_ -> at_ + n * BVSTK_SD_BLOCK_SIZE <= alen buffer ->
  runs (copy_buffer_from_controller c at_ buffer n) x (fun r x' => exists m,
    r = (BVSTK_OK, prefix at_ buffer ++ map (mem_byte m 0) (seqZ 0 (n * BVSTK_SD_BLOCK_SIZE)) ++
                   drop (Z.to_nat (at_ + n * BVSTK_SD_BLOCK_SIZE)) buffer) /\
    afterc x x' (window_reads m (n * BVSTK_SD_BUFFER_WORDS_PER_BLOCK))).
Proof.
  unfold BVSTK_SD_MAX_TRANSFER_BLOCKS, BVSTK_SD_BLOCK_SIZE, BVSTK_SD_SECTOR_SIZE. intros Hn Ha Hl.
  unfold copy_buffer_from_controller, BVSTK_SD_MAX_TRANSFER_BLOCKS.
  rewrite (proj2 (Z.eqb_neq n 0)), (proj2 (Z.ltb_ge 8 n)) by lia. cbn [orb]. apply runs_bind.
  eapply runs_mono; [by apply sd_write|]. intros ? x1 [-> H1]. cbn [is_ok negb]. change BVSTK_SD_BUFFER_WORDS_PER_BLOCK with 128.
  eapply runs_mono; [apply copy_from_loop_trace; lia|]. intros ? x2 (m & -> & H2). exists m. rewrite Z2Nat.id in * by lia.
  split; [|exact (sd_seq _ _ _ [_] _ H1 H2)]. f_equal. rewrite Z.mul_0_r, !Z.add_0_r, Z.add_0_l.
  by replace (4 * (n * 128)) with (n * 512) by lia.
Qed.

Lemma transfer_chunk_trace fuel sector at_ buffer (write : bool) n timeout x :
  1 <= n <= BVSTK_SD_MAX_TRANSFER_BLOCKS -> 0 <= at_ -> at_ + n * BVSTK_SD_BLOCK_SIZE <= alen buffer ->
  0 <= timeout < 2 ^ 32 -> sd_effective_timeout c timeout < Z.of_nat fuel ->
  runs (transfer_chunk fuel c sector at_ buffer write n timeout) x (fun o x' => exists st buffer' l, o = Some (st, buffer') /\
    if write then
      buffer' = buffer /\ afterc x x' l /\
      sd_chunk sector n (window_writes (cells buffer at_ (n * BVSTK_SD_BLOCK_SIZE))) BVSTK_SD_CONTROL_WRITE l st
    else
      sd_chunk sector n [] BVSTK_SD_CONTROL_READ l st /\
      if is_ok st then exists m,
        buffer' = prefix at_ buffer ++ map (mem_byte m 0) (seqZ 0 (n * BVSTK_SD_BLOCK_SIZE)) ++
                  drop (Z.to_nat (at_ + n * BVSTK_SD_BLOCK_SIZE)) buffer /\
        afterc x x' (l ++ window_reads m (n * BVSTK_SD_BUFFER_WORDS_PER_BLOCK))
      else buffer' = buffer /\ afterc x x' l).
Proof.
  intros Hn Ha Hl Hto Hf. unfold transfer_chunk. unfold BVSTK_SD_MAX_TRANSFER_BLOCKS in *.
  rewrite (proj2 (Z.eqb_neq n 0)), (proj2 (Z.ltb_ge 8 n)) by lia. cbn [orb]. unfold when_ok at 1.
  apply runs_bind. eapply runs_mono; [by apply sd_write|]. intros ? x1 [-> H1]. cbn [is_ok].
  apply runs_bind. eapply runs_mono; [by apply sd_write|]. intros ? x2 [-> H2]. cbn [is_ok negb].
  rewrite u32_id in H2 by lia. pose proof (sd_seq _ _ _ [_] [_] H1 H2) as H12. cbn [app] in H12.
  destruct write; cbn [negb andb].
  - apply runs_bind. eapply runs_mono; [by apply copy_to_trace|]. intros ? x3 [-> H3]. cbn [is_ok].
    apply runs_bind. eapply runs_mono; [by apply issue_trace|]. intros ? x4 (st & l & -> & H4 & Hc). cbn beta iota.
    rewrite andb_false_r. apply runs_ret. destruct (Hc sector n (window_writes (cells buffer at_ (n * BVSTK_SD_BLOCK_SIZE)))) as (l' & El & Hch).
    exists st, buffer. eexists. split; [done|]. split; [done|]. split; [|exact Hch]. rewrite El.
    exact (sd_seq _ _ _ _ _ (sd_seq _ _ _ _ _ H12 H3) H4).
  - apply runs_bind, runs_ret. cbn [is_ok]. apply runs_bind. eapply runs_mono; [by apply issue_trace|].
    intros ? x3 (st & l & -> & H3 & Hc). cbn beta iota. rewrite andb_true_r. destruct (Hc sector n []) as (l' & El & Hch).
    pose proof (sd_seq _ _ _ _ _ H12 H3) as H13. rewrite app_nil_r in El. rewrite <- El in H13.
    destruct (is_ok st) eqn:Est.
    + apply runs_bind. eapply runs_mono; [by apply copy_from_trace|]. intros ? x4 (m & -> & H4). apply runs_ret.
      apply is_ok_true in Est as ->. eexists BVSTK_OK, _, _. split; [done|]. split; [exact Hch|]. cbn [is_ok]. exists m. split; [done|].
      exact (sd_seq _ _ _ _ _ H13 H4).
    + apply runs_ret. eexists st, buffer, _. split; [done|]. split; [exact Hch|]. rewrite Est. by split.
Qed.

(** ** Whole transfers *)

Lemma chunk_sector first sector : 0 <= first -> 0 <= sector -> first + sector < 2 ^ 32 -> u32 (first + u32 sector) = first + sector.
Proof. intros. rewrite (u32_id sector) by lia. by rewrite u32_id by lia. Qed.

Lemma sd_write_loop rounds fuel first sector count timeout buffer x :
  0 <= first -> 0 <= sector <= count -> first + count <= 2 ^ 32 -> count * BVSTK_SD_BLOCK_SIZE <= alen buffer ->
  0 <= timeout < 2 ^ 32 -> sd_effective_timeout c timeout < Z.of_nat fuel -> count - sector < Z.of_nat rounds ->
  runs (chunks_loop rounds fuel c true first sector count timeout BVSTK_OK buffer) x (fun o x' => exists st l,
    o = Some (st, buffer) /\ afterc x x' l /\
    sd_writes (first + sector) (cells buffer (sector * BVSTK_SD_BLOCK_SIZE) ((count - sector) * BVSTK_SD_BLOCK_SIZE)) l st).
Proof.
  unfold BVSTK_SD_BLOCK_SIZE, BVSTK_SD_SECTOR_SIZE. intros Hfirst. revert sector x.
  induction rounds as [|rounds IH]; intros sector x Hs Hmax Hl Hto Hf Hr; [lia|]. cbn [chunks_loop is_ok andb].
  destruct (Z.ltb_spec sector count) as [Hlt|Hge].
  2: { apply runs_ret. exists BVSTK_OK, []. split; [done|]. split; [apply after_refl|].
       replace (count - sector) with 0 by lia. unfold cells. rewrite Z.mul_0_l, prefix_0. constructor. }
  set (n := Z.min (count - sector) BVSTK_SD_MAX_TRANSFER_BLOCKS).
  assert (1 <= n <= BVSTK_SD_MAX_TRANSFER_BLOCKS /\ n <= count - sector) as [Hn Hn'] by (unfold n, BVSTK_SD_MAX_TRANSFER_BLOCKS; lia).
  apply runs_bind. change (sector * BVSTK_SD_BLOCK_SIZE) with (sector * 512).
  eapply runs_mono; [apply (transfer_chunk_trace fuel _ (sector * 512) buffer true n timeout x Hn); [lia|change BVSTK_SD_BLOCK_SIZE with 512; lia|done|done]|].
  intros ? x1 (st & buffer' & l & -> & -> & H1 & Hc). cbn beta iota. rewrite chunk_sector in Hc by lia.
  change BVSTK_SD_BLOCK_SIZE with 512 in Hc.
  assert (alen (cells buffer (sector * 512) (n * 512)) = n * BVSTK_SD_BLOCK_SIZE) as Hal
    by (change BVSTK_SD_BLOCK_SIZE with 512; apply alen_cells; lia).
  rewrite (cells_split buffer (sector * 512) (n * 512)) by lia.
  replace ((count - sector) * 512 - n * 512) with ((count - (sector + n)) * 512) by lia.
  replace (sector * 512 + n * 512) with ((sector + n) * 512) by lia.
  destruct (is_ok st) eqn:Est.
  - apply is_ok_true in Est as ->. eapply runs_mono; [apply IH; lia|]. intros ? x2 (st & l2 & -> & H2 & Hw).
    exists st, (l ++ l2). split; [done|]. split; [exact (sd_seq _ _ _ _ _ H1 H2)|].
    apply (sd_write_next _ n); [lia|done| |done|by rewrite <- Z.add_assoc].
    intros Hne. unfold n. apply Z.min_r. destruct (Z.le_gt_cases BVSTK_SD_MAX_TRANSFER_BLOCKS (count - sector)) as [|Hsmall]; [done|].
    exfalso. apply Hne. assert (n = count - sector) as -> by (unfold n; lia). unfold cells.
    replace ((count - (sector + (count - sector))) * 512) with 0 by lia. apply prefix_0.
  - destruct rounds as [|rounds]; [lia|]. cbn [chunks_loop]. rewrite Est. cbn [andb]. apply runs_ret. exists st, l.
    split; [done|]. split; [done|]. apply (sd_write_failed _ n); [lia|done|by apply is_ok_false|done].
Qed.

Lemma sd_read_loop rounds fuel first sector count timeout buffer x :
  0 <= first -> 0 <= sector <= count -> first + count <= 2 ^ 32 -> count * BVSTK_SD_BLOCK_SIZE <= alen buffer ->
  0 <= timeout < 2 ^ 32 -> sd_effective_timeout c timeout < Z.of_nat fuel -> count - sector < Z.of_nat rounds ->
  runs (chunks_loop rounds fuel c false first sector count timeout BVSTK_OK buffer) x (fun o x' => exists st l bytes,
    o = Some (st, prefix (sector * BVSTK_SD_BLOCK_SIZE) buffer ++ bytes ++
                  drop (Z.to_nat (sector * BVSTK_SD_BLOCK_SIZE + alen bytes)) buffer) /\
    afterc x x' l /\ sd_reads (first + sector) (count - sector) l st bytes).
Proof.
  unfold BVSTK_SD_BLOCK_SIZE, BVSTK_SD_SECTOR_SIZE. intros Hfirst. revert sector buffer x.
  induction rounds as [|rounds IH]; intros sector buffer x Hs Hmax Hl Hto Hf Hr; [lia|]. cbn [chunks_loop is_ok andb].
  assert (forall st l, sd_reads (first + sector) (count - sector) l st [] -> forall x', afterc x x' l ->
    exists st' l' bytes, Some (st, buffer) = Some (st', prefix (sector * 512) buffer ++ bytes ++ drop (Z.to_nat (sector * 512 + alen bytes)) buffer) /\
      afterc x x' l' /\ sd_reads (first + sector) (count - sector) l' st' bytes) as Hnone.
  { intros st l Hrd x' Hx'. exists st, l, []. change (alen []) with 0. rewrite Z.add_0_r. cbn [app]. unfold prefix. by rewrite take_drop. }
  destruct (Z.ltb_spec sector count) as [Hlt|Hge].
  2: { apply runs_ret. apply (Hnone _ []); [|apply after_refl]. replace (count - sector) with 0 by lia. constructor. }
  set (n := Z.min (count - sector) BVSTK_SD_MAX_TRANSFER_BLOCKS).
  assert (1 <= n <= BVSTK_SD_MAX_TRANSFER_BLOCKS /\ n <= count - sector) as [Hn Hn'] by (unfold n, BVSTK_SD_MAX_TRANSFER_BLOCKS; lia).
  apply runs_bind. change (sector * BVSTK_SD_BLOCK_SIZE) with (sector * 512).
  eapply runs_mono; [apply (transfer_chunk_trace fuel _ (sector * 512) buffer false n timeout x Hn); [lia|change BVSTK_SD_BLOCK_SIZE with 512; lia|done|done]|].
  intros ? x1 (st & buffer' & l & -> & Hc & Hres). cbn beta iota. rewrite chunk_sector in Hc by lia.
  change BVSTK_SD_BLOCK_SIZE with 512 in Hres. destruct (is_ok st) eqn:Est.
  - apply is_ok_true in Est as ->. destruct Hres as (m & -> & H1). set (B := map (mem_byte m 0) (seqZ 0 (n * 512))).
    assert (alen B = n * 512) as HB by (unfold B, alen; rewrite length_map, length_seqZ; lia).
    assert (alen (prefix (sector * 512) buffer) = sector * 512) as HP by (apply alen_prefix; lia).
    set (buffer1 := prefix (sector * 512) buffer ++ B ++ drop (Z.to_nat (sector * 512 + n * 512)) buffer).
    assert (forall k, 0 <= k -> drop (Z.to_nat ((sector + n) * 512 + k)) buffer1 = drop (Z.to_nat ((sector + n) * 512 + k)) buffer) as Hd.
    { intros k Hk. unfold buffer1. rewrite app_assoc, drop_app_ge by (rewrite length_app; unfold alen in *; lia).
      rewrite drop_drop. f_equal. rewrite length_app. unfold alen in *. lia. }
    eapply runs_mono; [apply (IH (sector + n) buffer1); try done; try lia|].
    { unfold buffer1. rewrite !alen_app, HP, HB. unfold alen in *. rewrite length_drop. lia. }
    intros ? x2 (st & l2 & bytes & -> & H2 & Hrd). exists st, (l ++ window_reads m (n * BVSTK_SD_BUFFER_WORDS_PER_BLOCK) ++ l2), (B ++ bytes).
    split; [|split].
    + do 2 f_equal. rewrite Hd by apply alen_nonneg. rewrite alen_app, HB.
      assert (prefix ((sector + n) * 512) buffer1 = prefix (sector * 512) buffer ++ B) as ->.
      { unfold buffer1. rewrite app_assoc. unfold prefix at 1. apply take_app_length'. rewrite length_app. unfold alen in *. lia. }
      rewrite <- !app_assoc. do 4 f_equal. lia.
    + rewrite app_assoc. exact (sd_seq _ _ _ _ _ H1 H2).
    + apply (sd_read_next _ n); [lia|done|done|]. by rewrite <- Z.add_assoc, <- Z.sub_add_distr.
  - destruct Hres as [-> H1]. destruct rounds as [|rounds]; [lia|]. cbn [chunks_loop]. rewrite Est. cbn [andb]. apply runs_ret.
    apply (Hnone _ l); [|done]. apply (sd_read_failed _ n); [lia|done|by apply is_ok_false|done].
Qed.

(** C25: The FIFO SD driver.  A transfer that gets the lock asks for the state of the
    card, touches nothing when the card is not initialised, and otherwise moves
    consecutive chunks of eight blocks, the last as long as what is left: a write
    sends every byte of the caller's blocks once and in order, a read returns
    exactly the bytes of the words it read for each chunk that ended well, in
    order, and leaves the rest of the buffer alone.  The first chunk that fails is
    the last.  The call returns once fuel exceeds the timeout in milliseconds. *)
Theorem sd_controller_protocol fuel (write : bool) first data count timeout x :
  0 <= first -> 1 <= count -> first + count <= 2 ^ 32 -> count * BVSTK_SD_BLOCK_SIZE <= alen data ->
  0 <= timeout < 2 ^ 32 -> sd_effective_timeout c timeout < Z.of_nat fuel ->
  runs (sd_controller_transfer fuel write (Some c) first (Some data) count timeout) x (fun o x' =>
    exists st data' l, o = Some (st, Some data') /\ log x' = log x ++ l /\
      match fst (lock_controller c timeout x) with
      | BVSTK_OK => exists v l', l = Rd (sd_reg BVSTK_SD_STATUS_OFFSET) v :: l' /\
          if st_initialized (status_of v) then
            if write then data' = data /\ sd_writes first (prefix (count * BVSTK_SD_BLOCK_SIZE) data) l' st
            else exists bytes, sd_reads first count l' st bytes /\ data' = bytes ++ drop (length bytes) data
          else st = BVSTK_ERR_NOT_READY /\ data' = data /\ l' = []
      | refused => st = refused /\ data' = data /\ l = []
      end).
Proof.
  intros Hfirst Hcount Hmax Hlen Hto Hf. unfold sd_controller_transfer, ready_controller. destruct Hopen as [-> _].
  rewrite (proj2 (Z.eqb_neq count 0)), (proj2 (Z.ltb_ge _ _)) by lia. cbn [orb]. apply runs_bind.
  destruct Hquiet as (Hlk & Hul & _). specialize (Hlk (sd_effective_timeout c timeout) x). unfold runs at 1, lock_controller.
  destruct (bvstk_mutex_lock _ _ x) as [lock x1]. cbn [fst snd] in *.
  destruct lock; cbn [is_ok negb];
    try (apply runs_ret; eexists _, data, []; split; [done|]; split; [by rewrite app_nil_r, Hlk|done]).
  apply runs_bind. eapply runs_mono; [apply read_status_trace|]. intros ? x2 (v & -> & H2 & _). cbn [fst snd is_ok andb].
  destruct (st_initialized (status_of v)) eqn:Ei; cbn [negb].
  - apply runs_bind. destruct write.
    + eapply runs_mono; [apply (sd_write_loop _ fuel first 0 count timeout data x2); try done; lia|].
      intros ? x3 (st & l & -> & H3 & Hw). cbn beta iota. apply runs_bind, runs_ret. unfold unlock_controller. cbn [fst snd].
      exists st, data, (Rd (sd_reg BVSTK_SD_STATUS_OFFSET) v :: l). split; [done|].
      split; [rewrite Hul, <- Hlk; exact (proj1 (sd_seq _ _ _ [_] _ H2 H3))|]. exists v, l. split; [done|]. rewrite Ei. split; [done|].
      by rewrite Z.add_0_r, Z.sub_0_r in Hw.
    + eapply runs_mono; [apply (sd_read_loop _ fuel first 0 count timeout data x2); try done; lia|].
      intros ? x3 (st & l & bytes & -> & H3 & Hr). cbn beta iota. apply runs_bind, runs_ret. unfold unlock_controller. cbn [fst snd].
      eexists st, _, (Rd (sd_reg BVSTK_SD_STATUS_OFFSET) v :: l). split; [done|].
      split; [rewrite Hul, <- Hlk; exact (proj1 (sd_seq _ _ _ [_] _ H2 H3))|]. exists v, l. split; [done|]. rewrite Ei. exists bytes.
      rewrite Z.add_0_r, Z.sub_0_r in Hr. split; [done|]. rewrite Z.mul_0_l, prefix_0, Z.add_0_l. unfold alen. by rewrite Nat2Z.id.
  - apply runs_bind. cbn [chunks_loop is_ok andb]. apply runs_ret. apply runs_bind, runs_ret. unfold unlock_controller.
    eexists BVSTK_ERR_NOT_READY, data, [Rd (sd_reg BVSTK_SD_STATUS_OFFSET) v]. split; [done|]. cbn [fst snd].
    split; [rewrite Hul, <- Hlk; exact (proj1 H2)|]. exists v, []. split; [done|]. by rewrite Ei.
Qed.
End protocol.

(** ** Concrete runs *)

Definition demo_sd_controller {X} : bvstk_sd_controller_t X :=
  SdController (Region BVSTK_SD_CONTROLLER_BASE BVSTK_SD_CONTROLLER_SIZE BVSTK_SD_CONTROLLER_BASE) (Clock None None) (Mutex None None)
    (SdConfig 4 50 (SdCompletion None None)) true.

(** The card is initialised and every command is done at once; a word of the
    window reads as its offset. *)
Definition demo_sd_bus (a : Z) : Z := if a =? sd_reg BVSTK_SD_STATUS_OFFSET then 10 else a - sd_reg BVSTK_SD_DATA_WINDOW_OFFSET.

Definition demo_sd_data : list Z := map (fun k => k mod 251) (seqZ 0 (9 * 512)).

(** Nine blocks from sector 100 on are two chunks, the second of one block. *)
Example demo_sd_write :
  let r := @sd_controller_transfer _ (scripted_platform demo_sd_bus) 6 true (Some demo_sd_controller) 100 (Some demo_sd_data) 9 5 ([], 0) in
  fst r = Some (BVSTK_OK, Some demo_sd_data) /\
  List.filter (fun e => match e with Wr a v => a =? sd_reg BVSTK_SD_BLOCK_OFFSET | _ => false end) (fst (snd r)) =
    [Wr (sd_reg BVSTK_SD_BLOCK_OFFSET) 100; Wr (sd_reg BVSTK_SD_BLOCK_OFFSET) 108].
Proof. vm_compute. done. Qed.

Lemma sd_controller_protocol_witness :
  exists v l', fst (snd (@sd_controller_transfer _ (scripted_platform demo_sd_bus) 6 true (Some demo_sd_controller) 100 (Some demo_sd_data) 9 5 ([], 0))) =
    Rd (sd_reg BVSTK_SD_STATUS_OFFSET) v :: l' /\ st_initialized (status_of v) = true /\ sd_writes 100 (prefix (9 * 512) demo_sd_data) l' BVSTK_OK.
Proof.
  assert (fits 32 4) as H4 by (unfold fits; lia).
  assert (alen demo_sd_data = 9 * 512) as Hlen by (vm_compute; done).
  destruct (@sd_controller_protocol _ (scripted_platform demo_sd_bus) demo_sd_controller fst snd (scripted_traced demo_sd_bus)
    ltac:(done) ltac:(done) H4 6 true 100 demo_sd_data 9 5 ([], 0) ltac:(done) ltac:(done) ltac:(done)
    ltac:(rewrite Hlen; done) ltac:(done) ltac:(done)) as (st & data' & l & Ho & Hl & v & l' & -> & Hcase).
  rewrite (proj1 demo_sd_write) in Ho. injection Ho as <- <-.
  destruct (st_initialized (status_of v)) eqn:Ei; [|destruct Hcase as [Hst _]; discriminate Hst].
  destruct Hcase as [_ Hw]. exists v, l'. split; [exact Hl|]. split; [exact Ei|exact Hw].
Defined.
