(* ===== verification/SdInit.v ===== *)
(** * SdInit: the start-up sequencer of an SD card

    [src/src/drivers/pl/sd/bvstk_sd_init.c]: a run of the hardware's start-up
    sequence, and the responses of the card it leaves in a mailbox. *)
From stdpp Require Import prelude.
From Stdlib Require Import ZArith Lia.
From S2P Require Import Prelude Platform PlAccess SdController.
Local Open Scope Z_scope.

(** ** Registers (hardware/pl/sd/bvstk_sd_init_regs.h) *)

Definition BVSTK_SD_INIT_CSR_OFFSET : Z := 0x00.
Definition BVSTK_SD_INIT_IRQ_OFFSET : Z := 0x04.
Definition BVSTK_SD_INIT_PACKET_OFFSET : Z := 0x08.
Definition BVSTK_SD_INIT_TIMEOUT_OFFSET : Z := 0x0C.
Definition BVSTK_SD_INIT_CONTROL_OFFSET : Z := 0x14.
Definition BVSTK_SD_INIT_SPI_SIG_OFFSET : Z := 0x18.
Definition BVSTK_SD_INIT_CSR_SOFT_RESET : Z := Z.shiftl 1 0.
Definition BVSTK_SD_INIT_CSR_START : Z := Z.shiftl 1 1.
Definition BVSTK_SD_INIT_CSR_READ_ENABLE : Z := Z.shiftl 1 2.
Definition BVSTK_SD_INIT_IRQ_SOFT_DONE : Z := Z.shiftl 1 0.
Definition BVSTK_SD_INIT_IRQ_HARD_DONE : Z := Z.shiftl 1 1.
Definition BVSTK_SD_INIT_CLOCK_COUNT : Z := 100.
Definition BVSTK_SD_INIT_CLOCK_DIV : Z := 0x0200.
Definition BVSTK_SD_INIT_TIMEOUT_TICKS : Z := 1.
Definition BVSTK_SD_INIT_PACKET_MODE : Z := 0x03.
Definition BVSTK_SD_INIT_RESP_CMD0 : Z := 0x00.
Definition BVSTK_SD_INIT_RESP_CMD8_FIRST : Z := 0x04.
Definition BVSTK_SD_INIT_RESP_CMD8_SECOND : Z := 0x08.
Definition BVSTK_SD_INIT_RESP_ACMD41 : Z := 0x0C.
Definition BVSTK_SD_INIT_RESP_CMD55 : Z := 0x10.
Definition BVSTK_SD_INIT_RESP_CMD58_FIRST : Z := 0x14.
Definition BVSTK_SD_INIT_RESP_CMD58_SECOND : Z := 0x18.
Definition BVSTK_SD_INIT_RESPONSE_COUNT : Z := 7.

Definition BVSTK_SD_INIT_DEFAULT_TIMEOUT_MS : Z := 20000.
Definition BVSTK_SD_INIT_RESET_DELAY_MS : Z := 1.
Definition BVSTK_SD_INIT_POLL_DELAY_MS : Z := 1.

(** The table [offsets] of [clear_responses] and [snapshot_responses]. *)
Definition response_offsets : list Z :=
  [BVSTK_SD_INIT_RESP_CMD0; BVSTK_SD_INIT_RESP_CMD8_FIRST; BVSTK_SD_INIT_RESP_CMD8_SECOND; BVSTK_SD_INIT_RESP_ACMD41;
   BVSTK_SD_INIT_RESP_CMD55; BVSTK_SD_INIT_RESP_CMD58_FIRST; BVSTK_SD_INIT_RESP_CMD58_SECOND].

Record bvstk_sd_init_result_t := SdInitResult {
  ir_irq : Z;
  ir_csr : Z;
  ir_response : list Z;
  ir_hard_done : Z;
  ir_soft_done : Z
}.

Definition zero_init_result : bvstk_sd_init_result_t := SdInitResult 0 0 (fill BVSTK_SD_INIT_RESPONSE_COUNT 0) 0 0.

Definition init_effective_timeout (timeout_ms : Z) : Z :=
  if timeout_ms =? 0 then BVSTK_SD_INIT_DEFAULT_TIMEOUT_MS else timeout_ms.

(** What a poll stores of the interrupt register. *)
Definition with_irq (irq : Z) (r : bvstk_sd_init_result_t) : bvstk_sd_init_result_t :=
  SdInitResult irq (ir_csr r) (ir_response r) (Z.b2z (truth (Z.land irq BVSTK_SD_INIT_IRQ_HARD_DONE)))
    (Z.b2z (truth (Z.land irq BVSTK_SD_INIT_IRQ_SOFT_DONE))).

Section driver.
Context {X : Type} `{PL : Platform X}.

Record bvstk_sd_init_t := SdInit {
  si_control : bvstk_mmio_region_t;
  si_response : bvstk_mmio_region_t;
  si_clock : bvstk_clock_t X;
  si_mutex : bvstk_mutex_t X;
  si_initialized : Z
}.

Definition zero_sd_init : bvstk_sd_init_t := SdInit zero_region zero_region (Clock None None) (Mutex None None) 0.

Definition sd_clear_irq (driver : bvstk_sd_init_t) : ST X unit :=
  let! _ := write32 (si_control driver) BVSTK_SD_INIT_IRQ_OFFSET 1 in
  let! _ := write32 (si_control driver) BVSTK_SD_INIT_IRQ_OFFSET 0 in
  st_ret tt.

(** [clear_responses], over what is left of the table. *)
Fixpoint clear_responses (driver : bvstk_sd_init_t) (offsets : list Z) : ST X unit :=
  match offsets with
  | [] => st_ret tt
  | o :: offsets =>
      let! _ := write32 (si_response driver) o 0 in
      clear_responses driver offsets
  end.

(** [snapshot_responses] from cell [i] on; a read that fails leaves the cell. *)
Fixpoint snapshot_responses (driver : bvstk_sd_init_t) (offsets : list Z) (i : Z) (response : list Z) : ST X (list Z) :=
  match offsets with
  | [] => st_ret response
  | o :: offsets =>
      let! v := read32 (si_response driver) o in
      snapshot_responses driver offsets (i + 1) (if is_ok (fst v) then response.[i <- snd v] else response)
  end.

Definition bvstk_sd_init_init (driver : option bvstk_sd_init_t) (clock : option (bvstk_clock_t X)) (mutex : option (bvstk_mutex_t X))
    : bvstk_status_t * option bvstk_sd_init_t :=
  match driver with
  | None => (BVSTK_ERR_MALFORMED, None)
  | Some _ =>
      let clock := default (Clock None None) clock in
      let mutex := default (Mutex None None) mutex in
      let closed := SdInit zero_region zero_region clock mutex 0 in
      match bvstk_mmio_region_open (Some zero_region) BVSTK_SD_CONTROLLER_BASE BVSTK_SD_CONTROLLER_SIZE with
      | None => (BVSTK_ERR_IO, Some closed)
      | Some control =>
          match bvstk_mmio_region_open (Some zero_region) BVSTK_SPI_BRAM_BASE BVSTK_SPI_BRAM_SIZE with
          | None => (BVSTK_ERR_IO, Some closed)
          | Some response => (BVSTK_OK, Some (SdInit control response clock mutex 1))
          end
      end
  end.

Definition bvstk_sd_init_shutdown (driver : option bvstk_sd_init_t) : option bvstk_sd_init_t :=
  match driver with None => None | Some _ => Some zero_sd_init end.

(** The writes that start the sequence, each only after the one before. *)
Definition start_sequence (driver : bvstk_sd_init_t) : ST X bvstk_status_t :=
  let! status := write32 (si_control driver) BVSTK_SD_INIT_CSR_OFFSET BVSTK_SD_INIT_CSR_SOFT_RESET in
  let! status := when_ok status
    (clock_sleep (Some (si_clock driver)) BVSTK_SD_INIT_RESET_DELAY_MS ;;
     clear_responses driver response_offsets ;;
     write32 (si_control driver) BVSTK_SD_INIT_CSR_OFFSET (Z.lor BVSTK_SD_INIT_CSR_START BVSTK_SD_INIT_CSR_READ_ENABLE)) in
  let! status := when_ok status (write32 (si_control driver) BVSTK_SD_INIT_PACKET_OFFSET BVSTK_SD_INIT_PACKET_MODE) in
  let! status := when_ok status (write32 (si_control driver) BVSTK_SD_INIT_TIMEOUT_OFFSET BVSTK_SD_INIT_TIMEOUT_TICKS) in
  let! status := when_ok status (write32 (si_control driver) BVSTK_SD_INIT_SPI_SIG_OFFSET BVSTK_SD_INIT_CLOCK_DIV) in
  when_ok status
    (sd_clear_irq driver ;;
     write32 (si_control driver) BVSTK_SD_INIT_CONTROL_OFFSET (Z.lor (u32 (Z.shiftl BVSTK_SD_INIT_CLOCK_COUNT 2)) 3)).

(** The polling loop; the status and the result so far. *)
Fixpoint poll_sequence (fuel : nat) (driver : bvstk_sd_init_t) (started effective : Z) (status : bvstk_status_t)
    (result : bvstk_sd_init_result_t) : ST X (option (bvstk_status_t * bvstk_sd_init_result_t)) :=
  match fuel with
  | O => st_ret None
  | S fuel =>
      if negb (is_ok status) then st_ret (Some (status, result))
      else
        let! irq := read32 (si_control driver) BVSTK_SD_INIT_IRQ_OFFSET in
        if negb (is_ok (fst irq)) then st_ret (Some (fst irq, result))
        else
          let result := with_irq (snd irq) result in
          if negb (ir_soft_done result =? 0) then st_ret (Some (BVSTK_OK, result))
          else
            let! now := bvstk_clock_now_ms (Some (si_clock driver)) in
            if effective <=? u64 (now - started) then st_ret (Some (BVSTK_ERR_TIMEOUT, result))
            else
              clock_sleep (Some (si_clock driver)) BVSTK_SD_INIT_POLL_DELAY_MS ;;
              poll_sequence fuel driver started effective BVSTK_OK result
  end.

(** [result] tells whether the pointer is set; the second result is what is stored. *)
Definition bvstk_sd_init_run (fuel : nat) (driver : option bvstk_sd_init_t) (timeout_ms : Z) (result : bool)
    : ST X (option (bvstk_status_t * option bvstk_sd_init_result_t)) :=
  match driver with
  | None => st_ret (Some (BVSTK_ERR_NOT_READY, None))
  | Some d =>
      if (si_initialized d =? 0) || negb result then st_ret (Some (BVSTK_ERR_NOT_READY, None))
      else
        let effective := init_effective_timeout timeout_ms in
        let! status := bvstk_mutex_lock (Some (si_mutex d)) effective in
        if negb (is_ok status) then st_ret (Some (status, Some zero_init_result))
        else
          let! status := start_sequence d in
          let! started := bvstk_clock_now_ms (Some (si_clock d)) in
          let? (status, r) := poll_sequence fuel d started effective status zero_init_result in
          let! csr := read32 (si_control d) BVSTK_SD_INIT_CSR_OFFSET in
          let! response := snapshot_responses d response_offsets 0 (ir_response r) in
          let r := SdInitResult (ir_irq r) (if is_ok (fst csr) then snd csr else ir_csr r) response (ir_hard_done r) (ir_soft_done r) in
          let status := if is_ok status && (ir_soft_done r =? 0) then BVSTK_ERR_IO else status in
          sd_clear_irq d ;;
          let! _ := (fun x => (tt, bvstk_mutex_unlock (Some (si_mutex d)) x)) in
          st_ret (Some (status, Some r))
  end.
End driver.

Arguments bvstk_sd_init_t : clear implicits.
