(* ===== verification/SdInitSafety.v ===== *)
(** * SdInitSafety: what a run of the start-up sequencer does on the bus

    The register accesses of [bvstk_sd_init_run]: the fixed writes that start the
    sequence, polls of the interrupt register until it tells of the end or the
    time is up, the state and the responses read back, the interrupt cleared. *)
From stdpp Require Import prelude.
From Stdlib Require Import ZArith Lia.
From S2P Require Import Prelude Platform PlAccess SdController SdInit.
Local Open Scope Z_scope.

(** ** The grammar *)

Definition ctl_reg (offset : Z) : Z := BVSTK_SD_CONTROLLER_BASE + offset.
Definition response_reg (offset : Z) : Z := BVSTK_SPI_BRAM_BASE + offset.

Definition irq_clearing : list io := [Wr (ctl_reg BVSTK_SD_INIT_IRQ_OFFSET) 1; Wr (ctl_reg BVSTK_SD_INIT_IRQ_OFFSET) 0].

(** Reset, empty mailbox, start with reading on, packet mode, time limit in
    ticks, clock divider, and 100 clocks. *)
Definition init_setup : list io :=
  [Wr (ctl_reg BVSTK_SD_INIT_CSR_OFFSET) 1] ++ map (fun o => Wr (response_reg o) 0) response_offsets ++
  [Wr (ctl_reg BVSTK_SD_INIT_CSR_OFFSET) 6; Wr (ctl_reg BVSTK_SD_INIT_PACKET_OFFSET) 3; Wr (ctl_reg BVSTK_SD_INIT_TIMEOUT_OFFSET) 1;
   Wr (ctl_reg BVSTK_SD_INIT_SPI_SIG_OFFSET) 0x200] ++ irq_clearing ++ [Wr (ctl_reg BVSTK_SD_INIT_CONTROL_OFFSET) 403].

Definition soft_done (irq : Z) : bool := truth (Z.land irq BVSTK_SD_INIT_IRQ_SOFT_DONE).

(** The polls, their verdict and the last value read. *)
Inductive init_wait : list io -> bvstk_status_t -> Z -> Prop :=
  | iw_done v : soft_done v = true -> init_wait [Rd (ctl_reg BVSTK_SD_INIT_IRQ_OFFSET) v] BVSTK_OK v
  | iw_late v : soft_done v = false -> init_wait [Rd (ctl_reg BVSTK_SD_INIT_IRQ_OFFSET) v] BVSTK_ERR_TIMEOUT v
  | iw_poll v l st last : soft_done v = false -> init_wait l st last -> init_wait (Rd (ctl_reg BVSTK_SD_INIT_IRQ_OFFSET) v :: l) st last.

Definition response_reads (values : list Z) : list io := zip_with (fun o v => Rd (response_reg o) v) response_offsets values.

Lemma init_wait_ok l st last : init_wait l st last -> (st = BVSTK_OK /\ soft_done last = true) \/ (st = BVSTK_ERR_TIMEOUT /\ soft_done last = false).
Proof. induction 1; auto. Qed.

(** ** The driver *)

Section protocol.
Context {X : Type} `{PL : Platform X} (d : bvstk_sd_init_t X).
Context (log : X -> list io) (time : X -> Z) `{HT : !Traced (Some (si_clock d)) log time}.

(** As [bvstk_sd_init_init] leaves it. *)
Definition sd_init_open : Prop :=
  si_initialized d = 1 /\
  si_control d = Region BVSTK_SD_CONTROLLER_BASE BVSTK_SD_CONTROLLER_SIZE BVSTK_SD_CONTROLLER_BASE /\
  si_response d = Region BVSTK_SPI_BRAM_BASE BVSTK_SPI_BRAM_SIZE BVSTK_SPI_BRAM_BASE.

Definition sd_init_quiet : Prop :=
  (forall t x, log (snd (bvstk_mutex_lock (Some (si_mutex d)) t x)) = log x) /\
  (forall x, log (bvstk_mutex_unlock (Some (si_mutex d)) x) = log x).

Context (Hopen : sd_init_open) (Hquiet : sd_init_quiet).
Local Abbreviation afterd := (after log time).

(** The offsets of the sequencer and of its mailbox. *)
Definition small_offset (o : Z) : bool := (0 <=? o) && (o <=? 0x18) && (o mod 4 =? 0).

Lemma control_write o v x : small_offset o = true ->
  runs (write32 (si_control d) o v) x (fun st x' => st = BVSTK_OK /\ afterd x x' [Wr (ctl_reg o) v]).
Proof.
  unfold small_offset. intros H. bsimp. destruct Hopen as (_ & Hc & _). eapply runs_mono.
  { apply (write32_traced _ log time _ BVSTK_SD_CONTROLLER_BASE BVSTK_SD_CONTROLLER_SIZE); [done|lia| |done].
    unfold BVSTK_SD_CONTROLLER_SIZE. lia. }
  by intros ? x1 (-> & ? & _).
Qed.

Lemma control_read o x : small_offset o = true ->
  runs (read32 (si_control d) o) x (fun r x' => exists v, r = (BVSTK_OK, v) /\ afterd x x' [Rd (ctl_reg o) v] /\ time x' < time x + 2 ^ 32).
Proof.
  unfold small_offset. intros H. bsimp. destruct Hopen as (_ & Hc & _).
  apply (read32_traced _ log time _ BVSTK_SD_CONTROLLER_BASE BVSTK_SD_CONTROLLER_SIZE); [done|lia| |done]. unfold BVSTK_SD_CONTROLLER_SIZE. lia.
Qed.

Lemma response_write o v x : small_offset o = true ->
  runs (write32 (si_response d) o v) x (fun st x' => st = BVSTK_OK /\ afterd x x' [Wr (response_reg o) v]).
Proof.
  unfold small_offset. intros H. bsimp. destruct Hopen as (_ & _ & Hr). eapply runs_mono.
  { apply (write32_traced _ log time _ BVSTK_SPI_BRAM_BASE BVSTK_SPI_BRAM_SIZE); [done|lia| |done]. unfold BVSTK_SPI_BRAM_SIZE. lia. }
  by intros ? x1 (-> & ? & _).
Qed.

Lemma response_read o x : small_offset o = true ->
  runs (read32 (si_response d) o) x (fun r x' => exists v, r = (BVSTK_OK, v) /\ afterd x x' [Rd (response_reg o) v]).
Proof.
  unfold small_offset. intros H. bsimp. destruct Hopen as (_ & _ & Hr). eapply runs_mono.
  { apply (read32_traced _ log time _ BVSTK_SPI_BRAM_BASE BVSTK_SPI_BRAM_SIZE); [done|lia| |done]. unfold BVSTK_SPI_BRAM_SIZE. lia. }
  intros ? x1 (v & -> & ? & _). by exists v.
Qed.

Lemma init_seq x1 x2 x3 l1 l2 : afterd x1 x2 l1 -> afterd x2 x3 l2 -> afterd x1 x3 (l1 ++ l2).
Proof. apply after_trans. Qed.

(** A step of a sequence that goes well. *)
Lemma when_ok_next (m : ST X bvstk_status_t) l l0 (k : bvstk_status_t -> ST X bvstk_status_t) x0 x (Q : bvstk_status_t -> X -> Prop) :
  afterd x0 x l0 -> runs m x (fun st x' => st = BVSTK_OK /\ afterd x x' l) ->
  (forall x', afterd x0 x' (l0 ++ l) -> runs (k BVSTK_OK) x' Q) ->
  runs (st_bind (when_ok BVSTK_OK m) k) x Q.
Proof. intros H0 Hm Hk. apply runs_bind. eapply runs_mono; [exact Hm|]. intros ? x' [-> H]. apply Hk. exact (init_seq _ _ _ _ _ H0 H). Qed.

Lemma sd_clear_irq_trace x : runs (sd_clear_irq d) x (fun _ x' => afterd x x' irq_clearing).
Proof.
  unfold sd_clear_irq. apply runs_bind. eapply runs_mono; [by apply control_write|]. intros ? x1 [-> H1].
  apply runs_bind. eapply runs_mono; [by apply control_write|]. intros ? x2 [-> H2]. apply runs_ret. exact (init_seq _ _ _ _ _ H1 H2).
Qed.

Lemma clear_responses_trace offsets x : Forall (fun o => small_offset o = true) offsets ->
  runs (clear_responses d offsets) x (fun _ x' => afterd x x' (map (fun o => Wr (response_reg o) 0) offsets)).
Proof.
  intros Ho. revert x. induction Ho as [|o offsets Ho _ IH]; intros x; cbn [clear_responses map].
  { apply runs_ret, after_refl. }
  apply runs_bind. eapply runs_mono; [by apply response_write|]. intros ? x1 [-> H1].
  eapply runs_mono; [apply IH|]. intros [] x2 H2. exact (init_seq _ _ _ _ _ H1 H2).
Qed.

Lemma snapshot_trace offsets i response x : Forall (fun o => small_offset o = true) offsets -> 0 <= i -> i + alen offsets = alen response ->
  runs (snapshot_responses d offsets i response) x (fun r x' => exists values, length values = length offsets /\ r = prefix i response ++ values /\
    afterd x x' (zip_with (fun o v => Rd (response_reg o) v) offsets values)).
Proof.
  intros Ho. revert i response x. induction Ho as [|o offsets Ho _ IH]; intros i response x Hi Hl; cbn [snapshot_responses].
  { apply runs_ret. exists []. split; [done|]. rewrite app_nil_r. replace i with (alen response) by (change (alen []) with 0 in Hl; lia).
    split; [by rewrite prefix_whole|apply after_refl]. }
  rewrite alen_cons in Hl. pose proof (alen_nonneg offsets).
  apply runs_bind. eapply runs_mono; [by apply response_read|]. intros ? x1 (v & -> & H1). cbn [fst snd is_ok].
  eapply runs_mono; [apply IH; [lia|rewrite alen_aset; lia]|]. intros ? x2 (values & Hn & -> & H2). exists (v :: values).
  split; [cbn [length]; congruence|]. split; [rewrite prefix_snoc by lia; by rewrite <- app_assoc|]. exact (init_seq _ _ _ _ _ H1 H2).
Qed.

Lemma offsets_small : Forall (fun o => small_offset o = true) response_offsets.
Proof. repeat constructor. Qed.

Lemma start_trace x : runs (start_sequence d) x (fun st x' => st = BVSTK_OK /\ afterd x x' init_setup).
Proof.
  unfold start_sequence. apply runs_bind. eapply runs_mono; [by apply control_write|]. intros ? x1 [-> H1].
  eapply (when_ok_next _ (map (fun o => Wr (response_reg o) 0) response_offsets ++ [_])); [exact H1| |].
  { apply runs_bind. eapply runs_mono; [apply (sleep_traced _ log time); unfold BVSTK_SD_INIT_RESET_DELAY_MS; lia|]. intros [] x2 [H2 _].
    apply runs_bind. eapply runs_mono; [apply clear_responses_trace, offsets_small|]. intros [] x3 H3.
    eapply runs_mono; [by apply control_write|]. intros ? x4 [-> H4]. split; [done|].
    exact (init_seq _ _ _ _ _ (init_seq _ _ _ [] _ H2 H3) H4). }
  intros x2 H2. eapply when_ok_next; [exact H2|by apply control_write|]. intros x3 H3.
  eapply when_ok_next; [exact H3|by apply control_write|]. intros x4 H4.
  eapply when_ok_next; [exact H4|by apply control_write|]. intros x5 H5. cbn [when_ok is_ok].
  apply runs_bind. eapply runs_mono; [apply sd_clear_irq_trace|]. intros [] x6 H6.
  eapply runs_mono; [by apply control_write|]. intros ? x7 [-> H7]. split; [done|].
  exact (init_seq _ _ _ _ _ (init_seq _ _ _ _ _ H5 H6) H7).
Qed.

Lemma soft_done_flag irq r : (ir_soft_done (with_irq irq r) =? 0) = negb (soft_done irq).
Proof. unfold with_irq, soft_done. cbn [ir_soft_done]. by destruct (truth _). Qed.

Lemma poll_trace fuel t0 effective r x :
  0 <= effective < 2 ^ 32 -> polling time t0 effective fuel x ->
  runs (poll_sequence fuel d (u64 t0) effective BVSTK_OK r) x (fun o x' => exists st l last,
    o = Some (st, with_irq last r) /\ afterd x x' l /\ init_wait l st last).
Proof.
  intros Hto. revert r x. induction fuel as [|fuel IH]; intros r x (Hp & Hf & Hf'); [lia|].
  cbn [poll_sequence is_ok negb]. apply runs_bind. eapply runs_mono; [by apply control_read|].
  intros ? x1 (v & -> & H1 & H1'). cbn [fst snd is_ok negb]. pose proof H1 as [_ Ht]. rewrite soft_done_flag, negb_involutive.
  destruct (soft_done v) eqn:Ed.
  { apply runs_ret. eexists _, _, v. split; [done|]. split; [exact H1|by constructor]. }
  apply (poll_again _ log time _ fuel t0 effective); [lia|done|lia|..].
  - intros x2 H2 _. eexists _, _, v. split; [done|]. split; [exact (init_seq _ _ _ _ [] H1 H2)|by constructor].
  - intros x2 H2 Hp2 _. eapply runs_mono; [by apply IH|]. intros ? x3 (st & l & last & -> & H3 & Hw).
    eexists _, (_ :: l), last. split; [done|]. split; [exact (init_seq _ _ _ _ _ H1 (init_seq _ _ _ [] _ H2 H3))|by apply iw_poll].
Qed.

(** C38: A run of the card's start-up sequence.  With the lock it makes the fixed
    writes that start the sequencer, polls until the sequence is over or the time
    is up, then reads the state and the seven responses and clears the interrupt;
    what it reports are the values read last, and it succeeds exactly when the
    sequencer told of the end.  Without the lock it touches nothing and reports
    zeros.  It returns once fuel exceeds the timeout in milliseconds. *)
Theorem sd_init_protocol fuel timeout x :
  0 <= timeout < 2 ^ 32 -> init_effective_timeout timeout < Z.of_nat fuel ->
  runs (bvstk_sd_init_run fuel (Some d) timeout true) x (fun o x' => exists st r l,
    o = Some (st, Some r) /\ log x' = log x ++ l /\
    match fst (bvstk_mutex_lock (Some (si_mutex d)) (init_effective_timeout timeout) x) with
    | BVSTK_OK => exists w irq csr values, init_wait w st irq /\ length values = length response_offsets /\
        l = init_setup ++ w ++ [Rd (ctl_reg BVSTK_SD_INIT_CSR_OFFSET) csr] ++ response_reads values ++ irq_clearing /\
        r = SdInitResult irq csr values (Z.b2z (truth (Z.land irq BVSTK_SD_INIT_IRQ_HARD_DONE))) (Z.b2z (soft_done irq)) /\
        (st = BVSTK_OK <-> soft_done irq = true)
    | refused => st = refused /\ r = zero_init_result /\ l = []
    end).
Proof.
  intros Hto Hf. unfold bvstk_sd_init_run. destruct Hopen as [-> _]. change (1 =? 0) with false. cbn [negb orb]. apply runs_bind.
  destruct Hquiet as (Hlk & Hul). specialize (Hlk (init_effective_timeout timeout) x). unfold runs at 1.
  destruct (bvstk_mutex_lock _ _ x) as [lock x1]. cbn [fst snd] in *.
  destruct lock; cbn [is_ok negb];
    try (apply runs_ret; eexists _, _, []; split; [done|]; split; [by rewrite app_nil_r, Hlk|done]).
  apply runs_bind. eapply runs_mono; [apply start_trace|]. intros ? x2 [-> H2].
  apply runs_bind. eapply runs_mono; [apply (now_traced _ log time)|]. intros ? x3 (-> & H3 & H3'). pose proof H3 as [_ Ht].
  assert (0 <= init_effective_timeout timeout < 2 ^ 32) as Hr.
  { unfold init_effective_timeout, BVSTK_SD_INIT_DEFAULT_TIMEOUT_MS. destruct (_ =? 0); lia. }
  apply runs_bind. eapply runs_mono; [apply poll_trace; [done|]; split; [|split]; lia|].
  intros ? x4 (st & w & irq & -> & H4 & Hw). cbn beta iota.
  apply runs_bind. eapply runs_mono; [by apply control_read|]. intros ? x5 (csr & -> & H5 & _).
  apply runs_bind. eapply runs_mono; [by apply snapshot_trace; [apply offsets_small|..]|]. intros ? x6 (values & Hn & -> & H6).
  apply runs_bind. eapply runs_mono; [apply sd_clear_irq_trace|]. intros [] x7 H7.
  apply runs_bind. apply runs_ret. cbn [fst snd is_ok ir_irq ir_csr ir_response ir_hard_done ir_soft_done].
  pose proof (init_seq _ _ _ _ _ H2 (init_seq _ _ _ [] _ H3 (init_seq _ _ _ _ _ H4 (init_seq _ _ _ _ _ H5 (init_seq _ _ _ _ _ H6 H7))))) as [Hlog _].
  eexists st, _, _. split; [|split; [by rewrite Hul, Hlog, Hlk|]].
  - rewrite soft_done_flag. destruct (init_wait_ok _ _ _ Hw) as [[-> Hd]|[-> Hd]]; rewrite ?Hd; reflexivity.
  - exists w, irq, csr, values. split; [done|]. split; [done|]. split; [done|]. split; [by rewrite app_nil_l|].
    destruct (init_wait_ok _ _ _ Hw) as [[-> Hd]|[-> Hd]]; rewrite Hd; done.
Qed.
End protocol.

(** ** Concrete runs *)

Definition demo_sd_init {X} : bvstk_sd_init_t X :=
  SdInit (Region BVSTK_SD_CONTROLLER_BASE BVSTK_SD_CONTROLLER_SIZE BVSTK_SD_CONTROLLER_BASE)
    (Region BVSTK_SPI_BRAM_BASE BVSTK_SPI_BRAM_SIZE BVSTK_SPI_BRAM_BASE) (Clock None None) (Mutex None None) 1.

(** The sequence is over at once; a response reads as its offset. *)
Definition demo_init_bus (a : Z) : Z := if a <? BVSTK_SPI_BRAM_BASE then 3 else a - BVSTK_SPI_BRAM_BASE.

Example demo_sd_init_run :
  fst (@bvstk_sd_init_run _ (scripted_platform demo_init_bus) 6 (Some demo_sd_init) 5 true ([], 0)) =
    Some (BVSTK_OK, Some (SdInitResult 3 3 [0; 4; 8; 12; 16; 20; 24] 1 1)).
Proof. vm_compute. done. Qed.

Lemma sd_init_protocol_witness :
  exists w, fst (snd (@bvstk_sd_init_run _ (scripted_platform demo_init_bus) 6 (Some demo_sd_init) 5 true ([], 0))) =
    init_setup ++ w ++ [Rd (ctl_reg BVSTK_SD_INIT_CSR_OFFSET) 3] ++ response_reads [0; 4; 8; 12; 16; 20; 24] ++ irq_clearing /\ init_wait w BVSTK_OK 3.
Proof.
  destruct (@sd_init_protocol _ (scripted_platform demo_init_bus) demo_sd_init fst snd (scripted_traced demo_init_bus)
    ltac:(done) ltac:(done) 6 5 ([], 0) ltac:(done) ltac:(done)) as (st & r & l & Ho & Hl & w & irq & csr & values & Hw & _ & -> & -> & _).
  rewrite demo_sd_init_run in Ho. injection Ho as <- <- <- <-. exists w. by split.
Defined.
