(* ===== verification/HttpInput.v ===== *)
(** * HttpInput: what HTTP requests may say

    [src/src/shared/protocols/http/bvstk_http_input.c]: query parameters, numbers,
    paths, the strict JSON of request bodies, and the revision of a document.

    A C string is the list of its characters before the NUL; a cursor into it is
    the list of those that remain, empty at the NUL. *)
From stdpp Require Import prelude.
From Stdlib Require Import ZArith Lia.
From Stdlib Require String.
Import String.StringSyntax.
From S2P Require Import Prelude Text ConfigValidate JsonReader.
Local Open Scope Z_scope.

(** The file's [hex] and [ws] are the functions of the device profiles' reader. *)
Definition http_hex (c : Z) : Z := hex_digit c.
Definition skip_ws (p : chars) : chars := JsonReader.ws p.

(** ** Query parameters *)

(** The loop of [decode], from the text that is left and [out] on. *)
Fixpoint decode_loop (fuel : nat) (p out : chars) (cap : Z) : option chars :=
  match fuel with
  | O => None
  | S fuel =>
      match p with
      | [] => if cap =? 0 then None else Some out
      | c :: p =>
          let store c p := if (c <? 32) || (c =? 127) || (cap <=? alen out + 1) then None else decode_loop fuel p (out ++ [c]) cap in
          if c =? 37 then
            match p with
            | a :: b :: p => if (http_hex a <? 0) || (http_hex b <? 0) then None else store (Z.lor (Z.shiftl (http_hex a) 4) (http_hex b)) p
            | _ => None
            end
          else store (if c =? 43 then 32 else c) p
      end
  end.

(** The text between [p] and [end], decoded into [cap] bytes with the NUL. *)
Definition decode (text : chars) (cap : Z) : option chars := decode_loop (S (length text)) text [] cap.

(** [strchr] and [memchr]: the text before the first [c] and after it. *)
Fixpoint split_at (c : Z) (p : chars) : option (chars * chars) :=
  match p with
  | [] => None
  | d :: p => if d =? c then Some ([], p) else match split_at c p with Some (a, r) => Some (d :: a, r) | None => None end
  end.

(** The loop over the parameters; [found] is the value found so far. *)
Fixpoint query_loop (fuel : nat) (p key : chars) (cap : Z) (found : option chars) : option (option chars) :=
  match fuel with
  | O => None
  | S fuel =>
      match p with
      | [] => Some found
      | _ =>
          let '(segment, rest) := match split_at 38 p with Some (a, r) => (a, r) | None => (p, []) end in
          match split_at 61 segment with
          | None => None
          | Some (name, value) =>
              match decode name 40 with
              | None => None
              | Some name =>
                  if bool_decide (name = key) then
                    match found with
                    | Some _ => None
                    | None =>
                        match decode value cap with
                        | None => None
                        | Some v => query_loop fuel rest key cap (Some v)
                        end
                    end
                  else query_loop fuel rest key cap found
              end
          end
      end
  end.

(** [None] is the result -1, [Some None] 0, [Some (Some v)] 1 with [v] stored. *)
Definition bvstk_http_query (url key : chars) (cap : Z) : option (option chars) :=
  if cap =? 0 then None
  else
    match split_at 63 url with
    | None => Some None
    | Some (_, p) => query_loop (S (length p)) p key cap None
    end.

(** ** Numbers *)

Fixpoint uint_loop (p : chars) (max n : Z) : option Z :=
  match p with
  | [] => Some n
  | c :: p =>
      if (c <? 48) || (57 <? c) then None
      else
        let d := c - 48 in
        if (max <? d) || (u32 (max - d) `div` 10 <? n) then None else uint_loop p max (u32 (n * 10 + d))
  end.

(** [p] is [None] for NULL; the result is what is stored. *)
Definition bvstk_http_uint (p : option chars) (max : Z) : option Z :=
  match p with
  | None => None
  | Some [] => None
  | Some p => uint_loop p max 0
  end.

(** ** Paths *)

(** The end of a component: [cur] is the text from [start]. *)
Definition path_part_ok (cur : chars) : bool :=
  let len := alen cur in
  negb ((len =? 0) || (63 <? len) || (len =? 1) && (cur.[0] =? 46) || (len =? 2) && (cur.[0] =? 46) && (cur.[1] =? 46) ||
        (cur.[len - 1] =? 32) || (cur.[len - 1] =? 46)).

Definition path_refused (c : Z) : bool := (c <? 32) || (c =? 127) || existsb (Z.eqb c) (lit ":\*?`<>|").

Fixpoint path_loop (cur p : chars) : bool :=
  match p with
  | [] => path_part_ok cur
  | c :: p =>
      if c =? 47 then path_part_ok cur && path_loop [] p
      else if path_refused c then false
      else path_loop (cur ++ [c]) p
  end.

Definition bvstk_http_path (path : option chars) : bool :=
  match path with
  | None => false
  | Some path =>
      if negb (is_head 47 path) || (120 <? alen path) then false
      else match drop 1 path with [] => true | p => path_loop [] p end
  end.

(** ** JSON *)

(** The loop of [string] after the opening quote: the text up to the closing
    quote, and what follows it. *)
Fixpoint string_text (fuel : nat) (key : bool) (p text : chars) : option (chars * chars) :=
  match fuel with
  | O => None
  | S fuel =>
      match p with
      | [] => None
      | c :: p =>
          if c =? 34 then Some (text, p)
          else if (c <? 32) || key && (126 <? c) then None
          else if c =? 92 then
            if key then None
            else
              match p with
              | [] => None
              | e :: p =>
                  if e =? 117 then
                    match p with
                    | a :: b :: d :: f :: p =>
                        if (http_hex a <? 0) || (http_hex b <? 0) || (http_hex d <? 0) || (http_hex f <? 0) then None
                        else string_text fuel key p (text ++ [92; 117; a; b; d; f])
                    | _ => None
                    end
                  else if existsb (Z.eqb e) (lit "`\/bfnrt") then string_text fuel key p (text ++ [92; e])
                  else None
              end
          else string_text fuel key p (text ++ [c])
      end
  end.

(** The text between the quotes, and what follows. *)
Definition http_string (p : chars) (key : bool) : option (chars * chars) :=
  match p with
  | c :: p => if c =? 34 then string_text (S (length p)) key p [] else None
  | [] => None
  end.

(** The keys that are allowed at the root, and the bits of those required. *)
Record http_root := HttpRoot { hr_allowed : list chars; hr_required : Z }.

(** The index of the first allowed key that is [key]. *)
Fixpoint allowed_index (allowed : list chars) (key : chars) (k : Z) : option Z :=
  match allowed with
  | [] => None
  | a :: allowed => if bool_decide (a = key) then Some k else allowed_index allowed key (k + 1)
  end.

(** Root keys are looked up, others are not; the result is [seen]. *)
Definition see_key (root : option http_root) (key : chars) (seen : Z) : option Z :=
  match root with
  | None => Some seen
  | Some r => match allowed_index (hr_allowed r) key 0 with None => None | Some k => Some (Z.lor seen (u32 (Z.shiftl 1 k))) end
  end.

Definition all_seen (root : option http_root) (seen : Z) : bool :=
  match root with
  | None => true
  | Some r => Z.land seen (hr_required r) =? hr_required r
  end.

(** The loop over the members; [value] reads a value one level down, [keys] and
    [seen] are the state of the loop. *)
Fixpoint members_loop (value : chars -> option chars) (root : option http_root) (fuel : nat) (keys : list chars) (seen : Z)
    (p : chars) : option chars :=
  match fuel with
  | O => None
  | S fuel =>
      match http_string p true with
      | None => None
      | Some (key, p) =>
          if (alen keys =? 24) || bool_decide (key ∈ keys) then None
          else
            match see_key root key seen with
            | None => None
            | Some seen =>
                match skip_ws p with
                | c :: p =>
                    if negb (c =? 58) then None
                    else
                      match value p with
                      | None => None
                      | Some p =>
                          match skip_ws p with
                          | c :: p =>
                              if c =? 125 then if all_seen root seen then Some p else None
                              else if negb (c =? 44) then None
                              else members_loop value root fuel (keys ++ [key]) seen (skip_ws p)
                          | [] => None
                          end
                      end
                | [] => None
                end
            end
      end
  end.

Fixpoint items_loop (value : chars -> option chars) (fuel : nat) (p : chars) : option chars :=
  match fuel with
  | O => None
  | S fuel =>
      match value p with
      | None => None
      | Some p =>
          match skip_ws p with
          | c :: p => if c =? 93 then Some p else if negb (c =? 44) then None else items_loop value fuel p
          | [] => None
          end
      end
  end.

(** [room] is how many levels are left: [8 - depth].  [root] is given at depth 0;
    the loops consume a character in each round. *)
Fixpoint http_value (room : nat) (root : option http_root) (p : chars) : option chars :=
  match room with
  | O => None
  | S room =>
      match skip_ws p with
      | [] => None
      | c :: q =>
          if c =? 123 then
            let q := skip_ws q in
            if is_head 125 q then
              match root with Some r => if hr_required r =? 0 then Some (drop 1 q) else None | None => Some (drop 1 q) end
            else members_loop (http_value room None) root (S (length q)) [] 0 q
          else if c =? 91 then
            let q := skip_ws q in
            if is_head 93 q then Some (drop 1 q) else items_loop (http_value room None) (S (length q)) q
          else
            let p := c :: q in
            if c =? 34 then match http_string p false with Some (_, p) => Some p | None => None end
            else if starts (lit "true") p then Some (drop 4 p)
            else if starts (lit "false") p then Some (drop 5 p)
            else if digit c then if (c =? 48) && digit_head q then None else Some (digits p)
            else None
      end
  end.

Definition bvstk_http_json_object (json : option chars) (keys : list chars) (required : Z) : bool :=
  match json with
  | None => false
  | Some json =>
      if 32 <? alen keys then false
      else
        let p := skip_ws json in
        if negb (is_head 123 p) then false
        else match http_value 8 (Some (HttpRoot keys required)) p with
             | None => false
             | Some p => match skip_ws p with [] => true | _ => false end
             end
  end.

(** ** Revisions *)

Definition bvstk_http_revision (s : chars) : Z :=
  foldl (fun h c => u32 (Z.lxor h c * 16777619)) 2166136261 s.

(** ** Runs *)

Example http_query_finds :
  bvstk_http_query (lit "/fs?volume=sd&path=%2fa+b") (lit "path") 16 = Some (Some (lit "/a b")).
Proof. reflexivity. Qed.

Example http_query_twice : bvstk_http_query (lit "/fs?a=1&a=2") (lit "a") 16 = None.
Proof. reflexivity. Qed.

Example http_uint_limit : bvstk_http_uint (Some (lit "4294967295")) 4294967295 = Some 4294967295 /\
  bvstk_http_uint (Some (lit "4294967296")) 4294967295 = None.
Proof. split; reflexivity. Qed.

Example http_path_runs : bvstk_http_path (Some (lit "/logs/boot.txt")) = true /\ bvstk_http_path (Some (lit "/logs/../boot")) = false.
Proof. split; reflexivity. Qed.

Example http_json_runs :
  bvstk_http_json_object (Some (lit "{ `a`: 12, `b`: [true, {`x`: `y\u0041`}] }")) [lit "a"; lit "b"; lit "c"] 3 = true /\
  bvstk_http_json_object (Some (lit "{ `a`: 12 }")) [lit "a"; lit "b"; lit "c"] 3 = false /\
  bvstk_http_json_object (Some (lit "{ `a`: 012 }")) [lit "a"] 1 = false.
Proof. repeat split; reflexivity. Qed.
