(* ===== verification/HttpGrammar.v ===== *)
(** * HttpGrammar: what the HTTP input checks accept

    Grammars of request bodies and paths that do not follow the code's control
    flow, and the proofs that [HttpInput] accepts exactly them. *)
From stdpp Require Import prelude.
From Stdlib Require Import ZArith Lia.
From Stdlib Require String.
Import String.StringSyntax.
From S2P Require Import Prelude Text ConfigValidate JsonReader JsonGrammar JsonObjects FsPath HttpInput.
Local Open Scope Z_scope.

(** ** The grammar of request bodies *)

Inductive http_chars (key : bool) : chars -> Prop :=
  | hc_nil : http_chars key []
  | hc_plain c t : 32 <= c -> c <> 34 -> c <> 92 -> (key = true -> c <= 126) -> http_chars key t -> http_chars key (c :: t)
  | hc_escape e t : key = false -> e ∈ lit "`\/bfnrt" -> http_chars key t -> http_chars key (92 :: e :: t)
  | hc_unicode a b d f t : key = false -> 0 <= http_hex a -> 0 <= http_hex b -> 0 <= http_hex d -> 0 <= http_hex f -> http_chars key t ->
      http_chars key (92 :: 117 :: a :: b :: d :: f :: t).

(** Digits without a leading zero. *)
Definition plain_number (t : chars) : Prop := digit_run t /\ (is_head 48 t = true -> t = [48]).

(** The members of an object with their keys, and the items of an array. *)
Inductive http_members (P : chars -> Prop) : list chars -> chars -> Prop :=
  | hm_last k w1 w2 t w3 : http_chars true k -> blank w1 -> blank w2 -> P t -> blank w3 ->
      http_members P [k] (quote k ++ w1 ++ 58 :: w2 ++ t ++ w3)
  | hm_more k w1 w2 t w3 w ns ts : http_chars true k -> blank w1 -> blank w2 -> P t -> blank w3 -> blank w -> http_members P ns ts ->
      http_members P (k :: ns) (quote k ++ w1 ++ 58 :: w2 ++ t ++ w3 ++ 44 :: w ++ ts).

Inductive http_items (P : chars -> Prop) : chars -> Prop :=
  | hi_last w t w' : blank w -> P t -> blank w' -> http_items P (w ++ t ++ w')
  | hi_more w t w' ts : blank w -> P t -> blank w' -> http_items P ts -> http_items P (w ++ t ++ w' ++ 44 :: ts).

(** The keys of the root: none but the allowed ones, and all that are required. *)
Definition root_keys_ok (root : http_root) (ns : list chars) : Prop :=
  Forall (fun n => n ∈ hr_allowed root) ns /\
  forall k, 0 <= k -> Z.testbit (hr_required root) k = true -> exists n, hr_allowed root !! Z.to_nat k = Some n /\ n ∈ ns.

Definition distinct_keys (ns : list chars) : Prop := NoDup ns /\ alen ns <= 24.

(** An object, given what the values of its members are. *)
Definition http_object (P : chars -> Prop) (root : option http_root) (t : chars) : Prop :=
  exists w ns body, t = 123 :: w ++ body ++ [125] /\ blank w /\ (ns = [] /\ body = [] \/ http_members P ns body) /\
    distinct_keys ns /\ match root with Some r => root_keys_ok r ns | None => True end.

(** Values on at most [n] levels. *)
Fixpoint http_text (n : nat) (t : chars) : Prop :=
  match n with
  | O => False
  | S n =>
      (exists k, t = quote k /\ http_chars false k) \/ t = lit "true" \/ t = lit "false" \/ plain_number t \/
      http_object (http_text n) None t \/
      exists body, t = 91 :: body ++ [93] /\ (blank body \/ http_items (http_text n) body)
  end.

(** ** Strings *)

Lemma existsb_elem c l : existsb (Z.eqb c) l = true <-> c ∈ l.
Proof.
  rewrite existsb_exists, list_elem_of_In. split; [intros (x & Hx & He); bsimp; by subst|]. intros Hc. exists c. split; [done|apply Z.eqb_refl].
Qed.

Lemma string_text_sound fuel key p text out r :
  string_text fuel key p text = Some (out, r) -> exists t, out = text ++ t /\ p = t ++ 34 :: r /\ http_chars key t.
Proof.
  revert p text. induction fuel as [|fuel IH]; intros p text; [done|]. cbn [string_text].
  destruct p as [|c p]; [done|]. destruct (Z.eqb_spec c 34) as [->|H34].
  { intros [= <- <-]. exists []. rewrite app_nil_r. split; [done|]. split; [done|constructor]. }
  destruct ((c <? 32) || key && (126 <? c)) eqn:Ec; [done|]. apply orb_false_iff in Ec as [E1 E2]. bsimp.
  assert (key = true -> c <= 126) as Hkey by (intros ->; cbn in E2; bsimp; lia).
  destruct (Z.eqb_spec c 92) as [->|H92].
  - destruct key; [done|]. destruct p as [|e p]; [done|]. destruct (Z.eqb_spec e 117) as [->|H117].
    + destruct p as [|a [|b [|d [|f p]]]]; try done. destruct (_ || _) eqn:Eh; [done|].
      rewrite !orb_false_iff in Eh. destruct Eh as [[[? ?] ?] ?]. bsimp. intros Hs. apply IH in Hs as (t & -> & -> & Ht).
      exists (92 :: 117 :: a :: b :: d :: f :: t). rewrite <- app_assoc. split; [done|]. split; [done|]. by constructor.
    + destruct (existsb _ _) eqn:Ee; [|done]. apply existsb_elem in Ee. intros H. apply IH in H as (t & -> & -> & Ht).
      exists (92 :: e :: t). rewrite <- app_assoc. split; [done|]. split; [done|]. by constructor.
  - intros H. apply IH in H as (t & -> & -> & Ht). exists (c :: t). rewrite <- app_assoc. split; [done|]. split; [done|]. by constructor.
Qed.

Lemma string_text_complete fuel key t text r :
  http_chars key t -> (length t < fuel)%nat -> string_text fuel key (t ++ 34 :: r) text = Some (text ++ t, r).
Proof.
  intros Ht. revert fuel text. induction Ht as [|c t H1 H2 H3 H4 Ht IH|e t Hk He Ht IH|a b d f t Hk Ha Hb Hd Hf Ht IH]; intros fuel text Hl;
    (destruct fuel as [|fuel]; [lia|]); cbn [string_text app length] in *.
  - change (34 =? 34) with true. cbn iota. by rewrite app_nil_r.
  - rewrite (proj2 (Z.eqb_neq c 34)), (proj2 (Z.ltb_ge c 32)), (proj2 (Z.eqb_neq c 92)) by done. cbn [orb].
    assert (key && (126 <? c) = false) as -> by (destruct key; cbn; [apply Z.ltb_ge; auto|done]).
    rewrite IH by lia. by rewrite <- app_assoc.
  - subst key. change (92 =? 34) with false. change (92 <? 32) with false. change (92 =? 92) with true. cbn [orb andb].
    apply existsb_elem in He as Hx. rewrite Hx. assert ((e =? 117) = false) as ->.
    { apply Z.eqb_neq. intros ->. done. }
    rewrite IH by lia. by rewrite <- app_assoc.
  - subst key. change (92 =? 34) with false. change (92 <? 32) with false. change (92 =? 92) with true. cbn [orb andb].
    change (117 =? 117) with true. cbn iota. rewrite !(proj2 (Z.ltb_ge _ 0)) by done. cbn [orb]. rewrite IH by lia. by rewrite <- app_assoc.
Qed.

Lemma http_string_iff p key k r : http_string p key = Some (k, r) <-> p = quote k ++ r /\ http_chars key k.
Proof.
  unfold http_string, quote. split.
  - destruct p as [|c p]; [done|]. destruct (Z.eqb_spec c 34) as [->|]; [|done]. intros H.
    apply string_text_sound in H as (t & -> & -> & Ht). split; [|done]. cbn [app]. by rewrite <- app_assoc.
  - intros [-> Hk]. cbn [app]. change (34 =? 34) with true. cbn iota. rewrite <- app_assoc. cbn [app].
    rewrite string_text_complete; [done|done|]. rewrite length_app. cbn. lia.
Qed.

(** ** Keys *)

Fixpoint see_all (root : option http_root) (seen : Z) (ns : list chars) : option Z :=
  match ns with
  | [] => Some seen
  | n :: ns => match see_key root n seen with Some seen => see_all root seen ns | None => None end
  end.

Fixpoint distinct_from (keys ns : list chars) : Prop :=
  match ns with
  | [] => True
  | n :: ns => alen keys <> 24 /\ (n ∉ keys) /\ distinct_from (keys ++ [n]) ns
  end.

Lemma distinct_from_iff keys ns : NoDup keys -> alen keys <= 24 -> distinct_from keys ns <-> NoDup (keys ++ ns) /\ alen (keys ++ ns) <= 24.
Proof.
  revert keys. induction ns as [|n ns IH]; intros keys Hk Hl; cbn [distinct_from]; [rewrite app_nil_r; tauto|].
  replace (keys ++ n :: ns) with ((keys ++ [n]) ++ ns) by (by rewrite <- app_assoc).
  assert (alen (keys ++ [n]) = alen keys + 1) as Ha by (rewrite alen_app; done). split.
  - intros (H1 & H2 & H3). apply IH; [|lia|done]. apply NoDup_app. split; [done|]. split; [|by apply NoDup_singleton].
    intros x Hx Hn. apply list_elem_of_singleton in Hn. by subst.
  - intros [H1 H2]. assert (alen keys + 1 <= 24) as Hlt by (rewrite !alen_app in H2; change (alen [n]) with 1 in H2; pose proof (alen_nonneg ns); lia).
    apply NoDup_app in H1 as Hn. destruct Hn as (Hn & _ & _). apply NoDup_app in Hn as Hn'. destruct Hn' as (_ & Hd & _).
    split; [lia|]. split; [intros Hx; by apply (Hd n Hx), list_elem_of_singleton|]. apply IH; [done|lia|done].
Qed.

Lemma distinct_all ns : distinct_from [] ns <-> distinct_keys ns.
Proof. apply (distinct_from_iff [] ns); [constructor|done]. Qed.

Lemma allowed_index_spec allowed n k i :
  NoDup allowed -> 0 <= k -> allowed_index allowed n k = Some i <-> k <= i /\ allowed !! Z.to_nat (i - k) = Some n.
Proof.
  intros Hn. revert k. induction Hn as [|a allowed Ha _ IH]; intros k Hk; cbn [allowed_index]; [split; [done|by intros []]|].
  case_bool_decide as E.
  - subst a. split; [intros [= <-]; rewrite Z.sub_diag; split; [lia|done]|]. intros [Hi Hl].
    destruct (decide (i = k)) as [->|]; [done|]. exfalso. apply Ha. replace (Z.to_nat (i - k)) with (S (Z.to_nat (i - k - 1))) in Hl by lia.
    by eapply list_elem_of_lookup_2.
  - rewrite IH by lia. split; intros [Hi Hl].
    + split; [lia|]. by replace (Z.to_nat (i - k)) with (S (Z.to_nat (i - (k + 1)))) by lia.
    + destruct (decide (i = k)) as [->|]; [rewrite Z.sub_diag in Hl; change (Some a = Some n) in Hl; congruence|].
      split; [lia|]. by replace (Z.to_nat (i - k)) with (S (Z.to_nat (i - (k + 1)))) in Hl by lia.
Qed.

Lemma allowed_index_known allowed n k : n ∈ allowed <-> is_Some (allowed_index allowed n k).
Proof.
  revert k. induction allowed as [|a allowed IH]; intros k; cbn [allowed_index].
  - split; [by intros ?%not_elem_of_nil|by intros [? ?]].
  - rewrite elem_of_cons. case_bool_decide as E; [subst; split; eauto|]. rewrite <- IH. split; [by intros [->|]|by right].
Qed.

Section root.
Context (root : http_root) (Hnodup : NoDup (hr_allowed root)) (Hlen : alen (hr_allowed root) <= 32).

Lemma see_all_spec seen ns :
  Forall (fun n => n ∈ hr_allowed root) ns <-> exists s, see_all (Some root) seen ns = Some s /\
    forall k, 0 <= k -> Z.testbit s k = Z.testbit seen k || bool_decide (Exists (fun n => hr_allowed root !! Z.to_nat k = Some n) ns).
Proof.
  revert seen. induction ns as [|n ns IH]; intros seen; cbn [see_all see_key].
  { split; [|by constructor]. intros _. exists seen. split; [done|]. intros k Hk. rewrite bool_decide_false by (by intros ?%Exists_nil). by rewrite orb_false_r. }
  rewrite Forall_cons. destruct (allowed_index (hr_allowed root) n 0) as [i|] eqn:Ei.
  2: { split; [intros [Hn _]; apply (allowed_index_known _ _ 0) in Hn as [? ?]; congruence|by intros (s & ? & _)]. }
  apply allowed_index_spec in Ei as Hi; [|done|lia]. rewrite Z.sub_0_r in Hi. destruct Hi as [Hi0 Hi].
  assert (i < 32) as Hi32 by (apply lookup_lt_Some in Hi; unfold alen in Hlen; lia).
  assert (u32 (Z.shiftl 1 i) = Z.shiftl 1 i) as Hu.
  { apply u32_id. rewrite Z.shiftl_1_l. split; [apply Z.pow_nonneg; lia|]. change 4294967296 with (2 ^ 32). apply Z.pow_lt_mono_r; lia. }
  rewrite Hu. assert (n ∈ hr_allowed root) as Hn by (by eapply list_elem_of_lookup_2).
  assert (forall k, 0 <= k -> bool_decide (Exists (fun n => hr_allowed root !! Z.to_nat k = Some n) (n :: ns)) =
    (i =? k) || bool_decide (Exists (fun n => hr_allowed root !! Z.to_nat k = Some n) ns)) as Hcons.
  { intros k Hk. destruct (Z.eqb_spec i k) as [->|Hne]; cbn [orb]; [by apply bool_decide_true; left|]. apply bool_decide_ext.
    rewrite Exists_cons. split; [|by right]. intros [H|]; [|done]. exfalso. apply Hne. pose proof (NoDup_lookup _ _ _ _ Hnodup Hi H). lia. }
  rewrite (IH (Z.lor seen (Z.shiftl 1 i))). split.
  - intros [_ (s & Hs & Hbits)]. exists s. split; [done|]. intros k Hk. rewrite Hbits, Hcons, Z.lor_spec by done.
    by rewrite Z.shiftl_1_l, Z.pow2_bits_eqb, orb_assoc by done.
  - intros (s & Hs & Hbits). split; [done|]. exists s. split; [done|]. intros k Hk. rewrite Hbits, Hcons, Z.lor_spec by done.
    by rewrite Z.shiftl_1_l, Z.pow2_bits_eqb, orb_assoc by done.
Qed.
End root.

Lemma all_seen_iff root s : 0 <= hr_required root ->
  all_seen (Some root) s = true <-> forall k, 0 <= k -> Z.testbit (hr_required root) k = true -> Z.testbit s k = true.
Proof.
  intros Hr. cbn [all_seen]. rewrite Z.eqb_eq. split.
  - intros He k Hk Hb. rewrite <- He, Z.land_spec in Hb. by apply andb_true_iff in Hb as [? _].
  - intros Hb. apply Z.bits_inj'. intros k Hk. rewrite Z.land_spec. destruct (Z.testbit (hr_required root) k) eqn:E; [by rewrite Hb|by rewrite andb_false_r].
Qed.

(** What the loop has checked of the keys by the end. *)
Definition keys_checked (root : option http_root) (ns : list chars) : Prop :=
  exists s, see_all root 0 ns = Some s /\ all_seen root s = true.

Lemma keys_checked_iff root ns :
  NoDup (hr_allowed root) -> alen (hr_allowed root) <= 32 -> 0 <= hr_required root ->
  keys_checked (Some root) ns <-> root_keys_ok root ns.
Proof.
  intros Hn Hl Hr. unfold keys_checked, root_keys_ok. split.
  - intros (s & Hs & Hall). pose proof (all_seen_iff root s Hr) as Hseen. rewrite Hseen in Hall.
    assert (Forall (fun n => n ∈ hr_allowed root) ns) as Hf.
    { clear Hall Hseen. revert s Hs. generalize 0 at 1. induction ns as [|n ns IH]; intros seen s; [by constructor|]. cbn [see_all see_key].
      destruct (allowed_index _ n 0) as [k|] eqn:Ek; [|done]. intros Hs. constructor; [apply (allowed_index_known _ _ 0); eauto|by eapply IH]. }
    split; [done|]. intros k Hk Hb. pose proof (see_all_spec root Hn Hl 0 ns) as Hspec. apply Hspec in Hf as (s' & Hs' & Hbits).
    assert (s' = s) as -> by congruence. specialize (Hall k Hk Hb). rewrite Hbits, Z.testbit_0_l in Hall by done. cbn [orb] in Hall.
    apply bool_decide_eq_true, Exists_exists in Hall as (n & Hin & Hlk). eauto.
  - intros [Hf Hreq]. apply (see_all_spec root Hn Hl 0) in Hf as (s & Hs & Hbits). exists s. split; [done|]. apply all_seen_iff; [done|].
    intros k Hk Hb. rewrite Hbits by done. apply orb_true_iff. right. apply bool_decide_eq_true, Exists_exists. destruct (Hreq k Hk Hb) as (n & ? & ?). eauto.
Qed.

Lemma nested_checked ns : keys_checked None ns.
Proof. exists 0. split; [|done]. induction ns as [|n ns IH]; [done|exact IH]. Qed.

(** ** Members and items *)

Section loops.
Context (value : chars -> option chars) (P : chars -> Prop).
Hypothesis value_sound : forall p r, value p = Some r -> exists w t, p = w ++ t ++ r /\ blank w /\ P t.
Hypothesis value_complete : forall w t r, blank w -> P t -> follow r -> value (w ++ t ++ r) = Some r.

Lemma members_unfold root fuel keys seen p :
  members_loop value root (S fuel) keys seen p =
  match http_string p true with
  | None => None
  | Some (key, p) =>
      if (alen keys =? 24) || bool_decide (key ∈ keys) then None
      else
        match see_key root key seen with
        | None => None
        | Some seen =>
            match skip_ws p with
            | c :: p =>
                if negb (c =? 58) then None
                else
                  match value p with
                  | None => None
                  | Some p =>
                      match skip_ws p with
                      | c :: p =>
                          if c =? 125 then if all_seen root seen then Some p else None
                          else if negb (c =? 44) then None
                          else members_loop value root fuel (keys ++ [key]) seen (skip_ws p)
                      | [] => None
                      end
                  end
            | [] => None
            end
        end
  end.
Proof. done. Qed.

Lemma members_sound root fuel keys seen p r :
  members_loop value root fuel keys seen p = Some r ->
  exists ns t s, p = t ++ 125 :: r /\ http_members P ns t /\ distinct_from keys ns /\ see_all root seen ns = Some s /\ all_seen root s = true.
Proof.
  revert keys seen p. induction fuel as [|fuel IH]; intros keys seen p; [done|]. rewrite members_unfold.
  destruct (http_string p true) as [[key p1]|] eqn:Es; [|done]. apply http_string_iff in Es as [-> Hkey].
  destruct (_ || _) eqn:Ed; [done|]. apply orb_false_iff in Ed as [Ed1 Ed2]. apply bool_decide_eq_false in Ed2. bsimp.
  destruct (see_key root key seen) as [seen1|] eqn:Ek; [|done].
  unfold skip_ws. destruct (ws_split p1) as (w1 & Hw1 & Hp1). destruct (ws p1) as [|c p2]; [done|].
  destruct (Z.eqb_spec c 58) as [->|]; cbn [negb]; [|done].
  destruct (value p2) as [p3|] eqn:Ev; [|done]. apply value_sound in Ev as (w2 & t & -> & Hw2 & Ht).
  destruct (ws_split p3) as (w3 & Hw3 & Hp3). destruct (ws p3) as [|c p4]; [done|].
  destruct (Z.eqb_spec c 125) as [->|].
  - destruct (all_seen root seen1) eqn:Ea; [|done]. intros [= <-].
    exists [key], (quote key ++ w1 ++ 58 :: w2 ++ t ++ w3), seen1. subst p1 p3. split.
    { rewrite <- !app_assoc. cbn [app]. rewrite <- !app_assoc. done. }
    split; [by constructor|]. split; [by repeat split|]. cbn [see_all]. by rewrite Ek.
  - destruct (Z.eqb_spec c 44) as [->|]; cbn [negb]; [|done]. intros H. apply IH in H as (ns & ts & s & Hts & Hm & Hdist & Hs & Ha).
    destruct (ws_split p4) as (w & Hw & Hp4). rewrite Hts in Hp4.
    exists (key :: ns), (quote key ++ w1 ++ 58 :: w2 ++ t ++ w3 ++ 44 :: w ++ ts), s. subst p1 p3 p4. split.
    { rewrite <- !app_assoc. cbn [app]. rewrite <- !app_assoc. cbn [app]. rewrite <- !app_assoc. done. }
    split; [by constructor|]. split; [by repeat split|]. cbn [see_all]. by rewrite Ek.
Qed.

Lemma delimiter_blank w c r : blank w -> c = 44 \/ c = 93 \/ c = 125 -> follow (w ++ c :: r) /\ ws (w ++ c :: r) = c :: r.
Proof.
  intros Hw Hc. assert (follow (c :: r) /\ is_ws c = false) as [Hf Hs] by (destruct Hc as [->|[->| ->]]; cbn; auto).
  split; [by apply follow_blank|]. by rewrite ws_app_blank, ws_stop.
Qed.

Lemma member_complete root fuel keys seen k w1 w2 t w3 c r :
  http_chars true k -> blank w1 -> blank w2 -> P t -> blank w3 -> c = 44 \/ c = 125 ->
  alen keys <> 24 -> (k ∉ keys) ->
  members_loop value root (S fuel) keys seen (quote k ++ w1 ++ 58 :: w2 ++ t ++ w3 ++ c :: r) =
  match see_key root k seen with
  | None => None
  | Some seen => if c =? 125 then if all_seen root seen then Some r else None else members_loop value root fuel (keys ++ [k]) seen (skip_ws r)
  end.
Proof.
  intros Hk Hw1 Hw2 Ht Hw3 Hc H24 Hin. rewrite members_unfold, (proj2 (http_string_iff _ _ _ _)) by done.
  rewrite (proj2 (Z.eqb_neq _ 24)), bool_decide_false by done. cbn [orb]. destruct (see_key root k seen) as [seen1|]; [|done].
  unfold skip_ws. rewrite ws_app_blank, ws_stop by done. change (negb (58 =? 58)) with false. cbn iota.
  destruct (delimiter_blank w3 c r Hw3) as [Hf Hs]; [destruct Hc; auto|]. rewrite value_complete, Hs by done.
  destruct (Z.eqb_spec c 125) as [->|]; [done|]. destruct Hc as [->|]; done.
Qed.

Lemma members_complete root ns t fuel keys seen s r :
  http_members P ns t -> distinct_from keys ns -> see_all root seen ns = Some s -> all_seen root s = true -> (length t < fuel)%nat ->
  members_loop value root fuel keys seen (t ++ 125 :: r) = Some r.
Proof.
  intros Hm. revert fuel keys seen. induction Hm as [k w1 w2 t w3 Hk Hw1 Hw2 Ht Hw3|k w1 w2 t w3 w ns ts Hk Hw1 Hw2 Ht Hw3 Hw Hm IH];
    intros fuel keys seen (H24 & Hin & Hd) Hs Ha Hl; cbn [see_all] in Hs; (destruct fuel as [|fuel]; [lia|]);
    destruct (see_key root k seen) as [seen1|] eqn:Ek; try done.
  - replace ((quote k ++ w1 ++ 58 :: w2 ++ t ++ w3) ++ 125 :: r) with (quote k ++ w1 ++ 58 :: w2 ++ t ++ w3 ++ 125 :: r).
    2: { rewrite <- !app_assoc. cbn [app]. by rewrite <- !app_assoc. }
    rewrite member_complete, Ek by auto. injection Hs as ->. by rewrite Ha.
  - replace ((quote k ++ w1 ++ 58 :: w2 ++ t ++ w3 ++ 44 :: w ++ ts) ++ 125 :: r)
      with (quote k ++ w1 ++ 58 :: w2 ++ t ++ w3 ++ 44 :: (w ++ ts ++ 125 :: r)).
    2: { rewrite <- !app_assoc. cbn [app]. rewrite <- !app_assoc. cbn [app]. by rewrite <- !app_assoc. }
    rewrite member_complete, Ek by auto. change (44 =? 125) with false. cbn iota. unfold skip_ws. rewrite ws_app_blank by done.
    assert (ws (ts ++ 125 :: r) = ts ++ 125 :: r) as -> by (destruct Hm; by rewrite <- !app_assoc).
    apply IH; try done. rewrite !length_app in Hl. cbn [length] in Hl. rewrite !length_app in Hl. cbn [length] in Hl. rewrite !length_app in Hl. lia.
Qed.

Lemma items_sound fuel p r :
  items_loop value fuel p = Some r -> exists t, p = t ++ 93 :: r /\ http_items P t.
Proof.
  revert p. induction fuel as [|fuel IH]; intros p; [done|]. cbn [items_loop].
  destruct (value p) as [p3|] eqn:Ev; [|done]. apply value_sound in Ev as (w & t & -> & Hw & Ht). unfold skip_ws.
  destruct (ws_split p3) as (w' & Hw' & Hp3). destruct (ws p3) as [|c p4]; [done|]. subst p3.
  destruct (Z.eqb_spec c 93) as [->|].
  - intros [= <-]. exists (w ++ t ++ w'). split; [by rewrite <- !app_assoc|by constructor].
  - destruct (Z.eqb_spec c 44) as [->|]; cbn [negb]; [|done]. intros H. apply IH in H as (ts & -> & Hts).
    exists (w ++ t ++ w' ++ 44 :: ts). split; [by rewrite <- !app_assoc|by constructor].
Qed.

Lemma items_complete fuel t r : http_items P t -> (length t < fuel)%nat -> items_loop value fuel (t ++ 93 :: r) = Some r.
Proof.
  intros Ht. revert fuel. induction Ht as [w t w' Hw Ht Hw'|w t w' ts Hw Ht Hw' Hts IH]; intros fuel Hl; (destruct fuel as [|fuel]; [lia|]); cbn [items_loop].
  - rewrite <- !app_assoc. destruct (delimiter_blank w' 93 r Hw') as [Hf Hs]; [auto|]. by rewrite value_complete; [unfold skip_ws; rewrite Hs|..].
  - rewrite <- !app_assoc. cbn [app]. destruct (delimiter_blank w' 44 (ts ++ 93 :: r) Hw') as [Hf Hs]; [auto|].
    rewrite value_complete by done. unfold skip_ws. rewrite Hs. change (44 =? 93) with false. change (negb (44 =? 44)) with false. cbn iota.
    apply IH. rewrite !length_app in Hl. cbn [length] in Hl. lia.
Qed.
End loops.

(** ** Values *)

(** An object as the code checks it. *)
Definition checked_object (P : chars -> Prop) (root : option http_root) (t : chars) : Prop :=
  exists w ns body, t = 123 :: w ++ body ++ [125] /\ blank w /\ (ns = [] /\ body = [] \/ http_members P ns body) /\
    distinct_keys ns /\ keys_checked root ns.

Lemma checked_nested P t : checked_object P None t <-> http_object P None t.
Proof.
  split; intros (w & ns & body & ? & ? & ? & ? & ?); exists w, ns, body; repeat (split; [done|]); [done|apply nested_checked].
Qed.

Lemma members_head P ns t r : http_members P ns t -> ws (t ++ r) = t ++ r /\ is_head 125 (t ++ r) = false.
Proof. intros H. by destruct H; rewrite <- !app_assoc. Qed.

Lemma http_text_head n t : http_text n t -> exists c q, t = c :: q /\ is_ws c = false /\ c <> 93.
Proof.
  destruct n as [|n]; [done|]. intros [(k & -> & _)|[->|[->|[[[Hne Hd] _]|[(w & ns & body & -> & _)|(body & -> & _)]]]]];
    try (eexists _, _; split; [reflexivity|split; [done|done]]).
  destruct Hd as [|c t Hc Hd]; [done|]. exists c, t. split; [done|]. unfold digit in Hc. bsimp. unfold is_ws. split; [|lia].
  by rewrite !(proj2 (Z.eqb_neq _ _)) by lia.
Qed.

Lemma items_head P t r : (forall t, P t -> exists c q, t = c :: q /\ is_ws c = false /\ c <> 93) -> http_items P t ->
  is_head 93 (ws (t ++ r)) = false.
Proof.
  intros HP Ht. assert (forall w t r, blank w -> P t -> is_head 93 (ws (w ++ t ++ r)) = false) as H.
  { intros w x r' Hw Hx. rewrite ws_app_blank by done. destruct (HP x Hx) as (c & q & -> & Hc & Hne). cbn [app]. rewrite ws_stop by done.
    cbn. by apply Z.eqb_neq. }
  destruct Ht; rewrite <- !app_assoc; by apply H.
Qed.

Lemma items_blank P w t : blank w -> http_items P t -> http_items P (w ++ t).
Proof. intros Hw Ht. destruct Ht; rewrite app_assoc; constructor; try done; by apply Forall_app. Qed.

Lemma http_value_sound n root p r : http_value n root p = Some r ->
  exists m w t, n = S m /\ p = w ++ t ++ r /\ blank w /\
    (checked_object (http_text m) root t \/ http_text n t /\ is_head 123 t = false).
Proof.
  revert root p r. induction n as [|n IH]; intros root p r; [done|]. cbn [http_value].
  assert (forall p r, http_value n None p = Some r -> exists w t, p = w ++ t ++ r /\ blank w /\ http_text n t) as Hinner.
  { intros p' r' H. apply IH in H as (m & w & t & -> & Hp & Hw & [Hc|[Ht _]]); exists w, t; (split; [done|]); (split; [done|]); [|done].
    apply checked_nested in Hc. cbn [http_text]. tauto. }
  unfold skip_ws. destruct (ws_split p) as (w & Hw & Hp). destruct (ws p) as [|c q]; [done|]. subst p. intros H.
  enough (exists t, c :: q = t ++ r /\ (checked_object (http_text n) root t \/ http_text (S n) t /\ is_head 123 t = false)) as (t & Ht & Hcase).
  { exists n, w, t. rewrite Ht. by repeat split. }
  destruct (Z.eqb_spec c 123) as [->|H123].
  - destruct (ws_split q) as (w1 & Hw1 & Hq). destruct (is_head 125 (ws q)) eqn:Eh.
    + apply is_head_split in Eh. assert (r = drop 1 (ws q) /\ keys_checked root []) as [-> Hk].
      { destruct root as [rt|]; [|injection H as <-; split; [done|apply nested_checked]]. destruct (Z.eqb_spec (hr_required rt) 0) as [E|]; [|done].
        injection H as <-. split; [done|]. exists 0. split; [done|]. cbn. by rewrite E. }
      exists (123 :: w1 ++ [] ++ [125]). split; [cbn [app]; rewrite <- app_assoc; cbn [app]; by rewrite <- Eh, <- Hq|]. left.
      exists w1, [], []. split; [done|]. split; [done|]. split; [by left|]. split; [split; [constructor|done]|done].
    + apply (members_sound _ _ Hinner) in H as (ns & t & s & Ht & Hm & Hd & Hs & Ha). exists (123 :: w1 ++ t ++ [125]).
      split; [cbn [app]; rewrite <- !app_assoc; cbn [app]; by rewrite <- Ht, <- Hq|]. left. exists w1, ns, t. split; [done|].
      split; [done|]. split; [by right|]. split; [by apply distinct_all|]. by exists s.
  - destruct (Z.eqb_spec c 91) as [->|H91].
    + destruct (ws_split q) as (w1 & Hw1 & Hq). destruct (is_head 93 (ws q)) eqn:Eh.
      * apply is_head_split in Eh. injection H as <-. exists (91 :: w1 ++ [93]).
        split; [cbn [app]; rewrite <- !app_assoc; cbn [app]; by rewrite <- Eh, <- Hq|]. right. split; [|done]. cbn [http_text]. do 5 right.
        exists w1. split; [done|]. by left.
      * apply (items_sound _ _ Hinner) in H as (t & Ht & Hi). exists (91 :: (w1 ++ t) ++ [93]).
        split; [cbn [app]; rewrite <- !app_assoc; cbn [app]; by rewrite <- Ht, <- Hq|]. right. split; [|done]. cbn [http_text]. do 5 right.
        exists (w1 ++ t). split; [done|]. right. by apply items_blank.
    + destruct (Z.eqb_spec c 34) as [->|H34].
      { destruct (http_string (34 :: q) false) as [[k p]|] eqn:Es; [|done]. injection H as <-. apply http_string_iff in Es as [-> Hk].
        exists (quote k). split; [done|]. right. split; [|done]. cbn [http_text]. left. eauto. }
      destruct (starts (lit "true") (c :: q)) eqn:Et.
      { apply starts_iff in Et as (q1 & Hq1). rewrite Hq1 in H |- *. injection H as <-. exists (lit "true"). split; [done|]. right. split; [|done]. cbn [http_text]. auto. }
      destruct (starts (lit "false") (c :: q)) eqn:Ef.
      { apply starts_iff in Ef as (q1 & Hq1). rewrite Hq1 in H |- *. injection H as <-. exists (lit "false"). split; [done|]. right. split; [|done]. cbn [http_text]. auto. }
      destruct (digit c) eqn:Ed; [|done]. destruct ((c =? 48) && digit_head q) eqn:E0; [done|]. injection H as <-.
      destruct (digit_run_split (c :: q)) as (d & Hd & Heq); [done|]. exists d. cbn [digits] in Heq. rewrite Ed in Heq. cbn [digits]. rewrite Ed. split; [done|]. right.
      assert (is_head 48 d = true -> d = [48]) as Hzero.
      { destruct d as [|a d]; [done|]. cbn [is_head app] in *. intros Ha. bsimp. subst a. injection Heq as -> Hq.
        change (48 =? 48) with true in E0. cbn [andb] in E0. destruct d as [|b d]; [done|]. exfalso. rewrite Hq in E0. cbn in E0.
        destruct Hd as [_ Hd]. inversion_clear Hd as [|? ? _ Hd']. inversion_clear Hd' as [|? ? Hb _]. congruence. }
      split; [cbn [http_text]; do 3 right; left; by split|]. destruct d as [|a d]; [by destruct Hd|]. cbn in Heq |- *. injection Heq as <- _. by apply Z.eqb_neq.
Qed.

Lemma http_value_complete n root w t r : blank w -> follow r ->
  match n with O => False | S m => checked_object (http_text m) root t \/ http_text n t /\ is_head 123 t = false end ->
  http_value n root (w ++ t ++ r) = Some r.
Proof.
  revert root w t r. induction n as [|n IH]; intros root w t r Hw Hr Ht; [done|].
  assert (forall w t r, blank w -> http_text n t -> follow r -> http_value n None (w ++ t ++ r) = Some r) as Hinner.
  { intros w' t' r' Hw' Ht' Hr'. apply IH; [done|done|]. destruct n as [|m]; [done|]. destruct Ht' as [H|[H|[H|[H|[H|H]]]]].
    5: left; by apply checked_nested. all: right; (split; [cbn [http_text]; tauto|]).
    - by destruct H as (k & -> & _).
    - by subst.
    - by subst.
    - destruct H as [[Hne Hd] _]. destruct Hd as [|c d Hc _]; [done|]. cbn. apply Z.eqb_neq. intros ->. done.
    - by destruct H as (body & -> & _). }
  cbn [http_value]. unfold skip_ws. rewrite ws_app_blank by done. destruct Ht as [(w1 & ns & body & -> & Hw1 & Hb & Hd & (s & Hs & Ha))|[Ht Hhd]].
  - cbn [app]. rewrite ws_stop by done. change (123 =? 123) with true. cbn iota. rewrite <- !app_assoc. cbn [app]. rewrite ws_app_blank by done.
    destruct Hb as [[-> ->]|Hm].
    + cbn [app ws is_head]. change (is_ws 125) with false. cbn iota. change (125 =? 125) with true. cbn [drop]. injection Hs as <-.
      destruct root as [rt|]; [|done]. cbn [all_seen] in Ha. rewrite Z.land_0_l in Ha. rewrite Z.eqb_sym in Ha. by rewrite Ha.
    + destruct (members_head _ _ _ (125 :: r) Hm) as [-> ->]. apply (members_complete _ _ Hinner _ ns _ _ _ _ s); try done; [by apply distinct_all|].
      rewrite length_app. cbn [length]. lia.
  - destruct (http_text_head _ _ Ht) as (c & q & Hcq & Hc & _). rewrite Hcq in Hhd |- *. cbn [app is_head] in Hhd |- *. rewrite ws_stop by done.
    rewrite Hhd. destruct Ht as [(k & Hk & Hkc)|[Ht|[Ht|[[[Hne Hd] H0]|[(w1 & ns & body & Ho & _)|(body & Ho & Hbody)]]]]].
    + assert (c = 34) as -> by (rewrite Hcq in Hk; by injection Hk). change (34 =? 91) with false. change (34 =? 34) with true. cbn iota.
      change (34 :: q ++ r) with ((34 :: q) ++ r). rewrite <- Hcq, Hk. by rewrite (proj2 (http_string_iff _ _ k r)).
    + rewrite Ht in Hcq. injection Hcq as <- <-. reflexivity.
    + rewrite Ht in Hcq. injection Hcq as <- <-. reflexivity.
    + subst t. inversion_clear Hd as [|? ? Hdc Hdq]. assert (48 <= c <= 57) as Hrange by (unfold digit in Hdc; bsimp; lia).
      rewrite (proj2 (Z.eqb_neq c 91)), (proj2 (Z.eqb_neq c 34)) by lia.
      assert (forall w, head w <> Some c -> w <> [] -> starts w (c :: q ++ r) = false) as Hst.
      { intros w' Hh Hw'. destruct (starts w' (c :: q ++ r)) eqn:E; [|done]. apply starts_iff in E as (q' & E). destruct w'; [done|]. cbn in *. congruence. }
      assert (116 <> c /\ 102 <> c) as [Ht Hf] by lia. rewrite (Hst (lit "true")), (Hst (lit "false")), Hdc; [|intros [= E]; contradiction|done..|intros [= E]; contradiction|done].
      assert ((c =? 48) && digit_head (q ++ r) = false) as ->.
      { destruct (Z.eqb_spec c 48) as [->|]; [|done]. cbn [is_head] in H0. injection (H0 eq_refl) as ->. cbn. by apply follow_digit. }
      f_equal. apply (digits_app (c :: q) r); [by constructor|by apply follow_digit].
    + rewrite Hcq in Ho. injection Ho as -> ->. done.
    + rewrite Hcq in Ho. injection Ho as -> ->. change (91 =? 91) with true. cbn iota. rewrite <- app_assoc. cbn [app].
      destruct Hbody as [Hbl|Hi].
      * rewrite ws_app_blank, ws_stop by done. cbn [is_head drop]. done.
      * rewrite (items_head (http_text n)) by (try done; intros t' Ht'; by apply (http_text_head n t')). 
        destruct (ws_split body) as (wb & Hwb & Hbody).
        assert (exists body', ws (body ++ 93 :: r) = body' ++ 93 :: r /\ http_items (http_text n) body') as (body' & -> & Hi').
        { destruct Hi as [wi ti wi' Hwi Hti Hwi'|wi ti wi' tsi Hwi Hti Hwi' Hts]; rewrite <- !app_assoc, ws_app_blank by done;
            destruct (http_text_head _ _ Hti) as (ci & qi & -> & Hci & _); cbn [app]; rewrite ws_stop by done.
          - exists ([] ++ (ci :: qi) ++ wi'). split; [by rewrite <- !app_assoc|constructor; [constructor|done|done]].
          - exists ([] ++ (ci :: qi) ++ wi' ++ 44 :: tsi). split; [by rewrite <- !app_assoc|constructor; try done; constructor]. }
        apply (items_complete _ _ Hinner); [done|]. rewrite length_app. cbn [length]. lia.
Qed.

(** ** Request bodies *)

Lemma checked_root P keys required t :
  NoDup keys -> alen keys <= 32 -> 0 <= required ->
  checked_object P (Some (HttpRoot keys required)) t <-> http_object P (Some (HttpRoot keys required)) t.
Proof.
  intros Hn Hl Hr. split; intros (w & ns & body & ? & ? & ? & ? & Hk); exists w, ns, body; (repeat (split; [done|])); by apply keys_checked_iff in Hk || apply keys_checked_iff.
Qed.

(** C24: a request body is accepted exactly when it is, between white space, a
    JSON object on at most eight levels whose strings, numbers, arrays and
    objects are well formed, each object with at most 24 different keys, and
    whose own keys are all among the allowed ones with every required one. *)
Theorem http_json_iff json keys required :
  NoDup keys -> alen keys <= 32 -> 0 <= required ->
  bvstk_http_json_object (Some json) keys required = true <->
  exists w t w', json = w ++ t ++ w' /\ blank w /\ blank w' /\ http_object (http_text 7) (Some (HttpRoot keys required)) t.
Proof.
  intros Hn Hl Hr. unfold bvstk_http_json_object. rewrite (proj2 (Z.ltb_ge 32 (alen keys))) by lia. unfold skip_ws. split.
  - destruct (ws_split json) as (w & Hw & Hj). destruct (is_head 123 (ws json)) eqn:Eh; [|done]. cbn [negb].
    destruct (http_value _ _ _) as [r|] eqn:Ev; [|done]. destruct (ws r) eqn:Er; [|done]. intros _.
    apply ws_all_blank in Er. apply http_value_sound in Ev as (m & w1 & t & [= <-] & Hp & Hw1 & Ht). exists (w ++ w1), t, r.
    split; [rewrite <- app_assoc, <- Hp; done|]. split; [by apply Forall_app|]. split; [done|].
    destruct Ht as [Ht|[Ht Hh]]; [by apply (checked_root _ _ _ _ Hn Hl Hr)|]. exfalso.
    destruct (http_text_head _ _ Ht) as (c & q & -> & Hc & _). cbn in Hh.
    destruct Hw1 as [|b w1 Hb _]; rewrite Hp in Eh; cbn in Eh; [congruence|]. bsimp. by subst b.
  - intros (w & t & w' & -> & Hw & Hw' & Ht). apply (checked_root _ _ _ _ Hn Hl Hr) in Ht.
    assert (ws (w ++ t ++ w') = t ++ w' /\ is_head 123 (t ++ w') = true) as [-> ->].
    { rewrite ws_app_blank by done. destruct Ht as (w1 & ns & body & -> & _). by cbn [app]. }
    cbn [negb]. assert (follow w') as Hf by (rewrite <- (app_nil_r w'); by apply follow_blank).
    pose proof (http_value_complete 8 (Some (HttpRoot keys required)) [] t w' (List.Forall_nil _) Hf (or_introl Ht)) as Hv.
    cbn [app] in Hv. rewrite Hv. apply ws_all_blank in Hw'. by rewrite Hw'.
Qed.

Lemma http_json_iff_witness :
  exists w t w', lit " {`a`: [1, true]}" = w ++ t ++ w' /\ blank w /\ blank w' /\ http_object (http_text 7) (Some (HttpRoot [lit "a"; lit "b"] 1)) t.
Proof.
  apply (http_json_iff (lit " {`a`: [1, true]}") [lit "a"; lit "b"] 1); [|done|done|reflexivity].
  apply (bool_decide_unpack _). reflexivity.
Defined.

(** ** Paths *)

(** A component of a request's path. *)
Definition http_name (name : chars) : Prop :=
  name <> [] /\ alen name <= 63 /\ name <> [46] /\ name <> [46; 46] /\
  (forall l c, name = l ++ [c] -> c <> 32 /\ c <> 46) /\ Forall name_char name.

Lemma path_refused_iff c : c <> 47 -> path_refused c = false <-> name_char c.
Proof.
  intros Hc. unfold path_refused, name_char. rewrite !orb_false_iff, Z.ltb_ge, Z.eqb_neq. rewrite !Forall_cons.
  transitivity (32 <= c /\ c <> 127 /\ ~ c ∈ lit ":\*?`<>|").
  - rewrite <- existsb_elem. destruct (existsb _ _); intuition congruence.
  - change (lit ":\*?`<>|") with [58; 92; 42; 63; 34; 60; 62; 124]. rewrite !elem_of_cons, elem_of_nil. intuition.
Qed.

Lemma path_part_ok_iff name :
  path_part_ok name = true <-> name <> [] /\ alen name <= 63 /\ name <> [46] /\ name <> [46; 46] /\ (forall l c, name = l ++ [c] -> c <> 32 /\ c <> 46).
Proof.
  unfold path_part_ok. rewrite negb_true_iff, !orb_false_iff.
  destruct name as [|c l _] using rev_ind.
  { cbn. split; [intros [[[[[H _] _] _] _] _]; done|intros [H _]; done]. }
  assert ((l ++ [c]).[alen (l ++ [c]) - 1] = c) as ->.
  { rewrite alen_app. change (alen [c]) with 1. apply aget_app_last. }
  assert ((alen (l ++ [c]) =? 0) = false) as ->.
  { apply Z.eqb_neq. rewrite alen_app. pose proof (alen_nonneg l). change (alen [c]) with 1. lia. }
  rewrite Z.ltb_ge, !Z.eqb_neq.
  assert ((alen (l ++ [c]) =? 1) && ((l ++ [c]).[0] =? 46) = false <-> l ++ [c] <> [46]) as ->.
  { destruct l as [|a l]; cbn [app].
    - change (alen [c] =? 1) with true. change ([c].[0]) with c. cbn [andb]. rewrite Z.eqb_neq. split; [congruence|]. intros H ->. done.
    - split; [intros _ H; by destruct l|]. intros _. apply andb_false_iff. left. apply Z.eqb_neq. unfold alen. cbn [length]. rewrite length_app. cbn. lia. }
  assert ((alen (l ++ [c]) =? 2) && ((l ++ [c]).[0] =? 46) && ((l ++ [c]).[1] =? 46) = false <-> l ++ [c] <> [46; 46]) as ->.
  { destruct l as [|a [|b l]]; cbn [app].
    - split; [done|done].
    - change (alen [a; c] =? 2) with true. change ([a; c].[0]) with a. change ([a; c].[1]) with c. cbn [andb].
      rewrite andb_false_iff, !Z.eqb_neq. split; [intros [?|?]; congruence|]. intros H. destruct (Z.eq_dec a 46) as [->|]; [|by left]. right. by intros ->.
    - split; [intros _ H; by destruct l|]. intros _. rewrite andb_false_iff. left. apply andb_false_iff. left. apply Z.eqb_neq.
      unfold alen. cbn [length]. rewrite length_app. cbn. lia. }
  assert (l ++ [c] <> []) as Hne by (by destruct l). split.
  - intros [[[[[_ H1] H2] H3] H4] H5]. repeat (split; [done|]). intros l' c' He. apply app_inj_tail in He as [_ <-]. done.
  - intros (_ & H1 & H2 & H3 & H4). destruct (H4 l c eq_refl). done.
Qed.

Lemma path_loop_sound cur p : Forall name_char cur -> path_loop cur p = true ->
  exists comps, comps <> [] /\ cur ++ p = join comps /\ Forall http_name comps.
Proof.
  revert cur. induction p as [|c p IH]; intros cur Hcur; cbn [path_loop].
  - intros H. apply path_part_ok_iff in H. rewrite app_nil_r. exists [cur]. split; [done|]. split; [done|]. constructor; [|done]. by destruct H as (?&?&?&?&?).
  - destruct (Z.eqb_spec c 47) as [->|Hc].
    + intros H. apply andb_prop in H as [Hp H]. apply path_part_ok_iff in Hp. destruct (IH [] (List.Forall_nil _) H) as (comps & Hne & He & Hf).
      exists (cur :: comps). split; [done|]. destruct comps as [|d comps]; [done|]. split; [change (join (cur :: d :: comps)) with (cur ++ 47 :: join (d :: comps)); by rewrite <- He|].
      constructor; [|done]. by destruct Hp as (?&?&?&?&?).
    + destruct (path_refused c) eqn:Er; [done|]. apply path_refused_iff in Er; [|done]. intros H.
      destruct (IH (cur ++ [c])) as (comps & ? & He & ?); [apply Forall_app; auto|done|]. exists comps. by rewrite <- app_assoc in He.
Qed.

Lemma path_loop_skip cur name p : Forall name_char name -> path_loop cur (name ++ p) = path_loop (cur ++ name) p.
Proof.
  intros Hn. revert cur. induction Hn as [|c name Hc _ IH]; intros cur; [by rewrite app_nil_r|]. cbn [app path_loop].
  assert (c <> 47) as Hne by (destruct Hc as (_ & _ & H); by inversion H). rewrite (proj2 (Z.eqb_neq c 47)) by done.
  apply path_refused_iff in Hc as ->; [|done]. by rewrite IH, <- app_assoc.
Qed.

Lemma path_loop_complete comps : comps <> [] -> Forall http_name comps -> path_loop [] (join comps) = true.
Proof.
  intros Hne Hf. induction Hf as [|name comps Hn Hf IH]; [done|].
  assert (path_part_ok name = true /\ Forall name_char name) as [Hp Hc] by (destruct Hn as (?&?&?&?&?&?); by rewrite path_part_ok_iff).
  destruct comps as [|d comps].
  - cbn [join]. rewrite <- (app_nil_r name), path_loop_skip by done. by rewrite app_nil_l.
  - change (join (name :: d :: comps)) with (name ++ 47 :: join (d :: comps)). rewrite path_loop_skip by done. cbn [app path_loop].
    change (47 =? 47) with true. cbn iota. rewrite Hp. by apply IH.
Qed.

(** C37: the paths a request may name are the root and, in at most 120 bytes,
    those of components between slashes that are not empty, have at most 63
    bytes, are not [.] or [..], do not end in a space or a dot, and have no
    control character, backslash or wild card. *)
Theorem http_path_iff path :
  bvstk_http_path (Some path) = true <-> alen path <= 120 /\ exists comps, path = 47 :: join comps /\ Forall http_name comps.
Proof.
  unfold bvstk_http_path. split.
  - destruct (negb _ || _) eqn:E; [done|]. apply orb_false_iff in E as [E1 E2]. apply negb_false_iff, is_head_split in E1. bsimp.
    intros H. split; [done|]. rewrite E1. destruct (drop 1 path) as [|c p] eqn:Ed; [by exists []|].
    apply path_loop_sound in H as (comps & _ & He & Hf); [|done]. exists comps. cbn [app] in He. by rewrite He.
  - intros (Hl & comps & -> & Hf). cbn [is_head]. change (47 =? 47) with true. cbn [negb orb]. rewrite (proj2 (Z.ltb_ge _ _)) by done.
    change (drop 1 (47 :: join comps)) with (join comps). destruct comps as [|n comps]; [done|].
    destruct (join (n :: comps)) eqn:Ej; [|rewrite <- Ej; by apply path_loop_complete]. done.
Qed.

(** ** Numbers *)

Definition decimal (n : Z) (p : chars) : Z := foldl (fun n c => n * 10 + (c - 48)) n p.

Lemma decimal_grows p n : Forall (fun c => digit c = true) p -> 0 <= n -> n <= decimal n p.
Proof.
  intros Hp. revert n. induction Hp as [|c p Hc _ IH]; intros n Hn; [done|]. unfold digit in Hc. bsimp. cbn.
  specialize (IH (n * 10 + (c - 48)) ltac:(lia)). unfold decimal in IH. lia.
Qed.

Lemma uint_loop_iff p max n r :
  0 <= n <= max -> max < 2 ^ 32 ->
  uint_loop p max n = Some r <-> Forall (fun c => digit c = true) p /\ r = decimal n p /\ r <= max.
Proof.
  intros Hn Hm. revert n Hn. induction p as [|c p IH]; intros n Hn; cbn [uint_loop].
  { unfold decimal. cbn. split; [intros [= <-]; repeat split; [done|lia]|by intros (_ & -> & _)]. }
  destruct (_ || _) eqn:Ec.
  { split; [done|]. intros [Hp _]. inversion_clear Hp as [|? ? Hc _]. unfold digit in Hc. apply orb_prop in Ec. bsimp. destruct Ec; bsimp; lia. }
  apply orb_false_iff in Ec as [E1 E2]. bsimp.
  assert (digit c = true) as Hc by (unfold digit; rewrite andb_true_iff, !Z.leb_le; lia). unfold u32.
  assert (Forall (fun c => digit c = true) (c :: p) <-> Forall (fun c => digit c = true) p) as -> by (rewrite Forall_cons; intuition).
  change (decimal n (c :: p)) with (decimal (n * 10 + (c - 48)) p).
  destruct (Z.ltb_spec max (c - 48)) as [Hd|Hd]; cbn [orb].
  { split; [done|]. intros (Hp & -> & Hle). pose proof (decimal_grows p (n * 10 + (c - 48)) Hp ltac:(lia)). lia. }
  rewrite (wrap_id 32 (max - (c - 48))) by (unfold fits; lia).
  destruct (Z.ltb_spec ((max - (c - 48)) `div` 10) n) as [Hq|Hq].
  { split; [done|]. intros (Hp & -> & Hle). pose proof (decimal_grows p (n * 10 + (c - 48)) Hp ltac:(lia)).
    Z.to_euclidean_division_equations. lia. }
  assert (n * 10 + (c - 48) <= max) by (Z.to_euclidean_division_equations; lia).
  rewrite (wrap_id 32 (n * 10 + (c - 48))) by (unfold fits; lia). apply IH. lia.
Qed.

(** A number is the value of a text of digits that is not empty and does not
    exceed the limit: nothing wraps around. *)
Lemma http_uint_iff p max r :
  0 <= max < 2 ^ 32 ->
  bvstk_http_uint (Some p) max = Some r <-> p <> [] /\ Forall (fun c => digit c = true) p /\ r = decimal 0 p /\ r <= max.
Proof.
  intros Hm. unfold bvstk_http_uint. destruct p as [|c p]; [split; [done|by intros [H _]]|]. rewrite uint_loop_iff by lia. intuition done.
Qed.
