(* ===== verification/FatFs.v ===== *)
(** * FatFs: the file system the configuration store uses

    FatFs is not part of the repository; its calls are the class [FatFs X] of
    operations on the world.  [FatFsLaws] states of them what FatFs documents and
    the store relies on, in terms of the states the medium goes through: a power
    cut leaves one of them.  Names that differ in the case of letters only are one
    file. *)
From stdpp Require Import prelude gmap.
From Stdlib Require Import ZArith Lia.
From S2P Require Import Prelude Text.
Local Open Scope Z_scope.

(** ** The calls *)

Inductive FRESULT : Type :=
  | FR_OK
  | FR_DISK_ERR
  | FR_NO_FILE
  | FR_NO_PATH
  | FR_INVALID_NAME
  | FR_EXIST
  | FR_OTHER (code : Z).

#[export] Instance fresult_eq_dec : EqDecision FRESULT.
Proof. solve_decision. Defined.

Definition fr_ok (r : FRESULT) : bool := bool_decide (r = FR_OK).

Lemma fr_ok_true r : fr_ok r = true <-> r = FR_OK.
Proof. apply bool_decide_eq_true. Qed.

(** What [FILINFO] tells of an entry: its name and whether it is a directory. *)
Record FILINFO := FileInfo { fname : chars; is_dir : bool }.

Definition FA_READ : bool := false.
Definition FA_CREATE : bool := true.

(** A [FIL] or [DIR] object is known by a number.  [f_open] reads a file that
    exists or creates one anew; [f_read] gives the bytes read, [f_write] how many
    were written. *)
Class FatFs (X : Type) := {
  f_stat : chars -> X -> (FRESULT * bool) * X;
  f_mkdir : chars -> X -> FRESULT * X;
  f_open : chars -> bool -> X -> (FRESULT * Z) * X;
  f_size : Z -> X -> Z;
  f_read : Z -> Z -> X -> (FRESULT * chars) * X;
  f_write : Z -> chars -> X -> (FRESULT * Z) * X;
  f_sync : Z -> X -> FRESULT * X;
  f_close : Z -> X -> FRESULT * X;
  f_unlink : chars -> X -> FRESULT * X;
  f_rename : chars -> chars -> X -> FRESULT * X;
  f_opendir : chars -> X -> (FRESULT * Z) * X;
  f_readdir : Z -> X -> (FRESULT * FILINFO) * X;
  f_closedir : Z -> X -> FRESULT * X
}.

(** ** The laws *)

(** A state of the medium: the files, by the name FatFs compares. *)
Definition key (path : chars) : chars := tolower <$> path.
Abbreviation disk := (gmap (list Z) (list Z)).
Definition file (d : disk) (path : chars) : option chars := d !! key path.

(** An entry of a directory: its path as stored, and whether it is a directory. *)
Abbreviation entry := (list Z * bool)%type.
Definition within (dir name : chars) : chars := dir ++ 47 :: name.

Inductive fobj : Type :=
  | Reading (content : chars)
  | Writing (path : chars) (content : option chars).

(** An open directory: where it stands, and the entries it has yet to return. *)
Record scan_t := Scan { sc_dir : chars; sc_pos : Z; sc_pending : gset entry }.

(** The entries of a FAT directory. *)
Definition DIR_MAX : Z := 65536.

(** What an operation on the files [names] leaves of a set of entries. *)
Definition keeps (names : list chars) (s s' : gset entry) : Prop :=
  forall e, e ∈ s -> Forall (fun n => key (fst e) <> key n) names -> e ∈ s'.

Definition same_except (path : chars) (d d' : disk) : Prop := delete (key path) d' = delete (key path) d.

Section medium.
Context {X : Type} (possible : X -> list disk).

(** The present state. *)
Definition now (x : X) : disk := List.last (possible x) ∅.

(** The medium goes through states of [S] only. *)
Definition evolves (S : disk -> Prop) (x x' : X) : Prop := exists ds, possible x' = possible x ++ ds /\ Forall S ds.

Context (entries : X -> chars -> gset entry) (object : X -> Z -> option fobj) (scan : X -> Z -> option scan_t).

(** Directories and open directories change at the files [names] only. *)
Definition frame (names : list chars) (x x' : X) : Prop :=
  (forall dir, keeps names (entries x dir) (entries x' dir)) /\
  forall h s, scan x h = Some s -> exists s', scan x' h = Some s' /\ sc_dir s' = sc_dir s /\ sc_pos s' = sc_pos s /\
    keeps names (sc_pending s) (sc_pending s').

Definition quiet (x x' : X) : Prop := possible x' = possible x /\ frame [] x x'.
Definition changes (path : chars) (x x' : X) : Prop := evolves (same_except path (now x)) x x' /\ frame [path] x x'.

(** A file that moves is at the old name, at both or at the new one. *)
Definition moved (a b c : chars) (d : disk) : disk := delete (key a) (<[key b := c]> d).
Definition moving (a b c : chars) (d d' : disk) : Prop := d' = d \/ d' = <[key b := c]> d \/ d' = moved a b c d.

Class FatFsLaws `{FatFs X} := {
  stat_law : forall path x, runs (f_stat path) x (fun r x' => quiet x x' /\
    match fst r with
    | FR_OK => snd r = false -> is_Some (file (now x) path)
    | FR_NO_FILE | FR_NO_PATH => file (now x) path = None
    | _ => True
    end);
  mkdir_law : forall path x, runs (f_mkdir path) x (fun _ x' => quiet x x');
  open_law : forall path x, runs (f_open path FA_READ) x (fun r x' => quiet x x' /\
    (fst r = FR_OK -> exists c, file (now x) path = Some c /\ object x' (snd r) = Some (Reading c)));
  create_law : forall path x, runs (f_open path FA_CREATE) x (fun r x' => changes path x x' /\
    (fst r = FR_OK -> object x' (snd r) = Some (Writing path (Some []))));
  size_law : forall h x c, object x h = Some (Reading c) -> f_size h x = alen c;
  read_law : forall h n x c, object x h = Some (Reading c) -> runs (f_read h n) x (fun r x' => quiet x x' /\
    object x' h = Some (Reading c) /\ (fst r = FR_OK -> snd r = prefix n c));
  write_law : forall h data x path c, object x h = Some (Writing path c) -> runs (f_write h data) x (fun r x' => changes path x x' /\
    object x' h = Some (Writing path (if fr_ok (fst r) && (snd r =? alen data) then (fun t => t ++ data) <$> c else None)));
  sync_law : forall h x path c, object x h = Some (Writing path c) -> runs (f_sync h) x (fun _ x' => changes path x x' /\
    object x' h = Some (Writing path c));
  close_law : forall h x o, object x h = Some o -> runs (f_close h) x (fun r x' =>
    match o with
    | Reading _ => quiet x x'
    | Writing path c => changes path x x' /\ (r = FR_OK -> is_Some c -> file (now x') path = c)
    end);
  unlink_law : forall path x, runs (f_unlink path) x (fun r x' => frame [path] x x' /\
    evolves (fun d => d = now x \/ d = delete (key path) (now x)) x x' /\
    (r = FR_OK \/ r = FR_NO_FILE -> now x' = delete (key path) (now x)));
  rename_law : forall a b x, key a <> key b -> runs (f_rename a b) x (fun r x' => frame [a; b] x x' /\
    match file (now x) a, file (now x) b with
    | Some c, None => evolves (moving a b c (now x)) x x' /\ (r = FR_OK -> now x' = moved a b c (now x))
    | _, _ => r <> FR_OK /\ possible x' = possible x
    end);
  opendir_law : forall path x, runs (f_opendir path) x (fun r x' => quiet x x' /\
    (fst r = FR_OK -> scan x (snd r) = None /\ scan x' (snd r) = Some (Scan path 0 (entries x path))) /\
    (fst r = FR_NO_PATH \/ fst r = FR_NO_FILE -> entries x path = ∅));
  readdir_law : forall h x s, scan x h = Some s -> runs (f_readdir h) x (fun r x' => possible x' = possible x /\
    (forall dir, entries x' dir = entries x dir) /\ (forall h', h' <> h -> scan x' h' = scan x h') /\
    (fst r = FR_OK ->
      let name := fname (snd r) in
      if bool_decide (name = []) then sc_pending s = ∅
      else (47 ∉ name) /\ scan x' h = Some (Scan (sc_dir s) (sc_pos s + 1) (sc_pending s ∖ {[(within (sc_dir s) name, is_dir (snd r))]}))));
  closedir_law : forall h x, runs (f_closedir h) x (fun _ x' => possible x' = possible x /\
    (forall dir, entries x' dir = entries x dir) /\ (forall h', h' <> h -> scan x' h' = scan x h'));
  position_law : forall x h s, scan x h = Some s -> 0 <= sc_pos s <= DIR_MAX
}.
End medium.
