(* ===== verification/FatFsMem.v ===== *)
(** * FatFsMem: a file system in memory

    An implementation of the calls of [FatFs] for concrete runs: every call takes
    effect at once, except that a renamed file is at both names for a moment.  It
    obeys [FatFsLaws]. *)
From stdpp Require Import prelude gmap fin_sets.
From Stdlib Require Import ZArith Lia.
From S2P Require Import Prelude Text FatFs.
Local Open Scope Z_scope.

(** The states so far, the directories, the open files, and the open directories
    with their position and the names yet to return. *)
Record mem_fs := MemFs {
  m_states : list disk;
  m_dirs : gset chars;
  m_objects : gmap Z fobj;
  m_scans : gmap Z (chars * Z * list (chars * bool))
}.

Definition m_now (x : mem_fs) : disk := now m_states x.

Definition m_object (x : mem_fs) (h : Z) : option fobj := m_objects x !! h.

(** The name of a path's last part, when the rest is [dir]. *)
Definition child (dir path : chars) : option chars :=
  let start := key dir ++ [47] in
  let name := drop (length start) path in
  if bool_decide (path = start ++ name) && bool_decide (47 ∉ name) && negb (bool_decide (name = [])) then Some name else None.

Definition m_names (x : mem_fs) (dir : chars) : list (chars * bool) :=
  omap (fun p => (fun n => (n, false)) <$> child dir p) (elements (dom (m_now x))) ++
  omap (fun p => (fun n => (n, true)) <$> child dir p) (elements (m_dirs x)).

Definition entry_of (dir : chars) (n : chars * bool) : entry := (within dir (fst n), snd n).
Definition m_entries (x : mem_fs) (dir : chars) : gset entry := list_to_set (entry_of dir <$> m_names x dir).

Definition m_scan (x : mem_fs) (h : Z) : option scan_t :=
  match m_scans x !! h with
  | Some (dir, pos, names) =>
      if (0 <=? pos) && (pos <=? DIR_MAX) then Some (Scan dir pos (list_to_set (entry_of dir <$> names))) else None
  | None => None
  end.

Definition add_states (ds : list disk) (x : mem_fs) : mem_fs := MemFs (m_states x ++ ds) (m_dirs x) (m_objects x) (m_scans x).
Definition set_object (h : Z) (o : fobj) (x : mem_fs) : mem_fs := MemFs (m_states x) (m_dirs x) (<[h := o]> (m_objects x)) (m_scans x).
Definition set_scan (h : Z) (s : chars * Z * list (chars * bool)) (x : mem_fs) : mem_fs :=
  MemFs (m_states x) (m_dirs x) (m_objects x) (<[h := s]> (m_scans x)).
Definition set_file (path content : chars) (x : mem_fs) : mem_fs := add_states [<[key path := content]> (m_now x)] x.

#[export] Instance mem_fatfs : FatFs mem_fs := {
  f_stat path x :=
    match file (m_now x) path with
    | Some _ => ((FR_OK, false), x)
    | None => if bool_decide (key path ∈ m_dirs x) then ((FR_OK, true), x) else ((FR_NO_FILE, false), x)
    end;
  f_mkdir path x :=
    if bool_decide (key path ∈ m_dirs x) then (FR_EXIST, x)
    else (FR_OK, MemFs (m_states x) ({[key path]} ∪ m_dirs x) (m_objects x) (m_scans x));
  f_open path create x :=
    let h := fresh (dom (m_objects x)) in
    if create then ((FR_OK, h), set_object h (Writing path (Some [])) (set_file path [] x))
    else match file (m_now x) path with Some c => ((FR_OK, h), set_object h (Reading c) x) | None => ((FR_NO_FILE, h), x) end;
  f_size h x := match m_objects x !! h with Some (Reading c) => alen c | _ => 0 end;
  f_read h n x := match m_objects x !! h with Some (Reading c) => ((FR_OK, prefix n c), x) | _ => ((FR_DISK_ERR, []), x) end;
  f_write h data x :=
    match m_objects x !! h with
    | Some (Writing path (Some c)) => ((FR_OK, alen data), set_object h (Writing path (Some (c ++ data))) (set_file path (c ++ data) x))
    | Some (Writing path None) => ((FR_OK, alen data), x)
    | _ => ((FR_DISK_ERR, 0), x)
    end;
  f_sync h x := (FR_OK, x);
  f_close h x :=
    match m_objects x !! h with
    | Some (Writing path (Some c)) => (FR_OK, set_file path c x)
    | _ => (FR_OK, x)
    end;
  f_unlink path x :=
    match file (m_now x) path with
    | Some _ => (FR_OK, add_states [delete (key path) (m_now x)] x)
    | None => (FR_NO_FILE, x)
    end;
  f_rename a b x :=
    match file (m_now x) a, file (m_now x) b with
    | Some c, None => (FR_OK, add_states [<[key b := c]> (m_now x); moved a b c (m_now x)] x)
    | None, _ => (FR_NO_FILE, x)
    | _, Some _ => (FR_EXIST, x)
    end;
  f_opendir path x := let h := fresh (dom (m_scans x)) in ((FR_OK, h), set_scan h (path, 0, m_names x path) x);
  f_readdir h x :=
    match m_scans x !! h with
    | Some (dir, pos, []) => ((FR_OK, FileInfo [] false), x)
    | Some (dir, pos, n :: names) =>
        if (pos <? DIR_MAX) && negb (bool_decide (47 ∈ fst n)) && negb (bool_decide (fst n = []))
        then ((FR_OK, FileInfo (fst n) (snd n)), set_scan h (dir, pos + 1, filter (fun n' => n' <> n) names) x)
        else ((FR_DISK_ERR, FileInfo [] false), x)
    | None => ((FR_DISK_ERR, FileInfo [] false), x)
    end;
  f_closedir h x := (FR_OK, MemFs (m_states x) (m_dirs x) (m_objects x) (delete h (m_scans x)))
}.

(** ** Its laws *)

Local Abbreviation framem := (frame m_entries m_scan).

Lemma tolower_idemp c : tolower (tolower c) = tolower c.
Proof. unfold tolower. destruct ((65 <=? c) && (c <=? 90)) eqn:E; [|by rewrite E]. bsimp. destruct ((65 <=? c + 32) && (c + 32 <=? 90)) eqn:E2; [|done]. bsimp. lia. Qed.

Lemma key_idemp s : key (key s) = key s.
Proof. unfold key. rewrite <- list_fmap_compose. apply list_fmap_ext. intros i c _. apply tolower_idemp. Qed.

Lemma child_some dir path name : child dir path = Some name -> path = key dir ++ 47 :: name /\ (47 ∉ name) /\ name <> [].
Proof.
  unfold child. destruct (_ && _ && _) eqn:E; [|done]. intros [= <-]. apply andb_prop in E as [E E3]. apply andb_prop in E as [E1 E2].
  apply bool_decide_eq_true in E1, E2. apply negb_true_iff, bool_decide_eq_false in E3. split; [|done].
  etransitivity; [exact E1|]. by rewrite <- app_assoc.
Qed.

(** A file that is listed is not one of another name. *)
Lemma child_key dir path name other : child dir path = Some name -> key (within dir name) <> key other -> path <> key other.
Proof.
  intros (-> & _)%child_some Hne He. apply Hne. unfold within, key in *. rewrite fmap_app. cbn [fmap list_fmap]. change (tolower 47) with 47.
  fold (key dir) in *. pose proof (key_idemp other) as Hk. unfold key in Hk. rewrite <- He in Hk. rewrite fmap_app in Hk. cbn in Hk.
  change (tolower 47) with 47 in Hk. fold (key (key dir)) in Hk. rewrite key_idemp in Hk. apply app_inv_head in Hk. rewrite <- He. by rewrite Hk.
Qed.

Lemma elem_of_names x dir (n : chars) (b : bool) : (n, b) ∈ m_names x dir <->
  exists p, child dir p = Some n /\ if b then p ∈ m_dirs x else p ∈ dom (m_now x).
Proof.
  unfold m_names. rewrite elem_of_app, !list_elem_of_omap. split.
  - intros [(p & Hp & Hc)|(p & Hp & Hc)]; apply elem_of_elements in Hp; destruct (child dir p) eqn:E; try done; injection Hc as <- <-; eauto.
  - intros (p & Hc & Hp). destruct b; [right|left]; exists p; (split; [by apply elem_of_elements|]); by rewrite Hc.
Qed.

(** Files come and go only at [names], directories not at all. *)
Lemma mem_frame names x x' :
  m_dirs x ⊆ m_dirs x' -> m_scans x' = m_scans x ->
  (forall k, Forall (fun n => k <> key n) names -> k ∈ dom (m_now x) -> k ∈ dom (m_now x')) -> framem names x x'.
Proof.
  intros Hd Hs Hn. split.
  - intros dir [q b] He Hk. unfold m_entries in *. apply elem_of_list_to_set in He. apply elem_of_list_to_set.
    apply list_elem_of_fmap in He as ([n b'] & [= -> ->] & Hin). apply list_elem_of_fmap. exists (n, b'). split; [done|].
    apply elem_of_names in Hin as (p & Hc & Hp). apply elem_of_names. exists p. split; [done|]. destruct b'; [by apply Hd|].
    apply Hn; [|done]. eapply Forall_impl; [exact Hk|]. intros other Ho. by eapply child_key.
  - intros h s Hh. exists s. unfold m_scan in *. rewrite Hs. split_and!; [done..|]. by intros e ? _.
Qed.

Lemma mem_frame_same names x x' : m_states x' = m_states x -> m_dirs x ⊆ m_dirs x' -> m_scans x' = m_scans x -> framem names x x'.
Proof. intros Hst Hd Hs. apply mem_frame; [done|done|]. intros k _. unfold m_now, now. by rewrite Hst. Qed.

Lemma now_add ds d x : m_now (add_states (ds ++ [d]) x) = d.
Proof. unfold m_now, now. cbn. by rewrite app_assoc, last_last. Qed.

Lemma now_set_file path c x : m_now (set_file path c x) = <[key path := c]> (m_now x).
Proof. exact (now_add [] _ x). Qed.

Lemma mem_set_file path c x : changes m_states m_entries m_scan path x (set_file path c x).
Proof.
  split.
  - eexists. split; [reflexivity|]. repeat constructor. unfold same_except. by rewrite delete_insert_eq.
  - apply mem_frame; [done|done|]. intros k _ Hk. rewrite now_set_file. rewrite dom_insert. set_solver.
Qed.

Lemma changes_object path x x' h o : changes m_states m_entries m_scan path x x' -> changes m_states m_entries m_scan path x (set_object h o x').
Proof. intros [H [F G]]. split; [exact H|]. split; [exact F|exact G]. Qed.

Lemma changes_none path x : changes m_states m_entries m_scan path x x.
Proof. split; [exists []; by rewrite app_nil_r|]. by apply mem_frame_same. Qed.

Lemma mem_quiet x x' : m_states x' = m_states x -> m_dirs x ⊆ m_dirs x' -> m_scans x' = m_scans x -> quiet m_states m_entries m_scan x x'.
Proof. intros. split; [done|]. by apply mem_frame_same. Qed.

Lemma fresh_scan x : m_scan x (fresh (dom (m_scans x))) = None.
Proof. unfold m_scan. by rewrite (not_elem_of_dom_1 (m_scans x) _ (is_fresh _)). Qed.

Lemma scan_other h s x h' : h' <> h -> m_scan (set_scan h s x) h' = m_scan x h'.
Proof. intros Hne. unfold m_scan. cbn. by rewrite lookup_insert_ne. Qed.

Lemma scan_set h dir pos names x : 0 <= pos <= DIR_MAX ->
  m_scan (set_scan h (dir, pos, names) x) h = Some (Scan dir pos (list_to_set (entry_of dir <$> names))).
Proof. intros Hp. unfold m_scan. cbn. by rewrite lookup_insert_eq, (proj2 (Z.leb_le 0 pos)), (proj2 (Z.leb_le pos DIR_MAX)) by lia. Qed.

Lemma opendir_frame h s x : m_scan x h = None -> quiet m_states m_entries m_scan x (set_scan h s x).
Proof.
  intros Hn. split; [done|]. split; [by intros dir e ? _|]. intros h' s' Hs. exists s'. rewrite scan_other; [|congruence].
  split_and!; [done..|]. by intros e ? _.
Qed.

(** What is left of a scan after an entry. *)
Lemma pending_rest dir n names :
  (list_to_set (entry_of dir <$> filter (fun n' => n' <> n) names) : gset entry) = list_to_set (entry_of dir <$> n :: names) ∖ {[entry_of dir n]}.
Proof.
  apply set_eq. intros e. rewrite elem_of_difference, !elem_of_list_to_set, elem_of_singleton, !list_elem_of_fmap. split.
  - intros (n' & -> & Hin). apply list_elem_of_filter in Hin as [Hne Hin]. split; [exists n'; split; [done|by right]|].
    destruct n as [a b], n' as [a' b']. unfold entry_of, within. cbn [fst snd]. intros [= Ha Hb]. apply app_inv_head in Ha. injection Ha as Ha. apply Hne. by rewrite Ha, Hb.
  - intros [(n' & -> & Hin) Hne]. exists n'. split; [done|]. apply list_elem_of_filter. split; [by intros ->|].
    apply elem_of_cons in Hin as [->|Hin]; [done|done].
Qed.

#[export] Instance mem_laws : FatFsLaws m_states m_entries m_object m_scan.
Proof.
  constructor.
  - intros path x. unfold runs. cbn. destruct (file (m_now x) path) as [c|] eqn:E; [|case_bool_decide]; cbn;
      (split; [by apply mem_quiet|]); [|done|done]. intros _. by exists c.
  - intros path x. unfold runs. cbn. case_bool_decide; cbn; [by apply mem_quiet|]. apply mem_quiet; [done|set_solver|done].
  - intros path x. unfold runs. cbn. destruct (file (m_now x) path) as [c|] eqn:E; cbn; (split; [by apply mem_quiet|]); [|done].
    intros _. exists c. split; [done|]. unfold m_object. cbn. apply lookup_insert_eq.
  - intros path x. unfold runs. cbn. split; [apply changes_object, mem_set_file|]. intros _. apply lookup_insert_eq.
  - intros h x c H. unfold m_object in H. cbn. by rewrite H.
  - intros h n x c H. unfold runs, m_object in *. cbn. rewrite H. cbn. split; [by apply mem_quiet|done].
  - intros h data x path c H. unfold runs, m_object in *. cbn. rewrite H. destruct c as [c|]; cbn; rewrite Z.eqb_refl.
    + split; [apply changes_object, mem_set_file|]. apply lookup_insert_eq.
    + split; [apply changes_none|done].
  - intros h x path c H. unfold runs. cbn. split; [apply changes_none|done].
  - intros h x o H. unfold runs, m_object in *. cbn. rewrite H. destruct o as [c|path [c|]]; cbn.
    + by apply mem_quiet.
    + split; [apply mem_set_file|]. intros _ _. transitivity (file (<[key path := c]> (m_now x)) path); [|apply lookup_insert_eq]. f_equal. exact (now_set_file path c x).
    + split; [apply changes_none|]. by intros _ [? ?].
  - intros path x. unfold runs. cbn. destruct (file (m_now x) path) as [c|] eqn:E; cbn.
    + split; [|split].
      * apply mem_frame; [done|done|]. intros k Hk Hd. apply Forall_cons in Hk as [Hk _]. assert (k ∈ dom (delete (key path) (m_now x))) as H by (rewrite dom_delete; apply elem_of_difference; split; [done|by apply not_elem_of_singleton]). rewrite <- (now_add [] _ x) in H. exact H.
      * eexists. split; [reflexivity|]. apply Forall_singleton. by right.
      * intros _. apply (now_add [] _ x).
    + split; [by apply mem_frame_same|]. split; [exists []; by rewrite app_nil_r|]. intros _. symmetry. by apply delete_id.
  - intros a b x Hne. unfold runs. cbn. change (now m_states x) with (m_now x).
    destruct (file (m_now x) a) as [c|] eqn:Ea; [destruct (file (m_now x) b) eqn:Eb|]; cbn.
    1, 3: (split; [by apply mem_frame_same|done]).
    split.
    + apply mem_frame; [done|done|]. intros k Hk Hd. apply Forall_cons in Hk as [Ha _].
      assert (k ∈ dom (moved a b c (m_now x))) as H by (unfold moved; rewrite dom_delete, dom_insert; apply elem_of_difference; split; [apply elem_of_union; by right|by apply not_elem_of_singleton]). rewrite <- (now_add [<[key b := c]> (m_now x)] _ x) in H. exact H.
    + split; [|intros _; apply (now_add [_] _ x)]. eexists. split; [reflexivity|]. unfold moving. apply Forall_cons. split; [auto|].
      apply Forall_singleton. auto.
  - intros path x. unfold runs. cbn. split; [apply opendir_frame, fresh_scan|]. split; [|intros [?|?]; done]. intros _.
    split; [apply fresh_scan|]. by rewrite scan_set.
  - intros h x s Hs. unfold runs. cbn. unfold m_scan in Hs. destruct (m_scans x !! h) as [[[dir pos] names]|] eqn:E; [|done].
    destruct (_ && _) eqn:Ep; [|done]. injection Hs as <-. bsimp. destruct names as [|n names]; cbn.
    { split_and!; [done..|]. by intros _. }
    destruct ((pos <? DIR_MAX) && _ && _) eqn:En; cbn; [|done]. apply andb_prop in En as [En E3]. apply andb_prop in En as [E1 E2].
    apply negb_true_iff, bool_decide_eq_false in E2, E3. apply Z.ltb_lt in E1.
    split_and!; [done|done|intros h' Hh'; by apply scan_other|]. intros _. rewrite bool_decide_false by done. split; [done|].
    rewrite scan_set by lia. do 2 f_equal. apply pending_rest.
  - intros h x. unfold runs. cbn. split_and!; [done|done|]. intros h' Hh'. unfold m_scan. cbn. by rewrite lookup_delete_ne.
  - intros x h s. unfold m_scan. destruct (m_scans x !! h) as [[[dir pos] names]|]; [|done]. destruct (_ && _) eqn:E; [|done].
    intros [= <-]. cbn. apply andb_prop in E as [E1 E2]. bsimp. done.
Qed.
