(* ===== verification/ConfigFiles.v ===== *)
(** * ConfigFiles: the files of the configuration store

    [src/src/apps/freertos/config/config_store.c], the layer over FatFs: reading
    and replacing files, the recovery of interrupted replacements, the layouts a
    profile may be stored in and the migration between them.

    Paths are character lists; a result of [snprintf] that does not fit its
    buffer is refused as the code refuses it.  Scans of directories carry fuel and
    return [None] without it. *)
From stdpp Require Import prelude gmap.
From Stdlib Require Import ZArith Lia.
From Stdlib Require String.
Import String.StringSyntax.
From S2P Require Import Prelude Text I2cDevices ConfigValidate JsonReader ProfileCodec FatFs.
Local Open Scope Z_scope.

Definition CONFIG_DIR_PRIMARY : chars := lit "config".
Definition CONFIG_DIR_FALLBACK : chars := lit "configs".
Definition NETWORK_CFG_NAME : chars := lit "network.json".
Definition I2C_CFG_SUBDIR_NAME : chars := lit "i2c".
Definition MDIO_CFG_SUBDIR_NAME : chars := lit "mdio".

(** [QSPI_ROOT], with the default number of SD instances. *)
Definition QSPI_ROOT : chars := lit "1:/".

(** ** Paths *)

Definition skip_slash (s : chars) : chars := match s with c :: r => if c =? 47 then r else s | [] => [] end.

(** The text that [build_flash_path] stores in [out_sz] bytes. *)
Definition build_flash_path (out_sz : Z) (suffix_no_slash : chars) : chars :=
  if out_sz <=? alen QSPI_ROOT + alen suffix_no_slash + 2 then []
  else QSPI_ROOT ++ skip_slash suffix_no_slash.

Definition cfg_suffix (dir rel_suffix : chars) : chars :=
  prefix 159 (match skip_slash rel_suffix with [] => dir | s => within dir s end).

(** The primary and the fallback path. *)
Definition build_cfg_path (out_primary_sz out_fallback_sz : Z) (rel_suffix : chars) : chars * chars :=
  (build_flash_path out_primary_sz (cfg_suffix CONFIG_DIR_PRIMARY rel_suffix),
   build_flash_path out_fallback_sz (cfg_suffix CONFIG_DIR_FALLBACK rel_suffix)).

(** [strrchr (s, '/')]: what is before the last slash and after it. *)
Fixpoint last_slash (s : chars) : option (chars * chars) :=
  match s with
  | [] => None
  | c :: r =>
      match last_slash r with
      | Some (a, b) => Some (c :: a, b)
      | None => if c =? 47 then Some ([], r) else None
      end
  end.

(** What follows the last slash. *)
Definition leaf_of (path : chars) : chars := match last_slash path with Some (_, b) => b | None => path end.

(** The text as the checks of the profiles take it, with its NUL. *)
Definition cz (s : chars) : chars := s ++ [0].

Definition path_valid (s : chars) : bool := bvstk_device_profile_path_valid (Some (cz s)).
Definition is_register_map (s : chars) : bool := bvstk_device_profile_is_register_map (Some (cz s)).

(** [strcasecmp (s + n, suffix) == 0] for the last characters of [s]. *)
Definition ends_with (suffix s : chars) : bool :=
  bool_decide (tolower <$> drop (length s - length suffix) s = tolower <$> suffix).

Definition strip (n : Z) (s : chars) : chars := prefix (alen s - n) s.

Section files.
Context {X : Type} `{FS : FatFs X}.

(** ** Files *)

Definition dir_exists (path : chars) : ST X bool :=
  let! r := f_stat path in st_ret (fr_ok (fst r) && snd r).

Definition ensure_dir_exists (path : chars) : ST X bool :=
  let! r := f_mkdir path in st_ret (fr_ok r || bool_decide (r = FR_EXIST)).

Definition file_exists (path : chars) : ST X bool :=
  let! r := f_stat path in st_ret (fr_ok (fst r) && negb (snd r)).

(** 1 present, 0 absent, -1 unknown. *)
Definition profile_file_present (path : chars) : ST X Z :=
  let! r := f_stat path in
  st_ret (match fst r with
          | FR_NO_FILE | FR_NO_PATH => 0
          | FR_OK => if snd r then -1 else 1
          | _ => -1
          end).

(** The text that [buf] holds then; [None] is the result 0. *)
Definition read_file_to_buf (path : chars) (buf_sz : Z) : ST X (option chars) :=
  if buf_sz <? 2 then st_ret None
  else
    let! f := f_open path FA_READ in
    if negb (fr_ok (fst f)) then st_ret None
    else
      let! size := st_get (f_size (snd f)) in
      if buf_sz <=? size then
        let! _ := f_close (snd f) in
        st_ret None
      else
        let! r := f_read (snd f) size in
        let! c := f_close (snd f) in
        if negb (fr_ok (fst r)) || negb (fr_ok c) || negb (alen (snd r) =? size) || existsb (Z.eqb 0) (snd r) then st_ret None
        else st_ret (Some (snd r)).

Definition read_file_first_available (p1 p2 : chars) (buf_sz : Z) : ST X (option chars) :=
  let attempt p := let! e := file_exists p in if e then read_file_to_buf p buf_sz else st_ret None in
  let! r := attempt p1 in
  match r with Some t => st_ret (Some t) | None => attempt p2 end.

Definition write_file_atomic (final_path data : chars) : ST X bool :=
  if 128 <=? alen final_path + 5 then st_ret false
  else
    let tmp := final_path ++ lit ".tmp" in
    let! f := f_open tmp FA_CREATE in
    if negb (fr_ok (fst f)) then st_ret false
    else
      let! w := f_write (snd f) data in
      let! sync := f_sync (snd f) in
      let! close := f_close (snd f) in
      if negb (fr_ok (fst w)) || negb (snd w =? alen data) || negb (fr_ok sync) || negb (fr_ok close) then
        let! _ := f_unlink tmp in
        st_ret false
      else
        let! _ := f_unlink final_path in
        let! r := f_rename tmp final_path in
        if negb (fr_ok r) then
          let! _ := f_unlink tmp in
          st_ret false
        else st_ret true.

Definition copy_file_atomic (src_path dst_path : chars) (buf_sz : Z) : ST X bool :=
  let! t := read_file_to_buf src_path buf_sz in
  match t with None => st_ret false | Some t => write_file_atomic dst_path t end.

(** The replacement proper, [had_file] told before. *)
Definition replace_file (path tmp backup : chars) (had_file : bool) : ST X bool :=
  let! ready :=
    (if had_file then
       let! u := f_unlink backup in
       if negb (fr_ok u) && negb (bool_decide (u = FR_NO_FILE)) then st_ret false
       else
         let! r := f_rename path backup in
         st_ret (fr_ok r)
     else st_ret true) in
  if negb ready then st_ret false
  else
    let! r := f_rename tmp path in
    if fr_ok r then st_ret true
    else if had_file then
      let! _ := f_rename backup path in
      st_ret false
    else st_ret false.

Definition write_device_file (path data : chars) : ST X bool :=
  let tmp := path ++ lit ".tmp" in
  let backup := path ++ lit ".bak" in
  let! had_file := file_exists path in
  if (200 <=? alen tmp) || (200 <=? alen backup) then st_ret false
  else
    let! f := f_open tmp FA_CREATE in
    if negb (fr_ok (fst f)) then st_ret false
    else
      let! w := f_write (snd f) data in
      let! result := (if fr_ok (fst w) && (snd w =? alen data) then f_sync (snd f) else st_ret (fst w)) in
      let! close := f_close (snd f) in
      if negb (fr_ok result) || negb (fr_ok close) || negb (snd w =? alen data) then st_ret false
      else replace_file path tmp backup had_file.

Definition ensure_device_parent (path : chars) : ST X bool :=
  if 200 <=? alen path then st_ret false
  else
    match last_slash path with
    | None => st_ret false
    | Some (parent, _) => ensure_dir_exists parent
    end.

(** ** Scans of a directory *)

(** A loop over the entries: [body] gives the result that ends it, if any. *)
Fixpoint scan_loop (fuel : nat) (dir : Z) (body : FILINFO -> ST X (option (option FRESULT))) : ST X (option FRESULT) :=
  match fuel with
  | O => st_ret None
  | S fuel =>
      let! r := f_readdir dir in
      if negb (fr_ok (fst r)) || bool_decide (fname (snd r) = []) then st_ret (Some (fst r))
      else
        let? next := body (snd r) in
        match next with
        | Some result => st_ret (Some result)
        | None => scan_loop fuel dir body
        end
  end.

Definition dot_name (name : chars) : bool := bool_decide (name = lit ".") || bool_decide (name = lit "..").

(** Open, loop, close: 1 for a directory that is not there, 0 for one that cannot
    be read or a loop that failed. *)
Definition scan_dir (fuel : nat) (path : chars) (body : FILINFO -> ST X (option (option FRESULT))) : ST X (option bool) :=
  let! d := f_opendir path in
  match fst d with
  | FR_NO_PATH | FR_NO_FILE => st_ret (Some true)
  | FR_OK =>
      let? result := scan_loop fuel (snd d) body in
      let! _ := f_closedir (snd d) in
      st_ret (Some (fr_ok result))
  | _ => st_ret (Some false)
  end.

Definition scan_next : ST X (option (option FRESULT)) := st_ret (Some None).
Definition scan_end (r : FRESULT) : ST X (option (option FRESULT)) := st_ret (Some (Some r)).

(** ** Recovery *)

(** Whether a backup of a bundle's file is one of a profile. *)
Definition bundle_member (path canonical : chars) : bool :=
  let relative := within (leaf_of path) (leaf_of canonical) in
  negb (I2C_CFG_FILE_NAME_MAX <=? alen relative) && path_valid relative.

(** A file of the directory [path]; [bundles] tells that it is not a bundle. *)
Definition recover_file (bundles : bool) (path name : chars) : ST X (option (option FRESULT)) :=
  if (alen name <? 10) || negb (ends_with (lit ".json.bak") name) then scan_next
  else
    let backup := within path name in
    if 200 <=? alen backup then scan_end FR_INVALID_NAME
    else
      let canonical := strip 4 backup in
      if is_register_map (leaf_of canonical) then scan_next
      else if negb bundles && negb (bundle_member path canonical) then scan_next
      else
        let! present := profile_file_present canonical in
        if present <? 0 then scan_end FR_DISK_ERR
        else if present =? 0 then
          let! ok := copy_file_atomic backup canonical (BVSTK_PROFILE_JSON_MAX + 1) in
          if ok then scan_next else scan_end FR_DISK_ERR
        else scan_next.

(** One entry; [bundle] is the recovery of a sub-directory, where there are any. *)
Definition recover_entry (bundle : option (chars -> ST X (option bool))) (path : chars) (entry : FILINFO)
    : ST X (option (option FRESULT)) :=
  let name := fname entry in
  if dot_name name then scan_next
  else
    match bundle with
    | Some recover =>
        if is_dir entry then
          let canonical := within path name in
          if 200 <=? alen canonical then scan_end FR_DISK_ERR
          else
            let? ok := recover canonical in
            if ok then scan_next else scan_end FR_DISK_ERR
        else recover_file true path name
    | None => if is_dir entry then scan_next else recover_file false path name
    end.

Definition recover_bundle (fuel : nat) (path : chars) : ST X (option bool) := scan_dir fuel path (recover_entry None path).

Definition recover_device_configs (fuel : nat) (path : chars) : ST X (option bool) :=
  scan_dir fuel path (recover_entry (Some (recover_bundle fuel)) path).
End files.
