(* ===== verification/ConfigFilesSafety.v ===== *)
(** * ConfigFilesSafety: a power cut loses no device profile

    What the next start of the store finds under the name of a profile is the file
    itself or, when a replacement was cut short, its backup.  Every state the
    medium goes through while a profile is replaced holds the old or the new text
    in this sense, a recovery changes nothing of it, and puts every file back in
    its place. *)
From stdpp Require Import prelude gmap.
From Stdlib Require Import ZArith Lia.
From Stdlib Require String.
Import String.StringSyntax.
From S2P Require Import Prelude Text I2cDevices ConfigValidate JsonReader ProfileCodec FatFs FatFsMem ConfigFiles.
Local Open Scope Z_scope.

(** ** Names *)

Lemma key_app a b : key (a ++ b) = key a ++ key b.
Proof. apply fmap_app. Qed.

Lemma key_length a : length (key a) = length a.
Proof. apply length_fmap. Qed.

Lemma ends_with_key suffix a b : key a = key b -> ends_with suffix a = ends_with suffix b.
Proof.
  intros He. unfold ends_with. rewrite !fmap_drop. fold (key a) (key b). rewrite He.
  assert (length a = length b) as -> by (rewrite <- (key_length a), He; apply key_length). done.
Qed.

Lemma ends_with_last suffix s : ends_with suffix s = true -> suffix <> [] -> last (key s) = last (key suffix).
Proof.
  unfold ends_with. intros H Hne. apply bool_decide_eq_true in H. fold (key suffix) in H. rewrite <- (take_drop (length s - length suffix) s), key_app.
  unfold key at 2. rewrite H. destruct suffix as [|c l _] using rev_ind; [done|]. unfold key. rewrite !fmap_app. cbn [fmap list_fmap].
  by rewrite !app_assoc, !last_snoc.
Qed.

Lemma ends_with_app suffix s : ends_with suffix (s ++ suffix) = true.
Proof.
  unfold ends_with. apply bool_decide_eq_true. f_equal. rewrite length_app. replace (_ + _ - _)%nat with (length s) by lia. apply drop_app_length.
Qed.

Definition profile_name (path : chars) : Prop := ends_with (lit ".json") path = true.
Definition tmp_of (path : chars) : chars := path ++ lit ".tmp".
Definition bak_of (path : chars) : chars := path ++ lit ".bak".

Lemma profile_last path : profile_name path -> last (key path) = Some 110.
Proof. intros H. by rewrite (ends_with_last (lit ".json") path) by done. Qed.

Lemma tmp_last path : last (key (tmp_of path)) = Some 112.
Proof. unfold tmp_of. rewrite key_app. change (key (lit ".tmp")) with ([46; 116; 109] ++ [112]). by rewrite app_assoc, last_snoc. Qed.

Lemma bak_last path : last (key (bak_of path)) = Some 107.
Proof. unfold bak_of. rewrite key_app. change (key (lit ".bak")) with ([46; 98; 97] ++ [107]). by rewrite app_assoc, last_snoc. Qed.

Lemma key_longer path suffix : suffix <> [] -> key (path ++ suffix) <> key path.
Proof. intros Hne H. apply (f_equal length) in H. rewrite !key_length, length_app in H. destruct suffix; [done|]. cbn in H. lia. Qed.

Lemma tmp_key path : key (tmp_of path) <> key path.
Proof. by apply key_longer. Qed.
Lemma bak_key path : key (bak_of path) <> key path.
Proof. by apply key_longer. Qed.
Lemma tmp_bak a b : key (tmp_of a) <> key (bak_of b).
Proof. intros H. pose proof (tmp_last a) as H1. rewrite H, bak_last in H1. done. Qed.
Lemma bak_inj a b : key (bak_of a) = key (bak_of b) -> key a = key b.
Proof. unfold bak_of. rewrite !key_app. apply app_inj_2. done. Qed.

(** ** Files of a medium *)

(** What a start of the store finds. *)
Definition recoverable (path : chars) (d : disk) : option chars :=
  match file d path with Some c => Some c | None => file d (bak_of path) end.

Lemma file_insert_eq d p q c : key p = key q -> file (<[key p := c]> d) q = Some c.
Proof. intros H. unfold file. by rewrite H, lookup_insert_eq. Qed.
Lemma file_insert_ne d p q c : key p <> key q -> file (<[key p := c]> d) q = file d q.
Proof. intros H. unfold file. by rewrite lookup_insert_ne. Qed.
Lemma file_delete_eq d p q : key p = key q -> file (delete (key p) d) q = None.
Proof. intros H. unfold file. by rewrite H, lookup_delete_eq. Qed.
Lemma file_delete_ne d p q : key p <> key q -> file (delete (key p) d) q = file d q.
Proof. intros H. unfold file. by rewrite lookup_delete_ne. Qed.

Lemma file_same p d d' q : same_except p d d' -> key p <> key q -> file d' q = file d q.
Proof. intros H Hne. rewrite <- (file_delete_ne d p q), <- (file_delete_ne d' p q) by done. by rewrite H. Qed.

Lemma recoverable_same p d d' q : same_except p d d' -> key p <> key q -> key p <> key (bak_of q) -> recoverable q d' = recoverable q d.
Proof. intros H H1 H2. unfold recoverable. by rewrite !(file_same p d d'). Qed.

Lemma same_except_refl p d : same_except p d d.
Proof. done. Qed.
Lemma same_except_trans p d1 d2 d3 : same_except p d1 d2 -> same_except p d2 d3 -> same_except p d1 d3.
Proof. unfold same_except. congruence. Qed.

Create HintDb names.
#[export] Hint Resolve tmp_key bak_key tmp_bak not_eq_sym : names.

(** ** Runs of FatFs *)

Section runs.
Context {X : Type} (possible : X -> list disk) (entries : X -> chars -> gset entry) (object : X -> Z -> option fobj)
  (scan : X -> Z -> option scan_t) `{FS : FatFs X} `{HL : !FatFsLaws possible entries object scan}.

Local Abbreviation nowx := (now possible).
Local Abbreviation evolve := (evolves possible).
Local Abbreviation framex := (frame entries scan).
Local Abbreviation changesx := (changes possible entries scan).
Local Abbreviation quietx := (quiet possible entries scan).

Lemma medium_refl S x : evolve S x x.
Proof. exists []. by rewrite app_nil_r. Qed.

Lemma evolves_same S x x' : possible x' = possible x -> evolve S x x'.
Proof. intros H. exists []. rewrite app_nil_r. by split. Qed.

Lemma medium_trans S x1 x2 x3 : evolve S x1 x2 -> evolve S x2 x3 -> evolve S x1 x3.
Proof.
  intros (l1 & H1 & F1) (l2 & H2 & F2). exists (l1 ++ l2). rewrite H2, H1, app_assoc. split; [done|]. by apply Forall_app.
Qed.

Lemma evolves_mono (S S' : disk -> Prop) x x' : evolve S x x' -> (forall d, S d -> S' d) -> evolve S' x x'.
Proof. intros (l & H & F) HS. exists l. split; [done|]. by eapply Forall_impl. Qed.

Lemma now_same x x' : possible x' = possible x -> nowx x' = nowx x.
Proof. unfold now. by intros ->. Qed.

Lemma evolves_now (S : disk -> Prop) x x' : evolve S x x' -> S (nowx x) -> S (nowx x').
Proof.
  intros (l & H & F) Hx. unfold now in *. rewrite H. destruct l as [|d l _] using rev_ind; [by rewrite app_nil_r|].
  rewrite app_assoc, last_last. apply Forall_app in F as [_ F]. by inversion F.
Qed.

Lemma listing_trans names s1 s2 s3 : keeps names s1 s2 -> keeps names s2 s3 -> keeps names s1 s3.
Proof. unfold keeps. auto. Qed.

Lemma keeps_more names names' s s' : (forall n, n ∈ names -> n ∈ names') -> keeps names s s' -> keeps names' s s'.
Proof. intros Hn H e He Hf. apply H; [done|]. rewrite Forall_forall in *. auto. Qed.

Lemma frame_refl names x : framex names x x.
Proof. split; [by intros dir e ? ?|]. intros h s Hs. exists s. split_and!; [done..|]. by intros e ? ?. Qed.

Lemma frame_trans names x1 x2 x3 : framex names x1 x2 -> framex names x2 x3 -> framex names x1 x3.
Proof.
  intros [E1 S1] [E2 S2]. split; [intros dir; by eapply listing_trans|]. intros h s Hs.
  destruct (S1 h s Hs) as (s' & Hs' & Hd & Hp & Hk). destruct (S2 h s' Hs') as (s'' & Hs'' & Hd' & Hp' & Hk').
  exists s''. split_and!; [congruence..|]. by eapply listing_trans.
Qed.

Lemma frame_more names names' x x' : (forall n, n ∈ names -> n ∈ names') -> framex names x x' -> framex names' x x'.
Proof.
  intros Hn [E S]. split; [intros dir; by eapply keeps_more|]. intros h s Hs. destruct (S h s Hs) as (s' & ? & ? & ? & ?).
  exists s'. split_and!; [done..|]. by eapply keeps_more.
Qed.

Lemma changes_trans p x1 x2 x3 : changesx p x1 x2 -> changesx p x2 x3 -> changesx p x1 x3.
Proof.
  intros [E1 F1] [E2 F2]. split; [|by eapply frame_trans]. pose proof (evolves_now _ _ _ E1 (same_except_refl _ _)) as H12.
  eapply medium_trans; [exact E1|]. eapply evolves_mono; [exact E2|]. intros d Hd. by eapply same_except_trans.
Qed.

Lemma quiet_now x x' : quietx x x' -> nowx x' = nowx x.
Proof. intros [H _]. by apply now_same. Qed.

(** A new file is written: only it changes, and with no error it has the text. *)
Lemma create_run {A} path (k : FRESULT * Z -> ST X A) x (Q : A -> X -> Prop) :
  (forall r x1, changesx path x x1 -> fr_ok (fst r) = true -> object x1 (snd r) = Some (Writing path (Some [])) -> runs (k r) x1 Q) ->
  (forall r x1, changesx path x x1 -> fr_ok (fst r) = false -> runs (k r) x1 Q) ->
  runs (st_bind (f_open path FA_CREATE) k) x Q.
Proof.
  intros H1 H2. apply runs_bind. eapply runs_mono; [apply (create_law possible entries object scan)|]. intros r x1 [Hc Ho].
  destruct (fr_ok (fst r)) eqn:E; [|by apply H2]. apply H1; [done|done|]. by apply Ho, fr_ok_true.
Qed.

(** A file that moves; [b] must not be there. *)
Lemma rename_run a b x : key a <> key b ->
  runs (f_rename a b) x (fun r x' => framex [a; b] x x' /\
    evolve (fun d => exists c, d = nowx x \/ file (nowx x) a = Some c /\ file (nowx x) b = None /\ moving a b c (nowx x) d) x x' /\
    (r = FR_OK -> exists c, file (nowx x) a = Some c /\ file (nowx x) b = None /\ nowx x' = moved a b c (nowx x))).
Proof.
  intros Hne. eapply runs_mono; [by apply (rename_law possible entries object scan)|]. intros r x' [Hf H]. split; [done|].
  destruct (file (nowx x) a) as [c|]; [destruct (file (nowx x) b) as [c'|]|].
  - destruct H as [Hr Hp]. split; [by apply evolves_same|done].
  - destruct H as [He Hr]. split; [|by eauto]. eapply evolves_mono; [exact He|]. intros d Hd. exists c. right. by split_and!.
  - destruct H as [Hr Hp]. split; [by apply evolves_same|done].
Qed.

Lemma moving_file a b c d d' q : moving a b c d d' -> key q <> key a -> key q <> key b -> file d' q = file d q.
Proof.
  intros [->|[->| ->]] Ha Hb; [done|by rewrite file_insert_ne by done|].
  unfold moved. by rewrite file_delete_ne, file_insert_ne by done.
Qed.

Lemma moving_target a b c d d' : moving a b c d d' -> key a <> key b -> file d' b = file d b \/ file d' b = Some c.
Proof.
  intros [->|[->| ->]] Hne; [by left|right; by apply file_insert_eq|right]. unfold moved. rewrite file_delete_ne by done. by apply file_insert_eq.
Qed.

(** A file at [a] that moves to [b] is at one of them throughout. *)
Lemma moving_kept a b c d d' : moving a b c d d' -> key a <> key b -> file d a = Some c -> file d b = None ->
  (file d' a = Some c /\ (file d' b = None \/ file d' b = Some c)) \/ (file d' a = None /\ file d' b = Some c).
Proof.
  intros [->|[->| ->]] Hne Ha Hb.
  - left. auto.
  - left. rewrite file_insert_ne, file_insert_eq by done. auto.
  - right. unfold moved. rewrite file_delete_eq, file_delete_ne, file_insert_eq by done. auto.
Qed.

(** ** Replacing a profile *)

Section replace.
Context (path new : chars).

(** The old or the new text is found. *)
Definition old_or_new (old : option chars) (d : disk) : Prop := recoverable path d = old \/ recoverable path d = Some new.

(** The files that a replacement uses; the others are as in [base]. *)
Definition footprint : list chars := [path; tmp_of path; bak_of path].
Definition outside (base d : disk) : Prop := forall n, Forall (fun m => key n <> key m) footprint -> file d n = file base n.
Definition held (old : option chars) (base d : disk) : Prop := old_or_new old d /\ outside base d.

Lemma moving_outside base a b c d d' : moving a b c d d' -> a ∈ footprint -> b ∈ footprint -> outside base d -> outside base d'.
Proof.
  intros Hm Ha Hb Ho n Hn. pose proof (proj1 (Forall_forall _ _) Hn) as Hf. rewrite (moving_file _ _ _ _ _ _ Hm) by auto. by apply Ho.
Qed.

Lemma same_outside base m d d' : same_except m d d' -> m ∈ footprint -> outside base d -> outside base d'.
Proof.
  intros Hs Hm Ho n Hn. rewrite (file_same _ _ _ _ Hs); [by apply Ho|]. apply not_eq_sym. exact (proj1 (Forall_forall _ _) Hn m Hm).
Qed.

Lemma path_used : path ∈ footprint.
Proof. by left. Qed.
Lemma tmp_used : tmp_of path ∈ footprint.
Proof. right. by left. Qed.
Lemma bak_used : bak_of path ∈ footprint.
Proof. right. right. by left. Qed.
Hint Resolve path_used tmp_used bak_used : names.

Lemma recoverable_here d c : file d path = Some c -> recoverable path d = Some c.
Proof. unfold recoverable. by intros ->. Qed.

(** The new file comes in: what was found is found, or the new text. *)
Lemma install_safe old d d' : old_or_new old d -> file d path = None -> moving (tmp_of path) path new d d' -> old_or_new old d'.
Proof.
  intros Hd Hn Hm. destruct (moving_target _ _ _ _ _ Hm) as [H|H]; [by apply tmp_key| |right; by apply recoverable_here].
  unfold old_or_new, recoverable in *. rewrite Hn in Hd. rewrite H, Hn.
  rewrite (moving_file _ _ _ _ _ _ Hm); [done|apply not_eq_sym, tmp_bak|apply bak_key].
Qed.

(** The backup goes back. *)
Lemma restore_safe old c d d' : file d (bak_of path) = Some c -> file d path = None -> old_or_new old d ->
  moving (bak_of path) path c d d' -> old_or_new old d'.
Proof.
  intros Hb Hn Hd Hm. assert (recoverable path d = Some c) as Hr by (unfold recoverable; by rewrite Hn).
  unfold old_or_new in *. rewrite Hr in Hd.
  destruct (moving_kept _ _ _ _ _ Hm) as [[Ha [H|H]]|[Ha H]]; [apply bak_key|done|done|..]; unfold recoverable; rewrite H; [by rewrite Ha|done..].
Qed.

(** The profile becomes the backup. *)
Lemma backup_safe old d d' : file d path = Some old -> file d (bak_of path) = None -> moving path (bak_of path) old d d' ->
  recoverable path d' = Some old.
Proof.
  intros Hp Hb Hm. destruct (moving_kept _ _ _ _ _ Hm) as [[Ha _]|[Ha H]]; [by apply not_eq_sym, bak_key|done|done|..]; unfold recoverable; by rewrite Ha.
Qed.

Lemma install_run old base had x :
  file (nowx x) (tmp_of path) = Some new -> held old base (nowx x) -> (had = true -> file (nowx x) path = None) ->
  (had = true -> file (nowx x) (bak_of path) = old) ->
  runs (let! r := f_rename (tmp_of path) path in
        if fr_ok r then st_ret true
        else if had then let! _ := f_rename (bak_of path) path in st_ret false else st_ret false) x
    (fun ok x' => evolve (held old base) x x' /\ (ok = true -> file (nowx x') path = Some new)).
Proof.
  intros Ht Hs Hp Hb. apply runs_bind. eapply runs_mono; [apply rename_run, tmp_key|]. intros r x1 (_ & He & Hr).
  assert (evolve (held old base) x x1) as He1.
  { eapply evolves_mono; [exact He|]. intros d (c & [->|(Hc & Hn & Hm)]); [done|]. rewrite Ht in Hc. injection Hc as <-. destruct Hs as [Hs Ho].
    split; [by eapply install_safe|]. eapply moving_outside; eauto with names. }
  destruct (fr_ok r) eqn:Er.
  { apply runs_ret. split; [done|]. intros _. apply fr_ok_true in Er. destruct (Hr Er) as (c & Hc & Hn & ->).
    rewrite Ht in Hc. injection Hc as <-. unfold moved. rewrite file_delete_ne by apply tmp_key. by apply file_insert_eq. }
  destruct had; [|by apply runs_ret].
  apply runs_bind. eapply runs_mono; [apply rename_run, bak_key|]. intros r2 x2 (_ & He2 & _). apply runs_ret. split; [|done].
  eapply medium_trans; [exact He1|]. eapply evolves_mono; [exact He2|]. pose proof (evolves_now _ _ _ He1 Hs) as Hs1.
  intros d (c & [->|(Hc & Hn & Hm)]); [done|]. destruct Hs1 as [Hs1 Ho]. split; [by eapply restore_safe|]. eapply moving_outside; eauto with names.
Qed.

Lemma replace_run base had x :
  outside base (nowx x) -> (had = true -> is_Some (file (nowx x) path)) -> file (nowx x) (tmp_of path) = Some new ->
  runs (replace_file path (tmp_of path) (bak_of path) had) x (fun ok x' =>
    evolve (held (recoverable path (nowx x)) base) x x' /\ (ok = true -> file (nowx x') path = Some new)).
Proof.
  intros Hout Hh Ht. unfold replace_file. set (old := recoverable path (nowx x)). apply runs_bind. destruct had.
  2: { apply runs_ret. cbn [negb]. apply (install_run old base false); [done|by split; [left|]|done|done]. }
  destruct (Hh eq_refl) as (c & Hc). assert (old = Some c) as Hold by (unfold old; by apply recoverable_here).
  apply runs_bind. eapply runs_mono; [apply (unlink_law possible entries object scan)|]. intros u x1 (_ & He & Hu).
  assert (forall d, d = nowx x \/ d = delete (key (bak_of path)) (nowx x) -> file d path = Some c) as Hdel.
  { intros d [->| ->]; [done|]. rewrite file_delete_ne by apply bak_key. done. }
  assert (evolve (held old base) x x1) as He1.
  { eapply evolves_mono; [exact He|]. intros d Hd. split; [left; rewrite Hold; apply recoverable_here; auto|].
    destruct Hd as [->| ->]; [done|]. eapply same_outside; [|apply bak_used|exact Hout]. unfold same_except. apply delete_delete_eq. }
  pose proof (evolves_now _ _ _ He1 (conj (or_introl eq_refl) Hout)) as [_ Hout1].
  destruct (negb (fr_ok u) && _) eqn:Eu; [apply runs_ret; cbn [negb]; by apply runs_ret|].
  assert (nowx x1 = delete (key (bak_of path)) (nowx x)) as Hx1.
  { apply Hu. apply andb_false_iff in Eu as [Eu|Eu]; apply negb_false_iff in Eu; [left; by apply fr_ok_true|right; by apply bool_decide_eq_true in Eu]. }
  assert (file (nowx x1) path = Some c /\ file (nowx x1) (bak_of path) = None /\ file (nowx x1) (tmp_of path) = Some new) as (Hp1 & Hb1 & Ht1).
  { rewrite Hx1. split; [auto|]. split; [by apply file_delete_eq|]. rewrite file_delete_ne; [done|]. apply not_eq_sym, tmp_bak. }
  apply runs_bind. eapply runs_mono; [apply rename_run, not_eq_sym, bak_key|]. intros r x2 (_ & He2 & Hr). apply runs_ret.
  assert (evolve (held old base) x x2) as He12.
  { eapply medium_trans; [exact He1|]. eapply evolves_mono; [exact He2|]. intros d (c' & [->|(Hc' & Hn & Hm)]).
    - split; [left; rewrite Hold; by apply recoverable_here|done].
    - split; [left; rewrite Hold; rewrite Hp1 in Hc'; injection Hc' as <-; by eapply backup_safe|]. eapply moving_outside; eauto with names. }
  destruct (fr_ok r) eqn:Er; cbn [negb]; [|by apply runs_ret].
  apply fr_ok_true in Er. destruct (Hr Er) as (c' & Hc' & _ & Hx2). rewrite Hp1 in Hc'. injection Hc' as <-.
  assert (file (nowx x2) path = None /\ file (nowx x2) (bak_of path) = Some c /\ file (nowx x2) (tmp_of path) = Some new) as (Hp2 & Hb2 & Ht2).
  { rewrite Hx2. unfold moved. split; [by apply file_delete_eq|]. split.
    - rewrite file_delete_ne by (apply not_eq_sym, bak_key). by apply file_insert_eq.
    - rewrite file_delete_ne, file_insert_ne; [done|apply not_eq_sym, tmp_bak|apply not_eq_sym, tmp_key]. }
  pose proof (evolves_now _ _ _ He12 (conj (or_introl eq_refl) Hout)) as Hheld2.
  eapply runs_mono; [apply (install_run old base true); [done|done|done|by rewrite Hold]|].
  intros ok x3 [He3 Hok]. split; [by eapply medium_trans|done].
Qed.

(** What is written before the replacement touches the temporary file only. *)
Lemma changes_safe x x' : changesx (tmp_of path) x x' -> evolve (held (recoverable path (nowx x)) (nowx x)) x x'.
Proof.
  intros [He _]. eapply evolves_mono; [exact He|]. intros d Hd. split; [|by eapply same_outside; [exact Hd|apply tmp_used|]].
  left. apply (recoverable_same _ _ _ _ Hd); [apply tmp_key|apply tmp_bak].
Qed.

Lemma changes_file p x x' q : changesx p x x' -> key p <> key q -> file (nowx x') q = file (nowx x) q.
Proof. intros [He _] Hne. pose proof (evolves_now _ _ _ He (same_except_refl _ _)) as H. by apply (file_same p). Qed.
End replace.

Lemma quiet_changes p x x' : quietx x x' -> changesx p x x'.
Proof.
  intros [Hp Hf]. split; [by apply evolves_same|]. eapply frame_more; [|exact Hf]. intros n Hn. by apply not_elem_of_nil in Hn.
Qed.

Lemma file_exists_run path x : runs (file_exists path) x (fun e x' => quietx x x' /\ (e = true -> is_Some (file (nowx x) path))).
Proof.
  unfold file_exists. apply runs_bind. eapply runs_mono; [apply (stat_law possible entries object scan)|]. intros r x1 [Hq Hr]. apply runs_ret.
  split; [done|]. intros He. apply andb_prop in He as [E1 E2]. apply fr_ok_true in E1. rewrite E1 in Hr. apply Hr. by destruct (snd r).
Qed.

Lemma write_device_file_run path data x :
  runs (write_device_file path data) x (fun ok x' =>
    evolve (held path data (recoverable path (nowx x)) (nowx x)) x x' /\
    (ok = true -> file (nowx x') path = Some data)).
Proof.
  unfold write_device_file. fold (tmp_of path) (bak_of path). apply runs_bind. eapply runs_mono; [apply file_exists_run|]. intros had x1 [Hq Hhad].
  pose proof (quiet_changes (tmp_of path) _ _ Hq) as H1.
  assert (forall x', changesx (tmp_of path) x x' -> evolve (held path data (recoverable path (nowx x)) (nowx x)) x x' /\
    (false = true -> file (nowx x') path = Some data)) as Hfail by (intros x' H'; split; [by apply changes_safe|done]).
  destruct (_ || _); [apply runs_ret; by apply Hfail|].
  apply create_run; intros f x2 H2 Ef; rewrite Ef; cbn [negb]; [|apply runs_ret, Hfail; by eapply changes_trans].
  intros Hobj. apply runs_bind. eapply runs_mono; [by apply (write_law possible entries object scan)|]. intros w x3 [H3 Hobj3].
  pose proof (changes_trans _ _ _ _ (changes_trans _ _ _ _ H1 H2) H3) as H13. apply runs_bind.
  assert (runs (if fr_ok (fst w) && (snd w =? alen data) then f_sync (snd f) else st_ret (fst w)) x3 (fun r x4 =>
    changesx (tmp_of path) x3 x4 /\ (fr_ok r = true -> snd w = alen data -> object x4 (snd f) = Some (Writing (tmp_of path) (Some data))) /\
    exists c, object x4 (snd f) = Some (Writing (tmp_of path) c))) as Hsync.
  { destruct (fr_ok (fst w) && (snd w =? alen data)) eqn:Ew.
    - eapply runs_mono; [by apply (sync_law possible entries object scan)|]. intros r x4 [H4 Hobj4]. split_and!; [done| |by eauto]. done.
    - apply runs_ret. split_and!; [apply quiet_changes; split; [done|apply frame_refl]| |by eauto]. intros Hr Hl. rewrite Hr, Hl, Z.eqb_refl in Ew. done. }
  eapply runs_mono; [exact Hsync|]. intros r x4 (H4 & Hgood & c & Hobj4). pose proof (changes_trans _ _ _ _ H13 H4) as H14.
  apply runs_bind. eapply runs_mono; [by apply (close_law possible entries object scan)|]. intros close x5 [H5 Hclose].
  pose proof (changes_trans _ _ _ _ H14 H5) as H15.
  destruct (_ || _ || _) eqn:Efail; [by apply runs_ret, Hfail|].
  apply orb_false_iff in Efail as [Efail El]. apply orb_false_iff in Efail as [Er Ecl]. apply negb_false_iff in Er, Ecl, El. apply Z.eqb_eq in El.
  specialize (Hgood Er El). rewrite Hgood in Hobj4. injection Hobj4 as <-.
  assert (recoverable path (nowx x5) = recoverable path (nowx x)) as Hrec.
  { destruct H15 as [He _]. apply (recoverable_same (tmp_of path)); [exact (evolves_now _ _ _ He (same_except_refl _ _))|apply tmp_key|apply tmp_bak]. }
  pose proof (evolves_now _ _ _ (changes_safe path data _ _ H15) (conj (or_introl eq_refl) (fun _ _ => eq_refl))) as [_ Hout5].
  eapply runs_mono; [apply (replace_run path data (nowx x))|].
  - exact Hout5.
  - intros Ht. rewrite (changes_file (tmp_of path) x x5) by (done || apply tmp_key). auto.
  - apply fr_ok_true in Ecl. by apply Hclose.
  - intros ok x6 [H6 Hok]. split; [|done]. rewrite Hrec in H6. eapply medium_trans; [by apply changes_safe|done].
Qed.

(** ** Recovery *)

(** Nothing that would be found is lost, and no profile disappears. *)
Definition steadier (d d' : disk) : Prop := forall path, profile_name path ->
  recoverable path d' = recoverable path d /\ (is_Some (file d path) -> file d' path = file d path).

Lemma steadier_refl d : steadier d d.
Proof. by intros path _. Qed.

Lemma steadier_trans d1 d2 d3 : steadier d1 d2 -> steadier d2 d3 -> steadier d1 d3.
Proof.
  intros H12 H23 path Hp. destruct (H12 path Hp) as [R1 F1], (H23 path Hp) as [R2 F2]. split; [congruence|].
  intros Hs. rewrite F2; [auto|]. by rewrite F1.
Qed.

(** Entries that a recovery does not touch. *)
Definition bystander (e : entry) : Prop := ends_with (lit ".json") (fst e) = false /\ ends_with (lit ".tmp") (fst e) = false.

Definition stay (s s' : gset entry) : Prop := forall e, e ∈ s -> bystander e -> e ∈ s'.

(** A step of a recovery, which may move the scan [skip]. *)
Definition steady (skip : option Z) (x x' : X) : Prop :=
  evolve (steadier (nowx x)) x x' /\
  (forall dir, stay (entries x dir) (entries x' dir)) /\
  forall h s, Some h <> skip -> scan x h = Some s -> exists s', scan x' h = Some s' /\ sc_dir s' = sc_dir s /\ sc_pos s' = sc_pos s /\
    stay (sc_pending s) (sc_pending s').

Lemma steady_now skip x x' : steady skip x x' -> steadier (nowx x) (nowx x').
Proof. intros [He _]. exact (evolves_now _ _ _ He (steadier_refl _)). Qed.

Lemma steady_trans skip x1 x2 x3 : steady skip x1 x2 -> steady skip x2 x3 -> steady skip x1 x3.
Proof.
  intros S12 S23. pose proof (steady_now _ _ _ S12) as H12. destruct S12 as (E1 & D1 & C1), S23 as (E2 & D2 & C2). split; [|split].
  - eapply medium_trans; [exact E1|]. eapply evolves_mono; [exact E2|]. intros d Hd. by eapply steadier_trans.
  - intros dir e He Hb. by apply D2; [apply D1|].
  - intros h s Hh Hs. destruct (C1 h s Hh Hs) as (s' & Hs' & Hd & Hp & Hk). destruct (C2 h s' Hh Hs') as (s'' & Hs'' & Hd' & Hp' & Hk').
    exists s''. split_and!; [congruence..|]. intros e He Hb. by apply Hk'; [apply Hk|].
Qed.

Lemma steady_skip skip x x' : steady None x x' -> steady skip x x'.
Proof. intros (E & D & C). split_and!; [done|done|]. intros h s _. by apply C. Qed.

(** Operations on profiles and temporary files leave the bystanders. *)
Definition touchable (n : chars) : Prop := ends_with (lit ".json") n = true \/ ends_with (lit ".tmp") n = true.

Lemma keeps_stay names s s' : Forall touchable names -> keeps names s s' -> stay s s'.
Proof.
  intros Hn Hk e He [B1 B2]. apply Hk; [done|]. eapply Forall_impl; [exact Hn|]. intros n [H|H] Heq.
  - by rewrite (ends_with_key _ _ _ Heq), H in B1.
  - by rewrite (ends_with_key _ _ _ Heq), H in B2.
Qed.

Lemma steady_intro names x x' : Forall touchable names -> evolve (steadier (nowx x)) x x' -> framex names x x' -> steady None x x'.
Proof.
  intros Hn He [D C]. split_and!; [done|intros dir; by eapply keeps_stay|]. intros h s _ Hs. destruct (C h s Hs) as (s' & ? & ? & ? & ?).
  exists s'. split_and!; [done..|]. by eapply keeps_stay.
Qed.

Lemma quiet_steady x x' : quietx x x' -> steady None x x'.
Proof. intros [Hp Hf]. eapply (steady_intro []); [constructor|by apply evolves_same|done]. Qed.

Lemma touch_tmp path : touchable (tmp_of path).
Proof. right. apply ends_with_app. Qed.

Lemma changes_tmp_steady path x x' : changesx (tmp_of path) x x' -> steady None x x'.
Proof.
  intros [He Hf]. eapply (steady_intro [tmp_of path]); [by apply List.Forall_cons; [apply touch_tmp|constructor]| |done].
  eapply evolves_mono; [exact He|]. intros d Hd q Hq.
  assert (key (tmp_of path) <> key q) as Hne by (intros H; pose proof (tmp_last path) as H1; rewrite H, (profile_last q Hq) in H1; done).
  split; [apply (recoverable_same _ _ _ _ Hd); [done|apply tmp_bak]|]. intros _. by apply (file_same (tmp_of path)).
Qed.

(** Whether [entries] tells of it or not: a name that is not there. *)
Lemma unlink_absent path x : profile_name path -> file (nowx x) path = None ->
  runs (f_unlink path) x (fun _ x' => steady None x x' /\ nowx x' = nowx x).
Proof.
  intros Hp Hn. eapply runs_mono; [apply (unlink_law possible entries object scan)|]. intros r x' (Hf & He & _).
  assert (delete (key path) (nowx x) = nowx x) as Hd by (by apply delete_id).
  assert (evolve (fun d => d = nowx x) x x') as He' by (eapply evolves_mono; [exact He|]; intros d [->| ->]; done).
  split; [|by apply (evolves_now _ _ _ He')]. eapply (steady_intro [path]); [by apply List.Forall_cons; [left|constructor]| |done].
  eapply evolves_mono; [exact He'|]. intros d ->. apply steadier_refl.
Qed.

Lemma install_steady path new x : profile_name path -> file (nowx x) path = None -> file (nowx x) (tmp_of path) = Some new ->
  file (nowx x) (bak_of path) = Some new ->
  runs (f_rename (tmp_of path) path) x (fun r x' => steady None x x' /\ (r = FR_OK -> is_Some (file (nowx x') path))).
Proof.
  intros Hp Hn Ht Hb. eapply runs_mono; [apply rename_run, tmp_key|]. intros r x' (Hf & He & Hr). split.
  - eapply (steady_intro [tmp_of path; path]); [apply List.Forall_cons; [apply touch_tmp|by apply List.Forall_cons; [left|constructor]]| |done].
    eapply evolves_mono; [exact He|]. intros d (c & [->|(Hc & _ & Hm)]) q Hq; [by apply steadier_refl|].
    rewrite Ht in Hc. injection Hc as <-.
    assert (key q <> key (tmp_of path)) as Hqt by (intros H; pose proof (tmp_last path) as H1; rewrite <- H, (profile_last q Hq) in H1; done).
    assert (key (bak_of q) <> key path) as Hbp by (intros H; pose proof (bak_last q) as H1; rewrite H, (profile_last path Hp) in H1; done).
    assert (file d (bak_of q) = file (nowx x) (bak_of q)) as Hfb by (apply (moving_file _ _ _ _ _ _ Hm); [apply not_eq_sym, tmp_bak|done]).
    destruct (decide (key q = key path)) as [Heq|Hne].
    + assert (forall d, file d q = file d path) as Hfq by (intros d'; unfold file; by rewrite Heq).
      assert (forall d, file d (bak_of q) = file d (bak_of path)) as Hfbq by (intros d'; unfold file, bak_of; by rewrite !key_app, Heq).
      unfold recoverable. rewrite Hfb, !Hfq, Hfbq, Hn, Hb. split; [|by intros [? ?]].
      by destruct (moving_target _ _ _ _ _ Hm) as [->| ->]; [apply tmp_key|rewrite Hn|].
    + unfold recoverable. rewrite Hfb, (moving_file _ _ _ _ _ _ Hm) by done. done.
  - intros E. destruct (Hr E) as (c & Hc & _ & ->). unfold moved. rewrite file_delete_ne by apply tmp_key. rewrite file_insert_eq by done. eauto.
Qed.

Lemma read_file_run path buf_sz x :
  runs (read_file_to_buf path buf_sz) x (fun t x' => quietx x x' /\ (forall c, t = Some c -> file (nowx x) path = Some c)).
Proof.
  assert (forall x1 x2 x3, quietx x1 x2 -> quietx x2 x3 -> quietx x1 x3) as Htrans.
  { intros x1 x2 x3 [P1 F1] [P2 F2]. split; [congruence|by eapply frame_trans]. }
  unfold read_file_to_buf. destruct (buf_sz <? 2); [apply runs_ret; split; [split; [done|apply frame_refl]|done]|].
  apply runs_bind. eapply runs_mono; [apply (open_law possible entries object scan)|]. intros f x1 [H1 Hf].
  destruct (fr_ok (fst f)) eqn:Ef; cbn [negb]; [|by apply runs_ret]. apply fr_ok_true in Ef. destruct (Hf Ef) as (c & Hc & Hobj).
  apply runs_bind, runs_get. pose proof (size_law possible entries object scan _ _ _ Hobj) as ->. destruct (buf_sz <=? alen c).
  { apply runs_bind. eapply runs_mono; [by apply (close_law possible entries object scan)|]. intros r x2 H2. apply runs_ret. split; [by eapply Htrans|done]. }
  apply runs_bind. eapply runs_mono; [by apply (read_law possible entries object scan)|]. intros r x2 (H2 & Hobj2 & Hr).
  apply runs_bind. eapply runs_mono; [by apply (close_law possible entries object scan)|]. intros cl x3 H3.
  assert (quietx x x3) as H13 by (eapply Htrans; [exact H1|]; by eapply Htrans).
  destruct (_ || _ || _ || _) eqn:E; apply runs_ret; (split; [done|]); [done|]. intros t [= <-].
  apply orb_false_iff in E as [E _]. apply orb_false_iff in E as [E _]. apply orb_false_iff in E as [E _]. apply negb_false_iff, fr_ok_true in E.
  rewrite (Hr E), Hc. f_equal. symmetry. apply prefix_whole.
Qed.

Lemma unlink_changes path x : runs (f_unlink path) x (fun _ x' => changesx path x x').
Proof.
  eapply runs_mono; [apply (unlink_law possible entries object scan)|]. intros r x' (Hf & He & _). split; [|done].
  eapply evolves_mono; [exact He|]. intros d [->| ->]; [done|]. unfold same_except. apply delete_delete_eq.
Qed.

Lemma steady_tmp_file path x x' q : changesx (tmp_of path) x x' -> key (tmp_of path) <> key q -> file (nowx x') q = file (nowx x) q.
Proof. apply changes_file. Qed.

Lemma file_key d p q : key p = key q -> file d p = file d q.
Proof. unfold file. by intros ->. Qed.

(** The text of a backup comes back under the name. *)
Lemma write_file_run path data x : profile_name path -> file (nowx x) path = None -> file (nowx x) (bak_of path) = Some data ->
  runs (write_file_atomic path data) x (fun ok x' => steady None x x' /\ (ok = true -> is_Some (file (nowx x') path))).
Proof.
  intros Hp Hn Hb. unfold write_file_atomic. fold (tmp_of path).
  destruct (_ <=? _); [apply runs_ret; split; [apply quiet_steady; split; [done|apply frame_refl]|done]|].
  apply create_run; intros f x1 H1 Ef; rewrite Ef; cbn [negb]; [|apply runs_ret; split; [by eapply changes_tmp_steady|done]].
  intros Hobj. apply runs_bind. eapply runs_mono; [by apply (write_law possible entries object scan)|]. intros w x2 [H2 Hobj2].
  apply runs_bind. eapply runs_mono; [by apply (sync_law possible entries object scan)|]. intros sy x3 [H3 Hobj3].
  apply runs_bind. eapply runs_mono; [by apply (close_law possible entries object scan)|]. intros cl x4 [H4 Hcl].
  pose proof (changes_trans _ _ _ _ H1 (changes_trans _ _ _ _ H2 (changes_trans _ _ _ _ H3 H4))) as H14.
  destruct (_ || _ || _ || _) eqn:E.
  { apply runs_bind. eapply runs_mono; [apply unlink_changes|]. intros u x5 H5. apply runs_ret. split; [|done].
    eapply changes_tmp_steady. by eapply changes_trans. }
  apply orb_false_iff in E as [E Ecl]. apply orb_false_iff in E as [E _]. apply negb_false_iff, fr_ok_true in Ecl.
  assert (file (nowx x4) (tmp_of path) = Some data) as Ht4.
  { apply orb_false_iff in E as [E1 E2]. apply negb_false_iff in E1, E2. rewrite E1, E2 in Hcl. by apply Hcl. }
  assert (file (nowx x4) path = None /\ file (nowx x4) (bak_of path) = Some data) as [Hn4 Hb4].
  { rewrite !(changes_file _ _ _ _ H14) by (apply tmp_key || apply tmp_bak). done. }
  apply runs_bind. eapply runs_mono; [by apply unlink_absent|]. intros u x5 [S5 H5].
  apply runs_bind. eapply runs_mono; [apply (install_steady path data); [done|by rewrite H5..]|]. intros r x6 [S6 Hr].
  pose proof (steady_trans _ _ _ _ (changes_tmp_steady _ _ _ H14) (steady_trans _ _ _ _ S5 S6)) as S16.
  destruct (fr_ok r) eqn:Er; cbn [negb].
  - apply runs_ret. split; [done|]. intros _. by apply Hr, fr_ok_true.
  - apply runs_bind. eapply runs_mono; [apply unlink_changes|]. intros u' x7 H7. apply runs_ret. split; [|done].
    eapply steady_trans; [exact S16|]. exact (changes_tmp_steady _ _ _ H7).
Qed.

Lemma copy_file_run backup path buf_sz x : profile_name path -> file (nowx x) path = None -> key backup = key (bak_of path) ->
  runs (copy_file_atomic backup path buf_sz) x (fun ok x' => steady None x x' /\ (ok = true -> is_Some (file (nowx x') path))).
Proof.
  intros Hp Hn Hb. unfold copy_file_atomic. apply runs_bind. eapply runs_mono; [apply read_file_run|]. intros t x1 [H1 Ht].
  destruct t as [t|]; [|apply runs_ret; split; [by apply quiet_steady|done]].
  eapply runs_mono; [apply write_file_run; [done|by rewrite (quiet_now _ _ H1)|]|].
  { rewrite (quiet_now _ _ H1). rewrite <- (file_key _ _ _ Hb). by apply Ht. }
  intros ok x2 [S2 Hok]. split; [|done]. eapply steady_trans; [by apply quiet_steady|done].
Qed.

(** *** Scans *)

Lemma within_inj dir a b : within dir a = within dir b -> a = b.
Proof. unfold within. intros H. apply app_inv_head in H. by injection H. Qed.

Section scans.
Context (h : Z) (body : FILINFO -> ST X (option (option FRESULT))) (done_ : FILINFO -> X -> Prop) (x0 : X).
Hypothesis done_steady : forall e skip x1 x2, done_ e x1 -> steady skip x1 x2 -> done_ e x2.

(** What an entry of the scan must do. *)
Definition body_ok : Prop := forall e x1, steady (Some h) x0 x1 -> 47 ∉ fname e ->
  runs (body e) x1 (fun o x2 => exists r, o = Some r /\ steady None x1 x2 /\ r <> Some FR_OK /\ (r = None -> done_ e x2)).

Definition all_done (dir : chars) (s : gset entry) (x : X) : Prop := forall e,
  (within dir (fname e), is_dir e) ∈ s -> bystander (within dir (fname e), is_dir e) -> done_ e x.

Lemma scan_loop_run fuel s x : body_ok -> steady (Some h) x0 x -> scan x h = Some s -> DIR_MAX - sc_pos s < Z.of_nat fuel ->
  runs (scan_loop fuel h body) x (fun o x' => exists r, o = Some r /\ steady (Some h) x x' /\
    (r = FR_OK -> all_done (sc_dir s) (sc_pending s) x')).
Proof.
  intros Hbody. revert s x. induction fuel as [|fuel IH]; intros s x Hx Hs Hf.
  { pose proof (position_law possible entries object scan _ _ _ Hs). lia. }
  cbn [scan_loop]. apply runs_bind. eapply runs_mono; [by apply (readdir_law possible entries object scan)|].
  intros r x1 (Hp & He & Hsc & Hr).
  assert (steady (Some h) x x1) as S1.
  { split_and!; [by apply evolves_same|intros dir e; by rewrite He|]. intros h' s' Hh Hs'. exists s'.
    rewrite Hsc by congruence. split_and!; [done..|]. by intros e ? ?. }
  destruct (fr_ok (fst r)) eqn:Er; cbn [negb orb].
  2: { apply runs_ret. eexists. split_and!; [done|done|]. intros H. apply fr_ok_true in H. congruence. }
  apply fr_ok_true in Er. specialize (Hr Er). cbn beta zeta in Hr. destruct (bool_decide (fname (snd r) = [])).
  { apply runs_ret. eexists. split_and!; [done|done|]. intros _ e He'. rewrite Hr in He'. by apply not_elem_of_empty in He'. }
  destruct Hr as [Hname Hs1]. apply runs_bind. eapply runs_mono; [apply (Hbody (snd r) x1); [by eapply steady_trans|done]|].
  intros ? x2 (next & -> & S2 & Hok & Hdone). destruct next as [res|].
  { apply runs_ret. eexists. split_and!; [done| |congruence]. eapply steady_trans; [exact S1|]. by apply steady_skip. }
  destruct S2 as (E2 & D2 & C2). destruct (C2 h _ ltac:(done) Hs1) as (s2 & Hs2 & Hd2 & Hp2 & Hk2). cbn [sc_dir sc_pos sc_pending] in *.
  assert (steady None x1 x2) as S2 by done. pose proof (steady_trans _ _ _ _ S1 (steady_skip (Some h) _ _ S2)) as S12.
  eapply runs_mono; [apply (IH s2 x2); [by eapply steady_trans|done|lia]|]. intros ? x3 (res & -> & S3 & Hall). eexists.
  split_and!; [done|by eapply steady_trans|]. intros Hres e Hin Hby. specialize (Hdone eq_refl).
  destruct (decide ((within (sc_dir s) (fname e), is_dir e) = (within (sc_dir s) (fname (snd r)), is_dir (snd r)))) as [Heq|Hne].
  - injection Heq as Hn Hd. apply within_inj in Hn. assert (e = snd r) as -> by (destruct e, (snd r); cbn in *; congruence).
    by eapply done_steady.
  - rewrite Hd2 in Hall. apply Hall; [done| |done]. apply Hk2; [|done]. apply elem_of_difference. split; [done|]. by intros H%elem_of_singleton.
Qed.
End scans.

(** A whole scan; the new handle is unknown before. *)
Lemma scan_dir_run fuel path body (done_ : FILINFO -> X -> Prop) x :
  DIR_MAX < Z.of_nat fuel ->
  (forall e skip x1 x2, done_ e x1 -> steady skip x1 x2 -> done_ e x2) ->
  (forall h x1, quietx x x1 -> body_ok h body done_ x1) ->
  runs (scan_dir fuel path body) x (fun o x' => exists ok, o = Some ok /\ steady None x x' /\
    (ok = true -> all_done done_ path (entries x path) x')).
Proof.
  intros Hf Hd Hbody. unfold scan_dir. apply runs_bind. eapply runs_mono; [apply (opendir_law possible entries object scan)|].
  intros r x1 (Hq & Hok & Hno).
  assert (forall b, (b = true -> entries x path = ∅) -> runs (st_ret (Some b)) x1 (fun o x' => exists ok, o = Some ok /\ steady None x x' /\
    (ok = true -> all_done done_ path (entries x path) x'))) as Hret.
  { intros b Hb. apply runs_ret. exists b. split_and!; [done|by apply quiet_steady|]. intros Ht e He. rewrite Hb in He by done. by apply not_elem_of_empty in He. }
  destruct (fst r) eqn:Er; try (apply Hret; by auto).
  destruct (Hok eq_refl) as [Hnew Hs]. apply runs_bind.
  assert (steady (Some (snd r)) x1 x1) as S11 by (apply steady_skip, quiet_steady; split; [done|apply frame_refl]).
  eapply runs_mono; [apply (scan_loop_run _ _ done_ x1 Hd fuel (Scan path 0 (entries x path))); [by apply Hbody|done|done|cbn [sc_pos]; lia]|].
  intros ? x2 (res & -> & S2 & Hall). cbn [sc_dir sc_pending] in Hall. apply runs_bind.
  eapply runs_mono; [apply (closedir_law possible entries object scan)|]. intros c x3 (Hp3 & He3 & Hs3). apply runs_ret.
  assert (steady (Some (snd r)) x2 x3) as S3.
  { split_and!; [by apply evolves_same|intros dir e; by rewrite He3|]. intros h' s' Hh Hs'. exists s'.
    rewrite Hs3 by congruence. split_and!; [done..|]. by intros e ? ?. }
  pose proof (steady_trans _ _ _ _ (steady_skip (Some (snd r)) _ _ (quiet_steady _ _ Hq)) (steady_trans _ _ _ _ S2 S3)) as (E & D & C).
  eexists. split_and!; [done| |].
  - split_and!; [done|done|]. intros h s _ Hh. apply C; [|done]. intros [= ->]. congruence.
  - intros Hres e Hin Hby. apply fr_ok_true in Hres. eapply Hd; [by apply Hall|exact S3].
Qed.

(** *** Entries *)

Lemma ends_with_split suffix s : ends_with suffix s = true -> exists l t, s = l ++ t /\ key t = key suffix.
Proof. unfold ends_with. intros H. apply bool_decide_eq_true in H. eexists _, _. split; [symmetry; apply take_drop|exact H]. Qed.

Lemma ends_with_iff suffix l t : length t = length suffix -> ends_with suffix (l ++ t) = bool_decide (key t = key suffix).
Proof. intros Hl. unfold ends_with. rewrite length_app, Hl. replace (_ + _ - _)%nat with (length l) by lia. by rewrite drop_app_length. Qed.

Lemma key_take n s : key (take n s) = take n (key s).
Proof. apply fmap_take. Qed.

(** The name a backup stands for. *)
Lemma strip_backup path name : ends_with (lit ".json.bak") name = true ->
  profile_name (strip 4 (within path name)) /\ key (within path name) = key (bak_of (strip 4 (within path name))).
Proof.
  intros H. apply ends_with_split in H as (l & t & -> & Ht). assert (length t = 9%nat) as Hl by (by rewrite <- key_length, Ht).
  assert (within path (l ++ t) = (path ++ 47 :: l) ++ t) as -> by (unfold within; by rewrite <- app_assoc).
  assert (strip 4 ((path ++ 47 :: l) ++ t) = (path ++ 47 :: l) ++ take 5 t) as ->.
  { unfold strip, prefix, alen. rewrite length_app, Hl.
    replace (Z.to_nat (Z.of_nat (length (path ++ 47%Z :: l) + 9) - 4)) with (length (path ++ 47%Z :: l) + 5)%nat by lia. apply take_app_add. }
  split.
  - unfold profile_name. rewrite ends_with_iff by (rewrite length_take, Hl; done). apply bool_decide_eq_true. by rewrite key_take, Ht.
  - unfold bak_of. rewrite !key_app, key_take, Ht. by rewrite <- (app_assoc _ (take 5 _)).
Qed.

(** Which backups count: in a bundle, those of profiles. *)
Definition eligible (bundles : bool) (path name : chars) : Prop :=
  10 <= alen name /\ ends_with (lit ".json.bak") name = true /\ is_register_map (leaf_of (strip 4 (within path name))) = false /\
  (bundles = false -> bundle_member path (strip 4 (within path name)) = true).

Definition restored (bundles : bool) (path name : chars) (x : X) : Prop :=
  eligible bundles path name -> is_Some (file (nowx x) (strip 4 (within path name))).

Lemma restored_steady bundles path name skip x1 x2 : restored bundles path name x1 -> steady skip x1 x2 -> restored bundles path name x2.
Proof.
  intros H S He. specialize (H He). destruct He as (_ & He & _). destruct (strip_backup path name He) as [Hp _].
  destruct (steady_now _ _ _ S _ Hp) as [_ Hf]. by rewrite Hf.
Qed.

Lemma backup_bystander path name : ends_with (lit ".json.bak") name = true -> bystander (within path name, false).
Proof.
  intros H. destruct (strip_backup path name H) as [_ Hk]. unfold bystander. cbn [fst].
  rewrite !(ends_with_key _ _ _ Hk). split; apply not_true_is_false; intros E; apply ends_with_last in E; try done; by rewrite bak_last in E.
Qed.

Lemma present_run path x : runs (profile_file_present path) x (fun p x' => quietx x x' /\
  (p = 0 -> file (nowx x) path = None) /\ (0 < p -> is_Some (file (nowx x) path))).
Proof.
  unfold profile_file_present. apply runs_bind. eapply runs_mono; [apply (stat_law possible entries object scan)|]. intros r x1 [Hq Hr]. apply runs_ret.
  split; [done|]. destruct (fst r); try (split; [by intros|lia]). destruct (snd r); split; try lia. intros _. by apply Hr.
Qed.

Lemma quiet_refl x : quietx x x.
Proof. split; [done|apply frame_refl]. Qed.

Lemma recover_file_run bundles path name x :
  runs (recover_file bundles path name) x (fun o x' => exists r, o = Some r /\ steady None x x' /\ r <> Some FR_OK /\
    (r = None -> restored bundles path name x')).
Proof.
  unfold recover_file. pose proof (quiet_steady _ _ (quiet_refl x)) as Srefl.
  assert ((eligible bundles path name -> False) -> runs scan_next x (fun o x' => exists r, o = Some r /\ steady None x x' /\ r <> Some FR_OK /\
    (r = None -> restored bundles path name x'))) as Hskip.
  { intros H. apply runs_ret. exists None. split_and!; [done..|]. intros _ He. by apply H in He. }
  assert (forall r x', r <> FR_OK -> steady None x x' -> runs (scan_end r) x' (fun o x' => exists r, o = Some r /\ steady None x x' /\ r <> Some FR_OK /\
    (r = None -> restored bundles path name x'))) as Hbreak by (intros r x' Hr S; apply runs_ret; exists (Some r); split_and!; [done|done|congruence|done]).
  destruct (Z.ltb_spec (alen name) 10) as [Hlt|Hge]; cbn [orb]; [apply Hskip; intros (? & _); lia|].
  destruct (ends_with (lit ".json.bak") name) eqn:Ee; cbn [negb]; [|apply Hskip; intros (_ & ? & _); congruence].
  destruct (200 <=? _); [by apply Hbreak|].
  destruct (is_register_map _) eqn:Em; [apply Hskip; intros (_ & _ & ? & _); congruence|].
  destruct (negb bundles && _) eqn:Eb.
  { apply Hskip. intros (_ & _ & _ & Hm). apply andb_prop in Eb as [E1 E2]. destruct bundles; [done|]. by rewrite Hm in E2. }
  destruct (strip_backup path name Ee) as [Hp Hk].
  apply runs_bind. eapply runs_mono; [apply present_run|]. intros p x1 (Hq & H0 & H1). pose proof (quiet_steady _ _ Hq) as S1.
  destruct (Z.ltb_spec p 0); [by apply Hbreak|]. destruct (Z.eqb_spec p 0) as [->|Hne].
  - apply runs_bind. eapply runs_mono; [apply copy_file_run; [done|rewrite (quiet_now _ _ Hq); by apply H0|done]|].
    intros ok x2 [S2 Hok]. pose proof (steady_trans _ _ _ _ S1 S2) as S12. destruct ok; [|by apply Hbreak].
    apply runs_ret. exists None. split_and!; [done..|]. intros _ _. by apply Hok.
  - apply runs_ret. exists None. split_and!; [done..|]. intros _ _. rewrite (quiet_now _ _ Hq). apply H1. lia.
Qed.

Lemma recover_bundle_run fuel path x : DIR_MAX < Z.of_nat fuel ->
  runs (recover_bundle fuel path) x (fun o x' => exists ok, o = Some ok /\ steady None x x' /\
    (ok = true -> forall name, (within path name, false) ∈ entries x path -> restored false path name x')).
Proof.
  intros Hf. eapply runs_mono.
  { apply (scan_dir_run fuel path _ (fun e x => dot_name (fname e) = false -> is_dir e = false -> restored false path (fname e) x)); [done|..].
    - intros e skip x1 x2 H S Hdot Hd. eapply restored_steady; [by apply H|done].
    - intros h x1 _ e x2 _ _. unfold recover_entry.
      destruct (dot_name (fname e)); [apply runs_ret; exists None; split_and!; [done|apply quiet_steady, quiet_refl|done|done]|].
      destruct (is_dir e); [apply runs_ret; exists None; split_and!; [done|apply quiet_steady, quiet_refl|done|done]|].
      eapply runs_mono; [apply recover_file_run|]. intros o x3 (r & -> & S & Hr & Hd). exists r. split_and!; [done..|]. auto. }
  intros o x' (ok & -> & S & Hall). exists ok. split_and!; [done..|]. intros -> name Hin He.
  pose proof He as (H10 & Hb & _).
  specialize (Hall eq_refl (FileInfo name false) Hin (backup_bystander _ _ Hb)). cbn [fname is_dir] in Hall. apply Hall; [|done|done].
  unfold dot_name. apply orb_false_iff. split; apply bool_decide_eq_false; intros ->; by apply H10.
Qed.

(** A power cut while a profile is replaced loses nothing: in every state the
    medium goes through, the name or, without it, the backup has the text that
    was found before or the new one, and no file changes but the profile, its
    backup and its temporary file.  A replacement that reports success has put the
    new text under the name. *)
Theorem write_device_file_safe path data x :
  runs (write_device_file path data) x (fun ok x' =>
    evolve (held path data (recoverable path (nowx x)) (nowx x)) x x' /\
    (ok = true -> file (nowx x') path = Some data)).
Proof. apply write_device_file_run. Qed.

(** A backup that is listed where the recovery looks: in [dir], or in a bundle of it. *)
Definition listed (dir path : chars) (x : X) : Prop := exists name,
  (path = strip 4 (within dir name) /\ (within dir name, false) ∈ entries x dir /\ eligible true dir name) \/
  exists bundle, path = strip 4 (within (within dir bundle) name) /\ (within dir bundle, true) ∈ entries x dir /\
    bystander (within dir bundle, true) /\ dot_name bundle = false /\
    (within (within dir bundle) name, false) ∈ entries x (within dir bundle) /\ eligible false (within dir bundle) name.

Lemma eligible_not_dot bundles path name : eligible bundles path name -> dot_name name = false.
Proof. intros (H & _). unfold dot_name. apply orb_false_iff. split; apply bool_decide_eq_false; intros ->; by apply H. Qed.

Lemma restored_text bundles path name x x' : eligible bundles path name -> steadier (nowx x) (nowx x') -> restored bundles path name x' ->
  is_Some (file (nowx x') (strip 4 (within path name))) /\
  file (nowx x') (strip 4 (within path name)) = recoverable (strip 4 (within path name)) (nowx x).
Proof.
  intros He S H. specialize (H He). split; [done|]. destruct He as (_ & He & _). destruct (strip_backup path name He) as [Hp _].
  destruct (S _ Hp) as [<- _]. unfold recoverable. by destruct H as [c ->].
Qed.

Lemma recover_run fuel dir x : DIR_MAX < Z.of_nat fuel ->
  runs (recover_device_configs fuel dir) x (fun o x' => exists ok, o = Some ok /\ steady None x x' /\
    (ok = true -> forall path, listed dir path x ->
      is_Some (file (nowx x') path) /\ file (nowx x') path = recoverable path (nowx x))).
Proof.
  intros Hf. set (done_ := fun e x' => dot_name (fname e) = false ->
    if is_dir e then forall name, (within (within dir (fname e)) name, false) ∈ entries x (within dir (fname e)) -> restored false (within dir (fname e)) name x'
    else restored true dir (fname e) x').
  eapply runs_mono.
  { apply (scan_dir_run fuel dir _ done_); [done|..].
    - intros e skip x1 x2 H S Hdot. specialize (H Hdot). destruct (is_dir e); [intros name Hn|]; eapply restored_steady; eauto.
    - intros h x1 Hq e x2 S12 Hslash. unfold recover_entry.
      assert (forall r x', r <> Some FR_OK -> r <> None \/ dot_name (fname e) = true -> steady None x2 x' -> runs (st_ret (Some r)) x' (fun o x' =>
        exists r, o = Some r /\ steady None x2 x' /\ r <> Some FR_OK /\ (r = None -> done_ e x'))) as Hret.
      { intros r x' Hr Hn S. apply runs_ret. exists r. split_and!; [done..|]. intros -> Hdot. destruct Hn as [?|?]; congruence. }
      pose proof (quiet_steady _ _ (quiet_refl x2)) as Srefl.
      destruct (dot_name (fname e)) eqn:Edot; [apply (Hret None); auto|].
      destruct (is_dir e) eqn:Ed.
      2: { eapply runs_mono; [apply recover_file_run|]. intros o x3 (r & -> & S & Hr & Hd). exists r. split_and!; [done..|].
           intros Hn _. rewrite Ed. auto. }
      destruct (200 <=? _); [apply (Hret (Some FR_DISK_ERR)); [done|by left|done]|].
      apply runs_bind. eapply runs_mono; [by apply recover_bundle_run|]. intros ? x3 (ok & -> & S & Hall).
      destruct ok; [|apply (Hret (Some FR_DISK_ERR)); [done|by left|done]].
      apply runs_ret. exists None. split_and!; [done..|]. intros _ _. rewrite Ed. intros name Hin He.
      apply Hall; [done| |done]. destruct S12 as (_ & D & _). apply D; [|by apply backup_bystander; destruct He as (_ & ? & _)].
      destruct Hq as [_ [Dq _]]. by apply Dq. }
  intros ? x' (ok & -> & S & Hall). exists ok. split_and!; [done|done|]. intros -> path (name & [(-> & Hin & He)|(bundle & -> & Hin & Hby & Hdot & Hin' & He)]).
  - apply (restored_text _ _ _ _ _ He (steady_now _ _ _ S)).
    apply (Hall eq_refl (FileInfo name false) Hin (backup_bystander _ _ (proj1 (proj2 He)))). by eapply eligible_not_dot.
  - apply (restored_text _ _ _ _ _ He (steady_now _ _ _ S)).
    apply (Hall eq_refl (FileInfo bundle true) Hin Hby Hdot name). done.
Qed.

(** C40: A start of the store recovers what a power cut interrupted.  The scan of a
    configuration directory and of its bundles ends; in every state the medium
    goes through, each profile is found with the text it had, and none that was
    there changes; and when it reports success every profile with a listed backup
    is there, with the text that was found before. *)
Theorem recover_restores fuel dir x : DIR_MAX < Z.of_nat fuel ->
  runs (recover_device_configs fuel dir) x (fun o x' => exists ok, o = Some ok /\ evolve (steadier (nowx x)) x x' /\
    (ok = true -> forall path, listed dir path x ->
      is_Some (file (nowx x') path) /\ file (nowx x') path = recoverable path (nowx x))).
Proof. intros Hf. eapply runs_mono; [by apply recover_run|]. intros ? x' (ok & -> & S & H). exists ok. split_and!; [done|apply S|done]. Qed.

(** ** Histories *)

(** A state the medium is in before, during or after a run of [m]. *)
Definition passes {A : Type} (x : X) (m : ST X A) (d : disk) : Prop :=
  d = nowx x \/ exists ds, possible (snd (m x)) = possible x ++ ds /\ d ∈ ds.

Lemma passes_evolves {A : Type} (S : disk -> Prop) (m : ST X A) x d : S (nowx x) -> evolve S x (snd (m x)) -> passes x m d -> S d.
Proof.
  intros Hx (l & Hl & HS) [->|(ds & Hds & Hd)]; [done|]. rewrite Hl in Hds. apply app_inv_head in Hds as ->. exact (proj1 (Forall_forall _ _) HS d Hd).
Qed.

Lemma other_profile path path' data old base d : profile_name path -> profile_name path' -> key path' <> key path ->
  held path' data old base d -> recoverable path d = recoverable path base.
Proof.
  intros Hp Hp' Hne [_ Ho]. pose proof (profile_last _ Hp) as L. pose proof (profile_last _ Hp') as L'. unfold recoverable.
  rewrite (Ho path), (Ho (bak_of path)); [done|..]; repeat apply List.Forall_cons; try apply List.Forall_nil; intros E.
  - pose proof (bak_last path) as B. rewrite E, L' in B. done.
  - by apply (tmp_bak path' path).
  - apply Hne. symmetry. by apply bak_inj.
  - congruence.
  - pose proof (tmp_last path') as T. rewrite <- E, L in T. done.
  - pose proof (bak_last path') as B. rewrite <- E, L in B. done.
Qed.

End runs.

(** ** Concrete runs *)

Definition demo_path : chars := lit "1:/config/i2c/dev/dev.json".
Definition demo_old : chars := lit "{1}".
Definition demo_new : chars := lit "{2}".

(** A medium with the profile in its bundle. *)
Definition demo_medium (d : disk) : mem_fs :=
  MemFs [d] {[lit "1:/config/i2c"; lit "1:/config/i2c/dev"]} ∅ ∅.
Definition demo_disk : disk := {[key demo_path := demo_old]}.

(** A power cut between the two renames. *)
Definition demo_cut : disk := {[key (tmp_of demo_path) := demo_new; key (bak_of demo_path) := demo_old]}.

Example demo_replacement :
  let r := write_device_file demo_path demo_new (demo_medium demo_disk) in
  fst r = true /\ demo_cut ∈ m_states (snd r) /\
  Forall (fun d => recoverable demo_path d = Some demo_old \/ recoverable demo_path d = Some demo_new) (m_states (snd r)).
Proof.
  split; [vm_compute; done|]. split; [apply (bool_decide_unpack _); vm_compute; done|]. apply (bool_decide_unpack _). vm_compute. done.
Qed.

(** The network settings are written without a backup: for a moment no file has them. *)
Example network_gap :
  let r := write_file_atomic (lit "1:/config/network.json") demo_new (demo_medium {[lit "1:/config/network.json" := demo_old]}) in
  fst r = true /\ exists d, d ∈ m_states (snd r) /\ recoverable (lit "1:/config/network.json") d = None.
Proof.
  split; [vm_compute; done|]. exists {[lit "1:/config/network.json.tmp" := demo_new]}.
  split; [apply (bool_decide_unpack _); vm_compute; done|vm_compute; done].
Qed.

Lemma write_device_file_safe_witness :
  file (now m_states (snd (write_device_file demo_path demo_new (demo_medium demo_disk)))) demo_path = Some demo_new.
Proof.
  destruct (@write_device_file_safe mem_fs m_states m_entries m_object m_scan mem_fatfs mem_laws demo_path demo_new (demo_medium demo_disk)) as [_ H].
  apply H. exact (proj1 demo_replacement).
Defined.

Lemma recover_restores_witness :
  file (now m_states (snd (recover_device_configs (Z.to_nat 65537) (lit "1:/config/i2c") (demo_medium demo_cut)))) demo_path = Some demo_old.
Proof.
  destruct (@recover_restores mem_fs m_states m_entries m_object m_scan mem_fatfs mem_laws (Z.to_nat 65537) (lit "1:/config/i2c") (demo_medium demo_cut)
    ltac:(rewrite Z2Nat.id; done)) as (ok & Hok & _ & H).
  assert (fst (recover_device_configs (Z.to_nat 65537) (lit "1:/config/i2c") (demo_medium demo_cut)) = Some true) as Ht by (vm_compute; done).
  rewrite Ht in Hok. injection Hok as <-.
  destruct (H eq_refl demo_path) as [_ ->]; [|vm_compute; done].
  exists (lit "dev.json.bak"). right. exists (lit "dev"). split; [vm_compute; done|].
  split; [apply (bool_decide_unpack _); vm_compute; done|]. split; [split; vm_compute; done|]. split; [done|].
  split; [apply (bool_decide_unpack _); vm_compute; done|]. repeat split; vm_compute; done.
Defined.
