(* ===== verification/ConfigNetwork.v ===== *)
(** * ConfigNetwork: the network settings

    [src/src/apps/freertos/config/config_store.c]: reading [network.json] and the
    text that [config_store_save_network] writes, and that one undoes the other. *)
From stdpp Require Import prelude.
From Stdlib Require Import ZArith Lia.
From Stdlib Require String.
Import String.StringSyntax.
From S2P Require Import Prelude Text I2cDevices ConfigValidate JsonReader JsonGrammar LegacyCodec ProfileText ProfileFormat ProfileMembers LegacyRoundTrip.
Local Open Scope Z_scope.

Record network_config_t := NetworkConfig {
  nc_mac : list Z;
  nc_ip_be : Z;
  nc_netmask_be : Z;
  nc_gateway_be : Z;
  nc_has_ip : bool;
  nc_has_netmask : bool;
  nc_has_gateway : bool;
  nc_has_mac : bool
}.

#[export] Instance network_eq_dec : EqDecision network_config_t.
Proof. solve_decision. Defined.

Definition zero_network : network_config_t := NetworkConfig (fill 6 0) 0 0 0 false false false false.

Definition config_apply_defaults : network_config_t := NetworkConfig [0x00; 0x0a; 0x35; 0x00; 0x01; 0x02] 0 0 0 false false false true.

(** ** Reading *)

(** The store has its own copy of the search for a key. *)
Definition store_find_key (json key : chars) : option chars := find_key json key.

Fixpoint get_string_loop (out_sz : Z) (p out : chars) : option chars :=
  match p with
  | [] => None
  | c :: r =>
      if c =? 34 then Some out
      else if out_sz <=? alen out + 1 then None
      else if c =? 92 then
        match r with
        | [] => None
        | e :: r => get_string_loop out_sz r (out ++ [e])
        end
      else get_string_loop out_sz r (out ++ [c])
  end.

Definition json_get_string (json key : chars) (out_sz : Z) : option chars :=
  match store_find_key json key with
  | Some (c :: p) => if c =? 34 then get_string_loop out_sz p [] else None
  | _ => None
  end.

(** Conversions of [sscanf]. *)
Definition scan_u (p : chars) : option (Z * chars) := strtoul 10 p.

(** %x does not read a prefix that no digit follows. *)
Definition scan_x (p : chars) : option (Z * chars) :=
  let q := skip_spaces p in
  let q := match q with c :: r => if (c =? 45) || (c =? 43) then r else q | [] => q end in
  if (starts (lit "0x") q || starts (lit "0X") q) && negb (base_head 16 (drop 2 q)) then None else strtoul 16 p.

(** The conversions of a format, [sep] between them. *)
Fixpoint scan_list (conv : chars -> option (Z * chars)) (sep : Z) (n : nat) (p : chars) : option (list Z) :=
  match n with
  | O => Some []
  | S n =>
      match conv p with
      | None => None
      | Some (v, r) =>
          match n with
          | O => Some [v]
          | S _ =>
              match r with
              | c :: r => if c =? sep then match scan_list conv sep n r with Some l => Some (v :: l) | None => None end else None
              | [] => None
              end
          end
      end
  end.

(** The loop that stores the bytes: whether all fit, and what was stored. *)
Fixpoint store_mac (vals out : list Z) : bool * list Z :=
  match vals, out with
  | v :: vals, o :: out =>
      if 255 <? v then (false, o :: out) else let '(ok, l) := store_mac vals out in (ok, u8 v :: l)
  | _, _ => (true, out)
  end.

Definition parse_mac (s : chars) (out_mac : list Z) : bool * list Z :=
  match scan_list scan_x 58 6 s with
  | None => (false, out_mac)
  | Some vals => store_mac vals out_mac
  end.

(** The address, and what is stored at [ok]. *)
Definition parse_ipv4_be (s : chars) : Z * bool :=
  match scan_list scan_u 46 4 s with
  | Some [a; b; c; d] =>
      if (255 <? a) || (255 <? b) || (255 <? c) || (255 <? d) then (0, false)
      else (Z.lor (Z.lor (Z.lor (u32 (Z.shiftl (Z.land a 0xff) 24)) (u32 (Z.shiftl (Z.land b 0xff) 16))) (u32 (Z.shiftl (Z.land c 0xff) 8)))
              (Z.land d 0xff), true)
  | _ => (0, false)
  end.

Definition with_ip (v : Z * bool) (c : network_config_t) : network_config_t :=
  NetworkConfig (nc_mac c) (fst v) (nc_netmask_be c) (nc_gateway_be c) (snd v) (nc_has_netmask c) (nc_has_gateway c) (nc_has_mac c).
Definition with_netmask (v : Z * bool) (c : network_config_t) : network_config_t :=
  NetworkConfig (nc_mac c) (nc_ip_be c) (fst v) (nc_gateway_be c) (nc_has_ip c) (snd v) (nc_has_gateway c) (nc_has_mac c).
Definition with_gateway (v : Z * bool) (c : network_config_t) : network_config_t :=
  NetworkConfig (nc_mac c) (nc_ip_be c) (nc_netmask_be c) (fst v) (nc_has_ip c) (nc_has_netmask c) (snd v) (nc_has_mac c).
Definition with_mac (v : bool * list Z) (c : network_config_t) : network_config_t :=
  NetworkConfig (snd v) (nc_ip_be c) (nc_netmask_be c) (nc_gateway_be c) (nc_has_ip c) (nc_has_netmask c) (nc_has_gateway c) (fst v).

(** The value at a key, where there is a string. *)
Definition at_key (json key : chars) (store : chars -> network_config_t -> network_config_t) (c : network_config_t) : network_config_t :=
  match json_get_string json key 32 with Some s => store s c | None => c end.

Definition parse_network_json (json : chars) : bool * network_config_t :=
  let c := config_apply_defaults in
  let c := at_key json (lit "ip") (fun s => with_ip (parse_ipv4_be s)) c in
  let c := at_key json (lit "netmask") (fun s => with_netmask (parse_ipv4_be s)) c in
  let c := at_key json (lit "gateway") (fun s => with_gateway (parse_ipv4_be s)) c in
  let c := at_key json (lit "mac") (fun s c => with_mac (parse_mac s (nc_mac c)) c) c in
  (nc_has_ip c && nc_has_netmask c && nc_has_gateway c && nc_has_mac c, c).

(** ** Writing *)

Definition ipv4_to_str (be : Z) : chars :=
  let part k := dec (Z.land (Z.shiftr be k) 0xff) in
  prefix 15 (part 24 ++ [46] ++ part 16 ++ [46] ++ part 8 ++ [46] ++ part 0).

Definition mac_to_str (mac : list Z) : chars :=
  prefix 17 (hexx 2 (mac.[0]) ++ [58] ++ hexx 2 (mac.[1]) ++ [58] ++ hexx 2 (mac.[2]) ++ [58] ++ hexx 2 (mac.[3]) ++ [58] ++
    hexx 2 (mac.[4]) ++ [58] ++ hexx 2 (mac.[5])).

Definition network_text (c : network_config_t) : chars :=
  lit "{^  `ipv4`: {^    `ip`: `" ++ ipv4_to_str (nc_ip_be c) ++ lit "`,^    `netmask`: `" ++ ipv4_to_str (nc_netmask_be c) ++
  lit "`,^    `gateway`: `" ++ ipv4_to_str (nc_gateway_be c) ++ lit "`^  },^  `mac`: `" ++ mac_to_str (nc_mac c) ++ lit "`^}^".

Example network_runs :
  parse_network_json (network_text (NetworkConfig [0; 10; 53; 255; 1; 2] 0xC0A8000A 0xFFFFFF00 0xC0A80001 false false false false)) =
    (true, NetworkConfig [0; 10; 53; 255; 1; 2] 0xC0A8000A 0xFFFFFF00 0xC0A80001 true true true true) /\
  parse_mac (lit "1:2:300:4:5:6") (fill 6 9) = (false, [1; 2; 9; 9; 9; 9]) /\
  parse_ipv4_be (lit "1.2.3") = (0, false) /\ parse_ipv4_be (lit " 1.+2. 3.4x") = (0x01020304, true).
Proof. vm_compute. repeat split; reflexivity. Qed.

(** ** Numbers that were written *)

Lemma scan_number_app base d r n : Forall (fun c => digit_value c < base) d -> base_head base r = false ->
  scan_number base (d ++ r) n = (foldl (fun n c => n * base + digit_value c) n d, r).
Proof.
  intros Hd Hr. revert n. induction Hd as [|c d Hc _ IH]; intros n; cbn [app scan_number foldl].
  - destruct r as [|c r]; [done|]. cbn in Hr |- *. by rewrite Hr.
  - by rewrite (proj2 (Z.ltb_lt _ _)) by done.
Qed.

Lemma digit_value_digit c : digit c = true -> digit_value c = c - 48 /\ 0 <= digit_value c < 10 /\ is_space c = false /\ c <> 34 /\ c <> 43 /\ c <> 45.
Proof.
  intros H. unfold digit_value, is_space. rewrite H. unfold digit in H. bsimp. split_and!; try lia.
Qed.

Lemma scan_u_dec n r : 0 <= n < 4294967296 -> base_head 10 r = false -> scan_u (dec n ++ r) = Some (n, r).
Proof.
  intros Hn Hr. destruct (dec_spec n Hn) as ([Hne Hd] & _ & Hv). unfold scan_u, strtoul.
  destruct (dec n) as [|c d] eqn:E; [done|]. inversion Hd as [|? ? Hc Hd' Heq]. destruct (digit_value_digit c Hc) as (Hcv & Hcr & Hsp & H34 & H43 & H45).
  cbn [app skip_spaces]. rewrite Hsp, !(proj2 (Z.eqb_neq c _)) by done. cbn [Z.eqb Pos.eqb orb andb base_head].
  rewrite (proj2 (Z.ltb_lt _ _)) by lia.
  cbn [negb]. change (c :: d ++ r) with ((c :: d) ++ r). rewrite scan_number_app; [|eapply Forall_impl; [exact Hd|]; intros e He; cbn in He; apply (digit_value_digit e He)|done].
  assert (foldl (fun n c => n * 10 + digit_value c) 0 (c :: d) = n) as ->.
  { rewrite <- Hv. clear -Hd. unfold JsonObjects.digits_value. generalize 0 as k. induction Hd as [|x l Hx _ IH]; intros k; [done|]. cbn.
    destruct (digit_value_digit x Hx) as [-> _]. apply IH. }
  change ULONG_MAX with 4294967295. by rewrite (proj2 (Z.ltb_ge _ _)) by lia.
Qed.

(** A byte as two digits. *)
Lemma hexx_byte b : 0 <= b < 256 -> exists h l, hexx 2 b = [h; l] /\ (digit h || is_lower h = true) /\ (digit l || is_lower l = true) /\
  0 <= digit_value h < 16 /\ 0 <= digit_value l < 16 /\ digit_value h * 16 + digit_value l = b.
Proof.
  intros Hb.
  pose proof (JsonGrammar.all_bytes (fun b => match hexx 2 b with
    | [h; l] => (digit h || is_lower h) && (digit l || is_lower l) && (0 <=? digit_value h) && (digit_value h <? 16) &&
                (0 <=? digit_value l) && (digit_value l <? 16) && (digit_value h * 16 + digit_value l =? b)
    | _ => false end) ltac:(vm_compute; reflexivity) b Hb) as H. cbn beta in H.
  destruct (hexx 2 b) as [|h [|l [|]]]; try done. bsimp. exists h, l. split_and!; done.
Qed.

Lemma word_char c : digit c || is_lower c = true -> is_space c = false /\ c <> 34 /\ c <> 43 /\ c <> 45 /\ c <> 58 /\ 48 <= c <= 122.
Proof.
  intros H. unfold digit, is_lower in H. assert (48 <= c <= 57 \/ 97 <= c <= 122) as Hc by (apply orb_prop in H as [H|H]; bsimp; lia).
  unfold is_space. split_and!; lia.
Qed.

Lemma scan_x_hexx b r : 0 <= b < 256 -> base_head 16 r = false -> scan_x (hexx 2 b ++ r) = Some (b, r).
Proof.
  intros Hb Hr. destruct (hexx_byte b Hb) as (h & l & -> & Hh & Hl & Hhv & Hlv & Hv).
  destruct (word_char h Hh) as (Hsp & _ & H43 & H45 & _), (word_char l Hl) as (_ & _ & _ & _ & _ & _).
  assert (forall s, s ∈ [lit "0x"; lit "0X"] -> starts s (h :: l :: r) = false) as Hpre.
  { intros s Hs. apply bool_decide_eq_false. intros He. assert (s = [48; 120] \/ s = [48; 88]) as Hs'.
    { apply elem_of_cons in Hs as [-> |Hs]; [by left|]. apply elem_of_cons in Hs as [-> |Hs]; [by right|]. by apply elem_of_nil in Hs. }
    destruct Hs' as [-> | ->]; cbn in He; injection He as -> ->; cbn in Hlv; lia. }
  unfold scan_x, strtoul. cbn [app skip_spaces]. rewrite Hsp, !(proj2 (Z.eqb_neq h _)) by done. cbn [orb]. cbv zeta.
  rewrite !Hpre by decided. cbn [orb andb Z.eqb Pos.eqb negb]. cbn [base_head]. rewrite (proj2 (Z.ltb_lt (digit_value h) 16)) by lia. cbn [negb].
  change (h :: l :: r) with ([h; l] ++ r). rewrite scan_number_app; [|by repeat (constructor; [lia|])|done]. cbn [foldl].
  change ULONG_MAX with 4294967295. rewrite (proj2 (Z.ltb_ge _ _)) by lia. do 3 f_equal. lia.
Qed.

(** ** Addresses that were written *)

(** No quote and no backslash: what a string shows as it is. *)
Definition bare (s : chars) : Prop := Forall (fun c => c <> 34 /\ c <> 92) s.

Lemma bare_app a b : bare a -> bare b -> bare (a ++ b).
Proof. intros Ha Hb. by apply Forall_app. Qed.

Lemma byte_text b : 0 <= b < 256 -> bare (dec b) /\ 0 < alen (dec b) <= 3.
Proof.
  intros Hb.
  pose proof (JsonGrammar.all_bytes (fun b => forallb (fun c => digit c) (dec b) && (0 <? alen (dec b)) && (alen (dec b) <=? 3)) ltac:(vm_compute; reflexivity) b Hb) as H.
  cbn beta in H. bsimp. split; [|lia]. rewrite forallb_forall in H. apply Forall_forall. intros c Hc%list_elem_of_In. specialize (H c Hc).
  unfold digit in H. bsimp. lia.
Qed.

Definition ip_part (be k : Z) : Z := Z.land (Z.shiftr be k) 0xff.

Lemma ip_part_byte be k : 0 <= ip_part be k < 256.
Proof. unfold ip_part. change 0xff with (Z.ones 8). rewrite Z.land_ones by done. by apply Z.mod_pos_bound. Qed.

Lemma ip_join be : 0 <= be < 4294967296 ->
  Z.lor (Z.lor (Z.lor (u32 (Z.shiftl (Z.land (ip_part be 24) 0xff) 24)) (u32 (Z.shiftl (Z.land (ip_part be 16) 0xff) 16)))
    (u32 (Z.shiftl (Z.land (ip_part be 8) 0xff) 8))) (Z.land (ip_part be 0) 0xff) = be.
Proof.
  intros Hbe. assert (forall k, Z.land (ip_part be k) 0xff = ip_part be k) as Hl.
  { intros k. change 0xff with (Z.ones 8). rewrite Z.land_ones by done. apply Z.mod_small, ip_part_byte. }
  rewrite !Hl. pose proof (ip_part_byte be 24). pose proof (ip_part_byte be 16). pose proof (ip_part_byte be 8). pose proof (ip_part_byte be 0).
  rewrite !u32_id by (rewrite Z.shiftl_mul_pow2 by done; lia). rewrite <- !Z.lor_assoc.
  rewrite (lor_shiftl_add (ip_part be 8)) by lia. rewrite (lor_shiftl_add (ip_part be 16)) by lia. rewrite lor_shiftl_add by lia.
  unfold ip_part. change 0xff with (Z.ones 8). rewrite !Z.land_ones, !Z.shiftr_div_pow2 by done.
  change (2 ^ 24) with 16777216. change (2 ^ 16) with 65536. change (2 ^ 8) with 256. change (2 ^ 0) with 1.
  Z.to_euclidean_division_equations. lia.
Qed.

Lemma ipv4_to_str_parts be : ipv4_to_str be = dec (ip_part be 24) ++ [46] ++ dec (ip_part be 16) ++ [46] ++ dec (ip_part be 8) ++ [46] ++ dec (ip_part be 0).
Proof.
  unfold ipv4_to_str. fold (ip_part be 24) (ip_part be 16) (ip_part be 8) (ip_part be 0).
  destruct (byte_text _ (ip_part_byte be 24)) as [_ ?], (byte_text _ (ip_part_byte be 16)) as [_ ?],
    (byte_text _ (ip_part_byte be 8)) as [_ ?], (byte_text _ (ip_part_byte be 0)) as [_ ?].
  unfold prefix. apply firstn_all2. unfold alen in *. rewrite !length_app. cbn [length]. lia.
Qed.

Lemma ip_text_read be : 0 <= be < 4294967296 -> parse_ipv4_be (ipv4_to_str be) = (be, true).
Proof.
  intros Hbe. unfold parse_ipv4_be. rewrite ipv4_to_str_parts.
  assert (forall k r, base_head 10 r = false -> scan_u (dec (ip_part be k) ++ r) = Some (ip_part be k, r)) as Hs.
  { intros k r Hr. apply scan_u_dec; [|done]. pose proof (ip_part_byte be k). lia. }
  cbn [scan_list]. rewrite !Hs by done.
  cbn [app Z.eqb Pos.eqb].
  rewrite !Hs by done.
  rewrite ?Z.eqb_refl.
  rewrite <- (app_nil_r (dec (ip_part be 0))), Hs by done.
  pose proof (ip_part_byte be 24). pose proof (ip_part_byte be 16). pose proof (ip_part_byte be 8). pose proof (ip_part_byte be 0).
  rewrite !(proj2 (Z.ltb_ge _ _)) by lia. cbn [orb]. by rewrite ip_join.
Qed.

Lemma ip_text_bare be : bare (ipv4_to_str be) /\ 0 < alen (ipv4_to_str be) < 16.
Proof.
  rewrite ipv4_to_str_parts. destruct (byte_text _ (ip_part_byte be 24)) as [? ?], (byte_text _ (ip_part_byte be 16)) as [? ?],
    (byte_text _ (ip_part_byte be 8)) as [? ?], (byte_text _ (ip_part_byte be 0)) as [? ?]. split.
  - repeat apply bare_app; try done; decided.
  - rewrite !alen_app. change (alen [46]) with 1. lia.
Qed.

Definition mac_ok (mac : list Z) : Prop := length mac = 6%nat /\ Forall (fun b => 0 <= b < 256) mac.

Lemma hexx_bare b : 0 <= b < 256 -> bare (hexx 2 b) /\ alen (hexx 2 b) = 2.
Proof.
  intros Hb. destruct (hexx_byte b Hb) as (h & l & -> & Hh & Hl & _). split; [|done].
  destruct (word_char h Hh) as (_ & ? & _ & _ & _ & ?), (word_char l Hl) as (_ & ? & _ & _ & _ & ?).
  assert (h <> 92 /\ l <> 92) as [? ?] by (unfold digit, is_lower in *; lia). repeat constructor; done.
Qed.

Lemma mac_to_str_parts a b c d e f : mac_ok [a; b; c; d; e; f] -> mac_to_str [a; b; c; d; e; f] =
  hexx 2 a ++ [58] ++ hexx 2 b ++ [58] ++ hexx 2 c ++ [58] ++ hexx 2 d ++ [58] ++ hexx 2 e ++ [58] ++ hexx 2 f.
Proof.
  intros [_ H]. repeat match goal with H : Forall _ (_ :: _) |- _ => apply Forall_cons in H as [? H] end. unfold mac_to_str.
  change ([a; b; c; d; e; f].[0]) with a. change ([a; b; c; d; e; f].[1]) with b. change ([a; b; c; d; e; f].[2]) with c.
  change ([a; b; c; d; e; f].[3]) with d. change ([a; b; c; d; e; f].[4]) with e. change ([a; b; c; d; e; f].[5]) with f.
  unfold prefix. apply firstn_all2. destruct (hexx_bare a ltac:(done)) as [_ ?], (hexx_bare b ltac:(done)) as [_ ?],
    (hexx_bare c ltac:(done)) as [_ ?], (hexx_bare d ltac:(done)) as [_ ?], (hexx_bare e ltac:(done)) as [_ ?], (hexx_bare f ltac:(done)) as [_ ?].
  unfold alen in *. rewrite !length_app. cbn [length]. lia.
Qed.

Lemma mac_text mac out : mac_ok mac -> mac_ok out ->
  parse_mac (mac_to_str mac) out = (true, mac) /\ bare (mac_to_str mac) /\ alen (mac_to_str mac) = 17.
Proof.
  intros Hm [Hlo _]. pose proof Hm as [Hl H]. destruct mac as [|a [|b [|c [|d [|e [|f [|]]]]]]]; try done.
  rewrite mac_to_str_parts by done. repeat match goal with H : Forall _ (_ :: _) |- _ => apply Forall_cons in H as [? H] end.
  destruct (hexx_bare a ltac:(done)) as [? ?], (hexx_bare b ltac:(done)) as [? ?], (hexx_bare c ltac:(done)) as [? ?],
    (hexx_bare d ltac:(done)) as [? ?], (hexx_bare e ltac:(done)) as [? ?], (hexx_bare f ltac:(done)) as [? ?].
  split; [|split; [repeat apply bare_app; try done; decided|rewrite !alen_app; change (alen [58]) with 1; lia]].
  unfold parse_mac. cbn [scan_list]. rewrite !scan_x_hexx by done.
  do 5 (cbn [app]; rewrite ?scan_x_hexx by done). rewrite <- (app_nil_r (hexx 2 f)), scan_x_hexx by done. rewrite ?Z.eqb_refl.
  destruct out as [|? [|? [|? [|? [|? [|? [|]]]]]]]; try done. cbn [store_mac].
  rewrite !(proj2 (Z.ltb_ge _ _)) by lia. by rewrite !u8_id by lia.
Qed.

(** ** Keys in a text *)

Definition free (s : chars) : Prop := Forall (fun c => c <> 34) s.

(** A text cut at its quotes. *)
Fixpoint joined (segs : list chars) : chars :=
  match segs with
  | [] => []
  | [s] => s
  | s :: segs => s ++ 34 :: joined segs
  end.

Lemma joined_cons s t segs : joined (s :: t :: segs) = s ++ 34 :: joined (t :: segs).
Proof. done. Qed.

Lemma starts_pattern k t p : free k -> free t -> starts (34 :: k ++ [34]) (34 :: t ++ 34 :: p) = bool_decide (k = t).
Proof.
  intros Hk Ht. apply eq_true_iff_eq. rewrite starts_iff, bool_decide_eq_true. split.
  - intros (q & Hq). cbn [app] in Hq. injection Hq as Hq. rewrite <- app_assoc in Hq. cbn [app] in Hq. revert t Ht Hq.
    induction Hk as [|c k Hc _ IH]; intros t Ht Hq; destruct Ht as [|d t Hd Ht]; cbn in Hq; try congruence. injection Hq as -> Hq. f_equal. by eapply IH.
  - intros ->. exists p. cbn [app]. by rewrite <- app_assoc.
Qed.

Lemma after_match_free pat s p : free s -> after_match (34 :: pat) (s ++ p) = after_match (34 :: pat) p.
Proof.
  induction 1 as [|c s Hc _ IH]; [done|]. cbn [app after_match]. assert (starts (34 :: pat) (c :: s ++ p) = false) as ->; [|exact IH].
  apply bool_decide_eq_false. cbn. congruence.
Qed.

Lemma after_match_joined k s t u segs : free k -> Forall free [s; t] ->
  after_match (34 :: k ++ [34]) (joined (s :: t :: u :: segs)) =
    if bool_decide (k = t) then Some (joined (u :: segs)) else after_match (34 :: k ++ [34]) (joined (t :: u :: segs)).
Proof.
  intros Hk [Hs [Ht _]%Forall_cons]%Forall_cons. rewrite !joined_cons. rewrite after_match_free by done. cbn [after_match].
  rewrite starts_pattern by done. destruct (decide (k = t)) as [->|Hne]; [|by rewrite !bool_decide_eq_false_2 by done].
  rewrite !bool_decide_eq_true_2 by done. f_equal.
  assert (34 :: t ++ 34 :: joined (u :: segs) = (34 :: t ++ [34]) ++ joined (u :: segs)) as -> by (cbn [app]; by rewrite <- app_assoc).
  by rewrite drop_app_length.
Qed.

Lemma get_string_bare cap s p : bare s -> forall out, alen out + alen s < cap -> get_string_loop cap (s ++ 34 :: p) out = Some (out ++ s).
Proof.
  induction 1 as [|c s [H34 H92] _ IH]; intros out Hl; cbn [app get_string_loop]; [by rewrite app_nil_r|].
  rewrite alen_cons in Hl. pose proof (alen_nonneg s). rewrite !(proj2 (Z.eqb_neq _ _)), (proj2 (Z.leb_gt _ _)) by (done || lia).
  rewrite IH; [by rewrite <- app_assoc|]. rewrite alen_app. change (alen [c]) with 1. lia.
Qed.

(** The text around four values, cut at its quotes. *)
Definition network_keys : list chars := [lit "ip"; lit "netmask"; lit "gateway"; lit "mac"].

Definition segments (ip nm gw mac : chars) : list chars :=
  [lit "{^  "; lit "ipv4"; lit ": {^    "; lit "ip"; lit ": "; ip; lit ",^    "; lit "netmask"; lit ": "; nm; lit ",^    "; lit "gateway"; lit ": ";
   gw; lit "^  },^  "; lit "mac"; lit ": "; mac; lit "^}^"].

Section text.
Context (ip nm gw mac : chars).
Hypothesis ip_value : bare ip /\ alen ip < 32 /\ ip ∉ network_keys.
Hypothesis nm_value : bare nm /\ alen nm < 32 /\ nm ∉ network_keys.
Hypothesis gw_value : bare gw /\ alen gw < 32 /\ gw ∉ network_keys.
Hypothesis mac_value : bare mac /\ alen mac < 32.
Let text := joined (segments ip nm gw mac).

(** What a key finds whose search arrives at its value. *)
Lemma get_found k v w post : 2 + alen k < 64 ->
  after_match (34 :: k ++ [34]) text = Some (joined (lit ": " :: v :: w :: post)) -> bare v -> alen v < 32 ->
  json_get_string text k 32 = Some v.
Proof.
  intros Hk Ha Hv Hl. unfold json_get_string, store_find_key, find_key.
  assert (alen (34 :: k ++ [34]) = 2 + alen k) as -> by (rewrite alen_cons, alen_app; change (alen [34]) with 1; lia).
  rewrite (proj2 (Z.leb_gt _ _)) by lia. cbn [find_key_loop]. rewrite Ha.
  assert (exists r, text = 123 :: r) as [r ->] by (eexists; reflexivity).
  rewrite !joined_cons. change (lit ": " ++ ?x) with (58 :: 32 :: x).
  change (skip_spaces (58 :: 32 :: ?x)) with (58 :: 32 :: x). cbn [is_head drop Z.eqb Pos.eqb].
  change (skip_spaces (32 :: 34 :: ?x)) with (34 :: x). cbn [Z.eqb Pos.eqb]. rewrite (get_string_bare 32 v _ Hv []); [done|].
  change (alen []) with 0. lia.
Qed.

(** One step of the search, over a segment that is known or is one of the values. *)
Lemma search_step k s t u segs r : k ∈ network_keys -> Forall free [s; t] ->
  r = (if bool_decide (k = t) then Some (joined (u :: segs)) else after_match (34 :: k ++ [34]) (joined (t :: u :: segs))) ->
  after_match (34 :: k ++ [34]) (joined (s :: t :: u :: segs)) = r.
Proof.
  intros Hk Hst ->. apply after_match_joined; [|done].
  assert (Forall free network_keys) as Hf by decided. rewrite Forall_forall in Hf. by apply Hf.
Qed.

Lemma value_free v : bare v -> free v.
Proof. intros H. eapply Forall_impl; [exact H|]. by intros ? []. Qed.

Lemma value_other k v : k ∈ network_keys -> v ∉ network_keys -> bool_decide (k = v) = false.
Proof. intros Hk Hv. apply bool_decide_eq_false. by intros ->. Qed.

Ltac segment_free := first [apply value_free; first [apply ip_value|apply nm_value|apply gw_value|apply mac_value]|decided].
Ltac search := repeat (apply search_step;
  [decided|apply List.Forall_cons; [segment_free|apply List.Forall_cons; [segment_free|apply List.Forall_nil]]|];
  first [rewrite value_other; [|decided|first [apply ip_value|apply nm_value|apply gw_value]]
        |rewrite bool_decide_eq_false_2 by (intros H; vm_compute in H; discriminate H)|rewrite bool_decide_eq_true_2 by reflexivity; reflexivity]; symmetry).

Lemma segments_values : json_get_string text (lit "ip") 32 = Some ip /\ json_get_string text (lit "netmask") 32 = Some nm /\
  json_get_string text (lit "gateway") 32 = Some gw /\ json_get_string text (lit "mac") 32 = Some mac.
Proof.
  destruct ip_value as (Hi1 & Hi2 & _), nm_value as (Hn1 & Hn2 & _), gw_value as (Hg1 & Hg2 & _), mac_value as [Hm1 Hm2]. split_and!.
  - eapply (get_found (lit "ip") ip); [reflexivity| |exact Hi1|exact Hi2]. unfold text, segments. search.
  - eapply (get_found (lit "netmask") nm); [reflexivity| |exact Hn1|exact Hn2]. unfold text, segments. search.
  - eapply (get_found (lit "gateway") gw); [reflexivity| |exact Hg1|exact Hg2]. unfold text, segments. search.
  - eapply (get_found (lit "mac") mac); [reflexivity| |exact Hm1|exact Hm2]. unfold text, segments. search.
Qed.
End text.

(** A value is not one of the keys: it starts with a digit. *)
Lemma ip_not_key be : ipv4_to_str be ∉ network_keys.
Proof.
  rewrite ipv4_to_str_parts. pose proof (ip_part_byte be 24) as Hb. destruct (dec_spec (ip_part be 24)) as ([Hne Hd] & _); [lia|].
  destruct (dec (ip_part be 24)) as [|d r]; [done|]. inversion_clear Hd as [|? ? Hc _]. intros Hk.
  assert (Forall (fun k => match k with x :: _ => digit x = false | [] => False end) network_keys) as Hall by (repeat constructor).
  rewrite Forall_forall in Hall. specialize (Hall _ Hk). cbn [app] in Hall. congruence.
Qed.

Lemma ip_value be : bare (ipv4_to_str be) /\ alen (ipv4_to_str be) < 32 /\ ipv4_to_str be ∉ network_keys.
Proof. destruct (ip_text_bare be) as [? ?]. split; [done|]. split; [lia|]. apply ip_not_key. Qed.

Lemma network_text_joined c :
  network_text c = joined (segments (ipv4_to_str (nc_ip_be c)) (ipv4_to_str (nc_netmask_be c)) (ipv4_to_str (nc_gateway_be c)) (mac_to_str (nc_mac c))).
Proof.
  unfold network_text, segments. generalize (ipv4_to_str (nc_ip_be c)) (ipv4_to_str (nc_netmask_be c)) (ipv4_to_str (nc_gateway_be c)) (mac_to_str (nc_mac c)).
  intros ip nm gw mac. cbn [joined]. text_norm. reflexivity.
Qed.

Lemma network_values c : mac_ok (nc_mac c) ->
  json_get_string (network_text c) (lit "ip") 32 = Some (ipv4_to_str (nc_ip_be c)) /\
  json_get_string (network_text c) (lit "netmask") 32 = Some (ipv4_to_str (nc_netmask_be c)) /\
  json_get_string (network_text c) (lit "gateway") 32 = Some (ipv4_to_str (nc_gateway_be c)) /\
  json_get_string (network_text c) (lit "mac") 32 = Some (mac_to_str (nc_mac c)).
Proof.
  intros Hm. rewrite network_text_joined. apply segments_values; [apply ip_value..|].
  destruct (mac_text _ _ Hm Hm) as (_ & Hb & Hl). split; [exact Hb|]. rewrite Hl. lia.
Qed.

(** C28: Saved network settings are read back: the text that [config_store_save_network] writes
    has the address, the mask, the gateway and the hardware address under their
    keys, and the parser of the next start accepts it and returns them all. *)
Theorem network_roundtrip c :
  0 <= nc_ip_be c < 2 ^ 32 -> 0 <= nc_netmask_be c < 2 ^ 32 -> 0 <= nc_gateway_be c < 2 ^ 32 -> mac_ok (nc_mac c) ->
  parse_network_json (network_text c) = (true, NetworkConfig (nc_mac c) (nc_ip_be c) (nc_netmask_be c) (nc_gateway_be c) true true true true).
Proof.
  intros Hi Hn Hg Hm. destruct (network_values c Hm) as (H1 & H2 & H3 & H4). unfold parse_network_json, at_key. rewrite H1, H2, H3, H4.
  rewrite !ip_text_read by done. destruct (mac_text (nc_mac c) (nc_mac config_apply_defaults) Hm) as [Hmac _]; [split; [done|]; decided|].
  cbv zeta. unfold with_mac. cbn [with_ip with_netmask with_gateway nc_mac nc_ip_be nc_netmask_be nc_gateway_be nc_has_ip nc_has_netmask nc_has_gateway fst snd].
  by rewrite Hmac.
Qed.

Lemma network_roundtrip_witness :
  let c := NetworkConfig [0; 10; 53; 255; 1; 2] 0xC0A8000A 0xFFFFFF00 0xC0A80001 false false false false in
  alen (network_text c) = 137 /\ fst (parse_network_json (network_text c)) = true.
Proof.
  intros c. split; [vm_compute; reflexivity|]. rewrite (network_roundtrip c); [done|done|done|done|]. split; [done|]. decided.
Defined.
