(* ===== verification/ConfigStore.v ===== *)
(** * ConfigStore: start-up, tables and saving of the configuration store

    [src/src/apps/freertos/config/config_store.c] above its file layer
    ([ConfigFiles]): which files of a directory are profiles, the layouts older
    versions left behind, what the start-up task loads, and the saves.

    The embedded defaults (the generated [default_configs.h]), the mounted flag of
    the QSPI driver and the delay of the kernel are parameters.  A table is the
    list of its entries; its length is the counter.  Console messages are left out. *)
From stdpp Require Import prelude gmap sorting.
From Stdlib Require Import ZArith Lia.
From Stdlib Require String.
Import String.StringSyntax.
From S2P Require Import Prelude Text Platform I2cDevices ConfigValidate JsonReader ProfileCodec LegacyCodec ConfigNetwork FatFs ConfigFiles.
Local Open Scope Z_scope.

Record default_json_file_t := DefaultFile { df_file_name : chars; df_json : chars }.

(** [strcmp] of two terminated strings, as the order it stands for. *)
Fixpoint strcmp_le (a b : chars) : bool :=
  match a, b with
  | [], _ => true
  | _ :: _, [] => false
  | x :: a, y :: b => if x =? y then strcmp_le a b else x <? y
  end.

Definition compare_i2c_address (a b : i2c_device_config_t) : Prop :=
  (if cfg_addr_7b a =? cfg_addr_7b b then strcmp_le (cstr (cfg_name a)) (cstr (cfg_name b)) else cfg_addr_7b a <? cfg_addr_7b b) = true.
Definition compare_mdio_address (a b : mdio_phy_config_t) : Prop :=
  (if mc_phy_addr a =? mc_phy_addr b then strcmp_le (cstr (mc_name a)) (cstr (mc_name b)) else mc_phy_addr a <? mc_phy_addr b) = true.

#[export] Instance compare_i2c_dec : RelDecision compare_i2c_address.
Proof. intros a b. unfold compare_i2c_address. apply _. Defined.
#[export] Instance compare_mdio_dec : RelDecision compare_mdio_address.
Proof. intros a b. unfold compare_mdio_address. apply _. Defined.

(** [file_name] after [strncpy] of the name without its NUL. *)
Definition file_field (fn : chars) : list Z := cbuf I2C_CFG_FILE_NAME_MAX (prefix (I2C_CFG_FILE_NAME_MAX - 1) fn).

Definition named_i2c (fn : chars) (c : i2c_device_config_t) : i2c_device_config_t :=
  DeviceConfig (cfg_name c) (file_field fn) (cfg_addr_7b c) (cfg_reg_count c) (cfg_max_value_code c) (cfg_policy c) (cfg_whitelist c)
    (cfg_whitelist_len c) (cfg_blacklist c) (cfg_blacklist_len c) (cfg_settings c) (cfg_settings_len c) (cfg_profile c).
Definition named_mdio (fn : chars) (c : mdio_phy_config_t) : mdio_phy_config_t :=
  MdioConfig (mc_name c) (file_field fn) (mc_phy_addr c) (mc_reg_count c) (mc_policy c) (mc_autopoll_enabled c) (mc_autopoll_regs c)
    (mc_autopoll_regs_len c) (mc_autopoll_reg_delay_ms c) (mc_autopoll_cycle_delay_ms c) (mc_whitelist c) (mc_whitelist_len c)
    (mc_blacklist c) (mc_blacklist_len c) (mc_settings c) (mc_settings_len c) (mc_profile c).

Definition same_file (stored fn : chars) : bool := bvstk_device_profile_same_file (Some stored) (Some (cz fn)).

(** [canonical_profile_name]: the bundle file of a device, when it fits and is valid. *)
Definition canonical_profile_name (device : chars) (capacity : Z) : option chars :=
  let name := cstr device in
  let out := name ++ 47 :: name ++ lit ".json" in
  if bool_decide (name = []) || (capacity <=? alen out) || negb (path_valid out) then None else Some out.

Section store.
Context {X : Type} `{FS : FatFs X}.

(** ** Profiles of a directory *)

Inductive candidate_t : Type :=
  | Unreadable
  | NoProfile
  | Candidate (relative : chars).

(** The first of [names] under [directory] that is a file; a name that is not
    valid ends the search. *)
Definition try_bundle (directory relative : chars) (rest : ST X candidate_t) : ST X candidate_t :=
  if (I2C_CFG_FILE_NAME_MAX <=? alen relative) || negb (path_valid relative) then st_ret NoProfile
  else if 200 <=? alen (within directory relative) then st_ret Unreadable
  else
    let! present := profile_file_present (within directory relative) in
    if present <? 0 then st_ret Unreadable
    else if 0 <? present then st_ret (Candidate relative)
    else rest.

(** Whether a flat profile is superseded by a file of its bundle. *)
Definition unless_present (path : chars) (rest : ST X candidate_t) : ST X candidate_t :=
  if 200 <=? alen path then st_ret Unreadable
  else
    let! present := profile_file_present path in
    if present <? 0 then st_ret Unreadable
    else if negb (present =? 0) then st_ret NoProfile
    else rest.

Definition profile_candidate (directory : chars) (entry : FILINFO) : ST X candidate_t :=
  let name := fname entry in
  if is_dir entry then
    try_bundle directory (name ++ 47 :: name ++ lit ".json")
      (try_bundle directory (name ++ lit "/profile.json") (st_ret NoProfile))
  else if (alen name <? 6) || negb (ends_with (lit ".json") name) || is_register_map name then st_ret NoProfile
  else if (I2C_CFG_FILE_NAME_MAX <=? alen name) || negb (path_valid name) then st_ret Unreadable
  else
    let base := strip 5 name in
    unless_present (within directory (base ++ 47 :: base ++ lit ".json"))
      (unless_present (within directory (base ++ lit "/profile.json"))
        (st_ret (Candidate name))).

(** ** Older layouts *)

(** [migrate_profile_layout]: one entry. *)
Definition migrate_entry (directory : chars) (entry : FILINFO) : ST X (option (option FRESULT)) :=
  let name := fname entry in
  if dot_name name then scan_next
  else if is_dir entry then
    let canonical := within directory (name ++ 47 :: name ++ lit ".json") in
    let legacy := within directory (name ++ lit "/profile.json") in
    if (200 <=? alen canonical) || (200 <=? alen legacy) then scan_next
    else
      let! c := profile_file_present canonical in
      if negb (c =? 0) then scan_next
      else
        let! l := profile_file_present legacy in
        if negb (0 <? l) then scan_next
        else
          let! ok := copy_file_atomic legacy canonical (BVSTK_PROFILE_JSON_MAX + 1) in
          if ok then scan_next else scan_end FR_DISK_ERR
  else if (alen name <? 6) || negb (ends_with (lit ".json") name) || is_register_map name || negb (path_valid name) then scan_next
  else
    let base := strip 5 name in
    let canonical := within directory (base ++ 47 :: base ++ lit ".json") in
    if 200 <=? alen canonical then scan_next
    else
      let! c := profile_file_present canonical in
      if negb (c =? 0) then scan_next
      else if 200 <=? alen (within directory name) then scan_end FR_DISK_ERR
      else
        let! parent := ensure_device_parent canonical in
        if negb parent then scan_end FR_DISK_ERR
        else
          let! ok := copy_file_atomic (within directory name) canonical (BVSTK_PROFILE_JSON_MAX + 1) in
          if ok then scan_next else scan_end FR_DISK_ERR.

Definition migrate_profile_layout (fuel : nat) (directory : chars) : ST X (option bool) := scan_dir fuel directory (migrate_entry directory).

(** The bundle of a path and the directory of the bundle; [%.*s] with a negative
    precision takes the whole path. *)
Definition bundle_of (path : chars) : option (chars * chars * chars) :=
  match last_slash path with
  | None => None
  | Some (parent, leaf) =>
      match last_slash parent with
      | Some (dir, bundle) => Some (dir, bundle, leaf)
      | None => Some (path, parent, leaf)
      end
  end.

Definition profile_exists (path : chars) : ST X bool :=
  let! here := profile_file_present path in
  if negb (here =? 0) then st_ret true
  else if 200 <=? alen path then st_ret true
  else
    match last_slash path, bundle_of path with
    | Some (parent, leaf), Some (dir, bundle, _) =>
        let attempt alternate :=
          let! other := profile_file_present alternate in
          if negb (other =? 0) then st_ret true
          else if bool_decide (bundle = []) then st_ret false
          else
            let! flat := profile_file_present (prefix 199 (dir ++ 47 :: bundle ++ lit ".json")) in
            st_ret (negb (flat =? 0)) in
        if bool_decide (leaf = lit "profile.json") then
          if bool_decide (bundle = []) then st_ret false
          else attempt (prefix 199 (within parent (bundle ++ lit ".json")))
        else if (alen leaf <=? 5) || negb (ends_with (lit ".json") leaf) then st_ret false
        else attempt (within parent (lit "profile.json"))
    | _, _ => st_ret false
    end.

(** A profile in an old directory of the MDIO bus, copied unless it is there. *)
Definition migrate_mdio_entry (path destination : chars) (entry : FILINFO) : ST X (option (option FRESULT)) :=
  let name := fname entry in
  if is_dir entry || (alen name <? 6) || negb (ends_with (lit ".json") name) then scan_next
  else
    let src := within path name in
    let dst := within destination name in
    if (200 <=? alen src) || (200 <=? alen dst) then scan_end FR_INVALID_NAME
    else
      let! there := file_exists dst in
      if there then scan_next
      else
        let! ok := copy_file_atomic src dst (BVSTK_PROFILE_JSON_MAX + 1) in
        if ok then scan_next else scan_end FR_DISK_ERR.

Definition legacy_mdio_dirs : list chars := [lit "configs/mdio"; lit "config/smi"; lit "configs/smi"].

Fixpoint migrate_mdio_dirs (fuel : nat) (dirs : list chars) (destination : chars) : ST X (option bool) :=
  match dirs with
  | [] => st_ret (Some true)
  | d :: dirs =>
      let path := build_flash_path 128 d in
      let? ok := scan_dir fuel path (migrate_mdio_entry path destination) in
      if ok then migrate_mdio_dirs fuel dirs destination else st_ret (Some false)
  end.

Definition migrate_mdio_configs (fuel : nat) (destination : chars) : ST X (option bool) :=
  let! made := ensure_dir_exists destination in
  if made then migrate_mdio_dirs fuel legacy_mdio_dirs destination else st_ret (Some false).

(** Flat profiles of the fallback directory, copied to the primary one; a copy
    that fails is passed over. *)
Definition copy_entry (from to : chars) (entry : FILINFO) : ST X (option (option FRESULT)) :=
  let name := fname entry in
  if is_dir entry || (alen name <? 6) || negb (ends_with (lit ".json") name) then scan_next
  else
    let src := within from name in
    let dst := within to name in
    if (200 <=? alen src) || (200 <=? alen dst) then scan_next
    else
      let! there := file_exists dst in
      if there then scan_next
      else
        let! _ := copy_file_atomic src dst (BVSTK_PROFILE_JSON_MAX + 1) in
        scan_next.

Definition copy_fallback (fuel : nat) (to from : chars) : ST X (option unit) :=
  let! primary := dir_exists to in
  let! make := (if primary then st_ret false else dir_exists from) in
  let! _ := (if make : bool then ensure_dir_exists to else st_ret true) in
  let! there := dir_exists from in
  if there then
    let? _ := scan_dir fuel from (copy_entry from to) in
    st_ret (Some tt)
  else st_ret (Some tt).

(** ** Loading the tables *)

(** The loop over a directory: [body] tells whether it ends the loop; an error of
    the directory fails. *)
Fixpoint load_loop {A} (fuel : nat) (dir : Z) (failed : A -> A) (body : FILINFO -> A -> ST X (bool * A)) (s : A) : ST X (option A) :=
  match fuel with
  | O => st_ret None
  | S fuel =>
      let! r := f_readdir dir in
      if negb (fr_ok (fst r)) then st_ret (Some (failed s))
      else if bool_decide (fname (snd r) = []) then st_ret (Some s)
      else
        let! next := body (snd r) s in
        if fst next : bool then st_ret (Some (snd next)) else load_loop fuel dir failed body (snd next)
  end.

Record i2c_load_t := I2cLoad { il_table : list i2c_device_config_t; il_failed : bool }.
Definition i2c_fail (s : i2c_load_t) : i2c_load_t := I2cLoad (il_table s) true.

Definition load_i2c_entry (scan_dir : chars) (fallback : bool) (entry : FILINFO) (s : i2c_load_t) : ST X (bool * i2c_load_t) :=
  let! candidate := profile_candidate scan_dir entry in
  match candidate with
  | Unreadable => st_ret (true, i2c_fail s)
  | NoProfile => st_ret (false, s)
  | Candidate fn =>
      if fallback && existsb (fun c => same_file (cfg_file_name c) fn) (il_table s) then st_ret (false, s)
      else
        let pth := within scan_dir fn in
        if (I2C_CFG_MAX_DEVICES <=? alen (il_table s)) || (I2C_CFG_FILE_NAME_MAX <=? alen fn) || (200 <=? alen pth) then st_ret (true, i2c_fail s)
        else
          let! t := read_file_to_buf pth (BVSTK_PROFILE_JSON_MAX + 1) in
          match t with
          | None => st_ret (true, i2c_fail s)
          | Some t =>
              match bvstk_i2c_config_parse_json (Some (cz t)) with
              | (BVSTK_OK, Some tmp) =>
                  if existsb (fun c => strcaseeq (cfg_name c) (cfg_name tmp)) (il_table s) then st_ret (false, s)
                  else st_ret (false, I2cLoad (il_table s ++ [named_i2c fn tmp]) (il_failed s))
              | _ => st_ret (true, i2c_fail s)
              end
          end
  end.

Definition load_i2c_dir (fuel : nat) (scan_dir : chars) (fallback : bool) (s : i2c_load_t) : ST X (option i2c_load_t) :=
  let! there := dir_exists scan_dir in
  if negb there then st_ret (Some s)
  else
    let! d := f_opendir scan_dir in
    if negb (fr_ok (fst d)) then st_ret (Some (i2c_fail s))
    else
      let? s := load_loop fuel (snd d) i2c_fail (load_i2c_entry scan_dir fallback) s in
      let! _ := f_closedir (snd d) in
      st_ret (Some s).

(** Both passes; a failure of the first ends the loop. *)
Definition load_i2c (fuel : nat) (primary fallback : chars) : ST X (option i2c_load_t) :=
  let? s := load_i2c_dir fuel primary false (I2cLoad [] false) in
  if il_failed s then st_ret (Some s) else load_i2c_dir fuel fallback true s.

Record mdio_load_t := MdioLoad { ml_table : list mdio_phy_config_t; ml_failed : bool; ml_files_seen : bool }.
Definition mdio_fail (s : mdio_load_t) : mdio_load_t := MdioLoad (ml_table s) true (ml_files_seen s).

Definition load_mdio_entry (scan_dir : chars) (entry : FILINFO) (s : mdio_load_t) : ST X (bool * mdio_load_t) :=
  let! candidate := profile_candidate scan_dir entry in
  match candidate with
  | Unreadable => st_ret (true, mdio_fail s)
  | NoProfile => st_ret (false, s)
  | Candidate fn =>
      let s := MdioLoad (ml_table s) (ml_failed s) true in
      if existsb (fun c => same_file (mc_file_name c) fn) (ml_table s) then st_ret (false, s)
      else
        let pth := within scan_dir fn in
        if (MDIO_CFG_MAX_DEVICES <=? alen (ml_table s)) || (I2C_CFG_FILE_NAME_MAX <=? alen fn) || (200 <=? alen pth) then st_ret (true, mdio_fail s)
        else
          let! t := read_file_to_buf pth (BVSTK_PROFILE_JSON_MAX + 1) in
          match t with
          | None => st_ret (true, mdio_fail s)
          | Some t =>
              match bvstk_mdio_config_parse (Some (cz t)) with
              | (BVSTK_OK, Some tmp) =>
                  if existsb (fun c => strcaseeq (mc_name c) (mc_name tmp) || (mc_phy_addr c =? mc_phy_addr tmp)) (ml_table s) then
                    st_ret (true, mdio_fail s)
                  else if negb (bool_decide (bvstk_mdio_config_validate (Some (named_mdio fn tmp)) = BVSTK_OK)) then st_ret (true, mdio_fail s)
                  else st_ret (false, MdioLoad (ml_table s ++ [named_mdio fn tmp]) (ml_failed s) true)
              | _ => st_ret (true, mdio_fail s)
              end
          end
  end.

(** One pass: whether the loop over the passes goes on, and the state. *)
Definition load_mdio_dir (fuel : nat) (scan_dir : chars) (s : mdio_load_t) : ST X (option (bool * mdio_load_t)) :=
  let! d := f_opendir scan_dir in
  match fst d with
  | FR_NO_PATH | FR_NO_FILE => st_ret (Some (true, s))
  | FR_OK =>
      let? s := load_loop fuel (snd d) mdio_fail (load_mdio_entry scan_dir) s in
      let! _ := f_closedir (snd d) in
      st_ret (Some (true, s))
  | _ => st_ret (Some (false, mdio_fail s))
  end.

Definition load_mdio (fuel : nat) (primary fallback : chars) : ST X (option mdio_load_t) :=
  let? r := load_mdio_dir fuel primary (MdioLoad [] false false) in
  if fst r : bool then
    let? r := load_mdio_dir fuel fallback (snd r) in
    st_ret (Some (snd r))
  else st_ret (Some (snd r)).

(** ** The embedded defaults *)

Fixpoint default_i2c_table (files : list default_json_file_t) (table : list i2c_device_config_t) : list i2c_device_config_t :=
  match files with
  | [] => table
  | d :: files =>
      if I2C_CFG_MAX_DEVICES <=? alen table then table
      else
        match bvstk_i2c_config_parse_json (Some (cz (df_json d))) with
        | (BVSTK_OK, Some tmp) => default_i2c_table files (table ++ [named_i2c (df_file_name d) tmp])
        | _ => default_i2c_table files table
        end
  end.

(** [None] where a default does not parse. *)
Fixpoint default_mdio_table (files : list default_json_file_t) (table : list mdio_phy_config_t) : option (list mdio_phy_config_t) :=
  match files with
  | [] => Some table
  | d :: files =>
      if MDIO_CFG_MAX_DEVICES <=? alen table then Some table
      else
        match bvstk_mdio_config_parse (Some (cz (df_json d))) with
        | (BVSTK_OK, Some tmp) => default_mdio_table files (table ++ [named_mdio (df_file_name d) tmp])
        | _ => None
        end
  end.

(** Installing a default where no layout has the profile: [None] where it is not
    to be installed. *)
Definition install_default (subdir : chars) (d : default_json_file_t) : ST X (option bool) :=
  let '(cfg_path, cfg_path_fb) := build_cfg_path 160 160 (prefix 95 (within subdir (df_file_name d))) in
  if bool_decide (cfg_path = []) || bool_decide (cfg_path_fb = []) then st_ret None
  else
    let! here := profile_exists cfg_path in
    if here then st_ret None
    else
      let! there := profile_exists cfg_path_fb in
      if there then st_ret None
      else
        let! parent := ensure_device_parent cfg_path in
        if parent then let! ok := write_file_atomic cfg_path (df_json d) in st_ret (Some ok) else st_ret (Some false).

Fixpoint install_i2c_defaults (files : list default_json_file_t) : ST X unit :=
  match files with
  | [] => st_ret tt
  | d :: files => install_default I2C_CFG_SUBDIR_NAME d ;; install_i2c_defaults files
  end.

(** The MDIO loop ends at the first default that cannot be written. *)
Fixpoint install_mdio_defaults (files : list default_json_file_t) : ST X bool :=
  match files with
  | [] => st_ret true
  | d :: files =>
      let! r := install_default MDIO_CFG_SUBDIR_NAME d in
      match r with
      | Some false => st_ret false
      | _ => install_mdio_defaults files
      end
  end.
End store.

(** ** The start-up task *)

Record store_t := Store {
  s_ready : bool;
  s_startup_done : bool;
  s_net_cfg : network_config_t;
  s_i2c_cfgs : list i2c_device_config_t;
  s_mdio_cfgs : list mdio_phy_config_t
}.

Definition start_store : store_t := Store false false zero_network [] [].

Definition dir_paths : chars * chars := build_cfg_path 96 96 [].
Definition net_cfg_paths : chars * chars := build_cfg_path 128 128 NETWORK_CFG_NAME.
Definition i2c_dir_paths : chars * chars := build_cfg_path 128 128 I2C_CFG_SUBDIR_NAME.
Definition mdio_dir_paths : chars * chars := build_cfg_path 128 128 MDIO_CFG_SUBDIR_NAME.
Definition mdio_marker : chars := prefix 159 (fst mdio_dir_paths ++ lit "/.initialized").

(** Whether I2C and MDIO may be loaded, and whether this is the first start of MDIO. *)
Record prepared_t := Prepared { pr_i2c : bool; pr_mdio : bool; pr_first_start : bool }.

Section task.
Context {X : Type} `{FS : FatFs X} (qspi_fs_is_ready : X -> bool) (vTaskDelay : ST X unit).
Context (DEFAULT_NETWORK_JSON : chars) (DEFAULT_I2C_CONFIG_FILES DEFAULT_MDIO_CONFIG_FILES : list default_json_file_t).

Fixpoint wait_mounted (n : nat) : ST X unit :=
  match n with
  | O => st_ret tt
  | S n =>
      let! ready := st_get qspi_fs_is_ready in
      if ready : bool then st_ret tt else vTaskDelay ;; wait_mounted n
  end.

(** A step of a chain that stops at the first failure. *)
Definition and_also (a b : ST X (option bool)) : ST X (option bool) :=
  let? ok := a in
  if ok : bool then b else st_ret (Some false).

Definition prepare_network : ST X unit :=
  let '(path, path_fb) := net_cfg_paths in
  let! here := file_exists path in
  let! there := (if here then st_ret true else file_exists path_fb) in
  if there : bool then st_ret tt else write_file_atomic path DEFAULT_NETWORK_JSON ;; st_ret tt.

(** Recovery, older layouts and defaults; whether I2C may be loaded. *)
Definition prepare_i2c (fuel : nat) : ST X (option bool) :=
  let '(path, path_fb) := i2c_dir_paths in
  ensure_dir_exists path ;;
  let? ok := and_also (recover_device_configs fuel path) (and_also (recover_device_configs fuel path_fb)
    (and_also (migrate_profile_layout fuel path) (migrate_profile_layout fuel path_fb))) in
  let! _ := (if ok then install_i2c_defaults DEFAULT_I2C_CONFIG_FILES else st_ret tt) in
  st_ret (Some ok).

(** Whether MDIO may be loaded, and whether this is its first start. *)
Definition prepare_mdio (fuel : nat) : ST X (option (bool * bool)) :=
  let '(path, path_fb) := mdio_dir_paths in
  let! marked := file_exists mdio_marker in
  let first_start := negb marked in
  let? ok := and_also (recover_device_configs fuel path) (and_also (recover_device_configs fuel path_fb)
    (and_also (if first_start then migrate_mdio_configs fuel path else st_ret (Some true))
    (and_also (migrate_profile_layout fuel path) (migrate_profile_layout fuel path_fb)))) in
  let! ok := (if first_start && ok then install_mdio_defaults DEFAULT_MDIO_CONFIG_FILES else st_ret ok) in
  let! ok := (if first_start && ok then write_file_atomic mdio_marker (lit "mdio-v1^") else st_ret ok) in
  st_ret (Some (ok, first_start)).

Definition migrate_network : ST X unit :=
  let '(path, path_fb) := net_cfg_paths in
  let! here := file_exists path in
  let! there := (if here then st_ret false else file_exists path_fb) in
  if there : bool then copy_file_atomic path_fb path (BVSTK_PROFILE_JSON_MAX + 1) ;; st_ret tt else st_ret tt.

(** Everything before the tables are loaded. *)
Definition prepare_store (fuel : nat) : ST X (option prepared_t) :=
  let! ready := st_get qspi_fs_is_ready in
  if ready : bool then
    ensure_dir_exists (fst dir_paths) ;;
    prepare_network ;;
    let? i2c_ok := prepare_i2c fuel in
    let? mdio := prepare_mdio fuel in
    migrate_network ;;
    let? _ := copy_fallback fuel (fst i2c_dir_paths) (snd i2c_dir_paths) in
    let? _ := copy_fallback fuel (fst mdio_dir_paths) (snd mdio_dir_paths) in
    st_ret (Some (Prepared i2c_ok (fst mdio) (snd mdio)))
  else st_ret (Some (Prepared true false false)).

Definition load_network : ST X network_config_t :=
  let! ready := st_get qspi_fs_is_ready in
  let! t := (if ready then read_file_first_available (fst net_cfg_paths) (snd net_cfg_paths) (BVSTK_PROFILE_JSON_MAX + 1) else st_ret None) in
  let loaded := match t with Some t => parse_network_json t | None => (false, zero_network) end in
  st_ret (if fst loaded then snd loaded else snd (parse_network_json DEFAULT_NETWORK_JSON)).

(** The I2C table: of the files, of the defaults when there are none, empty after
    a failure. *)
Definition load_i2c_table (fuel : nat) (allowed : bool) : ST X (option (list i2c_device_config_t)) :=
  let! ready := st_get qspi_fs_is_ready in
  let? s := (if ready && allowed then load_i2c fuel (fst i2c_dir_paths) (snd i2c_dir_paths) else st_ret (Some (I2cLoad [] (negb allowed)))) in
  let table := if il_failed s then [] else il_table s in
  let table := if (alen table =? 0) && negb (il_failed s) then default_i2c_table DEFAULT_I2C_CONFIG_FILES table else table in
  st_ret (Some (merge_sort compare_i2c_address table)).

(** The MDIO table: the defaults are taken on the first start only. *)
Definition load_mdio_table (fuel : nat) (allowed first_start : bool) : ST X (option (list mdio_phy_config_t)) :=
  let! ready := st_get qspi_fs_is_ready in
  let? s := (if ready && allowed then load_mdio fuel (fst mdio_dir_paths) (snd mdio_dir_paths) else st_ret (Some (MdioLoad [] (negb allowed) false))) in
  let defaults := if negb (ml_files_seen s) && negb (ml_failed s) && first_start
    then default_mdio_table DEFAULT_MDIO_CONFIG_FILES (ml_table s) else Some (ml_table s) in
  let table := match defaults with Some t => if ml_failed s then [] else t | None => [] end in
  st_ret (Some (merge_sort compare_mdio_address table)).

(** [config_task]; its paths fit their buffers, so that it never leaves early. *)
Definition config_task (fuel : nat) : ST X (option store_t) :=
  wait_mounted 300 ;;
  let? p := prepare_store fuel in
  let! net := load_network in
  let? i2c := load_i2c_table fuel (pr_i2c p) in
  let? mdio := load_mdio_table fuel (pr_mdio p) (pr_first_start p) in
  st_ret (Some (Store true true net i2c mdio)).

(** ** Saving *)

Definition config_store_save_network (s : store_t) : ST X bool :=
  if negb (s_ready s) then st_ret false
  else
    let! ready := st_get qspi_fs_is_ready in
    if negb ready then st_ret false
    else
      let! made := ensure_dir_exists (fst dir_paths) in
      if negb made then st_ret false
      else
        let json := network_text (s_net_cfg s) in
        if 256 <=? alen json then st_ret false
        else
          let! ok := write_file_atomic (fst net_cfg_paths) json in
          let! there := (if ok : bool then dir_exists (snd dir_paths) else st_ret false) in
          if there : bool then
            ensure_dir_exists (snd dir_paths) ;;
            write_file_atomic (snd net_cfg_paths) json ;;
            st_ret ok
          else st_ret ok.

(** The text of a profile, in the older layout where the newer one cannot hold it. *)
Definition save_text {A} (version : Z) (format legacy : option A -> option Z -> bvstk_status_t * chars) (c : A) : option chars :=
  let cap := Some (BVSTK_PROFILE_JSON_MAX + 1) in
  let r := match format (Some c) cap with
           | (BVSTK_ERR_UNSUPPORTED, _) as r => if version =? 0 then legacy (Some c) cap else r
           | r => r
           end in
  match r with (BVSTK_OK, t) => Some t | _ => None end.

(** The file of a profile: its bundle, or the name it was loaded from. *)
Definition profile_file (name file_name : chars) : option chars :=
  let fn := match canonical_profile_name name I2C_CFG_FILE_NAME_MAX with
            | Some fn => Some fn
            | None => if file_name.[0] =? 0 then None else Some (cstr file_name)
            end in
  match fn with Some fn => if path_valid fn then Some fn else None | None => None end.

Definition save_profile (path json : chars) : ST X bool :=
  let! parent := ensure_device_parent path in
  if parent then write_device_file path json else st_ret false.

(** Both directories of a save, and the paths of the file. *)
Definition profile_paths (subdir fn : chars) : chars * chars := build_cfg_path 160 160 (prefix 95 (within subdir fn)).

Definition save_i2c_device_locked (s : store_t) (cfg : option i2c_device_config_t) : ST X bool :=
  match cfg with
  | None => st_ret false
  | Some c =>
      if negb (s_ready s) || ((cfg_name c).[0] =? 0) then st_ret false
      else
        let! ready := st_get qspi_fs_is_ready in
        if negb ready then st_ret false
        else
          let! root := ensure_dir_exists (fst dir_paths) in
          let! dir := (if root then ensure_dir_exists (fst i2c_dir_paths) else st_ret false) in
          if negb dir then st_ret false
          else
            match save_text (pf_version (cfg_profile c)) bvstk_device_profile_format_i2c bvstk_i2c_config_serialize_json c,
                  profile_file (cfg_name c) (cfg_file_name c) with
            | Some json, Some fn =>
                let '(path, path_fb) := profile_paths I2C_CFG_SUBDIR_NAME fn in
                if bool_decide (path = []) || bool_decide (path_fb = []) then st_ret false
                else
                  let! ok := save_profile path json in
                  let! there := (if ok : bool then dir_exists (snd dir_paths) else st_ret false) in
                  if there : bool then
                    ensure_dir_exists (snd dir_paths) ;;
                    ensure_dir_exists (snd i2c_dir_paths) ;;
                    save_profile path_fb json ;;
                    st_ret ok
                  else st_ret ok
            | _, _ => st_ret false
            end
  end.

Definition save_mdio_device_locked (s : store_t) (cfg : option mdio_phy_config_t) : ST X bool :=
  match cfg with
  | None => st_ret false
  | Some c =>
      if negb (s_ready s) || ((mc_name c).[0] =? 0) then st_ret false
      else
        let! ready := st_get qspi_fs_is_ready in
        if negb ready then st_ret false
        else
          let! root := ensure_dir_exists (fst dir_paths) in
          let! dir := (if root then ensure_dir_exists (fst mdio_dir_paths) else st_ret false) in
          if negb dir then st_ret false
          else
            match save_text (pf_version (mc_profile c)) bvstk_device_profile_format_mdio bvstk_mdio_config_format c,
                  profile_file (mc_name c) (mc_file_name c) with
            | Some json, Some fn =>
                let '(path, path_fb) := profile_paths MDIO_CFG_SUBDIR_NAME fn in
                if bool_decide (path = []) || bool_decide (path_fb = []) then st_ret false else save_profile path json
            | _, _ => st_ret false
            end
  end.
End task.

(** A save under its mutex: refused where the mutex is missing or not obtained. *)
Definition save_device {X A} (take : option (ST X bool)) (give : ST X unit) (save : option A -> ST X bool) (cfg : option A) : ST X bool :=
  match take with
  | None => st_ret false
  | Some take =>
      let! taken := take in
      if negb taken then st_ret false
      else
        let! result := save cfg in
        give ;;
        st_ret result
  end.

(** ** Starting and waiting *)

(** Whether the task and the mutexes are there. *)
Record handles_t := Handles { s_task : bool; s_i2c_save_mutex : bool; s_mdio_save_mutex : bool }.

(** The kernel's calls are parameters: they tell whether they succeed. *)
Definition start_config_store {X} (xSemaphoreCreateMutex xTaskCreate : ST X bool) (h : handles_t) (s : store_t) : ST X (bool * (handles_t * store_t)) :=
  if s_task h then st_ret (true, (h, s))
  else
    let! i2c := (if s_i2c_save_mutex h then st_ret true else xSemaphoreCreateMutex) in
    let! mdio := (if s_mdio_save_mutex h then st_ret true else xSemaphoreCreateMutex) in
    if negb i2c || negb mdio then st_ret (false, (Handles false i2c mdio, s))
    else
      let! created := xTaskCreate in
      st_ret (created, (Handles created i2c mdio, Store false (negb created) zero_network [] [])).

Definition config_store_startup_done (s : store_t) : bool := s_startup_done s.
Definition config_store_is_ready (s : store_t) : bool := s_ready s.

(** The poll of the other task's flag: [None] when the fuel ends. *)
Fixpoint config_store_wait_ready {X} (fuel : nat) (is_ready : X -> bool) (xTaskGetTickCount : X -> Z) (vTaskDelay : ST X unit) (start deadline : Z) : ST X (option bool) :=
  match fuel with
  | O => st_ret None
  | S fuel =>
      let! ready := st_get is_ready in
      if ready : bool then st_ret (Some true)
      else
        vTaskDelay ;;
        let! ticks := st_get xTaskGetTickCount in
        if deadline <? u32 (ticks - start) then st_ret (Some false) else config_store_wait_ready fuel is_ready xTaskGetTickCount vTaskDelay start deadline
  end.

(** ** Reading the tables *)

Definition config_store_get_network (s : store_t) : network_config_t * bool := (s_net_cfg s, s_ready s).

Definition config_store_set_network (cfg : option network_config_t) (s : store_t) : bool * store_t :=
  match cfg with
  | None => (false, s)
  | Some c => (true, Store (s_ready s) (s_startup_done s) c (s_i2c_cfgs s) (s_mdio_cfgs s))
  end.

Definition config_store_get_i2c_devices (s : store_t) : option (list i2c_device_config_t) := if s_ready s then Some (s_i2c_cfgs s) else None.
Definition config_store_get_mdio_devices (s : store_t) : option (list mdio_phy_config_t) := if s_ready s then Some (s_mdio_cfgs s) else None.
Definition config_store_get_i2c_device_count (s : store_t) : Z := if s_ready s then alen (s_i2c_cfgs s) else 0.
Definition config_store_get_mdio_device_count (s : store_t) : Z := if s_ready s then alen (s_mdio_cfgs s) else 0.

Definition config_store_find_i2c_device_by_name (name : option chars) (s : store_t) : option i2c_device_config_t :=
  match name with
  | None => None
  | Some name => if negb (s_ready s) || (name.[0] =? 0) then None else List.find (fun c => strcaseeq (cfg_name c) name) (s_i2c_cfgs s)
  end.

Definition config_store_find_i2c_device_by_addr (addr_7b : Z) (s : store_t) : option i2c_device_config_t :=
  if negb (s_ready s) then None else List.find (fun c => cfg_addr_7b c =? Z.land addr_7b 0x7F) (s_i2c_cfgs s).

(** The entry of the same name keeps its place and its file; a new one is appended. *)
Fixpoint replace_i2c (cfg : i2c_device_config_t) (l : list i2c_device_config_t) : option (list i2c_device_config_t) :=
  match l with
  | [] => None
  | c :: l =>
      if strcaseeq (cfg_name c) (cfg_name cfg) then Some (named_i2c (cstr (cfg_file_name c)) cfg :: l)
      else match replace_i2c cfg l with Some l => Some (c :: l) | None => None end
  end.

Definition with_i2c (l : list i2c_device_config_t) (s : store_t) : store_t := Store (s_ready s) (s_startup_done s) (s_net_cfg s) l (s_mdio_cfgs s).

Definition config_store_set_i2c_device (cfg : option i2c_device_config_t) (s : store_t) : bool * store_t :=
  match cfg with
  | None => (false, s)
  | Some c =>
      if negb (s_ready s) || ((cfg_name c).[0] =? 0) then (false, s)
      else
        match replace_i2c c (s_i2c_cfgs s) with
        | Some l => (true, with_i2c l s)
        | None =>
            if alen (s_i2c_cfgs s) <? I2C_CFG_MAX_DEVICES then (true, with_i2c (s_i2c_cfgs s ++ [c]) s) else (false, s)
        end
  end.
