(* ===== verification/ConfigStoreSafety.v ===== *)
(** * ConfigStoreSafety: what the tables hold after a start

    Loading only reads.  Every configuration of a table is one that a profile of
    the medium (or an embedded default) describes, and passes the checks; the
    MDIO table of the profiles has each address and each name once.  A profile that
    cannot be loaded empties the MDIO table: either every profile of the two
    directories is in it or forwarding is off.  A first start that met no profile
    takes the embedded defaults, unchecked against each other. *)
From stdpp Require Import prelude gmap sorting.
From Stdlib Require Import ZArith Lia.
From Stdlib Require String.
Import String.StringSyntax.
From S2P Require Import Prelude Text Platform I2cDevices ConfigValidate JsonReader ProfileCodec LegacyCodec LegacyRoundTrip ConfigNetwork FatFs FatFsMem ConfigFiles ConfigFilesSafety ConfigStore.
Local Open Scope Z_scope.

(** ** Tables *)

Lemma default_mdio_bounded files table t : alen table <= MDIO_CFG_MAX_DEVICES -> default_mdio_table files table = Some t -> alen t <= MDIO_CFG_MAX_DEVICES.
Proof.
  revert table. induction files as [|d files IH]; intros table Ht; cbn [default_mdio_table]; [by intros [= <-]|].
  destruct (Z.leb_spec MDIO_CFG_MAX_DEVICES (alen table)); [by intros [= <-]|].
  destruct (bvstk_mdio_config_parse _) as [st [tmp|]]; destruct st; try done. apply IH. rewrite alen_app.
  change (alen [named_mdio (df_file_name d) tmp]) with 1. lia.
Qed.

Lemma sorted_alen {A} (R : A -> A -> Prop) `{!RelDecision R} (l : list A) : alen (merge_sort R l) = alen l.
Proof. unfold alen. by rewrite (Permutation_length (merge_sort_Permutation R l)). Qed.

(** ** Loops that only read *)

Section loads.
Context {X : Type} (possible : X -> list disk) (entries : X -> chars -> gset entry) (object : X -> Z -> option fobj)
  (scan : X -> Z -> option scan_t) `{FS : FatFs X} `{HL : !FatFsLaws possible entries object scan}.

Local Abbreviation nowx := (now possible).
Local Abbreviation quietx := (quiet possible entries scan).

(** The medium stays; directories and scans, [skip] apart, lose nothing. *)
Definition still (skip : option Z) (x x' : X) : Prop :=
  possible x' = possible x /\ (forall dir, keeps [] (entries x dir) (entries x' dir)) /\
  forall h s, Some h <> skip -> scan x h = Some s -> exists s', scan x' h = Some s' /\ sc_dir s' = sc_dir s /\ sc_pos s' = sc_pos s /\
    keeps [] (sc_pending s) (sc_pending s').

Lemma quiet_still skip x x' : quietx x x' -> still skip x x'.
Proof. intros [H [E S]]. split_and!; [done|done|]. intros h s _. apply S. Qed.

Lemma still_refl skip x : still skip x x.
Proof. apply quiet_still, quiet_refl. Qed.

Lemma still_quiet x x' : still None x x' -> quietx x x'.
Proof. intros (H & E & S). split; [done|]. split; [done|]. intros h s. by apply S. Qed.

Lemma still_trans skip x1 x2 x3 : still skip x1 x2 -> still skip x2 x3 -> still skip x1 x3.
Proof.
  intros (P1 & E1 & S1) (P2 & E2 & S2). split_and!; [congruence|intros dir; by eapply listing_trans|]. intros h s Hh Hs.
  destruct (S1 h s Hh Hs) as (s' & Hs' & Hd & Hp & Hk). destruct (S2 h s' Hh Hs') as (s'' & Hs'' & Hd' & Hp' & Hk').
  exists s''. split_and!; [congruence..|]. by eapply listing_trans.
Qed.

Lemma still_now skip x x' : still skip x x' -> nowx x' = nowx x.
Proof. intros [H _]. by apply now_same. Qed.

Lemma quiet_trans x1 x2 x3 : quietx x1 x2 -> quietx x2 x3 -> quietx x1 x3.
Proof. intros H1 H2. apply still_quiet. eapply still_trans; by apply quiet_still. Qed.

Section loop.
Context {A : Type} (x0 : X) (failed : A -> A) (body : FILINFO -> A -> ST X (bool * A)).
(** The state keeps [I]; [ok] while no step has failed; [D e] once [e] is dealt with. *)
Context (I : A -> Prop) (ok : A -> bool) (D : FILINFO -> A -> Prop).

Definition progress (s s' : A) : Prop := I s' /\ (ok s' = true -> ok s = true) /\ forall e, D e s -> D e s'.

Definition body_loads : Prop := forall e s x1, nowx x1 = nowx x0 -> I s -> 47 ∉ fname e ->
  runs (body e s) x1 (fun r x2 => quietx x1 x2 /\ progress s (snd r) /\ (ok (snd r) = true -> fst r = false /\ D e (snd r))).

Hypothesis failing : forall s, I s -> progress s (failed s) /\ ok (failed s) = false.
Hypothesis loads : body_loads.

Lemma progress_trans s1 s2 s3 : progress s1 s2 -> progress s2 s3 -> progress s1 s3.
Proof. intros (I1 & O1 & D1) (I2 & O2 & D2). split_and!; auto. Qed.

Lemma load_loop_run (fuel : nat) h sc s x : I s -> nowx x = nowx x0 -> scan x h = Some sc -> DIR_MAX - sc_pos sc < Z.of_nat fuel ->
  runs (load_loop fuel h failed body s) x (fun o x' => exists s', o = Some s' /\ still (Some h) x x' /\ progress s s' /\
    (ok s' = true -> forall e, (within (sc_dir sc) (fname e), is_dir e) ∈ sc_pending sc -> D e s')).
Proof.
  revert sc s x. induction fuel as [|fuel IH]; intros sc s x Hs Hx Hsc Hf.
  { pose proof (position_law possible entries object scan _ _ _ Hsc). lia. }
  cbn [load_loop]. apply runs_bind. eapply runs_mono; [by apply (readdir_law possible entries object scan)|]. intros r x1 (Hp & He & Hother & Hr).
  assert (still (Some h) x x1) as S1.
  { split_and!; [done|intros dir e; by rewrite He|]. intros h' s' Hh Hs'. exists s'. rewrite Hother by congruence. split_and!; [done..|]. by intros e ? ?. }
  destruct (fr_ok (fst r)) eqn:Er; cbn [negb].
  2: { apply runs_ret. destruct (failing s Hs) as [Hpr Hno]. eexists. split_and!; [done|done|done|]. congruence. }
  apply fr_ok_true in Er. specialize (Hr Er). cbn beta zeta in Hr. destruct (bool_decide (fname (snd r) = [])).
  { apply runs_ret. eexists. split_and!; [done|done|by split_and!|]. intros _ e He'. rewrite Hr in He'. by apply not_elem_of_empty in He'. }
  destruct Hr as [Hname Hs1]. apply runs_bind. eapply runs_mono; [apply (loads (snd r) s x1); [by rewrite (still_now _ _ _ S1)|done|done]|].
  intros next x2 (Q2 & P2 & Hnext). pose proof (still_trans _ _ _ _ S1 (quiet_still (Some h) _ _ Q2)) as S12.
  destruct (fst next) eqn:Estop.
  { apply runs_ret. eexists. split_and!; [done|done|done|]. intros Hok. destruct (Hnext Hok). congruence. }
  destruct Q2 as (Hp2 & D2 & C2). destruct (C2 h _ Hs1) as (sc2 & Hsc2 & Hd2 & Hp2' & Hk2). cbn [sc_dir sc_pos sc_pending] in *.
  eapply runs_mono; [apply (IH sc2 (snd next) x2); [apply P2|by rewrite (still_now _ _ _ S12)|done|lia]|].
  intros ? x3 (s' & -> & S3 & P3 & Hall). eexists. split_and!; [done|by eapply still_trans|by eapply progress_trans|]. intros Hok e Hin.
  destruct (decide ((within (sc_dir sc) (fname e), is_dir e) = (within (sc_dir sc) (fname (snd r)), is_dir (snd r)))) as [Heq|Hne].
  - injection Heq as Hn Hd. apply within_inj in Hn. assert (e = snd r) as -> by (destruct e, (snd r); cbn in *; congruence).
    apply P3. apply Hnext. by apply P3.
  - rewrite Hd2 in Hall. apply Hall; [done|]. apply Hk2; [|done]. apply elem_of_difference. split; [done|]. by intros H%elem_of_singleton.
Qed.
End loop.

(** ** Candidates *)

Definition bundle_file (name : chars) : chars := name ++ 47 :: name ++ lit ".json".
Definition legacy_file (name : chars) : chars := name ++ lit "/profile.json".
Definition relative_ok (fn : chars) : Prop := alen fn < I2C_CFG_FILE_NAME_MAX /\ path_valid fn = true.

(** The profile that an entry of a directory stands for: the bundle's own file,
    its older name, or a flat file that no bundle supersedes. *)
Inductive profile_of (d : disk) (dir : chars) (e : FILINFO) : chars -> Prop :=
  | pr_bundle : is_dir e = true -> relative_ok (bundle_file (fname e)) -> is_Some (file d (within dir (bundle_file (fname e)))) ->
      profile_of d dir e (bundle_file (fname e))
  | pr_legacy : is_dir e = true -> relative_ok (bundle_file (fname e)) -> file d (within dir (bundle_file (fname e))) = None ->
      relative_ok (legacy_file (fname e)) -> is_Some (file d (within dir (legacy_file (fname e)))) -> profile_of d dir e (legacy_file (fname e))
  | pr_flat : is_dir e = false -> relative_ok (fname e) -> 6 <= alen (fname e) -> ends_with (lit ".json") (fname e) = true ->
      is_register_map (fname e) = false -> file d (within dir (bundle_file (strip 5 (fname e)))) = None ->
      file d (within dir (legacy_file (strip 5 (fname e)))) = None -> profile_of d dir e (fname e).

Local Abbreviation present_law := (present_run possible entries object scan).

Lemma relative_test fn : (I2C_CFG_FILE_NAME_MAX <=? alen fn) || negb (path_valid fn) = false <-> relative_ok fn.
Proof. unfold relative_ok. rewrite orb_false_iff, Z.leb_gt, negb_false_iff. done. Qed.

Lemma try_bundle_run dir fn (rest : ST X candidate_t) x (Q : candidate_t -> X -> Prop) :
  (forall x', quietx x x' -> Q Unreadable x') ->
  (forall x', quietx x x' -> ~ relative_ok fn -> Q NoProfile x') ->
  (forall x', quietx x x' -> relative_ok fn -> is_Some (file (nowx x) (within dir fn)) -> Q (Candidate fn) x') ->
  (forall x', quietx x x' -> relative_ok fn -> file (nowx x) (within dir fn) = None -> runs rest x' Q) ->
  runs (try_bundle dir fn rest) x Q.
Proof.
  intros Hu Hn Hc Hr. unfold try_bundle. destruct (_ || _) eqn:E.
  { apply runs_ret, Hn; [apply quiet_refl|]. intros H%relative_test. congruence. }
  apply relative_test in E. destruct (200 <=? _); [apply runs_ret, Hu, quiet_refl|].
  apply runs_bind. eapply runs_mono; [apply present_law|]. intros p x' (Hq & H0 & H1).
  destruct (Z.ltb_spec p 0); [by apply runs_ret, Hu|]. destruct (Z.ltb_spec 0 p); [by apply runs_ret, Hc; auto|].
  apply Hr; [done|done|]. apply H0. lia.
Qed.

Lemma unless_present_run path (rest : ST X candidate_t) x (Q : candidate_t -> X -> Prop) :
  (forall x', quietx x x' -> Q Unreadable x') ->
  (forall x', quietx x x' -> is_Some (file (nowx x) path) -> Q NoProfile x') ->
  (forall x', quietx x x' -> file (nowx x) path = None -> runs rest x' Q) ->
  runs (unless_present path rest) x Q.
Proof.
  intros Hu Hn Hr. unfold unless_present. destruct (200 <=? _); [apply runs_ret, Hu, quiet_refl|].
  apply runs_bind. eapply runs_mono; [apply present_law|]. intros p x' (Hq & H0 & H1).
  destruct (Z.ltb_spec p 0); [by apply runs_ret, Hu|]. destruct (Z.eqb_spec p 0); cbn [negb]; [by apply Hr; auto|].
  apply runs_ret, Hn; [done|]. apply H1. lia.
Qed.

Lemma candidate_run dir e x : runs (profile_candidate dir e) x (fun r x' => quietx x x' /\
  (forall fn, r = Candidate fn -> relative_ok fn) /\
  forall fn, profile_of (nowx x) dir e fn -> r = Unreadable \/ r = Candidate fn).
Proof.
  unfold profile_candidate. fold (bundle_file (fname e)) (legacy_file (fname e)) (bundle_file (strip 5 (fname e))) (legacy_file (strip 5 (fname e))).
  destruct (is_dir e) eqn:Ed.
  - apply try_bundle_run.
    + intros x' Hq. split_and!; [done|done|]. auto.
    + intros x' Hq Hn. split_and!; [done|done|]. intros fn Hp. destruct Hp; congruence || done.
    + intros x' Hq Hr Hs. split_and!; [done|by intros ? [= <-]|]. intros fn Hp. destruct Hp as [| ? ? Hnone |]; [by right| |congruence].
      destruct Hs as [? Hs]. congruence.
    + intros x1 Hq1 Hr Hnone. apply try_bundle_run.
      * intros x' Hq. split_and!; [by eapply quiet_trans|done|]. auto.
      * intros x' Hq Hn. split_and!; [by eapply quiet_trans|done|]. intros fn Hp. destruct Hp as [? ? [? Hs]| |]; [congruence|done|congruence].
      * intros x' Hq Hr' Hs. split_and!; [by eapply quiet_trans|by intros ? [= <-]|]. intros fn Hp. destruct Hp as [? ? [? Hs']| |]; [congruence|by right|congruence].
      * intros x' Hq Hr' Hn'. rewrite (quiet_now _ _ _ _ _ Hq1) in Hn'. apply runs_ret. split_and!; [by eapply quiet_trans|done|].
        intros fn Hp. destruct Hp as [? ? [? Hs']|? ? ? ? [? Hs']|]; congruence.
  - destruct (_ || _ || _) eqn:E.
    { apply runs_ret. split_and!; [apply quiet_refl|done|]. intros fn Hp. destruct Hp as [| |? ? H6 He Hm]; [congruence|congruence|].
      exfalso. rewrite He, Hm, (proj2 (Z.ltb_ge _ _)) in E by done. done. }
    destruct (_ || negb (path_valid (fname e))) eqn:E2; [apply runs_ret; split_and!; [apply quiet_refl|done|auto]|].
    apply relative_test in E2. apply unless_present_run.
    + intros x' Hq. split_and!; [done|done|]. auto.
    + intros x' Hq [? Hs]. split_and!; [done|done|]. intros fn Hp. destruct Hp; congruence.
    + intros x1 Hq1 Hn1. apply unless_present_run.
      * intros x' Hq. split_and!; [by eapply quiet_trans|done|]. auto.
      * intros x' Hq [? Hs]. rewrite (quiet_now _ _ _ _ _ Hq1) in Hs. split_and!; [by eapply quiet_trans|done|]. intros fn Hp. destruct Hp; congruence.
      * intros x' Hq Hn2. apply runs_ret. split_and!; [by eapply quiet_trans|by intros ? [= <-]|]. intros fn Hp. destruct Hp; [congruence|congruence|by right].
Qed.

(** ** The MDIO table *)

(** A configuration that a profile of the medium describes. *)
Definition loaded_mdio (d : disk) (dirs : list chars) (c : mdio_phy_config_t) : Prop := exists dir fn t tmp,
  dir ∈ dirs /\ file d (within dir fn) = Some t /\ bvstk_mdio_config_parse (Some (cz t)) = (BVSTK_OK, Some tmp) /\ c = named_mdio fn tmp.

Definition mdio_name (c : mdio_phy_config_t) : chars := tolower <$> cstr (mc_name c).

Record mdio_table_ok (table : list mdio_phy_config_t) : Prop := {
  mt_count : alen table <= MDIO_CFG_MAX_DEVICES;
  mt_addresses : NoDup (mc_phy_addr <$> table);
  mt_names : NoDup (mdio_name <$> table);
  mt_valid : Forall (fun c => bvstk_mdio_config_validate (Some c) = BVSTK_OK) table
}.

(** The profile [fn] has a configuration in the table. *)
Definition in_mdio_table (fn : chars) (table : list mdio_phy_config_t) : Prop :=
  exists c, c ∈ table /\ (mc_file_name c = file_field fn \/ same_file (mc_file_name c) fn = true).

Section mdio.
Context (x0 : X) (dirs : list chars) (start : list mdio_phy_config_t).

(** The table so far, which has everything [start] has. *)
Definition mdio_loading (s : mdio_load_t) : Prop := mdio_table_ok (ml_table s) /\ Forall (loaded_mdio (nowx x0) dirs) (ml_table s) /\
  (forall c, c ∈ start -> c ∈ ml_table s) /\ (ml_files_seen s = false -> ml_table s = []).
Definition mdio_fine (s : mdio_load_t) : bool := negb (ml_failed s).
Definition mdio_done (dir : chars) (e : FILINFO) (s : mdio_load_t) : Prop := forall fn, profile_of (nowx x0) dir e fn -> in_mdio_table fn (ml_table s).

Lemma mdio_table_append table c :
  mdio_table_ok table -> existsb (fun c' => strcaseeq (mc_name c') (mc_name c) || (mc_phy_addr c' =? mc_phy_addr c)) table = false ->
  alen table < MDIO_CFG_MAX_DEVICES -> bvstk_mdio_config_validate (Some c) = BVSTK_OK -> mdio_table_ok (table ++ [c]).
Proof.
  intros [Hn Ha Hm Hv] Hno Hlt Hval. assert (forall c', c' ∈ table -> strcaseeq (mc_name c') (mc_name c) = false /\ mc_phy_addr c' <> mc_phy_addr c) as Hd.
  { intros c' Hin%list_elem_of_In. apply not_true_iff_false in Hno. rewrite existsb_exists in Hno. split.
    - apply not_true_iff_false. intros E. apply Hno. exists c'. by rewrite E.
    - intros E. apply Hno. exists c'. by rewrite E, Z.eqb_refl, orb_true_r. }
  constructor.
  - rewrite alen_app. change (alen [c]) with 1. lia.
  - rewrite fmap_app. apply NoDup_app. split; [done|]. split; [|apply NoDup_singleton].
    intros a (c' & -> & Hin)%list_elem_of_fmap. cbn. rewrite list_elem_of_singleton. by apply Hd.
  - rewrite fmap_app. apply NoDup_app. split; [done|]. split; [|apply NoDup_singleton].
    intros a (c' & -> & Hin)%list_elem_of_fmap. cbn. rewrite list_elem_of_singleton. intros E. destruct (Hd c' Hin) as [Hs _].
    apply bool_decide_eq_false in Hs. by apply Hs.
  - apply Forall_app. split; [done|]. by apply Forall_singleton.
Qed.

Lemma in_mdio_table_app fn table l : in_mdio_table fn table -> in_mdio_table fn (table ++ l).
Proof. intros (c & Hin & H). exists c. split; [|done]. apply elem_of_app. by left. Qed.

Lemma mdio_failing dir s : mdio_loading s -> progress mdio_loading mdio_fine (mdio_done dir) s (mdio_fail s) /\ mdio_fine (mdio_fail s) = false.
Proof. intros Hs. split; [|done]. split_and!; [exact Hs|done|done]. Qed.

Lemma mdio_body dir : dir ∈ dirs -> body_loads x0 (load_mdio_entry dir) mdio_loading mdio_fine (mdio_done dir).
Proof.
  intros Hdir e s x Hx Hs _. unfold load_mdio_entry. apply runs_bind. eapply runs_mono; [apply candidate_run|]. intros r x1 (Q1 & Hrel & Hcand).
  rewrite Hx in Hcand.
  assert (forall s', ml_table s' = ml_table s -> ml_failed s' = true -> ml_files_seen s' = true \/ ml_files_seen s' = ml_files_seen s -> progress mdio_loading mdio_fine (mdio_done dir) s s' /\
    (mdio_fine s' = true -> true = false /\ mdio_done dir e s')) as Hfail.
  { intros s' Ht Hf Hseen. unfold progress, mdio_loading, mdio_done, mdio_fine. rewrite Ht, Hf. destruct Hs as (H1 & H2 & H3 & H4).
    split; [|done]. split_and!; try done. destruct Hseen as [-> | ->]; done. }
  destruct r as [| |fn].
  - apply runs_ret. split; [done|]. by apply Hfail; auto.
  - apply runs_ret. split; [done|]. split; [by split_and!|]. intros Hok. split; [done|]. intros fn' Hp. destruct (Hcand _ Hp); done.
  - specialize (Hrel fn eq_refl). cbn zeta. cbn [ml_table ml_failed ml_files_seen].
    assert (forall fn', profile_of (nowx x0) dir e fn' -> fn' = fn) as Honly by (intros fn' Hp; destruct (Hcand _ Hp) as [|[=]]; done).
    destruct (existsb _ (ml_table s)) eqn:Esame.
    { apply runs_ret. split; [done|]. split; [destruct Hs as (H1 & H2 & H3 & _); by split_and!|]. intros Hok. split; [done|]. intros fn' ->%Honly. apply existsb_exists in Esame as (c & Hin & Hc).
      exists c. split; [by apply list_elem_of_In|by right]. }
    destruct (_ || _ || _) eqn:E; [apply runs_ret; split; [done|by apply Hfail; auto]|]. apply orb_false_iff in E as [E _]. apply orb_false_iff in E as [E _]. bsimp.
    apply runs_bind. eapply runs_mono; [apply (read_file_run possible entries object scan)|]. intros t x2 [Q2 Ht].
    pose proof (quiet_trans _ _ _ Q1 Q2) as Q12. destruct t as [t|]; [|apply runs_ret; split; [done|by apply Hfail; auto]].
    destruct (bvstk_mdio_config_parse (Some (cz t))) as [st [tmp|]] eqn:Ep; [|destruct st; apply runs_ret; (split; [done|by apply Hfail; auto])].
    destruct st; try (apply runs_ret; split; [done|by apply Hfail; auto]).
    match goal with |- context [existsb ?f _] => destruct (existsb f (ml_table s)) eqn:Edup end; [apply runs_ret; split; [done|by apply Hfail; auto]|].
    destruct (bool_decide _) eqn:Ev; cbn [negb]; [|apply runs_ret; split; [done|by apply Hfail; auto]]. apply bool_decide_eq_true in Ev.
    apply runs_ret. destruct Hs as (Hok & Hld & Hst & _). split; [done|]. cbn [snd fst]. unfold progress, mdio_loading, mdio_done. cbn [ml_table ml_failed ml_files_seen].
    split_and!.
    + by apply mdio_table_append.
    + apply Forall_app. split; [done|]. apply Forall_singleton. exists dir, fn, t, tmp. split_and!; [done| |done|done].
      rewrite <- Hx, <- (quiet_now _ _ _ _ _ Q1). by apply Ht.
    + intros c H. apply elem_of_app. by left; apply Hst.
    + done.
    + done.
    + intros e' H fn' Hp. by apply in_mdio_table_app, H.
    + intros _. split; [done|]. intros fn' ->%Honly. exists (named_mdio fn tmp). split; [apply elem_of_app; right; by apply list_elem_of_singleton|by left].
Qed.

Definition mdio_read (dir : chars) (s : mdio_load_t) : Prop :=
  forall e, (within dir (fname e), is_dir e) ∈ entries x0 dir -> mdio_done dir e s.

Lemma load_mdio_dir_run (fuel : nat) dir s x : dir ∈ dirs -> mdio_loading s -> quietx x0 x -> DIR_MAX < Z.of_nat fuel ->
  runs (load_mdio_dir fuel dir s) x (fun o x' => exists go s', o = Some (go, s') /\ quietx x x' /\ mdio_loading s' /\
    (mdio_fine s' = true -> mdio_fine s = true /\ go = true /\ mdio_read dir s')).
Proof.
  intros Hdir Hs Q0 Hf. unfold load_mdio_dir. apply runs_bind. eapply runs_mono; [apply (opendir_law possible entries object scan)|].
  intros r x1 (Q1 & Hok & Hno).
  assert (fst r = FR_NO_PATH \/ fst r = FR_NO_FILE -> runs (st_ret (Some (true, s))) x1 (fun o x' => exists go s', o = Some (go, s') /\ quietx x x' /\
    mdio_loading s' /\ (mdio_fine s' = true -> mdio_fine s = true /\ go = true /\ mdio_read dir s'))) as Hempty.
  { intros Hr. apply runs_ret. exists true, s. split_and!; [done|done|done|]. intros Hok'. split_and!; [done|done|]. intros e He.
    destruct Q0 as [_ [E0 _]]. specialize (E0 dir _ He (List.Forall_nil _)). rewrite (Hno Hr) in E0. by apply not_elem_of_empty in E0. }
  assert (runs (st_ret (Some (false, mdio_fail s))) x1 (fun o x' => exists go s', o = Some (go, s') /\ quietx x x' /\
    mdio_loading s' /\ (mdio_fine s' = true -> mdio_fine s = true /\ go = true /\ mdio_read dir s'))) as Hbad
    by (apply runs_ret; by exists false, (mdio_fail s)).
  destruct (fst r) eqn:Er; auto. destruct (Hok eq_refl) as [Hnew Hsc]. apply runs_bind.
  eapply runs_mono; [apply (load_loop_run x0 mdio_fail (load_mdio_entry dir) mdio_loading mdio_fine (mdio_done dir)
    (mdio_failing dir) (mdio_body dir Hdir) fuel (snd r) (Scan dir 0 (entries x dir)) s x1 Hs); [|done|cbn [sc_pos]; lia]|].
  { rewrite (quiet_now _ _ _ _ _ Q1). apply (quiet_now _ _ _ _ _ Q0). }
  intros ? x2 (s' & -> & S2 & (Hs' & Hof & _) & Hall). cbn [sc_dir sc_pending] in Hall. apply runs_bind.
  eapply runs_mono; [apply (closedir_law possible entries object scan)|]. intros c x3 (Hp3 & He3 & Hs3). apply runs_ret.
  exists true, s'. split_and!; [done| |done|].
  - assert (still (Some (snd r)) x2 x3) as S3.
    { split_and!; [done|intros d e; by rewrite He3|]. intros h' sc Hh Hsc'. exists sc. rewrite Hs3 by congruence. split_and!; [done..|]. by intros e ? ?. }
    destruct (still_trans _ _ _ _ (quiet_still (Some (snd r)) _ _ Q1) (still_trans _ _ _ _ S2 S3)) as (P & E & C).
    split; [done|]. split; [done|]. intros h sc Hh. apply C; [|done]. intros [= ->]. congruence.
  - intros Hfine. split_and!; [by apply Hof|done|]. intros e He. apply Hall; [done|]. destruct Q0 as [_ [E0 _]]. exact (E0 dir _ He (List.Forall_nil _)).
Qed.
End mdio.

(** What the primary directory stores is loaded from there. *)
Definition primary_loaded (x : X) (primary : chars) (table : list mdio_phy_config_t) : Prop :=
  forall e fn, (within primary (fname e), is_dir e) ∈ entries x primary -> profile_of (nowx x) primary e fn ->
    exists c, c ∈ table /\ loaded_mdio (nowx x) [primary] c /\ (mc_file_name c = file_field fn \/ same_file (mc_file_name c) fn = true).

Lemma primary_read x primary s : primary_loaded x primary (ml_table s) -> mdio_read x primary s.
Proof. intros H e He fn Hp. destruct (H e fn He Hp) as (c & Hin & _ & Hc). by exists c. Qed.

Lemma load_mdio_run (fuel : nat) primary fallback x : DIR_MAX < Z.of_nat fuel ->
  runs (load_mdio fuel primary fallback) x (fun o x' => exists s, o = Some s /\ quietx x x' /\ mdio_table_ok (ml_table s) /\
    Forall (loaded_mdio (nowx x) [primary; fallback]) (ml_table s) /\
    (ml_files_seen s = false -> ml_table s = []) /\
    (ml_failed s = false -> primary_loaded x primary (ml_table s) /\ mdio_read x fallback s)).
Proof.
  intros Hf. assert (primary ∈ [primary]) as Hin1 by by left. assert (fallback ∈ [primary; fallback]) as Hin2 by (by right; left).
  assert (forall l, Forall (loaded_mdio (nowx x) [primary]) l -> Forall (loaded_mdio (nowx x) [primary; fallback]) l) as Hboth.
  { intros l Hl. eapply Forall_impl; [exact Hl|]. intros c (dir & fn & t & tmp & Hd%list_elem_of_singleton & H). exists dir, fn, t, tmp. split; [rewrite Hd; by left|done]. }
  unfold load_mdio. apply runs_bind.
  eapply runs_mono; [apply (load_mdio_dir_run x [primary] [] fuel primary (MdioLoad [] false false) x Hin1); [|apply quiet_refl|done]|].
  { split; [by constructor; try constructor|]; split; [constructor|done]. }
  intros ? x1 (go & s1 & -> & Q1 & (Ok1 & Ld1 & _ & Seen1) & H1). cbn [fst snd]. destruct go.
  2: { apply runs_ret. exists s1. split_and!; [done|done|done|by apply Hboth|done|]. intros E. destruct H1 as (_ & ? & _); [unfold mdio_fine; by rewrite E|done]. }
  apply runs_bind. eapply runs_mono; [apply (load_mdio_dir_run x [primary; fallback] (ml_table s1) fuel fallback s1 x1 Hin2); [split_and!; auto|done|done]|].
  intros ? x2 (go & s2 & -> & Q2 & (Ok2 & Ld2 & St2 & Seen2) & H2). apply runs_ret. exists s2. split_and!; [done|by eapply quiet_trans|done|done|done|].
  intros E. destruct H2 as (F1 & _ & R2); [unfold mdio_fine; by rewrite E|]. destruct (H1 F1) as (_ & _ & R1). split; [|done].
  intros e fn He Hp. destruct (R1 e He fn Hp) as (c & Hin & Hc). exists c. split_and!; [by apply St2| |done].
  rewrite Forall_forall in Ld1. by apply Ld1.
Qed.

Lemma strcmp_total a b : strcmp_le a b = true \/ strcmp_le b a = true.
Proof.
  revert b. induction a as [|x a IH]; intros [|y b]; cbn; auto. rewrite (Z.eqb_sym y x). destruct (Z.eqb_spec x y); [apply IH|]. lia.
Qed.

#[local] Instance compare_mdio_total : Total compare_mdio_address.
Proof.
  intros a b. unfold compare_mdio_address. rewrite (Z.eqb_sym (mc_phy_addr b)). destruct (Z.eqb_spec (mc_phy_addr a) (mc_phy_addr b)); [apply strcmp_total|]. lia.
Qed.

Lemma mdio_table_perm l k : l ≡ₚ k -> mdio_table_ok l -> mdio_table_ok k.
Proof. intros Hp [Hn Ha Hm Hv]. constructor; [|by rewrite <- Hp..]. unfold alen in *. by rewrite <- (Permutation_length Hp). Qed.

(** The profiles listed in a directory, as the medium is at the start. *)
Definition stored_profile (x : X) (dir fn : chars) : Prop :=
  exists e, (within dir (fname e), is_dir e) ∈ entries x dir /\ profile_of (nowx x) dir e fn.

(** A table that holds what is stored, or nothing. *)
Definition mdio_of_files (x : X) (allowed : bool) (table : list mdio_phy_config_t) : Prop :=
  mdio_table_ok table /\ Forall (loaded_mdio (nowx x) [fst mdio_dir_paths; snd mdio_dir_paths]) table /\
  (table = [] \/ allowed = true /\ forall dir fn, dir ∈ [fst mdio_dir_paths; snd mdio_dir_paths] -> stored_profile x dir fn -> in_mdio_table fn table).

(** A table of the embedded defaults, as a first start makes it where nothing is stored. *)
Definition mdio_of_defaults (ready : X -> bool) (defaults : list default_json_file_t) (x : X) (table : list mdio_phy_config_t) : Prop :=
  (ready x = true -> forall dir fn, dir ∈ [fst mdio_dir_paths; snd mdio_dir_paths] -> ~ stored_profile x dir fn) /\
  exists t, default_mdio_table defaults [] = Some t /\ table = merge_sort compare_mdio_address t.

Lemma mdio_of_nothing x allowed : mdio_of_files x allowed [].
Proof. split_and!; [by constructor; try constructor|by constructor|by left]. Qed.

Lemma load_mdio_table_run (ready : X -> bool) defaults (fuel : nat) allowed first x : DIR_MAX < Z.of_nat fuel ->
  runs (load_mdio_table ready defaults fuel allowed first) x (fun o x' => possible x' = possible x /\ exists table, o = Some table /\
    alen table <= MDIO_CFG_MAX_DEVICES /\ Sorted compare_mdio_address table /\
    (mdio_of_files x allowed table /\ (ready x = true -> table = [] \/ primary_loaded x (fst mdio_dir_paths) table) \/ first = true /\ allowed = true /\ mdio_of_defaults ready defaults x table)).
Proof.
  intros Hf. unfold load_mdio_table. apply runs_bind, runs_get.
  apply runs_bind. apply (runs_mono _ _ (fun o x' => exists s, o = Some s /\ quietx x x' /\ mdio_of_files x allowed (if ml_failed s then [] else ml_table s) /\
    (ml_failed s = false -> allowed = true) /\ (ml_files_seen s = false -> ml_table s = []) /\
    (ml_failed s = false -> ready x = true -> primary_loaded x (fst mdio_dir_paths) (ml_table s) /\ mdio_read x (snd mdio_dir_paths) s))).
  { destruct (ready x && allowed) eqn:E.
    - apply andb_prop in E as [_ ->]. eapply runs_mono; [by apply load_mdio_run|]. intros ? x' (s & -> & Q & Hok & Hld & Hseen & Hread).
      exists s. split_and!; [done..| |done|done|auto]. destruct (ml_failed s); [apply mdio_of_nothing|]. split_and!; [done..|]. right. split; [done|].
      destruct (Hread eq_refl) as [R1%primary_read R2]. intros dir fn Hdir (e & He & Hpr).
      apply elem_of_cons in Hdir as [-> |Hdir]; [by apply (R1 e He)|]. apply list_elem_of_singleton in Hdir as ->. by apply (R2 e He).
    - apply runs_ret. eexists. split; [done|]. split; [apply quiet_refl|]. cbn [ml_failed ml_table ml_files_seen].
      destruct allowed; cbn [negb]; (split_and!; [apply mdio_of_nothing|done|done|]); [|done]. rewrite andb_true_r in E. congruence. }
  intros ? x' (s & -> & Q & Hfiles & Hallowed & Hseen & Hread). apply runs_ret. split; [apply Q|]. eexists. split; [done|].
  split; [|split; [apply Sorted_merge_sort, _|]]; rewrite ?sorted_alen.
  - destruct (_ && first); [|destruct (ml_failed s); [done|apply Hfiles]].
    destruct (default_mdio_table _ _) as [t|] eqn:Et; [|done]. destruct (ml_failed s) eqn:Ef; [done|]. eapply default_mdio_bounded; [|done]. apply Hfiles.
  - destruct (negb (ml_files_seen s) && negb (ml_failed s) && first) eqn:E.
    + bsimp. rewrite Hseen by done. destruct (default_mdio_table defaults []) as [t|] eqn:Et; [|left; split; [apply mdio_of_nothing|by left]].
      match goal with H : ml_failed s = false |- _ => rewrite H in *; specialize (Hread eq_refl); specialize (Hallowed eq_refl) end.
      right. split_and!; [done|done|]. split; [|by exists t]. intros Hr. destruct (Hread Hr) as [R1%primary_read R2]. intros dir fn Hdir (e & He & Hpr).
      assert (in_mdio_table fn (ml_table s)) as (c & Hin & _).
      { apply elem_of_cons in Hdir as [-> |Hdir]; [by apply (R1 e He)|]. apply list_elem_of_singleton in Hdir as ->. by apply (R2 e He). }
      rewrite Hseen in Hin by done. by apply not_elem_of_nil in Hin.
    + left. pose proof (merge_sort_Permutation compare_mdio_address (if ml_failed s then [] else ml_table s)) as Hp. split.
      * destruct Hfiles as (Hok & Hld & Hall). split_and!; [eapply mdio_table_perm; [symmetry; exact Hp|done]|by rewrite Hp|].
        destruct Hall as [Hnil|[Ha Hall]]; [left; by rewrite Hnil|]. right. split; [done|]. intros dir fn Hdir Hst.
        destruct (Hall dir fn Hdir Hst) as (c & Hin & Hc). exists c. split; [by rewrite Hp|done].
      * intros Hr. destruct (ml_failed s); [by left|right]. destruct (Hread eq_refl Hr) as [R1 _]. intros e fn He Hpr.
        destruct (R1 e fn He Hpr) as (c & Hin & Hc). exists c. split; [by rewrite Hp|done].
Qed.

(** C3: MDIO fails closed.  Every start loads the table without changing the
    medium, at most eight configurations in the order of their addresses.  No
    address and no name (in either case) is in it twice, each configuration passes
    the checks and is what a profile of the two directories describes; and either
    every profile stored in those directories has its configuration in the table or
    the table is empty, as it is when the preparations failed.  The one exception is
    a first start that was allowed and met no profile: its table is that of the
    embedded defaults, which are taken as they are. *)
Theorem mdio_fails_closed (ready : X -> bool) defaults (fuel : nat) allowed first x : DIR_MAX < Z.of_nat fuel ->
  runs (load_mdio_table ready defaults fuel allowed first) x (fun o x' => possible x' = possible x /\ exists table, o = Some table /\
    alen table <= MDIO_CFG_MAX_DEVICES /\ Sorted compare_mdio_address table /\
    (mdio_of_files x allowed table \/ first = true /\ allowed = true /\ mdio_of_defaults ready defaults x table)).
Proof.
  intros Hf. eapply runs_mono; [by apply load_mdio_table_run|]. intros o x' (Hp & table & -> & Hn & Hs & Ht). split; [done|].
  exists table. split_and!; [done..|]. destruct Ht as [[Ht _]|Ht]; auto.
Qed.
End loads.

(** ** Concrete runs *)

Definition demo_phy_text : chars := lit "{`name`:`phy0`,`phy_addr`:1,`reg_count`:6,`policy`:`whitelist`,`write_allow_regs`:[4]}".
Definition demo_mdio_file : chars := lit "1:/config/mdio/phy0/phy0.json".
Definition demo_flat_file : chars := lit "1:/configs/mdio/sw.json".

(** One bundle in the primary directory and a flat file in the other. *)
Definition demo_store (flat : chars) : mem_fs :=
  MemFs [{[demo_mdio_file := demo_phy_text; demo_flat_file := flat]}]
    {[lit "1:/config"; lit "1:/config/mdio"; lit "1:/config/mdio/phy0"; lit "1:/configs"; lit "1:/configs/mdio"]} ∅ ∅.
Definition demo_sw_text : chars := lit "{`name`:`sw`,`phy_addr`:0,`reg_count`:32,`policy`:`blacklist`}".

Definition demo_load (flat : chars) : option (list mdio_phy_config_t) :=
  fst (load_mdio_table (fun _ => true) [] 100 true false (demo_store flat)).

(** Both are loaded, by address; one that is broken, or has an address a second
    time, empties the table. *)
Example mdio_loading_runs :
  option_map (map mc_phy_addr) (demo_load demo_sw_text) = Some [0; 1] /\ demo_load (lit "{`name`:`sw`") = Some [] /\
  demo_load (lit "{`name`:`sw`,`phy_addr`:1,`reg_count`:32,`policy`:`blacklist`}") = Some [].
Proof. vm_compute. repeat split; reflexivity. Qed.

(** Where nothing is stored, a first start takes the defaults and a later one nothing. *)
Example mdio_first_start_runs :
  let defaults := [DefaultFile (lit "sw.json") demo_sw_text] in
  let load first := option_map (map mc_phy_addr) (fst (load_mdio_table (fun _ => true) defaults 100 true first (MemFs [∅] ∅ ∅ ∅))) in
  load true = Some [0] /\ load false = Some [].
Proof. vm_compute. split; reflexivity. Qed.

Lemma mdio_fails_closed_witness : exists table,
  fst (load_mdio_table (fun _ => true) [] (Z.to_nat 65537) true false (demo_store demo_sw_text)) = Some table /\
  in_mdio_table (lit "phy0/phy0.json") table.
Proof.
  destruct (@mdio_fails_closed mem_fs m_states m_entries m_object m_scan mem_fatfs mem_laws (fun _ => true) [] (Z.to_nat 65537) true false
    (demo_store demo_sw_text) ltac:(rewrite Z2Nat.id; done)) as (_ & table & Ht & _ & _ & [(_ & _ & Hall)|[[=] _]]).
  exists table. split; [exact Ht|]. destruct Hall as [Hnil|[_ Hall]].
  - exfalso. subst table.
    assert (option_map length (fst (load_mdio_table (fun _ : mem_fs => true) [] (Z.to_nat 65537) true false (demo_store demo_sw_text))) = Some 2%nat) as Hne
      by (vm_compute; reflexivity).
    rewrite Ht in Hne. discriminate Hne.
  - apply (Hall (fst mdio_dir_paths)); [by left|]. exists (FileInfo (lit "phy0") true). split; [decided|]. apply (pr_bundle _ _ (FileInfo (lit "phy0") true)); [done| |].
    + split; vm_compute; reflexivity.
    + exists demo_phy_text. vm_compute. reflexivity.
Defined.
