(* ===== verification/ConfigStoreSaves.v ===== *)
(** * ConfigStoreSaves: a saved MDIO profile is read back

    The text of a save passes the version gate in its layout and is parsed as the
    configuration that was saved, and the file of the device holds it when the save
    reports success.  From there the loading loop of a start takes it up, unless
    another profile has its bundle, name or address: a save goes to the bundle named
    for the device and leaves a file it was loaded from where it is. *)
From stdpp Require Import prelude gmap.
From Stdlib Require Import ZArith Lia.
From Stdlib Require String.
Import String.StringSyntax.
From S2P Require Import Prelude Text Platform I2cDevices ConfigValidate JsonReader JsonGrammar JsonObjects ProfileCodec ProfileText ProfileFormat ProfileMembers ProfileRoundTrip ProfileSafety ProfileConfigs LegacyCodec LegacyRoundTrip ConfigNetwork FatFs FatFsMem ConfigFiles ConfigFilesSafety ConfigStore ConfigStoreSafety.
Local Open Scope Z_scope.

(** ** The version gate on the newer layout *)

(** Once the version is known, members of other names leave it. *)
Lemma version_fold_seen ms s : vs_seen s = true -> Forall (fun m => streq m.1 (lit "schema_version") = false) ms ->
  exists s', version_fold ms s = Some s' /\ vs_seen s' = true /\ vs_n s' = vs_n s.
Proof.
  intros Hs Hms. revert s Hs. induction Hms as [|m ms Hm Hms IH]; intros s Hs; [by exists s|]. cbn [version_fold]. unfold version_step. rewrite Hm.
  destruct (IH (VersionScan (vs_seen s) (if streq m.1 (lit "resources") || streq m.1 (lit "transport") || streq m.1 (lit "protocol") || streq m.1 (lit "id")
    then true else vs_modern s) (vs_n s)) Hs) as (s' & -> & H1 & H2). by exists s'.
Qed.

Lemma profile_names a : Forall (fun m => alen m.1 < 64) (profile_members a) /\
  exists ms, profile_members a = (lit "schema_version", lit "2") :: ms /\ Forall (fun m => streq m.1 (lit "schema_version") = false) ms.
Proof.
  unfold profile_members, optional. cbn [app]. split; [|eexists; split; [reflexivity|]]; destruct (truth _), (truth _); cbn [app];
    repeat apply List.Forall_cons; try apply List.Forall_nil; reflexivity.
Qed.

Lemma profile_gate a : writable a -> alen (profile_text a ++ [10]) <= BVSTK_PROFILE_JSON_MAX ->
  bvstk_device_profile_version (Some ((profile_text a ++ [10]) ++ [0])) = (BVSTK_OK, 2).
Proof.
  intros W Hl. pose proof (profile_json a W) as Hj. pose proof (json_text_chars _ _ Hj) as Hch.
  assert (Forall char_byte (profile_text a ++ [10])) as Hall by (apply Forall_app; split; [done|decided]).
  destruct (profile_names a) as (Hn & ms & Hms & Hrest).
  destruct (version_fold_seen ms (VersionScan true false 2) eq_refl Hrest) as (s & Hf & Hs & Hv).
  rewrite (version_members _ (profile_members a) (profile_text a) s).
  - rewrite Hs, Hv. reflexivity.
  - apply Forall_app. split; [by apply char_bytes|decided].
  - rewrite cstr_terminated by by apply chars_clean. split; [done|]. exists [], [10]. split; [done|]. split; [constructor|].
    split; [by repeat constructor|]. split; [exact Hj|done].
  - apply (obj_text 15); [lia|by repeat constructor..|by apply profile_members_plain].
  - by apply char_bytes.
  - done.
  - rewrite Hms. cbn [version_fold]. unfold version_step. cbn [fst snd].
    change (streq (lit "schema_version") (lit "schema_version")) with true. cbv iota. cbn [vs_seen].
    change (number (Some (lit "2")) 0xFFFFFFFF) with (Some 2). cbv iota. exact Hf.
Qed.

(** ** The text of a save *)

(** What comes back, with the strings and identifiers of a device that has them. *)
Definition comes_back (c c' : mdio_phy_config_t) : Prop := saved_phy c c' /\ (pf_version (mc_profile c) <> 0 -> saved_mdio c c').

Lemma saved_mdio_phy c c' : saved_mdio c c' -> comes_back c c'.
Proof. intros H. split; [|done]. by destruct H. Qed.

Lemma mdio_profile_read c cap t :
  mdio_config_sized c -> mdio_rules_typed c -> profile_storable (mc_profile c) (mc_reg_count c) ->
  bvstk_device_profile_format_mdio (Some c) (Some cap) = (BVSTK_OK, t) ->
  exists c', bvstk_mdio_config_parse (Some (t ++ [0])) = (BVSTK_OK, Some c') /\ saved_mdio c c'.
Proof.
  intros Hs Ht Hst Hf. destruct (mdio_profile_roundtrip c cap t Hs Ht Hst Hf) as (c' & Hp & Hsv). exists c'. split; [|done].
  unfold bvstk_device_profile_format_mdio in Hf. destruct (bvstk_mdio_config_validate (Some c)) eqn:Ev; try done. apply mdio_validate_wf in Ev; [|done].
  apply format_ok in Hf as (-> & Hid & Hpr & Hlen); [|destruct (wf_reg_count _ Ev); cbn; lia].
  unfold bvstk_mdio_config_parse. by rewrite (profile_gate _ (mdio_writable c Hs Ht Ev Hst Hid Hpr) Hlen).
Qed.

Lemma mdio_json_read c t :
  mdio_config_sized c -> mdio_rules_typed c -> profile_storable (mc_profile c) (mc_reg_count c) ->
  save_text (pf_version (mc_profile c)) bvstk_device_profile_format_mdio bvstk_mdio_config_format c = Some t ->
  exists c', bvstk_mdio_config_parse (Some (t ++ [0])) = (BVSTK_OK, Some c') /\ comes_back c c'.
Proof.
  intros Hs Ht Hst. unfold save_text. destruct (bvstk_device_profile_format_mdio _ _) as [st t1] eqn:Ef. destruct st; try done.
  - intros [= <-]. destruct (mdio_profile_read c _ _ Hs Ht Hst Ef) as (c' & Hp & Hc). exists c'. split; [done|by apply saved_mdio_phy].
  - destruct (Z.eqb_spec (pf_version (mc_profile c)) 0) as [Hz|]; [|done]. destruct (bvstk_mdio_config_format _ _) as [st t2] eqn:Eg.
    destruct st; try done. intros [= <-]. destruct (mdio_legacy_roundtrip c (BVSTK_PROFILE_JSON_MAX + 1) t2 Hs Ht ltac:(lia) Eg) as (c' & Hp & Hc). by exists c'.
Qed.

(** ** The name of the file *)

(** The check of a path reads no further than its NUL. *)
Lemma path_valid_same a b : cstr a = cstr b -> memchr0 a I2C_CFG_FILE_NAME_MAX = memchr0 b I2C_CFG_FILE_NAME_MAX ->
  bvstk_device_profile_path_valid (Some a) = bvstk_device_profile_path_valid (Some b).
Proof.
  intros Hc Hm. assert (strlen a = strlen b) as Hn by (unfold strlen; by rewrite Hc).
  assert (forall i, 0 <= i < strlen b -> a.[i] = b.[i]) as Hg.
  { intros i Hi. rewrite <- (proj1 (cstr_chars a i ltac:(lia))), <- (proj1 (cstr_chars b i Hi)). by rewrite Hc. }
  assert (forall k, 0 <= k -> k + 5 <= strlen b -> json_at a k = json_at b k) as Hj by (intros k H0 H5; unfold json_at; by rewrite !Hg by lia).
  unfold bvstk_device_profile_path_valid. rewrite Hm, Hn, Hc. destruct (_ || has_dotdot _) eqn:E; [done|].
  assert (6 <= strlen b) as H6 by (bsimp; lia). clear E.
  assert (path_scan a (strlen b) = path_scan b (strlen b)) as ->.
  { unfold path_scan. apply for_loop_ext. intros i t Hi. by rewrite Hg by lia. }
  destruct (path_scan b (strlen b)) as [slash [res|]] eqn:Es; [done|]. apply path_scan_spec in Es; [|lia].
  destruct (slash =? 0) eqn:E0; bsimp; [by rewrite Hj by lia|]. destruct Es as [[? _]|(Hk & _)]; [done|].
  rewrite (for_find_ext _ _ _ (fun i => b.[i] =? 46)) by (intros i Hi; by rewrite Hg by lia).
  destruct (for_find _ _ _); [done|]. pose proof (strlen_drop a (slash + 1) ltac:(lia)) as La. pose proof (strlen_drop b (slash + 1) ltac:(lia)) as Lb.
  pose proof (cstr_drop a (slash + 1) ltac:(lia)) as Ca. pose proof (cstr_drop b (slash + 1) ltac:(lia)) as Cb.
  unfold strcaseeq. rewrite La, Lb, Ca, Cb, Hc, Hn. destruct (bool_decide _); [done|].
  destruct (strlen b - (slash + 1) =? slash + 5) eqn:El; bsimp; [|done].
  rewrite (for_find_ext _ _ _ (fun i => negb (tolower (b.[i]) =? tolower ((drop (Z.to_nat (slash + 1)) b).[i])))).
  2: { intros i Hi. rewrite !aget_drop by lia. by rewrite !Hg by lia. }
  destruct (for_find _ _ _); [done|]. unfold json_at. rewrite !aget_drop by lia. by rewrite !Hg by lia.
Qed.

Lemma memchr0_here l rest n : alen l < n -> memchr0 (l ++ 0 :: rest) n = true.
Proof.
  intros Hn. unfold memchr0. apply existsb_exists. exists 0. split; [|done]. apply list_elem_of_In. unfold prefix, alen in *.
  replace (Z.to_nat n) with (length l + S (Z.to_nat n - length l - 1))%nat by lia. rewrite take_app_add. cbn [take]. apply elem_of_app. right. by left.
Qed.

Lemma cstr_no_nul l : clean (cstr l).
Proof. unfold clean. induction l as [|c l IH]; [done|]. cbn. destruct (c =? 0) eqn:E; [done|]. cbn. by rewrite E, IH. Qed.

(** The name a save gives a profile. *)
Lemma profile_file_relative name file_name fn : profile_file name file_name = Some fn -> clean fn /\ relative_ok fn.
Proof.
  unfold profile_file. assert (forall fn, clean fn -> path_valid fn = true -> clean fn /\ relative_ok fn) as Hok.
  { intros f Hc Hv. split; [done|]. split; [|done]. unfold path_valid, bvstk_device_profile_path_valid in Hv.
    destruct (memchr0 (cz f) I2C_CFG_FILE_NAME_MAX) eqn:Em; [|done]. apply memchr0_strlen in Em. unfold strlen, cz in Em.
    by rewrite cstr_terminated in Em. }
  assert (match canonical_profile_name name I2C_CFG_FILE_NAME_MAX with Some f => Some f | None => if file_name.[0] =? 0 then None else Some (cstr file_name) end = Some fn -> clean fn) as Hcl.
  { unfold canonical_profile_name. destruct (_ || _).
    - destruct (file_name.[0] =? 0); [done|]. intros [= <-]. apply cstr_no_nul.
    - intros [= <-]. apply clean_app; [apply cstr_no_nul|]. apply (clean_app [47]); [done|]. apply clean_app; [apply cstr_no_nul|done]. }
  destruct (match canonical_profile_name _ _ with Some _ => _ | None => _ end) as [f|]; [|done].
  destruct (path_valid f) eqn:Ev; [|done]. intros [= <-]. by apply Hok; [apply Hcl|].
Qed.

(** A configuration keeps its validity with the name of its file. *)
Lemma named_valid fn c : clean fn -> relative_ok fn -> bvstk_mdio_config_validate (Some c) = BVSTK_OK ->
  bvstk_mdio_config_validate (Some (named_mdio fn c)) = BVSTK_OK.
Proof.
  intros Hc [Hl Hv]. unfold bvstk_mdio_config_validate.
  change (mc_file_name (named_mdio fn c)) with (file_field fn). change (mc_name (named_mdio fn c)) with (mc_name c).
  assert (bvstk_device_profile_path_valid (Some (file_field fn)) = true) as ->.
  { rewrite <- Hv. unfold path_valid. assert (file_field fn = fn ++ 0 :: fill (47 - alen fn) 0) as ->.
    { unfold file_field, cbuf, prefix, I2C_CFG_FILE_NAME_MAX, fill, alen in *. rewrite take_ge by lia.
      replace (Z.to_nat (48 - Z.of_nat (length fn))) with (S (Z.to_nat (47 - Z.of_nat (length fn)))) by lia. done. }
    apply path_valid_same; unfold cz; [by rewrite !cstr_terminated|by rewrite !memchr0_here]. }
  cbn [negb]. rewrite andb_false_r, orb_false_r. destruct (negb (safe_name (mc_name c) MDIO_CFG_NAME_MAX false)) eqn:E1.
  { cbn [orb]. done. }
  cbn [orb]. destruct (negb (_ =? 0) && negb (bvstk_device_profile_path_valid _)); [done|]. cbn [orb]. exact (fun H => H).
Qed.

Lemma mdio_parse_valid text c : bvstk_mdio_config_parse text = (BVSTK_OK, Some c) -> bvstk_mdio_config_validate (Some c) = BVSTK_OK.
Proof.
  unfold bvstk_mdio_config_parse. destruct text as [t|]; [|done]. destruct (bvstk_device_profile_version _) as [st v]. destruct st; try done.
  destruct (v =? 2).
  - unfold bvstk_device_profile_parse_mdio. destruct (parse _ _) as [p|]; [|by intros [= -> ?]].
    destruct (bvstk_mdio_config_validate (Some (mdio_of_parts p))) eqn:E; intros [= <-]. exact E.
  - destruct (parse_mdio_legacy _) as [c'|] eqn:E; [|done]. intros [= <-]. unfold parse_mdio_legacy in E.
    destruct (expect _ _); [|done]. destruct (items _ _ _ _ _) as [[s p]|]; [|done].
    match type of E with (if ?a || ?b || ?v then _ else _) = _ => destruct (a || b || v) eqn:Eb; [done|]; injection E as <-; apply orb_false_iff in Eb as [_ Eb] end.
    apply negb_false_iff in Eb. by apply bool_decide_eq_true in Eb.
Qed.

Lemma primary_path fn : relative_ok fn -> fst (profile_paths MDIO_CFG_SUBDIR_NAME fn) = within (fst mdio_dir_paths) fn.
Proof.
  intros [Hl _]. unfold I2C_CFG_FILE_NAME_MAX, alen in Hl. unfold profile_paths, build_cfg_path. cbn [fst].
  assert (length (within MDIO_CFG_SUBDIR_NAME fn) = 5 + length fn)%nat as Hlen by reflexivity.
  assert (prefix 95 (within MDIO_CFG_SUBDIR_NAME fn) = within MDIO_CFG_SUBDIR_NAME fn) as -> by (unfold prefix; apply take_ge; lia).
  assert (cfg_suffix CONFIG_DIR_PRIMARY (within MDIO_CFG_SUBDIR_NAME fn) = within CONFIG_DIR_PRIMARY (within MDIO_CFG_SUBDIR_NAME fn)) as ->.
  { change (prefix 159 (within CONFIG_DIR_PRIMARY (within MDIO_CFG_SUBDIR_NAME fn)) = within CONFIG_DIR_PRIMARY (within MDIO_CFG_SUBDIR_NAME fn)).
    unfold prefix. apply take_ge. change (7 + length (within MDIO_CFG_SUBDIR_NAME fn) <= Z.to_nat 159)%nat. lia. }
  unfold build_flash_path. rewrite (proj2 (Z.leb_gt _ _)); [reflexivity|]. unfold alen.
  change (Z.of_nat (length QSPI_ROOT) + Z.of_nat (7 + length (within MDIO_CFG_SUBDIR_NAME fn)) + 2 < 160). change (Z.of_nat (length QSPI_ROOT)) with 3. lia.
Qed.

(** ** The save *)

Section saves.
Context {X : Type} (possible : X -> list disk) (entries : X -> chars -> gset entry) (object : X -> Z -> option fobj)
  (scan : X -> Z -> option scan_t) `{FS : FatFs X} `{HL : !FatFsLaws possible entries object scan}.

Local Abbreviation nowx := (now possible).
Local Abbreviation quietx := (quiet possible entries scan).
Local Abbreviation evolve := (evolves possible).

Lemma ensure_dir_run path x : runs (ensure_dir_exists path) x (fun _ x' => quietx x x').
Proof.
  unfold ensure_dir_exists. apply runs_bind. eapply runs_mono; [apply (mkdir_law possible entries object scan)|]. intros r x1 H. by apply runs_ret.
Qed.

Lemma ensure_parent_run path x : runs (ensure_device_parent path) x (fun _ x' => quietx x x').
Proof.
  unfold ensure_device_parent. repeat (case_match; try (apply runs_ret, quiet_refl)). apply ensure_dir_run.
Qed.

Lemma save_profile_run path t x : runs (save_profile path t) x (fun ok x' =>
  evolve (held path t (recoverable path (nowx x)) (nowx x)) x x' /\ (ok = true -> file (nowx x') path = Some t)).
Proof.
  unfold save_profile. apply runs_bind. eapply runs_mono; [apply ensure_parent_run|]. intros made x1 Q.
  pose proof (quiet_now _ _ _ _ _ Q) as E. assert (evolve (held path t (recoverable path (nowx x)) (nowx x)) x x1) as H1 by (apply evolves_same, Q).
  destruct made; [|by apply runs_ret]. eapply runs_mono; [apply (write_device_file_run possible entries object scan)|].
  intros ok x2 [H2 Hok]. split; [|done]. rewrite E in H2. by eapply medium_trans.
Qed.

(** The text of a save in the file of its device. *)
Definition mdio_path (fn : chars) : chars := fst (profile_paths MDIO_CFG_SUBDIR_NAME fn).

(** ** Loading it again *)

Local Abbreviation primary := (fst mdio_dir_paths) (only parsing).
Local Abbreviation storedx := (stored_profile possible entries).

(** No configuration of the table has the bundle, the name or the address. *)
Definition apart (fn : chars) (c : mdio_phy_config_t) (table : list mdio_phy_config_t) : Prop :=
  Forall (fun c0 => same_file (mc_file_name c0) fn = false /\ strcaseeq (mc_name c0) (mc_name c) = false /\ mc_phy_addr c0 <> mc_phy_addr c) table.

(** The medium tells what the entry is and gives its file. *)
Definition answers (y : X) (e : FILINFO) (fn : chars) : Prop :=
  fst (profile_candidate primary e y) <> Unreadable /\
  fst (read_file_to_buf (within primary fn) (BVSTK_PROFILE_JSON_MAX + 1) (snd (profile_candidate primary e y))) <> None.

(** No other file of the directory stands for the same bundle. *)
Definition sole_file (y : X) (fn : chars) : Prop := forall fn', is_Some (file (nowx y) (within primary fn')) ->
  file_field fn' = file_field fn \/ same_file (file_field fn') fn = true -> fn' = fn.

(** The step of the loading loop that meets the profile appends the saved
    configuration, unless another has its bundle, name or address, the table is full
    or the medium fails; and a start that does not turn MDIO off has it in its table. *)
Definition read_back (y : X) (fn : chars) (c c' : mdio_phy_config_t) : Prop :=
  (forall e s, profile_of (nowx y) primary e fn -> answers y e fn -> alen (ml_table s) < MDIO_CFG_MAX_DEVICES -> apart fn c (ml_table s) ->
     runs (load_mdio_entry primary e s) y (fun r _ => r = (false, MdioLoad (ml_table s ++ [named_mdio fn c']) (ml_failed s) true))) /\
  (forall ready defaults (fuel : nat) allowed first, ready y = true -> DIR_MAX < Z.of_nat fuel -> storedx y primary fn -> sole_file y fn ->
     runs (load_mdio_table ready defaults fuel allowed first) y (fun o _ => exists table, o = Some table /\
       (table = [] \/ named_mdio fn c' ∈ table))).

Lemma entry_read_back y fn t c c' e s : clean fn -> file (nowx y) (within primary fn) = Some t ->
  bvstk_mdio_config_parse (Some (cz t)) = (BVSTK_OK, Some c') -> cstr (mc_name c') = cstr (mc_name c) -> mc_phy_addr c' = mc_phy_addr c ->
  profile_of (nowx y) primary e fn -> answers y e fn -> alen (ml_table s) < MDIO_CFG_MAX_DEVICES -> apart fn c (ml_table s) ->
  runs (load_mdio_entry primary e s) y (fun r _ => r = (false, MdioLoad (ml_table s ++ [named_mdio fn c']) (ml_failed s) true)).
Proof.
  intros Hcl Hfile Hparse Hname Haddr Hp [A1 A2] Hroom Hap. unfold load_mdio_entry. apply runs_bind.
  pose proof (candidate_run possible entries object scan primary e y) as Hcand. unfold runs in Hcand |- * at 1.
  destruct (profile_candidate primary e y) as [r y1]. cbn [fst snd] in *. destruct Hcand as (Q & Hrel & Hof).
  destruct (Hof fn Hp) as [-> | ->]; [done|]. specialize (Hrel fn eq_refl). cbn zeta. cbn [ml_table ml_failed ml_files_seen].
  assert (forall P : mdio_phy_config_t -> bool, (forall c0, c0 ∈ ml_table s -> P c0 = false) -> existsb P (ml_table s) = false) as Hnone.
  { intros P HP. apply not_true_iff_false. rewrite existsb_exists. intros (c0 & Hin%list_elem_of_In & E). by rewrite HP in E. }
  unfold apart in Hap. rewrite Forall_forall in Hap. rewrite Hnone by (intros c0 Hin; by destruct (Hap c0 Hin)).
  assert (alen (within primary fn) < 200) as Hlen.
  { destruct Hrel as [Hl _]. unfold I2C_CFG_FILE_NAME_MAX in Hl.
    unfold within. rewrite alen_app, alen_cons. change (alen primary) with 14. lia. }
  rewrite !(proj2 (Z.leb_gt _ _)) by first [exact Hroom|exact Hlen|apply Hrel]. cbn [orb]. apply runs_bind.
  pose proof (read_file_run possible entries object scan (within primary fn) (BVSTK_PROFILE_JSON_MAX + 1) y1) as Hread. unfold runs in Hread |- * at 1.
  destruct (read_file_to_buf _ _ y1) as [o y2]. cbn [fst snd] in *. destruct Hread as (_ & Hread). destruct o as [t'|]; [|done].
  specialize (Hread t' eq_refl). rewrite (quiet_now _ _ _ _ _ Q), Hfile in Hread. injection Hread as <-. rewrite Hparse.
  rewrite Hnone.
  2: { intros c0 Hin. destruct (Hap c0 Hin) as (_ & Hn & Ha). unfold strcaseeq in Hn |- *. rewrite Hname, Hn, Haddr. by apply Z.eqb_neq. }
  rewrite bool_decide_eq_true_2 by (apply named_valid; [done|done|by eapply mdio_parse_valid]). by apply runs_ret.
Qed.

Lemma table_read_back y fn t c' ready defaults (fuel : nat) allowed first : file (nowx y) (within primary fn) = Some t ->
  bvstk_mdio_config_parse (Some (cz t)) = (BVSTK_OK, Some c') ->
  ready y = true -> DIR_MAX < Z.of_nat fuel -> storedx y primary fn -> sole_file y fn ->
  runs (load_mdio_table ready defaults fuel allowed first) y (fun o _ => exists table, o = Some table /\ (table = [] \/ named_mdio fn c' ∈ table)).
Proof.
  intros Hfile Hparse Hr Hf Hst Hsole. eapply runs_mono; [by apply (load_mdio_table_run possible entries object scan)|].
  intros o y' (_ & table & -> & _ & _ & Ht). exists table. split; [done|]. destruct Ht as [[_ Hl]|(_ & _ & Hno & _)].
  2: { exfalso. apply (Hno Hr primary fn); [by left|exact Hst]. }
  destruct (Hl Hr) as [Hnil|Hl']; [by left|right]. destruct Hst as (e & He & Hp). destruct (Hl' e fn He Hp) as (c & Hin & Hld & Hc).
  destruct Hld as (dir & fn' & t' & tmp & ->%list_elem_of_singleton & Hf' & Hp' & ->).
  assert (fn' = fn) as ->. { apply Hsole; [by eexists|exact Hc]. }
  rewrite Hfile in Hf'. injection Hf' as <-. rewrite Hparse in Hp'. by injection Hp' as <-.
Qed.

End saves.

(** ** Concrete runs *)

Definition demo_running : store_t := Store true true zero_network [] [].

(** The device of [demo_port] is saved to its bundle, and the next start finds it. *)
Definition demo_saved : bool * mem_fs := save_mdio_device_locked (fun _ => true) demo_running (Some demo_port) (demo_store demo_sw_text).

Example saving_runs :
  fst demo_saved = true /\ profile_file (mc_name demo_port) (mc_file_name demo_port) = Some (lit "phy0/phy0.json") /\
  option_map (map (fun c => (mc_phy_addr c, autopoll_list c))) (fst (load_mdio_table (fun _ => true) [] 100 true false (snd demo_saved))) =
    Some [(0, []); (1, [1; 4; 2])].
Proof. vm_compute. repeat split; reflexivity. Qed.

(** A device that was loaded from a bundle of another name is saved to its own; the
    old file stays, and the next load finds the device twice and turns MDIO off. *)
Definition demo_renamed : mem_fs :=
  MemFs [{[lit "1:/config/mdio/foo/foo.json" := demo_phy_text]}]
    {[lit "1:/config"; lit "1:/config/mdio"; lit "1:/config/mdio/foo"]} ∅ ∅.
Definition demo_load_from (x : mem_fs) : option (list mdio_phy_config_t) := fst (load_mdio_table (fun _ => true) [] 100 true false x).
Definition demo_resaved : bool * mem_fs :=
  match demo_load_from demo_renamed with
  | Some (c :: _) => save_mdio_device_locked (fun _ => true) demo_running (Some c) demo_renamed
  | _ => (false, demo_renamed)
  end.

Example saving_twice :
  option_map (map mc_phy_addr) (demo_load_from demo_renamed) = Some [1] /\ fst demo_resaved = true /\
  demo_load_from (snd demo_resaved) = Some [].
Proof. vm_compute. repeat split; reflexivity. Qed.

