(* ===== verification/ConfigStart.v ===== *)
(** * ConfigStart: a start of the configuration store ends and overwrites no profile

    The start-up task writes defaults, copies older layouts and recovers backups.
    Where the calls of [f_stat] succeed it does so only under names that are free:
    whatever stage the power fails at, every JSON file that was there keeps its
    text.  Every loop of it ends.  Histories of saves, recoveries and such starts,
    each of which a power cut may end, keep every profile. *)
From stdpp Require Import prelude gmap sorting.
From Stdlib Require Import ZArith Lia.
From Stdlib Require String.
Import String.StringSyntax.
From S2P Require Import Prelude Text Platform I2cDevices ConfigValidate JsonReader ProfileCodec LegacyCodec LegacyRoundTrip ConfigNetwork FatFs FatFsMem ConfigFiles ConfigFilesSafety ConfigStore ConfigStoreSafety ConfigStoreSaves.
Local Open Scope Z_scope.

Lemma runs_both {S A} (m : ST S A) (s : S) (Q R : A -> S -> Prop) : runs m s Q -> runs m s R -> runs m s (fun a s' => Q a s' /\ R a s').
Proof. by split. Qed.

(** Every JSON file of [d] is in [d'], the same. *)
Definition kept (d d' : disk) : Prop := forall path, profile_name path -> is_Some (file d path) -> file d' path = file d path.

Lemma kept_refl d : kept d d.
Proof. by intros path. Qed.

Lemma kept_trans d1 d2 d3 : kept d1 d2 -> kept d2 d3 -> kept d1 d3.
Proof. intros H12 H23 path Hp Hs. rewrite H23; [auto|done|]. by rewrite H12. Qed.

Lemma steadier_kept d d' : steadier d d' -> kept d d'.
Proof. intros H path Hp. by apply H. Qed.

Lemma profile_key p q : key p = key q -> profile_name q -> profile_name p.
Proof. intros H Hq. unfold profile_name in *. by rewrite (ends_with_key _ _ _ H). Qed.

Section start.
Context {X : Type} (possible : X -> list disk) (entries : X -> chars -> gset entry) (object : X -> Z -> option fobj)
  (scan : X -> Z -> option scan_t) `{FS : FatFs X} `{HL : !FatFsLaws possible entries object scan}.

Local Abbreviation nowx := (now possible).
Local Abbreviation quietx := (quiet possible entries scan).
Local Abbreviation evolve := (evolves possible).
Local Abbreviation framex := (frame entries scan).
Local Abbreviation changesx := (changes possible entries scan).

(** [f_stat] finds out whether a file is there. *)
Definition stat_answers : Prop := forall path x, runs (f_stat path) x (fun r _ =>
  (fst r = FR_OK \/ fst r = FR_NO_FILE \/ fst r = FR_NO_PATH) /\ (fst r = FR_OK -> snd r = true -> file (nowx x) path = None)).

(** A step that overwrites no profile and leaves the scans, [skip] apart, where they are. *)
Definition calm (skip : option Z) (x x' : X) : Prop :=
  evolve (kept (nowx x)) x x' /\
  forall h s, Some h <> skip -> scan x h = Some s -> exists s', scan x' h = Some s' /\ sc_pos s' = sc_pos s.

Lemma calm_trans skip x1 x2 x3 : calm skip x1 x2 -> calm skip x2 x3 -> calm skip x1 x3.
Proof.
  intros [E1 C1] [E2 C2]. pose proof (evolves_now _ _ _ _ E1 (kept_refl _)) as H12. split.
  - eapply medium_trans; [exact E1|]. eapply evolves_mono; [exact E2|]. intros d Hd. by eapply kept_trans.
  - intros h s Hh Hs. destruct (C1 h s Hh Hs) as (s' & Hs' & Hp). destruct (C2 h s' Hh Hs') as (s'' & Hs'' & Hp'). exists s''. split; [done|congruence].
Qed.

Lemma calm_skip skip x x' : calm None x x' -> calm skip x x'.
Proof. intros [E C]. split; [done|]. intros h s _. by apply C. Qed.

Lemma steady_calm skip x x' : steady possible entries scan skip x x' -> calm skip x x'.
Proof.
  intros (E & _ & C). split; [eapply evolves_mono; [exact E|apply steadier_kept]|]. intros h s Hh Hs. destruct (C h s Hh Hs) as (s' & ? & _ & ? & _). eauto.
Qed.

Lemma quiet_calm skip x x' : quietx x x' -> calm skip x x'.
Proof. intros H. apply calm_skip, steady_calm. by eapply quiet_steady. Qed.

Lemma calm_refl skip x : calm skip x x.
Proof. apply quiet_calm, quiet_refl. Qed.

(** ** Writing a file that is not there *)

(** Files change at [names] only. *)
Definition alters (names : list chars) (x x' : X) : Prop :=
  evolve (fun d => forall q, Forall (fun n => key n <> key q) names -> file d q = file (nowx x) q) x x' /\ framex names x x'.

Lemma alters_trans names x1 x2 x3 : alters names x1 x2 -> alters names x2 x3 -> alters names x1 x3.
Proof.
  intros [E1 F1] [E2 F2]. split; [|by eapply frame_trans]. pose proof (evolves_now _ _ _ _ E1 ltac:(done)) as H12.
  eapply medium_trans; [exact E1|]. eapply evolves_mono; [exact E2|]. intros d Hd q Hq. rewrite Hd by done. by apply H12.
Qed.

Lemma changes_alters p names x x' : p ∈ names -> changesx p x x' -> alters names x x'.
Proof.
  intros Hp [E F]. split; [|eapply frame_more; [|exact F]; by intros n Hn%list_elem_of_singleton; subst]. eapply evolves_mono; [exact E|].
  intros d Hd q Hq. apply (file_same p); [done|]. rewrite Forall_forall in Hq. by apply Hq.
Qed.

Lemma unlink_alters p names x : p ∈ names -> runs (f_unlink p) x (fun _ x' => alters names x x').
Proof. intros Hp. eapply runs_mono; [apply (unlink_changes possible entries object scan)|]. intros r x'. by apply changes_alters. Qed.

Lemma rename_alters a b x : key a <> key b -> runs (f_rename a b) x (fun _ x' => alters [a; b] x x').
Proof.
  intros Hne. eapply runs_mono; [by apply (rename_run possible entries object scan)|]. intros r x' (F & E & _). split; [|done].
  eapply evolves_mono; [exact E|]. intros d (c & [->|(_ & _ & Hm)]) q Hq; [done|]. apply Forall_cons in Hq as [Ha Hq]. apply Forall_cons in Hq as [Hb _].
  by apply (moving_file _ _ _ _ _ _ Hm); apply not_eq_sym.
Qed.

Lemma write_alters path data x : runs (write_file_atomic path data) x (fun _ x' => alters [tmp_of path; path] x x').
Proof.
  assert (tmp_of path ∈ [tmp_of path; path] /\ path ∈ [tmp_of path; path]) as [Ht Hp] by (split; [by left|by right; left]).
  assert (alters [tmp_of path; path] x x) as Hrefl by (split; [by apply evolves_same|apply frame_refl]).
  unfold write_file_atomic. fold (tmp_of path). destruct (_ <=? _); [by apply runs_ret|].
  apply (create_run possible entries object scan); intros f x1 H1 Ef; rewrite Ef; cbn [negb]; [|apply runs_ret; by apply (changes_alters (tmp_of path))].
  intros Hobj. apply runs_bind. eapply runs_mono; [by apply (write_law possible entries object scan)|]. intros w x2 [H2 Hobj2].
  apply runs_bind. eapply runs_mono; [by apply (sync_law possible entries object scan)|]. intros sy x3 [H3 Hobj3].
  apply runs_bind. eapply runs_mono; [by apply (close_law possible entries object scan)|]. intros cl x4 [H4 _].
  pose proof (changes_trans _ _ _ _ _ _ _ H1 (changes_trans _ _ _ _ _ _ _ H2 (changes_trans _ _ _ _ _ _ _ H3 H4))) as H14.
  apply (changes_alters _ _ _ _ Ht) in H14. destruct (_ || _ || _ || _).
  { apply runs_bind. eapply runs_mono; [by apply (unlink_alters (tmp_of path))|]. intros u x5 H5. apply runs_ret. by eapply alters_trans. }
  apply runs_bind. eapply runs_mono; [by apply (unlink_alters path [tmp_of path; path])|]. intros u x5 H5. pose proof (alters_trans _ _ _ _ H14 H5) as H15.
  apply runs_bind. eapply runs_mono; [apply rename_alters, tmp_key|]. intros r x6 H6. pose proof (alters_trans _ _ _ _ H15 H6) as H16.
  destruct (fr_ok r); cbn [negb]; [by apply runs_ret|]. apply runs_bind. eapply runs_mono; [by apply (unlink_alters (tmp_of path))|].
  intros u' x7 H7. apply runs_ret. by eapply alters_trans.
Qed.

(** A profile must not be there; other names may. *)
Lemma write_calm path data x : (profile_name path -> file (nowx x) path = None) -> runs (write_file_atomic path data) x (fun _ x' => calm None x x').
Proof.
  intros Hno. eapply runs_mono; [apply write_alters|]. intros ok x' [E [_ C]]. split.
  - eapply evolves_mono; [exact E|]. intros d Hd q Hq [c Hc]. apply Hd. apply List.Forall_cons; [|apply List.Forall_cons; [|constructor]].
    + intros H. pose proof (tmp_last path) as H1. rewrite H, (profile_last q Hq) in H1. done.
    + intros H. unfold file in *. rewrite <- H, Hno in Hc; [done|]. by eapply profile_key.
  - intros h s _ Hs. destruct (C h s Hs) as (s' & ? & _ & ? & _). eauto.
Qed.

Lemma copy_calm src path n x : (profile_name path -> file (nowx x) path = None) -> runs (copy_file_atomic src path n) x (fun _ x' => calm None x x').
Proof.
  intros Hno. unfold copy_file_atomic. apply runs_bind. eapply runs_mono; [apply (read_file_run possible entries object scan)|]. intros t x1 [Q _].
  destruct t as [t|]; [|by apply runs_ret, quiet_calm]. eapply runs_mono; [apply write_calm; by rewrite (quiet_now _ _ _ _ _ Q)|].
  intros ok x2 C. exact (calm_trans _ _ _ _ (quiet_calm _ _ _ Q) C).
Qed.

(** ** Looking before writing *)

Hypothesis answers : stat_answers.

Lemma file_exists_calm path x : runs (file_exists path) x (fun e x' => quietx x x' /\ (e = false -> file (nowx x) path = None)).
Proof.
  unfold file_exists. apply runs_bind. eapply runs_mono; [apply runs_both; [apply (stat_law possible entries object scan)|apply answers]|].
  intros r x1 ((Q & Hr) & [Ha|Ha] & Hd); apply runs_ret; (split; [done|]).
  - rewrite Ha. cbn [fr_ok andb]. intros H. apply Hd; [done|]. by destruct (snd r).
  - intros _. by destruct Ha as [Ha|Ha]; rewrite Ha in Hr.
Qed.

Lemma dir_exists_calm path x : runs (dir_exists path) x (fun _ x' => quietx x x').
Proof. unfold dir_exists. apply runs_bind. eapply runs_mono; [apply (stat_law possible entries object scan)|]. intros r x1 [Q _]. by apply runs_ret. Qed.
(** 0 only when the name is free. *)
Lemma present_calm path x : runs (profile_file_present path) x (fun p x' => quietx x x' /\ (p = 0 -> file (nowx x) path = None)).
Proof. eapply runs_mono; [apply (present_run possible entries object scan)|]. by intros p x' (Q & H & _). Qed.

Lemma quiet_free path x x' : quietx x x' -> file (nowx x) path = None -> file (nowx x') path = None.
Proof. intros Q. by rewrite (quiet_now _ _ _ _ _ Q). Qed.

(** ** Scans that write *)

(** Computations with fuel that end in a result, calmly. *)
Definition ends {A} (m : ST X (option A)) (x : X) (I : A -> Prop) : Prop := runs m x (fun o x' => exists a, o = Some a /\ calm None x x' /\ I a).

Lemma ends_runs {A} (m : ST X (option A)) x (I : A -> Prop) :
  ends m x I -> runs m x (fun o x' => exists a, o = Some a /\ calm None x x' /\ I a).
Proof. done. Qed.

Lemma ends_ret {A} (a : A) x (I : A -> Prop) : I a -> ends (st_ret (Some a)) x I.
Proof. intros H. apply runs_ret. exists a. split_and!; [done|apply calm_refl|done]. Qed.

Lemma calm_then {A B} (m : ST X A) (k : A -> ST X (option B)) x (P : A -> X -> Prop) (I : B -> Prop) :
  runs m x (fun a x' => calm None x x' /\ P a x') -> (forall a x', P a x' -> ends (k a) x' I) -> ends (st_bind m k) x I.
Proof.
  intros Hm Hk. apply runs_bind. eapply runs_mono; [exact Hm|]. intros a x1 [C1 HP]. eapply runs_mono; [by apply ends_runs, Hk|].
  intros o x2 (b & -> & C2 & HI). exists b. split_and!; [done|by eapply calm_trans|done].
Qed.

(** The same after a step that only reads. *)
Lemma quiet_then {A B} (m : ST X A) (k : A -> ST X (option B)) x (P : A -> Prop) (I : B -> Prop) :
  runs m x (fun a x' => quietx x x' /\ P a) -> (forall a x', quietx x x' -> P a -> ends (k a) x' I) -> ends (st_bind m k) x I.
Proof.
  intros Hm Hk. apply (calm_then _ _ _ (fun a x' => quietx x x' /\ P a)); [|intros a x' [Q H]; by apply Hk].
  eapply runs_mono; [exact Hm|]. intros a x' [Q H]. split; [by apply quiet_calm|done].
Qed.

Lemma ends_then {A B} (m : ST X (option A)) (k : A -> ST X (option B)) x (I : A -> Prop) (J : B -> Prop) :
  ends m x I -> (forall a x', I a -> ends (k a) x' J) -> ends (st_bind m (fun o => match o with Some a => k a | None => st_ret None end)) x J.
Proof.
  intros Hm Hk. apply runs_bind. eapply runs_mono; [by apply ends_runs, Hm|]. intros o x1 (a & -> & C1 & HI). eapply runs_mono; [by apply ends_runs, Hk|].
  intros o x2 (b & -> & C2 & HJ). exists b. split_and!; [done|by eapply calm_trans|done].
Qed.

Definition any {A} (_ : A) : Prop := True.

Lemma ends_next x (I : option FRESULT -> Prop) : I None -> ends (scan_next : ST X _) x I.
Proof. apply ends_ret. Qed.

Lemma scan_loop_ends (fuel : nat) h body sc x : (forall e x1, ends (body e) x1 any) -> scan x h = Some sc -> DIR_MAX - sc_pos sc < Z.of_nat fuel ->
  runs (scan_loop fuel h body) x (fun o x' => exists r, o = Some r /\ calm (Some h) x x').
Proof.
  intros Hbody. revert sc x. induction fuel as [|fuel IH]; intros sc x Hs Hf.
  { pose proof (position_law possible entries object scan _ _ _ Hs). lia. }
  cbn [scan_loop]. apply runs_bind. eapply runs_mono; [by apply (readdir_law possible entries object scan)|]. intros r x1 (Hp & _ & Hother & Hr).
  assert (calm (Some h) x x1) as C1.
  { split; [by apply (evolves_same possible)|]. intros h' s' Hh Hs'. exists s'. by rewrite Hother by congruence. }
  destruct (fr_ok (fst r)) eqn:Er; cbn [negb orb]; [|by apply runs_ret; eauto]. apply fr_ok_true in Er. specialize (Hr Er). cbn beta zeta in Hr.
  destruct (bool_decide (fname (snd r) = [])); [by apply runs_ret; eauto|]. destruct Hr as [_ Hs1].
  apply runs_bind. eapply runs_mono; [apply ends_runs, Hbody|]. intros ? x2 (next & -> & C2 & _). pose proof (calm_trans _ _ _ _ C1 (calm_skip (Some h) _ _ C2)) as C12.
  destruct next as [res|]; [by apply runs_ret; eauto|]. destruct C2 as [_ C2]. destruct (C2 h _ ltac:(done) Hs1) as (s2 & Hs2 & Hp2). cbn [sc_pos] in Hp2.
  eapply runs_mono; [apply (IH s2 x2); [done|lia]|]. intros o x3 (r' & -> & C3). exists r'. split; [done|]. by eapply calm_trans.
Qed.

(** A handle that is new is not missed. *)
Lemma calm_open h x x1 x2 : calm None x x1 -> scan x h = None -> calm (Some h) x1 x2 -> calm None x x2.
Proof.
  intros C1 Hn C2. destruct (calm_trans (Some h) _ _ _ (calm_skip _ _ _ C1) C2) as [E C]. split; [done|]. intros h' s _ Hs. apply C; [|done]. congruence.
Qed.

Lemma close_calm h x : runs (f_closedir h) x (fun _ x' => calm (Some h) x x').
Proof.
  eapply runs_mono; [apply (closedir_law possible entries object scan)|]. intros r x' (P & _ & S). split; [by apply (evolves_same possible)|].
  intros h' s' Hh Hs'. exists s'. by rewrite S by congruence.
Qed.

Lemma scan_dir_ends (fuel : nat) path body x : DIR_MAX < Z.of_nat fuel -> (forall e x1, ends (body e) x1 any) -> ends (scan_dir fuel path body) x any.
Proof.
  intros Hf Hbody. unfold scan_dir. unfold ends. apply runs_bind. eapply runs_mono; [apply (opendir_law possible entries object scan)|].
  intros r x1 (Q & Hok & _). assert (forall b, runs (st_ret (Some b)) x1 (fun o x' => exists a : bool, o = Some a /\ calm None x x' /\ any a)) as Hret
    by (intros b; apply runs_ret; exists b; split_and!; [done|by apply quiet_calm|done]).
  destruct (fst r) eqn:Er; auto. destruct (Hok eq_refl) as [Hnew Hs]. apply runs_bind.
  eapply runs_mono; [apply (scan_loop_ends fuel (snd r) body (Scan path 0 (entries x path))); [done|done|cbn [sc_pos]; lia]|].
  intros ? x2 (res & -> & C2). apply runs_bind. eapply runs_mono; [apply close_calm|]. intros c x3 C3. apply runs_ret. eexists. split_and!; [done| |done].
  eapply calm_open; [by apply quiet_calm|exact Hnew|]. by eapply calm_trans.
Qed.

(** The loops over the directories of profiles. *)
Lemma load_loop_ends {A} (fuel : nat) h failed (body : FILINFO -> A -> ST X (bool * A)) (I : A -> Prop) s sc x :
  (forall s, I s -> I (failed s)) -> (forall e s x1, I s -> runs (body e s) x1 (fun r x2 => quietx x1 x2 /\ I (snd r))) ->
  I s -> scan x h = Some sc -> DIR_MAX - sc_pos sc < Z.of_nat fuel ->
  runs (load_loop fuel h failed body s) x (fun o x' => exists s', o = Some s' /\ calm (Some h) x x' /\ I s').
Proof.
  intros Hfail Hbody. revert s sc x. induction fuel as [|fuel IH]; intros s sc x HI Hs Hf.
  { pose proof (position_law possible entries object scan _ _ _ Hs). lia. }
  cbn [load_loop]. apply runs_bind. eapply runs_mono; [by apply (readdir_law possible entries object scan)|]. intros r x1 (Hp & _ & Hother & Hr).
  assert (calm (Some h) x x1) as C1.
  { split; [by apply (evolves_same possible)|]. intros h' s' Hh Hs'. exists s'. by rewrite Hother by congruence. }
  destruct (fr_ok (fst r)) eqn:Er; cbn [negb orb]; [|apply runs_ret; eexists; split_and!; auto]. apply fr_ok_true in Er. specialize (Hr Er). cbn beta zeta in Hr.
  destruct (bool_decide (fname (snd r) = [])); [by apply runs_ret; eauto|]. destruct Hr as [_ Hs1].
  apply runs_bind. eapply runs_mono; [by apply Hbody|]. intros next x2 [Q2 HI2]. pose proof (quiet_calm None _ _ Q2) as C2.
  pose proof (calm_trans _ _ _ _ C1 (calm_skip (Some h) _ _ C2)) as C12.
  destruct (fst next); [by apply runs_ret; eauto|]. destruct C2 as [_ C2]. destruct (C2 h _ ltac:(done) Hs1) as (s2 & Hs2 & Hp2). cbn [sc_pos] in Hp2.
  eapply runs_mono; [apply (IH (snd next) s2 x2); [done|done|lia]|]. intros o x3 (s' & -> & C3 & HI3). exists s'. split_and!; [done| |done]. by eapply calm_trans.
Qed.
(** ** The steps of a start *)

Lemma write_then {B} path data (k : bool -> ST X (option B)) x (I : B -> Prop) :
  (profile_name path -> file (nowx x) path = None) -> (forall ok x', ends (k ok) x' I) -> ends (st_bind (write_file_atomic path data) k) x I.
Proof.
  intros Hno Hk. apply (calm_then _ _ _ (fun _ _ => True)); [|auto]. eapply runs_mono; [by apply write_calm|]. by intros ok x' C.
Qed.

Lemma copy_then {B} src path n (k : bool -> ST X (option B)) x (I : B -> Prop) :
  (profile_name path -> file (nowx x) path = None) -> (forall ok x', ends (k ok) x' I) -> ends (st_bind (copy_file_atomic src path n) k) x I.
Proof.
  intros Hno Hk. apply (calm_then _ _ _ (fun _ _ => True)); [|auto]. eapply runs_mono; [by apply copy_calm|]. by intros ok x' C.
Qed.

Lemma parent_then {B} path (k : bool -> ST X (option B)) x (I : B -> Prop) :
  (forall ok x', quietx x x' -> ends (k ok) x' I) -> ends (st_bind (ensure_device_parent path) k) x I.
Proof.
  intros Hk. apply (quiet_then _ _ _ (fun _ => True)); [|auto]. eapply runs_mono; [apply (ensure_parent_run possible entries object scan)|]. by intros ok x' Q.
Qed.

Lemma mkdir_then {B} path (k : bool -> ST X (option B)) x (I : B -> Prop) :
  (forall ok x', quietx x x' -> ends (k ok) x' I) -> ends (st_bind (ensure_dir_exists path) k) x I.
Proof.
  intros Hk. apply (quiet_then _ _ _ (fun _ => True)); [|auto]. eapply runs_mono; [apply (ensure_dir_run possible entries object scan)|]. by intros ok x' Q.
Qed.

Lemma migrate_entry_ends dir e x : ends (migrate_entry dir e) x any.
Proof.
  unfold migrate_entry. destruct (dot_name _); [by apply ends_next|]. destruct (is_dir e).
  - destruct (_ || _); [by apply ends_next|]. eapply quiet_then; [apply present_calm|]. intros c x1 Q1 H1. cbn beta.
    destruct (Z.eqb_spec c 0) as [Hc|]; cbn [negb]; [|by apply ends_next]. eapply quiet_then; [apply present_calm|]. intros l x2 Q2 _. cbn beta.
    destruct (0 <? l); cbn [negb]; [|by apply ends_next]. apply copy_then.
    + intros _. eapply quiet_free; [exact Q2|]. eapply quiet_free; [exact Q1|]. by apply H1.
    + intros ok x3. by destruct ok; apply ends_ret.
  - destruct (_ || _ || _ || _); [by apply ends_next|]. destruct (200 <=? _); [by apply ends_next|].
    eapply quiet_then; [apply present_calm|]. intros c x1 Q1 H1. cbn beta. destruct (Z.eqb_spec c 0) as [Hc|]; cbn [negb]; [|by apply ends_next].
    destruct (200 <=? _); [by apply ends_ret|]. apply parent_then. intros parent x2 Q2. destruct parent; cbn [negb]; [|by apply ends_ret]. apply copy_then.
    + intros _. eapply quiet_free; [exact Q2|]. eapply quiet_free; [exact Q1|]. by apply H1.
    + intros ok x3. by destruct ok; apply ends_ret.
Qed.

Lemma migrate_mdio_entry_ends path destination e x : ends (migrate_mdio_entry path destination e) x any.
Proof.
  unfold migrate_mdio_entry. destruct (_ || _ || _); [by apply ends_next|]. destruct (_ || _); [by apply ends_ret|].
  eapply quiet_then; [apply file_exists_calm|]. intros there x1 Q1 H1. cbn beta. destruct there; [by apply ends_next|]. apply copy_then.
  - intros _. eapply quiet_free; [exact Q1|]. by apply H1.
  - intros ok x3. by destruct ok; apply ends_ret.
Qed.

Lemma copy_entry_ends from to e x : ends (copy_entry from to e) x any.
Proof.
  unfold copy_entry. destruct (_ || _ || _); [by apply ends_next|]. destruct (_ || _); [by apply ends_next|].
  eapply quiet_then; [apply file_exists_calm|]. intros there x1 Q1 H1. cbn beta. destruct there; [by apply ends_next|]. apply copy_then.
  - intros _. eapply quiet_free; [exact Q1|]. by apply H1.
  - intros ok x3. by apply ends_next.
Qed.

Section fuel.
Context (fuel : nat) (enough : DIR_MAX < Z.of_nat fuel).

Lemma recover_ends dir x : ends (recover_device_configs fuel dir) x any.
Proof.
  unfold ends. eapply runs_mono; [by apply (recover_run possible entries object scan)|]. intros ? x' (ok & -> & S & _). exists ok.
  split_and!; [done| |done]. by eapply steady_calm.
Qed.

Lemma migrate_layout_ends dir x : ends (migrate_profile_layout fuel dir) x any.
Proof. apply scan_dir_ends; [done|]. intros. apply migrate_entry_ends. Qed.

Lemma migrate_dirs_ends dirs destination x : ends (migrate_mdio_dirs fuel dirs destination) x any.
Proof.
  revert x. induction dirs as [|d dirs IH]; intros x; [by apply ends_ret|]. cbn [migrate_mdio_dirs].
  eapply ends_then; [apply scan_dir_ends; [done|]; intros; apply migrate_mdio_entry_ends|]. intros ok x' _. destruct ok; [apply IH|by apply ends_ret].
Qed.

Lemma migrate_mdio_ends destination x : ends (migrate_mdio_configs fuel destination) x any.
Proof. unfold migrate_mdio_configs. apply mkdir_then. intros made x' _. destruct made; [apply migrate_dirs_ends|by apply ends_ret]. Qed.

Lemma copy_fallback_ends to from x : ends (copy_fallback fuel to from) x any.
Proof.
  unfold copy_fallback. eapply (quiet_then _ _ _ (fun _ => True)).
  { eapply runs_mono; [apply dir_exists_calm|]. by intros ? x' Q. }
  intros primary x1 Q1 _. eapply (quiet_then _ _ _ (fun _ => True)).
  { destruct primary; [by apply runs_ret; split; [apply quiet_refl|]|]. eapply runs_mono; [apply dir_exists_calm|]. by intros ? x' Q. }
  intros mk x2 Q2 _. eapply (quiet_then _ _ _ (fun _ => True)).
  { destruct mk; [|by apply runs_ret; split; [apply quiet_refl|]]. eapply runs_mono; [apply (ensure_dir_run possible entries object scan)|]. by intros ? x' Q. }
  intros ? x3 Q3 _. eapply (quiet_then _ _ _ (fun _ => True)).
  { eapply runs_mono; [apply dir_exists_calm|]. by intros ? x' Q. }
  intros there x4 Q4 _. destruct there; [|by apply ends_ret].
  eapply ends_then; [apply scan_dir_ends; [done|]; intros; apply copy_entry_ends|]. intros ok x' _. by apply ends_ret.
Qed.

Lemma and_also_ends (a b : ST X (option bool)) x : ends a x any -> (forall x', ends b x' any) -> ends (and_also a b) x any.
Proof. intros Ha Hb. unfold and_also. eapply ends_then; [exact Ha|]. intros ok x' _. destruct ok; [apply Hb|by apply ends_ret]. Qed.

(** ** Defaults *)

Lemma profile_exists_run path x : runs (profile_exists path) x (fun e x' => quietx x x' /\ (e = false -> file (nowx x) path = None)).
Proof.
  unfold profile_exists. apply runs_bind. eapply runs_mono; [apply present_calm|]. intros here x1 [Q1 H1].
  assert (forall b, here = 0 -> runs (st_ret b) x1 (fun e x' => quietx x x' /\ (e = false -> file (nowx x) path = None))) as Hret
    by (intros b Hh; apply runs_ret; split; [done|auto]).
  destruct (Z.eqb_spec here 0) as [Hh|]; cbn [negb]; [|by apply runs_ret].
  destruct (200 <=? _); [by apply Hret|]. destruct (last_slash path) as [[parent leaf]|]; [|by apply Hret].
  destruct (bundle_of path) as [[[dir bundle] ?]|]; [|by apply Hret]. cbv zeta.
  match goal with |- context [st_bind (profile_file_present ?alt) ?k] => set (rest := k) end.
  assert (forall alt, runs (st_bind (profile_file_present alt) rest) x1 (fun e x' => quietx x x' /\ (e = false -> file (nowx x) path = None))) as Hrest.
  { intros alt. apply runs_bind. eapply runs_mono; [apply present_calm|]. intros other x2 [Q2 _]. unfold rest. pose proof (quiet_trans _ _ _ _ _ _ Q1 Q2) as Q12.
    destruct (negb (other =? 0)); [by apply runs_ret|]. destruct (bool_decide (bundle = [])); [apply runs_ret; split; [done|auto]|].
    apply runs_bind. eapply runs_mono; [apply present_calm|]. intros flat x3 [Q3 _]. apply runs_ret. split; [by eapply quiet_trans|auto]. }
  destruct (bool_decide (leaf = lit "profile.json")).
  - destruct (bool_decide (bundle = [])); [by apply Hret|apply Hrest].
  - destruct (_ || _); [by apply Hret|apply Hrest].
Qed.

Lemma install_default_calm subdir d x : runs (install_default subdir d) x (fun _ x' => calm None x x').
Proof.
  unfold install_default. destruct (build_cfg_path _ _ _) as [path path_fb]. destruct (_ || _); [apply runs_ret, calm_refl|].
  apply runs_bind. eapply runs_mono; [apply profile_exists_run|]. intros here x1 [Q1 H1]. destruct here; [by apply runs_ret, quiet_calm|].
  apply runs_bind. eapply runs_mono; [apply profile_exists_run|]. intros there x2 [Q2 _]. pose proof (quiet_trans _ _ _ _ _ _ Q1 Q2) as Q12.
  destruct there; [by apply runs_ret, quiet_calm|]. apply runs_bind. eapply runs_mono; [apply (ensure_parent_run possible entries object scan)|].
  intros parent x3 Q3. pose proof (quiet_trans _ _ _ _ _ _ Q12 Q3) as Q13. destruct parent; [|by apply runs_ret, quiet_calm].
  apply runs_bind. eapply runs_mono; [apply write_calm; intros _; eapply quiet_free; [exact Q13|by apply H1]|]. intros ok x4 C. apply runs_ret.
  exact (calm_trans _ _ _ _ (quiet_calm _ _ _ Q13) C).
Qed.

Lemma install_i2c_calm files x : runs (install_i2c_defaults files) x (fun _ x' => calm None x x').
Proof.
  revert x. induction files as [|d files IH]; intros x; [apply runs_ret, calm_refl|]. cbn [install_i2c_defaults]. apply runs_bind.
  eapply runs_mono; [apply install_default_calm|]. intros r x1 C1. eapply runs_mono; [apply IH|]. intros u x2 C2. exact (calm_trans _ _ _ _ C1 C2).
Qed.

Lemma install_mdio_calm files x : runs (install_mdio_defaults files) x (fun _ x' => calm None x x').
Proof.
  revert x. induction files as [|d files IH]; intros x; [apply runs_ret, calm_refl|]. cbn [install_mdio_defaults]. apply runs_bind.
  eapply runs_mono; [apply install_default_calm|]. intros r x1 C1.
  assert (runs (install_mdio_defaults files) x1 (fun _ x' => calm None x x')) as Hrest
    by (eapply runs_mono; [apply IH|]; intros u x2 C2; exact (calm_trans _ _ _ _ C1 C2)).
  destruct r as [[]|]; [exact Hrest|by apply runs_ret|exact Hrest].
Qed.

(** A calm step that is not counted. *)
Lemma step_then {A B} (m : ST X A) (k : A -> ST X (option B)) x (I : B -> Prop) :
  runs m x (fun _ x' => calm None x x') -> (forall a x', ends (k a) x' I) -> ends (st_bind m k) x I.
Proof. intros Hm Hk. apply (calm_then _ _ _ (fun _ _ => True)); [|auto]. eapply runs_mono; [exact Hm|]. by intros a x' C. Qed.

(** ** The whole task *)

Context (ready : X -> bool) (vTaskDelay : ST X unit).
Context (network : chars) (i2c_files mdio_files : list default_json_file_t).
Hypothesis delay_quiet : forall x, runs vTaskDelay x (fun _ x' => quietx x x').

Lemma wait_mounted_calm n x : runs (wait_mounted ready vTaskDelay n) x (fun _ x' => calm None x x').
Proof.
  revert x. induction n as [|n IH]; intros x; [apply runs_ret, calm_refl|]. cbn [wait_mounted]. apply runs_bind, runs_get.
  destruct (ready x); [apply runs_ret, calm_refl|]. apply runs_bind. eapply runs_mono; [apply delay_quiet|]. intros u x1 Q.
  eapply runs_mono; [apply IH|]. intros v x2 C. exact (calm_trans _ _ _ _ (quiet_calm _ _ _ Q) C).
Qed.

Lemma prepare_network_calm x : runs (prepare_network network) x (fun _ x' => calm None x x').
Proof.
  unfold prepare_network. destruct net_cfg_paths as [path path_fb]. apply runs_bind. eapply runs_mono; [apply file_exists_calm|]. intros here x1 [Q1 H1].
  apply runs_bind. destruct here.
  { apply runs_ret. by apply runs_ret, quiet_calm. }
  eapply runs_mono; [apply file_exists_calm|]. intros there x2 [Q2 _]. pose proof (quiet_trans _ _ _ _ _ _ Q1 Q2) as Q12.
  destruct there; [by apply runs_ret, quiet_calm|]. apply runs_bind. eapply runs_mono; [apply write_calm; intros _; eapply quiet_free; [exact Q12|by apply H1]|].
  intros ok x3 C. apply runs_ret. exact (calm_trans _ _ _ _ (quiet_calm _ _ _ Q12) C).
Qed.

Lemma migrate_network_calm x : runs migrate_network x (fun _ x' => calm None x x').
Proof.
  unfold migrate_network. destruct net_cfg_paths as [path path_fb]. apply runs_bind. eapply runs_mono; [apply file_exists_calm|]. intros here x1 [Q1 H1].
  apply runs_bind. destruct here.
  { apply runs_ret. by apply runs_ret, quiet_calm. }
  eapply runs_mono; [apply file_exists_calm|]. intros there x2 [Q2 _]. pose proof (quiet_trans _ _ _ _ _ _ Q1 Q2) as Q12.
  destruct there; [|by apply runs_ret, quiet_calm]. apply runs_bind. eapply runs_mono; [apply copy_calm; intros _; eapply quiet_free; [exact Q12|by apply H1]|].
  intros ok x3 C. apply runs_ret. exact (calm_trans _ _ _ _ (quiet_calm _ _ _ Q12) C).
Qed.

Lemma prepare_i2c_ends x : ends (prepare_i2c i2c_files fuel) x any.
Proof.
  unfold prepare_i2c. destruct i2c_dir_paths as [path path_fb]. apply mkdir_then. intros _ x1 _. eapply ends_then.
  { apply and_also_ends; [apply recover_ends|]. intros. apply and_also_ends; [apply recover_ends|]. intros.
    apply and_also_ends; [apply migrate_layout_ends|]. intros. apply migrate_layout_ends. }
  intros ok x2 _. apply step_then; [|intros; by apply ends_ret]. destruct ok; [apply install_i2c_calm|apply runs_ret, calm_refl].
Qed.

Lemma prepare_mdio_ends x : ends (prepare_mdio mdio_files fuel) x any.
Proof.
  unfold prepare_mdio. destruct mdio_dir_paths as [path path_fb]. apply (step_then (file_exists mdio_marker)).
  { eapply runs_mono; [apply file_exists_calm|]. intros e x' [Q _]. by apply quiet_calm. }
  intros marked x1. cbv zeta. eapply ends_then.
  { apply and_also_ends; [apply recover_ends|]. intros. apply and_also_ends; [apply recover_ends|]. intros.
    apply and_also_ends; [destruct (negb marked); [apply migrate_mdio_ends|by apply ends_ret]|]. intros.
    apply and_also_ends; [apply migrate_layout_ends|]. intros. apply migrate_layout_ends. }
  intros ok x2 _. apply step_then; [destruct (negb marked && ok); [apply install_mdio_calm|apply runs_ret, calm_refl]|]. intros ok' x3.
  apply step_then; [|intros; by apply ends_ret]. destruct (negb marked && ok'); [|apply runs_ret, calm_refl]. apply write_calm. done.
Qed.

Lemma prepare_ends x : ends (prepare_store ready network i2c_files mdio_files fuel) x any.
Proof.
  unfold prepare_store. apply (step_then (st_get ready)); [apply runs_get, calm_refl|]. intros is_ready x1. destruct is_ready; [|by apply ends_ret].
  apply mkdir_then. intros _ x2 _. apply step_then; [apply prepare_network_calm|]. intros _ x3.
  eapply ends_then; [apply prepare_i2c_ends|]. intros i2c_ok x4 _. eapply ends_then; [apply prepare_mdio_ends|]. intros mdio x5 _.
  apply step_then; [apply migrate_network_calm|]. intros _ x6.
  eapply ends_then; [apply copy_fallback_ends|]. intros _ x7 _. eapply ends_then; [apply copy_fallback_ends|]. intros _ x8 _. by apply ends_ret.
Qed.

(** ** Loading *)

Definition i2c_bounded (s : i2c_load_t) : Prop := alen (il_table s) <= I2C_CFG_MAX_DEVICES.

Lemma load_i2c_entry_run dir fallback e s x : i2c_bounded s -> runs (load_i2c_entry dir fallback e s) x (fun r x' => quietx x x' /\ i2c_bounded (snd r)).
Proof.
  intros Hs. unfold load_i2c_entry. apply runs_bind. eapply runs_mono; [apply (candidate_run possible entries object scan)|].
  intros r x1 (Q1 & _). destruct r as [| |fn]; [by apply runs_ret..|]. destruct (fallback && _); [by apply runs_ret|].
  destruct (_ || _ || _) eqn:E; [by apply runs_ret|]. apply orb_false_iff in E as [E _]. apply orb_false_iff in E as [E _]. bsimp.
  apply runs_bind. eapply runs_mono; [apply (read_file_run possible entries object scan)|]. intros t x2 [Q2 _]. pose proof (quiet_trans _ _ _ _ _ _ Q1 Q2) as Q12.
  destruct t as [t|]; [|by apply runs_ret]. destruct (bvstk_i2c_config_parse_json _) as [st [tmp|]]; [|destruct st; by apply runs_ret].
  destruct st; try by apply runs_ret. destruct (existsb _ _); [by apply runs_ret|]. apply runs_ret. split; [done|]. cbn [snd il_table].
  unfold i2c_bounded. cbn [il_table]. rewrite alen_app. change (alen [named_i2c fn tmp]) with 1. lia.
Qed.

Lemma load_i2c_dir_ends dir fallback s x : i2c_bounded s -> ends (load_i2c_dir fuel dir fallback s) x i2c_bounded.
Proof.
  intros Hs. unfold load_i2c_dir. eapply (quiet_then _ _ _ (fun _ => True)).
  { eapply runs_mono; [apply dir_exists_calm|]. by intros ? x' Q. }
  intros there x1 _ _. destruct there; cbn [negb]; [|by apply ends_ret].
  unfold ends. apply runs_bind. eapply runs_mono; [apply (opendir_law possible entries object scan)|]. intros r x2 (Q & Hok & _).
  destruct (fr_ok (fst r)) eqn:Er; cbn [negb].
  2: { apply runs_ret. eexists. split_and!; [done|by apply quiet_calm|done]. }
  apply fr_ok_true in Er. destruct (Hok Er) as [Hnew Hsc]. apply runs_bind.
  eapply runs_mono; [apply (load_loop_ends fuel (snd r) i2c_fail _ i2c_bounded s (Scan dir 0 (entries x1 dir))); [done| |done|done|cbn [sc_pos]; lia]|].
  { intros e s' x' Hs'. by apply load_i2c_entry_run. }
  intros ? x3 (s' & -> & C & Hs'). apply runs_bind. eapply runs_mono; [apply close_calm|]. intros c x4 C'. apply runs_ret. exists s'. split_and!; [done| |done].
  eapply calm_open; [by apply quiet_calm|exact Hnew|]. exact (calm_trans _ _ _ _ C C').
Qed.

Lemma load_i2c_ends primary fallback x : ends (load_i2c fuel primary fallback) x i2c_bounded.
Proof.
  unfold load_i2c. eapply ends_then; [by apply load_i2c_dir_ends|]. intros s x1 Hs. destruct (il_failed s); [by apply ends_ret|by apply load_i2c_dir_ends].
Qed.

Lemma default_i2c_bounded files table : alen table <= I2C_CFG_MAX_DEVICES -> alen (default_i2c_table files table) <= I2C_CFG_MAX_DEVICES.
Proof.
  revert table. induction files as [|d files IH]; intros table Ht; [done|]. cbn [default_i2c_table]. destruct (Z.leb_spec I2C_CFG_MAX_DEVICES (alen table)); [done|].
  destruct (bvstk_i2c_config_parse_json _) as [st [tmp|]]; destruct st; try by apply IH. apply IH. rewrite alen_app.
  change (alen [named_i2c (df_file_name d) tmp]) with 1. lia.
Qed.

Lemma load_i2c_table_ends allowed x :
  ends (load_i2c_table ready i2c_files fuel allowed) x (fun t => alen t <= I2C_CFG_MAX_DEVICES).
Proof.
  unfold load_i2c_table. apply (step_then (st_get ready)); [apply runs_get, calm_refl|]. intros is_ready x1.
  apply (ends_then _ _ _ i2c_bounded); [destruct (is_ready && allowed); [apply load_i2c_ends|by apply ends_ret]|]. intros s x2 Hs. cbv zeta.
  apply ends_ret. rewrite sorted_alen. unfold i2c_bounded in Hs.
  assert (alen (if il_failed s then [] else il_table s) <= I2C_CFG_MAX_DEVICES) as Ht by (by destruct (il_failed s)).
  destruct (_ && _); [by apply default_i2c_bounded|done].
Qed.

Lemma load_mdio_table_ends allowed first x :
  ends (load_mdio_table ready mdio_files fuel allowed first) x (fun t => alen t <= MDIO_CFG_MAX_DEVICES).
Proof.
  unfold load_mdio_table. apply (step_then (st_get ready)); [apply runs_get, calm_refl|]. intros is_ready x1.
  apply (ends_then _ _ _ (fun s => alen (ml_table s) <= MDIO_CFG_MAX_DEVICES)).
  { destruct (is_ready && allowed); [|by apply ends_ret]. unfold ends. eapply runs_mono; [by apply (load_mdio_run possible entries object scan)|].
    intros ? x' (s & -> & Q & Hok & _). exists s. split_and!; [done|by apply quiet_calm|by destruct Hok]. }
  intros s x2 Hs. cbv zeta. apply ends_ret. rewrite sorted_alen.
  destruct (negb (ml_files_seen s) && negb (ml_failed s) && first).
  - destruct (default_mdio_table _ _) as [t|] eqn:Et; [|done]. destruct (ml_failed s); [done|]. by eapply default_mdio_bounded.
  - by destruct (ml_failed s).
Qed.

(** What a start leaves. *)
Definition started (s : store_t) : Prop :=
  s_ready s = true /\ s_startup_done s = true /\ alen (s_i2c_cfgs s) <= I2C_CFG_MAX_DEVICES /\ alen (s_mdio_cfgs s) <= MDIO_CFG_MAX_DEVICES.

Lemma config_task_ends x : ends (config_task ready vTaskDelay network i2c_files mdio_files fuel) x started.
Proof.
  unfold config_task. apply step_then; [apply wait_mounted_calm|]. intros _ x1. eapply ends_then; [apply prepare_ends|]. intros p x2 _.
  apply (step_then (load_network ready network)).
  { unfold load_network. apply runs_bind, runs_get. apply runs_bind. destruct (ready x2); [|by apply runs_ret; apply runs_ret, calm_refl].
    eapply (runs_mono _ _ (fun _ x' => quietx x2 x')); [|intros t x' Q; by apply runs_ret, quiet_calm].
    assert (forall p x1, runs (let! e := file_exists p in if e then read_file_to_buf p (BVSTK_PROFILE_JSON_MAX + 1) else st_ret None) x1
      (fun _ x' => quietx x1 x')) as Hattempt.
    { intros q x3. apply runs_bind. eapply runs_mono; [apply file_exists_calm|]. intros e x4 [Q _]. destruct e; [|by apply runs_ret].
      eapply runs_mono; [apply (read_file_run possible entries object scan)|]. intros t x5 [Q' _]. exact (quiet_trans _ _ _ _ _ _ Q Q'). }
    unfold read_file_first_available. apply runs_bind. eapply runs_mono; [apply Hattempt|]. intros r x3 Q. destruct r as [t|]; [by apply runs_ret|].
    eapply runs_mono; [apply Hattempt|]. intros r x4 Q'. exact (quiet_trans _ _ _ _ _ _ Q Q'). }
  intros net x3. eapply ends_then; [apply load_i2c_table_ends|]. intros i2c x4 Hi. eapply ends_then; [apply load_mdio_table_ends|]. intros mdio x5 Hm.
  by apply ends_ret.
Qed.
End fuel.

(** C2: A start of the store always ends and overwrites no profile.  Provided that
    [f_stat] tells whether a file is there and that no one else writes to the medium
    during the delays, [config_task] reaches its end whatever the medium holds and
    whichever other call of FatFs fails: it publishes tables that fit their arrays,
    and in every state the medium goes through each JSON file that was there before
    has its old text, under its old name. *)
Theorem start_keeps_profiles (ready : X -> bool) vTaskDelay network i2c_files mdio_files (fuel : nat) x :
  (forall x1, runs vTaskDelay x1 (fun _ x' => quietx x1 x')) -> DIR_MAX < Z.of_nat fuel ->
  runs (config_task ready vTaskDelay network i2c_files mdio_files fuel) x (fun o x' =>
    exists s, o = Some s /\ started s /\ evolve (kept (nowx x)) x x').
Proof.
  intros Hd Hf. eapply runs_mono; [apply ends_runs; by apply config_task_ends|]. intros o x' (s & -> & [E _] & Hs). by exists s.
Qed.
End start.

(** ** Histories *)

Section histories.
Context {X : Type} (possible : X -> list disk) (entries : X -> chars -> gset entry) (object : X -> Z -> option fobj)
  (scan : X -> Z -> option scan_t) `{FS : FatFs X} `{HL : !FatFsLaws possible entries object scan}.

Local Abbreviation nowx := (now possible).

(** The states after any number of saves, recoveries and whole starts, each of
    which a power cut may end; [texts] are those that were saved under [path].  A
    recovery, the first phase of a start, may come in any state; a whole start is
    one that finds the file in its place. *)
Inductive history (path : chars) (texts : chars -> Prop) : disk -> Prop :=
  | hs_first d t : texts t -> recoverable path d = Some t -> history path texts d
  | hs_save x data d : history path texts (nowx x) -> texts data -> passes possible x (write_device_file path data) d -> history path texts d
  | hs_other x path' data d : history path texts (nowx x) -> profile_name path' -> key path' <> key path ->
      passes possible x (write_device_file path' data) d -> history path texts d
  | hs_recovery x fuel dir d : history path texts (nowx x) -> DIR_MAX < Z.of_nat fuel -> passes possible x (recover_device_configs fuel dir) d ->
      history path texts d
  | hs_start x ready vTaskDelay network i2c_files mdio_files (fuel : nat) d : history path texts (nowx x) -> is_Some (file (nowx x) path) ->
      stat_answers possible -> (forall x1, runs vTaskDelay x1 (fun _ x' => quiet possible entries scan x1 x')) -> DIR_MAX < Z.of_nat fuel ->
      passes possible x (config_task ready vTaskDelay network i2c_files mdio_files fuel) d -> history path texts d.

(** C39: Whatever is saved, and whenever the power fails, a profile that was saved
    once is found, in its place or as its backup, with one of the texts that were
    saved under its name, whole.  That goes for saves of this and of other profiles,
    for recoveries in any state, and for whole starts that find the file in its
    place, where [f_stat] tells whether a file is there and no one else writes
    during the delays. *)
Theorem profile_survives path texts d :
  profile_name path -> history path texts d -> exists t, texts t /\ recoverable path d = Some t.
Proof.
  intros Hp. induction 1 as [d t Ht Hd|x data d _ IH Hdata Hpass|x path' data d _ IH Hp' Hne Hpass|x fuel dir d _ IH Hf Hpass
    |x ready delay net i2c mdio fuel d _ IH Hin Ha Hd Hf Hpass]; [eauto|..]; destruct IH as (t & Ht & Hr).
  - pose proof (write_device_file_run possible entries object scan path data x) as [He _].
    destruct (passes_evolves _ _ _ _ _ (conj (or_introl eq_refl) (fun _ _ => eq_refl)) He Hpass) as [[Hd|Hd] _]; [rewrite Hd|]; eauto.
  - pose proof (write_device_file_run possible entries object scan path' data x) as [He _].
    pose proof (passes_evolves _ _ _ _ _ (conj (or_introl eq_refl) (fun _ _ => eq_refl)) He Hpass) as Hd.
    rewrite (other_profile path path' _ _ _ _ Hp Hp' Hne Hd). eauto.
  - pose proof (recover_run possible entries object scan fuel dir x Hf) as (ok & _ & [He _] & _).
    destruct (passes_evolves _ _ _ _ _ (steadier_refl _) He Hpass path Hp) as [-> _]. eauto.
  - pose proof (config_task_ends possible entries object scan Ha fuel Hf ready delay net i2c mdio Hd x) as (s & _ & [He _] & _).
    pose proof (passes_evolves _ _ _ _ _ (kept_refl _) He Hpass path Hp Hin) as Hk. exists t. split; [done|].
    unfold recoverable in *. rewrite Hk. by destruct Hin as [? E]; rewrite E in *.
Qed.
End histories.

(** ** A concrete start *)

Lemma mem_answers : stat_answers m_states.
Proof.
  intros path x. unfold runs. cbn [f_stat mem_fatfs]. unfold m_now. destruct (file (now m_states x) path) eqn:E; cbn [fst snd].
  - split; [by left|done].
  - destruct (bool_decide _); cbn [fst snd]; (split; [auto|done]).
Qed.

Definition demo_default : default_json_file_t :=
  DefaultFile (lit "phy2/phy2.json") (lit "{`name`:`phy2`,`phy_addr`:2,`reg_count`:32,`policy`:`blacklist`}").
Definition demo_network : chars := lit "{`ip`:`10.0.0.2`,`netmask`:`255.0.0.0`,`gateway`:`10.0.0.1`}".
Definition demo_start (fuel : nat) (x : mem_fs) : option store_t * mem_fs :=
  config_task (fun _ => true) (st_ret tt) demo_network [DefaultFile (lit "exp/exp.json") demo_old] [demo_default] fuel x.

(** The first start copies the flat profile of the older directory to a bundle, installs
    the default that is missing, and loads all three devices; the next one finds them
    again, though the older directory is gone. *)
Example start_runs :
  let addresses r := option_map (fun s => map mc_phy_addr (s_mdio_cfgs s)) (fst r) in
  let r1 := demo_start 100 (demo_store demo_sw_text) in
  let r2 := demo_start 100 (snd (f_unlink demo_flat_file (snd r1))) in
  addresses r1 = Some [0; 1; 2] /\ addresses r2 = Some [0; 1; 2] /\
  option_map (fun s => nc_has_ip (s_net_cfg s)) (fst r1) = Some true /\
  file (now m_states (snd r1)) (lit "1:/config/mdio/sw/sw.json") = Some demo_sw_text /\
  file (now m_states (snd r1)) demo_flat_file = Some demo_sw_text.
Proof. vm_compute. repeat split; reflexivity. Qed.

Lemma start_keeps_profiles_witness :
  file (now m_states (snd (demo_start (Z.to_nat 65537) (demo_store demo_sw_text)))) demo_flat_file = Some demo_sw_text.
Proof.
  destruct (@start_keeps_profiles mem_fs m_states m_entries m_object m_scan mem_fatfs mem_laws mem_answers (fun _ => true) (st_ret tt)
    demo_network [DefaultFile (lit "exp/exp.json") demo_old] [demo_default] (Z.to_nat 65537) (demo_store demo_sw_text)) as (s & _ & _ & E).
  - intros x1. apply runs_ret, quiet_refl.
  - rewrite Z2Nat.id; done.
  - pose proof (evolves_now m_states _ _ _ E (kept_refl _)) as K. specialize (K demo_flat_file). unfold demo_start. rewrite K.
    + vm_compute. reflexivity.
    + decided.
    + exists demo_sw_text. vm_compute. reflexivity.
Defined.

(** A save that is cut between its renames, the recovery after it, and a whole start. *)
Definition demo_recovered : mem_fs := snd (recover_device_configs (Z.to_nat 65537) (lit "1:/config/i2c") (demo_medium demo_cut)).
Definition demo_survivor : disk := now m_states (snd (demo_start (Z.to_nat 65537) demo_recovered)).

Lemma profile_survives_witness : exists t, (t = demo_old \/ t = demo_new) /\ recoverable demo_path demo_survivor = Some t.
Proof.
  apply (@profile_survives mem_fs m_states m_entries m_object m_scan mem_fatfs mem_laws demo_path (fun t => t = demo_old \/ t = demo_new) demo_survivor); [done|].
  apply (hs_start m_states m_entries m_scan demo_path _ demo_recovered (fun _ => true) (st_ret tt) demo_network
    [DefaultFile (lit "exp/exp.json") demo_old] [demo_default] (Z.to_nat 65537)); [| |exact mem_answers|intros x1; apply runs_ret, quiet_refl| |].
  - apply (hs_recovery m_states m_entries m_scan demo_path _ (demo_medium demo_cut) (Z.to_nat 65537) (lit "1:/config/i2c")).
    + apply (hs_save m_states m_entries m_scan demo_path _ (demo_medium demo_disk) demo_new); [|by right|].
      * eapply hs_first; [by left|]. vm_compute. done.
      * right. exists (tail (m_states (snd (write_device_file demo_path demo_new (demo_medium demo_disk))))). split; [apply (bool_decide_unpack _); vm_compute; done|].
        apply (bool_decide_unpack _). vm_compute. done.
    + rewrite Z2Nat.id; done.
    + right. exists (tail (m_states demo_recovered)). split; [apply (bool_decide_unpack _); vm_compute; done|]. apply (bool_decide_unpack _). vm_compute. done.
  - exists demo_old. vm_compute. reflexivity.
  - rewrite (Z2Nat.id 65537); done.
  - right. exists (drop (length (m_states demo_recovered)) (m_states (snd (demo_start (Z.to_nat 65537) demo_recovered)))).
    split; [apply (bool_decide_unpack _); vm_compute; done|]. apply (bool_decide_unpack _). vm_compute. done.
Defined.
